(* ===== verification/_CoqProject ===== *)
-Q . S2P
Prelude.v
Icmp.v
Tcp.v
Udp.v
Dns.v
NetFrame.v
Rtc.v
FatCommon.v
FatEntry12.v
Partition.v
BlockDev.v
PortIO.v
Ata.v
Fat12.v
Fat12Table.v
Fat12Chain.v
Fat12Data.v
Fat12Free.v
Fat12Slots.v
Fat12Dir.v
Fat12Create.v
Fat12Delete.v
Fat32.v
Mem.v
X64.v
AgentScheduler.v
KvAllocator.v
Paging.v
PhysMem.v
Pci.v
Nic.v
Board.v
Virtio.v
E1000.v
E1000Card.v
E1000Exchange.v
E1000Net.v
E1000Total.v
E1000Spec.v
NetSpec.v
EchoSpec.v
Shell.v
ShellText.v
ShellReads.v
ShellFiles.v
ShellRemove.v
Vga.v
Keyboard.v
Tensor.v
Syscall.v
TierSelect.v
ContextSwitch.v
Coop.v
Preemptive.v
Ring3Mt.v
Ring3Prog.v
Ring3Session.v
Ring3Pace.v
Ring3Tests.v
Ring3Alone.v
Ring3Solo.v
Ring3SoloTests.v
Ring3Coop.v
Ring3CoopTests.v
Gguf.v
GgufDecode.v
BootFormats.v
BootTasks.v
BootDisk.v
BootKeys.v
