(* ===== verification/Prelude.v ===== *)
(** * A verification of the AgentOS kernel ([src/agentos-kernel/src])

    AgentOS is a small x86-64 kernel in Rust: it drives a few devices (ATA disk,
    PCI bus, CMOS clock, keyboard, text console, network cards), reads and writes
    FAT volumes, schedules kernel and ring-3 tasks, offers ring-3 programs five
    system calls, and loads quantised language models.  This library translates
    that code into executable Rocq functions and proves what it is there to do.

    ** How the code is represented

    - An integer of a Rust type is a [Z]; arithmetic on it is followed by [wrap]
      ([u8], [u16], [u32], [u64]).  The kernel is built with the release profile,
      where overflow wraps.  [usize] indices that only count elements of a list
      are [nat].
    - A byte slice or a [String] is the list of its bytes; an index or a slice
      that Rust would panic on gives [Panic].
    - A call that can fail returns [res]: [Ok], [Err] with the code's own message,
      [Panic], or [Hang] for a loop that used up its fuel.  A method that changes
      state is in the state-and-result monad [M]: what it changed before an early
      return stays changed.
    - A loop over a slice is [for_each] or a fixpoint over the list; a [loop] or
      [while] with no such list has fuel.  Each fuel is justified by a theorem or
      a lemma beside it: CHAIN_FUEL (4098 steps) by [chain_ends_or_cycles] of
      Fat12Chain - a walk over 12-bit entries that is not over by then never
      ends; the polls of Ata and Rtc by the code's own MAX_POLL_ITERATIONS; the
      runs of Ring3Prog, Ring3Session, Ring3SoloTests and Ring3CoopTests by the instruction
      counts their theorems state.
    - Assembly ([switch_to], the ring-3 entry, exit, timer, yield and system-call
      stubs) is a program for the small processor of X64, or of ContextSwitch for
      the switch alone; the machine code the kernel generates for its ring-3
      tests is decoded and run by the same processor.
    - A driver that works through memory, mapped registers, ports and the timer runs
      on any [Machine] (Nic): every access returns a new state, so a device may act
      between any two.  A wait for the device is [until_ticks] with fuel; with a
      timer that ticks, [wait_fuel n] turns are enough for a wait that also makes [n]
      steps of its own (91 ticks, and no more than [BURST] other wake-ups between
      two), and [receive_test_frame_ends] and [network_clients_end] prove that every
      function of both network drivers then returns (the second also that it does not
      panic).
    - Hardware and crates behind the code are parameters with their documented
      behaviour as the laws of a class: the ATA drive (Ata), the PCI host bridge
      (Pci), the clock chip (Rtc), a block device (BlockDev), the page-table
      mapper of the x86_64 crate (Paging, PhysMem).  Each class has a concrete
      instance on which the witnesses are computed.

    ** The parts, file by file

    Shared: Prelude (results, the monad, loops, bytes and words, automation), Mem
    (byte memory), PortIO (ports and bounded polling), BlockDev (what a filesystem
    needs of a disk), X64 (the processor).

    Network, from [net/]: Icmp, Tcp, Udp, Dns (builders and parsers of each
    protocol), NetFrame (whole frames, the reply filter of [e1000.rs], the simulated
    driver of [virtio_net.rs] and [tcpip.rs]).

    Network cards: Nic (the machine a driver runs on, its waits), Board (a machine
    made of RAM, a timer and one device), Virtio ([virtio.rs]), E1000 ([e1000.rs]:
    registers, rings, [arp_resolve]), E1000Net (its clients), E1000Card (what the
    card's manual says it does with its registers and rings, and a network behind it
    that answers each frame), E1000Total (every client returns and none panics),
    E1000Exchange (one question and its answer, step by
    step on the card), E1000Spec and NetSpec (the clients against the card), EchoSpec
    (the TCP connection).

    Storage: Partition ([partition.rs]), Ata ([ata.rs], an instance of BlockDev),
    FatCommon and FatEntry12 (directory entries and long names, [fat_common.rs] and
    the free functions of [fat12.rs]), Fat12 (every method of [fat12.rs]), with its
    theory in Fat12Table (packed entries), Fat12Chain (chains and allocation),
    Fat12Data (contents), Fat12Free (freeing), Fat12Slots and Fat12Dir (directories
    as lists of slots), Fat12Create and Fat12Delete (creation and deletion end to end); Fat32 ([fat32.rs]).

    Shell: Shell (every command of [shell.rs] over the disk, the process table, the KV
    blocks and the tick counter; the network, ring-3, PCI and clock calls are the
    class [Services]; what is printed is recorded as format strings with their
    arguments), ShellText (words, addresses, paths), ShellReads (which lines can
    write), ShellFiles and ShellRemove (mounting again: [touch], then [cat]
    or [rm]).

    Devices and memory: Rtc ([rtc.rs]), Pci ([pci.rs]), Vga ([vga_buffer.rs]), Keyboard
    ([keyboard.rs]), Paging and PhysMem ([memory/]), KvAllocator
    ([memory/kv_allocator.rs]).

    Tasks, from [scheduler/], [ring3.rs], [syscall.rs] and [interrupts.rs]: AgentScheduler
    (the process table), TierSelect (priority tiers), ContextSwitch, Coop and
    Preemptive (kernel tasks), Ring3Mt (preempted ring-3 tasks and the timer
    handler), Syscall (the five calls and the confinement of their callers),
    Ring3Prog (the generated machine code and the program header), Ring3Session
    (programs under the scheduler, instruction by instruction), Ring3Pace (how far each
    task gets when the timer keeps a pace), Ring3Tests (the multitasking self-tests of
    [ring3.rs]), Ring3Alone (what a program does between two
    interrupts, as if it were alone), Ring3Solo and Ring3SoloTests (one program, its
    system calls, and the single-program self-tests), Ring3Coop and Ring3CoopTests (the
    tasks that yield of their own accord, and their self-tests).

    Models: Gguf ([gguf_loader.rs]: parsing, half precision, the quantised formats),
    GgufDecode (what the decoders compute), Tensor ([tensor_engine.rs] on binary32).

    Boot ([main.rs], the self-tests of [kernel_main], in its order): BootFormats (tests of
    the formats), BootTasks (process table, KV blocks, system calls), BootDisk (disk,
    FAT12 and the shell), BootKeys (keyboard and shell).

    ** How they fit together

    Ata discharges the laws of BlockDev, against which Fat12 and Fat32 are proved;
    both use FatCommon, Fat12 also Rtc for its timestamps.  Keyboard prints through
    Vga.  Syscall checks pointers with Paging, moves blocks with KvAllocator and runs
    Tensor.  Ring3Mt picks tasks with TierSelect; Ring3Session runs Ring3Mt's handlers
    from the assembly on X64, and Ring3Tests runs Ring3Prog's programs in it;
    Ring3Coop enters its tasks by ContextSwitch's [switch_to]; Ring3Solo calls Syscall's
    handlers from the stub of vector 0x80, over the page tables PhysMem leaves.
    NetFrame puts Icmp, Udp and Tcp segments into frames;
    E1000 finds its card with Pci, takes its frames from PhysMem, and exchanges those
    frames with the network; every client first asks [arp_resolve].  Shell finds the partition
    with Partition and runs its file commands on Fat32 or Fat12.

    ** What the theorems show

    - Isolation: a ring-3 tensor call is carried out exactly when its argument block and
      all four buffers lie in memory its caller may use and its dimensions fit, and then
      writes the cells of its output only; any other call leaves memory alone, and a
      process claims only blocks it owns (Syscall); the pointers it may not use are refused
      from the program's first instruction to its exit (Ring3SoloTests); a preempted task goes on with every
      register and flag it had (Ring3Mt); frames are page-aligned and never shared, each
      inside one usable region when the memory map is page-aligned (PhysMem); a pointer check is exact (Paging).
    - Schedulers: the tick handlers refine an abstract scheduler (Ring3Mt), each
      demo and self-test gives the order or the values it claims (Preemptive, Ring3Tests - for
      the tasks that spin, when the timer keeps a pace -, Ring3CoopTests), a program that
      is interrupted ends in the registers and the memory of an uninterrupted run
      (Ring3SoloTests), cooperative tasks follow the fixed-priority rule (Coop),
      selection is fair within a tier (TierSelect), the process table keeps its
      invariant and drains (AgentScheduler).
    - Storage: a write to the disk is durable and a dead drive times out (Ata);
      table updates, allocation, freeing and contents are exact and leave all else
      alone (Fat12Table, Fat12Chain, Fat12Free, Fat12Data); creating a file happens
      completely or not at all and the file reads back (Fat12Create), deleting it takes
      away just that and undoes the creation (Fat12Delete); lookup and
      listing agree and a file is the bytes of its chain (Fat32); a file made at
      the prompt is read back and removed at the prompt (ShellFiles, ShellRemove), and only four commands,
      with a well-formed path, can change the disk (ShellReads).
    - Formats: builders and parsers are inverse, malformed input is refused
      (Icmp, Tcp, Dns, NetFrame, Ring3Prog, Gguf); checksums detect any changed byte
      (Icmp); decoders compute the formats' formulas (GgufDecode, Gguf).
    - Network: each client of [e1000.rs] is a function of the first frame the network
      returns to each of its two questions (NetSpec), so that a host that answers is
      reached and a stray frame ends the wait; an echo is returned only if turns of this
      run's own waits found the SYN-ACK and then the segment that acknowledges all that
      was sent (EchoSpec); every client returns, and with a few free frames none panics
      whatever the frames hold (E1000Total); the parts of a virtio queue fit their
      frames, and its available ring loses and repeats nothing (Virtio).
    - Interaction: the console shows the last lines printed (Vga); no key makes
      the editor or its drawing panic, the screen row follows the edited line as long as
      the line fits it, and typed text reaches the shell (Keyboard); the
      clock never returns a torn reading (Rtc).

    - Boot: the self-tests the kernel prints while it starts pass: the task and system-call
      tests given usable frames (BootTasks); the keyboard tests do just what the command
      lines they spell do (BootKeys).  The format tests (BootFormats) and the disk tests on
      three volume layouts, with no cluster lost (BootDisk), have no inputs and are examples
      by computation.

    ** What is not modelled, and why

    The rest of [main.rs] (the set-up of the hardware, the prints of the heap and page
    tables, and the calls that start the network, scheduler and ring-3 demos, which are
    modelled where they are defined), [gdt.rs], the IDT and the interrupt controllers, [serial.rs] and the page-table
    installation build structures of external crates or only print; the TypeScript
    tree is a separate simulation.  Mutexes are not modelled: an operation runs
    to its end before the next begins, as it does under the lock.  The
    ring-3 tests that end in a processor fault, the concurrent-preemption test and the
    test that loads its program from the disk are left out.

    ** This file

    Results, the monad, loops, lists of bytes, machine words, and the tactics and
    hints that the components share. *)
From stdpp Require Import base list strings numbers.
From Stdlib Require Import Lia.
Open Scope Z_scope.

(** ** Results *)

(** A call returns a value, returns a Rust [Err] with its message, panics (a
    slice index out of range, an [unwrap] of [None], ...), or exceeds the fuel
    given to one of its loops. *)
Inductive res (A : Type) : Type :=
| Ok (a : A)
| Err (e : string)
| Panic
| Hang.
Arguments Ok {A} a.
Arguments Err {A} e%_string.
Arguments Panic {A}.
Arguments Hang {A}.

#[export] Instance res_ret : MRet res := fun A a => Ok a.

#[export] Instance res_bind : MBind res := fun A B k m =>
  match m with
  | Ok a => k a
  | Err e => Err e
  | Panic => Panic
  | Hang => Hang
  end.

#[export] Instance res_map : FMap res := fun A B f m =>
  match m with
  | Ok a => Ok (f a)
  | Err e => Err e
  | Panic => Panic
  | Hang => Hang
  end.

(** [m.map_err(|_| e)] *)
Definition map_err {A} (e : string) (m : res A) : res A :=
  match m with Err _ => Err e | _ => m end.

(** [o.ok_or(e)] *)
Definition ok_or {A} (e : string) (o : option A) : res A :=
  match o with Some a => Ok a | None => Err e end.

Definition is_ok {A} (m : res A) : bool :=
  match m with Ok _ => true | _ => false end.

(** A result that is a value or an error, never a panic nor a fuel cut. *)
Definition settles {A} (m : res A) : Prop :=
  match m with Ok _ | Err _ => True | Panic | Hang => False end.

(** ** Stateful code *)

(** A call on a state [S]: the state it leaves is kept when it fails, as a
    [&mut] borrow keeps what was written before an early [return Err(_)]. *)
Definition M (S A : Type) : Type := S -> res A * S.

#[export] Instance M_ret S : MRet (M S) := fun A a s => (Ok a, s).

#[export] Instance M_bind S : MBind (M S) := fun A B k m s =>
  match m s with
  | (Ok a, s') => k a s'
  | (Err e, s') => (Err e, s')
  | (Panic, s') => (Panic, s')
  | (Hang, s') => (Hang, s')
  end.

(** A computation that touches no state. *)
Definition lift {S A} (m : res A) : M S A := fun s => (m, s).

Definition gets {S A} (f : S -> A) : M S A := fun s => (Ok (f s), s).

Definition modify {S} (f : S -> S) : M S unit := fun s => (Ok tt, f s).

(** [for x in l { body }]: the body updates the loop's variables ([inl]) or
    leaves the loop with a value ([inr]). *)
Fixpoint for_each {S A B R} (l : list A) (body : A -> B -> M S (B + R)) (b : B) : M S (B + R) :=
  match l with
  | [] => mret (inl b)
  | x :: r =>
      o ← body x b;
      match o with
      | inl b' => for_each r body b'
      | inr v => mret (inr v)
      end
  end.

(** [while let Some(c) = cluster { body; cluster = next(c)?; }] with fuel. *)
Fixpoint walk {S B R} (next : Z -> M S (option Z)) (body : Z -> B -> M S (B + R))
    (fuel : nat) (c : Z) (b : B) : M S (B + R) :=
  match fuel with
  | O => lift Hang
  | S f =>
      o ← body c b;
      match o with
      | inr v => mret (inr v)
      | inl b' =>
          n ← next c;
          match n with
          | Some c' => walk next body f c' b'
          | None => mret (inl b')
          end
      end
  end.

(** ** Machine integers *)

Definition wrap (w z : Z) : Z := z mod 2 ^ w.
Abbreviation u8 := (wrap 8).
Abbreviation u16 := (wrap 16).
Abbreviation u32 := (wrap 32).
Abbreviation u64 := (wrap 64).

(** [a.saturating_mul(b)] and [a.saturating_add(b)] at width [w]. *)
Definition sat_mul (w a b : Z) : Z := Z.min (a * b) (2 ^ w - 1).
Definition sat_add (w a b : Z) : Z := Z.min (a + b) (2 ^ w - 1).

(** [a.checked_add(b)] at width [w]. *)
Definition checked_add (w a b : Z) : option Z :=
  if a + b <? 2 ^ w then Some (a + b) else None.

(** [a.div_ceil(b)] *)
Definition div_ceil (a b : nat) : nat := ((a + b - 1) / b)%nat.

Definition div_ceilZ (a b : Z) : Z := (a + b - 1) / b.

(** The representable values of an unsigned type. *)
Definition in_u (w z : Z) : Prop := 0 <= z < 2 ^ w.

Definition byte_ok (b : Z) : Prop := 0 <= b < 256.

Definition bytes_ok (l : list Z) : Prop := Forall byte_ok l.

(** ** Slices *)

(** [l[i]] *)
Definition idx {A} (l : list A) (i : nat) : res A :=
  match l !! i with Some x => Ok x | None => Panic end.

(** [&l[a..b]] *)
Definition slice {A} (l : list A) (a b : nat) : res (list A) :=
  if decide (a <= b /\ b <= length l)%nat then Ok (take (b - a) (drop a l)) else Panic.

(** [l[a..a + src.len()].copy_from_slice(src)] on a range inside [l]. *)
Definition splice {A} (a : nat) (src l : list A) : list A :=
  take a l ++ src ++ drop (a + length src) l.

(** [l.as_chunks::<n>().0]: the complete [n]-element chunks. *)
Fixpoint chunks_fuel {A} (fuel n : nat) (l : list A) : list (list A) :=
  match fuel with
  | O => []
  | S f =>
      if decide (length l < n)%nat then [] else take n l :: chunks_fuel f n (drop n l)
  end.

Definition as_chunks {A} (n : nat) (l : list A) : list (list A) :=
  chunks_fuel (length l / n) n l.

(** [l.as_chunks::<n>().1]: what is left after the complete chunks. *)
Definition as_remainder {A} (n : nat) (l : list A) : list A :=
  drop (length l / n * n) l.

(** ** Little and big endian *)

Fixpoint le_of (bs : list Z) : Z :=
  match bs with
  | [] => 0
  | b :: r => b + 256 * le_of r
  end.

Definition be_of (bs : list Z) : Z := le_of (rev bs).

Fixpoint le_bytes (n : nat) (z : Z) : list Z :=
  match n with
  | O => []
  | S m => z mod 256 :: le_bytes m (z / 256)
  end.

Definition be_bytes (n : nat) (z : Z) : list Z := rev (le_bytes n z).

(** ** Automation *)

Create HintDb kernel.
Create Rewrite HintDb kernel_len.

(** Destructs the first match or conditional of the goal. *)
Ltac case_goal :=
  match goal with
  | |- context [match ?x with _ => _ end] => destruct x eqn:?
  end.

(** Destructs the first match or conditional of a hypothesis. *)
Ltac case_hyp H :=
  match type of H with
  | context [match ?x with _ => _ end] => destruct x eqn:?
  end.

(** [lia] with the defining equations of [/] and [mod]. *)
Ltac div_lia := Z.to_euclidean_division_equations; lia.

(** Turns boolean comparisons of the context into propositions. *)
Ltac unbool :=
  repeat match goal with
  | H : (_ && _)%bool = true |- _ => apply andb_true_iff in H; destruct H
  | H : (_ || _)%bool = false |- _ => apply orb_false_iff in H; destruct H
  | H : negb _ = true |- _ => apply negb_true_iff in H
  | H : negb _ = false |- _ => apply negb_false_iff in H
  | H : (_ =? _) = true |- _ => apply Z.eqb_eq in H
  | H : (_ =? _) = false |- _ => apply Z.eqb_neq in H
  | H : (_ <? _) = true |- _ => apply Z.ltb_lt in H
  | H : (_ <? _) = false |- _ => apply Z.ltb_ge in H
  | H : (_ <=? _) = true |- _ => apply Z.leb_le in H
  | H : (_ <=? _) = false |- _ => apply Z.leb_gt in H
  | H : (_ =? _)%nat = true |- _ => apply Nat.eqb_eq in H
  | H : (_ =? _)%nat = false |- _ => apply Nat.eqb_neq in H
  | H : (_ <? _)%nat = true |- _ => apply Nat.ltb_lt in H
  | H : (_ <? _)%nat = false |- _ => apply Nat.ltb_ge in H
  | H : (_ <=? _)%nat = true |- _ => apply Nat.leb_le in H
  | H : (_ <=? _)%nat = false |- _ => apply Nat.leb_gt in H
  end.

(** ** Lemmas on machine integers *)

Lemma wrap_id w z : in_u w z -> wrap w z = z.
Proof. unfold wrap, in_u. intros. by apply Z.mod_small. Qed.

Lemma wrap_in_u w z : 0 <= w -> in_u w (wrap w z).
Proof. intros. apply Z.mod_pos_bound. lia. Qed.

(** Masking with [2^k - 1] keeps the low [k] bits. *)
Lemma land_mask k m x : 0 <= k -> m = 2 ^ k - 1 -> Z.land x m = x mod 2 ^ k.
Proof.
  intros Hk ->. rewrite <- Z.land_ones by done. by rewrite Z.ones_equiv.
Qed.

Lemma land_shifted_low k a b : 0 <= k -> 0 <= b < 2 ^ k -> Z.land (a * 2 ^ k) b = 0.
Proof.
  intros Hk Hb. apply Z.bits_inj'. intros n Hn. rewrite Z.land_spec, Z.bits_0.
  destruct (decide (n < k)).
  - by rewrite Z.mul_pow2_bits_low by lia.
  - rewrite <- (Z.mod_small b (2 ^ k)) by done.
    rewrite Z.mod_pow2_bits_high by lia. by rewrite andb_false_r.
Qed.

(** Two numbers with disjoint bit ranges: their [|] is their sum. *)
Lemma lor_add k a b : 0 <= k -> 0 <= b < 2 ^ k -> Z.lor (a * 2 ^ k) b = a * 2 ^ k + b.
Proof.
  intros Hk Hb. pose proof (land_shifted_low k a b Hk Hb) as H0.
  rewrite <- Z.lxor_lor by done. symmetry. by apply Z.add_nocarry_lxor.
Qed.

Lemma lor_add' k a b :
  0 <= k -> 0 <= b < 2 ^ k -> a mod 2 ^ k = 0 -> Z.lor a b = a + b.
Proof.
  intros Hk Hb Ha. rewrite (Z.div_mod a (2 ^ k)) by lia.
  rewrite Ha, Z.add_0_r, Z.mul_comm. by apply lor_add.
Qed.

(** A predicate on the values below [n] holds when it holds by evaluation. *)
Definition all_below (n : nat) (P : Z -> bool) : bool :=
  forallb (fun i => P (Z.of_nat i)) (seq 0 n).

Lemma all_below_spec n P : all_below n P = true -> forall z, 0 <= z < Z.of_nat n -> P z = true.
Proof.
  unfold all_below. rewrite forallb_forall. intros H z Hz.
  specialize (H (Z.to_nat z)). rewrite Z2Nat.id in H by lia. apply H.
  apply List.in_seq. lia.
Qed.

(** The same from [z] on, the argument counted up along the way. *)
Fixpoint all_from (n : nat) (z : Z) (P : Z -> bool) : bool :=
  match n with
  | O => true
  | S m => P z && all_from m (z + 1) P
  end.

Lemma all_from_spec n z P :
  all_from n z P = true -> forall x, z <= x < z + Z.of_nat n -> P x = true.
Proof.
  revert z. induction n as [|n IH]; intros z H x Hx; [lia|].
  cbn [all_from] in H. apply andb_true_iff in H as [H1 H2].
  destruct (decide (x = z)) as [->|]; [done|]. apply (IH (z + 1) H2). lia.
Qed.

(** ** Lemmas on results *)

Lemma Ok_inj {A} (a b : A) : Ok a = Ok b -> a = b.
Proof. congruence. Qed.

Lemma bind_Ok {A B} (m : res A) (k : A -> res B) b :
  (m ≫= k) = Ok b <-> exists a, m = Ok a /\ k a = Ok b.
Proof.
  destruct m; cbn; split; try discriminate; eauto; intros (x & Hx & ?); try discriminate.
  by injection Hx as ->.
Qed.

Lemma settles_bind {A B} (m : res A) (k : A -> res B) :
  settles m -> (forall a, m = Ok a -> settles (k a)) -> settles (m ≫= k).
Proof. destruct m; cbn; eauto. Qed.

Lemma settles_map_err {A} e (m : res A) : settles m -> settles (map_err e m).
Proof. by destruct m. Qed.

Lemma settles_ok_or {A} e (o : option A) : settles (ok_or e o).
Proof. by destruct o. Qed.

#[export] Hint Resolve settles_bind settles_map_err settles_ok_or : kernel.

(** ** Lemmas on stateful code *)

Lemma M_bind_Ok {S A B} (m : M S A) (k : A -> M S B) s a s' :
  m s = (Ok a, s') -> (m ≫= k) s = k a s'.
Proof. unfold mbind, M_bind. by intros ->. Qed.

Lemma M_bind_Err {S A B} (m : M S A) (k : A -> M S B) s e s' :
  m s = (Err e, s') -> (m ≫= k) s = (Err e, s').
Proof. unfold mbind, M_bind. by intros ->. Qed.

Lemma M_bind_Ok_inv {S A B} (m : M S A) (k : A -> M S B) s b s2 :
  (m ≫= k) s = (Ok b, s2) -> exists a s1, m s = (Ok a, s1) /\ k a s1 = (Ok b, s2).
Proof. unfold mbind, M_bind. destruct (m s) as [[] ?]; naive_solver. Qed.

Lemma M_ret_eq {S A} (a : A) (s : S) : (mret a : M S A) s = (Ok a, s).
Proof. done. Qed.

Lemma for_each_app {S A B R} (f : A -> B -> M S (B + R)) l1 l2 b s :
  for_each (l1 ++ l2) f b s =
    (o ← for_each l1 f b;
     match o with inl b' => for_each l2 f b' | inr v => mret (inr v) end) s.
Proof.
  revert b s. induction l1 as [|x l1 IH]; intros b s; [done|].
  cbn [app for_each]. unfold mbind, M_bind.
  destruct (f x b s) as [[[b'|r]| | |] s']; done.
Qed.

(** A loop nested in a loop is a loop over the concatenation. *)
Lemma for_each_concat {S A C B R} (g : C -> list A) (f : A -> B -> M S (B + R)) cs b s :
  for_each cs (fun c st => for_each (g c) f st) b s = for_each (concat (map g cs)) f b s.
Proof.
  revert b s. induction cs as [|c cs IH]; intros b s; [done|].
  cbn [map concat for_each]. rewrite for_each_app. unfold mbind, M_bind.
  destruct (for_each (g c) f b s) as [[[b'|r]| | |] s']; done.
Qed.

(** A loop whose body, at each element, keeps an invariant of the remaining
    elements, the accumulator and the state, and does not leave early. *)
Lemma for_each_inv {S A B R} (body : A -> B -> M S (B + R)) (P : list A -> B -> S -> Prop) :
  (forall x r b s, P (x :: r) b s -> exists b' s', body x b s = (Ok (inl b'), s') /\ P r b' s') ->
  forall l b s, P l b s ->
  exists b' s', for_each l body b s = (Ok (inl b'), s') /\ P [] b' s'.
Proof.
  intros Hstep l. induction l as [|x r IH]; intros b s HP; cbn [for_each].
  - by exists b, s.
  - destruct (Hstep x r b s HP) as (b1 & s1 & Hb & HP1).
    rewrite (M_bind_Ok _ _ _ _ _ Hb). by apply IH.
Qed.

(** ** Lemmas on slices *)

Lemma idx_Ok {A} (l : list A) i x : idx l i = Ok x <-> l !! i = Some x.
Proof. unfold idx. destruct (l !! i); naive_solver. Qed.

Lemma idx_lt {A} (l : list A) i : (i < length l)%nat -> exists x, idx l i = Ok x.
Proof. intros [x Hx]%lookup_lt_is_Some. exists x. by apply idx_Ok. Qed.

Lemma settles_idx {A} (l : list A) i : (i < length l)%nat -> settles (idx l i).
Proof. intros [x ->]%idx_lt. done. Qed.

Lemma slice_ok {A} (l : list A) a b :
  (a <= b)%nat -> (b <= length l)%nat -> slice l a b = Ok (take (b - a) (drop a l)).
Proof. intros. unfold slice. by rewrite decide_True by lia. Qed.

Lemma slice_Ok {A} (l : list A) a b s :
  slice l a b = Ok s ->
  (a <= b <= length l)%nat /\ s = take (b - a) (drop a l) /\ length s = (b - a)%nat.
Proof.
  unfold slice. destruct (decide _); [|done]. intros [= <-].
  split; [lia|]. split; [done|]. rewrite length_take, length_drop. lia.
Qed.

Lemma settles_slice {A} (l : list A) a b :
  (a <= b)%nat -> (b <= length l)%nat -> settles (slice l a b).
Proof. intros. by rewrite slice_ok. Qed.

#[export] Hint Resolve settles_idx settles_slice : kernel.

Lemma length_splice {A} a (src l : list A) :
  (a + length src <= length l)%nat -> length (splice a src l) = length l.
Proof.
  intros. unfold splice. rewrite !length_app, length_take, length_drop. lia.
Qed.

Lemma lookup_splice_in {A} a (src l : list A) i :
  (a + length src <= length l)%nat -> (a <= i < a + length src)%nat ->
  splice a src l !! i = src !! (i - a)%nat.
Proof.
  intros. unfold splice. rewrite lookup_app_r by (rewrite length_take; lia).
  rewrite length_take, lookup_app_l by lia. f_equal. lia.
Qed.

Lemma lookup_splice_out {A} a (src l : list A) i :
  (a + length src <= length l)%nat -> (i < a \/ a + length src <= i)%nat ->
  splice a src l !! i = l !! i.
Proof.
  intros ? [?|?]; unfold splice.
  - rewrite lookup_app_l by (rewrite length_take; lia). by rewrite lookup_take_lt by lia.
  - rewrite lookup_app_r by (rewrite length_take; lia).
    rewrite lookup_app_r by (rewrite length_take; lia).
    rewrite lookup_drop, length_take. f_equal. lia.
Qed.

(** What was copied in is read back. *)
Lemma slice_splice {A} a (src l : list A) :
  (a + length src <= length l)%nat ->
  slice (splice a src l) a (a + length src) = Ok src.
Proof.
  intros. rewrite slice_ok; [|lia|by rewrite length_splice].
  f_equal. unfold splice.
  rewrite drop_app_ge by (rewrite length_take; lia).
  rewrite length_take. replace (a - a `min` length l)%nat with 0%nat by lia.
  rewrite drop_0. replace (a + length src - a)%nat with (length src) by lia.
  by rewrite take_app_length.
Qed.

Lemma idx_mid {A} (pre mid post : list A) k x :
  mid !! k = Some x -> idx (pre ++ mid ++ post) (length pre + k) = Ok x.
Proof.
  intros H. apply idx_Ok. rewrite lookup_app_r, Nat.add_comm, Nat.add_sub by lia.
  rewrite lookup_app_l; [done|by eapply lookup_lt_Some].
Qed.

Lemma slice_mid {A} (pre mid post : list A) n :
  n = length mid -> slice (pre ++ mid ++ post) (length pre) (length pre + n) = Ok mid.
Proof.
  intros ->. rewrite slice_ok by (rewrite ?length_app; lia). f_equal.
  rewrite drop_app_length, Nat.add_comm, Nat.add_sub. by rewrite take_app_length.
Qed.

Lemma Forall_splice {A} (P : A -> Prop) a src l :
  Forall P src -> Forall P l -> Forall P (splice a src l).
Proof.
  intros. unfold splice. apply Forall_app. split; [by apply Forall_take|].
  apply Forall_app. split; [done|by apply Forall_drop].
Qed.

Lemma Forall_slice {A} (P : A -> Prop) l a b s :
  slice l a b = Ok s -> Forall P l -> Forall P s.
Proof.
  intros (_ & -> & _)%slice_Ok ?. by apply Forall_take, Forall_drop.
Qed.

(** ** Lemmas on endianness *)

Lemma length_le_bytes n z : length (le_bytes n z) = n.
Proof. revert z. induction n; intros; cbn; [done|by rewrite IHn]. Qed.

Lemma length_be_bytes n z : length (be_bytes n z) = n.
Proof. unfold be_bytes. by rewrite length_rev, length_le_bytes. Qed.

Lemma le_bytes_ok n z : bytes_ok (le_bytes n z).
Proof.
  revert z. induction n; intros; cbn; constructor; [|apply IHn].
  apply Z.mod_pos_bound. lia.
Qed.

Lemma be_bytes_ok n z : bytes_ok (be_bytes n z).
Proof. apply Forall_rev, le_bytes_ok. Qed.

Lemma le_of_le_bytes n z : le_of (le_bytes n z) = z mod 256 ^ Z.of_nat n.
Proof.
  revert z. induction n as [|n IH]; intros z; [cbn; by rewrite Z.mod_1_r|].
  cbn [le_bytes le_of]. rewrite IH, Nat2Z.inj_succ, Z.pow_succ_r by lia.
  rewrite Z.rem_mul_r; lia.
Qed.

Lemma be_of_be_bytes n z : be_of (be_bytes n z) = z mod 256 ^ Z.of_nat n.
Proof. unfold be_of, be_bytes. by rewrite rev_involutive, le_of_le_bytes. Qed.

Lemma le_of_bound l : bytes_ok l -> 0 <= le_of l < 256 ^ Z.of_nat (length l).
Proof.
  induction 1 as [|b l Hb Hl IH]; [cbn; lia|].
  cbn [le_of length]. rewrite Nat2Z.inj_succ, Z.pow_succ_r by lia.
  unfold byte_ok in Hb. lia.
Qed.

Lemma be_of_bound l : bytes_ok l -> 0 <= be_of l < 256 ^ Z.of_nat (length l).
Proof.
  intros H%Forall_rev. unfold be_of. rewrite <- (length_rev l). by apply le_of_bound.
Qed.

Lemma le_bytes_le_of l : bytes_ok l -> le_bytes (length l) (le_of l) = l.
Proof.
  induction 1 as [|b l Hb Hl IH]; [done|].
  cbn [le_of length le_bytes]. unfold byte_ok in Hb. f_equal.
  - rewrite Z.mul_comm, Z.mod_add by lia. by apply Z.mod_small.
  - rewrite Z.mul_comm, Z.div_add by lia. by rewrite Z.div_small.
Qed.

Lemma be_bytes_be_of l : bytes_ok l -> be_bytes (length l) (be_of l) = l.
Proof.
  intros H%Forall_rev. unfold be_of, be_bytes.
  rewrite <- (length_rev l), le_bytes_le_of by done. by rewrite rev_involutive.
Qed.

Lemma be_of_cons_2 a b : be_of [a; b] = 256 * a + b.
Proof. cbn. lia. Qed.

(** A two-byte and a four-byte field read back from their bytes. *)
Lemma be_of_u16 z : in_u 16 z -> be_of [z / 256 mod 256; z mod 256] = z.
Proof. intros. rewrite be_of_cons_2. unfold in_u in *. div_lia. Qed.

Lemma be_of_u32 z :
  in_u 32 z -> be_of [z / 256 / 256 / 256 mod 256; z / 256 / 256 mod 256; z / 256 mod 256; z mod 256] = z.
Proof.
  intros. change (be_of (be_bytes 4 z) = z). rewrite be_of_be_bytes.
  by apply Z.mod_small.
Qed.

(** Reading back a field that fits its width. *)
Lemma le_round n z : 0 <= z < 256 ^ Z.of_nat n -> le_of (le_bytes n z) = z.
Proof. intros. rewrite le_of_le_bytes. by apply Z.mod_small. Qed.

Lemma be_round n z : 0 <= z < 256 ^ Z.of_nat n -> be_of (be_bytes n z) = z.
Proof. intros. rewrite be_of_be_bytes. by apply Z.mod_small. Qed.

#[export] Hint Rewrite @length_splice using (cbn; lia) : kernel_len.
#[export] Hint Rewrite length_le_bytes length_be_bytes @length_take @length_drop
  @length_app @length_replicate : kernel_len.

Lemma byte_ok_mod z : byte_ok (z mod 256).
Proof. apply Z.mod_pos_bound. lia. Qed.

Lemma bytes_ok_zeroes n : bytes_ok (replicate n 0).
Proof. apply Forall_replicate. unfold byte_ok. lia. Qed.

Lemma bytes_ok_insert i b l : byte_ok b -> bytes_ok l -> bytes_ok (<[i:=b]> l).
Proof. intros. by apply Forall_insert. Qed.

(** Computes the length of a buffer put together from parts. *)
Ltac len := autorewrite with kernel_len; cbn [length]; try lia.

(** Proves [bytes_ok] of a buffer put together from parts. *)
Ltac bytes :=
  repeat
    (unfold bytes_ok;
     match goal with
     | |- Forall _ (splice _ _ _) => apply Forall_splice
     | |- Forall _ (be_bytes _ _) => apply be_bytes_ok
     | |- Forall _ (le_bytes _ _) => apply le_bytes_ok
     | |- Forall _ (replicate _ 0) => apply bytes_ok_zeroes
     | |- Forall _ (_ ++ _) => apply Forall_app; split
     | |- Forall _ (take _ _) => apply Forall_take
     | |- Forall _ (drop _ _) => apply Forall_drop
     | |- Forall _ (<[_ := _]> _) => apply bytes_ok_insert
     | H : bytes_ok ?l |- Forall _ ?l => exact H
     | H : Forall _ ?l |- Forall _ ?l => exact H
     | |- Forall _ [] => apply List.Forall_nil
     | |- Forall _ (_ :: _) => apply List.Forall_cons
     | |- byte_ok (_ mod 256) => apply byte_ok_mod
     | |- context [if ?b then _ else _] => destruct b
     end);
  try solve [assumption | unfold byte_ok in *; lia | cbv; split; congruence].

#[export] Hint Resolve le_bytes_ok be_bytes_ok : kernel.

(** ** Chunks *)

Lemma chunks_fuel_cons {A} f n (c l : list A) :
  length c = n -> chunks_fuel (S f) n (c ++ l) = c :: chunks_fuel f n l.
Proof.
  intros. cbn. rewrite decide_False by (rewrite length_app; lia).
  by rewrite take_app_length', drop_app_length'.
Qed.

Lemma as_chunks_cons {A} n (c l : list A) :
  (0 < n)%nat -> length c = n -> as_chunks n (c ++ l) = c :: as_chunks n l.
Proof.
  intros Hn Hc. unfold as_chunks. rewrite length_app, Hc.
  replace (n + length l)%nat with (1 * n + length l)%nat by lia.
  rewrite Nat.div_add_l by lia. by apply chunks_fuel_cons.
Qed.

Lemma as_chunks_short {A} n (l : list A) : (length l < n)%nat -> as_chunks n l = [].
Proof. intros. unfold as_chunks. by rewrite Nat.div_small. Qed.

Lemma as_remainder_cons {A} n (c l : list A) :
  (0 < n)%nat -> length c = n -> as_remainder n (c ++ l) = as_remainder n l.
Proof.
  intros Hn Hc. unfold as_remainder. rewrite length_app, Hc.
  replace (n + length l)%nat with (1 * n + length l)%nat by lia.
  rewrite Nat.div_add_l by lia.
  rewrite drop_app_ge by nia. f_equal. nia.
Qed.

Lemma as_remainder_short {A} n (l : list A) : (length l < n)%nat -> as_remainder n l = l.
Proof. intros. unfold as_remainder. by rewrite Nat.div_small. Qed.
