(* ===== verification/Icmp.v ===== *)
(** * Icmp: IPv4 and ICMP echo ([net/icmp.rs])

    The RFC 1071 checksum as the code computes it (a [u32] accumulator, two
    byte words, a padded odd byte, end-around carries folded until none is
    left), the Ethernet, IPv4 and ICMP builders as writes at fixed offsets of a
    zeroed header, and the echo parser. [word_sum] and [ones_sum] are the
    specification of the checksum: the exact sum of the big-endian words and
    its residue in one's complement arithmetic. *)
From stdpp Require Import base list numbers strings.
From Stdlib Require Import Lia.
From S2P Require Import Prelude.
Open Scope Z_scope.

Definition ETHERNET_HEADER_LEN : nat := 14.
Definition IPV4_HEADER_LEN : nat := 20.
Definition ICMP_ECHO_HEADER_LEN : nat := 8.
Definition ETHERTYPE_IPV4 : Z := 0x0800.
Definition IP_PROTOCOL_ICMP : Z := 1.
Definition ICMP_TYPE_ECHO_REPLY : Z := 0.
Definition ICMP_TYPE_ECHO_REQUEST : Z := 8.

(** [while sum >> 16 != 0 { sum = (sum & 0xFFFF) + (sum >> 16); }] *)
Fixpoint fold_carries (fuel : nat) (sum : Z) : Z :=
  match fuel with
  | O => sum
  | S f =>
      if Z.shiftr sum 16 =? 0 then sum
      else fold_carries f (Z.land sum 0xFFFF + Z.shiftr sum 16)
  end.

Definition internet_checksum (data : list Z) : Z :=
  let sum := foldl (fun sum word => u32 (sum + be_of word)) 0 (as_chunks 2 data) in
  let sum :=
    match as_remainder 2 data with
    | [last] => u32 (sum + Z.shiftl last 8)
    | _ => sum
    end in
  u16 (Z.lnot (u16 (fold_carries 3 sum))).

Definition pseudo_header_checksum (source_ip dest_ip : list Z) (protocol : Z)
    (segment : list Z) : Z :=
  let seg_len := u16 (Z.of_nat (length segment)) in
  internet_checksum
    (source_ip ++ dest_ip ++ [0] ++ [protocol] ++ be_bytes 2 seg_len ++ segment).

Definition checksum_is_valid (data : list Z) : bool := internet_checksum data =? 0.

Definition build_ethernet_header (dest_mac src_mac : list Z) (ethertype : Z) : list Z :=
  let header := replicate ETHERNET_HEADER_LEN 0 in
  let header := splice 0 dest_mac header in
  let header := splice 6 src_mac header in
  splice 12 (be_bytes 2 ethertype) header.

Definition build_ipv4_header (identification ttl protocol : Z) (source destination : list Z)
    (payload_len : nat) : list Z :=
  let header := replicate IPV4_HEADER_LEN 0 in
  let header := <[0%nat := 0x45]> header in
  let header := <[1%nat := 0x00]> header in
  let total_len := u16 (Z.of_nat (IPV4_HEADER_LEN + payload_len)) in
  let header := splice 2 (be_bytes 2 total_len) header in
  let header := splice 4 (be_bytes 2 identification) header in
  let header := splice 6 (be_bytes 2 0) header in
  let header := <[8%nat := ttl]> header in
  let header := <[9%nat := protocol]> header in
  let header := splice 12 source header in
  let header := splice 16 destination header in
  let checksum := internet_checksum header in
  splice 10 (be_bytes 2 checksum) header.

Definition build_icmp_echo (is_reply : bool) (identifier sequence : Z) (data : list Z) : list Z :=
  let message :=
    [if is_reply then ICMP_TYPE_ECHO_REPLY else ICMP_TYPE_ECHO_REQUEST] ++ [0] ++
    be_bytes 2 0 ++ be_bytes 2 identifier ++ be_bytes 2 sequence ++ data in
  let checksum := internet_checksum message in
  splice 2 (be_bytes 2 checksum) message.

Record IcmpEchoInfo := mk_IcmpEchoInfo {
  is_reply : bool;
  identifier : Z;
  sequence : Z;
}.

Definition parse_icmp_echo (message : list Z) : res IcmpEchoInfo :=
  if (length message <? ICMP_ECHO_HEADER_LEN)%nat then
    Err "ICMP message shorter than the 8-byte echo header"
  else if negb (checksum_is_valid message) then
    Err "ICMP checksum mismatch - message is corrupt or not a valid echo message"
  else
    t ← idx message 0;
    is_reply ←
      (if t =? ICMP_TYPE_ECHO_REPLY then Ok true
       else if t =? ICMP_TYPE_ECHO_REQUEST then Ok false
       else Err "not an ICMP echo request/reply (unexpected type)");
    b4 ← idx message 4; b5 ← idx message 5;
    b6 ← idx message 6; b7 ← idx message 7;
    Ok (mk_IcmpEchoInfo is_reply (be_of [b4; b5]) (be_of [b6; b7])).

(** ** Specification of the checksum *)

(** The sum of the big-endian 16-bit words, an odd last byte padded with 0. *)
Fixpoint word_sum (l : list Z) : Z :=
  match l with
  | [] => 0
  | [a] => 256 * a
  | a :: b :: r => 256 * a + b + word_sum r
  end.

(** The 16-bit one's complement residue of a non-negative sum. *)
Definition ones_sum (s : Z) : Z := if s =? 0 then 0 else (s - 1) mod 65535 + 1.

(** ** The checksum against its specification *)

Lemma list_pair_ind {A} (P : list A -> Prop) :
  P [] -> (forall a, P [a]) -> (forall a b l, P l -> P (a :: b :: l)) -> forall l, P l.
Proof.
  intros H0 H1 H2. fix IH 1. intros [|a [|b l]]; [done|done|]. apply H2, IH.
Qed.

Lemma word_sum_nonneg l : bytes_ok l -> 0 <= word_sum l.
Proof.
  induction l as [|a|a b l IH] using list_pair_ind; intros H; cbn [word_sum]; [lia| |].
  - apply Forall_cons in H as [Ha _]. unfold byte_ok in Ha. lia.
  - apply Forall_cons in H as [Ha [Hb Hl]%Forall_cons]. unfold byte_ok in *.
    specialize (IH Hl). lia.
Qed.

Lemma word_sum_bound l : bytes_ok l -> word_sum l <= 65535 * ((Z.of_nat (length l) + 1) / 2).
Proof.
  induction l as [|a|a b l IH] using list_pair_ind; intros H; cbn [word_sum length].
  - div_lia.
  - apply Forall_cons in H as [Ha _]. unfold byte_ok in Ha.
    change ((Z.of_nat 1 + 1) / 2) with 1. lia.
  - apply Forall_cons in H as [Ha [Hb Hl]%Forall_cons]. unfold byte_ok in *.
    specialize (IH Hl).
    replace (Z.of_nat (S (S (length l))) + 1) with (1 * 2 + (Z.of_nat (length l) + 1)) by lia.
    rewrite Z.div_add_l by lia. lia.
Qed.

Lemma word_sum_app l1 l2 :
  Nat.Even (length l1) -> word_sum (l1 ++ l2) = word_sum l1 + word_sum l2.
Proof.
  induction l1 as [|a|a b l IH] using list_pair_ind; intros He; cbn [word_sum app].
  - lia.
  - destruct He as [k Hk]. cbn in Hk. lia.
  - rewrite IH; [lia|]. destruct He as [k Hk]. cbn in Hk. exists (k - 1)%nat. lia.
Qed.

(** The accumulating loop and the odd byte compute [word_sum] as long as the
    [u32] accumulator cannot wrap. *)
Lemma accumulate_words l s :
  bytes_ok l -> 0 <= s -> s + word_sum l < 2 ^ 32 ->
  (let t := foldl (fun sum word => u32 (sum + be_of word)) s (as_chunks 2 l) in
   match as_remainder 2 l with [last] => u32 (t + Z.shiftl last 8) | _ => t end)
  = s + word_sum l.
Proof.
  revert s. induction l as [|a|a b l IH] using list_pair_ind; intros s H Hs Hb.
  - cbn. lia.
  - rewrite as_chunks_short, as_remainder_short by (cbn; lia). cbn zeta. cbn [foldl].
    apply Forall_cons in H as [Ha _]. unfold byte_ok in Ha. cbn [word_sum] in *.
    rewrite Z.shiftl_mul_pow2 by lia. change (2 ^ 8) with 256.
    rewrite wrap_id by (unfold in_u; lia). lia.
  - apply Forall_cons in H as [Ha [Hb' Hl]%Forall_cons]. unfold byte_ok in *.
    pose proof (word_sum_nonneg l Hl). cbn [word_sum] in *.
    change (a :: b :: l) with ([a; b] ++ l).
    rewrite as_chunks_cons, as_remainder_cons by (cbn; lia). cbn [foldl].
    rewrite be_of_cons_2, wrap_id by (unfold in_u; lia).
    specialize (IH (s + (256 * a + b)) Hl). cbn zeta in *. rewrite IH; lia.
Qed.

Lemma fold_carries_step s :
  0 <= s -> Z.land s 0xFFFF + Z.shiftr s 16 = s mod 65536 + s / 65536.
Proof.
  intros. rewrite (land_mask 16) by lia. by rewrite Z.shiftr_div_pow2 by lia.
Qed.

(** Three rounds fold any [u32]: the loop has exited, and what it leaves is the
    one's complement residue. *)
Lemma fold_carries_spec s : 0 <= s < 2 ^ 32 -> fold_carries 3 s = ones_sum s.
Proof.
  intros Hs. unfold ones_sum. cbn [fold_carries].
  rewrite !Z.shiftr_div_pow2 by div_lia. change (2 ^ 16) with 65536.
  rewrite !(land_mask 16 0xFFFF) by div_lia. change (2 ^ 16) with 65536.
  destruct (s =? 0) eqn:E0; [apply Z.eqb_eq in E0 as ->; done|].
  destruct (s / 65536 =? 0) eqn:E1; unbool; [rewrite Z.mod_small by div_lia; div_lia|].
  set (t := s mod 65536 + s / 65536).
  assert (Ht : 1 <= t < 131072) by (unfold t; div_lia).
  assert (Hst : (s - 1) mod 65535 = (t - 1) mod 65535).
  { replace (s - 1) with (t - 1 + s / 65536 * 65535) by (unfold t; div_lia). apply Z.mod_add. div_lia. }
  rewrite Hst. clearbody t.
  destruct (t / 65536 =? 0) eqn:E2; unbool; [rewrite Z.mod_small by div_lia; div_lia|].
  assert (t / 65536 = 1) by div_lia.
  assert (t mod 65536 = t - 65536) by div_lia.
  replace (t / 65536) with 1 by div_lia. replace (t mod 65536) with (t - 65536) by div_lia.
  destruct (_ =? 0) eqn:E3; unbool.
  - replace (t - 1) with (t - 65536 + 1 * 65535) by div_lia.
    rewrite Z.mod_add by div_lia. rewrite Z.mod_small; div_lia.
  - div_lia.
Qed.

Lemma fold_carries_exits s : 0 <= s < 2 ^ 32 -> Z.shiftr (fold_carries 3 s) 16 = 0.
Proof.
  intros Hs. rewrite fold_carries_spec by done. unfold ones_sum.
  rewrite Z.shiftr_div_pow2 by div_lia. case_goal; [done|]. apply Z.div_small. div_lia.
Qed.

Lemma ones_sum_range s : 0 <= s -> 0 <= ones_sum s <= 65535.
Proof. intros. unfold ones_sum. case_goal; div_lia. Qed.

Lemma ones_sum_full s : 0 <= s -> (ones_sum s = 65535 <-> s <> 0 /\ s mod 65535 = 0).
Proof. intros. unfold ones_sum. case_goal; unbool; div_lia. Qed.

Lemma ones_sum_cong s : 0 <= s -> ones_sum s mod 65535 = s mod 65535.
Proof. intros. unfold ones_sum. case_goal; unbool; div_lia. Qed.

(** The longest buffer whose word sum is certain to fit the [u32] accumulator. *)
Definition CHECKSUM_MAX : Z := 131072.

Lemma internet_checksum_eq l :
  bytes_ok l -> Z.of_nat (length l) <= CHECKSUM_MAX ->
  internet_checksum l = 65535 - ones_sum (word_sum l).
Proof.
  intros Hl Hn. pose proof (word_sum_nonneg l Hl). pose proof (word_sum_bound l Hl).
  unfold CHECKSUM_MAX in Hn.
  assert (word_sum l < 2 ^ 32) by div_lia.
  unfold internet_checksum.
  pose proof (accumulate_words l 0 Hl) as Hacc. cbn zeta in *. rewrite Hacc by lia.
  rewrite Z.add_0_l, fold_carries_spec by lia.
  pose proof (ones_sum_range (word_sum l)). 
  rewrite (wrap_id 16 (ones_sum _)) by (unfold in_u; lia).
  unfold wrap, Z.lnot. 
  replace (Z.pred (- ones_sum (word_sum l))) with (65535 - ones_sum (word_sum l) + (-1) * 2 ^ 16) by lia.
  rewrite Z.mod_add by lia. apply Z.mod_small. lia.
Qed.

Lemma internet_checksum_range l : in_u 16 (internet_checksum l).
Proof. apply wrap_in_u. lia. Qed.

Lemma checksum_is_valid_iff l :
  bytes_ok l -> Z.of_nat (length l) <= CHECKSUM_MAX ->
  (checksum_is_valid l = true <-> word_sum l <> 0 /\ word_sum l mod 65535 = 0).
Proof.
  intros Hl Hn. unfold checksum_is_valid. rewrite internet_checksum_eq by done.
  rewrite Z.eqb_eq, <- ones_sum_full by (by apply word_sum_nonneg). lia.
Qed.

(** ** Embedding a checksum *)

Lemma even_take_length {A} (l : list A) o :
  Nat.Even o -> (o <= length l)%nat -> Nat.Even (length (take o l)).
Proof. intros. by rewrite length_take, Nat.min_l. Qed.

(** The sum of a buffer with one aligned word replaced. *)
Lemma word_sum_splice l o a b :
  Nat.Even o -> (o + 2 <= length l)%nat ->
  exists rest, (forall x y, word_sum (splice o [x; y] l) = 256 * x + y + rest) /\
    (l !! o = Some a -> l !! S o = Some b -> word_sum l = 256 * a + b + rest).
Proof.
  intros He Ho. exists (word_sum (take o l) + word_sum (drop (o + 2) l)). split.
  - intros x y. unfold splice. rewrite word_sum_app by (apply even_take_length; lia || done).
    cbn [length app word_sum]. lia.
  - intros Ha Hb. rewrite <- (take_drop_middle l o a) at 1 by done.
    rewrite <- (take_drop_middle (drop (S o) l) 0 b) by (rewrite lookup_drop, Nat.add_0_r; done).
    rewrite drop_drop, take_0. replace (S o + 1)%nat with (o + 2)%nat by lia.
    cbn [app]. rewrite word_sum_app by (apply even_take_length; lia || done).
    cbn [word_sum]. lia.
Qed.

Lemma be_bytes_2 z : be_bytes 2 z = [z / 256 mod 256; z mod 256].
Proof. done. Qed.

(** A buffer whose checksum field is zero verifies once the checksum computed
    over it is written into that field. *)
Lemma embed_checksum l o :
  bytes_ok l -> Z.of_nat (length l) <= CHECKSUM_MAX ->
  Nat.Even o -> (o + 2 <= length l)%nat -> l !! o = Some 0 -> l !! S o = Some 0 ->
  checksum_is_valid (splice o (be_bytes 2 (internet_checksum l)) l) = true.
Proof.
  intros Hl Hn He Ho H0 H1.
  destruct (word_sum_splice l o 0 0 He Ho) as (rest & Hs & Hr). specialize (Hr H0 H1).
  apply checksum_is_valid_iff.
  - apply Forall_splice; [apply be_bytes_ok|done].
  - by rewrite length_splice by (rewrite length_be_bytes; lia).
  - pose proof (word_sum_nonneg l Hl) as Hnn.
    pose proof (ones_sum_range _ Hnn). pose proof (ones_sum_cong _ Hnn).
    rewrite be_bytes_2, Hs, internet_checksum_eq by done.
    unfold ones_sum in *. destruct (word_sum l =? 0) eqn:E; unbool; div_lia.
Qed.

Lemma word_sum_insert l i a b :
  l !! i = Some a ->
  word_sum (<[i:=b]> l) = word_sum l + (b - a) * (if Nat.even i then 256 else 1).
Proof.
  revert i. induction l as [|x|x y l IH] using list_pair_ind; intros [|[|i]] Hi;
    cbn in Hi; try discriminate; try (injection Hi as ->; cbn; lia).
  change (Nat.even (S (S i))) with (Nat.even i).
  change (<[S (S i):=b]> (x :: y :: l)) with (x :: y :: <[i:=b]> l).
  cbn [word_sum]. rewrite (IH i Hi). lia.
Qed.

(** The bytes of an echo message: its checksum [c] is at offset 2. *)
Lemma build_icmp_echo_bytes r id sq data :
  exists c, build_icmp_echo r id sq data =
    [if r then 0 else 8; 0; c / 256 mod 256; c mod 256; id / 256 mod 256; id mod 256;
     sq / 256 mod 256; sq mod 256] ++ data.
Proof. eexists. by destruct r. Qed.

Lemma build_icmp_echo_valid r id sq data :
  bytes_ok data -> Z.of_nat (length data) + 8 <= CHECKSUM_MAX ->
  checksum_is_valid (build_icmp_echo r id sq data) = true.
Proof.
  intros Hd Hn. unfold build_icmp_echo.
  apply embed_checksum; [bytes|len|by exists 1%nat|len|done|done].
Qed.

Lemma detects_byte_change l i a b :
  bytes_ok l -> Z.of_nat (length l) <= CHECKSUM_MAX -> checksum_is_valid l = true ->
  l !! i = Some a -> byte_ok b -> b <> a ->
  checksum_is_valid (<[i:=b]> l) = false.
Proof.
  intros Hl Hn Hv Hi Hb Hab.
  pose proof (proj1 (checksum_is_valid_iff l Hl Hn) Hv) as [_ Hmod].
  apply not_true_iff_false. intros Hv'.
  assert (Ha : byte_ok a) by (by eapply (Forall_lookup_1 byte_ok)).
  apply checksum_is_valid_iff in Hv' as [_ Hmod'];
    [|by apply Forall_insert|by rewrite length_insert].
  rewrite (word_sum_insert l i a b Hi) in Hmod'. unfold byte_ok in *.
  destruct (Nat.even i); div_lia.
Qed.

(** ** Checksums over a pseudo-header *)

(** What the pseudo-header puts before a segment. *)
Definition pseudo_prefix (source_ip dest_ip : list Z) (protocol : Z) (n : nat) : list Z :=
  source_ip ++ dest_ip ++ [0] ++ [protocol] ++ be_bytes 2 (u16 (Z.of_nat n)).

Lemma pseudo_header_checksum_eq s d p seg :
  pseudo_header_checksum s d p seg = internet_checksum (pseudo_prefix s d p (length seg) ++ seg).
Proof. unfold pseudo_header_checksum, pseudo_prefix. by rewrite <- !app_assoc. Qed.

Lemma length_pseudo_prefix s d p n :
  length s = 4%nat -> length d = 4%nat -> length (pseudo_prefix s d p n) = 12%nat.
Proof. intros. unfold pseudo_prefix. len. Qed.

Lemma pseudo_prefix_ok s d p n :
  bytes_ok s -> bytes_ok d -> byte_ok p -> bytes_ok (pseudo_prefix s d p n).
Proof. intros. unfold pseudo_prefix. bytes. Qed.

Lemma splice_app_r {A} (p l : list A) o src :
  splice (length p + o) src (p ++ l) = p ++ splice o src l.
Proof.
  unfold splice. rewrite take_app_add, <- app_assoc, <- Nat.add_assoc. by rewrite drop_app_add.
Qed.

Lemma internet_checksum_valid l : internet_checksum l = 0 <-> checksum_is_valid l = true.
Proof. unfold checksum_is_valid. by rewrite Z.eqb_eq. Qed.

(** Writing the computed checksum, or [0xFFFF] for a computed 0, into a zero
    field of the segment makes the segment verify. *)
Lemma pseudo_embed s d p seg o c :
  bytes_ok s -> bytes_ok d -> byte_ok p -> bytes_ok seg ->
  length s = 4%nat -> length d = 4%nat ->
  Z.of_nat (length seg) + 12 <= CHECKSUM_MAX ->
  Nat.Even o -> (o + 2 <= length seg)%nat -> seg !! o = Some 0 -> seg !! S o = Some 0 ->
  c = pseudo_header_checksum s d p seg \/ c = 0xFFFF /\ pseudo_header_checksum s d p seg = 0 ->
  pseudo_header_checksum s d p (splice o (be_bytes 2 c) seg) = 0.
Proof.
  intros Hs Hd Hp Hseg Ls Ld Hn He Ho H0 H1 Hc.
  pose proof (length_pseudo_prefix s d p (length seg) Ls Ld) as Lp.
  pose proof (pseudo_prefix_ok s d p (length seg) Hs Hd Hp) as Hpre.
  rewrite !pseudo_header_checksum_eq in *.
  rewrite length_splice by (rewrite length_be_bytes; lia).
  set (pre := pseudo_prefix s d p (length seg)) in *. clearbody pre.
  rewrite <- splice_app_r, Lp. apply internet_checksum_valid.
  assert (Hl : bytes_ok (pre ++ seg)) by bytes.
  assert (Hlen : length (pre ++ seg) = (12 + length seg)%nat) by (rewrite length_app; lia).
  assert (Ho12 : Nat.Even (12 + o)) by (destruct He as [k ->]; exists (6 + k)%nat; lia).
  assert (G0 : (pre ++ seg) !! (12 + o)%nat = Some 0) by (rewrite lookup_app_r, Lp, Nat.add_comm, Nat.add_sub by lia; done).
  assert (G1 : (pre ++ seg) !! S (12 + o)%nat = Some 0).
  { rewrite lookup_app_r by lia. by replace (S (12 + o) - length pre)%nat with (S o) by lia. }
  destruct Hc as [->|[-> Hz]].
  - apply embed_checksum; try done; lia.
  - destruct (word_sum_splice (pre ++ seg) (12 + o) 0 0 Ho12) as (rest & Hws & Hr); [lia|].
    specialize (Hr G0 G1).
    apply internet_checksum_valid, checksum_is_valid_iff in Hz as [Hnz Hmod]; [|done|lia].
    apply checksum_is_valid_iff; [apply Forall_splice; [apply be_bytes_ok|done]|len|].
    pose proof (word_sum_nonneg _ Hl).
    rewrite be_bytes_2, Hws. change (256 * (65535 / 256 mod 256) + 65535 mod 256) with 65535. div_lia.
Qed.

(** A verified segment with one byte changed does not verify. *)
Lemma pseudo_detects s d p seg i a b :
  bytes_ok s -> bytes_ok d -> byte_ok p -> bytes_ok seg ->
  length s = 4%nat -> length d = 4%nat -> Z.of_nat (length seg) + 12 <= CHECKSUM_MAX ->
  pseudo_header_checksum s d p seg = 0 -> seg !! i = Some a -> byte_ok b -> b <> a ->
  pseudo_header_checksum s d p (<[i:=b]> seg) <> 0.
Proof.
  intros Hs Hd Hp Hseg Ls Ld Hn Hv Hi Hb Hab.
  pose proof (length_pseudo_prefix s d p (length seg) Ls Ld) as Lp.
  pose proof (pseudo_prefix_ok s d p (length seg) Hs Hd Hp) as Hpre.
  rewrite !pseudo_header_checksum_eq in *. rewrite length_insert.
  set (pre := pseudo_prefix s d p (length seg)) in *. clearbody pre.
  rewrite <- insert_app_r. rewrite internet_checksum_valid, not_true_iff_false.
  apply internet_checksum_valid in Hv.
  eapply detects_byte_change; [bytes|rewrite length_app; lia|done| |done|exact Hab].
  rewrite lookup_app_r by lia. by replace (length pre + i - length pre)%nat with i by lia.
Qed.

Lemma ipv4_header_facts id ttl proto src dst n :
  byte_ok ttl -> byte_ok proto -> bytes_ok src -> bytes_ok dst ->
  length src = 4%nat -> length dst = 4%nat ->
  let h := build_ipv4_header id ttl proto src dst n in
  checksum_is_valid h = true /\ length h = IPV4_HEADER_LEN /\ bytes_ok h /\
  h !! 0%nat = Some 0x45 /\
  slice h 2 4 = Ok (be_bytes 2 (u16 (Z.of_nat (20 + n)))) /\
  h !! 8%nat = Some ttl /\ h !! 9%nat = Some proto /\
  slice h 12 16 = Ok src /\ slice h 16 20 = Ok dst.
Proof.
  intros Ht Hp Hs Hd Ls Ld h.
  destruct src as [|s0 [|s1 [|s2 [|s3 [|]]]]]; try discriminate Ls.
  destruct dst as [|d0 [|d1 [|d2 [|d3 [|]]]]]; try discriminate Ld.
  assert (bytes_ok h) by (unfold h, build_ipv4_header, IPV4_HEADER_LEN; cbn zeta; bytes).
  repeat split; try done.
  unfold h, build_ipv4_header.
  apply embed_checksum; [unfold IPV4_HEADER_LEN; bytes|done|by exists 5%nat|cbn; lia|done|done].
Qed.

(** ** Properties *)

(** The checksum is the complement of the RFC 1071 one's complement sum of the
    buffer's words: the accumulator does not wrap and the carry loop ends. *)
Theorem internet_checksum_rfc1071 l :
  bytes_ok l -> Z.of_nat (length l) <= CHECKSUM_MAX ->
  internet_checksum l = 65535 - ones_sum (word_sum l).
Proof. apply internet_checksum_eq. Qed.

Lemma internet_checksum_rfc1071_witness :
  internet_checksum [0x45; 0x00; 0x00; 0x73; 0x01] = 0xb98c /\
  internet_checksum [0x45; 0x00; 0x00; 0x73; 0x01]
    = 65535 - ones_sum (word_sum [0x45; 0x00; 0x00; 0x73; 0x01]).
Proof.
  split; [reflexivity|]. apply internet_checksum_rfc1071; [|vm_compute; discriminate].
  repeat constructor; lia.
Defined.

(** C35. A valid buffer with one byte changed, at any position, is rejected. *)
Theorem checksum_detects_byte_change l i a b :
  bytes_ok l -> Z.of_nat (length l) <= CHECKSUM_MAX -> checksum_is_valid l = true ->
  l !! i = Some a -> byte_ok b -> b <> a ->
  checksum_is_valid (<[i:=b]> l) = false.
Proof. apply detects_byte_change. Qed.

Lemma checksum_detects_byte_change_witness :
  checksum_is_valid (<[1%nat:=7]> [8; 0; 0xf7; 0xff]) = false.
Proof.
  apply (checksum_detects_byte_change [8; 0; 0xf7; 0xff] 1 0 7);
    [repeat constructor; lia | vm_compute; discriminate | reflexivity | reflexivity
    | split; lia | discriminate].
Defined.

(** The receiver of a built echo message parses exactly what was sent. *)
Theorem parse_build_icmp_echo r id sq data :
  in_u 16 id -> in_u 16 sq -> bytes_ok data ->
  Z.of_nat (length data) + 8 <= CHECKSUM_MAX ->
  parse_icmp_echo (build_icmp_echo r id sq data) = Ok (mk_IcmpEchoInfo r id sq) /\
  drop ICMP_ECHO_HEADER_LEN (build_icmp_echo r id sq data) = data.
Proof.
  intros Hid Hsq Hd Hn. split; [|done].
  pose proof (build_icmp_echo_valid r id sq data Hd Hn) as Hv.
  destruct (build_icmp_echo_bytes r id sq data) as [c Hc]. rewrite Hc in *.
  unfold parse_icmp_echo. rewrite Hv. cbn -[be_of Z.div Z.modulo].
  rewrite !be_of_u16 by done. by destruct r.
Qed.

Lemma parse_build_icmp_echo_witness :
  parse_icmp_echo (build_icmp_echo false 0x1234 7 [1; 2; 3]) = Ok (mk_IcmpEchoInfo false 0x1234 7) /\
  drop ICMP_ECHO_HEADER_LEN (build_icmp_echo false 0x1234 7 [1; 2; 3]) = [1; 2; 3].
Proof.
  apply (parse_build_icmp_echo false 0x1234 7 [1; 2; 3]);
    [split; lia | split; lia | repeat constructor; lia | vm_compute; discriminate].
Defined.

(** The header of [build_ipv4_header] verifies against its own checksum and
    carries the 16-bit total length, the protocol and both addresses at the
    offsets of RFC 791. *)
Theorem build_ipv4_header_wf id ttl proto src dst n :
  byte_ok ttl -> byte_ok proto -> bytes_ok src -> bytes_ok dst ->
  length src = 4%nat -> length dst = 4%nat ->
  let h := build_ipv4_header id ttl proto src dst n in
  checksum_is_valid h = true /\ length h = IPV4_HEADER_LEN /\ bytes_ok h /\
  h !! 0%nat = Some 0x45 /\
  slice h 2 4 = Ok (be_bytes 2 (u16 (Z.of_nat (20 + n)))) /\
  h !! 8%nat = Some ttl /\ h !! 9%nat = Some proto /\
  slice h 12 16 = Ok src /\ slice h 16 20 = Ok dst.
Proof. apply ipv4_header_facts. Qed.

Lemma build_ipv4_header_wf_witness :
  checksum_is_valid (build_ipv4_header 1 64 IP_PROTOCOL_ICMP [10; 0; 2; 15] [10; 0; 2; 2] 8) = true.
Proof.
  apply (build_ipv4_header_wf 1 64 IP_PROTOCOL_ICMP [10; 0; 2; 15] [10; 0; 2; 2] 8);
    first [reflexivity | split; cbv; congruence | bytes].
Defined.
