(* ===== verification/Tcp.v ===== *)
(** * Tcp: TCP headers ([net/tcp.rs])

    The 20-byte header builder, with its pseudo-header checksum, and the parser
    that accepts options but does not read them. *)
From stdpp Require Import base list numbers strings.
From Stdlib Require Import Lia.
From S2P Require Import Prelude Icmp.
Open Scope Z_scope.

Definition TCP_HEADER_LEN : nat := 20.
Definition IP_PROTOCOL_TCP : Z := 6.
Definition TCP_FLAG_FIN : Z := 0x01.
Definition TCP_FLAG_SYN : Z := 0x02.
Definition TCP_FLAG_RST : Z := 0x04.
Definition TCP_FLAG_PSH : Z := 0x08.
Definition TCP_FLAG_ACK : Z := 0x10.
Definition TCP_FLAG_URG : Z := 0x20.

Definition tcp_checksum_is_valid (source_ip dest_ip segment : list Z) : bool :=
  pseudo_header_checksum source_ip dest_ip IP_PROTOCOL_TCP segment =? 0.

Definition build_tcp_header (source_ip dest_ip : list Z)
    (source_port dest_port seq_num ack_num flags window : Z) (payload : list Z) : list Z :=
  let header := replicate TCP_HEADER_LEN 0 in
  let header := splice 0 (be_bytes 2 source_port) header in
  let header := splice 2 (be_bytes 2 dest_port) header in
  let header := splice 4 (be_bytes 4 seq_num) header in
  let header := splice 8 (be_bytes 4 ack_num) header in
  let header := <[12%nat := 0x50]> header in
  let header := <[13%nat := flags]> header in
  let header := splice 14 (be_bytes 2 window) header in
  let segment := header ++ payload in
  let checksum := pseudo_header_checksum source_ip dest_ip IP_PROTOCOL_TCP segment in
  splice 16 (be_bytes 2 checksum) header.

Record TcpSegmentInfo := mk_TcpSegmentInfo {
  source_port : Z;
  dest_port : Z;
  seq_num : Z;
  ack_num : Z;
  flags : Z;
  window : Z;
  header_len : nat;
}.

Definition parse_tcp_segment (source_ip dest_ip segment : list Z) : res TcpSegmentInfo :=
  if (length segment <? TCP_HEADER_LEN)%nat then
    Err "TCP segment shorter than the 20-byte header"
  else
    b12 ← idx segment 12;
    let data_offset_words := Z.shiftr b12 4 in
    if data_offset_words <? 5 then Err "TCP header claims an impossible data offset (< 5)"
    else if negb (tcp_checksum_is_valid source_ip dest_ip segment) then
      Err "TCP checksum mismatch - segment is corrupt or IPs don't match"
    else
      sp ← slice segment 0 2;
      dp ← slice segment 2 4;
      sq ← slice segment 4 8;
      ak ← slice segment 8 12;
      fl ← idx segment 13;
      wi ← slice segment 14 16;
      Ok (mk_TcpSegmentInfo (be_of sp) (be_of dp) (be_of sq) (be_of ak) fl (be_of wi)
            (Z.to_nat data_offset_words * 4)).

(** ** Lemmas *)

(** Reads at the fixed offsets of a long enough buffer all succeed. *)
Ltac reads := repeat (rewrite slice_ok by lia; cbn [mbind res_bind]).

(** The three ways a segment is refused, and the only way it is accepted. *)
Lemma parse_tcp_segment_cases s d seg :
  (exists e, parse_tcp_segment s d seg = Err e) \/
  (exists b12 info, (TCP_HEADER_LEN <= length seg)%nat /\ seg !! 12%nat = Some b12 /\
    5 <= Z.shiftr b12 4 /\ tcp_checksum_is_valid s d seg = true /\
    parse_tcp_segment s d seg = Ok info /\ header_len info = (Z.to_nat (Z.shiftr b12 4) * 4)%nat).
Proof.
  unfold parse_tcp_segment, TCP_HEADER_LEN in *.
  destruct (length seg <? 20)%nat eqn:Hl; [left; by eexists|]. unbool.
  destruct (idx_lt seg 12 ltac:(lia)) as [b12 E12]. rewrite E12. cbn [mbind res_bind].
  destruct (Z.shiftr b12 4 <? 5) eqn:H5; [left; by eexists|]. unbool.
  destruct (tcp_checksum_is_valid s d seg) eqn:Hv; cbn [negb]; [|left; by eexists].
  destruct (idx_lt seg 13 ltac:(lia)) as [b13 E13].
  reads. rewrite E13. cbn [mbind res_bind]. reads.
  right. eexists b12, _. repeat split; try done; by apply idx_Ok.
Qed.

Section Segment.
Context (s d : list Z) (sp dp sq ak fl wi : Z) (payload : list Z).
Hypothesis Hs : bytes_ok s.
Hypothesis Hd : bytes_ok d.
Hypothesis Ls : length s = 4%nat.
Hypothesis Ld : length d = 4%nat.
Hypothesis Hfl : byte_ok fl.
Hypothesis Hpl : bytes_ok payload.
Hypothesis Hn : Z.of_nat (length payload) + 32 <= CHECKSUM_MAX.

(** The header before its checksum is filled in. *)
Definition zero_header : list Z :=
  splice 14 (be_bytes 2 wi) (<[13%nat := fl]> (<[12%nat := 0x50]>
    (splice 8 (be_bytes 4 ak) (splice 4 (be_bytes 4 sq) (splice 2 (be_bytes 2 dp)
      (splice 0 (be_bytes 2 sp) (replicate TCP_HEADER_LEN 0))))))).

Lemma zero_header_ok : bytes_ok zero_header.
Proof. unfold zero_header. bytes. Qed.

Lemma length_zero_header : length zero_header = 20%nat.
Proof. done. Qed.

(** The checksum field, at its offset, is the header's only difference. *)
Lemma build_tcp_header_splice :
  build_tcp_header s d sp dp sq ak fl wi payload ++ payload =
  splice 16 (be_bytes 2 (pseudo_header_checksum s d IP_PROTOCOL_TCP (zero_header ++ payload)))
    (zero_header ++ payload).
Proof.
  unfold build_tcp_header. fold zero_header. generalize length_zero_header.
  generalize (pseudo_header_checksum s d IP_PROTOCOL_TCP (zero_header ++ payload)).
  generalize zero_header. intros h c Lh. unfold splice.
  rewrite take_app_le, drop_app_le by (rewrite ?length_be_bytes; lia). by rewrite <- !app_assoc.
Qed.

Lemma built_segment_valid :
  tcp_checksum_is_valid s d (build_tcp_header s d sp dp sq ak fl wi payload ++ payload) = true.
Proof.
  unfold tcp_checksum_is_valid. rewrite build_tcp_header_splice, Z.eqb_eq.
  pose proof zero_header_ok. 
  apply pseudo_embed; try done; try (by left).
  - bytes.
  - rewrite length_app, length_zero_header. lia.
  - by exists 8%nat.
  - rewrite length_app, length_zero_header. lia.
Qed.
End Segment.

Lemma parse_built_segment s d sp dp sq ak fl wi payload :
  bytes_ok s -> bytes_ok d -> length s = 4%nat -> length d = 4%nat ->
  in_u 16 sp -> in_u 16 dp -> in_u 32 sq -> in_u 32 ak -> byte_ok fl -> in_u 16 wi ->
  bytes_ok payload -> Z.of_nat (length payload) + 32 <= CHECKSUM_MAX ->
  let segment := build_tcp_header s d sp dp sq ak fl wi payload ++ payload in
  parse_tcp_segment s d segment = Ok (mk_TcpSegmentInfo sp dp sq ak fl wi 20) /\
  drop 20 segment = payload.
Proof.
  intros Hs Hd Ls Ld Hsp Hdp Hsq Hak Hfl Hwi Hpl Hn segment.
  pose proof (built_segment_valid s d sp dp sq ak fl wi payload Hs Hd Ls Ld Hfl Hpl Hn) as Hv.
  fold segment in Hv. split; [|done].
  unfold parse_tcp_segment. rewrite Hv.
  assert (Hl : length segment = (20 + length payload)%nat) by (unfold segment; by rewrite length_app).
  rewrite (proj2 (Nat.ltb_ge (length segment) TCP_HEADER_LEN)) by (rewrite Hl; unfold TCP_HEADER_LEN; lia).
  assert (Hh : exists c, segment =
    [sp / 256 mod 256; sp mod 256; dp / 256 mod 256; dp mod 256;
     sq / 256 / 256 / 256 mod 256; sq / 256 / 256 mod 256; sq / 256 mod 256; sq mod 256;
     ak / 256 / 256 / 256 mod 256; ak / 256 / 256 mod 256; ak / 256 mod 256; ak mod 256;
     0x50; fl; wi / 256 mod 256; wi mod 256; c / 256 mod 256; c mod 256; 0; 0] ++ payload)
    by (eexists; reflexivity).
  destruct Hh as [c ->].
  cbn [idx lookup list_lookup app mbind res_bind].
  change (Z.shiftr 0x50 4 <? 5) with false. cbn [negb].
  repeat (rewrite slice_ok by (cbn; lia); cbn [mbind res_bind]).
  cbn [take drop Nat.sub]. by rewrite !be_of_u16, !be_of_u32 by done.
Qed.

(** ** Properties *)

(** The receiver of a built segment, with the same addresses, parses exactly
    the fields that were sent and finds the payload right after the header. *)
Theorem parse_build_tcp s d sp dp sq ak fl wi payload :
  bytes_ok s -> bytes_ok d -> length s = 4%nat -> length d = 4%nat ->
  in_u 16 sp -> in_u 16 dp -> in_u 32 sq -> in_u 32 ak -> byte_ok fl -> in_u 16 wi ->
  bytes_ok payload -> Z.of_nat (length payload) + 32 <= CHECKSUM_MAX ->
  let segment := build_tcp_header s d sp dp sq ak fl wi payload ++ payload in
  parse_tcp_segment s d segment = Ok (mk_TcpSegmentInfo sp dp sq ak fl wi 20) /\
  drop 20 segment = payload.
Proof. apply parse_built_segment. Qed.

Lemma parse_build_tcp_witness :
  let segment := build_tcp_header [10; 0; 2; 15] [10; 0; 2; 2] 49152 80 1000 0 TCP_FLAG_SYN 8192 [104; 105]
                 ++ [104; 105] in
  parse_tcp_segment [10; 0; 2; 15] [10; 0; 2; 2] segment =
    Ok (mk_TcpSegmentInfo 49152 80 1000 0 TCP_FLAG_SYN 8192 20) /\ drop 20 segment = [104; 105].
Proof.
  apply (parse_build_tcp [10; 0; 2; 15] [10; 0; 2; 2] 49152 80 1000 0 TCP_FLAG_SYN 8192 [104; 105]);
    first [reflexivity | solve [bytes] | split; cbv; congruence | vm_compute; discriminate].
Defined.

(** The parser returns a segment or an error for every buffer, never
    panicking; and once it accepts a segment, the same segment with any one byte
    changed, header or payload, is refused. *)
Theorem tcp_rejects_corruption s d seg :
  bytes_ok s -> bytes_ok d -> length s = 4%nat -> length d = 4%nat ->
  bytes_ok seg -> Z.of_nat (length seg) + 12 <= CHECKSUM_MAX ->
  settles (parse_tcp_segment s d seg) /\
  forall info i a b, parse_tcp_segment s d seg = Ok info ->
    seg !! i = Some a -> byte_ok b -> b <> a ->
    exists e, parse_tcp_segment s d (<[i:=b]> seg) = Err e.
Proof.
  intros Hs Hd Ls Ld Hseg Hn.
  destruct (parse_tcp_segment_cases s d seg) as [[e E]|(b12 & info & Hl & _ & _ & Hv & E & _)];
    rewrite E; (split; [done|]); [done|]. intros ? i a b _ Hi Hb Hab.
  destruct (parse_tcp_segment_cases s d (<[i:=b]> seg)) as [?|(? & ? & _ & _ & _ & Hv' & _)]; [done|].
  unfold tcp_checksum_is_valid in Hv, Hv'. apply Z.eqb_eq in Hv, Hv'. exfalso.
  by eapply (pseudo_detects s d IP_PROTOCOL_TCP seg).
Qed.

Lemma tcp_rejects_corruption_witness :
  let s := [10; 0; 2; 15] in let d := [10; 0; 2; 2] in
  let seg := build_tcp_header s d 7 9 1 2 TCP_FLAG_ACK 100 [] in
  exists e, parse_tcp_segment s d (<[4%nat := 1]> seg) = Err e.
Proof.
  intros s d seg.
  assert (Hseg : bytes_ok seg)
    by (unfold seg, s, d, build_tcp_header, TCP_HEADER_LEN, TCP_FLAG_ACK; bytes).
  destruct (tcp_rejects_corruption s d seg) as [_ H]; try done;
    try (unfold s, d; bytes); try (vm_compute; discriminate).
  eapply (H (mk_TcpSegmentInfo 7 9 1 2 TCP_FLAG_ACK 100 20) 4%nat 0 1);
    [reflexivity | reflexivity | split; lia | lia].
Defined.
