(* ===== verification/Udp.v ===== *)
(** * Udp: UDP datagrams ([net/udp.rs])

    The 8-byte header builder, which never sends the reserved checksum 0, and
    the parser, which takes a received checksum of 0 as "not computed". *)
From stdpp Require Import base list numbers strings.
From Stdlib Require Import Lia.
From S2P Require Import Prelude Icmp.
Open Scope Z_scope.

Definition UDP_HEADER_LEN : nat := 8.
Definition IP_PROTOCOL_UDP : Z := 17.

Definition udp_checksum_is_valid (source_ip dest_ip datagram : list Z) : res bool :=
  no_sum ←
    (if (UDP_HEADER_LEN <=? length datagram)%nat then
       b6 ← idx datagram 6;
       if b6 =? 0 then b7 ← idx datagram 7; Ok (b7 =? 0) else Ok false
     else Ok false);
  if (no_sum : bool) then Ok true
  else Ok (pseudo_header_checksum source_ip dest_ip IP_PROTOCOL_UDP datagram =? 0).

Definition build_udp_header (source_ip dest_ip : list Z) (source_port dest_port : Z)
    (payload : list Z) : list Z :=
  let header := replicate UDP_HEADER_LEN 0 in
  let header := splice 0 (be_bytes 2 source_port) header in
  let header := splice 2 (be_bytes 2 dest_port) header in
  let udp_len := u16 (Z.of_nat (UDP_HEADER_LEN + length payload)) in
  let header := splice 4 (be_bytes 2 udp_len) header in
  let datagram := header ++ payload in
  let checksum := pseudo_header_checksum source_ip dest_ip IP_PROTOCOL_UDP datagram in
  let checksum := if checksum =? 0 then 0xFFFF else checksum in
  splice 6 (be_bytes 2 checksum) header.

Record UdpDatagramInfo := mk_UdpDatagramInfo {
  source_port : Z;
  dest_port : Z;
  length_field : Z;
}.

Definition parse_udp_datagram (source_ip dest_ip datagram : list Z) : res UdpDatagramInfo :=
  if (length datagram <? UDP_HEADER_LEN)%nat then
    Err "UDP datagram shorter than the 8-byte header"
  else
    valid ← udp_checksum_is_valid source_ip dest_ip datagram;
    if negb valid then Err "UDP checksum mismatch - datagram is corrupt or IPs don't match"
    else
      sp ← slice datagram 0 2;
      dp ← slice datagram 2 4;
      ln ← slice datagram 4 6;
      Ok (mk_UdpDatagramInfo (be_of sp) (be_of dp) (be_of ln)).

(** ** Lemmas *)

(** The checksum test on a buffer with a complete header. *)
Lemma udp_checksum_is_valid_eq s d dg b6 b7 :
  (UDP_HEADER_LEN <= length dg)%nat -> dg !! 6%nat = Some b6 -> dg !! 7%nat = Some b7 ->
  udp_checksum_is_valid s d dg =
  Ok (if decide (b6 = 0 /\ b7 = 0) then true
      else pseudo_header_checksum s d IP_PROTOCOL_UDP dg =? 0).
Proof.
  intros Hl H6 H7. unfold udp_checksum_is_valid, idx.
  rewrite (proj2 (Nat.leb_le _ _) Hl), H6, H7. cbn [mbind res_bind].
  destruct (decide (b6 = 0 /\ b7 = 0)) as [[-> ->]|Hne]; [done|].
  destruct (Z.eqb_spec b6 0) as [->|]; cbn [mbind res_bind]; [|done].
  destruct (Z.eqb_spec b7 0) as [->|]; [by destruct Hne|done].
Qed.

(** The parser always settles, and accepts exactly what the test accepts. *)
Lemma parse_udp_datagram_cases s d dg :
  (exists e, parse_udp_datagram s d dg = Err e) \/
  (exists info, (UDP_HEADER_LEN <= length dg)%nat /\ udp_checksum_is_valid s d dg = Ok true /\
    parse_udp_datagram s d dg = Ok info).
Proof.
  unfold parse_udp_datagram.
  destruct (length dg <? UDP_HEADER_LEN)%nat eqn:Hl; [left; by eexists|]. unbool.
  unfold UDP_HEADER_LEN in Hl.
  destruct (lookup_lt_is_Some_2 dg 6 ltac:(lia)) as [b6 H6].
  destruct (lookup_lt_is_Some_2 dg 7 ltac:(lia)) as [b7 H7].
  rewrite (udp_checksum_is_valid_eq s d dg b6 b7) by done. cbn [mbind res_bind].
  destruct (if decide _ then true else _); cbn [negb]; [|left; by eexists].
  right. repeat (rewrite slice_ok by lia; cbn [mbind res_bind]). by eexists.
Qed.

Section Datagram.
Context (s d : list Z) (sp dp : Z) (payload : list Z).
Hypothesis Hs : bytes_ok s.
Hypothesis Hd : bytes_ok d.
Hypothesis Ls : length s = 4%nat.
Hypothesis Ld : length d = 4%nat.
Hypothesis Hpl : bytes_ok payload.
Hypothesis Hn : Z.of_nat (length payload) + 20 <= CHECKSUM_MAX.

(** The header before its checksum is filled in. *)
Definition zero_header : list Z :=
  splice 4 (be_bytes 2 (u16 (Z.of_nat (UDP_HEADER_LEN + length payload))))
    (splice 2 (be_bytes 2 dp) (splice 0 (be_bytes 2 sp) (replicate UDP_HEADER_LEN 0))).

(** The checksum the builder sends. *)
Definition sent_checksum : Z :=
  let c := pseudo_header_checksum s d IP_PROTOCOL_UDP (zero_header ++ payload) in
  if c =? 0 then 0xFFFF else c.

Lemma sent_checksum_range : 0 < sent_checksum < 65536.
Proof.
  unfold sent_checksum. rewrite pseudo_header_checksum_eq.
  pose proof (internet_checksum_range
    (pseudo_prefix s d IP_PROTOCOL_UDP (length (zero_header ++ payload)) ++ zero_header ++ payload)) as H.
  unfold in_u in H. destruct (Z.eqb_spec (internet_checksum (pseudo_prefix s d IP_PROTOCOL_UDP
    (length (zero_header ++ payload)) ++ zero_header ++ payload)) 0); lia.
Qed.

Lemma build_udp_header_splice :
  build_udp_header s d sp dp payload ++ payload =
  splice 6 (be_bytes 2 sent_checksum) (zero_header ++ payload).
Proof.
  unfold build_udp_header. fold zero_header. change (if pseudo_header_checksum s d
    IP_PROTOCOL_UDP (zero_header ++ payload) =? 0 then _ else _) with sent_checksum.
  assert (Lh : length zero_header = 8%nat) by done. revert Lh.
  generalize sent_checksum, zero_header. intros c h Lh. unfold splice.
  rewrite take_app_le, drop_app_le by (rewrite ?length_be_bytes; lia). by rewrite <- !app_assoc.
Qed.

Lemma built_datagram_sum :
  pseudo_header_checksum s d IP_PROTOCOL_UDP (build_udp_header s d sp dp payload ++ payload) = 0.
Proof.
  rewrite build_udp_header_splice.
  assert (length zero_header = 8%nat) by done.
  apply pseudo_embed; try done.
  - unfold zero_header. bytes.
  - rewrite length_app. lia.
  - by exists 3%nat.
  - rewrite length_app. lia.
  - unfold sent_checksum. destruct (Z.eqb_spec (pseudo_header_checksum s d IP_PROTOCOL_UDP
      (zero_header ++ payload)) 0); [by right|by left].
Qed.

(** The bytes of a built datagram. *)
Lemma build_udp_bytes :
  build_udp_header s d sp dp payload ++ payload =
  [sp / 256 mod 256; sp mod 256; dp / 256 mod 256; dp mod 256;
   u16 (Z.of_nat (8 + length payload)) / 256 mod 256; u16 (Z.of_nat (8 + length payload)) mod 256;
   sent_checksum / 256 mod 256; sent_checksum mod 256] ++ payload.
Proof. rewrite build_udp_header_splice. reflexivity. Qed.
End Datagram.

Lemma parse_built_datagram s d sp dp payload :
  bytes_ok s -> bytes_ok d -> length s = 4%nat -> length d = 4%nat ->
  in_u 16 sp -> in_u 16 dp -> bytes_ok payload -> Z.of_nat (length payload) + 8 < 65536 ->
  let datagram := build_udp_header s d sp dp payload ++ payload in
  parse_udp_datagram s d datagram =
    Ok (mk_UdpDatagramInfo sp dp (Z.of_nat (length payload) + 8)) /\
  drop UDP_HEADER_LEN datagram = payload /\
  slice datagram 6 8 <> Ok [0; 0] /\
  pseudo_header_checksum s d IP_PROTOCOL_UDP datagram = 0.
Proof.
  intros Hs Hd Ls Ld Hsp Hdp Hpl Hn datagram.
  pose proof (built_datagram_sum s d sp dp payload Hs Hd Ls Ld Hpl) as Hv.
  pose proof (sent_checksum_range s d sp dp payload) as Hc.
  specialize (Hc Ls Ld). specialize (Hv ltac:(unfold CHECKSUM_MAX; lia)). split; [|split; [done|split; [|exact Hv]]].
  - unfold parse_udp_datagram. fold datagram in Hv.
    assert (Hl : (UDP_HEADER_LEN <= length datagram)%nat)
      by (unfold datagram; rewrite build_udp_bytes by done; unfold UDP_HEADER_LEN; cbn; lia).
    rewrite (proj2 (Nat.ltb_ge _ _) Hl).
    erewrite udp_checksum_is_valid_eq;
      [|done|unfold datagram; rewrite build_udp_bytes by done; reflexivity..].
    rewrite Hv. change (0 =? 0) with true.
    replace (if decide _ then true else true) with true by (by case_match). cbn [mbind res_bind negb].
    unfold datagram. rewrite build_udp_bytes by done.
    repeat (rewrite slice_ok by (cbn; lia); cbn [mbind res_bind]).
    cbn [take drop Nat.sub app]. rewrite !be_of_u16; try done; [|by apply wrap_in_u].
    rewrite wrap_id by (unfold in_u; lia). do 2 f_equal. lia.
  - unfold datagram. rewrite build_udp_bytes by done. rewrite slice_ok by (cbn; lia).
    cbn [take drop Nat.sub app]. intros [= H1 H2]. div_lia.
Qed.

(** ** Properties *)

(** The receiver of a built datagram parses exactly the ports and the length
    that were sent, and the payload follows; the checksum field on the wire is
    never 0, the value reserved for "not computed". *)
Theorem parse_build_udp s d sp dp payload :
  bytes_ok s -> bytes_ok d -> length s = 4%nat -> length d = 4%nat ->
  in_u 16 sp -> in_u 16 dp -> bytes_ok payload -> Z.of_nat (length payload) + 8 < 65536 ->
  let datagram := build_udp_header s d sp dp payload ++ payload in
  parse_udp_datagram s d datagram =
    Ok (mk_UdpDatagramInfo sp dp (Z.of_nat (length payload) + 8)) /\
  drop UDP_HEADER_LEN datagram = payload /\
  slice datagram 6 8 <> Ok [0; 0] /\
  pseudo_header_checksum s d IP_PROTOCOL_UDP datagram = 0.
Proof. apply parse_built_datagram. Qed.

Lemma parse_build_udp_witness :
  let s := [192; 168; 1; 100] in let d := [10; 0; 2; 3] in
  parse_udp_datagram s d (build_udp_header s d 49152 53 [1; 2; 3] ++ [1; 2; 3]) =
    Ok (mk_UdpDatagramInfo 49152 53 11).
Proof.
  apply (parse_build_udp [192; 168; 1; 100] [10; 0; 2; 3] 49152 53 [1; 2; 3]);
    first [reflexivity | solve [bytes] | split; cbv; congruence | lia].
Defined.

(** The parser settles on every buffer; and a datagram it accepts whose sum
    was computed is refused once any byte outside the checksum field changes. *)
Theorem udp_rejects_corruption s d dg :
  bytes_ok s -> bytes_ok d -> length s = 4%nat -> length d = 4%nat ->
  bytes_ok dg -> Z.of_nat (length dg) + 12 <= CHECKSUM_MAX ->
  settles (parse_udp_datagram s d dg) /\
  forall info i a b, parse_udp_datagram s d dg = Ok info -> slice dg 6 8 <> Ok [0; 0] ->
    dg !! i = Some a -> i <> 6%nat -> i <> 7%nat -> byte_ok b -> b <> a ->
    exists e, parse_udp_datagram s d (<[i:=b]> dg) = Err e.
Proof.
  intros Hs Hd Ls Ld Hdg Hn.
  destruct (parse_udp_datagram_cases s d dg) as [[e E]|(info & Hl & Hv & E)];
    rewrite E; (split; [done|]); [done|]. intros ? i a b _ Hz Hi H6 H7 Hb Hab.
  destruct (parse_udp_datagram_cases s d (<[i:=b]> dg)) as [?|(? & Hl' & Hv' & _)]; [done|]. exfalso.
  unfold UDP_HEADER_LEN in *.
  destruct (lookup_lt_is_Some_2 dg 6 ltac:(lia)) as [b6 E6].
  destruct (lookup_lt_is_Some_2 dg 7 ltac:(lia)) as [b7 E7].
  erewrite udp_checksum_is_valid_eq in Hv by done.
  erewrite udp_checksum_is_valid_eq in Hv' by (done || by rewrite list_lookup_insert_ne).
  rewrite decide_False in Hv, Hv'.
  - apply Ok_inj in Hv, Hv'. apply Z.eqb_eq in Hv, Hv'.
    eapply (pseudo_detects s d IP_PROTOCOL_UDP dg i a b); try done.
  - intros [-> ->]. apply Hz. rewrite slice_ok by lia. f_equal.
    by rewrite (drop_S _ _ _ E6), (drop_S _ _ _ E7).
  - intros [-> ->]. apply Hz. rewrite slice_ok by lia. f_equal.
    by rewrite (drop_S _ _ _ E6), (drop_S _ _ _ E7).
Qed.

Lemma udp_rejects_corruption_witness :
  let s := [10; 0; 2; 15] in let d := [10; 0; 2; 3] in
  let dg := build_udp_header s d 7 9 [5] ++ [5] in
  exists e, parse_udp_datagram s d (<[8%nat := 1]> dg) = Err e.
Proof.
  intros s d dg.
  assert (Hdg : bytes_ok dg) by (unfold dg, s, d, build_udp_header, UDP_HEADER_LEN; bytes).
  destruct (udp_rejects_corruption s d dg) as [_ H]; try done;
    try (unfold s, d; bytes); try (vm_compute; discriminate).
  eapply (H (mk_UdpDatagramInfo 7 9 9) 8%nat 5 1);
    [reflexivity | vm_compute; discriminate | reflexivity | lia | lia | split; lia | lia].
Defined.
