(* ===== verification/Dns.v ===== *)
(** * Dns: DNS queries and replies ([net/dns.rs])

    A message is a list of bytes and a host name the bytes of its text.  The
    encoder appends to a caller's vector, so it is a computation on that vector
    ([M (list Z)]), which keeps what was pushed before an error.  The label walk
    of [name_field_len] has fuel one more than the message's length: every round
    moves forward by at least one byte ([label_walk_settles]).  [rr] and [wire]
    are the specification of a reply: resource records and their encoding in the
    name shapes of RFC 1035 section 4.1.4. *)
From stdpp Require Import base list numbers strings.
From Stdlib Require Import Lia.
From S2P Require Import Prelude.
Open Scope Z_scope.

Definition DNS_HEADER_LEN : nat := 12.
Definition DNS_TYPE_A : Z := 1.
Definition DNS_TYPE_AAAA : Z := 28.
Definition DNS_QCLASS_IN : Z := 1.
Definition MAX_LABEL_LEN : nat := 63.
Definition MAX_QNAME_ENCODED_LEN : nat := 255.

(** [loop { ... }] of [name_field_len]: the position after the name. *)
Fixpoint label_walk (fuel : nat) (message : list Z) (pos : nat) : res nat :=
  match fuel with
  | O => Hang
  | S f =>
      if (length message <=? pos)%nat then
        Err "answer record NAME runs past the end of the message"
      else
        label_len ← idx message pos;
        if Z.land label_len 0xC0 =? 0xC0 then
          if (length message <=? pos + 1)%nat then
            Err "answer record NAME's own compression pointer is missing its second byte"
          else Ok (pos + 2)%nat
        else if label_len =? 0 then Ok (pos + 1)%nat
        else if (MAX_LABEL_LEN <? Z.to_nat label_len)%nat then
          Err "answer record NAME has a label over 63 bytes"
        else label_walk f message (pos + (1 + Z.to_nat label_len))
  end.

Definition name_field_len (message : list Z) (offset : nat) : res nat :=
  if (length message <=? offset)%nat then
    Err "answer record NAME starts past the end of the message"
  else
    b ← idx message offset;
    if Z.land b 0xC0 =? 0xC0 then
      if (length message <=? offset + 1)%nat then
        Err "answer record NAME's own compression pointer is missing its second byte"
      else Ok 2%nat
    else
      pos ← label_walk (S (length message)) message offset;
      Ok (pos - offset)%nat.

(** [for _ in 0..ancount] of [find_first_record_rdata]. *)
Fixpoint find_record (n : nat) (message : list Z) (offset : nat) (record_type : Z) : res (list Z) :=
  match n with
  | O => Err "no record of the requested type found among this reply's own answer records"
  | S m =>
      name_len ← name_field_len message offset;
      let fixed_start := (offset + name_len)%nat in
      if (length message <? fixed_start + 10)%nat then
        Err "DNS message too short to contain the answer record's fixed fields"
      else
        t0 ← idx message fixed_start; t1 ← idx message (fixed_start + 1);
        r0 ← idx message (fixed_start + 8); r1 ← idx message (fixed_start + 9);
        let this_type := be_of [t0; t1] in
        let rdlength := Z.to_nat (be_of [r0; r1]) in
        let rdata_start := (fixed_start + 10)%nat in
        if (length message <? rdata_start + rdlength)%nat then
          Err "DNS message too short to contain the answer record's own RDATA"
        else if this_type =? record_type then slice message rdata_start (rdata_start + rdlength)
        else find_record m message (rdata_start + rdlength) record_type
  end.

Definition find_first_record_rdata (message : list Z) (question_len : nat) (record_type : Z)
    : res (list Z) :=
  if (length message <? DNS_HEADER_LEN)%nat then Err "DNS message shorter than the 12-byte header"
  else
    a ← idx message 6; b ← idx message 7;
    let ancount := be_of [a; b] in
    if ancount =? 0 then Err "DNS response has zero answer records"
    else find_record (Z.to_nat ancount) message (DNS_HEADER_LEN + question_len) record_type.

Definition parse_first_a_record (message : list Z) (question_len : nat) : res (list Z) :=
  rdata ← map_err "no A record found among this reply's own answer records"
            (find_first_record_rdata message question_len DNS_TYPE_A);
  if negb (length rdata =? 4)%nat then Err "A record's own RDLENGTH is not 4"
  else Ok rdata.

Definition parse_first_aaaa_record (message : list Z) (question_len : nat) : res (list Z) :=
  rdata ← map_err "no AAAA record found among this reply's own answer records"
            (find_first_record_rdata message question_len DNS_TYPE_AAAA);
  if negb (length rdata =? 16)%nat then Err "AAAA record's own RDLENGTH is not 16"
  else Ok rdata.

(** [hostname.split('.')] *)
Fixpoint split_dots (s : list Z) : list (list Z) :=
  match s with
  | [] => [[]]
  | c :: r =>
      if c =? 0x2E then [] :: split_dots r
      else match split_dots r with
           | l :: ls => (c :: l) :: ls
           | [] => [[c]]
           end
  end.

Definition push (bs : list Z) : M (list Z) unit := modify (fun out => out ++ bs).

(** One label of [encode_qname]'s loop; the accumulator is [encoded_len]. *)
Definition encode_label (label : list Z) (encoded_len : nat) : M (list Z) (nat + unit) :=
  if (length label =? 0)%nat then
    lift (Err "hostname has an empty label (leading, trailing, or doubled '.')")
  else if (MAX_LABEL_LEN <? length label)%nat then lift (Err "hostname label exceeds 63 bytes")
  else
    let encoded_len := (encoded_len + (1 + length label))%nat in
    if (MAX_QNAME_ENCODED_LEN <? encoded_len + 1)%nat then
      lift (Err "hostname exceeds 255 bytes when DNS-encoded")
    else
      push [u8 (Z.of_nat (length label))];;
      push label;;
      mret (inl encoded_len).

Definition encode_qname (hostname : list Z) : M (list Z) unit :=
  if (length hostname =? 0)%nat then lift (Err "hostname is empty")
  else
    for_each (split_dots hostname) encode_label 0%nat;;
    push [0].

Definition build_query (transaction_id : Z) (hostname : list Z) (qtype : Z) : res (list Z) :=
  let build : M (list Z) (list Z) :=
    push (be_bytes 2 transaction_id);;
    push [0x01; 0x00];;
    push [0x00; 0x01];;
    push [0x00; 0x00];;
    push [0x00; 0x00];;
    push [0x00; 0x00];;
    encode_qname hostname;;
    push (be_bytes 2 qtype);;
    push (be_bytes 2 DNS_QCLASS_IN);;
    gets (fun query => query) in
  (build []).1.

(** ** Specification: names and records on the wire *)

(** How a name ends: the root label, or a pointer to where it goes on. *)
Inductive name_end := EndRoot | EndPointer (hi lo : Z).

Definition wire_end (e : name_end) : list Z :=
  match e with EndRoot => [0] | EndPointer hi lo => [hi; lo] end.

Definition wire_label (l : list Z) : list Z := Z.of_nat (length l) :: l.

Definition wire_name (labels : list (list Z)) (e : name_end) : list Z :=
  concat (map wire_label labels) ++ wire_end e.

Definition label_ok (l : list Z) : Prop := (1 <= length l <= MAX_LABEL_LEN)%nat.

Definition end_ok (e : name_end) : Prop :=
  match e with EndRoot => True | EndPointer hi _ => 192 <= hi < 256 end.

Record rr := mk_rr {
  rr_labels : list (list Z);
  rr_end : name_end;
  rr_type : Z;
  rr_class : Z;
  rr_ttl : Z;
  rr_rdata : list Z;
}.

Definition rr_ok (r : rr) : Prop :=
  Forall label_ok (rr_labels r) /\ end_ok (rr_end r) /\ in_u 16 (rr_type r) /\
  in_u 16 (Z.of_nat (length (rr_rdata r))).

Definition wire (r : rr) : list Z :=
  wire_name (rr_labels r) (rr_end r) ++ be_bytes 2 (rr_type r) ++ be_bytes 2 (rr_class r) ++
  be_bytes 4 (rr_ttl r) ++ be_bytes 2 (Z.of_nat (length (rr_rdata r))) ++ rr_rdata r.

(** The data of the first record of a type. *)
Fixpoint first_rdata (t : Z) (rs : list rr) : option (list Z) :=
  match rs with
  | [] => None
  | r :: rs' => if rr_type r =? t then Some (rr_rdata r) else first_rdata t rs'
  end.

(** A host name the encoder takes. *)
Definition hostname_ok (h : list Z) : Prop :=
  Forall label_ok (split_dots h) /\
  (length (wire_name (split_dots h) EndRoot) <= MAX_QNAME_ENCODED_LEN)%nat.

(** The labels put back together with dots. *)
Fixpoint join_dots (ls : list (list Z)) : list Z :=
  match ls with
  | [] => []
  | [l] => l
  | l :: r => l ++ 0x2E :: join_dots r
  end.

(** ** Lemmas on names *)

Lemma pointer_byte_eq b : 0 <= b < 256 -> (Z.land b 0xC0 =? 0xC0) = (192 <=? b).
Proof.
  assert (H : all_below 256 (fun b => Bool.eqb (Z.land b 0xC0 =? 0xC0) (192 <=? b)) = true)
    by (vm_compute; reflexivity).
  intros Hb. by apply Bool.eqb_prop, (all_below_spec 256 _ H b).
Qed.

Lemma idx_app {A} (pre post : list A) x : idx (pre ++ x :: post) (length pre) = Ok x.
Proof. apply idx_Ok. by rewrite list_lookup_middle. Qed.

Lemma label_walk_settles f message pos :
  (length message - pos < f)%nat -> settles (label_walk f message pos).
Proof.
  revert pos. induction f as [|f IH]; intros pos Hf; cbn [label_walk].
  - lia.
  - destruct (_ <=? _)%nat eqn:E; [done|]. unbool.
    destruct (idx_lt message pos E) as [x ->]. cbn [mbind res_bind].
    destruct (_ =? 0xC0); [by case_match|]. destruct (x =? 0); [done|].
    destruct (_ <? _)%nat; [done|]. apply IH. lia.
Qed.

Lemma name_field_len_settles message offset : settles (name_field_len message offset).
Proof.
  unfold name_field_len. destruct (_ <=? _)%nat eqn:E; [done|]. unbool.
  destruct (idx_lt message offset E) as [x ->]. cbn [mbind res_bind].
  destruct (_ =? 0xC0); [by case_match|].
  apply settles_bind; [apply label_walk_settles; lia|done].
Qed.

Lemma find_record_settles n message offset t : settles (find_record n message offset t).
Proof.
  revert offset. induction n as [|n IH]; intros offset; cbn [find_record]; [done|].
  apply settles_bind; [apply name_field_len_settles|]. intros nl _.
  destruct (_ <? _)%nat eqn:E; [done|]. unbool.
  destruct (idx_lt message (offset + nl) ltac:(lia)) as [t0 ->].
  destruct (idx_lt message (offset + nl + 1) ltac:(lia)) as [t1 ->].
  destruct (idx_lt message (offset + nl + 8) ltac:(lia)) as [r0 ->].
  destruct (idx_lt message (offset + nl + 9) ltac:(lia)) as [r1 ->]. cbn [mbind res_bind].
  destruct (_ <? _)%nat eqn:E2; [done|]. unbool.
  case_match; [apply settles_slice; lia|apply IH].
Qed.

Lemma wire_name_cons l labels e post :
  wire_name (l :: labels) e ++ post = Z.of_nat (length l) :: l ++ wire_name labels e ++ post.
Proof. unfold wire_name, wire_label. cbn. by rewrite <- !app_assoc. Qed.

Lemma length_wire_name_cons l labels e :
  length (wire_name (l :: labels) e) = (1 + length l + length (wire_name labels e))%nat.
Proof.
  pose proof (wire_name_cons l labels e []) as H. rewrite !app_nil_r in H.
  rewrite H. cbn. rewrite length_app. lia.
Qed.

(** The walk over a name in any of its shapes ends right after it. *)
Lemma label_walk_wire labels e pre post f :
  Forall label_ok labels -> end_ok e ->
  (length labels < f)%nat ->
  label_walk f (pre ++ wire_name labels e ++ post) (length pre) =
    Ok (length pre + length (wire_name labels e))%nat.
Proof.
  intros Hl He. revert pre f. induction Hl as [|l labels Hl Hls IH]; intros pre [|f] Hf;
    try (cbn in Hf; lia); cbn [label_walk].
  - unfold wire_name. cbn [map concat app].
    destruct e as [|hi lo]; cbn [wire_end app end_ok length] in *;
      rewrite (proj2 (Nat.leb_gt _ _)) by (rewrite length_app; cbn; lia);
      rewrite idx_app; cbn [mbind res_bind]; [done|].
    rewrite pointer_byte_eq, (proj2 (Z.leb_le _ _)) by lia.
    by rewrite (proj2 (Nat.leb_gt _ _)) by (rewrite length_app; cbn; lia).
  - rewrite wire_name_cons. unfold label_ok, MAX_LABEL_LEN in *.
    rewrite (proj2 (Nat.leb_gt _ _)) by (rewrite length_app; cbn; lia).
    rewrite idx_app. cbn [mbind res_bind].
    rewrite pointer_byte_eq, (proj2 (Z.leb_gt _ _)), (proj2 (Z.eqb_neq _ _)), Nat2Z.id by lia.
    rewrite (proj2 (Nat.ltb_ge _ _)) by lia.
    specialize (IH (pre ++ Z.of_nat (length l) :: l) f ltac:(cbn in Hf; lia)).
    rewrite length_app, <- app_assoc in IH. cbn [length app] in IH.
    change (1 + length l)%nat with (S (length l)). rewrite IH.
    f_equal. rewrite length_wire_name_cons. lia.
Qed.

Lemma length_labels labels : (length labels <= length (concat (map wire_label labels)))%nat.
Proof. induction labels; cbn; [lia|]. rewrite length_app. lia. Qed.

Lemma name_field_len_wire labels e pre post :
  Forall label_ok labels -> end_ok e ->
  name_field_len (pre ++ wire_name labels e ++ post) (length pre) =
    Ok (length (wire_name labels e)).
Proof.
  intros Hl He.
  assert (Hw : label_walk (S (length (pre ++ wire_name labels e ++ post)))
                 (pre ++ wire_name labels e ++ post) (length pre) =
               Ok (length pre + length (wire_name labels e))%nat).
  { apply label_walk_wire; try done. unfold wire_name. rewrite !length_app.
    pose proof (length_labels labels). lia. }
  unfold name_field_len. rewrite Hw.
  destruct labels as [|l labels]; [destruct e as [|hi lo]|rewrite wire_name_cons];
    cbn [wire_name map concat app wire_end end_ok] in *; 
    rewrite (proj2 (Nat.leb_gt _ _)), idx_app by (rewrite length_app; cbn; lia);
    cbn [mbind res_bind].
  - change (Z.land 0 192 =? 192) with false. f_equal. lia.
  - rewrite pointer_byte_eq, (proj2 (Z.leb_le _ _)) by lia.
    by rewrite (proj2 (Nat.leb_gt _ _)) by (rewrite length_app; cbn; lia).
  - apply Forall_cons in Hl as [Hl _]. unfold label_ok, MAX_LABEL_LEN in Hl.
    rewrite pointer_byte_eq, (proj2 (Z.leb_gt _ _)) by lia. f_equal. lia.
Qed.

(** ** Lemmas on records *)

Lemma length_wire r :
  length (wire r) = (length (wire_name (rr_labels r) (rr_end r)) + 10 + length (rr_rdata r))%nat.
Proof. unfold wire. rewrite !length_app, !length_be_bytes. lia. Qed.

(** One round of the search on an encoded record: its data, or the next record. *)
Lemma find_record_wire n pre r post t :
  rr_ok r ->
  find_record (S n) (pre ++ wire r ++ post) (length pre) t =
  if rr_type r =? t then Ok (rr_rdata r)
  else find_record n (pre ++ wire r ++ post) (length pre + length (wire r)) t.
Proof.
  intros (Hl & He & Ht & Hr). cbn [find_record].
  set (nm := wire_name (rr_labels r) (rr_end r)).
  set (fx := be_bytes 2 (rr_type r) ++ be_bytes 2 (rr_class r) ++ be_bytes 4 (rr_ttl r) ++
             be_bytes 2 (Z.of_nat (length (rr_rdata r)))).
  assert (Hw : wire r = nm ++ fx ++ rr_rdata r) by (unfold wire, nm, fx; by rewrite <- !app_assoc).
  assert (Lf : length fx = 10%nat) by done.
  assert (Hm : pre ++ wire r ++ post = (pre ++ nm) ++ fx ++ rr_rdata r ++ post)
    by (rewrite Hw, <- !app_assoc; done).
  assert (Hn : name_field_len (pre ++ wire r ++ post) (length pre) = Ok (length nm)).
  { rewrite Hw, <- !app_assoc. by apply name_field_len_wire. }
  rewrite Hn. cbn [mbind res_bind]. rewrite Hm.
  assert (Lp : length (pre ++ nm) = (length pre + length nm)%nat) by apply length_app.
  rewrite <- Lp. rewrite (proj2 (Nat.ltb_ge _ _)) by (rewrite !length_app, Lf; lia).
  pose proof (fun k x => idx_mid (pre ++ nm) fx (rr_rdata r ++ post) k x) as Hi.
  pose proof (Hi 0%nat _ eq_refl) as Hi0. rewrite Nat.add_0_r in Hi0.
  rewrite Hi0, (Hi 1%nat _ eq_refl), (Hi 8%nat _ eq_refl), (Hi 9%nat _ eq_refl).
  cbn [mbind res_bind].
  rewrite !be_of_u16, Nat2Z.id by done.
  rewrite (proj2 (Nat.ltb_ge _ _)) by (rewrite !length_app, Lf; lia).
  assert (Hend : (length (pre ++ nm) + 10 + length (rr_rdata r) = length pre + length (wire r))%nat)
    by (rewrite Lp, length_wire; fold nm; lia).
  destruct (rr_type r =? t); [|by rewrite Hend].
  rewrite (app_assoc _ fx).
  replace (length (pre ++ nm) + 10)%nat with (length ((pre ++ nm) ++ fx)) by (rewrite !length_app, Lf; lia).
  by apply slice_mid.
Qed.

Lemma find_record_spec rs pre post t :
  Forall rr_ok rs ->
  find_record (length rs) (pre ++ concat (map wire rs) ++ post) (length pre) t =
  match first_rdata t rs with
  | Some d => Ok d
  | None => Err "no record of the requested type found among this reply's own answer records"
  end.
Proof.
  intros H. revert pre. induction H as [|r rs Hr Hrs IH]; intros pre; [done|].
  cbn [length map concat first_rdata]. rewrite <- app_assoc, find_record_wire by done.
  case_goal; [done|]. rewrite <- length_app, app_assoc. apply IH.
Qed.

(** ** Lemmas on host names *)

Lemma split_dots_ne s : split_dots s <> [].
Proof. destruct s as [|c s]; cbn; [done|]. case_match; [done|]. by case_match. Qed.

Lemma join_split_dots s : join_dots (split_dots s) = s.
Proof.
  induction s as [|c s IH]; [done|]. cbn [split_dots].
  pose proof (split_dots_ne s). destruct (Z.eqb_spec c 0x2E) as [->|].
  - cbn [join_dots]. destruct (split_dots s); [done|]. by rewrite <- IH.
  - destruct (split_dots s) as [|l [|l' ls]]; [done| |]; cbn in *; congruence.
Qed.

(** The loop on labels that are all good and fit: they are pushed in order. *)
Lemma encode_labels_ok ls n out :
  Forall label_ok ls ->
  (n + length (concat (map wire_label ls)) + 1 <= MAX_QNAME_ENCODED_LEN)%nat ->
  for_each ls encode_label n out =
    (Ok (inl (n + length (concat (map wire_label ls)))%nat), out ++ concat (map wire_label ls)).
Proof.
  intros Hl. revert n out. induction Hl as [|l ls Hl Hls IH]; intros n out Hb; cbn [for_each map concat].
  - cbn. rewrite Nat.add_0_r. by rewrite app_nil_r.
  - cbn [map concat wire_label app length] in Hb. rewrite length_app in Hb.
    unfold label_ok, MAX_LABEL_LEN, MAX_QNAME_ENCODED_LEN in *.
    erewrite M_bind_Ok; [|unfold encode_label].
    2:{ rewrite (proj2 (Nat.eqb_neq _ _)), !(proj2 (Nat.ltb_ge _ _))
          by (unfold MAX_LABEL_LEN, MAX_QNAME_ENCODED_LEN; lia). reflexivity. }
    cbv beta iota. rewrite IH by lia. f_equal.
    + do 2 f_equal. cbn [wire_label app length]. rewrite length_app. lia.
    + rewrite wrap_id by (unfold in_u; lia). unfold wire_label. by rewrite <- !app_assoc.
Qed.

(** The loop fails on any other list of labels. *)
Lemma encode_labels_err ls n out :
  ~ (Forall label_ok ls /\
     (n + length (concat (map wire_label ls)) + 1 <= MAX_QNAME_ENCODED_LEN)%nat) ->
  (n + 1 <= MAX_QNAME_ENCODED_LEN)%nat ->
  exists e out', for_each ls encode_label n out = (Err e, out').
Proof.
  revert n out. induction ls as [|l ls IH]; intros n out Hbad Hn; cbn [for_each].
  - destruct Hbad. split; [done|]. cbn. lia.
  - unfold mbind at 1, M_bind at 1, encode_label at 1.
    destruct (_ =? 0)%nat eqn:E1; [by eexists _, _|].
    destruct (MAX_LABEL_LEN <? _)%nat eqn:E2; [by eexists _, _|].
    destruct (MAX_QNAME_ENCODED_LEN <? _)%nat eqn:E3; [by eexists _, _|]. unbool.
    cbn -[for_each]. apply IH; [|lia]. intros [Hf Hb]. apply Hbad. split.
    + constructor; [unfold label_ok; lia|done].
    + cbn [map concat wire_label app length]. rewrite length_app. lia.
Qed.

Lemma length_wire_name ls e :
  length (wire_name ls e) = (length (concat (map wire_label ls)) + length (wire_end e))%nat.
Proof. unfold wire_name. apply length_app. Qed.

Lemma find_first_record_rdata_settles m q t : settles (find_first_record_rdata m q t).
Proof.
  unfold find_first_record_rdata. destruct (_ <? _)%nat eqn:E; [done|]. unbool. unfold DNS_HEADER_LEN in E.
  destruct (idx_lt m 6 ltac:(lia)) as [a ->]. destruct (idx_lt m 7 ltac:(lia)) as [b ->].
  cbn [mbind res_bind]. case_match; [done|]. apply find_record_settles.
Qed.

Lemma a_record_settles m q : settles (parse_first_a_record m q).
Proof.
  unfold parse_first_a_record. apply settles_bind; [apply settles_map_err, find_first_record_rdata_settles|].
  intros d _. by destruct (negb _).
Qed.

(** ** Properties *)

(** C39. On a reply that carries the records [rs] in any of the name shapes of the
    standard, after a header that counts them and a question of [question_len]
    bytes, the parser returns the data of the first A record if it is an
    address, and an error otherwise; and it settles on every other buffer. *)
Theorem parse_first_a_record_spec header question rs trailer :
  length header = 12%nat -> slice header 6 8 = Ok (be_bytes 2 (Z.of_nat (length rs))) ->
  Forall rr_ok rs -> 0 < Z.of_nat (length rs) < 65536 ->
  let message := header ++ question ++ concat (map wire rs) ++ trailer in
  match first_rdata DNS_TYPE_A rs with
  | Some d =>
      if decide (length d = 4%nat) then parse_first_a_record message (length question) = Ok d
      else parse_first_a_record message (length question) = Err "A record's own RDLENGTH is not 4"
  | None =>
      parse_first_a_record message (length question) =
        Err "no A record found among this reply's own answer records"
  end /\
  forall msg qlen, settles (parse_first_a_record msg qlen).
Proof.
  intros Lh Hc Hrs Hn message. split.
  - assert (Hf : find_first_record_rdata message (length question) DNS_TYPE_A =
      match first_rdata DNS_TYPE_A rs with
      | Some d => Ok d
      | None => Err "no record of the requested type found among this reply's own answer records"
      end).
    { unfold find_first_record_rdata, DNS_HEADER_LEN.
      rewrite (proj2 (Nat.ltb_ge (length message) 12)) by (unfold message; rewrite length_app; lia).
      destruct header as [|h0 [|h1 [|h2 [|h3 [|h4 [|h5 [|h6 [|h7 header]]]]]]]]; try discriminate Lh.
      rewrite slice_ok in Hc by (cbn in *; lia). cbn [take drop Nat.sub] in Hc.
      injection Hc as -> ->. cbn [idx lookup list_lookup message app mbind res_bind].
      rewrite be_of_u16, (proj2 (Z.eqb_neq _ _)), Nat2Z.id by (unfold in_u; lia).
      rewrite <- (find_record_spec rs ((h0 :: h1 :: h2 :: h3 :: h4 :: h5 ::
         Z.of_nat (length rs) / 256 mod 256 :: Z.of_nat (length rs) mod 256 :: header) ++ question)
        trailer) by done.
      rewrite length_app, Lh, <- app_assoc. done. }
    unfold parse_first_a_record. rewrite Hf. destruct (first_rdata _ rs) as [d|]; [|done].
    cbn [map_err mbind res_bind]. destruct (decide _) as [->|Hd%Nat.eqb_neq]; [done|by rewrite Hd].
  - intros. apply a_record_settles.
Qed.

Lemma parse_first_a_record_spec_witness :
  let rs := [mk_rr [[119]] EndRoot 5 1 60 [0]; mk_rr [] (EndPointer 0xC0 12) DNS_TYPE_A 1 60 [93; 184; 215; 14]] in
  parse_first_a_record ([0; 1; 0x81; 0x80; 0; 1; 0; 2; 0; 0; 0; 0] ++ [0; 0; 1; 0; 1] ++
    concat (map wire rs) ++ []) 5 = Ok [93; 184; 215; 14].
Proof.
  intros rs.
  destruct (parse_first_a_record_spec [0; 1; 0x81; 0x80; 0; 1; 0; 2; 0; 0; 0; 0] [0; 0; 1; 0; 1] rs [])
    as [H _]; [done|done| |by split|exact H].
  repeat constructor; try (cbn; lia); try by cbv.
Defined.

(** A query is built for exactly the host names whose every label has 1 to 63
    bytes and whose encoding fits 255: it is the header asking one recursive
    question, the labels of the name, and the question's type and class; the name
    walk of the reply parser steps over it, and its labels spell the host name. *)
Theorem build_query_spec id hostname qtype :
  (hostname_ok hostname ->
     exists qname, build_query id hostname qtype =
       Ok (be_bytes 2 id ++ [0x01; 0x00; 0x00; 0x01; 0; 0; 0; 0; 0; 0] ++ qname ++
           be_bytes 2 qtype ++ be_bytes 2 DNS_QCLASS_IN) /\
       qname = wire_name (split_dots hostname) EndRoot /\
       join_dots (split_dots hostname) = hostname /\
       (forall pre post, name_field_len (pre ++ qname ++ post) (length pre) = Ok (length qname))) /\
  (~ hostname_ok hostname -> exists e, build_query id hostname qtype = Err e).
Proof.
  assert (Hne : hostname = [] -> ~ hostname_ok hostname).
  { intros -> [H _]. cbn in H. apply Forall_cons in H as [H _]. unfold label_ok in H. cbn in H. lia. }
  split; intros Hok.
  - eexists. split; [|split; [reflexivity|split; [apply join_split_dots|]]].
    2:{ intros pre post. by apply name_field_len_wire; [apply Hok|]. }
    destruct Hok as [Hl Hlen]. rewrite length_wire_name in Hlen. cbn [wire_end length] in Hlen.
    unfold build_query, encode_qname.
    destruct (length hostname =? 0)%nat eqn:E; unbool.
    { apply nil_length_inv in E. by destruct (Hne E); split; [|rewrite length_wire_name]. }
    unfold mbind, M_bind, push, modify, gets. rewrite encode_labels_ok by done.
    cbn -[split_dots be_bytes]. unfold wire_name. cbn [wire_end]. by rewrite <- !app_assoc.
  - unfold build_query, encode_qname.
    destruct (length hostname =? 0)%nat; [by eexists|].
    unfold mbind, M_bind, push, modify, gets.
    match goal with |- context [for_each ?l ?b ?n ?s] =>
      destruct (encode_labels_err l n s) as (e & out & ->) end.
    + intros [Hl Hb]. apply Hok. split; [done|]. rewrite length_wire_name. cbn in *. lia.
    + unfold MAX_QNAME_ENCODED_LEN. lia.
    + by eexists.
Qed.

Lemma build_query_spec_witness :
  exists q, build_query 7 [97; 46; 98] DNS_TYPE_A = Ok q.
Proof.
  destruct (build_query_spec 7 [97; 46; 98] DNS_TYPE_A) as [H _].
  destruct H as (qn & -> & _); [|by eexists].
  split; [repeat constructor; cbn; lia|vm_compute; lia].
Defined.
