(* ===== verification/NetFrame.v ===== *)
(** * NetFrame: whole frames ([net/e1000.rs], [net/tcpip.rs], [net/virtio_net.rs])

    The TCP frames the e1000 driver assembles and the filter it applies to what
    it receives; the UDP broadcast of the simulated VirtIO stack, with the
    simulated driver's state.  The driver's [transmit_packet] keeps no bytes, so
    [send_ipv4_packet] also returns the slice it hands over. *)
From stdpp Require Import base list numbers strings.
From Stdlib Require Import Lia.
From S2P Require Import Prelude Icmp Tcp Udp.
Open Scope Z_scope.

(** ** TCP frames of the e1000 driver *)

Definition build_tcp_frame (dest_mac src_mac src_ip dest_ip tcp_header payload : list Z) : list Z :=
  let ipv4_header :=
    build_ipv4_header 1 64 IP_PROTOCOL_TCP src_ip dest_ip (length tcp_header + length payload) in
  let eth_header := build_ethernet_header dest_mac src_mac ETHERTYPE_IPV4 in
  eth_header ++ ipv4_header ++ tcp_header ++ payload.

(** [a && b], [b] evaluated only when [a] holds. *)
Definition and_then (a : res bool) (b : res bool) : res bool :=
  x ← a; if (x : bool) then b else Ok false.

Definition byte_is (data : list Z) (i : nat) (v : Z) : res bool := b ← idx data i; Ok (b =? v).

(** The checks the clients make of a frame's first headers: long enough, IPv4, the
    protocol, the header checksum, the sender. *)
Definition ipv4_from (data target_ip : list Z) (min_len : nat) (protocol : Z) : res bool :=
  let ip_start := ETHERNET_HEADER_LEN in
  let ip_end := (ip_start + IPV4_HEADER_LEN)%nat in
  and_then (Ok (min_len <? length data)%nat)
    (and_then (byte_is data 12 0x08)
      (and_then (byte_is data 13 0x00)
        (and_then (byte_is data (ip_start + 9) protocol)
          (and_then (h ← slice data ip_start ip_end; Ok (checksum_is_valid h))
            (src ← slice data (ip_start + 12) (ip_start + 16); Ok (bool_decide (src = target_ip))))))).

Definition is_our_reply (data target_ip : list Z) : res bool :=
  ipv4_from data target_ip (ETHERNET_HEADER_LEN + IPV4_HEADER_LEN) IP_PROTOCOL_TCP.

Definition parse_reply_frame (data target_ip src_ip : list Z)
    : res (option (TcpSegmentInfo * list Z)) :=
  let ip_start := ETHERNET_HEADER_LEN in
  let tcp_start := (ip_start + IPV4_HEADER_LEN)%nat in
  ours ← is_our_reply data target_ip;
  if negb ours then Ok None
  else
    b0 ← idx data (ip_start + 2); b1 ← idx data (ip_start + 3);
    let ip_total_len := Z.to_nat (be_of [b0; b1]) in
    let real_tcp_len := (ip_total_len - IPV4_HEADER_LEN)%nat in
    let tcp_end := Nat.min (tcp_start + real_tcp_len) (length data) in
    segment ← slice data tcp_start tcp_end;
    match parse_tcp_segment target_ip src_ip segment with
    | Ok info =>
        let payload_start := (tcp_start + header_len info)%nat in
        payload ← (if (payload_start <=? tcp_end)%nat then slice data payload_start tcp_end else Ok []);
        Ok (Some (info, payload))
    | Err _ => Ok None
    | Panic => Panic
    | Hang => Hang
    end.

Definition is_matching_rst (info : TcpSegmentInfo) (expected_source_port expected_dest_port : Z) : bool :=
  negb (Z.land (Tcp.flags info) TCP_FLAG_RST =? 0) &&
  (Tcp.source_port info =? expected_source_port) && (Tcp.dest_port info =? expected_dest_port).

(** ** The simulated VirtIO driver and its UDP broadcast *)

Record VirtIONetDriver := mk_Driver {
  mac_address : list Z;
  is_initialized : bool;
  rx_packets_count : Z;
  tx_packets_count : Z;
}.

Definition new_driver : VirtIONetDriver :=
  mk_Driver [0x52; 0x54; 0x00; 0x12; 0x34; 0x56] false 0 0.

Definition init (d : VirtIONetDriver) : VirtIONetDriver :=
  mk_Driver (mac_address d) true (rx_packets_count d) (tx_packets_count d).

Definition transmit_packet (packet : list Z) (d : VirtIONetDriver) : bool * VirtIONetDriver :=
  if negb (is_initialized d) then (false, d)
  else (true, mk_Driver (mac_address d) true (rx_packets_count d) (tx_packets_count d + 1)).

Definition receive_packet (len : Z) (d : VirtIONetDriver) : bool * VirtIONetDriver :=
  if negb (is_initialized d) then (false, d)
  else (true, mk_Driver (mac_address d) true (rx_packets_count d + 1) (tx_packets_count d)).

Definition SRC_IP : list Z := [192; 168; 1; 100].
Definition SRC_PORT : Z := 49152.
Definition DEST_PORT : Z := 9000.

(** The bytes handed to [transmit_packet], and the driver afterwards. *)
Definition send_ipv4_packet (dest_ip payload : list Z) (driver : VirtIONetDriver)
    : res (list Z) * VirtIONetDriver :=
  let driver := if negb (is_initialized driver) then init driver else driver in
  let payload := take (Nat.min (length payload) 90) payload in
  let eth_header :=
    build_ethernet_header (replicate 6 0xff) (mac_address driver) ETHERTYPE_IPV4 in
  let udp_header := build_udp_header SRC_IP dest_ip SRC_PORT DEST_PORT payload in
  let ip_header :=
    build_ipv4_header 1 64 IP_PROTOCOL_UDP SRC_IP dest_ip (UDP_HEADER_LEN + length payload) in
  let buffer := replicate 132 0 in
  let ip_start := ETHERNET_HEADER_LEN in
  let udp_start := (ip_start + IPV4_HEADER_LEN)%nat in
  let payload_start := (udp_start + UDP_HEADER_LEN)%nat in
  let payload_end := (payload_start + length payload)%nat in
  let buffer := splice 0 eth_header buffer in
  let buffer := splice ip_start ip_header buffer in
  let buffer := splice udp_start udp_header buffer in
  let buffer := splice payload_start payload buffer in
  match slice buffer 0 payload_end with
  | Ok packet => (Ok packet, (transmit_packet packet driver).2)
  | r => (r, driver)
  end.

(** ** Lemmas *)

Lemma byte_is_ok data i v b : data !! i = Some b -> byte_is data i v = Ok (b =? v).
Proof. intros H. unfold byte_is, idx. by rewrite H. Qed.

Lemma and_then_settles a b : settles a -> (a = Ok true -> settles b) -> settles (and_then a b).
Proof. destruct a as [[]|e| |]; cbn; auto. Qed.

Lemma byte_is_settles data i v : (i < length data)%nat -> settles (byte_is data i v).
Proof. intros [b H]%lookup_lt_is_Some. by rewrite (byte_is_ok _ _ _ b). Qed.

Lemma and_then_true a b : and_then a b = Ok true -> a = Ok true /\ b = Ok true.
Proof. by destruct a as [[]|e| |]. Qed.

Lemma ipv4_from_cases data target min_len proto :
  (34 <= min_len)%nat ->
  exists b, ipv4_from data target min_len proto = Ok b /\ (b = true -> (min_len < length data)%nat).
Proof.
  intros Hmin. unfold ipv4_from. change (ETHERNET_HEADER_LEN + IPV4_HEADER_LEN)%nat with 34%nat.
  destruct (min_len <? length data)%nat eqn:Hl; [|by exists false]. unbool.
  cbn [and_then mbind res_bind]. unfold ETHERNET_HEADER_LEN.
  destruct (lookup_lt_is_Some_2 data 12 ltac:(lia)) as [x0 H0].
  destruct (lookup_lt_is_Some_2 data 13 ltac:(lia)) as [x1 H1].
  destruct (lookup_lt_is_Some_2 data (14 + 9) ltac:(lia)) as [x2 H2].
  rewrite (byte_is_ok data 12 _ x0 H0), (byte_is_ok data 13 _ x1 H1), (byte_is_ok data (14 + 9) _ x2 H2).
  rewrite !slice_ok by lia. cbn [and_then mbind res_bind].
  repeat (case_match; cbn [and_then mbind res_bind]; try by exists false).
  all: eexists; split; [reflexivity|done].
Qed.

Lemma is_our_reply_cases data target :
  exists b, is_our_reply data target = Ok b /\ (b = true -> (34 < length data)%nat).
Proof. by apply ipv4_from_cases. Qed.

(** Received bytes cannot make the filter panic. *)
Lemma parse_reply_frame_settles data target src : settles (parse_reply_frame data target src).
Proof.
  unfold parse_reply_frame.
  destruct (is_our_reply_cases data target) as ([] & -> & Hl); [specialize (Hl eq_refl)|done].
  cbn [mbind res_bind negb].
  change (ETHERNET_HEADER_LEN + IPV4_HEADER_LEN)%nat with 34%nat. unfold ETHERNET_HEADER_LEN.
  destruct (idx_lt data (14 + 2) ltac:(lia)) as [b0 ->], (idx_lt data (14 + 3) ltac:(lia)) as [b1 ->].
  cbn [mbind res_bind]. rewrite slice_ok by lia. cbn [mbind res_bind].
  destruct (parse_tcp_segment_cases target src
    (take (Nat.min (34 + (Z.to_nat (be_of [b0; b1]) - IPV4_HEADER_LEN)) (length data) - 34) (drop 34 data)))
    as [[e ->]|(? & info & _ & _ & _ & _ & -> & _)]; [done|].
  destruct (_ <=? _)%nat eqn:E; [|done]. unbool. by rewrite slice_ok by lia.
Qed.

(** The facts about an IPv4 header the filter looks at. *)
Definition good_ip_header (proto : Z) (src ip : list Z) (n : nat) : Prop :=
  length ip = 20%nat /\ checksum_is_valid ip = true /\
  slice ip 2 4 = Ok (be_bytes 2 (u16 (Z.of_nat (20 + n)))) /\
  ip !! 9%nat = Some proto /\ slice ip 12 16 = Ok src.

(** A frame is an Ethernet header of type IPv4, a good IP header, the TCP header,
    the payload. *)
Lemma frame_layout dmac smac src dst hd payload padding :
  length dmac = 6%nat -> length smac = 6%nat -> bytes_ok src -> bytes_ok dst ->
  length src = 4%nat -> length dst = 4%nat ->
  exists eth ip,
    build_tcp_frame dmac smac src dst hd payload ++ padding = eth ++ ip ++ hd ++ payload ++ padding /\
    length eth = 14%nat /\ eth !! 12%nat = Some 0x08 /\ eth !! 13%nat = Some 0x00 /\
    good_ip_header IP_PROTOCOL_TCP src ip (length hd + length payload).
Proof.
  intros Ld Ls Hs Hd Lsrc Ldst.
  exists (build_ethernet_header dmac smac ETHERTYPE_IPV4),
    (build_ipv4_header 1 64 IP_PROTOCOL_TCP src dst (length hd + length payload)).
  destruct dmac as [|? [|? [|? [|? [|? [|? [|]]]]]]]; try discriminate Ld.
  destruct smac as [|? [|? [|? [|? [|? [|? [|]]]]]]]; try discriminate Ls.
  split; [unfold build_tcp_frame; by rewrite <- !app_assoc|].
  do 3 (split; [done|]).
  destruct (ipv4_header_facts 1 64 IP_PROTOCOL_TCP src dst (length hd + length payload))
    as (Hv & Hl & _ & _ & H2 & _ & H9 & H12 & _); try done.
Qed.

Lemma frame_from proto min_len eth ip rest src n :
  length eth = 14%nat -> eth !! 12%nat = Some 0x08 -> eth !! 13%nat = Some 0x00 ->
  good_ip_header proto src ip n -> (min_len < 34 + length rest)%nat ->
  ipv4_from (eth ++ ip ++ rest) src min_len proto = Ok true /\
  exists b0 b1, idx (eth ++ ip ++ rest) 16 = Ok b0 /\ idx (eth ++ ip ++ rest) 17 = Ok b1 /\
    be_of [b0; b1] = u16 (Z.of_nat (20 + n)).
Proof.
  intros Le E12 E13 (Li & Hv & H2 & H9 & H12) Hr.
  assert (Ha : forall k x, ip !! k = Some x -> (eth ++ ip ++ rest) !! (14 + k)%nat = Some x).
  { intros k x Hk. rewrite <- Le. by apply idx_Ok, idx_mid. }
  split.
  - unfold ipv4_from. change (ETHERNET_HEADER_LEN + IPV4_HEADER_LEN)%nat with 34%nat.
    unfold ETHERNET_HEADER_LEN.
    rewrite (proj2 (Nat.ltb_lt _ _)) by (rewrite !length_app; lia). cbn [and_then mbind res_bind].
    rewrite (byte_is_ok _ 12 _ 8) by (rewrite lookup_app_l by lia; done). cbn [and_then mbind res_bind].
    rewrite (byte_is_ok _ 13 _ 0) by (rewrite lookup_app_l by lia; done). cbn [and_then mbind res_bind].
    rewrite (byte_is_ok _ (14 + 9) _ _ (Ha _ _ H9)). cbn [and_then mbind res_bind].
    pose proof (slice_mid eth ip rest 20 (eq_sym Li)) as Hs. rewrite Le in Hs. cbn in Hs.
    rewrite (Z.eqb_refl proto), Hs.
    cbn [and_then mbind res_bind]. rewrite Hv. cbn [and_then mbind res_bind].
    apply slice_Ok in H12 as (_ & -> & Ls).
    rewrite slice_ok by (rewrite ?length_app; lia). cbn [mbind res_bind].
    rewrite drop_app_ge by lia. rewrite Le. rewrite bool_decide_true; [done|].
    change (14 + 12 - 14)%nat with 12%nat. change (14 + 16 - (14 + 12))%nat with 4%nat.
    rewrite drop_app_le, take_app_le by (rewrite ?length_drop; lia). done.
  - pose proof H2 as (_ & Hb & _)%slice_Ok.
    destruct ip as [|i0 [|i1 [|i2 [|i3 ip]]]]; try discriminate Li. cbn in Hb.
    injection Hb as Hb2 Hb3.
    exists i2, i3. split; [|split].
    + apply idx_Ok. by apply (Ha 2%nat).
    + apply idx_Ok. by apply (Ha 3%nat).
    + rewrite <- Hb2, <- Hb3, be_of_u16; [done|by apply wrap_in_u].
Qed.

Lemma splice_fill (p b : list Z) m k :
  k = length p -> (length b <= m)%nat ->
  splice k b (p ++ replicate m 0) = (p ++ b) ++ replicate (m - length b) 0.
Proof.
  intros -> Hb. rewrite <- (Nat.add_0_r (length p)) at 1. rewrite splice_app_r, <- app_assoc.
  f_equal. unfold splice. by rewrite take_0, drop_replicate.
Qed.

Lemma slice_prefix (l post : list Z) n : n = length l -> slice (l ++ post) 0 n = Ok l.
Proof. intros ->. apply (slice_mid [] l post _ eq_refl). Qed.

(** ** Properties *)

(** C38. A reply assembled by the peer's builders, whatever padding the link
    appends to the frame, is accepted by the filter and yields the segment's
    fields and exactly its payload; and the filter settles on every frame, so
    received bytes cannot make the driver panic. *)
Theorem parse_reply_frame_spec dmac smac peer us sp dp sq ak fl wi payload padding :
  length dmac = 6%nat -> length smac = 6%nat ->
  bytes_ok peer -> bytes_ok us -> length peer = 4%nat -> length us = 4%nat ->
  in_u 16 sp -> in_u 16 dp -> in_u 32 sq -> in_u 32 ak -> byte_ok fl -> in_u 16 wi ->
  bytes_ok payload -> Z.of_nat (length payload) + 40 < 65536 ->
  let frame := build_tcp_frame dmac smac peer us
                 (build_tcp_header peer us sp dp sq ak fl wi payload) payload in
  parse_reply_frame (frame ++ padding) peer us =
    Ok (Some (mk_TcpSegmentInfo sp dp sq ak fl wi 20, payload)) /\
  forall data target src, settles (parse_reply_frame data target src).
Proof.
  intros Ldm Lsm Hp Hu Lp Lu Hsp Hdp Hsq Hak Hfl Hwi Hpl Hn frame. split.
  - destruct (parse_built_segment peer us sp dp sq ak fl wi payload) as [Hseg Hdrop]; try done.
    { unfold CHECKSUM_MAX. lia. }
    set (hd := build_tcp_header peer us sp dp sq ak fl wi payload) in *.
    assert (Lhd : length hd = 20%nat) by done.
    destruct (frame_layout dmac smac peer us hd payload padding)
      as (eth & ip & Hf & Le & E12 & E13 & Hip); try done.
    fold frame in Hf. rewrite Hf.
    assert (Li : length ip = 20%nat) by apply Hip.
    destruct (frame_from IP_PROTOCOL_TCP 34 eth ip (hd ++ payload ++ padding) peer (length hd + length payload) Le E12 E13 Hip)
      as (Ho & b0 & b1 & I0 & I1 & Hb); [rewrite length_app; lia|].
    unfold parse_reply_frame, is_our_reply. change (ETHERNET_HEADER_LEN + IPV4_HEADER_LEN)%nat with 34%nat.
    rewrite Ho. cbn [mbind res_bind negb].
    change (ETHERNET_HEADER_LEN + IPV4_HEADER_LEN)%nat with 34%nat.
    change (ETHERNET_HEADER_LEN + 2)%nat with 16%nat. change (ETHERNET_HEADER_LEN + 3)%nat with 17%nat.
    rewrite I0, I1. cbn [mbind res_bind].
    rewrite Hb, Lhd, wrap_id by (unfold in_u; lia). unfold IPV4_HEADER_LEN.
    replace (34 + (Z.to_nat (Z.of_nat (20 + (20 + length payload))) - 20))%nat
      with (34 + (20 + length payload))%nat by lia.
    rewrite Nat.min_l by (rewrite !length_app; lia).
    assert (Hm : eth ++ ip ++ hd ++ payload ++ padding = (eth ++ ip) ++ (hd ++ payload) ++ padding)
      by (rewrite <- !app_assoc; done).
    assert (L34 : length (eth ++ ip) = 34%nat) by (rewrite length_app; lia).
    assert (L54 : length ((eth ++ ip) ++ hd) = 54%nat) by (rewrite length_app; lia).
    rewrite Hm, <- L34, slice_mid by (rewrite length_app; lia). cbn [mbind res_bind].
    rewrite Hseg, L34. cbn [header_len]. change (34 + 20)%nat with 54%nat.
    rewrite (proj2 (Nat.leb_le _ _)) by lia.
    replace ((eth ++ ip) ++ (hd ++ payload) ++ padding) with (((eth ++ ip) ++ hd) ++ payload ++ padding)
      by (rewrite <- !app_assoc; done).
    replace (34 + (20 + length payload))%nat with (54 + length payload)%nat by lia.
    by rewrite <- L54, slice_mid.
  - apply parse_reply_frame_settles.
Qed.

Lemma parse_reply_frame_spec_witness :
  let mac := replicate 6 0x52 in let peer := [10; 0; 2; 2] in let us := [10; 0; 2; 15] in
  parse_reply_frame (build_tcp_frame mac mac peer us
      (build_tcp_header peer us 7 49152 1 2 TCP_FLAG_ACK 100 [104; 105]) [104; 105] ++ replicate 4 0)
    peer us = Ok (Some (mk_TcpSegmentInfo 7 49152 1 2 TCP_FLAG_ACK 100 20, [104; 105])).
Proof.
  apply (parse_reply_frame_spec (replicate 6 0x52) (replicate 6 0x52) [10; 0; 2; 2] [10; 0; 2; 15]
           7 49152 1 2 TCP_FLAG_ACK 100 [104; 105] (replicate 4 0));
    first [reflexivity | solve [bytes] | split; cbv; congruence | cbn; lia].
Defined.

(** The broadcast initialises the driver if needed, counts one transmission
    and hands over one IPv4 frame of at most 132 bytes, whose IP header verifies
    and whose UDP part the receiver parses to the first 90 bytes of the payload. *)
Theorem send_ipv4_packet_spec dest payload d :
  bytes_ok dest -> length dest = 4%nat -> length (mac_address d) = 6%nat -> bytes_ok payload ->
  let data := take 90 payload in
  exists packet, send_ipv4_packet dest payload d =
      (Ok packet, mk_Driver (mac_address d) true (rx_packets_count d) (tx_packets_count d + 1)) /\
    length packet = (42 + length data)%nat /\ (length packet <= 132)%nat /\
    slice packet 12 14 = Ok [0x08; 0x00] /\
    (exists ip, slice packet 14 34 = Ok ip /\ checksum_is_valid ip = true) /\
    (exists dg, slice packet 34 (length packet) = Ok dg /\
       parse_udp_datagram SRC_IP dest dg =
         Ok (mk_UdpDatagramInfo SRC_PORT DEST_PORT (Z.of_nat (length data) + 8)) /\
       drop UDP_HEADER_LEN dg = data).
Proof.
  intros Hd Ld Lm Hpl data.
  assert (Hdata : bytes_ok data) by (by apply Forall_take).
  assert (Ldata : (length data <= 90)%nat) by (unfold data; rewrite length_take; lia).
  destruct (parse_built_datagram SRC_IP dest SRC_PORT DEST_PORT data) as (Hu & Hdrop & _);
    try done; [unfold SRC_IP; bytes|lia|].
  destruct (ipv4_header_facts 1 64 IP_PROTOCOL_UDP SRC_IP dest (UDP_HEADER_LEN + length data))
    as (Hv & Li & _); try done; [unfold SRC_IP; bytes|].
  unfold IPV4_HEADER_LEN in Li.
  set (driver := if negb (is_initialized d) then init d else d).
  assert (Hdr : (transmit_packet [] driver).2 =
            mk_Driver (mac_address d) true (rx_packets_count d) (tx_packets_count d + 1)).
  { unfold driver. by destruct d as [? [] ? ?]. }
  set (ip := build_ipv4_header _ _ _ _ _ _) in *.
  set (udp := build_udp_header _ _ _ _ _) in *.
  set (eth := build_ethernet_header (replicate 6 0xff) (mac_address driver) ETHERTYPE_IPV4).
  assert (Lmd : length (mac_address driver) = 6%nat) by (unfold driver; by destruct (negb _)).
  assert (He : length eth = 14%nat /\ slice eth 12 14 = Ok [0x08; 0x00]).
  { unfold eth. destruct (mac_address driver) as [|? [|? [|? [|? [|? [|? [|]]]]]]]; done. }
  destruct He as [Le Hty].
  assert (Lu : length udp = 8%nat) by done.
  exists (eth ++ ip ++ udp ++ data).
  assert (Hlen : length (eth ++ ip ++ udp ++ data) = (42 + length data)%nat)
    by (rewrite !length_app; lia).
  split; [|repeat split; [done|lia| | |]].
  - unfold send_ipv4_packet. fold driver.
    replace (take (Nat.min (length payload) 90) payload) with data
      by (unfold data; destruct (Nat.min_spec (length payload) 90) as [[? ->]|[? ->]]; [|done];
          rewrite !take_ge by lia; done).
    fold eth ip udp. change (ETHERNET_HEADER_LEN + IPV4_HEADER_LEN)%nat with 34%nat.
    change (34 + UDP_HEADER_LEN)%nat with 42%nat. unfold ETHERNET_HEADER_LEN.
    change (replicate 132 0) with ([] ++ replicate 132 0).
    rewrite (splice_fill [] eth 132 0), (splice_fill _ ip _ 14), (splice_fill _ udp _ 34),
      (splice_fill _ data _ 42) by (rewrite ?length_app; cbn [length]; lia).
    rewrite (slice_prefix _ _ (42 + length data)%nat) by (rewrite !length_app; cbn [length]; lia).
    cbn [app]. rewrite <- !app_assoc. by rewrite <- Hdr.
  - rewrite slice_ok by lia. apply slice_Ok in Hty as (_ & -> & _).
    rewrite drop_app_le, take_app_le by (rewrite ?length_drop; lia). done.
  - exists ip. split; [|done]. pose proof (slice_mid eth ip (udp ++ data) 20 (eq_sym Li)) as Hs.
    by rewrite Le in Hs.
  - exists (udp ++ data). split; [|done].
    pose proof (slice_mid (eth ++ ip) (udp ++ data) [] _ eq_refl) as Hs.
    rewrite app_nil_r, <- app_assoc in Hs. rewrite length_app, Le, Li, length_app in Hs.
    rewrite Hlen. replace (42 + length data)%nat with (14 + 20 + (length udp + length data))%nat by lia.
    exact Hs.
Qed.

Lemma send_ipv4_packet_spec_witness :
  exists packet, send_ipv4_packet [10; 0; 2; 2] [1; 2; 3] new_driver =
    (Ok packet, mk_Driver (mac_address new_driver) true 0 1) /\ length packet = 45%nat.
Proof.
  destruct (send_ipv4_packet_spec [10; 0; 2; 2] [1; 2; 3] new_driver) as (p & H1 & H2 & _);
    [bytes|done|done|bytes|]. by exists p.
Defined.
