(* ===== verification/Rtc.v ===== *)
(** * Rtc: the CMOS real-time clock ([rtc.rs])

    The chip is a parameter: [chip t reg] is the byte the data port gives when
    register [reg] is selected at the [t]-th port access.  The code waits out
    the update-in-progress flag, reads the seven registers, repeats until two
    consecutive reads agree, and decodes BCD and 12-hour formats. *)
From stdpp Require Import base list numbers strings.
From Stdlib Require Import Lia.
From S2P Require Import Prelude.
Open Scope Z_scope.

Definition REG_SECONDS : Z := 0x00.
Definition REG_MINUTES : Z := 0x02.
Definition REG_HOURS : Z := 0x04.
Definition REG_DAY : Z := 0x07.
Definition REG_MONTH : Z := 0x08.
Definition REG_YEAR : Z := 0x09.
Definition REG_STATUS_A : Z := 0x0A.
Definition REG_STATUS_B : Z := 0x0B.
Definition STATUS_A_UPDATE_IN_PROGRESS : Z := 0x80.
Definition STATUS_B_BINARY_MODE : Z := 0x04.
Definition STATUS_B_24_HOUR : Z := 0x02.
Definition HOURS_PM_FLAG : Z := 0x80.

Record RtcTime := mk_RtcTime {
  year : Z;
  month : Z;
  day : Z;
  hours : Z;
  minutes : Z;
  seconds : Z;
}.

(** The seven raw bytes of one pass over the registers. *)
Record RawRegisters := mk_RawRegisters {
  seconds_raw : Z; minutes_raw : Z; hours_raw : Z;
  day_raw : Z; month_raw : Z; year_raw : Z; status_b : Z;
}.

#[export] Instance RawRegisters_eq_dec : EqDecision RawRegisters.
Proof. solve_decision. Defined.

Definition bcd_to_binary (value : Z) : Z :=
  u8 (Z.land value 0x0F + u8 (Z.shiftr value 4 * 10)).

Definition normalize_hours_12h (hours_raw hours_12 : Z) : Z :=
  if negb (Z.land hours_raw HOURS_PM_FLAG =? 0) then u8 (hours_12 mod 12 + 12)
  else if hours_12 =? 12 then 0
  else hours_12.

(** [hours_raw & !HOURS_PM_FLAG] *)
Definition clear_pm (h : Z) : Z := Z.land h (u8 (Z.lnot HOURS_PM_FLAG)).

(** The part of [read_time] after the stable read. *)
Definition decode_raw (raw : RawRegisters) : RtcTime :=
  let is_binary := negb (Z.land (status_b raw) STATUS_B_BINARY_MODE =? 0) in
  let is_24h := negb (Z.land (status_b raw) STATUS_B_24_HOUR =? 0) in
  let conv := fun v => if is_binary then v else bcd_to_binary v in
  let hours := conv (clear_pm (hours_raw raw)) in
  let hours := if negb is_24h then normalize_hours_12h (hours_raw raw) hours else hours in
  mk_RtcTime (2000 + conv (year_raw raw)) (conv (month_raw raw)) (conv (day_raw raw))
    hours (conv (minutes_raw raw)) (conv (seconds_raw raw)).

Section Chip.
Context (chip : nat -> Z -> Z).

Definition read_register (reg : Z) (t : nat) : Z * nat := (chip t reg, S t).

(** [while read_register(REG_STATUS_A) & UIP != 0 { spin_loop() }] *)
Fixpoint wait_uip (fuel : nat) (t : nat) : res nat :=
  match fuel with
  | O => Hang
  | S f =>
      let '(a, t) := read_register REG_STATUS_A t in
      if negb (Z.land a STATUS_A_UPDATE_IN_PROGRESS =? 0) then wait_uip f t else Ok t
  end.

Definition read_raw_registers (fuel t : nat) : res (RawRegisters * nat) :=
  t ← wait_uip fuel t;
  let '(s, t) := read_register REG_SECONDS t in
  let '(mi, t) := read_register REG_MINUTES t in
  let '(h, t) := read_register REG_HOURS t in
  let '(d, t) := read_register REG_DAY t in
  let '(mo, t) := read_register REG_MONTH t in
  let '(y, t) := read_register REG_YEAR t in
  let '(b, t) := read_register REG_STATUS_B t in
  Ok (mk_RawRegisters s mi h d mo y b, t).

Fixpoint stable_registers (wait fuel : nat) (raw : RawRegisters) (t : nat)
    : res (RawRegisters * nat) :=
  match fuel with
  | O => Hang
  | S f =>
      '(raw_again, t) ← read_raw_registers wait t;
      if decide (raw = raw_again) then Ok (raw, t) else stable_registers wait f raw_again t
  end.

Definition read_time (fuel t : nat) : res (RtcTime * nat) :=
  '(raw, t) ← read_raw_registers fuel t;
  '(raw, t) ← stable_registers fuel fuel raw t;
  Ok (decode_raw raw, t).

(** ** The stable read *)

(** [raw] is what seven reads starting at access [t] return, the flag having
    been read clear just before. *)
Definition raw_at (t : nat) : RawRegisters :=
  mk_RawRegisters (chip t REG_SECONDS) (chip (t + 1) REG_MINUTES) (chip (t + 2) REG_HOURS)
    (chip (t + 3) REG_DAY) (chip (t + 4) REG_MONTH) (chip (t + 5) REG_YEAR)
    (chip (t + 6) REG_STATUS_B).

Definition uip_clear (t : nat) : Prop :=
  Z.land (chip t REG_STATUS_A) STATUS_A_UPDATE_IN_PROGRESS = 0.

Lemma wait_uip_Ok fuel t t' :
  wait_uip fuel t = Ok t' -> exists u, t' = S u /\ (t <= u)%nat /\ uip_clear u.
Proof.
  revert t. induction fuel as [|f IH]; intros t; [done|]. cbn.
  destruct (Z.land _ _ =? 0) eqn:E; cbn.
  - intros [= <-]. exists t. unbool. done.
  - intros (u & -> & ? & ?)%IH. exists u. split; [done|]. split; [lia|done].
Qed.

Lemma read_raw_registers_Ok fuel t raw t' :
  read_raw_registers fuel t = Ok (raw, t') ->
  exists u, (t <= u)%nat /\ uip_clear u /\ raw = raw_at (S u) /\ t' = (S u + 7)%nat.
Proof.
  unfold read_raw_registers. intros (a & (u & -> & ? & ?)%wait_uip_Ok & Hr)%bind_Ok.
  cbn in Hr. injection Hr as <- <-. exists u. split; [done|]. split; [done|].
  unfold raw_at. cbn. split; [|lia].
  f_equal; f_equal; lia.
Qed.

Lemma stable_registers_ge w fuel u0 t raw t' :
  stable_registers w fuel (raw_at (S u0)) t = Ok (raw, t') -> uip_clear u0 -> (S u0 + 7 <= t)%nat ->
  exists u v, uip_clear u /\ uip_clear v /\ (u0 <= u)%nat /\ (S u + 7 <= v)%nat /\
    raw = raw_at (S u) /\ raw = raw_at (S v).
Proof.
  revert u0 t. induction fuel as [|f IH]; intros u0 t; [done|].
  cbn [stable_registers]. intros ([r t1] & Hr & H)%bind_Ok Hc Ht. cbn beta iota in H.
  apply read_raw_registers_Ok in Hr as (v & ? & ? & -> & ->).
  destruct (decide _) as [E|_].
  - injection H as <- <-. exists u0, v. repeat split; try done. lia.
  - apply IH in H as (u & w' & ? & ? & ? & ? & ? & ?); [|done|lia].
    exists u, w'. repeat split; try done; lia.
Qed.

(** From access [T] on the chip is between two updates: the flag is clear and
    the registers hold. *)
Definition quiet_from (T : nat) : Prop :=
  forall t, (T <= t)%nat -> uip_clear t /\ forall reg, chip t reg = chip T reg.

Lemma wait_uip_ends T fuel t :
  quiet_from T -> (T - t < fuel)%nat ->
  exists u, wait_uip fuel t = Ok (S u) /\ (t <= u)%nat.
Proof.
  intros HT. revert t. induction fuel as [|f IH]; intros t Hf.
  - lia.
  - cbn. destruct (Z.land _ _ =? 0) eqn:E; cbn; [by exists t|].
    destruct (decide (T <= t)%nat) as [Hle|].
    + destruct (HT t Hle) as [Hc _]. unfold uip_clear in Hc. rewrite Hc in E. discriminate.
    + destruct (IH (S t)) as (u & -> & ?); [lia|]. exists u. split; [done|lia].
Qed.

Lemma read_raw_registers_ends T fuel t :
  quiet_from T -> (T - t < fuel)%nat ->
  exists u, read_raw_registers fuel t = Ok (raw_at (S u), (S u + 7)%nat) /\ (t <= u)%nat.
Proof.
  intros HT Hf. destruct (wait_uip_ends T fuel t HT Hf) as (u & Hu & ?).
  destruct (read_raw_registers fuel t) as [[r t']| | |] eqn:E.
  - exists u. split; [|done]. unfold read_raw_registers in E. rewrite Hu in E. cbn in E.
    injection E as <- <-. f_equal. f_equal; [|lia]. unfold raw_at. cbn. f_equal; f_equal; lia.
  - unfold read_raw_registers in E. rewrite Hu in E. discriminate E.
  - unfold read_raw_registers in E. rewrite Hu in E. discriminate E.
  - unfold read_raw_registers in E. rewrite Hu in E. discriminate E.
Qed.

Lemma raw_at_quiet T u : quiet_from T -> (T <= u)%nat -> raw_at u = raw_at T.
Proof.
  intros HT Hu. unfold raw_at.
  assert (H : forall k reg, chip (u + k) reg = chip (T + k) reg).
  { intros k reg. transitivity (chip T reg); [|symmetry]; apply HT; lia. }
  pose proof (H 0%nat REG_SECONDS) as H0. rewrite !Nat.add_0_r in H0.
  by rewrite H0, !H.
Qed.

Lemma stable_registers_ends T w fuel u t :
  quiet_from T -> (T < w)%nat -> (u < t)%nat -> (T - u < fuel)%nat ->
  exists r, stable_registers w fuel (raw_at (S u)) t = Ok r.
Proof.
  intros HT Hw. revert u t. induction fuel as [|f IH]; intros u t Hut Hf; [lia|].
  cbn [stable_registers].
  destruct (read_raw_registers_ends T w t HT) as (v & -> & ?); [lia|]. cbn.
  destruct (decide _) as [|Hne]; [by eexists|].
  apply IH; [lia|]. destruct (decide (T <= u)%nat); [|lia].
  destruct Hne. rewrite (raw_at_quiet T (S u)), (raw_at_quiet T (S v)); (done || lia).
Qed.
End Chip.

(** ** Encodings of a time of day *)

Definition to_bcd (v : Z) : Z := 16 * (v / 10) + v mod 10.

(** The bytes a chip in the given mode holds for a time. *)
Definition encode_raw (is_binary is_24h : bool) (t : RtcTime) : RawRegisters :=
  let enc := fun v => if is_binary then v else to_bcd v in
  let h12 := if hours t mod 12 =? 0 then 12 else hours t mod 12 in
  let h :=
    if is_24h then enc (hours t) else enc h12 + (if 12 <=? hours t then HOURS_PM_FLAG else 0) in
  mk_RawRegisters (enc (seconds t)) (enc (minutes t)) h (enc (day t)) (enc (month t))
    (enc (year t - 2000)) ((if is_binary then 4 else 0) + (if is_24h then 2 else 0)).

Definition valid_time (t : RtcTime) : Prop :=
  2000 <= year t < 2100 /\ 1 <= month t <= 12 /\ 1 <= day t <= 31 /\
  0 <= hours t < 24 /\ 0 <= minutes t < 60 /\ 0 <= seconds t < 60.

Lemma bcd_to_binary_to_bcd v : 0 <= v < 100 -> bcd_to_binary (to_bcd v) = v.
Proof.
  intros Hv. apply Z.eqb_eq.
  by apply (all_below_spec 100 (fun v => bcd_to_binary (to_bcd v) =? v)).
Qed.

(** The hour register alone, over every hour and mode. *)
Definition hour_round (is_binary is_24h : bool) (h : Z) : bool :=
  hours (decode_raw (encode_raw is_binary is_24h (mk_RtcTime 2000 1 1 h 0 0))) =? h.

Lemma hour_round_ok b m h : 0 <= h < 24 -> hour_round b m h = true.
Proof. intros Hh. destruct b, m; by apply (all_below_spec 24). Qed.

(** ** Properties *)

(** Whatever mode the chip is in (binary or BCD, 12 or 24 hours), decoding
    the registers of a time of the years 2000 to 2099 gives that time back. *)
Theorem decode_encode_raw b m t : valid_time t -> decode_raw (encode_raw b m t) = t.
Proof.
  destruct t as [y mo d h mi s]. intros (Hy & Hmo & Hd & Hh & Hmi & Hs). cbn in *.
  pose proof (hour_round_ok b m h Hh) as Hr. unfold hour_round in Hr. unbool.
  unfold decode_raw, encode_raw in *. cbn [hours minutes seconds day month year
    seconds_raw minutes_raw hours_raw day_raw month_raw year_raw status_b] in *.
  destruct b, m; f_equal; try done;
    match goal with
    | |- context [if ?c then _ else _] => let v := eval vm_compute in c in change c with v
    end; cbv beta iota;
    first [lia | rewrite bcd_to_binary_to_bcd; lia].
Qed.

Lemma decode_encode_raw_witness :
  decode_raw (mk_RawRegisters 0x59 0x30 0x92 0x31 0x12 0x24 0) = mk_RtcTime 2024 12 31 12 30 59 /\
  decode_raw (encode_raw false false (mk_RtcTime 2024 12 31 12 30 59))
    = mk_RtcTime 2024 12 31 12 30 59.
Proof.
  split; [reflexivity|]. apply decode_encode_raw. unfold valid_time; cbn; lia.
Defined.

(** C36. [read_time] returns the decoding of registers that two disjoint passes
    read alike, the update flag having been clear before each; and once the
    chip is quiet, from access [T] on, fuel [T + 1] is enough for it to return. *)
Theorem read_time_stable chip fuel t :
  (forall tm t', read_time chip fuel t = Ok (tm, t') ->
     exists u v, uip_clear chip u /\ uip_clear chip v /\ (t <= u)%nat /\ (S u + 7 <= v)%nat /\
       raw_at chip (S u) = raw_at chip (S v) /\ tm = decode_raw (raw_at chip (S u))) /\
  (forall T, quiet_from chip T -> (T < fuel)%nat ->
     exists r, read_time chip fuel t = Ok r).
Proof.
  split.
  - unfold read_time. intros tm t' ([r t1] & Hr & H)%bind_Ok. cbn beta iota in H.
    apply bind_Ok in H as ([r' t2] & Hs & H). cbn beta iota in H. injection H as <- <-.
    apply read_raw_registers_Ok in Hr as (u & Hu & ? & -> & ->).
    apply stable_registers_ge in Hs as (u' & v & ? & ? & ? & ? & Hr1 & Hr2); [|done|lia].
    exists u', v. rewrite <- Hr1, <- Hr2. repeat split; try done. lia.
  - intros T HT Hf. unfold read_time.
    destruct (read_raw_registers_ends chip T fuel t HT) as (u & -> & ?); [lia|]. cbn.
    destruct (stable_registers_ends chip T fuel fuel u (S (u + 7)) HT) as [[r t'] Hr]; try lia.
    change (S u + 7)%nat with (S (u + 7)). rewrite Hr. by eexists.
Qed.

(** A chip that is updating up to access 20 and then shows 23:59:58. *)
Definition demo_chip (t : nat) (reg : Z) : Z :=
  if (t <? 20)%nat then 0x80 + Z.of_nat t
  else if reg =? REG_HOURS then 0x23
  else if reg =? REG_MINUTES then 0x59
  else if reg =? REG_SECONDS then 0x58
  else if reg =? REG_STATUS_B then 0x02
  else if reg =? REG_STATUS_A then 0x26
  else 0x11.

Lemma read_time_stable_witness :
  read_time demo_chip 30 0 = Ok (mk_RtcTime 2011 11 11 23 59 58, 36%nat) /\
  exists r, read_time demo_chip 30 0 = Ok r.
Proof.
  split; [reflexivity|].
  apply (proj2 (read_time_stable demo_chip 30 0) 20%nat); [|lia].
  intros t Ht. unfold uip_clear, demo_chip.
  rewrite (proj2 (Nat.ltb_ge t 20)) by lia. split; reflexivity.
Defined.
