(* ===== verification/FatCommon.v ===== *)
(** * FatCommon: directory entries and VFAT long names ([fat_common.rs])

    Shared by Fat12 and Fat32.  A [String] is the list of its UTF-8 bytes; a
    directory slot is a list of 32 bytes, a sector a list of 512.  [LfnState] is
    the accumulator of long-name slots that the directory scanners thread
    through their loops. *)
From stdpp Require Import base list numbers strings.
From Stdlib Require Import Lia.
From S2P Require Import Prelude.
Open Scope Z_scope.

(** Index into an array whose type makes the index in range. *)
Definition byte_at (l : list Z) (i : nat) : Z := default 0 (l !! i).

(** [u16::from_le_bytes([raw[i], raw[i + 1]])] and its [u32] counterpart. *)
Definition le16_at (l : list Z) (i : nat) : Z := le_of [byte_at l i; byte_at l (i + 1)].
Definition le32_at (l : list Z) (i : nat) : Z :=
  le_of [byte_at l i; byte_at l (i + 1); byte_at l (i + 2); byte_at l (i + 3)].

(** [s.push(b as char)] for a [u8]: the UTF-8 bytes of the code point [b]. *)
Definition char_bytes (b : Z) : list Z :=
  if b <? 0x80 then [b] else [0xC0 + b / 64; 0x80 + b mod 64].

Definition to_ascii_uppercase (b : Z) : Z :=
  if (0x61 <=? b) && (b <=? 0x7A) then b - 32 else b.

Definition to_ascii_lowercase (b : Z) : Z :=
  if (0x41 <=? b) && (b <=? 0x5A) then b + 32 else b.

(** [a.eq_ignore_ascii_case(b)] *)
Definition eq_ignore_ascii_case (a b : list Z) : bool :=
  bool_decide (map to_ascii_lowercase a = map to_ascii_lowercase b).

Record DirEntry := mk_DirEntry {
  name : list Z;
  is_dir : bool;
  size : Z;
  start_cluster : Z;
  fat_time : Z;
  fat_date : Z;
}.

(** [b.rotate_right(1)] on a [u8]. *)
Definition rotate_right_1 (b : Z) : Z := Z.lor (Z.shiftr b 1) (u8 (Z.shiftl b 7)).

Definition lfn_checksum (short_name : list Z) : Z :=
  foldl (fun sum b => u8 (rotate_right_1 sum + b)) 0 short_name.

Record LfnState := mk_LfnState {
  chunks : list (list Z);
  checksum : Z;
}.

Definition LfnState_default : LfnState := mk_LfnState [] 0.

Definition push_long_entry (raw : list Z) (st : LfnState) : LfnState :=
  let chars :=
    map (fun i => le16_at raw (1 + i * 2)) (seq 0 5) ++
    map (fun i => le16_at raw (14 + i * 2)) (seq 0 6) ++
    map (fun i => le16_at raw (28 + i * 2)) (seq 0 2) in
  let st :=
    if negb (Z.land (byte_at raw 0) 0x40 =? 0) then mk_LfnState [] (byte_at raw 13) else st in
  mk_LfnState (chunks st ++ [chars]) (checksum st).

(** The characters of one chunk, up to the first 0x0000. *)
Fixpoint decode_lfn_chunk (chars : list Z) (out : list Z) : list Z :=
  match chars with
  | [] => out
  | c :: r => if c =? 0x0000 then out else decode_lfn_chunk r (out ++ char_bytes (u8 c))
  end.

Definition take_verified (short_name_bytes : list Z) (st : LfnState)
    : option (list Z) * LfnState :=
  let result :=
    if negb (bool_decide (chunks st = [])) && (checksum st =? lfn_checksum short_name_bytes)
    then Some (foldl (fun s chunk => decode_lfn_chunk chunk s) [] (rev (chunks st)))
    else None in
  (result, mk_LfnState [] (checksum st)).

Definition reset (st : LfnState) : LfnState := mk_LfnState [] (checksum st).

(** The bytes before the first space. *)
Fixpoint until_space (l : list Z) : list Z :=
  match l with
  | [] => []
  | b :: r => if b =? 0x20 then [] else b :: until_space r
  end.

Definition format_short_name (name ext : list Z) : list Z :=
  let s := concat (map char_bytes (until_space name)) in
  let ext_len := length (until_space ext) in
  if (0 <? ext_len)%nat then s ++ [0x2E] ++ concat (map char_bytes (take ext_len ext)) else s.

(** The fields of a short slot, as both scanners read them. *)
Definition dir_entry_of (raw : list Z) (name : list Z) : DirEntry :=
  let is_dir := negb (Z.land (byte_at raw 11) 0x10 =? 0) in
  let hi := le16_at raw 20 in
  let lo := le16_at raw 26 in
  let size := le32_at raw 28 in
  let fat_time := le16_at raw 22 in
  let fat_date := le16_at raw 24 in
  mk_DirEntry name is_dir size (Z.lor (u32 (Z.shiftl hi 16)) lo) fat_time fat_date.

Definition short_entry_if_matches (raw : list Z) (lfn : LfnState) (target_name : list Z)
    : option DirEntry * LfnState :=
  let '(long_name, lfn) := take_verified (take 11 raw) lfn in
  let short_name := format_short_name (take 8 raw) (take 3 (drop 8 raw)) in
  let matches :=
    (match long_name with Some n => eq_ignore_ascii_case n target_name | None => false end)
    || eq_ignore_ascii_case short_name target_name in
  if negb matches then (None, lfn)
  else (Some (dir_entry_of raw (default short_name long_name)), lfn).

(** What the scanners do with one slot, by its first and attribute bytes. *)
Inductive slot_kind := SlotEnd | SlotFree | SlotLong | SlotLabel | SlotShort.

Definition slot_kind_of (raw : list Z) : slot_kind :=
  if byte_at raw 0 =? 0x00 then SlotEnd
  else if byte_at raw 0 =? 0xE5 then SlotFree
  else if byte_at raw 11 =? 0x0F then SlotLong
  else if negb (Z.land (byte_at raw 11) 0x08 =? 0) then SlotLabel
  else SlotShort.

Fixpoint parse_dir_slots (slots : list (list Z)) (entries : list DirEntry) (lfn : LfnState)
    : bool * list DirEntry * LfnState :=
  match slots with
  | [] => (false, entries, lfn)
  | raw :: rest =>
      match slot_kind_of raw with
      | SlotEnd => (true, entries, lfn)
      | SlotFree | SlotLabel => parse_dir_slots rest entries (reset lfn)
      | SlotLong => parse_dir_slots rest entries (push_long_entry raw lfn)
      | SlotShort =>
          let '(long_name, lfn) := take_verified (take 11 raw) lfn in
          let name :=
            default (format_short_name (take 8 raw) (take 3 (drop 8 raw))) long_name in
          parse_dir_slots rest (entries ++ [dir_entry_of raw name]) lfn
      end
  end.

Definition parse_dir_sector (sector : list Z) (entries : list DirEntry) (lfn : LfnState)
    : bool * list DirEntry * LfnState :=
  parse_dir_slots (as_chunks 32 sector) entries lfn.
