(* ===== verification/FatEntry12.v ===== *)
(** * FatEntry12: what Fat12 writes into a directory (the free functions of [fat12.rs])

    Short names, VFAT long-name slots, the short slot and the packed date and
    time, with the round trips through the parsers of FatCommon. *)
From stdpp Require Import base list numbers strings.
From Stdlib Require Import Lia.
From S2P Require Import Prelude FatCommon Rtc.
Open Scope Z_scope.

(** [name.split_once('.')] *)
Fixpoint split_once_dot (l : list Z) : option (list Z * list Z) :=
  match l with
  | [] => None
  | b :: r =>
      if b =? 0x2E then Some ([], r)
      else match split_once_dot r with Some (x, y) => Some (b :: x, y) | None => None end
  end.

Definition base_ext (name : list Z) : list Z * list Z :=
  match split_once_dot name with Some (b, e) => (b, e) | None => (name, []) end.

Definition to_short_name (name : list Z) : res (list Z) :=
  let '(base, ext) := base_ext name in
  if bool_decide (base = []) || (8 <? length base)%nat || (3 <? length ext)%nat then
    Err "FAT12: name must fit the 8.3 short-name format"
  else
    let out := replicate 11 0x20 in
    let out := splice 0 (map to_ascii_uppercase base) out in
    Ok (splice 8 (map to_ascii_uppercase ext) out).

Definition is_valid_lfn_char (b : Z) : bool :=
  (0x20 <=? b) && (b <=? 0x7E) &&
  negb (existsb (Z.eqb b) [0x22; 0x2A; 0x2F; 0x3A; 0x3C; 0x3E; 0x3F; 0x5C; 0x7C]).

(** The thirteen UTF-16 units of one chunk: the characters, a terminating
    0x0000 when there is room for it, 0xFFFF after that. *)
Definition lfn_chars (chunk_bytes : list Z) : list Z :=
  let chars := splice 0 chunk_bytes (replicate 13 0xFFFF) in
  if (length chunk_bytes <? 13)%nat then <[length chunk_bytes := 0x0000]> chars else chars.

Definition lfn_entry (sequence checksum : Z) (chars : list Z) : list Z :=
  let entry := replicate 32 0 in
  let entry := <[0%nat := sequence]> entry in
  let entry := splice 1 (concat (map (le_bytes 2) (take 5 chars))) entry in
  let entry := <[11%nat := 0x0F]> entry in
  let entry := <[12%nat := 0x00]> entry in
  let entry := <[13%nat := checksum]> entry in
  let entry := splice 14 (concat (map (le_bytes 2) (take 6 (drop 5 chars)))) entry in
  splice 28 (concat (map (le_bytes 2) (take 2 (drop 11 chars)))) entry.

Definition build_lfn_entries (name short_name : list Z) : list (list Z) :=
  let num_chunks := Nat.max (div_ceil (length name) 13) 1 in
  let checksum := lfn_checksum short_name in
  map (fun chunk_index =>
         let start := (chunk_index * 13)%nat in
         let end_ := Nat.min (start + 13) (length name) in
         let chunk_bytes := take (end_ - start) (drop start name) in
         let sequence := u8 (Z.of_nat (chunk_index + 1)) in
         let sequence :=
           if (chunk_index =? num_chunks - 1)%nat then Z.lor sequence 0x40 else sequence in
         lfn_entry sequence checksum (lfn_chars chunk_bytes))
      (rev (seq 0 num_chunks)).

Definition to_fat_datetime (t : RtcTime) : Z * Z :=
  let fat_time :=
    Z.lor (Z.lor (u16 (Z.shiftl (hours t) 11)) (u16 (Z.shiftl (minutes t) 5))) (seconds t / 2) in
  let year_offset := Z.min (Z.max (year t - 1980) 0) 127 in
  let fat_date :=
    Z.lor (Z.lor (u16 (Z.shiftl year_offset 9)) (u16 (Z.shiftl (month t) 5))) (day t) in
  (fat_time, fat_date).

Definition build_dir_entry (short_name : list Z) (attr cluster size fat_time fat_date : Z)
    : list Z :=
  let entry := replicate 32 0 in
  let entry := splice 0 short_name entry in
  let entry := <[11%nat := attr]> entry in
  let entry := splice 14 (le_bytes 2 fat_time) entry in
  let entry := splice 16 (le_bytes 2 fat_date) entry in
  let entry := splice 18 (le_bytes 2 fat_date) entry in
  let entry := splice 20 (le_bytes 2 (u16 (Z.shiftr cluster 16))) entry in
  let entry := splice 22 (le_bytes 2 fat_time) entry in
  let entry := splice 24 (le_bytes 2 fat_date) entry in
  let entry := splice 26 (le_bytes 2 (u16 cluster)) entry in
  splice 28 (le_bytes 4 size) entry.

(** ** Long-name slots *)

Lemma le_of_u16 z : in_u 16 z -> le_of [z mod 256; z / 256 mod 256] = z.
Proof. unfold in_u. intros. cbn. div_lia. Qed.

(** The thirteen units of a chunk are read back from the slot that holds them. *)
Lemma push_lfn_entry sq ck chars st :
  length chars = 13%nat -> Forall (in_u 16) chars -> 
  push_long_entry (lfn_entry sq ck chars) st =
    let st := if negb (Z.land sq 0x40 =? 0) then mk_LfnState [] ck else st in
    mk_LfnState (chunks st ++ [chars]) (checksum st).
Proof.
  intros Hl Hc.
  do 13 (destruct chars as [|? chars]; [discriminate Hl|]). destruct chars; [|discriminate Hl].
  repeat (apply Forall_cons in Hc as [? Hc]).
  unfold push_long_entry, lfn_entry.
  cbn -[Z.div Z.modulo le_of Z.land]. unfold le16_at, byte_at.
  cbn -[Z.div Z.modulo le_of Z.land]. by rewrite !le_of_u16.
Qed.

Lemma lfn_chars_short chunk :
  (length chunk <= 13)%nat ->
  lfn_chars chunk = chunk ++
    (if (length chunk <? 13)%nat then 0 :: replicate (12 - length chunk) 0xFFFF else []).
Proof.
  intros H. unfold lfn_chars, splice. cbn [take app].
  rewrite drop_replicate. destruct (length chunk <? 13)%nat eqn:E; unbool.
  - replace (13 - (0 + length chunk))%nat with (S (12 - length chunk)) by lia.
    rewrite take_0, app_nil_l, insert_app_r_alt by lia. by rewrite Nat.sub_diag.
  - by replace (13 - (0 + length chunk))%nat with 0%nat by lia.
Qed.

(** A byte a name may hold: ASCII, not the terminator. *)
Definition name_byte (b : Z) : Prop := 0 < b < 0x80.

Lemma decode_lfn_bytes chunk rest out :
  Forall name_byte chunk ->
  decode_lfn_chunk (chunk ++ rest) out = decode_lfn_chunk rest (out ++ chunk).
Proof.
  intros H. revert out. induction H as [|b chunk Hb _ IH]; intros out; cbn [app decode_lfn_chunk].
  - by rewrite app_nil_r.
  - unfold name_byte in Hb. rewrite (proj2 (Z.eqb_neq b 0)) by lia.
    rewrite wrap_id by (unfold in_u; lia). unfold char_bytes.
    rewrite (proj2 (Z.ltb_lt b 0x80)) by lia. rewrite IH. by rewrite <- app_assoc.
Qed.

Lemma decode_lfn_chars chunk out :
  (length chunk <= 13)%nat -> Forall name_byte chunk ->
  decode_lfn_chunk (lfn_chars chunk) out = out ++ chunk.
Proof.
  intros. rewrite lfn_chars_short by done. rewrite decode_lfn_bytes by done.
  by destruct (_ <? _)%nat.
Qed.

(** The [i]-th chunk of a name. *)
Definition name_chunk (name : list Z) (i : nat) : list Z := take 13 (drop (i * 13) name).

Lemma name_chunks_concat name n :
  Forall name_byte name ->
  foldl (fun s chunk => decode_lfn_chunk (lfn_chars chunk) s) [] (map (name_chunk name) (seq 0 n))
    = take (n * 13) name.
Proof.
  intros H. induction n as [|n IH]; [done|].
  rewrite seq_S, map_app, foldl_app, IH. cbn [map foldl].
  rewrite decode_lfn_chars.
  - unfold name_chunk. cbn [Nat.add]. rewrite take_take_drop. f_equal. lia.
  - unfold name_chunk. rewrite length_take. lia.
  - unfold name_chunk. by apply Forall_take, Forall_drop.
Qed.

Lemma build_lfn_entries_eq name sn :
  name <> [] ->
  build_lfn_entries name sn =
    let n := div_ceil (length name) 13 in
    map (fun i => lfn_entry
           (let q := u8 (Z.of_nat (i + 1)) in if (i =? n - 1)%nat then Z.lor q 0x40 else q)
           (lfn_checksum sn) (lfn_chars (name_chunk name i)))
      (rev (seq 0 n)).
Proof.
  intros Hne. unfold build_lfn_entries. cbn zeta.
  assert (0 < length name)%nat by (destruct name; [done|cbn; lia]).
  assert (0 < div_ceil (length name) 13)%nat as Hn by (apply Nat.div_str_pos; lia).
  rewrite Nat.max_l by lia. apply map_ext_in. intros i Hi.
  rewrite <- in_rev, List.in_seq in Hi.
  do 2 f_equal. unfold name_chunk.
  assert (13 * i < length name + 13 - 1)%nat.
  { unfold div_ceil in *. pose proof (Nat.Div0.mul_div_le (length name + 13 - 1) 13). lia. }
  destruct (decide (i * 13 + 13 <= length name)%nat).
  - f_equal. lia.
  - rewrite !take_ge; [done|rewrite length_drop; lia..].
Qed.

Lemma lor_0x40_set q : negb (Z.land (Z.lor q 0x40) 0x40 =? 0) = true.
Proof.
  apply negb_true_iff, Z.eqb_neq. intros H.
  apply (f_equal (fun z => Z.testbit z 6)) in H.
  by rewrite Z.land_spec, Z.lor_spec, orb_true_r in H.
Qed.

Lemma small_0x40_clear i : (i < 62)%nat -> (Z.land (u8 (Z.of_nat (i + 1))) 0x40 =? 0) = true.
Proof.
  intros Hi.
  pose proof (all_below_spec 62 (fun z => Z.land (u8 (z + 1)) 0x40 =? 0) eq_refl (Z.of_nat i)) as H.
  rewrite <- H by lia. do 3 f_equal. lia.
Qed.

Lemma lfn_chars_wf chunk :
  (length chunk <= 13)%nat -> Forall name_byte chunk ->
  length (lfn_chars chunk) = 13%nat /\ Forall (in_u 16) (lfn_chars chunk).
Proof.
  intros Hl Hc. rewrite lfn_chars_short by done. split.
  - destruct (_ <? _)%nat eqn:E; unbool; rewrite length_app; cbn [length];
      rewrite ?length_replicate; lia.
  - apply Forall_app. split.
    + eapply Forall_impl; [exact Hc|]. unfold name_byte, in_u. intros; lia.
    + destruct (_ <? _)%nat; [|done]. constructor; [unfold in_u; lia|].
      apply Forall_replicate. unfold in_u; lia.
Qed.

(** Pushing the slots of the chunks below [k], from the last to the first: all
    but the topmost leave the accumulated chunks in place. *)
Lemma push_lower_chunks f ck name k st :
  Forall name_byte name -> (k <= 62)%nat ->
  (forall i, (i < k)%nat -> f i = u8 (Z.of_nat (i + 1))) ->
  foldl (fun st e => push_long_entry e st) st
    (map (fun i => lfn_entry (f i) ck (lfn_chars (name_chunk name i))) (rev (seq 0 k)))
  = mk_LfnState (chunks st ++ map (fun i => lfn_chars (name_chunk name i)) (rev (seq 0 k)))
      (checksum st).
Proof.
  intros Hn. revert st. induction k as [|k IH]; intros st Hk Hf.
  - cbn. rewrite app_nil_r. by destruct st.
  - rewrite seq_S, rev_app_distr. cbn [rev app map foldl Nat.add].
    destruct (lfn_chars_wf (name_chunk name k)) as [Hl Hu].
    { unfold name_chunk. rewrite length_take. lia. }
    { unfold name_chunk. by apply Forall_take, Forall_drop. }
    rewrite push_lfn_entry by done. rewrite Hf by lia.
    rewrite small_0x40_clear by lia. cbn [negb]. cbn zeta.
    rewrite IH by (lia || (intros; apply Hf; lia)). cbn [chunks checksum].
    by rewrite <- app_assoc.
Qed.

Lemma push_build_lfn_entries name sn st :
  name <> [] -> Forall name_byte name -> (length name <= 13 * 62)%nat ->
  foldl (fun st e => push_long_entry e st) st (build_lfn_entries name sn)
  = mk_LfnState (map (fun i => lfn_chars (name_chunk name i))
                   (rev (seq 0 (div_ceil (length name) 13)))) (lfn_checksum sn).
Proof.
  intros Hne Hn Hl. rewrite build_lfn_entries_eq by done. cbn zeta.
  assert (0 < length name)%nat by (destruct name; [done|cbn; lia]).
  assert (0 < div_ceil (length name) 13)%nat as Hp by (apply Nat.div_str_pos; lia).
  assert (div_ceil (length name) 13 <= 62)%nat.
  { unfold div_ceil. apply Nat.lt_succ_r, Nat.Div0.div_lt_upper_bound. lia. }
  destruct (div_ceil (length name) 13) as [|k] eqn:E; [lia|].
  rewrite seq_S, rev_app_distr. cbn [rev app map foldl Nat.add].
  destruct (lfn_chars_wf (name_chunk name k)) as [Hlen Hu].
  { unfold name_chunk. rewrite length_take. lia. }
  { unfold name_chunk. by apply Forall_take, Forall_drop. }
  replace (S k - 1)%nat with k by lia. rewrite Nat.eqb_refl.
  rewrite push_lfn_entry, lor_0x40_set by done. cbn zeta.
  rewrite push_lower_chunks; [done|done|lia|].
  intros i Hi. rewrite (proj2 (Nat.eqb_neq i k)) by lia. done.
Qed.

(** ** Short names *)

Lemma until_space_pad l n :
  Forall (fun b => b <> 0x20) l -> until_space (l ++ replicate n 0x20) = l.
Proof.
  induction 1 as [|b l Hb _ IH]; cbn; [by destruct n|].
  rewrite (proj2 (Z.eqb_neq b 0x20)) by done. by rewrite IH.
Qed.

Lemma concat_char_bytes l : Forall (fun b => b < 0x80) l -> concat (map char_bytes l) = l.
Proof.
  induction 1 as [|b l Hb _ IH]; [done|]. cbn. rewrite IH. unfold char_bytes.
  by rewrite (proj2 (Z.ltb_lt b 0x80)) by done.
Qed.

Lemma split_once_dot_Some l b e : split_once_dot l = Some (b, e) -> l = b ++ [0x2E] ++ e.
Proof.
  revert b. induction l as [|x l IH]; intros b; [done|]. cbn.
  destruct (x =? 0x2E) eqn:E; unbool.
  - intros [= <- <-]. by subst.
  - destruct (split_once_dot l) as [[b' e']|]; [|done]. intros [= <- <-].
    cbn. by rewrite (IH b').
Qed.

Lemma lower_upper b : to_ascii_lowercase (to_ascii_uppercase b) = to_ascii_lowercase b.
Proof.
  unfold to_ascii_lowercase, to_ascii_uppercase.
  repeat match goal with |- context [if ?c then _ else _] => destruct c eqn:? end;
    unbool; rewrite ?andb_false_iff, ?andb_true_iff in *; unbool; lia.
Qed.

(** A printable ASCII byte other than a space. *)
Definition graphic (b : Z) : Prop := 0x21 <= b < 0x80.

Lemma graphic_upper b : graphic b -> graphic (to_ascii_uppercase b).
Proof.
  unfold graphic, to_ascii_uppercase. intros.
  destruct (_ && _)%bool eqn:E; unbool; lia.
Qed.

Lemma to_short_name_Ok name sn :
  to_short_name name = Ok sn ->
  exists base ext, base_ext name = (base, ext) /\ base <> [] /\ (length base <= 8)%nat /\
    (length ext <= 3)%nat /\ length sn = 11%nat /\
    take 8 sn = map to_ascii_uppercase base ++ replicate (8 - length base) 0x20 /\
    drop 8 sn = map to_ascii_uppercase ext ++ replicate (3 - length ext) 0x20.
Proof.
  unfold to_short_name. destruct (base_ext name) as [base ext].
  destruct (_ || _)%bool eqn:E; [done|]. intros <-%Ok_inj. unbool.
  rewrite bool_decide_eq_false in *. exists base, ext.
  assert (Hb : length (splice 0 (map to_ascii_uppercase base) (replicate 11 0x20)) = 11%nat).
  { rewrite length_splice; [done|]. rewrite length_map, length_replicate. lia. }
  split; [done|]. split; [done|]. split; [lia|]. split; [lia|].
  split; [rewrite length_splice; [done|]; rewrite length_map, Hb; lia|].
  split.
  - unfold splice at 1. rewrite take_app_le by (rewrite length_take, Hb; lia).
    rewrite take_take. unfold splice. rewrite take_0, app_nil_l, drop_replicate, length_map.
    replace (11 - (0 + length base))%nat with ((8 - length base) + 3)%nat by lia.
    rewrite replicate_add, app_assoc. apply take_app_length'.
    rewrite length_app, length_map, length_replicate. lia.
  - unfold splice at 1. rewrite drop_app_ge by (rewrite length_take, Hb; lia).
    rewrite length_take, Hb. change (8 - 8 `min` 11)%nat with 0%nat. rewrite drop_0.
    f_equal. unfold splice. rewrite take_0, app_nil_l, drop_replicate, !length_map.
    rewrite drop_app_ge by (rewrite length_map; lia).
    rewrite drop_replicate, length_map. f_equal. lia.
Qed.

(** ** The slots are what the scanners expect *)

Lemma lfn_entry_kind sq ck chars :
  length chars = 13%nat -> sq <> 0 -> sq <> 0xE5 -> slot_kind_of (lfn_entry sq ck chars) = SlotLong.
Proof.
  intros Hl H0 H5.
  do 13 (destruct chars as [|? chars]; [discriminate Hl|]). destruct chars; [|discriminate Hl].
  unfold slot_kind_of, byte_at, lfn_entry. cbn -[Z.eqb Z.div Z.modulo].
  by rewrite (proj2 (Z.eqb_neq sq 0)), (proj2 (Z.eqb_neq sq 0xE5)) by done.
Qed.

Lemma build_lfn_entries_kind name sn :
  name <> [] -> Forall name_byte name -> (length name <= 13 * 62)%nat ->
  Forall (fun e => slot_kind_of e = SlotLong) (build_lfn_entries name sn).
Proof.
  intros Hne Hn Hl. rewrite build_lfn_entries_eq by done. cbn zeta.
  apply List.Forall_forall. intros e (i & <- & Hi)%in_map_iff.
  rewrite <- in_rev, List.in_seq in Hi.
  assert (i < 62)%nat as Hi62.
  { enough (div_ceil (length name) 13 <= 62)%nat by lia.
    unfold div_ceil. apply Nat.lt_succ_r, Nat.Div0.div_lt_upper_bound. lia. }
  pose proof (all_below_spec 62
    (fun z => negb (u8 (z + 1) =? 0) && negb (u8 (z + 1) =? 0xE5) &&
              negb (Z.lor (u8 (z + 1)) 0x40 =? 0) && negb (Z.lor (u8 (z + 1)) 0x40 =? 0xE5))
    eq_refl (Z.of_nat i)) as Hq.
  specialize (Hq ltac:(lia)). cbn beta in Hq. unbool.
  replace (Z.of_nat (i + 1)) with (Z.of_nat i + 1) by lia.
  apply lfn_entry_kind.
  - apply lfn_chars_wf; unfold name_chunk; [rewrite length_take; lia|].
    by apply Forall_take, Forall_drop.
  - by destruct (i =? _)%nat.
  - by destruct (i =? _)%nat.
Qed.

Lemma valid_lfn_name_byte b : is_valid_lfn_char b = true -> name_byte b.
Proof. unfold is_valid_lfn_char, name_byte. intros H. unbool. lia. Qed.

Lemma decode_chunks_rev name n :
  foldl (fun s chunk => decode_lfn_chunk chunk s) []
    (rev (map (fun i => lfn_chars (name_chunk name i)) (rev (seq 0 n))))
  = foldl (fun s chunk => decode_lfn_chunk (lfn_chars chunk) s) [] (map (name_chunk name) (seq 0 n)).
Proof.
  rewrite map_rev, rev_involutive.
  generalize (seq 0 n) (@nil Z). intros l. induction l as [|i l IH]; intros acc; cbn; [done|].
  apply IH.
Qed.

(** ** Properties *)

(** A long name survives the disk: the slots [build_lfn_entries] makes for a
    valid name are long-name slots, and feeding them in disk order to the
    scanner, whatever it had accumulated before, yields exactly the name when
    the short slot that follows has the checksummed short name, and nothing
    when the short slot's checksum differs. *)
Theorem lfn_roundtrip name sn st :
  name <> [] -> Forall (fun b => is_valid_lfn_char b = true) name -> (length name <= 195)%nat ->
  let st' := foldl (fun st e => push_long_entry e st) st (build_lfn_entries name sn) in
  Forall (fun e => slot_kind_of e = SlotLong) (build_lfn_entries name sn) /\
  take_verified sn st' = (Some name, mk_LfnState [] (lfn_checksum sn)) /\
  (forall sn', lfn_checksum sn' <> lfn_checksum sn -> (take_verified sn' st').1 = None).
Proof.
  intros Hne Hv Hl st'.
  assert (Hn : Forall name_byte name).
  { eapply Forall_impl; [exact Hv|]. apply valid_lfn_name_byte. }
  assert (Hst : st' = mk_LfnState (map (fun i => lfn_chars (name_chunk name i))
                   (rev (seq 0 (div_ceil (length name) 13)))) (lfn_checksum sn)).
  { apply push_build_lfn_entries; [done|done|lia]. }
  split; [apply build_lfn_entries_kind; [done|done|lia]|].
  assert (0 < length name)%nat by (destruct name; [done|cbn; lia]).
  rewrite Hst. unfold take_verified. cbn [chunks checksum]. split.
  - rewrite Z.eqb_refl, bool_decide_eq_false_2.
    + cbn [negb andb]. rewrite decode_chunks_rev, name_chunks_concat by done.
      rewrite take_ge; [done|]. unfold div_ceil.
      pose proof (Nat.div_mod_eq (length name + 13 - 1) 13).
      pose proof (Nat.mod_upper_bound (length name + 13 - 1) 13 ltac:(lia)). lia.
    + intros H0. apply (f_equal length) in H0.
      rewrite length_map, length_rev, length_seq in H0.
      assert (0 < div_ceil (length name) 13)%nat by (apply Nat.div_str_pos; lia). change (@length (list Z) []) with 0%nat in H0. lia.
  - intros sn' Hsn. rewrite (proj2 (Z.eqb_neq _ _)) by (by apply not_eq_sym).
    by rewrite andb_false_r.
Qed.

Lemma lfn_roundtrip_witness :
  let name := map Z.of_nat (seq 65 20) in
  let sn := [0x41; 0x42; 0x43; 0x44; 0x45; 0x7E; 0x31; 0x20; 0x20; 0x20; 0x20] in
  (take_verified sn (foldl (fun st e => push_long_entry e st) LfnState_default
     (build_lfn_entries name sn))).1 = Some name.
Proof.
  cbn zeta.
  destruct (lfn_roundtrip (map Z.of_nat (seq 65 20))
    [0x41; 0x42; 0x43; 0x44; 0x45; 0x7E; 0x31; 0x20; 0x20; 0x20; 0x20] LfnState_default)
    as (_ & H & _); [discriminate | repeat constructor | cbn; lia |].
  exact (f_equal fst H).
Defined.

(** A short name is found again: when [to_short_name] accepts a name of
    graphic ASCII bytes that does not end in its first dot, the listing of the
    11 bytes it produces is the name up to ASCII case. *)
Theorem short_name_roundtrip nm sn :
  to_short_name nm = Ok sn -> Forall graphic nm ->
  (forall base, split_once_dot nm <> Some (base, [])) ->
  length sn = 11%nat /\
  eq_ignore_ascii_case (format_short_name (take 8 sn) (take 3 (drop 8 sn))) nm = true.
Proof.
  intros (base & ext & Hbe & Hne & Hlb & Hle & Hlen & H8 & H3)%to_short_name_Ok Hg Hdot.
  split; [done|]. unfold eq_ignore_ascii_case. apply bool_decide_eq_true.
  assert (Hsp : forall l, Forall graphic l -> until_space (map to_ascii_uppercase l ++
      replicate (8 - length l) 0x20) = map to_ascii_uppercase l /\
      until_space (map to_ascii_uppercase l ++ replicate (3 - length l) 0x20)
        = map to_ascii_uppercase l /\
      concat (map char_bytes (map to_ascii_uppercase l)) = map to_ascii_uppercase l).
  { intros l Hl. assert (Hu : Forall graphic (map to_ascii_uppercase l)).
    { apply Forall_fmap. eapply Forall_impl; [exact Hl|]. apply graphic_upper. }
    assert (Forall (fun b => b <> 0x20) (map to_ascii_uppercase l)).
    { eapply Forall_impl; [exact Hu|]. unfold graphic. intros; lia. }
    rewrite !until_space_pad, concat_char_bytes; [done| |done..].
    eapply Forall_impl; [exact Hu|]. unfold graphic. intros; lia. }
  assert (Hlow : forall l, map to_ascii_lowercase (map to_ascii_uppercase l) = map to_ascii_lowercase l).
  { intros l. rewrite map_map. apply map_ext, lower_upper. }
  unfold format_short_name. rewrite H8, (take_ge (drop 8 sn)) by (rewrite length_drop; lia).
  rewrite H3. unfold base_ext in Hbe.
  destruct (split_once_dot nm) as [[b e]|] eqn:E.
  - injection Hbe as -> ->. pose proof (split_once_dot_Some _ _ _ E) as ->.
    apply Forall_app in Hg as [Hgb Hge]. apply Forall_cons in Hge as [_ Hge].
    destruct (Hsp base Hgb) as (Hb1 & _ & Hb3). destruct (Hsp ext Hge) as (_ & He2 & He3).
    rewrite Hb1, He2, Hb3, length_map.
    destruct ext as [|x ext]; [by destruct (Hdot base)|].
    rewrite (proj2 (Nat.ltb_lt 0 _)) by (cbn; lia).
    rewrite take_app_le by (rewrite length_map; done).
    rewrite take_ge by (rewrite length_map; done).
    rewrite He3, !map_app, !Hlow. done.
  - injection Hbe as <- <-. destruct (Hsp nm Hg) as (Hb1 & _ & Hb3). rewrite Hb1, Hb3. cbn. apply Hlow.
Qed.

Lemma short_name_roundtrip_witness :
  let nm := [0x6E; 0x6F; 0x74; 0x65; 0x2E; 0x74; 0x78; 0x74] in
  let sn := [0x4E; 0x4F; 0x54; 0x45; 0x20; 0x20; 0x20; 0x20; 0x54; 0x58; 0x54] in
  eq_ignore_ascii_case (format_short_name (take 8 sn) (take 3 (drop 8 sn))) nm = true.
Proof.
  apply (short_name_roundtrip [0x6E; 0x6F; 0x74; 0x65; 0x2E; 0x74; 0x78; 0x74]
    [0x4E; 0x4F; 0x54; 0x45; 0x20; 0x20; 0x20; 0x20; 0x54; 0x58; 0x54]).
  - reflexivity.
  - repeat constructor; unfold graphic; lia.
  - intros base. cbn. intros [=].
Defined.

(** The short slot [build_dir_entry] makes is read as a short slot whose
    fields are the arguments: attribute, 32-bit cluster and size, write time and
    date. *)
Theorem dir_entry_roundtrip sn attr cluster sz t d nm :
  length sn = 11%nat -> byte_at sn 0 <> 0 -> byte_at sn 0 <> 0xE5 ->
  (attr = 0x20 \/ attr = 0x10) ->
  in_u 32 cluster -> in_u 32 sz -> in_u 16 t -> in_u 16 d ->
  let e := build_dir_entry sn attr cluster sz t d in
  slot_kind_of e = SlotShort /\ take 11 e = sn /\ length e = 32%nat /\
  dir_entry_of e nm = mk_DirEntry nm (attr =? 0x10) sz cluster t d.
Proof.
  intros Hl H0 H5 Ha Hc Hs Ht Hd e.
  do 11 (destruct sn as [|? sn]; [discriminate Hl|]). destruct sn; [|discriminate Hl].
  unfold byte_at in H0, H5. cbn in H0, H5.
  assert (He : byte_at e 0 = z /\ byte_at e 11 = attr) by (split; reflexivity).
  destruct He as [He0 He11]. split; [|split; [reflexivity|split; [reflexivity|]]].
  - unfold slot_kind_of. rewrite He0, He11.
    rewrite (proj2 (Z.eqb_neq z 0)), (proj2 (Z.eqb_neq z 0xE5)) by done.
    by destruct Ha as [-> | ->].
  - unfold dir_entry_of. rewrite He11.
    assert (F : le16_at e 20 = u16 (Z.shiftr cluster 16) /\ le16_at e 26 = u16 cluster /\
                le16_at e 22 = t /\ le16_at e 24 = d /\ le32_at e 28 = sz).
    { unfold e, build_dir_entry, le16_at, le32_at, byte_at.
      cbn -[Z.div Z.modulo le_of wrap Z.shiftr].
      rewrite !le_of_u16 by (done || apply wrap_in_u; lia). repeat split.
      change (le_of (le_bytes 4 sz) = sz). apply le_round. exact Hs. }
    destruct F as (-> & -> & -> & -> & ->). unfold in_u in *. f_equal.
    + by destruct Ha as [-> | ->].
    + rewrite Z.shiftr_div_pow2, Z.shiftl_mul_pow2 by lia. unfold wrap.
      rewrite (Z.mod_small (cluster / 2 ^ 16)) by div_lia.
      rewrite Z.mod_small by div_lia.
      rewrite lor_add by (lia || div_lia). div_lia.
Qed.

Lemma dir_entry_roundtrip_witness :
  let sn := [0x4E; 0x4F; 0x54; 0x45; 0x20; 0x20; 0x20; 0x20; 0x54; 0x58; 0x54] in
  dir_entry_of (build_dir_entry sn 0x20 0x12345 77 0xA000 0x5000) [0x41]
    = mk_DirEntry [0x41] false 77 0x12345 0xA000 0x5000.
Proof.
  apply (dir_entry_roundtrip [0x4E; 0x4F; 0x54; 0x45; 0x20; 0x20; 0x20; 0x20; 0x54; 0x58; 0x54]
    0x20 0x12345 77 0xA000 0x5000 [0x41]);
    first [reflexivity | discriminate | left; reflexivity | split; lia].
Defined.

(** For any time the clock can give, the packed FAT time and date are 16-bit
    and unpack to its fields, seconds rounded down to even. *)
Theorem fat_datetime_roundtrip t :
  valid_time t ->
  let '(ft, fd) := to_fat_datetime t in
  in_u 16 ft /\ in_u 16 fd /\
  ft / 2048 = hours t /\ ft / 32 mod 64 = minutes t /\ ft mod 32 * 2 = seconds t - seconds t mod 2 /\
  fd / 512 + 1980 = year t /\ fd / 32 mod 16 = month t /\ fd mod 32 = day t.
Proof.
  intros (Hy & Hmo & Hd & Hh & Hmi & Hs). unfold to_fat_datetime, in_u.
  rewrite !Z.shiftl_mul_pow2 by lia.
  rewrite (Z.max_l (year t - 1980)) by lia. rewrite Z.min_l by lia.
  unfold wrap. rewrite !(Z.mod_small _ (2 ^ 16)) by lia.
  rewrite (lor_add 11 (hours t)) by lia. rewrite (lor_add 9 (year t - 1980)) by lia.
  rewrite (lor_add' 5 (hours t * _ + _)) by (lia || div_lia).
  rewrite (lor_add' 5 ((year t - 1980) * _ + _)) by (lia || div_lia).
  repeat split; div_lia.
Qed.

Lemma fat_datetime_roundtrip_witness :
  to_fat_datetime (mk_RtcTime 2024 12 31 23 59 58) = (0xBF7D, 0x599F) /\ 0xBF7D / 2048 = 23.
Proof.
  split; [reflexivity|].
  apply (fat_datetime_roundtrip (mk_RtcTime 2024 12 31 23 59 58)). unfold valid_time; cbn; lia.
Defined.
