(* ===== verification/Partition.v ===== *)
(** * Partition: the MBR partition table ([partition.rs]) *)
From stdpp Require Import base list numbers strings.
From Stdlib Require Import Lia.
From S2P Require Import Prelude FatCommon.
Open Scope Z_scope.

Record PartitionEntry := mk_PartitionEntry {
  bootable : bool;
  partition_type : Z;
  start_lba : Z;
  sector_count : Z;
}.

Definition partition_type_name (t : Z) : string :=
  if t =? 0x00 then "empty"
  else if t =? 0x01 then "FAT12"
  else if (t =? 0x04) || (t =? 0x06) || (t =? 0x0E) then "FAT16"
  else if (t =? 0x0B) || (t =? 0x0C) then "FAT32"
  else if t =? 0x07 then "NTFS/exFAT"
  else if t =? 0x82 then "Linux swap"
  else if t =? 0x83 then "Linux"
  else if t =? 0xEE then "GPT protective"
  else "unknown".

(** The loop body's reads of a row [&sector[offset..offset + 16]]. *)
Definition parse_entry (raw : list Z) : PartitionEntry :=
  mk_PartitionEntry (byte_at raw 0 =? 0x80) (byte_at raw 4) (le32_at raw 8) (le32_at raw 12).

(** The table's four 16-byte rows start at byte 446 of the 512-byte sector. *)
Definition parse_mbr (sector : list Z) : list PartitionEntry :=
  map (fun i =>
         let offset := (446 + i * 16)%nat in
         parse_entry (take 16 (drop offset sector)))
      (seq 0 4).

(** ** Properties *)

(** The sixteen bytes of a table row (the CHS fields are not read). *)
Definition row_bytes (chs1 chs2 : list Z) (p : PartitionEntry) : list Z :=
  [if bootable p then 0x80 else 0x00] ++ chs1 ++ [partition_type p] ++ chs2 ++
  le_bytes 4 (start_lba p) ++ le_bytes 4 (sector_count p).

Definition entry_ok (p : PartitionEntry) : Prop :=
  in_u 32 (start_lba p) /\ in_u 32 (sector_count p).

Lemma parse_row chs1 chs2 p rest :
  length chs1 = 3%nat -> length chs2 = 3%nat -> entry_ok p ->
  parse_entry (take 16 (row_bytes chs1 chs2 p ++ rest)) = p.
Proof.
  intros H1 H2 [Hs Hc].
  do 3 (destruct chs1 as [|? chs1]; [discriminate H1|]). destruct chs1; [|discriminate H1].
  do 3 (destruct chs2 as [|? chs2]; [discriminate H2|]). destruct chs2; [|discriminate H2].
  destruct p as [b t s c]. unfold entry_ok, in_u in *. cbn [start_lba sector_count] in *.
  unfold parse_entry. cbn -[le_of Z.div Z.modulo]. f_equal.
  - by destruct b.
  - change (le_of (le_bytes 4 s) = s). by apply le_round.
  - change (le_of (le_bytes 4 c) = c). by apply le_round.
Qed.

(** A sector whose four table rows hold four entries, whatever its boot code
    and CHS fields, parses to those entries in order. *)
Theorem parse_mbr_rows boot chs p0 p1 p2 p3 sig :
  length boot = 446%nat -> (forall i, length (chs i) = 3%nat) ->
  Forall entry_ok [p0; p1; p2; p3] ->
  parse_mbr (boot ++ row_bytes (chs 0%nat) (chs 1%nat) p0 ++ row_bytes (chs 2%nat) (chs 3%nat) p1 ++
             row_bytes (chs 4%nat) (chs 5%nat) p2 ++ row_bytes (chs 6%nat) (chs 7%nat) p3 ++ sig)
    = [p0; p1; p2; p3].
Proof.
  intros Hb Hc Hp.
  repeat (apply Forall_cons in Hp as [? Hp]).
  assert (Hr : forall i j p, length (row_bytes (chs i) (chs j) p) = 16%nat).
  { intros. unfold row_bytes. autorewrite with kernel_len. rewrite !Hc. done. }
  assert (Hd : forall k rest, (446 <= k)%nat -> drop k (boot ++ rest) = drop (k - 446) rest).
  { intros. rewrite drop_app_ge by lia. by rewrite Hb. }
  unfold parse_mbr. cbn [map seq]. rewrite !Hd by lia.
  rewrite !drop_app, !Hr. cbn [Nat.sub Nat.add Nat.mul]. rewrite !drop_0.
  rewrite !drop_ge by (rewrite Hr; lia). cbn [app].
  by rewrite !parse_row by done.
Qed.

Lemma parse_mbr_rows_witness :
  let p := mk_PartitionEntry true 0x0C 2048 204800 in
  let z := mk_PartitionEntry false 0 0 0 in
  let row := row_bytes [0; 0; 0] [0; 0; 0] in
  parse_mbr (replicate 446 0 ++ row p ++ row z ++ row z ++ row z ++ [0x55; 0xAA]) = [p; z; z; z].
Proof.
  apply (parse_mbr_rows (replicate 446 0) (fun _ => [0; 0; 0])); [reflexivity|reflexivity|].
  repeat constructor; cbn; lia.
Defined.
