(* ===== verification/BlockDev.v ===== *)
(** * BlockDev: what the filesystems rely on of [ata::read_sector] and [ata::write_sector]

    The filesystem code reads and writes whole 512-byte sectors through two
    calls that may fail.  [BlockOps] are the two calls, [BlockDev] the laws the
    theorems about Fat12 and Fat32 are proved against: a read changes no sector,
    a call that succeeds did what it says, a failed or successful write touches
    no other sector, and a drive that serves an address goes on serving it.
    [MemDisk] is the instance the concrete examples run on. *)
From stdpp Require Import base list numbers strings gmap.
From Stdlib Require Import Lia.
From S2P Require Import Prelude.
Open Scope Z_scope.

Definition SECTOR : nat := 512.

Class BlockOps (D : Type) := {
  read_sector : Z -> M D (list Z);
  write_sector : Z -> list Z -> M D unit;
}.

Class BlockDev (D : Type) `{BlockOps D} := {
  (** The contents of a sector. *)
  sector_at : D -> Z -> list Z;
  (** The drive serves reads and writes of this address. *)
  serves : D -> Z -> Prop;
  sector_at_length d a : length (sector_at d a) = SECTOR;
  sector_at_bytes d a : bytes_ok (sector_at d a);
  read_settles a d : settles (read_sector a d).1;
  read_keeps a d b : sector_at (read_sector a d).2 b = sector_at d b;
  read_serves a d b : serves d b -> serves (read_sector a d).2 b;
  read_served a d : serves d a -> (read_sector a d).1 = Ok (sector_at d a);
  write_settles a s d : settles (write_sector a s d).1;
  write_frame a s d b :
    serves d a -> length s = SECTOR -> bytes_ok s -> b <> a -> sector_at (write_sector a s d).2 b = sector_at d b;
  write_serves a s d b :
    length s = SECTOR -> bytes_ok s -> serves d b -> serves (write_sector a s d).2 b;
  write_served a s d :
    serves d a -> length s = SECTOR -> bytes_ok s ->
    (write_sector a s d).1 = Ok tt /\ sector_at (write_sector a s d).2 a = s;
}.

(** ** Devices seen as functions from addresses to sectors *)

(** [f] with the sector at [a] replaced. *)
Definition upd (a : Z) (s : list Z) (f : Z -> list Z) : Z -> list Z :=
  fun b => if decide (b = a) then s else f b.

Lemma upd_same a s f : upd a s f a = s.
Proof. unfold upd. by rewrite decide_True. Qed.

Lemma upd_other a s f b : b <> a -> upd a s f b = f b.
Proof. intros. unfold upd. by rewrite decide_False. Qed.

Section Laws.
Context {D : Type} `{BlockDev D}.

(** The device [d'] holds the sectors [f] and serves all that [d] did. *)
Definition becomes (d : D) (f : Z -> list Z) (d' : D) : Prop :=
  (forall a, sector_at d' a = f a) /\ (forall a, serves d a -> serves d' a).

Lemma becomes_refl d : becomes d (sector_at d) d.
Proof. split; intros; done. Qed.

Lemma becomes_trans d f d' g d'' :
  becomes d f d' -> becomes d' g d'' -> becomes d g d''.
Proof. intros [_ H1] [H2 H3]. split; [done|]. intros a Ha. by apply H3, H1. Qed.

Lemma read_sector_served d a :
  serves d a -> exists d', read_sector a d = (Ok (sector_at d a), d') /\ becomes d (sector_at d) d'.
Proof.
  intros Ha. pose proof (read_served a d Ha). destruct (read_sector a d) as [r d'] eqn:E.
  cbn in *. subst r. exists d'. split; [done|]. split.
  - intros b. pose proof (read_keeps a d b) as Hb. by rewrite E in Hb.
  - intros b Hb. pose proof (read_serves a d b Hb) as Hs. by rewrite E in Hs.
Qed.

Lemma write_sector_served d a s :
  serves d a -> length s = SECTOR -> bytes_ok s ->
  exists d', write_sector a s d = (Ok tt, d') /\ becomes d (upd a s (sector_at d)) d'.
Proof.
  intros Ha Hl Hb. pose proof (write_served a s d Ha Hl Hb) as [Hr Hs].
  destruct (write_sector a s d) as [r d'] eqn:E. cbn in *. subst r.
  exists d'. split; [done|]. split.
  - intros b. unfold upd. destruct (decide (b = a)) as [->|Hne]; [done|].
    pose proof (write_frame a s d b Ha Hl Hb Hne) as Hf. by rewrite E in Hf.
  - intros b Hb'. pose proof (write_serves a s d b Hl Hb Hb') as Hw. by rewrite E in Hw.
Qed.
End Laws.

(** ** A disk in memory *)

Module MemDisk.

(** [size] sectors, those not in [data] being zero. *)
Record t := mk { data : gmap Z (list Z); size : Z }.

Definition zero_sector : list Z := replicate SECTOR 0.

Definition good_sector (s : list Z) : bool :=
  (length s =? SECTOR)%nat && forallb (fun b => (0 <=? b) && (b <? 256)) s.

Definition get (d : t) (a : Z) : list Z :=
  match data d !! a with
  | Some s => if good_sector s then s else zero_sector
  | None => zero_sector
  end.

Definition in_range (d : t) (a : Z) : bool := (0 <=? a) && (a <? size d).

Definition read (a : Z) : M t (list Z) := fun d =>
  if in_range d a then (Ok (get d a), d)
  else (Err "ATA read: drive reported an error (ERR bit set)", d).

Definition write (a : Z) (s : list Z) : M t unit := fun d =>
  if in_range d a then (Ok tt, mk (<[a := s]> (data d)) (size d))
  else (Err "ATA write: drive reported an error (ERR bit set)", d).

#[global] Instance ops : BlockOps t := { read_sector := read; write_sector := write }.

Lemma good_sector_spec s : good_sector s = true <-> length s = SECTOR /\ bytes_ok s.
Proof.
  unfold good_sector. rewrite andb_true_iff, Nat.eqb_eq, forallb_forall.
  unfold bytes_ok. rewrite List.Forall_forall.
  split; intros [H1 H2]; (split; [done|]); intros x Hx; specialize (H2 x Hx);
    unfold byte_ok in *; unbool; [done|]. apply andb_true_iff. lia.
Qed.

Lemma get_good d a : length (get d a) = SECTOR /\ bytes_ok (get d a).
Proof.
  unfold get. destruct (data d !! a) as [s|]; [destruct (good_sector s) eqn:E|].
  - by apply good_sector_spec.
  - split; [done|apply bytes_ok_zeroes].
  - split; [done|apply bytes_ok_zeroes].
Qed.

#[global] Program Instance dev : BlockDev t := {
  sector_at := get;
  serves := fun d a => in_range d a = true;
}.
Next Obligation. intros. apply get_good. Qed.
Next Obligation. intros. apply get_good. Qed.
Next Obligation. intros a d. cbn. unfold read. by destruct (in_range d a). Qed.
Next Obligation. intros a d b. cbn. unfold read. by destruct (in_range d a). Qed.
Next Obligation. intros a d b. cbn. unfold read. by destruct (in_range d a). Qed.
Next Obligation. intros a d H. cbn. unfold read. by rewrite H. Qed.
Next Obligation. intros a s d. cbn. unfold write. by destruct (in_range d a). Qed.
Next Obligation.
  intros a s d b Ha _ _ Hb. cbn. unfold write. rewrite Ha. cbn. unfold get. cbn.
  by rewrite lookup_insert_ne by done.
Qed.
Next Obligation. intros a s d b _ _ H. cbn. unfold write. by destruct (in_range d a). Qed.
Next Obligation.
  intros a s d Ha Hl Hb. cbn. unfold write. rewrite Ha. split; [done|]. cbn.
  unfold get. cbn. rewrite lookup_insert_eq. by rewrite (proj2 (good_sector_spec s)).
Qed.
End MemDisk.
