(* ===== verification/PortIO.v ===== *)
(** * PortIO: x86 port input and output, and bounded polling

    [Ports P] is the hardware behind the [in] and [out] instructions of
    [x86_64::instructions::port::Port], at the widths the kernel uses; [P] is the
    state of that hardware.  A driver is a computation over any such [P].
    [poll] is the loop [for _ in 0..n { .. return }] of the drivers, with a
    binary bound, so that a bound of fifty million is a small term and a run that
    ends early evaluates in the steps it took. *)
From stdpp Require Import base list numbers strings.
From Stdlib Require Import Lia.
From S2P Require Import Prelude.
Open Scope Z_scope.

Class Ports (P : Type) := {
  inb : Z -> P -> Z * P;
  outb : Z -> Z -> P -> P;
  inw : Z -> P -> Z * P;
  outw : Z -> Z -> P -> P;
  inl : Z -> P -> Z * P;
  outl : Z -> Z -> P -> P;
}.

(** [Port::read] and [Port::write] as steps of a driver. *)
Definition read_port {P} (f : Z -> P -> Z * P) (port : Z) : M P Z := fun p =>
  let '(v, p') := f port p in (Ok v, p').

Definition write_port {P} (f : Z -> Z -> P -> P) (port v : Z) : M P unit := fun p =>
  (Ok tt, f port v p).

(** At most [n] runs of [step], up to the first that gives a value. *)
Fixpoint poll {P A} (n : positive) (step : M P (option A)) : M P (option A) :=
  let twice := fun m =>
    o ← poll m step; match o with Some a => mret (Some a) | None => poll m step end in
  match n with
  | xH => step
  | xO m => twice m
  | xI m => o ← step; match o with Some a => mret (Some a) | None => twice m end
  end.

(** ** Lemmas *)

(** The [k]-th run from [s] is the first to give a value, [a]. *)
Inductive answers {P A} (step : M P (option A)) : nat -> P -> A -> P -> Prop :=
| answers_now s a s' : step s = (Ok (Some a), s') -> answers step 0 s a s'
| answers_later k s s1 a s' :
    step s = (Ok None, s1) -> answers step k s1 a s' -> answers step (S k) s a s'.

(** [k] runs from [s] give nothing. *)
Inductive silent {P A} (step : M P (option A)) : nat -> P -> P -> Prop :=
| silent_nil s : silent step 0 s s
| silent_cons k s s1 s' : step s = (Ok None, s1) -> silent step k s1 s' -> silent step (S k) s s'.

Section Poll.
Context {P A : Type} (step : M P (option A)).

Lemma silent_app k l s s1 s2 : silent step k s s1 -> silent step l s1 s2 -> silent step (k + l) s s2.
Proof. induction 1; intros; [done|]. econstructor; eauto. Qed.

Lemma silent_answers k l s s1 a s2 :
  silent step k s s1 -> answers step l s1 a s2 -> answers step (k + l) s a s2.
Proof. induction 1; intros; [done|]. econstructor; eauto. Qed.

(** Of [k] silent runs the first [l]. *)
Lemma silent_split k l s s' :
  silent step (k + l) s s' -> exists s1, silent step k s s1 /\ silent step l s1 s'.
Proof.
  revert s. induction k as [|k IH]; intros s H; [exists s; split; [constructor|done]|].
  inversion H as [|? ? s1 ? E H']; subst. destruct (IH _ H') as (s2 & H1 & H2).
  exists s2. split; [by econstructor|done].
Qed.

Lemma answers_split k l s a s' :
  answers step (k + l) s a s' -> exists s1, silent step k s s1 /\ answers step l s1 a s'.
Proof.
  revert s. induction k as [|k IH]; intros s H; [exists s; split; [constructor|done]|].
  inversion H as [|? ? s1 ? ? E H']; subst. destruct (IH _ H') as (s2 & H1 & H2).
  exists s2. split; [by econstructor|done].
Qed.

Lemma poll_silent n s s' : silent step (Pos.to_nat n) s s' -> poll n step s = (Ok None, s').
Proof.
  revert s s'. induction n as [n IH|n IH|]; intros s s' H.
  - rewrite Pos2Nat.inj_xI in H. inversion H as [|? ? s1 ? E H1]; subst.
    cbn [Nat.mul] in H1. rewrite Nat.add_0_r in H1.
    destruct (silent_split _ _ _ _ H1) as (s2 & Ha & Hb). cbn [poll].
    rewrite (M_bind_Ok _ _ _ _ _ E), (M_bind_Ok _ _ _ _ _ (IH _ _ Ha)). exact (IH _ _ Hb).
  - rewrite Pos2Nat.inj_xO in H.
    cbn [Nat.mul] in H. rewrite Nat.add_0_r in H.
    destruct (silent_split _ _ _ _ H) as (s2 & Ha & Hb). cbn [poll].
    rewrite (M_bind_Ok _ _ _ _ _ (IH _ _ Ha)). exact (IH _ _ Hb).
  - change (Pos.to_nat 1) with 1%nat in H. inversion H as [|? ? s1 ? E H1]; subst.
    by inversion H1; subst.
Qed.

Lemma poll_answers n k s a s' :
  answers step k s a s' -> (k < Pos.to_nat n)%nat -> poll n step s = (Ok (Some a), s').
Proof.
  revert k s. induction n as [n IH|n IH|]; intros k s H Hk.
  - cbn [poll]. inversion H as [? ? ? E|k' ? s1 ? ? E H1]; subst.
    + by rewrite (M_bind_Ok _ _ _ _ _ E).
    + rewrite (M_bind_Ok _ _ _ _ _ E). destruct (decide (k' < Pos.to_nat n)%nat).
      * by rewrite (M_bind_Ok _ _ _ _ _ (IH _ _ H1 ltac:(lia))).
      * replace k' with (Pos.to_nat n + (k' - Pos.to_nat n))%nat in H1 by lia.
        destruct (answers_split _ _ _ _ _ H1) as (s2 & Ha & Hb).
        rewrite (M_bind_Ok _ _ _ _ _ (poll_silent _ _ _ Ha)). eapply IH; [done|]. lia.
  - cbn [poll]. destruct (decide (k < Pos.to_nat n)%nat).
    + by rewrite (M_bind_Ok _ _ _ _ _ (IH _ _ H ltac:(lia))).
    + replace k with (Pos.to_nat n + (k - Pos.to_nat n))%nat in H by lia.
      destruct (answers_split _ _ _ _ _ H) as (s2 & Ha & Hb).
      rewrite (M_bind_Ok _ _ _ _ _ (poll_silent _ _ _ Ha)). eapply IH; [done|]. lia.
  - cbn [poll]. change (Pos.to_nat 1) with 1%nat in Hk.
    inversion H; subst; [done|lia].
Qed.

(** A loop whose body never fails never fails. *)
Lemma poll_total n s :
  (forall s, exists o s', step s = (Ok o, s')) -> exists o s', poll n step s = (Ok o, s').
Proof.
  intros H. revert s.
  assert (Htw : forall m, (forall s, exists o s', poll m step s = (Ok o, s')) ->
    forall s, exists o s', (o ← poll m step; match o with Some a => mret (Some a) | None => poll m step end) s
      = (Ok o, s')).
  { intros m Hm s. destruct (Hm s) as ([a|] & s1 & E); rewrite (M_bind_Ok _ _ _ _ _ E);
      [by eexists _, _|apply Hm]. }
  induction n as [n IH|n IH|]; intros s; cbn [poll]; [|by apply Htw|apply H].
  destruct (H s) as ([a|] & s1 & E); rewrite (M_bind_Ok _ _ _ _ _ E); [by eexists _, _|by apply Htw].
Qed.

(** An invariant of the body is one of the loop. *)
Lemma poll_inv (I : P -> Prop) n s :
  (forall s, I s -> I (step s).2) -> I s -> I (poll n step s).2.
Proof.
  intros H. revert s.
  assert (Hb : forall m1 m2 : M P (option A), (forall s, I s -> I (m1 s).2) -> (forall s, I s -> I (m2 s).2) ->
    forall s, I s -> I ((o ← m1; match o with Some a => mret (Some a) | None => m2 end) s).2).
  { intros m1 m2 H1 H2 s Hs. specialize (H1 s Hs). unfold mbind, M_bind.
    destruct (m1 s) as [[[a|]| | |] s']; try done. by apply H2. }
  induction n as [n IH|n IH|]; intros s Hs; cbn [poll].
  - apply Hb; [done| |done]. intros. by apply Hb.
  - by apply Hb.
  - by apply H.
Qed.
End Poll.
