(* ===== verification/Ata.v ===== *)
(** * Ata: the ATA PIO disk driver ([ata.rs])

    The driver is a computation over any port hardware ([PortIO.Ports]).
    [Drive] is what the ATA standard documents of a drive on the primary bus: the
    task-file registers, the phases of a PIO command, a BSY and a DRQ delay of any
    length before each, a write cache that CACHE FLUSH empties onto the platter.
    [AtaDrive] is the class of hardware that behaves as a [Drive]; over it the
    driver is an instance of [BlockDev], so every theorem about the filesystems
    holds of the disk they run on. *)
From stdpp Require Import base list numbers strings.
From Stdlib Require Import Lia.
From S2P Require Import Prelude BlockDev PortIO.
Open Scope Z_scope.

Definition DATA : Z := 0x1F0.
Definition ERROR_FEATURES : Z := 0x1F1.
Definition SECTOR_COUNT : Z := 0x1F2.
Definition LBA_LOW : Z := 0x1F3.
Definition LBA_MID : Z := 0x1F4.
Definition LBA_HIGH : Z := 0x1F5.
Definition DRIVE_HEAD : Z := 0x1F6.
Definition COMMAND_STATUS : Z := 0x1F7.

Definition CMD_READ_SECTORS : Z := 0x20.
Definition CMD_WRITE_SECTORS : Z := 0x30.
Definition CMD_CACHE_FLUSH : Z := 0xE7.

Definition STATUS_ERR : Z := 0x01.
Definition STATUS_DRQ : Z := 0x08.
Definition STATUS_BSY : Z := 0x80.

Definition MAX_POLL_ITERATIONS : positive := 50000000.

(** The direction of a transfer, the [op] label of the error messages. *)
Inductive Op := ReadOp | WriteOp.

Section Driver.
Context {P : Type} `{Ports P}.

(** One round of the polling loop. *)
Definition poll_status (port : Z) (done : Z -> bool) : M P (option Z) :=
  status ← read_port inb port;
  mret (if done status then Some status else None).

Definition poll_until (port : Z) (op : Op) (done : Z -> bool) : M P Z :=
  o ← poll MAX_POLL_ITERATIONS (poll_status port done);
  match o with
  | Some status => mret status
  | None => lift (Err match op with
                      | ReadOp => "ATA read: timed out waiting for the drive to respond"
                      | WriteOp => "ATA write: timed out waiting for the drive to respond"
                      end)
  end.

Definition select_drive_and_issue_command (lba : Z) (op : Op) (command : Z) : M P Z :=
  write_port outb DRIVE_HEAD (Z.lor 0xE0 (u8 (Z.land (Z.shiftr lba 24) 0x0F)));;
  _ ← read_port inb ERROR_FEATURES;
  _ ← read_port inb ERROR_FEATURES;
  _ ← read_port inb ERROR_FEATURES;
  _ ← read_port inb ERROR_FEATURES;
  write_port outb SECTOR_COUNT 1;;
  write_port outb LBA_LOW (u8 (Z.land lba 0xFF));;
  write_port outb LBA_MID (u8 (Z.land (Z.shiftr lba 8) 0xFF));;
  write_port outb LBA_HIGH (u8 (Z.land (Z.shiftr lba 16) 0xFF));;
  write_port outb COMMAND_STATUS command;;
  poll_until COMMAND_STATUS op (fun s => Z.land s STATUS_BSY =? 0).

(** [if status & STATUS_ERR != 0 { return Err(message) }] *)
Definition check_err (status : Z) (message : string) : M P unit :=
  if negb (Z.land status STATUS_ERR =? 0) then lift (Err message) else mret tt.

(** [for chunk in buf.as_chunks_mut::<2>().0 { .. }]: [n] words from the data port. *)
Fixpoint read_words (n : nat) : M P (list Z) :=
  match n with
  | O => mret []
  | S m =>
      word ← read_port inw DATA;
      rest ← read_words m;
      mret (u8 (Z.land word 0xFF) :: u8 (Z.shiftr word 8) :: rest)
  end.

(** The sector read; nothing is stored in the caller's buffer on an error. *)
Definition read_sector_inner (lba : Z) : M P (list Z) :=
  status ← select_drive_and_issue_command lba ReadOp CMD_READ_SECTORS;
  check_err status "ATA read: drive reported an error (ERR bit set)";;
  status ← poll_until COMMAND_STATUS ReadOp (fun s => negb (Z.land s STATUS_DRQ =? 0));
  check_err status "ATA read: drive reported an error (ERR bit set)";;
  read_words 256.

(** [for chunk in buf.as_chunks::<2>().0 { data.write(..) }] *)
Fixpoint write_words (chunks : list (list Z)) : M P unit :=
  match chunks with
  | [] => mret tt
  | chunk :: rest =>
      write_port outw DATA (Z.lor (chunk !!! 0%nat) (u16 (Z.shiftl (chunk !!! 1%nat) 8)));;
      write_words rest
  end.

Definition write_sector_inner (lba : Z) (buf : list Z) : M P unit :=
  status ← select_drive_and_issue_command lba WriteOp CMD_WRITE_SECTORS;
  check_err status "ATA write: drive reported an error (ERR bit set)";;
  status ← poll_until COMMAND_STATUS WriteOp (fun s => negb (Z.land s STATUS_DRQ =? 0));
  check_err status "ATA write: drive reported an error (ERR bit set)";;
  write_words (as_chunks 2 buf);;
  status ← poll_until COMMAND_STATUS WriteOp (fun s => Z.land s STATUS_BSY =? 0);
  check_err status "ATA write: drive reported an error after transfer (ERR bit set)";;
  write_port outb COMMAND_STATUS CMD_CACHE_FLUSH;;
  status ← poll_until COMMAND_STATUS WriteOp (fun s => Z.land s STATUS_BSY =? 0);
  check_err status "ATA write: drive reported an error after cache flush (ERR bit set)".

#[export] Instance ata_ops : BlockOps P := {
  read_sector := read_sector_inner;
  write_sector := write_sector_inner;
}.
End Driver.

(** ** The documented drive *)

Record TaskFile := mk_TaskFile {
  count : Z; low : Z; mid : Z; high : Z; head : Z;
}.

Inductive phase :=
| Idle
| Fault
| DataIn (bytes : list Z)
| DataOut (lba : Z) (more : nat) (acc : list Z).

(** [seen] is what a read returns, [platter] what survives a power loss.  [busy]
    and [quiet] count the status reads until BSY clears and until DRQ shows;
    [delay] gives their lengths, one after another. *)
Record Drive := mk_Drive {
  platter : Z -> list Z;
  seen : Z -> list Z;
  capacity : Z;
  bad : Z -> bool;
  delay : nat -> Z;
  file : TaskFile;
  ph : phase;
  busy : Z;
  quiet : Z;
  clock : nat;
}.

(** A working drive answers within this many status reads. *)
Definition MAX_LATENCY : Z := 49999999.
Definition latency (z : Z) : Z := Z.max 0 (Z.min z MAX_LATENCY).

Definition contents (d : Drive) (a : Z) : list Z :=
  if MemDisk.good_sector (seen d a) then seen d a else MemDisk.zero_sector.

Definition set_file (f : TaskFile) (d : Drive) : Drive :=
  mk_Drive (platter d) (seen d) (capacity d) (bad d) (delay d) f (ph d) (busy d) (quiet d) (clock d).

Definition set_wait (b q : Z) (d : Drive) : Drive :=
  mk_Drive (platter d) (seen d) (capacity d) (bad d) (delay d) (file d) (ph d) b q (clock d).

Definition set_ph (p : phase) (d : Drive) : Drive :=
  mk_Drive (platter d) (seen d) (capacity d) (bad d) (delay d) (file d) p (busy d) (quiet d) (clock d).

(** A new phase, after a delay. *)
Definition enter (p : phase) (d : Drive) : Drive :=
  mk_Drive (platter d) (seen d) (capacity d) (bad d) (delay d) (file d) p
    (latency (delay d (clock d))) (latency (delay d (S (clock d)))) (S (S (clock d))).

Definition store (a : Z) (s : list Z) (d : Drive) : Drive :=
  mk_Drive (platter d) (upd a s (seen d)) (capacity d) (bad d) (delay d) (file d) (ph d) (busy d)
    (quiet d) (clock d).

Definition flush (d : Drive) : Drive :=
  mk_Drive (seen d) (seen d) (capacity d) (bad d) (delay d) (file d) (ph d) (busy d) (quiet d) (clock d).

Definition addressed (f : TaskFile) : Z := low f + 256 * mid f + 65536 * high f + 16777216 * (head f mod 16).

Definition sectors (f : TaskFile) : nat := if count f =? 0 then 256 else Z.to_nat (count f).

(** LBA mode, master drive, every sector in range and readable. *)
Definition acceptable (d : Drive) : bool :=
  Z.testbit (head (file d)) 6 && negb (Z.testbit (head (file d)) 4) &&
  forallb (fun i => let a := addressed (file d) + Z.of_nat i in (a <? capacity d) && negb (bad d a))
    (seq 0 (sectors (file d))).

Definition command (v : Z) (d : Drive) : Drive :=
  if v =? CMD_READ_SECTORS then
    if acceptable d
    then enter (DataIn (concat (map (fun i => contents d (addressed (file d) + Z.of_nat i))
                                  (seq 0 (sectors (file d)))))) d
    else enter Fault d
  else if v =? CMD_WRITE_SECTORS then
    if acceptable d then enter (DataOut (addressed (file d)) (sectors (file d)) []) d
    else enter Fault d
  else if v =? CMD_CACHE_FLUSH then enter Idle (flush d)
  else enter Fault d.

(** A busy drive ignores its registers. *)
Definition d_outb (port v : Z) (d : Drive) : Drive :=
  let f := file d in
  if 0 <? busy d then d
  else if port =? SECTOR_COUNT then set_file (mk_TaskFile v (low f) (mid f) (high f) (head f)) d
  else if port =? LBA_LOW then set_file (mk_TaskFile (count f) v (mid f) (high f) (head f)) d
  else if port =? LBA_MID then set_file (mk_TaskFile (count f) (low f) v (high f) (head f)) d
  else if port =? LBA_HIGH then set_file (mk_TaskFile (count f) (low f) (mid f) v (head f)) d
  else if port =? DRIVE_HEAD then set_file (mk_TaskFile (count f) (low f) (mid f) (high f) v) d
  else if port =? COMMAND_STATUS then command v d
  else d.

(** Ready, seek complete; DRQ while data is to move, ERR after a fault. *)
Definition status (d : Drive) : Z :=
  if 0 <? busy d then 0x80
  else match ph d with
       | Idle => 0x50
       | Fault => 0x51
       | DataIn _ | DataOut _ _ _ => if 0 <? quiet d then 0x50 else 0x58
       end.

Definition d_inb (port : Z) (d : Drive) : Z * Drive :=
  if port =? COMMAND_STATUS then
    (status d, if 0 <? busy d then set_wait (busy d - 1) (quiet d) d
               else set_wait (busy d) (Z.max 0 (quiet d - 1)) d)
  else (0, d).

Definition moving (d : Drive) : bool := (busy d <=? 0) && (quiet d <=? 0).

Definition d_inw (port : Z) (d : Drive) : Z * Drive :=
  if (port =? DATA) && moving d then
    match ph d with
    | DataIn (a :: b :: rest) => (a + 256 * b, set_ph (if rest is [] then Idle else DataIn rest) d)
    | _ => (0, d)
    end
  else (0, d).

Definition d_outw (port v : Z) (d : Drive) : Drive :=
  if (port =? DATA) && moving d then
    match ph d with
    | DataOut lba more acc =>
        let acc := acc ++ [v mod 256; v / 256 mod 256] in
        if (length acc <? SECTOR)%nat then set_ph (DataOut lba more acc) d
        else match more with
             | S (S n) => enter (DataOut (lba + 1) (S n) []) (store lba acc d)
             | _ => enter Idle (store lba acc d)
             end
    | _ => d
    end
  else d.

#[export] Instance drive_ports : Ports Drive := {
  inb := d_inb; outb := d_outb; inw := d_inw; outw := d_outw;
  inl _ d := (0, d); outl _ _ d := d;
}.

(** Hardware whose primary ATA ports behave as a drive. *)
Class AtaDrive (P : Type) `{Ports P} := {
  view : P -> Drive;
  view_inb a p : 0x1F0 <= a <= 0x1F7 ->
    (inb a p).1 = (d_inb a (view p)).1 /\ view (inb a p).2 = (d_inb a (view p)).2;
  view_outb a v p : 0x1F0 <= a <= 0x1F7 -> view (outb a v p) = d_outb a v (view p);
  view_inw p : (inw DATA p).1 = (d_inw DATA (view p)).1 /\ view (inw DATA p).2 = (d_inw DATA (view p)).2;
  view_outw v p : view (outw DATA v p) = d_outw DATA v (view p);
}.

#[export] Program Instance drive_ata : AtaDrive Drive := { view d := d }.
Solve All Obligations with done.

(** ** Lemmas: hardware that behaves as a drive *)

Section Sim.
Context {P : Type} `{AtaDrive P}.

(** [m] does on the hardware what [n] does on its drive. *)
Definition sim {A} (m : M P A) (n : M Drive A) : Prop :=
  forall p, (m p).1 = (n (view p)).1 /\ view (m p).2 = (n (view p)).2.

Lemma sim_ret {A} (a : A) : sim (mret a) (mret a).
Proof. done. Qed.

Lemma sim_lift {A} (r : res A) : sim (lift r) (lift r).
Proof. done. Qed.

Lemma sim_bind {A B} (m : M P A) n (k : A -> M P B) l :
  sim m n -> (forall a, sim (k a) (l a)) -> sim (m ≫= k) (n ≫= l).
Proof.
  intros Hm Hk p. specialize (Hm p) as [H1 H2]. unfold mbind, M_bind.
  destruct (m p) as [r p'], (n (view p)) as [r' d']. cbn in *. subst r' d'.
  destruct r; try done. apply Hk.
Qed.

Lemma sim_inb a : 0x1F0 <= a <= 0x1F7 -> sim (read_port inb a) (read_port inb a).
Proof.
  intros Ha p. pose proof (view_inb a p Ha) as [H1 H2]. unfold read_port.
  destruct (inb a p), (inb a (view p)) eqn:E. change (inb a (view p)) with (d_inb a (view p)) in E.
  rewrite E in *. cbn in *. by subst.
Qed.

Lemma sim_inw : sim (read_port inw DATA) (read_port inw DATA).
Proof.
  intros p. pose proof (view_inw p) as [H1 H2]. unfold read_port.
  destruct (inw DATA p), (inw DATA (view p)) eqn:E. change (inw DATA (view p)) with (d_inw DATA (view p)) in E.
  rewrite E in *. cbn in *. by subst.
Qed.

Lemma sim_outb a v : 0x1F0 <= a <= 0x1F7 -> sim (write_port outb a v) (write_port outb a v).
Proof. intros Ha p. split; [done|]. by apply view_outb. Qed.

Lemma sim_outw v : sim (write_port outw DATA v) (write_port outw DATA v).
Proof. intros p. split; [done|]. apply view_outw. Qed.

Lemma sim_poll {A} n (m : M P (option A)) l : sim m l -> sim (poll n m) (poll n l).
Proof.
  intros Hm.
  assert (Htw : forall k, sim (poll k m) (poll k l) ->
    sim (o ← poll k m; match o with Some a => mret (Some a) | None => poll k m end)
        (o ← poll k l; match o with Some a => mret (Some a) | None => poll k l end)).
  { intros k Hk. apply sim_bind; [done|]. intros [a|]; [apply sim_ret|done]. }
  induction n as [n IH|n IH|]; cbn [poll]; [|by apply Htw|done].
  apply sim_bind; [done|]. intros [a|]; [apply sim_ret|by apply Htw].
Qed.
End Sim.

Create HintDb sim.
#[local] Hint Resolve sim_ret sim_lift sim_inw sim_outw sim_poll : sim.
#[local] Hint Extern 1 (sim (read_port inb _) _) => apply sim_inb; done : sim.
#[local] Hint Extern 1 (sim (write_port outb _ _) _) => apply sim_outb; done : sim.

(** Runs both sides of a driver in step. *)
Ltac sim_step :=
  match goal with
  | |- sim (mbind _ _) _ => apply sim_bind; [|intros ?]
  | |- sim (match ?x with _ => _ end) _ => destruct x
  | |- _ => solve [auto with sim]
  end.

Section SimDriver.
Context {P : Type} `{AtaDrive P}.

Lemma sim_poll_until op done : sim (poll_until COMMAND_STATUS op done) (poll_until COMMAND_STATUS op done).
Proof. unfold poll_until. repeat sim_step. apply sim_poll. unfold poll_status. repeat sim_step. Qed.

Lemma sim_select lba op c : sim (select_drive_and_issue_command lba op c) (select_drive_and_issue_command lba op c).
Proof. unfold select_drive_and_issue_command. repeat sim_step. apply sim_poll_until. Qed.

Lemma sim_check st e : sim (check_err st e) (check_err st e).
Proof. unfold check_err. repeat sim_step. Qed.

Lemma sim_read_words n : sim (read_words n) (read_words n).
Proof. induction n; cbn [read_words]; repeat sim_step. Qed.

Lemma sim_write_words cs : sim (write_words cs) (write_words cs).
Proof. induction cs; cbn [write_words]; repeat sim_step. Qed.

Hint Resolve sim_poll_until sim_select sim_check sim_read_words sim_write_words : sim.

Lemma sim_read lba : sim (read_sector_inner lba) (read_sector_inner lba).
Proof. unfold read_sector_inner. repeat sim_step. Qed.

Lemma sim_write lba buf : sim (write_sector_inner lba buf) (write_sector_inner lba buf).
Proof. unfold write_sector_inner. repeat sim_step. Qed.
End SimDriver.

(** ** Lemmas: the driver on a drive *)

(** A step that cannot fail, and a computation that keeps a function of the state. *)
Definition total {S A} (m : M S A) : Prop := forall s, settles (m s).1.
Definition keeps {S A V} (f : S -> V) (m : M S A) : Prop := forall s, f (m s).2 = f s.

Lemma total_bind {S A B} (m : M S A) (k : A -> M S B) :
  total m -> (forall a, total (k a)) -> total (m ≫= k).
Proof.
  intros Hm Hk s. specialize (Hm s). unfold mbind, M_bind.
  destruct (m s) as [[a|e| |] s']; cbn in *; try done. apply Hk.
Qed.

Lemma keeps_bind {S A B V} (f : S -> V) (m : M S A) (k : A -> M S B) :
  keeps f m -> (forall a, keeps f (k a)) -> keeps f (m ≫= k).
Proof.
  intros Hm Hk s. specialize (Hm s). unfold mbind, M_bind.
  destruct (m s) as [[a|e| |] s']; cbn in *; try done. by rewrite <- Hm, Hk.
Qed.

Section Total.
Context {P : Type} `{Ports P}.

Lemma total_poll_until op done : total (poll_until COMMAND_STATUS op done).
Proof.
  intros p. unfold poll_until.
  destruct (poll_total (poll_status COMMAND_STATUS done)
    MAX_POLL_ITERATIONS p) as (o & p' & E).
  - intros s. unfold poll_status, read_port, mbind, M_bind. destruct (inb COMMAND_STATUS s). by eexists _, _.
  - rewrite (M_bind_Ok _ _ _ _ _ E). by destruct o, op.
Qed.

Lemma total_port f a : total (read_port (P:=P) f a).
Proof. intros p. unfold read_port. by destruct (f a p). Qed.

Lemma total_out f a v : total (write_port (P:=P) f a v).
Proof. done. Qed.

Lemma total_check st e : total (check_err (P:=P) st e).
Proof. intros p. unfold check_err. by destruct (negb _). Qed.

Hint Resolve total_poll_until total_port total_out total_check : sim.

Ltac total_step :=
  match goal with
  | |- total (mbind _ _) => apply total_bind; [|intros ?]
  | |- total (mret _) => done
  | |- _ => solve [auto with sim]
  end.

Lemma total_select lba op c : total (select_drive_and_issue_command (P:=P) lba op c).
Proof. unfold select_drive_and_issue_command. repeat total_step. Qed.

Lemma total_read_words n : total (read_words (P:=P) n).
Proof. induction n; cbn [read_words]; repeat total_step. Qed.

Lemma total_write_words cs : total (write_words (P:=P) cs).
Proof. induction cs; cbn [write_words]; repeat total_step. Qed.

Hint Resolve total_select total_read_words total_write_words : sim.

Lemma total_read lba : total (read_sector_inner (P:=P) lba).
Proof. unfold read_sector_inner. repeat total_step. Qed.

Lemma total_write lba buf : total (write_sector_inner (P:=P) lba buf).
Proof. unfold write_sector_inner. repeat total_step. Qed.
End Total.

Lemma keeps_seen_inb port : keeps seen (read_port inb port : M Drive Z).
Proof.
  intros d. unfold read_port. change (inb port d) with (d_inb port d). unfold d_inb.
  destruct (_ =? _); [|done]. by destruct (0 <? busy d).
Qed.

Lemma keeps_seen_outb port v : keeps seen (write_port outb port v : M Drive unit).
Proof.
  intros d. change (seen (d_outb port v d) = seen d). unfold d_outb, command.
  repeat case_match; done.
Qed.

Lemma keeps_seen_poll op done :
  keeps seen (poll_until COMMAND_STATUS op done : M Drive Z).
Proof.
  intros d. unfold poll_until. set (m := poll_status COMMAND_STATUS done).
  assert (Hm : forall s, seen s = seen d -> seen (m s).2 = seen d).
  { intros s <-. unfold m. apply keeps_bind; [apply keeps_seen_inb|done]. }
  pose proof (poll_inv m (fun s => seen s = seen d) MAX_POLL_ITERATIONS d Hm eq_refl) as Hp.
  unfold mbind at 1, M_bind at 1. destruct (poll _ m d) as [[[a|]| | |] d']; done.
Qed.

#[local] Hint Resolve keeps_seen_inb keeps_seen_outb keeps_seen_poll : sim.

Ltac keeps_step :=
  match goal with
  | |- keeps _ (mbind _ _) => apply keeps_bind; [|intros ?]
  | |- keeps _ (mret _) => done
  | |- _ => solve [auto with sim]
  end.

Lemma keeps_seen_inw : keeps seen (read_port inw DATA : M Drive Z).
Proof.
  intros d. unfold read_port. change (inw DATA d) with (d_inw DATA d). unfold d_inw.
  destruct (_ && _); [|done]. destruct (ph d) as [| |[|? [|? ?]]|]; done.
Qed.

Lemma keeps_seen_read lba : keeps seen (read_sector_inner lba : M Drive (list Z)).
Proof.
  assert (Hw : forall n, keeps seen (read_words n : M Drive (list Z))).
  { induction n; cbn [read_words]; repeat keeps_step. apply keeps_seen_inw. }
  assert (Hc : forall st e, keeps seen (check_err st e : M Drive unit)).
  { intros st e d. unfold check_err. by destruct (negb _). }
  unfold read_sector_inner, select_drive_and_issue_command. repeat keeps_step.
Qed.

(** The state of a drive whose delays have run out. *)
Definition settled (d : Drive) : Drive := set_wait 0 (Z.max 0 (quiet d - 1)) d.

Definition waits (d : Drive) : Prop := 0 <= busy d <= MAX_LATENCY /\ 0 <= quiet d <= MAX_LATENCY.

Lemma latency_range z : 0 <= latency z <= MAX_LATENCY.
Proof. unfold latency, MAX_LATENCY. lia. Qed.

Lemma waits_enter p d : waits (enter p d).
Proof. split; apply latency_range. Qed.

Lemma max_latency_poll n : Z.of_nat n <= MAX_LATENCY -> (n < Pos.to_nat MAX_POLL_ITERATIONS)%nat.
Proof. unfold MAX_LATENCY, MAX_POLL_ITERATIONS. lia. Qed.

Lemma poll_until_answers op done k d v d' :
  answers (poll_status COMMAND_STATUS done) k d v d' ->
  Z.of_nat k <= MAX_LATENCY ->
  poll_until COMMAND_STATUS op done d = (Ok v, d').
Proof.
  intros Ha Hk. unfold poll_until.
  by rewrite (M_bind_Ok _ _ _ _ _ (poll_answers _ _ _ _ _ _ Ha (max_latency_poll _ Hk))).
Qed.

Lemma poll_status_drive done d :
  poll_status COMMAND_STATUS done d =
    (Ok (if done (status d) then Some (status d) else None), (d_inb COMMAND_STATUS d).2).
Proof. done. Qed.

(** Waiting for BSY to clear. *)
Lemma poll_bsy op d :
  waits d ->
  poll_until COMMAND_STATUS op (fun s => Z.land s STATUS_BSY =? 0) d =
    (Ok (status (set_wait 0 (quiet d) d)), settled d).
Proof.
  intros [Hb Hq]. apply (poll_until_answers _ _ (Z.to_nat (busy d))); [|lia].
  remember (Z.to_nat (busy d)) as n eqn:En. revert d Hb Hq En.
  induction n as [|n IH]; intros [pl se ca ba de fi p b q c] Hb Hq En; cbn in Hb, Hq, En.
  - assert (b = 0) as -> by lia. constructor. rewrite poll_status_drive.
    unfold settled, status, set_wait. cbn. by destruct p; try destruct (0 <? q).
  - econstructor.
    + rewrite poll_status_drive. unfold status, d_inb. cbn. rewrite (proj2 (Z.ltb_lt 0 b)) by lia.
      reflexivity.
    + exact (IH (mk_Drive pl se ca ba de fi p (b - 1) q c) ltac:(cbn; lia) Hq ltac:(cbn; lia)).
Qed.

Definition has_data (d : Drive) : Prop :=
  match ph d with DataIn _ | DataOut _ _ _ => True | _ => False end.

(** Waiting for DRQ. *)
Lemma poll_drq op d :
  busy d = 0 -> 0 <= quiet d <= MAX_LATENCY -> has_data d ->
  poll_until COMMAND_STATUS op (fun s => negb (Z.land s STATUS_DRQ =? 0)) d = (Ok 0x58, set_wait 0 0 d).
Proof.
  intros Hb Hq Hp. apply (poll_until_answers _ _ (Z.to_nat (quiet d))); [|lia].
  remember (Z.to_nat (quiet d)) as n eqn:En. revert d Hb Hq Hp En.
  induction n as [|n IH]; intros [pl se ca ba de fi p b q c] Hb Hq Hp En; cbn in Hb, Hq, Hp, En; subst b.
  - assert (q = 0) as -> by lia. constructor. rewrite poll_status_drive. by destruct p.
  - apply (answers_later _ _ _ (mk_Drive pl se ca ba de fi p 0 (q - 1) c)).
    + rewrite poll_status_drive. unfold status, d_inb. cbn. rewrite (proj2 (Z.ltb_lt 0 q)) by lia.
      destruct p; try done; rewrite (Z.max_r 0) by lia; reflexivity.
    + exact (IH (mk_Drive pl se ca ba de fi p 0 (q - 1) c) eq_refl ltac:(cbn; lia) Hp ltac:(cbn; lia)).
Qed.

(** The task file of a transfer of the sector [lba]. *)
Definition lba_file (lba : Z) : TaskFile :=
  mk_TaskFile 1 (lba mod 256) (lba / 256 mod 256) (lba / 65536 mod 256)
    (Z.lor 0xE0 (lba / 16777216 mod 16)).

Lemma head_bits h : 0 <= h < 16 ->
  Z.lor 0xE0 h mod 16 = h /\ Z.testbit (Z.lor 0xE0 h) 6 = true /\ Z.testbit (Z.lor 0xE0 h) 4 = false.
Proof.
  intros Hh. pose proof (all_from_spec (Z.to_nat 16) 0 (fun h =>
    (Z.lor 0xE0 h mod 16 =? h) && Z.testbit (Z.lor 0xE0 h) 6 && negb (Z.testbit (Z.lor 0xE0 h) 4))
    eq_refl h ltac:(lia)) as E. cbn beta in E. unbool.
  repeat split; [done|done|]. by destruct (Z.testbit (Z.lor 224 h) 4).
Qed.

Lemma addressed_lba lba : addressed (lba_file lba) = lba mod 2 ^ 28.
Proof.
  unfold addressed, lba_file. cbn [low mid high head].
  rewrite (proj1 (head_bits (lba / 16777216 mod 16) ltac:(apply Z.mod_pos_bound; lia))).
  change (2 ^ 28) with 268435456. div_lia.
Qed.

Lemma acceptable_lba d lba :
  file d = lba_file lba ->
  acceptable d = (lba mod 2 ^ 28 <? capacity d) && negb (bad d (lba mod 2 ^ 28)).
Proof.
  intros Hf. unfold acceptable. rewrite Hf, addressed_lba.
  destruct (head_bits (lba / 16777216 mod 16) ltac:(apply Z.mod_pos_bound; lia)) as (_ & H6 & H4).
  cbn [head lba_file]. rewrite H6, H4. change (sectors (lba_file lba)) with 1%nat.
  cbn [seq forallb negb]. change (Z.of_nat 0) with 0. by rewrite Z.add_0_r, !andb_true_r.
Qed.

(** The registers and the command, issued to a drive that is not busy. *)
Lemma select_effect lba op c d :
  busy d = 0 -> (c = CMD_READ_SECTORS \/ c = CMD_WRITE_SECTORS) ->
  let d1 := command c (set_file (lba_file lba) d) in
  select_drive_and_issue_command lba op c d = (Ok (status (set_wait 0 (quiet d1) d1)), settled d1).
Proof.
  intros Hb Hc d1.
  assert (Hf : mk_TaskFile 1 (u8 (Z.land lba 0xFF)) (u8 (Z.land (Z.shiftr lba 8) 0xFF))
    (u8 (Z.land (Z.shiftr lba 16) 0xFF)) (Z.lor 0xE0 (u8 (Z.land (Z.shiftr lba 24) 0x0F))) = lba_file lba).
  { unfold lba_file. rewrite !Z.shiftr_div_pow2 by lia.
    rewrite !(land_mask 8) by lia. rewrite (land_mask 4) by lia.
    change (2 ^ 8) with 256. change (2 ^ 16) with 65536. change (2 ^ 24) with 16777216. change (2 ^ 4) with 16.
    unfold wrap. change (2 ^ 8) with 256. rewrite !Z.mod_mod by lia.
    rewrite (Z.mod_small (_ mod 16)) by (pose proof (Z.mod_pos_bound (lba / 16777216) 16); lia). done. }
  assert (Hw : waits d1).
  { unfold d1, command. destruct Hc as [-> | ->]; cbn -[enter acceptable]; case_match; apply waits_enter. }
  assert (Hrun : forall w, 
     (write_port outb DRIVE_HEAD (Z.lor 0xE0 (u8 (Z.land (Z.shiftr lba 24) 0x0F)));;
      _ ← read_port inb ERROR_FEATURES; _ ← read_port inb ERROR_FEATURES;
      _ ← read_port inb ERROR_FEATURES; _ ← read_port inb ERROR_FEATURES;
      write_port outb SECTOR_COUNT 1;;
      write_port outb LBA_LOW (u8 (Z.land lba 0xFF));;
      write_port outb LBA_MID (u8 (Z.land (Z.shiftr lba 8) 0xFF));;
      write_port outb LBA_HIGH (u8 (Z.land (Z.shiftr lba 16) 0xFF));;
      write_port outb COMMAND_STATUS c;; w) d = (w : M Drive Z) d1).
  { intros w. unfold d1. rewrite <- Hf.
    destruct d as [pl se ca ba de [f1 f2 f3 f4 f5] p b q k]. cbn in Hb. subst b. reflexivity. }
  unfold select_drive_and_issue_command. rewrite Hrun. by apply poll_bsy.
Qed.

(** [d'] differs from [d] in registers and waits only, and is not busy. *)
Definition same_disk (d d' : Drive) : Prop :=
  platter d' = platter d /\ seen d' = seen d /\ capacity d' = capacity d /\ bad d' = bad d /\ busy d' = 0.

Lemma word_bytes a b :
  byte_ok a -> byte_ok b ->
  u8 (Z.land (a + 256 * b) 0xFF) = a /\ u8 (Z.shiftr (a + 256 * b) 8) = b.
Proof.
  unfold byte_ok, wrap. intros. rewrite (land_mask 8), Z.shiftr_div_pow2 by lia.
  change (2 ^ 8) with 256. split; div_lia.
Qed.

Lemma bytes_word a b :
  byte_ok a -> byte_ok b ->
  let w := Z.lor a (u16 (Z.shiftl b 8)) in w mod 256 = a /\ w / 256 mod 256 = b.
Proof.
  unfold byte_ok, wrap. intros. rewrite Z.shiftl_mul_pow2, (Z.mod_small (b * _)), Z.lor_comm, lor_add by lia.
  change (2 ^ 8) with 256. split; div_lia.
Qed.

(** One word from the drive. *)
Lemma inw_step a b l d :
  busy d = 0 -> quiet d = 0 -> ph d = DataIn (a :: b :: l) ->
  read_port inw DATA d = (Ok (a + 256 * b), set_ph (if l is [] then Idle else DataIn l) d).
Proof.
  intros Hb Hq Hp. unfold read_port. change (inw DATA d) with (d_inw DATA d). unfold d_inw, moving.
  by rewrite Hb, Hq, Hp.
Qed.

Lemma read_words_run l n d :
  bytes_ok l -> length l = (2 * S n)%nat -> busy d = 0 -> quiet d = 0 -> ph d = DataIn l ->
  read_words (S n) d = (Ok l, set_ph Idle d).
Proof.
  revert l d. induction n as [|n IH]; intros l d Hl Hn Hb Hq Hp;
    (destruct l as [|a [|b l]]; cbn in Hn; try lia);
    apply Forall_cons in Hl as [Ha Hl]; apply Forall_cons in Hl as [Hb' Hl];
    pose proof (inw_step _ _ _ _ Hb Hq Hp) as E; destruct (word_bytes a b Ha Hb') as [Ea Eb].
  - destruct l; [|cbn in Hn; lia]. cbn [read_words]. rewrite (M_bind_Ok _ _ _ _ _ E).
    unfold mbind, M_bind, mret, M_ret. by rewrite Ea, Eb.
  - destruct l as [|x l]; [cbn in Hn; lia|].
    change (read_words (S (S n))) with
      (word ← read_port inw DATA; rest ← read_words (S n);
       mret (u8 (Z.land word 0xFF) :: u8 (Z.shiftr word 8) :: rest) : M Drive (list Z)).
    rewrite (M_bind_Ok _ _ _ _ _ E).
    rewrite (M_bind_Ok _ _ _ _ _ (IH (x :: l) (set_ph (DataIn (x :: l)) d) Hl ltac:(cbn in *; lia) Hb Hq eq_refl)).
    by rewrite Ea, Eb.
Qed.

(** One word to the drive. *)
Lemma outw_step lba acc a b d :
  byte_ok a -> byte_ok b -> busy d = 0 -> quiet d = 0 -> ph d = DataOut lba 1 acc ->
  d_outw DATA (Z.lor ([a; b] !!! 0%nat) (u16 (Z.shiftl ([a; b] !!! 1%nat) 8))) d =
    (if (length acc + 2 <? SECTOR)%nat then set_ph (DataOut lba 1 (acc ++ [a; b])) d
     else enter Idle (store lba (acc ++ [a; b]) d)).
Proof.
  intros Ha Hb' Hb Hq Hp. change ([a; b] !!! 0%nat) with a. change ([a; b] !!! 1%nat) with b.
  destruct (bytes_word a b Ha Hb') as [E1 E2]. cbv zeta in E1, E2.
  unfold d_outw, moving. rewrite Hb, Hq, Hp, E1, E2, length_app. done.
Qed.

Lemma write_words_run lba l n acc d :
  bytes_ok l -> length l = (2 * S n)%nat -> (length acc + length l = SECTOR)%nat ->
  busy d = 0 -> quiet d = 0 -> ph d = DataOut lba 1 acc ->
  write_words (as_chunks 2 l) d = (Ok tt, enter Idle (store lba (acc ++ l) d)).
Proof.
  revert l acc d. induction n as [|n IH]; intros l acc d Hl Hn Ha Hb Hq Hp;
    (destruct l as [|a [|b l]]; cbn in Hn; try lia);
    apply Forall_cons in Hl as [Ha' Hl]; apply Forall_cons in Hl as [Hb' Hl];
    change (a :: b :: l) with ([a; b] ++ l) in *; rewrite length_app in Ha; change (length [a; b]) with 2%nat in Ha;
    rewrite (as_chunks_cons 2 [a; b] l ltac:(lia) eq_refl); cbn [write_words];
    unfold write_port at 1, mbind, M_bind; change (outw DATA) with (d_outw DATA);
    rewrite (outw_step lba acc) by done.
  - destruct l; [|cbn in Hn; lia]. rewrite (proj2 (Nat.ltb_ge _ _)) by (cbn in Ha; lia).
    by rewrite as_chunks_short by (cbn; lia).
  - rewrite (proj2 (Nat.ltb_lt _ _)) by (cbn in *; lia).
    rewrite (IH l (acc ++ [a; b]) (set_ph (DataOut lba 1 (acc ++ [a; b])) d));
      [|done|cbn in *; lia|rewrite length_app; cbn in *; lia|done|done|done].
    by rewrite <- app_assoc.
Qed.

Lemma check_no_err st e (d : Drive) : Z.land st STATUS_ERR = 0 -> check_err st e d = (Ok tt, d).
Proof. intros H. unfold check_err. by rewrite H. Qed.

Lemma contents_good d a : length (contents d a) = SECTOR /\ bytes_ok (contents d a).
Proof.
  unfold contents. destruct (MemDisk.good_sector (seen d a)) eqn:E.
  - by apply MemDisk.good_sector_spec.
  - split; [done|apply bytes_ok_zeroes].
Qed.

Definition readable (d : Drive) (a : Z) : bool := (a <? capacity d) && negb (bad d a).

(** The command of a transfer, and the wait after it. *)
Lemma select_transfer lba op c p d :
  busy d = 0 -> (c = CMD_READ_SECTORS \/ c = CMD_WRITE_SECTORS) ->
  readable d (lba mod 2 ^ 28) = true ->
  command c (set_file (lba_file lba) d) =
    (if acceptable (set_file (lba_file lba) d) then enter p (set_file (lba_file lba) d)
     else enter Fault (set_file (lba_file lba) d)) ->
  match p with DataIn _ | DataOut _ _ _ => True | _ => False end ->
  exists st d1, select_drive_and_issue_command lba op c d = (Ok st, d1) /\ Z.land st STATUS_ERR = 0 /\
    same_disk d d1 /\ ph d1 = p /\ 0 <= quiet d1 <= MAX_LATENCY.
Proof.
  intros Hb Hc Hr Hcmd Hp. rewrite (select_effect lba op c d Hb Hc), Hcmd.
  rewrite (acceptable_lba _ lba) by done. unfold readable in Hr. cbn [capacity bad set_file]. rewrite Hr.
  eexists _, _. split; [reflexivity|].
  pose proof (latency_range (delay d (S (clock d)))) as Hl.
  unfold settled, status, same_disk. cbn -[latency MAX_LATENCY]. repeat split; try lia.
  destruct p; try done; destruct (0 <? _); done.
Qed.

Lemma select_fault lba op c d :
  busy d = 0 -> (c = CMD_READ_SECTORS \/ c = CMD_WRITE_SECTORS) ->
  readable d (lba mod 2 ^ 28) = false ->
  exists d1, select_drive_and_issue_command lba op c d = (Ok 0x51, d1) /\ same_disk d d1.
Proof.
  intros Hb Hc Hr. rewrite (select_effect lba op c d Hb Hc).
  assert (Ha : acceptable (set_file (lba_file lba) d) = false) by (rewrite (acceptable_lba _ lba) by done; exact Hr).
  assert (Hcmd : command c (set_file (lba_file lba) d) = enter Fault (set_file (lba_file lba) d))
    by (destruct Hc as [-> | ->]; unfold command; rewrite Ha; done).
  rewrite Hcmd. eexists. split; [reflexivity|]. done.
Qed.

Lemma read_drive lba d :
  busy d = 0 ->
  exists d', same_disk d d' /\
    read_sector_inner lba d =
      (if readable d (lba mod 2 ^ 28) then Ok (contents d (lba mod 2 ^ 28))
       else Err "ATA read: drive reported an error (ERR bit set)", d').
Proof.
  intros Hb. destruct (readable d (lba mod 2 ^ 28)) eqn:Hr.
  - set (s := contents d (lba mod 2 ^ 28)).
    destruct (select_transfer lba ReadOp CMD_READ_SECTORS (DataIn s) d Hb (or_introl eq_refl) Hr)
      as (st & d1 & E & Hst & Hs & Hp & Hq); [|done|].
    { unfold command. change (CMD_READ_SECTORS =? CMD_READ_SECTORS) with true. cbn iota.
      change (file (set_file (lba_file lba) d)) with (lba_file lba). rewrite addressed_lba.
      change (sectors (lba_file lba)) with 1%nat. cbn [seq map concat]. rewrite app_nil_r.
      change (Z.of_nat 0) with 0. by rewrite Z.add_0_r. }
    assert (Hb1 : busy d1 = 0) by apply Hs.
    unfold read_sector_inner. rewrite (M_bind_Ok _ _ _ _ _ E), (M_bind_Ok _ _ _ _ _ (check_no_err st _ _ Hst)).
    assert (Hd : has_data d1) by (unfold has_data; by rewrite Hp).
    rewrite (M_bind_Ok _ _ _ _ _ (poll_drq _ _ Hb1 Hq Hd)), (M_bind_Ok _ _ _ _ _ (check_no_err 0x58 _ _ eq_refl)).
    destruct (contents_good d (lba mod 2 ^ 28)) as [Hl Hbs].
    rewrite (read_words_run s 255 (set_wait 0 0 d1) Hbs Hl eq_refl eq_refl Hp).
    eexists. split; [|done]. destruct Hs as (H1 & H2 & H3 & H4 & _). done.
  - destruct (select_fault lba ReadOp CMD_READ_SECTORS d Hb (or_introl eq_refl) Hr) as (d1 & E & Hs).
    exists d1. split; [done|]. unfold read_sector_inner. by rewrite (M_bind_Ok _ _ _ _ _ E).
Qed.

(** The drive after a successful write of [s] at [a]: stored, and on the platter. *)
Definition wrote (a : Z) (s : list Z) (d d' : Drive) : Prop :=
  seen d' = upd a s (seen d) /\ platter d' = upd a s (seen d) /\
  capacity d' = capacity d /\ bad d' = bad d /\ busy d' = 0.

Lemma write_drive lba s d :
  busy d = 0 -> length s = SECTOR -> bytes_ok s ->
  exists d', (if readable d (lba mod 2 ^ 28) then wrote (lba mod 2 ^ 28) s d d' else same_disk d d') /\
    write_sector_inner lba s d =
      (if readable d (lba mod 2 ^ 28) then Ok tt
       else Err "ATA write: drive reported an error (ERR bit set)", d').
Proof.
  intros Hb Hl Hbs. destruct (readable d (lba mod 2 ^ 28)) eqn:Hr.
  - destruct (select_transfer lba WriteOp CMD_WRITE_SECTORS (DataOut (lba mod 2 ^ 28) 1 []) d Hb
      (or_intror eq_refl) Hr) as (st & d1 & E & Hst & (Hpl & Hse & Hca & Hba & Hb1) & Hp & Hq); [|done|].
    { unfold command. change (CMD_WRITE_SECTORS =? CMD_READ_SECTORS) with false.
      change (CMD_WRITE_SECTORS =? CMD_WRITE_SECTORS) with true. cbn iota.
      change (file (set_file (lba_file lba) d)) with (lba_file lba). by rewrite addressed_lba. }
    unfold write_sector_inner.
    rewrite (M_bind_Ok _ _ _ _ _ E), (M_bind_Ok _ _ _ _ _ (check_no_err st _ _ Hst)).
    assert (Hd : has_data d1) by (unfold has_data; by rewrite Hp).
    rewrite (M_bind_Ok _ _ _ _ _ (poll_drq _ _ Hb1 Hq Hd)), (M_bind_Ok _ _ _ _ _ (check_no_err 0x58 _ _ eq_refl)).
    rewrite (M_bind_Ok _ _ _ _ _ (write_words_run _ s 255 [] (set_wait 0 0 d1) Hbs Hl Hl eq_refl eq_refl Hp)).
    cbn [app]. set (d2 := enter Idle (store (lba mod 2 ^ 28) s (set_wait 0 0 d1))).
    rewrite (M_bind_Ok _ _ _ _ _ (poll_bsy WriteOp d2 (waits_enter _ _))).
    rewrite (M_bind_Ok _ _ _ _ _ (check_no_err 0x50 _ _ eq_refl)).
    unfold write_port at 1. unfold mbind at 1, M_bind at 1.
    set (d3 := enter Idle (flush (settled d2))).
    change (outb COMMAND_STATUS CMD_CACHE_FLUSH (settled d2)) with d3.
    rewrite (M_bind_Ok _ _ _ _ _ (poll_bsy WriteOp d3 (waits_enter _ _))).
    rewrite (check_no_err 0x50 _ _ eq_refl). eexists. split; [|reflexivity].
    unfold wrote. cbn -[latency]. by rewrite Hse, Hca, Hba.
  - destruct (select_fault lba WriteOp CMD_WRITE_SECTORS d Hb (or_intror eq_refl) Hr) as (d1 & E & Hs).
    exists d1. split; [done|]. unfold write_sector_inner. by rewrite (M_bind_Ok _ _ _ _ _ E).
Qed.

(** ** The block device *)

Section Device.
Context {P : Type} `{AtaDrive P}.

(** A sector the drive can address and read, the drive being ready. *)
Definition ata_serves (p : P) (a : Z) : Prop :=
  0 <= a < 2 ^ 28 /\ readable (view p) a = true /\ busy (view p) = 0.

Lemma read_view lba p :
  busy (view p) = 0 ->
  same_disk (view p) (view (read_sector_inner lba p).2) /\
  (read_sector_inner lba p).1 =
    if readable (view p) (lba mod 2 ^ 28) then Ok (contents (view p) (lba mod 2 ^ 28))
    else Err "ATA read: drive reported an error (ERR bit set)".
Proof.
  intros Hb. destruct (sim_read lba p) as [-> ->].
  destruct (read_drive lba (view p) Hb) as (d' & Hs & ->). done.
Qed.

Lemma write_view lba s p :
  busy (view p) = 0 -> length s = SECTOR -> bytes_ok s ->
  (if readable (view p) (lba mod 2 ^ 28)
   then wrote (lba mod 2 ^ 28) s (view p) (view (write_sector_inner lba s p).2)
   else same_disk (view p) (view (write_sector_inner lba s p).2)) /\
  (write_sector_inner lba s p).1 =
    if readable (view p) (lba mod 2 ^ 28) then Ok tt
    else Err "ATA write: drive reported an error (ERR bit set)".
Proof.
  intros Hb Hl Hbs. destruct (sim_write lba s p) as [-> ->].
  destruct (write_drive lba s (view p) Hb Hl Hbs) as (d' & Hs & ->). done.
Qed.

Lemma contents_seen (d d' : Drive) a : seen d' = seen d -> contents d' a = contents d a.
Proof. intros H'. unfold contents. by rewrite H'. Qed.

Lemma contents_upd (d d' : Drive) a s b :
  seen d' = upd a s (seen d) -> length s = SECTOR -> bytes_ok s ->
  contents d' b = upd a s (contents d) b.
Proof.
  intros H' Hl Hb. unfold contents. rewrite H'. unfold upd. destruct (decide (b = a)); [|done].
  by rewrite (proj2 (MemDisk.good_sector_spec s)).
Qed.

Lemma serves_same (p p' : P) a :
  same_disk (view p) (view p') -> ata_serves p a -> ata_serves p' a.
Proof.
  intros (_ & _ & Hc & Hb & Hz) (Ha & Hr & _). unfold ata_serves, readable in *. by rewrite Hc, Hb.
Qed.

Lemma serves_mod p a : ata_serves p a -> a mod 2 ^ 28 = a.
Proof. intros [Ha _]. by apply Z.mod_small. Qed.

Lemma same_contents p (m : P) a : same_disk (view p) (view m) -> contents (view m) a = contents (view p) a.
Proof. intros (_ & Hs & _). by apply contents_seen. Qed.
End Device.

#[export] Program Instance ata_dev {P} `{AtaDrive P} : BlockDev P := {
  sector_at p a := contents (view p) a;
  serves := ata_serves;
}.
Next Obligation. intros. apply contents_good. Qed.
Next Obligation. intros. apply contents_good. Qed.
Next Obligation. intros. apply total_read. Qed.
Next Obligation.
  intros P ? ? a p b. apply contents_seen. cbn. rewrite (proj2 (sim_read a p)). apply keeps_seen_read.
Qed.
Next Obligation.
  intros P ? ? a p b Hs. apply (serves_same p); [|done]. by apply read_view, Hs.
Qed.
Next Obligation.
  intros P ? ? a p Hs. cbn. destruct (read_view a p) as [_ ->]; [apply Hs|].
  rewrite (serves_mod _ _ Hs). destruct Hs as (_ & -> & _). done.
Qed.
Next Obligation. intros. apply total_write. Qed.
Next Obligation.
  intros P ? ? a s p b Hs Hl Hb Hne. cbn. destruct (write_view a s p) as [Hw _]; [apply Hs|done|done|].
  rewrite (serves_mod _ _ Hs) in Hw. destruct Hs as (_ & Hr & _). rewrite Hr in Hw.
  rewrite (contents_upd _ _ _ _ _ (proj1 Hw) Hl Hb). by apply upd_other.
Qed.
Next Obligation.
  intros P ? ? a s p b Hl Hb Hs. pose proof (write_view a s p (proj2 (proj2 Hs)) Hl Hb) as [Hw _].
  destruct (readable _ _); [|by apply (serves_same p)].
  destruct Hw as (_ & _ & Hc & Hbad & Hz), Hs as (Ha & Hr & _).
  unfold ata_serves, readable in *. cbn. by rewrite Hc, Hbad.
Qed.
Next Obligation.
  intros P ? ? a s p Hs Hl Hb. cbn. destruct (write_view a s p) as [Hw ->]; [apply Hs|done|done|].
  rewrite (serves_mod _ _ Hs) in *. destruct Hs as (_ & Hr & _). rewrite Hr in *. split; [done|].
  rewrite (contents_upd _ _ _ _ _ (proj1 Hw) Hl Hb). apply upd_same.
Qed.

(** Only the low 28 bits of an address reach the drive. *)
Lemma file_lba28 lba : lba_file (lba mod 2 ^ 28) = lba_file lba.
Proof. unfold lba_file. change (2 ^ 28) with 268435456. f_equal; [| | |f_equal]; div_lia. Qed.

(** An error that comes whatever was read before it. *)
Lemma then_err {S A B} (m : M S A) (k : A -> M S B) e s :
  (exists a s', m s = (Ok a, s')) -> (forall a s', (k a s').1 = Err e) -> ((m ≫= k) s).1 = Err e.
Proof. intros (a & s' & E) Hk. by rewrite (M_bind_Ok _ _ _ _ _ E). Qed.

(** ** Properties *)

(** C23. On any hardware that behaves as the ATA standard documents a drive, however
    long each of its waits: writing a sector the drive serves succeeds, the data is
    on the platter (not only in the write cache) when the call returns, a later
    read returns it and every other sector reads as before; a sector out of range
    or bad is an error that changes nothing. *)
Theorem ata_write_durable {P} `{AtaDrive P} (p : P) a s :
  busy (view p) = 0 -> 0 <= a < 2 ^ 28 -> length s = SECTOR -> bytes_ok s ->
  if readable (view p) a
  then exists p', write_sector_inner a s p = (Ok tt, p') /\ platter (view p') a = s /\
    (read_sector_inner a p').1 = Ok s /\
    (forall b, 0 <= b < 2 ^ 28 -> b <> a -> (read_sector_inner b p').1 = (read_sector_inner b p).1)
  else exists p', write_sector_inner a s p = (Err "ATA write: drive reported an error (ERR bit set)", p') /\
    (forall b, 0 <= b < 2 ^ 28 -> (read_sector_inner b p').1 = (read_sector_inner b p).1).
Proof.
  intros Hz Ha Hl Hb. pose proof (write_view a s p Hz Hl Hb) as [Hw Hr].
  rewrite (Z.mod_small a) in * by done. destruct (write_sector_inner a s p) as [r p']. cbn in Hw, Hr.
  assert (Hread : forall q b, busy (view q) = 0 -> 0 <= b < 2 ^ 28 -> (read_sector_inner b q).1 =
    if readable (view q) b then Ok (contents (view q) b)
    else Err "ATA read: drive reported an error (ERR bit set)").
  { intros q b Hq Hb'. destruct (read_view b q Hq) as [_ ->]. by rewrite (Z.mod_small b). }
  destruct (readable (view p) a) eqn:Hra; subst r; exists p'; (split; [done|]).
  - pose proof Hw as (Hse & Hpl & Hc & Hba & Hz'). split; [by rewrite Hpl, upd_same|].
    assert (Hrd : forall b, readable (view p') b = readable (view p) b)
      by (intros b; unfold readable; by rewrite Hc, Hba).
    split.
    + rewrite Hread, Hrd, Hra by done. by rewrite (contents_upd _ _ _ _ _ Hse Hl Hb), upd_same.
    + intros b Hb' Hne. rewrite !Hread, Hrd by done.
      by rewrite (contents_upd _ _ _ _ _ Hse Hl Hb), upd_other by done.
  - intros b Hb'. destruct Hw as (Hpl & Hse & Hc & Hba & Hz'). rewrite !Hread by done.
    unfold readable. by rewrite Hc, Hba, (contents_seen _ _ _ Hse).
Qed.

(** A drive of four sectors, the last one bad, that answers after three status
    reads. *)
Definition small_drive : Drive :=
  mk_Drive (fun _ => MemDisk.zero_sector) (fun _ => MemDisk.zero_sector) 4 (fun a => a =? 3) (fun _ => 3)
    (mk_TaskFile 0 0 0 0 0) Idle 0 0 0.

Lemma ata_write_durable_witness :
  (exists p', write_sector_inner 2 (replicate SECTOR 7) small_drive = (Ok tt, p') /\
     platter p' 2 = replicate SECTOR 7) /\
  (exists p', write_sector_inner 3 (replicate SECTOR 7) small_drive =
     (Err "ATA write: drive reported an error (ERR bit set)", p')).
Proof.
  assert (Hb : bytes_ok (replicate SECTOR 7)) by (apply Forall_replicate; split; lia).
  assert (Hz : busy (view small_drive) = 0) by reflexivity.
  split.
  - destruct (ata_write_durable small_drive 2 (replicate SECTOR 7) Hz ltac:(lia) eq_refl Hb)
      as (p' & E & Hp & _). exists p'. split; [exact E|exact Hp].
  - destruct (ata_write_durable small_drive 3 (replicate SECTOR 7) Hz ltac:(lia) eq_refl Hb)
      as (p' & E & _). exists p'. exact E.
Defined.

(** A drive that never lowers BSY - or a bus with nothing on it, which reads
    all ones - does not hang the kernel: the call returns the timeout error of its
    own direction after [MAX_POLL_ITERATIONS] status reads. *)
Theorem ata_times_out {P} `{Ports P} (p : P) lba buf :
  (forall q, Z.land (inb COMMAND_STATUS q).1 STATUS_BSY <> 0) ->
  (read_sector_inner lba p).1 = Err "ATA read: timed out waiting for the drive to respond" /\
  (write_sector_inner lba buf p).1 = Err "ATA write: timed out waiting for the drive to respond".
Proof.
  intros Hbsy.
  assert (Hpoll : forall op q, exists q', poll_until COMMAND_STATUS op (fun s => Z.land s STATUS_BSY =? 0) q =
    (Err match op with
         | ReadOp => "ATA read: timed out waiting for the drive to respond"
         | WriteOp => "ATA write: timed out waiting for the drive to respond"
         end, q')).
  { intros op q. unfold poll_until.
    assert (Hs : forall n q, exists q', silent (poll_status COMMAND_STATUS (fun s => Z.land s STATUS_BSY =? 0)) n q q').
    { induction n as [|n IH]; intros r; [eexists; constructor|].
      specialize (Hbsy r). destruct (inb COMMAND_STATUS r) as [v r'] eqn:E. cbn in Hbsy.
      destruct (IH r') as [q' Hq']. exists q'. econstructor; [|exact Hq'].
      unfold poll_status, read_port, mbind, M_bind. rewrite E. by rewrite (proj2 (Z.eqb_neq _ _) Hbsy). }
    destruct (Hs (Pos.to_nat MAX_POLL_ITERATIONS) q) as [q' Hq'].
    rewrite (M_bind_Ok _ _ _ _ _ (poll_silent _ _ _ _ Hq')). eexists. by destruct op. }
  assert (Hsel : forall op c q, (select_drive_and_issue_command lba op c q).1 =
    Err match op with
        | ReadOp => "ATA read: timed out waiting for the drive to respond"
        | WriteOp => "ATA write: timed out waiting for the drive to respond"
        end).
  { intros op c q. unfold select_drive_and_issue_command.
    assert (Hin : forall q, exists v q', read_port (P:=P) inb ERROR_FEATURES q = (Ok v, q'))
      by (intros r; unfold read_port; destruct (inb _ r); by eexists _, _).
    assert (Hout : forall a v q, exists u q', write_port (P:=P) outb a v q = (Ok u, q'))
      by (intros; by eexists _, _).
    repeat (apply then_err; [apply Hin || apply Hout|intros ? ?]).
    match goal with |- (poll_until _ _ _ ?q).1 = _ => by destruct (Hpoll op q) as [q' ->] end. }
  unfold read_sector_inner, write_sector_inner. split.
  - specialize (Hsel ReadOp CMD_READ_SECTORS p). unfold mbind at 1, M_bind at 1.
    destruct (select_drive_and_issue_command _ _ _ p) as [r p']. cbn in Hsel. by subst r.
  - specialize (Hsel WriteOp CMD_WRITE_SECTORS p). unfold mbind at 1, M_bind at 1.
    destruct (select_drive_and_issue_command _ _ _ p) as [r p']. cbn in Hsel. by subst r.
Qed.

(** A bus with no drive: every read gives all ones. *)
Definition floating_bus : Ports unit :=
  {| inb _ p := (0xFF, p); outb _ _ p := p; inw _ p := (0xFFFF, p); outw _ _ p := p;
     inl _ p := (0xFFFFFFFF, p); outl _ _ p := p |}.

Lemma ata_times_out_witness :
  (@read_sector_inner unit floating_bus 0 tt).1 = Err "ATA read: timed out waiting for the drive to respond".
Proof. apply (@ata_times_out unit floating_bus tt 0 []). intros q. cbn. discriminate. Defined.
