(* ===== verification/Fat12.v ===== *)
(** * Fat12: the FAT12 filesystem ([fat12.rs])

    A mounted volume [Vol] is the code's [Fat12Info] (the BPB fields and the
    in-memory copy of the first FAT) and the block device.  Every method is a
    stateful call [M Vol]: what it wrote before an early return stays written.
    This file holds the operations; the theorems are in Fat12Table (the table),
    Fat12Chain (chains and allocation) and Fat12Data (file contents). *)
From stdpp Require Import base list numbers strings.
From Stdlib Require Import Lia.
From S2P Require Import Prelude FatCommon Rtc FatEntry12 Partition BlockDev.
Open Scope Z_scope.

Record Fat12Info := mk_Fat12Info {
  sectors_per_cluster : Z;
  num_fats : Z;
  fat_size_16 : Z;
  root_entry_count : Z;
  reserved_sector_count : Z;
  partition_start_lba : Z;
  fat_bytes : list Z;
}.

Inductive DirLocation := Root | Cluster (c : Z).

Definition set_fat_bytes (b : list Z) (fs : Fat12Info) : Fat12Info :=
  mk_Fat12Info (sectors_per_cluster fs) (num_fats fs) (fat_size_16 fs) (root_entry_count fs)
    (reserved_sector_count fs) (partition_start_lba fs) b.

(** ** Layout *)

Definition first_fat_sector (fs : Fat12Info) : Z :=
  u32 (partition_start_lba fs + reserved_sector_count fs).

Definition root_dir_sectors (fs : Fat12Info) : Z :=
  div_ceilZ (u32 (root_entry_count fs * 32)) 512.

Definition first_root_dir_sector (fs : Fat12Info) : Z :=
  u32 (first_fat_sector fs + u32 (num_fats fs * fat_size_16 fs)).

Definition first_data_sector (fs : Fat12Info) : Z :=
  u32 (first_root_dir_sector fs + root_dir_sectors fs).

Definition cluster_to_lba (fs : Fat12Info) (cluster : Z) : Z :=
  u32 (first_data_sector fs + u32 (u32 (cluster - 2) * sectors_per_cluster fs)).

(** [0..self.sectors_per_cluster as u32] *)
Definition cluster_sectors (fs : Fat12Info) : list Z :=
  map Z.of_nat (seq 0 (Z.to_nat (sectors_per_cluster fs))).

(** [0..self.root_dir_sectors()] from the first root directory sector. *)
Definition root_lbas (fs : Fat12Info) : list Z :=
  map (fun s => u32 (first_root_dir_sector fs + Z.of_nat s))
    (seq 0 (Z.to_nat (root_dir_sectors fs))).

Definition cluster_lbas (fs : Fat12Info) (c : Z) : list Z :=
  map (fun s => u32 (cluster_to_lba fs c + s)) (cluster_sectors fs).

(** ** The table in memory *)

(** [(cluster * 3 / 2) as usize], the multiplication in [u32]. *)
Definition fat_offset (cluster : Z) : Z := u32 (cluster * 3) / 2.

(** [byte_offset + 1 >= self.fat_bytes.len()] *)
Definition fat_out_of_range (fs : Fat12Info) (cluster : Z) : bool :=
  Z.of_nat (length (fat_bytes fs)) <=? fat_offset cluster + 1.

(** The 12-bit entry at an offset that is in range. *)
Definition fat_entry (bytes : list Z) (cluster : Z) : Z :=
  let raw16 := le16_at bytes (Z.to_nat (fat_offset cluster)) in
  if Z.even cluster then Z.land raw16 0x0FFF else Z.shiftr raw16 4.

Definition next_cluster (fs : Fat12Info) (cluster : Z) : res (option Z) :=
  if fat_out_of_range fs cluster then
    Err "FAT12: cluster number out of range for this FAT"
  else
    let entry := fat_entry (fat_bytes fs) cluster in
    if entry =? 0 then Err "FAT12: cluster chain hit a free (0) entry unexpectedly"
    else if 0x0FF8 <=? entry then Ok None
    else Ok (Some entry).

(** [self.next_cluster(cluster).is_err()] *)
Definition cluster_is_free (fs : Fat12Info) (cluster : Z) : bool :=
  negb (is_ok (next_cluster fs cluster)).

(** The candidates of the scan: [2..total_entries]. *)
Definition scan_range (fs : Fat12Info) : list Z :=
  let total_entries := u32 (Z.of_nat (length (fat_bytes fs)) * 2 / 3) in
  map (fun i => 2 + Z.of_nat i) (seq 0 (Z.to_nat (total_entries - 2))).

Fixpoint find_free_loop (fs : Fat12Info) (candidates : list Z) (count : nat) (found : list Z)
    : list Z :=
  match candidates with
  | [] => found
  | cluster :: rest =>
      if (length found =? count)%nat then found
      else if fat_out_of_range fs cluster then found
      else if fat_entry (fat_bytes fs) cluster =? 0
      then find_free_loop fs rest count (found ++ [cluster])
      else find_free_loop fs rest count found
  end.

Definition find_free_clusters (fs : Fat12Info) (count : nat) : res (list Z) :=
  let found := find_free_loop fs (scan_range fs) count [] in
  if (length found <? count)%nat
  then Err "FAT12: not enough free clusters available for this file"
  else Ok found.

(** Steps after which a chain walk that has not ended never ends: the entries
    are 12-bit. *)
Definition CHAIN_FUEL : nat := Z.to_nat 4098.

(** The clusters of a chain, from [c] to its end marker. *)
Fixpoint chain (fs : Fat12Info) (fuel : nat) (c : Z) : res (list Z) :=
  match fuel with
  | O => Hang
  | S f =>
      n ← next_cluster fs c;
      match n with
      | Some c' => r ← chain fs f c'; Ok (c :: r)
      | None => Ok [c]
      end
  end.

Definition directory_sectors (fs : Fat12Info) (dir : DirLocation) : res (list Z) :=
  match dir with
  | Root => Ok (root_lbas fs)
  | Cluster start_cluster =>
      cs ← chain fs CHAIN_FUEL start_cluster;
      Ok (concat (map (cluster_lbas fs) cs))
  end.

(** ** The mounted volume *)

Record Vol (D : Type) := mk_Vol { info : Fat12Info; dev : D }.
Arguments mk_Vol {D}.
Arguments info {D}.
Arguments dev {D}.

Section Ops.
Context {D : Type} `{BlockOps D}.

(** [ata::read_sector] and [ata::write_sector] on the volume's device. *)
Definition read_lba (lba : Z) : M (Vol D) (list Z) := fun v =>
  let '(r, d) := read_sector lba (dev v) in (r, mk_Vol (info v) d).

Definition write_lba (lba : Z) (buf : list Z) : M (Vol D) unit := fun v =>
  let '(r, d) := write_sector lba buf (dev v) in (r, mk_Vol (info v) d).

(** A method that only reads [self]. *)
Definition on_fs {A} (f : Fat12Info -> res A) : M (Vol D) A := fun v => (f (info v), v).

Definition get_fs : M (Vol D) Fat12Info := gets info.

Definition zero_sector : list Z := replicate SECTOR 0.

(** The read-modify-write of one slot or field: [bytes] at [offset] of a sector. *)
Definition patch_sector (lba : Z) (offset : nat) (bytes : list Z) : M (Vol D) unit :=
  buf ← read_lba lba;
  write_lba lba (splice offset bytes buf).

(** ** Mounting *)

Definition read_bpb (partition : PartitionEntry) (d : D) : res Fat12Info * D :=
  (sector ← (read_sector (start_lba partition) : M D (list Z));
   if negb (byte_at sector 510 =? 0x55) || negb (byte_at sector 511 =? 0xAA) then
     lift (Err "FAT12: boot sector missing 0x55AA signature")
   else if negb (le16_at sector 11 =? 512) then
     lift (Err "FAT12: only 512-byte sectors are supported")
   else
     let sectors_per_cluster := byte_at sector 13 in
     let reserved_sector_count := le16_at sector 14 in
     let num_fats := byte_at sector 16 in
     let root_entry_count := le16_at sector 17 in
     let fat_size_16 := le16_at sector 22 in
     if root_entry_count =? 0 then
       lift (Err "not FAT12/16 (root_entry_count == 0 means this is FAT32)")
     else if fat_size_16 =? 0 then
       lift (Err "FAT12: fat_size_16 is 0 - not a valid FAT12/16 BPB")
     else
       let first_fat_sector := u32 (start_lba partition + reserved_sector_count) in
       o ← for_each (R := unit) (seq 0 (Z.to_nat fat_size_16))
             (fun s fat_bytes =>
                buf ← read_sector (u32 (first_fat_sector + Z.of_nat s));
                mret (inl (splice (s * 512) buf fat_bytes)))
             (replicate (Z.to_nat (fat_size_16 * 512)) 0);
       match o with
       | inl fat_bytes =>
           mret (mk_Fat12Info sectors_per_cluster num_fats fat_size_16 root_entry_count
             reserved_sector_count (start_lba partition) fat_bytes)
       | inr _ => lift Panic
       end) d.

(** ** Writing a table entry *)

(** The new 16-bit word: the 12 bits of [value] in the half [cluster] selects,
    the neighbour's 4 bits kept. *)
Definition merge_entry (cluster raw16 value : Z) : Z :=
  let masked := Z.land value 0x0FFF in
  if Z.even cluster then Z.lor (Z.land raw16 0xF000) masked
  else Z.lor (Z.land raw16 0x000F) (u16 (Z.shiftl masked 4)).

Definition write_fat_entry_to_disk (cluster value : Z) : M (Vol D) unit :=
  fs ← get_fs;
  if fat_out_of_range fs cluster then
    lift (Err "FAT12: cluster number out of range for this FAT")
  else
    let byte_offset := fat_offset cluster in
    let sector0 := u32 (first_fat_sector fs + byte_offset / 512) in
    let offset0 := Z.to_nat (byte_offset mod 512) in
    let straddles := (offset0 =? 511)%nat in
    buf0 ← read_lba sector0;
    buf1 ← (if straddles then read_lba (u32 (sector0 + 1)) else mret zero_sector);
    let byte0 := byte_at buf0 offset0 in
    let byte1 := if straddles then byte_at buf1 0 else byte_at buf0 (offset0 + 1) in
    let raw16 := merge_entry cluster (le_of [byte0; byte1]) value in
    let out0 := raw16 mod 256 in
    let out1 := raw16 / 256 mod 256 in
    let buf0 := <[offset0 := out0]> buf0 in
    _ ← (if straddles then
           _ ← write_lba sector0 buf0;
           write_lba (u32 (sector0 + 1)) (<[0%nat := out1]> buf1)
         else write_lba sector0 (<[(offset0 + 1)%nat := out1]> buf0));
    modify (fun v =>
      let b := <[Z.to_nat byte_offset := out0]> (fat_bytes (info v)) in
      mk_Vol (set_fat_bytes (<[S (Z.to_nat byte_offset) := out1]> b) (info v)) (dev v)).

(** ** Scanning a directory *)

(** One sector of a listing: the loop ends when the end marker is met. *)
Definition list_sector (lba : Z) (st : list DirEntry * LfnState)
    : M (Vol D) (list DirEntry * LfnState + list DirEntry) :=
  sector_buf ← read_lba lba;
  let '(ended, entries, lfn) := parse_dir_sector sector_buf st.1 st.2 in
  mret (if ended : bool then inr entries else inl (entries, lfn)).

Definition list_root_directory : M (Vol D) (list DirEntry) :=
  fs ← get_fs;
  o ← for_each (root_lbas fs) list_sector ([], LfnState_default);
  mret (match o with inl st => st.1 | inr entries => entries end).

Definition next_of (c : Z) : M (Vol D) (option Z) := on_fs (fun fs => next_cluster fs c).

Definition list_directory (start_cluster : Z) : M (Vol D) (list DirEntry) :=
  fs ← get_fs;
  o ← walk next_of
        (fun c st => for_each (cluster_lbas fs c) list_sector st)
        CHAIN_FUEL start_cluster ([], LfnState_default);
  mret (match o with inl st => st.1 | inr entries => entries end).

Definition list_entries_in (dir : DirLocation) : M (Vol D) (list DirEntry) :=
  match dir with
  | Root => list_root_directory
  | Cluster c => list_directory c
  end.

(** The slots up to the end marker that are not free: the count and whether the
    marker was met. *)
Fixpoint count_slots (slots : list (list Z)) (count : nat) : nat * bool :=
  match slots with
  | [] => (count, false)
  | raw :: rest =>
      if byte_at raw 0 =? 0x00 then (count, true)
      else count_slots rest (if negb (byte_at raw 0 =? 0xE5) then S count else count)
  end.

Definition count_used_slots_in (dir_cluster : Z) : M (Vol D) nat :=
  fs ← get_fs;
  o ← walk next_of
        (fun c count =>
           for_each (cluster_lbas fs c)
             (fun lba count =>
                sector_buf ← read_lba lba;
                let '(count, ended) := count_slots (as_chunks 32 sector_buf) count in
                mret (if ended : bool then inr count else inl count))
             count)
        CHAIN_FUEL dir_cluster 0%nat;
  mret (match o with inl n => n | inr n => n end).

Definition file_not_found (dir : DirLocation) : string :=
  match dir with
  | Root => "FAT12: file not found in root directory"
  | Cluster _ => "FAT12: file not found in directory"
  end.

(** The slots of one sector, numbered from [i]: the entry that matches, the end
    marker, or the state to go on with. *)
Inductive scan_result := Found (i : nat) (e : DirEntry) | EndMarker | GoOn (lfn : LfnState).

Fixpoint find_in_slots (slots : list (list Z)) (i : nat) (name : list Z) (lfn : LfnState)
    : scan_result :=
  match slots with
  | [] => GoOn lfn
  | raw :: rest =>
      match slot_kind_of raw with
      | SlotEnd => EndMarker
      | SlotFree | SlotLabel => find_in_slots rest (S i) name (reset lfn)
      | SlotLong => find_in_slots rest (S i) name (push_long_entry raw lfn)
      | SlotShort =>
          match short_entry_if_matches raw lfn name with
          | (Some entry, _) => Found i entry
          | (None, lfn) => find_in_slots rest (S i) name lfn
          end
      end
  end.

Definition find_entry_location_in (dir : DirLocation) (name : list Z)
    : M (Vol D) (Z * nat * DirEntry) :=
  lbas ← on_fs (fun fs => directory_sectors fs dir);
  o ← for_each lbas
        (fun lba lfn =>
           sector_buf ← read_lba lba;
           match find_in_slots (as_chunks 32 sector_buf) 0 name lfn with
           | Found i entry => mret (inr (lba, (i * 32)%nat, entry))
           | EndMarker => lift (Err (file_not_found dir))
           | GoOn lfn => mret (inl lfn)
           end) LfnState_default;
  match o with
  | inr r => mret r
  | inl _ => lift (Err (file_not_found dir))
  end.

Fixpoint preceding_in_slots (slots : list (list Z)) (lba : Z) (i : nat) (short_lba : Z)
    (short_offset : nat) (pending : list (Z * nat)) : list (Z * nat) + list (Z * nat) :=
  match slots with
  | [] => inl pending
  | raw :: rest =>
      let offset := (i * 32)%nat in
      if (lba =? short_lba) && (offset =? short_offset)%nat then inr pending
      else if byte_at raw 0 =? 0x00 then inr []
      else if byte_at raw 0 =? 0xE5 then preceding_in_slots rest lba (S i) short_lba short_offset []
      else if byte_at raw 11 =? 0x0F
      then preceding_in_slots rest lba (S i) short_lba short_offset (pending ++ [(lba, offset)])
      else preceding_in_slots rest lba (S i) short_lba short_offset []
  end.

Definition find_preceding_lfn_slots (dir : DirLocation) (short_lba : Z) (short_offset : nat)
    : M (Vol D) (list (Z * nat)) :=
  lbas ← on_fs (fun fs => directory_sectors fs dir);
  o ← for_each lbas
        (fun lba pending =>
           sector_buf ← read_lba lba;
           mret (preceding_in_slots (as_chunks 32 sector_buf) lba 0 short_lba short_offset pending))
        [];
  mret (match o with inl _ => [] | inr r => r end).

Fixpoint short_names_in_slots (slots : list (list Z)) (names : list (list Z))
    : list (list Z) + list (list Z) :=
  match slots with
  | [] => inl names
  | raw :: rest =>
      if byte_at raw 0 =? 0x00 then inr names
      else if (byte_at raw 0 =? 0xE5) || (byte_at raw 11 =? 0x0F) ||
              negb (Z.land (byte_at raw 11) 0x08 =? 0)
      then short_names_in_slots rest names
      else short_names_in_slots rest (names ++ [take 11 raw])
  end.

Definition existing_short_names_in (dir : DirLocation) : M (Vol D) (list (list Z)) :=
  lbas ← on_fs (fun fs => directory_sectors fs dir);
  o ← for_each lbas
        (fun lba names =>
           sector_buf ← read_lba lba;
           mret (short_names_in_slots (as_chunks 32 sector_buf) names)) [];
  mret (match o with inl n => n | inr n => n end).

(** ** Free directory slots *)

Definition ENTRIES_PER_SECTOR : nat := 512 / 32.

(** Consecutive free slots: the run found so far, or the run of [count]. *)
Fixpoint free_run_in_slots (slots : list (list Z)) (lba : Z) (i count : nat)
    (run : list (Z * nat)) : list (Z * nat) + list (Z * nat) :=
  match slots with
  | [] => inl run
  | raw :: rest =>
      if (byte_at raw 0 =? 0x00) || (byte_at raw 0 =? 0xE5) then
        let run := run ++ [(lba, (i * 32)%nat)] in
        if (length run =? count)%nat then inr run
        else free_run_in_slots rest lba (S i) count run
      else free_run_in_slots rest lba (S i) count []
  end.

(** [while let Some(next) = self.next_cluster(tail)? { tail = next; }] *)
Fixpoint chain_tail (fs : Fat12Info) (fuel : nat) (tail : Z) : res Z :=
  match fuel with
  | O => Hang
  | S f =>
      n ← next_cluster fs tail;
      match n with Some next => chain_tail fs f next | None => Ok tail end
  end.

Definition grow_directory (start_cluster : Z) : M (Vol D) (Z * nat) :=
  tail ← on_fs (fun fs => chain_tail fs CHAIN_FUEL start_cluster);
  found ← on_fs (fun fs => find_free_clusters fs 1);
  new_cluster ← lift (idx found 0);
  fs ← get_fs;
  _ ← for_each (R := unit) (cluster_lbas fs new_cluster)
        (fun lba _ => _ ← write_lba lba zero_sector; mret (inl tt)) tt;
  _ ← write_fat_entry_to_disk tail (u16 new_cluster);
  _ ← write_fat_entry_to_disk new_cluster 0x0FFF;
  mret (cluster_to_lba fs new_cluster, 0%nat).

Definition find_free_entry_run_in (dir : DirLocation) (count : nat)
    : M (Vol D) (list (Z * nat)) :=
  if (ENTRIES_PER_SECTOR <? count)%nat then
    lift (Err "FAT12: cannot reserve that many consecutive directory-entry slots within one sector")
  else
    lbas ← on_fs (fun fs => directory_sectors fs dir);
    o ← for_each lbas
          (fun lba run =>
             sector_buf ← read_lba lba;
             mret (free_run_in_slots (as_chunks 32 sector_buf) lba 0 count run)) [];
    match o with
    | inr run => mret run
    | inl run =>
        match dir with
        | Root => lift (Err "FAT12: root directory is full, no free entry slot")
        | Cluster start_cluster =>
            '(lba, offset) ← grow_directory start_cluster;
            let base_slot := (offset / 32)%nat in
            mret (run ++ map (fun slot => (lba, ((base_slot + slot) * 32)%nat))
                              (seq 0 (count - length run)))
        end
    end.

Definition find_free_entry_in (dir : DirLocation) : M (Vol D) (Z * nat) :=
  run ← find_free_entry_run_in dir 1;
  lift (idx run 0).

(** ** File contents *)

(** One sector of a file being read: the bytes still missing, at most 512. *)
Definition read_step (size : Z) (lba : Z) (data : list Z) : M (Vol D) (list Z + list Z) :=
  sector_buf ← read_lba lba;
  let remaining := size - Z.of_nat (length data) in
  let data := data ++ take (Z.to_nat (Z.min remaining 512)) sector_buf in
  mret (if size <=? Z.of_nat (length data) then inr data else inl data).

(** The loop of [read_file_impl]. *)
Definition read_chain (size start_cluster : Z) : M (Vol D) (list Z) :=
  fs ← get_fs;
  o ← walk next_of (fun c data => for_each (cluster_lbas fs c) (read_step size) data)
        CHAIN_FUEL start_cluster [];
  mret (match o with inl data => data | inr data => data end).

Definition read_file_impl (dir : DirLocation) (name : list Z) : M (Vol D) (list Z) :=
  '(_, _, entry) ← find_entry_location_in dir name;
  if is_dir entry then lift (Err (file_not_found dir))
  else if size entry =? 0 then mret []
  else read_chain (size entry) (FatCommon.start_cluster entry).

Definition read_file (name : list Z) : M (Vol D) (list Z) := read_file_impl Root name.
Definition read_file_in (dir_cluster : Z) (name : list Z) : M (Vol D) (list Z) :=
  read_file_impl (Cluster dir_cluster) name.

(** The next sector to write: up to 512 bytes of [data] from [written], padded
    with zeros. *)
Definition next_sector (data : list Z) (written : nat) : list Z * nat :=
  if (written <? length data)%nat then
    let end_ := Nat.min (written + 512) (length data) in
    (splice 0 (take (end_ - written) (drop written data)) zero_sector, end_)
  else (zero_sector, written).

Definition write_step (data : list Z) (lba : Z) (written : nat) : M (Vol D) (nat + nat) :=
  let '(sector_buf, written) := next_sector data written in
  _ ← write_lba lba sector_buf;
  mret (inl written).

(** The write-and-chain loop shared by [create_file_impl] and [write_file_impl]. *)
Fixpoint write_clusters (clusters : list Z) (data : list Z) (written : nat) : M (Vol D) unit :=
  match clusters with
  | [] => mret tt
  | c :: rest =>
      fs ← get_fs;
      o ← for_each (cluster_lbas fs c) (write_step data) written;
      let written := match o with inl w => w | inr w => w end in
      _ ← write_fat_entry_to_disk c (match rest with next :: _ => u16 next | [] => 0x0FFF end);
      write_clusters rest data written
  end.

(** [data.len().div_ceil(cluster_bytes).max(1)]: division by zero panics. *)
Definition clusters_needed (fs : Fat12Info) (len : nat) : res nat :=
  let cluster_bytes := (Z.to_nat (sectors_per_cluster fs) * 512)%nat in
  if (cluster_bytes =? 0)%nat then Panic
  else Ok (Nat.max (div_ceil len cluster_bytes) 1).

Fixpoint free_clusters (clusters : list Z) : M (Vol D) unit :=
  match clusters with
  | [] => mret tt
  | c :: rest => _ ← write_fat_entry_to_disk c 0x0000; free_clusters rest
  end.

Definition write_file_impl (dir : DirLocation) (name data : list Z) : M (Vol D) unit :=
  '(entry_lba, entry_offset, entry) ← find_entry_location_in dir name;
  if is_dir entry then lift (Err "FAT12: write_file does not support directories")
  else
    clusters ← on_fs (fun fs => chain fs CHAIN_FUEL (FatCommon.start_cluster entry));
    new_clusters_needed ← on_fs (fun fs => clusters_needed fs (length data));
    clusters ←
      (if (length clusters <? new_clusters_needed)%nat then
         extra ← on_fs (fun fs => find_free_clusters fs (new_clusters_needed - length clusters));
         mret (clusters ++ extra)
       else if (new_clusters_needed <? length clusters)%nat then
         _ ← free_clusters (drop new_clusters_needed clusters);
         mret (take new_clusters_needed clusters)
       else mret clusters);
    _ ← write_clusters clusters data 0;
    patch_sector entry_lba (entry_offset + 28) (le_bytes 4 (u32 (Z.of_nat (length data)))).

Definition write_file (name data : list Z) : M (Vol D) unit := write_file_impl Root name data.
Definition write_file_in (dir_cluster : Z) (name data : list Z) : M (Vol D) unit :=
  write_file_impl (Cluster dir_cluster) name data.

(** ** Names *)

Definition is_ascii_alphanumeric (b : Z) : bool :=
  ((0x30 <=? b) && (b <=? 0x39)) || ((0x41 <=? b) && (b <=? 0x5A)) ||
  ((0x61 <=? b) && (b <=? 0x7A)).

Definition alias_clean (l : list Z) : list Z :=
  List.filter (fun b => is_ascii_alphanumeric b || (b =? 0x5F) || (b =? 0x2D))
    (map to_ascii_uppercase l).

(** [format!("~{}", n)] for [1 <= n <= 99]. *)
Definition alias_suffix (n : nat) : list Z :=
  0x7E :: (if (n <? 10)%nat then [0x30 + Z.of_nat n]
           else [0x30 + Z.of_nat (n / 10); 0x30 + Z.of_nat (n mod 10)]).

Definition alias_of (clean_base clean_ext : list Z) (n : nat) : list Z :=
  let out := replicate 11 0x20 in
  let out := splice 0 clean_base out in
  let out := splice (length clean_base) (alias_suffix n) out in
  splice 8 clean_ext out.

Definition generate_short_alias (dir : DirLocation) (name : list Z) : M (Vol D) (list Z) :=
  let '(base, ext) := base_ext name in
  let clean_base := alias_clean base in
  let clean_base := if bool_decide (clean_base = []) then [0x5F] else clean_base in
  let clean_base := take 5 clean_base in
  let clean_ext := take 3 (alias_clean ext) in
  existing ← existing_short_names_in dir;
  match find (fun out => negb (existsb (fun x => bool_decide (x = out)) existing))
          (map (alias_of clean_base clean_ext) (seq 1 99)) with
  | Some out => mret out
  | None => lift (Err "FAT12: too many colliding short-name aliases in this directory")
  end.

Definition MAX_LFN_CHARS : nat := 15 * 13.

Definition build_name_entries (dir : DirLocation) (name : list Z)
    : M (Vol D) (list Z * list (list Z)) :=
  match to_short_name name with
  | Ok short_name =>
      existing ← existing_short_names_in dir;
      if existsb (fun x => bool_decide (x = short_name)) existing
      then lift (Err "FAT12: that short name is already in use")
      else mret (short_name, [])
  | _ =>
      if bool_decide (name = []) || (MAX_LFN_CHARS <? length name)%nat ||
         negb (forallb is_valid_lfn_char name)
      then lift (Err "FAT12: name must fit the 8.3 short-name format, or be a valid name of 195 characters or fewer")
      else
        short_name ← generate_short_alias dir name;
        mret (short_name, build_lfn_entries name short_name)
  end.

(** ** Creating and deleting *)

Fixpoint patch_all (writes : list (Z * nat * list Z)) : M (Vol D) unit :=
  match writes with
  | [] => mret tt
  | (lba, offset, bytes) :: rest => _ ← patch_sector lba offset bytes; patch_all rest
  end.

Definition write_name_entries (slots : list (Z * nat)) (long_entries : list (list Z))
    (short_entry : list Z) : M (Vol D) unit :=
  match last slots with
  | None => lift Panic
  | Some (short_lba, short_offset) =>
      patch_all (zip slots long_entries ++ [(short_lba, short_offset, short_entry)])
  end.

Definition name_taken (entries : list DirEntry) (nm : list Z) : bool :=
  existsb (fun e => eq_ignore_ascii_case (name e) nm) entries.

(** [clock] is what [rtc::read_time()] returns. *)
Definition create_file_impl (clock : RtcTime) (dir : DirLocation) (name data : list Z)
    : M (Vol D) unit :=
  entries ← list_entries_in dir;
  if name_taken entries name
  then lift (Err "FAT12: a file or directory with that name already exists")
  else
    '(short_name, long_entries) ← build_name_entries dir name;
    slots ← find_free_entry_run_in dir (length long_entries + 1);
    needed ← on_fs (fun fs => clusters_needed fs (length data));
    clusters ← on_fs (fun fs => find_free_clusters fs needed);
    _ ← write_clusters clusters data 0;
    let '(fat_time, fat_date) := to_fat_datetime clock in
    first ← lift (idx clusters 0);
    write_name_entries slots long_entries
      (build_dir_entry short_name 0x20 first (u32 (Z.of_nat (length data))) fat_time fat_date).

Definition create_file clock (name data : list Z) : M (Vol D) unit :=
  create_file_impl clock Root name data.
Definition create_file_in clock (dir_cluster : Z) (name data : list Z) : M (Vol D) unit :=
  create_file_impl clock (Cluster dir_cluster) name data.

Definition dot_name : list Z := <[0%nat := 0x2E]> (replicate 11 0x20).
Definition dotdot_name : list Z := <[1%nat := 0x2E]> dot_name.

Definition create_directory_impl (clock : RtcTime) (parent : DirLocation) (name : list Z)
    : M (Vol D) unit :=
  entries ← list_entries_in parent;
  if name_taken entries name
  then lift (Err "FAT12: a file or directory with that name already exists")
  else
    '(short_name, long_entries) ← build_name_entries parent name;
    slots ← find_free_entry_run_in parent (length long_entries + 1);
    found ← on_fs (fun fs => find_free_clusters fs 1);
    cluster ← lift (idx found 0);
    let '(fat_time, fat_date) := to_fat_datetime clock in
    let parent_cluster := match parent with Root => 0 | Cluster c => c end in
    let dot_entry := build_dir_entry dot_name 0x10 cluster 0 fat_time fat_date in
    let dotdot_entry := build_dir_entry dotdot_name 0x10 parent_cluster 0 fat_time fat_date in
    fs ← get_fs;
    let cluster_lba := cluster_to_lba fs cluster in
    _ ← write_lba cluster_lba (splice 32 dotdot_entry (splice 0 dot_entry zero_sector));
    _ ← for_each (R := unit) (tail (cluster_sectors fs))
          (fun s _ => _ ← write_lba (u32 (cluster_lba + s)) zero_sector; mret (inl tt)) tt;
    _ ← write_fat_entry_to_disk cluster 0x0FFF;
    write_name_entries slots long_entries
      (build_dir_entry short_name 0x10 cluster 0 fat_time fat_date).

Definition create_directory clock (name : list Z) : M (Vol D) unit :=
  create_directory_impl clock Root name.
Definition create_directory_in clock (parent_cluster : Z) (name : list Z) : M (Vol D) unit :=
  create_directory_impl clock (Cluster parent_cluster) name.

(** [while let Some(c) = cluster { next = next_cluster(c)?; entry := 0; cluster = next }] *)
Fixpoint free_chain (fuel : nat) (c : Z) : M (Vol D) unit :=
  match fuel with
  | O => lift Hang
  | S f =>
      next ← next_of c;
      _ ← write_fat_entry_to_disk c 0x0000;
      match next with Some c' => free_chain f c' | None => mret tt end
  end.

(** Free the chain, then mark the long-name slots and the short slot deleted. *)
Definition delete_entry (start_cluster : Z) (lfn_slots : list (Z * nat)) (entry_lba : Z)
    (entry_offset : nat) : M (Vol D) unit :=
  _ ← free_chain CHAIN_FUEL start_cluster;
  patch_all (map (fun '(lba, offset) => (lba, offset, [0xE5]))
               (lfn_slots ++ [(entry_lba, entry_offset)])).

Definition delete_file_impl (dir : DirLocation) (name : list Z) : M (Vol D) unit :=
  '(entry_lba, entry_offset, entry) ← find_entry_location_in dir name;
  if is_dir entry then lift (Err "FAT12: delete_file does not support directories")
  else
    lfn_slots ← find_preceding_lfn_slots dir entry_lba entry_offset;
    delete_entry (FatCommon.start_cluster entry) lfn_slots entry_lba entry_offset.

Definition delete_file (name : list Z) : M (Vol D) unit := delete_file_impl Root name.
Definition delete_file_in (dir_cluster : Z) (name : list Z) : M (Vol D) unit :=
  delete_file_impl (Cluster dir_cluster) name.

Definition delete_directory_impl (parent : DirLocation) (name : list Z) : M (Vol D) unit :=
  '(entry_lba, entry_offset, entry) ← find_entry_location_in parent name;
  if negb (is_dir entry)
  then lift (Err "FAT12: delete_directory does not support files - use rm")
  else
    entries ← list_directory (FatCommon.start_cluster entry);
    if (2 <? length entries)%nat then lift (Err "FAT12: directory is not empty")
    else
      lfn_slots ← find_preceding_lfn_slots parent entry_lba entry_offset;
      delete_entry (FatCommon.start_cluster entry) lfn_slots entry_lba entry_offset.

Definition delete_directory (name : list Z) : M (Vol D) unit := delete_directory_impl Root name.
Definition delete_directory_in (parent_cluster : Z) (name : list Z) : M (Vol D) unit :=
  delete_directory_impl (Cluster parent_cluster) name.
End Ops.
