(* ===== verification/Fat12Table.v ===== *)
(** * Fat12Table: the packed 12-bit table of Fat12

    Setting an entry of the packed table gives that entry its value and leaves
    every other entry alone; on a well-formed volume [write_fat_entry_to_disk]
    performs that update on the in-memory copy and on the disk together, also
    when the entry straddles two sectors, and touches nothing else. *)
From stdpp Require Import base list numbers strings.
From Stdlib Require Import Lia.
From S2P Require Import Prelude FatCommon BlockDev Fat12.
Open Scope Z_scope.

(** ** Entries as nibbles *)

(** A cluster number a FAT12 entry can hold. *)
Definition cluster12 (c : Z) : Prop := 0 <= c < 4096.

Lemma fat_offset_even k : 0 <= 2 * k < 4096 -> fat_offset (2 * k) = 3 * k.
Proof. intros. unfold fat_offset. rewrite wrap_id by (unfold in_u; lia). div_lia. Qed.

Lemma fat_offset_odd k : 0 <= 2 * k + 1 < 4096 -> fat_offset (2 * k + 1) = 3 * k + 1.
Proof. intros. unfold fat_offset. rewrite wrap_id by (unfold in_u; lia). div_lia. Qed.

Lemma cluster_cases c : cluster12 c -> exists k, 0 <= k /\ (c = 2 * k \/ c = 2 * k + 1).
Proof. unfold cluster12. intros. exists (c / 2). div_lia. Qed.

Lemma byte_at_ok l i : bytes_ok l -> byte_ok (byte_at l i).
Proof.
  intros H. unfold byte_at. destruct (l !! i) as [b|] eqn:E; cbn.
  - by eapply (Forall_lookup_1 byte_ok).
  - unfold byte_ok; lia.
Qed.

Lemma le16_at_eq l i : le16_at l i = byte_at l i + 256 * byte_at l (i + 1).
Proof. unfold le16_at. cbn. lia. Qed.

Lemma fat_entry_even l k :
  bytes_ok l -> 0 <= 2 * k < 4096 ->
  fat_entry l (2 * k) = byte_at l (Z.to_nat (3 * k)) + 256 * (byte_at l (S (Z.to_nat (3 * k))) mod 16).
Proof.
  intros Hl Hk. unfold fat_entry. rewrite Z.even_mul. cbn [Z.even orb].
  rewrite fat_offset_even, le16_at_eq, Nat.add_1_r by done.
  rewrite (land_mask 12) by lia. pose proof (byte_at_ok l (Z.to_nat (3 * k)) Hl).
  pose proof (byte_at_ok l (S (Z.to_nat (3 * k))) Hl). unfold byte_ok in *. div_lia.
Qed.

Lemma fat_entry_odd l k :
  bytes_ok l -> 0 <= 2 * k + 1 < 4096 ->
  fat_entry l (2 * k + 1) =
    byte_at l (S (Z.to_nat (3 * k))) / 16 + 16 * byte_at l (S (S (Z.to_nat (3 * k)))).
Proof.
  intros Hl Hk. unfold fat_entry. rewrite Z.even_add, Z.even_mul. cbn [Z.even orb eqb].
  rewrite fat_offset_odd, le16_at_eq, Nat.add_1_r by done.
  rewrite Z.shiftr_div_pow2 by lia.
  replace (Z.to_nat (3 * k + 1)) with (S (Z.to_nat (3 * k))) by lia.
  pose proof (byte_at_ok l (S (Z.to_nat (3 * k))) Hl).
  pose proof (byte_at_ok l (S (S (Z.to_nat (3 * k)))) Hl). unfold byte_ok in *. div_lia.
Qed.

Lemma fat_entry_range l c : bytes_ok l -> cluster12 c -> 0 <= fat_entry l c < 4096.
Proof.
  intros Hl Hc. destruct (cluster_cases c Hc) as (k & Hk & [-> | ->]).
  - rewrite fat_entry_even by done. pose proof (byte_at_ok l (Z.to_nat (3 * k)) Hl).
    pose proof (byte_at_ok l (S (Z.to_nat (3 * k))) Hl). unfold byte_ok in *. div_lia.
  - rewrite fat_entry_odd by done. pose proof (byte_at_ok l (S (Z.to_nat (3 * k))) Hl).
    pose proof (byte_at_ok l (S (S (Z.to_nat (3 * k)))) Hl). unfold byte_ok in *. div_lia.
Qed.

(** ** Setting an entry *)

(** What [write_fat_entry_to_disk] does to the in-memory table. *)
Definition put_entry (bytes : list Z) (c value : Z) : list Z :=
  let o := Z.to_nat (fat_offset c) in
  let raw16 := merge_entry c (le_of [byte_at bytes o; byte_at bytes (S o)]) value in
  <[S o := raw16 / 256 mod 256]> (<[o := raw16 mod 256]> bytes).

Lemma length_put_entry b c v : length (put_entry b c v) = length b.
Proof. unfold put_entry. by rewrite !length_insert. Qed.

Lemma put_entry_bytes b c v : bytes_ok b -> bytes_ok (put_entry b c v).
Proof. intros. unfold put_entry. bytes. Qed.

Lemma merge_even k raw v :
  0 <= raw < 65536 -> merge_entry (2 * k) raw v = raw / 4096 * 4096 + v mod 4096.
Proof.
  intros Hr. unfold merge_entry. rewrite Z.even_mul. cbn [Z.even orb].
  rewrite (land_mask 12 0x0FFF) by lia.
  replace (Z.land raw 0xF000) with (raw / 4096 * 2 ^ 12).
  - rewrite lor_add; [done|lia|]. apply Z.mod_pos_bound. lia.
  - change 0xF000 with (Z.shiftl 15 12).
    rewrite <- (Z.shiftl_mul_pow2 _ 12) by lia. change 4096 with (2 ^ 12).
    rewrite <- Z.shiftr_div_pow2 by lia. apply Z.bits_inj'. intros n Hn.
    rewrite Z.land_spec, !Z.shiftl_spec by lia.
    destruct (decide (n < 12)).
    + rewrite (Z.testbit_neg_r 15), (Z.testbit_neg_r (Z.shiftr _ _)) by lia. by rewrite andb_false_r.
    + rewrite Z.shiftr_spec by lia. replace (n - 12 + 12) with n by lia.
      destruct (decide (n < 16)).
      * replace (Z.testbit 15 (n - 12)) with true; [by rewrite andb_true_r|].
        assert (n = 12 \/ n = 13 \/ n = 14 \/ n = 15) as [->|[->|[->| ->]]] by lia; done.
      * rewrite <- (Z.mod_small raw (2 ^ 16)) by lia. rewrite Z.mod_pow2_bits_high by lia. done.
Qed.

Lemma merge_odd k raw v :
  0 <= raw < 65536 -> merge_entry (2 * k + 1) raw v = v mod 4096 * 16 + raw mod 16.
Proof.
  intros Hr. unfold merge_entry. rewrite Z.even_add, Z.even_mul. cbn [Z.even orb eqb].
  rewrite (land_mask 12 0x0FFF), (land_mask 4 0x000F) by lia.
  pose proof (Z.mod_pos_bound v 4096). pose proof (Z.mod_pos_bound raw 16).
  rewrite Z.shiftl_mul_pow2 by lia. change (2 ^ 12) with 4096.
  rewrite wrap_id by (unfold in_u; lia).
  rewrite Z.lor_comm, lor_add; [done|lia|]. apply Z.mod_pos_bound. lia.
Qed.

Lemma byte_at_put_out b c v i :
  i <> Z.to_nat (fat_offset c) -> i <> S (Z.to_nat (fat_offset c)) ->
  byte_at (put_entry b c v) i = byte_at b i.
Proof. intros. unfold put_entry, byte_at. by rewrite !list_lookup_insert_ne by done. Qed.

Lemma byte_at_put_0 b c v :
  (S (Z.to_nat (fat_offset c)) < length b)%nat ->
  byte_at (put_entry b c v) (Z.to_nat (fat_offset c)) =
    merge_entry c (byte_at b (Z.to_nat (fat_offset c)) +
      256 * byte_at b (S (Z.to_nat (fat_offset c)))) v mod 256.
Proof.
  intros. unfold put_entry, byte_at. rewrite list_lookup_insert_ne by lia.
  rewrite list_lookup_insert_eq by lia. cbn. do 2 f_equal. lia.
Qed.

Lemma byte_at_put_1 b c v :
  (S (Z.to_nat (fat_offset c)) < length b)%nat ->
  byte_at (put_entry b c v) (S (Z.to_nat (fat_offset c))) =
    merge_entry c (byte_at b (Z.to_nat (fat_offset c)) +
      256 * byte_at b (S (Z.to_nat (fat_offset c)))) v / 256 mod 256.
Proof.
  intros. unfold put_entry, byte_at.
  rewrite list_lookup_insert_eq by (rewrite length_insert; lia). cbn. do 3 f_equal. lia.
Qed.

(** The cluster's bytes are inside the table. *)
Definition in_table (b : list Z) (c : Z) : Prop := fat_offset c + 1 < Z.of_nat (length b).

Lemma in_table_nat b c :
  cluster12 c -> in_table b c -> (S (Z.to_nat (fat_offset c)) < length b)%nat.
Proof.
  unfold in_table. intros Hc H. destruct (cluster_cases c Hc) as (k & Hk & [-> | ->]);
    [rewrite fat_offset_even in * by done | rewrite fat_offset_odd in * by done]; lia.
Qed.

Lemma fat_entry_put_same b c v :
  bytes_ok b -> cluster12 c -> in_table b c -> fat_entry (put_entry b c v) c = v mod 4096.
Proof.
  intros Hb Hc Hin. pose proof (in_table_nat b c Hc Hin) as Hlen.
  pose proof (byte_at_put_0 b c v Hlen) as H0. pose proof (byte_at_put_1 b c v Hlen) as H1.
  pose proof (put_entry_bytes b c v Hb) as Hpb.
  pose proof (byte_at_ok b (Z.to_nat (fat_offset c)) Hb) as Hb0.
  pose proof (byte_at_ok b (S (Z.to_nat (fat_offset c))) Hb) as Hb1. unfold byte_ok in *.
  destruct (cluster_cases c Hc) as (k & Hk & [-> | ->]).
  - rewrite fat_offset_even in * by done. rewrite fat_entry_even, H0, H1 by done.
    rewrite merge_even by lia. div_lia.
  - rewrite fat_offset_odd in * by done.
    replace (Z.to_nat (3 * k + 1)) with (S (Z.to_nat (3 * k))) in * by lia.
    rewrite fat_entry_odd, H0, H1 by done. rewrite merge_odd by lia. div_lia.
Qed.

Lemma fat_entry_put_other b c v c' :
  bytes_ok b -> cluster12 c -> in_table b c -> cluster12 c' -> c' <> c ->
  fat_entry (put_entry b c v) c' = fat_entry b c'.
Proof.
  intros Hb Hc Hin Hc' Hne. pose proof (in_table_nat b c Hc Hin) as Hlen.
  pose proof (byte_at_put_0 b c v Hlen) as H0. pose proof (byte_at_put_1 b c v Hlen) as H1.
  pose proof (fun i => byte_at_put_out b c v i) as Hout.
  pose proof (put_entry_bytes b c v Hb) as Hpb.
  pose proof (byte_at_ok b (Z.to_nat (fat_offset c)) Hb) as Hb0.
  pose proof (byte_at_ok b (S (Z.to_nat (fat_offset c))) Hb) as Hb1. unfold byte_ok in *.
  destruct (cluster_cases c Hc) as (k & Hk & [-> | ->]);
    [rewrite fat_offset_even in * by done | rewrite fat_offset_odd in * by done];
    destruct (cluster_cases c' Hc') as (j & Hj & [-> | ->]);
    first [rewrite !fat_entry_even by done | rewrite !fat_entry_odd by done].
  - rewrite !Hout by lia. done.
  - destruct (decide (j = k)) as [->|].
    + rewrite H1, (Hout (S (S _))) by lia. rewrite merge_even by lia. div_lia.
    + rewrite !Hout by lia. done.
  - replace (Z.to_nat (3 * k + 1)) with (S (Z.to_nat (3 * k))) in * by lia.
    destruct (decide (j = k)) as [->|].
    + rewrite H0, Hout by lia. rewrite merge_odd by lia. div_lia.
    + rewrite !Hout by lia. done.
  - rewrite !Hout by lia. done.
Qed.

(** ** The table on disk *)

(** The [i]-th sector of the table. *)
Definition sector_slice (b : list Z) (i : nat) : list Z := take SECTOR (drop (SECTOR * i) b).

Lemma sector_slice_lookup b i j :
  (j < SECTOR)%nat -> sector_slice b i !! j = b !! (SECTOR * i + j)%nat.
Proof. intros. unfold sector_slice. by rewrite lookup_take_lt, lookup_drop by done. Qed.

Lemma length_sector_slice b i n :
  length b = (n * SECTOR)%nat -> (i < n)%nat -> length (sector_slice b i) = SECTOR.
Proof. intros. unfold sector_slice. rewrite length_take, length_drop. unfold SECTOR in *. nia. Qed.

Lemma byte_at_slice b o :
  byte_at (sector_slice b (o / SECTOR)) (o mod SECTOR) = byte_at b o.
Proof.
  unfold byte_at. rewrite sector_slice_lookup by (apply Nat.mod_upper_bound; done).
  by rewrite <- Nat.div_mod_eq.
Qed.

Lemma sector_slice_insert b o x i :
  sector_slice (<[o := x]> b) i =
    if decide (i = o / SECTOR)%nat then <[(o mod SECTOR)%nat := x]> (sector_slice b i)
    else sector_slice b i.
Proof.
  pose proof (Nat.div_mod_eq o SECTOR) as Ho.
  pose proof (Nat.mod_upper_bound o SECTOR ltac:(done)) as Hm.
  unfold sector_slice. destruct (decide (i = o / SECTOR)%nat) as [->|Hne].
  - unfold SECTOR in *. rewrite drop_insert_ge by lia.
    replace (o - 512 * (o / 512))%nat with (o mod 512)%nat by lia.
    by rewrite take_insert_lt by done.
  - unfold SECTOR in *. destruct (decide (512 * i <= o)%nat).
    + rewrite drop_insert_ge by lia. rewrite take_insert_ge; [done|]. lia.
    + by rewrite drop_insert_lt by lia.
Qed.

Lemma sector_slice_bytes b i : bytes_ok b -> bytes_ok (sector_slice b i).
Proof. intros. by apply Forall_take, Forall_drop. Qed.

Section Disk.
Context {D : Type} `{BlockDev D}.
Implicit Types v : Vol D.

(** The in-memory table is the first table on disk, which the drive serves. *)
Record fat_synced v : Prop := {
  sy_size : 0 <= fat_size_16 (info v);
  sy_len : length (fat_bytes (info v)) = (Z.to_nat (fat_size_16 (info v)) * SECTOR)%nat;
  sy_bytes : bytes_ok (fat_bytes (info v));
  sy_wrap : first_fat_sector (info v) + fat_size_16 (info v) < 2 ^ 32;
  sy_serves : forall i, (i < Z.to_nat (fat_size_16 (info v)))%nat ->
    serves (dev v) (first_fat_sector (info v) + Z.of_nat i);
  sy_disk : forall i, (i < Z.to_nat (fat_size_16 (info v)))%nat ->
    sector_at (dev v) (first_fat_sector (info v) + Z.of_nat i) = sector_slice (fat_bytes (info v)) i;
}.

Lemma read_lba_served v a :
  serves (dev v) a ->
  exists d', read_lba a v = (Ok (sector_at (dev v) a), mk_Vol (info v) d') /\
    becomes (dev v) (sector_at (dev v)) d'.
Proof.
  intros Ha. destruct (read_sector_served (dev v) a Ha) as (d' & E & Hd).
  exists d'. unfold read_lba. by rewrite E.
Qed.

Lemma write_lba_served v a s :
  serves (dev v) a -> length s = SECTOR -> bytes_ok s ->
  exists d', write_lba a s v = (Ok tt, mk_Vol (info v) d') /\
    becomes (dev v) (upd a s (sector_at (dev v))) d'.
Proof.
  intros Ha Hl Hb. destruct (write_sector_served (dev v) a s Ha Hl Hb) as (d' & E & Hd).
  exists d'. unfold write_lba. by rewrite E.
Qed.
(** The sectors of the table after an update of an entry: the old ones with the
    two bytes replaced. *)
Definition table_after (fs : Fat12Info) (b : list Z) (f : Z -> list Z) : Z -> list Z := fun a =>
  if decide (first_fat_sector fs <= a < first_fat_sector fs + fat_size_16 fs)
  then sector_slice b (Z.to_nat (a - first_fat_sector fs)) else f a.

Lemma offset_split c n :
  cluster12 c -> 0 <= n -> fat_offset c + 1 < n * 512 ->
  let o := Z.to_nat (fat_offset c) in
  Z.to_nat (fat_offset c mod 512) = (o mod SECTOR)%nat /\
  fat_offset c / 512 = Z.of_nat (o / SECTOR) /\ (o / SECTOR < Z.to_nat n)%nat /\
  ((o mod SECTOR = 511)%nat -> (S (o / SECTOR) < Z.to_nat n)%nat /\ S o = (S (o / SECTOR) * SECTOR)%nat) /\
  ((o mod SECTOR <> 511)%nat -> (S o / SECTOR = o / SECTOR /\ S o mod SECTOR = S (o mod SECTOR))%nat).
Proof.
  intros Hc Hn Hin o.
  assert (0 <= fat_offset c).
  { destruct (cluster_cases c Hc) as (k & ? & [-> | ->]);
      [rewrite fat_offset_even by done | rewrite fat_offset_odd by done]; lia. }
  pose proof (Nat.div_mod_eq o SECTOR) as Ho.
  pose proof (Nat.mod_upper_bound o SECTOR ltac:(done)) as Hm.
  assert (Hz : fat_offset c = Z.of_nat o) by (unfold o; lia).
  rewrite Hz. unfold SECTOR in *.
  split; [|split; [|split; [|split]]].
  - change 512 with (Z.of_nat 512) at 1. by rewrite <- Nat2Z.inj_mod, Nat2Z.id.
  - change 512 with (Z.of_nat 512). by rewrite Nat2Z.inj_div.
  - lia.
  - intros H5. lia.
  - intros H5. split.
    + symmetry. apply (Nat.div_unique _ _ _ (S (o mod 512))); lia.
    + symmetry. apply (Nat.mod_unique _ _ (o / 512)); lia.
Qed.

(** Rewriting the sector, or the two sectors, of the bytes at [o] and [S o] is
    updating the table. *)
Lemma table_update_one v o x y a :
  fat_synced v -> (o / SECTOR < Z.to_nat (fat_size_16 (info v)))%nat ->
  (S o / SECTOR = o / SECTOR /\ S o mod SECTOR = S (o mod SECTOR))%nat ->
  let b := fat_bytes (info v) in
  upd (first_fat_sector (info v) + Z.of_nat (o / SECTOR))
    (<[S (o mod SECTOR) := y]> (<[(o mod SECTOR)%nat := x]> (sector_slice b (o / SECTOR))))
    (sector_at (dev v)) a
  = table_after (info v) (<[S o := y]> (<[o := x]> b)) (sector_at (dev v)) a.
Proof.
  intros Hv Hlt [Hq Hm] b. unfold upd, table_after.
  destruct (decide (a = _)) as [->|Hne].
  - rewrite decide_True by lia.
    replace (Z.to_nat _) with (o / SECTOR)%nat by lia.
    rewrite !sector_slice_insert, Hq, Hm, !decide_True by done. done.
  - destruct (decide _) as [Ha|]; [|done].
    rewrite !sector_slice_insert, Hq, !decide_False by lia.
    rewrite <- (sy_disk v Hv) by lia. f_equal. lia.
Qed.

Lemma table_update_two v o x y a :
  fat_synced v -> (S (o / SECTOR) < Z.to_nat (fat_size_16 (info v)))%nat ->
  (o mod SECTOR = 511)%nat -> S o = (S (o / SECTOR) * SECTOR)%nat ->
  let b := fat_bytes (info v) in
  upd (first_fat_sector (info v) + Z.of_nat (S (o / SECTOR)))
    (<[0%nat := y]> (sector_slice b (S (o / SECTOR))))
    (upd (first_fat_sector (info v) + Z.of_nat (o / SECTOR))
      (<[511%nat := x]> (sector_slice b (o / SECTOR))) (sector_at (dev v))) a
  = table_after (info v) (<[S o := y]> (<[o := x]> b)) (sector_at (dev v)) a.
Proof.
  intros Hv Hlt Hm Ho b.
  assert (Hq : (S o / SECTOR = S (o / SECTOR))%nat) by (rewrite Ho; by apply Nat.div_mul).
  assert (Hr : (S o mod SECTOR = 0)%nat) by (rewrite Ho; apply Nat.Div0.mod_mul).
  unfold upd, table_after. destruct (decide (a = _)) as [->|Hne1].
  - rewrite decide_True by lia.
    replace (Z.to_nat _) with (S (o / SECTOR))%nat by lia.
    rewrite !sector_slice_insert, Hq, Hr, decide_True, decide_False by lia. done.
  - destruct (decide (a = _)) as [->|Hne2].
    + rewrite decide_True by lia.
      replace (Z.to_nat _) with (o / SECTOR)%nat by lia.
      rewrite !sector_slice_insert, Hq, Hm, decide_False, decide_True by lia. done.
    + destruct (decide _) as [Ha|]; [|done].
      rewrite !sector_slice_insert, Hq, !decide_False by lia.
      rewrite <- (sy_disk v Hv) by lia. f_equal. lia.
Qed.

Lemma becomes_ext d f g d' :
  becomes d f d' -> (forall a, f a = g a) -> becomes d g d'.
Proof. intros [H1 H2] Hfg. split; [|done]. intros a. by rewrite H1. Qed.

Lemma byte_at_slice_next b o :
  (S o / SECTOR = o / SECTOR)%nat -> (S o mod SECTOR = S (o mod SECTOR))%nat ->
  byte_at (sector_slice b (o / SECTOR)) (S (o mod SECTOR)) = byte_at b (S o).
Proof. intros Hq Hm. rewrite <- Hq, <- Hm. apply byte_at_slice. Qed.

Lemma slice_sector_ok v i :
  fat_synced v -> (i < Z.to_nat (fat_size_16 (info v)))%nat ->
  length (sector_slice (fat_bytes (info v)) i) = SECTOR /\
  bytes_ok (sector_slice (fat_bytes (info v)) i).
Proof.
  intros Hv Hi. split.
  - eapply length_sector_slice; [apply Hv|done].
  - apply sector_slice_bytes, Hv.
Qed.

(** The update inside one sector. *)
Lemma write_fat_entry_one v c value :
  fat_synced v -> cluster12 c -> in_table (fat_bytes (info v)) c ->
  (Z.to_nat (fat_offset c) mod SECTOR <> 511)%nat ->
  exists d',
    write_fat_entry_to_disk c value v =
      (Ok tt, mk_Vol (set_fat_bytes (put_entry (fat_bytes (info v)) c value) (info v)) d') /\
    becomes (dev v) (table_after (info v) (put_entry (fat_bytes (info v)) c value)
      (sector_at (dev v))) d'.
Proof.
  intros Hv Hc Hin Hn511. pose proof Hv as [Hsz Hlen Hbytes Hwrap Hserves Hdisk].
  assert (Hff : 0 <= first_fat_sector (info v)) by (apply wrap_in_u; lia).
  unfold in_table in Hin. pose proof Hin as Hin'. rewrite Hlen in Hin'.
  destruct (offset_split c _ Hc Hsz) as (Hm & Hd & Hlt & _ & Hno); [unfold SECTOR in *; lia|].
  specialize (Hno Hn511). destruct Hno as [Hq1 Hm1].
  unfold write_fat_entry_to_disk. rewrite (M_bind_Ok _ _ v (info v) v) by done.
  unfold fat_out_of_range. rewrite (proj2 (Z.leb_gt _ _)) by lia.
  cbn zeta. rewrite Hm, Hd, (wrap_id 32 (first_fat_sector _ + _)) by (unfold in_u; lia).
  rewrite (proj2 (Nat.eqb_neq _ _)) by done.
  destruct (read_lba_served v _ (Hserves _ Hlt)) as (d1 & E1 & B1).
  rewrite (M_bind_Ok _ _ _ _ _ E1), (M_bind_Ok _ _ _ _ _ (M_ret_eq _ _)).
  rewrite (Hdisk _ Hlt), byte_at_slice, Nat.add_1_r, byte_at_slice_next by done.
  destruct (slice_sector_ok v _ Hv Hlt) as [Hsl Hsb].
  destruct (write_lba_served (mk_Vol (info v) d1)
    (first_fat_sector (info v) + Z.of_nat (Z.to_nat (fat_offset c) / SECTOR))
    (<[S (Z.to_nat (fat_offset c) mod SECTOR) :=
        merge_entry c (le_of [byte_at (fat_bytes (info v)) (Z.to_nat (fat_offset c));
          byte_at (fat_bytes (info v)) (S (Z.to_nat (fat_offset c)))]) value / 256 mod 256]>
     (<[(Z.to_nat (fat_offset c) mod SECTOR)%nat :=
        merge_entry c (le_of [byte_at (fat_bytes (info v)) (Z.to_nat (fat_offset c));
          byte_at (fat_bytes (info v)) (S (Z.to_nat (fat_offset c)))]) value mod 256]>
      (sector_slice (fat_bytes (info v)) (Z.to_nat (fat_offset c) / SECTOR))))) as (d2 & E2 & B2).
  { apply B1, Hserves, Hlt. }
  { by rewrite !length_insert. }
  { bytes. }
  rewrite (M_bind_Ok _ _ _ _ _ E2). exists d2. split; [done|].
  eapply becomes_trans; [exact B1|]. eapply becomes_ext; [exact B2|]. intros a. cbn [dev].
  unfold put_entry. rewrite <- table_update_one by done.
  unfold upd. destruct (decide _); [done|]. apply B1.
Qed.

(** The update across two sectors. *)
Lemma write_fat_entry_two v c value :
  fat_synced v -> cluster12 c -> in_table (fat_bytes (info v)) c ->
  (Z.to_nat (fat_offset c) mod SECTOR = 511)%nat ->
  exists d',
    write_fat_entry_to_disk c value v =
      (Ok tt, mk_Vol (set_fat_bytes (put_entry (fat_bytes (info v)) c value) (info v)) d') /\
    becomes (dev v) (table_after (info v) (put_entry (fat_bytes (info v)) c value)
      (sector_at (dev v))) d'.
Proof.
  intros Hv Hc Hin H511. pose proof Hv as [Hsz Hlen Hbytes Hwrap Hserves Hdisk].
  assert (Hff : 0 <= first_fat_sector (info v)) by (apply wrap_in_u; lia).
  unfold in_table in Hin. pose proof Hin as Hin'. rewrite Hlen in Hin'.
  destruct (offset_split c _ Hc Hsz) as (Hm & Hd & Hlt & Hstr & _); [unfold SECTOR in *; lia|].
  specialize (Hstr H511). destruct Hstr as [Hlt' HSo].
  set (o := Z.to_nat (fat_offset c)) in *.
  unfold write_fat_entry_to_disk. rewrite (M_bind_Ok _ _ v (info v) v) by done.
  unfold fat_out_of_range. rewrite (proj2 (Z.leb_gt _ _)) by lia.
  cbn zeta. rewrite Hm, Hd, (wrap_id 32 (first_fat_sector _ + _)) by (unfold in_u; lia).
  rewrite (proj2 (Nat.eqb_eq _ _)) by done.
  replace (first_fat_sector (info v) + Z.of_nat (o / SECTOR) + 1)
    with (first_fat_sector (info v) + Z.of_nat (S (o / SECTOR))) by lia.
  rewrite wrap_id by (unfold in_u; lia).
  set (A0 := first_fat_sector (info v) + Z.of_nat (o / SECTOR)).
  set (A1 := first_fat_sector (info v) + Z.of_nat (S (o / SECTOR))).
  destruct (read_lba_served v A0 (Hserves _ Hlt)) as (d1 & E1 & B1).
  rewrite (M_bind_Ok _ _ _ _ _ E1).
  destruct (read_lba_served (mk_Vol (info v) d1) A1) as (d2 & E2 & B2).
  { apply B1, Hserves, Hlt'. }
  rewrite (M_bind_Ok _ _ _ _ _ E2). cbn [dev info] in *.
  rewrite (proj1 B1).
  assert (HA0 : sector_at (dev v) A0 = sector_slice (fat_bytes (info v)) (o / SECTOR))
    by exact (Hdisk _ Hlt).
  assert (HA1 : sector_at (dev v) A1 = sector_slice (fat_bytes (info v)) (S (o / SECTOR)))
    by exact (Hdisk _ Hlt').
  rewrite HA0, HA1, byte_at_slice.
  assert (Hb1 : byte_at (sector_slice (fat_bytes (info v)) (S (o / SECTOR))) 0
                = byte_at (fat_bytes (info v)) (S o)).
  { unfold byte_at. rewrite sector_slice_lookup by (unfold SECTOR; lia). do 2 f_equal. lia. }
  rewrite Hb1.
  destruct (slice_sector_ok v _ Hv Hlt) as [Hsl Hsb].
  destruct (slice_sector_ok v _ Hv Hlt') as [Hsl' Hsb'].
  rewrite H511. set (b := fat_bytes (info v)) in *.
  set (raw := merge_entry c (le_of [byte_at b o; byte_at b (S o)]) value).
  destruct (write_lba_served (mk_Vol (info v) d2) A0
    (<[511%nat := raw mod 256]> (sector_slice b (o / SECTOR)))) as (d3 & E3 & B3).
  { apply B2, B1, Hserves, Hlt. }
  { by rewrite length_insert. }
  { bytes. }
  destruct (write_lba_served (mk_Vol (info v) d3) A1
    (<[0%nat := raw / 256 mod 256]> (sector_slice b (S (o / SECTOR))))) as (d4 & E4 & B4).
  { apply B3, B2, B1, Hserves, Hlt'. }
  { by rewrite length_insert. }
  { bytes. }
  rewrite (M_bind_Ok _ _ _ tt (mk_Vol (info v) d4)) by (by rewrite (M_bind_Ok _ _ _ _ _ E3)).
  exists d4. split; [done|].
  eapply becomes_trans; [exact B1|]. eapply becomes_trans; [exact B2|].
  eapply becomes_trans; [exact B3|]. eapply becomes_ext; [exact B4|]. intros a. cbn [dev].
  unfold put_entry. fold o b raw. rewrite <- table_update_two by done. fold b A0 A1.
  unfold upd at 1 2. destruct (decide (a = A1)); [done|].
  rewrite (proj1 B3). unfold upd. destruct (decide (a = A0)); [done|].
  rewrite (proj1 B2). apply B1.
Qed.

Lemma write_fat_entry_ok v c value :
  fat_synced v -> cluster12 c -> in_table (fat_bytes (info v)) c ->
  exists d',
    write_fat_entry_to_disk c value v =
      (Ok tt, mk_Vol (set_fat_bytes (put_entry (fat_bytes (info v)) c value) (info v)) d') /\
    becomes (dev v) (table_after (info v) (put_entry (fat_bytes (info v)) c value)
      (sector_at (dev v))) d'.
Proof.
  intros. destruct (decide (Z.to_nat (fat_offset c) mod SECTOR = 511)%nat).
  - by apply write_fat_entry_two.
  - by apply write_fat_entry_one.
Qed.

(** The update keeps memory and disk in step. *)
Lemma put_entry_synced v c value d' :
  fat_synced v ->
  becomes (dev v) (table_after (info v) (put_entry (fat_bytes (info v)) c value)
    (sector_at (dev v))) d' ->
  fat_synced (mk_Vol (set_fat_bytes (put_entry (fat_bytes (info v)) c value) (info v)) d').
Proof.
  intros [Hsz Hlen Hbytes Hwrap Hserves Hdisk] [Hd Hs]. constructor; cbn [info dev set_fat_bytes
    fat_size_16 fat_bytes] in *; try done.
  - by rewrite length_put_entry.
  - by apply put_entry_bytes.
  - intros i Hi. apply Hs. by apply Hserves.
  - intros i Hi. rewrite Hd. unfold table_after.
    change (first_fat_sector (set_fat_bytes _ (info v))) with (first_fat_sector (info v)).
    rewrite decide_True by lia. f_equal. lia.
Qed.
End Disk.

(** ** Properties *)

(** C32. [write_fat_entry_to_disk] on a volume whose table is in step with the
    disk: a cluster of the table gets the value's low 12 bits, every other
    cluster keeps its entry (the two share a byte), memory and disk stay in step
    whether or not the entry straddles two sectors, and no sector outside the
    table changes; a cluster past the table is refused with nothing changed. *)
Theorem write_fat_entry_correct {D} `{BlockDev D} (v : Vol D) c value :
  fat_synced v -> cluster12 c ->
  (in_table (fat_bytes (info v)) c ->
   exists v', write_fat_entry_to_disk c value v = (Ok tt, v') /\ fat_synced v' /\
    fat_entry (fat_bytes (info v')) c = value mod 4096 /\
    (forall c', cluster12 c' -> c' <> c ->
      fat_entry (fat_bytes (info v')) c' = fat_entry (fat_bytes (info v)) c') /\
    (forall a, ~ (first_fat_sector (info v) <= a < first_fat_sector (info v) + fat_size_16 (info v)) ->
      sector_at (dev v') a = sector_at (dev v) a)) /\
  (~ in_table (fat_bytes (info v)) c ->
   write_fat_entry_to_disk c value v = (Err "FAT12: cluster number out of range for this FAT", v)).
Proof.
  intros Hv Hc. split.
  - intros Hin. destruct (write_fat_entry_ok v c value Hv Hc Hin) as (d' & Hw & Hd).
    eexists. split; [exact Hw|]. split; [by apply put_entry_synced|]. cbn [info dev set_fat_bytes fat_bytes].
    split; [apply fat_entry_put_same; [apply Hv|done|done]|]. split.
    + intros c' Hc' Hne. apply fat_entry_put_other; [apply Hv|done..].
    + intros a Ha. rewrite (proj1 Hd). unfold table_after. by rewrite decide_False.
  - intros Hin. unfold write_fat_entry_to_disk. rewrite (M_bind_Ok _ _ v (info v) v) by done.
    unfold fat_out_of_range, in_table in *. by rewrite (proj2 (Z.leb_le _ _)) by lia.
Qed.

(** A volume with a two-sector table starting at sector 1: the entry of cluster
    341 is split between them. *)
Definition demo_fat : list Z := [0xF8; 0xFF; 0xFF] ++ replicate 1021 0.
Definition demo_vol : Vol MemDisk.t :=
  mk_Vol (mk_Fat12Info 1 2 2 16 1 0 demo_fat)
    (MemDisk.mk {[1 := take 512 demo_fat]} 1000).

Lemma demo_vol_synced : fat_synced demo_vol.
Proof.
  constructor; try (vm_compute; congruence).
  - unfold demo_vol, info, fat_bytes, demo_fat. bytes.
  - intros [|[|i]] Hi; [vm_compute; done..|].
    exfalso. change (Z.to_nat (fat_size_16 (info demo_vol))) with 2%nat in Hi. lia.
  - intros [|[|i]] Hi; [vm_compute; done..|].
    exfalso. change (Z.to_nat (fat_size_16 (info demo_vol))) with 2%nat in Hi. lia.
Qed.

Lemma write_fat_entry_correct_witness :
  (Z.to_nat (fat_offset 341) mod SECTOR = 511)%nat /\
  exists v', write_fat_entry_to_disk 341 0xABC demo_vol = (Ok tt, v') /\
    fat_entry (fat_bytes (info v')) 341 = 0xABC.
Proof.
  split; [reflexivity|].
  destruct (write_fat_entry_correct demo_vol 341 0xABC demo_vol_synced) as [H _].
  - unfold cluster12; lia.
  - destruct H as (v' & Hw & _ & He & _); [vm_compute; reflexivity|].
    exists v'. split; [exact Hw|exact He].
Defined.
