(* ===== verification/Fat12Chain.v ===== *)
(** * Fat12Chain: cluster chains and allocation of Fat12

    A chain walk either ends within [CHAIN_FUEL] steps or never ends; the free
    cluster scan is a filter of the table's clusters; the loops that walk a chain
    ([walk]) are loops over its list of clusters. *)
From stdpp Require Import base list numbers strings sorting.
From Stdlib Require Import Lia.
From S2P Require Import Prelude FatCommon BlockDev Fat12 Fat12Table.
Open Scope Z_scope.

(** ** Termination *)

Lemma next_cluster_settles fs c : settles (next_cluster fs c).
Proof. unfold next_cluster. repeat case_goal; done. Qed.

Lemma next_cluster_range fs c n :
  bytes_ok (fat_bytes fs) -> next_cluster fs c = Ok (Some n) -> 1 <= n < 0xFF8.
Proof.
  unfold next_cluster. intros Hb H.
  destruct (fat_out_of_range fs c); [done|].
  destruct (_ =? 0) eqn:E0; [done|]. destruct (_ <=? _) eqn:E8; [done|].
  injection H as <-. unbool. split; [|lia].
  enough (0 <= fat_entry (fat_bytes fs) c) by lia.
  unfold fat_entry. rewrite le16_at_eq.
  pose proof (byte_at_ok (fat_bytes fs) (Z.to_nat (fat_offset c)) Hb).
  pose proof (byte_at_ok (fat_bytes fs) (Z.to_nat (fat_offset c) + 1) Hb). unfold byte_ok in *.
  destruct (Z.even c); [apply Z.land_nonneg; lia|apply Z.shiftr_nonneg; lia].
Qed.

Section Walk.
Context (fs : Fat12Info).

(** The cluster [n] steps after [c]. *)
Fixpoint nth_cluster (n : nat) (c : Z) : option Z :=
  match n with
  | O => Some c
  | S m => match next_cluster fs c with Ok (Some c') => nth_cluster m c' | _ => None end
  end.

Lemma nth_cluster_add a b c : nth_cluster (a + b) c = nth_cluster a c ≫= nth_cluster b.
Proof.
  revert c. induction a as [|a IH]; intros c; cbn; [done|].
  destruct (next_cluster fs c) as [[c'|]| | |]; try done.
Qed.

Lemma chain_Hang fuel c : chain fs fuel c = Hang <-> is_Some (nth_cluster fuel c).
Proof.
  revert c. induction fuel as [|f IH]; intros c; cbn; [split; [by eexists|done]|].
  pose proof (next_cluster_settles fs c) as Hs.
  destruct (next_cluster fs c) as [[c'|]| | |]; cbn; try done.
  - rewrite <- IH. destruct (chain fs f c'); cbn; done.
Qed.

Lemma nth_cluster_le a b c : (a <= b)%nat -> is_Some (nth_cluster b c) -> is_Some (nth_cluster a c).
Proof.
  intros Hab Hb. replace b with (a + (b - a))%nat in Hb by lia.
  rewrite nth_cluster_add in Hb. destruct (nth_cluster a c); [by eexists|by destruct Hb].
Qed.

(** A cluster met twice is met for ever. *)
Lemma nth_cluster_cycle i j c x :
  (i < j)%nat -> nth_cluster i c = Some x -> nth_cluster j c = Some x ->
  forall n, is_Some (nth_cluster n c).
Proof.
  intros Hij Hi Hj n.
  assert (Hp : nth_cluster (j - i) x = Some x).
  { replace j with (i + (j - i))%nat in Hj by lia. by rewrite nth_cluster_add, Hi in Hj. }
  assert (Hk : forall k, nth_cluster (k * (j - i)) x = Some x).
  { induction k as [|k IH]; [done|]. cbn [Nat.mul]. rewrite nth_cluster_add, Hp. done. }
  apply (nth_cluster_le n (i + n * (j - i))); [nia|].
  rewrite nth_cluster_add, Hi. cbn. rewrite Hk. by eexists.
Qed.

Lemma nth_cluster_range n c x :
  bytes_ok (fat_bytes fs) -> nth_cluster (S n) c = Some x -> 1 <= x < 0xFF8.
Proof.
  intros Hb. revert c. induction n as [|n IH]; intros c; cbn.
  - destruct (next_cluster fs c) as [[c'|]| | |] eqn:E; try done.
    intros [= <-]. by eapply next_cluster_range.
  - destruct (next_cluster fs c) as [[c'|]| | |] eqn:E; try done.
    intros H. by apply (IH c').
Qed.

(** The pigeonhole: [k + 1] steps among fewer than [k] values repeat one. *)
Lemma chain_diverges_at (k m fuel0 fuel : nat) c :
  bytes_ok (fat_bytes fs) -> Z.of_nat m = 0xFF8 -> (m < k)%nat -> (k < fuel0)%nat ->
  is_Some (nth_cluster fuel0 c) -> is_Some (nth_cluster fuel c).
Proof.
  intros Hb Hm Hmk Hk H.
  assert (Hg : forall n, (n < k)%nat -> exists x, nth_cluster (S n) c = Some x).
  { intros n Hn. destruct (nth_cluster_le (S n) fuel0 c) as [x Hx]; [lia|done|by exists x]. }
  set (l := map (fun n => default 0 (nth_cluster (S n) c)) (seq 0 k)).
  destruct (decide (NoDup l)) as [Hnd|Hd].
  - exfalso.
    assert (Hincl : incl l (map Z.of_nat (seq 0 m))).
    { intros x (n & <- & Hn)%in_map_iff. rewrite List.in_seq in Hn.
      destruct (Hg n) as [x Hx]; [lia|].
      rewrite Hx. change (default 0 (Some x)) with x. pose proof (nth_cluster_range n c x Hb Hx).
      apply in_map_iff. exists (Z.to_nat x). rewrite List.in_seq. lia. }
    assert (Hnd' : List.NoDup l) by (by apply NoDup_ListNoDup).
    pose proof (NoDup_incl_length Hnd' Hincl) as Hle.
    unfold l in Hle. rewrite !length_map, !length_seq in Hle. lia.
  - destruct (decide (is_Some (nth_cluster fuel c))) as [|Hfuel]; [done|].
    destruct Hd. apply NoDup_alt. intros i j x Hi Hj.
    assert (Hl : forall i, l !! i = Some x -> nth_cluster (S i) c = Some x).
    { intros n Hn. unfold l in Hn. rewrite list_lookup_fmap in Hn.
      apply fmap_Some in Hn as (q & Hq & ->). apply lookup_seq in Hq as [-> Hq].
      destruct (Hg n Hq) as [y Hy]. change (0 + n)%nat with n. by rewrite Hy. }
    apply Hl in Hi, Hj.
    destruct (lt_eq_lt_dec i j) as [[Hlt|]|Hgt]; [|done|].
    + destruct Hfuel. by apply (nth_cluster_cycle (S i) (S j) c x); [lia| |].
    + destruct Hfuel. by apply (nth_cluster_cycle (S j) (S i) c x); [lia| |].
Qed.

Lemma chain_diverges c :
  bytes_ok (fat_bytes fs) -> chain fs CHAIN_FUEL c = Hang -> forall fuel, chain fs fuel c = Hang.
Proof.
  intros Hb H fuel. apply chain_Hang in H. apply chain_Hang.
  eapply (chain_diverges_at (Z.to_nat 4097) (Z.to_nat 0xFF8)); [done|lia| | |exact H];
    unfold CHAIN_FUEL; lia.
Qed.

Lemma chain_more_fuel f g c cs : chain fs f c = Ok cs -> (f <= g)%nat -> chain fs g c = Ok cs.
Proof.
  revert g c cs. induction f as [|f IH]; intros [|g] c cs H Hg; cbn in *; try done; try lia.
  destruct (next_cluster fs c) as [[c'|]| | |]; cbn in *; try done.
  apply bind_Ok in H as (r & Hr & H). rewrite (IH g c' r Hr) by lia. done.
Qed.
Lemma chain_more_fuel_Err f g c e : chain fs f c = Err e -> (f <= g)%nat -> chain fs g c = Err e.
Proof.
  revert g c. induction f as [|f IH]; intros [|g] c H Hg; cbn in *; try done; try lia.
  destruct (next_cluster fs c) as [[c'|]| | |]; cbn in *; try done.
  destruct (chain fs f c') as [r|e'| |] eqn:E; cbn in *; try done.
  injection H as ->. by rewrite (IH g c') by (done || lia).
Qed.

Lemma chain_not_Panic f c : chain fs f c <> Panic.
Proof.
  revert c. induction f as [|f IH]; intros c; cbn; [done|].
  pose proof (next_cluster_settles fs c).
  destruct (next_cluster fs c) as [[c'|]| | |]; cbn; try done.
  specialize (IH c'). by destruct (chain fs f c').
Qed.
End Walk.

(** ** Free clusters *)

(** Every cluster of the table the scan may return, lowest first. *)
Definition free_clusters_of (fs : Fat12Info) : list Z :=
  List.filter (fun c => fat_entry (fat_bytes fs) c =? 0) (scan_range fs).

(** Small enough for the [u32] products of the scan not to wrap. *)
Definition table_small (fs : Fat12Info) : Prop := Z.of_nat (length (fat_bytes fs)) < 2 ^ 31.

Lemma scan_range_in fs c :
  table_small fs -> c ∈ scan_range fs ->
  2 <= c < Z.of_nat (length (fat_bytes fs)) * 2 / 3 /\ in_table (fat_bytes fs) c.
Proof.
  unfold table_small, scan_range. intros Hs Hc.
  rewrite wrap_id in Hc by (unfold in_u; div_lia).
  apply list_elem_of_fmap in Hc as (i & -> & Hi). apply elem_of_seq in Hi.
  split; [lia|]. unfold in_table, fat_offset.
  rewrite wrap_id by (unfold in_u; div_lia). div_lia.
Qed.

Lemma find_free_loop_eq fs l count found :
  (forall c, c ∈ l -> in_table (fat_bytes fs) c) -> (length found <= count)%nat ->
  find_free_loop fs l count found =
    take count (found ++ List.filter (fun c => fat_entry (fat_bytes fs) c =? 0) l).
Proof.
  revert found. induction l as [|c l IH]; intros found Hl Hf; cbn [find_free_loop].
  - cbn. by rewrite app_nil_r, take_ge.
  - destruct (length found =? count)%nat eqn:E; unbool.
    + rewrite take_app_le by lia. by rewrite take_ge by lia.
    + assert (Hc : in_table (fat_bytes fs) c) by (apply Hl; left).
      unfold fat_out_of_range, in_table in *. rewrite (proj2 (Z.leb_gt _ _)) by lia.
      cbn [List.filter]. destruct (_ =? 0); rewrite IH; try done.
      * by rewrite <- app_assoc.
      * intros c' Hc'. apply Hl. by right.
      * rewrite length_app. cbn. lia.
      * intros c' Hc'. apply Hl. by right.
Qed.

Lemma find_free_clusters_eq fs count :
  table_small fs ->
  find_free_clusters fs count =
    if (length (free_clusters_of fs) <? count)%nat
    then Err "FAT12: not enough free clusters available for this file"
    else Ok (take count (free_clusters_of fs)).
Proof.
  intros Hs. unfold find_free_clusters.
  rewrite find_free_loop_eq; [|intros c Hc; by apply scan_range_in|cbn; lia].
  cbn [app]. fold (free_clusters_of fs). cbn zeta. rewrite length_take.
  destruct (_ <? count)%nat eqn:E; destruct (length (free_clusters_of fs) <? count)%nat eqn:E2;
    unbool; try done; lia.
Qed.

Lemma free_clusters_of_spec fs c :
  c ∈ free_clusters_of fs <-> c ∈ scan_range fs /\ fat_entry (fat_bytes fs) c = 0.
Proof.
  unfold free_clusters_of. rewrite !list_elem_of_In, filter_In, Z.eqb_eq. done.
Qed.

Lemma scan_range_NoDup fs : NoDup (scan_range fs).
Proof.
  unfold scan_range. apply NoDup_fmap_2_strong; [|apply NoDup_seq].
  intros i j _ _ H. lia.
Qed.

Lemma free_clusters_of_NoDup fs : NoDup (free_clusters_of fs).
Proof.
  unfold free_clusters_of. apply NoDup_ListNoDup, List.NoDup_filter, NoDup_ListNoDup, scan_range_NoDup.
Qed.

(** A sorted filter's prefix holds every element of the filter below its own. *)
Lemma lowest_in_take fs count c d :
  table_small fs -> c ∈ take count (free_clusters_of fs) -> 2 <= d < c ->
  fat_entry (fat_bytes fs) d = 0 -> d ∈ take count (free_clusters_of fs).
Proof.
  intros Hs Hc Hd H0.
  assert (Hcr : c ∈ scan_range fs).
  { apply (free_clusters_of_spec fs c). rewrite <- (take_drop count (free_clusters_of fs)).
    apply elem_of_app. by left. }
  assert (Hdr : d ∈ free_clusters_of fs).
  { apply free_clusters_of_spec. split; [|done]. unfold scan_range in *.
    apply list_elem_of_fmap in Hcr as (i & -> & Hi). apply elem_of_seq in Hi.
    apply list_elem_of_fmap. exists (Z.to_nat (d - 2)). split; [lia|]. apply elem_of_seq. lia. }
  assert (Hsort : StronglySorted Z.lt (free_clusters_of fs)).
  { unfold free_clusters_of, scan_range. generalize (Z.to_nat (u32 (Z.of_nat (length (fat_bytes fs)) * 2 / 3) - 2)).
    intros n. generalize 0%nat. induction n as [|n IH]; intros s; cbn; [constructor|].
    specialize (IH (S s)). destruct (_ =? 0); [|done]. constructor; [done|].
    apply List.Forall_forall. intros x [Hx _]%filter_In.
    apply in_map_iff in Hx as (i & <- & Hi%List.in_seq). lia. }
  rewrite <- (take_drop count (free_clusters_of fs)) in Hdr, Hsort.
  apply elem_of_app in Hdr as [|Hdr]; [done|exfalso].
  assert (Hlt : forall x y, x ∈ take count (free_clusters_of fs) ->
            y ∈ drop count (free_clusters_of fs) -> x < y).
  { intros x y Hx Hy. by eapply StronglySorted_app_1_elem_of. }
  specialize (Hlt c d Hc Hdr). lia.
Qed.

(** ** Walks as loops over the chain *)

Section WalkLoop.
Context {D : Type} `{BlockOps D} {B R : Type}.
Context (body : Z -> B -> M (Vol D) (B + R)).

(** The body writes nothing to the table. *)
Hypothesis body_keeps : forall c b v, info (body c b v).2 = info v.

Lemma for_each_keeps {A} (f : A -> B -> M (Vol D) (B + R)) l b v :
  (forall x b v, info (f x b v).2 = info v) -> info (for_each l f b v).2 = info v.
Proof.
  intros Hf. revert b v. induction l as [|x l IH]; intros b v; cbn [for_each]; [done|].
  unfold mbind, M_bind. pose proof (Hf x b v) as Hx.
  destruct (f x b v) as [[[b'|r]| | |] v']; cbn in *; try done. by rewrite IH.
Qed.

Lemma walk_for_each fuel c b v cs :
  chain (info v) fuel c = Ok cs -> walk next_of body fuel c b v = for_each cs body b v.
Proof.
  revert c b v cs. induction fuel as [|f IH]; intros c b v cs H1; cbn [chain walk] in *; [done|].
  apply bind_Ok in H1 as (n & Hn & H1).
  assert (exists r, cs = c :: r) as [r ->].
  { destruct n; [|injection H1 as <-; by eexists].
    apply bind_Ok in H1 as (r & _ & H1). injection H1 as <-. by eexists. }
  cbn [for_each]. unfold mbind, M_bind. pose proof (body_keeps c b v) as Hk.
  destruct (body c b v) as [[[b'|x]| | |] v']; cbn in *; try done.
  unfold next_of, on_fs. rewrite Hk, Hn. destruct n as [c'|].
  - apply bind_Ok in H1 as (r' & Hr & H1). injection H1 as ->.
    apply IH. by rewrite Hk.
  - injection H1 as <-. done.
Qed.
End WalkLoop.

(** ** Properties *)


Definition cyclic_fat : Fat12Info :=
  mk_Fat12Info 1 2 1 16 1 0 ([0xF8; 0xFF; 0xFF; 0x02] ++ replicate 508 0).


(** [find_free_clusters] returns exactly the [count] lowest free clusters:
    distinct clusters of the table, at or after 2, with a zero entry, every free
    cluster below one of them among them; it fails only when the table has fewer
    than [count] free clusters. *)
Theorem find_free_clusters_spec fs count :
  table_small fs ->
  match find_free_clusters fs count with
  | Ok cs =>
      length cs = count /\ NoDup cs /\
      (forall c, c ∈ cs -> 2 <= c /\ in_table (fat_bytes fs) c /\ fat_entry (fat_bytes fs) c = 0) /\
      (forall c d, c ∈ cs -> 2 <= d < c -> fat_entry (fat_bytes fs) d = 0 -> d ∈ cs)
  | Err _ => (length (free_clusters_of fs) < count)%nat
  | _ => False
  end.
Proof.
  intros Hs. rewrite find_free_clusters_eq by done.
  destruct (_ <? count)%nat eqn:E; unbool; [done|].
  split; [rewrite length_take; lia|]. split; [|split].
  - pose proof (free_clusters_of_NoDup fs) as Hnd.
    rewrite <- (take_drop count (free_clusters_of fs)) in Hnd. by apply NoDup_app in Hnd as (? & _).
  - intros c Hc. assert (Hin : c ∈ free_clusters_of fs).
    { rewrite <- (take_drop count (free_clusters_of fs)). apply elem_of_app. by left. }
    apply free_clusters_of_spec in Hin as [Hr H0].
    apply scan_range_in in Hr as [? ?]; [|done]. split; [lia|done].
  - intros c d Hc Hd H0. eapply lowest_in_take; done.
Qed.

Lemma find_free_clusters_spec_witness :
  let fs := mk_Fat12Info 1 2 1 16 1 0 ([0xF8; 0xFF; 0xFF; 0xFF; 0x0F; 0x00] ++ replicate 506 0) in
  find_free_clusters fs 2 = Ok [3; 4] /\ length [3; 4] = 2%nat.
Proof.
  cbn zeta. split; [vm_compute; reflexivity|].
  pose proof (find_free_clusters_spec
    (mk_Fat12Info 1 2 1 16 1 0 ([0xF8; 0xFF; 0xFF; 0xFF; 0x0F; 0x00] ++ replicate 506 0)) 2) as H.
  specialize (H ltac:(vm_compute; reflexivity)).
  replace (find_free_clusters _ 2) with (Ok [3; 4]) in H by (vm_compute; reflexivity).
  apply H.
Defined.
