(* ===== verification/Fat12Data.v ===== *)
(** * Fat12Data: file contents on Fat12 clusters

    Writing data over a list of clusters ([write_clusters]) lays it out in
    512-byte blocks and links the clusters into a chain; reading the chain from
    its head ([read_chain]) gives the data back. *)
From stdpp Require Import base list numbers strings.
From Stdlib Require Import Lia.
From S2P Require Import Prelude FatCommon BlockDev Fat12 Fat12Table Fat12Chain.
Open Scope Z_scope.

(** ** Layout *)

(** The volume's address arithmetic does not wrap and its table lies before its
    data. *)
Record geometry (fs : Fat12Info) : Prop := {
  geo_spc : 0 < sectors_per_cluster fs <= 255;
  geo_data : first_data_sector fs + 4096 * sectors_per_cluster fs < 2 ^ 32;
  geo_table : first_fat_sector fs + fat_size_16 fs <= first_data_sector fs;
}.

(** A data cluster: not one of the two reserved ones, nor a value the table
    uses as a marker. *)
Definition data_cluster (c : Z) : Prop := 2 <= c < 0xFF8.

Lemma data_cluster12 c : data_cluster c -> cluster12 c.
Proof. unfold data_cluster, cluster12. lia. Qed.

Lemma first_data_sector_pos fs : 0 <= first_data_sector fs.
Proof. apply wrap_in_u. lia. Qed.

Lemma cluster_lbas_eq fs c :
  geometry fs -> data_cluster c ->
  cluster_lbas fs c =
    map (fun s => first_data_sector fs + (c - 2) * sectors_per_cluster fs + Z.of_nat s)
      (seq 0 (Z.to_nat (sectors_per_cluster fs))).
Proof.
  intros [Hs Hd _] Hc. unfold data_cluster in Hc. pose proof (first_data_sector_pos fs).
  unfold cluster_lbas, cluster_sectors. rewrite map_map. apply map_ext_in.
  intros s Hin. apply List.in_seq in Hin.
  assert (0 <= (c - 2) * sectors_per_cluster fs <= 4093 * sectors_per_cluster fs) by nia.
  unfold cluster_to_lba. rewrite (wrap_id 32 (c - 2)) by (unfold in_u; lia).
  rewrite (wrap_id 32 ((c - 2) * _)) by (unfold in_u; lia).
  rewrite (wrap_id 32 (first_data_sector fs + _)) by (unfold in_u; lia).
  apply wrap_id. unfold in_u. lia.
Qed.

(** The sectors of a list of clusters, in order. *)
Definition all_lbas (fs : Fat12Info) (cs : list Z) : list Z := concat (map (cluster_lbas fs) cs).

Lemma in_cluster_lbas fs c a :
  geometry fs -> data_cluster c -> a ∈ cluster_lbas fs c ->
  first_data_sector fs + (c - 2) * sectors_per_cluster fs <= a <
    first_data_sector fs + (c - 1) * sectors_per_cluster fs.
Proof.
  intros Hg Hc. rewrite cluster_lbas_eq by done.
  intros (s & -> & Hs)%list_elem_of_fmap. apply elem_of_seq in Hs. lia.
Qed.

Lemma length_cluster_lbas fs c :
  length (cluster_lbas fs c) = Z.to_nat (sectors_per_cluster fs).
Proof. unfold cluster_lbas, cluster_sectors. by rewrite !length_map, length_seq. Qed.

Lemma length_all_lbas fs cs :
  length (all_lbas fs cs) = (length cs * Z.to_nat (sectors_per_cluster fs))%nat.
Proof.
  induction cs as [|c cs IH]; [done|]. unfold all_lbas in *. cbn [map concat length].
  by rewrite length_app, IH, length_cluster_lbas.
Qed.

Lemma in_all_lbas fs cs a : a ∈ all_lbas fs cs <-> exists c, c ∈ cs /\ a ∈ cluster_lbas fs c.
Proof.
  unfold all_lbas. rewrite list_elem_of_In, in_concat. split.
  - intros (l & (c & <- & Hc)%in_map_iff & Ha). exists c. by rewrite !list_elem_of_In.
  - intros (c & Hc & Ha). exists (cluster_lbas fs c). rewrite <- !list_elem_of_In.
    split; [|done]. apply list_elem_of_In, in_map_iff. exists c. by rewrite <- list_elem_of_In.
Qed.

Lemma all_lbas_NoDup fs cs :
  geometry fs -> Forall data_cluster cs -> NoDup cs -> NoDup (all_lbas fs cs).
Proof.
  intros Hg Hcs Hnd. induction Hnd as [|c cs Hc Hnd IH]; [constructor|].
  apply Forall_cons in Hcs as [Hdc Hcs]. change (all_lbas fs (c :: cs)) with
    (cluster_lbas fs c ++ all_lbas fs cs). apply NoDup_app. split; [|split; [|by apply IH]].
  - rewrite cluster_lbas_eq by done. apply NoDup_fmap_2_strong; [|apply NoDup_seq]. intros; lia.
  - intros a Ha (c' & Hc' & Ha')%in_all_lbas.
    assert (Hdc' : data_cluster c') by (by eapply Forall_forall).
    apply in_cluster_lbas in Ha, Ha'; try done.
    pose proof (geo_spc fs Hg). assert (c <> c') by (by intros ->).
    destruct (decide (c < c')); nia.
Qed.

(** ** Blocks *)

(** The [k]-th 512-byte block of the data, padded with zeros. *)
Definition block (data : list Z) (k : nat) : list Z :=
  let b := take SECTOR (drop (SECTOR * k) data) in b ++ replicate (SECTOR - length b) 0.

(** The bytes laid out before block [k]. *)
Definition upto (data : list Z) (k : nat) : nat := Nat.min (SECTOR * k) (length data).

#[local] Arguments block : simpl never.
#[local] Arguments upto : simpl never.

Lemma block_ok data k : bytes_ok data -> length (block data k) = SECTOR /\ bytes_ok (block data k).
Proof.
  intros Hd. unfold block. split.
  - rewrite length_app, length_replicate, length_take. lia.
  - bytes.
Qed.

Lemma splice_zero_sector src :
  (length src <= SECTOR)%nat -> splice 0 src zero_sector = src ++ replicate (SECTOR - length src) 0.
Proof.
  intros H. unfold splice, zero_sector. rewrite take_0, app_nil_l, drop_replicate. done.
Qed.

Lemma next_sector_block data k : next_sector data (upto data k) = (block data k, upto data (S k)).
Proof.
  unfold next_sector, upto, block. destruct (_ <? _)%nat eqn:E; unbool.
  - rewrite (Nat.min_l (SECTOR * k)) by lia. f_equal; [|unfold SECTOR in *; lia].
    rewrite splice_zero_sector.
    + assert (Ht : take (Nat.min (SECTOR * k + 512) (length data) - SECTOR * k) (drop (SECTOR * k) data)
                = take SECTOR (drop (SECTOR * k) data)); [|by rewrite Ht].
      destruct (decide (SECTOR * k + 512 <= length data)%nat).
      * f_equal. unfold SECTOR in *. lia.
      * rewrite !take_ge by (rewrite length_drop; unfold SECTOR in *; lia). done.
    + rewrite length_take, length_drop. unfold SECTOR in *. lia.
  - rewrite drop_ge by lia. rewrite take_nil, app_nil_l. f_equal. unfold SECTOR in *. lia.
Qed.

(** The sectors after blocks [k], [k + 1], ... went to the listed addresses. *)
Fixpoint write_blocks (data : list Z) (k : nat) (lbas : list Z) (f : Z -> list Z) : Z -> list Z :=
  match lbas with
  | [] => f
  | a :: r => write_blocks data (S k) r (upd a (block data k) f)
  end.

Lemma write_blocks_out data k lbas f a : a ∉ lbas -> write_blocks data k lbas f a = f a.
Proof.
  revert k f. induction lbas as [|b l IH]; intros k f Ha; cbn; [done|].
  apply not_elem_of_cons in Ha as [Hab Ha]. rewrite IH by done. by apply upd_other.
Qed.

Lemma write_blocks_in data k lbas f j a :
  NoDup lbas -> lbas !! j = Some a -> write_blocks data k lbas f a = block data (k + j).
Proof.
  revert k f j. induction lbas as [|b l IH]; intros k f j Hnd Hj; [done|].
  apply NoDup_cons in Hnd as [Hb Hnd]. destruct j as [|j]; cbn in *.
  - injection Hj as ->. rewrite write_blocks_out by done. by rewrite upd_same, Nat.add_0_r.
  - rewrite (IH (S k) _ j) by done. f_equal. lia.
Qed.

Lemma write_blocks_ext data k lbas f g a :
  f a = g a -> write_blocks data k lbas f a = write_blocks data k lbas g a.
Proof.
  revert k f g. induction lbas as [|b l IH]; intros k f g Hfg; cbn; [done|].
  apply IH. unfold upd. by destruct (decide (a = b)).
Qed.

Lemma write_blocks_app data k l1 l2 f :
  write_blocks data k (l1 ++ l2) f = write_blocks data (k + length l1) l2 (write_blocks data k l1 f).
Proof.
  revert k f. induction l1 as [|a l IH]; intros k f; cbn; [by rewrite Nat.add_0_r|].
  rewrite IH. f_equal. lia.
Qed.

(** ** The chain the loop links *)

Definition link_value (rest : list Z) : Z :=
  match rest with next :: _ => u16 next | [] => 0x0FFF end.

Fixpoint link_table (b : list Z) (cs : list Z) : list Z :=
  match cs with
  | [] => b
  | c :: rest => link_table (put_entry b c (link_value rest)) rest
  end.

Lemma link_table_wf b cs :
  bytes_ok b -> bytes_ok (link_table b cs) /\ length (link_table b cs) = length b.
Proof.
  revert b. induction cs as [|c cs IH]; intros b Hb; cbn; [done|].
  destruct (IH (put_entry b c (link_value cs))) as [H1 H2]; [by apply put_entry_bytes|].
  by rewrite H2, length_put_entry.
Qed.

(** Clusters of the table that the loop may link. *)
Definition linkable (b : list Z) (c : Z) : Prop := data_cluster c /\ in_table b c.

Lemma linkable_length b b' c : length b' = length b -> linkable b c -> linkable b' c.
Proof. unfold linkable, in_table. by intros ->. Qed.

Lemma link_table_out b cs c :
  bytes_ok b -> Forall (linkable b) cs -> cluster12 c -> c ∉ cs ->
  fat_entry (link_table b cs) c = fat_entry b c.
Proof.
  revert b. induction cs as [|x cs IH]; intros b Hb Hcs Hc Hn; cbn; [done|].
  apply Forall_cons in Hcs as [[Hx Hin] Hcs]. apply not_elem_of_cons in Hn as [Hcx Hn].
  rewrite IH; [|by apply put_entry_bytes| |done|done].
  - apply fat_entry_put_other; try done. by apply data_cluster12.
  - eapply Forall_impl; [exact Hcs|]. intros y. apply linkable_length, length_put_entry.
Qed.

Lemma link_table_in b l1 c l2 :
  bytes_ok b -> Forall (linkable b) (l1 ++ c :: l2) -> NoDup (l1 ++ c :: l2) ->
  fat_entry (link_table b (l1 ++ c :: l2)) c = match l2 with n :: _ => n | [] => 0xFFF end.
Proof.
  revert b. induction l1 as [|x l1 IH]; intros b Hb Hcs Hnd; cbn [app link_table] in *.
  - apply Forall_cons in Hcs as [[Hc Hin] Hcs]. apply NoDup_cons in Hnd as [Hn _].
    rewrite link_table_out; [|by apply put_entry_bytes| |by apply data_cluster12|done].
    + rewrite fat_entry_put_same; [|done|by apply data_cluster12|done].
      destruct l2 as [|n l2]; [done|]. cbn. apply Forall_cons in Hcs as [[Hn' _] _].
      unfold data_cluster in Hn'. rewrite wrap_id by (unfold in_u; lia). apply Z.mod_small. lia.
    + eapply Forall_impl; [exact Hcs|]. intros y. apply linkable_length, length_put_entry.
  - apply Forall_cons in Hcs as [_ Hcs]. apply NoDup_cons in Hnd as [_ Hnd].
    apply IH; [by apply put_entry_bytes| |done].
    eapply Forall_impl; [exact Hcs|]. intros y. apply linkable_length, length_put_entry.
Qed.

Lemma next_cluster_entry fs c :
  in_table (fat_bytes fs) c ->
  next_cluster fs c =
    let e := fat_entry (fat_bytes fs) c in
    if e =? 0 then Err "FAT12: cluster chain hit a free (0) entry unexpectedly"
    else if 0xFF8 <=? e then Ok None else Ok (Some e).
Proof.
  intros Hin. unfold next_cluster, fat_out_of_range, in_table in *.
  by rewrite (proj2 (Z.leb_gt _ _)) by lia.
Qed.

(** The chain linked from its head is the list of clusters. *)
Lemma chain_link_table fs cs l1 c l2 :
  bytes_ok (fat_bytes fs) -> Forall (linkable (fat_bytes fs)) cs -> NoDup cs -> cs = l1 ++ c :: l2 ->
  chain (set_fat_bytes (link_table (fat_bytes fs) cs) fs) (S (length l2)) c = Ok (c :: l2).
Proof.
  intros Hb Hcs Hnd. revert l1 c. induction l2 as [|n l2 IH]; intros l1 c ->.
  - cbn [chain length]. rewrite next_cluster_entry.
    + cbn zeta. cbn [set_fat_bytes fat_bytes]. by rewrite link_table_in.
    + apply Forall_app in Hcs as [_ [[Hc Hin] _]%Forall_cons]. unfold in_table in *.
      cbn [set_fat_bytes fat_bytes]. by rewrite (proj2 (link_table_wf _ _ Hb)).
  - assert (Hrest := Hcs). apply Forall_app in Hrest as [_ [[Hc Hin] [[Hn _] _]%Forall_cons]%Forall_cons].
    cbn [length]. remember (S (length l2)) as f eqn:Hf. cbn [chain].
    rewrite next_cluster_entry.
    + cbn zeta. cbn [set_fat_bytes fat_bytes]. rewrite link_table_in by done.
      unfold data_cluster in Hn. rewrite (proj2 (Z.eqb_neq n 0)), (proj2 (Z.leb_gt _ n)) by lia.
      cbn [mbind res_bind]. rewrite (IH (l1 ++ [c])); [done|]. by rewrite <- app_assoc.
    + unfold in_table in *. cbn [set_fat_bytes fat_bytes]. by rewrite (proj2 (link_table_wf _ _ Hb)).
Qed.

Section Write.
Context {D : Type} `{BlockDev D}.
Implicit Types v : Vol D.

Lemma write_cluster_ok v data k lbas :
  bytes_ok data -> Forall (serves (dev v)) lbas ->
  exists d', for_each lbas (write_step data) (upto data k) v =
      (Ok (inl (upto data (k + length lbas))), mk_Vol (info v) d') /\
    becomes (dev v) (write_blocks data k lbas (sector_at (dev v))) d'.
Proof.
  intros Hb. revert k v. induction lbas as [|a l IH]; intros k v Hs; cbn [for_each write_blocks].
  - exists (dev v). rewrite Nat.add_0_r. split; [by destruct v|]. apply becomes_refl.
  - apply Forall_cons in Hs as [Ha Hl]. destruct (block_ok data k Hb) as [Hlen Hbk].
    destruct (write_lba_served v a _ Ha Hlen Hbk) as (d1 & E1 & B1).
    destruct (IH (S k) (mk_Vol (info v) d1)) as (d2 & E2 & B2).
    { eapply Forall_impl; [exact Hl|]. intros b Hb'. by apply B1. }
    exists d2. split.
    + rewrite (M_bind_Ok _ _ v (inl (upto data (S k))) (mk_Vol (info v) d1)).
      * rewrite E2. do 2 f_equal. cbn. do 2 f_equal. lia.
      * unfold write_step. rewrite next_sector_block.
        by rewrite (M_bind_Ok _ _ _ _ _ E1).
    + destruct B1 as [B1 S1], B2 as [B2 S2]. split; [|by intros; apply S2, S1].
      intros b. rewrite B2. cbn [dev]. apply write_blocks_ext, B1.
Qed.
(** What is outside the table, where the blocks go. *)
Definition outside_table (fs : Fat12Info) (a : Z) : Prop :=
  ~ (first_fat_sector fs <= a < first_fat_sector fs + fat_size_16 fs).

Lemma cluster_lbas_outside fs c :
  geometry fs -> data_cluster c -> Forall (outside_table fs) (cluster_lbas fs c).
Proof.
  intros Hg Hc. apply Forall_forall. intros a Ha.
  apply in_cluster_lbas in Ha; [|done|done]. pose proof (geo_table fs Hg).
  pose proof (geo_spc fs Hg). unfold outside_table, data_cluster in *. nia.
Qed.

Lemma write_clusters_ok v cs data k :
  fat_synced v -> geometry (info v) -> bytes_ok data -> NoDup cs ->
  Forall (linkable (fat_bytes (info v))) cs -> Forall (serves (dev v)) (all_lbas (info v) cs) ->
  exists d',
    write_clusters cs data (upto data k) v =
      (Ok tt, mk_Vol (set_fat_bytes (link_table (fat_bytes (info v)) cs) (info v)) d') /\
    fat_synced (mk_Vol (set_fat_bytes (link_table (fat_bytes (info v)) cs) (info v)) d') /\
    (forall a, outside_table (info v) a ->
       sector_at d' a = write_blocks data k (all_lbas (info v) cs) (sector_at (dev v)) a) /\
    (forall a, serves (dev v) a -> serves d' a).
Proof.
  intros Hv Hg Hb Hnd. revert v k Hv Hg. induction Hnd as [|c cs Hc Hnd IH];
    intros v k Hv Hg Hcs Hs; cbn [write_clusters link_table].
  - exists (dev v). destruct v as [[] ?]. cbn in *. done.
  - apply Forall_cons in Hcs as [[Hdc Hin] Hcs].
    change (all_lbas (info v) (c :: cs)) with (cluster_lbas (info v) c ++ all_lbas (info v) cs) in *.
    apply Forall_app in Hs as [Hs1 Hs2].
    rewrite (M_bind_Ok _ _ v (info v) v) by done.
    destruct (write_cluster_ok v data k _ Hb Hs1) as (d1 & E1 & B1 & S1).
    rewrite (M_bind_Ok _ _ _ _ _ E1).
    set (v1 := mk_Vol (info v) d1).
    assert (Hout : forall a, a ∉ cluster_lbas (info v) c -> sector_at d1 a = sector_at (dev v) a).
    { intros a Ha. rewrite B1. by apply write_blocks_out. }
    assert (Hv1 : fat_synced v1).
    { destruct Hv as [? ? ? ? Hserves Hdisk]. constructor; try done.
      - intros i Hi. apply S1, Hserves, Hi.
      - intros i Hi. cbn [info dev v1] in *. rewrite Hout; [by apply Hdisk|].
        intros Ha. pose proof (cluster_lbas_outside (info v) c Hg Hdc) as Ho.
        rewrite Forall_forall in Ho. apply Ho in Ha. apply Ha. lia. }
    destruct (write_fat_entry_ok v1 c (link_value cs)) as (d2 & E2 & B2).
    { done. } { by apply data_cluster12. } { done. }
    change (match cs with next :: _ => u16 next | [] => 0x0FFF end) with (link_value cs).
    cbn zeta. rewrite (M_bind_Ok _ _ _ _ _ E2).
    pose proof (put_entry_synced v1 c (link_value cs) d2 Hv1 B2) as Hv2.
    destruct B2 as [B2 S2]. cbn [info dev v1] in *.
    destruct (IH _ (k + length (cluster_lbas (info v) c))%nat Hv2) as (d3 & E3 & Hv3 & B3 & S3).
    + destruct Hg. by constructor.
    + eapply Forall_impl; [exact Hcs|]. intros y. apply linkable_length, length_put_entry.
    + eapply Forall_impl; [exact Hs2|]. intros a Ha. by apply S2, S1.
    + exists d3. split; [exact E3|]. split; [exact Hv3|]. split; [|by intros; apply S3, S2, S1].
      intros a Ha. rewrite B3 by exact Ha. rewrite write_blocks_app.
      apply write_blocks_ext. cbn [dev]. rewrite B2. unfold table_after.
      rewrite decide_False by exact Ha. apply B1.
Qed.
(** ** Reading *)

Lemma take_block data k r :
  (SECTOR * k < length data)%nat -> r = Z.of_nat (length data - SECTOR * k) ->
  take (Z.to_nat (Z.min r 512)) (block data k) = take SECTOR (drop (SECTOR * k) data).
Proof.
  intros Hk ->. unfold block.
  assert (Hl : length (take SECTOR (drop (SECTOR * k) data)) = Nat.min SECTOR (length data - SECTOR * k)).
  { by rewrite length_take, length_drop. }
  replace (Z.to_nat _) with (length (take SECTOR (drop (SECTOR * k) data)))
    by (unfold SECTOR in *; lia).
  by rewrite take_app_length.
Qed.

Lemma read_blocks_ok v data k lbas :
  (forall j a, lbas !! j = Some a -> serves (dev v) a /\ sector_at (dev v) a = block data (k + j)) ->
  (SECTOR * k < length data)%nat -> (length data <= SECTOR * (k + length lbas))%nat ->
  exists d', for_each lbas (read_step (Z.of_nat (length data))) (take (SECTOR * k) data) v
      = (Ok (inr data), mk_Vol (info v) d') /\ becomes (dev v) (sector_at (dev v)) d'.
Proof.
  revert k v. induction lbas as [|a l IH]; intros k v Hl Hk Hle; cbn [length for_each] in *; [lia|].
  destruct (Hl 0%nat a eq_refl) as [Ha Hblk]. rewrite Nat.add_0_r in Hblk.
  destruct (read_lba_served v a Ha) as (d1 & E1 & B1 & S1).
  assert (Hstep : read_step (Z.of_nat (length data)) a (take (SECTOR * k) data) v =
     (Ok (let data' := take (SECTOR * S k) data in
          if Z.of_nat (length data) <=? Z.of_nat (length data') then inr data' else inl data'),
      mk_Vol (info v) d1)).
  { unfold read_step. rewrite (M_bind_Ok _ _ _ _ _ E1). cbn zeta. rewrite Hblk.
    rewrite length_take, Nat.min_l by lia.
    rewrite take_block by lia. rewrite take_take_drop.
    replace (SECTOR * k + SECTOR)%nat with (SECTOR * S k)%nat by lia. done. }
  rewrite (M_bind_Ok _ _ _ _ _ Hstep). cbn zeta. rewrite length_take.
  destruct (_ <=? _) eqn:E; unbool.
  - exists d1. rewrite take_ge by lia. split; [done|]. by split.
  - destruct (IH (S k) (mk_Vol (info v) d1)) as (d2 & E2 & B2).
    + intros j b Hj. destruct (Hl (S j) b Hj) as [Hs Hb]. cbn [dev]. rewrite B1, Hb.
      split; [by apply S1|]. f_equal. lia.
    + lia.
    + lia.
    + exists d2. split; [exact E2|]. eapply becomes_trans; [by split|].
      eapply becomes_ext; [exact B2|]. exact B1.
Qed.

Lemma read_step_keeps size a data v : info (read_step size a data v).2 = info v.
Proof.
  unfold read_step, mbind, M_bind, read_lba. destruct (read_sector a (dev v)) as [[] ?]; done.
Qed.

Lemma read_chain_ok v cs data c :
  chain (info v) CHAIN_FUEL c = Ok cs ->
  (forall j a, all_lbas (info v) cs !! j = Some a ->
     serves (dev v) a /\ sector_at (dev v) a = block data j) ->
  (0 < length data <= SECTOR * length (all_lbas (info v) cs))%nat ->
  exists d', read_chain (Z.of_nat (length data)) c v = (Ok data, mk_Vol (info v) d') /\
    becomes (dev v) (sector_at (dev v)) d'.
Proof.
  intros Hc Hl [Hpos Hle]. unfold read_chain. rewrite (M_bind_Ok _ _ v (info v) v) by done.
  destruct (read_blocks_ok v data 0 (all_lbas (info v) cs)) as (d' & E & B).
  { intros j a Hj. by apply Hl. } { lia. } { lia. }
  exists d'. split; [|done].
  rewrite Nat.mul_0_r, take_0 in E.
  rewrite (M_bind_Ok _ _ v (inr data) (mk_Vol (info v) d')); [done|].
  rewrite (walk_for_each _ (fun c b v => for_each_keeps _ _ b v (read_step_keeps _)) _ _ _ _ _ Hc).
  rewrite for_each_concat. exact E.
Qed.
End Write.

Lemma data_clusters_short cs :
  NoDup cs -> Forall data_cluster cs -> Z.of_nat (length cs) <= 0xFF8.
Proof.
  intros Hnd Hcs.
  assert (incl cs (map Z.of_nat (seq 0 (Z.to_nat 0xFF8)))) as Hincl.
  { intros c Hc. rewrite Forall_forall in Hcs. apply list_elem_of_In, Hcs in Hc.
    unfold data_cluster in Hc. apply in_map_iff. exists (Z.to_nat c).
    rewrite List.in_seq. lia. }
  apply NoDup_ListNoDup in Hnd. pose proof (NoDup_incl_length Hnd Hincl) as Hle.
  rewrite length_map, length_seq in Hle. lia.
Qed.

(** ** Properties *)

(** Contents survive the disk. Writing data over distinct free-standing
    clusters big enough for it succeeds, leaves memory and disk in step, makes
    the clusters a chain in that order, keeps every other cluster's entry and
    every sector that is neither in the table nor in those clusters; and reading
    the chain back returns the data, byte for byte. *)
Theorem write_read_clusters {D} `{BlockDev D} (v : Vol D) c rest data :
  let cs := c :: rest in
  fat_synced v -> geometry (info v) -> bytes_ok data -> NoDup cs ->
  Forall (linkable (fat_bytes (info v))) cs -> Forall (serves (dev v)) (all_lbas (info v) cs) ->
  (0 < length data <= SECTOR * (length cs * Z.to_nat (sectors_per_cluster (info v))))%nat ->
  exists v', write_clusters cs data 0 v = (Ok tt, v') /\ fat_synced v' /\
    chain (info v') CHAIN_FUEL c = Ok cs /\
    (forall c', cluster12 c' -> c' ∉ cs ->
       fat_entry (fat_bytes (info v')) c' = fat_entry (fat_bytes (info v)) c') /\
    (forall a, outside_table (info v) a -> a ∉ all_lbas (info v) cs ->
       sector_at (dev v') a = sector_at (dev v) a) /\
    exists v'', read_chain (Z.of_nat (length data)) c v' = (Ok data, v'') /\ info v'' = info v'.
Proof.
  intros cs Hv Hg Hb Hnd Hcs Hs [Hpos Hle].
  assert (Hdc : Forall data_cluster cs) by (eapply Forall_impl; [exact Hcs|]; by intros ? []).
  destruct (write_clusters_ok v cs data 0 Hv Hg Hb Hnd Hcs Hs) as (d' & Hw & Hv' & Hd & Hsrv).
  assert (Hch : chain (set_fat_bytes (link_table (fat_bytes (info v)) cs) (info v)) CHAIN_FUEL c = Ok cs).
  { eapply chain_more_fuel; [apply (chain_link_table (info v) cs [] c rest); [apply Hv|done..]|].
    pose proof (data_clusters_short cs Hnd Hdc) as Hsh. unfold cs in Hsh. cbn [length] in Hsh.
    unfold CHAIN_FUEL. lia. }
  eexists. split; [exact Hw|]. split; [exact Hv'|]. split; [exact Hch|]. split; [|split].
  - intros c' Hc' Hn. apply link_table_out; [apply Hv|done..].
  - intros a Ha Hn. cbn [dev]. rewrite Hd by done. by apply write_blocks_out.
  - destruct (read_chain_ok (mk_Vol (set_fat_bytes (link_table (fat_bytes (info v)) cs) (info v)) d')
      cs data c Hch) as (d2 & E2 & _).
    + intros j a Hj. change (all_lbas (info v) cs !! j = Some a) in Hj.
      assert (Ha : a ∈ all_lbas (info v) cs) by (by eapply list_elem_of_lookup_2).
      cbn [dev]. split.
      * apply Hsrv. rewrite Forall_forall in Hs. by apply Hs.
      * change j with (0 + j)%nat. rewrite Hd; [by apply write_blocks_in; [apply all_lbas_NoDup|]|].
        apply in_all_lbas in Ha as (x & Hx & Ha). rewrite Forall_forall in Hdc.
        pose proof (cluster_lbas_outside (info v) x Hg (Hdc x Hx)) as Ho.
        rewrite Forall_forall in Ho. by apply Ho.
    + change (all_lbas (info _) cs) with (all_lbas (info v) cs). by rewrite length_all_lbas.
    + eexists. split; [exact E2|done].
Qed.

Lemma demo_vol_geometry : geometry (info demo_vol).
Proof. constructor; vm_compute; intuition congruence. Qed.

Lemma write_read_clusters_witness :
  exists v', write_clusters [341; 2] (replicate 600 7) 0 demo_vol = (Ok tt, v') /\
    chain (info v') CHAIN_FUEL 341 = Ok [341; 2] /\
    exists v'', read_chain (Z.of_nat (length (replicate 600 7))) 341 v' = (Ok (replicate 600 7), v'').
Proof.
  destruct (write_read_clusters demo_vol 341 [2] (replicate 600 7) demo_vol_synced
    demo_vol_geometry) as (v' & Hw & _ & Hc & _ & _ & v'' & Hr & _).
  - apply Forall_replicate. unfold byte_ok; lia.
  - apply NoDup_cons. split; [|apply NoDup_singleton]. by intros [=]%list_elem_of_singleton.
  - repeat constructor; vm_compute; congruence.
  - repeat constructor.
  - vm_compute. lia.
  - exists v'. split; [exact Hw|]. split; [exact Hc|]. by exists v''.
Defined.
