(* ===== verification/Fat12Free.v ===== *)
(** * Fat12Free: freeing a chain, the first half of every Fat12 deletion *)
From stdpp Require Import base list numbers strings.
From Stdlib Require Import Lia.
From S2P Require Import Prelude FatCommon BlockDev Fat12 Fat12Table Fat12Chain Fat12Data.
Open Scope Z_scope.

(** ** A chain that ends has no repetition *)

Lemma chain_head fs f c cs : chain fs f c = Ok cs -> exists r, cs = c :: r.
Proof.
  destruct f as [|f]; cbn; [done|]. intros ([n|] & _ & H)%bind_Ok.
  - apply bind_Ok in H as (r & _ & H). injection H as <-. by eexists.
  - injection H as <-. by eexists.
Qed.

Lemma chain_det fs f g c cs cs' : chain fs f c = Ok cs -> chain fs g c = Ok cs' -> cs = cs'.
Proof.
  intros H1 H2. apply (chain_more_fuel fs f (f + g)) in H1; [|lia].
  apply (chain_more_fuel fs g (f + g)) in H2; [|lia]. congruence.
Qed.

(** Every cluster of a chain heads its own remainder. *)
Lemma chain_suffix fs f c cs l1 d l2 :
  chain fs f c = Ok cs -> cs = l1 ++ d :: l2 -> chain fs f d = Ok (d :: l2).
Proof.
  revert c cs l1. induction f as [|f IH]; intros c cs l1 H ->; [done|].
  pose proof (chain_head _ _ _ _ H) as [r Hr].
  destruct l1 as [|x l1]; cbn [app] in Hr.
  - injection Hr as -> ->. done.
  - injection Hr as -> <-. cbn [chain] in H. apply bind_Ok in H as ([n|] & Hn & H).
    + apply bind_Ok in H as (r & Hr & H). injection H as ->.
      eapply chain_more_fuel; [by apply (IH n (l1 ++ d :: l2) l1)|lia].
    + injection H as H. by destruct l1.
Qed.

Lemma chain_NoDup fs f c cs : chain fs f c = Ok cs -> NoDup cs.
Proof.
  intros H. apply NoDup_alt. intros i j x Hi Hj.
  assert (Hs : forall i, cs !! i = Some x -> chain fs f x = Ok (drop i cs)).
  { intros k Hk. rewrite <- (take_drop_middle _ _ _ Hk) in H at 1.
    rewrite (chain_suffix _ _ _ _ _ _ _ H eq_refl). by rewrite (drop_S _ _ _ Hk). }
  pose proof (Hs i Hi) as H1. pose proof (Hs j Hj) as H2. rewrite H1 in H2.
  injection H2 as H2. apply (f_equal length) in H2. rewrite !length_drop in H2.
  apply lookup_lt_Some in Hi, Hj. lia.
Qed.

Lemma chain_step fs f c cs :
  chain fs f c = Ok cs ->
  in_table (fat_bytes fs) c /\
  ((exists n f' r, f = S f' /\ next_cluster fs c = Ok (Some n) /\ chain fs f' n = Ok r /\ cs = c :: r) \/
   (next_cluster fs c = Ok None /\ cs = [c])).
Proof.
  destruct f as [|f]; cbn [chain]; [done|]. intros (n & Hn & H)%bind_Ok. split.
  - unfold next_cluster, fat_out_of_range, in_table in *. destruct (_ <=? _) eqn:E; [done|].
    unbool. lia.
  - destruct n as [n|].
    + apply bind_Ok in H as (r & Hr & H). injection H as <-. left. by exists n, f, r.
    + injection H as <-. by right.
Qed.

(** The clusters after a chain's head are values of the table. *)
Lemma chain_cluster12 fs f c n r x :
  bytes_ok (fat_bytes fs) -> next_cluster fs c = Ok (Some n) -> chain fs f n = Ok r ->
  x ∈ r -> cluster12 x.
Proof.
  intros Hb. revert c n r. induction f as [|f IH]; intros c n r Hn Hr Hx; [done|].
  destruct (chain_step _ _ _ _ Hr) as [_ [(n' & f' & r' & [= <-] & Hn' & Hr' & ->)|[_ ->]]].
  - apply elem_of_cons in Hx as [->|Hx]; [|by eapply IH].
    apply next_cluster_range in Hn; [|done]. unfold cluster12. lia.
  - apply list_elem_of_singleton in Hx as ->.
    apply next_cluster_range in Hn; [|done]. unfold cluster12. lia.
Qed.

(** Entries off the chain do not matter to it. *)
Lemma chain_table_ext fs b f c cs :
  chain fs f c = Ok cs -> length b = length (fat_bytes fs) ->
  (forall x, x ∈ cs -> fat_entry b x = fat_entry (fat_bytes fs) x) ->
  chain (set_fat_bytes b fs) f c = Ok cs.
Proof.
  intros H Hlen. revert c cs H. induction f as [|f IH]; intros c cs H He; [done|].
  destruct (chain_step _ _ _ _ H) as [Hin Hc]. unfold in_table in Hin.
  assert (Hn : next_cluster (set_fat_bytes b fs) c = next_cluster fs c).
  { rewrite !next_cluster_entry; [|done|unfold in_table; cbn; by rewrite Hlen].
    cbn [set_fat_bytes fat_bytes]. rewrite He; [done|].
    destruct Hc as [(n & f' & r & _ & _ & _ & ->)|[_ ->]]; left. }
  cbn [chain]. rewrite Hn. destruct Hc as [(n & f' & r & [= <-] & -> & Hr & ->)|[-> ->]]; [|done].
  cbn. rewrite (IH n r); [done|done|]. intros x Hx. apply He. by right.
Qed.

Section Free.
Context {D : Type} `{BlockDev D}.
Implicit Types v : Vol D.

Lemma free_chain_ok v f c cs :
  fat_synced v -> cluster12 c -> chain (info v) f c = Ok cs ->
  exists v', free_chain f c v = (Ok tt, v') /\ fat_synced v' /\
    (forall x, x ∈ cs -> fat_entry (fat_bytes (info v')) x = 0) /\
    (forall x, cluster12 x -> x ∉ cs ->
       fat_entry (fat_bytes (info v')) x = fat_entry (fat_bytes (info v)) x) /\
    (exists b, info v' = set_fat_bytes b (info v)) /\
    (forall a, outside_table (info v) a -> sector_at (dev v') a = sector_at (dev v) a) /\
    (forall a, serves (dev v) a -> serves (dev v') a).
Proof.
  revert v c cs. induction f as [|f IH]; intros v c cs Hv Hc Hch; [done|].
  destruct (chain_step _ _ _ _ Hch) as [Hin Hstep].
  destruct (write_fat_entry_ok v c 0 Hv Hc Hin) as (d1 & E1 & B1).
  pose proof (put_entry_synced v c 0 d1 Hv B1) as Hv1.
  cbn [free_chain].
  assert (Hn : exists n, next_cluster (info v) c = Ok n /\
     match n with Some n => exists r, chain (info v) f n = Ok r /\ cs = c :: r | None => cs = [c] end).
  { destruct Hstep as [(n & f' & r & [= <-] & Hn & Hr & ->)|[Hn ->]].
    - exists (Some n). split; [done|]. by exists r.
    - by exists None. }
  destruct Hn as (n & Hn & Hcs).
  rewrite (M_bind_Ok _ _ v n v) by (unfold next_of, on_fs; by rewrite Hn).
  rewrite (M_bind_Ok _ _ _ _ _ E1).
  pose proof (sy_bytes v Hv) as Hb.
  assert (Hsec : forall a, outside_table (info v) a -> sector_at d1 a = sector_at (dev v) a).
  { intros a Ha. rewrite (proj1 B1). unfold table_after. by rewrite decide_False. }
  destruct n as [n|].
  - destruct Hcs as (r & Hr & ->).
    pose proof (chain_NoDup _ _ _ _ Hch) as Hnd. apply NoDup_cons in Hnd as [Hcr _].
    assert (Hr12 : forall x, x ∈ r -> cluster12 x).
    { intros x Hx. eapply chain_cluster12; [exact Hb|exact Hn|exact Hr|exact Hx]. }
    assert (Hn12 : cluster12 n).
    { destruct (chain_head _ _ _ _ Hr) as [r' ->]. apply Hr12. left. }
    destruct (IH _ n r Hv1 Hn12) as (v' & E & Hv' & Hz & Ho & (b & Hi) & Hd & Hk).
    { cbn [info]. apply chain_table_ext; [done|apply length_put_entry|].
      intros x Hx. apply fat_entry_put_other; try done; [by apply Hr12|]. by intros ->. }
    exists v'. split; [exact E|]. split; [done|]. cbn [info dev set_fat_bytes fat_bytes] in *.
    split; [|split; [|split; [|split]]].
    + intros x [->|Hx]%elem_of_cons; [|by apply Hz].
      rewrite Ho by done. by rewrite fat_entry_put_same.
    + intros x Hx [Hne Hxr]%not_elem_of_cons. rewrite Ho by done. by apply fat_entry_put_other.
    + exists b. rewrite Hi. done.
    + intros a Ha. rewrite Hd by exact Ha. by apply Hsec.
    + intros a Ha. by apply Hk, (proj2 B1).
  - subst cs. eexists. split; [reflexivity|]. split; [exact Hv1|].
    cbn [info dev set_fat_bytes fat_bytes]. split; [|split; [|split; [|split]]].
    + intros x ->%list_elem_of_singleton. by rewrite fat_entry_put_same.
    + intros x Hx Hne. apply fat_entry_put_other; try done. intros ->. apply Hne. left.
    + by eexists.
    + done.
    + apply B1.
Qed.

(** ** Freeing always ends *)

(** The clusters with a non-zero entry. *)
Definition used (b : list Z) : list Z :=
  List.filter (fun x => negb (fat_entry b x =? 0)) (map Z.of_nat (seq 0 (Z.to_nat 4096))).

Lemma filter_length_lt {A} (p q : A -> bool) l x :
  (forall y, y ∈ l -> q y = true -> p y = true) -> x ∈ l -> p x = true -> q x = false ->
  (length (List.filter q l) < length (List.filter p l))%nat.
Proof.
  induction l as [|y l IH]; intros Hqp Hx Hp Hq; [by apply elem_of_nil in Hx|].
  assert (Hle : forall l, (forall y, y ∈ l -> q y = true -> p y = true) ->
            (length (List.filter q l) <= length (List.filter p l))%nat).
  { clear. induction l as [|z l IH]; intros Hqp; cbn; [done|].
    assert (forall y, y ∈ l -> q y = true -> p y = true) as Hl by (intros; apply Hqp; [by right|done]).
    specialize (IH Hl). destruct (q z) eqn:E; [rewrite (Hqp z (list_elem_of_here _ _) E); cbn; lia|].
    destruct (p z); cbn; lia. }
  assert (Hl : forall y, y ∈ l -> q y = true -> p y = true) by (intros; apply Hqp; [by right|done]).
  apply elem_of_cons in Hx as [->|Hx]; cbn.
  - rewrite Hp, Hq. cbn. specialize (Hle l Hl). lia.
  - specialize (IH Hl Hx Hp Hq).
    destruct (q y) eqn:E; [rewrite (Hqp y (list_elem_of_here _ _) E); cbn; lia|].
    destruct (p y); cbn; lia.
Qed.

Lemma put_zero_used b c :
  bytes_ok b -> cluster12 c -> in_table b c -> fat_entry b c <> 0 ->
  (length (used (put_entry b c 0)) < length (used b))%nat.
Proof.
  intros Hb Hc Hin Hne. unfold used. apply (filter_length_lt _ _ _ c).
  - intros y (i & -> & Hi%elem_of_seq)%list_elem_of_fmap Hy. cbv beta in *.
    destruct (decide (Z.of_nat i = c)) as [->|Hic].
    + by apply negb_true_iff, Z.eqb_neq.
    + rewrite <- Hy. f_equal. f_equal. symmetry.
      apply fat_entry_put_other; try done. unfold cluster12. lia.
  - apply list_elem_of_fmap. exists (Z.to_nat c). unfold cluster12 in Hc.
    split; [lia|]. apply elem_of_seq. lia.
  - apply negb_true_iff. by apply Z.eqb_neq.
  - by rewrite fat_entry_put_same by done.
Qed.

Lemma length_used b : (length (used b) <= Z.to_nat 4096)%nat.
Proof.
  unfold used. etransitivity; [apply List.filter_length_le|]. by rewrite length_map, length_seq.
Qed.

Lemma free_chain_ends v f c :
  fat_synced v -> cluster12 c -> (length (used (fat_bytes (info v))) < f)%nat ->
  settles (free_chain f c v).1.
Proof.
  revert v c. induction f as [|f IH]; intros v c Hv Hc Hf; [lia|]. cbn [free_chain].
  destruct (next_cluster (info v) c) as [n|e| |] eqn:Hn.
  - assert (Hin : in_table (fat_bytes (info v)) c).
    { unfold next_cluster, fat_out_of_range, in_table in *. destruct (_ <=? _) eqn:E; [done|].
      unbool. lia. }
    rewrite (M_bind_Ok _ _ v n v) by (unfold next_of, on_fs; by rewrite Hn).
    destruct (write_fat_entry_ok v c 0 Hv Hc Hin) as (d1 & E1 & B1).
    rewrite (M_bind_Ok _ _ _ _ _ E1). destruct n as [n|]; [|done].
    apply IH; [by apply put_entry_synced| |].
    + apply next_cluster_range in Hn; [|apply Hv]. unfold cluster12. lia.
    + cbn [info set_fat_bytes fat_bytes].
      assert (fat_entry (fat_bytes (info v)) c <> 0) as Hne.
      { rewrite next_cluster_entry in Hn by done. cbn zeta in Hn.
        destruct (_ =? 0) eqn:E; [done|]. by unbool. }
      pose proof (put_zero_used _ c (sy_bytes v Hv) Hc Hin Hne). lia.
  - rewrite (M_bind_Err _ _ v e v) by (unfold next_of, on_fs; by rewrite Hn). done.
  - by pose proof (next_cluster_settles (info v) c) as Hs; rewrite Hn in Hs.
  - by pose proof (next_cluster_settles (info v) c) as Hs; rewrite Hn in Hs.
Qed.
End Free.

(** ** Properties *)

(** Freeing ends whatever the table holds, a cyclic chain included (each step
    zeroes a non-zero entry), and on a chain that ends it zeroes exactly the
    chain's entries: the clusters become free, every other entry is kept, memory
    and disk stay in step and no sector outside the table changes. *)
Theorem free_chain_exact {D} `{BlockDev D} (v : Vol D) c :
  fat_synced v -> cluster12 c ->
  settles (free_chain CHAIN_FUEL c v).1 /\
  (forall cs, chain (info v) CHAIN_FUEL c = Ok cs ->
   exists v', free_chain CHAIN_FUEL c v = (Ok tt, v') /\ fat_synced v' /\
    (forall x, x ∈ cs -> cluster_is_free (info v') x = true) /\
    (forall x, cluster12 x -> x ∉ cs ->
       fat_entry (fat_bytes (info v')) x = fat_entry (fat_bytes (info v)) x) /\
    (forall a, outside_table (info v) a -> sector_at (dev v') a = sector_at (dev v) a)).
Proof.
  intros Hv Hc. split.
  - apply free_chain_ends; [done|done|]. pose proof (length_used (fat_bytes (info v))).
    unfold CHAIN_FUEL. lia.
  - intros cs Hch. destruct (free_chain_ok v _ c cs Hv Hc Hch) as (v' & E & Hv' & Hz & Ho & _ & Hd & _).
    exists v'. repeat split; try done; try apply Hv'.
    intros x Hx. unfold cluster_is_free, next_cluster.
    destruct (fat_out_of_range _ _); [done|]. by rewrite Hz.
Qed.

(** [demo_vol] with the chain 2 -> 341 in its table. *)
Definition demo_chained : Vol MemDisk.t :=
  (write_clusters [2; 341] [] 0 demo_vol).2.

Lemma demo_chained_synced : fat_synced demo_chained.
Proof.
  destruct (write_clusters_ok demo_vol [2; 341] [] 0 demo_vol_synced demo_vol_geometry)
    as (d' & E & Hv & _).
  - constructor.
  - apply NoDup_cons. split; [|apply NoDup_singleton]. by intros [=]%list_elem_of_singleton.
  - repeat constructor; vm_compute; congruence.
  - repeat constructor.
  - unfold demo_chained. change (upto [] 0) with 0%nat in E. by rewrite E.
Qed.

Lemma free_chain_exact_witness :
  exists v', free_chain CHAIN_FUEL 2 demo_chained = (Ok tt, v') /\
    cluster_is_free (info v') 2 = true /\ cluster_is_free (info v') 341 = true.
Proof.
  destruct (free_chain_exact demo_chained 2 demo_chained_synced) as [_ H].
  - unfold cluster12; lia.
  - destruct (H [2; 341]) as (v' & E & _ & Hf & _); [vm_compute; reflexivity|].
    exists v'. split; [exact E|]. split; apply Hf; [left|right; left].
Defined.
