(* ===== verification/Fat12Slots.v ===== *)
(** * Fat12Slots: a directory as a list of slots

    Fat12 scans a directory sector by sector.  Here a directory is the list of its
    32-byte slots, and what the scans rely on is written down once: a [tidy]
    directory has no orphaned long-name slots and nothing behind its end marker.
    Replacing a run of free slots of such a directory by the slots of a new entry
    ([insert_entry]) adds that entry and changes what no other name finds. *)
From stdpp Require Import base list numbers strings.
From Stdlib Require Import Lia.
From S2P Require Import Prelude FatCommon FatEntry12 Fat12.
Open Scope Z_scope.

(** ** Tidy directories *)

Definition free_slot (raw : list Z) : bool := (byte_at raw 0 =? 0x00) || (byte_at raw 0 =? 0xE5).

(** The first slot of a long name carries this flag. *)
Definition starts_long (raw : list Z) : bool := negb (Z.land (byte_at raw 0) 0x40 =? 0).

(** A byte of a short name made from a long one. *)
Definition plain (b : Z) : bool :=
  (0x21 <=? b) && (b <? 0x80) && negb (b =? 0x2E) && negb ((0x61 <=? b) && (b <=? 0x7A)).

(** A padded 8.3 name of such bytes. *)
Definition sane_short (sn : list Z) : bool :=
  let base := until_space (take 8 sn) in
  let ext := until_space (drop 8 sn) in
  bool_decide (sn = (base ++ replicate (8 - length base) 0x20) ++ ext ++ replicate (3 - length ext) 0x20) &&
  negb (bool_decide (base = [])) && forallb plain base && forallb plain ext.

(** [pending] when long-name slots precede. *)
Fixpoint tidy (slots : list (list Z)) (pending : bool) : bool :=
  match slots with
  | [] => negb pending
  | raw :: rest =>
      match slot_kind_of raw with
      | SlotEnd => negb pending && forallb (fun r => byte_at r 0 =? 0x00) rest
      | SlotFree | SlotLabel => negb pending && tidy rest false
      | SlotLong => (pending || starts_long raw) && tidy rest true
      | SlotShort => (negb pending || sane_short (take 11 raw)) && tidy rest false
      end
  end.

Definition entries (slots : list (list Z)) : list DirEntry := (parse_dir_slots slots [] LfnState_default).1.2.

Definition found_of (r : scan_result) : option (nat * DirEntry) :=
  match r with Found i e => Some (i, e) | _ => None end.

(** What a name finds: the number of the short slot, and the entry. *)
Definition lookup_slot (slots : list (list Z)) (nm : list Z) : option (nat * DirEntry) :=
  found_of (find_in_slots slots 0 nm LfnState_default).

(** ** Scans of two lists *)

Lemma parse_acc slots e l :
  parse_dir_slots slots e l = let '(b, e', l') := parse_dir_slots slots [] l in (b, e ++ e', l').
Proof.
  revert e l. induction slots as [|raw rest IH]; intros e l; cbn [parse_dir_slots]; [by rewrite app_nil_r|].
  destruct (slot_kind_of raw); [by rewrite app_nil_r|by rewrite IH..|].
  destruct (take_verified (take 11 raw) l) as [long l']. rewrite (IH (e ++ _)), (IH ([] ++ _)).
  destruct (parse_dir_slots rest [] l') as [[b e'] l'']. by rewrite <- app_assoc.
Qed.

Lemma parse_app s1 s2 e l :
  parse_dir_slots (s1 ++ s2) e l =
    match parse_dir_slots s1 e l with
    | (true, e', l') => (true, e', l')
    | (false, e', l') => parse_dir_slots s2 e' l'
    end.
Proof.
  revert e l. induction s1 as [|raw rest IH]; intros e l; cbn [app parse_dir_slots]; [done|].
  destruct (slot_kind_of raw); try done. by destruct (take_verified (take 11 raw) l).
Qed.

Lemma find_app s1 s2 i nm l :
  find_in_slots (s1 ++ s2) i nm l =
    match find_in_slots s1 i nm l with
    | GoOn l' => find_in_slots s2 (i + length s1) nm l'
    | r => r
    end.
Proof.
  revert i l. induction s1 as [|raw rest IH]; intros i l; cbn [app find_in_slots length]; [by rewrite Nat.add_0_r|].
  replace (i + S (length rest))%nat with (S i + length rest)%nat by lia.
  destruct (slot_kind_of raw); try done. by destruct (short_entry_if_matches raw l nm) as [[e|] l'].
Qed.

(** ** Where no long name is pending the scanner's state does not matter *)

Definition same_lfn (pending : bool) (l1 l2 : LfnState) : Prop :=
  if pending then l1 = l2 else chunks l1 = [] /\ chunks l2 = [].

Lemma same_lfn_refl p l : (p = false -> chunks l = []) -> same_lfn p l l.
Proof. destruct p; [done|]. intros H. by split; apply H. Qed.

Lemma same_push pending raw l1 l2 :
  pending || starts_long raw = true -> same_lfn pending l1 l2 -> push_long_entry raw l1 = push_long_entry raw l2.
Proof.
  destruct pending; [by intros _ ->|]. cbn [orb]. unfold starts_long, push_long_entry. intros -> [_ _]. done.
Qed.

Lemma same_verified pending sn l1 l2 :
  same_lfn pending l1 l2 ->
  (take_verified sn l1).1 = (take_verified sn l2).1 /\ same_lfn false (take_verified sn l1).2 (take_verified sn l2).2.
Proof.
  destruct pending; [by intros ->|]. intros [H1 H2]. unfold take_verified. rewrite H1, H2. done.
Qed.

Lemma tidy_parse_agree slots pending e l1 l2 :
  tidy slots pending = true -> same_lfn pending l1 l2 -> (parse_dir_slots slots e l1).1 = (parse_dir_slots slots e l2).1.
Proof.
  revert pending e l1 l2. induction slots as [|raw rest IH]; intros pending e l1 l2 Ht Hs; [done|].
  cbn [tidy parse_dir_slots] in *. destruct (slot_kind_of raw); [done| | | |].
  - apply andb_true_iff in Ht as [_ Ht]. by apply (IH false).
  - apply andb_true_iff in Ht as [Hp Ht]. by rewrite (same_push pending raw l1 l2 Hp Hs).
  - apply andb_true_iff in Ht as [_ Ht]. by apply (IH false).
  - apply andb_true_iff in Ht as [_ Ht]. destruct (same_verified pending (take 11 raw) l1 l2 Hs) as [H1 H2].
    destruct (take_verified (take 11 raw) l1) as [n1 l1'], (take_verified (take 11 raw) l2) as [n2 l2']. cbn [fst snd] in *.
    subst n2. by apply (IH false).
Qed.

Lemma tidy_find_agree slots pending i nm l1 l2 :
  tidy slots pending = true -> same_lfn pending l1 l2 ->
  found_of (find_in_slots slots i nm l1) = found_of (find_in_slots slots i nm l2).
Proof.
  revert pending i l1 l2. induction slots as [|raw rest IH]; intros pending i l1 l2 Ht Hs; [done|].
  cbn [tidy find_in_slots] in *. destruct (slot_kind_of raw); [done| | | |].
  - apply andb_true_iff in Ht as [_ Ht]. by apply (IH false).
  - apply andb_true_iff in Ht as [Hp Ht]. by rewrite (same_push pending raw l1 l2 Hp Hs).
  - apply andb_true_iff in Ht as [_ Ht]. by apply (IH false).
  - apply andb_true_iff in Ht as [_ Ht]. destruct (same_verified pending (take 11 raw) l1 l2 Hs) as [H1 H2].
    unfold short_entry_if_matches.
    destruct (take_verified (take 11 raw) l1) as [n1 l1'], (take_verified (take 11 raw) l2) as [n2 l2']. cbn [fst snd] in *.
    subst n2. destruct (negb _); [by apply (IH false)|done].
Qed.

(** ** A prefix without an end marker *)

Definition no_end (slots : list (list Z)) : Prop := Forall (fun r => slot_kind_of r <> SlotEnd) slots.

Lemma tidy_free slots : Forall (fun r => free_slot r = true) slots -> no_end slots -> forall rest,
  tidy (slots ++ rest) false = tidy rest false.
Proof.
  induction 1 as [|raw l Hf Hl IH]; intros Hn rest; [done|]. apply Forall_cons in Hn as [Hr Hn]. cbn [app tidy].
  unfold free_slot in Hf. unfold slot_kind_of in *. destruct (byte_at raw 0 =? 0); [done|].
  cbn [orb] in Hf. rewrite Hf. cbn [negb andb]. by apply IH.
Qed.

Lemma tidy_zero slots : forallb (fun r => byte_at r 0 =? 0x00) slots = true -> tidy slots false = true.
Proof.
  destruct slots as [|raw rest]; [done|]. cbn [forallb tidy]. unfold slot_kind_of.
  destruct (byte_at raw 0 =? 0); done.
Qed.

(** The state behind a prefix. *)
Fixpoint pending_after (slots : list (list Z)) (pending : bool) : bool :=
  match slots with
  | [] => pending
  | raw :: rest => pending_after rest (match slot_kind_of raw with SlotLong => true | _ => false end)
  end.

Fixpoint tidy_prefix (slots : list (list Z)) (pending : bool) : bool :=
  match slots with
  | [] => true
  | raw :: rest =>
      match slot_kind_of raw with
      | SlotEnd => false
      | SlotFree | SlotLabel => negb pending && tidy_prefix rest false
      | SlotLong => (pending || starts_long raw) && tidy_prefix rest true
      | SlotShort => (negb pending || sane_short (take 11 raw)) && tidy_prefix rest false
      end
  end.

Lemma tidy_app s1 s2 p :
  no_end s1 -> tidy (s1 ++ s2) p = tidy_prefix s1 p && tidy s2 (pending_after s1 p).
Proof.
  intros Hn. revert p. induction Hn as [|raw l Hr Hn IH]; intros p; [done|]. cbn [app tidy tidy_prefix pending_after].
  destruct (slot_kind_of raw); try done; by rewrite IH, andb_assoc.
Qed.

Lemma tidy_prefix_no_end s p : tidy_prefix s p = true -> no_end s.
Proof.
  revert p. induction s as [|raw l IH]; intros p H; [constructor|]. cbn [tidy_prefix] in H.
  destruct (slot_kind_of raw) eqn:E; try done; apply andb_true_iff in H as [_ H]; constructor; try congruence; by eapply IH.
Qed.

(** Behind a prefix the scanner holds pieces of a long name only when one is pending. *)
Lemma parse_prefix s p e l :
  tidy_prefix s p = true -> (p = false -> chunks l = []) ->
  exists e' l', parse_dir_slots s e l = (false, e ++ e', l') /\ (pending_after s p = false -> chunks l' = []).
Proof.
  revert p e l. induction s as [|raw rest IH]; intros p e l Ht Hl; cbn [parse_dir_slots tidy_prefix pending_after] in *.
  - exists [], l. by rewrite app_nil_r.
  - destruct (slot_kind_of raw); [done| | | |]; apply andb_true_iff in Ht as [_ Ht].
    + by apply (IH false).
    + by apply (IH true).
    + by apply (IH false).
    + destruct (take_verified (take 11 raw) l) as [long l'] eqn:E.
      destruct (IH false (e ++ [dir_entry_of raw (default (format_short_name (take 8 raw) (take 3 (drop 8 raw))) long)]) l' Ht)
        as (e' & l'' & Hp & Hc).
      { intros _. unfold take_verified in E. by injection E as _ <-. }
      eexists _, l''. split; [|exact Hc]. by rewrite Hp, <- app_assoc.
Qed.

Lemma find_prefix s p i nm l :
  tidy_prefix s p = true -> (p = false -> chunks l = []) ->
  match find_in_slots s i nm l with
  | Found _ _ => True
  | EndMarker => False
  | GoOn l' => pending_after s p = false -> chunks l' = []
  end.
Proof.
  revert p i l. induction s as [|raw rest IH]; intros p i l Ht Hl; cbn [find_in_slots tidy_prefix pending_after] in *; [done|].
  destruct (slot_kind_of raw); [done| | | |]; apply andb_true_iff in Ht as [_ Ht].
  - by apply (IH false).
  - by apply (IH true).
  - by apply (IH false).
  - unfold short_entry_if_matches. destruct (take_verified (take 11 raw) l) as [long l'] eqn:E.
    destruct (negb _); [|done]. apply (IH false); [done|]. intros _. unfold take_verified in E. by injection E as _ <-.
Qed.

(** Free slots say nothing. *)
Lemma parse_free s e l :
  Forall (fun r => free_slot r = true) s -> no_end s -> chunks l = [] ->
  exists l', parse_dir_slots s e l = (false, e, l') /\ chunks l' = [].
Proof.
  intros Hf. revert e l. induction Hf as [|raw rest Hr Hf IH]; intros e l Hn Hl; [by exists l|].
  apply Forall_cons in Hn as [Hr' Hn]. cbn [parse_dir_slots]. unfold free_slot in Hr. unfold slot_kind_of in *.
  destruct (byte_at raw 0 =? 0); [done|]. cbn [orb] in Hr. rewrite Hr. by apply IH.
Qed.

Lemma find_free s i nm l :
  Forall (fun r => free_slot r = true) s -> no_end s -> chunks l = [] ->
  exists l', find_in_slots s i nm l = GoOn l' /\ chunks l' = [].
Proof.
  intros Hf. revert i l. induction Hf as [|raw rest Hr Hf IH]; intros i l Hn Hl; [by exists l|].
  apply Forall_cons in Hn as [Hr' Hn]. cbn [find_in_slots]. unfold free_slot in Hr. unfold slot_kind_of in *.
  destruct (byte_at raw 0 =? 0); [done|]. cbn [orb] in Hr. rewrite Hr. by apply IH.
Qed.

Lemma zero_slots s :
  forallb (fun r => byte_at r 0 =? 0x00) s = true ->
  (forall e l, (parse_dir_slots s e l).1.2 = e) /\ (forall i nm l, found_of (find_in_slots s i nm l) = None).
Proof.
  destruct s as [|raw rest]; [done|]. cbn [forallb parse_dir_slots find_in_slots]. unfold slot_kind_of.
  by destruct (byte_at raw 0 =? 0).
Qed.

(** A run of free slots holds none, or the end marker and all behind it is zero. *)
Lemma free_run_cases F B :
  tidy (F ++ B) false = true -> Forall (fun r => free_slot r = true) F ->
  no_end F /\ tidy B false = true \/ forallb (fun r => byte_at r 0 =? 0x00) B = true /\
    (forall e l, (parse_dir_slots (F ++ B) e l).1.2 = e) /\ (forall i nm l, found_of (find_in_slots (F ++ B) i nm l) = None).
Proof.
  intros Ht Hf. induction Hf as [|raw F Hr Hf IH]; [left; by split; [constructor|]|]. cbn [app tidy parse_dir_slots find_in_slots] in *.
  unfold free_slot in Hr. unfold slot_kind_of in *. destruct (byte_at raw 0 =? 0) eqn:E0.
  - right. cbn [negb andb] in Ht. rewrite forallb_app in Ht. by apply andb_true_iff in Ht as [_ Ht].
  - cbn [orb] in Hr. rewrite Hr in *. cbn [negb andb] in Ht. destruct (IH Ht) as [[Hn HB]|(HB & H1 & H2)].
    + left. split; [|done]. constructor; [|done]. unfold slot_kind_of. by rewrite E0, Hr.
    + right. split; [done|]. split; intros; [apply H1|apply H2].
Qed.

(** ** A new entry in place of free slots *)

(** The slots of one entry: [k] is the place of its short slot, [named] says which
    names find it. *)
Record group (G : list (list Z)) (e : DirEntry) (k : nat) (named : list Z -> bool) : Prop := {
  gr_tidy : tidy_prefix G false = true;
  gr_done : pending_after G false = false;
  gr_parse : forall e0 l, chunks l = [] -> exists l', parse_dir_slots G e0 l = (false, e0 ++ [e], l') /\ chunks l' = [];
  gr_find : forall i nm l, chunks l = [] ->
    if named nm then find_in_slots G i nm l = Found (i + k) e
    else exists l', find_in_slots G i nm l = GoOn l' /\ chunks l' = [];
}.

Section Insert.
Context (A F G B : list (list Z)) (e : DirEntry) (k : nat) (named : list Z -> bool).
Hypothesis Ht : tidy (A ++ F ++ B) false = true.
Hypothesis Hn : no_end A.
Hypothesis HF : Forall (fun r => free_slot r = true) F.
Hypothesis HF0 : F <> [].
Hypothesis HG : group G e k named.
Hypothesis Hlen : length G = length F.

Lemma insert_prefix : tidy_prefix A false = true /\ pending_after A false = false /\ tidy (F ++ B) false = true.
Proof.
  rewrite (tidy_app A (F ++ B) false Hn) in Ht. apply andb_true_iff in Ht as [Ha Hfb].
  assert (Hp : pending_after A false = false).
  { destruct F as [|raw F']; [done|]. apply Forall_cons in HF as [Hr _]. cbn [app tidy] in Hfb.
    unfold free_slot in Hr. unfold slot_kind_of in Hfb. destruct (byte_at raw 0 =? 0); [|cbn [orb] in Hr; rewrite Hr in Hfb];
      apply andb_true_iff in Hfb as [Hfb _]; by destruct (pending_after A false). }
  by rewrite Hp in Hfb.
Qed.

Lemma insert_tail : tidy B false = true.
Proof.
  destruct insert_prefix as (_ & _ & Hfb). destruct (free_run_cases F B Hfb HF) as [[_ HB]|[HB _]]; [done|]. by apply tidy_zero.
Qed.

Lemma insert_tidy : tidy (A ++ G ++ B) false = true.
Proof.
  destruct insert_prefix as (Ha & Hp & _). rewrite (tidy_app A (G ++ B) false Hn), Ha, Hp. cbn [andb].
  rewrite (tidy_app G B false (tidy_prefix_no_end G false (gr_tidy _ _ _ _ HG))), (gr_tidy _ _ _ _ HG), (gr_done _ _ _ _ HG).
  apply insert_tail.
Qed.

(** The listing gains the entry, where the free slots were. *)
Lemma insert_entries :
  exists l1 l2, entries (A ++ F ++ B) = l1 ++ l2 /\ entries (A ++ G ++ B) = l1 ++ e :: l2 /\ entries A = l1.
Proof.
  destruct insert_prefix as (Ha & Hp & Hfb). pose proof insert_tail as HB. unfold entries.
  destruct (parse_prefix A false [] LfnState_default Ha ltac:(done)) as (ea & la & Ea & Hc). specialize (Hc Hp). cbn [app] in Ea.
  rewrite !(parse_app A). rewrite Ea. destruct (gr_parse _ _ _ _ HG ea la Hc) as (lg & Eg & Hcg).
  rewrite (parse_app G), Eg. destruct (parse_dir_slots B [] LfnState_default) as [[b eb] lb] eqn:EB.
  exists ea, eb.
  assert (Hb : forall e0 l, chunks l = [] -> (parse_dir_slots B e0 l).1.2 = e0 ++ eb).
  { intros e0 l Hl. rewrite (tidy_parse_agree B false e0 l LfnState_default HB) by done. rewrite parse_acc, EB. done. }
  split; [|split; [|done]].
  - destruct (free_run_cases F B Hfb HF) as [[Hnf _]|(Hz & Hpz & _)].
    + destruct (parse_free F ea la HF Hnf Hc) as (lf & Ef & Hcf). rewrite (parse_app F), Ef. by apply Hb.
    + rewrite Hpz. destruct (zero_slots B Hz) as [Hz1 _]. specialize (Hz1 [] LfnState_default). rewrite EB in Hz1. cbn in Hz1. subst eb.
      by rewrite app_nil_r.
  - rewrite Hb by done. by rewrite <- app_assoc.
Qed.

(** A name that found something behind or before still does; the new names find the
    new entry. *)
Lemma insert_lookup nm :
  lookup_slot (A ++ G ++ B) nm =
    match lookup_slot A nm with
    | Some r => Some r
    | None => if named nm then Some (length A + k, e)%nat else lookup_slot (A ++ F ++ B) nm
    end.
Proof.
  destruct insert_prefix as (Ha & Hp & Hfb). pose proof insert_tail as HB. unfold lookup_slot.
  rewrite !(find_app A). pose proof (find_prefix A false 0 nm LfnState_default Ha ltac:(done)) as HA. cbn [Nat.add].
  destruct (find_in_slots A 0 nm LfnState_default) as [j ej| |la]; [done|done|]. specialize (HA Hp). cbn [found_of].
  pose proof (gr_find _ _ _ _ HG (length A) nm la HA) as Hg. rewrite (find_app G).
  destruct (named nm); [by rewrite Hg|]. destruct Hg as (lg & -> & Hcg). rewrite Hlen.
  assert (Hb : forall l, chunks l = [] -> found_of (find_in_slots B (length A + length F) nm l) =
    found_of (find_in_slots B (length A + length F) nm LfnState_default)).
  { intros l Hl. by apply (tidy_find_agree B false). }
  rewrite Hb by done. destruct (free_run_cases F B Hfb HF) as [[Hnf _]|(Hz & _ & Hfz)].
  - destruct (find_free F (length A) nm la HF Hnf HA) as (lf & Ef & Hcf). rewrite (find_app F), Ef. symmetry. by apply Hb.
  - rewrite Hfz. by apply zero_slots.
Qed.

(** Names that find nothing and are not the new entry's find nothing new. *)
Lemma insert_lookup_old nm :
  named nm = false -> lookup_slot (A ++ G ++ B) nm = lookup_slot (A ++ F ++ B) nm.
Proof.
  intros Hnm. rewrite insert_lookup, Hnm. unfold lookup_slot. rewrite (find_app A).
  destruct (find_in_slots A 0 nm LfnState_default) as [j ej| |la] eqn:E; [done|done|done].
Qed.
End Insert.

(** ** The slots of a new entry *)

Definition shown (sn : list Z) : list Z := format_short_name (take 8 sn) (drop 8 sn).

Lemma shown_slot raw : format_short_name (take 8 raw) (take 3 (drop 8 raw)) = shown (take 11 raw).
Proof. unfold shown. rewrite take_take. f_equal. exact (take_drop_commute raw 3 8). Qed.

Definition named_by (e : DirEntry) (sn nm : list Z) : bool :=
  eq_ignore_ascii_case (name e) nm || eq_ignore_ascii_case (shown sn) nm.

Lemma longs_scan longs rest :
  Forall (fun r => slot_kind_of r = SlotLong) longs ->
  (forall e l, parse_dir_slots (longs ++ rest) e l = parse_dir_slots rest e (foldl (fun st r => push_long_entry r st) l longs)) /\
  (forall i nm l, find_in_slots (longs ++ rest) i nm l =
     find_in_slots rest (i + length longs) nm (foldl (fun st r => push_long_entry r st) l longs)) /\
  (tidy_prefix (longs ++ rest) true = tidy_prefix rest true) /\
  (forall p, pending_after (longs ++ rest) p = pending_after rest (match longs with [] => p | _ => true end)).
Proof.
  induction 1 as [|r longs Hr Hl (I1 & I2 & I3 & I4)]; cbn [app length foldl].
  - repeat split; intros; by rewrite ?Nat.add_0_r.
  - repeat split; intros; cbn [parse_dir_slots find_in_slots tidy_prefix pending_after]; rewrite Hr.
    + apply I1.
    + rewrite I2. f_equal. lia.
    + done.
    + rewrite I4. by destruct longs.
Qed.

(** A name as the creating calls represent it: plain, or long with an alias. *)
Inductive stored : list Z -> list Z -> list (list Z) -> Prop :=
| stored_short nm sn : to_short_name nm = Ok sn -> Forall graphic nm ->
    (forall base, split_once_dot nm <> Some (base, [])) -> stored nm sn []
| stored_long nm sn : is_ok (to_short_name nm) = false -> sane_short sn = true -> length sn = 11%nat ->
    nm <> [] -> Forall (fun b => is_valid_lfn_char b = true) nm -> (length nm <= 195)%nat ->
    stored nm sn (build_lfn_entries nm sn).

Lemma sane_first sn : sane_short sn = true -> byte_at sn 0 <> 0 /\ byte_at sn 0 <> 0xE5.
Proof.
  unfold sane_short. intros H. apply andb_true_iff in H as [H _]. apply andb_true_iff in H as [H Hp].
  apply andb_true_iff in H as [He Hne]. apply bool_decide_eq_true in He. apply negb_true_iff, bool_decide_eq_false in Hne.
  destruct (until_space (take 8 sn)) as [|b base] eqn:E; [done|]. rewrite He. cbn [app byte_at lookup]. unfold byte_at. cbn.
  cbn [forallb] in Hp. apply andb_true_iff in Hp as [Hp _]. unfold plain in Hp. unbool. lia.
Qed.

Lemma stored_first nm sn longs : stored nm sn longs -> length sn = 11%nat /\ byte_at sn 0 <> 0 /\ byte_at sn 0 <> 0xE5.
Proof.
  destruct 1 as [nm sn Hsn Hg Hd|nm sn _ Hs Hl _ _ _]; [|by split; [|by apply sane_first]].
  destruct (to_short_name_Ok _ _ Hsn) as (base & ext & Hbe & Hne & Hlb & _ & Hlen & H8 & _). split; [done|].
  destruct base as [|b base]; [done|]. assert (Hb : graphic b).
  { unfold base_ext in Hbe. destruct (split_once_dot nm) as [[b' e']|] eqn:E; injection Hbe as Hb' _; subst.
    - apply split_once_dot_Some in E as ->. by inversion Hg.
    - by inversion Hg. }
  destruct sn as [|s0 sn]; [done|]. cbn in H8. injection H8 as -> _. unfold byte_at. cbn.
  apply graphic_upper in Hb. unfold graphic in Hb. lia.
Qed.

Lemma build_lfn_starts nm sn :
  nm <> [] -> Forall name_byte nm -> (length nm <= 13 * 62)%nat ->
  exists r rs, build_lfn_entries nm sn = r :: rs /\ starts_long r = true.
Proof.
  intros Hne Hn Hl. rewrite build_lfn_entries_eq by done. cbn zeta.
  assert (0 < length nm)%nat by (destruct nm; [done|cbn; lia]).
  assert (0 < div_ceil (length nm) 13)%nat as Hp by (apply Nat.div_str_pos; lia).
  destruct (div_ceil (length nm) 13) as [|k]; [lia|]. rewrite seq_S, rev_app_distr. cbn [rev app map Nat.add].
  eexists _, _. split; [reflexivity|]. replace (S k - 1)%nat with k by lia. rewrite Nat.eqb_refl.
  unfold starts_long. apply (lor_0x40_set _).
Qed.

(** The slots a creating call writes are the slots of one entry, found by its name
    and by its short name. *)
Lemma new_group nm sn longs attr first sz t d :
  stored nm sn longs -> (attr = 0x20 \/ attr = 0x10) -> in_u 32 first -> in_u 32 sz -> in_u 16 t -> in_u 16 d ->
  let e := mk_DirEntry (match longs with [] => shown sn | _ => nm end) (attr =? 0x10) sz first t d in
  group (longs ++ [build_dir_entry sn attr first sz t d]) e (length longs) (named_by e sn).
Proof.
  intros Hst Ha Hf Hs Ht Hd e. destruct (stored_first nm sn longs Hst) as (Hlen & H0 & H5).
  destruct (dir_entry_roundtrip sn attr first sz t d (name e) Hlen H0 H5 Ha Hf Hs Ht Hd) as (Hk & H11 & _ & Hde).
  set (raw := build_dir_entry sn attr first sz t d) in *.
  assert (Hlongs : Forall (fun r => slot_kind_of r = SlotLong) longs /\
    (longs = [] \/ exists r rs, longs = r :: rs /\ starts_long r = true /\ sane_short sn = true) /\
    forall l, chunks l = [] -> take_verified sn (foldl (fun st r => push_long_entry r st) l longs) =
      (match longs with [] => None | _ => Some nm end,
       mk_LfnState [] (match longs with [] => checksum l | _ => lfn_checksum sn end))).
  { destruct Hst as [nm sn _ _ _|nm sn _ Hsane _ Hne Hv Hl].
    - split; [constructor|]. split; [by left|]. intros l Hl. cbn [foldl]. unfold take_verified. by rewrite Hl.
    - assert (Hn : Forall name_byte nm) by (eapply Forall_impl; [exact Hv|]; apply valid_lfn_name_byte).
      destruct (build_lfn_starts nm sn Hne Hn ltac:(lia)) as (r & rs & E & Hr).
      split; [apply build_lfn_entries_kind; [done|done|lia]|]. split; [right; by exists r, rs|]. intros l _.
      destruct (lfn_roundtrip nm sn l Hne Hv Hl) as (_ & H & _). cbn zeta in H. rewrite H. by rewrite E. }
  destruct Hlongs as (Hkl & Hhead & Hver).
  assert (Hname : dir_entry_of raw (default (shown sn) (match longs with [] => None | _ => Some nm end)) = e).
  { transitivity (dir_entry_of raw (name e)); [by destruct longs|exact Hde]. }
  destruct (longs_scan longs [raw] Hkl) as (S1 & S2 & S3 & S4). split.
  - destruct Hhead as [->|(r & rs & -> & Hr & Hsane)]; [cbn [app tidy_prefix]; by rewrite Hk|].
    apply Forall_cons in Hkl as [Hkr Hkl]. destruct (longs_scan rs [raw] Hkl) as (_ & _ & S3' & _).
    cbn [app tidy_prefix]. rewrite Hkr, Hr. cbn [orb andb]. rewrite S3'. cbn [tidy_prefix]. rewrite Hk, H11. by rewrite Hsane.
  - rewrite S4. cbn [pending_after]. by rewrite Hk.
  - intros e0 l Hl. eexists. rewrite S1. cbn [parse_dir_slots]. rewrite Hk, H11, (Hver l Hl).
    rewrite shown_slot, H11, Hname. by split.
  - intros i nm' l Hl. rewrite S2. cbn [find_in_slots]. rewrite Hk. unfold short_entry_if_matches. rewrite H11, (Hver l Hl), shown_slot, H11.
    unfold named_by.
    replace (match match longs with [] => None | _ => Some nm end with Some n => eq_ignore_ascii_case n nm' | None => false end
        || eq_ignore_ascii_case (shown sn) nm')
      with (eq_ignore_ascii_case (name e) nm' || eq_ignore_ascii_case (shown sn) nm')
      by (unfold e; cbn [name]; destruct longs; [by rewrite orb_diag|done]).
    destruct (_ || _); cbn [negb].
    + by rewrite Hname.
    + eexists. by split.
Qed.

(** ** A name that is not taken is not found *)

Lemma upper_lower b : to_ascii_uppercase (to_ascii_lowercase b) = to_ascii_uppercase b.
Proof.
  unfold to_ascii_lowercase, to_ascii_uppercase.
  repeat match goal with |- context [if ?c then _ else _] => destruct c eqn:? end;
    unbool; rewrite ?andb_false_iff, ?andb_true_iff in *; unbool; lia.
Qed.

Lemma upper_plain l : forallb plain l = true -> map to_ascii_uppercase l = l.
Proof.
  induction l as [|b l IH]; intros H; [done|]. cbn [forallb map] in *. apply andb_true_iff in H as [Hb H].
  rewrite IH by done. f_equal. unfold plain in Hb. unfold to_ascii_uppercase. destruct (_ && _) eqn:E in |- *; [|done].
  by rewrite E, andb_false_r in Hb.
Qed.

Lemma upper_dot b : (to_ascii_uppercase b =? 0x2E) = (b =? 0x2E).
Proof.
  unfold to_ascii_uppercase. destruct (_ && _) eqn:E; [|done]. unbool.
  destruct (Z.eqb_spec (b - 32) 0x2E), (Z.eqb_spec b 0x2E); (done || lia).
Qed.

Lemma split_once_dot_upper l :
  split_once_dot (map to_ascii_uppercase l) =
    match split_once_dot l with Some (b, e) => Some (map to_ascii_uppercase b, map to_ascii_uppercase e) | None => None end.
Proof.
  induction l as [|x l IH]; [done|]. cbn [map split_once_dot]. rewrite upper_dot.
  destruct (x =? 0x2E); [done|]. rewrite IH. by destruct (split_once_dot l) as [[b e]|].
Qed.

Lemma split_plain l rest : forallb plain l = true -> split_once_dot (l ++ 0x2E :: rest) = Some (l, rest).
Proof.
  induction l as [|x l IH]; intros H; [done|]. cbn [forallb app split_once_dot] in *. apply andb_true_iff in H as [Hx H].
  rewrite IH by done. unfold plain in Hx. destruct (Z.eqb_spec x 0x2E) as [->|]; [done|done].
Qed.

Lemma split_plain_None l : forallb plain l = true -> split_once_dot l = None.
Proof.
  induction l as [|x l IH]; intros H; [done|]. cbn [forallb split_once_dot] in *. apply andb_true_iff in H as [Hx H].
  rewrite IH by done. unfold plain in Hx. destruct (Z.eqb_spec x 0x2E) as [->|]; [done|done].
Qed.

Lemma plain_below l : forallb plain l = true -> Forall (fun b => b < 0x80) l.
Proof.
  intros H. apply List.Forall_forall. intros b Hb. rewrite forallb_forall in H. specialize (H b Hb). unfold plain in H. unbool. lia.
Qed.

(** The parts of a sane short name. *)
Lemma sane_parts sn :
  sane_short sn = true -> length sn = 11%nat ->
  exists base ext, forallb plain base = true /\ forallb plain ext = true /\ base <> [] /\
    (length base <= 8)%nat /\ (length ext <= 3)%nat /\
    take 8 sn = base ++ replicate (8 - length base) 0x20 /\ drop 8 sn = ext ++ replicate (3 - length ext) 0x20 /\
    shown sn = base ++ (match ext with [] => [] | _ => 0x2E :: ext end).
Proof.
  unfold sane_short. intros H Hlen. repeat apply andb_true_iff in H as [H ?Hp]. apply bool_decide_eq_true in H.
  apply negb_true_iff, bool_decide_eq_false in Hp1. set (base := until_space (take 8 sn)) in *. set (ext := until_space (drop 8 sn)) in *.
  assert (Hu : forall l, (length (until_space l) <= length l)%nat).
  { induction l as [|b l IH]; [done|]. cbn [until_space]. destruct (b =? 0x20); cbn; lia. }
  pose proof (Hu (take 8 sn)) as Hb. pose proof (Hu (drop 8 sn)) as He. rewrite length_take in Hb. rewrite length_drop in He.
  fold base in Hb. fold ext in He.
  assert (H8 : take 8 sn = base ++ replicate (8 - length base) 0x20).
  { rewrite H at 1. rewrite take_app_length'; [done|]. rewrite length_app, length_replicate. lia. }
  assert (H3 : drop 8 sn = ext ++ replicate (3 - length ext) 0x20).
  { rewrite H at 1. rewrite drop_app_length'; [done|]. rewrite length_app, length_replicate. lia. }
  exists base, ext. repeat (split; [done || lia|]). unfold shown, format_short_name. fold base ext.
  rewrite (concat_char_bytes base) by (by apply plain_below).
  clearbody base ext. destruct ext as [|x ext']; [symmetry; apply app_nil_r|].
  rewrite (proj2 (Nat.ltb_lt 0 (length (x :: ext')))) by (cbn; lia). f_equal. cbn [app]. f_equal.
  rewrite H3, take_app_length. by apply concat_char_bytes, plain_below.
Qed.

Lemma sane_match sn nm :
  sane_short sn = true -> length sn = 11%nat -> eq_ignore_ascii_case (shown sn) nm = true -> to_short_name nm = Ok sn.
Proof.
  intros Hs Hlen Heq. destruct (sane_parts sn Hs Hlen) as (base & ext & Hb & He & Hne & Lb & Le & H8 & H3 & Hsh).
  apply bool_decide_eq_true in Heq. rewrite Hsh in Heq.
  assert (Hup : map to_ascii_uppercase nm = base ++ (match ext with [] => [] | _ => 0x2E :: ext end)).
  { assert (E : forall l, map to_ascii_uppercase l = map to_ascii_uppercase (map to_ascii_lowercase l)).
    { intros l. rewrite map_map. apply map_ext. intros b. by rewrite upper_lower. }
    rewrite (E nm), <- Heq, <- E, map_app, (upper_plain base Hb). f_equal.
    destruct ext as [|x ext']; [done|]. cbn [map]. f_equal. exact (upper_plain _ He). }
  assert (Hbe : exists b e, base_ext nm = (b, e) /\ map to_ascii_uppercase b = base /\ map to_ascii_uppercase e = ext).
  { unfold base_ext. pose proof (split_once_dot_upper nm) as Hd. rewrite Hup in Hd. destruct ext as [|x ext'].
    - rewrite app_nil_r in Hd, Hup. rewrite (split_plain_None base Hb) in Hd. destruct (split_once_dot nm) as [[b e]|]; [done|].
      exists nm, []. done.
    - rewrite (split_plain base _ Hb) in Hd. destruct (split_once_dot nm) as [[b e]|]; [|done]. injection Hd as -> ->. by exists b, e. }
  destruct Hbe as (b & e & Hbe & Eb & Ee).
  assert (Hl : length b = length base /\ length e = length ext) by (by rewrite <- Eb, <- Ee, !length_map).
  assert (Hok : exists sn', to_short_name nm = Ok sn').
  { unfold to_short_name. rewrite Hbe. rewrite bool_decide_eq_false_2 by (intros ->; by apply Hne).
    rewrite (proj2 (Nat.ltb_ge 8 _)), (proj2 (Nat.ltb_ge 3 _)) by lia. by eexists. }
  destruct Hok as [sn' Hok]. rewrite Hok. f_equal.
  destruct (to_short_name_Ok _ _ Hok) as (b' & e' & Hbe' & _ & _ & _ & _ & H8' & H3'). rewrite Hbe in Hbe'. injection Hbe' as <- <-.
  rewrite <- (take_drop 8 sn), <- (take_drop 8 sn'), H8, H3, H8', H3', Eb, Ee. destruct Hl as [-> ->]. done.
Qed.

(** The short names in use. *)
Definition short_names (slots : list (list Z)) : list (list Z) :=
  match short_names_in_slots slots [] with inl l => l | inr l => l end.

Lemma short_names_acc slots acc :
  (match short_names_in_slots slots acc with inl l => l | inr l => l end) = acc ++ short_names slots.
Proof.
  unfold short_names. revert acc. induction slots as [|raw rest IH]; intros acc; cbn [short_names_in_slots]; [by rewrite app_nil_r|].
  destruct (byte_at raw 0 =? 0); [by rewrite app_nil_r|]. destruct (_ || _)%bool; [by apply IH|].
  rewrite IH, (IH ([] ++ _)). by rewrite <- app_assoc.
Qed.

Lemma short_names_in s1 s2 raw :
  no_end s1 -> raw ∈ s1 -> slot_kind_of raw = SlotShort -> take 11 raw ∈ short_names (s1 ++ s2).
Proof.
  intros Hn. induction Hn as [|r l Hr Hn IH]; intros Hin Hk; [by apply elem_of_nil in Hin|].
  unfold short_names. cbn [app short_names_in_slots].
  assert (Hkind : slot_kind_of r = SlotShort -> (byte_at r 0 =? 0) = false /\
    (byte_at r 0 =? 0xE5) || (byte_at r 11 =? 0x0F) || negb (Z.land (byte_at r 11) 0x08 =? 0) = false).
  { unfold slot_kind_of. destruct (byte_at r 0 =? 0); [done|]. destruct (byte_at r 0 =? 0xE5); [done|].
    destruct (byte_at r 11 =? 0x0F); [done|]. by destruct (negb _). }
  assert (H0 : (byte_at r 0 =? 0) = false) by (unfold slot_kind_of in Hr; by destruct (byte_at r 0 =? 0)). rewrite H0.
  apply elem_of_cons in Hin as [->|Hin].
  - destruct (Hkind Hk) as [_ ->]. rewrite short_names_acc. apply elem_of_app. left. apply list_elem_of_here.
  - destruct (_ || _)%bool; [by apply IH|]. rewrite short_names_acc. apply elem_of_app. right. by apply IH.
Qed.

Lemma prefix_lookup_None s p i e0 nm l :
  tidy_prefix s p = true -> (p = false -> chunks l = []) ->
  (forall e, e ∈ (parse_dir_slots s e0 l).1.2 -> eq_ignore_ascii_case (name e) nm = false) ->
  (forall raw, raw ∈ s -> slot_kind_of raw = SlotShort -> sane_short (take 11 raw) = true ->
     eq_ignore_ascii_case (shown (take 11 raw)) nm = false) ->
  found_of (find_in_slots s i nm l) = None.
Proof.
  revert p i e0 l. induction s as [|raw rest IH]; intros p i e0 l Ht Hl He Hs; [done|].
  cbn [find_in_slots tidy_prefix parse_dir_slots] in *.
  assert (Hs' : forall raw, raw ∈ rest -> slot_kind_of raw = SlotShort -> sane_short (take 11 raw) = true ->
     eq_ignore_ascii_case (shown (take 11 raw)) nm = false).
  { intros r Hr. apply Hs. by apply list_elem_of_further. }
  destruct (slot_kind_of raw) eqn:Hk; [done| | | |]; apply andb_true_iff in Ht as [Hp Ht].
  - by apply (IH false _ e0).
  - by apply (IH true _ e0).
  - by apply (IH false _ e0).
  - unfold short_entry_if_matches. rewrite shown_slot in *.
    destruct (take_verified (take 11 raw) l) as [long l'] eqn:E.
    assert (Hl' : chunks l' = []) by (unfold take_verified in E; by injection E as _ <-).
    assert (Hname : eq_ignore_ascii_case (default (shown (take 11 raw)) long) nm = false).
    { specialize (He (dir_entry_of raw (default (shown (take 11 raw)) long))). apply He. rewrite parse_acc.
      destruct (parse_dir_slots rest [] l') as [[b e'] l'']. cbn [fst snd].
      apply elem_of_app. left. apply elem_of_app. right. apply list_elem_of_here. }
    assert (Hno : (match long with Some n => eq_ignore_ascii_case n nm | None => false end) ||
      eq_ignore_ascii_case (shown (take 11 raw)) nm = false).
    { destruct long as [n|]; [|exact Hname]. change (eq_ignore_ascii_case n nm = false) in Hname. rewrite Hname. cbn [orb].
      apply Hs; [apply list_elem_of_here|done|]. destruct p; [done|]. unfold take_verified in E. rewrite Hl in E by done. done. }
    rewrite Hno. cbn [negb]. by apply (IH false _ (e0 ++ [dir_entry_of raw (default (shown (take 11 raw)) long)])).
Qed.
