(* ===== verification/Fat12Dir.v ===== *)
(** * Fat12Dir: the directory scans of Fat12 are scans of its slots

    A directory occupies sectors; [slots_at] are the slots they hold, [positions]
    where each lies.  Each scan of Fat12 ([list_sector], [find_entry_location_in],
    [existing_short_names_in], [find_free_entry_run_in]) is shown to be the scan of
    Fat12Slots over that list, and writing a slot to be an update of it. *)
From stdpp Require Import base list numbers strings.
From Stdlib Require Import Lia.
From S2P Require Import Prelude FatCommon FatEntry12 BlockDev Fat12 Fat12Table Fat12Chain Fat12Slots.
Open Scope Z_scope.

(** ** Slots of sectors *)

Definition SLOTS : nat := 16.

Definition slots_at (f : Z -> list Z) (lbas : list Z) : list (list Z) := concat (map (fun a => as_chunks 32 (f a)) lbas).

Definition sector_positions (a : Z) : list (Z * nat) := map (fun i => (a, (i * 32)%nat)) (seq 0 SLOTS).
Definition positions (lbas : list Z) : list (Z * nat) := concat (map sector_positions lbas).

Lemma as_chunks_eq {A} n k (l : list A) :
  (0 < n)%nat -> length l = (k * n)%nat -> as_chunks n l = map (fun j => take n (drop (j * n) l)) (seq 0 k).
Proof.
  intros Hn. revert l. induction k as [|k IH]; intros l Hl.
  { apply as_chunks_short. lia. }
  assert (Ht : length (take n l) = n) by (rewrite length_take; lia).
  rewrite <- (take_drop n l) at 1. rewrite (as_chunks_cons n (take n l) (drop n l) Hn Ht).
  cbn [seq map]. f_equal. rewrite <- seq_shift, map_map.
  rewrite IH by (rewrite length_drop; lia). apply map_ext. intros j. by rewrite drop_drop.
Qed.

Lemma length_as_chunks_mul {A} n k (l : list A) : (0 < n)%nat -> length l = (k * n)%nat -> length (as_chunks n l) = k.
Proof. intros Hn Hl. by rewrite (as_chunks_eq n k l Hn Hl), length_map, length_seq. Qed.

Lemma as_chunks_splice {A} n k (l b : list A) j :
  (0 < n)%nat -> length l = (k * n)%nat -> length b = n -> (j < k)%nat ->
  as_chunks n (splice (j * n) b l) = <[j := b]> (as_chunks n l).
Proof.
  intros Hn Hl Hb Hj. assert (Hs : length (splice (j * n) b l) = (k * n)%nat) by (rewrite length_splice; nia).
  rewrite (as_chunks_eq n k _ Hn Hs), (as_chunks_eq n k l Hn Hl).
  apply list_eq. intros i. destruct (decide (i < k)%nat) as [Hi|Hi].
  - rewrite list_lookup_fmap, lookup_seq_lt by done. cbn [fmap option_fmap option_map Nat.add].
    destruct (decide (i = j)) as [->|Hne].
    + rewrite list_lookup_insert_eq by (by rewrite length_map, length_seq). f_equal.
      apply list_eq. intros x. destruct (decide (x < n)%nat).
      * rewrite lookup_take_lt, lookup_drop, lookup_splice_in by nia. f_equal. lia.
      * rewrite !lookup_ge_None_2; [done|lia|rewrite length_take; lia].
    + rewrite list_lookup_insert_ne by done. rewrite list_lookup_fmap, lookup_seq_lt by done. cbn. f_equal.
      apply list_eq. intros x. destruct (decide (x < n)%nat).
      * rewrite !lookup_take_lt, !lookup_drop by done. apply lookup_splice_out; nia.
      * rewrite !lookup_ge_None_2; [done|rewrite length_take; lia..].
  - rewrite !lookup_ge_None_2; [done|rewrite ?length_insert, length_map, length_seq; lia..].
Qed.

Lemma as_chunks_lengths {A} n k (l : list A) c :
  (0 < n)%nat -> length l = (k * n)%nat -> c ∈ as_chunks n l -> length c = n.
Proof.
  intros Hn Hl. rewrite (as_chunks_eq n k l Hn Hl). intros (j & -> & Hj)%list_elem_of_fmap. apply elem_of_seq in Hj.
  rewrite length_take, length_drop. nia.
Qed.

Section Slots.
Context (f : Z -> list Z).
Hypothesis Hf : forall a, length (f a) = SECTOR.

Lemma length_sector_slots a : length (as_chunks 32 (f a)) = SLOTS.
Proof. apply length_as_chunks_mul; [lia|]. by rewrite Hf. Qed.

Lemma length_slots_at lbas : length (slots_at f lbas) = (length lbas * SLOTS)%nat.
Proof.
  unfold slots_at. induction lbas as [|a l IH]; [done|]. cbn [map concat length]. rewrite length_app, IH, length_sector_slots. lia.
Qed.

Lemma length_positions lbas : length (positions lbas) = (length lbas * SLOTS)%nat.
Proof.
  unfold positions. induction lbas as [|a l IH]; [done|]. cbn [map concat length]. rewrite length_app, IH.
  unfold sector_positions. rewrite length_map, length_seq. lia.
Qed.

Lemma positions_in lbas i a o :
  positions lbas !! i = Some (a, o) -> a ∈ lbas /\ o = (i mod SLOTS * 32)%nat /\ lbas !! (i / SLOTS)%nat = Some a.
Proof.
  revert i. induction lbas as [|b l IH]; intros i Hi; [done|]. unfold positions in Hi. cbn [map concat] in Hi.
  assert (Hl : length (sector_positions b) = SLOTS) by (unfold sector_positions; by rewrite length_map, length_seq).
  destruct (decide (i < SLOTS)%nat) as [Hlt|Hge].
  - rewrite lookup_app_l in Hi by (by rewrite Hl). unfold sector_positions in Hi.
    rewrite list_lookup_fmap, lookup_seq_lt in Hi by done. cbn in Hi. injection Hi as <- <-.
    rewrite Nat.mod_small, Nat.div_small by done. split; [left|done].
  - rewrite lookup_app_r in Hi by (rewrite Hl; lia). rewrite Hl in Hi. destruct (IH _ Hi) as (H1 & H2 & H3).
    replace i with ((i - SLOTS) + 1 * SLOTS)%nat by lia.
    rewrite Nat.Div0.mod_add, Nat.div_add by done. split; [by right|]. split; [done|].
    rewrite Nat.add_1_r. exact H3.
Qed.

(** Writing a slot's bytes into its sector updates the slot. *)
Lemma slots_at_update lbas i a o b :
  NoDup lbas -> positions lbas !! i = Some (a, o) -> length b = 32%nat ->
  slots_at (upd a (splice o b (f a)) f) lbas = <[i := b]> (slots_at f lbas).
Proof.
  intros Hnd Hi Hb. revert i Hi. induction Hnd as [|x l Hx Hnd IH]; intros i Hi; [done|].
  unfold positions, slots_at in *. cbn [map concat] in *.
  assert (Hl : length (sector_positions x) = SLOTS) by (unfold sector_positions; by rewrite length_map, length_seq).
  destruct (decide (i < SLOTS)%nat) as [Hlt|Hge].
  - rewrite lookup_app_l in Hi by (by rewrite Hl). unfold sector_positions in Hi.
    rewrite list_lookup_fmap, lookup_seq_lt in Hi by done. cbn in Hi. injection Hi as <- <-.
    rewrite upd_same, insert_app_l by (by rewrite length_sector_slots).
    rewrite (as_chunks_splice 32 SLOTS) by first [done|lia|by rewrite Hf]. f_equal. f_equal. apply map_ext_in. intros y Hy%list_elem_of_In.
    rewrite upd_other; [done|]. by intros ->.
  - rewrite lookup_app_r in Hi by (rewrite Hl; lia). rewrite Hl in Hi.
    assert (Ha : a ∈ l) by (apply positions_in in Hi as (Ha & _); exact Ha).
    rewrite insert_app_r_alt by (rewrite length_sector_slots; lia). rewrite length_sector_slots, <- (IH _ Hi).
    f_equal. rewrite upd_other; [done|]. by intros ->.
Qed.
End Slots.

Lemma slots_at_ext f g lbas : (forall a, a ∈ lbas -> f a = g a) -> slots_at f lbas = slots_at g lbas.
Proof. intros H. unfold slots_at. f_equal. apply map_ext_in. intros a Ha%list_elem_of_In. by rewrite H. Qed.

(** ** Scans as functions of the sectors *)

Fixpoint scan {B R} (g : Z -> list Z -> B -> res (B + R)) (f : Z -> list Z) (lbas : list Z) (b : B) : res (B + R) :=
  match lbas with
  | [] => Ok (inl b)
  | a :: l => o ← g a (f a) b; match o with inl b' => scan g f l b' | inr r => Ok (inr r) end
  end.

Lemma scan_ext {B R} (g : Z -> list Z -> B -> res (B + R)) f1 f2 lbas b :
  (forall a, f1 a = f2 a) -> scan g f1 lbas b = scan g f2 lbas b.
Proof.
  intros Hf. revert b. induction lbas as [|a l IH]; intros b; [done|]. cbn [scan]. rewrite Hf.
  destruct (g a (f2 a) b) as [[b'|r]| | |]; cbn [mbind res_bind]; [apply IH|done..].
Qed.

Lemma scan_listing f lbas e l :
  scan (fun _ buf st => let '(b, e, l) := parse_dir_sector buf st.1 st.2 in Ok (if b : bool then inr e else inl (e, l))) f lbas (e, l) =
    let '(b, e, l) := parse_dir_slots (slots_at f lbas) e l in Ok (if b : bool then inr e else inl (e, l)).
Proof.
  revert e l. induction lbas as [|a r IH]; intros e l; [done|]. unfold slots_at. cbn [scan map concat fst snd].
  rewrite parse_app. unfold parse_dir_sector. destruct (parse_dir_slots (as_chunks 32 (f a)) e l) as [[[|] e'] l']; [done|].
  cbn [mbind res_bind]. apply IH.
Qed.

Lemma scan_short_names f lbas acc :
  scan (fun _ buf names => Ok (short_names_in_slots (as_chunks 32 buf) names)) f lbas acc =
    Ok (short_names_in_slots (slots_at f lbas) acc).
Proof.
  assert (Happ : forall s1 s2 acc, short_names_in_slots (s1 ++ s2) acc =
    match short_names_in_slots s1 acc with inl acc' => short_names_in_slots s2 acc' | inr r => inr r end).
  { induction s1 as [|raw s1 IH]; intros s2 acc'; [done|]. cbn [app short_names_in_slots].
    destruct (byte_at raw 0 =? 0); [done|]. by destruct (_ || _)%bool. }
  revert acc. induction lbas as [|a r IH]; intros acc; [done|]. unfold slots_at. cbn [scan map concat]. rewrite Happ.
  destruct (short_names_in_slots (as_chunks 32 (f a)) acc) as [acc'|r']; cbn [mbind res_bind]; [apply IH|done].
Qed.

Lemma find_shift s k i nm l :
  find_in_slots s (k + i) nm l = match find_in_slots s i nm l with Found j e => Found (k + j) e | r => r end.
Proof.
  revert i l. induction s as [|raw rest IH]; intros i l; [done|]. cbn [find_in_slots].
  replace (S (k + i)) with (k + S i)%nat by lia.
  destruct (slot_kind_of raw); try done. by destruct (short_entry_if_matches raw l nm) as [[e|] l'].
Qed.

Lemma find_bound s i nm l j e : find_in_slots s i nm l = Found j e -> (i <= j < i + length s)%nat.
Proof.
  revert i l. induction s as [|raw rest IH]; intros i l H; [done|]. cbn [find_in_slots length] in *.
  destruct (slot_kind_of raw); try done; try (specialize (IH _ _ H); lia).
  destruct (short_entry_if_matches raw l nm) as [[e'|] l']; [injection H as -> _; lia|specialize (IH _ _ H); lia].
Qed.

Lemma scan_find f lbas err nm l :
  (forall a, length (f a) = SECTOR) ->
  scan (fun a buf l => match find_in_slots (as_chunks 32 buf) 0 nm l with
    | Found i e => Ok (inr (a, (i * 32)%nat, e)) | EndMarker => Err err | GoOn l => Ok (inl l) end) f lbas l =
    match find_in_slots (slots_at f lbas) 0 nm l with
    | Found j e => match positions lbas !! j with Some (a, o) => Ok (inr (a, o, e)) | None => Panic end
    | EndMarker => Err err
    | GoOn l => Ok (inl l)
    end.
Proof.
  intros Hf. revert l. induction lbas as [|a r IH]; intros l; [done|]. unfold slots_at, positions. cbn [scan map concat].
  pose proof (length_sector_slots f Hf a) as Hl. rewrite find_app, Hl.
  assert (Hp : length (sector_positions a) = SLOTS) by (unfold sector_positions; by rewrite length_map, length_seq).
  destruct (find_in_slots (as_chunks 32 (f a)) 0 nm l) as [i e| |l'] eqn:E; cbn [mbind res_bind]; [|done|].
  - apply find_bound in E. rewrite Hl in E. rewrite lookup_app_l by lia. unfold sector_positions.
    by rewrite list_lookup_fmap, lookup_seq_lt by lia.
  - rewrite IH. rewrite (find_shift _ SLOTS 0). fold (slots_at f r).
    destruct (find_in_slots (slots_at f r) 0 nm l') as [j e| |l'']; [|done|done].
    rewrite lookup_app_r by lia. rewrite Hp. by replace (SLOTS + j - SLOTS)%nat with j by lia.
Qed.

(** Free runs, over slots with their positions. *)
Fixpoint free_run (l : list ((Z * nat) * list Z)) (count : nat) (run : list (Z * nat)) : list (Z * nat) + list (Z * nat) :=
  match l with
  | [] => inl run
  | (p, raw) :: rest =>
      if free_slot raw then
        let run := run ++ [p] in
        if (length run =? count)%nat then inr run else free_run rest count run
      else free_run rest count []
  end.

Lemma free_run_app l1 l2 count run :
  free_run (l1 ++ l2) count run = match free_run l1 count run with inl run' => free_run l2 count run' | inr r => inr r end.
Proof.
  revert run. induction l1 as [|[p raw] l1 IH]; intros run; [done|]. cbn [app free_run].
  destruct (free_slot raw); [|done]. by destruct (_ =? count)%nat.
Qed.

Lemma free_run_sector slots lba i count run :
  free_run_in_slots slots lba i count run =
    free_run (zip (map (fun j => (lba, (j * 32)%nat)) (seq i (length slots))) slots) count run.
Proof.
  revert i run. induction slots as [|raw rest IH]; intros i run; [done|]. cbn [free_run_in_slots length seq map zip_with free_run].
  unfold free_slot. destruct (_ || _)%bool; [|apply IH]. destruct (_ =? count)%nat; [done|apply IH].
Qed.

Lemma scan_free_run f lbas count run :
  (forall a, length (f a) = SECTOR) ->
  scan (fun a buf run => Ok (free_run_in_slots (as_chunks 32 buf) a 0 count run)) f lbas run =
    Ok (free_run (zip (positions lbas) (slots_at f lbas)) count run).
Proof.
  intros Hf. revert run. induction lbas as [|a r IH]; intros run; [done|]. unfold slots_at, positions. cbn [scan map concat].
  pose proof (length_sector_slots f Hf a) as Hl.
  rewrite zip_with_app by (unfold sector_positions; by rewrite length_map, length_seq).
  rewrite free_run_app, free_run_sector, Hl. fold (sector_positions a).
  destruct (free_run (zip (sector_positions a) (as_chunks 32 (f a))) count run); cbn [mbind res_bind]; [apply IH|done].
Qed.

(** A run that was found is [count] free slots in a row, at the beginning or behind a
    slot in use. *)
Lemma free_run_spec l count run r :
  free_run l count run = inr r -> (length run < count)%nat ->
  (exists F B, l = F ++ B /\ r = run ++ map fst F /\ (length run + length F)%nat = count /\
     Forall (fun x => free_slot x.2 = true) F) \/
  (exists A x F B, l = A ++ x :: F ++ B /\ r = map fst F /\ length F = count /\ Forall (fun x => free_slot x.2 = true) F /\
     free_slot x.2 = false).
Proof.
  revert run. induction l as [|[p raw] l IH]; intros run H Hr; [done|]. cbn [free_run] in H.
  destruct (free_slot raw) eqn:Ef.
  - destruct (Nat.eqb_spec (length (run ++ [p])) count) as [Hc|Hc]; rewrite length_app in Hc; cbn [length] in Hc.
    + injection H as <-. left. exists [(p, raw)], l. split; [done|]. split; [done|]. split; [done|]. by constructor.
    + destruct (IH _ H) as [(F & B & -> & -> & HF & Hf)|(A & x & F & B & -> & -> & HF & Hf & Hx)].
      * rewrite length_app. cbn [length]. lia.
      * left. exists ((p, raw) :: F), B. rewrite length_app in HF. cbn [length] in *. split; [done|].
        split; [by rewrite <- app_assoc|]. split; [lia|]. by constructor.
      * right. exists ((p, raw) :: A), x, F, B. done.
  - destruct (IH [] H ltac:(cbn; lia)) as [(F & B & -> & -> & HF & Hf)|(A & x & F & B & -> & -> & HF & Hf & Hx)].
    + right. exists [], (p, raw), F, B. done.
    + right. exists ((p, raw) :: A), x, F, B. done.
Qed.

(** In a tidy directory nothing in front of such a run ends it. *)
Lemma tidy_in_front A raw rest p :
  tidy (A ++ raw :: rest) p = true -> free_slot raw = false -> no_end (A ++ [raw]).
Proof.
  revert p. induction A as [|r A IH]; intros p Ht Hr; cbn [app tidy] in *.
  - constructor; [|constructor]. unfold free_slot in Hr. unfold slot_kind_of. apply orb_false_iff in Hr as [-> ->].
    clear Ht. repeat case_match; done.
  - destruct (slot_kind_of r) eqn:Hk.
    + apply andb_true_iff in Ht as [_ Ht]. rewrite forallb_app in Ht. apply andb_true_iff in Ht as [_ Ht]. cbn [forallb] in Ht.
      apply andb_true_iff in Ht as [Ht _]. unfold free_slot in Hr. by rewrite Ht in Hr.
    + apply andb_true_iff in Ht as [_ Ht]. constructor; [congruence|by eapply IH].
    + apply andb_true_iff in Ht as [_ Ht]. constructor; [congruence|by eapply IH].
    + apply andb_true_iff in Ht as [_ Ht]. constructor; [congruence|by eapply IH].
    + apply andb_true_iff in Ht as [_ Ht]. constructor; [congruence|by eapply IH].
Qed.

(** ** The scans on a device *)

Section Device.
Context {D : Type} `{BlockDev D}.
Implicit Types v : Vol D.

(** [v'] is [v] after reading. *)
Definition unchanged v v' : Prop := info v' = info v /\ becomes (dev v) (sector_at (dev v)) (dev v').

Lemma unchanged_refl v : unchanged v v.
Proof. split; [done|apply becomes_refl]. Qed.

Lemma unchanged_trans v1 v2 v3 : unchanged v1 v2 -> unchanged v2 v3 -> unchanged v1 v3.
Proof.
  intros [I1 [B1 S1]] [I2 [B2 S2]]. split; [congruence|]. split; [intros a; by rewrite B2, B1|]. intros a Ha. by apply S2, S1.
Qed.

Definition served v (lbas : list Z) : Prop := Forall (serves (dev v)) lbas.

Lemma served_unchanged v v' lbas : served v lbas -> unchanged v v' -> served v' lbas.
Proof. intros Hs [_ [_ Hk]]. eapply Forall_impl; [exact Hs|]. apply Hk. Qed.

Lemma slots_unchanged v v' lbas :
  unchanged v v' -> slots_at (sector_at (dev v')) lbas = slots_at (sector_at (dev v)) lbas.
Proof. intros [_ [Hb _]]. apply slots_at_ext. intros a _. apply Hb. Qed.

Lemma for_each_body {A B R} (f g : A -> B -> M (Vol D) (B + R)) l b v :
  (forall x b v, f x b v = g x b v) -> for_each l f b v = for_each l g b v.
Proof.
  intros Hfg. revert b v. induction l as [|x l IH]; intros b v; [done|]. cbn [for_each]. unfold mbind, M_bind. rewrite Hfg.
  by destruct (g x b v) as [[[b'|r]| | |] v'].
Qed.

Lemma scan_ok {B R} (g : Z -> list Z -> B -> res (B + R)) lbas b v :
  served v lbas ->
  exists v', for_each lbas (fun a b => buf ← read_lba a; lift (g a buf b)) b v = (scan g (sector_at (dev v)) lbas b, v') /\
    unchanged v v'.
Proof.
  set (body := fun a b => buf ← read_lba a; lift (g a buf b)).
  assert (Hbody : forall a b w, body a b w = (buf ← read_lba a; lift (g a buf b)) w) by done. clearbody body.
  revert b v. induction lbas as [|a l IH]; intros b v Hs; [exists v; split; [done|apply unchanged_refl]|].
  apply Forall_cons in Hs as [Ha Hl]. destruct (read_lba_served v a Ha) as (d1 & E1 & B1).
  set (v1 := mk_Vol (info v) d1). assert (U1 : unchanged v v1) by (by split).
  assert (Eb : body a b v = (g a (sector_at (dev v) a) b, v1)) by (rewrite Hbody; by rewrite (M_bind_Ok _ _ _ _ _ E1)).
  cbn [for_each scan]. unfold mbind at 1, M_bind at 1. rewrite Eb.
  destruct (g a (sector_at (dev v) a) b) as [[b'|r]|e| |]; cbn [mbind res_bind];
    [|exists v1; by split..].
  destruct (IH b' v1) as (v2 & E2 & U2); [by apply (served_unchanged v)|].
  exists v2. split; [|by apply (unchanged_trans v v1)]. rewrite E2. f_equal. apply scan_ext. apply U1.
Qed.

Lemma listing_ok lbas v :
  served v lbas ->
  exists v', (o ← for_each lbas list_sector ([], LfnState_default);
      mret (match o with inl st => st.1 | inr entries => entries end)) v =
      (Ok (entries (slots_at (sector_at (dev v)) lbas)), v') /\ unchanged v v'.
Proof.
  intros Hs. destruct (scan_ok (fun _ buf st => let '(b, e, l) := parse_dir_sector buf st.1 st.2 in
    Ok (if b : bool then inr e else inl (e, l))) lbas ([], LfnState_default) v Hs) as (v' & E & U).
  exists v'. split; [|done]. rewrite scan_listing in E.
  unfold entries. destruct (parse_dir_slots (slots_at (sector_at (dev v)) lbas) [] LfnState_default) as [[b e] l].
  rewrite (M_bind_Ok _ _ v (if b then inr e else inl (e, l)) v'); [by destruct b|].
  rewrite <- E. apply for_each_body. intros a st w. unfold list_sector, mbind, M_bind, lift, mret, M_ret.
  destruct (read_lba a w) as [[buf| | |] w']; try done. by destruct (parse_dir_sector buf st.1 st.2) as [[b' e'] l'].
Qed.

Lemma short_names_ok dir lbas v :
  directory_sectors (info v) dir = Ok lbas -> served v lbas ->
  exists v', existing_short_names_in dir v = (Ok (short_names (slots_at (sector_at (dev v)) lbas)), v') /\ unchanged v v'.
Proof.
  intros Hd Hs. destruct (scan_ok (R := list (list Z)) (fun _ buf names => Ok (short_names_in_slots (as_chunks 32 buf) names)) lbas [] v Hs)
    as (v' & E & U).
  exists v'. split; [|done]. rewrite scan_short_names in E. unfold existing_short_names_in, on_fs.
  rewrite (M_bind_Ok _ _ v lbas v) by (by rewrite Hd). rewrite (M_bind_Ok _ _ _ _ _ E). unfold short_names.
  by destruct (short_names_in_slots (slots_at (sector_at (dev v)) lbas) []).
Qed.

Lemma find_entry_ok dir lbas nm v :
  directory_sectors (info v) dir = Ok lbas -> served v lbas ->
  exists v', find_entry_location_in dir nm v =
      (match lookup_slot (slots_at (sector_at (dev v)) lbas) nm with
       | Some (j, e) => match positions lbas !! j with Some (a, o) => Ok (a, o, e) | None => Panic end
       | None => Err (file_not_found dir)
       end, v') /\ unchanged v v'.
Proof.
  intros Hd Hs.
  destruct (scan_ok (fun a buf l => match find_in_slots (as_chunks 32 buf) 0 nm l with
    | Found i e => Ok (inr (a, (i * 32)%nat, e)) | EndMarker => Err (file_not_found dir) | GoOn l => Ok (inl l) end)
    lbas LfnState_default v Hs) as (v' & E & U).
  exists v'. split; [|done]. rewrite scan_find in E by apply sector_at_length.
  unfold find_entry_location_in, on_fs. rewrite (M_bind_Ok _ _ v lbas v) by (by rewrite Hd).
  unfold mbind at 1, M_bind at 1.
  rewrite (for_each_body _ (fun a l => buf ← read_lba a; lift (match find_in_slots (as_chunks 32 buf) 0 nm l with
    | Found i e => Ok (inr (a, (i * 32)%nat, e)) | EndMarker => Err (file_not_found dir) | GoOn l => Ok (inl l) end))).
  - rewrite E. unfold lookup_slot. destruct (find_in_slots (slots_at (sector_at (dev v)) lbas) 0 nm LfnState_default) as [j e| |l'];
      cbn [found_of]; [|done|done]. by destruct (positions lbas !! j) as [[a o]|].
  - intros a l w. unfold mbind, M_bind. destruct (read_lba a w) as [[buf| | |] w']; try done.
    by destruct (find_in_slots (as_chunks 32 buf) 0 nm l).
Qed.

Lemma free_run_ok count v :
  (1 <= count <= ENTRIES_PER_SECTOR)%nat -> served v (root_lbas (info v)) ->
  exists v', find_free_entry_run_in Root count v =
      (match free_run (zip (positions (root_lbas (info v))) (slots_at (sector_at (dev v)) (root_lbas (info v)))) count [] with
       | inr run => Ok run
       | inl _ => Err "FAT12: root directory is full, no free entry slot"
       end, v') /\ unchanged v v'.
Proof.
  intros Hc Hs.
  destruct (scan_ok (R := list (Z * nat)) (fun a buf run => Ok (free_run_in_slots (as_chunks 32 buf) a 0 count run)) (root_lbas (info v)) [] v Hs)
    as (v' & E & U).
  exists v'. split; [|done]. rewrite scan_free_run in E by apply sector_at_length.
  unfold find_free_entry_run_in. rewrite (proj2 (Nat.ltb_ge _ _)) by lia. unfold on_fs.
  rewrite (M_bind_Ok _ _ v (root_lbas (info v)) v) by done. rewrite (M_bind_Ok _ _ _ _ _ E).
  by destruct (free_run _ count []).
Qed.

(** ** Writing slots *)

Definition slot_ok (b : list Z) : Prop := length b = 32%nat /\ bytes_ok b.

Lemma patch_ok v lbas i a o b :
  NoDup lbas -> served v lbas -> positions lbas !! i = Some (a, o) -> slot_ok b ->
  exists v', patch_sector a o b v = (Ok tt, v') /\ info v' = info v /\ served v' lbas /\
    slots_at (sector_at (dev v')) lbas = <[i := b]> (slots_at (sector_at (dev v)) lbas) /\
    (forall x, x ∉ lbas -> sector_at (dev v') x = sector_at (dev v) x) /\ (forall x, serves (dev v) x -> serves (dev v') x).
Proof.
  intros Hnd Hs Hi [Hb Hbo]. destruct (positions_in lbas i a o Hi) as (Ha & Ho & _).
  assert (Hsa : serves (dev v) a) by (unfold served in Hs; rewrite Forall_forall in Hs; by apply Hs).
  destruct (read_lba_served v a Hsa) as (d1 & E1 & B1 & S1).
  set (buf := splice o b (sector_at (dev v) a)).
  assert (Hm : (i mod SLOTS < SLOTS)%nat) by (apply Nat.mod_upper_bound; done).
  assert (Hl : length buf = SECTOR).
  { unfold buf. rewrite length_splice; [apply sector_at_length|]. rewrite sector_at_length, Hb, Ho. unfold SLOTS, SECTOR in *. lia. }
  assert (Hbb : bytes_ok buf) by (apply Forall_splice; [done|apply sector_at_bytes]).
  destruct (write_lba_served (mk_Vol (info v) d1) a buf (S1 a Hsa) Hl Hbb) as (d2 & E2 & B2 & S2).
  exists (mk_Vol (info v) d2). cbn [info dev] in *. split; [|split; [done|split; [|split; [|split]]]].
  - unfold patch_sector. by rewrite (M_bind_Ok _ _ _ _ _ E1).
  - eapply Forall_impl; [exact Hs|]. intros x Hx. by apply S2, S1.
  - rewrite <- (slots_at_update (sector_at (dev v)) (sector_at_length (dev v)) lbas i a o b Hnd Hi Hb). apply slots_at_ext.
    intros x _. rewrite B2. unfold upd. destruct (decide (x = a)); [done|apply B1].
  - intros x Hx. rewrite B2, upd_other by (by intros ->). apply B1.
  - intros x Hx. by apply S2, S1.
Qed.

Lemma patch_all_ok v lbas (ws : list (nat * (Z * nat) * list Z)) :
  NoDup lbas -> served v lbas -> Forall (fun w => positions lbas !! w.1.1 = Some w.1.2 /\ slot_ok w.2) ws ->
  exists v', patch_all (map (fun w => (w.1.2, w.2)) ws) v = (Ok tt, v') /\ info v' = info v /\
    slots_at (sector_at (dev v')) lbas = foldl (fun s w => <[w.1.1 := w.2]> s) (slots_at (sector_at (dev v)) lbas) ws /\
    (forall x, x ∉ lbas -> sector_at (dev v') x = sector_at (dev v) x) /\ (forall x, serves (dev v) x -> serves (dev v') x).
Proof.
  intros Hnd Hs Hws. revert v Hs. induction Hws as [|[[i [a o]] b] ws [Hi Hb] Hws IH]; intros v Hs; [by exists v|].
  cbn [fst snd] in *. destruct (patch_ok v lbas i a o b Hnd Hs Hi Hb) as (v1 & E1 & I1 & S1 & P1 & O1 & K1).
  destruct (IH v1 S1) as (v2 & E2 & I2 & P2 & O2 & K2). exists v2. split; [|split; [congruence|split; [|split]]].
  - cbn [map patch_all fst snd]. by rewrite (M_bind_Ok _ _ _ _ _ E1).
  - cbn [foldl fst snd]. by rewrite P2, P1.
  - intros x Hx. by rewrite O2, O1.
  - intros x Hx. by apply K2, K1.
Qed.
End Device.

(** Slots written over a run of the same length replace it. *)
Lemma foldl_run A F B (G : list (list Z)) :
  length G = length F ->
  foldl (fun s (w : nat * list Z) => <[w.1 := w.2]> s) (A ++ F ++ B) (zip (seq (length A) (length G)) G) = A ++ G ++ B.
Proof.
  revert A F. induction G as [|g G IH]; intros A F Hl; [by destruct F|].
  destruct F as [|x F]; [done|]. cbn [length seq zip_with foldl fst snd app].
  rewrite insert_app_r_alt by lia. rewrite Nat.sub_diag. cbn [insert list_insert].
  specialize (IH (A ++ [g]) F). rewrite length_app in IH. cbn [length] in IH. rewrite Nat.add_1_r in IH.
  rewrite <- !app_assoc in IH. cbn [app] in IH. apply IH. cbn in Hl. lia.
Qed.
