(* ===== verification/Fat12Create.v ===== *)
(** * Fat12Create: a file created in the root directory can be read back

    [root_ok] is what the volume has to look like: table, root directory and data
    apart, the table in step with the disk, a tidy directory (Fat12Slots).  Creating
    a file keeps it. *)
From stdpp Require Import base list numbers strings.
From Stdlib Require Import Lia.
From S2P Require Import Prelude FatCommon Rtc FatEntry12 BlockDev Fat12 Fat12Table Fat12Chain Fat12Data Fat12Free Fat12Slots Fat12Dir.
Open Scope Z_scope.

(** ** Aliases *)

Lemma alias_clean_plain l : forallb plain (alias_clean l) = true.
Proof.
  unfold alias_clean. apply forallb_forall. intros b [Hb Hc]%filter_In. apply in_map_iff in Hb as (x & <- & _).
  unfold is_ascii_alphanumeric, to_ascii_uppercase, plain in *.
  destruct (Z.leb_spec 0x61 x), (Z.leb_spec x 0x7A); cbn [andb] in *;
    repeat match goal with |- context [?a <=? ?b] => destruct (Z.leb_spec a b) | |- context [?a <? ?b] => destruct (Z.ltb_spec a b)
      | |- context [?a =? ?b] => destruct (Z.eqb_spec a b) end; cbn [andb negb]; try done;
    exfalso; repeat (rewrite ?orb_true_iff, ?andb_true_iff, ?Z.leb_le, ?Z.eqb_eq in Hc); lia.
Qed.

Lemma plain_no_space l : forallb plain l = true -> Forall (fun b => b <> 0x20) l.
Proof.
  intros H. apply List.Forall_forall. intros b Hb. rewrite forallb_forall in H. specialize (H b Hb).
  unfold plain in H. unbool. lia.
Qed.

Lemma forallb_take {A} (p : A -> bool) n l : forallb p l = true -> forallb p (take n l) = true.
Proof. rewrite !forallb_forall. intros H x Hx. apply H. by apply list_elem_of_In, elem_of_take in Hx as (i & Hx%list_elem_of_lookup_2%list_elem_of_In & _). Qed.

Lemma plain_digit d : 0 <= d <= 9 -> plain (0x30 + d) = true.
Proof.
  intros Hd. unfold plain. destruct (Z.leb_spec 0x21 (0x30 + d)), (Z.ltb_spec (0x30 + d) 0x80), (Z.eqb_spec (0x30 + d) 0x2E),
    (Z.leb_spec 0x61 (0x30 + d)), (Z.leb_spec (0x30 + d) 0x7A); cbn [andb negb]; (done || lia).
Qed.

Lemma splice_pad {A} (p src : list A) n x :
  splice (length p) src (p ++ replicate n x) = p ++ src ++ replicate (n - length src) x.
Proof.
  unfold splice. rewrite take_app_length. do 2 f_equal. rewrite drop_app_ge by lia. rewrite drop_replicate. f_equal. lia.
Qed.

Lemma alias_sane cb ce n :
  forallb plain cb = true -> forallb plain ce = true -> cb <> [] -> (length cb <= 5)%nat -> (length ce <= 3)%nat ->
  (1 <= n <= 99)%nat -> sane_short (alias_of cb ce n) = true /\ length (alias_of cb ce n) = 11%nat.
Proof.
  intros Hb He Hne Lb Le Hn. set (sfx := alias_suffix n).
  assert (Hs : forallb plain sfx = true /\ (2 <= length sfx <= 3)%nat).
  { unfold sfx, alias_suffix. destruct (Nat.ltb_spec n 10); cbn [forallb length]; (split; [|lia]).
    - by rewrite plain_digit by lia.
    - pose proof (Nat.div_mod_eq n 10). pose proof (Nat.mod_upper_bound n 10 ltac:(lia)). by rewrite !plain_digit by lia. }
  destruct Hs as [Hs Ls].
  assert (E : alias_of cb ce n = ((cb ++ sfx) ++ replicate (8 - length (cb ++ sfx)) 0x20) ++ ce ++ replicate (3 - length ce) 0x20).
  { unfold alias_of. fold sfx. pose proof (splice_pad [] cb 11 0x20) as E1. cbn [app length] in E1. rewrite E1, (splice_pad cb).
    replace (11 - length cb - length sfx)%nat with ((8 - length (cb ++ sfx)) + 3)%nat by (rewrite length_app; lia).
    rewrite replicate_add, !app_assoc.
    assert (L8 : length ((cb ++ sfx) ++ replicate (8 - length (cb ++ sfx)) 0x20) = 8%nat).
    { rewrite !length_app, length_replicate. lia. }
    rewrite <- L8 at 1. rewrite (splice_pad _ ce 3). by rewrite app_assoc. }
  assert (Hbs : forallb plain (cb ++ sfx) = true) by (by rewrite forallb_app, Hb, Hs).
  assert (L8 : length ((cb ++ sfx) ++ replicate (8 - length (cb ++ sfx)) 0x20) = 8%nat).
  { rewrite length_app, length_replicate, length_app. lia. }
  assert (Hne' : cb ++ sfx <> []) by (by destruct cb).
  rewrite E. set (base := cb ++ sfx) in *. split.
  - unfold sane_short. rewrite take_app_length', drop_app_length' by done.
    rewrite !until_space_pad by (by apply plain_no_space).
    rewrite bool_decide_eq_true_2, (bool_decide_eq_false_2 (base = [])), Hbs, He by done. done.
  - rewrite length_app, L8, length_app, length_replicate. lia.
Qed.

Lemma list_snoc_cases {A} (l : list A) : l = [] \/ exists l' x, l = l' ++ [x].
Proof. destruct l as [|x l] using rev_ind; [by left|right; by exists l, x]. Qed.

Lemma zip_snoc {A B} (l : list A) x (g : list B) y :
  length l = length g -> zip (l ++ [x]) g ++ [(x, y)] = zip (l ++ [x]) (g ++ [y]).
Proof.
  revert g. induction l as [|a l IH]; intros [|b g] Hl; try done. cbn [app zip_with]. by rewrite IH by (cbn in Hl; lia).
Qed.

Lemma zip_map_snd {A B C} (l : list (A * B)) (g : list C) : zip (map snd l) g = map (fun w => (w.1.2, w.2)) (zip l g).
Proof. revert g. induction l as [|x l IH]; intros [|y g]; try done. cbn [map zip_with]. by rewrite IH. Qed.

Lemma foldl_zip_fst (l : list nat) (sl : list (Z * nat)) (g s : list (list Z)) :
  length l = length sl ->
  foldl (fun s (w : nat * (Z * nat) * list Z) => <[w.1.1 := w.2]> s) s (zip (zip l sl) g) =
  foldl (fun s (w : nat * list Z) => <[w.1 := w.2]> s) s (zip l g).
Proof.
  revert sl g s. induction l as [|x l IH]; intros [|y sl] [|z g] s Hl; try done. cbn [zip_with foldl fst snd].
  apply IH. cbn in Hl. lia.
Qed.

(** ** The slots written *)

Lemma lfn_checksum_byte sn : byte_ok (lfn_checksum sn).
Proof.
  unfold lfn_checksum. assert (H0 : byte_ok 0) by (unfold byte_ok; lia). revert H0. generalize 0.
  induction sn as [|b sn IH]; intros z Hz; cbn [foldl]; [done|]. apply IH. apply byte_ok_mod.
Qed.

Lemma lfn_chars_length chunk : (length chunk <= 13)%nat -> length (lfn_chars chunk) = 13%nat.
Proof.
  intros Hl. unfold lfn_chars. destruct (_ <? _)%nat; rewrite ?length_insert, length_splice; rewrite ?length_replicate; lia.
Qed.

Lemma concat_le_bytes n l : length (concat (map (le_bytes n) l)) = (length l * n)%nat /\ bytes_ok (concat (map (le_bytes n) l)).
Proof.
  induction l as [|z l [IH1 IH2]]; [split; [done|constructor]|]. cbn [map concat]. split; [|by bytes].
  rewrite length_app, IH1, length_le_bytes. cbn. lia.
Qed.

Lemma lfn_entry_ok sq ck chars :
  byte_ok sq -> byte_ok ck -> length chars = 13%nat -> slot_ok (lfn_entry sq ck chars).
Proof.
  intros Hs Hc Hl. unfold lfn_entry.
  assert (H5 : length (concat (map (le_bytes 2) (take 5 chars))) = 10%nat) by (rewrite (proj1 (concat_le_bytes _ _)), length_take; lia).
  assert (H6 : length (concat (map (le_bytes 2) (take 6 (drop 5 chars)))) = 12%nat)
    by (rewrite (proj1 (concat_le_bytes _ _)), length_take, length_drop; lia).
  assert (H2 : length (concat (map (le_bytes 2) (take 2 (drop 11 chars)))) = 4%nat)
    by (rewrite (proj1 (concat_le_bytes _ _)), length_take, length_drop; lia).
  pose proof (concat_le_bytes 2 (take 5 chars)) as [_ B5]. pose proof (concat_le_bytes 2 (take 6 (drop 5 chars))) as [_ B6].
  pose proof (concat_le_bytes 2 (take 2 (drop 11 chars))) as [_ B2].
  split.
  - repeat (rewrite length_splice || rewrite length_insert || rewrite length_replicate); lia.
  - apply Forall_splice; [done|]. apply Forall_splice; [done|]. apply bytes_ok_insert; [done|]. apply bytes_ok_insert; [apply byte_ok_mod with (z := 0)|].
    apply bytes_ok_insert; [unfold byte_ok; lia|]. apply Forall_splice; [done|]. apply bytes_ok_insert; [done|]. apply bytes_ok_zeroes.
Qed.

Lemma lor_0x40_byte q : byte_ok q -> byte_ok (Z.lor q 0x40).
Proof.
  intros [H0 H1]. split; [apply Z.lor_nonneg; lia|]. destruct (decide (q = 0)) as [->|]; [done|].
  apply Z.log2_lt_cancel. rewrite Z.log2_lor by lia. apply Z.max_lub_lt; [|done].
  change (Z.log2 256) with 8. apply Z.log2_lt_pow2; lia.
Qed.

Lemma build_lfn_entries_ok nm sn :
  nm <> [] -> (length nm <= 195)%nat ->
  Forall slot_ok (build_lfn_entries nm sn) /\ (length (build_lfn_entries nm sn) <= 15)%nat.
Proof.
  intros Hne Hl. rewrite build_lfn_entries_eq by done. cbn zeta. split.
  - apply List.Forall_forall. intros e (i & <- & _)%in_map_iff. apply lfn_entry_ok.
    + destruct (_ =? _)%nat; [apply lor_0x40_byte|]; apply byte_ok_mod.
    + apply lfn_checksum_byte.
    + apply lfn_chars_length. unfold name_chunk. rewrite length_take. lia.
  - rewrite length_map, length_rev, length_seq. unfold div_ceil. apply Nat.lt_succ_r, Nat.Div0.div_lt_upper_bound. lia.
Qed.

Lemma plain_bytes l : forallb plain l = true -> bytes_ok l.
Proof.
  intros H. apply List.Forall_forall. intros b Hb. rewrite forallb_forall in H. specialize (H b Hb). unfold plain in H. unbool.
  unfold byte_ok. lia.
Qed.

Lemma graphic_bytes l : Forall graphic l -> bytes_ok (map to_ascii_uppercase l).
Proof. induction 1 as [|b l Hb _ IH]; cbn; constructor; [|done]. apply graphic_upper in Hb. unfold graphic in Hb. unfold byte_ok. lia. Qed.

Lemma stored_bytes nm sn longs : stored nm sn longs -> bytes_ok sn.
Proof.
  intros H. rewrite <- (take_drop 8 sn).
  assert (Hp : forall n, bytes_ok (replicate n 0x20)) by (intros n; apply Forall_replicate; unfold byte_ok; lia).
  destruct H as [nm sn Hsn Hg _|nm sn _ Hs Hl _ _ _].
  - destruct (to_short_name_Ok _ _ Hsn) as (base & ext & Hbe & _ & _ & _ & _ & -> & ->).
    assert (Hgb : Forall graphic base /\ Forall graphic ext).
    { unfold base_ext in Hbe. destruct (split_once_dot nm) as [[b' e']|] eqn:E; injection Hbe as <- <-.
      - apply split_once_dot_Some in E as ->. apply Forall_app in Hg as [Hb Hg]. apply Forall_app in Hg as [_ He]. done.
      - by split. }
    destruct Hgb as [Hb He]. repeat apply Forall_app_2; try apply Hp; by apply graphic_bytes.
  - destruct (sane_parts sn Hs Hl) as (base & ext & Hb & He & _ & _ & _ & -> & -> & _).
    repeat apply Forall_app_2; try apply Hp; by apply plain_bytes.
Qed.

Lemma short_entry_ok nm sn longs first sz t d :
  stored nm sn longs -> slot_ok (build_dir_entry sn 0x20 first sz t d).
Proof.
  intros Hst. destruct (stored_first nm sn longs Hst) as (Hl & _). pose proof (stored_bytes nm sn longs Hst) as Hb.
  unfold build_dir_entry. split.
  - repeat (rewrite length_splice || rewrite length_insert || rewrite length_replicate || rewrite length_le_bytes); lia.
  - bytes.
Qed.

Lemma stored_longs nm sn longs : stored nm sn longs -> Forall slot_ok longs /\ (length longs <= 15)%nat.
Proof. destruct 1; [split; [constructor|cbn; lia]|]. by apply build_lfn_entries_ok. Qed.

(** The name asked for finds the entry. *)
Lemma stored_named nm sn longs e :
  stored nm sn longs -> name e = (match longs with [] => shown sn | _ => nm end) -> eq_ignore_ascii_case (name e) nm = true.
Proof.
  intros Hst ->. destruct Hst as [nm sn Hsn Hg Hd|nm sn _ _ _ Hne Hv Hl].
  - destruct (short_name_roundtrip nm sn Hsn Hg Hd) as [Hlen H]. unfold shown.
    rewrite (take_ge (drop 8 sn)) in H by (rewrite length_drop; lia). done.
  - destruct (build_lfn_starts nm sn Hne) as (r & rs & -> & _); [|lia|by apply bool_decide_eq_true].
    eapply Forall_impl; [exact Hv|]. apply valid_lfn_name_byte.
Qed.

(** ** The volume *)

Section Create.
Context {D : Type} `{BlockDev D}.
Implicit Types v : Vol D.

(** The slots of the root directory. *)
Definition root_slots v : list (list Z) := slots_at (sector_at (dev v)) (root_lbas (info v)).

Record root_ok v : Prop := {
  ro_synced : fat_synced v;
  ro_geo : geometry (info v);
  ro_before : first_fat_sector (info v) + fat_size_16 (info v) <= first_root_dir_sector (info v);
  ro_root : first_root_dir_sector (info v) + root_dir_sectors (info v) = first_data_sector (info v);
  ro_table : Z.of_nat (length (fat_bytes (info v))) * 2 / 3 <= 0xFF8;
  ro_serves : served v (root_lbas (info v));
  ro_data : forall c, c ∈ scan_range (info v) -> served v (cluster_lbas (info v) c);
  ro_tidy : tidy (root_slots v) false = true;
}.

Lemma root_lbas_eq v : root_ok v ->
  root_lbas (info v) = map (fun s => first_root_dir_sector (info v) + Z.of_nat s) (seq 0 (Z.to_nat (root_dir_sectors (info v)))).
Proof.
  intros [_ [Hs Hd _] Hb Hr _ _ _ _]. unfold root_lbas. apply map_ext_in. intros s Hin%List.in_seq.
  assert (0 <= first_root_dir_sector (info v)) by (apply wrap_in_u; lia). apply wrap_id. unfold in_u. nia.
Qed.

Lemma root_lbas_NoDup v : root_ok v -> NoDup (root_lbas (info v)).
Proof.
  intros Hv. rewrite root_lbas_eq by done. apply NoDup_fmap_2_strong; [|apply NoDup_seq]. intros i j _ _ E. lia.
Qed.

Lemma root_lbas_range v a : root_ok v -> a ∈ root_lbas (info v) ->
  first_root_dir_sector (info v) <= a < first_data_sector (info v).
Proof.
  intros Hv. rewrite root_lbas_eq by done. intros (s & -> & Hs)%list_elem_of_fmap. apply elem_of_seq in Hs.
  rewrite <- (ro_root v Hv). lia.
Qed.

Lemma root_outside v a : root_ok v -> a ∈ root_lbas (info v) -> outside_table (info v) a.
Proof. intros Hv Ha. apply root_lbas_range in Ha; [|done]. pose proof (ro_before v Hv). unfold outside_table. lia. Qed.

Lemma free_linkable v cs :
  root_ok v -> (forall c, c ∈ cs -> c ∈ free_clusters_of (info v)) ->
  table_small (info v) /\ Forall (linkable (fat_bytes (info v))) cs /\ served v (all_lbas (info v) cs) /\
  forall a, a ∈ root_lbas (info v) -> a ∉ all_lbas (info v) cs.
Proof.
  intros Hv Hcs. assert (Hsm : table_small (info v)) by (unfold table_small; pose proof (ro_table v Hv); div_lia).
  assert (Hl : forall c, c ∈ cs -> c ∈ scan_range (info v) /\ linkable (fat_bytes (info v)) c).
  { intros c Hc%Hcs. apply free_clusters_of_spec in Hc as [Hc _]. split; [done|].
    destruct (scan_range_in _ _ Hsm Hc) as [Hr Hin]. split; [|done]. pose proof (ro_table v Hv). unfold data_cluster. lia. }
  split; [done|]. split; [|split].
  - apply Forall_forall. intros c Hc. by apply Hl.
  - apply Forall_forall. intros a (c & Hc & Ha)%in_all_lbas. pose proof (ro_data v Hv c (proj1 (Hl c Hc))) as Hs.
    unfold served in Hs. rewrite Forall_forall in Hs. by apply Hs.
  - intros a Ha (c & Hc & Hac)%in_all_lbas. apply root_lbas_range in Ha; [|done].
    destruct (Hl c Hc) as [_ [Hdc _]]. apply in_cluster_lbas in Hac; [|by apply ro_geo|done].
    pose proof (geo_spc _ (ro_geo v Hv)). unfold data_cluster in Hdc. nia.
Qed.

Lemma root_ok_unchanged v v' : root_ok v -> unchanged v v' -> root_ok v'.
Proof.
  intros [[Z1 Z2 Z3 Z4 Z5 Z6] Hg Hb Hr Ht Hs Hd Hti] [Hi [Hbec Hser]]. split; rewrite ?Hi; try done.
  - split; rewrite ?Hi; try done; intros i Hi'; [by apply Hser, Z5|by rewrite Hbec, Z6].
  - eapply Forall_impl; [exact Hs|]. apply Hser.
  - intros c Hc. eapply Forall_impl; [by apply Hd|]. apply Hser.
  - unfold root_slots in *. rewrite Hi. by rewrite (slots_unchanged v v').
Qed.

(** ** The steps of [create_file_impl] *)

Lemma root_listing v :
  root_ok v -> exists v', list_root_directory v = (Ok (entries (root_slots v)), v') /\ unchanged v v'.
Proof.
  intros Hv. destruct (listing_ok (root_lbas (info v)) v (ro_serves v Hv)) as (v' & E & U). by exists v'.
Qed.

Definition good_name (nm : list Z) : Prop :=
  is_ok (to_short_name nm) = true -> Forall graphic nm /\ forall base, split_once_dot nm <> Some (base, []).

(** The alias search reads the directory and finds a sane name or gives up. *)
Lemma alias_ok nm v :
  root_ok v -> exists r v', generate_short_alias Root nm v = (r, v') /\ unchanged v v' /\
    match r with Ok sn => sane_short sn = true /\ length sn = 11%nat | Err _ => True | _ => False end.
Proof.
  intros Hv. unfold generate_short_alias. destruct (base_ext nm) as [base ext].
  destruct (short_names_ok Root (root_lbas (info v)) v eq_refl (ro_serves v Hv)) as (v' & E & U).
  rewrite (M_bind_Ok _ _ _ _ _ E).
  destruct (find _ _) as [out|] eqn:Ef; [|by eexists _, v'].
  exists (Ok out), v'. split; [done|]. split; [done|].
  apply find_some in Ef as [Hin _]. apply in_map_iff in Hin as (n & <- & Hn). apply List.in_seq in Hn.
  set (cb := if bool_decide (alias_clean base = []) then [0x5F] else alias_clean base).
  assert (Hcb : forallb plain cb = true /\ cb <> []).
  { unfold cb. case_bool_decide; [done|]. split; [apply alias_clean_plain|done]. }
  apply alias_sane; [apply forallb_take, Hcb|apply forallb_take, alias_clean_plain| |rewrite length_take; lia..|lia].
  destruct Hcb as [_ Hcb]. by destruct cb.
Qed.

Lemma to_short_name_settles nm : exists r, to_short_name nm = r /\ settles r.
Proof. eexists. split; [done|]. unfold to_short_name. destruct (base_ext nm). by destruct (_ || _)%bool. Qed.

Lemma name_entries_ok nm v :
  root_ok v -> good_name nm -> exists r v', build_name_entries Root nm v = (r, v') /\ unchanged v v' /\
    match r with
    | Ok (sn, longs) => stored nm sn longs /\ (longs = [] -> sn ∉ short_names (root_slots v))
    | Err _ => True
    | _ => False
    end.
Proof.
  intros Hv Hgood. unfold build_name_entries. destruct (to_short_name_settles nm) as (r & Es & Hs). rewrite Es.
  destruct r as [s|e| |]; [| |done..].
  - destruct (short_names_ok Root (root_lbas (info v)) v eq_refl (ro_serves v Hv)) as (v' & E & U).
    rewrite (M_bind_Ok _ _ _ _ _ E). destruct (existsb _ _) eqn:Ex; [by eexists _, v'|].
    exists (Ok (s, [])), v'. split; [done|]. split; [done|]. destruct (Hgood ltac:(by rewrite Es)) as [Hgr Hd].
    split; [by apply stored_short|]. intros _ Hin. apply not_true_iff_false in Ex. apply Ex, existsb_exists. exists s.
    split; [by apply list_elem_of_In|]. by apply bool_decide_eq_true.
  - destruct (_ || _)%bool eqn:Eo; [eexists _, v; split; [done|]; split; [apply unchanged_refl|done]|].
    destruct (alias_ok nm v Hv) as (r & v' & E & U & Hr). destruct r as [sn|e'| |]; [| |done..].
    + rewrite (M_bind_Ok _ _ _ _ _ E). exists (Ok (sn, build_lfn_entries nm sn)), v'. split; [done|]. split; [done|].
      apply orb_false_iff in Eo as [Eo Ev]. apply orb_false_iff in Eo as [En El].
      apply bool_decide_eq_false in En. apply Nat.ltb_ge in El. unfold MAX_LFN_CHARS in El. apply negb_false_iff in Ev.
      rewrite forallb_forall in Ev. split.
      * destruct Hr. apply stored_long; try done; [by rewrite Es|]. by apply List.Forall_forall.
      * intros E0. destruct (build_lfn_starts nm sn En) as (r & rs & E1 & _); [|lia|by rewrite E1 in E0].
        apply List.Forall_forall. intros b Hb. by apply valid_lfn_name_byte, Ev.
    + unfold mbind, M_bind. rewrite E. by eexists _, v'.
Qed.

Lemma zip_fst_snd {A B} (l1 : list A) (l2 : list B) l :
  zip l1 l2 = l -> length l1 = length l2 -> l1 = map fst l /\ l2 = map snd l.
Proof.
  revert l2 l. induction l1 as [|x l1 IH]; intros [|y l2] l <- Hl; try done.
  destruct (IH l2 (zip l1 l2) eq_refl ltac:(cbn in Hl; lia)) as [H1 H2]. cbn [zip_with map fst snd]. by rewrite <- H1, <- H2.
Qed.

(** A run of free slots: where it lies and what is around it. *)
Lemma run_ok v count :
  root_ok v -> (1 <= count <= 16)%nat ->
  exists r v', find_free_entry_run_in Root count v = (r, v') /\ unchanged v v' /\
    match r with
    | Ok slots => exists A F B P Q, root_slots v = A ++ F ++ B /\ positions (root_lbas (info v)) = P ++ slots ++ Q /\
        length P = length A /\ length F = count /\ length slots = count /\ Forall (fun r => free_slot r = true) F /\ no_end A
    | Err _ => True
    | _ => False
    end.
Proof.
  intros Hv Hc. destruct (free_run_ok count v Hc (ro_serves v Hv)) as (v' & E & U).
  exists (find_free_entry_run_in Root count v).1, v'. rewrite E. split; [done|]. split; [done|]. cbn [fst].
  destruct (free_run _ count []) as [run|run] eqn:Er; [done|].
  set (l := zip (positions (root_lbas (info v))) (slots_at (sector_at (dev v)) (root_lbas (info v)))) in *.
  destruct (zip_fst_snd _ _ l eq_refl) as [Hp Hs].
  { rewrite length_positions, length_slots_at; [done|]. apply sector_at_length. }
  assert (Hff : forall F, Forall (fun x : (Z * nat) * list Z => free_slot x.2 = true) F ->
    Forall (fun r => free_slot r = true) (map snd F)) by (intros F HF; by apply Forall_map).
  destruct (free_run_spec l count [] run Er) as [(F & B & Hl & -> & HF & Hfree)|(A & x & F & B & Hl & -> & HF & Hfree & Hx)]; [cbn; lia| |].
  - cbn [length app] in *. exists [], (map snd F), (map snd B), [], (map fst B). unfold root_slots.
    rewrite Hs, Hp, Hl, !map_app, !length_map. repeat split; auto. constructor.
  - exists (map snd A ++ [x.2]), (map snd F), (map snd B), (map fst A ++ [x.1]), (map fst B). unfold root_slots.
    rewrite Hs, Hp, Hl, !map_app. cbn [map]. rewrite !map_app, !length_app, !length_map, <- !app_assoc. repeat split; auto.
    assert (Ht := ro_tidy v Hv). unfold root_slots in Ht. rewrite Hs, Hl, map_app in Ht. cbn [map] in Ht.
    by eapply tidy_in_front.
Qed.

(** The clusters taken are free, different and enough. *)
Lemma clusters_ok v (data : list Z) :
  root_ok v -> exists needed, clusters_needed (info v) (length data) = Ok needed /\
    match find_free_clusters (info v) needed with
    | Ok cs => (exists c rest, cs = c :: rest) /\ NoDup cs /\ (forall c, c ∈ cs -> c ∈ free_clusters_of (info v)) /\
        (length data <= SECTOR * length (all_lbas (info v) cs))%nat
    | Err _ => True
    | _ => False
    end.
Proof.
  intros Hv. pose proof (geo_spc _ (ro_geo v Hv)) as Hspc.
  assert (Hsm : table_small (info v)) by (unfold table_small; pose proof (ro_table v Hv); div_lia).
  set (k := Z.to_nat (sectors_per_cluster (info v))). assert (Hk : (0 < k)%nat) by lia.
  exists (Nat.max (div_ceil (length data) (k * 512)) 1). split.
  { unfold clusters_needed. fold k. destruct (Nat.eqb_spec (k * 512) 0); [lia|done]. }
  set (needed := Nat.max _ 1). rewrite find_free_clusters_eq by done. destruct (Nat.ltb_spec (length (free_clusters_of (info v))) needed); [done|].
  assert (Hl : length (take needed (free_clusters_of (info v))) = needed) by (rewrite length_take; lia).
  split; [|split; [|split]].
  - destruct (take needed (free_clusters_of (info v))) as [|c rest]; [cbn in Hl; lia|by exists c, rest].
  - pose proof (free_clusters_of_NoDup (info v)) as Hnd.
    rewrite <- (take_drop needed (free_clusters_of (info v))) in Hnd. by apply NoDup_app in Hnd as (? & _).
  - intros c Hc. rewrite <- (take_drop needed (free_clusters_of (info v))). apply elem_of_app. by left.
  - rewrite length_all_lbas, Hl. fold k. unfold needed, div_ceil.
    pose proof (Nat.div_mod_eq (length data + k * 512 - 1) (k * 512)) as Hd.
    pose proof (Nat.mod_upper_bound (length data + k * 512 - 1) (k * 512) ltac:(lia)) as Hm.
    set (q := ((length data + k * 512 - 1) / (k * 512))%nat) in *. unfold SECTOR. nia.
Qed.

Lemma write_slots_ok v A F B P Q slots longs short :
  root_ok v -> root_slots v = A ++ F ++ B -> positions (root_lbas (info v)) = P ++ slots ++ Q ->
  length P = length A -> length F = S (length longs) -> length slots = S (length longs) -> Forall slot_ok (longs ++ [short]) ->
  forall d1, (forall a, a ∈ root_lbas (info v) -> sector_at d1 a = sector_at (dev v) a) -> (forall a, serves (dev v) a -> serves d1 a) ->
  forall fs1, root_lbas fs1 = root_lbas (info v) ->
  exists d2, write_name_entries slots longs short (mk_Vol fs1 d1) = (Ok tt, mk_Vol fs1 d2) /\
    slots_at (sector_at d2) (root_lbas (info v)) = A ++ (longs ++ [short]) ++ B /\
    (forall a, a ∉ root_lbas (info v) -> sector_at d2 a = sector_at d1 a) /\ (forall a, serves d1 a -> serves d2 a).
Proof.
  intros Hv HA HP Hl HlF Hls Hok d1 Hd1 Hs1 fs1 Hfs.
  set (G := longs ++ [short]) in *. assert (HlG : length G = length slots) by (unfold G; rewrite length_app; cbn; lia).
  set (ws := zip (zip (seq (length A) (length G)) slots) G).
  assert (Hlz : length (zip (seq (length A) (length G)) slots) = length G) by (rewrite length_zip_with, length_seq; lia).
  destruct (patch_all_ok (mk_Vol fs1 d1) (root_lbas (info v)) ws) as (v2 & E2 & I2 & S2 & O2 & K2).
  - by apply root_lbas_NoDup.
  - eapply Forall_impl; [exact (ro_serves v Hv)|]. apply Hs1.
  - apply Forall_forall. intros [[i p] b] Hin. apply list_elem_of_lookup in Hin as [j Hj].
    unfold ws in Hj. apply lookup_zip_Some in Hj as [Hj Hb]. apply lookup_zip_Some in Hj as [Hi Hp]. cbn [fst snd] in *. split.
    + apply lookup_seq in Hi as [-> Hi]. rewrite HP, lookup_app_r by lia. rewrite lookup_app_l by lia.
      by replace (length A + j - length P)%nat with j by lia.
    + rewrite Forall_forall in Hok. apply Hok. by eapply list_elem_of_lookup_2.
  - destruct v2 as [i2 d2]. cbn [info dev] in *. subst i2. exists d2. split; [|split; [|split; [done|done]]].
    + rewrite <- E2. unfold write_name_entries. destruct (list_snoc_cases slots) as [->|(sl & p & ->)] eqn:E; [done|]. clear E.
      rewrite last_snoc. destruct p as [lba off]. f_equal.
      assert (Hsl : length sl = length longs) by (rewrite length_app in Hls; cbn in Hls; lia).
      transitivity (zip (sl ++ [(lba, off)]) G).
      * exact (zip_snoc sl (lba, off) longs short Hsl).
      * unfold ws. destruct (zip_fst_snd (seq (length A) (length G)) (sl ++ [(lba, off)]) _ eq_refl) as [_ Hq]; [rewrite length_seq; lia|].
        rewrite Hq at 1. apply zip_map_snd.
    + rewrite S2. rewrite (slots_at_ext (sector_at d1) (sector_at (dev v))) by done. fold (root_slots v). rewrite HA.
      rewrite <- (foldl_run A F B G) by lia. unfold ws.
      rewrite foldl_zip_fst; [done|]. rewrite length_seq. lia.
Qed.

Lemma in_cluster_outside v c a :
  root_ok v -> data_cluster c -> a ∈ cluster_lbas (info v) c -> outside_table (info v) a /\ a ∉ root_lbas (info v).
Proof.
  intros Hv Hc Ha. split.
  - pose proof (cluster_lbas_outside (info v) c (ro_geo v Hv) Hc) as Ho. rewrite Forall_forall in Ho. by apply Ho.
  - intros Hr%root_lbas_range; [|done]. apply in_cluster_lbas in Ha; [|by apply ro_geo|done].
    pose proof (geo_spc _ (ro_geo v Hv)). unfold data_cluster in Hc. nia.
Qed.

(** What the writes of a creation leave: the table links the clusters, they hold the
    data, the slots are in place, all else is as it was. *)
Record created v cs data slots v' : Prop := {
  cr_info : info v' = set_fat_bytes (link_table (fat_bytes (info v)) cs) (info v);
  cr_synced : fat_synced v';
  cr_slots : root_slots v' = slots;
  cr_sectors : forall a, a ∉ root_lbas (info v) -> outside_table (info v) a ->
    sector_at (dev v') a = write_blocks data 0 (all_lbas (info v) cs) (sector_at (dev v)) a;
  cr_serves : forall a, serves (dev v) a -> serves (dev v') a;
}.

Lemma created_ok v cs data A F B P Q slots longs short :
  root_ok v -> (forall c, c ∈ cs -> c ∈ free_clusters_of (info v)) -> NoDup cs -> bytes_ok data ->
  root_slots v = A ++ F ++ B -> positions (root_lbas (info v)) = P ++ slots ++ Q ->
  length P = length A -> length F = S (length longs) -> length slots = S (length longs) -> Forall slot_ok (longs ++ [short]) ->
  exists v1 v2, write_clusters cs data 0 v = (Ok tt, v1) /\ write_name_entries slots longs short v1 = (Ok tt, v2) /\
    created v cs data (A ++ (longs ++ [short]) ++ B) v2.
Proof.
  intros Hv Hcs Hnd Hb HA HP Hl HlF Hls Hok. destruct (free_linkable v cs Hv Hcs) as (_ & Hlk & Hsv & Hdis).
  destruct (write_clusters_ok v cs data 0 (ro_synced v Hv) (ro_geo v Hv) Hb Hnd Hlk Hsv) as (d1 & E1 & Sy1 & B1 & K1).
  set (fs1 := set_fat_bytes (link_table (fat_bytes (info v)) cs) (info v)) in *.
  destruct (write_slots_ok v A F B P Q slots longs short Hv HA HP Hl HlF Hls Hok d1) with (fs1 := fs1) as (d2 & E2 & S2 & O2 & K2).
  - intros a Ha. rewrite B1 by (by apply root_outside). apply write_blocks_out. by apply Hdis.
  - exact K1.
  - done.
  - exists (mk_Vol fs1 d1), (mk_Vol fs1 d2). split; [exact E1|]. split; [exact E2|]. split; [done| |exact S2| |].
    + destruct Sy1 as [Z1 Z2 Z3 Z4 Z5 Z6]. split; try done; intros i Hi; cbn [info dev] in *.
      * by apply K2, Z5.
      * rewrite O2; [by apply Z6|]. intros Hr%(root_outside v); [|done]. apply Hr. cbn [fs1 set_fat_bytes fat_size_16] in Hi.
        pose proof (sy_size v (ro_synced v Hv)).
        change (first_fat_sector fs1) with (first_fat_sector (info v)). lia.
    + intros a Ha Ho. cbn [dev]. rewrite O2 by done. by apply B1.
    + intros a Ha. by apply K2, K1.
Qed.

Lemma created_unchanged v w cs data slots v' : unchanged v w -> created w cs data slots v' -> created v cs data slots v'.
Proof.
  intros [Hi [Hb Hs]] [C1 C2 C3 C4 C5]. rewrite Hi in *. split; try done.
  - intros a Ha Ho. rewrite C4 by done. apply write_blocks_ext, Hb.
  - intros a Ha. by apply C5, Hs.
Qed.

Lemma synced_unchanged v w : fat_synced v -> unchanged v w -> fat_synced w.
Proof.
  intros [Z1 Z2 Z3 Z4 Z5 Z6] [Hi [B S]]. split; rewrite ?Hi; try done; intros i Hi'; [by apply S, Z5|by rewrite B, Z6].
Qed.

Lemma root_slots_unchanged v w : unchanged v w -> root_slots w = root_slots v.
Proof. intros U. unfold root_slots. rewrite (proj1 U). by apply slots_unchanged. Qed.

Lemma created_read v cs data slots v' w : created v cs data slots v' -> unchanged v' w -> created v cs data slots w.
Proof.
  intros [C1 C2 C3 C4 C5] U. split; [by rewrite (proj1 U)|by eapply synced_unchanged|by rewrite (root_slots_unchanged v' w U)| |].
  - intros a Ha Ho. rewrite (proj1 (proj2 U)). by apply C4.
  - intros a Ha. by apply U, C5.
Qed.

Lemma scan_range_length fs b : length b = length (fat_bytes fs) -> scan_range (set_fat_bytes b fs) = scan_range fs.
Proof. intros Hl. unfold scan_range. cbn [set_fat_bytes fat_bytes]. by rewrite Hl. Qed.

Lemma created_root_ok v cs data slots v' :
  root_ok v -> created v cs data slots v' -> tidy slots false = true -> root_ok v'.
Proof.
  intros [Hs [g1 g2 g3] Hb Hr Ht Hsv Hd Hti] [Hi Sy Hsl _ Hk] Hty.
  assert (Hlen : length (link_table (fat_bytes (info v)) cs) = length (fat_bytes (info v))) by (apply link_table_wf, Hs).
  split; rewrite ?Hi; try done.
  - cbn [set_fat_bytes fat_bytes]. by rewrite Hlen.
  - eapply Forall_impl; [exact Hsv|]. apply Hk.
  - intros c Hc. rewrite scan_range_length in Hc by done. eapply Forall_impl; [by apply Hd|]. apply Hk.
  - by rewrite Hsl.
Qed.

(** ** Reading *)

(** What a name finds, as [find_entry_location_in] reports it. *)
Lemma lookup_found v nm j e :
  root_ok v -> lookup_slot (root_slots v) nm = Some (j, e) ->
  exists lba off, (find_entry_location_in Root nm v).1 = Ok (lba, off, e).
Proof.
  intros Hv El. destruct (find_entry_ok Root (root_lbas (info v)) nm v eq_refl (ro_serves v Hv)) as (v' & E & U).
  fold (root_slots v) in E. rewrite El in E.
  assert (Hj : (j < length (positions (root_lbas (info v))))%nat).
  { unfold lookup_slot in El. destruct (find_in_slots (root_slots v) 0 nm LfnState_default) as [j' e'| |] eqn:Ef; try done.
    injection El as -> ->. apply find_bound in Ef. unfold root_slots in Ef. rewrite length_slots_at in Ef by apply sector_at_length.
    rewrite length_positions. lia. }
  apply lookup_lt_is_Some in Hj as [[a o] Hj]. rewrite Hj in E. exists a, o. by rewrite E.
Qed.

Lemma read_found v nm :
  root_ok v -> exists v', unchanged v v' /\
    read_file nm v = match lookup_slot (root_slots v) nm with
      | Some (_, e) => if is_dir e then (Err (file_not_found Root), v') else if size e =? 0 then (Ok [], v')
          else read_chain (size e) (FatCommon.start_cluster e) v'
      | None => (Err (file_not_found Root), v')
      end.
Proof.
  intros Hv. destruct (find_entry_ok Root (root_lbas (info v)) nm v eq_refl (ro_serves v Hv)) as (v' & E & U).
  exists v'. split; [done|]. unfold read_file, read_file_impl. fold (root_slots v) in E.
  destruct (lookup_slot (root_slots v) nm) as [[j e]|] eqn:El.
  - destruct (lookup_found v nm j e Hv El) as (a & o & Ef). rewrite E in Ef. cbn [fst] in Ef. rewrite Ef in E.
    rewrite (M_bind_Ok _ _ _ _ _ E).
    destruct (is_dir e); [done|]. by destruct (size e =? 0).
  - unfold mbind, M_bind. by rewrite E.
Qed.

(** The reading loop as a function of the sectors. *)
Definition read_scan (size a : Z) (buf data : list Z) : res (list Z + list Z) :=
  let remaining := size - Z.of_nat (length data) in
  let data := data ++ take (Z.to_nat (Z.min remaining 512)) buf in
  Ok (if size <=? Z.of_nat (length data) then inr data else inl data).

Lemma scan_ext_in {B R} (g : Z -> list Z -> B -> res (B + R)) f1 f2 lbas b :
  (forall a, a ∈ lbas -> f1 a = f2 a) -> scan g f1 lbas b = scan g f2 lbas b.
Proof.
  revert b. induction lbas as [|a l IH]; intros b Hf; [done|]. cbn [scan]. rewrite (Hf a) by (by left).
  destruct (g a (f2 a) b) as [[b'|r]| | |]; cbn [mbind res_bind]; [|done..]. apply IH. intros x Hx. apply Hf. by right.
Qed.

Lemma read_chain_scan v size c cs :
  chain (info v) CHAIN_FUEL c = Ok cs -> served v (all_lbas (info v) cs) ->
  (read_chain size c v).1 = (o ← scan (read_scan size) (sector_at (dev v)) (all_lbas (info v) cs) [];
    Ok (match o with inl data => data | inr data => data end)).
Proof.
  intros Hc Hs. unfold read_chain. rewrite (M_bind_Ok _ _ v (info v) v) by done.
  destruct (scan_ok (read_scan size) (all_lbas (info v) cs) [] v Hs) as (v' & E & _).
  unfold mbind at 1, M_bind at 1.
  rewrite (walk_for_each _ (fun c b v => for_each_keeps _ _ b v (read_step_keeps _)) _ _ _ _ _ Hc).
  rewrite for_each_concat. fold (all_lbas (info v) cs).
  rewrite (for_each_body _ (fun a b => buf ← read_lba a; lift (read_scan size a buf b))) by done. rewrite E.
  by destruct (scan (read_scan size) (sector_at (dev v)) (all_lbas (info v) cs) []).
Qed.

Lemma chain_used fs f c cs x :
  chain fs f c = Ok cs -> x ∈ cs -> in_table (fat_bytes fs) x /\ fat_entry (fat_bytes fs) x <> 0.
Proof.
  intros Hc Hx. apply list_elem_of_split in Hx as (l1 & l2 & ->). pose proof (chain_suffix _ _ _ _ _ _ _ Hc eq_refl) as Hx.
  apply chain_step in Hx as [Hin Hx]. split; [done|]. intros Hz.
  assert (Hn : next_cluster fs x = Err "FAT12: cluster chain hit a free (0) entry unexpectedly").
  { rewrite next_cluster_entry by done. cbn zeta. by rewrite Hz. }
  destruct Hx as [(n & f' & r & _ & Hn' & _)|[Hn' _]]; by rewrite Hn in Hn'.
Qed.

Lemma in_table_scan fs c : table_small fs -> data_cluster c -> in_table (fat_bytes fs) c -> c ∈ scan_range fs.
Proof.
  unfold table_small, data_cluster, in_table, fat_offset, scan_range. intros Hs Hc Hin.
  rewrite wrap_id in Hin by (unfold in_u; lia). rewrite wrap_id by (unfold in_u; div_lia).
  apply list_elem_of_fmap. exists (Z.to_nat (c - 2)). split; [lia|]. apply elem_of_seq.
  assert (c < Z.of_nat (length (fat_bytes fs)) * 2 / 3) by div_lia. lia.
Qed.

Lemma read_back v c rest data slots v' nm j e :
  root_ok v -> (forall x, x ∈ c :: rest -> x ∈ free_clusters_of (info v)) -> NoDup (c :: rest) ->
  (length data <= SECTOR * length (all_lbas (info v) (c :: rest)))%nat ->
  created v (c :: rest) data slots v' -> root_ok v' ->
  lookup_slot slots nm = Some (j, e) -> is_dir e = false -> size e = Z.of_nat (length data) -> FatCommon.start_cluster e = c ->
  (read_file nm v').1 = Ok data.
Proof.
  intros Hv Hcs Hnd Hlen [Hi _ Hsl Hsec Hk] Hv' Hlk Hd Hsz Hc. set (cs := c :: rest) in *.
  destruct (free_linkable v cs Hv Hcs) as (_ & Hlk' & Hsv & Hdis).
  destruct (read_found v' nm Hv') as (v2 & [Hi2 [Hs2 Hk2]] & ->). rewrite Hsl, Hlk, Hd, Hsz.
  destruct (Z.eqb_spec (Z.of_nat (length data)) 0) as [Hz|Hz]; [destruct data; [done|cbn in Hz; lia]|]. rewrite Hc.
  assert (Hdc : Forall data_cluster cs) by (eapply Forall_impl; [exact Hlk'|]; by intros ? []).
  assert (Hall : all_lbas (info v2) cs = all_lbas (info v) cs) by (by rewrite Hi2, Hi).
  destruct (read_chain_ok v2 cs data c) as (d & E & _); [| | |by rewrite E].
  - rewrite Hi2, Hi. eapply chain_more_fuel; [apply (chain_link_table (info v) cs [] c rest); [apply Hv|done..]|].
    pose proof (data_clusters_short cs Hnd Hdc) as Hsh. unfold cs in Hsh. cbn [length] in Hsh. unfold CHAIN_FUEL. lia.
  - rewrite Hall. intros i a Ha. pose proof (list_elem_of_lookup_2 _ _ _ Ha) as Hin. split.
    + apply Hk2, Hk. unfold served in Hsv. rewrite Forall_forall in Hsv. by apply Hsv.
    + apply in_all_lbas in Hin as (x & Hx & Hin). rewrite Forall_forall in Hdc.
      destruct (in_cluster_outside v x a Hv (Hdc x Hx) Hin) as [Ho Hr]. rewrite Hs2, Hsec by done.
      refine (write_blocks_in data 0 _ _ i a _ Ha). apply all_lbas_NoDup; [apply Hv|by apply Forall_forall|done].
  - rewrite Hall. lia.
Qed.

(** A directory, or a file whose chain is a list of data clusters. *)
Definition intact v (e : DirEntry) : Prop :=
  is_dir e = true \/ size e = 0 \/
  exists cs, chain (info v) CHAIN_FUEL (FatCommon.start_cluster e) = Ok cs /\ Forall data_cluster cs.

(** The sectors of a chain in use. *)
Lemma chain_sectors v c ds :
  root_ok v -> chain (info v) CHAIN_FUEL c = Ok ds -> Forall data_cluster ds ->
  served v (all_lbas (info v) ds) /\
  (forall x, x ∈ ds -> data_cluster x /\ x ∈ scan_range (info v) /\ fat_entry (fat_bytes (info v)) x <> 0) /\
  forall a, a ∈ all_lbas (info v) ds -> outside_table (info v) a /\ a ∉ root_lbas (info v).
Proof.
  intros Hv Hch Hds. rewrite Forall_forall in Hds.
  assert (Hsm : table_small (info v)) by (unfold table_small; pose proof (ro_table v Hv); div_lia).
  assert (Huse : forall x, x ∈ ds -> data_cluster x /\ x ∈ scan_range (info v) /\ fat_entry (fat_bytes (info v)) x <> 0).
  { intros x Hx. destruct (chain_used _ _ _ _ x Hch Hx) as [Hin Hne]. split_and!; [by apply Hds| |done].
    apply in_table_scan; [done|by apply Hds|done]. }
  split; [|split; [done|]].
  - apply Forall_forall. intros a (x & Hx & Ha)%in_all_lbas. destruct (Huse x Hx) as (_ & Hsx & _).
    pose proof (ro_data v Hv x Hsx) as Hs. unfold served in Hs. rewrite Forall_forall in Hs. by apply Hs.
  - intros a (x & Hx & Ha)%in_all_lbas. by apply (in_cluster_outside v x a Hv (Hds x Hx)).
Qed.

(** Sectors of clusters in use are not sectors of free ones. *)
Lemma chains_apart v ds cs a :
  root_ok v -> (forall x, x ∈ ds -> data_cluster x /\ x ∈ scan_range (info v) /\ fat_entry (fat_bytes (info v)) x <> 0) ->
  (forall x, x ∈ cs -> x ∈ free_clusters_of (info v)) -> a ∈ all_lbas (info v) ds -> a ∉ all_lbas (info v) cs.
Proof.
  intros Hv Huse Hcs (x & Hx & Ha)%in_all_lbas (y & Hy & Hay)%in_all_lbas. destruct (Huse x Hx) as (Hdx & _ & Hne).
  destruct (free_linkable v cs Hv Hcs) as (_ & Hlk & _ & _). rewrite Forall_forall in Hlk. destruct (Hlk y Hy) as [Hdy _].
  apply in_cluster_lbas in Ha, Hay; [|apply Hv|done|apply Hv|done]. pose proof (geo_spc _ (ro_geo v Hv)).
  assert (x <> y). { intros ->. apply Hcs, free_clusters_of_spec in Hy as [_ Hy]. done. }
  destruct (decide (x < y)); nia.
Qed.

(** A name that finds the same entry reads the same when its chain and the chain's
    sectors are the same. *)
Lemma read_same v v' nm :
  root_ok v -> root_ok v' -> all_lbas (info v') = all_lbas (info v) -> (forall a, serves (dev v) a -> serves (dev v') a) ->
  lookup_slot (root_slots v') nm = lookup_slot (root_slots v) nm ->
  (forall j e, lookup_slot (root_slots v) nm = Some (j, e) -> is_dir e = true \/ size e = 0 \/
     exists ds, chain (info v) CHAIN_FUEL (FatCommon.start_cluster e) = Ok ds /\ Forall data_cluster ds /\
       chain (info v') CHAIN_FUEL (FatCommon.start_cluster e) = Ok ds /\
       forall a, a ∈ all_lbas (info v) ds -> sector_at (dev v') a = sector_at (dev v) a) ->
  (read_file nm v').1 = (read_file nm v).1.
Proof.
  intros Hv Hv' Hall Hk Hlk Hint.
  destruct (read_found v' nm Hv') as (v2 & [Hi2 [Hs2 Hk2]] & ->). destruct (read_found v nm Hv) as (v1 & [Hi1 [Hs1 Hk1]] & ->).
  rewrite Hlk. destruct (lookup_slot (root_slots v) nm) as [[j e]|]; [|done]. specialize (Hint j e eq_refl).
  destruct (is_dir e); [done|]. destruct (Z.eqb_spec (size e) 0); [done|].
  destruct Hint as [?|[?|(ds & Hch & Hds & Hch' & Hsec)]]; [done..|].
  destruct (chain_sectors v _ ds Hv Hch Hds) as (Hserved & _).
  rewrite (read_chain_scan v2 (size e) _ ds) by (rewrite Hi2, ?Hall; first [done|eapply Forall_impl; [exact Hserved|]; intros a Ha; by apply Hk2, Hk]).
  rewrite (read_chain_scan v1 (size e) _ ds) by (rewrite Hi1; first [done|eapply Forall_impl; [exact Hserved|]; intros a Ha; by apply Hk1]).
  rewrite Hi2, Hall, Hi1. f_equal. apply scan_ext_in. intros a Ha. rewrite Hs2, Hs1. by apply Hsec.
Qed.

Lemma read_other v cs data slots v' nm :
  root_ok v -> (forall x, x ∈ cs -> x ∈ free_clusters_of (info v)) -> created v cs data slots v' -> root_ok v' ->
  lookup_slot slots nm = lookup_slot (root_slots v) nm ->
  (forall j e, lookup_slot (root_slots v) nm = Some (j, e) -> intact v e) ->
  (read_file nm v').1 = (read_file nm v).1.
Proof.
  intros Hv Hcs [Hi _ Hsl Hsec Hk] Hv' Hlk Hint. destruct (free_linkable v cs Hv Hcs) as (Hsm & Hlk' & Hsv & _).
  apply read_same; try done; [by rewrite Hi|by rewrite Hsl|]. intros j e Hl.
  destruct (Hint j e Hl) as [?|[?|(ds & Hch & Hds)]]; [by left|by right; left|right; right]. exists ds.
  destruct (chain_sectors v _ ds Hv Hch Hds) as (_ & Huse & Hout).
  assert (Hne : forall x, x ∈ ds -> x ∉ cs).
  { intros x Hx Hx'%Hcs. apply free_clusters_of_spec in Hx' as [_ Hx']. by destruct (Huse x Hx) as (_ & _ & ?). }
  split_and!; [done|done| |].
  - rewrite Hi. apply chain_table_ext; [done|by apply link_table_wf, Hv|]. intros x Hx. destruct (Huse x Hx) as (Hdx & _).
    by apply link_table_out; [apply Hv|done|apply data_cluster12|apply Hne].
  - intros a Ha. destruct (Hout a Ha) as [Ho Hr]. rewrite Hsec by done. apply write_blocks_out.
    by eapply chains_apart.
Qed.

(** A name that is not taken finds nothing in front of its new entry. *)
Lemma not_taken A R nm sn longs :
  no_end A -> tidy_prefix A false = true -> (forall e, e ∈ entries A -> e ∈ entries (A ++ R)) ->
  name_taken (entries (A ++ R)) nm = false -> stored nm sn longs -> (longs = [] -> sn ∉ short_names (A ++ R)) ->
  lookup_slot A nm = None.
Proof.
  intros Hn Ht Hsub Htaken Hst Hnew. unfold lookup_slot. apply (prefix_lookup_None A false 0 [] nm LfnState_default Ht); [done| |].
  - intros e He%Hsub. apply not_true_iff_false. intros Hm. unfold name_taken in Htaken. apply not_true_iff_false in Htaken. apply Htaken.
    apply existsb_exists. exists e. split; [by apply list_elem_of_In|done].
  - intros raw Hin Hk Hsane. apply not_true_iff_false. intros Hm.
    assert (Hraw : length (take 11 raw) = 11%nat).
    { unfold sane_short in Hsane. repeat apply andb_true_iff in Hsane as [Hsane _]. apply bool_decide_eq_true in Hsane.
      assert (Hle : (11 <= length (take 11 raw))%nat); [|rewrite length_take in *; lia].
      rewrite Hsane, !length_app, !length_replicate. lia. }
    pose proof (sane_match _ nm Hsane Hraw Hm) as Hok. destruct Hst as [nm sn Hsn _ _|nm sn Hbad _ _ _ _ _].
    + rewrite Hok in Hsn. injection Hsn as <-. apply (Hnew eq_refl). by apply short_names_in.
    + by rewrite Hok in Hbad.
Qed.

(** The new entry in the list of slots. *)
Lemma create_slots A F B nm sn longs first sz t d :
  tidy (A ++ F ++ B) false = true -> no_end A -> Forall (fun r => free_slot r = true) F -> length F = S (length longs) ->
  name_taken (entries (A ++ F ++ B)) nm = false -> stored nm sn longs -> (longs = [] -> sn ∉ short_names (A ++ F ++ B)) ->
  in_u 32 first -> in_u 32 sz -> in_u 16 t -> in_u 16 d ->
  let slots := A ++ (longs ++ [build_dir_entry sn 0x20 first sz t d]) ++ B in
  let e := mk_DirEntry (match longs with [] => shown sn | _ => nm end) false sz first t d in
  tidy slots false = true /\
  (exists l1 l2, entries (A ++ F ++ B) = l1 ++ l2 /\ entries slots = l1 ++ e :: l2) /\
  lookup_slot slots nm = Some (length A + length longs, e)%nat /\
  eq_ignore_ascii_case (name e) nm = true /\
  (forall other, eq_ignore_ascii_case (name e) other = false -> eq_ignore_ascii_case (shown sn) other = false ->
    lookup_slot slots other = lookup_slot (A ++ F ++ B) other).
Proof.
  intros Ht Hn HF HlF Htaken Hst Hnew Hf Hs Htt Hdd slots e.
  pose proof (new_group nm sn longs 0x20 first sz t d Hst ltac:(by left) Hf Hs Htt Hdd) as HG. cbv zeta in HG.
  change (0x20 =? 0x10) with false in HG. fold e in HG.
  assert (HlG : length (longs ++ [build_dir_entry sn 0x20 first sz t d]) = length F) by (rewrite length_app; cbn [length]; lia).
  assert (HF0 : F <> []) by (by destruct F).
  pose proof (stored_named nm sn longs e Hst eq_refl) as Hname.
  destruct (insert_prefix A F _ B Ht Hn HF HF0 HlG) as (Hta & _ & _).
  destruct (insert_entries A F _ B e _ _ Ht Hn HF HF0 HG HlG) as (l1 & l2 & L1 & L2 & LA).
  split; [|split; [|split; [|split; [done|]]]].
  - by eapply insert_tidy.
  - by exists l1, l2.
  - unfold slots.
    rewrite (insert_lookup A F _ B e _ _ Ht Hn HF HF0 HG HlG). rewrite (not_taken A (F ++ B) nm sn longs Hn Hta); try done.
    + unfold named_by. by rewrite Hname.
    + intros e' He'. rewrite L1. apply elem_of_app. left. by rewrite <- LA.
  - intros other H1 H2. unfold slots. eapply insert_lookup_old; try done. unfold named_by. by rewrite H1, H2.
Qed.
(** What a creation has found when it begins to write. *)
Record plan v (nm data : list Z) v3 sn longs A F B P Q slots c rest : Prop := {
  pl_unchanged : unchanged v v3;
  pl_name : (build_name_entries Root nm (list_root_directory v).2).1 = Ok (sn, longs);
  pl_taken : name_taken (entries (root_slots v)) nm = false;
  pl_stored : stored nm sn longs;
  pl_new : longs = [] -> sn ∉ short_names (root_slots v);
  pl_split : root_slots v = A ++ F ++ B;
  pl_where : positions (root_lbas (info v)) = P ++ slots ++ Q;
  pl_P : length P = length A;
  pl_F : length F = S (length longs);
  pl_slots : length slots = S (length longs);
  pl_free : Forall (fun r => free_slot r = true) F;
  pl_no_end : no_end A;
  pl_NoDup : NoDup (c :: rest);
  pl_clusters : forall x, x ∈ c :: rest -> x ∈ free_clusters_of (info v);
  pl_room : (length data <= SECTOR * length (all_lbas (info v) (c :: rest)))%nat;
}.

Lemma create_plans v clock nm data :
  root_ok v -> good_name nm ->
  (exists e v', create_file clock nm data v = (Err e, v') /\ unchanged v v') \/
  exists v3 sn longs A F B P Q slots c rest, plan v nm data v3 sn longs A F B P Q slots c rest /\
    create_file clock nm data v =
      (_ ← write_clusters (c :: rest) data 0;
       let '(t, d) := to_fat_datetime clock in
       write_name_entries slots longs (build_dir_entry sn 0x20 c (u32 (Z.of_nat (length data))) t d)) v3.
Proof.
  intros Hv Hnm.
  destruct (root_listing v Hv) as (v1 & E1 & U1). pose proof (root_ok_unchanged v v1 Hv U1) as Hv1.
  unfold create_file, create_file_impl. cbn [list_entries_in]. rewrite (M_bind_Ok _ _ _ _ _ E1).
  destruct (name_taken (entries (root_slots v)) nm) eqn:Htaken; [left; by eexists _, v1|].
  destruct (name_entries_ok nm v1 Hv1 Hnm) as (r2 & v2 & E2 & U2' & R2). pose proof (unchanged_trans _ _ _ U1 U2') as U2.
  destruct r2 as [[sn longs]|e| |]; [|left; exists e, v2; split; [by unfold mbind, M_bind; rewrite E2|done]|done..].
  rewrite (M_bind_Ok _ _ _ _ _ E2). destruct R2 as [Hst Hnew]. rewrite (root_slots_unchanged v v1 U1) in Hnew.
  destruct (stored_longs nm sn longs Hst) as [Hlok Hln].
  destruct (run_ok v2 (length longs + 1) (root_ok_unchanged v v2 Hv U2) ltac:(lia)) as (r3 & v3 & E3 & U3' & R3).
  pose proof (unchanged_trans _ _ _ U2 U3') as U3. pose proof (root_ok_unchanged v v3 Hv U3) as Hv3.
  destruct r3 as [slots|e| |]; [|left; exists e, v3; split; [by unfold mbind, M_bind; rewrite E3|done]|done..].
  rewrite (M_bind_Ok _ _ _ _ _ E3). destruct R3 as (A & F & B & P & Q & HA & HP & HlP & HlF & Hls & Hfree & HnA).
  rewrite (root_slots_unchanged v v2 U2) in HA. rewrite (proj1 U2) in HP.
  destruct (clusters_ok v3 data Hv3) as (needed & En & Rn).
  rewrite (M_bind_Ok _ _ v3 needed v3) by (unfold on_fs; by rewrite En).
  assert (Ef : on_fs (fun fs => find_free_clusters fs needed) v3 = (find_free_clusters (info v3) needed, v3)) by done.
  destruct (find_free_clusters (info v3) needed) as [cs|e| |]; [|left; exists e, v3; split; [by unfold mbind, M_bind; rewrite Ef|done]|done..].
  rewrite (M_bind_Ok _ _ _ _ _ Ef).
  destruct Rn as ((c & rest & ->) & Hnd & Hcs & Hcap). rewrite (proj1 U3) in Hcs, Hcap. right.
  exists v3, sn, longs, A, F, B, P, Q, slots, c, rest. split; [split; try done; [by rewrite E1; cbn [snd]; rewrite E2|lia..]|].
  unfold mbind, M_bind. destruct (write_clusters (c :: rest) data 0 v3) as [[u| | |] v4]; [|done..].
  by destruct (to_fat_datetime clock) as [t d].
Qed.

(** Carrying the plan out. *)
Lemma plan_carried_out v nm data v3 sn longs A F B P Q slots c rest t d :
  root_ok v -> bytes_ok data -> Z.of_nat (length data) < 2 ^ 32 -> in_u 16 t -> in_u 16 d ->
  plan v nm data v3 sn longs A F B P Q slots c rest ->
  exists v' slots' e, (_ ← write_clusters (c :: rest) data 0;
       write_name_entries slots longs (build_dir_entry sn 0x20 c (u32 (Z.of_nat (length data))) t d)) v3 = (Ok tt, v') /\
    created v (c :: rest) data slots' v' /\ root_ok v' /\
    e = mk_DirEntry (match longs with [] => shown sn | _ => nm end) false (Z.of_nat (length data)) c t d /\
    slots' = A ++ (longs ++ [build_dir_entry sn 0x20 c (Z.of_nat (length data)) t d]) ++ B /\
    (exists l1 l2, entries (root_slots v) = l1 ++ l2 /\ entries slots' = l1 ++ e :: l2) /\
    lookup_slot slots' nm = Some (length A + length longs, e)%nat /\
    eq_ignore_ascii_case (name e) nm = true /\
    (forall other, eq_ignore_ascii_case (name e) other = false -> eq_ignore_ascii_case (shown sn) other = false ->
      lookup_slot slots' other = lookup_slot (root_slots v) other).
Proof.
  intros Hv Hb Hlen Ht Hd [U _ Htaken Hst Hnew HA HP HlP HlF Hls Hfree HnA Hnd Hcs Hcap].
  rewrite (wrap_id 32 (Z.of_nat (length data))) by (unfold in_u; lia).
  assert (Hc : in_u 32 c).
  { destruct (free_linkable v (c :: rest) Hv Hcs) as (_ & [[Hc _] _]%Forall_cons & _). unfold data_cluster in Hc. unfold in_u. lia. }
  destruct (stored_longs nm sn longs Hst) as [Hlok _].
  pose proof (root_ok_unchanged v v3 Hv U) as Hv3.
  destruct (created_ok v3 (c :: rest) data A F B P Q slots longs (build_dir_entry sn 0x20 c (Z.of_nat (length data)) t d) Hv3)
    as (v4 & v5 & E4 & E5 & C); rewrite ?(proj1 U), ?(root_slots_unchanged v v3 U); try done.
  { apply Forall_app_2; [done|]. constructor; [|done]. by eapply short_entry_ok. }
  apply (created_unchanged v v3) in C; [|done].
  pose proof (ro_tidy v Hv) as Htidy. rewrite HA in Htidy, Htaken, Hnew.
  destruct (create_slots A F B nm sn longs c (Z.of_nat (length data)) t d Htidy HnA Hfree HlF Htaken Hst Hnew Hc
    ltac:(unfold in_u; lia) Ht Hd) as (Ht' & Hent & Hlk & Hname & Hoth).
  eexists v5, _, _. split; [rewrite (M_bind_Ok _ _ _ _ _ E4); exact E5|]. split; [exact C|].
  split; [exact (created_root_ok v _ _ _ _ Hv C Ht')|]. split; [reflexivity|]. split; [reflexivity|]. rewrite HA. done.
Qed.

(** Either nothing is written, or everything and the file reads back. *)
Lemma create_outcome v clock nm data :
  root_ok v -> good_name nm -> bytes_ok data -> Z.of_nat (length data) < 2 ^ 32 -> valid_time clock ->
  (exists e v', create_file clock nm data v = (Err e, v') /\ unchanged v v') \/
  exists v' cs slots e sn longs, create_file clock nm data v = (Ok tt, v') /\
    (forall x, x ∈ cs -> x ∈ free_clusters_of (info v)) /\ created v cs data slots v' /\ root_ok v' /\
    (forall w, unchanged v' w -> (read_file nm w).1 = Ok data) /\
    (build_name_entries Root nm (list_root_directory v).2).1 = Ok (sn, longs) /\
    (exists l1 l2, entries (root_slots v) = l1 ++ l2 /\ entries slots = l1 ++ e :: l2) /\
    eq_ignore_ascii_case (name e) nm = true /\ is_dir e = false /\ size e = Z.of_nat (length data) /\
    (fat_time e, fat_date e) = to_fat_datetime clock /\
    (forall other, eq_ignore_ascii_case (name e) other = false -> eq_ignore_ascii_case (shown sn) other = false ->
      lookup_slot slots other = lookup_slot (root_slots v) other).
Proof.
  intros Hv Hnm Hb Hlen Htime.
  destruct (create_plans v clock nm data Hv Hnm) as
    [Herr|(v3 & sn & longs & A & F & B & P & Q & slots & c & rest & Hp & E)]; [by left|right].
  pose proof (fat_datetime_roundtrip clock Htime) as Hdt. destruct (to_fat_datetime clock) as [t d]. destruct Hdt as (Ht & Hd & _).
  destruct (plan_carried_out v nm data v3 sn longs A F B P Q slots c rest t d Hv Hb Hlen Ht Hd Hp)
    as (v' & slots' & e & Ew & C & Hv' & He & _ & Hent & Hlk & Hname & Hoth).
  exists v', (c :: rest), slots', e, sn, longs. destruct Hp. rewrite E. split; [exact Ew|]. split; [done|]. split; [done|]. split; [done|].
  assert (Hde : is_dir e = false /\ size e = Z.of_nat (length data) /\ FatCommon.start_cluster e = c /\ (fat_time e, fat_date e) = (t, d)) by (by subst e).
  destruct Hde as (H1 & H2 & H3 & H4).
  split; [|done]. intros w U.
  exact (read_back v c rest data slots' w nm _ e Hv pl_clusters0 pl_NoDup0 pl_room0 (created_read _ _ _ _ _ _ C U)
    (root_ok_unchanged _ _ Hv' U) Hlk H1 H2 H3).
Qed.
End Create.

(** ** Property *)

(** C18. Creating a file in the root directory happens completely or not at all.  On
    a volume whose parts lie apart, whose table is in step with the disk and whose
    directory is tidy, [create_file] returns; an error leaves every sector as it was.
    Otherwise the volume is well-formed again, reading the name gives exactly the
    data, the listing has gained one entry - a file of that name, size and time -
    and every name but that one and its 8.3 alias reads what it read before. *)
Theorem create_file_spec {D} `{BlockDev D} (v : Vol D) clock nm data :
  root_ok v -> good_name nm -> bytes_ok data -> Z.of_nat (length data) < 2 ^ 32 -> valid_time clock ->
  exists r v', create_file clock nm data v = (r, v') /\
  match r with
  | Ok _ =>
      root_ok v' /\ (read_file nm v').1 = Ok data /\
      exists l1 l2 e sn longs,
        (build_name_entries Root nm (list_root_directory v).2).1 = Ok (sn, longs) /\
        (list_root_directory v).1 = Ok (l1 ++ l2) /\ (list_root_directory v').1 = Ok (l1 ++ e :: l2) /\
        eq_ignore_ascii_case (name e) nm = true /\ is_dir e = false /\ size e = Z.of_nat (length data) /\
        (fat_time e, fat_date e) = to_fat_datetime clock /\
        forall other, eq_ignore_ascii_case (name e) other = false -> eq_ignore_ascii_case (shown sn) other = false ->
          (forall lba off e', (find_entry_location_in Root other v).1 = Ok (lba, off, e') -> intact v e') ->
          (read_file other v').1 = (read_file other v).1
  | Err _ => unchanged v v'
  | _ => False
  end.
Proof.
  intros Hv Hnm Hb Hlen Htime.
  destruct (create_outcome v clock nm data Hv Hnm Hb Hlen Htime) as
    [(e & v' & E & U)|(v' & cs & slots & e & sn & longs & E & Hcs & C & Hv' & Hread & Hn & (l1 & l2 & L1 & L2) & Hname & Hd & Hsz & Hdt & Hoth)];
    [by exists (Err e), v'|]. exists (Ok tt), v'. rewrite E. split; [done|]. split; [done|]. split; [apply Hread, unchanged_refl|].
  exists l1, l2, e, sn, longs. split; [done|].
  destruct (root_listing v Hv) as (v1 & -> & _), (root_listing v' Hv') as (v1' & -> & _). cbn [fst].
  rewrite L1, (cr_slots _ _ _ _ _ C), L2. repeat (split; [done|]). intros other Ho1 Ho2 Hint.
  eapply read_other; [exact Hv|exact Hcs|exact C|done|by apply Hoth|]. intros i e' Hi.
  destruct (lookup_found v other i e' Hv Hi) as (lba & off & Hf). by eapply Hint.
Qed.

(** A volume of one-sector clusters holding a file OLD. *)
Definition small_root : list Z :=
  build_dir_entry ([0x4F; 0x4C; 0x44] ++ replicate 8 0x20) 0x20 2 3 0 0 ++ replicate 480 0.
Definition small_fat : list Z := [0xF8; 0xFF; 0xFF; 0xFF; 0x0F] ++ replicate 507 0.
Definition small_vol : Vol MemDisk.t :=
  mk_Vol (mk_Fat12Info 1 1 1 16 1 0 small_fat)
    (MemDisk.mk {[1 := small_fat; 2 := small_root; 3 := [0x61; 0x62; 0x63] ++ replicate 509 0]} 400).

Lemma small_vol_synced : fat_synced small_vol.
Proof.
  constructor; try (vm_compute; congruence).
  - unfold small_vol, info, fat_bytes, small_fat. bytes.
  - intros [|i] Hi; [vm_compute; done|]. exfalso. change (Z.to_nat (fat_size_16 (info small_vol))) with 1%nat in Hi. lia.
  - intros [|i] Hi; [vm_compute; done|]. exfalso. change (Z.to_nat (fat_size_16 (info small_vol))) with 1%nat in Hi. lia.
Qed.

Lemma small_vol_data :
  forallb (fun c => forallb (MemDisk.in_range (dev small_vol)) (cluster_lbas (info small_vol) c)) (scan_range (info small_vol)) = true.
Proof. vm_compute. reflexivity. Qed.

Lemma small_vol_ok : root_ok small_vol.
Proof.
  split; [apply small_vol_synced| |vm_compute; congruence|vm_compute; reflexivity|vm_compute; congruence|
    by repeat constructor| |vm_compute; reflexivity].
  - constructor; vm_compute; intuition congruence.
  - pose proof small_vol_data as H. rewrite forallb_forall in H. intros c Hc%list_elem_of_In%H. rewrite forallb_forall in Hc.
    by apply List.Forall_forall.
Qed.

Definition small_clock : RtcTime := mk_RtcTime 2024 6 1 12 15 30.

(** The name [notes for today.txt] with 600 bytes. *)
Definition small_name : list Z := [110; 111; 116; 101; 115; 32; 102; 111; 114; 32; 116; 111; 100; 97; 121; 46; 116; 120; 116].

Lemma create_file_spec_witness :
  exists v', create_file small_clock small_name (replicate 600 7) small_vol = (Ok tt, v') /\ root_ok v' /\
    (read_file small_name v').1 = Ok (replicate 600 7) /\ (read_file [0x6F; 0x6C; 0x64] v').1 = Ok [0x61; 0x62; 0x63].
Proof.
  destruct (create_file_spec small_vol small_clock small_name (replicate 600 7) small_vol_ok) as (r & v' & E & Hr).
  - intros H. vm_compute in H. discriminate H.
  - apply Forall_replicate. unfold byte_ok; lia.
  - rewrite length_replicate. lia.
  - unfold valid_time; cbn; lia.
  - assert (E1 : (create_file small_clock small_name (replicate 600 7) small_vol).1 = Ok tt) by (vm_compute; reflexivity).
    rewrite E in E1. cbn [fst] in E1. subst r. exists v'. split; [exact E|]. destruct Hr as (Hok & Hread & l1 & l2 & e & sn & longs & Hn & _ & _ & He & _ & _ & _ & Hoth).
    split; [exact Hok|]. split; [exact Hread|]. rewrite Hoth.
    + vm_compute. reflexivity.
    + apply bool_decide_eq_true in He. apply bool_decide_eq_false. rewrite He. vm_compute. discriminate.
    + vm_compute in Hn. injection Hn as <- _. vm_compute. reflexivity.
    + intros lba off e' Hf. vm_compute in Hf. injection Hf as _ _ <-. right. right. exists [2]. split; [vm_compute; reflexivity|].
      constructor; [unfold data_cluster; lia|constructor].
Defined.
