(* ===== verification/Fat12Delete.v ===== *)
(** * Fat12Delete: deleting a file of the root directory

    A deletion frees the file's clusters and marks the slots of its entry.  On a tidy
    directory those slots are the ones a creation would have written (a [group] of
    Fat12Slots), so that deleting is inserting read backwards. *)
From stdpp Require Import base list numbers strings.
From Stdlib Require Import Lia.
From S2P Require Import Prelude FatCommon Rtc FatEntry12 BlockDev Fat12 Fat12Table Fat12Chain Fat12Data Fat12Free Fat12Slots Fat12Dir Fat12Create.
Open Scope Z_scope.

(** ** The slots of an entry that is found *)

Lemma find_split s i nm l j e :
  find_in_slots s i nm l = Found j e ->
  exists P raw B l' l'', s = P ++ raw :: B /\ j = (i + length P)%nat /\ no_end P /\ slot_kind_of raw = SlotShort /\
    find_in_slots P i nm l = GoOn l' /\ short_entry_if_matches raw l' nm = (Some e, l'').
Proof.
  revert i l. induction s as [|raw s IH]; intros i l Hf; [done|]. cbn [find_in_slots] in Hf.
  destruct (slot_kind_of raw) eqn:Hk; [done|..].
  4: destruct (short_entry_if_matches raw l nm) as [[e'|] l1] eqn:Es.
  4: { injection Hf as <- <-. exists [], raw, s, l, l1. rewrite Nat.add_0_r. split_and!; try done. constructor. }
  all: apply IH in Hf as (P & r & B & l' & l'' & -> & -> & Hn & Hr & Hg & Hm); exists (raw :: P), r, B, l', l'';
    cbn [app length find_in_slots]; rewrite Hk, ?Es; split_and!; try done; try lia; constructor; [by rewrite Hk|done].
Qed.

(** The long-name slots at the end of a prefix. *)
Lemma longs_split P :
  exists A L, P = A ++ L /\ Forall (fun r => slot_kind_of r = SlotLong) L /\ pending_after A false = false.
Proof.
  assert (Happ : forall P p x, pending_after (P ++ [x]) p = match slot_kind_of x with SlotLong => true | _ => false end).
  { clear. induction P as [|r P IH]; intros p x; [done|apply IH]. }
  induction P as [|x P (A & L & -> & HL & HA)] using rev_ind; [by exists [], []|].
  destruct (slot_kind_of x) eqn:Hk.
  3: { exists A, (L ++ [x]). split_and!; [by rewrite app_assoc|by apply Forall_app_2; [|constructor]|done]. }
  all: exists ((A ++ L) ++ [x]), []; rewrite app_nil_r, Happ, Hk; done.
Qed.

Definition found_name (raw : list Z) (L : list (list Z)) : option (list Z) :=
  (take_verified (take 11 raw) (foldl (fun st r => push_long_entry r st) LfnState_default L)).1.

(** The entry that a short slot behind its long-name slots stands for. *)
Definition found_entry (raw : list Z) (L : list (list Z)) : DirEntry :=
  dir_entry_of raw (default (format_short_name (take 8 raw) (take 3 (drop 8 raw))) (found_name raw L)).

Definition found_by (raw : list Z) (L : list (list Z)) (nm : list Z) : bool :=
  match found_name raw L with Some n => eq_ignore_ascii_case n nm | None => false end ||
  eq_ignore_ascii_case (format_short_name (take 8 raw) (take 3 (drop 8 raw))) nm.

Section Found.
Context (L : list (list Z)) (raw : list Z).
Hypothesis HL : Forall (fun r => slot_kind_of r = SlotLong) L.
Hypothesis Hraw : slot_kind_of raw = SlotShort.
Hypothesis Ht : tidy_prefix (L ++ [raw]) false = true.

(** What was scanned before the first long-name slot does not matter. *)
Lemma found_verified l :
  chunks l = [] ->
  (take_verified (take 11 raw) (foldl (fun st r => push_long_entry r st) l L)).1 = found_name raw L /\
  chunks (take_verified (take 11 raw) (foldl (fun st r => push_long_entry r st) l L)).2 = [].
Proof.
  intros Hl. split; [|done]. unfold found_name. destruct L as [|r rs]; cbn [foldl].
  - apply (same_verified false). by split.
  - apply Forall_cons in HL as [Hr _]. cbn [app tidy_prefix] in Ht. rewrite Hr in Ht. apply andb_true_iff in Ht as [Hp _].
    by rewrite (same_push false r l LfnState_default Hp).
Qed.

Lemma found_matches l nm :
  chunks l = [] ->
  (short_entry_if_matches raw (foldl (fun st r => push_long_entry r st) l L) nm).1 =
    (if found_by raw L nm then Some (found_entry raw L) else None) /\
  chunks (short_entry_if_matches raw (foldl (fun st r => push_long_entry r st) l L) nm).2 = [].
Proof.
  intros Hl. destruct (found_verified l Hl) as [H1 H2]. unfold short_entry_if_matches, found_by, found_entry.
  destruct (take_verified (take 11 raw) (foldl _ l L)) as [n l']. cbn [fst snd] in *. subst n.
  by destruct (_ || _).
Qed.

Lemma found_group : group (L ++ [raw]) (found_entry raw L) (length L) (found_by raw L).
Proof.
  destruct (longs_scan L [raw] HL) as (S1 & S2 & _ & S4). split; [done| | |].
  - rewrite S4. cbn [pending_after]. by rewrite Hraw.
  - intros e0 l Hl. rewrite S1. cbn [parse_dir_slots]. rewrite Hraw. destruct (found_verified l Hl) as [H1 H2].
    unfold found_entry. destruct (take_verified (take 11 raw) (foldl _ l L)) as [n l']. cbn [fst snd] in *. subst n. by exists l'.
  - intros i nm l Hl. rewrite S2. cbn [find_in_slots]. rewrite Hraw. destruct (found_matches l nm Hl) as [H1 H2].
    destruct (short_entry_if_matches raw (foldl _ l L) nm) as [o l']. cbn [fst snd] in *. subst o.
    destruct (found_by raw L nm); [done|]. by exists l'.
Qed.
End Found.

(** A name that is found stands for one group of slots. *)
Lemma lookup_group slots nm j e :
  tidy slots false = true -> lookup_slot slots nm = Some (j, e) ->
  exists A L raw B, slots = A ++ (L ++ [raw]) ++ B /\ j = (length A + length L)%nat /\
    Forall (fun r => slot_kind_of r = SlotLong) L /\ slot_kind_of raw = SlotShort /\ tidy_prefix A false = true /\ pending_after A false = false /\
    tidy B false = true /\ group (L ++ [raw]) e (length L) (found_by raw L) /\ found_by raw L nm = true /\ lookup_slot A nm = None.
Proof.
  intros Ht Hl. unfold lookup_slot in Hl. destruct (find_in_slots slots 0 nm LfnState_default) as [j' e'| |] eqn:Ef; try done.
  injection Hl as -> ->. destruct (find_split _ _ _ _ _ _ Ef) as (P & raw & B & l' & l'' & -> & -> & Hn & Hk & Hg & Hm).
  destruct (longs_split P) as (A & L & -> & HL & HA). exists A, L, raw, B.
  assert (Hn' : no_end (A ++ (L ++ [raw]))) by (rewrite app_assoc; apply Forall_app_2; [done|]; constructor; [by rewrite Hk|constructor]).
  pose proof (proj1 (Forall_app _ _ _) Hn') as [HnA HnG].
  assert (E : (A ++ L) ++ raw :: B = A ++ (L ++ [raw]) ++ B) by (by rewrite <- !app_assoc).
  rewrite E in Ht. rewrite (tidy_app A _ false HnA), HA in Ht. apply andb_true_iff in Ht as [HtA Ht].
  rewrite (tidy_app _ B false HnG) in Ht. apply andb_true_iff in Ht as [HtG HtB].
  pose proof (found_group L raw HL Hk HtG) as HG. rewrite (gr_done _ _ _ _ HG) in HtB.
  destruct (longs_scan L [] HL) as (_ & S2 & _). specialize (S2 (length A) nm). rewrite app_nil_r in S2.
  rewrite find_app in Hg. pose proof (find_prefix A false 0 nm LfnState_default HtA ltac:(done)) as HfA. cbn [Nat.add] in Hg.
  assert (Hno : lookup_slot A nm = None) by (unfold lookup_slot; by destruct (find_in_slots A 0 nm LfnState_default)).
  destruct (find_in_slots A 0 nm LfnState_default) as [| |la]; [done|done|]. specialize (HfA HA).
  rewrite S2 in Hg. cbn [find_in_slots] in Hg. injection Hg as <-.
  destruct (found_matches L raw HL HtG la nm HfA) as [Hm1 _]. rewrite Hm in Hm1. cbn [fst] in Hm1.
  destruct (found_by raw L nm) eqn:Hb; [|done]. injection Hm1 as ->.
  split_and!; try done. rewrite length_app. lia.
Qed.

(** ** Marked slots *)

Definition mark (raw : list Z) : list Z := 0xE5 :: drop 1 raw.

Lemma marks_free G : Forall (fun r => free_slot r = true) (map mark G) /\ no_end (map mark G).
Proof. split; apply Forall_fmap, Forall_true; done. Qed.

(** Marking the slots of an entry takes it out of the listing and changes what no
    name that found something else finds. *)
Lemma marked_slots A L raw B e :
  tidy_prefix A false = true -> pending_after A false = false -> tidy B false = true ->
  group (L ++ [raw]) e (length L) (found_by raw L) ->
  let G := L ++ [raw] in
  tidy (A ++ map mark G ++ B) false = true /\
  (exists l1 l2, entries (A ++ G ++ B) = l1 ++ e :: l2 /\ entries (A ++ map mark G ++ B) = l1 ++ l2) /\
  forall other, lookup_slot (A ++ G ++ B) other <> Some (length A + length L, e)%nat ->
    lookup_slot (A ++ map mark G ++ B) other = lookup_slot (A ++ G ++ B) other.
Proof.
  intros HtA HA HtB HG G. destruct (marks_free G) as [Hf Hne].
  assert (HnA : no_end A) by (by eapply tidy_prefix_no_end).
  assert (Ht : tidy (A ++ map mark G ++ B) false = true).
  { rewrite (tidy_app A _ false HnA), HtA, HA. by rewrite tidy_free. }
  assert (HF0 : map mark G <> []) by (unfold G; by destruct L).
  assert (Hlen : length G = length (map mark G)) by (by rewrite length_map).
  split; [done|]. split.
  - destruct (insert_entries A (map mark G) G B e _ _ Ht HnA Hf HF0 HG Hlen)
      as (l1 & l2 & E1 & E2 & _). by exists l1, l2.
  - intros other Ho. rewrite (insert_lookup A (map mark G) G B e _ _ Ht HnA Hf HF0 HG Hlen) in Ho |- *.
    destruct (lookup_slot A other) as [[i e']|] eqn:EA.
    + unfold lookup_slot in *. rewrite find_app. destruct (find_in_slots A 0 other LfnState_default); try done.
    + by destruct (found_by raw L other).
Qed.

(** ** The positions of the long-name slots *)

Fixpoint preceding (l : list ((Z * nat) * list Z)) (target : Z * nat) (pending : list (Z * nat)) : list (Z * nat) + list (Z * nat) :=
  match l with
  | [] => inl pending
  | (p, raw) :: rest =>
      if (p.1 =? target.1) && (p.2 =? target.2)%nat then inr pending
      else if byte_at raw 0 =? 0x00 then inr []
      else if byte_at raw 0 =? 0xE5 then preceding rest target []
      else if byte_at raw 11 =? 0x0F then preceding rest target (pending ++ [p])
      else preceding rest target []
  end.

Lemma preceding_app l1 l2 t p :
  preceding (l1 ++ l2) t p = match preceding l1 t p with inl p' => preceding l2 t p' | inr r => inr r end.
Proof.
  revert p. induction l1 as [|[q raw] l1 IH]; intros p; [done|]. cbn [app preceding].
  destruct (_ && _); [done|]. destruct (byte_at raw 0 =? 0); [done|]. destruct (byte_at raw 0 =? 0xE5); [apply IH|].
  destruct (byte_at raw 11 =? 0x0F); apply IH.
Qed.

Lemma preceding_sector slots lba i t p :
  preceding_in_slots slots lba i t.1 t.2 p = preceding (zip (map (fun j => (lba, (j * 32)%nat)) (seq i (length slots))) slots) t p.
Proof.
  revert i p. induction slots as [|raw rest IH]; intros i p; [done|].
  cbn [preceding_in_slots length seq map zip_with preceding fst snd]. by rewrite !IH.
Qed.

Lemma scan_preceding f lbas t p :
  (forall a, length (f a) = SECTOR) ->
  scan (fun a buf pending => Ok (preceding_in_slots (as_chunks 32 buf) a 0 t.1 t.2 pending)) f lbas p =
    Ok (preceding (zip (positions lbas) (slots_at f lbas)) t p).
Proof.
  intros Hf. revert p. induction lbas as [|a r IH]; intros p; [done|]. unfold slots_at, positions. cbn [scan map concat].
  pose proof (length_sector_slots f Hf a) as Hl.
  rewrite zip_with_app by (unfold sector_positions; by rewrite length_map, length_seq).
  rewrite preceding_app, preceding_sector, Hl. fold (sector_positions a).
  destruct (preceding (zip (sector_positions a) (as_chunks 32 (f a))) t p); cbn [mbind res_bind]; [apply IH|done].
Qed.

Lemma positions_NoDup lbas : NoDup lbas -> NoDup (positions lbas).
Proof.
  intros Hnd. apply NoDup_alt. intros i j [a o] Hi Hj.
  apply positions_in in Hi as (_ & Oi & Ai). apply positions_in in Hj as (_ & Oj & Aj).
  pose proof (NoDup_lookup _ _ _ _ Hnd Ai Aj) as Hd. pose proof (Nat.div_mod_eq i SLOTS). pose proof (Nat.div_mod_eq j SLOTS). lia.
Qed.

#[export] Instance slot_kind_eq_dec : EqDecision slot_kind.
Proof. solve_decision. Defined.

(** A slot in use, by its bytes. *)
Lemma slot_in_use raw :
  slot_kind_of raw <> SlotEnd ->
  (byte_at raw 0 =? 0x00) = false /\
  (slot_kind_of raw = SlotLong -> (byte_at raw 0 =? 0xE5) = false /\ (byte_at raw 11 =? 0x0F) = true) /\
  (slot_kind_of raw <> SlotLong -> (byte_at raw 0 =? 0xE5) = true \/ (byte_at raw 11 =? 0x0F) = false).
Proof.
  unfold slot_kind_of. destruct (byte_at raw 0 =? 0); [done|]. intros _. split; [done|].
  destruct (byte_at raw 0 =? 0xE5); [split; [done|by left]|]. destruct (byte_at raw 11 =? 0x0F); [done|].
  split; [by destruct (negb _)|by right].
Qed.

Lemma position_eqb (p t : Z * nat) : (p.1 =? t.1) && (p.2 =? t.2)%nat = bool_decide (p = t).
Proof.
  destruct p as [a o], t as [b q]. cbn [fst snd].
  destruct (Z.eqb_spec a b), (Nat.eqb_spec o q); cbn [andb]; symmetry; first [apply bool_decide_eq_true|apply bool_decide_eq_false]; congruence.
Qed.

(** Behind a prefix with nothing pending nothing is gathered; long-name slots are. *)
Lemma preceding_prefix Ps A t b p :
  length Ps = length A -> t ∉ Ps -> no_end A -> (b = false -> p = []) ->
  exists q, preceding (zip Ps A) t p = inl q /\ (pending_after A b = false -> q = []).
Proof.
  revert A b p. induction Ps as [|x Ps IH]; intros [|raw A] b p Hl Ht Hn Hb; try done; [by exists p|].
  apply not_elem_of_cons in Ht as [Hx Ht]. apply Forall_cons in Hn as [Hr Hn]. cbn [zip_with preceding pending_after].
  rewrite position_eqb, bool_decide_eq_false_2 by (by intros ->). destruct (slot_in_use raw Hr) as (-> & H1 & H2).
  injection Hl as Hl. destruct (decide (slot_kind_of raw = SlotLong)) as [E|E].
  - destruct (H1 E) as [-> ->]. rewrite E. by apply IH.
  - assert (Hc : exists q, preceding (zip Ps A) t [] = inl q /\ (pending_after A false = false -> q = [])) by (by apply IH).
    destruct Hc as (q & Hq & Hp). exists q. split; [|intros Hpa; apply Hp; by destruct (slot_kind_of raw)].
    destruct (H2 E) as [->| ->]; [|destruct (byte_at raw 0 =? 0xE5)]; done.
Qed.

Lemma preceding_longs Ps L t p :
  length Ps = length L -> t ∉ Ps -> Forall (fun r => slot_kind_of r = SlotLong) L ->
  preceding (zip Ps L) t p = inl (p ++ Ps).
Proof.
  revert L p. induction Ps as [|x Ps IH]; intros [|raw L] p Hl Ht HL; try done; [by rewrite app_nil_r|].
  apply not_elem_of_cons in Ht as [Hx Ht]. apply Forall_cons in HL as [Hr HL]. cbn [zip_with preceding].
  rewrite position_eqb, bool_decide_eq_false_2 by (by intros ->).
  destruct (slot_in_use raw) as (-> & H1 & _); [by rewrite Hr|]. destruct (H1 Hr) as [-> ->].
  rewrite IH by (first [done|by injection Hl]). by rewrite <- app_assoc.
Qed.

(** The slots of [lookup_group] are those in front of the short slot. *)
Lemma preceding_group A L raw B PA PL t PB :
  length PA = length A -> length PL = length L -> NoDup (PA ++ PL ++ t :: PB) ->
  no_end A -> pending_after A false = false -> Forall (fun r => slot_kind_of r = SlotLong) L ->
  preceding (zip (PA ++ PL ++ t :: PB) (A ++ (L ++ [raw]) ++ B)) t [] = inr PL.
Proof.
  intros HA HL Hnd Hn Hp Hl. apply NoDup_app in Hnd as (_ & HdA & Hnd). apply NoDup_app in Hnd as (_ & HdL & _).
  assert (HtA : t ∉ PA) by (intros Hin; apply (HdA t Hin); apply elem_of_app; right; left).
  assert (HtL : t ∉ PL) by (intros Hin; apply (HdL t Hin); left).
  rewrite <- app_assoc, !zip_with_app by done. cbn [app zip_with]. rewrite preceding_app.
  destruct (preceding_prefix PA A t false [] HA HtA Hn ltac:(done)) as (q & -> & Hq). rewrite (Hq Hp).
  rewrite preceding_app, preceding_longs by done. cbn [app preceding]. by rewrite position_eqb, bool_decide_eq_true_2.
Qed.

(** ** The steps of [delete_file] *)

Section Delete.
Context {D : Type} `{BlockDev D}.
Implicit Types v : Vol D.

(** The slot at a position of the directory. *)
Lemma slots_at_lookup f lbas i a o :
  (forall a, length (f a) = SECTOR) -> NoDup lbas -> positions lbas !! i = Some (a, o) ->
  slots_at f lbas !! i = Some (take 32 (drop o (f a))).
Proof.
  intros Hf Hnd Hi. pose proof (lookup_lt_Some _ _ _ Hi) as Hlt. rewrite length_positions in Hlt.
  destruct (positions_in lbas i a o Hi) as (_ & Ho & _).
  assert (Hm : (i mod SLOTS < SLOTS)%nat) by (apply Nat.mod_upper_bound; done).
  assert (Hl : length (take 32 (drop o (f a))) = 32%nat).
  { rewrite length_take, length_drop, Hf. unfold SLOTS, SECTOR in *. lia. }
  assert (E : slots_at f lbas = <[i := take 32 (drop o (f a))]> (slots_at f lbas)).
  { rewrite <- (slots_at_update f Hf lbas i a o _ Hnd Hi Hl). apply slots_at_ext. intros x _.
    unfold upd. destruct (decide (x = a)) as [->|]; [|done]. unfold splice. rewrite Hl.
    rewrite <- (take_drop o (f a)) at 1. f_equal. rewrite <- (take_drop 32 (drop o (f a))) at 1. f_equal. by rewrite drop_drop. }
  rewrite E. apply list_lookup_insert_eq. by rewrite length_slots_at.
Qed.

Lemma splice_mark (buf : list Z) o :
  (o + 32 <= length buf)%nat -> splice o [0xE5] buf = splice o (mark (take 32 (drop o buf))) buf.
Proof.
  intros Hl. unfold splice, mark. assert (length (take 32 (drop o buf)) = 32)%nat by (rewrite length_take, length_drop; lia).
  cbn [app length]. f_equal. f_equal. rewrite length_drop. replace (o + S (length (take 32 (drop o buf)) - 1))%nat with (o + 32)%nat by lia.
  rewrite <- (drop_drop buf 32 o), <- (drop_drop buf 1 o).
  rewrite <- (take_drop 32 (drop o buf)) at 1. rewrite drop_app_le by lia. done.
Qed.

Lemma mark_ok v lbas i a o :
  NoDup lbas -> served v lbas -> positions lbas !! i = Some (a, o) ->
  exists v', patch_sector a o [0xE5] v = (Ok tt, v') /\ info v' = info v /\ served v' lbas /\
    slots_at (sector_at (dev v')) lbas = alter mark i (slots_at (sector_at (dev v)) lbas) /\
    (forall x, x ∉ lbas -> sector_at (dev v') x = sector_at (dev v) x) /\ (forall x, serves (dev v) x -> serves (dev v') x).
Proof.
  intros Hnd Hs Hi. pose proof (slots_at_lookup (sector_at (dev v)) lbas i a o (sector_at_length _) Hnd Hi) as Hraw.
  destruct (positions_in lbas i a o Hi) as (Ha & Ho & _).
  assert (Hm : (i mod SLOTS < SLOTS)%nat) by (apply Nat.mod_upper_bound; done).
  assert (Hend : (o + 32 <= length (sector_at (dev v) a))%nat) by (rewrite sector_at_length; unfold SLOTS, SECTOR in *; lia).
  set (raw := take 32 (drop o (sector_at (dev v) a))) in *.
  assert (Hb : slot_ok (mark raw)).
  { assert (length raw = 32)%nat by (unfold raw; rewrite length_take, length_drop; lia).
    split; [unfold mark; cbn [length]; rewrite length_drop; lia|].
    constructor; [unfold byte_ok; lia|]. apply Forall_drop, Forall_take, Forall_drop, sector_at_bytes. }
  destruct (patch_ok v lbas i a o (mark raw) Hnd Hs Hi Hb) as (v' & E & Iv & Sv & Hsl & Ov & Kv).
  exists v'. split; [|split; [done|split; [done|split; [|done]]]].
  - rewrite <- E. unfold patch_sector, mbind, M_bind.
    assert (Hsa : serves (dev v) a) by (unfold served in Hs; rewrite Forall_forall in Hs; by apply Hs).
    destruct (read_lba_served v a Hsa) as (d1 & -> & _). by rewrite splice_mark.
  - rewrite Hsl. apply list_eq. intros j. destruct (decide (i = j)) as [<-|Hne].
    + rewrite list_lookup_alter_eq, Hraw, list_lookup_insert_eq by (by eapply lookup_lt_Some). by cbn.
    + by rewrite list_lookup_alter_ne, list_lookup_insert_ne.
Qed.

(** Marking the slots of a run, in order. *)
Lemma mark_all_ok v lbas A G B Q (ps : list (Z * nat)) :
  NoDup lbas -> served v lbas -> slots_at (sector_at (dev v)) lbas = A ++ G ++ B -> 
  (exists PA, positions lbas = PA ++ ps ++ Q /\ length PA = length A) -> length ps = length G ->
  exists v', patch_all (map (fun '(lba, offset) => (lba, offset, [0xE5])) ps) v = (Ok tt, v') /\ info v' = info v /\
    slots_at (sector_at (dev v')) lbas = A ++ map mark G ++ B /\
    (forall x, x ∉ lbas -> sector_at (dev v') x = sector_at (dev v) x) /\ (forall x, serves (dev v) x -> serves (dev v') x).
Proof.
  intros Hnd. revert v A G. induction ps as [|[a o] ps IH]; intros v A G Hs HG (PA & HP & HlA) Hl.
  { destruct G; [|done]. by exists v. }
  destruct G as [|raw G]; [done|].
  destruct (mark_ok v lbas (length A) a o Hnd Hs) as (v1 & E1 & I1 & S1 & M1 & O1 & K1).
  { rewrite HP, <- HlA. by apply list_lookup_middle. }
  rewrite HG in M1. cbn [app] in M1. rewrite alter_app_r_alt in M1 by lia. rewrite Nat.sub_diag in M1. cbn in M1.
  destruct (IH v1 (A ++ [mark raw]) G S1) as (v2 & E2 & I2 & M2 & O2 & K2).
  - rewrite M1. by rewrite <- app_assoc.
  - exists (PA ++ [(a, o)]). rewrite <- app_assoc. split; [exact HP|]. rewrite !length_app. cbn. lia.
  - by injection Hl.
  - exists v2. split; [|split; [congruence|split; [|split]]].
    + cbn [map patch_all]. by rewrite (M_bind_Ok _ _ _ _ _ E1).
    + rewrite M2. by rewrite <- app_assoc.
    + intros x Hx. by rewrite O2, O1.
    + intros x Hx. by apply K2, K1.
Qed.

Lemma preceding_ok v lba off :
  root_ok v ->
  exists v', find_preceding_lfn_slots Root lba off v =
    (Ok (match preceding (zip (positions (root_lbas (info v))) (root_slots v)) (lba, off) [] with inl _ => [] | inr r => r end), v') /\
    unchanged v v'.
Proof.
  intros Hv. destruct (scan_ok (R := list (Z * nat)) (fun a buf p => Ok (preceding_in_slots (as_chunks 32 buf) a 0 lba off p))
    (root_lbas (info v)) [] v (ro_serves v Hv)) as (v' & E & U).
  exists v'. split; [|done]. pose proof (scan_preceding (sector_at (dev v)) (root_lbas (info v)) (lba, off) [] (sector_at_length _)) as Hsc.
  cbn [fst snd] in Hsc. rewrite Hsc in E. unfold find_preceding_lfn_slots, on_fs.
  rewrite (M_bind_Ok _ _ v (root_lbas (info v)) v) by done. by rewrite (M_bind_Ok _ _ _ _ _ E).
Qed.

(** What a deletion leaves: the clusters are free, the slots marked, all else is as
    it was. *)
Record deleted v (cs : list Z) (slots : list (list Z)) v' : Prop := {
  de_info : exists b, info v' = set_fat_bytes b (info v) /\ length b = length (fat_bytes (info v));
  de_synced : fat_synced v';
  de_slots : root_slots v' = slots;
  de_free : forall x, x ∈ cs -> fat_entry (fat_bytes (info v')) x = 0;
  de_kept : forall x, cluster12 x -> x ∉ cs -> fat_entry (fat_bytes (info v')) x = fat_entry (fat_bytes (info v)) x;
  de_sectors : forall a, a ∉ root_lbas (info v) -> outside_table (info v) a -> sector_at (dev v') a = sector_at (dev v) a;
  de_serves : forall a, serves (dev v) a -> serves (dev v') a;
}.

Lemma deleted_root_ok v cs slots v' :
  root_ok v -> deleted v cs slots v' -> tidy slots false = true -> root_ok v'.
Proof.
  intros [Hs [g1 g2 g3] Hb Hr Ht Hsv Hd Hti] [(b & Hi & Hlen) Sy Hsl _ _ _ Hk] Hty. split; rewrite ?Hi; try done.
  - cbn [set_fat_bytes fat_bytes]. by rewrite Hlen.
  - eapply Forall_impl; [exact Hsv|]. apply Hk.
  - intros c Hc. rewrite scan_range_length in Hc by done. eapply Forall_impl; [by apply Hd|]. apply Hk.
  - by rewrite Hsl.
Qed.

Lemma deleted_unchanged v w cs slots v' : unchanged v w -> deleted w cs slots v' -> deleted v cs slots v'.
Proof.
  intros [Hi [Hb Hs]] [C1 C2 C3 C4 C5 C6 C7]. rewrite Hi in *. split; try done.
  - intros a Ha Ho. by rewrite C6, Hb.
  - intros a Ha. by apply C7, Hs.
Qed.

(** Freeing the clusters and marking the slots. *)
Lemma delete_entry_ok v c cs A L raw B PA PL t PB :
  root_ok v -> chain (info v) CHAIN_FUEL c = Ok cs -> Forall data_cluster cs ->
  root_slots v = A ++ (L ++ [raw]) ++ B -> positions (root_lbas (info v)) = PA ++ PL ++ t :: PB ->
  length PA = length A -> length PL = length L ->
  exists v', delete_entry c PL t.1 t.2 v = (Ok tt, v') /\ deleted v cs (A ++ map mark (L ++ [raw]) ++ B) v'.
Proof.
  intros Hv Hch Hds HS HP HlA HlL.
  assert (Hc : cluster12 c).
  { destruct (chain_head _ _ _ _ Hch) as [r ->]. apply Forall_cons in Hds as [Hc _]. by apply data_cluster12. }
  destruct (free_chain_ok v CHAIN_FUEL c cs (ro_synced v Hv) Hc Hch) as (v1 & E1 & Sy1 & Z1 & K1 & (b & Hi1) & O1 & S1).
  assert (Hlen : length b = length (fat_bytes (info v))).
  { pose proof (sy_len v1 Sy1) as H1. pose proof (sy_len v (ro_synced v Hv)) as H2. rewrite Hi1 in H1. cbn in H1. congruence. }
  assert (Hroot : root_lbas (info v1) = root_lbas (info v)) by (by rewrite Hi1).
  destruct (mark_all_ok v1 (root_lbas (info v)) A (L ++ [raw]) B PB (PL ++ [t])) as (v2 & E2 & I2 & M2 & O2 & S2).
  - by apply root_lbas_NoDup.
  - eapply Forall_impl; [exact (ro_serves v Hv)|]. apply S1.
  - rewrite <- HS. apply slots_at_ext. intros a Ha. apply O1. by apply root_outside.
  - exists PA. split; [|done]. rewrite HP. by rewrite <- app_assoc.
  - rewrite !length_app. cbn. lia.
  - exists v2. split.
    + unfold delete_entry. rewrite (M_bind_Ok _ _ _ _ _ E1). destruct t. exact E2.
    + split; rewrite ?I2.
      * by exists b.
      * destruct Sy1 as [Y1 Y2 Y3 Y4 Y5 Y6]. split; rewrite ?I2; try done; intros i Hi; [by apply S2, Y5|].
        rewrite O2; [by apply Y6|]. intros Hr%(root_outside v); [|done]. apply Hr. rewrite Hi1 in *. cbn [set_fat_bytes fat_size_16] in Hi.
        pose proof (sy_size v (ro_synced v Hv)).
        change (first_fat_sector (set_fat_bytes b (info v))) with (first_fat_sector (info v)). lia.
      * unfold root_slots. by rewrite I2, Hroot.
      * done.
      * done.
      * intros a Ha Ho. rewrite O2 by done. by apply O1.
      * intros a Ha. by apply S2, S1.
Qed.

(** The files of the directory have chains of data clusters. *)
Definition whole v (e : DirEntry) : Prop :=
  exists cs, chain (info v) CHAIN_FUEL (FatCommon.start_cluster e) = Ok cs /\ Forall data_cluster cs.

Lemma delete_outcome v nm :
  root_ok v -> (forall j e, lookup_slot (root_slots v) nm = Some (j, e) -> is_dir e = false -> whole v e) ->
  (exists e v', delete_file nm v = (Err e, v') /\ unchanged v v' /\
     forall j e, lookup_slot (root_slots v) nm = Some (j, e) -> is_dir e = true) \/
  exists v' j e cs slots, delete_file nm v = (Ok tt, v') /\ lookup_slot (root_slots v) nm = Some (j, e) /\ is_dir e = false /\
    chain (info v) CHAIN_FUEL (FatCommon.start_cluster e) = Ok cs /\ Forall data_cluster cs /\ deleted v cs slots v' /\ root_ok v' /\
    (exists l1 l2, entries (root_slots v) = l1 ++ e :: l2 /\ entries slots = l1 ++ l2) /\
    (exists A L raw B, root_slots v = A ++ (L ++ [raw]) ++ B /\ slots = A ++ map mark (L ++ [raw]) ++ B /\ j = (length A + length L)%nat /\
       Forall (fun r => slot_kind_of r = SlotLong) L /\ pending_after A false = false) /\
    forall other, lookup_slot (root_slots v) other <> Some (j, e) -> lookup_slot slots other = lookup_slot (root_slots v) other.
Proof.
  intros Hv Hw. unfold delete_file, delete_file_impl.
  destruct (find_entry_ok Root (root_lbas (info v)) nm v eq_refl (ro_serves v Hv)) as (v1 & E1 & U1). fold (root_slots v) in E1.
  destruct (lookup_slot (root_slots v) nm) as [[j e]|] eqn:El.
  2: { left. eexists _, v1. unfold mbind, M_bind. by rewrite E1. }
  destruct (lookup_found v nm j e Hv El) as (lba & off & Ef).
  destruct (positions (root_lbas (info v)) !! j) as [[a o]|] eqn:Ej; [|by rewrite E1 in Ef].
  rewrite (M_bind_Ok _ _ _ _ _ E1). destruct (is_dir e) eqn:Hd.
  { left. eexists _, v1. split_and!; try done. by intros ? ? [= <- <-]. }
  right. destruct (Hw j e eq_refl Hd) as (cs & Hch & Hds). pose proof (root_ok_unchanged v v1 Hv U1) as Hv1.
  destruct (preceding_ok v1 a o Hv1) as (v2 & E2 & U2). pose proof (unchanged_trans _ _ _ U1 U2) as U.
  pose proof (root_ok_unchanged v v2 Hv U) as Hv2. rewrite (root_slots_unchanged v v1 U1), (proj1 U1) in E2.
  destruct (lookup_group _ _ _ _ (ro_tidy v Hv) El) as (A & L & raw & B & HS & Hj & HL & Hk & HtA & HA & HtB & HG & _ & _).
  set (PA := take (length A) (positions (root_lbas (info v)))).
  set (PL := take (length L) (drop (length A) (positions (root_lbas (info v))))).
  set (PB := drop (S j) (positions (root_lbas (info v)))).
  pose proof (lookup_lt_Some _ _ _ Ej) as Hlt.
  assert (HP : positions (root_lbas (info v)) = PA ++ PL ++ (a, o) :: PB).
  { rewrite <- (take_drop_middle _ _ _ Ej) at 1. rewrite app_assoc. f_equal. unfold PA, PL. rewrite Hj.
    by rewrite take_take_drop. }
  assert (HlA : length PA = length A) by (unfold PA; rewrite length_take; lia).
  assert (HlL : length PL = length L) by (unfold PL; rewrite length_take, length_drop; lia).
  rewrite HS, HP in E2. rewrite preceding_group in E2; try done.
  2: { rewrite <- HP. by apply positions_NoDup, root_lbas_NoDup. }
  2: { by eapply tidy_prefix_no_end. }
  destruct (delete_entry_ok v2 (FatCommon.start_cluster e) cs A L raw B PA PL (a, o) PB Hv2) as (v3 & E3 & Dl);
    rewrite ?(proj1 U), ?(root_slots_unchanged v v2 U); try done.
  apply (deleted_unchanged v v2) in Dl; [|done].
  destruct (marked_slots A L raw B e HtA HA HtB HG) as (Ht & Hent & Hoth). rewrite <- HS in Hent, Hoth. rewrite <- Hj in Hoth.
  exists v3, j, e, cs, (A ++ map mark (L ++ [raw]) ++ B). rewrite (M_bind_Ok _ _ _ _ _ E2).
  split_and!; try done; [exact (deleted_root_ok v cs _ v3 Hv Dl Ht)|by exists A, L, raw, B].
Qed.

(** A file whose clusters are not among those freed reads as before. *)
Lemma read_kept v cs slots v' nm :
  root_ok v -> Forall data_cluster cs -> deleted v cs slots v' -> root_ok v' -> lookup_slot slots nm = lookup_slot (root_slots v) nm ->
  (forall j e, lookup_slot (root_slots v) nm = Some (j, e) -> is_dir e = true \/ size e = 0 \/
     exists ds, chain (info v) CHAIN_FUEL (FatCommon.start_cluster e) = Ok ds /\ Forall data_cluster ds /\ forall x, x ∈ ds -> x ∉ cs) ->
  (read_file nm v').1 = (read_file nm v).1.
Proof.
  intros Hv Hcs Dl Hv' Hlk Hint. destruct (de_info _ _ _ _ Dl) as (b & Hi & Hlen).
  apply read_same; try done; [by rewrite Hi|apply Dl|by rewrite (de_slots _ _ _ _ Dl)|]. intros j e Hl.
  destruct (Hint j e Hl) as [?|[?|(ds & Hch & Hds & Hdis)]]; [by left|by right; left|right; right]. exists ds.
  destruct (chain_sectors v _ ds Hv Hch Hds) as (_ & Huse & Hout). split_and!; [done|done| |].
  - pose proof (de_kept _ _ _ _ Dl) as Hke. rewrite Hi in *. cbn [set_fat_bytes fat_bytes] in Hke.
    apply chain_table_ext; [done|done|]. intros x Hx. destruct (Huse x Hx) as (Hdx & _). apply Hke; [by apply data_cluster12|by apply Hdis].
  - intros a Ha. destruct (Hout a Ha) as [Ho Hr]. by apply (de_sectors _ _ _ _ Dl).
Qed.

(** The clusters that are free afterwards. *)
Lemma deleted_free v c cs slots v' x :
  root_ok v -> chain (info v) CHAIN_FUEL c = Ok cs -> Forall data_cluster cs -> deleted v cs slots v' ->
  x ∈ free_clusters_of (info v') <-> x ∈ cs \/ x ∈ free_clusters_of (info v).
Proof.
  intros Hv Hch Hds Dl. destruct (de_info _ _ _ _ Dl) as (b & Hi & Hlen). destruct (chain_sectors v c cs Hv Hch Hds) as (_ & Huse & _).
  assert (Hsm : table_small (info v)) by (unfold table_small; pose proof (ro_table v Hv); div_lia).
  assert (Hscan : scan_range (info v') = scan_range (info v)) by (by rewrite Hi, scan_range_length).
  rewrite !free_clusters_of_spec, Hscan. split.
  - intros [Hx Hz]. destruct (decide (x ∈ cs)) as [|Hn]; [by left|]. right. split; [done|].
    rewrite (de_kept _ _ _ _ Dl) in Hz; [done| |done]. destruct (scan_range_in _ _ Hsm Hx) as [Hr _]. pose proof (ro_table v Hv).
    unfold cluster12. lia.
  - intros [Hx|[Hx Hz]].
    + split; [by apply Huse|by apply (de_free _ _ _ _ Dl)].
    + split; [done|]. rewrite (de_kept _ _ _ _ Dl); [done| |].
      * destruct (scan_range_in _ _ Hsm Hx) as [Hr _]. pose proof (ro_table v Hv). unfold cluster12. lia.
      * intros Hin. by destruct (Huse x Hin) as (_ & _ & ?).
Qed.

(** What a name finds is a function of the slots and of where the directory lies. *)
Lemma find_by_slots v v' nm :
  root_ok v -> root_ok v' -> root_lbas (info v') = root_lbas (info v) ->
  lookup_slot (root_slots v') nm = lookup_slot (root_slots v) nm ->
  (find_entry_location_in Root nm v').1 = (find_entry_location_in Root nm v).1.
Proof.
  intros Hv Hv' Hr Hl.
  destruct (find_entry_ok Root (root_lbas (info v)) nm v eq_refl (ro_serves v Hv)) as (w & -> & _).
  destruct (find_entry_ok Root (root_lbas (info v')) nm v' eq_refl (ro_serves v' Hv')) as (w' & -> & _).
  fold (root_slots v) (root_slots v'). by rewrite Hr, Hl.
Qed.
End Delete.

(** ** Creating and deleting *)

(** Free slots at one place are as good as others. *)
Lemma free_lookup A F F' B nm :
  length F = length F' -> tidy (A ++ F ++ B) false = true -> tidy (A ++ F' ++ B) false = true -> no_end A ->
  pending_after A false = false ->
  Forall (fun r => free_slot r = true) F -> Forall (fun r => free_slot r = true) F' ->
  lookup_slot (A ++ F' ++ B) nm = lookup_slot (A ++ F ++ B) nm.
Proof.
  intros Hl Ht Ht' Hn Hp HF HF'. rewrite (tidy_app A (F ++ B) false Hn), Hp in Ht. rewrite (tidy_app A (F' ++ B) false Hn), Hp in Ht'.
  apply andb_true_iff in Ht as [HtA Ht], Ht' as [_ Ht'].
  unfold lookup_slot. rewrite !(find_app A). pose proof (find_prefix A false 0 nm LfnState_default HtA ltac:(done)) as HfA.
  destruct (find_in_slots A 0 nm LfnState_default) as [| |la]; [done|done|]. specialize (HfA Hp). cbn [Nat.add].
  assert (Hone : forall F, length F = length F' -> tidy (F ++ B) false = true -> Forall (fun r => free_slot r = true) F ->
    found_of (find_in_slots (F ++ B) (length A) nm la) =
      found_of (find_in_slots B (length A + length F') nm LfnState_default)); [|by rewrite !Hone].
  clear F Hl Ht HF. intros F Hl Ht HF. destruct (free_run_cases F B Ht HF) as [[Hnf HtB]|(Hz & _ & Hfz)].
  - destruct (find_free F (length A) nm la HF Hnf HfA) as (lf & Ef & Hcf). rewrite (find_app F), Ef, Hl. by apply (tidy_find_agree B false).
  - rewrite Hfz. symmetry. by apply zero_slots.
Qed.

Lemma free_entries A F F' B :
  tidy (A ++ F ++ B) false = true -> tidy (A ++ F' ++ B) false = true -> no_end A -> pending_after A false = false ->
  Forall (fun r => free_slot r = true) F -> Forall (fun r => free_slot r = true) F' ->
  entries (A ++ F' ++ B) = entries (A ++ F ++ B).
Proof.
  intros Ht Ht' Hn Hp HF HF'. rewrite (tidy_app A (F ++ B) false Hn), Hp in Ht. rewrite (tidy_app A (F' ++ B) false Hn), Hp in Ht'.
  apply andb_true_iff in Ht as [HtA Ht], Ht' as [_ Ht'].
  unfold entries. rewrite !(parse_app A). destruct (parse_prefix A false [] LfnState_default HtA ltac:(done)) as (ea & la & -> & HfA).
  specialize (HfA Hp).
  assert (Hone : forall F, tidy (F ++ B) false = true -> Forall (fun r => free_slot r = true) F ->
    (parse_dir_slots (F ++ B) ([] ++ ea) la).1.2 = (parse_dir_slots B ([] ++ ea) LfnState_default).1.2); [|by rewrite !Hone].
  clear F Ht HF. intros F Ht HF. destruct (free_run_cases F B Ht HF) as [[Hnf HtB]|(Hz & Hfz & _)].
  - destruct (parse_free F ([] ++ ea) la HF Hnf HfA) as (lf & Ef & Hcf). rewrite (parse_app F), Ef. f_equal. by apply (tidy_parse_agree B false).
  - rewrite Hfz. symmetry. by apply zero_slots.
Qed.

(** A place in a list has one group in front of it. *)
Lemma group_unique A L raw B A' L' raw' B' :
  A ++ (L ++ [raw]) ++ B = A' ++ (L' ++ [raw']) ++ B' -> (length A + length L = length A' + length L')%nat ->
  Forall (fun r => slot_kind_of r = SlotLong) L -> Forall (fun r => slot_kind_of r = SlotLong) L' ->
  pending_after A false = false -> pending_after A' false = false ->
  A = A' /\ L = L' /\ raw = raw' /\ B = B'.
Proof.
  intros E Hl HL HL' HA HA'.
  assert (E1 : A ++ L = A' ++ L' /\ raw :: B = raw' :: B').
  { rewrite <- !app_assoc, !(app_assoc _ L), !(app_assoc _ L') in E. apply app_inj_1 in E as [-> [= -> ->]]; [done|]. rewrite !length_app. lia. }
  destruct E1 as [E1 [= -> ->]].
  assert (Hpend : forall P X, Forall (fun r => slot_kind_of r = SlotLong) X -> pending_after (P ++ X) false = false -> X = []).
  { clear. intros P X HX. destruct X as [|x X _] using rev_ind; [done|]. apply Forall_app in HX as [_ [Hx _]%Forall_cons].
    rewrite app_assoc. generalize (P ++ X). intros Q. assert (H : forall p, pending_after (Q ++ [x]) p = true); [|by rewrite H].
    induction Q as [|r Q IH]; intros p; cbn [app pending_after]; [by rewrite Hx|apply IH]. }
  apply app_eq_inv in E1 as [(X & -> & ->)|(X & -> & ->)].
  - apply Forall_app in HL' as [HX _]. rewrite (Hpend _ _ HX HA). by rewrite app_nil_r.
  - apply Forall_app in HL as [HX _]. rewrite (Hpend _ _ HX HA'). by rewrite app_nil_r.
Qed.

Section Undo.
Context {D : Type} `{BlockDev D}.
Implicit Types v : Vol D.

Lemma stored_kinds nm sn longs : stored nm sn longs -> Forall (fun r => slot_kind_of r = SlotLong) longs.
Proof.
  destruct 1 as [|nm sn _ Hsane Hl Hne Hv Hlen]; [constructor|].
  apply build_lfn_entries_kind; [done|eapply Forall_impl; [exact Hv|]; apply valid_lfn_name_byte|lia].
Qed.

(** The new file's clusters are its chain. *)
Lemma created_chain v c rest data slots v' :
  root_ok v -> (forall x, x ∈ c :: rest -> x ∈ free_clusters_of (info v)) -> NoDup (c :: rest) -> created v (c :: rest) data slots v' ->
  chain (info v') CHAIN_FUEL c = Ok (c :: rest) /\ Forall data_cluster (c :: rest).
Proof.
  intros Hv Hcs Hnd [Hi _ _ _ _]. destruct (free_linkable v (c :: rest) Hv Hcs) as (_ & Hlk & _ & _).
  assert (Hdc : Forall data_cluster (c :: rest)) by (eapply Forall_impl; [exact Hlk|]; by intros ? []).
  split; [|done]. rewrite Hi. eapply chain_more_fuel; [apply (chain_link_table (info v) (c :: rest) [] c rest); [apply Hv|done..]|].
  pose proof (data_clusters_short _ Hnd Hdc) as Hsh. cbn [length] in Hsh. unfold CHAIN_FUEL. lia.
Qed.

(** The volume after a creation and the deletion of what it created. *)
Record undone v cs v2 : Prop := {
  un_ok : root_ok v2;
  un_info : exists b, info v2 = set_fat_bytes b (info v) /\ length b = length (fat_bytes (info v));
  un_table : forall x, cluster12 x -> fat_entry (fat_bytes (info v2)) x = fat_entry (fat_bytes (info v)) x;
  un_entries : entries (root_slots v2) = entries (root_slots v);
  un_lookup : forall other, lookup_slot (root_slots v2) other = lookup_slot (root_slots v) other;
  un_clusters : forall x, x ∈ cs -> x ∈ free_clusters_of (info v);
  un_sectors : forall a, a ∉ root_lbas (info v) -> outside_table (info v) a -> a ∉ all_lbas (info v) cs ->
    sector_at (dev v2) a = sector_at (dev v) a;
  un_serves : forall a, serves (dev v) a -> serves (dev v2) a;
}.

Lemma undone_unchanged v w cs v2 : unchanged v w -> undone w cs v2 -> undone v cs v2.
Proof.
  intros U [U1 U2 U3 U4 U5 U6 U7 U8]. pose proof (root_slots_unchanged v w U) as Hs. destruct U as [Hi [Hb Hk]].
  split; [done|by rewrite <- Hi|intros x Hx; by rewrite U3, Hi|by rewrite <- Hs|intros o; by rewrite U5, Hs| | |].
  - intros x Hx. rewrite <- Hi. by apply U6.
  - intros a Ha Ho Hn. rewrite Hi in U7. by rewrite U7, Hb.
  - intros a Ha. by apply U8, Hk.
Qed.

Lemma undone_read v w cs v2 : undone v cs v2 -> unchanged v2 w -> undone v cs w.
Proof.
  intros [U1 U2 U3 U4 U5 U6 U7 U8] U. pose proof (root_slots_unchanged v2 w U) as Hs. pose proof (root_ok_unchanged v2 w U1 U) as Hw.
  destruct U as [Hi [Hb Hk]]. split; [done|by rewrite Hi|intros x Hx; by rewrite Hi, U3|by rewrite Hs|intros o; by rewrite Hs, U5|done| |].
  - intros a Ha Ho Hn. by rewrite Hb, U7.
  - intros a Ha. by apply Hk, U8.
Qed.

Lemma create_undone v clock nm data v1 :
  root_ok v -> good_name nm -> bytes_ok data -> Z.of_nat (length data) < 2 ^ 32 -> valid_time clock ->
  create_file clock nm data v = (Ok tt, v1) ->
  forall w, unchanged v1 w -> exists cs v2, delete_file nm w = (Ok tt, v2) /\ undone v cs v2.
Proof.
  intros Hv Hnm Hb Hlen Htime E w Uw.
  destruct (create_plans v clock nm data Hv Hnm) as
    [(x & v3 & E' & _)|(v3 & sn & longs & A & F & B & P & Q & slots & c & rest & Hp & E')]; [by rewrite E in E'|].
  pose proof (fat_datetime_roundtrip clock Htime) as Hdt. destruct (to_fat_datetime clock) as [t d]. destruct Hdt as (Ht & Hd & _).
  destruct (plan_carried_out v nm data v3 sn longs A F B P Q slots c rest t d Hv Hb Hlen Ht Hd Hp)
    as (v' & slots' & e & Ew & C & Hv' & He & Hs' & (l1 & l2 & L1 & L2) & Hlk & _ & _).
  rewrite E in E'. pose proof (eq_trans E' Ew) as Ev. injection Ev as ->. clear E' Ew.
  apply (created_read _ _ _ _ _ w) in C; [|done]. apply (root_ok_unchanged v' w) in Hv'; [|done]. clear v' E Uw.
  destruct (created_chain v c rest data slots' w Hv (pl_clusters _ _ _ _ _ _ _ _ _ _ _ _ _ _ Hp) (pl_NoDup _ _ _ _ _ _ _ _ _ _ _ _ _ _ Hp) C)
    as [Hch Hdc].
  pose proof (cr_slots _ _ _ _ _ C) as Hsl. rewrite <- Hsl in Hlk, L2.
  destruct (delete_outcome w nm Hv') as [(x & w' & _ & _ & Hbad)|
    (v2 & j & e2 & cs & slots2 & E2 & Hlk2 & _ & Hch2 & _ & Dl & Hv2 & (m1 & m2 & M1 & M2) & (A' & L & raw & B' & HS & HS2 & Hj & HL & HA') & _)].
  { intros i x Hi _. rewrite Hlk in Hi. injection Hi as <- <-. exists (c :: rest). by rewrite He. }
  { specialize (Hbad _ _ Hlk). by rewrite He in Hbad. }
  exists (c :: rest), v2. split; [done|].
  rewrite Hlk in Hlk2. injection Hlk2 as Hj' <-. rewrite He in Hch2. cbn [FatCommon.start_cluster] in Hch2. rewrite Hch in Hch2. injection Hch2 as <-.
  destruct Hp as [U _ Htaken Hst Hnew HF HP HlP HlF Hls Hfree HnA Hnd Hcs Hcap].
  assert (HlG : length (longs ++ [build_dir_entry sn 0x20 c (Z.of_nat (length data)) t d]) = length F) by (rewrite length_app; cbn [length]; lia).
  assert (HF0 : F <> []) by (by destruct F).
  pose proof (ro_tidy v Hv) as Htv. rewrite HF in Htv.
  destruct (insert_prefix A F _ B Htv HnA Hfree HF0 HlG) as (HtA & HA & HtFB).
  rewrite Hsl, Hs' in HS. destruct (group_unique _ _ _ _ _ _ _ _ HS) as (<- & <- & <- & <-);
    [lia|by eapply stored_kinds|done|done|done|].
  pose proof (ro_tidy v2 Hv2) as Ht2. rewrite (de_slots _ _ _ _ Dl), HS2 in Ht2.
  destruct (marks_free (longs ++ [build_dir_entry sn 0x20 c (Z.of_nat (length data)) t d])) as [Hmf _].
  pose proof (cr_info _ _ _ _ _ C) as Hi1. destruct (de_info _ _ _ _ Dl) as (b & Hi2 & Hl2). rewrite Hi1 in Hi2, Hl2.
  cbn [set_fat_bytes fat_bytes] in Hl2.
  assert (Hbytes : bytes_ok (fat_bytes (info v))) by apply Hv.
  destruct (free_linkable v (c :: rest) Hv Hcs) as (_ & Hlk' & _ & _).
  split; [done|exists b; split; [exact Hi2|by rewrite Hl2; apply link_table_wf]| | | |done| |].
  - intros x Hx. destruct (decide (x ∈ c :: rest)) as [Hin|Hn].
    + rewrite (de_free _ _ _ _ Dl) by done. symmetry. by apply free_clusters_of_spec, Hcs.
    + rewrite (de_kept _ _ _ _ Dl) by done. rewrite Hi1. cbn [set_fat_bytes fat_bytes]. by apply link_table_out.
  - rewrite (de_slots _ _ _ _ Dl), HS2, HF. by apply free_entries.
  - intros other. rewrite (de_slots _ _ _ _ Dl), HS2, HF. apply free_lookup; try done. by rewrite length_map.
  - intros a Ha Ho Hn. rewrite (de_sectors _ _ _ _ Dl) by (by rewrite Hi1).
    rewrite (cr_sectors _ _ _ _ _ C) by done. by apply write_blocks_out.
  - intros a Ha. by apply (de_serves _ _ _ _ Dl), (cr_serves _ _ _ _ _ C).
Qed.
End Undo.

(** ** Properties *)

(** C19. Deleting a file of the root directory does that and nothing else.  On a
    well-formed volume, when the named file's cluster chain is whole, [delete_file]
    returns; it fails, and then no sector has changed, exactly when the name finds no
    file.  Otherwise the volume is well-formed again, the listing has lost that one entry,
    exactly the file's clusters have become free, every name that did not find the file
    finds what it found, and reads what it read unless its clusters were shared with it. *)
Theorem delete_file_spec {D} `{BlockDev D} (v : Vol D) nm :
  root_ok v ->
  (forall lba off e, (find_entry_location_in Root nm v).1 = Ok (lba, off, e) -> is_dir e = false -> whole v e) ->
  exists r v', delete_file nm v = (r, v') /\
  match r with
  | Ok _ =>
      root_ok v' /\ exists lba off e cs l1 l2,
        (find_entry_location_in Root nm v).1 = Ok (lba, off, e) /\ is_dir e = false /\
        chain (info v) CHAIN_FUEL (FatCommon.start_cluster e) = Ok cs /\
        (list_root_directory v).1 = Ok (l1 ++ e :: l2) /\ (list_root_directory v').1 = Ok (l1 ++ l2) /\
        (forall x, x ∈ free_clusters_of (info v') <-> x ∈ cs \/ x ∈ free_clusters_of (info v)) /\
        forall other, (find_entry_location_in Root other v).1 <> Ok (lba, off, e) ->
          (find_entry_location_in Root other v').1 = (find_entry_location_in Root other v).1 /\
          ((forall lba' off' e', (find_entry_location_in Root other v).1 = Ok (lba', off', e') -> is_dir e' = true \/ size e' = 0 \/
              exists ds, chain (info v) CHAIN_FUEL (FatCommon.start_cluster e') = Ok ds /\ Forall data_cluster ds /\ forall x, x ∈ ds -> x ∉ cs) ->
           (read_file other v').1 = (read_file other v).1)
  | Err _ => unchanged v v' /\ forall lba off e, (find_entry_location_in Root nm v).1 = Ok (lba, off, e) -> is_dir e = true
  | _ => False
  end.
Proof.
  intros Hv Hw. destruct (delete_outcome v nm Hv) as
    [(x & v' & E & U & Hd)|(v' & j & e & cs & slots & E & Hl & Hd & Hch & Hds & Dl & Hv' & (l1 & l2 & L1 & L2) & _ & Ho)].
  - intros j e Hl Hd. destruct (lookup_found v nm j e Hv Hl) as (lba & off & Hf). by eapply Hw.
  - exists (Err x), v'. split; [done|]. split; [done|]. intros lba off e Hf.
    destruct (find_entry_ok Root (root_lbas (info v)) nm v eq_refl (ro_serves v Hv)) as (w & Ef & _). fold (root_slots v) in Ef. rewrite Ef in Hf.
    destruct (lookup_slot (root_slots v) nm) as [[j e']|]; [|done]. destruct (positions _ !! j) as [[a o]|]; [|done].
    injection Hf as _ _ <-. by apply (Hd j).
  - exists (Ok tt), v'. split; [done|]. split; [done|]. destruct (lookup_found v nm j e Hv Hl) as (lba & off & Hf).
    exists lba, off, e, cs, l1, l2. destruct (root_listing v Hv) as (w & -> & _), (root_listing v' Hv') as (w' & -> & _). cbn [fst].
    rewrite L1, (de_slots _ _ _ _ Dl), L2. do 5 (split; [done|]). split; [intros x; by eapply deleted_free|]. intros other Hne.
    assert (Hlo : lookup_slot slots other = lookup_slot (root_slots v) other).
    { apply Ho. intros Hlo. apply Hne. rewrite <- Hf.
      destruct (find_entry_ok Root (root_lbas (info v)) other v eq_refl (ro_serves v Hv)) as (w1 & -> & _).
      destruct (find_entry_ok Root (root_lbas (info v)) nm v eq_refl (ro_serves v Hv)) as (w2 & -> & _).
      fold (root_slots v). by rewrite Hlo, Hl. }
    destruct (de_info _ _ _ _ Dl) as (b & Hi & _). split.
    + apply find_by_slots; [done|done|by rewrite Hi|by rewrite (de_slots _ _ _ _ Dl)].
    + intros Hint. eapply read_kept; [done|exact Hds|done..|]. intros i e' Hi'. destruct (lookup_found v other i e' Hv Hi') as (lba' & off' & Hf').
      by eapply Hint.
Qed.

(** The volume of Fat12Create with its file OLD. *)
Lemma delete_file_spec_witness :
  exists v', delete_file [0x6F; 0x6C; 0x64] small_vol = (Ok tt, v') /\ root_ok v' /\ (list_root_directory v').1 = Ok [] /\
    2 ∈ free_clusters_of (info v').
Proof.
  destruct (delete_file_spec small_vol [0x6F; 0x6C; 0x64] small_vol_ok) as (r & v' & E & Hr).
  - intros lba off e Hf _. vm_compute in Hf. injection Hf as _ _ <-. exists [2]. split; [vm_compute; reflexivity|].
    constructor; [unfold data_cluster; lia|constructor].
  - assert (E1 : (delete_file [0x6F; 0x6C; 0x64] small_vol).1 = Ok tt) by (vm_compute; reflexivity).
    rewrite E in E1. cbn [fst] in E1. subst r. exists v'. split; [exact E|].
    destruct Hr as (Hok & lba & off & e & cs & l1 & l2 & Hf & _ & Hch & Hl & Hl' & Hfree & _).
    split; [exact Hok|]. vm_compute in Hf. injection Hf as _ _ <-. vm_compute in Hch. injection Hch as <-. split.
    + assert (Hlen : (list_root_directory small_vol).1 = Ok [mk_DirEntry [0x4F; 0x4C; 0x44] false 3 2 0 0]) by (vm_compute; reflexivity).
      rewrite Hl in Hlen. injection Hlen as Hlen. rewrite Hl'. destruct l1 as [|? [|? ?]], l2; try discriminate Hlen. reflexivity.
    + apply Hfree. left. left.
Defined.

(** What is undone cannot be seen. *)
Lemma undone_same {D} `{BlockDev D} (v : Vol D) cs v2 :
  root_ok v -> undone v cs v2 ->
  (list_root_directory v2).1 = (list_root_directory v).1 /\ free_clusters_of (info v2) = free_clusters_of (info v) /\
  forall other,
    (find_entry_location_in Root other v2).1 = (find_entry_location_in Root other v).1 /\
    ((forall lba off e, (find_entry_location_in Root other v).1 = Ok (lba, off, e) -> intact v e) ->
     (read_file other v2).1 = (read_file other v).1).
Proof.
  intros Hv Un. pose proof (un_ok _ _ _ Un) as Hv2. destruct (un_info _ _ _ Un) as (b & Hi & Hl).
  assert (Hsm : table_small (info v)) by (unfold table_small; pose proof (ro_table v Hv); div_lia).
  split; [|split].
  - destruct (root_listing v Hv) as (w & -> & _), (root_listing v2 Hv2) as (w' & -> & _). cbn [fst]. by rewrite (un_entries _ _ _ Un).
  - unfold free_clusters_of. assert (Hs : scan_range (info v2) = scan_range (info v)) by (by rewrite Hi, scan_range_length).
    rewrite Hs. apply List.filter_ext_in. intros x Hx%list_elem_of_In. f_equal. apply (un_table _ _ _ Un).
    destruct (scan_range_in _ _ Hsm Hx) as [Hr _]. pose proof (ro_table v Hv). unfold cluster12. lia.
  - intros other. split; [apply find_by_slots; [done|done|by rewrite Hi|apply Un]|]. intros Hint.
    apply read_same; [done|done|by rewrite Hi|apply Un|apply Un|]. intros j e Hlk.
    destruct (lookup_found v other j e Hv Hlk) as (lba & off & Hf).
    destruct (Hint _ _ _ Hf) as [?|[?|(ds & Hch & Hds)]]; [by left|by right; left|right; right]. exists ds.
    destruct (chain_sectors v _ ds Hv Hch Hds) as (_ & Huse & Hout). split_and!; [done|done| |].
    + pose proof (un_table _ _ _ Un) as Ht. rewrite Hi in *. cbn [set_fat_bytes fat_bytes] in Ht.
      apply chain_table_ext; [done|done|]. intros x Hx. apply Ht, data_cluster12, Huse, Hx.
    + intros a Ha. destruct (Hout a Ha) as [Ho Hr]. apply (un_sectors _ _ _ Un); [done|done|].
      eapply (chains_apart v ds cs); try done. apply Un.
Qed.

(** C20. Deleting undoes creating.  When [create_file] has put a file on a well-formed
    volume, [delete_file] of that name succeeds, and then the directory listing is what
    it was, the same clusters are free, every name - that one included - finds what it
    found before the creation, and every file of before reads the same. *)
Theorem delete_undoes_create {D} `{BlockDev D} (v : Vol D) clock nm data v1 :
  root_ok v -> good_name nm -> bytes_ok data -> Z.of_nat (length data) < 2 ^ 32 -> valid_time clock ->
  create_file clock nm data v = (Ok tt, v1) ->
  exists v2, delete_file nm v1 = (Ok tt, v2) /\ root_ok v2 /\
    (list_root_directory v2).1 = (list_root_directory v).1 /\ free_clusters_of (info v2) = free_clusters_of (info v) /\
    forall other,
      (find_entry_location_in Root other v2).1 = (find_entry_location_in Root other v).1 /\
      ((forall lba off e, (find_entry_location_in Root other v).1 = Ok (lba, off, e) -> intact v e) ->
       (read_file other v2).1 = (read_file other v).1).
Proof.
  intros Hv Hnm Hb Hlen Htime E. destruct (create_undone v clock nm data v1 Hv Hnm Hb Hlen Htime E v1 (unchanged_refl v1)) as (cs & v2 & E2 & Un).
  exists v2. split; [done|]. split; [apply Un|]. by apply (undone_same v cs).
Qed.

Lemma delete_undoes_create_witness :
  exists v1 v2, create_file small_clock small_name (replicate 600 7) small_vol = (Ok tt, v1) /\ delete_file small_name v1 = (Ok tt, v2) /\
    free_clusters_of (info v2) = free_clusters_of (info small_vol) /\
    (read_file small_name v2).1 = (read_file small_name small_vol).1 /\ (read_file [0x6F; 0x6C; 0x64] v2).1 = Ok [0x61; 0x62; 0x63].
Proof.
  destruct (create_file small_clock small_name (replicate 600 7) small_vol) as [r v1] eqn:E.
  assert (E1 : (create_file small_clock small_name (replicate 600 7) small_vol).1 = Ok tt) by (vm_compute; reflexivity).
  rewrite E in E1. cbn [fst] in E1. subst r.
  destruct (delete_undoes_create small_vol small_clock small_name (replicate 600 7) v1 small_vol_ok) as (v2 & E2 & _ & _ & Hfree & Hoth).
  - intros H. vm_compute in H. discriminate H.
  - apply Forall_replicate. unfold byte_ok; lia.
  - rewrite length_replicate. lia.
  - unfold valid_time; cbn; lia.
  - exact E.
  - exists v1, v2. split; [reflexivity|]. split; [exact E2|]. split; [exact Hfree|]. split.
    + apply Hoth. intros lba off e Hf. vm_compute in Hf. discriminate Hf.
    + transitivity ((read_file [0x6F; 0x6C; 0x64] small_vol).1); [|vm_compute; reflexivity]. apply Hoth.
      intros lba off e Hf. vm_compute in Hf. injection Hf as _ _ <-. right. right. exists [2]. split; [vm_compute; reflexivity|].
      constructor; [unfold data_cluster; lia|constructor].
Defined.
