(* ===== verification/Fat32.v ===== *)
(** * Fat32: the read-only FAT32 filesystem ([fat32.rs])

    The table stays on disk: every step of a chain reads its sector.  Methods are
    computations on the block device; a chain walk takes fuel, and the theorems
    give the result for any fuel that covers the chain. *)
From stdpp Require Import base list numbers strings gmap.
From Stdlib Require Import Lia.
From S2P Require Import Prelude FatCommon Partition BlockDev.
Open Scope Z_scope.

Record Fat32Info := mk_Fat32Info {
  sectors_per_cluster : Z;
  reserved_sector_count : Z;
  num_fats : Z;
  fat_size_32 : Z;
  root_cluster : Z;
  partition_start_lba : Z;
}.

Definition first_fat_sector (fs : Fat32Info) : Z :=
  u32 (partition_start_lba fs + reserved_sector_count fs).

Definition first_data_sector (fs : Fat32Info) : Z :=
  u32 (first_fat_sector fs + u32 (num_fats fs * fat_size_32 fs)).

Definition cluster_to_lba (fs : Fat32Info) (cluster : Z) : Z :=
  u32 (first_data_sector fs + u32 (u32 (cluster - 2) * sectors_per_cluster fs)).

(** [cluster_lba + s] for [s in 0..self.sectors_per_cluster as u32]. *)
Definition cluster_lbas (fs : Fat32Info) (cluster : Z) : list Z :=
  map (fun s => u32 (cluster_to_lba fs cluster + Z.of_nat s)) (seq 0 (Z.to_nat (sectors_per_cluster fs))).

(** The sector of a cluster's table entry, and the entry in it. *)
Definition entry_sector (fs : Fat32Info) (cluster : Z) : Z :=
  u32 (first_fat_sector fs + u32 (cluster * 4) / 512).

Definition entry_in (sector : list Z) (cluster : Z) : res (option Z) :=
  let raw := Z.land (le32_at sector (Z.to_nat (u32 (cluster * 4) mod 512))) 0x0FFFFFFF in
  if raw =? 0 then Err "FAT32: cluster chain hit a free (0) entry unexpectedly"
  else if 0x0FFFFFF8 <=? raw then Ok None
  else Ok (Some raw).

Section Ops.
Context {D : Type} `{BlockOps D}.

Definition read_bpb (partition : PartitionEntry) : M D Fat32Info :=
  sector ← read_sector (start_lba partition);
  if negb (byte_at sector 510 =? 0x55) || negb (byte_at sector 511 =? 0xAA) then
    lift (Err "FAT32: boot sector missing 0x55AA signature")
  else if negb (le16_at sector 11 =? 512) then
    lift (Err "FAT32: only 512-byte sectors are supported")
  else if negb (le16_at sector 17 =? 0) then
    lift (Err "not FAT32 (root_entry_count != 0 means this is FAT12/16)")
  else if le32_at sector 36 =? 0 then
    lift (Err "FAT32: fat_size_32 is 0 - not a valid FAT32 BPB")
  else
    mret (mk_Fat32Info (byte_at sector 13) (le16_at sector 14) (byte_at sector 16) (le32_at sector 36)
            (le32_at sector 44) (start_lba partition)).

Definition next_cluster (fs : Fat32Info) (cluster : Z) : M D (option Z) :=
  sector ← read_sector (entry_sector fs cluster);
  lift (entry_in sector cluster).

(** One sector of a listing. *)
Definition list_sector (lba : Z) (st : list DirEntry * LfnState)
    : M D (list DirEntry * LfnState + list DirEntry) :=
  sector_buf ← read_sector lba;
  let '(ended, entries, lfn) := parse_dir_sector sector_buf st.1 st.2 in
  mret (if ended : bool then inr entries else inl (entries, lfn)).

Definition list_directory (fuel : nat) (fs : Fat32Info) (start_cluster : Z) : M D (list DirEntry) :=
  o ← walk (next_cluster fs) (fun c st => for_each (cluster_lbas fs c) list_sector st)
        fuel start_cluster ([], LfnState_default);
  mret (match o with inl st => st.1 | inr entries => entries end).

Definition FILE_NOT_FOUND : string := "FAT32: file not found in root directory".

(** The slots of one sector: the entry that matches, the end marker ([None]), or
    the state to go on with. *)
Fixpoint find_in_slots (slots : list (list Z)) (name : list Z) (lfn : LfnState)
    : LfnState + option DirEntry :=
  match slots with
  | [] => inl lfn
  | raw :: rest =>
      match slot_kind_of raw with
      | SlotEnd => inr None
      | SlotFree | SlotLabel => find_in_slots rest name (reset lfn)
      | SlotLong => find_in_slots rest name (push_long_entry raw lfn)
      | SlotShort =>
          match short_entry_if_matches raw lfn name with
          | (Some entry, _) => inr (Some entry)
          | (None, lfn) => find_in_slots rest name lfn
          end
      end
  end.

Definition find_sector (name : list Z) (lba : Z) (lfn : LfnState) : M D (LfnState + DirEntry) :=
  sector_buf ← read_sector lba;
  match find_in_slots (as_chunks 32 sector_buf) name lfn with
  | inl lfn => mret (inl lfn)
  | inr (Some entry) => mret (inr entry)
  | inr None => lift (Err FILE_NOT_FOUND)
  end.

Definition find_entry (fuel : nat) (fs : Fat32Info) (start_cluster : Z) (name : list Z) : M D DirEntry :=
  o ← walk (next_cluster fs) (fun c lfn => for_each (cluster_lbas fs c) (find_sector name) lfn)
        fuel start_cluster LfnState_default;
  match o with
  | inr entry => mret entry
  | inl _ => lift (Err FILE_NOT_FOUND)
  end.

(** One sector of a file: the loop returns when [size] bytes are there. *)
Definition read_step (size : Z) (lba : Z) (data : list Z) : M D (list Z + list Z) :=
  sector_buf ← read_sector lba;
  let remaining := size - Z.of_nat (length data) in
  let data := data ++ take (Z.to_nat (Z.min remaining 512)) sector_buf in
  mret (if size <=? Z.of_nat (length data) then inr data else inl data).

Definition read_chain (fuel : nat) (fs : Fat32Info) (size start_cluster : Z) : M D (list Z) :=
  o ← walk (next_cluster fs) (fun c data => for_each (cluster_lbas fs c) (read_step size) data)
        fuel start_cluster [];
  mret (match o with inl data => data | inr data => data end).

Definition read_file (fuel : nat) (fs : Fat32Info) (name : list Z) : M D (list Z) :=
  entry ← find_entry fuel fs (root_cluster fs) name;
  if is_dir entry then lift (Err FILE_NOT_FOUND)
  else if size entry =? 0 then mret []
  else read_chain fuel fs (size entry) (start_cluster entry).
End Ops.

(** ** What a volume holds *)

(** The chain from [c] in a table on the sectors [f]: the clusters [cs], ended by a
    last one whose entry is an end mark. *)
Inductive links (fs : Fat32Info) (f : Z -> list Z) : Z -> list Z -> Prop :=
| links_end c : entry_in (f (entry_sector fs c)) c = Ok None -> links fs f c [c]
| links_cons c n cs :
    entry_in (f (entry_sector fs c)) c = Ok (Some n) -> links fs f n cs -> links fs f c (c :: cs).

(** The sectors of a chain's clusters, in order. *)
Definition chain_lbas (fs : Fat32Info) (cs : list Z) : list Z := concat (map (cluster_lbas fs) cs).

Definition chain_data (fs : Fat32Info) (f : Z -> list Z) (cs : list Z) : list Z :=
  concat (map f (chain_lbas fs cs)).

(** The directory slots of a chain. *)
Definition chain_slots (fs : Fat32Info) (f : Z -> list Z) (cs : list Z) : list (list Z) :=
  concat (map (fun a => as_chunks 32 (f a)) (chain_lbas fs cs)).

(** ** Lemmas *)

Section Walks.
Context {D : Type} `{BlockDev D}.

(** A loop over sectors whose body only reads, against its pure counterpart. *)
Fixpoint fold_sectors {B R} (f : Z -> list Z) (step : list Z -> B -> res (B + R)) (lbas : list Z) (b : B)
    : res (B + R) :=
  match lbas with
  | [] => Ok (inl b)
  | a :: r => o ← step (f a) b; match o with inl b => fold_sectors f step r b | inr x => Ok (inr x) end
  end.

(** [body] is: read the sector, then [step]. *)
Definition reads {B R} (body : Z -> B -> M D (B + R)) (step : list Z -> B -> res (B + R)) : Prop :=
  forall a b d, body a b d = (s ← read_sector a; lift (step s b)) d.

Lemma fold_sectors_app {B R} f (step : list Z -> B -> res (B + R)) l1 l2 b :
  fold_sectors f step (l1 ++ l2) b =
    (o ← fold_sectors f step l1 b; match o with inl b => fold_sectors f step l2 b | inr x => Ok (inr x) end).
Proof.
  revert b. induction l1 as [|a l1 IH]; intros b; [done|]. cbn.
  destruct (step (f a) b) as [[b'|x]| | |]; cbn; [apply IH|done..].
Qed.

Lemma for_each_reads {B R} (body : Z -> B -> M D (B + R)) step lbas b d f :
  reads body step -> (forall a, sector_at d a = f a) -> (forall a, a ∈ lbas -> serves d a) ->
  exists d', for_each lbas body b d = (fold_sectors f step lbas b, d') /\ becomes d (sector_at d) d'.
Proof.
  intros Hr. revert b d. induction lbas as [|a lbas IH]; intros b d Hf Hs.
  - exists d. split; [done|apply becomes_refl].
  - cbn [for_each fold_sectors].
    destruct (read_sector_served d a) as (d1 & E1 & [Hd1 Hs1]); [apply Hs, list_elem_of_here|].
    assert (E : body a b d = (step (f a) b, d1)) by (rewrite Hr; unfold mbind, M_bind; by rewrite E1, Hf).
    unfold mbind at 1, M_bind at 1. rewrite E. destruct (step (f a) b) as [[b'|x]|e| |]; cbn.
    + destruct (IH b' d1) as (d2 & E2 & Hb2).
      * intros x. by rewrite Hd1.
      * intros x Hx. by apply Hs1, Hs, list_elem_of_further.
      * exists d2. split; [done|]. destruct Hb2 as [Hd2 Hs2]. split; [intros x; by rewrite Hd2, Hd1|]. auto.
    + exists d1. done.
    + exists d1. done.
    + exists d1. done.
    + exists d1. done.
Qed.

(** A walk along a chain is the loop over all its sectors. *)
Lemma walk_reads {B R} fs (body : Z -> B -> M D (B + R)) step c cs b d f fuel :
  reads body step -> (forall a, sector_at d a = f a) -> links fs f c cs ->
  (forall a, a ∈ chain_lbas fs cs -> serves d a) -> (forall x, x ∈ cs -> serves d (entry_sector fs x)) ->
  (length cs <= fuel)%nat ->
  exists d', walk (next_cluster fs) (fun c b => for_each (cluster_lbas fs c) body b) fuel c b d =
    (fold_sectors f step (chain_lbas fs cs) b, d') /\ becomes d (sector_at d) d'.
Proof.
  intros Hr Hf Hl. revert b d fuel Hf. induction Hl as [c Hend|c n cs Hnext Hl IH]; intros b d fuel Hf Hs Hfat Hfuel;
    (destruct fuel as [|fuel]; cbn in Hfuel; [lia|]); cbn [walk];
    unfold chain_lbas in *; cbn [map concat] in *; rewrite fold_sectors_app;
    destruct (for_each_reads body step (cluster_lbas fs c) b d f Hr Hf) as (d1 & E1 & [Hd1 Hs1]);
    try (intros a Ha; apply Hs, elem_of_app; by left);
    unfold mbind at 1, M_bind at 1; rewrite E1;
    destruct (fold_sectors f step (cluster_lbas fs c) b) as [[b'|x]|e| |]; cbn [mbind res_bind];
    try (by (exists d1; split; [done|by split])).
  - destruct (read_sector_served d1 (entry_sector fs c)) as (d2 & E2 & [Hd2 Hs2]); [apply Hs1, Hfat, list_elem_of_here|].
    exists d2. unfold next_cluster, mbind, M_bind. rewrite E2, Hd1, Hf. unfold lift. rewrite Hend.
    split; [done|]. split; [intros a; by rewrite Hd2, Hd1|]. auto.
  - destruct (read_sector_served d1 (entry_sector fs c)) as (d2 & E2 & [Hd2 Hs2]); [apply Hs1, Hfat, list_elem_of_here|].
    unfold mbind at 1, M_bind at 1. unfold next_cluster at 1, mbind at 1, M_bind at 1. rewrite E2, Hd1, Hf.
    unfold lift at 1. rewrite Hnext.
    destruct (IH b' d2 fuel) as (d3 & E3 & [Hd3 Hs3]).
    + intros a. by rewrite Hd2, Hd1.
    + intros a Ha. apply Hs2, Hs1, Hs, elem_of_app. by right.
    + intros x Hx. by apply Hs2, Hs1, Hfat, list_elem_of_further.
    + lia.
    + exists d3. split; [exact E3|]. split; [intros a; by rewrite Hd3, Hd2, Hd1|]. auto.
Qed.

Definition read_pure (size : Z) (sector data : list Z) : res (list Z + list Z) :=
  let data := data ++ take (Z.to_nat (Z.min (size - Z.of_nat (length data)) 512)) sector in
  Ok (if size <=? Z.of_nat (length data) then inr data else inl data).

Lemma reads_read size : reads (read_step size) (read_pure size).
Proof. intros a b d. done. Qed.

Definition list_pure (sector : list Z) (st : list DirEntry * LfnState)
    : res (list DirEntry * LfnState + list DirEntry) :=
  let '(ended, entries, lfn) := parse_dir_sector sector st.1 st.2 in
  Ok (if ended : bool then inr entries else inl (entries, lfn)).

Lemma reads_list : reads list_sector list_pure.
Proof.
  intros a b d. unfold list_sector, list_pure, mbind, M_bind. destruct (read_sector a d) as [[s| | |] d']; try done.
  by destruct (parse_dir_sector s b.1 b.2) as [[ended entries] lfn].
Qed.

Definition find_pure (name : list Z) (sector : list Z) (lfn : LfnState) : res (LfnState + DirEntry) :=
  match find_in_slots (as_chunks 32 sector) name lfn with
  | inl lfn => Ok (inl lfn)
  | inr (Some entry) => Ok (inr entry)
  | inr None => Err FILE_NOT_FOUND
  end.

Lemma reads_find name : reads (find_sector name) (find_pure name).
Proof.
  intros a b d. unfold find_sector, find_pure, mbind, M_bind. destruct (read_sector a d) as [[s| | |] d']; try done.
  by destruct (find_in_slots (as_chunks 32 s) name b) as [l|[e|]].
Qed.
End Walks.

(** The bytes a read gathers from the sectors of a chain. *)
Lemma fold_read size f lbas data :
  (forall a, a ∈ lbas -> length (f a) = SECTOR) -> Z.of_nat (length data) < size ->
  exists o, fold_sectors f (read_pure size) lbas data = Ok o /\
    match o with inl x | inr x => x end = take (Z.to_nat size) (data ++ concat (map f lbas)).
Proof.
  intros Hl. revert data. induction lbas as [|a lbas IH]; intros data Hd.
  - eexists. split; [done|]. cbn. rewrite app_nil_r, take_ge by lia. done.
  - cbn [fold_sectors map concat]. 
    pose proof (Hl a (list_elem_of_here _ _)) as Ha. set (n := Z.to_nat (Z.min (size - Z.of_nat (length data)) 512)).
    assert (Hn : (n <= 512)%nat) by lia.
    assert (Hp : read_pure size (f a) data = Ok (if size <=? Z.of_nat (length (data ++ take n (f a)))
      then inr (data ++ take n (f a)) else inl (data ++ take n (f a)))) by done.
    rewrite Hp, length_app, length_take, Ha. cbn [mbind res_bind]. destruct (Z.leb_spec size (Z.of_nat (length data + n `min` SECTOR))) as [Hge|Hlt].
    + eexists. split; [done|]. unfold SECTOR in *. assert (n = (Z.to_nat size - length data)%nat) by lia.
      rewrite (take_app_ge data) by lia. f_equal. rewrite take_app_le by lia. by f_equal.
    + unfold SECTOR in *. assert (Hn' : n = 512%nat) by lia. rewrite Hn', (take_ge (f a)) by lia.
      destruct (IH (fun x Hx => Hl x (list_elem_of_further _ _ _ Hx)) (data ++ f a)) as (o & E & Ho).
      * rewrite length_app, Ha. lia.
      * exists o. split; [done|]. by rewrite Ho, <- app_assoc.
Qed.

(** ** Listing and lookup *)

Lemma parse_dir_slots_app l1 l2 es lfn :
  parse_dir_slots (l1 ++ l2) es lfn =
    let '(ended, es1, lfn1) := parse_dir_slots l1 es lfn in
    if ended then (true, es1, lfn1) else parse_dir_slots l2 es1 lfn1.
Proof.
  revert es lfn. induction l1 as [|raw l1 IH]; intros es lfn; [done|]. cbn [app parse_dir_slots].
  destruct (slot_kind_of raw); [done|apply IH..|]. destruct (take_verified (take 11 raw) lfn). apply IH.
Qed.

Lemma find_in_slots_app l1 l2 name lfn :
  find_in_slots (l1 ++ l2) name lfn =
    match find_in_slots l1 name lfn with inl lfn1 => find_in_slots l2 name lfn1 | inr r => inr r end.
Proof.
  revert lfn. induction l1 as [|raw l1 IH]; intros lfn; [done|]. cbn [app find_in_slots].
  destruct (slot_kind_of raw); [done|apply IH..|].
  destruct (short_entry_if_matches raw lfn name) as [[e|] lfn']; [done|apply IH].
Qed.

(** A listing only adds to what it was given. *)
Lemma parse_dir_slots_grows l es lfn :
  exists more, (parse_dir_slots l es lfn).1.2 = es ++ more.
Proof.
  revert es lfn. induction l as [|raw l IH]; intros es lfn; [exists []; by rewrite app_nil_r|].
  cbn [parse_dir_slots]. destruct (slot_kind_of raw); [exists []; by rewrite app_nil_r|apply IH..|].
  destruct (take_verified (take 11 raw) lfn) as [n lfn'].
  destruct (IH (es ++ [dir_entry_of raw (default (format_short_name (take 8 raw) (take 3 (drop 8 raw))) n)]) lfn')
    as [more E]. eexists. by rewrite E, <- app_assoc.
Qed.

(** Every entry listed can be opened by its listed name, and only those can. *)
Lemma find_listed l name es lfn :
  match find_in_slots l name lfn with
  | inr (Some e) => exists pre post, (parse_dir_slots l es lfn).1.2 = es ++ pre ++ e :: post
  | _ => exists more, (parse_dir_slots l es lfn).1.2 = es ++ more /\
      forall e, e ∈ more -> eq_ignore_ascii_case (FatCommon.name e) name = false
  end.
Proof.
  revert es lfn. induction l as [|raw l IH]; intros es lfn; cbn [find_in_slots parse_dir_slots].
  { exists []. split; [by rewrite app_nil_r|]. intros e He. by apply not_elem_of_nil in He. }
  destruct (slot_kind_of raw).
  { exists []. split; [by rewrite app_nil_r|]. intros e He. by apply not_elem_of_nil in He. }
  1-3: apply IH.
  unfold short_entry_if_matches. destruct (take_verified (take 11 raw) lfn) as [n lfn'].
  set (short := format_short_name (take 8 raw) (take 3 (drop 8 raw))).
  set (e := dir_entry_of raw (default short n)).
  destruct (negb _) eqn:Em.
  - specialize (IH (es ++ [e]) lfn'). destruct (find_in_slots l name lfn') as [lfn2|[e2|]].
    + destruct IH as (more & E & Hm). exists (e :: more). split; [by rewrite E, <- app_assoc|].
      intros x Hx. apply elem_of_cons in Hx as [->|Hx]; [|by apply Hm].
      apply negb_true_iff, orb_false_iff in Em as [E1 E2]. by destruct n.
    + destruct IH as (pre & post & E). exists (e :: pre), post. by rewrite E, <- app_assoc.
    + destruct IH as (more & E & Hm). exists (e :: more). split; [by rewrite E, <- app_assoc|].
      intros x Hx. apply elem_of_cons in Hx as [->|Hx]; [|by apply Hm].
      apply negb_true_iff, orb_false_iff in Em as [E1 E2]. by destruct n.
  - destruct (parse_dir_slots_grows l (es ++ [e]) lfn') as [more E]. exists [], more. by rewrite E, <- app_assoc.
Qed.

Lemma fold_list f lbas es lfn :
  exists o, fold_sectors f list_pure lbas (es, lfn) = Ok o /\
    (match o with inl st => st.1 | inr entries => entries end) =
      (parse_dir_slots (concat (map (fun a => as_chunks 32 (f a)) lbas)) es lfn).1.2 /\
    match o with inl st => (parse_dir_slots (concat (map (fun a => as_chunks 32 (f a)) lbas)) es lfn) = (false, st.1, st.2)
    | inr _ => (parse_dir_slots (concat (map (fun a => as_chunks 32 (f a)) lbas)) es lfn).1.1 = true end.
Proof.
  revert es lfn. induction lbas as [|a lbas IH]; intros es lfn; [by eexists|].
  cbn [fold_sectors map concat]. rewrite parse_dir_slots_app.
  assert (Hp : list_pure (f a) (es, lfn) = (let '(ended, entries, lfn) := parse_dir_slots (as_chunks 32 (f a)) es lfn in
    Ok (if ended : bool then inr entries else inl (entries, lfn)))) by done.
  rewrite Hp. destruct (parse_dir_slots (as_chunks 32 (f a)) es lfn) as [[[|] es1] lfn1]; cbn [mbind res_bind].
  - eexists. done.
  - apply IH.
Qed.

Lemma fold_find f name lbas lfn :
  fold_sectors f (find_pure name) lbas lfn =
    match find_in_slots (concat (map (fun a => as_chunks 32 (f a)) lbas)) name lfn with
    | inl lfn => Ok (inl lfn)
    | inr (Some e) => Ok (inr e)
    | inr None => Err FILE_NOT_FOUND
    end.
Proof.
  revert lfn. induction lbas as [|a lbas IH]; intros lfn; [done|].
  cbn [fold_sectors map concat]. rewrite find_in_slots_app.
  assert (Hp : find_pure name (f a) lfn = match find_in_slots (as_chunks 32 (f a)) name lfn with
    | inl lfn => Ok (inl lfn) | inr (Some entry) => Ok (inr entry) | inr None => Err FILE_NOT_FOUND end) by done.
  rewrite Hp. destruct (find_in_slots (as_chunks 32 (f a)) name lfn) as [lfn1|[e|]]; cbn [mbind res_bind]; [apply IH|done|done].
Qed.

(** A directory or file the drive serves in full. *)
Definition served_chain {D} `{BlockDev D} (fs : Fat32Info) (d : D) (c : Z) (cs : list Z) : Prop :=
  links fs (sector_at d) c cs /\ (forall a, a ∈ chain_lbas fs cs -> serves d a) /\
  (forall x, x ∈ cs -> serves d (entry_sector fs x)).

Lemma served_becomes {D} `{BlockDev D} fs (d d' : D) c cs :
  becomes d (sector_at d) d' -> served_chain fs d c cs -> served_chain fs d' c cs.
Proof.
  intros [Hd Hs] (Hl & Ha & Hf). split; [|auto].
  induction Hl as [c E|c n cs E Hl IH].
  - apply links_end. by rewrite Hd.
  - apply (links_cons _ _ _ n); [by rewrite Hd|]. apply IH.
    + intros a Hin. apply Ha. unfold chain_lbas. cbn. apply elem_of_app. by right.
    + intros x Hx. by apply Hf, list_elem_of_further.
Qed.

Lemma find_entry_run {D} `{BlockDev D} fuel fs (d : D) c cs name :
  served_chain fs d c cs -> (length cs <= fuel)%nat ->
  exists d', find_entry fuel fs c name d =
    (match find_in_slots (chain_slots fs (sector_at d) cs) name LfnState_default with
     | inr (Some e) => Ok e
     | _ => Err FILE_NOT_FOUND
     end, d') /\ becomes d (sector_at d) d'.
Proof.
  intros (Hl & Ha & Hf) Hfuel. unfold find_entry.
  destruct (walk_reads fs (find_sector name) (find_pure name) c cs LfnState_default d (sector_at d) fuel
    (reads_find name) ltac:(done) Hl Ha Hf Hfuel) as (d' & E & Hb).
  exists d'. split; [|done]. unfold mbind, M_bind. rewrite E, fold_find. unfold chain_slots.
  by destruct (find_in_slots _ name _) as [lfn1|[e|]].
Qed.

(** ** A small volume *)

(** One table sector at 11, data from 12 on: the root directory is cluster 2, with a
    single file [A.TXT] of 700 bytes in the clusters 3 and 5. *)
Definition demo_info : Fat32Info := mk_Fat32Info 1 1 1 1 2 10.

Definition demo_disk : MemDisk.t :=
  MemDisk.mk {[
    11 := replicate 8 0 ++ [0xFF; 0xFF; 0xFF; 0x0F; 5; 0; 0; 0xA0] ++ replicate 4 0 ++
          [0xF8; 0xFF; 0xFF; 0x0F] ++ replicate 488 0;
    12 := [0x41; 32; 32; 32; 32; 32; 32; 32; 0x54; 0x58; 0x54] ++ replicate 15 0 ++
          [3; 0; 0xBC; 2; 0; 0] ++ replicate 480 0;
    13 := replicate 512 7; 15 := replicate 512 9 ]} 20.

Lemma demo_root : served_chain demo_info demo_disk 2 [2].
Proof.
  split; [apply links_end; vm_compute; reflexivity|]. split.
  - apply Forall_forall. repeat constructor; vm_compute; reflexivity.
  - apply Forall_forall. repeat constructor; vm_compute; reflexivity.
Qed.

Lemma demo_file : served_chain demo_info demo_disk 3 [3; 5].
Proof.
  split; [apply (links_cons _ _ _ 5); [|apply links_end]; vm_compute; reflexivity|]. split.
  - apply Forall_forall. repeat constructor; vm_compute; reflexivity.
  - apply Forall_forall. repeat constructor; vm_compute; reflexivity.
Qed.

Definition demo_name : list Z := [0x61; 0x2E; 0x74; 0x78; 0x74].

(** ** Properties *)

(** On a volume whose directory chain ends, what a listing shows and what a name
    lookup finds agree: a lookup that succeeds gives one of the listed entries, and
    one that fails says so only when no listed entry has the name, letter case
    aside; neither panics, and the walk ends within as many steps as the chain has
    clusters. *)
Theorem fat32_lookup_matches_listing {D} `{BlockDev D} fuel fs (d : D) c cs target :
  served_chain fs d c cs -> (length cs <= fuel)%nat ->
  exists entries d1 r d2,
    list_directory fuel fs c d = (Ok entries, d1) /\ becomes d (sector_at d) d1 /\
    find_entry fuel fs c target d = (r, d2) /\ becomes d (sector_at d) d2 /\
    match r with
    | Ok e => e ∈ entries
    | Err m => m = FILE_NOT_FOUND /\ forall e, e ∈ entries -> eq_ignore_ascii_case (FatCommon.name e) target = false
    | _ => False
    end.
Proof.
  intros Hs Hfuel. pose proof Hs as (Hl & Ha & Hf).
  destruct (walk_reads fs list_sector list_pure c cs ([], LfnState_default) d (sector_at d) fuel
    reads_list ltac:(done) Hl Ha Hf Hfuel) as (d1 & E1 & Hb1).
  destruct (find_entry_run fuel fs d c cs target Hs Hfuel) as (d2 & E2 & Hb2).
  destruct (fold_list (sector_at d) (chain_lbas fs cs) [] LfnState_default) as (o & Eo & Ho & _).
  eexists _, d1, _, d2. split.
  { unfold list_directory, mbind, M_bind. rewrite E1, Eo. reflexivity. }
  split; [done|]. split; [exact E2|]. split; [done|]. rewrite Ho.
  pose proof (find_listed (chain_slots fs (sector_at d) cs) target [] LfnState_default) as Hfl.
  unfold chain_slots in *. destruct (find_in_slots _ target _) as [lfn|[e|]].
  - destruct Hfl as (more & -> & Hm). by split.
  - destruct Hfl as (pre & post & ->). cbn. apply elem_of_app. right. apply list_elem_of_here.
  - destruct Hfl as (more & -> & Hm). by split.
Qed.

Lemma fat32_lookup_matches_listing_witness :
  exists entries d1 e d2,
    list_directory 1 demo_info 2 demo_disk = (Ok entries, d1) /\
    find_entry 1 demo_info 2 demo_name demo_disk = (Ok e, d2) /\ e ∈ entries.
Proof.
  destruct (fat32_lookup_matches_listing 1 demo_info demo_disk 2 [2] demo_name demo_root (le_n 1))
    as (entries & d1 & r & d2 & E1 & _ & E2 & _ & Hr).
  assert (Hok : exists e, (find_entry 1 demo_info 2 demo_name demo_disk).1 = Ok e)
    by (eexists; vm_compute; reflexivity).
  destruct Hok as [e He]. rewrite E2 in He. cbn [fst] in He. subst r.
  exists entries, d1, e, d2. split; [exact E1|]. split; [exact E2|exact Hr].
Defined.

(** C30. A file whose directory entry a lookup finds is read back as the first [size]
    bytes of its chain's sectors in order (all of them if the chain is shorter than
    the entry says); an empty file reads as nothing whatever its start cluster, a
    directory is refused, and the device is left as it was. *)
Theorem fat32_read_file_contents {D} `{BlockDev D} fuel fs (d : D) root_cs cs e target :
  served_chain fs d (root_cluster fs) root_cs -> (length root_cs <= fuel)%nat ->
  (find_entry fuel fs (root_cluster fs) target d).1 = Ok e -> 0 <= size e ->
  (is_dir e = false -> size e <> 0 -> served_chain fs d (start_cluster e) cs /\ (length cs <= fuel)%nat) ->
  exists d', read_file fuel fs target d =
    (if is_dir e then Err FILE_NOT_FOUND
     else Ok (if size e =? 0 then [] else take (Z.to_nat (size e)) (chain_data fs (sector_at d) cs)), d') /\
    becomes d (sector_at d) d'.
Proof.
  intros Hr Hfuel Hfind Hsize Hfile. unfold read_file.
  destruct (find_entry_run fuel fs d (root_cluster fs) root_cs target Hr Hfuel) as (d1 & E1 & Hb1).
  rewrite E1 in Hfind. cbn [fst] in Hfind. rewrite Hfind in E1. unfold mbind at 1, M_bind at 1. rewrite E1.
  destruct (is_dir e); [by exists d1|]. destruct (Z.eqb_spec (size e) 0) as [|Hne]; [by exists d1|].
  destruct (Hfile eq_refl Hne) as [Hc Hcf]. destruct (served_becomes fs d d1 _ _ Hb1 Hc) as (Hl & Ha & Hf).
  pose proof Hb1 as [Hd1 _].
  destruct (walk_reads fs (read_step (size e)) (read_pure (size e)) (start_cluster e) cs [] d1 (sector_at d1) fuel
    (reads_read (size e)) ltac:(done) Hl Ha Hf Hcf) as (d2 & E2 & Hb2).
  destruct (fold_read (size e) (sector_at d1) (chain_lbas fs cs) []) as (o & Eo & Ho);
    [intros; apply sector_at_length|cbn; lia|].
  unfold read_chain, mbind, M_bind. rewrite E2, Eo. exists d2. split.
  - cbn [mret M_ret]. unfold mret, M_ret. do 2 f_equal. rewrite Ho. cbn [app]. unfold chain_data. do 2 f_equal.
    apply map_ext. intros a. apply Hd1.
  - destruct Hb2 as [Hd2 Hs2], Hb1 as [_ Hs1]. split; [intros a; by rewrite Hd2, Hd1|auto].
Qed.

Lemma fat32_read_file_contents_witness :
  exists d', read_file 2 demo_info demo_name demo_disk = (Ok (replicate 512 7 ++ replicate 188 9), d').
Proof.
  destruct (fat32_read_file_contents 2 demo_info demo_disk [2] [3; 5]
    (mk_DirEntry [0x41; 0x2E; 0x54; 0x58; 0x54] false 700 3 0 0) demo_name demo_root (le_S _ _ (le_n 1)))
    as (d' & E & _).
  - vm_compute. reflexivity.
  - vm_compute. discriminate.
  - intros _ _. split; [exact demo_file|exact (le_n 2)].
  - exists d'. rewrite E. vm_compute. reflexivity.
Defined.
