(* ===== verification/Mem.v ===== *)
(** * Mem: byte memory

    Memory as the kernel's raw pointers see it: a function from 64-bit addresses
    to bytes, with little-endian words on top of it. *)
From stdpp Require Import base list numbers.
From Stdlib Require Import Lia FunctionalExtensionality.
From S2P Require Import Prelude.
Open Scope Z_scope.

(** [n] bytes of memory from [a]. *)
Definition read_bytes (mem : Z -> Z) (a : Z) (n : nat) : list Z :=
  map (fun i => mem (a + Z.of_nat i)) (seq 0 n).

Definition write_bytes (a : Z) (bs : list Z) (mem : Z -> Z) : Z -> Z := fun x =>
  if (a <=? x) && (x <? a + Z.of_nat (length bs)) then default 0 (bs !! Z.to_nat (x - a)) else mem x.

(** The 64-bit word at [a]: [*(a as *const u64)] and [*(a as *mut u64) = v]. *)
Definition word_at (mem : Z -> Z) (a : Z) : Z := le_of (read_bytes mem a 8).

Definition put_word (a v : Z) (mem : Z -> Z) : Z -> Z := write_bytes a (le_bytes 8 v) mem.

Lemma write_bytes_out a bs mem x :
  x < a \/ a + Z.of_nat (length bs) <= x -> write_bytes a bs mem x = mem x.
Proof. intros H. unfold write_bytes. destruct (_ && _)%bool eqn:E; [unbool; lia|done]. Qed.

Lemma write_bytes_in a bs mem i b :
  bs !! i = Some b -> write_bytes a bs mem (a + Z.of_nat i) = b.
Proof.
  intros H. pose proof (lookup_lt_Some _ _ _ H). unfold write_bytes.
  rewrite (proj2 (Z.leb_le _ _)), (proj2 (Z.ltb_lt _ _)) by lia. cbn [andb].
  replace (Z.to_nat (a + Z.of_nat i - a)) with i by lia. by rewrite H.
Qed.

Lemma length_read_bytes mem a n : length (read_bytes mem a n) = n.
Proof. unfold read_bytes. by rewrite length_map, length_seq. Qed.

Lemma read_bytes_ext m1 m2 a n :
  (forall x, a <= x < a + Z.of_nat n -> m1 x = m2 x) -> read_bytes m1 a n = read_bytes m2 a n.
Proof.
  intros H. unfold read_bytes. apply map_ext_in. intros i Hi%in_seq. apply H. lia.
Qed.

Lemma read_write_bytes a bs mem : read_bytes (write_bytes a bs mem) a (length bs) = bs.
Proof.
  apply list_eq. intros i. unfold read_bytes. rewrite list_lookup_fmap.
  destruct (decide (i < length bs)%nat) as [Hi|Hi].
  - rewrite lookup_seq_lt by done. cbn. destruct (lookup_lt_is_Some_2 bs i Hi) as [b Hb].
    by rewrite (write_bytes_in _ _ _ _ b).
  - rewrite lookup_seq_ge by lia. by rewrite lookup_ge_None_2 by lia.
Qed.

Lemma word_at_ext m1 m2 a :
  (forall x, a <= x < a + 8 -> m1 x = m2 x) -> word_at m1 a = word_at m2 a.
Proof. intros H. unfold word_at. by rewrite (read_bytes_ext m1 m2) by done. Qed.

Lemma word_at_put mem a v : in_u 64 v -> word_at (put_word a v mem) a = v.
Proof.
  intros Hv. unfold word_at, put_word.
  pose proof (read_write_bytes a (le_bytes 8 v) mem) as H. rewrite length_le_bytes in H.
  rewrite H. by apply le_round.
Qed.

Lemma put_word_out a v mem x : x < a \/ a + 8 <= x -> put_word a v mem x = mem x.
Proof. intros. apply write_bytes_out. rewrite length_le_bytes. lia. Qed.

Lemma word_at_put_ne mem a b v :
  a + 8 <= b \/ b + 8 <= a -> word_at (put_word b v mem) a = word_at mem a.
Proof. intros. apply word_at_ext. intros x Hx. apply put_word_out. lia. Qed.

(** The bytes of a run of words. *)
Definition wbytes (vs : list Z) : list Z := concat (map (le_bytes 8) vs).

Lemma length_wbytes vs : length (wbytes vs) = (8 * length vs)%nat.
Proof.
  unfold wbytes. induction vs as [|v vs IH]; [done|]. cbn [map concat]. rewrite length_app, IH, length_le_bytes.
  cbn [length]. lia.
Qed.

Lemma wbytes_app vs ws : wbytes (vs ++ ws) = wbytes vs ++ wbytes ws.
Proof. unfold wbytes. by rewrite map_app, concat_app. Qed.

Lemma write_bytes_app a xs ys m :
  write_bytes a (xs ++ ys) m = write_bytes a xs (write_bytes (a + Z.of_nat (length xs)) ys m).
Proof.
  apply functional_extensionality. intros x. unfold write_bytes. rewrite length_app.
  destruct (Z.leb_spec a x), (Z.ltb_spec x (a + Z.of_nat (length xs))),
    (Z.ltb_spec x (a + Z.of_nat (length xs + length ys))), (Z.leb_spec (a + Z.of_nat (length xs)) x),
    (Z.ltb_spec x (a + Z.of_nat (length xs) + Z.of_nat (length ys))); cbn [andb]; try lia; try done.
  - by rewrite lookup_app_l by lia.
  - rewrite lookup_app_r by lia. do 2 f_equal. lia.
Qed.

Lemma read_bytes_app m a n k :
  read_bytes m a (n + k) = read_bytes m a n ++ read_bytes m (a + Z.of_nat n) k.
Proof.
  unfold read_bytes. rewrite seq_app, map_app. f_equal. rewrite Nat.add_0_l, <- (Nat.add_0_r n) at 1.
  rewrite <- fmap_add_seq. rewrite map_map. apply map_ext. intros i. f_equal. lia.
Qed.

Lemma write_bytes_app_l a xs ys m :
  write_bytes a (xs ++ ys) m = write_bytes (a + Z.of_nat (length xs)) ys (write_bytes a xs m).
Proof.
  rewrite write_bytes_app. apply functional_extensionality. intros x.
  destruct (decide (a <= x < a + Z.of_nat (length xs))).
  - rewrite (write_bytes_out (_ + _)) by lia. unfold write_bytes. destruct (_ && _)%bool eqn:E; [done|].
    apply andb_false_iff in E as [E|E]; unbool; lia.
  - rewrite (write_bytes_out a) by lia. unfold write_bytes at 1 2. destruct (_ && _)%bool; [done|].
    by rewrite write_bytes_out by lia.
Qed.

(** What is read where nothing was written, and where all of it was. *)
Lemma read_bytes_out a n b bs m :
  a + Z.of_nat n <= b \/ b + Z.of_nat (length bs) <= a ->
  read_bytes (write_bytes b bs m) a n = read_bytes m a n.
Proof. intros Ho. apply read_bytes_ext. intros x Hx. apply write_bytes_out. lia. Qed.

Lemma read_bytes_in a bs m n : n = length bs -> read_bytes (write_bytes a bs m) a n = bs.
Proof. intros ->. apply read_write_bytes. Qed.

Lemma read_bytes_part m a n bs i k :
  read_bytes m a n = bs -> (i + k <= n)%nat -> read_bytes m (a + Z.of_nat i) k = take k (drop i bs).
Proof.
  intros <- Hk. replace n with (i + (k + (n - i - k)))%nat by lia.
  rewrite !read_bytes_app. rewrite drop_app_length' by (by rewrite length_read_bytes).
  by rewrite take_app_length' by (by rewrite length_read_bytes).
Qed.
