(* ===== verification/X64.v ===== *)
(** * X64: the processor under the kernel's assembly and its ring-3 programs

    The kernel switches contexts in assembly and writes ring-3 programs as machine
    code, so both are run on a model of the processor: the registers (the flags and
    the two segment selectors the interrupt frames carry are among them), an
    instruction pointer and byte memory.  [exec] is the kernel's assembly, written
    in the source as mnemonics; [decode] and [ustep] read and run the bytes the
    kernel writes into user pages.  Of the status flags ZF is the only one an
    instruction here changes: no program reads another. *)
From stdpp Require Import base list numbers strings.
From Stdlib Require Import Lia FunctionalExtensionality.
From S2P Require Import Prelude Mem.
Open Scope Z_scope.

Inductive reg :=
| RAX | RCX | RDX | RBX | RSP | RBP | RSI | RDI
| R8 | R9 | R10 | R11 | R12 | R13 | R14 | R15
| RFLAGS | CS | SS.

#[export] Instance reg_eq_dec : EqDecision reg.
Proof. solve_decision. Defined.

Record Cpu := mk_Cpu {
  regs : reg -> Z;
  rip : Z;
  cmem : Z -> Z;
}.

Definition set_reg (r : reg) (v : Z) (f : reg -> Z) : reg -> Z :=
  fun r' => if decide (r' = r) then v else f r'.

(** ** The kernel's assembly *)

(** [Store base src] is [mov [base], src]; [StoreAt] and [LoadAt] go through an
    address the linker fills in, [Lea] loads one; [LoadSp dst k] is
    [mov dst, [rsp + k]] and [StoreSp k src] its converse. *)
Inductive instr :=
| Push (r : reg)
| Pop (r : reg)
| Store (base src : reg)
| StoreAt (a : Z) (src : reg)
| LoadAt (dst : reg) (a : Z)
| Lea (dst : reg) (a : Z)
| LoadSp (dst : reg) (k : Z)
| StoreSp (k : Z) (src : reg)
| AndImm (dst : reg) (v : Z)
| Mov (dst src : reg)
| Sti
| Ret
| Iretq.

Definition exec (i : instr) (c : Cpu) : Cpu :=
  let sp := regs c RSP in
  match i with
  | Push r =>
      let sp' := u64 (sp - 8) in
      mk_Cpu (set_reg RSP sp' (regs c)) (rip c) (put_word sp' (regs c r) (cmem c))
  | Pop r =>
      mk_Cpu (set_reg r (word_at (cmem c) sp) (set_reg RSP (u64 (sp + 8)) (regs c))) (rip c) (cmem c)
  | Store base src => mk_Cpu (regs c) (rip c) (put_word (regs c base) (regs c src) (cmem c))
  | StoreAt a src => mk_Cpu (regs c) (rip c) (put_word a (regs c src) (cmem c))
  | LoadAt dst a => mk_Cpu (set_reg dst (word_at (cmem c) a) (regs c)) (rip c) (cmem c)
  | Lea dst a => mk_Cpu (set_reg dst a (regs c)) (rip c) (cmem c)
  | LoadSp dst k => mk_Cpu (set_reg dst (word_at (cmem c) (u64 (sp + k))) (regs c)) (rip c) (cmem c)
  | StoreSp k src => mk_Cpu (regs c) (rip c) (put_word (u64 (sp + k)) (regs c src) (cmem c))
  | AndImm dst v => mk_Cpu (set_reg dst (Z.land (regs c dst) v) (regs c)) (rip c) (cmem c)
  | Mov dst src => mk_Cpu (set_reg dst (regs c src) (regs c)) (rip c) (cmem c)
  | Sti => mk_Cpu (set_reg RFLAGS (Z.setbit (regs c RFLAGS) 9) (regs c)) (rip c) (cmem c)
  | Ret => mk_Cpu (set_reg RSP (u64 (sp + 8)) (regs c)) (word_at (cmem c) sp) (cmem c)
  | Iretq =>
      mk_Cpu (set_reg SS (word_at (cmem c) (u64 (sp + 32))) (set_reg RSP (word_at (cmem c) (u64 (sp + 24)))
                (set_reg RFLAGS (word_at (cmem c) (u64 (sp + 16)))
                   (set_reg CS (word_at (cmem c) (u64 (sp + 8))) (regs c)))))
             (word_at (cmem c) sp) (cmem c)
  end.

Definition exec_all (l : list instr) (c : Cpu) : Cpu := foldl (fun c i => exec i c) c l.

(** ** Machine code of ring 3 *)

Definition reg_of_num (n : Z) : option reg :=
  [RAX; RCX; RDX; RBX; RSP; RBP; RSI; RDI; R8; R9; R10; R11; R12; R13; R14; R15] !! Z.to_nat n.

Inductive uinstr :=
| UMov (dst : reg) (v : Z)
| UMov8 (dst : reg) (v : Z)
| UMov8R (dst src : reg)
| UAdd8 (dst : reg) (v : Z)
| UStore8 (base : reg) (index : option reg) (disp : Z) (src : reg)
| UDec (dst : reg)
| UAdd (dst src : reg)
| UXor (dst src : reg)
| UJnz (rel : Z)
| UJmp (rel : Z)
| UInt (v : Z)
| UCli.

(** A byte as a signed displacement. *)
Definition sext8 (b : Z) : Z := if b <? 128 then b else b - 256.

(** The fields of a ModRM or SIB byte. *)
Definition fields (b : Z) : Z * Z * Z := (b / 64, b / 8 mod 8, b mod 8).

(** Byte registers 4 to 7 are AH to BH without a REX prefix. *)
Definition reg8 (rex : bool) (n : Z) : option reg := if negb rex && (4 <=? n) then None else reg_of_num n.

(** [mov [base + index + disp], src8] with a SIB byte. *)
Definition decode_store8 (rex : bool) (rr rx rb : Z) (bs : list Z) : option (uinstr * Z) :=
  match bs with
  | m :: sib :: rest =>
      let '(md, reg, rm) := fields m in
      let '(scale, index, base) := fields sib in
      if negb (rm =? 4) || negb (scale =? 0) then None
      else
        src ← reg8 rex (reg + rr);
        b ← reg_of_num (base + rb);
        ix ← (if index + rx =? 4 then Some None else Some <$> reg_of_num (index + rx));
        if md =? 0 then (if base =? 5 then None else Some (UStore8 b ix 0 src, 2))
        else if md =? 1 then d ← head rest; Some (UStore8 b ix (sext8 d) src, 3)
        else None
  | _ => None
  end.

(** The opcode after an optional REX prefix with the bits W, R, X and B (the last
    three worth 8 when set). *)
Definition decode_op (rex w : bool) (rr rx rb : Z) (bs : list Z) : option (uinstr * Z) :=
  match bs with
  | [] => None
  | op :: rest =>
      if (0xB8 <=? op) && (op <=? 0xBF) then
        let n := if w then 8%nat else 4%nat in
        dst ← reg_of_num (op - 0xB8 + rb);
        if (length rest <? n)%nat then None else Some (UMov dst (le_of (take n rest)), 1 + Z.of_nat n)
      else if w then None
      else if (0xB0 <=? op) && (op <=? 0xB7) then
        dst ← reg8 rex (op - 0xB0 + rb);
        v ← head rest;
        Some (UMov8 dst v, 2)
      else if op =? 0xFA then Some (UCli, 1)
      else if op =? 0x88 then '(i, n) ← decode_store8 rex rr rx rb rest; Some (i, 1 + n)
      else
        x ← head rest;
        let '(md, reg, rm) := fields x in
        if op =? 0xCD then Some (UInt x, 2)
        else if op =? 0xEB then Some (UJmp (sext8 x), 2)
        else if op =? 0x75 then Some (UJnz (sext8 x), 2)
        else if op =? 0x04 then Some (UAdd8 RAX x, 2)
        else if negb (md =? 3) then None
        else if op =? 0x8A then
          dst ← reg8 rex (reg + rr); src ← reg8 rex (rm + rb); Some (UMov8R dst src, 2)
        else
          dst ← reg_of_num (rm + rb);
          src ← reg_of_num (reg + rr);
          if op =? 0x31 then Some (UXor dst src, 2)
          else if op =? 0x01 then Some (UAdd dst src, 2)
          else if (op =? 0xFF) && (reg =? 1) then Some (UDec dst, 2)
          else None
  end.

(** The instruction at the head of [bs] and its length. *)
Definition decode (bs : list Z) : option (uinstr * Z) :=
  match bs with
  | p :: rest =>
      if p / 16 =? 4 then
        let bit i := if Z.testbit p i then 8 else 0 in
        '(i, n) ← decode_op true (Z.testbit p 3) (bit 2) (bit 1) (bit 0) rest;
        Some (i, 1 + n)
      else decode_op false false 0 0 0 bs
  | [] => None
  end.

Definition set_zf (z : bool) (f : Z) : Z := if z then Z.setbit f 6 else Z.clearbit f 6.

(** A 32-bit result: it clears the upper half of its register and sets ZF. *)
Definition put32 (dst : reg) (v : Z) (c : Cpu) : Cpu :=
  mk_Cpu (set_reg RFLAGS (set_zf (u32 v =? 0) (regs c RFLAGS)) (set_reg dst (u32 v) (regs c))) (rip c) (cmem c).

Definition put8 (dst : reg) (v : Z) (c : Cpu) : Cpu :=
  mk_Cpu (set_reg dst (regs c dst / 256 * 256 + u8 v) (regs c)) (rip c) (cmem c).

Definition jump (rel : Z) (c : Cpu) : Cpu := mk_Cpu (regs c) (u64 (rip c + rel)) (cmem c).

Definition uexec (i : uinstr) (c : Cpu) : Cpu :=
  match i with
  | UMov dst v => mk_Cpu (set_reg dst v (regs c)) (rip c) (cmem c)
  | UMov8 dst v => put8 dst v c
  | UMov8R dst src => put8 dst (regs c src) c
  | UAdd8 dst v =>
      let r := u8 (regs c dst + v) in
      let c := put8 dst r c in
      mk_Cpu (set_reg RFLAGS (set_zf (r =? 0) (regs c RFLAGS)) (regs c)) (rip c) (cmem c)
  | UStore8 base index disp src =>
      let a := u64 (regs c base + match index with Some r => regs c r | None => 0 end + disp) in
      mk_Cpu (regs c) (rip c) (write_bytes a [u8 (regs c src)] (cmem c))
  | UDec dst => put32 dst (regs c dst - 1) c
  | UAdd dst src => put32 dst (regs c dst + regs c src) c
  | UXor dst src => put32 dst (Z.lxor (regs c dst) (regs c src)) c
  | UJnz rel => if Z.testbit (regs c RFLAGS) 6 then c else jump rel c
  | UJmp rel => jump rel c
  | UInt _ | UCli => c
  end.

(** One instruction: it completes, it is a software interrupt (the instruction
    pointer is past it), or it faults (the instruction pointer is on it). *)
Inductive outcome := Step (c : Cpu) | Trap (vector : Z) (c : Cpu) | Fault (c : Cpu).

Definition cpl (c : Cpu) : Z := Z.land (regs c CS) 3.
Definition iopl (c : Cpu) : Z := Z.land (Z.shiftr (regs c RFLAGS) 12) 3.

Definition ustep (c : Cpu) : outcome :=
  match decode (read_bytes (cmem c) (rip c) 12) with
  | None => Fault c
  | Some (i, n) =>
      let c' := mk_Cpu (regs c) (u64 (rip c + n)) (cmem c) in
      match i with
      | UInt v => Trap v c'
      | UCli =>
          if cpl c <=? iopl c then
            Step (mk_Cpu (set_reg RFLAGS (Z.clearbit (regs c RFLAGS) 9) (regs c)) (rip c') (cmem c))
          else Fault c
      | _ => Step (uexec i c')
      end
  end.

(** At most [n] instructions, up to the first that does not complete. *)
Fixpoint urun (n : nat) (c : Cpu) : outcome :=
  match n with
  | O => Step c
  | S n => match ustep c with Step c' => urun n c' | o => o end
  end.

(** An interrupt that arrives in ring 3: the processor switches to the kernel
    stack [rsp0], pushes the five-word frame and masks interrupts. *)
Definition interrupt (kernel_cs rsp0 : Z) (c : Cpu) : Cpu :=
  let m := write_bytes (rsp0 - 40) (wbytes [rip c; regs c CS; regs c RFLAGS; regs c RSP; regs c SS]) (cmem c) in
  mk_Cpu (set_reg RFLAGS (Z.clearbit (regs c RFLAGS) 9) (set_reg RSP (rsp0 - 40)
    (set_reg CS kernel_cs (set_reg SS 0 (regs c))))) (rip c) m.

(** ** Registers and single instructions *)

(** Register values and addresses are 64-bit. *)
Definition regs_ok (f : reg -> Z) : Prop := forall r, in_u 64 (f r).

Lemma exec_all_app l1 l2 c : exec_all (l1 ++ l2) c = exec_all l2 (exec_all l1 c).
Proof. apply foldl_app. Qed.

Lemma set_reg_same r v f : set_reg r v f r = v.
Proof. unfold set_reg. by rewrite decide_True. Qed.

Lemma set_reg_other r v f r' : r' <> r -> set_reg r v f r' = f r'.
Proof. intros. unfold set_reg. by rewrite decide_False. Qed.

Lemma regs_ok_set r v f : regs_ok f -> in_u 64 v -> regs_ok (set_reg r v f).
Proof. intros Hf Hv r'. unfold set_reg. by destruct (decide (r' = r)). Qed.

(** Reads registers through a chain of updates. *)
Ltac rd := repeat (rewrite set_reg_same || rewrite set_reg_other by discriminate).

Lemma exec_push r c s :
  regs c RSP = s -> 8 <= s < 2 ^ 64 ->
  exec (Push r) c = mk_Cpu (set_reg RSP (s - 8) (regs c)) (rip c) (put_word (s - 8) (regs c r) (cmem c)).
Proof. intros <- Hs. cbn. by rewrite wrap_id by (unfold in_u; lia). Qed.

Lemma exec_pop r c s :
  regs c RSP = s -> 0 <= s < 2 ^ 64 - 8 ->
  exec (Pop r) c =
    mk_Cpu (set_reg r (word_at (cmem c) s) (set_reg RSP (s + 8) (regs c))) (rip c) (cmem c).
Proof. intros <- Hs. cbn. by rewrite wrap_id by (unfold in_u; lia). Qed.

(** ** Runs of pushes and pops *)

(** [words m a vs]: the words [vs] are in memory from [a] on. *)
Definition words (m : Z -> Z) (a : Z) (vs : list Z) : Prop :=
  forall i v, vs !! i = Some v -> word_at m (a + 8 * Z.of_nat i) = v.

Lemma words_cons m a v vs : words m a (v :: vs) <-> word_at m a = v /\ words m (a + 8) vs.
Proof.
  split.
  - intros H. split.
    + rewrite <- (H 0%nat v eq_refl). f_equal. lia.
    + intros i w Hi. rewrite <- (H (S i) w Hi). f_equal. lia.
  - intros [H1 H2] [|i] w Hi; cbn in Hi.
    + injection Hi as ->. rewrite <- H1. f_equal. lia.
    + rewrite <- (H2 i w Hi). f_equal. lia.
Qed.

Lemma words_app m a vs ws :
  words m a (vs ++ ws) <-> words m a vs /\ words m (a + 8 * Z.of_nat (length vs)) ws.
Proof.
  revert a. induction vs as [|v vs IH]; intros a.
  - cbn [app length]. rewrite Z.add_0_r. split; [intros H; split; [by intros ? ? ?|done]|by intros [_ H]].
  - cbn [app]. rewrite !words_cons, IH. cbn [length].
    replace (a + 8 + 8 * Z.of_nat (length vs)) with (a + 8 * Z.of_nat (S (length vs))) by lia. tauto.
Qed.

Lemma words_ext m1 m2 a vs :
  words m1 a vs -> (forall x, a <= x < a + 8 * Z.of_nat (length vs) -> m2 x = m1 x) -> words m2 a vs.
Proof.
  intros H He i v Hi. rewrite <- (H i v Hi). apply word_at_ext. intros x Hx. apply He.
  apply lookup_lt_Some in Hi. lia.
Qed.

(** Pushing [rs] writes their values below the stack pointer, the last lowest. *)
Lemma exec_pushes rs c s :
  regs c RSP = s -> RSP ∉ rs -> 8 * Z.of_nat (length rs) <= s < 2 ^ 64 ->
  exists f, exec_all (map Push rs) c =
      mk_Cpu f (rip c) (write_bytes (s - 8 * Z.of_nat (length rs)) (wbytes (map (regs c) (rev rs))) (cmem c)) /\
    f RSP = s - 8 * Z.of_nat (length rs) /\ (forall r, r <> RSP -> f r = regs c r).
Proof.
  revert c s. induction rs as [|r rs IH]; intros c s Hs Hn Hlen.
  - exists (regs c). destruct c. cbn in *. split; [|split; [lia|done]]. f_equal.
    apply functional_extensionality. intros x. rewrite write_bytes_out; [done|cbn; lia].
  - apply not_elem_of_cons in Hn as [Hr Hn]. cbn [length] in Hlen.
    change (exec_all (map Push (r :: rs)) c) with (exec_all (map Push rs) (exec (Push r) c)).
    rewrite (exec_push r c s) by (done || lia).
    destruct (IH (mk_Cpu (set_reg RSP (s - 8) (regs c)) (rip c) (put_word (s - 8) (regs c r) (cmem c))) (s - 8))
      as (f & E & F1 & F2); [cbn; by rd|done|lia|].
    exists f. cbn [length regs cmem rip] in *. split; [|split].
    + rewrite E. f_equal. cbn [rev]. rewrite map_app, wbytes_app, write_bytes_app.
      replace (s - 8 * Z.of_nat (S (length rs))) with (s - 8 - 8 * Z.of_nat (length rs)) by lia. f_equal.
      * f_equal. apply map_ext_in. intros r' Hr'. apply set_reg_other. intros ->.
        apply Hn, list_elem_of_In. by apply in_rev.
      * rewrite length_wbytes, length_map, length_rev. unfold put_word.
        replace (s - 8 - 8 * Z.of_nat (length rs) + Z.of_nat (8 * length rs)) with (s - 8) by lia.
        cbn [wbytes map concat]. by rewrite app_nil_r.
    + rewrite F1. lia.
    + intros r' Hr'. rewrite F2 by done. by rewrite set_reg_other.
Qed.

(** Words read back from where their bytes are. *)
Lemma words_of_bytes m a vs :
  read_bytes m a (8 * length vs) = wbytes vs -> Forall (in_u 64) vs -> words m a vs.
Proof.
  intros H Hv. revert a H. induction Hv as [|v vs Hv Hvs IH]; intros a H; [by intros ? ? ?|].
  cbn [length] in H. replace (8 * S (length vs))%nat with (8 + 8 * length vs)%nat in H by lia.
  rewrite read_bytes_app in H. cbn [wbytes map concat] in H.
  apply app_inj_1 in H as [H1 H2]; [|by rewrite length_read_bytes, length_le_bytes].
  apply words_cons. split; [unfold word_at; rewrite H1; by apply le_round|by apply IH].
Qed.

(** Popping [rs] gives each the next word. *)
Lemma exec_pops rs c s vs :
  regs c RSP = s -> 0 <= s -> RSP ∉ rs -> NoDup rs -> length vs = length rs ->
  s + 8 * Z.of_nat (length rs) < 2 ^ 64 -> words (cmem c) s vs ->
  exists f, exec_all (map Pop rs) c = mk_Cpu f (rip c) (cmem c) /\
    f RSP = s + 8 * Z.of_nat (length rs) /\
    (forall i r, rs !! i = Some r -> vs !! i = Some (f r)) /\
    (forall r, r ∉ rs -> r <> RSP -> f r = regs c r).
Proof.
  revert c s vs. induction rs as [|r rs IH]; intros c s vs Hs H0 Hn Hd Hl Hb Hw.
  - exists (regs c). destruct c. cbn in *. repeat split; try done. lia.
  - apply not_elem_of_cons in Hn as [Hr Hn]. apply NoDup_cons in Hd as [Hd1 Hd].
    destruct vs as [|v vs]; [done|]. apply words_cons in Hw as [Hv Hw]. cbn [length] in *.
    change (exec_all (map Pop (r :: rs)) c) with (exec_all (map Pop rs) (exec (Pop r) c)).
    rewrite (exec_pop r c s), Hv by (done || lia).
    destruct (IH (mk_Cpu (set_reg r v (set_reg RSP (s + 8) (regs c))) (rip c) (cmem c)) (s + 8) vs)
      as (f & E & F1 & F2 & F3); try done; try lia.
    + cbn. rewrite set_reg_other by done. by rd.
    + exists f. split; [exact E|]. split; [rewrite F1; lia|]. cbn [regs] in *. split.
      * intros [|i] r' Hi; cbn in Hi |- *; [|by apply F2]. injection Hi as ->.
        rewrite F3, set_reg_same by done. done.
      * intros r' Hr' Hsp. apply not_elem_of_cons in Hr' as [Hne Hr'].
        rewrite F3 by done. by rewrite !set_reg_other.
Qed.

(** ** Fetching *)

(** The code [prog] is in memory at [a]. *)
Definition installed (m : Z -> Z) (a : Z) (prog : list Z) : Prop :=
  forall i b, prog !! i = Some b -> m (a + Z.of_nat i) = b.

Lemma installed_ext m1 m2 a prog :
  installed m1 a prog -> (forall x, a <= x < a + Z.of_nat (length prog) -> m2 x = m1 x) ->
  installed m2 a prog.
Proof.
  intros H He i b Hi. rewrite <- (H i b Hi). apply He. apply lookup_lt_Some in Hi. lia.
Qed.

Lemma installed_write m a prog : installed (write_bytes a prog m) a prog.
Proof. intros i b Hi. by apply write_bytes_in. Qed.

(** What the processor fetches at an offset into installed code. *)
Lemma fetch m a prog k bs rest :
  installed m a prog -> drop k prog = bs ++ rest -> (length bs <= 12)%nat ->
  exists tl, read_bytes m (a + Z.of_nat k) 12 = bs ++ tl.
Proof.
  intros Hi Hd Hl. exists (drop (length bs) (read_bytes m (a + Z.of_nat k) 12)).
  rewrite <- (take_drop (length bs) (read_bytes m (a + Z.of_nat k) 12)) at 1. f_equal.
  apply list_eq. intros i. destruct (decide (i < length bs)%nat) as [H|H].
  - rewrite lookup_take_lt by done. unfold read_bytes.
    rewrite list_lookup_fmap, lookup_seq_lt by lia. cbn.
    destruct (lookup_lt_is_Some_2 bs i H) as [b Hb]. rewrite Hb. f_equal.
    replace (a + Z.of_nat k + Z.of_nat i) with (a + Z.of_nat (k + i)) by lia. apply Hi.
    rewrite <- lookup_drop, Hd. by apply lookup_app_l_Some.
  - rewrite lookup_take_ge, lookup_ge_None_2 by lia. done.
Qed.

Lemma urun_add n m c :
  urun (n + m) c = match urun n c with Step c' => urun m c' | o => o end.
Proof.
  revert c. induction n as [|n IH]; intros c; [done|]. cbn. destruct (ustep c); [apply IH|done..].
Qed.
