(* ===== verification/AgentScheduler.v ===== *)
(** * AgentScheduler: the process table ([scheduler/process.rs], [scheduler/agent_scheduler.rs])

    A fixed table of 32 optional process control blocks.  The operations are the
    methods of [NativeAgentScheduler]; [reachable] is the relation of the tables
    they can produce, with the invariant that slot [i] holds pid [i + 1]. *)
From stdpp Require Import base list numbers strings.
From Stdlib Require Import Lia.
From S2P Require Import Prelude.
Open Scope Z_scope.

Inductive ProcessState := Ready | Running | Blocked | Terminated.

Inductive Priority := KernelCritical | High | Normal | Background.

#[export] Instance ProcessState_eq_dec : EqDecision ProcessState.
Proof. solve_decision. Defined.

#[export] Instance Priority_eq_dec : EqDecision Priority.
Proof. solve_decision. Defined.

(** [proc.priority as u8] *)
Definition prio_val (p : Priority) : Z :=
  match p with KernelCritical => 0 | High => 1 | Normal => 2 | Background => 3 end.

Record ProcessControlBlock := mk_PCB {
  pid : Z;
  name : string;
  state : ProcessState;
  priority : Priority;
  token_quota : Z;
  tokens_used : Z;
  kv_block_id : option Z;
  stack_pointer : Z;
}.

Definition new_pcb (pid : Z) (name : string) (priority : Priority) (token_quota : Z)
    : ProcessControlBlock :=
  mk_PCB pid name Ready priority token_quota 0 None 0.

Definition MAX_PROCESSES : nat := 32.

Record NativeAgentScheduler := mk_Sched {
  processes : list (option ProcessControlBlock);
  current_pid : Z;
  next_pid : Z;
}.

Definition new_sched : NativeAgentScheduler := mk_Sched (replicate MAX_PROCESSES None) 0 1.

(** The index of the first [None]. *)
Fixpoint first_none {A} (l : list (option A)) : option nat :=
  match l with
  | [] => None
  | None :: _ => Some 0%nat
  | Some _ :: r => S <$> first_none r
  end.

Definition spawn (nm : string) (prio : Priority) (quota : Z) (s : NativeAgentScheduler)
    : option Z * NativeAgentScheduler :=
  match first_none (processes s) with
  | Some i =>
      let p := next_pid s in
      (Some p, mk_Sched (<[i := Some (new_pcb p nm prio quota)]> (processes s)) (current_pid s)
                 (u32 (next_pid s + 1)))
  | None => (None, s)
  end.

(** The loop of [schedule_next]: the first index with the least priority value
    among the ready processes. *)
Fixpoint best_ready (l : list (option ProcessControlBlock)) (idx : nat) (best_index : option nat)
    (highest_prio : Z) : option nat :=
  match l with
  | [] => best_index
  | slot :: r =>
      match slot with
      | Some proc =>
          if decide (state proc = Ready) then
            let p_val := prio_val (priority proc) in
            if p_val <? highest_prio then best_ready r (S idx) (Some idx) p_val
            else best_ready r (S idx) best_index highest_prio
          else best_ready r (S idx) best_index highest_prio
      | None => best_ready r (S idx) best_index highest_prio
      end
  end.

Definition set_state (st : ProcessState) (p : ProcessControlBlock) : ProcessControlBlock :=
  mk_PCB (pid p) (name p) st (priority p) (token_quota p) (tokens_used p) (kv_block_id p)
    (stack_pointer p).

Definition schedule_next (s : NativeAgentScheduler) : option Z * NativeAgentScheduler :=
  match best_ready (processes s) 0 None 99 with
  | Some idx =>
      match processes s !! idx with
      | Some (Some proc) =>
          (Some (pid proc),
           mk_Sched (<[idx := Some (set_state Running proc)]> (processes s)) (pid proc) (next_pid s))
      | _ => (None, s)
      end
  | None => (None, s)
  end.

Definition get_active_count (s : NativeAgentScheduler) : nat :=
  length (List.filter (fun p : option ProcessControlBlock => match p with Some _ => true | None => false end) (processes s)).

Definition get_current_pid (s : NativeAgentScheduler) : Z := current_pid s.

(** The live processes, in table order ([for_each_process]). *)
Definition live (s : NativeAgentScheduler) : list ProcessControlBlock :=
  concat (map (fun slot => match slot with Some p => [p] | None => [] end) (processes s)).

(** The shape of the setters: the first live process [sel] selects is replaced. *)
Fixpoint update_first (sel : ProcessControlBlock -> bool)
    (f : ProcessControlBlock -> ProcessControlBlock) (l : list (option ProcessControlBlock))
    : list (option ProcessControlBlock) :=
  match l with
  | [] => []
  | Some p :: r => if sel p then Some (f p) :: r else Some p :: update_first sel f r
  | None :: r => None :: update_first sel f r
  end.

Definition on_processes (f : list (option ProcessControlBlock) -> list (option ProcessControlBlock))
    (s : NativeAgentScheduler) : NativeAgentScheduler :=
  mk_Sched (f (processes s)) (current_pid s) (next_pid s).

Definition update_process (p : Z) (st : ProcessState) (sp : Z) : NativeAgentScheduler -> NativeAgentScheduler :=
  on_processes (update_first (fun x => pid x =? p)
    (fun x => mk_PCB (pid x) (name x) st (priority x) (token_quota x) (tokens_used x)
                (kv_block_id x) sp)).

Definition set_kv (b : option Z) (x : ProcessControlBlock) : ProcessControlBlock :=
  mk_PCB (pid x) (name x) (state x) (priority x) (token_quota x) (tokens_used x) b (stack_pointer x).

Definition set_kv_block_id (p block_id : Z) : NativeAgentScheduler -> NativeAgentScheduler :=
  on_processes (update_first (fun x => pid x =? p) (set_kv (Some block_id))).

Definition clear_kv_block_id_if_matches (p block_id : Z) : NativeAgentScheduler -> NativeAgentScheduler :=
  on_processes (update_first (fun x => (pid x =? p) && bool_decide (kv_block_id x = Some block_id))
    (set_kv None)).

Definition add_tokens_used (p amount : Z) : NativeAgentScheduler -> NativeAgentScheduler :=
  on_processes (update_first (fun x => pid x =? p)
    (fun x => mk_PCB (pid x) (name x) (state x) (priority x) (token_quota x)
                (sat_add 64 (tokens_used x) amount) (kv_block_id x) (stack_pointer x))).

(** ** The tables the kernel can reach *)

Inductive op :=
| OpSpawn (nm : string) (prio : Priority) (quota : Z)
| OpSchedule
| OpUpdate (p : Z) (st : ProcessState) (sp : Z)
| OpSetKv (p b : Z)
| OpClearKv (p b : Z)
| OpTokens (p amount : Z).

Definition run (o : op) (s : NativeAgentScheduler) : NativeAgentScheduler :=
  match o with
  | OpSpawn nm prio quota => (spawn nm prio quota s).2
  | OpSchedule => (schedule_next s).2
  | OpUpdate p st sp => update_process p st sp s
  | OpSetKv p b => set_kv_block_id p b s
  | OpClearKv p b => clear_kv_block_id_if_matches p b s
  | OpTokens p a => add_tokens_used p a s
  end.

Inductive reachable : NativeAgentScheduler -> Prop :=
| reach_new : reachable new_sched
| reach_step s o : reachable s -> reachable (run o s).

(** Slot [i] holds pid [i + 1] for the first [n] slots, the others are empty. *)
Definition table_shape (n : nat) (l : list (option ProcessControlBlock)) : Prop :=
  length l = MAX_PROCESSES /\ (n <= MAX_PROCESSES)%nat /\
  (forall i, (i < n)%nat -> exists p, l !! i = Some (Some p) /\ pid p = Z.of_nat i + 1) /\
  (forall i, (n <= i < MAX_PROCESSES)%nat -> l !! i = Some None).

Record sched_inv (s : NativeAgentScheduler) : Prop := {
  inv_shape : exists n, table_shape n (processes s) /\ next_pid s = Z.of_nat n + 1;
  inv_current : current_pid s = 0 \/ exists p, Some p ∈ processes s /\ pid p = current_pid s;
}.

(** ** Lemmas *)

Lemma first_none_Some {A} (l : list (option A)) i :
  first_none l = Some i ->
  l !! i = Some None /\ forall j, (j < i)%nat -> exists x, l !! j = Some (Some x).
Proof.
  revert i. induction l as [|[x|] l IH]; intros i; cbn; [done| |].
  - intros (k & Hk & ->)%fmap_Some. destruct (IH k Hk) as [H1 H2]. split; [done|].
    intros [|j] Hj; [by exists x|]. apply H2. lia.
  - intros [= <-]. split; [done|]. intros j Hj. lia.
Qed.

Lemma first_none_None {A} (l : list (option A)) i :
  first_none l = None -> (i < length l)%nat -> exists x, l !! i = Some (Some x).
Proof.
  revert i. induction l as [|[x|] l IH]; intros i H Hi; cbn in *; [lia| |done].
  destruct (first_none l) eqn:E; [done|]. destruct i as [|i]; [by exists x|].
  apply IH; [done|lia].
Qed.

(** A setter keeps the table's length and every slot's pid. *)
Lemma update_first_lookup sel f l i :
  update_first sel f l !! i = l !! i \/
  exists p, l !! i = Some (Some p) /\ sel p = true /\ update_first sel f l !! i = Some (Some (f p)).
Proof.
  revert i. induction l as [|[p|] l IH]; intros i; cbn; [by left| |].
  - destruct (sel p) eqn:E; destruct i as [|i]; cbn; [right; by exists p|by left|by left|apply IH].
  - destruct i as [|i]; cbn; [by left|apply IH].
Qed.

Lemma length_update_first sel f l : length (update_first sel f l) = length l.
Proof. induction l as [|[p|] l IH]; cbn; [done| |by rewrite IH]. destruct (sel p); cbn; by rewrite ?IH. Qed.

Lemma update_first_shape sel f l n :
  (forall p, pid (f p) = pid p) -> table_shape n l -> table_shape n (update_first sel f l).
Proof.
  intros Hf (Hl & Hn & H1 & H2). split; [by rewrite length_update_first|]. split; [done|]. split.
  - intros i Hi. destruct (H1 i Hi) as (p & Hp & Hpid).
    destruct (update_first_lookup sel f l i) as [->|(q & Hq & _ & ->)]; [by exists p|].
    exists (f q). split; [done|]. rewrite Hf. congruence.
  - intros i Hi. specialize (H2 i Hi).
    destruct (update_first_lookup sel f l i) as [->|(q & Hq & _ & _)]; congruence.
Qed.

Lemma update_first_current sel f l c :
  (forall p, pid (f p) = pid p) ->
  (exists p, Some p ∈ l /\ pid p = c) -> exists p, Some p ∈ update_first sel f l /\ pid p = c.
Proof.
  intros Hf (p & (i & Hi)%list_elem_of_lookup & Hc).
  destruct (update_first_lookup sel f l i) as [E|(q & Hq & _ & E)].
  - exists p. split; [|done]. apply list_elem_of_lookup. exists i. by rewrite E.
  - exists (f q). split; [|rewrite Hf; congruence]. apply list_elem_of_lookup. by exists i.
Qed.

Lemma table_shape_insert l n i p q :
  table_shape n l -> l !! i = Some (Some p) -> pid q = pid p ->
  table_shape n (<[i := Some q]> l).
Proof.
  intros (Hl & Hn & H1 & H2) Hi Hq. split; [by rewrite length_insert|]. split; [done|]. split.
  - intros j Hj. destruct (decide (j = i)) as [->|].
    + exists q. rewrite list_lookup_insert_eq by (by eapply lookup_lt_Some).
      split; [done|]. destruct (H1 i Hj) as (p' & Hp' & ?). congruence.
    + rewrite list_lookup_insert_ne by done. by apply H1.
  - intros j Hj. destruct (decide (j = i)) as [->|]; [|rewrite list_lookup_insert_ne by done; by apply H2].
    specialize (H2 i Hj). congruence.
Qed.

Lemma table_shape_spawn l n p :
  table_shape n l -> (n < MAX_PROCESSES)%nat -> pid p = Z.of_nat n + 1 ->
  table_shape (S n) (<[n := Some p]> l).
Proof.
  intros (Hl & Hn & H1 & H2) Hlt Hp. split; [by rewrite length_insert|]. split; [lia|]. split.
  - intros j Hj. destruct (decide (j = n)) as [->|].
    + exists p. by rewrite list_lookup_insert_eq by lia.
    + rewrite list_lookup_insert_ne by done. apply H1. lia.
  - intros j Hj. rewrite list_lookup_insert_ne by lia. apply H2. lia.
Qed.

Lemma first_none_shape l n :
  table_shape n l -> first_none l = if (n <? MAX_PROCESSES)%nat then Some n else None.
Proof.
  intros (Hl & Hn & H1 & H2). destruct (first_none l) as [i|] eqn:E.
  - destruct (first_none_Some l i E) as [Hi Hj].
    assert (i = n) as ->.
    { pose proof (lookup_lt_Some _ _ _ Hi). destruct (lt_eq_lt_dec i n) as [[Hlt|]|Hgt]; [|done|].
      - destruct (H1 i Hlt) as (p & Hp & _). congruence.
      - destruct (Hj n Hgt) as (x & Hx). rewrite H2 in Hx by lia. done. }
    apply lookup_lt_Some in Hi. rewrite (proj2 (Nat.ltb_lt _ _)) by lia. done.
  - destruct (Nat.ltb_spec n MAX_PROCESSES); [|done].
    destruct (first_none_None l n E) as [x Hx]; [lia|]. rewrite H2 in Hx by lia. done.
Qed.

Lemma best_ready_spec l idx best hp :
  (best_ready l idx best hp = best /\
   forall k p, l !! k = Some (Some p) -> state p = Ready -> hp <= prio_val (priority p)) \/
  (exists k p, best_ready l idx best hp = Some (idx + k)%nat /\ l !! k = Some (Some p) /\
     state p = Ready /\ prio_val (priority p) < hp /\
     forall j q, l !! j = Some (Some q) -> state q = Ready ->
       prio_val (priority p) <= prio_val (priority q) /\
       (prio_val (priority q) = prio_val (priority p) -> (k <= j)%nat)).
Proof.
  revert idx best hp. induction l as [|slot l IH]; intros idx best hp; cbn.
  { left. split; [done|]. intros k p Hk. by rewrite lookup_nil in Hk. }
  assert (Hskip : forall h, (forall p, slot = Some p -> state p = Ready -> h <= prio_val (priority p)) ->
    forall b, (best_ready l (S idx) b h = b /\
      forall k p, (slot :: l) !! k = Some (Some p) -> state p = Ready -> h <= prio_val (priority p)) \/
    (exists k p, best_ready l (S idx) b h = Some (idx + k)%nat /\ (slot :: l) !! k = Some (Some p) /\
     state p = Ready /\ prio_val (priority p) < h /\
     forall j q, (slot :: l) !! j = Some (Some q) -> state q = Ready ->
       prio_val (priority p) <= prio_val (priority q) /\
       (prio_val (priority q) = prio_val (priority p) -> (k <= j)%nat))).
  { intros h Hs b. destruct (IH (S idx) b h) as [[-> Hall]|(k & p & -> & Hk & Hr & Hlt & Hmin)].
    - left. split; [done|]. intros [|k] p Hk Hp; [injection Hk as Hk; by apply Hs|by eapply Hall].
    - right. exists (S k), p. split; [f_equal; lia|]. split; [done|]. split; [done|]. split; [done|].
      intros [|j] q Hj Hq.
      + injection Hj as Hj. specialize (Hs q Hj Hq). lia.
      + destruct (Hmin j q Hj Hq). split; [done|]. intros; lia. }
  destruct slot as [proc|]; [|by apply Hskip].
  destruct (decide (state proc = Ready)) as [Hrd|Hnr]; [|apply Hskip; by intros p [= <-]].
  destruct (prio_val (priority proc) <? hp) eqn:E; unbool;
    [|apply Hskip; intros p [= <-]; lia].
  destruct (Hskip (prio_val (priority proc)) ltac:(intros p [= <-]; lia) (Some idx))
    as [[Hb Hall]|(k & p & Hb & Hk & Hr & Hlt & Hmin)]; right.
  - exists 0%nat, proc. rewrite Hb, Nat.add_0_r. repeat split; try done; [|lia].
    by eapply Hall.
  - exists k, p. repeat split; try done; [lia|by eapply Hmin|by eapply Hmin].
Qed.

Lemma prio_val_range p : 0 <= prio_val p <= 3.
Proof. by destruct p. Qed.

Lemma schedule_next_cases s :
  (schedule_next s = (None, s) /\
   forall k p, processes s !! k = Some (Some p) -> state p <> Ready) \/
  (exists k p, processes s !! k = Some (Some p) /\ state p = Ready /\
     schedule_next s = (Some (pid p),
       mk_Sched (<[k := Some (set_state Running p)]> (processes s)) (pid p) (next_pid s)) /\
     forall j q, processes s !! j = Some (Some q) -> state q = Ready ->
       prio_val (priority p) <= prio_val (priority q) /\
       (prio_val (priority q) = prio_val (priority p) -> (k <= j)%nat)).
Proof.
  unfold schedule_next.
  destruct (best_ready_spec (processes s) 0 None 99) as [[-> Hall]|(k & p & -> & Hk & Hr & _ & Hmin)].
  - left. split; [done|]. intros k p Hk Hp. specialize (Hall k p Hk Hp).
    pose proof (prio_val_range (priority p)). lia.
  - right. exists k, p. cbn [Nat.add]. rewrite Hk. done.
Qed.

Lemma sched_inv_new : sched_inv new_sched.
Proof.
  constructor; [|by left]. exists 0%nat. split; [|done]. split; [done|]. split; [lia|].
  split; [intros i Hi; lia|]. intros i Hi. unfold new_sched, processes. apply lookup_replicate_2. unfold MAX_PROCESSES in *. lia.
Qed.

Lemma sched_inv_update s sel f :
  (forall p, pid (f p) = pid p) -> sched_inv s -> sched_inv (on_processes (update_first sel f) s).
Proof.
  intros Hf [(n & Hsh & Hn) Hc]. constructor.
  - exists n. split; [|done]. by apply update_first_shape.
  - destruct Hc as [Hc|Hc]; [by left|right]. by apply update_first_current.
Qed.

Lemma sched_inv_run s o : sched_inv s -> sched_inv (run o s).
Proof.
  intros Hinv. destruct o as [nm prio quota| |p st sp|p b|p b|p a]; cbn [run];
    try (apply sched_inv_update; done).
  - destruct Hinv as [(n & Hsh & Hn) Hc]. unfold spawn. rewrite (first_none_shape _ n Hsh).
    destruct (Nat.ltb_spec n MAX_PROCESSES) as [Hlt|]; [|constructor; [by exists n|done]].
    pose proof Hsh as (Hl & _ & _ & H2). constructor; cbn.
    + exists (S n). rewrite Hn. split; [apply table_shape_spawn; [done|done|done]|].
      unfold MAX_PROCESSES in *. rewrite wrap_id by (unfold in_u; lia). lia.
    + destruct Hc as [Hc|(p & Hp & Hc)]; [by left|right]. exists p. split; [|done].
      apply list_elem_of_lookup in Hp as [i Hi]. apply list_elem_of_lookup. exists i.
      rewrite list_lookup_insert_ne; [done|]. intros <-. rewrite H2 in Hi by lia. done.
  - destruct (schedule_next_cases s) as [[-> _]|(k & p & Hk & _ & -> & _)]; [done|].
    destruct Hinv as [(n & Hsh & Hn) _]. constructor; cbn.
    + exists n. split; [|done]. by eapply table_shape_insert.
    + right. exists (set_state Running p). split; [|done].
      apply list_elem_of_lookup. exists k. apply list_lookup_insert_eq. by eapply lookup_lt_Some.
Qed.

Lemma reachable_inv s : reachable s -> sched_inv s.
Proof. induction 1; [apply sched_inv_new|by apply sched_inv_run]. Qed.

(** The ready processes still to be picked. *)
Definition ready_count (l : list (option ProcessControlBlock)) : nat :=
  length (List.filter (fun slot : option ProcessControlBlock =>
    match slot with Some p => bool_decide (state p = Ready) | None => false end) l).

Lemma ready_count_insert l k p q :
  l !! k = Some (Some p) -> state p = Ready -> state q <> Ready ->
  S (ready_count (<[k := Some q]> l)) = ready_count l.
Proof.
  intros Hk Hp Hq. unfold ready_count.
  rewrite (insert_take_drop _ k) by (by eapply lookup_lt_Some).
  rewrite <- (take_drop_middle l k (Some p)) at 3 by done.
  rewrite !List.filter_app. cbn.
  rewrite bool_decide_eq_false_2, bool_decide_eq_true_2 by done.
  rewrite !length_app. cbn. lia.
Qed.

Lemma ready_count_zero l :
  (forall k p, l !! k = Some (Some p) -> state p <> Ready) -> ready_count l = 0%nat.
Proof.
  unfold ready_count. induction l as [|[p|] l IH]; intros H; cbn; [done| |].
  - rewrite bool_decide_eq_false_2 by (by apply (H 0%nat)). apply IH.
    intros k q Hk. by apply (H (S k)).
  - apply IH. intros k q Hk. by apply (H (S k)).
Qed.

Fixpoint schedule_times (n : nat) (s : NativeAgentScheduler) : list Z * NativeAgentScheduler :=
  match n with
  | O => ([], s)
  | S m =>
      match schedule_next s with
      | (Some p, s') => let '(ps, s'') := schedule_times m s' in (p :: ps, s'')
      | (None, s') => ([], s')
      end
  end.

(** ** Properties *)

(** C37. Every table the kernel can reach has its processes in the first slots,
    slot [i] holding pid [i + 1], the next pid one past the last, and a current
    pid that is 0 or that of a live process; spawning gives the next pid until
    all 32 slots are taken and then fails, changing nothing. *)
Theorem reachable_sched_inv s :
  reachable s ->
  sched_inv s /\
  forall nm prio quota,
    exists n, table_shape n (processes s) /\ n = get_active_count s /\
      if (n <? MAX_PROCESSES)%nat
      then (spawn nm prio quota s).1 = Some (Z.of_nat n + 1)
      else spawn nm prio quota s = (None, s).
Proof.
  intros Hr. apply reachable_inv in Hr as [(n & Hsh & Hn) Hc].
  split; [by constructor; [exists n|]|]. intros nm prio quota. exists n. split; [done|].
  split.
  - symmetry. destruct Hsh as (Hl & Hle & H1 & H2). unfold get_active_count.
    rewrite <- (take_drop n (processes s)), List.filter_app, length_app.
    assert (Ha : forall l : list (option ProcessControlBlock), (forall x, x ∈ l -> exists p, x = Some p) ->
      length (List.filter (fun p => match p with Some _ => true | None => false end) l) = length l).
    { clear. induction l as [|x l IH]; intros H; cbn; [done|].
      destruct (H x) as [p ->]; [left|]. cbn. rewrite IH; [done|]. intros y Hy. apply H. by right. }
    assert (Hb : forall l : list (option ProcessControlBlock), (forall x, x ∈ l -> x = None) ->
      length (List.filter (fun p => match p with Some _ => true | None => false end) l) = 0%nat).
    { clear. induction l as [|x l IH]; intros H; cbn; [done|].
      rewrite (H x) by left. apply IH. intros y Hy. apply H. by right. }
    rewrite Ha, Hb.
    + rewrite length_take. lia.
    + intros x (i & Hi)%list_elem_of_lookup. rewrite lookup_drop in Hi.
      pose proof (lookup_lt_Some _ _ _ Hi). rewrite H2 in Hi by lia. congruence.
    + intros x (i & Hi)%list_elem_of_lookup. pose proof (lookup_lt_Some _ _ _ Hi) as Hlt.
      rewrite length_take in Hlt. rewrite lookup_take_lt in Hi by lia.
      destruct (H1 i) as (p & Hp & _); [lia|]. exists p. congruence.
  - unfold spawn. rewrite (first_none_shape _ n Hsh).
    destruct (n <? MAX_PROCESSES)%nat; [|done]. cbn. by rewrite Hn.
Qed.

Lemma reachable_sched_inv_witness :
  let s := run (OpSpawn "b" Background 10) (run OpSchedule (run (OpSpawn "a" High 10) new_sched)) in
  (spawn "c" Normal 5 s).1 = Some 3 /\ sched_inv s.
Proof.
  split; [reflexivity|]. apply reachable_sched_inv. repeat apply reach_step. apply reach_new.
Defined.

(** [schedule_next] picks a ready process of the best priority, the lowest
    slot among equals, marks it running and current and touches nothing else; it
    fails, changing nothing, exactly when no process is ready.  Each success uses
    up one ready process, so a ready process is picked before as many calls as
    there are ready processes have passed. *)
Theorem schedule_next_spec s :
  (forall k p, processes s !! k = Some (Some p) -> state p <> Ready) /\ schedule_next s = (None, s) \/
  exists k p s', schedule_next s = (Some (pid p), s') /\
    processes s !! k = Some (Some p) /\ state p = Ready /\
    (forall j q, processes s !! j = Some (Some q) -> state q = Ready ->
       prio_val (priority p) <= prio_val (priority q) /\
       (prio_val (priority q) = prio_val (priority p) -> (k <= j)%nat)) /\
    processes s' = <[k := Some (set_state Running p)]> (processes s) /\
    get_current_pid s' = pid p /\ next_pid s' = next_pid s /\
    S (ready_count (processes s')) = ready_count (processes s).
Proof.
  destruct (schedule_next_cases s) as [[E H]|(k & p & Hk & Hr & E & Hmin)]; [by left|right].
  exists k, p. eexists. split; [exact E|]. do 2 (split; [done|]). split; [exact Hmin|].
  do 3 (split; [done|]). by eapply ready_count_insert.
Qed.

(** Scheduling as often as there are ready processes leaves none ready: each
    of them has been picked, whatever their priorities. *)
Theorem schedule_drains s :
  let '(ps, s') := schedule_times (ready_count (processes s)) s in
  length ps = ready_count (processes s) /\ ready_count (processes s') = 0%nat /\
  schedule_next s' = (None, s').
Proof.
  remember (ready_count (processes s)) as n eqn:Hn. revert s Hn.
  induction n as [|n IH]; intros s Hn; cbn [schedule_times].
  - split; [done|]. split; [done|].
    destruct (schedule_next_cases s) as [[E _]|(k & p & Hk & Hr & E & _)]; [done|].
    pose proof (ready_count_insert (processes s) k p (set_state Running p) Hk Hr ltac:(done)). lia.
  - destruct (schedule_next_cases s) as [[_ H]|(k & p & Hk & Hr & E & _)].
    + rewrite ready_count_zero in Hn by done. done.
    + rewrite E. pose proof (ready_count_insert (processes s) k p (set_state Running p) Hk Hr ltac:(done)).
      specialize (IH (mk_Sched (<[k := Some (set_state Running p)]> (processes s)) (pid p) (next_pid s))).
      destruct (schedule_times n _) as [ps s'']. cbn [processes] in IH.
      destruct IH as (H1 & H2 & H3); [lia|]. cbn [length]. repeat split; try done. lia.
Qed.
