(* ===== verification/KvAllocator.v ===== *)
(** * KvAllocator: the KV-cache blocks ([memory/kv_allocator.rs]) *)
From stdpp Require Import base list numbers strings.
From Stdlib Require Import Lia.
From S2P Require Import Prelude AgentScheduler.
Open Scope Z_scope.

Definition KV_CACHE_PAGE_SIZE : nat := Z.to_nat 4096.

Inductive KVCacheLocation := Vram | SystemRam | PagedDisk.

Record KVCacheBlock := mk_KVCacheBlock {
  block_id : Z;
  owner : Z;
  token_capacity : Z;
  location : KVCacheLocation;
  block_data : list Z;
}.

Record KVCacheMemoryManager := mk_Kv {
  blocks : list (option KVCacheBlock);
  allocated_count : Z;
}.

Definition KV_BLOCKS : nat := 128.

Definition new_kv : KVCacheMemoryManager := mk_Kv (replicate KV_BLOCKS None) 0.

Definition allocate_kv_block (pid tokens : Z) (m : KVCacheMemoryManager)
    : option Z * KVCacheMemoryManager :=
  match first_none (blocks m) with
  | None => (None, m)
  | Some idx =>
      let id := Z.of_nat idx + 1 in
      let data := replicate KV_CACHE_PAGE_SIZE 0 in
      (Some id, mk_Kv (<[idx := Some (mk_KVCacheBlock id pid tokens SystemRam data)]> (blocks m))
                  (allocated_count m + 1))
  end.

Definition free_kv_block (id : Z) (m : KVCacheMemoryManager) : option Z * KVCacheMemoryManager :=
  if id <? 1 then (None, m)
  else
    let idx := id - 1 in
    if idx <? Z.of_nat (length (blocks m)) then
      match blocks m !! Z.to_nat idx with
      | Some (Some block) =>
          (Some (owner block), mk_Kv (<[Z.to_nat idx := None]> (blocks m)) (allocated_count m - 1))
      | _ => (None, m)
      end
    else (None, m).

Definition get_allocated_count (m : KVCacheMemoryManager) : Z := allocated_count m.

(** [for_each_block] *)
Definition live_blocks (m : KVCacheMemoryManager) : list KVCacheBlock :=
  concat (map (fun slot => match slot with Some b => [b] | None => [] end) (blocks m)).

(** The block's id, if it is allocated, and its owner. *)
Definition owner_of (m : KVCacheMemoryManager) (id : Z) : option Z :=
  if id <? 1 then None
  else match blocks m !! Z.to_nat (id - 1) with Some (Some b) => Some (owner b) | _ => None end.

Record kv_inv (m : KVCacheMemoryManager) : Prop := {
  kv_len : length (blocks m) = KV_BLOCKS;
  kv_ids : forall i b, blocks m !! i = Some (Some b) -> block_id b = Z.of_nat i + 1;
  kv_count : allocated_count m = Z.of_nat (length (live_blocks m));
}.

(** ** Lemmas *)

Definition live_of (l : list (option KVCacheBlock)) : list KVCacheBlock :=
  concat (map (fun slot => match slot with Some b => [b] | None => [] end) l).

Lemma live_insert_Some l i b :
  l !! i = Some None -> length (live_of (<[i := Some b]> l)) = S (length (live_of l)).
Proof.
  intros Hi. rewrite (insert_take_drop _ i) by (by eapply lookup_lt_Some).
  rewrite <- (take_drop_middle l i None) at 3 by done.
  unfold live_of. rewrite !map_app, !concat_app. cbn. rewrite !length_app. cbn. lia.
Qed.

Lemma live_insert_None l i b :
  l !! i = Some (Some b) -> S (length (live_of (<[i := None]> l))) = length (live_of l).
Proof.
  intros Hi. rewrite (insert_take_drop _ i) by (by eapply lookup_lt_Some).
  rewrite <- (take_drop_middle l i (Some b)) at 3 by done.
  unfold live_of. rewrite !map_app, !concat_app. cbn. rewrite !length_app. cbn. lia.
Qed.

Lemma kv_inv_new : kv_inv new_kv.
Proof.
  constructor; [done| |done]. intros i b Hi.
  unfold new_kv, blocks in Hi. apply lookup_replicate in Hi as [? _]. done.
Qed.

Lemma kv_inv_alloc m p t : kv_inv m -> kv_inv (allocate_kv_block p t m).2.
Proof.
  intros [Hl Hids Hc]. unfold allocate_kv_block.
  destruct (first_none (blocks m)) as [idx|] eqn:E; [|by constructor].
  destruct (first_none_Some _ _ E) as [Hn _]. constructor; cbn [snd blocks allocated_count].
  - by rewrite length_insert.
  - intros i b Hi. destruct (decide (i = idx)) as [->|].
    + rewrite list_lookup_insert_eq in Hi by (by eapply lookup_lt_Some). by injection Hi as <-.
    + rewrite list_lookup_insert_ne in Hi by done. by apply Hids.
  - pose proof (live_insert_Some (blocks m) idx (mk_KVCacheBlock (Z.of_nat idx + 1) p t SystemRam
      (replicate KV_CACHE_PAGE_SIZE 0)) Hn) as Hlive.
    unfold live_of, live_blocks in *. cbn [blocks]. lia.
Qed.

Lemma kv_inv_free m id : kv_inv m -> kv_inv (free_kv_block id m).2.
Proof.
  intros Hm. pose proof Hm as [Hl Hids Hc]. unfold free_kv_block.
  destruct (id <? 1); [done|]. cbn zeta. destruct (_ <? _); [|done].
  destruct (blocks m !! Z.to_nat (id - 1)) as [[b|]|] eqn:E; try done. constructor; cbn [snd blocks allocated_count].
  - by rewrite length_insert.
  - intros i b' Hi. destruct (decide (i = Z.to_nat (id - 1))) as [->|].
    + rewrite list_lookup_insert_eq in Hi by (by eapply lookup_lt_Some). done.
    + rewrite list_lookup_insert_ne in Hi by done. by apply Hids.
  - pose proof (live_insert_None _ _ _ E). unfold live_of, live_blocks in *. cbn [blocks]. lia.
Qed.

Lemma owner_of_insert m i x c id :
  (i < length (blocks m))%nat ->
  owner_of (mk_Kv (<[i := x]> (blocks m)) c) id =
    if decide (id = Z.of_nat i + 1) then owner <$> x else owner_of m id.
Proof.
  intros Hi. unfold owner_of. destruct (Z.ltb_spec id 1).
  - rewrite decide_False by lia. done.
  - destruct (decide (id = Z.of_nat i + 1)) as [->|]; cbn [blocks].
    + replace (Z.to_nat _) with i by lia. rewrite list_lookup_insert_eq by done. by destruct x.
    + by rewrite list_lookup_insert_ne by lia.
Qed.

(** What an allocation gives: the lowest free id, from 1 to 128, now owned. *)
Lemma allocate_spec m p t :
  kv_inv m ->
  match allocate_kv_block p t m with
  | (Some id, m') =>
      1 <= id <= 128 /\ owner_of m id = None /\ owner_of m' id = Some p /\
      (forall id', 1 <= id' < id -> owner_of m id' <> None) /\
      (forall id', id' <> id -> owner_of m' id' = owner_of m id')
  | (None, m') => m' = m /\ forall id, 1 <= id <= 128 -> owner_of m id <> None
  end.
Proof.
  intros [Hl Hids Hc]. unfold allocate_kv_block.
  destruct (first_none (blocks m)) as [idx|] eqn:E.
  - destruct (first_none_Some _ _ E) as [Hn Hlow]. pose proof (lookup_lt_Some _ _ _ Hn) as Hlt.
    pose proof Hlt as Hlt'. rewrite Hl in Hlt'. unfold KV_BLOCKS in Hlt'.
    split; [lia|]. split; [|split; [|split]].
    + unfold owner_of. rewrite (proj2 (Z.ltb_ge _ _)) by lia.
      replace (Z.to_nat _) with idx by lia. by rewrite Hn.
    + rewrite owner_of_insert by done. by rewrite decide_True.
    + intros id' Hid'. unfold owner_of. rewrite (proj2 (Z.ltb_ge _ _)) by lia.
      destruct (Hlow (Z.to_nat (id' - 1))) as [b Hb]; [lia|]. by rewrite Hb.
    + intros id' Hne. rewrite owner_of_insert by done. by rewrite decide_False.
  - split; [done|]. intros id Hid. unfold owner_of. rewrite (proj2 (Z.ltb_ge _ _)) by lia.
    destruct (first_none_None _ (Z.to_nat (id - 1)) E) as [b Hb];
      [rewrite Hl; unfold KV_BLOCKS; lia|]. by rewrite Hb.
Qed.

(** What freeing gives: the owner of an allocated block, which is then free. *)
Lemma free_spec m id :
  kv_inv m ->
  (free_kv_block id m).1 = owner_of m id /\
  (forall id', owner_of (free_kv_block id m).2 id' =
     if decide (id' = id) then None else owner_of m id') /\
  (owner_of m id = None -> (free_kv_block id m).2 = m).
Proof.
  intros [Hl Hids Hc]. unfold free_kv_block.
  destruct (Z.ltb_spec id 1) as [Hlt|Hge].
  { assert (Ho : owner_of m id = None) by (unfold owner_of; by rewrite (proj2 (Z.ltb_lt _ _))).
    cbn. rewrite Ho. split; [done|]. split; [|done]. intros id'.
    destruct (decide (id' = id)) as [->|]; done. }
  cbn zeta. destruct (Z.ltb_spec (id - 1) (Z.of_nat (length (blocks m)))) as [Hin|Hout].
  - destruct (lookup_lt_is_Some_2 (blocks m) (Z.to_nat (id - 1))) as [[b|] Hb]; [lia| |]; rewrite Hb.
    + assert (Ho : owner_of m id = Some (owner b)).
      { unfold owner_of. rewrite (proj2 (Z.ltb_ge _ _)) by lia. by rewrite Hb. }
      cbn. rewrite Ho. split; [done|]. split; [|done]. intros id'.
      rewrite owner_of_insert by lia.
      destruct (decide (id' = id)); [rewrite decide_True by lia; done|by rewrite decide_False by lia].
    + assert (Ho : owner_of m id = None).
      { unfold owner_of. rewrite (proj2 (Z.ltb_ge _ _)) by lia. by rewrite Hb. }
      cbn. rewrite Ho. split; [done|]. split; [|done]. intros id'.
      destruct (decide (id' = id)) as [->|]; done.
  - assert (Ho : owner_of m id = None).
    { unfold owner_of. rewrite (proj2 (Z.ltb_ge _ _)) by lia. by rewrite lookup_ge_None_2 by lia. }
    cbn. rewrite Ho. split; [done|]. split; [|done]. intros id'.
    destruct (decide (id' = id)) as [->|]; done.
Qed.

(** ** Properties *)

(** The managers reachable by allocating and freeing. *)
Inductive kv_reachable : KVCacheMemoryManager -> Prop :=
| kv_start : kv_reachable new_kv
| kv_alloc m p t : kv_reachable m -> kv_reachable (allocate_kv_block p t m).2
| kv_free m id : kv_reachable m -> kv_reachable (free_kv_block id m).2.

Lemma kv_reachable_inv m : kv_reachable m -> kv_inv m.
Proof. induction 1; [apply kv_inv_new|by apply kv_inv_alloc|by apply kv_inv_free]. Qed.

(** In every reachable manager the count is the number of allocated blocks
    and each block's id is its slot; allocating takes the lowest free id of 1 to
    128 or fails with all taken; freeing an id returns its owner and frees just
    that block, and an id that is not allocated (0, out of range, freed before)
    changes nothing. *)
Theorem kv_manager_spec m :
  kv_reachable m ->
  get_allocated_count m = Z.of_nat (length (live_blocks m)) /\
  (forall i b, blocks m !! i = Some (Some b) -> block_id b = Z.of_nat i + 1) /\
  (forall p t, match allocate_kv_block p t m with
    | (Some id, m') =>
        1 <= id <= 128 /\ owner_of m id = None /\ owner_of m' id = Some p /\
        (forall id', 1 <= id' < id -> owner_of m id' <> None) /\
        (forall id', id' <> id -> owner_of m' id' = owner_of m id')
    | (None, m') => m' = m /\ forall id, 1 <= id <= 128 -> owner_of m id <> None
    end) /\
  (forall id, (free_kv_block id m).1 = owner_of m id /\
    (forall id', owner_of (free_kv_block id m).2 id' =
       if decide (id' = id) then None else owner_of m id') /\
    (owner_of m id = None -> (free_kv_block id m).2 = m)).
Proof.
  intros Hr%kv_reachable_inv. split; [apply Hr|]. split; [apply Hr|]. split.
  - intros p t. by apply allocate_spec.
  - intros id. by apply free_spec.
Qed.

Lemma kv_manager_spec_witness :
  let m := (allocate_kv_block 8 64 (allocate_kv_block 7 64 new_kv).2).2 in
  (free_kv_block 1 m).1 = owner_of m 1 /\ owner_of m 1 = Some 7 /\
  (allocate_kv_block 9 1 (free_kv_block 1 m).2).1 = Some 1.
Proof.
  cbn zeta. split; [|split; reflexivity].
  apply (kv_manager_spec (allocate_kv_block 8 64 (allocate_kv_block 7 64 new_kv).2).2).
  do 2 apply kv_alloc. apply kv_start.
Defined.
