(* ===== verification/Paging.v ===== *)
(** * Paging: validation of pointers a system call receives ([memory/paging.rs])

    The page-table walk ([Mapper::translate] of the [x86_64] crate) and the
    canonical-address test ([VirtAddr::try_new]) are parameters: [translate]
    gives the flags of the page of a canonical address, if it is mapped. *)
From stdpp Require Import base list numbers strings.
From Stdlib Require Import Lia.
From S2P Require Import Prelude.
Open Scope Z_scope.

(** The page-table flags the kernel asks about. *)
Inductive PageFlag := PRESENT | WRITABLE | USER_ACCESSIBLE.

#[export] Instance PageFlag_eq_dec : EqDecision PageFlag.
Proof. solve_decision. Defined.

(** [flags.contains(required)] *)
Definition contains (flags required : list PageFlag) : bool :=
  forallb (fun f => bool_decide (f ∈ flags)) required.

Definition PAGE_SIZE : Z := 4096.

Section Mapper.
Context (try_new : Z -> option Z) (translate : Z -> option (list PageFlag)).

Definition pointer_has_flags (addr : Z) (required : list PageFlag) : bool :=
  if addr =? 0 then false
  else
    match try_new addr with
    | None => false
    | Some virt =>
        match translate virt with
        | Some flags => contains flags required
        | None => false
        end
    end.

(** [(first_page..=last_page).all(|page| ...)] *)
Fixpoint all_pages (n : nat) (page : Z) (required : list PageFlag) : bool :=
  match n with
  | O => true
  | S m => pointer_has_flags (page * PAGE_SIZE) required && all_pages m (page + 1) required
  end.

Definition range_has_flags (addr len_bytes : Z) (required : list PageFlag) : bool :=
  if len_bytes =? 0 then true
  else
    match checked_add 64 addr (len_bytes - 1) with
    | None => false
    | Some last_byte =>
        let first_page := addr / PAGE_SIZE in
        let last_page := last_byte / PAGE_SIZE in
        all_pages (Z.to_nat (last_page - first_page + 1)) first_page required
    end.

Definition range_is_mapped (addr len_bytes : Z) : bool := range_has_flags addr len_bytes [PRESENT].

Definition range_is_user_accessible (addr len_bytes : Z) : bool :=
  range_has_flags addr len_bytes [PRESENT; USER_ACCESSIBLE].

(** ** What a passed check means *)

(** The page of the address is mapped with the flags, and is not page zero. *)
Definition page_ok (required : list PageFlag) (a : Z) : Prop :=
  pointer_has_flags (a / PAGE_SIZE * PAGE_SIZE) required = true.

Lemma all_pages_spec n page required :
  all_pages n page required = true <->
  forall i, (i < n)%nat -> pointer_has_flags ((page + Z.of_nat i) * PAGE_SIZE) required = true.
Proof.
  revert page. induction n as [|n IH]; intros page; cbn [all_pages].
  - split; [intros _ i Hi; lia|done].
  - rewrite andb_true_iff, IH. split.
    + intros [H0 H] [|i] Hi; [by rewrite Z.add_0_r|].
      replace (page + Z.of_nat (S i)) with (page + 1 + Z.of_nat i) by lia. apply H. lia.
    + intros H. split; [by rewrite <- (Z.add_0_r page); apply (H 0%nat); lia|].
      intros i Hi. replace (page + 1 + Z.of_nat i) with (page + Z.of_nat (S i)) by lia.
      apply H. lia.
Qed.

Lemma range_has_flags_iff addr len required :
  in_u 64 addr -> 0 < len ->
  (range_has_flags addr len required = true <->
   addr + len <= 2 ^ 64 /\ forall a, addr <= a < addr + len -> page_ok required a).
Proof.
  intros Ha Hl. unfold range_has_flags. rewrite (proj2 (Z.eqb_neq len 0)) by lia.
  unfold checked_add. destruct (Z.ltb_spec (addr + (len - 1)) (2 ^ 64)) as [Hlt|Hge].
  - rewrite all_pages_spec. unfold page_ok, PAGE_SIZE, in_u in *. split.
    + intros H. split; [lia|]. intros a Hin.
      specialize (H (Z.to_nat (a / 4096 - addr / 4096))).
      replace (addr / 4096 + Z.of_nat _) with (a / 4096) in H by div_lia.
      apply H. div_lia.
    + intros [_ H] i Hi.
      specialize (H (Z.max addr ((addr / 4096 + Z.of_nat i) * 4096))).
      replace (Z.max _ _ / 4096) with (addr / 4096 + Z.of_nat i) in H by div_lia.
      apply H. div_lia.
  - split; [done|]. intros [H _]. lia.
Qed.

Lemma page_zero_rejected required a : 0 <= a < PAGE_SIZE -> ~ page_ok required a.
Proof.
  unfold page_ok, PAGE_SIZE. intros Ha. rewrite Z.div_small by lia. done.
Qed.

(** A checked range is never so long that its length saturated. *)
Lemma range_has_flags_bound addr len required :
  in_u 64 addr -> 0 < len -> range_has_flags addr len required = true -> len < 2 ^ 64 - 1.
Proof.
  intros Ha Hl H. apply range_has_flags_iff in H as [Hle H]; [|done|done].
  destruct (decide (len < 2 ^ 64 - 1)) as [|Hbig]; [done|exfalso].
  unfold in_u in Ha. apply (page_zero_rejected required addr); [unfold PAGE_SIZE; lia|].
  apply H. lia.
Qed.
End Mapper.

(** ** Properties *)

(** A non-empty range passes [range_is_user_accessible] exactly when it does
    not run past the end of the address space and every byte of it is on a page
    that is canonical, mapped, present and user accessible; no byte of page zero
    ever passes. *)
Theorem range_is_user_accessible_spec try_new translate addr len :
  in_u 64 addr -> 0 < len ->
  (range_is_user_accessible try_new translate addr len = true <->
   addr + len <= 2 ^ 64 /\
   forall a, addr <= a < addr + len ->
     PAGE_SIZE <= a /\
     exists virt flags, try_new (a / PAGE_SIZE * PAGE_SIZE) = Some virt /\
       translate virt = Some flags /\ PRESENT ∈ flags /\ USER_ACCESSIBLE ∈ flags).
Proof.
  intros Ha Hl. unfold range_is_user_accessible. rewrite range_has_flags_iff by done.
  assert (Hp : forall a, 0 <= a -> (page_ok try_new translate [PRESENT; USER_ACCESSIBLE] a <->
     PAGE_SIZE <= a /\ exists virt flags, try_new (a / PAGE_SIZE * PAGE_SIZE) = Some virt /\
       translate virt = Some flags /\ PRESENT ∈ flags /\ USER_ACCESSIBLE ∈ flags)).
  { intros a Hpos. unfold page_ok, pointer_has_flags, PAGE_SIZE.
    destruct (Z.eqb_spec (a / 4096 * 4096) 0) as [E|E].
    - split; [done|]. intros [? _]. div_lia.
    - destruct (try_new _) as [virt|]; [|split; [done|by intros (_ & ? & ? & [=] & _)]].
      destruct (translate virt) as [flags|] eqn:Et;
        [|split; [done|intros (_ & ? & ? & [= <-] & ? & _); congruence]].
      unfold contains. cbn [forallb]. rewrite andb_true_r, andb_true_iff, !bool_decide_eq_true.
      split.
      + intros [H1 H2]. split; [div_lia|]. by exists virt, flags.
      + intros (_ & v & f & [= <-] & Hf & H1 & H2). rewrite Et in Hf. by injection Hf as ->. }
  unfold in_u in Ha. split; intros [H1 H2]; (split; [done|]); intros a Hin; apply Hp; try lia;
    by apply H2.
Qed.

Lemma range_is_user_accessible_spec_witness :
  let translate := fun v => if v =? 0x5000 then Some [PRESENT; USER_ACCESSIBLE] else Some [PRESENT] in
  range_is_user_accessible Some translate 0x5FF0 16 = true /\
  (0x5FF0 + 16 <= 2 ^ 64 /\
   forall a, 0x5FF0 <= a < 0x5FF0 + 16 -> PAGE_SIZE <= a /\
     exists virt flags, Some (a / PAGE_SIZE * PAGE_SIZE) = Some virt /\
       translate virt = Some flags /\ PRESENT ∈ flags /\ USER_ACCESSIBLE ∈ flags).
Proof.
  cbn zeta. split; [vm_compute; reflexivity|].
  apply (proj1 (range_is_user_accessible_spec Some
    (fun v => if v =? 0x5000 then Some [PRESENT; USER_ACCESSIBLE] else Some [PRESENT])
    0x5FF0 16 ltac:(split; lia) ltac:(lia))).
  vm_compute. reflexivity.
Defined.
