(* ===== verification/PhysMem.v ===== *)
(** * PhysMem: physical frames and the mappings made of them
      ([memory/frame_allocator.rs], [memory/heap.rs], [memory/user_page.rs])

    The allocator walks the bootloader's memory map and never takes a frame back.
    [Mapper::map_to] and [PhysFrame::containing_address] of the [x86_64] crate and
    the heap's [linked_list_allocator] are not the kernel's code: [PageTables] is
    the class of what the kernel relies on of the first (the mapping is made, no
    other one changes, frames for new tables come from the same allocator), the
    second is a parameter with its documented meaning, of the third the range it is
    handed is kept. *)
From stdpp Require Import base list numbers strings.
From Stdlib Require Import Lia.
From S2P Require Import Prelude Mem Paging.
Open Scope Z_scope.

(** ** The frame allocator *)

Inductive MemoryRegionKind := Usable | Other.

Record MemoryRegion := mk_Region { r_start : Z; r_end : Z; r_kind : MemoryRegionKind }.

Record BootInfoFrameAllocator := mk_Alloc { memory_regions : list MemoryRegion; next : Z }.

Definition init (regions : list MemoryRegion) : BootInfoFrameAllocator := mk_Alloc regions 0.

Definition is_usable (r : MemoryRegion) : bool := if r_kind r is Usable then true else false.

(** Element [k] of [.filter(Usable).flat_map(|r| r.start..r.end)], the addresses of
    the usable regions one after another. *)
Fixpoint usable_address (regions : list MemoryRegion) (k : Z) : option Z :=
  match regions with
  | [] => None
  | r :: rest =>
      let len := Z.max 0 (r_end r - r_start r) in
      if negb (is_usable r) then usable_address rest k
      else if k <? len then Some (r_start r + k)
      else usable_address rest (k - len)
  end.

Section Frames.
(** [PhysFrame::containing_address(PhysAddr::new(addr))] *)
Context (containing_address : Z -> Z).

(** [self.usable_frames().nth(n)], through [.step_by(4096)]. *)
Definition usable_frame (a : BootInfoFrameAllocator) (n : Z) : option Z :=
  containing_address <$> usable_address (memory_regions a) (4096 * n).

Definition allocate_frame (a : BootInfoFrameAllocator) : option Z * BootInfoFrameAllocator :=
  (usable_frame a (next a), mk_Alloc (memory_regions a) (u64 (next a + 1))).

(** The global slot, and [allocate_frame] through it: both [expect]s panic. *)
Definition FRAME_ALLOCATOR : Type := option BootInfoFrameAllocator.

Definition install_global (a : BootInfoFrameAllocator) : M FRAME_ALLOCATOR unit := fun _ => (Ok tt, Some a).

Definition allocate_global : M FRAME_ALLOCATOR Z := fun g =>
  match g with
  | None => (Panic, None)
  | Some a =>
      let '(f, a') := allocate_frame a in
      (match f with Some f => Ok f | None => Panic end, Some a')
  end.

(** ** Mappings *)

Definition HEAP_START : Z := 0x444444440000.
Definition HEAP_SIZE : Z := 1024 * 1024.
Definition USER_TEST_PAGE_ADDR : Z := 0x555555550000.
Definition USER_DISK_PROGRAM_PAGE_ADDR : Z := 0x666666660000.
Definition USER_DISK_PROGRAM_STACK_ADDR : Z := 0x777777770000.
Definition USER_DISK_PROGRAM_DATA_ADDR : Z := 0x333333330000.

(** What the kernel uses of [Mapper]: [X] is the page tables, pages are named by
    their first address. *)
Class PageTables (X : Type) := {
  map_to : Z -> Z -> list PageFlag -> M (X * BootInfoFrameAllocator) unit;
  mapped : X -> Z -> option (Z * list PageFlag);
  map_to_ok page frame flags s s' :
    map_to page frame flags s = (Ok tt, s') ->
    mapped s'.1 page = Some (frame, flags) /\
    (forall q, q <> page -> mapped s'.1 q = mapped s.1 q) /\
    memory_regions s'.2 = memory_regions s.2 /\ next s.2 <= next s'.2;
}.

Section Maps.
Context {X : Type} `{PageTables X}.

(** The page tables, the allocator, and the range the heap was given. *)
Record Kmem := mk_Kmem { tables : X; alloc : BootInfoFrameAllocator; heap : option (Z * Z) }.

Definition take_frame : M Kmem Z := fun k =>
  let '(f, a) := allocate_frame (alloc k) in
  (ok_or "FrameAllocationFailed" f, mk_Kmem (tables k) a (heap k)).

Definition map_page (page frame : Z) (flags : list PageFlag) : M Kmem unit := fun k =>
  let '(r, (x, a)) := map_to page frame flags (tables k, alloc k) in (r, mk_Kmem x a (heap k)).

(** [Page::containing_address(VirtAddr)] *)
Definition page_of (addr : Z) : Z := addr / 4096 * 4096.

(** [Page::range_inclusive(first, last)] *)
Definition range_inclusive (first last : Z) : list Z :=
  map (fun i => first + 4096 * Z.of_nat i) (seq 0 (Z.to_nat (last / 4096 - first / 4096 + 1))).

Definition page_range : list Z :=
  range_inclusive (page_of HEAP_START) (page_of (HEAP_START + HEAP_SIZE - 1)).

Fixpoint map_pages (pages : list Z) : M Kmem unit :=
  match pages with
  | [] => mret tt
  | page :: rest =>
      frame ← take_frame;
      map_page page frame [PRESENT; WRITABLE];;
      map_pages rest
  end.

Definition init_heap : M Kmem unit :=
  map_pages page_range;;
  modify (fun k => mk_Kmem (tables k) (alloc k) (Some (HEAP_START, HEAP_SIZE))).

Definition map_user_page_at (addr : Z) : M Kmem unit :=
  frame ← take_frame;
  map_page (page_of addr) frame [PRESENT; WRITABLE; USER_ACCESSIBLE].

Definition map_user_test_page : M Kmem unit := map_user_page_at USER_TEST_PAGE_ADDR.

Record UserPageInfo := mk_UserPageInfo {
  present : bool; writable : bool; user_accessible : bool; write_read_back_ok : bool;
}.

Definition PATTERN : list Z := [0xDE; 0xAD; 0xBE; 0xEF; 0xCA; 0xFE; 0xBA; 0xBE].

(** The pattern is stored through the mapping: without one the store faults, which
    the kernel does not survive. *)
Definition inspect_user_page_at (x : X) (addr : Z) : M (Z -> Z) UserPageInfo := fun mem =>
  match mapped x (page_of addr) with
  | Some (_, flags) =>
      let mem := write_bytes addr PATTERN mem in
      (Ok (mk_UserPageInfo (contains flags [PRESENT]) (contains flags [WRITABLE])
             (contains flags [USER_ACCESSIBLE]) (bool_decide (read_bytes mem addr 8 = PATTERN))), mem)
  | None => (Panic, mem)
  end.

Definition inspect_user_test_page (x : X) : M (Z -> Z) UserPageInfo :=
  inspect_user_page_at x USER_TEST_PAGE_ADDR.
End Maps.
End Frames.
Arguments Kmem X : clear implicits.
Arguments mk_Kmem {X}.

(** ** The allocator's frames *)

(** The memory map the bootloader hands over: usable regions in address order, not
    overlapping. *)
Fixpoint map_sorted (from : Z) (regions : list MemoryRegion) : Prop :=
  match regions with
  | [] => True
  | r :: rest =>
      if is_usable r then from <= r_start r <= r_end r /\ map_sorted (r_end r) rest
      else map_sorted from rest
  end.

Lemma usable_address_range from regions k a :
  map_sorted from regions -> 0 <= k -> usable_address regions k = Some a ->
  from + k <= a /\ exists r, r ∈ regions /\ r_kind r = Usable /\ r_start r <= a < r_end r.
Proof.
  revert from k. induction regions as [|r rest IH]; intros from k Hs Hk; cbn [usable_address map_sorted] in *; [done|].
  destruct (is_usable r) eqn:Hu; cbn [negb].
  - destruct Hs as [Hr Hs]. destruct (Z.ltb_spec k (Z.max 0 (r_end r - r_start r))) as [Hlt|Hge].
    + intros [= <-]. split; [lia|]. exists r. split; [apply list_elem_of_here|].
      unfold is_usable in Hu. destruct (r_kind r) eqn:E; [|done]. split; [done|lia].
    + intros E. destruct (IH (r_end r) (k - Z.max 0 (r_end r - r_start r)) Hs ltac:(lia) E) as (H1 & r' & H2 & H3).
      split; [lia|]. exists r'. split; [by apply list_elem_of_further|done].
  - intros E. destruct (IH from _ Hs Hk E) as (H1 & r' & H2 & H3).
    split; [done|]. exists r'. split; [by apply list_elem_of_further|done].
Qed.

(** Addresses go up at least as fast as positions. *)
Lemma usable_address_step from regions i j a b :
  map_sorted from regions -> 0 <= i <= j ->
  usable_address regions i = Some a -> usable_address regions j = Some b -> a + (j - i) <= b.
Proof.
  revert from i j. induction regions as [|r rest IH]; intros from i j Hs Hij; cbn [usable_address map_sorted] in *; [done|].
  destruct (is_usable r); cbn [negb]; [|by apply IH with (from := from)].
  destruct Hs as [Hr Hs].
  destruct (Z.ltb_spec i (Z.max 0 (r_end r - r_start r))), (Z.ltb_spec j (Z.max 0 (r_end r - r_start r))).
  - intros [= <-] [= <-]. lia.
  - intros [= <-] E. destruct (usable_address_range (r_end r) _ (j - Z.max 0 (r_end r - r_start r)) _ Hs ltac:(lia) E). lia.
  - lia.
  - intros E1 E2. pose proof (IH (r_end r) (i - Z.max 0 (r_end r - r_start r))
      (j - Z.max 0 (r_end r - r_start r)) Hs ltac:(lia) E1 E2). lia.
Qed.

Lemma usable_address_end regions i j :
  i <= j -> usable_address regions i = None -> usable_address regions j = None.
Proof.
  revert i j. induction regions as [|r rest IH]; intros i j Hij; cbn [usable_address]; [done|].
  destruct (is_usable r); cbn [negb]; [|by apply IH].
  destruct (Z.ltb_spec i (Z.max 0 (r_end r - r_start r))); [done|].
  rewrite (proj2 (Z.ltb_ge j _)) by lia. apply IH. lia.
Qed.

(** The iterator chain the closed form stands for, on a map small enough to list. *)
Definition all_addresses (regions : list MemoryRegion) : list Z :=
  concat (map (fun r => map (fun i => r_start r + Z.of_nat i) (seq 0 (Z.to_nat (r_end r - r_start r))))
    (filter (fun r => is_usable r = true) regions)).

Lemma usable_address_listed regions k :
  usable_address regions (Z.of_nat k) = all_addresses regions !! k.
Proof.
  unfold all_addresses. revert k. induction regions as [|r rest IH]; intros k; [done|]. cbn [usable_address].
  rewrite filter_cons. destruct (is_usable r) eqn:Hu; cbn [negb].
  - rewrite decide_True by done. cbn [map concat].
    set (n := Z.to_nat (r_end r - r_start r)).
    destruct (Z.ltb_spec (Z.of_nat k) (Z.max 0 (r_end r - r_start r))).
    + rewrite lookup_app_l by (rewrite length_map, length_seq; lia).
      rewrite list_lookup_fmap, lookup_seq_lt by lia. done.
    + rewrite lookup_app_r by (rewrite length_map, length_seq; lia).
      rewrite length_map, length_seq. rewrite <- IH. f_equal. lia.
  - rewrite decide_False by congruence. apply IH.
Qed.

(** The addresses an allocation can give. *)
Definition map_ok (regions : list MemoryRegion) : Prop :=
  map_sorted 0 regions /\ Forall (fun r => r_end r <= 2 ^ 52) regions.

(** Usable regions that start and end on page boundaries. *)
Definition map_aligned (regions : list MemoryRegion) : Prop :=
  Forall (fun r => is_usable r = true -> r_start r mod 4096 = 0 /\ r_end r mod 4096 = 0) regions.

Lemma usable_address_aligned regions k a :
  map_aligned regions -> k mod 4096 = 0 -> usable_address regions k = Some a -> a mod 4096 = 0.
Proof.
  intros Ha. revert k. induction Ha as [|r rest Hr Ha IH]; intros k Hk; cbn [usable_address]; [done|].
  destruct (is_usable r); cbn [negb]; [|by apply IH]. destruct (Hr eq_refl) as [H1 H2].
  destruct (Z.ltb_spec k (Z.max 0 (r_end r - r_start r))).
  - intros [= <-]. div_lia.
  - apply IH. destruct (Z.max_spec 0 (r_end r - r_start r)) as [[_ ->]|[_ ->]]; div_lia.
Qed.

(** The documented meaning of [PhysFrame::containing_address]. *)
Definition aligns_down (containing_address : Z -> Z) : Prop :=
  forall a, containing_address a = a / 4096 * 4096.

Section FrameLemmas.
Context (containing_address : Z -> Z) (Hca : aligns_down containing_address).

Lemma usable_frame_index a n f :
  map_ok (memory_regions a) -> 0 <= n -> usable_frame containing_address a n = Some f -> n < 2 ^ 40.
Proof.
  intros [Hs Hb] Hn. unfold usable_frame.
  destruct (usable_address _ _) as [x|] eqn:E; [|done]. intros _.
  destruct (usable_address_range 0 _ (4096 * n) _ Hs ltac:(lia) E) as (H1 & r & Hr & _ & H2).
  pose proof (proj1 (List.Forall_forall _ _) Hb r (proj1 (list_elem_of_In _ _) Hr)) as H3. cbn in H3. lia.
Qed.

(** Frames of increasing index do not overlap. *)
Lemma usable_frame_disjoint a i j f g :
  map_sorted 0 (memory_regions a) -> 0 <= i < j ->
  usable_frame containing_address a i = Some f -> usable_frame containing_address a j = Some g ->
  f + 4096 <= g.
Proof.
  intros Hs Hij. unfold usable_frame.
  destruct (usable_address _ (4096 * i)) as [x|] eqn:E1; [|done].
  destruct (usable_address _ (4096 * j)) as [y|] eqn:E2; [|done]. cbn.
  intros [= <-] [= <-]. rewrite !Hca.
  pose proof (usable_address_step 0 _ (4096 * i) (4096 * j) x y Hs ltac:(lia) E1 E2). div_lia.
Qed.

Lemma usable_frame_end a i j :
  0 <= i <= j -> usable_frame containing_address a i = None -> usable_frame containing_address a j = None.
Proof.
  intros Hij. unfold usable_frame. destruct (usable_address _ (4096 * i)) eqn:E; [done|].
  by rewrite (usable_address_end _ (4096 * i)) by (lia || done).
Qed.

(** On an aligned map a frame lies in one usable region. *)
Lemma usable_frame_inside a n f :
  map_sorted 0 (memory_regions a) -> map_aligned (memory_regions a) -> 0 <= n ->
  usable_frame containing_address a n = Some f ->
  exists r, r ∈ memory_regions a /\ r_kind r = Usable /\ r_start r <= f /\ f + 4096 <= r_end r.
Proof.
  intros Hs Hal Hn. unfold usable_frame. destruct (usable_address _ _) as [x|] eqn:E; [|done].
  intros [= <-]. rewrite Hca.
  destruct (usable_address_range 0 _ (4096 * n) _ Hs ltac:(lia) E) as (_ & r & Hr & Hu & Hx).
  pose proof (usable_address_aligned _ (4096 * n) _ Hal ltac:(rewrite Z.mul_comm; apply Z.mod_mul; lia) E) as Hx'.
  pose proof (proj1 (List.Forall_forall _ _) Hal r (proj1 (list_elem_of_In _ _) Hr)) as Hr'.
  destruct Hr' as [H1 H2]; [unfold is_usable; by rewrite Hu|].
  exists r. repeat split; [done|done|div_lia|div_lia].
Qed.

(** [n] allocations in a row. *)
Fixpoint allocate_many (n : nat) (a : BootInfoFrameAllocator) : list (option Z) :=
  match n with
  | O => []
  | S m => let '(f, a') := allocate_frame containing_address a in f :: allocate_many m a'
  end.

Lemma allocate_many_lookup n a i :
  0 <= next a -> next a + Z.of_nat n < 2 ^ 64 -> (i < n)%nat ->
  allocate_many n a !! i = Some (usable_frame containing_address a (next a + Z.of_nat i)).
Proof.
  revert a i. induction n as [|n IH]; intros a i H0 Hn Hi; [lia|]. cbn [allocate_many allocate_frame].
  destruct i as [|i]; [by rewrite Z.add_0_r|]. cbn [lookup list_lookup].
  rewrite IH by (cbn [next]; rewrite ?wrap_id by (unfold in_u; lia); lia).
  cbn [next]. rewrite wrap_id by (unfold in_u; lia). unfold usable_frame. cbn [memory_regions].
  do 4 f_equal. lia.
Qed.

Lemma length_allocate_many n a : length (allocate_many n a) = n.
Proof. revert a. induction n as [|n IH]; intros a; [done|]. cbn. by rewrite IH. Qed.

(** ** The mappings *)

Context {X : Type} `{PageTables X}.

Lemma map_page_ok page frame flags k k' :
  map_page page frame flags k = (Ok tt, k') ->
  mapped (tables k') page = Some (frame, flags) /\
  (forall q, q <> page -> mapped (tables k') q = mapped (tables k) q) /\
  memory_regions (alloc k') = memory_regions (alloc k) /\ next (alloc k) <= next (alloc k') /\
  heap k' = heap k.
Proof.
  unfold map_page. destruct (map_to page frame flags (tables k, alloc k)) as [r [x a]] eqn:E.
  intros [= -> <-]. pose proof (map_to_ok _ _ _ _ _ E) as (H1 & H2 & H3 & H4). done.
Qed.

Lemma take_frame_ok (k : Kmem X) f k' :
  map_ok (memory_regions (alloc k)) -> 0 <= next (alloc k) ->
  take_frame containing_address k = (Ok f, k') ->
  usable_frame containing_address (alloc k) (next (alloc k)) = Some f /\
  k' = mk_Kmem (tables k) (mk_Alloc (memory_regions (alloc k)) (next (alloc k) + 1)) (heap k).
Proof.
  intros Hm H0. unfold take_frame, allocate_frame.
  destruct (usable_frame _ _ _) as [g|] eqn:E; [|done]. cbn. intros [= -> <-]. split; [done|].
  pose proof (usable_frame_index _ _ _ Hm H0 E). by rewrite wrap_id by (unfold in_u; lia).
Qed.

(** The pages a loop maps have the frames of increasing allocation indices. *)
Lemma map_pages_ok pages (k k' : Kmem X) :
  map_ok (memory_regions (alloc k)) -> 0 <= next (alloc k) -> NoDup pages ->
  map_pages containing_address pages k = (Ok tt, k') ->
  memory_regions (alloc k') = memory_regions (alloc k) /\ next (alloc k) <= next (alloc k') /\
  heap k' = heap k /\
  (forall q, q ∉ pages -> mapped (tables k') q = mapped (tables k) q) /\
  exists ns, length ns = length pages /\
    (forall i n, ns !! i = Some n -> next (alloc k) <= n) /\
    (forall i j n m, (i < j)%nat -> ns !! i = Some n -> ns !! j = Some m -> n < m) /\
    (forall i n page, ns !! i = Some n -> pages !! i = Some page -> exists f,
       usable_frame containing_address (alloc k) n = Some f /\
       mapped (tables k') page = Some (f, [PRESENT; WRITABLE])).
Proof.
  intros Hm H0 Hnd. revert k Hm H0. induction Hnd as [|page rest Hp Hnd IH]; intros k Hm H0.
  - intros [= <-]. repeat split; [lia|]. exists []. repeat split; intros; done.
  - cbn [map_pages]. intros Hrun.
    destruct (M_bind_Ok_inv _ _ _ _ _ Hrun) as (f & k1 & E1 & Hrun1).
    destruct (take_frame_ok k f k1 Hm H0 E1) as [Hf ->].
    destruct (M_bind_Ok_inv _ _ _ _ _ Hrun1) as ([] & k2 & E2 & Hrun2).
    destruct (map_page_ok _ _ _ _ _ E2) as (Hmap & Hother & Hr2 & Hn2 & Hh2). cbn in Hr2, Hn2, Hh2, Hother.
    destruct (IH k2 ltac:(by rewrite Hr2) ltac:(lia) Hrun2) as (Hr & Hn & Hh & Hq & ns & Hl & Hge & Hinc & Hfs).
    rewrite Hr2 in Hr. rewrite Hh2 in Hh.
    split; [done|]. split; [lia|]. split; [done|]. split.
    + intros q Hqn. apply not_elem_of_cons in Hqn as [Hq1 Hq2]. by rewrite Hq, Hother.
    + exists (next (alloc k) :: ns). split; [cbn; by rewrite Hl|]. split; [|split].
      * intros [|i] n; [intros [= <-]; lia|]. cbn. intros Hi. specialize (Hge i n Hi). lia.
      * intros [|i] [|j] n m Hij; [lia| |lia|].
        -- cbn. intros [= <-] Hj. specialize (Hge j m Hj). lia.
        -- cbn. apply Hinc. lia.
      * intros [|i] n pg; cbn; [intros [= <-] [= <-]|].
        -- exists f. split; [done|]. by rewrite Hq.
        -- intros Hi Hpg. destruct (Hfs i n pg Hi Hpg) as (g & Hg & Hg'). exists g. split; [|done].
           unfold usable_frame in *. by rewrite Hr2 in Hg.
Qed.
End FrameLemmas.

Lemma length_page_range : length page_range = 256%nat.
Proof. reflexivity. Qed.

Lemma page_range_lookup i : (i < 256)%nat -> page_range !! i = Some (HEAP_START + 4096 * Z.of_nat i).
Proof.
  intros Hi. unfold page_range, range_inclusive. rewrite list_lookup_fmap.
  change (Z.to_nat (page_of (HEAP_START + HEAP_SIZE - 1) / 4096 - page_of HEAP_START / 4096 + 1)) with 256%nat.
  by rewrite lookup_seq_lt.
Qed.

Lemma NoDup_page_range : NoDup page_range.
Proof.
  unfold page_range, range_inclusive. apply NoDup_fmap_2; [|apply NoDup_seq]. intros i j. lia.
Qed.

(** ** A concrete page table *)

Module FlatTables.
(** The leaf entries; one level, so no table needs a frame of its own. *)
Definition t := Z -> option (Z * list PageFlag).

Definition map_one (page frame : Z) (flags : list PageFlag) : M (t * BootInfoFrameAllocator) unit := fun s =>
  match s.1 page with
  | Some _ => (Err "PageAlreadyMapped", s)
  | None => (Ok tt, ((fun q => if q =? page then Some (frame, flags) else s.1 q), s.2))
  end.

#[global] Program Instance tables : PageTables t := { map_to := map_one; mapped x := x }.
Next Obligation.
  intros page frame flags [x a] s'. unfold map_one. cbn. destruct (x page); [done|]. intros [= <-]. cbn.
  rewrite Z.eqb_refl. repeat split; try lia. intros q Hq. by rewrite (proj2 (Z.eqb_neq _ _) Hq).
Qed.
End FlatTables.

(** ** Properties *)

(** C29. From any memory map whose usable regions are in order and do not overlap, a
    run of allocations gives out page-aligned frames in increasing order, no two of them
    sharing a byte; once one allocation finds the map exhausted all later ones do;
    and where the usable regions are page aligned every frame lies wholly inside
    one of them. *)
Theorem frames_never_overlap containing_address a n :
  aligns_down containing_address -> map_sorted 0 (memory_regions a) -> 0 <= next a ->
  next a + Z.of_nat n < 2 ^ 64 ->
  let fs := allocate_many containing_address n a in
  (forall i j f g, (i < j)%nat -> fs !! i = Some (Some f) -> fs !! j = Some (Some g) -> f + 4096 <= g) /\
  (forall i f, fs !! i = Some (Some f) -> f mod 4096 = 0) /\
  (forall i j, (i <= j < n)%nat -> fs !! i = Some None -> fs !! j = Some None) /\
  (map_aligned (memory_regions a) -> forall i f, fs !! i = Some (Some f) ->
     exists r, r ∈ memory_regions a /\ r_kind r = Usable /\ r_start r <= f /\ f + 4096 <= r_end r).
Proof.
  intros Hca Hs H0 Hn fs.
  assert (Hfs : forall i, (i < n)%nat -> fs !! i = Some (usable_frame containing_address a (next a + Z.of_nat i)))
    by (intros; by apply allocate_many_lookup).
  assert (Hlt : forall i o, fs !! i = Some o -> (i < n)%nat).
  { intros i o Hi. apply lookup_lt_Some in Hi. unfold fs in Hi. by rewrite length_allocate_many in Hi. }
  repeat split.
  - intros i j f g Hij Hi Hj. pose proof (Hlt _ _ Hi). pose proof (Hlt _ _ Hj).
    rewrite Hfs in Hi, Hj by done. injection Hi as Hi. injection Hj as Hj.
    eapply (usable_frame_disjoint containing_address Hca); [exact Hs| |exact Hi|exact Hj]. lia.
  - intros i f Hi. pose proof (Hlt _ _ Hi). rewrite Hfs in Hi by done. injection Hi as Hi.
    unfold usable_frame in Hi. destruct (usable_address _ _) as [x|]; [|done]. injection Hi as <-.
    rewrite Hca. by apply Z.mod_mul.
  - intros i j Hij Hi. rewrite Hfs in * by lia. injection Hi as Hi. f_equal.
    apply (usable_frame_end containing_address a (next a + Z.of_nat i)); [lia|done].
  - intros Hal i f Hi. pose proof (Hlt _ _ Hi). rewrite Hfs in Hi by done. injection Hi as Hi.
    eapply (usable_frame_inside containing_address Hca); [exact Hs|exact Hal| |exact Hi]. lia.
Qed.

Definition page_down (a : Z) : Z := a / 4096 * 4096.

(** Two usable regions around a reserved one. *)
Definition small_map : list MemoryRegion :=
  [mk_Region 0x1000 0x3000 Usable; mk_Region 0x3000 0x8000 Other; mk_Region 0x8000 0x9000 Usable].

(** The last frame is in its region; on a map that is not aligned, frames still are. *)
Lemma frames_never_overlap_witness :
  allocate_many page_down 5 (init small_map) = [Some 0x1000; Some 0x2000; Some 0x8000; None; None] /\
  (exists r, r ∈ small_map /\ r_kind r = Usable /\ r_start r <= 0x8000 /\ 0x8000 + 4096 <= r_end r) /\
  (allocate_many page_down 1 (init [mk_Region 0x1234 0x3000 Usable]) !! 0%nat = Some (Some 0x1000) /\ 0x1000 mod 4096 = 0).
Proof.
  split; [reflexivity|]. split.
  - apply (frames_never_overlap page_down (init small_map) 5) with (i := 2%nat).
    + intros a. reflexivity.
    + cbn. lia.
    + cbn. lia.
    + cbn. lia.
    + repeat constructor.
    + reflexivity.
  - split; [reflexivity|].
    apply (frames_never_overlap page_down (init [mk_Region 0x1234 0x3000 Usable]) 1) with (i := 0%nat).
    + intros a. reflexivity.
    + cbn. lia.
    + cbn. lia.
    + cbn. lia.
    + reflexivity.
Defined.

(** When [init_heap] succeeds, every page of the heap's mebibyte is mapped
    present and writable and not user accessible, no two pages share a byte of
    physical memory, every other mapping is as it was, and the allocator was given
    exactly that range; when it fails the allocator is given nothing. *)
Theorem init_heap_maps {X} `{PageTables X} containing_address (k k' : Kmem X) r :
  aligns_down containing_address -> map_ok (memory_regions (alloc k)) -> 0 <= next (alloc k) ->
  heap k = None -> init_heap containing_address k = (r, k') ->
  match r with
  | Ok _ =>
      heap k' = Some (HEAP_START, HEAP_SIZE) /\
      (forall q, ~ (HEAP_START <= q < HEAP_START + HEAP_SIZE) -> mapped (tables k') q = mapped (tables k) q) /\
      exists frame : nat -> Z,
        (forall i, (i < 256)%nat ->
           mapped (tables k') (HEAP_START + 4096 * Z.of_nat i) = Some (frame i, [PRESENT; WRITABLE])) /\
        (forall i j, (i < j < 256)%nat -> frame i + 4096 <= frame j)
  | _ => heap k' = None
  end.
Proof.
  intros Hca Hm H0 Hh. unfold init_heap.
  assert (Hkeep : forall ps k1, heap (map_pages containing_address ps k1).2 = heap k1).
  { induction ps as [|p ps IH]; intros k1; [done|]. cbn [map_pages]. unfold mbind, M_bind, take_frame, map_page.
    destruct (allocate_frame _ (alloc k1)) as [[f|] a1]; cbn; [|done].
    destruct (map_to _ _ _ _) as [[[]|e| |] [x2 a2]]; cbn; try done. by rewrite IH. }
  specialize (Hkeep page_range k). unfold mbind, M_bind.
  destruct (map_pages containing_address page_range k) as [[[]|e| |] k1] eqn:E; cbn in Hkeep;
    intros [= <- <-]; try congruence.
  destruct (map_pages_ok containing_address page_range k k1 Hm H0 NoDup_page_range E)
    as (_ & _ & _ & Hq & ns & Hl & Hge & Hinc & Hfs).
  rewrite length_page_range in Hl. split; [done|]. split.
  - intros q Hout. apply Hq. intros Hin. apply list_elem_of_lookup in Hin as [i Hi].
    pose proof (lookup_lt_Some _ _ _ Hi) as Hlt. rewrite length_page_range in Hlt.
    rewrite page_range_lookup in Hi by done. injection Hi as <-. apply Hout.
    unfold HEAP_SIZE. lia.
  - exists (fun i => default 0 (n ← ns !! i; usable_frame containing_address (alloc k) n)).
    assert (Hn : forall i, (i < 256)%nat -> exists n f, ns !! i = Some n /\
      usable_frame containing_address (alloc k) n = Some f /\
      mapped (tables k1) (HEAP_START + 4096 * Z.of_nat i) = Some (f, [PRESENT; WRITABLE])).
    { intros i Hi. destruct (lookup_lt_is_Some_2 ns i ltac:(lia)) as [n En].
      destruct (Hfs i n _ En (page_range_lookup i Hi)) as (f & Ef & Em). by exists n, f. }
    split.
    + intros i Hi. destruct (Hn i Hi) as (n & f & En & Ef & Em). rewrite En. cbn. by rewrite Ef.
    + intros i j Hij. destruct (Hn i ltac:(lia)) as (n & f & En & Ef & _).
      destruct (Hn j ltac:(lia)) as (m & g & Em & Eg & _). rewrite En, Em. cbn. rewrite Ef, Eg. cbn.
      specialize (Hge i n En). specialize (Hinc i j n m ltac:(lia) En Em).
      eapply (usable_frame_disjoint containing_address Hca); [apply Hm| |exact Ef|exact Eg]. lia.
Qed.

Definition big_map : list MemoryRegion := [mk_Region 0x100000 0x400000 Usable].

Lemma init_heap_maps_witness :
  exists k', init_heap page_down (mk_Kmem ((fun _ => None) : FlatTables.t) (init big_map) None) = (Ok tt, k') /\
    heap k' = Some (HEAP_START, HEAP_SIZE).
Proof.
  destruct (init_heap page_down (mk_Kmem ((fun _ => None) : FlatTables.t) (init big_map) None)) as [r k'] eqn:E.
  assert (Hr : r = Ok tt).
  { change r with (r, k').1. rewrite <- E. vm_compute. reflexivity. }
  exists k'. subst r. split; [reflexivity|].
  apply (init_heap_maps page_down _ k' (Ok tt)) in E.
  - apply E.
  - intros a. reflexivity.
  - split; [cbn; lia|repeat constructor; cbn; lia].
  - cbn. lia.
  - reflexivity.
Defined.

(** A user page, once mapped, is present, writable and user accessible on
    inspection, passes the pointer check of the system calls for every range
    inside it, and no mapping of another page (the heap's among them) changes. *)
Theorem user_page_usable {X} `{PageTables X} containing_address try_new (k k' : Kmem X) addr a len mem :
  map_ok (memory_regions (alloc k)) -> 0 <= next (alloc k) ->
  addr mod 4096 = 0 -> 0 < addr < 2 ^ 47 -> try_new addr = Some addr ->
  map_user_page_at containing_address addr k = (Ok tt, k') ->
  addr <= a -> 0 < len -> a + len <= addr + 4096 ->
  range_is_user_accessible try_new (fun v => snd <$> mapped (tables k') v) a len = true /\
  (exists mem', inspect_user_page_at (tables k') addr mem = (Ok (mk_UserPageInfo true true true true), mem') /\
     forall x, x < addr \/ addr + 8 <= x -> mem' x = mem x) /\
  (forall q, q <> addr -> mapped (tables k') q = mapped (tables k) q).
Proof.
  intros Hm H0 Hal Haddr Htry Hrun Ha Hl Hend. unfold map_user_page_at in Hrun.
  destruct (M_bind_Ok_inv _ _ _ _ _ Hrun) as (f & k1 & E1 & E2).
  destruct (take_frame_ok containing_address k f k1 Hm H0 E1) as [_ ->].
  assert (Hp : page_of addr = addr) by (unfold page_of; div_lia). rewrite Hp in E2.
  destruct (map_page_ok _ _ _ _ _ E2) as (Hmap & Hother & _).
  split; [|split; [|exact Hother]].
  - apply range_has_flags_iff; [unfold in_u; lia|done|]. split; [lia|]. intros b Hb.
    unfold page_ok, pointer_has_flags, PAGE_SIZE.
    assert (Hpb : b / 4096 * 4096 = addr) by div_lia. rewrite Hpb.
    rewrite (proj2 (Z.eqb_neq addr 0)), Htry by lia. by rewrite Hmap.
  - unfold inspect_user_page_at. rewrite Hp, Hmap. eexists. split.
    + repeat f_equal. change 8%nat with (length PATTERN). rewrite read_write_bytes. reflexivity.
    + intros x Hx. by apply write_bytes_out.
Qed.

Lemma user_page_usable_witness :
  let k := mk_Kmem ((fun _ => None) : FlatTables.t) (init big_map) None in
  let k' := (map_user_test_page page_down k).2 in
  range_is_user_accessible Some (fun v => snd <$> mapped (tables k') v) (USER_TEST_PAGE_ADDR + 100) 32 = true.
Proof.
  intros k k'.
  apply (user_page_usable page_down Some k k' USER_TEST_PAGE_ADDR _ _ (fun _ => 0)).
  - split; [cbn; lia|repeat constructor; cbn; lia].
  - cbn. lia.
  - reflexivity.
  - unfold USER_TEST_PAGE_ADDR. lia.
  - reflexivity.
  - reflexivity.
  - lia.
  - lia.
  - lia.
Defined.

(** The level-4 table entry an address is reached through. *)
Definition pml4_index (addr : Z) : Z := addr / 2 ^ 39 mod 512.

(** No user page shares a level-4 entry with the heap or with another one. *)
Lemma pml4_distinct :
  NoDup (map pml4_index [HEAP_START; USER_TEST_PAGE_ADDR; USER_DISK_PROGRAM_PAGE_ADDR;
    USER_DISK_PROGRAM_STACK_ADDR; USER_DISK_PROGRAM_DATA_ADDR]).
Proof. apply (bool_decide_unpack _). by vm_compute. Qed.
