(* ===== verification/Pci.v ===== *)
(** * Pci: PCI configuration space through ports 0xCF8 and 0xCFC ([pci.rs])

    The driver is a computation over any port hardware.  [Host] is the documented
    configuration mechanism 1: an address latch in front of a space of dwords, of
    which a 16-bit access at the data port reaches the low half; [PciHost] is the
    class of hardware that behaves as one. *)
From stdpp Require Import base list numbers strings.
From Stdlib Require Import Lia.
From S2P Require Import Prelude PortIO.
Open Scope Z_scope.

Definition CONFIG_ADDRESS : Z := 0xCF8.
Definition CONFIG_DATA : Z := 0xCFC.

Definition config_address (bus device function offset : Z) : Z :=
  Z.lor (Z.lor (Z.lor (Z.lor (Z.shiftl 1 31) (u32 (Z.shiftl bus 16))) (u32 (Z.shiftl device 11)))
    (u32 (Z.shiftl function 8))) (Z.land offset 0xFC).

Record PciDevice := mk_PciDevice {
  bus : Z; device : Z; function : Z; vendor_id : Z; device_id : Z; class_ : Z; subclass : Z; prog_if : Z;
}.

Definition PCI_COMMAND_OFFSET : Z := 0x04.
Definition PCI_COMMAND_BUS_MASTER : Z := Z.shiftl 1 2.

Section Driver.
Context {P : Type} `{Ports P}.

Definition read_config_dword (b d f offset : Z) : M P Z :=
  write_port outl CONFIG_ADDRESS (config_address b d f offset);;
  read_port inl CONFIG_DATA.

Definition read_config_word (b d f offset : Z) : M P Z :=
  write_port outl CONFIG_ADDRESS (config_address b d f offset);;
  read_port inw CONFIG_DATA.

Definition write_config_word (b d f offset value : Z) : M P unit :=
  write_port outl CONFIG_ADDRESS (config_address b d f offset);;
  write_port outw CONFIG_DATA value.

Definition read_bar0 (x : PciDevice) : M P Z := read_config_dword (bus x) (device x) (function x) 0x10.

Definition enable_bus_mastering (x : PciDevice) : M P unit :=
  command ← read_config_word (bus x) (device x) (function x) PCI_COMMAND_OFFSET;
  write_config_word (bus x) (device x) (function x) PCI_COMMAND_OFFSET
    (Z.lor command PCI_COMMAND_BUS_MASTER).

(** The body of the two loops: what is found in a slot. *)
Definition probe (d f : Z) : M P (option PciDevice) :=
  id_word ← read_config_dword 0 d f 0x00;
  let vendor_id := u16 (Z.land id_word 0xFFFF) in
  if vendor_id =? 0xFFFF then mret None
  else
    class_word ← read_config_dword 0 d f 0x08;
    mret (Some (mk_PciDevice 0 d f vendor_id (u16 (Z.shiftr id_word 16))
      (u8 (Z.land (Z.shiftr class_word 24) 0xFF)) (u8 (Z.land (Z.shiftr class_word 16) 0xFF))
      (u8 (Z.land (Z.shiftr class_word 8) 0xFF)))).

Fixpoint scan_slots (slots : list (Z * Z)) : M P (list PciDevice) :=
  match slots with
  | [] => mret []
  | (d, f) :: rest =>
      o ← probe d f;
      found ← scan_slots rest;
      mret (match o with Some x => x :: found | None => found end)
  end.

(** [for device in 0..32u8 { for function in 0..8u8 { .. } }] *)
Definition bus0_slots : list (Z * Z) :=
  concat (map (fun d => map (fun f => (Z.of_nat d, Z.of_nat f)) (seq 0 8)) (seq 0 32)).

Definition scan_bus0 : M P (list PciDevice) := scan_slots bus0_slots.
End Driver.

Definition class_name (c : Z) : string :=
  if c =? 0x00 then "Unclassified"
  else if c =? 0x01 then "Mass Storage"
  else if c =? 0x02 then "Network"
  else if c =? 0x03 then "Display"
  else if c =? 0x04 then "Multimedia"
  else if c =? 0x06 then "Bridge"
  else if c =? 0x0C then "Serial Bus"
  else "Other".

(** ** The documented host bridge *)

(** [space a] is the dword an address of the latch selects; [writable a] the bits
    of its low half that software can change. *)
Record Host := mk_Host { latch : Z; space : Z -> Z; writable : Z -> Z }.

Definition set_latch (a : Z) (h : Host) : Host := mk_Host a (space h) (writable h).

Definition merge16 (mask old v : Z) : Z :=
  old - old mod 65536 + Z.lor (Z.land (old mod 65536) (Z.lnot mask)) (Z.land v mask).

Definition write16 (v : Z) (h : Host) : Host :=
  mk_Host (latch h)
    (fun a => if a =? latch h then merge16 (writable h a) (space h a) v else space h a) (writable h).

Class PciHost (P : Type) `{Ports P} := {
  view : P -> Host;
  host_outl v p : view (outl CONFIG_ADDRESS v p) = set_latch v (view p);
  host_inl p : (inl CONFIG_DATA p).1 = space (view p) (latch (view p)) /\ view (inl CONFIG_DATA p).2 = view p;
  host_inw p :
    (inw CONFIG_DATA p).1 = space (view p) (latch (view p)) mod 65536 /\ view (inw CONFIG_DATA p).2 = view p;
  host_outw v p : view (outw CONFIG_DATA v p) = write16 v (view p);
  host_dwords p a : in_u 32 (space (view p) a);
  host_masks p a : in_u 16 (writable (view p) a);
}.

(** ** Lemmas *)

Lemma config_address_sum b d f o :
  0 <= b < 256 -> 0 <= d < 32 -> 0 <= f < 8 -> 0 <= o < 256 ->
  config_address b d f o = 2 ^ 31 + b * 2 ^ 16 + d * 2 ^ 11 + f * 2 ^ 8 + o / 4 * 4.
Proof.
  intros Hb Hd Hf Ho. unfold config_address.
  assert (Ho' : Z.land o 0xFC = o / 4 * 4).
  { pose proof (all_from_spec (Z.to_nat 256) 0 (fun o => Z.land o 0xFC =? o / 4 * 4) eq_refl o ltac:(lia)) as E.
    cbn beta in E. by unbool. }
  rewrite Ho', !Z.shiftl_mul_pow2 by lia. unfold wrap. rewrite !Z.mod_small by lia.
  rewrite (lor_add' 31 (1 * 2 ^ 31)) by (lia || reflexivity).
  rewrite (lor_add' 16 (_ + _)) by (lia || (change (2 ^ 31) with (32768 * 2 ^ 16); div_lia)).
  rewrite (lor_add' 11 (_ + _)) by (lia || (change (2 ^ 31) with (1048576 * 2 ^ 11); change (2 ^ 16) with (32 * 2 ^ 11); div_lia)).
  rewrite (lor_add' 8 (_ + _)) by (div_lia).
  lia.
Qed.

(** Different registers of different functions have different addresses. *)
Lemma config_address_inj b d f o b' d' f' o' :
  0 <= b < 256 -> 0 <= d < 32 -> 0 <= f < 8 -> 0 <= o < 256 ->
  0 <= b' < 256 -> 0 <= d' < 32 -> 0 <= f' < 8 -> 0 <= o' < 256 ->
  config_address b d f o = config_address b' d' f' o' -> b = b' /\ d = d' /\ f = f' /\ o / 4 = o' / 4.
Proof. intros. rewrite !config_address_sum in * by done. div_lia. Qed.

Section Laws.
Context {P : Type} `{PciHost P}.

Lemma read_dword_run b d f o p :
  exists p', read_config_dword b d f o p = (Ok (space (view p) (config_address b d f o)), p') /\
    view p' = set_latch (config_address b d f o) (view p).
Proof.
  unfold read_config_dword, mbind, M_bind, write_port, read_port.
  destruct (host_inl (outl CONFIG_ADDRESS (config_address b d f o) p)) as [H1 H2].
  destruct (inl CONFIG_DATA _) as [v p']. cbn in H1, H2. rewrite host_outl in H1, H2. subst v.
  exists p'. split; done.
Qed.

Lemma read_word_run b d f o p :
  exists p', read_config_word b d f o p = (Ok (space (view p) (config_address b d f o) mod 65536), p') /\
    view p' = set_latch (config_address b d f o) (view p).
Proof.
  unfold read_config_word, mbind, M_bind, write_port, read_port.
  destruct (host_inw (outl CONFIG_ADDRESS (config_address b d f o) p)) as [H1 H2].
  destruct (inw CONFIG_DATA _) as [v p']. cbn in H1, H2. rewrite host_outl in H1, H2. subst v.
  exists p'. split; done.
Qed.

Lemma write_word_run b d f o v p :
  exists p', write_config_word b d f o v p = (Ok tt, p') /\
    view p' = write16 v (set_latch (config_address b d f o) (view p)).
Proof.
  unfold write_config_word, mbind, M_bind, write_port. eexists. split; [done|].
  by rewrite host_outw, host_outl.
Qed.

(** What a slot holds, read off the configuration space. *)
Definition slot_device (s : Z -> Z) (slot : Z * Z) : option PciDevice :=
  let '(d, f) := slot in
  let id := s (config_address 0 d f 0) in
  let class_word := s (config_address 0 d f 8) in
  if id mod 65536 =? 0xFFFF then None
  else Some (mk_PciDevice 0 d f (id mod 65536) (id / 65536) (class_word / 2 ^ 24)
         (class_word / 2 ^ 16 mod 256) (class_word / 2 ^ 8 mod 256)).

Lemma dword_fields w :
  in_u 32 w ->
  u16 (Z.land w 0xFFFF) = w mod 65536 /\ u16 (Z.shiftr w 16) = w / 65536 /\
  u8 (Z.land (Z.shiftr w 24) 0xFF) = w / 2 ^ 24 /\
  u8 (Z.land (Z.shiftr w 16) 0xFF) = w / 2 ^ 16 mod 256 /\
  u8 (Z.land (Z.shiftr w 8) 0xFF) = w / 2 ^ 8 mod 256.
Proof.
  intros Hw. unfold in_u, wrap in *. rewrite !Z.shiftr_div_pow2, (land_mask 16), !(land_mask 8) by lia.
  change (2 ^ 16) with 65536. change (2 ^ 8) with 256. change (2 ^ 24) with 16777216. change (2 ^ 32) with 4294967296 in Hw.
  repeat split; div_lia.
Qed.

Lemma probe_run d f p :
  exists p', probe d f p = (Ok (slot_device (space (view p)) (d, f)), p') /\
    space (view p') = space (view p) /\ writable (view p') = writable (view p).
Proof.
  destruct (read_dword_run 0 d f 0 p) as (p1 & E1 & V1). unfold probe.
  rewrite (M_bind_Ok _ _ _ _ _ E1). unfold slot_device.
  destruct (dword_fields _ (host_dwords p (config_address 0 d f 0))) as (F1 & F2 & _). rewrite F1, F2.
  destruct (_ =? 0xFFFF); [exists p1; by rewrite V1|].
  destruct (read_dword_run 0 d f 8 p1) as (p2 & E2 & V2). rewrite (M_bind_Ok _ _ _ _ _ E2). rewrite V1.
  cbn [space set_latch].
  destruct (dword_fields _ (host_dwords p (config_address 0 d f 8))) as (_ & _ & G1 & G2 & G3).
  rewrite G1, G2, G3. exists p2. by rewrite V2, V1.
Qed.

Lemma scan_slots_run slots p :
  exists p', scan_slots slots p = (Ok (omap (slot_device (space (view p))) slots), p') /\
    space (view p') = space (view p) /\ writable (view p') = writable (view p).
Proof.
  revert p. induction slots as [|[d f] rest IH]; intros p; [by exists p|]. cbn [scan_slots].
  destruct (probe_run d f p) as (p1 & E1 & V1 & W1). rewrite (M_bind_Ok _ _ _ _ _ E1).
  destruct (IH p1) as (p2 & E2 & V2 & W2). rewrite (M_bind_Ok _ _ _ _ _ E2), V1. exists p2.
  split; [|by rewrite V2, W2]. cbn [omap list_omap]. by destruct (slot_device _ _).
Qed.
End Laws.

Lemma lor_bound k a b : 0 <= k -> 0 <= a < 2 ^ k -> 0 <= b < 2 ^ k -> 0 <= Z.lor a b < 2 ^ k.
Proof.
  intros Hk Ha Hb. rewrite <- (Z.mod_small a (2 ^ k)), <- (Z.mod_small b (2 ^ k)) by done.
  rewrite <- !Z.land_ones, <- Z.land_lor_distr_l, Z.land_ones by done. apply Z.mod_pos_bound. lia.
Qed.

Lemma land_bound k a b : 0 <= k -> 0 <= a < 2 ^ k -> 0 <= Z.land a b < 2 ^ k.
Proof.
  intros Hk Ha. rewrite <- (Z.mod_small a (2 ^ k)) by done.
  rewrite <- Z.land_ones, <- Z.land_assoc, (Z.land_comm (Z.ones k)), Z.land_assoc, Z.land_ones by done.
  apply Z.mod_pos_bound. lia.
Qed.

(** Setting bits through a write mask. *)
Lemma merge16_or mask old bits :
  in_u 32 old -> in_u 16 mask -> in_u 16 bits ->
  merge16 mask old (Z.lor (old mod 65536) bits) = Z.lor old (Z.land bits mask).
Proof.
  intros Ho Hm Hb. unfold merge16.
  assert (Hx : Z.lor (Z.land (old mod 65536) (Z.lnot mask)) (Z.land (Z.lor (old mod 65536) bits) mask)
    = Z.lor (old mod 65536) (Z.land bits mask)).
  { apply Z.bits_inj'. intros n Hn. rewrite !Z.lor_spec, !Z.land_spec, Z.lor_spec, Z.lnot_spec by done.
    by destruct (Z.testbit (old mod 65536) n), (Z.testbit bits n), (Z.testbit mask n). }
  rewrite Hx.
  assert (Hlow : 0 <= Z.lor (old mod 65536) (Z.land bits mask) < 2 ^ 16).
  { apply lor_bound; [lia|apply (Z.mod_pos_bound old 65536); lia|]. apply land_bound; [lia|done]. }
  replace (old - old mod 65536) with (old / 65536 * 2 ^ 16) by (change (2 ^ 16) with 65536; div_lia).
  rewrite <- lor_add by (lia || done).
  rewrite Z.lor_assoc. rewrite lor_add by (change (2 ^ 16) with 65536; div_lia || lia).
  f_equal. change (2 ^ 16) with 65536. div_lia.
Qed.

Lemma merge16_in_u mask old v : in_u 32 old -> in_u 16 mask -> in_u 32 (merge16 mask old v).
Proof.
  intros Ho Hm. unfold merge16, in_u in *.
  assert (H1 : 0 <= Z.land (old mod 65536) (Z.lnot mask) < 2 ^ 16)
    by (apply land_bound; [lia|apply (Z.mod_pos_bound old 65536); lia]).
  assert (H2 : 0 <= Z.land v mask < 2 ^ 16) by (rewrite Z.land_comm; apply land_bound; [lia|done]).
  pose proof (lor_bound 16 _ _ ltac:(lia) H1 H2). change (2 ^ 32) with 4294967296 in *.
  change (2 ^ 16) with 65536 in *. div_lia.
Qed.

(** ** A concrete host bridge *)

Definition GoodHost : Type := { h : Host | forall a, in_u 32 (space h a) /\ in_u 16 (writable h a) }.

Definition good_latch (v : Z) (h : GoodHost) : GoodHost := set_latch v (proj1_sig h) ↾ proj2_sig h.

Program Definition good_write (v : Z) (h : GoodHost) : GoodHost := write16 v (proj1_sig h).
Next Obligation.
  intros v [h Hh] a. cbn. split; [|apply Hh]. destruct (a =? latch h); [|apply Hh].
  by apply merge16_in_u; apply Hh.
Qed.

#[export] Instance host_ports : Ports GoodHost := {
  inb _ h := (0, h); outb _ _ h := h;
  inw a h := (space (proj1_sig h) (latch (proj1_sig h)) mod 65536, h);
  outw a v h := good_write v h;
  inl a h := (space (proj1_sig h) (latch (proj1_sig h)), h);
  outl a v h := good_latch v h;
}.

#[export] Program Instance good_host : PciHost GoodHost := { view := proj1_sig }.
Next Obligation. done. Qed.
Next Obligation. done. Qed.
Next Obligation. done. Qed.
Next Obligation. done. Qed.
Next Obligation. intros [h Hh] a. apply Hh. Qed.
Next Obligation. intros [h Hh] a. apply Hh. Qed.

(** [enable_bus_mastering] sets one bit of one register. *)
Lemma enable_bus_mastering_run {P} `{PciHost P} (x : PciDevice) (p : P) :
  let here := config_address (bus x) (device x) (function x) PCI_COMMAND_OFFSET in
  exists p', enable_bus_mastering x p = (Ok tt, p') /\
  writable (view p') = writable (view p) /\
  forall a, space (view p') a =
    if a =? here then Z.lor (space (view p) a) (Z.land 4 (writable (view p) a)) else space (view p) a.
Proof.
  intros here. unfold enable_bus_mastering.
  destruct (read_word_run (bus x) (device x) (function x) PCI_COMMAND_OFFSET p) as (p1 & E1 & V1).
  rewrite (M_bind_Ok _ _ _ _ _ E1). fold here in V1 |- *.
  destruct (write_word_run (bus x) (device x) (function x) PCI_COMMAND_OFFSET
    (Z.lor (space (view p) here mod 65536) PCI_COMMAND_BUS_MASTER) p1) as (p2 & E2 & V2).
  exists p2. split; [exact E2|]. split; [by rewrite V2, V1|]. intros a. rewrite V2, V1. fold here. cbn.
  destruct (Z.eqb_spec a here) as [->|Hne]; [|done].
  apply merge16_or; [apply host_dwords|apply host_masks|split; reflexivity || done].
Qed.

(** ** Properties *)

Lemma slots_spec d f : (d, f) ∈ bus0_slots <-> 0 <= d < 32 /\ 0 <= f < 8.
Proof.
  unfold bus0_slots. rewrite list_elem_of_In, in_concat. split.
  - intros (l & Hl & Hin). apply in_map_iff in Hl as (i & <- & Hi%in_seq).
    apply in_map_iff in Hin as (j & [= <- <-] & Hj%in_seq). lia.
  - intros [Hd Hf]. exists (map (fun f => (d, Z.of_nat f)) (seq 0 8)). split.
    + apply in_map_iff. exists (Z.to_nat d). rewrite Z2Nat.id by lia. split; [done|]. apply in_seq. lia.
    + apply in_map_iff. exists (Z.to_nat f). rewrite Z2Nat.id by lia. split; [done|]. apply in_seq. lia.
Qed.

(** The scan finds exactly the functions of bus 0 that answer, each once, in
    order of device and function, with the identification its own configuration
    registers hold, and changes no register. *)
Theorem scan_bus0_exact {P} `{PciHost P} (p : P) :
  exists p', scan_bus0 p = (Ok (omap (slot_device (space (view p))) bus0_slots), p') /\
  space (view p') = space (view p) /\
  NoDup bus0_slots /\
  (forall d f, 0 <= d < 32 -> 0 <= f < 8 ->
    let id := space (view p) (2 ^ 31 + d * 2 ^ 11 + f * 2 ^ 8) in
    let cl := space (view p) (2 ^ 31 + d * 2 ^ 11 + f * 2 ^ 8 + 8) in
    forall x, (x ∈ omap (slot_device (space (view p))) bus0_slots /\ device x = d /\ function x = f) <->
      (id mod 65536 <> 0xFFFF /\
       x = mk_PciDevice 0 d f (id mod 65536) (id / 65536) (cl / 2 ^ 24) (cl / 2 ^ 16 mod 256)
             (cl / 2 ^ 8 mod 256))).
Proof.
  destruct (scan_slots_run bus0_slots p) as (p' & E & V & _). exists p'. split; [exact E|]. split; [exact V|].
  split; [apply (bool_decide_unpack _); by vm_compute|].
  intros d f Hd Hf id cl x.
  assert (Hslot : forall d f, 0 <= d < 32 -> 0 <= f < 8 ->
    config_address 0 d f 0 = 2 ^ 31 + d * 2 ^ 11 + f * 2 ^ 8 /\
    config_address 0 d f 8 = 2 ^ 31 + d * 2 ^ 11 + f * 2 ^ 8 + 8)
    by (intros; rewrite !config_address_sum by lia; change (0 / 4 * 4) with 0; change (8 / 4 * 4) with 8; lia).
  rewrite list_elem_of_omap. split.
  - intros (([d' f'] & Hin & Hx) & Hdx & Hfx). apply slots_spec in Hin as [Hd' Hf'].
    unfold slot_device in Hx. destruct (Hslot d' f' Hd' Hf') as [E0 E8]. rewrite E0, E8 in Hx.
    destruct (Z.eqb_spec (space (view p) (2 ^ 31 + d' * 2 ^ 11 + f' * 2 ^ 8) mod 65536) 0xFFFF); [done|].
    injection Hx as <-. cbn in Hdx, Hfx. subst d' f'. done.
  - intros [Hv ->]. split; [|done]. exists (d, f). split; [by apply slots_spec|].
    unfold slot_device. destruct (Hslot d f Hd Hf) as [E0 E8]. rewrite E0, E8.
    fold id cl. by rewrite (proj2 (Z.eqb_neq _ _) Hv).
Qed.

(** Enabling bus mastering sets bit 2 of the function's Command register, as far
    as the device lets it, and nothing else: no other Command bit, no Status bit of
    the same dword, no register of any other function. *)
Theorem bus_mastering_sets_one_bit {P} `{PciHost P} (x : PciDevice) (p : P) :
  let here := config_address (bus x) (device x) (function x) PCI_COMMAND_OFFSET in
  exists p', enable_bus_mastering x p = (Ok tt, p') /\
  forall a, space (view p') a =
    if a =? here then Z.lor (space (view p) a) (Z.land 4 (writable (view p) a)) else space (view p) a.
Proof.
  destruct (enable_bus_mastering_run x p) as (p' & E & _ & V). by exists p'.
Qed.
