(* ===== verification/Nic.v ===== *)
(** * Nic: the machine under the two network drivers, and what they share

    [Machine P] is what [net/virtio.rs] and [net/e1000.rs] reach besides the ports:
    memory through raw pointers (the RAM that a device reads and writes by DMA, and
    its registers when they are mapped), the frame allocator, the timer's count and
    [hlt].  Every access returns a new state, so a device may act before each of
    them.  [until_ticks] is the drivers' waiting loop
    [loop { .. ; if timer_ticks() - start_tick > 90 { break; } hlt(); }], with
    fuel; [Timer] states what bounds it: the count never goes back, and at most
    [BURST] other interrupts wake the processor between two ticks. *)
From stdpp Require Import base list numbers strings.
From Stdlib Require Import Lia.
From S2P Require Import Prelude Mem PortIO PhysMem.
From S2P Require Pci NetFrame.
Open Scope Z_scope.

(** [PHYS_MEM_OFFSET] is set once, at boot; [frame_start] is
    [PhysFrame::containing_address]. *)
Class Machine (P : Type) `{Ports P} := {
  load : Z -> nat -> P -> list Z * P;
  store : Z -> list Z -> P -> P;
  frames : P -> FRAME_ALLOCATOR;
  set_frames : FRAME_ALLOCATOR -> P -> P;
  ticks : P -> Z * P;
  halt : P -> P;
  PHYS_MEM_OFFSET : Z;
  frame_start : Z -> Z;
}.

(** A turn of a waiting loop: it ends, goes on at once, or goes on after the check
    of the time. *)
Inductive turn (B R : Type) : Type :=
| Done (r : R)
| Next (b : B)
| Idle (b : B).
Arguments Done {B R} r.
Arguments Next {B R} b.
Arguments Idle {B R} b.

(** How a waiting loop ends. *)
Inductive waited (B R : Type) : Type :=
| TimedOut (b : B)
| Ended (r : R).
Arguments TimedOut {B R} b.
Arguments Ended {B R} r.

Section Machine.
Context {P : Type} `{Machine P}.

(** [read_volatile], [write_volatile] and the bulk copies. *)
Definition read_mem (a : Z) (n : nat) : M P (list Z) := fun p =>
  let '(bs, p') := load a n p in (Ok bs, p').

Definition write_mem (a : Z) (bs : list Z) : M P unit := fun p => (Ok tt, store a bs p).

Definition read_le (n : nat) (a : Z) : M P Z := bs ← read_mem a n; mret (le_of bs).
Definition write_le (n : nat) (a v : Z) : M P unit := write_mem a (le_bytes n v).

(** [core::ptr::write_bytes(a, byte, n)] *)
Definition fill (a byte : Z) (n : nat) : M P unit := write_mem a (replicate n byte).

Definition virt (phys : Z) : Z := u64 (PHYS_MEM_OFFSET + phys).

Definition allocate_frame : M P Z := fun p =>
  let '(r, g) := allocate_global frame_start (frames p) in (r, set_frames g p).

Definition timer_ticks : M P Z := fun p => let '(t, p') := ticks p in (Ok t, p').

Definition hlt : M P unit := fun p => (Ok tt, halt p).

(** The count
    of a 64-bit timer at 18.2 Hz does not wrap, and is not wrapped here. *)
Fixpoint until_ticks {B R} (fuel : nat) (start_tick : Z) (body : B -> M P (turn B R)) (b : B)
    : M P (waited B R) :=
  match fuel with
  | O => lift Hang
  | S f =>
      t ← body b;
      match t with
      | Done r => mret (Ended r)
      | Next b => until_ticks f start_tick body b
      | Idle b =>
          t ← timer_ticks;
          if 90 <? t - start_tick then mret (TimedOut b)
          else hlt;; until_ticks f start_tick body b
      end
  end.

(** [for (i, byte) in mac.iter_mut().enumerate() { *byte = read(i) }] *)
Fixpoint read_each (n : nat) (i : Z) (read : Z -> M P Z) : M P (list Z) :=
  match n with
  | O => mret []
  | S m => b ← read i; rest ← read_each m (i + 1) read; mret (b :: rest)
  end.

(** [scan_bus0().into_iter().find(..)] *)
Definition find_device (vendor dev : Z) : M P (option Pci.PciDevice) :=
  found ← Pci.scan_bus0;
  mret (List.find (fun d => (Pci.vendor_id d =? vendor) && (Pci.device_id d =? dev)) found).
End Machine.

Lemma bind_run {S A B} (m : M S A) (k : A -> M S B) p :
  (m ≫= k) p = match m p with
               | (Ok a, q) => k a q
               | (Err e, q) => (Err e, q)
               | (Panic, q) => (Panic, q)
               | (Hang, q) => (Hang, q)
               end.
Proof. done. Qed.

(** ** ARP, as both drivers write and check it *)

(** The 42 bytes of a request: who has [tpa]? tell [10.0.2.15]. *)
Definition arp_request (mac tpa : list Z) : list Z :=
  replicate 6 0xFF ++ mac ++ [0x08; 0x06] ++
  [0x00; 0x01; 0x08; 0x00; 6; 4; 0x00; 0x01] ++
  mac ++ [10; 0; 2; 15] ++ replicate 6 0x00 ++ tpa.

Import NetFrame.

(** [data[a..b] == data[c..d]] *)
Definition same_slices (data : list Z) (a b c d : nat) : res bool :=
  x ← slice data a b; y ← slice data c d; Ok (bool_decide (x = y)).

Definition is_arp_reply (data : list Z) : res bool :=
  and_then (Ok (28 <=? length data)%nat)
    (and_then (byte_is data 12 0x08)
      (and_then (byte_is data 13 0x06)
        (and_then (byte_is data 20 0x00)
          (and_then (byte_is data 21 0x02) (same_slices data 22 28 6 12))))).

Definition gateway_ip (data : list Z) : res (option (list Z)) :=
  if (32 <=? length data)%nat then
    a ← idx data 28; b ← idx data 29; c ← idx data 30; d ← idx data 31; Ok (Some [a; b; c; d])
  else Ok None.

(** ** Memory that only changes when the driver asks for it *)

(** A machine whose devices act on port writes, register writes and while the
    processor halts: plain loads and stores see plain memory. *)
Class Calm (P : Type) `{Machine P} := {
  ram : P -> Z -> Z;
  load_ram a n p : (load a n p).1 = read_bytes (ram p) a n;
  load_keeps a n p : ram (load a n p).2 = ram p;
  store_ram a bs p : ram (store a bs p) = write_bytes a bs (ram p);
  frames_set g p : frames (set_frames g p) = g;
}.

Section Calm.
Context {P : Type} `{Calm P}.

Lemma read_le_run n a p :
  exists q, read_le n a p = (Ok (le_of (read_bytes (ram p) a n)), q) /\ ram q = ram p.
Proof.
  unfold read_le, mbind, M_bind, read_mem. rewrite <- load_ram. pose proof (load_keeps a n p).
  destruct (load a n p) as [bs q]. by exists q.
Qed.

Lemma write_le_run n a v p :
  exists q, write_le n a v p = (Ok tt, q) /\ ram q = write_bytes a (le_bytes n v) (ram p).
Proof. eexists. split; [done|]. apply store_ram. Qed.

Lemma allocate_frame_run p a :
  frames p = Some a ->
  exists q, allocate_frame p =
    (match usable_frame frame_start a (next a) with Some f => Ok f | None => Panic end, q) /\
    frames q = Some (mk_Alloc (memory_regions a) (u64 (next a + 1))).
Proof.
  intros E. unfold allocate_frame. rewrite E. cbn [allocate_global PhysMem.allocate_frame].
  eexists. split; [done|]. apply frames_set.
Qed.
End Calm.

(** ** What bounds a wait *)

(** The timer's count, and how many more interrupts may wake the processor before
    it moves. *)
Class Clock (P : Type) := { now : P -> Z; slack : P -> nat; BURST : nat }.

Definition passes {P} `{Clock P} (p q : P) : Prop :=
  now p < now q \/ (now q = now p /\ (slack q <= slack p)%nat).

Class Timer (P : Type) `{Machine P} `{Clock P} := {
  slack_le p : (slack p <= BURST)%nat;
  ticks_now p : (ticks p).1 = now (ticks p).2;
  halt_wakes p : now p < now (halt p) \/ (now (halt p) = now p /\ (slack (halt p) < slack p)%nat);
  ticks_passes p : passes p (ticks p).2;
  load_passes a n p : passes p (load a n p).2;
  store_passes a bs p : passes p (store a bs p);
  frames_passes g p : passes p (set_frames g p);
  inb_passes a p : passes p (inb a p).2;
  inw_passes a p : passes p (inw a p).2;
  inl_passes a p : passes p (inl a p).2;
  outb_passes a v p : passes p (outb a v p);
  outw_passes a v p : passes p (outw a v p);
  outl_passes a v p : passes p (outl a v p);
}.

(** A computation that neither runs out of fuel nor takes the count back. *)
Definition ends {P} `{Clock P} {A} (m : M P A) : Prop :=
  forall p, (m p).1 <> Hang /\ passes p (m p).2.

Create HintDb ends.

Section Ends.
Context {P : Type} `{Timer P}.

Lemma passes_refl p : passes p p.
Proof. right. lia. Qed.

Lemma passes_trans p q r : passes p q -> passes q r -> passes p r.
Proof. unfold passes. lia. Qed.

Lemma passes_now p q : passes p q -> now p <= now q.
Proof. unfold passes. lia. Qed.

Lemma ends_ret {A} (a : A) : ends (mret a : M P A).
Proof. intros p. split; [done|apply passes_refl]. Qed.

Lemma ends_lift {A} (r : res A) : r <> Hang -> ends (lift r : M P A).
Proof. intros Hr p. split; [done|apply passes_refl]. Qed.

Lemma ends_bind {A B} (m : M P A) (k : A -> M P B) :
  ends m -> (forall a, ends (k a)) -> ends (m ≫= k).
Proof.
  intros Hm Hk p. specialize (Hm p) as [Hn Hp]. unfold mbind, M_bind.
  destruct (m p) as [[a| | |] q]; cbn in *; try done.
  specialize (Hk a q) as [Hn' Hp']. split; [done|by eapply passes_trans].
Qed.

Lemma ends_read_port (f : Z -> P -> Z * P) a :
  (forall p, passes p (f a p).2) -> ends (read_port f a).
Proof. intros Hf p. specialize (Hf p). unfold read_port. by destruct (f a p). Qed.

Lemma ends_write_port (f : Z -> Z -> P -> P) a v :
  (forall p, passes p (f a v p)) -> ends (write_port f a v).
Proof. intros Hf p. split; [done|apply Hf]. Qed.

Lemma ends_read_mem a n : ends (read_mem a n).
Proof. intros p. pose proof (load_passes a n p). unfold read_mem. by destruct (load a n p). Qed.

Lemma ends_write_mem a bs : ends (write_mem a bs).
Proof. intros p. split; [done|apply store_passes]. Qed.

Lemma ends_read_le n a : ends (read_le n a).
Proof. apply ends_bind; [apply ends_read_mem|intros; apply ends_ret]. Qed.

Lemma ends_write_le n a v : ends (write_le n a v).
Proof. apply ends_write_mem. Qed.

Lemma ends_allocate_frame : ends (A := Z) allocate_frame.
Proof.
  intros p. unfold allocate_frame, allocate_global.
  destruct (frames p) as [a|]; [|split; [done|apply frames_passes]].
  destruct (PhysMem.allocate_frame frame_start a) as [[f|] a']; (split; [done|apply frames_passes]).
Qed.

Lemma ends_timer_ticks : ends timer_ticks.
Proof. intros p. pose proof (ticks_passes p). unfold timer_ticks. by destruct (ticks p). Qed.

Lemma ends_hlt : ends hlt.
Proof. intros p. split; [done|]. cbn. pose proof (halt_wakes p). unfold passes. lia. Qed.

(** The turns left to an idle loop that started at [s]. *)
Definition turns_left (s : Z) (p : P) : nat :=
  if 90 <? now p - s then 0%nat else (Z.to_nat (91 - (now p - s)) * S BURST + slack p)%nat.

Lemma turns_left_passes s p q : passes p q -> (turns_left s q <= turns_left s p)%nat.
Proof.
  intros Hp. unfold turns_left. pose proof (slack_le q).
  destruct (Z.ltb_spec 90 (now q - s)); [lia|]. destruct Hp as [Hp|[Hp ?]].
  - rewrite (proj2 (Z.ltb_ge 90 (now p - s))) by lia.
    replace (Z.to_nat (91 - (now p - s)))
      with (Z.to_nat (91 - (now q - s)) + Z.to_nat (now q - now p))%nat by lia.
    nia.
  - rewrite Hp in *. rewrite (proj2 (Z.ltb_ge 90 (now p - s))) by lia. lia.
Qed.

Lemma turns_left_halt s p : now p - s <= 90 -> (turns_left s (halt p) < turns_left s p)%nat.
Proof.
  intros Hs. unfold turns_left. rewrite (proj2 (Z.ltb_ge 90 (now p - s))) by lia.
  pose proof (slack_le (halt p)). destruct (Z.ltb_spec 90 (now (halt p) - s)); [nia|].
  destruct (halt_wakes p) as [Hp|[Hp ?]]; [|rewrite Hp; nia].
  replace (Z.to_nat (91 - (now p - s)))
    with (Z.to_nat (91 - (now (halt p) - s)) + Z.to_nat (now (halt p) - now p))%nat by lia.
  nia.
Qed.

(** Enough fuel for a wait whose body goes on at once at most [n] times. *)
Definition wait_fuel (n : nat) : nat := (n + 92 * S BURST + 1)%nat.

Lemma turns_left_bound s p : s <= now p -> (turns_left s p < 92 * S BURST)%nat.
Proof. intros Hs. unfold turns_left. pose proof (slack_le p). destruct (Z.ltb_spec 90 (now p - s)); nia. Qed.

Section Loop.
Context {B R : Type} (body : B -> M P (turn B R)) (rank : B -> nat).
Context (Hbody : forall b, ends (body b)).
Context (Hrank : forall b p, match (body b p).1 with
  | Ok (Next b') => (rank b' < rank b)%nat
  | Ok (Idle b') => (rank b' <= rank b)%nat
  | _ => True
  end).

Lemma until_ticks_ends fuel s b p :
  (rank b + turns_left s p < fuel)%nat ->
  (until_ticks fuel s body b p).1 <> Hang /\ passes p (until_ticks fuel s body b p).2.
Proof.
  revert b p. induction fuel as [|f IH]; intros b p Hf; [lia|]. cbn [until_ticks].
  specialize (Hbody b p) as [Hn Hp]. specialize (Hrank b p). rewrite bind_run.
  destruct (body b p) as [[[r|b'|b']| | |] q]; cbn in Hn, Hp, Hrank; try done.
  - pose proof (turns_left_passes s _ _ Hp).
    destruct (IH b' q ltac:(lia)) as [Hr1 Hr2]. split; [done|by eapply passes_trans].
  - pose proof (ends_timer_ticks q) as [_ Ht]. pose proof (ticks_now q) as Hnow.
    rewrite bind_run. unfold timer_ticks in *. destruct (ticks q) as [t q1]. cbn in Hnow, Ht. subst t.
    pose proof (passes_trans _ _ _ Hp Ht) as Hpq1.
    destruct (Z.ltb_spec 90 (now q1 - s)); [split; [apply (ends_ret (TimedOut b') q1)|done]|].
    pose proof (turns_left_halt s q1 ltac:(lia)). pose proof (turns_left_passes s _ _ Hpq1).
    pose proof (ends_hlt q1) as [_ Hh]. unfold hlt in *. cbn in Hh.
    destruct (IH b' (halt q1) ltac:(lia)) as [Hr1 Hr2].
    split; [done|]. by eapply passes_trans, passes_trans.
Qed.

(** [let start_tick = timer_ticks(); loop { .. }] *)
Lemma wait_ends fuel b {A} (k : waited B R -> M P A) :
  (wait_fuel (rank b) <= fuel)%nat -> (forall o, ends (k o)) ->
  ends (start ← timer_ticks; o ← until_ticks fuel start body b; k o).
Proof.
  intros Hf Hk p. pose proof (ends_timer_ticks p) as [_ Ht]. pose proof (ticks_now p) as Hnow.
  rewrite bind_run. unfold timer_ticks in *. destruct (ticks p) as [t q].
  cbn in Ht, Hnow. subst t. pose proof (turns_left_bound (now q) q (Z.le_refl _)).
  unfold wait_fuel in Hf. destruct (until_ticks_ends fuel (now q) b q ltac:(lia)) as [Hr1 Hr2].
  rewrite bind_run. destruct (until_ticks fuel (now q) body b q) as [[o| | |] q']; cbn in *; try done;
    try (split; [done|by eapply passes_trans]).
  specialize (Hk o q') as [Hr3 Hr4]. split; [done|]. by eapply passes_trans, passes_trans.
Qed.
End Loop.

Lemma ends_read_each n i (read : Z -> M P Z) : (forall j, ends (read j)) -> ends (read_each n i read).
Proof.
  intros Hr. revert i. induction n as [|n IH]; intros i; cbn; [apply ends_ret|].
  apply ends_bind; [done|]. intros. apply ends_bind; [done|]. intros. apply ends_ret.
Qed.

Lemma ends_poll {A} n (step : M P (option A)) : ends step -> ends (poll n step).
Proof.
  intros Hs. induction n as [n IH|n IH|]; cbn [poll]; [|by apply ends_bind; [|intros [a|]; [apply ends_ret|]]|done].
  apply ends_bind; [done|]. intros [a|]; [apply ends_ret|]. apply ends_bind; [done|].
  intros [a|]; [apply ends_ret|done].
Qed.

Lemma ends_scan_slots slots : ends (Pci.scan_slots slots).
Proof.
  induction slots as [|[d f] slots IH]; cbn [Pci.scan_slots]; [apply ends_ret|].
  apply ends_bind.
  - unfold Pci.probe, Pci.read_config_dword. apply ends_bind.
    + apply ends_bind; [apply ends_write_port; intros; apply outl_passes|].
      intros. apply ends_read_port. intros. apply inl_passes.
    + intros w. destruct (_ =? _); [apply ends_ret|]. apply ends_bind; [|intros; apply ends_ret].
      apply ends_bind; [apply ends_write_port; intros; apply outl_passes|].
      intros. apply ends_read_port. intros. apply inl_passes.
  - intros o. apply ends_bind; [done|]. intros. apply ends_ret.
Qed.

Lemma ends_find_device v d : ends (find_device v d).
Proof. apply ends_bind; [apply ends_scan_slots|]. intros. apply ends_ret. Qed.

Lemma ends_read_bar0 x : ends (Pci.read_bar0 x).
Proof.
  unfold Pci.read_bar0, Pci.read_config_dword.
  apply ends_bind; [apply ends_write_port; intros; apply outl_passes|].
  intros. apply ends_read_port. intros. apply inl_passes.
Qed.

Lemma ends_enable_bus_mastering x : ends (Pci.enable_bus_mastering x).
Proof.
  unfold Pci.enable_bus_mastering, Pci.read_config_word, Pci.write_config_word. apply ends_bind.
  - apply ends_bind; [apply ends_write_port; intros; apply outl_passes|].
    intros. apply ends_read_port. intros. apply inw_passes.
  - intros. apply ends_bind; [apply ends_write_port; intros; apply outl_passes|].
    intros. apply ends_write_port. intros. apply outw_passes.
Qed.
End Ends.

Lemma ok_or_not_hang {A} e (o : option A) : ok_or e o <> Hang.
Proof. by destruct o. Qed.

Lemma settles_not_hang {A} (r : res A) : settles r -> r <> Hang.
Proof. by destruct r. Qed.

Lemma idx_not_hang {A} (l : list A) i : idx l i <> Hang.
Proof. unfold idx. by destruct (l !! i). Qed.

Lemma slice_not_hang {A} (l : list A) a b : slice l a b <> Hang.
Proof. unfold slice. by repeat case_match. Qed.

Lemma res_bind_not_hang {A B} (m : res A) (k : A -> res B) :
  m <> Hang -> (forall a, k a <> Hang) -> (m ≫= k) <> Hang.
Proof. destruct m; cbn; naive_solver. Qed.

Lemma and_then_not_hang a b : a <> Hang -> b <> Hang -> and_then a b <> Hang.
Proof. intros. unfold and_then. apply res_bind_not_hang; [done|]. by intros []. Qed.

(** Proves [r <> Hang] for a check of received bytes, and [ends m] for a driver's
    computation, up to its loops. *)
Ltac not_hang :=
  repeat first
    [ done | apply ok_or_not_hang | apply idx_not_hang | apply slice_not_hang
    | apply and_then_not_hang | apply res_bind_not_hang; [|intros ?]
    | match goal with |- context [match ?x with _ => _ end] => destruct x end ].

Ltac ends :=
  repeat first
    [ apply ends_ret
    | apply ends_read_le | apply ends_write_le | apply ends_read_mem | apply ends_write_mem
    | apply ends_allocate_frame | apply ends_timer_ticks | apply ends_hlt
    | apply ends_find_device | apply ends_read_bar0 | apply ends_enable_bus_mastering
    | apply ends_read_port; intros ?; first [apply inb_passes|apply inw_passes|apply inl_passes]
    | apply ends_write_port; intros ?; first [apply outb_passes|apply outw_passes|apply outl_passes]
    | apply ends_read_each; intros ? | apply ends_poll
    | apply ends_lift; by not_hang
    | solve [eauto with ends]
    | apply ends_bind; [|intros ?]
    | match goal with |- ends (match ?x with _ => _ end) => destruct x end ].
