(* ===== verification/Board.v ===== *)
(** * Board: a machine with RAM, the frame allocator, the timer and one device

    What [Machine] asks for, made of a documented device: ports and mapped registers
    go to the device, which sees the time and may change RAM when a register is
    written and at every tick; everything else is RAM.  [hlt] waits for the next tick. *)
From stdpp Require Import base list numbers strings.
From Stdlib Require Import Lia.
From S2P Require Import Prelude Mem PortIO PhysMem Nic.
Open Scope Z_scope.

Definition Ram : Type := Z -> Z.

Class Device (D : Type) := {
  phys_offset : Z;
  device_ports :: Ports D;
  decodes : D -> Z -> bool;
  reg_load : D -> Z -> nat -> list Z;
  reg_store : Z -> list Z -> Z -> Ram * D -> Ram * D;
  on_tick : Z -> Ram * D -> Ram * D;
}.

Record Board (D : Type) := mk_Board {
  b_ram : Ram; b_frames : FRAME_ALLOCATOR; b_time : Z; b_dev : D;
}.
Arguments mk_Board {D}.
Arguments b_ram {D}.
Arguments b_frames {D}.
Arguments b_time {D}.
Arguments b_dev {D}.

Section Board.
Context {D : Type} `{Device D}.

Definition with_dev (d : D) (s : Board D) : Board D := mk_Board (b_ram s) (b_frames s) (b_time s) d.

(** RAM and the device after [rd], at [time]. *)
Definition with_both (time : Z) (rd : Ram * D) (s : Board D) : Board D :=
  mk_Board rd.1 (b_frames s) time rd.2.

Definition port_read (f : Z -> D -> Z * D) (a : Z) (s : Board D) : Z * Board D :=
  let '(v, d) := f a (b_dev s) in (v, with_dev d s).

#[export] Instance board_ports : Ports (Board D) := {
  inb a s := port_read inb a s;
  outb a v s := with_dev (outb a v (b_dev s)) s;
  inw a s := port_read inw a s;
  outw a v s := with_dev (outw a v (b_dev s)) s;
  inl a s := port_read inl a s;
  outl a v s := with_dev (outl a v (b_dev s)) s;
}.

#[export] Instance board_machine : Machine (Board D) := {
  load a n s := (if decodes (b_dev s) a then reg_load (b_dev s) a n else read_bytes (b_ram s) a n, s);
  store a bs s :=
    if decodes (b_dev s) a
    then with_both (b_time s) (reg_store a bs (b_time s) (b_ram s, b_dev s)) s
    else with_both (b_time s) (write_bytes a bs (b_ram s), b_dev s) s;
  frames s := b_frames s;
  set_frames g s := mk_Board (b_ram s) g (b_time s) (b_dev s);
  ticks s := (b_time s, s);
  halt s := with_both (b_time s + 1) (on_tick (b_time s + 1) (b_ram s, b_dev s)) s;
  PHYS_MEM_OFFSET := phys_offset;
  frame_start a := a / 4096 * 4096;
}.

#[export] Instance board_clock : Clock (Board D) := { now := b_time; slack _ := 0%nat; BURST := 0 }.

Lemma passes_still (s t : Board D) : b_time t = b_time s -> passes s t.
Proof. intros E. right. cbn. lia. Qed.

#[export] Instance board_timer : Timer (Board D).
Proof.
  split; intros; try (apply passes_still; cbn; unfold port_read; by repeat case_match); try done.
  left. cbn. lia.
Qed.

Lemma b_time_iter k (s : Board D) : b_time (Nat.iter k halt s) = b_time s + Z.of_nat k.
Proof. induction k as [|k IHk]; [cbn; lia|]. rewrite Nat.iter_succ.
  change (b_time (halt ?x)) with (b_time x + 1). rewrite IHk. lia. Qed.

(** ** Runs of the waiting loop *)

Section Loop.
Context {B R : Type} (body : B -> M (Board D) (turn B R)) (start : Z).

Lemma until_done f b s r s' :
  body b s = (Ok (Done r), s') -> until_ticks (S f) start body b s = (Ok (Ended r), s').
Proof. intros E. cbn [until_ticks]. by rewrite bind_run, E. Qed.

Lemma until_idle f b b' s s' :
  body b s = (Ok (Idle b'), s') -> b_time s' - start <= 90 ->
  until_ticks (S f) start body b s = until_ticks f start body b' (halt s').
Proof.
  intros E Ht. cbn [until_ticks]. rewrite bind_run, E. unfold timer_ticks. rewrite bind_run. cbn [ticks board_machine].
  by rewrite (proj2 (Z.ltb_ge _ _)) by lia.
Qed.

Lemma until_timeout f b b' s s' :
  body b s = (Ok (Idle b'), s') -> 90 < b_time s' - start ->
  until_ticks (S f) start body b s = (Ok (TimedOut b'), s').
Proof.
  intros E Ht. cbn [until_ticks]. rewrite bind_run, E. unfold timer_ticks. rewrite bind_run. cbn [ticks board_machine].
  by rewrite (proj2 (Z.ltb_lt _ _)) by lia.
Qed.

(** [n] turns that see nothing. *)
Lemma until_idles n f b s :
  (forall k, (k < n)%nat -> body b (Nat.iter k halt s) = (Ok (Idle b), Nat.iter k halt s)) ->
  b_time s - start + Z.of_nat n <= 91 ->
  until_ticks (n + f) start body b s = until_ticks f start body b (Nat.iter n halt s).
Proof.
  revert s. induction n as [|n IH]; intros s Hb Ht; [done|]. cbn [Nat.add].
  rewrite (until_idle _ _ b _ s); [|apply (Hb 0%nat); lia|lia].
  rewrite IH.
  - by rewrite Nat.iter_succ_r.
  - intros k Hk. rewrite <- Nat.iter_succ_r. apply Hb. lia.
  - cbn. lia.
Qed.

(** A wait that never sees anything runs out after the turn at 91 ticks. *)
Lemma until_silent f b s :
  0 <= b_time s - start <= 91 ->
  (forall k, body b (Nat.iter k halt s) = (Ok (Idle b), Nat.iter k halt s)) ->
  (Z.to_nat (91 - (b_time s - start)) < f)%nat ->
  until_ticks f start body b s = (Ok (TimedOut b), Nat.iter (Z.to_nat (91 - (b_time s - start))) halt s).
Proof.
  intros Ht Hb Hf. set (n := Z.to_nat (91 - (b_time s - start))) in *.
  replace f with (n + (f - n))%nat by lia. rewrite until_idles; [|intros; apply Hb|lia].
  replace (f - n)%nat with (S (f - n - 1)) by lia. apply (until_timeout _ _ _ _ _ (Hb n)).
  rewrite b_time_iter. lia.
Qed.
End Loop.
End Board.

(** ** A board without a device *)

Definition NoDevice : Type := unit.

#[export] Instance no_device : Device NoDevice := {
  phys_offset := 0x18000000000;
  device_ports := {| inb _ d := (0, d); outb _ _ d := d; inw _ d := (0, d); outw _ _ d := d;
                     inl _ d := (0, d); outl _ _ d := d |};
  decodes _ _ := false;
  reg_load _ _ n := replicate n 0;
  reg_store _ _ _ rd := rd;
  on_tick _ rd := rd;
}.

#[export] Instance bare_calm : Calm (Board NoDevice).
Proof. by refine {| ram := b_ram |}. Defined.

Definition bare_board (regions : list MemoryRegion) : Board NoDevice :=
  mk_Board (fun _ => 0) (Some (PhysMem.init regions)) 0 tt.
