(* ===== verification/Virtio.v ===== *)
(** * Virtio: the legacy virtio-net driver ([net/virtio.rs])

    Ports reach the device's registers, memory its queues: each queue is a table of
    descriptors, a ring the driver publishes in ([avail]) and a ring the device
    answers in ([used]), at the offsets of [vring_offsets] from the queue's frames.
    What the functions print is the value they return. *)
From stdpp Require Import base list numbers strings.
From Stdlib Require Import Lia.
From S2P Require Import Prelude Mem PortIO PhysMem Nic Board.
From S2P Require Pci.
Open Scope Z_scope.

Definition VIRTIO_VENDOR_ID : Z := 0x1af4.
Definition VIRTIO_NET_DEVICE_ID : Z := 0x1000.

Definition VIRTIO_PCI_HOST_FEATURES : Z := 0.
Definition VIRTIO_PCI_GUEST_FEATURES : Z := 4.
Definition VIRTIO_PCI_QUEUE_PFN : Z := 8.
Definition VIRTIO_PCI_QUEUE_NUM : Z := 12.
Definition VIRTIO_PCI_QUEUE_SEL : Z := 14.
Definition VIRTIO_PCI_QUEUE_NOTIFY : Z := 16.
Definition VIRTIO_PCI_STATUS : Z := 18.
Definition VIRTIO_PCI_ISR : Z := 19.
Definition VIRTIO_PCI_CONFIG_OFF_NO_MSIX : Z := 20.

Definition VIRTIO_NET_F_MAC : Z := Z.shiftl 1 5.

Definition VIRTIO_STATUS_ACKNOWLEDGE : Z := 1.
Definition VIRTIO_STATUS_DRIVER : Z := 2.
Definition VIRTIO_STATUS_DRIVER_OK : Z := 4.

Definition RX_QUEUE_INDEX : Z := 0.
Definition TX_QUEUE_INDEX : Z := 1.
Definition VRING_ALIGN : Z := 4096.
Definition FRAME_SIZE : Z := 4096.
Definition VIRTIO_NET_HDR_LEN : nat := 10.
Definition VRING_DESC_F_WRITE : Z := 2.

(** ** The layout of a queue *)

Definition vring_size (num align : Z) : Z :=
  let desc_and_avail := u64 (16 * num + 2 * (num + 3)) in
  let aligned := u64 (div_ceilZ desc_and_avail align * align) in
  u64 (aligned + 2 * 3 + 8 * num).

(** [desc_offset], [avail_offset], [used_offset] *)
Definition vring_offsets (queue_num align : Z) : Z * Z * Z :=
  let desc_offset := 0 in
  let avail_offset := u64 (16 * queue_num) in
  let avail_end := u64 (avail_offset + 2 * (queue_num + 3)) in
  let used_offset := u64 (div_ceilZ avail_end align * align) in
  (desc_offset, avail_offset, used_offset).

Section Driver.
Context {P : Type} `{Machine P}.

(** ** The device's registers *)

Definition find_virtio_net : M P (option Pci.PciDevice) :=
  find_device VIRTIO_VENDOR_ID VIRTIO_NET_DEVICE_ID.

Definition find_io_base : M P (Pci.PciDevice * Z) :=
  found ← find_virtio_net;
  dev ← lift (ok_or "no virtio-net device found on bus 0" found);
  bar0 ← Pci.read_bar0 dev;
  if Z.land bar0 0x1 =? 0 then lift (Err "virtio-net BAR0 is memory-space - not supported yet")
  else mret (dev, u16 (Z.land bar0 0xFFFFFFFC)).

Definition read_port_u32 (base offset : Z) : M P Z := read_port inl (u16 (base + offset)).
Definition read_port_u16 (base offset : Z) : M P Z := read_port inw (u16 (base + offset)).
Definition write_port_u16 (base offset value : Z) : M P unit := write_port outw (u16 (base + offset)) value.
Definition write_port_u32 (base offset value : Z) : M P unit := write_port outl (u16 (base + offset)) value.
Definition read_port_u8 (base offset : Z) : M P Z := read_port inb (u16 (base + offset)).
Definition write_port_u8 (base offset value : Z) : M P unit := write_port outb (u16 (base + offset)) value.

Definition read_mac_at (io_base config_offset : Z) : M P (list Z) :=
  read_each 6 0 (fun i => read_port_u8 io_base (u16 (config_offset + i))).

(** What [probe] prints of a device it can talk to. *)
Record VirtioReport := mk_VirtioReport {
  v_dev : Pci.PciDevice;
  v_bar0 : Z;
  v_io_base : Z;
  features : Z;
  v_status : Z;
  isr : Z;
  mac_feature_present : bool;
  v_mac : list Z;
}.

Definition probe : M P VirtioReport :=
  '(dev, io_base) ← find_io_base;
  bar0 ← Pci.read_bar0 dev;
  features ← read_port_u32 io_base VIRTIO_PCI_HOST_FEATURES;
  status ← read_port_u8 io_base VIRTIO_PCI_STATUS;
  isr ← read_port_u8 io_base VIRTIO_PCI_ISR;
  let mac_feature_present := negb (Z.land features VIRTIO_NET_F_MAC =? 0) in
  mac ← read_mac_at io_base VIRTIO_PCI_CONFIG_OFF_NO_MSIX;
  mret (mk_VirtioReport dev bar0 io_base features status isr mac_feature_present mac).

(** ** Queues *)

(** [for _ in 1..count], [n] turns of it. *)
Fixpoint allocate_following (n : nat) (expected_next : Z) : M P unit :=
  match n with
  | O => mret tt
  | S m =>
      next ← allocate_frame;
      if negb (next =? expected_next)
      then lift (Err "virtio: frame allocator did not return contiguous frames")
      else allocate_following m (expected_next + FRAME_SIZE)
  end.

Definition allocate_contiguous_frames (count : Z) : M P Z :=
  first_addr ← allocate_frame;
  allocate_following (Z.to_nat (count - 1)) (first_addr + FRAME_SIZE);;
  mret first_addr.

Record TxQueueInfo := mk_TxQueueInfo {
  tx_queue_num : Z;
  tx_frames_needed : Z;
  tx_pfn : Z;
  tx_pfn_readback : Z;
  final_status : Z;
  tx_io_base : Z;
  tx_virt_base : Z;
}.

(** Select a queue, read its size, give it zeroed frames: [queue_num],
    [frames_needed], the queue's address, [pfn], [pfn_readback]. *)
Definition attach_queue (io_base index : Z) (unavailable : string) : M P (Z * Z * Z * Z * Z) :=
  write_port_u16 io_base VIRTIO_PCI_QUEUE_SEL index;;
  queue_num ← read_port_u16 io_base VIRTIO_PCI_QUEUE_NUM;
  if queue_num =? 0 then lift (Err unavailable)
  else
    let size := vring_size queue_num VRING_ALIGN in
    let frames_needed := div_ceilZ size FRAME_SIZE in
    phys_base ← allocate_contiguous_frames frames_needed;
    fill (virt phys_base) 0 (Z.to_nat (frames_needed * FRAME_SIZE));;
    let pfn := u32 (phys_base / FRAME_SIZE) in
    write_port_u32 io_base VIRTIO_PCI_QUEUE_PFN pfn;;
    pfn_readback ← read_port_u32 io_base VIRTIO_PCI_QUEUE_PFN;
    mret (queue_num, frames_needed, virt phys_base, pfn, pfn_readback).

Definition init_tx_queue : M P TxQueueInfo :=
  '(dev, io_base) ← find_io_base;
  Pci.enable_bus_mastering dev;;
  write_port_u8 io_base VIRTIO_PCI_STATUS VIRTIO_STATUS_ACKNOWLEDGE;;
  write_port_u8 io_base VIRTIO_PCI_STATUS (Z.lor VIRTIO_STATUS_ACKNOWLEDGE VIRTIO_STATUS_DRIVER);;
  write_port_u32 io_base VIRTIO_PCI_GUEST_FEATURES 0;;
  '(queue_num, frames_needed, virt_base, pfn, pfn_readback) ←
    attach_queue io_base TX_QUEUE_INDEX "virtio: TX queue_num read back as 0 - queue not available";
  write_port_u8 io_base VIRTIO_PCI_STATUS
    (Z.lor (Z.lor VIRTIO_STATUS_ACKNOWLEDGE VIRTIO_STATUS_DRIVER) VIRTIO_STATUS_DRIVER_OK);;
  final_status ← read_port_u8 io_base VIRTIO_PCI_STATUS;
  mret (mk_TxQueueInfo queue_num frames_needed pfn pfn_readback final_status io_base virt_base).

(** [vring_desc { addr: u64, len: u32, flags: u16, next: u16 }] *)
Definition write_desc (desc_ptr addr len flags : Z) : M P unit :=
  write_le 8 desc_ptr addr;;
  write_le 4 (desc_ptr + 8) len;;
  write_le 2 (desc_ptr + 12) flags;;
  write_le 2 (desc_ptr + 14) 0.

(** [vring_avail { flags: u16, idx: u16, ring: [u16; num] }]: the entry, then the
    index. *)
Definition publish (avail_ptr queue_num d : Z) : M P unit :=
  avail_idx ← read_le 2 (avail_ptr + 2);
  if queue_num =? 0 then lift Panic
  else
    let ring_slot := avail_idx mod queue_num in
    write_le 2 (avail_ptr + 2 * (2 + ring_slot)) d;;
    write_le 2 (avail_ptr + 2) (u16 (avail_idx + 1)).

(** [for _ in 0..1_000_000u32 { after = *used_idx_ptr; if after != before { break; } }] *)
Definition poll_used (used_idx_ptr before : Z) : M P Z :=
  o ← poll 1000000 (after ← read_le 2 used_idx_ptr;
                    mret (if negb (after =? before) then Some after else None));
  mret (default before o).

Record TxSendInfo := mk_TxSendInfo {
  used_idx_before : Z;
  used_idx_after : Z;
  used_elem_id : Z;
  used_elem_len : Z;
}.

(** ["agentos virtio tx test"] *)
Definition test_payload : list Z :=
  [97; 103; 101; 110; 116; 111; 115; 32; 118; 105; 114; 116; 105; 111; 32; 116; 120; 32; 116; 101; 115; 116].

Definition test_frame (mac : list Z) : list Z :=
  replicate 6 0xFF ++ mac ++ be_bytes 2 0x88B5 ++ test_payload.

(** A fresh buffer with a zero [virtio_net_hdr] and the frame after it. *)
Definition fill_buffer (frame : list Z) : M P Z :=
  buf_phys ← allocate_frame;
  fill (virt buf_phys) 0 VIRTIO_NET_HDR_LEN;;
  write_mem (virt buf_phys + Z.of_nat VIRTIO_NET_HDR_LEN) frame;;
  mret buf_phys.

Definition send_test_frame (info : TxQueueInfo) : M P TxSendInfo :=
  '(_, io_base) ← find_io_base;
  mac ← read_mac_at io_base VIRTIO_PCI_CONFIG_OFF_NO_MSIX;
  let frame_len := (14 + length test_payload)%nat in
  let buf_len := (VIRTIO_NET_HDR_LEN + frame_len)%nat in
  buf_phys ← fill_buffer (test_frame mac);
  let queue_num := tx_queue_num info in
  let '(desc_off, avail_off, used_off) := vring_offsets queue_num VRING_ALIGN in
  let desc_ptr := tx_virt_base info + desc_off in
  let avail_ptr := tx_virt_base info + avail_off in
  let used_ptr := tx_virt_base info + used_off in
  write_desc desc_ptr buf_phys (Z.of_nat buf_len) 0;;
  publish avail_ptr queue_num 0;;
  used_idx_before ← read_le 2 (used_ptr + 2);
  write_port_u16 io_base VIRTIO_PCI_QUEUE_NOTIFY TX_QUEUE_INDEX;;
  used_idx_after ← poll_used (used_ptr + 2) used_idx_before;
  used_elem_id ← read_le 4 (used_ptr + 4);
  used_elem_len ← read_le 4 (used_ptr + 8);
  mret (mk_TxSendInfo used_idx_before used_idx_after used_elem_id used_elem_len).

Record RxQueueInfo := mk_RxQueueInfo {
  rx_queue_num : Z;
  rx_frames_needed : Z;
  rx_pfn : Z;
  rx_pfn_readback : Z;
  rx_io_base : Z;
  rx_virt_base : Z;
  buf_phys : Z;
  buf_virt : Z;
  buf_len : nat;
  desc_flags_readback : Z;
  avail_idx_after : Z;
}.

Definition init_rx_queue (tx_info : TxQueueInfo) : M P RxQueueInfo :=
  let io_base := tx_io_base tx_info in
  '(queue_num, frames_needed, virt_base, pfn, pfn_readback) ←
    attach_queue io_base RX_QUEUE_INDEX "virtio: RX queue_num read back as 0 - queue not available";
  let buf_len := 2048%nat in
  buf_phys ← allocate_frame;
  fill (virt buf_phys) 0 buf_len;;
  let '(desc_off, avail_off, _) := vring_offsets queue_num VRING_ALIGN in
  let desc_ptr := virt_base + desc_off in
  let avail_ptr := virt_base + avail_off in
  write_desc desc_ptr buf_phys (Z.of_nat buf_len) VRING_DESC_F_WRITE;;
  desc_flags_readback ← read_le 2 (desc_ptr + 12);
  publish avail_ptr queue_num 0;;
  avail_idx_after ← read_le 2 (avail_ptr + 2);
  write_port_u16 io_base VIRTIO_PCI_QUEUE_NOTIFY RX_QUEUE_INDEX;;
  mret (mk_RxQueueInfo queue_num frames_needed pfn pfn_readback io_base virt_base buf_phys
    (virt buf_phys) buf_len desc_flags_readback avail_idx_after).

Record RxRecvInfo := mk_RxRecvInfo {
  r_used_idx_before : Z;
  r_used_idx_after : Z;
  received_len : Z;
  r_is_arp_reply : bool;
  r_gateway_ip : option (list Z);
}.

(** The buffer zeroed and its descriptor published again. *)
Definition rearm_rx (tx_info : TxQueueInfo) (rx_info : RxQueueInfo) : M P unit :=
  let '(_, rx_avail_off, _) := vring_offsets (rx_queue_num rx_info) VRING_ALIGN in
  fill (buf_virt rx_info) 0 (buf_len rx_info);;
  publish (rx_virt_base rx_info + rx_avail_off) (rx_queue_num rx_info) 0;;
  write_port_u16 (tx_io_base tx_info) VIRTIO_PCI_QUEUE_NOTIFY RX_QUEUE_INDEX.

(** The ARP request through descriptor 1 of the TX queue, up to its completion. *)
Definition send_arp_request (tx_info : TxQueueInfo) (mac : list Z) : M P unit :=
  let frame_len := 42%nat in
  let buf_len := (VIRTIO_NET_HDR_LEN + frame_len)%nat in
  buf_phys ← fill_buffer (arp_request mac [10; 0; 2; 2]);
  let queue_num := tx_queue_num tx_info in
  let '(desc_off, avail_off, used_off) := vring_offsets queue_num VRING_ALIGN in
  let desc_ptr := tx_virt_base tx_info + desc_off in
  let avail_ptr := tx_virt_base tx_info + avail_off in
  let used_ptr := tx_virt_base tx_info + used_off in
  let ARP_DESC_INDEX := 1 in
  write_desc (desc_ptr + 16 * ARP_DESC_INDEX) buf_phys (Z.of_nat buf_len) 0;;
  publish avail_ptr queue_num ARP_DESC_INDEX;;
  before ← read_le 2 (used_ptr + 2);
  write_port_u16 (tx_io_base tx_info) VIRTIO_PCI_QUEUE_NOTIFY TX_QUEUE_INDEX;;
  after ← poll_used (used_ptr + 2) before;
  let tx_ok := negb (after =? before) in
  if negb tx_ok then lift (Err "virtio: RX test's own ARP request TX never completed") else mret tt.

(** The received frame, behind its header. *)
Definition read_reply (rx_info : RxQueueInfo) (before after : Z) : M P RxRecvInfo :=
  let '(_, _, rx_used_off) := vring_offsets (rx_queue_num rx_info) VRING_ALIGN in
  let rx_used_ptr := rx_virt_base rx_info + rx_used_off in
  received_len ← read_le 4 (rx_used_ptr + 8);
  let eth_len := (Z.to_nat received_len - VIRTIO_NET_HDR_LEN)%nat in
  eth_data ← read_mem (buf_virt rx_info + Z.of_nat VIRTIO_NET_HDR_LEN) eth_len;
  is_reply ← lift (is_arp_reply eth_data);
  gw ← lift (gateway_ip eth_data);
  mret (mk_RxRecvInfo before after received_len is_reply gw).

(** What the timeout reads to print. *)
Definition rx_diagnostics (tx_info : TxQueueInfo) (rx_info : RxQueueInfo) : M P unit :=
  read_port_u8 (tx_io_base tx_info) VIRTIO_PCI_ISR;;
  let '(rx_desc_off, rx_avail_off, _) := vring_offsets (rx_queue_num rx_info) VRING_ALIGN in
  read_le 2 (rx_virt_base rx_info + rx_avail_off + 2);;
  read_mem (rx_virt_base rx_info + rx_desc_off) 16;;
  read_mem (buf_virt rx_info) 16;;
  mret tt.

Definition receive_test_frame (fuel : nat) (tx_info : TxQueueInfo) (rx_info : RxQueueInfo)
    : M P RxRecvInfo :=
  mac ← read_mac_at (tx_io_base tx_info) VIRTIO_PCI_CONFIG_OFF_NO_MSIX;
  rearm_rx tx_info rx_info;;
  let '(_, _, rx_used_off) := vring_offsets (rx_queue_num rx_info) VRING_ALIGN in
  let rx_used_idx_ptr := rx_virt_base rx_info + rx_used_off + 2 in
  used_idx_before ← read_le 2 rx_used_idx_ptr;
  send_arp_request tx_info mac;;
  start_tick ← timer_ticks;
  w ← until_ticks fuel start_tick
        (fun _ => current ← read_le 2 rx_used_idx_ptr;
                  mret (if negb (current =? used_idx_before) then Done current else Idle current))
        used_idx_before;
  match w with
  | TimedOut _ =>
      rx_diagnostics tx_info rx_info;;
      lift (Err "virtio: RX timed out waiting for a received frame")
  | Ended used_idx_after => read_reply rx_info used_idx_before used_idx_after
  end.
End Driver.

(** ** The layout *)

Lemma div_ceil_align x a : 0 < a -> 0 <= x ->
  x <= div_ceilZ x a * a < x + a.
Proof. intros. unfold div_ceilZ. div_lia. Qed.

(** C24. For every queue size a 16-bit register can hold, the three parts of a queue
    lie one after another in the frames allocated for it, the used ring on a page of
    its own, and nothing wraps; [vring_size] is exactly the end of the used ring, and
    one frame fewer would not hold it. *)
Theorem vring_layout num :
  0 < num < 65536 ->
  let '(desc, avail, used) := vring_offsets num VRING_ALIGN in
  let size := vring_size num VRING_ALIGN in
  let frames := div_ceilZ size FRAME_SIZE in
  desc = 0 /\ avail = desc + 16 * num /\
  avail + 2 * (num + 3) <= used /\ used mod VRING_ALIGN = 0 /\
  used - VRING_ALIGN < avail + 2 * (num + 3) /\
  size = used + 2 * 3 + 8 * num /\
  (frames - 1) * FRAME_SIZE < size <= frames * FRAME_SIZE /\ frames <= 418.
Proof.
  intros Hn. unfold vring_offsets, vring_size, VRING_ALIGN, FRAME_SIZE.
  rewrite (wrap_id 64 (16 * num)) by (unfold in_u; lia).
  replace (16 * num + 2 * (num + 3)) with (18 * num + 6) by lia.
  rewrite (wrap_id 64 (18 * num + 6)) by (unfold in_u; lia).
  pose proof (div_ceil_align (18 * num + 6) 4096 ltac:(lia) ltac:(lia)) as Hu.
  rewrite (wrap_id 64 (div_ceilZ (18 * num + 6) 4096 * 4096)) by (unfold in_u; lia).
  set (used := div_ceilZ (18 * num + 6) 4096 * 4096) in *.
  rewrite (wrap_id 64 (used + 2 * 3 + 8 * num)) by (unfold in_u; lia).
  pose proof (div_ceil_align (used + 2 * 3 + 8 * num) 4096 ltac:(lia) ltac:(lia)) as Hf.
  repeat split; try lia. subst used. apply Z.mod_mul. lia.
Qed.

Lemma vring_layout_witness :
  let '(desc, avail, used) := vring_offsets 256 VRING_ALIGN in
  desc = 0 /\ avail = 4096 /\ used = 8192 /\ vring_size 256 VRING_ALIGN = 10246 /\
  avail + 2 * (256 + 3) <= used.
Proof.
  pose proof (vring_layout 256 ltac:(lia)) as H.
  change (vring_offsets 256 VRING_ALIGN) with (0, 4096, 8192) in *. cbn beta iota zeta in *.
  split; [reflexivity|]. split; [reflexivity|]. split; [reflexivity|]. split; [reflexivity|].
  exact (proj1 (proj2 (proj2 H))).
Defined.

(** ** The frames of a queue *)

Section Frames.
Context {P : Type} `{Calm P}.

Definition consecutive (base : Z) (n : nat) : list (option Z) :=
  map (fun i => Some (base + FRAME_SIZE * Z.of_nat i)) (seq 0 n).

Lemma consecutive_S base n : consecutive base (S n) = Some base :: consecutive (base + FRAME_SIZE) n.
Proof.
  unfold consecutive. cbn [seq map]. f_equal; [f_equal; lia|].
  rewrite <- seq_shift, map_map. apply map_ext. intros i. f_equal. lia.
Qed.

Lemma allocate_following_Ok n e p a :
  frames p = Some a ->
  (allocate_following n e p).1 = Ok tt <-> allocate_many frame_start n a = consecutive e n.
Proof.
  revert e p a. induction n as [|n IH]; intros e p a E; [done|].
  rewrite consecutive_S. cbn [allocate_following allocate_many PhysMem.allocate_frame].
  destruct (allocate_frame_run p a E) as (q & Eq & Eq'). rewrite bind_run, Eq.
  destruct (usable_frame frame_start a (next a)) as [f|]; [|split; intros H'; by inversion H'].
  destruct (Z.eqb_spec f e) as [->|Hne]; cbn [negb].
  - rewrite (IH _ _ _ Eq'). split; [by intros ->|]. by intros [= ->].
  - split; [done|]. intros [= ->]. done.
Qed.

(** [allocate_contiguous_frames] succeeds exactly when the allocator's next
    frames are consecutive, and then gives the first of them. *)
Theorem contiguous_frames_spec count p a base :
  frames p = Some a -> 1 <= count ->
  (allocate_contiguous_frames count p).1 = Ok base <->
  allocate_many frame_start (Z.to_nat count) a = consecutive base (Z.to_nat count).
Proof.
  intros E Hc. replace (Z.to_nat count) with (S (Z.to_nat (count - 1))) by lia.
  rewrite consecutive_S. cbn [allocate_many PhysMem.allocate_frame].
  unfold allocate_contiguous_frames. destruct (allocate_frame_run p a E) as (q & Eq & Eq').
  rewrite bind_run, Eq.
  destruct (usable_frame frame_start a (next a)) as [f|]; [|split; intros H'; by inversion H'].
  pose proof (allocate_following_Ok (Z.to_nat (count - 1)) (f + FRAME_SIZE) q _ Eq') as Hf.
  rewrite bind_run. destruct (allocate_following _ _ q) as [[[]| | |] q']; cbn [fst] in *.
  - split; [intros [= <-]|intros [= -> ?]; done]. f_equal. by apply Hf.
  - split; [done|]. intros [= -> H']. by apply Hf in H'.
  - split; [done|]. intros [= -> H']. by apply Hf in H'.
  - split; [done|]. intros [= -> H']. by apply Hf in H'.
Qed.
End Frames.

(** Two regions with a gap: five frames before it, then two. *)
Lemma contiguous_frames_spec_witness :
  let regions := [mk_Region 0x100000 0x105000 Usable; mk_Region 0x105000 0x107000 Other;
                  mk_Region 0x107000 0x109000 Usable] in
  let board := bare_board regions in
  (allocate_contiguous_frames 5 board).1 = Ok 0x100000 /\ (allocate_contiguous_frames 6 board).1 <> Ok 0x100000.
Proof.
  intros regions board. split.
  - apply (contiguous_frames_spec 5 board (PhysMem.init regions)); [reflexivity|lia|vm_compute; reflexivity].
  - intros E. apply (contiguous_frames_spec 6 board (PhysMem.init regions)) in E; [|reflexivity|lia].
    vm_compute in E. discriminate E.
Defined.

(** ** The available ring *)

Definition avail_idx (m : Z -> Z) (avail : Z) : Z := le_of (read_bytes m (avail + 2) 2).
Definition avail_entry (m : Z -> Z) (avail k : Z) : Z := le_of (read_bytes m (avail + 2 * (2 + k)) 2).

Lemma read_two_bytes_ok m a : bytes_ok (read_bytes m a 2) -> in_u 16 (le_of (read_bytes m a 2)).
Proof. intros Hb. apply le_of_bound in Hb. by rewrite length_read_bytes in Hb. Qed.

Lemma le16_put m a v b : (a = b \/ a + 2 <= b \/ b + 2 <= a) -> in_u 16 v ->
  le_of (read_bytes (write_bytes b (le_bytes 2 v) m) a 2) =
    if a =? b then v else le_of (read_bytes m a 2).
Proof.
  intros Hab Hv. destruct (Z.eqb_spec a b) as [->|Hne].
  - pose proof (read_write_bytes b (le_bytes 2 v) m) as E. rewrite length_le_bytes in E. rewrite E.
    by apply le_round.
  - f_equal. apply read_bytes_ext. intros x Hx. apply write_bytes_out. rewrite length_le_bytes. lia.
Qed.

Section Ring.
Context {P : Type} `{Calm P} (avail num : Z) (Hnum : 0 < num).

(** A descriptor goes to the slot the index names, the index moves on, and nothing
    else of memory changes. *)
Lemma publish_run d p :
  in_u 16 d -> 0 <= avail_idx (ram p) avail ->
  exists q, publish avail num d p = (Ok tt, q) /\
    avail_idx (ram q) avail = u16 (avail_idx (ram p) avail + 1) /\
    (forall k, 0 <= k -> avail_entry (ram q) avail k =
       if k =? avail_idx (ram p) avail mod num then d else avail_entry (ram p) avail k) /\
    (forall x, x < avail + 2 \/ avail + 4 + 2 * num <= x -> ram q x = ram p x).
Proof.
  intros Hd Hi. unfold publish. destruct (read_le_run 2 (avail + 2) p) as (p1 & E1 & R1).
  rewrite bind_run, E1. fold (avail_idx (ram p) avail). set (i := avail_idx (ram p) avail) in *.
  rewrite (proj2 (Z.eqb_neq num 0)) by lia.
  pose proof (Z.mod_pos_bound i num Hnum) as Hs. set (slot := i mod num) in *.
  destruct (write_le_run 2 (avail + 2 * (2 + slot)) d p1) as (p2 & E2 & R2).
  rewrite bind_run, E2.
  destruct (write_le_run 2 (avail + 2) (u16 (i + 1)) p2) as (q & E3 & R3).
  rewrite R1 in R2. rewrite R2 in R3.
  assert (in_u 16 (u16 (i + 1))) by (apply wrap_in_u; lia).
  exists q. split; [exact E3|]. split; [|split].
  - unfold avail_idx at 1. rewrite R3, le16_put by first [done|lia]. by rewrite Z.eqb_refl.
  - intros k Hk. unfold avail_entry. rewrite R3, !le16_put by first [done|lia].
    rewrite (proj2 (Z.eqb_neq (avail + 2 * (2 + k)) (avail + 2))) by lia.
    destruct (Z.eqb_spec (avail + 2 * (2 + k)) (avail + 2 * (2 + slot))), (Z.eqb_spec k slot);
      try done; lia.
  - intros x Hx. rewrite R3, !write_bytes_out by (rewrite length_le_bytes; lia). done.
Qed.

Fixpoint publish_all (ds : list Z) : M P unit :=
  match ds with
  | [] => mret tt
  | d :: rest => publish avail num d;; publish_all rest
  end.

Lemma mod_apart a b : 0 < b < num -> (a + b) mod num <> a mod num.
Proof.
  intros Hb E. pose proof (Zminus_mod (a + b) a num) as Hm. rewrite E, Z.sub_diag, Zmod_0_l in Hm.
  replace (a + b - a) with b in Hm by lia. rewrite Z.mod_small in Hm; lia.
Qed.

Lemma u16_mod x : (num | 65536) -> u16 x mod num = x mod num.
Proof. intros Hdiv. unfold wrap. change (2 ^ 16) with 65536. by apply Z.mod_mod_divide. Qed.

Lemma u16_add_u16 a b : u16 (u16 a + b) = u16 (a + b).
Proof. unfold wrap. by rewrite Zplus_mod_idemp_l. Qed.

(** C16. Descriptors published one after another, no more than the ring holds, are
    all found in order from the old index on, in 16-bit wrap-around arithmetic: the
    device misses none and sees none twice. *)
Theorem publish_all_in_order ds p :
  (num | 65536) -> Z.of_nat (length ds) <= num -> Forall (in_u 16) ds ->
  0 <= avail_idx (ram p) avail ->
  let i := avail_idx (ram p) avail in
  exists q, publish_all ds p = (Ok tt, q) /\
    (ds <> [] -> avail_idx (ram q) avail = u16 (i + Z.of_nat (length ds))) /\
    (forall j d, ds !! j = Some d ->
       avail_entry (ram q) avail (u16 (i + Z.of_nat j) mod num) = d) /\
    (forall k, 0 <= k < num -> (forall j, (j < length ds)%nat -> k <> (i + Z.of_nat j) mod num) ->
       avail_entry (ram q) avail k = avail_entry (ram p) avail k) /\
    (forall x, x < avail + 2 \/ avail + 4 + 2 * num <= x -> ram q x = ram p x).
Proof.
  intros Hdiv. revert p. induction ds as [|d ds IH]; intros p Hlen Hds Hi i.
  { exists p. by split_and!; [done|done|intros ? ? [=]|done|done]. }
  inversion Hds as [|? ? Hd Hds']; subst. cbn [length] in Hlen.
  destruct (publish_run d p Hd Hi) as (p1 & E1 & Hi1 & He1 & Hx1). fold i in Hi1, He1.
  assert (Hu : in_u 16 (u16 (i + 1))) by (apply wrap_in_u; lia).
  destruct (IH p1 ltac:(lia) Hds' ltac:(rewrite Hi1; unfold in_u in Hu; lia)) as (q & E2 & Hi2 & He2 & Hk2 & Hx2).
  rewrite Hi1 in Hi2, He2, Hk2. exists q. cbn [publish_all]. rewrite bind_run, E1.
  assert (Hnext : forall j : nat, (u16 (i + 1) + Z.of_nat j) mod num = (i + Z.of_nat (S j)) mod num).
  { intros j. rewrite <- (u16_mod (_ + _)), u16_add_u16, u16_mod by done. f_equal. lia. }
  split; [done|]. split; [|split; [|split]].
  - intros _. destruct ds as [|d' ds]; [|rewrite Hi2 by done; rewrite u16_add_u16; f_equal; cbn [length]; lia].
    cbn in E2. injection E2 as <-. rewrite Hi1. f_equal.
  - intros [|j] d' Hj; cbn in Hj.
    + injection Hj as ->. rewrite Z.add_0_r, u16_mod by done.
      rewrite Hk2; [|apply Z.mod_pos_bound; lia|].
      * rewrite He1 by (apply Z.mod_pos_bound; lia). by rewrite Z.eqb_refl.
      * intros j Hj. rewrite Hnext. apply not_eq_sym, mod_apart. lia.
    + rewrite <- (He2 j d' Hj). f_equal. rewrite u16_add_u16. do 2 f_equal. lia.
  - intros k Hk Hout. rewrite Hk2; [|done|].
    + rewrite He1 by lia. destruct (Z.eqb_spec k (i mod num)) as [->|]; [|done].
      destruct (Hout 0%nat ltac:(cbn; lia)). by rewrite Z.add_0_r.
    + intros j Hj. rewrite Hnext. apply Hout. cbn. lia.
  - intros x Hx. rewrite Hx2 by done. by apply Hx1.
Qed.
End Ring.

(** The index wraps from 65535 to 1 over a ring of four. *)
Lemma publish_all_in_order_witness :
  let board := mk_Board (write_bytes 0x1002 [0xFF; 0xFF] (fun _ => 0)) None 0 (tt : NoDevice) in
  exists q, publish_all 0x1000 4 [7; 9] board = (Ok tt, q) /\
    avail_idx (ram q) 0x1000 = 1 /\ avail_entry (ram q) 0x1000 3 = 7 /\ avail_entry (ram q) 0x1000 0 = 9.
Proof.
  intros board.
  destruct (publish_all_in_order 0x1000 4 ltac:(lia) [7; 9] board ltac:(by exists 16384) ltac:(cbn; lia)
    ltac:(repeat constructor; done) ltac:(done)) as (q & E & Hi & He & _).
  exists q. split; [exact E|]. split; [exact (Hi ltac:(done))|].
  split; [exact (He 0%nat 7 eq_refl)|exact (He 1%nat 9 eq_refl)].
Defined.

(** ** Every wait ends *)

Section Waits.
Context {P : Type} `{Timer P}.

Lemma ends_publish avail num d : ends (publish avail num d).
Proof. unfold publish. ends. Qed.

Lemma ends_poll_used a before : ends (poll_used a before).
Proof. unfold poll_used. ends. Qed.

Lemma ends_fill a b n : ends (fill a b n).
Proof. apply ends_write_mem. Qed.

#[local] Hint Resolve ends_publish ends_poll_used ends_fill : ends.

(** However the device behaves, [receive_test_frame] returns: with the timer
    running it comes back within the turns of [wait_fuel], with what it received or
    an error, and the first poll is bounded by itself. *)
Theorem receive_test_frame_ends fuel tx rx :
  (wait_fuel 0 <= fuel)%nat -> ends (receive_test_frame fuel tx rx).
Proof.
  intros Hf. unfold receive_test_frame, read_mac_at, read_port_u8.
  apply ends_bind; [ends|intros mac]. apply ends_bind; [unfold rearm_rx, write_port_u16; ends|intros _].
  destruct (vring_offsets _ _) as [[? ?] used]. apply ends_bind; [ends|intros before].
  apply ends_bind; [unfold send_arp_request, fill_buffer, write_desc, write_port_u16; ends|intros _].
  apply wait_ends with (rank := fun _ => 0%nat); [intros; ends| |done|].
  - intros b p. rewrite bind_run. destruct (read_le _ _ _) as [[c| | |] q]; try done. cbn. destruct (c =? before); cbn; [lia|done].
  - intros [b|after].
    + unfold rx_diagnostics, read_port_u8. ends.
    + unfold read_reply, is_arp_reply, same_slices, NetFrame.byte_is, gateway_ip. ends.
Qed.
End Waits.

(** Nothing answers on a board without a device. *)
Lemma receive_test_frame_ends_witness :
  let board := bare_board [mk_Region 0x100000 0x180000 Usable] in
  let tx := mk_TxQueueInfo 256 3 0x100 0x100 7 0xC000 0x18000100000 in
  let rx := mk_RxQueueInfo 256 3 0x103 0x103 0xC000 0x18000103000 0x106000 0x18000106000 2048 2 1 in
  (receive_test_frame 200 tx rx board).1 <> Hang.
Proof.
  intros board tx rx. refine (proj1 (receive_test_frame_ends 200 tx rx _ board)). apply Nat.leb_le. reflexivity.
Defined.
