(* ===== verification/E1000.v ===== *)
(** * E1000: the driver of the e1000 card ([net/e1000.rs])

    Registers are mapped memory; a ring is eight 16-byte descriptors in a frame of its
    own.  Each client function of the source sets up its rings, sends and waits in
    the same steps, written out again there and shared here ([arm_rx], [arm_tx],
    [wait_tx], [wait_rx]); what differs is the frame it sends and the check it makes
    of a received one.  What the functions print is left out, except that an index
    out of range in what they print panics. *)
From stdpp Require Import base list numbers strings.
From Stdlib Require Import Lia.
From S2P Require Import Prelude PortIO PhysMem Nic.
From S2P Require Icmp Tcp Udp Dns NetFrame Pci.
Open Scope Z_scope.

Definition E1000_VENDOR_ID : Z := 0x8086.
Definition E1000_DEVICE_ID : Z := 0x100e.

Definition REG_CTRL : Z := 0x0000.
Definition REG_STATUS : Z := 0x0008.
Definition REG_RAL0 : Z := 0x5400.
Definition REG_RAH0 : Z := 0x5404.
Definition REG_TCTL : Z := 0x0400.
Definition REG_TDBAL : Z := 0x3800.
Definition REG_TDBAH : Z := 0x3804.
Definition REG_TDLEN : Z := 0x3808.
Definition REG_TDH : Z := 0x3810.
Definition REG_TDT : Z := 0x3818.
Definition REG_TIPG : Z := 0x0410.
Definition CTRL_SLU : Z := Z.shiftl 1 6.
Definition TCTL_EN : Z := Z.shiftl 1 1.
Definition TCTL_PSP : Z := Z.shiftl 1 3.
Definition TCTL_CT_DEFAULT : Z := Z.shiftl 0x0F 4.
Definition TCTL_COLD_FULL_DUPLEX : Z := Z.shiftl 0x40 12.
Definition TIPG_DEFAULT : Z := 0x0060200A.
Definition TXD_CMD_EOP : Z := 0x01.
Definition TXD_CMD_IFCS : Z := 0x02.
Definition TXD_CMD_RS : Z := 0x08.
Definition TXD_STATUS_DD : Z := 0x01.
Definition NUM_TX_DESCRIPTORS : nat := 8.
Definition REG_RDBAL : Z := 0x2800.
Definition REG_RDBAH : Z := 0x2804.
Definition REG_RDLEN : Z := 0x2808.
Definition REG_RDH : Z := 0x2810.
Definition REG_RDT : Z := 0x2818.
Definition REG_RCTL : Z := 0x0100.
Definition RCTL_EN : Z := Z.shiftl 1 1.
Definition RCTL_BAM : Z := Z.shiftl 1 15.
Definition RCTL_SECRC : Z := Z.shiftl 1 26.
Definition RXD_STAT_DD : Z := 0x01.
Definition RXD_STAT_EOP : Z := 0x02.
Definition NUM_RX_DESCRIPTORS : nat := 8.

(** [#[repr(C, packed)]] structs, and the 16 bytes they are in memory. *)
Record TxDescriptor := mk_TxDescriptor {
  tx_addr : Z; tx_length : Z; cso : Z; cmd : Z; tx_status : Z; css : Z; tx_special : Z;
}.

Record RxDescriptor := mk_RxDescriptor {
  rx_addr : Z; rx_length : Z; checksum : Z; rx_status : Z; errors : Z; rx_special : Z;
}.

Definition tx_bytes (d : TxDescriptor) : list Z :=
  le_bytes 8 (tx_addr d) ++ le_bytes 2 (tx_length d) ++ [cso d] ++ [cmd d] ++ [tx_status d] ++
  [css d] ++ le_bytes 2 (tx_special d).

Definition rx_bytes (d : RxDescriptor) : list Z :=
  le_bytes 8 (rx_addr d) ++ le_bytes 2 (rx_length d) ++ le_bytes 2 (checksum d) ++ [rx_status d] ++
  [errors d] ++ le_bytes 2 (rx_special d).

(** A descriptor that only names its buffer; a frame of [length] bytes to send. *)
Definition rx_empty (addr : Z) : RxDescriptor := mk_RxDescriptor addr 0 0 0 0 0.
Definition tx_empty : TxDescriptor := mk_TxDescriptor 0 0 0 0 0 0 0.
Definition tx_frame (addr length : Z) : TxDescriptor :=
  mk_TxDescriptor addr length 0 (Z.lor (Z.lor TXD_CMD_EOP TXD_CMD_IFCS) TXD_CMD_RS) 0 0 0.

Section Driver.
Context {P : Type} `{Machine P}.

Definition find_e1000 : M P (option Pci.PciDevice) := find_device E1000_VENDOR_ID E1000_DEVICE_ID.

Definition read_reg (mmio_base offset : Z) : M P Z := read_le 4 (mmio_base + offset).
Definition write_reg (mmio_base offset value : Z) : M P unit := write_le 4 (mmio_base + offset) value.

Definition find_mmio_base : M P (Pci.PciDevice * Z) :=
  found ← find_e1000;
  dev ← lift (ok_or "no e1000 NIC found on bus 0" found);
  bar0 ← Pci.read_bar0 dev;
  if Z.land bar0 0x1 =? 1 then lift (Err "e1000 BAR0 is I/O-space - not supported yet")
  else
    let phys_base := Z.land bar0 0xFFFFFFF0 in
    mret (dev, virt phys_base).

Definition mac_of (ral0 rah0 : Z) : list Z :=
  [u8 (Z.land ral0 0xFF); u8 (Z.land (Z.shiftr ral0 8) 0xFF); u8 (Z.land (Z.shiftr ral0 16) 0xFF);
   u8 (Z.land (Z.shiftr ral0 24) 0xFF); u8 (Z.land rah0 0xFF); u8 (Z.land (Z.shiftr rah0 8) 0xFF)].

Definition read_mac (mmio_base : Z) : M P (list Z) :=
  ral0 ← read_reg mmio_base REG_RAL0;
  rah0 ← read_reg mmio_base REG_RAH0;
  mret (mac_of ral0 rah0).

(** What [probe] prints of a card it can talk to. *)
Record E1000Report := mk_E1000Report {
  e_dev : Pci.PciDevice; e_bar0 : Z; phys_base : Z; e_status : Z; e_mac : list Z; mac_valid : bool;
}.

Definition probe : M P E1000Report :=
  '(dev, mmio_base) ← find_mmio_base;
  bar0 ← Pci.read_bar0 dev;
  let phys_base := Z.land bar0 0xFFFFFFF0 in
  status ← read_reg mmio_base REG_STATUS;
  mac ← read_mac mmio_base;
  rah0 ← read_reg mmio_base REG_RAH0;
  let mac_valid := negb (Z.land rah0 (Z.shiftl 1 31) =? 0) in
  mret (mk_E1000Report dev bar0 phys_base status mac mac_valid).

(** [for i in 0..n { write_volatile(ring.add(i), d) }] *)
Fixpoint write_descs (ring : Z) (ds : list (list Z)) : M P unit :=
  match ds with
  | [] => mret tt
  | d :: rest => write_mem ring d;; write_descs (ring + 16) rest
  end.

(** The receive ring: eight empty descriptors, one for each of [bufs], and the
    registers; the tail behind the last one armed. *)
Definition arm_rx (mmio_base ring_phys : Z) (bufs : list Z) : M P unit :=
  write_descs (virt ring_phys) (replicate NUM_RX_DESCRIPTORS (rx_bytes (rx_empty 0)));;
  write_descs (virt ring_phys) (map (fun b => rx_bytes (rx_empty b)) bufs);;
  write_reg mmio_base REG_RDBAL (u32 (Z.land ring_phys 0xFFFFFFFF));;
  write_reg mmio_base REG_RDBAH (u32 (Z.shiftr ring_phys 32));;
  write_reg mmio_base REG_RDLEN (Z.of_nat (NUM_RX_DESCRIPTORS * 16));;
  write_reg mmio_base REG_RDH 0;;
  write_reg mmio_base REG_RDT (Z.of_nat (length bufs));;
  write_reg mmio_base REG_RCTL (Z.lor (Z.lor RCTL_EN RCTL_BAM) RCTL_SECRC).

(** The transmit ring: eight empty descriptors, those of [first], and the registers. *)
Definition arm_tx (mmio_base ring_phys : Z) (first : list TxDescriptor) : M P unit :=
  write_descs (virt ring_phys) (replicate NUM_TX_DESCRIPTORS (tx_bytes tx_empty));;
  write_descs (virt ring_phys) (map tx_bytes first);;
  ctrl ← read_reg mmio_base REG_CTRL;
  write_reg mmio_base REG_CTRL (Z.lor ctrl CTRL_SLU);;
  write_reg mmio_base REG_TDBAL (u32 (Z.land ring_phys 0xFFFFFFFF));;
  write_reg mmio_base REG_TDBAH (u32 (Z.shiftr ring_phys 32));;
  write_reg mmio_base REG_TDLEN (Z.of_nat (NUM_TX_DESCRIPTORS * 16));;
  write_reg mmio_base REG_TDH 0;;
  write_reg mmio_base REG_TDT 0;;
  write_reg mmio_base REG_TIPG TIPG_DEFAULT;;
  write_reg mmio_base REG_TCTL
    (Z.lor (Z.lor (Z.lor TCTL_EN TCTL_PSP) TCTL_CT_DEFAULT) TCTL_COLD_FULL_DUPLEX).

(** Byte 12 of a descriptor, and bit 0 of it. *)
Definition read_status (desc : Z) : M P Z := read_le 1 (desc + 12).
Definition dd (status : Z) : bool := negb (Z.land status TXD_STATUS_DD =? 0).

(** The wait for the card to take a frame: [true] when it did. *)
Definition wait_tx (fuel : nat) (desc : Z) : M P bool :=
  start_tick ← timer_ticks;
  w ← until_ticks fuel start_tick
        (fun _ => status ← read_status desc; mret (if dd status then Done tt else Idle tt)) tt;
  mret (match w with Ended _ => true | TimedOut _ => false end).

(** What a descriptor received: [None] until DD is set. *)
Definition received (desc buf_virt : Z) : M P (option (list Z)) :=
  status ← read_status desc;
  if dd status then
    length ← read_le 2 (desc + 8);
    data ← read_mem buf_virt (Z.to_nat length);
    mret (Some data)
  else mret None.

(** The wait for a frame that [accept] takes; any other frame arms the one
    descriptor again. *)
Definition wait_rx {A} (fuel : nat) (mmio_base ring_phys buf_phys : Z)
    (accept : list Z -> res (option A)) : M P (option A) :=
  start_tick ← timer_ticks;
  w ← until_ticks fuel start_tick
        (fun _ =>
           o ← received (virt ring_phys) (virt buf_phys);
           match o with
           | None => mret (Idle tt)
           | Some data =>
               a ← lift (accept data);
               match a with
               | Some a => mret (Done a)
               | None =>
                   write_mem (virt ring_phys) (rx_bytes (rx_empty buf_phys));;
                   write_reg mmio_base REG_RDT 1;;
                   mret (Idle tt)
               end
           end) tt;
  mret (match w with Ended a => Some a | TimedOut _ => None end).

(** ** The two test functions *)

Definition quote : string := String (Ascii.ascii_of_nat 34) EmptyString.

Definition TX_TIMEOUT : string :=
  "e1000 TX: timed out waiting for descriptor DD - hardware dequeued it (TDH advanced) but never confirmed the send; see module doc's " +:+
  quote +:+ "TX DD-bit mystery, resolved" +:+ quote +:+
  " section (this path should be unreachable since Fase 44's bus-mastering fix - a real regression if it fires)".

Definition send_test_frame (fuel : nat) : M P unit :=
  '(dev, mmio_base) ← find_mmio_base;
  Pci.enable_bus_mastering dev;;
  src_mac ← read_mac mmio_base;
  ring_frame ← allocate_frame;
  buf_frame ← allocate_frame;
  let frame_len := 42 in
  write_mem (virt buf_frame) (arp_request src_mac [10; 0; 2; 2]);;
  arm_tx mmio_base ring_frame [tx_frame buf_frame frame_len];;
  write_reg mmio_base REG_TDT 1;;
  tx_ok ← wait_tx fuel (virt ring_frame);
  if (tx_ok : bool) then mret tt
  else
    read_reg mmio_base REG_TDH;;
    read_reg mmio_base REG_TDT;;
    read_mem (virt ring_frame) 16;;
    lift (Err TX_TIMEOUT).

(** The [tx_result] that [receive_test_frame] only prints. *)
Definition try_ok {A} (m : M P A) : M P bool := fun p =>
  match m p with
  | (Ok _, q) => (Ok true, q)
  | (Err _, q) => (Ok false, q)
  | (Panic, q) => (Panic, q)
  | (Hang, q) => (Hang, q)
  end.

(** What is printed of the frame; [&data[6..12]] is evaluated for any length. *)
Record RxReport := mk_RxReport {
  rx_len : nat; eop : bool; is_reply : bool; gateway : option (list Z); src_mac : list Z;
}.

Definition receive_test_frame (fuel : nat) : M P RxReport :=
  '(dev, mmio_base) ← find_mmio_base;
  Pci.enable_bus_mastering dev;;
  ring_frame ← allocate_frame;
  buf_frame ← allocate_frame;
  let ring_virt := virt ring_frame in
  arm_rx mmio_base ring_frame [buf_frame];;
  try_ok (send_test_frame fuel);;
  start_tick ← timer_ticks;
  w ← until_ticks fuel start_tick
        (fun _ =>
           status ← read_status ring_virt;
           if dd status then
             length_ ← read_le 2 (ring_virt + 8);
             let eop := negb (Z.land status RXD_STAT_EOP =? 0) in
             data ← read_mem (virt buf_frame) (Z.to_nat length_);
             reply ← lift (is_arp_reply data);
             gw ← lift (gateway_ip data);
             src ← lift (slice data 6 12);
             mret (Done (mk_RxReport (length data) eop reply gw src))
           else mret (Idle tt)) tt;
  match w with
  | Ended r => mret r
  | TimedOut _ =>
      read_reg mmio_base REG_RDH;;
      read_reg mmio_base REG_RDT;;
      lift (Err "e1000 RX: timed out waiting for a received frame - either SLIRP didn't reply, or something in this ring's own setup is wrong; see rx timeout diagnostic above")
  end.

(** ** Address resolution *)

(** One exchange on fresh rings: the receive ring first, then the frame. *)
Definition exchange {A} (fuel : nat) (mmio_base : Z) (frame : list Z) (tx_timeout : string)
    (accept : list Z -> res (option A)) : M P (option A) :=
  rx_ring_frame ← allocate_frame;
  rx_buf_frame ← allocate_frame;
  tx_ring_frame ← allocate_frame;
  tx_buf_frame ← allocate_frame;
  arm_rx mmio_base rx_ring_frame [rx_buf_frame];;
  write_mem (virt tx_buf_frame) frame;;
  arm_tx mmio_base tx_ring_frame [tx_frame tx_buf_frame (u16 (Z.of_nat (length frame)))];;
  write_reg mmio_base REG_TDT 1;;
  tx_ok ← wait_tx fuel (virt tx_ring_frame);
  if negb tx_ok then lift (Err tx_timeout)
  else wait_rx fuel mmio_base rx_ring_frame rx_buf_frame accept.

(** The start of every client: the card, its bus mastering, its address. *)
Definition open_card : M P (Z * list Z) :=
  '(dev, mmio_base) ← find_mmio_base;
  Pci.enable_bus_mastering dev;;
  src_mac ← read_mac mmio_base;
  mret (mmio_base, src_mac).
End Driver.

Import NetFrame.

Definition matching_arp_reply (target_ip data : list Z) : res bool :=
  and_then (Ok (32 <=? length data)%nat)
    (and_then (byte_is data 12 0x08)
      (and_then (byte_is data 13 0x06)
        (and_then (byte_is data 20 0x00)
          (and_then (byte_is data 21 0x02)
            (and_then (same_slices data 22 28 6 12)
              (ip ← slice data 28 32; Ok (bool_decide (ip = target_ip)))))))).

Definition accept_arp (target_ip data : list Z) : res (option (list Z)) :=
  ok ← matching_arp_reply target_ip data;
  if (ok : bool) then mac ← slice data 22 28; Ok (Some mac) else Ok None.

Definition arp_resolve {P : Type} `{Machine P} (fuel : nat) (target_ip : list Z) : M P (list Z) :=
  '(mmio_base, src_mac) ← open_card;
  o ← exchange fuel mmio_base (arp_request src_mac target_ip)
        "arp_resolve: TX timed out waiting for descriptor DD" (accept_arp target_ip);
  match o with
  | Some mac => mret mac
  | None =>
      read_reg mmio_base REG_RDH;;
      read_reg mmio_base REG_RDT;;
      lift (Err "arp_resolve: timed out waiting for a matching ARP reply")
  end.

(** ** Every wait ends *)

Lemma not_hang_if {A} (b : bool) (x y : res A) : x <> Hang -> y <> Hang -> (if b then x else y) <> Hang.
Proof. by destruct b. Qed.

Section Waits.
Context {P : Type} `{Timer P} (fuel : nat) (Hfuel : (wait_fuel 0 <= fuel)%nat).

Lemma ends_write_descs ring ds : ends (write_descs ring ds).
Proof. revert ring. induction ds as [|d ds IH]; intros ring; cbn [write_descs]; ends. Qed.

Lemma ends_arm_rx mmio ring bufs : ends (arm_rx mmio ring bufs).
Proof. pose proof ends_write_descs. unfold arm_rx, write_reg. ends. Qed.

Lemma ends_arm_tx mmio ring first : ends (arm_tx mmio ring first).
Proof. pose proof ends_write_descs. unfold arm_tx, write_reg, read_reg. ends. Qed.

Lemma ends_read_status a : ends (read_status a).
Proof. apply ends_read_le. Qed.

Lemma ends_wait_tx a : ends (wait_tx fuel a).
Proof.
  unfold wait_tx. apply wait_ends with (rank := fun _ => 0%nat); [intros; unfold read_status; ends| |done|intros; ends].
  intros [] p. rewrite bind_run. unfold read_status. destruct (read_le _ _ p) as [[s| | |] q]; try done.
  cbn. destruct (dd s); cbn; [done|lia].
Qed.

Lemma ends_received a b : ends (received a b).
Proof. unfold received, read_status. ends. Qed.

Lemma ends_wait_rx {A} mmio ring buf (accept : list Z -> res (option A)) :
  (forall data, accept data <> Hang) -> ends (wait_rx fuel mmio ring buf accept).
Proof.
  intros Ha. pose proof ends_received. unfold wait_rx.
  apply wait_ends with (rank := fun _ => 0%nat); [|intros [] p|done|intros; ends].
  - intros []. apply ends_bind; [done|]. intros [data|]; [|ends]. apply ends_bind; [by apply ends_lift|].
    unfold write_reg. intros [a|]; ends.
  - rewrite bind_run. destruct (received _ _ p) as [[[data|]| | |] q]; try done; [|cbn; lia].
    rewrite bind_run. cbn [lift]. destruct (accept data) as [[a|]| | |]; try done.
    cbv [mbind M_bind mret M_ret write_reg write_le write_mem fst]. lia.
Qed.

Lemma ends_find_mmio_base : ends find_mmio_base.
Proof. unfold find_mmio_base, find_e1000. ends. Qed.

Lemma ends_open_card : ends open_card.
Proof.
  unfold open_card, read_mac, read_reg. apply ends_bind; [apply ends_find_mmio_base|]. intros []. ends.
Qed.

Lemma ends_exchange {A} mmio frame e (accept : list Z -> res (option A)) :
  (forall data, accept data <> Hang) -> ends (exchange fuel mmio frame e accept).
Proof.
  intros Ha. pose proof ends_arm_rx. pose proof ends_arm_tx. pose proof ends_wait_tx.
  pose proof (fun m r b => ends_wait_rx m r b accept Ha). unfold exchange, write_reg. ends.
Qed.

Lemma accept_arp_not_hang ip data : accept_arp ip data <> Hang.
Proof. unfold accept_arp, matching_arp_reply, same_slices, byte_is. not_hang. Qed.

Lemma ends_arp_resolve ip : ends (arp_resolve fuel ip).
Proof.
  unfold arp_resolve. apply ends_bind; [apply ends_open_card|]. intros [mmio mac].
  apply ends_bind; [apply ends_exchange, accept_arp_not_hang|]. unfold read_reg. intros []; ends.
Qed.
End Waits.
