(* ===== verification/E1000Card.v ===== *)
(** * E1000Card: the documented card, and one exchange with it

    The card the driver of [net/e1000.rs] is written for, on a [Board]: 32-bit
    registers behind a memory window, descriptors read and written back by DMA, one
    network peer.  It works as its manual says, with any delay: a frame handed over
    is taken from the ring [tx_delay] ticks later and its answers arrive [rtt] ticks
    after that; a received frame goes to the descriptor at the head if the head has
    not reached the tail, and is dropped otherwise.  Against this card, [exchange]
    is shown to be a question to the network and the check of its first answer. *)
From stdpp Require Import base list numbers strings.
From Stdlib Require Import Lia FunctionalExtensionality.
From S2P Require Import Prelude Mem PortIO PhysMem Nic Board E1000.
From S2P Require Pci.
Open Scope Z_scope.
#[local] Existing Instance Pci.host_ports.

(** ** The card *)

Record Card := mk_Card {
  host : Pci.GoodHost;
  regs : Z -> Z;
  sent : list (list Z);
  tx_due : option Z;
  arriving : list (Z * list Z);
}.

Abbreviation Pc := (Board Card).

(** What differs from one machine to another: where physical memory and the card's
    registers are mapped, its slot, the network behind it and its delays. *)
Class Site := {
  site_offset : Z;
  window : Z;
  slot : Z * Z;
  peer : list Z -> list (list Z);
  tx_delay : nat;
  rtt : nat;
}.

Section Card.
Context `{Site}.

Definition set_reg (off v : Z) (c : Card) : Card :=
  mk_Card (host c) (fun o => if o =? off then v else regs c o) (sent c) (tx_due c) (arriving c).
Definition set_host (h : Pci.GoodHost) (c : Card) : Card :=
  mk_Card h (regs c) (sent c) (tx_due c) (arriving c).
Definition set_due (d : option Z) (c : Card) : Card :=
  mk_Card (host c) (regs c) (sent c) d (arriving c).
Definition set_wire (s : list (list Z)) (a : list (Z * list Z)) (c : Card) : Card :=
  mk_Card (host c) (regs c) s (tx_due c) a.

(** Where the CPU, and DMA on its behalf, sees physical address [a]. *)
Definition at_phys (a : Z) : Z := u64 (site_offset + a).

(** The function's Command register, bit 2: the card may use DMA. *)
Definition bus_master (c : Card) : bool :=
  Z.testbit (Pci.space (proj1_sig (host c)) (Pci.config_address 0 (fst slot) (snd slot) Pci.PCI_COMMAND_OFFSET)) 2.

Definition reg64 (lo hi : Z) (c : Card) : Z := regs c lo + 2 ^ 32 * regs c hi.

(** The descriptor at a ring's head. *)
Definition head_desc (lo hi head : Z) (c : Card) : Z := at_phys (reg64 lo hi c + 16 * regs c head).

Definition next_head (head len : Z) (c : Card) : Z := (regs c head + 1) mod (regs c len / 16).

(** Frames from the transmit ring, from the head up to the tail. *)
Fixpoint transmit (fuel : nat) (time : Z) (rd : Ram * Card) : Ram * Card :=
  let '(m, c) := rd in
  match fuel with
  | O => (m, c)
  | S f =>
      if regs c REG_TDH =? regs c REG_TDT then (m, c)
      else
        let d := head_desc REG_TDBAL REG_TDBAH REG_TDH c in
        let addr := le_of (read_bytes m d 8) in
        let len := le_of (read_bytes m (d + 8) 2) in
        let frame := read_bytes m (at_phys addr) (Z.to_nat len) in
        let m := if negb (Z.land (m (d + 11)) TXD_CMD_RS =? 0)
                 then write_bytes (d + 12) [Z.lor (m (d + 12)) TXD_STATUS_DD] m else m in
        let c := set_reg REG_TDH (next_head REG_TDH REG_TDLEN c) c in
        transmit f time
          (m, set_wire (sent c ++ [frame])
                (arriving c ++ map (fun r => (time + Z.of_nat rtt, r)) (peer frame)) c)
  end.

Definition own_mac (c : Card) : list Z := mac_of (regs c REG_RAL0) (regs c REG_RAH0).

Definition broadcast : list Z := replicate 6 0xFF.

(** Addressed to the card, and no longer than a frame may be. *)
Definition takes (mac : list Z) (bam : bool) (frame : list Z) : bool :=
  (bool_decide (take 6 frame = mac) || bam && bool_decide (take 6 frame = broadcast)) &&
  (length frame <=? 1518)%nat.

Definition can_receive (c : Card) : bool :=
  bus_master c && Z.testbit (regs c REG_RCTL) 1 && negb (regs c REG_RDH =? regs c REG_RDT).

Definition receive (frame : list Z) (rd : Ram * Card) : Ram * Card :=
  let '(m, c) := rd in
  if can_receive c && takes (own_mac c) (Z.testbit (regs c REG_RCTL) 15) frame then
    let d := head_desc REG_RDBAL REG_RDBAH REG_RDH c in
    let addr := le_of (read_bytes m d 8) in
    let m := write_bytes (at_phys addr) frame m in
    let m := write_bytes (d + 8)
               (le_bytes 2 (Z.of_nat (length frame)) ++ [0; 0; Z.lor RXD_STAT_DD RXD_STAT_EOP; 0; 0; 0]) m in
    (m, set_reg REG_RDH (next_head REG_RDH REG_RDLEN c) c)
  else (m, c).

(** What has arrived by [time] is received, the rest stays on the wire. *)
Definition deliver (time : Z) (rd : Ram * Card) : Ram * Card :=
  let '(m, c) := rd in
  let here := filter (fun x => x.1 <= time) (arriving c) in
  let later := filter (fun x => ~ x.1 <= time) (arriving c) in
  foldl (fun rd x => receive x.2 rd) (m, set_wire (sent c) later c) here.

Definition can_transmit (c : Card) : bool :=
  bus_master c && Z.testbit (regs c REG_TCTL) 1 && Z.testbit (regs c REG_CTRL) 6.

Definition settle (time : Z) (rd : Ram * Card) : Ram * Card :=
  let '(m, c) := rd in
  match tx_due c with
  | Some due =>
      if due <=? time then
        deliver time (if can_transmit c then transmit NUM_TX_DESCRIPTORS time (m, set_due None c)
                      else (m, set_due None c))
      else deliver time (m, c)
  | None => deliver time (m, c)
  end.

(** A 4-byte write to a register; moving the tail off the head hands frames over. *)
Definition write_register (a : Z) (bs : list Z) (time : Z) (rd : Ram * Card) : Ram * Card :=
  let '(m, c) := rd in
  let off := a - window in
  let c := set_reg off (le_of bs) c in
  let c := if (off =? REG_TDT) && negb (regs c REG_TDT =? regs c REG_TDH)
           then set_due (Some (time + Z.of_nat tx_delay)) c else c in
  settle time (m, c).

Definition on_host (f : Pci.GoodHost -> Pci.GoodHost) (c : Card) : Card := set_host (f (host c)) c.

Definition ask_host (f : Pci.GoodHost -> Z * Pci.GoodHost) (c : Card) : Z * Card :=
  let '(v, h) := f (host c) in (v, set_host h c).

#[export] Instance e1000_device : Device Card := {
  phys_offset := site_offset;
  device_ports := {|
    inb a c := ask_host (inb a) c; outb a v c := on_host (outb a v) c;
    inw a c := ask_host (inw a) c; outw a v c := on_host (outw a v) c;
    inl a c := ask_host (inl a) c; outl a v c := on_host (outl a v) c |};
  decodes _ a := (window <=? a) && (a <? window + 0x20000);
  reg_load c a n := take n (le_bytes 4 (regs c (a - window)));
  reg_store a bs time rd := write_register a bs time rd;
  on_tick time rd := settle time rd;
}.

#[export] Program Instance pc_host : Pci.PciHost Pc := { view s := proj1_sig (host (b_dev s)) }.
Next Obligation. done. Qed.
Next Obligation. done. Qed.
Next Obligation. done. Qed.
Next Obligation. done. Qed.
Next Obligation. intros s a. apply (proj2_sig (host (b_dev s))). Qed.
Next Obligation. intros s a. apply (proj2_sig (host (b_dev s))). Qed.
End Card.
