(* ===== verification/E1000Exchange.v ===== *)
(** * E1000Exchange: an exchange with the documented card

    [exchange_run]: on a board with the card of [E1000Card], the driver's exchange
    sends its frame once and hands the first frame the network answers with, among
    those addressed to the card, to the client's check; every other answer is lost,
    because a descriptor armed again behind the head receives nothing. *)
From stdpp Require Import base list numbers strings.
From Stdlib Require Import Lia FunctionalExtensionality.
From S2P Require Import Prelude Mem PortIO PhysMem Nic Board E1000 E1000Card.
From S2P Require Pci.
Open Scope Z_scope.

(** ** Descriptors as bytes *)

Lemma length_rx_bytes d : length (rx_bytes d) = 16%nat.
Proof. unfold rx_bytes. by rewrite !length_app, !length_le_bytes. Qed.

Lemma length_tx_bytes d : length (tx_bytes d) = 16%nat.
Proof. unfold tx_bytes. by rewrite !length_app, !length_le_bytes. Qed.

Section Exchange.
Context `{Site}.

(** Where the card and memory are: physical memory ends below [limit], mapped below
    the card's window. *)
Context (limit : Z).
Context (Hoffset : 0 <= site_offset) (Hlimit : site_offset + limit <= window)
  (Hwindow : window + 0x20000 <= 2 ^ 64) (Hpages : limit mod 4096 = 0).

Definition set_ram (m : Ram) (s : Pc) : Pc := mk_Board m (b_frames s) (b_time s) (b_dev s).
Definition set_time (t : Z) (s : Pc) : Pc := mk_Board (b_ram s) (b_frames s) t (b_dev s).
Definition on_dev (f : Card -> Card) (s : Pc) : Pc := with_dev (f (b_dev s)) s.

(** Every register holds 32 bits. *)
Definition regs32 (c : Card) : Prop := forall o, in_u 32 (regs c o).

Lemma regs32_set o v c : in_u 32 v -> regs32 c -> regs32 (set_reg o v c).
Proof. intros Hv Hc o'. cbn [set_reg regs]. by destruct (o' =? o). Qed.

Lemma regs32_due d c : regs32 c -> regs32 (set_due d c).
Proof. done. Qed.

Definition quiet (c : Card) : Prop := tx_due c = None /\ arriving c = [].

Lemma deliver_quiet t m c : arriving c = [] -> deliver t (m, c) = (m, c).
Proof. intros E. unfold deliver. rewrite E. destruct c; cbn in *. by rewrite E. Qed.

Lemma settle_quiet t m c : quiet c -> settle t (m, c) = (m, c).
Proof. intros [E1 E2]. unfold settle. rewrite E1. by apply deliver_quiet. Qed.

Lemma halt_quiet (s : Pc) : quiet (b_dev s) -> halt s = set_time (b_time s + 1) s.
Proof. intros Hq. cbn [halt board_machine on_tick e1000_device]. by rewrite settle_quiet. Qed.

Lemma iter_halt_quiet k (s : Pc) : quiet (b_dev s) -> Nat.iter k halt s = set_time (b_time s + Z.of_nat k) s.
Proof.
  intros Hq. induction k as [|k IH]; [cbn; rewrite Z.add_0_r; by destruct s|].
  rewrite Nat.iter_succ, IH, halt_quiet by done. unfold set_time. cbn. f_equal. lia.
Qed.

(** ** Physical memory *)

(** A page of memory the allocator can hand out. *)
Definition page (f : Z) : Prop := 0 <= f /\ f + 4096 <= limit /\ f mod 4096 = 0.

Lemma at_phys_page f i : page f -> 0 <= i < 4096 -> at_phys (f + i) = at_phys f + i.
Proof.
  intros (Hf0 & Hf1 & _) Hi. unfold at_phys. rewrite !wrap_id by (unfold in_u; lia). lia.
Qed.

Lemma at_phys_id f : page f -> at_phys f = site_offset + f.
Proof. intros (Hf0 & Hf1 & _). unfold at_phys. rewrite wrap_id by (unfold in_u; lia). done. Qed.

Lemma page_not_register c f i : page f -> 0 <= i < 4096 -> decodes (D := Card) c (at_phys f + i) = false.
Proof.
  intros Hp Hi. rewrite at_phys_id by done. destruct Hp as (Hf0 & Hf1 & _). cbn [decodes e1000_device].
  apply andb_false_iff. left. apply Z.leb_gt. lia.
Qed.

(** ** Single accesses *)

Lemma write_ram_run a bs (s : Pc) :
  decodes (b_dev s) a = false -> write_mem a bs s = (Ok tt, set_ram (write_bytes a bs (b_ram s)) s).
Proof. intros Hd. unfold write_mem. cbn [store board_machine]. by rewrite Hd. Qed.

Lemma read_ram_run a n (s : Pc) :
  decodes (b_dev s) a = false -> read_mem a n s = (Ok (read_bytes (b_ram s) a n), s).
Proof. intros Hd. unfold read_mem. cbn [load board_machine]. by rewrite Hd. Qed.

Lemma read_le_ram n a (s : Pc) :
  decodes (b_dev s) a = false -> read_le n a s = (Ok (le_of (read_bytes (b_ram s) a n)), s).
Proof. intros Hd. unfold read_le. by rewrite bind_run, read_ram_run. Qed.

Lemma register_decodes (c : Card) off : 0 <= off < 0x20000 -> decodes c (window + off) = true.
Proof. intros Ho. cbn [decodes e1000_device]. apply andb_true_iff. split; [apply Z.leb_le|apply Z.ltb_lt]; lia. Qed.

Lemma read_reg_run off (s : Pc) :
  0 <= off < 0x20000 -> in_u 32 (regs (b_dev s) off) -> read_reg window off s = (Ok (regs (b_dev s) off), s).
Proof.
  intros Ho Hv. unfold read_reg, read_le. rewrite bind_run. unfold read_mem. cbn [load board_machine].
  rewrite register_decodes by done. cbn [reg_load e1000_device].
  replace (window + off - window) with off by lia. rewrite take_ge by (by rewrite length_le_bytes).
  unfold mret, M_ret. do 2 f_equal. by rewrite le_round.
Qed.

(** Any register but the tail of the transmit ring, or that tail when it stays at
    the head. *)
Lemma write_reg_run off v (s : Pc) :
  0 <= off < 0x20000 -> in_u 32 v -> quiet (b_dev s) ->
  (off = REG_TDT -> v = regs (b_dev s) REG_TDH) ->
  write_reg window off v s = (Ok tt, on_dev (set_reg off v) s).
Proof.
  intros Ho Hv Hq Ht. unfold write_reg, write_le, write_mem. cbn [store board_machine].
  rewrite register_decodes by done. cbn [reg_store e1000_device]. unfold write_register.
  replace (window + off - window) with off by lia. rewrite le_round by done.
  replace ((off =? REG_TDT) && _)%bool with false; [by rewrite settle_quiet|].
  symmetry. apply andb_false_iff. destruct (Z.eqb_spec off REG_TDT) as [->|]; [right|by left].
  cbn [set_reg regs]. rewrite Z.eqb_refl. apply negb_false_iff, Z.eqb_eq. by apply Ht.
Qed.

Lemma write_descs_run ds f i (s : Pc) :
  page f -> 0 <= i -> Forall (fun d => length d = 16%nat) ds ->
  i + 16 * Z.of_nat (length ds) <= 4096 ->
  write_descs (at_phys f + i) ds s = (Ok tt, set_ram (write_bytes (at_phys f + i) (concat ds) (b_ram s)) s).
Proof.
  intros Hp. revert i s. induction ds as [|d ds IH]; intros i s Hi Hds Hlen; cbn [write_descs concat].
  - unfold mret, M_ret. f_equal. destruct s as [m fr t c]. cbn. unfold set_ram. cbn. f_equal.
    apply functional_extensionality. intros x. symmetry. apply write_bytes_out. cbn. lia.
  - apply Forall_cons in Hds as [Hd Hds]. cbn [length] in Hlen.
    rewrite bind_run, write_ram_run by (apply page_not_register; [done|lia]).
    rewrite <- Z.add_assoc, IH by (done || lia).
    rewrite write_bytes_app_l, Hd. cbn. by rewrite <- Z.add_assoc.
Qed.

(** ** The rings *)

Definition rx_setup (ring tail : Z) (c : Card) : Card :=
  set_reg REG_RCTL (Z.lor (Z.lor RCTL_EN RCTL_BAM) RCTL_SECRC)
    (set_reg REG_RDT tail (set_reg REG_RDH 0
      (set_reg REG_RDLEN (Z.of_nat (NUM_RX_DESCRIPTORS * 16))
        (set_reg REG_RDBAH (u32 (Z.shiftr ring 32))
          (set_reg REG_RDBAL (u32 (Z.land ring 0xFFFFFFFF)) c))))).

Definition tx_setup (ring : Z) (c : Card) : Card :=
  set_reg REG_TCTL (Z.lor (Z.lor (Z.lor TCTL_EN TCTL_PSP) TCTL_CT_DEFAULT) TCTL_COLD_FULL_DUPLEX)
    (set_reg REG_TIPG TIPG_DEFAULT (set_reg REG_TDT 0 (set_reg REG_TDH 0
      (set_reg REG_TDLEN (Z.of_nat (NUM_TX_DESCRIPTORS * 16))
        (set_reg REG_TDBAH (u32 (Z.shiftr ring 32))
          (set_reg REG_TDBAL (u32 (Z.land ring 0xFFFFFFFF))
            (set_reg REG_CTRL (Z.lor (regs c REG_CTRL) CTRL_SLU) c))))))).

(** A ring's frame: eight empty descriptors, then those of [ds]. *)
Definition ring_ram (ring : Z) (empty : list Z) (ds : list (list Z)) (m : Ram) : Ram :=
  write_bytes (at_phys ring) (concat ds) (write_bytes (at_phys ring) (concat (replicate 8 empty)) m).

Lemma virt_at a : virt (P := Pc) a = at_phys a.
Proof. done. Qed.

Lemma write_ring ring empty ds (s : Pc) (k : M Pc unit) :
  page ring -> length empty = 16%nat -> Forall (fun d => length d = 16%nat) ds -> (length ds <= 8)%nat ->
  (write_descs (virt (P := Pc) ring) (replicate 8 empty);; write_descs (virt (P := Pc) ring) ds;; k) s =
    k (set_ram (ring_ram ring empty ds (b_ram s)) s).
Proof.
  intros Hp He Hds Hlen. rewrite virt_at.
  rewrite <- (Z.add_0_r (at_phys ring)).
  rewrite bind_run, write_descs_run; [|done|lia|by apply Forall_replicate|rewrite length_replicate; lia].
  rewrite bind_run, write_descs_run by (done || lia). by rewrite Z.add_0_r.
Qed.

Lemma in_u32_wrap z : in_u 32 (u32 z).
Proof. apply wrap_in_u. lia. Qed.

Hint Resolve in_u32_wrap : core.

(** A constant register write inside a longer computation. *)
Lemma write_reg_step {A} off v (s : Pc) (k : unit -> M Pc A) :
  0 <= off < 0x20000 -> in_u 32 v -> quiet (b_dev s) ->
  (off = REG_TDT -> v = regs (b_dev s) REG_TDH) ->
  (write_reg window off v ≫= k) s = k tt (on_dev (set_reg off v) s).
Proof. intros. by rewrite bind_run, write_reg_run. Qed.

Ltac reg_step := rewrite write_reg_step; [|unfold in_u; split; (done || lia)|try done; unfold in_u; split; (done || lia)
  |done|try done; try (intros; vm_compute; reflexivity)].

Lemma arm_rx_run ring bufs (s : Pc) :
  page ring -> (length bufs <= 8)%nat -> quiet (b_dev s) ->
  arm_rx window ring bufs s =
    (Ok tt, on_dev (rx_setup ring (Z.of_nat (length bufs)))
      (set_ram (ring_ram ring (rx_bytes (rx_empty 0)) (map (fun b => rx_bytes (rx_empty b)) bufs) (b_ram s)) s)).
Proof.
  intros Hp Hb Hq. unfold arm_rx. change NUM_RX_DESCRIPTORS with 8%nat.
  rewrite write_ring; [|done|apply length_rx_bytes| |by rewrite length_map].
  2:{ apply Forall_map, Forall_true. intros. apply length_rx_bytes. }
  do 4 reg_step.
  rewrite write_reg_step; [|unfold in_u; split; (done || lia)|unfold in_u; lia|done|done].
  rewrite write_reg_run; [done|split; (done || lia)|unfold in_u; split; (done || lia)|done|done].
Qed.

Lemma arm_tx_run ring first (s : Pc) :
  page ring -> (length first <= 8)%nat -> quiet (b_dev s) -> in_u 32 (regs (b_dev s) REG_CTRL) ->
  arm_tx window ring first s =
    (Ok tt, on_dev (tx_setup ring) (set_ram (ring_ram ring (tx_bytes tx_empty) (map tx_bytes first) (b_ram s)) s)).
Proof.
  intros Hp Hb Hq Hc. unfold arm_tx. change NUM_TX_DESCRIPTORS with 8%nat.
  rewrite write_ring; [|done|apply length_tx_bytes| |by rewrite length_map].
  2:{ apply Forall_map, Forall_true. intros. apply length_tx_bytes. }
  rewrite bind_run, read_reg_run by (done || (split; (done || lia))).
  cbn [b_dev set_ram]. set (ctrl := regs (b_dev s) REG_CTRL).
  rewrite write_reg_step; [|split; (done || lia)| |done|done].
  2:{ apply Pci.lor_bound; [lia|done|]. split; done. }
  do 6 reg_step.
  rewrite write_reg_run; [done|split; (done || lia)|split; done|done|done].
Qed.

(** ** The card at work *)

Lemma page_u64 f : page f -> in_u 64 f.
Proof. intros (H1 & H2 & _). unfold in_u. lia. Qed.

Lemma halves f : in_u 64 f -> u32 (Z.land f 0xFFFFFFFF) + 2 ^ 32 * u32 (Z.shiftr f 32) = f.
Proof.
  intros Hf. unfold in_u in Hf. rewrite (land_mask 32) by lia. rewrite Z.shiftr_div_pow2 by lia. unfold wrap.
  change (2 ^ 64) with (4294967296 * 4294967296) in Hf. change (2 ^ 32) with 4294967296. div_lia.
Qed.

(** The fields of a descriptor read back. *)
Lemma desc_field m d bs i k :
  read_bytes m d 16 = bs -> (i + k <= 16)%nat -> read_bytes m (d + Z.of_nat i) k = take k (drop i bs).
Proof. apply read_bytes_part. Qed.

Lemma desc_byte m d bs i b :
  read_bytes m d 16 = bs -> bs !! i = Some b -> m (d + Z.of_nat i) = b.
Proof.
  intros E Hb. pose proof (lookup_lt_Some _ _ _ Hb) as Hi. rewrite <- E, length_read_bytes in Hi.
  assert (Hr : read_bytes m d 16 !! i = Some (m (d + Z.of_nat i))).
  { unfold read_bytes. rewrite list_lookup_fmap, lookup_seq_lt by done. done. }
  rewrite E, Hb in Hr. by injection Hr.
Qed.

Record loaded (rxr rxb txr txb : Z) (frame : list Z) (m : Ram) : Prop := {
  ld_rx : read_bytes m (at_phys rxr) 16 = rx_bytes (rx_empty rxb);
  ld_tx : read_bytes m (at_phys txr) 16 = tx_bytes (tx_frame txb (Z.of_nat (length frame)));
  ld_frame : read_bytes m (at_phys txb) (length frame) = frame;
}.

Record armed (rxr txr : Z) (c : Card) : Prop := {
  ar_rdba : reg64 REG_RDBAL REG_RDBAH c = rxr;
  ar_rdlen : regs c REG_RDLEN = 128;
  ar_rdh : regs c REG_RDH = 0;
  ar_rdt : regs c REG_RDT = 1;
  ar_rctl : regs c REG_RCTL = Z.lor (Z.lor RCTL_EN RCTL_BAM) RCTL_SECRC;
  ar_tdba : reg64 REG_TDBAL REG_TDBAH c = txr;
  ar_tdlen : regs c REG_TDLEN = 128;
  ar_tdh : regs c REG_TDH = 0;
  ar_tdt : regs c REG_TDT = 1;
  ar_can : can_transmit c = true;
  ar_master : bus_master c = true;
}.

Definition answers_at (T : Z) (fs : list (list Z)) : list (Z * list Z) := map (fun r => (T, r)) fs.

(** The card once the frame is out. *)
Definition out (T : Z) (frame : list Z) (c : Card) : Card :=
  set_wire (sent c ++ [frame]) (arriving c ++ answers_at (T + Z.of_nat rtt) (peer frame)) (set_reg REG_TDH 1 c).

Lemma transmit_S f t m c :
  transmit (S f) t (m, c) =
    if regs c REG_TDH =? regs c REG_TDT then (m, c)
    else
      let d := head_desc REG_TDBAL REG_TDBAH REG_TDH c in
      let addr := le_of (read_bytes m d 8) in
      let len := le_of (read_bytes m (d + 8) 2) in
      let frame := read_bytes m (at_phys addr) (Z.to_nat len) in
      let m := if negb (Z.land (m (d + 11)) TXD_CMD_RS =? 0)
               then write_bytes (d + 12) [Z.lor (m (d + 12)) TXD_STATUS_DD] m else m in
      let c := set_reg REG_TDH (next_head REG_TDH REG_TDLEN c) c in
      transmit f t
        (m, set_wire (sent c ++ [frame])
              (arriving c ++ map (fun r => (t + Z.of_nat rtt, r)) (peer frame)) c).
Proof. done. Qed.

Lemma tx_field_addr d : in_u 64 (tx_addr d) -> le_of (take 8 (drop 0 (tx_bytes d))) = tx_addr d.
Proof.
  intros Hd. rewrite drop_0. unfold tx_bytes. rewrite take_app_length' by (by rewrite length_le_bytes).
  by apply le_round.
Qed.

Lemma tx_field_length d : in_u 16 (tx_length d) -> le_of (take 2 (drop 8 (tx_bytes d))) = tx_length d.
Proof.
  intros Hd. unfold tx_bytes. rewrite drop_app_length' by (by rewrite length_le_bytes).
  rewrite take_app_length' by (by rewrite length_le_bytes). by apply le_round.
Qed.

Lemma rx_field_addr d : in_u 64 (rx_addr d) -> le_of (take 8 (drop 0 (rx_bytes d))) = rx_addr d.
Proof.
  intros Hd. rewrite drop_0. unfold rx_bytes. rewrite take_app_length' by (by rewrite length_le_bytes).
  by apply le_round.
Qed.

Lemma transmit_run t m c rxr rxb txr txb frame :
  loaded rxr rxb txr txb frame m -> armed rxr txr c -> page txr -> page txb -> (length frame <= 4096)%nat ->
  transmit NUM_TX_DESCRIPTORS t (m, c) = (write_bytes (at_phys txr + 12) [1] m, out t frame c).
Proof.
  intros Hl Ha Hr Hb Hlen. change NUM_TX_DESCRIPTORS with 8%nat. rewrite transmit_S.
  rewrite (ar_tdh _ _ _ Ha), (ar_tdt _ _ _ Ha). cbn [Z.eqb].
  unfold head_desc, next_head. rewrite (ar_tdba _ _ _ Ha), (ar_tdh _ _ _ Ha), (ar_tdlen _ _ _ Ha).
  replace (txr + 16 * 0) with txr by lia. pose proof (ld_tx _ _ _ _ _ _ Hl) as E.
  set (d := at_phys txr) in *. cbv zeta.
  pose proof (desc_field _ _ _ 0 8 E ltac:(lia)) as Ea. rewrite Z.add_0_r in Ea.
  pose proof (desc_field _ _ _ 8 2 E ltac:(lia)) as El.
  pose proof (desc_byte _ _ _ 11 0x0B E eq_refl) as Ec. pose proof (desc_byte _ _ _ 12 0 E eq_refl) as Es.
  change (Z.of_nat 8) with 8 in El. change (Z.of_nat 11) with 11 in Ec. change (Z.of_nat 12) with 12 in Es.
  rewrite Ea, El, Ec, Es, tx_field_addr, tx_field_length by
    first [by apply page_u64|cbn; unfold in_u; lia].
  cbn [tx_addr tx_length tx_frame]. rewrite Nat2Z.id, (ld_frame _ _ _ _ _ _ Hl).
  rewrite transmit_S. cbn [regs set_wire]. change (regs (set_reg REG_TDH ((0 + 1) mod (128 / 16)) c) REG_TDT)
    with (regs c REG_TDT). rewrite (ar_tdt _ _ _ Ha). done.
Qed.

(** ** Receiving *)

Definition rx_written (f : list Z) : list Z :=
  le_bytes 2 (Z.of_nat (length f)) ++ [0; 0; Z.lor RXD_STAT_DD RXD_STAT_EOP; 0; 0; 0].

(** RAM once frame [f] is in the buffer and in descriptor 0. *)
Definition rx_ram (rxr rxb : Z) (f : list Z) (m : Ram) : Ram :=
  write_bytes (at_phys rxr + 8) (rx_written f) (write_bytes (at_phys rxb) f m).

Record waiting (rxr rxb : Z) (m : Ram) (c : Card) : Prop := {
  wt_desc : read_bytes m (at_phys rxr) 16 = rx_bytes (rx_empty rxb);
  wt_rdba : reg64 REG_RDBAL REG_RDBAH c = rxr;
  wt_rdlen : regs c REG_RDLEN = 128;
  wt_rdh : regs c REG_RDH = 0;
  wt_rdt : regs c REG_RDT = 1;
  wt_rctl : regs c REG_RCTL = Z.lor (Z.lor RCTL_EN RCTL_BAM) RCTL_SECRC;
  wt_master : bus_master c = true;
}.

(** The first frame of [fs] the card takes. *)
Definition first_taken (mac : list Z) (fs : list (list Z)) : option (list Z) := List.find (takes mac true) fs.

Lemma receive_taken rxr rxb f m c :
  waiting rxr rxb m c -> page rxb -> takes (own_mac c) true f = true ->
  receive f (m, c) = (rx_ram rxr rxb f m, set_reg REG_RDH 1 c).
Proof.
  intros Hw Hb Ht. unfold receive, can_receive.
  rewrite (wt_master _ _ _ _ Hw), (wt_rctl _ _ _ _ Hw), (wt_rdh _ _ _ _ Hw), (wt_rdt _ _ _ _ Hw).
  change (Z.testbit _ 15) with true. rewrite Ht.
  change (true && Z.testbit _ 1 && negb (0 =? 1) && true)%bool with true. cbv beta iota zeta.
  unfold head_desc, next_head. rewrite (wt_rdba _ _ _ _ Hw), (wt_rdh _ _ _ _ Hw), (wt_rdlen _ _ _ _ Hw).
  replace (rxr + 16 * 0) with rxr by lia. pose proof (wt_desc _ _ _ _ Hw) as E.
  pose proof (desc_field _ _ _ 0 8 E ltac:(lia)) as Ea. rewrite Z.add_0_r in Ea.
  rewrite Ea, rx_field_addr by (by apply page_u64). done.
Qed.

Lemma receive_passed f m c :
  (regs c REG_RDH = regs c REG_RDT \/
   takes (own_mac c) (Z.testbit (regs c REG_RCTL) 15) f = false) -> receive f (m, c) = (m, c).
Proof.
  intros Hf. unfold receive, can_receive. destruct Hf as [->| ->]; [rewrite Z.eqb_refl|];
    by rewrite ?andb_false_r.
Qed.

Lemma receive_full T fs m c :
  regs c REG_RDH = regs c REG_RDT ->
  foldl (fun rd x => receive x.2 rd) (m, c) (answers_at T fs) = (m, c).
Proof.
  intros He. induction fs as [|f fs IH]; [done|]. cbn [answers_at map foldl snd].
  rewrite receive_passed by (by left). exact IH.
Qed.

Lemma receive_answers rxr rxb T fs m c :
  waiting rxr rxb m c -> page rxb ->
  foldl (fun rd x => receive x.2 rd) (m, c) (answers_at T fs) =
    match first_taken (own_mac c) fs with
    | Some f => (rx_ram rxr rxb f m, set_reg REG_RDH 1 c)
    | None => (m, c)
    end.
Proof.
  intros Hw Hb. induction fs as [|f fs IH]; [done|]. cbn [answers_at map foldl snd first_taken List.find].
  destruct (takes (own_mac c) true f) eqn:Ht.
  - rewrite (receive_taken rxr rxb) by done. apply receive_full. cbn. by rewrite (wt_rdt _ _ _ _ Hw).
  - rewrite receive_passed; [exact IH|]. right. rewrite (wt_rctl _ _ _ _ Hw). exact Ht.
Qed.

Lemma filter_answers (p : Z * list Z -> Prop) `{!forall x, Decision (p x)} T fs :
  (forall f, p (T, f)) -> filter p (answers_at T fs) = answers_at T fs.
Proof.
  intros Hp. induction fs as [|f fs IH]; [done|]. cbn [answers_at map].
  rewrite filter_cons, decide_True by done. by f_equal.
Qed.

Lemma filter_no_answers (p : Z * list Z -> Prop) `{!forall x, Decision (p x)} T fs :
  (forall f, ~ p (T, f)) -> filter p (answers_at T fs) = [].
Proof.
  intros Hp. induction fs as [|f fs IH]; [done|]. cbn [answers_at map].
  by rewrite filter_cons, decide_False.
Qed.

(** Nothing arrives early. *)
Lemma settle_early t T fs m c :
  tx_due c = None -> arriving c = answers_at T fs -> t < T -> settle t (m, c) = (m, c).
Proof.
  intros Hd Ha Ht. unfold settle. rewrite Hd. unfold deliver. rewrite Ha.
  rewrite (filter_no_answers (fun x => x.1 <= t)), (filter_answers (fun x => ~ x.1 <= t))
    by (intros; cbn; lia). cbn [foldl].
  f_equal. destruct c; cbn in *. by rewrite Ha.
Qed.

(** All of it arrives on time. *)
Lemma settle_arrival rxr rxb T fs m c :
  tx_due c = None -> arriving c = answers_at T fs -> waiting rxr rxb m c -> page rxb ->
  settle T (m, c) =
    match first_taken (own_mac c) fs with
    | Some f => (rx_ram rxr rxb f m, set_reg REG_RDH 1 (set_wire (sent c) [] c))
    | None => (m, set_wire (sent c) [] c)
    end.
Proof.
  intros Hd Ha Hw Hb. unfold settle. rewrite Hd. unfold deliver. rewrite Ha.
  rewrite (filter_answers (fun x => x.1 <= T)), (filter_no_answers (fun x => ~ x.1 <= T))
    by (intros; cbn; lia).
  refine (receive_answers rxr rxb T fs m (set_wire (sent c) [] c) _ Hb). destruct Hw. by split.
Qed.

(** ** Ticks *)

(** The board once the card has done what it can at this time. *)
Definition stl (s : Pc) : Pc := with_both (b_time s) (settle (b_time s) (b_ram s, b_dev s)) s.

Lemma iter_stl k (s : Pc) :
  (forall j, (j < k)%nat -> settle (b_time s + Z.of_nat j) (b_ram s, b_dev s) = (b_ram s, b_dev s)) ->
  Nat.iter k halt (stl s) = stl (set_time (b_time s + Z.of_nat k) s).
Proof.
  induction k as [|k IH]; intros Hj; [cbn; rewrite Z.add_0_r; by destruct s|].
  rewrite Nat.iter_succ, IH by (intros; apply Hj; lia).
  assert (E : stl (set_time (b_time s + Z.of_nat k) s) = set_time (b_time s + Z.of_nat k) s).
  { unfold stl. cbn [set_time b_time b_ram b_dev]. rewrite Hj by lia. exact eq_refl. }
  rewrite E. replace (b_time s + Z.of_nat (S k)) with (b_time s + Z.of_nat k + 1) by lia. exact eq_refl.
Qed.

Lemma stl_early k s :
  settle (b_time s + Z.of_nat k) (b_ram s, b_dev s) = (b_ram s, b_dev s) ->
  stl (set_time (b_time s + Z.of_nat k) s) = set_time (b_time s + Z.of_nat k) s.
Proof. intros E. unfold stl. cbn [set_time b_time b_ram b_dev]. rewrite E. exact eq_refl. Qed.

Lemma timer_ticks_run (s : Pc) : timer_ticks s = (Ok (b_time s), s).
Proof. done. Qed.

Lemma read_status_run f (s : Pc) :
  page f -> read_status (at_phys f) s = (Ok (b_ram s (at_phys f + 12)), s).
Proof.
  intros Hp. unfold read_status. rewrite read_le_ram by (by apply page_not_register).
  change (le_of (read_bytes (b_ram s) (at_phys f + 12) 1))
    with (b_ram s (at_phys f + 12 + 0) + 256 * 0). by rewrite !Z.add_0_r.
Qed.

(** ** The wait for the card to take the frame *)

Section Run.
Context (rxr rxb txr txb : Z) (frame : list Z).
Context (Hrxr : page rxr) (Hrxb : page rxb) (Htxr : page txr) (Htxb : page txb).
Context (Horder : rxr + 4096 <= rxb /\ rxb + 4096 <= txr /\ txr + 4096 <= txb).
Context (Hframe : (length frame <= 4096)%nat).

Lemma rx_ram_elsewhere f m x :
  (length f <= 4096)%nat -> at_phys txr <= x -> rx_ram rxr rxb f m x = m x.
Proof.
  intros Hf Hx. rewrite at_phys_id in Hx by done. unfold rx_ram.
  rewrite !at_phys_id by done. rewrite !write_bytes_out; [done|lia|].
  change (length (rx_written f)) with 8%nat. lia.
Qed.

Lemma first_taken_short mac fs f : first_taken mac fs = Some f -> (length f <= 1518)%nat.
Proof.
  intros Hf. apply List.find_some in Hf as [_ Hf]. unfold takes in Hf. apply andb_true_iff in Hf as [_ Hf].
  by apply Nat.leb_le.
Qed.

(** The board when the frame has gone out and nothing has come in. *)
Definition sent_board (s : Pc) : Pc :=
  mk_Board (write_bytes (at_phys txr + 12) [1] (b_ram s)) (b_frames s) (b_time s + Z.of_nat tx_delay)
    (out (b_time s + Z.of_nat tx_delay) frame (set_due None (b_dev s))).

Lemma sent_board_regs s : regs32 (b_dev s) -> regs32 (b_dev (sent_board s)).
Proof.
  intros Hr o. specialize (Hr o). unfold sent_board, out.
  cbn [b_dev set_wire regs set_reg set_due]. by destruct (o =? REG_TDH).
Qed.

(** Handed over, not yet taken. *)
Record handed (s : Pc) : Prop := {
  hd_due : tx_due (b_dev s) = Some (b_time s + Z.of_nat tx_delay);
  hd_wire : arriving (b_dev s) = [];
  hd_loaded : loaded rxr rxb txr txb frame (b_ram s);
  hd_armed : armed rxr txr (b_dev s);
}.

Lemma handed_early s j : handed s -> (j < tx_delay)%nat ->
  settle (b_time s + Z.of_nat j) (b_ram s, b_dev s) = (b_ram s, b_dev s).
Proof.
  intros Hs Hj. unfold settle. rewrite (hd_due _ Hs), (proj2 (Z.leb_gt _ _)) by lia.
  apply deliver_quiet, Hs.
Qed.

Lemma handed_sent s : handed s ->
  stl (set_time (b_time s + Z.of_nat tx_delay) s) = stl (sent_board s).
Proof.
  intros Hs. unfold stl. cbn [set_time sent_board b_time b_ram b_dev]. set (T := b_time s + Z.of_nat tx_delay).
  assert (E : settle T (b_ram s, b_dev s) =
    settle T (write_bytes (at_phys txr + 12) [1] (b_ram s), out T frame (set_due None (b_dev s)))).
  { unfold settle. rewrite (hd_due _ Hs). fold T. rewrite Z.leb_refl.
    rewrite (ar_can _ _ _ (hd_armed _ Hs)).
    rewrite (transmit_run T _ (set_due None (b_dev s)) rxr rxb txr txb frame); [done|apply Hs| |done..].
    destruct (hd_armed _ Hs). by split. }
  rewrite E. exact eq_refl.
Qed.

Lemma handed_waiting s : handed s ->
  waiting rxr rxb (b_ram (sent_board s)) (b_dev (sent_board s)).
Proof.
  intros Hs. destruct (hd_armed _ Hs) as [A1 A2 A3 A4 A5 _ _ _ _ _ A11].
  split; try done. cbn [sent_board b_ram].
  rewrite read_bytes_out; [apply Hs|]. rewrite !at_phys_id by done. cbn. lia.
Qed.

Lemma handed_wire s : handed s ->
  arriving (b_dev (sent_board s)) = answers_at (b_time (sent_board s) + Z.of_nat rtt) (peer frame).
Proof.
  intros Hs. unfold sent_board, out. cbn [b_dev set_wire arriving set_due b_time]. by rewrite (hd_wire _ Hs).
Qed.

(** What the card took is marked done, whatever comes in at the same tick. *)
Lemma sent_status s : handed s -> b_ram (stl (sent_board s)) (at_phys txr + 12) = 1.
Proof.
  intros Hs. unfold stl. cbn [with_both b_ram]. set (s' := sent_board s).
  assert (E1 : b_ram s' (at_phys txr + 12) = 1).
  { pose proof (write_bytes_in (at_phys txr + 12) [1] (b_ram s) 0 1 eq_refl) as E.
    change (Z.of_nat 0) with 0 in E. rewrite Z.add_0_r in E. exact E. }
  pose proof (handed_wire s Hs) as Ew. fold s' in Ew.
  destruct (decide (rtt = 0%nat)) as [Hr|Hr].
  - rewrite (settle_arrival rxr rxb (b_time s') (peer frame)); [|done| |by apply handed_waiting|done].
    2:{ rewrite Ew, Hr. f_equal. apply Z.add_0_r. }
    destruct (first_taken _ _) as [f|] eqn:Ef; cbn [fst]; [|done].
    rewrite rx_ram_elsewhere; [done| |lia]. apply first_taken_short in Ef. lia.
  - rewrite (settle_early _ (b_time s' + Z.of_nat rtt) (peer frame)) by (done || lia). done.
Qed.

Lemma wait_tx_run fuel s :
  handed s -> (tx_delay <= 91)%nat -> (93 <= fuel)%nat ->
  wait_tx fuel (at_phys txr) (stl s) = (Ok true, stl (sent_board s)).
Proof.
  intros Hs Hd Hf. unfold wait_tx. rewrite bind_run, timer_ticks_run. cbn [stl with_both b_time].
  replace fuel with (tx_delay + S (fuel - tx_delay - 1))%nat by lia.
  assert (Hi : forall k, (k <= tx_delay)%nat ->
    Nat.iter k halt (stl s) = stl (set_time (b_time s + Z.of_nat k) s)).
  { intros k Hk. apply iter_stl. intros j Hj. apply handed_early; [done|lia]. }
  rewrite bind_run, until_idles.
  - rewrite Hi, handed_sent by done. erewrite until_done; [done|].
    rewrite bind_run, read_status_run, sent_status by done. done.
  - intros k Hk. rewrite Hi by lia. rewrite stl_early by (by apply handed_early).
    rewrite bind_run, read_status_run by done. cbn [set_time b_ram].
    pose proof (desc_byte _ _ _ 12 0 (ld_tx _ _ _ _ _ _ (hd_loaded _ Hs)) eq_refl) as E.
    change (Z.of_nat 12) with 12 in E. by rewrite E.
  - change (b_time (stl s)) with (b_time s). lia.
Qed.

(** ** The wait for an answer *)

(** The answers [fs] are on their way, all due at the same time. *)
Record expecting (fs : list (list Z)) (s : Pc) : Prop := {
  ex_due : tx_due (b_dev s) = None;
  ex_wire : arriving (b_dev s) = answers_at (b_time s + Z.of_nat rtt) fs;
  ex_waiting : waiting rxr rxb (b_ram s) (b_dev s);
}.

(** The board that has what it needs for the next exchange, and has sent no more. *)
Record settled (s s' : Pc) : Prop := {
  st_quiet : quiet (b_dev s');
  st_frames : b_frames s' = b_frames s;
  st_sent : sent (b_dev s') = sent (b_dev s);
  st_host : host (b_dev s') = host (b_dev s);
  st_regs : regs32 (b_dev s) -> regs32 (b_dev s');
  st_ral : regs (b_dev s') REG_RAL0 = regs (b_dev s) REG_RAL0;
  st_rah : regs (b_dev s') REG_RAH0 = regs (b_dev s) REG_RAH0;
}.

(** The board when the answers are in. *)
Definition answered (fs : list (list Z)) (s : Pc) : Pc :=
  let t := b_time s + Z.of_nat rtt in
  let c := set_wire (sent (b_dev s)) [] (b_dev s) in
  match first_taken (own_mac (b_dev s)) fs with
  | Some f => mk_Board (rx_ram rxr rxb f (b_ram s)) (b_frames s) t (set_reg REG_RDH 1 c)
  | None => mk_Board (b_ram s) (b_frames s) t c
  end.

Lemma settled_answered fs s : expecting fs s -> settled s (answered fs s).
Proof.
  intros Hs. unfold answered. destruct (first_taken _ _); split; try done; try by destruct Hs.
  intros Hr. by apply regs32_set.
Qed.

Lemma settled_later k s s' : settled s s' -> settled s (Nat.iter k halt s').
Proof.
  intros Hs. rewrite iter_halt_quiet by apply Hs. destruct Hs. by split.
Qed.

Lemma expecting_early fs s j : expecting fs s -> (j < rtt)%nat ->
  settle (b_time s + Z.of_nat j) (b_ram s, b_dev s) = (b_ram s, b_dev s).
Proof.
  intros Hs Hj. apply (settle_early _ (b_time s + Z.of_nat rtt) fs); [apply Hs|apply Hs|lia].
Qed.

Lemma expecting_arrival fs s : expecting fs s ->
  stl (set_time (b_time s + Z.of_nat rtt) s) = answered fs s.
Proof.
  intros Hs. unfold stl, answered. cbn [set_time b_time b_ram b_dev].
  rewrite (settle_arrival rxr rxb _ fs); [|apply Hs..|done].
  destruct (first_taken _ _); exact eq_refl.
Qed.

Lemma received_nothing (s : Pc) :
  b_ram s (at_phys rxr + 12) = 0 -> received (at_phys rxr) (at_phys rxb) s = (Ok None, s).
Proof. intros E. unfold received. rewrite bind_run, read_status_run by done. by rewrite E. Qed.

Lemma waiting_status m c : waiting rxr rxb m c -> m (at_phys rxr + 12) = 0.
Proof.
  intros Hw. pose proof (desc_byte _ _ _ 12 0 (wt_desc _ _ _ _ Hw) eq_refl) as E.
  by change (Z.of_nat 12) with 12 in E.
Qed.

Lemma received_frame f m (s : Pc) :
  (length f <= 1518)%nat -> b_ram s = rx_ram rxr rxb f m ->
  received (at_phys rxr) (at_phys rxb) s = (Ok (Some f), s).
Proof.
  intros Hf E. unfold received. rewrite bind_run, read_status_run by done.
  assert (Hw : read_bytes (b_ram s) (at_phys rxr + 8) 8 = rx_written f).
  { rewrite E. apply read_bytes_in. done. }
  assert (Hs : b_ram s (at_phys rxr + 12) = 3).
  { rewrite E. unfold rx_ram. replace (at_phys rxr + 12) with (at_phys rxr + 8 + Z.of_nat 4) by lia.
    by apply write_bytes_in. }
  rewrite Hs. change (dd 3) with true. cbv iota.
  rewrite bind_run, read_le_ram by (by apply page_not_register).
  pose proof (read_bytes_part _ _ _ _ 0 2 Hw ltac:(lia)) as Hl.
  change (Z.of_nat 0) with 0 in Hl. rewrite Z.add_0_r in Hl. rewrite Hl. unfold rx_written.
  rewrite drop_0, take_app_length' by (by rewrite length_le_bytes).
  rewrite le_round by lia. rewrite Nat2Z.id.
  rewrite bind_run, read_ram_run by (rewrite <- (Z.add_0_r (at_phys rxb)); by apply page_not_register).
  assert (Hd : read_bytes (b_ram s) (at_phys rxb) (length f) = f).
  { rewrite E. unfold rx_ram. rewrite read_bytes_out; [by apply read_bytes_in|].
    change (length (rx_written f)) with 8%nat. rewrite !at_phys_id by done. lia. }
  by rewrite Hd.
Qed.

(** A check of the first answer, and nothing without one. *)
Definition verdict {A} (accept : list Z -> res (option A)) (o : option (list Z)) : res (option A) :=
  match o with Some f => accept f | None => Ok None end.

(** The turn of [wait_rx]. *)
Definition rx_turn {A} (accept : list Z -> res (option A)) (_ : unit) : M Pc (turn unit A) :=
  o ← received (at_phys rxr) (at_phys rxb);
  match o with
  | None => mret (Idle tt)
  | Some data =>
      a ← lift (accept data);
      match a with
      | Some a => mret (Done a)
      | None =>
          write_mem (at_phys rxr) (rx_bytes (rx_empty rxb));;
          write_reg window REG_RDT 1;;
          mret (Idle tt)
      end
  end.

(** From a quiet board with an empty descriptor the wait runs out. *)
Lemma rx_turns_out {A} (accept : list Z -> res (option A)) fuel start s s0 :
  settled s0 s -> b_ram s (at_phys rxr + 12) = 0 ->
  0 <= b_time s - start <= 91 -> (Z.to_nat (91 - (b_time s - start)) < fuel)%nat ->
  exists s', until_ticks fuel start (rx_turn accept) tt s = (Ok (TimedOut tt), s') /\ settled s0 s'.
Proof.
  intros Hs Hm Ht Hf. eexists. split.
  - apply until_silent; [done| |done]. intros k. unfold rx_turn.
    rewrite iter_halt_quiet by apply Hs. by rewrite bind_run, received_nothing.
  - by apply settled_later.
Qed.

(** Arming the descriptor again. *)
Lemma rearm_run {A} (accept : list Z -> res (option A)) f m s0 s :
  settled s0 s -> (length f <= 1518)%nat -> b_ram s = rx_ram rxr rxb f m -> accept f = Ok None ->
  exists s', rx_turn accept tt s = (Ok (Idle tt), s') /\ settled s0 s' /\
    b_time s' = b_time s /\ b_ram s' (at_phys rxr + 12) = 0.
Proof.
  intros Hs Hf E Ha. unfold rx_turn. rewrite bind_run, (received_frame f m), bind_run, Ha by done.
  cbn [lift]. rewrite bind_run, write_ram_run by (rewrite <- (Z.add_0_r (at_phys rxr)); by apply page_not_register).
  rewrite write_reg_step; [|split; (done || lia)|split; done|apply Hs|done].
  eexists. split; [done|]. split; [|split; [done|]].
  { destruct Hs as [Q1 Q2 Q3 Q4 Q5 Q6 Q7]. split; try done. intros Hr. apply regs32_set; [done|]. by apply Q5. }
  cbn [on_dev with_dev b_ram set_ram].
  pose proof (write_bytes_in (at_phys rxr) (rx_bytes (rx_empty rxb)) (b_ram s) 12 0 eq_refl) as Hb.
  exact Hb.
Qed.

Lemma wait_rx_run {A} (accept : list Z -> res (option A)) fuel fs s :
  expecting fs s -> (rtt <= 91)%nat -> (93 <= fuel)%nat ->
  exists s', wait_rx fuel window rxr rxb accept (stl s) =
    (verdict accept (first_taken (own_mac (b_dev s)) fs), s') /\ settled s s'.
Proof.
  intros Hs Hd Hf. unfold wait_rx. rewrite bind_run, timer_ticks_run. rewrite !virt_at.
  change (b_time (stl s)) with (b_time s).
  assert (Hi : forall k, (k <= rtt)%nat ->
    Nat.iter k halt (stl s) = stl (set_time (b_time s + Z.of_nat k) s)).
  { intros k Hk. apply iter_stl. intros j Hj. apply (expecting_early fs); [done|lia]. }
  replace fuel with (rtt + S (fuel - rtt - 1))%nat by lia.
  rewrite bind_run, until_idles.
  2:{ intros k Hk. rewrite Hi by lia. rewrite stl_early by (by apply (expecting_early fs)).
      rewrite bind_run, received_nothing; [done|]. by eapply waiting_status, Hs. }
  2:{ change (b_time (stl s)) with (b_time s). lia. }
  rewrite Hi, expecting_arrival with (fs := fs) by done.
  change (fun _ : unit => _) with (rx_turn accept).
  pose proof (settled_answered fs s Hs) as Hset. unfold answered in *.
  destruct (first_taken _ fs) as [f|] eqn:Ef; cbn [verdict].
  - apply first_taken_short in Ef. set (s1 := mk_Board _ _ _ _) in *.
    assert (Et : b_time s1 = b_time s + Z.of_nat rtt) by done.
    assert (Er : rx_turn accept tt s1 = (a ← lift (accept f);
      match a with
      | Some a => mret (Done a)
      | None => write_mem (at_phys rxr) (rx_bytes (rx_empty rxb));; write_reg window REG_RDT 1;; mret (Idle tt)
      end) s1) by (unfold rx_turn; by rewrite bind_run, (received_frame f (b_ram s))).
    destruct (accept f) as [[a|]|e| |] eqn:Ea.
    2:{ destruct (rearm_run accept f (b_ram s) s s1 Hset Ef eq_refl Ea) as (s2 & E2 & Hs2 & Ht2 & Hm2).
        destruct (decide (rtt <= 90)%nat).
        - rewrite (until_idle _ _ _ _ tt _ s2) by (done || lia). rewrite halt_quiet by apply Hs2.
          destruct (rx_turns_out accept (fuel - rtt - 1) (b_time s) (set_time (b_time s2 + 1) s2) s)
            as (s3 & -> & Hs3); [destruct Hs2; by split|done|cbn; lia|cbn; lia|by eexists].
        - rewrite (until_timeout _ _ _ _ tt _ s2) by (done || lia). by eexists. }
    all: cbn [until_ticks]; rewrite bind_run, Er; by eexists.
  - set (s1 := mk_Board _ _ _ _) in *.
    destruct (rx_turns_out accept (S (fuel - rtt - 1)) (b_time s) s1 s) as (s3 & -> & Hs3);
      [done|by eapply waiting_status, Hs|cbn; lia|cbn; lia|by eexists].
Qed.
End Run.

(** ** Frames to work in *)

(** At least [n] more frames, all from [lo] on. *)
Definition supply (n : nat) (lo : Z) (g : FRAME_ALLOCATOR) : Prop :=
  exists a, g = Some a /\ 0 <= next a /\ next a + Z.of_nat n < 2 ^ 64 /\
    map_sorted 0 (memory_regions a) /\ Forall (fun r => r_end r <= limit) (memory_regions a) /\
    forall i, 0 <= i < Z.of_nat n ->
      exists f, usable_frame (fun a => a / 4096 * 4096) a (next a + i) = Some f /\ lo <= f.

Lemma frame_page a n f :
  map_sorted 0 (memory_regions a) -> Forall (fun r => r_end r <= limit) (memory_regions a) -> 0 <= n ->
  usable_frame (fun a => a / 4096 * 4096) a n = Some f -> page f.
Proof.
  intros Hs Hl Hn Hf. unfold usable_frame in Hf. destruct (usable_address _ _) as [x|] eqn:E; [|done].
  injection Hf as <-. destruct (usable_address_range 0 _ (4096 * n) _ Hs ltac:(lia) E) as (H0 & r & Hr & _ & Hx).
  pose proof (proj1 (List.Forall_forall _ _) Hl r (proj1 (list_elem_of_In _ _) Hr)) as Hrl. cbn in Hrl.
  split; [|split]; [div_lia|div_lia|apply Z.mod_mul; lia].
Qed.

Lemma supply_take n lo (s : Pc) :
  supply (S n) lo (b_frames s) ->
  exists f g, allocate_frame s = (Ok f, mk_Board (b_ram s) g (b_time s) (b_dev s)) /\
    page f /\ lo <= f /\ supply n (f + 4096) g.
Proof.
  intros (a & Hg & H0 & Hn & Hs & Hl & Hf). destruct (Hf 0 ltac:(lia)) as (f & Ef & Hlo).
  rewrite Z.add_0_r in Ef. exists f, (Some (mk_Alloc (memory_regions a) (u64 (next a + 1)))).
  split; [|split; [by eapply frame_page|split; [done|]]].
  - unfold allocate_frame. cbn [frames frame_start board_machine]. rewrite Hg.
    cbn [allocate_global PhysMem.allocate_frame]. by rewrite Ef.
  - eexists. split; [done|]. cbn [next memory_regions]. rewrite wrap_id by (unfold in_u; lia).
    split; [lia|]. split; [lia|]. split; [done|]. split; [done|]. intros i Hi.
    destruct (Hf (1 + i) ltac:(lia)) as (f' & Ef' & _). exists f'.
    replace (next a + 1 + i) with (next a + (1 + i)) by lia. split; [exact Ef'|].
    apply (usable_frame_disjoint (fun a => a / 4096 * 4096) ltac:(by intros ?) a (next a) (next a + (1 + i)));
      by first [lia|done].
Qed.

(** ** An exchange *)

(** A board whose card is idle and may use DMA, with frames for [n] more rings. *)
Record ready (n : nat) (s : Pc) : Prop := {
  rd_quiet : quiet (b_dev s);
  rd_master : bus_master (b_dev s) = true;
  rd_regs : regs32 (b_dev s);
  rd_supply : exists lo, supply n lo (b_frames s);
}.

Lemma launch (s : Pc) :
  regs (b_dev s) REG_TDH = 0 ->
  write_reg window REG_TDT 1 s =
    (Ok tt, stl (on_dev (fun c => set_due (Some (b_time s + Z.of_nat tx_delay)) (set_reg REG_TDT 1 c)) s)).
Proof.
  intros Hh. unfold write_reg, write_le, write_mem. cbn [store board_machine].
  rewrite register_decodes by (split; done). cbn [reg_store e1000_device]. unfold write_register.
  replace (window + REG_TDT - window) with REG_TDT by lia. rewrite le_round by done.
  cbv zeta. change (regs (set_reg REG_TDT 1 (b_dev s)) REG_TDT) with 1.
  change (regs (set_reg REG_TDT 1 (b_dev s)) REG_TDH) with (regs (b_dev s) REG_TDH). rewrite Hh. exact eq_refl.
Qed.

Lemma lor_slu c : Z.testbit (Z.lor c CTRL_SLU) 6 = true.
Proof. rewrite Z.lor_spec. change (Z.testbit CTRL_SLU 6) with true. apply orb_true_r. Qed.

(** The card's registers once both rings are armed and the tail is moved. *)
Lemma armed_setup rxr txr d c :
  page rxr -> page txr -> bus_master c = true ->
  armed rxr txr (set_due d (set_reg REG_TDT 1 (tx_setup txr (rx_setup rxr 1 c)))).
Proof.
  intros Hr Ht Hm. split; try done.
  - exact (halves rxr (page_u64 _ Hr)).
  - exact (halves txr (page_u64 _ Ht)).
  - unfold can_transmit. apply andb_true_iff. split; [apply andb_true_iff; split; done|]. apply lor_slu.
Qed.

(** RAM once both rings and the frame are written. *)
Lemma loaded_ram rxr rxb txr txb frame m :
  page rxr -> page rxb -> page txr -> page txb ->
  rxr + 4096 <= rxb /\ rxb + 4096 <= txr /\ txr + 4096 <= txb -> (length frame <= 4096)%nat ->
  loaded rxr rxb txr txb frame
    (ring_ram txr (tx_bytes tx_empty) (map tx_bytes [tx_frame txb (Z.of_nat (length frame))])
      (write_bytes (at_phys txb) frame
        (ring_ram rxr (rx_bytes (rx_empty 0)) (map (fun b => rx_bytes (rx_empty b)) [rxb]) m))).
Proof.
  intros H1 H2 H3 H4 Ho Hf.
  assert (Hz : length (concat (replicate 8 (tx_bytes tx_empty))) = 128%nat) by done.
  assert (Hd : forall d, length (concat (map tx_bytes [d])) = 16%nat).
  { intros d. cbn [map concat]. by rewrite app_nil_r, length_tx_bytes. }
  unfold ring_ram. split.
  - rewrite !read_bytes_out by (rewrite ?Hz, ?Hd, ?at_phys_id by done; lia).
    cbn [map concat]. rewrite app_nil_r. apply read_bytes_in. by rewrite length_rx_bytes.
  - cbn [map concat]. rewrite app_nil_r. apply read_bytes_in. by rewrite length_tx_bytes.
  - rewrite !(read_bytes_out _ _ (at_phys txr)) by (rewrite ?Hz, ?Hd, ?at_phys_id by done; lia).
    by apply read_bytes_in.
Qed.

(** The board when the frame has been handed over. *)
Definition prepared (rxr rxb txr txb : Z) (frame : list Z) (s : Pc) : Pc :=
  mk_Board
    (ring_ram txr (tx_bytes tx_empty) (map tx_bytes [tx_frame txb (Z.of_nat (length frame))])
      (write_bytes (at_phys txb) frame
        (ring_ram rxr (rx_bytes (rx_empty 0)) (map (fun b => rx_bytes (rx_empty b)) [rxb]) (b_ram s))))
    (b_frames s) (b_time s)
    (set_due (Some (b_time s + Z.of_nat tx_delay)) (set_reg REG_TDT 1 (tx_setup txr (rx_setup rxr 1 (b_dev s))))).

Lemma prepare_run {A} rxr rxb txr txb frame (s : Pc) (k : M Pc A) :
  page rxr -> page txr -> page txb -> quiet (b_dev s) -> in_u 32 (regs (b_dev s) REG_CTRL) ->
  (length frame <= 1518)%nat ->
  (arm_rx window rxr [rxb];;
   write_mem (virt (P := Pc) txb) frame;;
   arm_tx window txr [tx_frame txb (u16 (Z.of_nat (length frame)))];;
   write_reg window REG_TDT 1;; k) s = k (stl (prepared rxr rxb txr txb frame s)).
Proof.
  intros P1 P3 P4 Hq Hc Hlen. rewrite (wrap_id 16) by (unfold in_u; lia).
  rewrite bind_run, arm_rx_run by first [done|cbn; lia].
  rewrite bind_run, virt_at, write_ram_run by (rewrite <- (Z.add_0_r (at_phys txb)); by apply page_not_register).
  rewrite bind_run, arm_tx_run by first [done|cbn; lia].
  rewrite bind_run, launch by exact eq_refl. exact eq_refl.
Qed.

Lemma prepared_due rxr rxb txr txb frame (s : Pc) :
  tx_due (b_dev (prepared rxr rxb txr txb frame s)) =
    Some (b_time (prepared rxr rxb txr txb frame s) + Z.of_nat tx_delay).
Proof. exact eq_refl. Qed.

Lemma prepared_wire rxr rxb txr txb frame (s : Pc) :
  quiet (b_dev s) -> arriving (b_dev (prepared rxr rxb txr txb frame s)) = [].
Proof. intros Hq. exact (proj2 Hq). Qed.

Lemma prepared_loaded rxr rxb txr txb frame (s : Pc) :
  page rxr -> page rxb -> page txr -> page txb ->
  rxr + 4096 <= rxb /\ rxb + 4096 <= txr /\ txr + 4096 <= txb -> (length frame <= 1518)%nat ->
  loaded rxr rxb txr txb frame (b_ram (prepared rxr rxb txr txb frame s)).
Proof. intros. unfold prepared. cbn [b_ram]. apply loaded_ram; first [assumption|lia]. Qed.

Lemma prepared_armed rxr rxb txr txb frame (s : Pc) :
  page rxr -> page txr -> bus_master (b_dev s) = true ->
  armed rxr txr (b_dev (prepared rxr rxb txr txb frame s)).
Proof. intros. unfold prepared. cbn [b_dev]. apply armed_setup; assumption. Qed.

Lemma prepared_handed rxr rxb txr txb frame (s : Pc) :
  page rxr -> page rxb -> page txr -> page txb ->
  rxr + 4096 <= rxb /\ rxb + 4096 <= txr /\ txr + 4096 <= txb -> (length frame <= 1518)%nat ->
  quiet (b_dev s) -> bus_master (b_dev s) = true ->
  handed rxr rxb txr txb frame (prepared rxr rxb txr txb frame s).
Proof.
  intros P1 P2 P3 P4 Ho Hlen Hq Hm.
  exact (Build_handed _ _ _ _ _ _ (prepared_due _ _ _ _ _ _) (prepared_wire _ _ _ _ _ _ Hq)
    (prepared_loaded _ _ _ _ _ _ P1 P2 P3 P4 Ho Hlen) (prepared_armed _ _ _ _ _ _ P1 P3 Hm)).
Qed.

Lemma prepared_expecting rxr rxb txr txb frame (s : Pc) :
  page rxr -> page rxb -> page txr -> page txb ->
  rxr + 4096 <= rxb /\ rxb + 4096 <= txr /\ txr + 4096 <= txb -> (length frame <= 1518)%nat ->
  quiet (b_dev s) -> bus_master (b_dev s) = true ->
  expecting rxr rxb (peer frame) (sent_board txr frame (prepared rxr rxb txr txb frame s)).
Proof.
  intros P1 P2 P3 P4 Ho Hlen Hq Hm.
  pose proof (prepared_handed rxr rxb txr txb frame s P1 P2 P3 P4 Ho Hlen Hq Hm) as Hh. split.
  - exact eq_refl.
  - exact (handed_wire rxr rxb txr txb frame _ Hh).
  - apply (handed_waiting rxr rxb txr txb frame); first [assumption|lia].
Qed.

Lemma prepared_regs rxr rxb txr txb frame (s : Pc) :
  regs32 (b_dev s) -> regs32 (b_dev (prepared rxr rxb txr txb frame s)).
Proof.
  intros Hr. unfold prepared, tx_setup, rx_setup. cbn [b_dev].
  apply regs32_due.
  assert (Hc : in_u 32 (Z.lor (regs (b_dev s) REG_CTRL) CTRL_SLU))
    by (apply Pci.lor_bound; [lia|apply Hr|split; done]).
  do 6 (apply regs32_set; [split; done|]). do 2 (apply regs32_set; [apply in_u32_wrap|]).
  apply regs32_set; [exact Hc|]. do 4 (apply regs32_set; [split; done|]).
  do 2 (apply regs32_set; [apply in_u32_wrap|]). exact Hr.
Qed.

Lemma settled_ready rxr rxb txr txb frame n lo (s s' : Pc) :
  quiet (b_dev s) -> bus_master (b_dev s) = true -> regs32 (b_dev s) -> supply n lo (b_frames s) ->
  settled (sent_board txr frame (prepared rxr rxb txr txb frame s)) s' ->
  ready n s' /\ sent (b_dev s') = sent (b_dev s) ++ [frame] /\ own_mac (b_dev s') = own_mac (b_dev s) /\
    host (b_dev s') = host (b_dev s).
Proof.
  intros Hq Hm Hr Hsup [Q1 Q2 Q3 Q4 Q5 Q6 Q7].
  split; [split|split; [exact Q3|split; [|exact Q4]]].
  - exact Q1.
  - unfold bus_master. rewrite Q4. exact Hm.
  - apply Q5, sent_board_regs, prepared_regs, Hr.
  - rewrite Q2. by exists lo.
  - unfold own_mac. rewrite Q6, Q7. exact eq_refl.
Qed.

Lemma exchange_run {A} (accept : list Z -> res (option A)) fuel n frame e (s : Pc) :
  ready (4 + n) s -> (length frame <= 1518)%nat ->
  (tx_delay <= 91)%nat -> (rtt <= 91)%nat -> (93 <= fuel)%nat ->
  exists s', exchange fuel window frame e accept s =
    (verdict accept (first_taken (own_mac (b_dev s)) (peer frame)), s') /\
    ready n s' /\ sent (b_dev s') = sent (b_dev s) ++ [frame] /\ own_mac (b_dev s') = own_mac (b_dev s) /\
    host (b_dev s') = host (b_dev s).
Proof.
  intros [Hq Hm Hr [lo Hsup]] Hlen Htx Hrtt Hfuel. unfold exchange. destruct s as [m g t c].
  destruct (supply_take _ _ _ Hsup) as (rxr & g1 & E1 & P1 & _ & S1). rewrite bind_run, E1.
  cbn [b_ram b_time b_dev].
  destruct (supply_take _ _ (mk_Board m g1 t c) S1) as (rxb & g2 & E2 & P2 & O2 & S2). rewrite bind_run, E2.
  cbn [b_ram b_time b_dev].
  destruct (supply_take _ _ (mk_Board m g2 t c) S2) as (txr & g3 & E3 & P3 & O3 & S3). rewrite bind_run, E3.
  cbn [b_ram b_time b_dev].
  destruct (supply_take _ _ (mk_Board m g3 t c) S3) as (txb & g4 & E4 & P4 & O4 & S4). rewrite bind_run, E4.
  cbn [b_ram b_time b_dev].
  cbn [b_ram b_time b_dev] in *. rewrite prepare_run by first [apply Hr|done]. rewrite virt_at.
  assert (Ho : rxr + 4096 <= rxb /\ rxb + 4096 <= txr /\ txr + 4096 <= txb) by lia.
  pose proof (prepared_handed rxr rxb txr txb frame (mk_Board m g4 t c) P1 P2 P3 P4 Ho Hlen Hq Hm) as Hh.
  pose proof (prepared_expecting rxr rxb txr txb frame (mk_Board m g4 t c) P1 P2 P3 P4 Ho Hlen Hq Hm) as Hx.
  rewrite bind_run, (wait_tx_run rxr rxb txr txb frame P1 P2 P3 P4 Ho ltac:(lia) fuel _ Hh Htx Hfuel). cbn [negb].
  destruct (wait_rx_run rxr rxb txr txb frame P1 P2 Ho ltac:(lia) accept fuel (peer frame) _ Hx Hrtt Hfuel)
    as (s' & E & Hs').
  exists s'. split; [exact E|]. by apply (settled_ready rxr rxb txr txb frame n (txb + 4096) (mk_Board m g4 t c) s' Hq Hm Hr S4 Hs').
Qed.
End Exchange.
