(* ===== verification/E1000Net.v ===== *)
(** * E1000Net: the network clients of the e1000 driver ([net/e1000.rs])

    [ping], [tcp_syn_test], [dns_query_test] and [resolve_hostname] are one exchange
    on fresh rings each; [tcp_echo_test] keeps a connection over five sends and seven
    receive slots. *)
From stdpp Require Import base list numbers strings.
From Stdlib Require Import Lia.
From S2P Require Import Prelude PortIO PhysMem Nic Board E1000.
From S2P Require Icmp Tcp Udp Dns.
From S2P Require Import NetFrame.
Open Scope Z_scope.

(** SLIRP guest default *)
Definition GUEST_IP : list Z := [10; 0; 2; 15].

Definition some_if {A} (b : bool) (a : A) : option A := if b then Some a else None.

(** ** Echo requests *)

Definition PING_IDENTIFIER : Z := 0xABCD.
Definition PING_SEQUENCE : Z := 1.

(** [b"AgentOS real ping"] *)
Definition PING_DATA : list Z :=
  [65; 103; 101; 110; 116; 79; 83; 32; 114; 101; 97; 108; 32; 112; 105; 110; 103].

Definition ping_frame (dest_mac src_mac target_ip : list Z) : list Z :=
  let icmp_message := Icmp.build_icmp_echo false PING_IDENTIFIER PING_SEQUENCE PING_DATA in
  let ipv4_header := Icmp.build_ipv4_header 1 64 Icmp.IP_PROTOCOL_ICMP GUEST_IP target_ip (length icmp_message) in
  let eth_header := Icmp.build_ethernet_header dest_mac src_mac Icmp.ETHERTYPE_IPV4 in
  eth_header ++ ipv4_header ++ icmp_message.

(** [if let Ok(x) = m { .. }] *)
Definition if_ok {A B} (m : res A) (k : A -> res (option B)) : res (option B) :=
  match m with
  | Ok a => k a
  | Err _ => Ok None
  | Panic => Panic
  | Hang => Hang
  end.

Definition accept_ping (target_ip data : list Z) : res (option unit) :=
  let icmp_start := (Icmp.ETHERNET_HEADER_LEN + Icmp.IPV4_HEADER_LEN)%nat in
  ours ← ipv4_from data target_ip icmp_start Icmp.IP_PROTOCOL_ICMP;
  if negb ours then Ok None
  else
    message ← slice data icmp_start (length data);
    if_ok (Icmp.parse_icmp_echo message) (fun info =>
      Ok (some_if (Icmp.is_reply info && (Icmp.identifier info =? PING_IDENTIFIER) &&
                   (Icmp.sequence info =? PING_SEQUENCE)) tt)).

(** ** A TCP connection request *)

Definition SYN_SRC_PORT : Z := 54321.
Definition SYN_INITIAL_SEQ : Z := 0x10000000.

Definition is_syn_ack (info : Tcp.TcpSegmentInfo) (target_port src_port initial_seq : Z) : bool :=
  (Tcp.flags info =? Z.lor Tcp.TCP_FLAG_SYN Tcp.TCP_FLAG_ACK) &&
  (Tcp.source_port info =? target_port) && (Tcp.dest_port info =? src_port) &&
  (Tcp.ack_num info =? u32 (initial_seq + 1)).

Definition accept_syn_ack (target_ip : list Z) (target_port : Z) (data : list Z)
    : res (option Tcp.TcpSegmentInfo) :=
  o ← parse_reply_frame data target_ip GUEST_IP;
  match o with
  | None => Ok None
  | Some (info, _) =>
      if is_syn_ack info target_port SYN_SRC_PORT SYN_INITIAL_SEQ then Ok (Some info)
      else if is_matching_rst info target_port SYN_SRC_PORT
      then Err "tcp_syn_test: connection reset (RST) by peer"
      else Ok None
  end.

(** The frame [tcp_syn_test] assembles itself is the one [build_tcp_frame] makes. *)
Definition syn_frame (dest_mac src_mac target_ip : list Z) (target_port src_port initial_seq : Z)
    : list Z :=
  let tcp_header := Tcp.build_tcp_header GUEST_IP target_ip src_port target_port initial_seq 0
                      Tcp.TCP_FLAG_SYN 65535 [] in
  build_tcp_frame dest_mac src_mac GUEST_IP target_ip tcp_header [].

(** ** A name query *)

Definition DNS_TRANSACTION_ID : Z := 0x1234.
Definition DNS_SRC_PORT : Z := 45678.
Definition DNS_DEST_PORT : Z := 53.

Definition dns_frame (dest_mac src_mac target_ip query : list Z) : list Z :=
  let udp_header := Udp.build_udp_header GUEST_IP target_ip DNS_SRC_PORT DNS_DEST_PORT query in
  let ipv4_header := Icmp.build_ipv4_header 1 64 Udp.IP_PROTOCOL_UDP GUEST_IP target_ip
                       (length udp_header + length query) in
  let eth_header := Icmp.build_ethernet_header dest_mac src_mac Icmp.ETHERTYPE_IPV4 in
  eth_header ++ ipv4_header ++ udp_header ++ query.

Record DnsReply := mk_DnsReply {
  reply_received : bool;
  qr_bit_set : bool;
  answer_count : Z;
  parsed_a_record : option (list Z);
}.

Definition to_option {A} (m : res A) : res (option A) := if_ok m (fun a => Ok (Some a)).

Definition accept_dns (target_ip query data : list Z) : res (option DnsReply) :=
  let ip_start := Icmp.ETHERNET_HEADER_LEN in
  let udp_start := (ip_start + Icmp.IPV4_HEADER_LEN)%nat in
  let dns_start := (udp_start + Udp.UDP_HEADER_LEN)%nat in
  ours ← ipv4_from data target_ip dns_start Udp.IP_PROTOCOL_UDP;
  if negb ours then Ok None
  else
    b0 ← idx data (ip_start + 2); b1 ← idx data (ip_start + 3);
    let ip_total_len := Z.to_nat (be_of [b0; b1]) in
    let real_udp_len := (ip_total_len - Icmp.IPV4_HEADER_LEN)%nat in
    let udp_end := Nat.min (udp_start + real_udp_len) (length data) in
    datagram ← slice data udp_start udp_end;
    if_ok (Udp.parse_udp_datagram target_ip GUEST_IP datagram) (fun info =>
      matched ←
        and_then (Ok ((Udp.dest_port info =? DNS_SRC_PORT) && (Udp.source_port info =? DNS_DEST_PORT) &&
                      (dns_start + 8 <=? udp_end)%nat))
          (id ← slice data dns_start (dns_start + 2);
           Ok (bool_decide (id = be_bytes 2 DNS_TRANSACTION_ID)));
      if negb matched then Ok None
      else
        flags ← idx data (dns_start + 2);
        let qr_bit_set := negb (Z.land flags 0x80 =? 0) in
        c0 ← idx data (dns_start + 6); c1 ← idx data (dns_start + 7);
        let answer_count := be_of [c0; c1] in
        parsed ←
          (if 0 <? answer_count then
             message ← slice data dns_start udp_end;
             to_option (Dns.parse_first_a_record message (length query - Dns.DNS_HEADER_LEN))
           else Ok None);
        Ok (Some (mk_DnsReply true qr_bit_set answer_count parsed))).

(** ** The clients of one exchange *)

Section Clients.
Context {P : Type} `{Machine P}.

Definition ping (fuel : nat) (target_ip : list Z) : M P unit :=
  dest_mac ← arp_resolve fuel target_ip;
  '(mmio_base, src_mac) ← open_card;
  o ← exchange fuel mmio_base (ping_frame dest_mac src_mac target_ip)
        "ping: TX timed out waiting for descriptor DD" (accept_ping target_ip);
  lift (ok_or "ping: timed out waiting for a genuine ICMP echo reply" o).

Definition tcp_syn_test (fuel : nat) (target_ip : list Z) (target_port : Z) : M P Tcp.TcpSegmentInfo :=
  dest_mac ← arp_resolve fuel target_ip;
  '(mmio_base, src_mac) ← open_card;
  o ← exchange fuel mmio_base
        (syn_frame dest_mac src_mac target_ip target_port SYN_SRC_PORT SYN_INITIAL_SEQ)
        "tcp_syn_test: TX timed out waiting for descriptor DD" (accept_syn_ack target_ip target_port);
  lift (ok_or "tcp_syn_test: timed out waiting for a genuine SYN-ACK reply" o).

Definition dns_query_test (fuel : nat) (target_ip hostname : list Z) : M P DnsReply :=
  query ← lift (Dns.build_query DNS_TRANSACTION_ID hostname Dns.DNS_TYPE_A);
  dest_mac ← arp_resolve fuel target_ip;
  '(mmio_base, src_mac) ← open_card;
  o ← exchange fuel mmio_base (dns_frame dest_mac src_mac target_ip query)
        "dns_query_test: TX timed out waiting for descriptor DD" (accept_dns target_ip query);
  mret (default (mk_DnsReply false false 0 None) o).

Definition resolve_hostname (fuel : nat) (hostname dns_server : list Z) : M P (list Z) :=
  r ← dns_query_test fuel dns_server hostname;
  if negb (reply_received r) || negb (qr_bit_set r)
  then lift (Err "resolve_hostname: no valid DNS reply received")
  else lift (ok_or "resolve_hostname: reply contained no parseable A record" (parsed_a_record r)).
End Clients.

(** ** The echo connection *)

Definition NUM_RX_SLOTS : nat := 7.
Definition RX_SLOT_STRIDE : Z := 256.
Definition TX_SLOT_STRIDE : Z := 256.

(** Where a connection lives: the card, the frames, the two ends. *)
Record Conn := mk_Conn {
  c_mmio : Z; c_rx_ring : Z; c_rx_buf : Z; c_tx_ring : Z; c_tx_buf : Z;
  c_dest_mac : list Z; c_src_mac : list Z;
  c_target_ip : list Z; c_target_port : Z; c_src_port : Z; c_initial_seq : Z;
}.

Section Echo.
Context {P : Type} `{Machine P} (fuel : nat).

Definition tcp_segment_frame (c : Conn) (seq_num ack_num flags : Z) (payload : list Z) : list Z :=
  let header := Tcp.build_tcp_header GUEST_IP (c_target_ip c) (c_src_port c) (c_target_port c)
                  seq_num ack_num flags 65535 payload in
  build_tcp_frame (c_dest_mac c) (c_src_mac c) GUEST_IP (c_target_ip c) header payload.

Definition send_and_wait (c : Conn) (slot : Z) (frame : list Z) : M P unit :=
  write_mem (virt (c_tx_buf c) + slot * TX_SLOT_STRIDE) frame;;
  write_mem (virt (c_tx_ring c) + 16 * slot)
    (tx_bytes (tx_frame (c_tx_buf c + slot * TX_SLOT_STRIDE) (u16 (Z.of_nat (length frame)))));;
  write_reg (c_mmio c) REG_TDT (u32 (slot + 1));;
  ok ← wait_tx fuel (virt (c_tx_ring c) + 16 * slot);
  if (ok : bool) then mret tt else lift (Err "tcp_echo_test: TX timed out waiting for descriptor DD").

(** What receive slot [slot] holds. *)
Definition slot_received (c : Conn) (slot : nat) : M P (option (list Z)) :=
  received (virt (c_rx_ring c) + 16 * Z.of_nat slot)
    (virt (c_rx_buf c) + Z.of_nat slot * RX_SLOT_STRIDE).

Definition parse_slot (c : Conn) (data : list Z) : M P (option (Tcp.TcpSegmentInfo * list Z)) :=
  lift (parse_reply_frame data (c_target_ip c) GUEST_IP).

(** What slot 0 says of the request: an initial sequence number, a reset, neither. *)
Inductive handshake := Accepted (peer_isn : Z) | Reset | Neither.

Definition syn_ack_turn (c : Conn) (_ : unit) : M P (turn unit handshake) :=
  o ← slot_received c 0;
  match o with
  | None => mret (Idle tt)
  | Some data =>
      p ← parse_slot c data;
      mret (Done (match p with
                  | None => Neither
                  | Some (info, _) =>
                      if is_syn_ack info (c_target_port c) (c_src_port c) (c_initial_seq c)
                      then Accepted (Tcp.seq_num info)
                      else if is_matching_rst info (c_target_port c) (c_src_port c) then Reset
                      else Neither
                  end))
  end.

Definition await_syn_ack (c : Conn) : M P handshake :=
  start_tick ← timer_ticks;
  w ← until_ticks fuel start_tick (syn_ack_turn c) tt;
  mret (match w with Ended h => h | TimedOut _ => Neither end).

(** Slots from [slot] on, up to a segment [pick] takes: its value and the slot it
    came in. *)
Definition slot_turn {A} (c : Conn) (pick : Tcp.TcpSegmentInfo -> list Z -> option A) (slot : nat)
    : M P (turn nat (nat * option A)) :=
  if (NUM_RX_SLOTS <=? slot)%nat then mret (Done (slot, None))
  else
    o ← slot_received c slot;
    match o with
    | None => mret (Idle slot)
    | Some data =>
        p ← parse_slot c data;
        mret (match p ≫= (fun '(info, payload) => pick info payload) with
              | Some a => Done (slot, Some a)
              | None => Next (S slot)
              end)
    end.

Definition await_slot {A} (c : Conn) (slot : nat)
    (pick : Tcp.TcpSegmentInfo -> list Z -> option A) : M P (nat * option A) :=
  start_tick ← timer_ticks;
  w ← until_ticks fuel start_tick (slot_turn c pick) slot;
  mret (match w with Ended r => r | TimedOut slot => (slot, None) end).

(** An echo: its bytes, and the peer's sequence number behind them. *)
Definition pick_echo (c : Conn) (expected_ack : Z) (info : Tcp.TcpSegmentInfo) (echoed : list Z)
    : option (list Z * Z) :=
  some_if ((Tcp.source_port info =? c_target_port c) && (Tcp.dest_port info =? c_src_port c) &&
           (Tcp.ack_num info =? expected_ack) && negb (length echoed =? 0)%nat)
    (echoed, u32 (Tcp.seq_num info + Z.of_nat (length echoed))).

Definition pick_fin (c : Conn) (info : Tcp.TcpSegmentInfo) (_ : list Z) : option Z :=
  some_if ((Tcp.source_port info =? c_target_port c) && (Tcp.dest_port info =? c_src_port c) &&
           negb (Z.land (Tcp.flags info) Tcp.TCP_FLAG_FIN =? 0)) (Tcp.seq_num info).

(** Phases 2 to 4: the final ACK, the data, the echo. *)
Definition echo_data (c : Conn) (peer_isn : Z) (payload : list Z) : M P (nat * (list Z * Z)) :=
  let seq := u32 (c_initial_seq c + 1) in
  let ack := u32 (peer_isn + 1) in
  send_and_wait c 1 (tcp_segment_frame c seq ack Tcp.TCP_FLAG_ACK []);;
  send_and_wait c 2
    (tcp_segment_frame c seq ack (Z.lor Tcp.TCP_FLAG_PSH Tcp.TCP_FLAG_ACK) payload);;
  let expected_ack := u32 (seq + Z.of_nat (length payload)) in
  '(slot, o) ← await_slot c 1 (pick_echo c expected_ack);
  echo ← lift (ok_or "tcp_echo_test: timed out waiting for the real echoed data" o);
  mret (S slot, echo).

(** Phases 5 and 6: our FIN, the peer's, and the last ACK; whether the peer closed. *)
Definition close (c : Conn) (slot : nat) (our_seq peer_seq : Z) : M P bool :=
  send_and_wait c 3
    (tcp_segment_frame c our_seq peer_seq (Z.lor Tcp.TCP_FLAG_FIN Tcp.TCP_FLAG_ACK) []);;
  '(_, fin) ← await_slot c slot (pick_fin c);
  match fin with
  | Some seq_num =>
      send_and_wait c 4
        (tcp_segment_frame c (u32 (our_seq + 1)) (u32 (seq_num + 1)) Tcp.TCP_FLAG_ACK []);;
      mret true
  | None => mret false
  end.

Definition echo_rings (c : Conn) : M P unit :=
  arm_rx (c_mmio c) (c_rx_ring c)
    (map (fun i => c_rx_buf c + Z.of_nat i * RX_SLOT_STRIDE) (seq 0 NUM_RX_SLOTS));;
  arm_tx (c_mmio c) (c_tx_ring c) [].

Definition tcp_echo_test (target_ip : list Z) (target_port src_port initial_seq : Z)
    (payload : list Z) : M P (list Z) :=
  dest_mac ← arp_resolve fuel target_ip;
  '(mmio_base, src_mac) ← open_card;
  rx_ring_frame ← allocate_frame;
  rx_buf_frame ← allocate_frame;
  tx_ring_frame ← allocate_frame;
  tx_buf_frame ← allocate_frame;
  let c := mk_Conn mmio_base rx_ring_frame rx_buf_frame tx_ring_frame tx_buf_frame dest_mac src_mac
             target_ip target_port src_port initial_seq in
  echo_rings c;;
  send_and_wait c 0 (tcp_segment_frame c initial_seq 0 Tcp.TCP_FLAG_SYN []);;
  h ← await_syn_ack c;
  match h with
  | Reset => lift (Err "tcp_echo_test: connection reset (RST) by peer")
  | Neither => lift (Err "tcp_echo_test: timed out waiting for a genuine SYN-ACK reply")
  | Accepted peer_isn =>
      '(slot, (echoed, peer_seq)) ← echo_data c peer_isn payload;
      let our_seq := u32 (u32 (initial_seq + 1) + Z.of_nat (length payload)) in
      close c slot our_seq peer_seq;;
      mret echoed
  end.
End Echo.

(** ** Every client returns *)

Lemma if_ok_not_hang {A B} (m : res A) (k : A -> res (option B)) :
  m <> Hang -> (forall a, k a <> Hang) -> if_ok m k <> Hang.
Proof. destruct m; cbn; naive_solver. Qed.

Lemma parse_icmp_echo_not_hang m : Icmp.parse_icmp_echo m <> Hang.
Proof. unfold Icmp.parse_icmp_echo. not_hang. Qed.

Lemma ipv4_from_not_hang data ip n proto : ipv4_from data ip n proto <> Hang.
Proof. unfold ipv4_from, byte_is. not_hang. Qed.

Lemma accept_ping_not_hang ip data : accept_ping ip data <> Hang.
Proof.
  unfold accept_ping. apply res_bind_not_hang; [apply ipv4_from_not_hang|]. intros ours.
  destruct (negb ours); [done|]. apply res_bind_not_hang; [not_hang|]. intros m.
  apply if_ok_not_hang; [apply parse_icmp_echo_not_hang|done].
Qed.

Lemma parse_tcp_segment_not_hang s d m : Tcp.parse_tcp_segment s d m <> Hang.
Proof. unfold Tcp.parse_tcp_segment. not_hang. Qed.

Lemma parse_reply_frame_not_hang data t s : parse_reply_frame data t s <> Hang.
Proof.
  unfold parse_reply_frame, is_our_reply.
  apply res_bind_not_hang; [apply ipv4_from_not_hang|]. intros ours. destruct (negb ours); [done|].
  apply res_bind_not_hang; [not_hang|]. intros b0. apply res_bind_not_hang; [not_hang|]. intros b1.
  apply res_bind_not_hang; [not_hang|]. intros seg.
  pose proof (parse_tcp_segment_not_hang t s seg). destruct (Tcp.parse_tcp_segment t s seg); not_hang.
Qed.

Lemma accept_syn_ack_not_hang ip port data : accept_syn_ack ip port data <> Hang.
Proof. unfold accept_syn_ack. apply res_bind_not_hang; [apply parse_reply_frame_not_hang|]. intros o. not_hang. Qed.

Lemma encode_label_not_hang l n s : (Dns.encode_label l n s).1 <> Hang.
Proof. unfold Dns.encode_label, Dns.push, modify, lift, mbind, M_bind. by repeat case_match. Qed.

Lemma build_query_not_hang id h t : Dns.build_query id h t <> Hang.
Proof.
  assert (Hl : forall ls n s, (for_each (R := unit) ls Dns.encode_label n s).1 <> Hang).
  { induction ls as [|l ls IH]; intros n s; cbn [for_each]; [done|]. rewrite bind_run.
    pose proof (encode_label_not_hang l n s). destruct (Dns.encode_label l n s) as [[[m|]| | |] q]; try done. }
  unfold Dns.build_query, Dns.encode_qname. destruct (_ =? _)%nat; [done|].
  unfold mbind, M_bind, Dns.push, modify, gets.
  match goal with |- context [for_each ?l ?b ?n ?s] =>
    pose proof (Hl l n s); destruct (for_each l b n s) as [[[m|]| | |] q] end; done.
Qed.

Lemma parse_udp_datagram_not_hang s d m : Udp.parse_udp_datagram s d m <> Hang.
Proof. unfold Udp.parse_udp_datagram, Udp.udp_checksum_is_valid. not_hang. Qed.

Lemma accept_dns_not_hang ip query data : accept_dns ip query data <> Hang.
Proof.
  unfold accept_dns. apply res_bind_not_hang; [apply ipv4_from_not_hang|]. intros ours.
  destruct (negb ours); [done|].
  do 2 (apply res_bind_not_hang; [not_hang|]; intros ?). apply res_bind_not_hang; [not_hang|]. intros dg.
  apply if_ok_not_hang; [apply parse_udp_datagram_not_hang|]. intros info.
  apply res_bind_not_hang; [not_hang|]. intros matched. destruct (negb matched); [done|].
  do 3 (apply res_bind_not_hang; [not_hang|]; intros ?).
  apply res_bind_not_hang; [|done]. destruct (0 <? _); [|done].
  apply res_bind_not_hang; [not_hang|]. intros m. apply if_ok_not_hang; [|done].
  apply settles_not_hang, Dns.a_record_settles.
Qed.

Section Waits.
Context {P : Type} `{Timer P} (fuel : nat).

Section Exchanges.
Context (Hfuel : (wait_fuel 0 <= fuel)%nat).

Lemma ends_client {A B} ip (frame : list Z -> Z * list Z -> list Z) e
    (accept : list Z -> res (option A)) (k : option A -> M P B) :
  (forall data, accept data <> Hang) -> (forall o, ends (k o)) ->
  ends (dest_mac ← arp_resolve fuel ip;
        '(mmio_base, src_mac) ← open_card;
        o ← exchange fuel mmio_base (frame dest_mac (mmio_base, src_mac)) e accept;
        k o).
Proof.
  intros Ha Hk. apply ends_bind; [by apply ends_arp_resolve|]. intros dest.
  apply ends_bind; [apply ends_open_card|]. intros [mmio mac].
  apply ends_bind; [by apply ends_exchange|done].
Qed.

Lemma ends_ping ip : ends (ping fuel ip).
Proof.
  apply (ends_client ip (fun dest c => ping_frame dest c.2 ip)); [apply accept_ping_not_hang|]. intros. ends.
Qed.

Lemma ends_tcp_syn_test ip port : ends (tcp_syn_test fuel ip port).
Proof.
  apply (ends_client ip (fun dest c => syn_frame dest c.2 ip port SYN_SRC_PORT SYN_INITIAL_SEQ));
    [apply accept_syn_ack_not_hang|]. intros. ends.
Qed.

Lemma ends_dns_query_test ip h : ends (dns_query_test fuel ip h).
Proof.
  unfold dns_query_test. apply ends_bind; [apply ends_lift, build_query_not_hang|]. intros query.
  apply (ends_client ip (fun dest c => dns_frame dest c.2 ip query)); [apply accept_dns_not_hang|].
  intros. ends.
Qed.

Lemma ends_resolve_hostname h ip : ends (resolve_hostname fuel h ip).
Proof. pose proof ends_dns_query_test. unfold resolve_hostname. ends. Qed.

Lemma ends_send_and_wait c slot frame : ends (send_and_wait fuel c slot frame).
Proof.
  pose proof (fun a => ends_wait_tx fuel Hfuel a). unfold send_and_wait, write_reg. ends.
Qed.

Lemma ends_slot_received c slot : ends (slot_received c slot).
Proof. apply ends_received. Qed.

Lemma ends_await_syn_ack c : ends (await_syn_ack fuel c).
Proof.
  pose proof ends_slot_received. unfold await_syn_ack.
  apply wait_ends with (rank := fun _ => 0%nat); [|intros [] p|done|intros; ends].
  - intros []. unfold syn_ack_turn, parse_slot. apply ends_bind; [done|]. intros [data|]; [|ends].
    apply ends_bind; [apply ends_lift, parse_reply_frame_not_hang|]. intros. apply ends_ret.
  - unfold syn_ack_turn. rewrite bind_run. destruct (slot_received _ _ p) as [[[data|]| | |] q]; try done; [|cbn; lia].
    rewrite bind_run. cbn [parse_slot lift].
    by destruct (parse_reply_frame data _ _) as [[[]|]| | |].
Qed.
End Exchanges.

Lemma ends_await_slot {A} c slot (pick : Tcp.TcpSegmentInfo -> list Z -> option A) :
  (wait_fuel NUM_RX_SLOTS <= fuel)%nat -> ends (await_slot fuel c slot pick).
Proof.
  intros Hf. pose proof ends_slot_received. unfold await_slot.
  apply wait_ends with (rank := fun s => (NUM_RX_SLOTS - s)%nat); [|intros s p| |intros []; ends].
  - intros s. unfold slot_turn, parse_slot. destruct (_ <=? s)%nat; [ends|]. apply ends_bind; [done|].
    intros [data|]; [|ends]. apply ends_bind; [apply ends_lift, parse_reply_frame_not_hang|].
    intros. apply ends_ret.
  - unfold slot_turn. destruct (Nat.leb_spec NUM_RX_SLOTS s); [done|]. rewrite bind_run.
    destruct (slot_received _ _ p) as [[[data|]| | |] q]; try done; [|cbn; lia].
    rewrite bind_run. unfold parse_slot, lift. destruct (parse_reply_frame data _ _) as [o| | |]; try done.
    cbn [mret M_ret fst]. destruct (o ≫= _); [done|lia].
  - unfold wait_fuel in *. lia.
Qed.

Lemma ends_tcp_echo_test ip port src_port seq payload :
  (wait_fuel NUM_RX_SLOTS <= fuel)%nat -> ends (tcp_echo_test fuel ip port src_port seq payload).
Proof.
  intros Hf. assert (Hf0 : (wait_fuel 0 <= fuel)%nat) by (unfold wait_fuel in *; lia).
  unfold tcp_echo_test. apply ends_bind; [by apply ends_arp_resolve|]. intros mac.
  apply ends_bind; [apply ends_open_card|]. intros [mmio src].
  pose proof (ends_send_and_wait Hf0). pose proof (ends_await_syn_ack Hf0).
  pose proof (fun A c s (pick : Tcp.TcpSegmentInfo -> list Z -> option A) => ends_await_slot c s pick Hf).
  pose proof ends_arm_rx. pose proof ends_arm_tx. unfold echo_rings, echo_data, close. ends.
Qed.
End Waits.
