(* ===== verification/E1000Total.v ===== *)
(** * E1000Total: the network clients of the e1000 driver return, and never panic

    Whatever bytes the card delivers, every check of them settles; whatever it does,
    every wait ends.  What is left to panic is the frame allocator, and the theorem
    says how many frames a client needs. *)
From stdpp Require Import base list numbers strings.
From Stdlib Require Import Lia.
From S2P Require Import Prelude PortIO PhysMem Nic Board E1000 E1000Net.
From S2P Require Icmp Tcp Udp Dns Pci.
From S2P Require Import NetFrame.
Open Scope Z_scope.

(** ** The checks of received bytes *)

Lemma Ok_true (b : bool) : Ok b = Ok true -> b = true.
Proof. congruence. Qed.

Lemma same_slices_settles data a b c d :
  (a <= b <= length data)%nat -> (c <= d <= length data)%nat -> settles (same_slices data a b c d).
Proof. intros H1 H2. unfold same_slices. by rewrite !slice_ok by lia. Qed.

Lemma matching_arp_reply_settles ip data : settles (matching_arp_reply ip data).
Proof.
  unfold matching_arp_reply. apply and_then_settles; [done|]. intros Hl%Ok_true%Nat.leb_le.
  do 4 (apply and_then_settles; [apply byte_is_settles; lia|intros _]).
  apply and_then_settles; [apply same_slices_settles; lia|intros _]. by rewrite slice_ok by lia.
Qed.

Lemma accept_arp_settles ip data : settles (accept_arp ip data).
Proof.
  unfold accept_arp. apply settles_bind; [apply matching_arp_reply_settles|]. intros [] E; [|done].
  unfold matching_arp_reply in E. apply and_then_true in E as [Hl%Ok_true%Nat.leb_le _].
  by rewrite slice_ok by lia.
Qed.

Lemma if_ok_settles {A B} (m : res A) (k : A -> res (option B)) :
  settles m -> (forall a, m = Ok a -> settles (k a)) -> settles (if_ok m k).
Proof. destruct m; cbn; auto. Qed.

Lemma parse_icmp_echo_settles m : settles (Icmp.parse_icmp_echo m).
Proof.
  unfold Icmp.parse_icmp_echo, Icmp.ICMP_ECHO_HEADER_LEN. destruct (_ <? _)%nat eqn:E; [done|]. unbool.
  destruct (negb _); [done|]. destruct (idx_lt m 0 ltac:(lia)) as [t ->]. cbn [mbind res_bind].
  apply settles_bind; [by repeat case_match|]. intros b _.
  destruct (idx_lt m 4 ltac:(lia)) as [? ->], (idx_lt m 5 ltac:(lia)) as [? ->],
    (idx_lt m 6 ltac:(lia)) as [? ->], (idx_lt m 7 ltac:(lia)) as [? ->]. done.
Qed.

Lemma accept_ping_settles ip data : settles (accept_ping ip data).
Proof.
  unfold accept_ping. change (Icmp.ETHERNET_HEADER_LEN + Icmp.IPV4_HEADER_LEN)%nat with 34%nat.
  destruct (ipv4_from_cases data ip 34 Icmp.IP_PROTOCOL_ICMP) as ([] & -> & Hl); [done| |done].
  specialize (Hl eq_refl). cbn [mbind res_bind negb]. rewrite slice_ok by lia. cbn [mbind res_bind].
  apply if_ok_settles; [apply parse_icmp_echo_settles|done].
Qed.

Lemma accept_syn_ack_settles ip port data : settles (accept_syn_ack ip port data).
Proof.
  unfold accept_syn_ack. apply settles_bind; [apply parse_reply_frame_settles|].
  intros [[info payload]|] _; [|done]. by repeat case_match.
Qed.

Lemma parse_udp_datagram_settles s d m : settles (Udp.parse_udp_datagram s d m).
Proof. by destruct (Udp.parse_udp_datagram_cases s d m) as [[e ->]|(info & _ & _ & ->)]. Qed.

Lemma accept_dns_settles ip query data : settles (accept_dns ip query data).
Proof.
  unfold accept_dns. change (Icmp.ETHERNET_HEADER_LEN + Icmp.IPV4_HEADER_LEN)%nat with 34%nat.
  change (34 + Udp.UDP_HEADER_LEN)%nat with 42%nat.
  destruct (ipv4_from_cases data ip 42 Udp.IP_PROTOCOL_UDP) as ([] & -> & Hl); [lia| |done].
  specialize (Hl eq_refl). cbn [mbind res_bind negb]. unfold Icmp.ETHERNET_HEADER_LEN.
  destruct (idx_lt data (14 + 2) ltac:(lia)) as [b0 ->], (idx_lt data (14 + 3) ltac:(lia)) as [b1 ->].
  cbn [mbind res_bind].
  set (e := Nat.min (34 + (Z.to_nat (be_of [b0; b1]) - Icmp.IPV4_HEADER_LEN)) (length data)).
  assert (He : (34 <= e <= length data)%nat) by (unfold e; lia). clearbody e.
  rewrite (slice_ok data 34 e) by lia. cbn [mbind res_bind]. apply if_ok_settles; [apply parse_udp_datagram_settles|].
  intros info _. apply settles_bind.
  { apply and_then_settles; [done|]. intros Hi%Ok_true. unbool. by rewrite slice_ok by lia. }
  intros matched Hm. destruct matched; [|done]. cbn [negb].
  apply and_then_true in Hm as [Hi%Ok_true _]. unbool.
  destruct (idx_lt data (42 + 2) ltac:(lia)) as [? ->], (idx_lt data (42 + 6) ltac:(lia)) as [? ->],
    (idx_lt data (42 + 7) ltac:(lia)) as [? ->]. cbn [mbind res_bind].
  apply settles_bind; [|done]. destruct (0 <? _); [|done]. rewrite slice_ok by lia. cbn [mbind res_bind].
  apply if_ok_settles; [apply Dns.a_record_settles|done].
Qed.

Lemma encode_label_settles l n s : settles (Dns.encode_label l n s).1.
Proof. unfold Dns.encode_label, Dns.push, modify, lift, mbind, M_bind. by repeat case_match. Qed.

Lemma build_query_settles id h t : settles (Dns.build_query id h t).
Proof.
  assert (Hl : forall ls n s, settles (for_each (R := unit) ls Dns.encode_label n s).1).
  { induction ls as [|l ls IH]; intros n s; cbn [for_each]; [done|]. rewrite bind_run.
    pose proof (encode_label_settles l n s). destruct (Dns.encode_label l n s) as [[[m|]| | |] q]; try done. }
  unfold Dns.build_query, Dns.encode_qname. destruct (_ =? _)%nat; [done|].
  unfold mbind, M_bind, Dns.push, modify, gets.
  match goal with |- context [for_each ?l ?b ?n ?s] =>
    pose proof (Hl l n s); destruct (for_each l b n s) as [[[m|]| | |] q] end; done.
Qed.

(** ** Frames *)

(** Only [set_frames] changes the frame allocator. *)
Class Allocates (P : Type) `{Machine P} := {
  al_set g p : frames (set_frames g p) = g;
  al_load a n p : frames (load a n p).2 = frames p;
  al_store a bs p : frames (store a bs p) = frames p;
  al_ticks p : frames (ticks p).2 = frames p;
  al_halt p : frames (halt p) = frames p;
  al_inb a p : frames (inb a p).2 = frames p;
  al_inw a p : frames (inw a p).2 = frames p;
  al_inl a p : frames (inl a p).2 = frames p;
  al_outb a v p : frames (outb a v p) = frames p;
  al_outw a v p : frames (outw a v p) = frames p;
  al_outl a v p : frames (outl a v p) = frames p;
}.

#[export] Instance board_allocates D `{Device D} : Allocates (Board D).
Proof. split; intros; cbn; unfold port_read; by repeat case_match. Qed.

Section Spends.
Context {P : Type} `{Allocates P}.

(** The allocator is set up and has [n] frames left. *)
Definition reserve (n : nat) (p : P) : Prop :=
  exists a, frames p = Some a /\ 0 <= next a /\ next a + Z.of_nat n < 2 ^ 64 /\
    forall i, 0 <= i < Z.of_nat n -> is_Some (usable_frame frame_start a (next a + i)).

(** [m] does not panic, and takes no more than [k] frames. *)
Definition spends {A} (k : nat) (m : M P A) : Prop :=
  forall n p, reserve (k + n) p -> (m p).1 <> Panic /\ reserve n (m p).2.

Lemma reserve_less k n p : reserve (k + n) p -> reserve n p.
Proof. intros (a & E & N1 & N2 & N3). exists a. repeat split; try done; [lia|]. intros i Hi. apply N3. lia. Qed.

Lemma reserve_same n p q : frames q = frames p -> reserve n p -> reserve n q.
Proof. unfold reserve. by intros ->. Qed.

Lemma spends_ret {A} (a : A) : spends 0 (mret a : M P A).
Proof. done. Qed.

Lemma spends_lift {A} (r : res A) : settles r -> spends 0 (lift r : M P A).
Proof. intros Hr n p Hp. split; [cbn; by intros ->|exact Hp]. Qed.

Lemma spends_bind {A B} k1 k2 (m : M P A) (k : A -> M P B) :
  spends k1 m -> (forall a, spends k2 (k a)) -> spends (k1 + k2) (m ≫= k).
Proof.
  intros Hm Hk n p Hp. rewrite <- Nat.add_assoc in Hp. destruct (Hm (k2 + n)%nat p Hp) as [N1 N2]. rewrite bind_run.
  destruct (m p) as [[a|e| |] q]; cbn [fst snd] in *; [by apply Hk|by apply reserve_less in N2|done|by apply reserve_less in N2].
Qed.

(** Everything but an allocation is free. *)
Lemma spends_then {A B} k2 (m : M P A) (k : A -> M P B) :
  spends 0 m -> (forall a, spends k2 (k a)) -> spends k2 (m ≫= k).
Proof. apply (spends_bind 0 k2). Qed.

Lemma spends_frame {B} k2 (k : Z -> M P B) : (forall a, spends k2 (k a)) -> spends (S k2) (allocate_frame ≫= k).
Proof.
  apply (spends_bind 1 k2). intros n p (a & E & N1 & N2 & N3). unfold allocate_frame, allocate_global.
  rewrite E. unfold PhysMem.allocate_frame. destruct (N3 0 ltac:(lia)) as [f Hf]. rewrite Z.add_0_r in Hf. rewrite Hf.
  split; [done|]. cbn [snd]. exists (mk_Alloc (memory_regions a) (u64 (next a + 1))).
  split; [apply al_set|]. cbn [next]. rewrite wrap_id by (unfold in_u; lia). split; [lia|]. split; [lia|].
  intros i Hi. rewrite <- Z.add_assoc. apply (N3 (1 + i)). lia.
Qed.

Lemma spends_read_mem a n : spends 0 (read_mem (P := P) a n).
Proof.
  intros j p Hp. unfold read_mem. pose proof (al_load a n p) as E. destruct (load a n p). split; [done|].
  by apply (reserve_same _ p).
Qed.

Lemma spends_write_mem a bs : spends 0 (write_mem (P := P) a bs).
Proof. intros j p Hp. split; [done|]. apply (reserve_same _ p); [apply al_store|done]. Qed.

Lemma spends_read_le n a : spends 0 (read_le (P := P) n a).
Proof. apply spends_then; [apply spends_read_mem|]. intros. apply spends_ret. Qed.

Lemma spends_write_le n a v : spends 0 (write_le (P := P) n a v).
Proof. apply spends_write_mem. Qed.

Lemma spends_timer_ticks : spends 0 (timer_ticks (P := P)).
Proof.
  intros j p Hp. unfold timer_ticks. pose proof (al_ticks p) as E. destruct (ticks p). split; [done|].
  by apply (reserve_same _ p).
Qed.

Lemma spends_hlt : spends 0 (hlt (P := P)).
Proof. intros j p Hp. split; [done|]. apply (reserve_same _ p); [apply al_halt|done]. Qed.

Lemma spends_read_port (f : Z -> P -> Z * P) a :
  (forall p, frames (f a p).2 = frames p) -> spends 0 (read_port f a).
Proof.
  intros Hf j p Hp. specialize (Hf p). unfold read_port. destruct (f a p). split; [done|].
  by apply (reserve_same _ p).
Qed.

Lemma spends_write_port (f : Z -> Z -> P -> P) a v :
  (forall p, frames (f a v p) = frames p) -> spends 0 (write_port f a v).
Proof. intros Hf j p Hp. split; [done|]. exact (reserve_same j p _ (Hf p) Hp). Qed.

Lemma spends_until {B R} fuel t0 (body : B -> M P (turn B R)) b :
  (forall b, spends 0 (body b)) -> spends 0 (until_ticks fuel t0 body b).
Proof.
  intros Hb. revert b. induction fuel as [|f IH]; intros b; cbn [until_ticks]; [by intros j p Hp|].
  apply spends_then; [apply Hb|]. intros [r|b'|b']; [apply spends_ret|apply IH|].
  apply spends_then; [apply spends_timer_ticks|]. intros t. destruct (90 <? _); [apply spends_ret|].
  apply spends_then; [apply spends_hlt|]. intros []. apply IH.
Qed.

(** ** The driver's steps *)

Ltac spends :=
  repeat first
    [ apply spends_ret | apply spends_read_le | apply spends_write_le | apply spends_read_mem | apply spends_write_mem
    | apply spends_timer_ticks | apply spends_hlt
    | apply spends_read_port; intros ?; first [apply al_inb|apply al_inw|apply al_inl]
    | apply spends_write_port; intros ?; first [apply al_outb|apply al_outw|apply al_outl]
    | apply spends_until; intros ?
    | assumption
    | match goal with H : context [spends _ _] |- _ => apply H end
    | apply spends_lift; by auto with kernel
    | apply spends_frame; intros ?
    | apply spends_then; [|intros ?]
    | match goal with |- spends _ (match ?x with _ => _ end) => destruct x end ].

Lemma spends_scan_slots slots : spends 0 (Pci.scan_slots (P := P) slots).
Proof.
  induction slots as [|[d f] slots IH]; cbn [Pci.scan_slots]; [apply spends_ret|].
  unfold Pci.probe, Pci.read_config_dword. spends.
Qed.

Lemma spends_open_card : spends 0 (open_card (P := P)).
Proof.
  pose proof (spends_scan_slots Pci.bus0_slots). unfold open_card, find_mmio_base, find_e1000, find_device, Pci.scan_bus0,
    Pci.read_bar0, Pci.read_config_dword, Pci.enable_bus_mastering, Pci.read_config_word, Pci.write_config_word, read_mac, read_reg.
  spends.
Qed.

Lemma spends_write_descs ring ds : spends 0 (write_descs (P := P) ring ds).
Proof. revert ring. induction ds as [|d ds IH]; intros ring; cbn [write_descs]; spends. Qed.

Lemma spends_arm_rx mmio ring bufs : spends 0 (arm_rx (P := P) mmio ring bufs).
Proof. pose proof spends_write_descs. unfold arm_rx, write_reg. spends. Qed.

Lemma spends_arm_tx mmio ring first : spends 0 (arm_tx (P := P) mmio ring first).
Proof. pose proof spends_write_descs. unfold arm_tx, write_reg, read_reg. spends. Qed.

Lemma spends_wait_tx fuel a : spends 0 (wait_tx (P := P) fuel a).
Proof. unfold wait_tx, read_status. spends. Qed.

Lemma spends_received a b : spends 0 (received (P := P) a b).
Proof. unfold received, read_status. spends. Qed.

Lemma spends_wait_rx {A} fuel mmio ring buf (accept : list Z -> res (option A)) :
  (forall data, settles (accept data)) -> spends 0 (wait_rx (P := P) fuel mmio ring buf accept).
Proof.
  intros Ha. pose proof spends_received. pose proof (fun data => spends_lift (accept data) (Ha data)).
  unfold wait_rx, write_reg. spends.
Qed.

Lemma spends_exchange {A} fuel mmio frame e (accept : list Z -> res (option A)) :
  (forall data, settles (accept data)) -> spends 4 (exchange (P := P) fuel mmio frame e accept).
Proof.
  intros Ha. pose proof spends_arm_rx. pose proof spends_arm_tx. pose proof spends_wait_tx.
  pose proof (fun m r b => spends_wait_rx fuel m r b accept Ha). unfold exchange, write_reg. spends.
Qed.
(** ** The clients *)

Section Clients.
Context (fuel : nat) (ip : list Z).

Lemma spends_arp_resolve : spends 4 (arp_resolve (P := P) fuel ip).
Proof.
  unfold arp_resolve. apply (spends_then 4); [apply spends_open_card|]. intros [mmio mac].
  apply (spends_bind 4 0); [apply spends_exchange, accept_arp_settles|]. unfold read_reg. intros o. spends.
Qed.

(** Address resolution, then one exchange. *)
Lemma spends_client {A B} (frame : list Z -> Z * list Z -> list Z) e
    (accept : list Z -> res (option A)) (k : option A -> M P B) :
  (forall data, settles (accept data)) -> (forall o, spends 0 (k o)) ->
  spends 8 (dest_mac ← arp_resolve fuel ip;
            '(mmio_base, src_mac) ← open_card;
            o ← exchange fuel mmio_base (frame dest_mac (mmio_base, src_mac)) e accept;
            k o).
Proof.
  intros Ha Hk. apply (spends_bind 4 4); [apply spends_arp_resolve|]. intros dest.
  apply (spends_then 4); [apply spends_open_card|]. intros [mmio mac].
  apply (spends_bind 4 0); [by apply spends_exchange|done].
Qed.

Lemma spends_ping : spends 8 (ping (P := P) fuel ip).
Proof.
  apply (spends_client (fun dest c => ping_frame dest c.2 ip)); [apply accept_ping_settles|]. intros o. spends.
Qed.

Lemma spends_tcp_syn_test port : spends 8 (tcp_syn_test (P := P) fuel ip port).
Proof.
  apply (spends_client (fun dest c => syn_frame dest c.2 ip port SYN_SRC_PORT SYN_INITIAL_SEQ));
    [apply accept_syn_ack_settles|]. intros o. spends.
Qed.

Lemma spends_dns_query_test h : spends 8 (dns_query_test (P := P) fuel ip h).
Proof.
  unfold dns_query_test. apply (spends_then 8); [apply spends_lift, build_query_settles|]. intros query.
  apply (spends_client (fun dest c => dns_frame dest c.2 ip query)); [apply accept_dns_settles|]. intros o. spends.
Qed.

Lemma spends_resolve_hostname h : spends 8 (resolve_hostname (P := P) fuel h ip).
Proof.
  unfold resolve_hostname. apply (spends_bind 8 0); [apply spends_dns_query_test|]. intros r. spends.
Qed.

Lemma spends_send_and_wait c slot frame : spends 0 (send_and_wait (P := P) fuel c slot frame).
Proof. pose proof (spends_wait_tx fuel). unfold send_and_wait, write_reg. spends. Qed.

Lemma spends_parse_slot c data : spends 0 (parse_slot (P := P) c data).
Proof. apply spends_lift, parse_reply_frame_settles. Qed.

Lemma spends_await_syn_ack c : spends 0 (await_syn_ack (P := P) fuel c).
Proof.
  unfold await_syn_ack. apply spends_then; [apply spends_timer_ticks|]. intros t. apply spends_then; [|intros w; apply spends_ret].
  apply spends_until. intros []. unfold syn_ack_turn. apply spends_then; [apply spends_received|]. intros [data|]; [|apply spends_ret].
  apply spends_then; [apply spends_parse_slot|]. intros o. apply spends_ret.
Qed.

Lemma spends_await_slot {A} c slot (pick : Tcp.TcpSegmentInfo -> list Z -> option A) :
  spends 0 (await_slot (P := P) fuel c slot pick).
Proof.
  unfold await_slot. apply spends_then; [apply spends_timer_ticks|]. intros t. apply spends_then; [|intros w; apply spends_ret].
  apply spends_until. intros n. unfold slot_turn. destruct (_ <=? n)%nat; [apply spends_ret|].
  apply spends_then; [apply spends_received|]. intros [data|]; [|apply spends_ret].
  apply spends_then; [apply spends_parse_slot|]. intros o. apply spends_ret.
Qed.

Lemma spends_close c slot our_seq peer_seq : spends 0 (close (P := P) fuel c slot our_seq peer_seq).
Proof.
  unfold close. apply spends_then; [apply spends_send_and_wait|]. intros [].
  apply spends_then; [apply spends_await_slot|]. intros [n [fin|]]; [|apply spends_ret].
  apply spends_then; [apply spends_send_and_wait|]. intros []. apply spends_ret.
Qed.

Lemma spends_tcp_echo_test port src_port seq payload : spends 8 (tcp_echo_test (P := P) fuel ip port src_port seq payload).
Proof.
  unfold tcp_echo_test. apply (spends_bind 4 4); [apply spends_arp_resolve|]. intros dest.
  apply (spends_then 4); [apply spends_open_card|]. intros [mmio mac].
  do 4 (apply spends_frame; intros ?).
  match goal with |- context [mk_Conn ?a ?b ?c ?d ?e ?f ?g ?h ?i ?j ?k] => set (conn := mk_Conn a b c d e f g h i j k) end.
  apply spends_then; [apply spends_then; [apply spends_arm_rx|intros; apply spends_arm_tx]|]. intros [].
  apply spends_then; [apply spends_send_and_wait|]. intros [].
  apply spends_then; [apply spends_await_syn_ack|]. intros [n| |]; [|by apply spends_lift..].
  apply spends_then; [|intros [slot [echoed peer_seq]]; apply spends_then; [apply spends_close|intros; apply spends_ret]].
  unfold echo_data. do 2 (apply spends_then; [apply spends_send_and_wait|]; intros []).
  apply spends_then; [apply spends_await_slot|]. intros [slot o].
  apply spends_then; [apply spends_lift, settles_ok_or|]. intros e. apply spends_ret.
Qed.
End Clients.
End Spends.

(** ** Properties *)

(** [m] comes to an end at any state: it does not go on for ever, and with [k] frames
    left it answers or fails with an error; it does not panic. *)
Definition finishes {P A} `{Machine P} (k : nat) (m : M P A) : Prop :=
  forall p, (m p).1 <> Hang /\ (reserve k p -> settles (m p).1).

Lemma finishes_by {P A} `{Nic.Timer P} (k : nat) (m : M P A) : ends m -> spends k m -> finishes k m.
Proof.
  intros He Hs p. destruct (He p) as [Hh _]. split; [done|]. intros Hr.
  rewrite <- (Nat.add_0_r k) in Hr. destruct (Hs 0%nat p Hr) as [Hp _]. by destruct (m p).1.
Qed.

(** C17. With the timer running, every network client returns, whatever the card and
    the network do: each waits at most twice 91 ticks per exchange, and the echo
    connection looks at each receive slot once.  With eight frames left to allocate (four
    for [arp_resolve] alone) it returns a value or an error: no delivered bytes, of any
    length and content, make it panic. *)
Theorem network_clients_end {P} `{Nic.Timer P} {HA : Allocates P} fuel ip port src_port seq payload hostname :
  (wait_fuel NUM_RX_SLOTS <= fuel)%nat ->
  finishes 4 (arp_resolve fuel ip) /\ finishes 8 (ping fuel ip) /\ finishes 8 (tcp_syn_test fuel ip port) /\
  finishes 8 (dns_query_test fuel ip hostname) /\ finishes 8 (resolve_hostname fuel hostname ip) /\
  finishes 8 (tcp_echo_test fuel ip port src_port seq payload).
Proof.
  intros Hf. assert (Hf0 : (wait_fuel 0 <= fuel)%nat) by (unfold wait_fuel in *; lia).
  split; [apply finishes_by; [by apply ends_arp_resolve|apply spends_arp_resolve]|].
  split; [apply finishes_by; [by apply ends_ping|apply spends_ping]|].
  split; [apply finishes_by; [by apply ends_tcp_syn_test|apply spends_tcp_syn_test]|].
  split; [apply finishes_by; [by apply ends_dns_query_test|apply spends_dns_query_test]|].
  split; [apply finishes_by; [by apply ends_resolve_hostname|apply spends_resolve_hostname]|].
  apply finishes_by; [by apply ends_tcp_echo_test|apply spends_tcp_echo_test].
Qed.

(** On a board without a card every client fails, and returns. *)
Lemma network_clients_end_witness :
  let board := bare_board [mk_Region 0x100000 0x180000 Usable] in
  (ping 200 [10; 0; 2; 2] board).1 <> Hang /\ settles (ping 200 [10; 0; 2; 2] board).1 /\
  settles (tcp_echo_test 200 [10; 0; 2; 2] 7777 54322 0x20000000 [1] board).1.
Proof.
  intros board.
  destruct (network_clients_end (P := Board NoDevice) 200 [10; 0; 2; 2] 7777 54322 0x20000000 [1] [97]
    ltac:(apply Nat.leb_le; reflexivity)) as (_ & Hp & _ & _ & _ & He).
  assert (Hr : reserve 8 board).
  { eexists. split; [reflexivity|]. split; [cbn; lia|]. split; [cbn; lia|]. intros i Hi.
    unfold usable_frame. cbn [memory_regions next PhysMem.init board usable_address is_usable r_kind r_start r_end].
    rewrite Z.add_0_l. destruct (_ <? _) eqn:E; [by eexists|]. cbn in E. unbool. lia. }
  exact (conj (proj1 (Hp board)) (conj (proj2 (Hp board) Hr) (proj2 (He board) Hr))).
Defined.
