(* ===== verification/E1000Spec.v ===== *)
(** * E1000Spec: the network clients against the documented card

    With a card in its slot and frames to work in, [open_card] finds the card and
    switches its DMA on, and each client of [net/e1000.rs] is a function of what the
    network answers: one question for the address of the host, one for what the
    client wants, the first answer to each decides. *)
From stdpp Require Import base list numbers strings.
From Stdlib Require Import Lia.
From S2P Require Import Prelude Mem PortIO PhysMem Nic Board E1000 E1000Card E1000Exchange E1000Net.
From S2P Require Icmp Pci.
Open Scope Z_scope.
#[local] Existing Instance Pci.host_ports.

(** ** Finding the card *)

Section Spec.
Context `{Site}.

Definition slot_address (o : Z) : Z := Pci.config_address 0 (fst slot) (snd slot) o.

Definition is_e1000 (d : Pci.PciDevice) : bool :=
  (Pci.vendor_id d =? E1000_VENDOR_ID) && (Pci.device_id d =? E1000_DEVICE_ID).

(** The card is the first of its kind on bus 0, in [slot]; its BAR0 is a memory BAR
    at [window]; software can set its bus master bit. *)
Record plugged (h : Pci.Host) : Prop := {
  pg_found : exists d,
    List.find is_e1000 (omap (Pci.slot_device (Pci.space h)) Pci.bus0_slots) = Some d /\
    Pci.device d = fst slot /\ Pci.function d = snd slot;
  pg_memory : Z.land (Pci.space h (slot_address 0x10)) 1 = 0;
  pg_window : window = at_phys (Z.land (Pci.space h (slot_address 0x10)) 0xFFFFFFF0);
  pg_writable : Z.testbit (Pci.writable h (slot_address Pci.PCI_COMMAND_OFFSET)) 2 = true;
}.

Lemma slot_device_place sp x d :
  Pci.slot_device sp x = Some d -> Pci.bus d = 0 /\ Pci.device d = fst x /\ Pci.function d = snd x.
Proof. destruct x as [a b]. unfold Pci.slot_device. destruct (_ =? _); [done|]. by intros [= <-]. Qed.

Lemma found_place h d :
  List.find is_e1000 (omap (Pci.slot_device (Pci.space h)) Pci.bus0_slots) = Some d ->
  Pci.bus d = 0 /\ 0 <= Pci.device d < 32 /\ 0 <= Pci.function d < 8.
Proof.
  intros Hf. apply List.find_some in Hf as [Hin _]. apply list_elem_of_In, list_elem_of_omap in Hin.
  destruct Hin as ([a b] & Hin & E). apply Pci.slots_spec in Hin as [Ha Hb].
  apply slot_device_place in E as (-> & -> & ->). done.
Qed.

(** Setting the bus master bit keeps the card where it is. *)
Lemma plugged_command h h' :
  plugged h -> Pci.writable h' = Pci.writable h ->
  (forall a, a <> slot_address Pci.PCI_COMMAND_OFFSET -> Pci.space h' a = Pci.space h a) ->
  plugged h'.
Proof.
  intros [(d & Hf & Hd & Hfn) Hm Hw Hb] Ewr Esp.
  pose proof (found_place h d Hf) as (_ & Rd & Rf). rewrite Hd in Rd. rewrite Hfn in Rf.
  assert (Hne : forall a b o, 0 <= a < 32 -> 0 <= b < 8 -> 0 <= o < 256 -> o / 4 <> 1 ->
    Pci.config_address 0 a b o <> slot_address Pci.PCI_COMMAND_OFFSET).
  { intros a b o Ha Hb' Ho Hq E. apply Pci.config_address_inj in E as (_ & _ & _ & E);
      [by change (Pci.PCI_COMMAND_OFFSET / 4) with 1 in E|lia..|unfold Pci.PCI_COMMAND_OFFSET; lia]. }
  assert (Hbar : Pci.space h' (slot_address 0x10) = Pci.space h (slot_address 0x10))
    by (apply Esp, Hne; [lia|lia|lia|done]).
  assert (Ho : forall x, x ∈ Pci.bus0_slots -> Pci.slot_device (Pci.space h') x = Pci.slot_device (Pci.space h) x).
  { intros [a b] [Ha Hb']%Pci.slots_spec. unfold Pci.slot_device.
    by rewrite !Esp by (apply Hne; [lia|lia|lia|done]). }
  split; [|by rewrite Hbar|by rewrite Hbar|by rewrite Ewr].
  exists d. split; [|done]. rewrite <- Hf. f_equal.
  generalize dependent Pci.bus0_slots. intros l _ Ho. induction l as [|x l IH]; [done|].
  cbn [omap list_omap]. rewrite (Ho x) by apply list_elem_of_here. rewrite IH; [done|].
  intros y Hy. apply Ho. by apply list_elem_of_further.
Qed.

(** Configuration accesses touch nothing but the host bridge. *)
Definition pci_only {A} (m : M Pc A) : Prop := forall s, exists h, (m s).2 = on_dev (set_host h) s.

Lemma pci_only_bind {A B} (m : M Pc A) (k : A -> M Pc B) :
  pci_only m -> (forall a, pci_only (k a)) -> pci_only (m ≫= k).
Proof.
  intros Hm Hk s. destruct (Hm s) as [h E]. rewrite bind_run. destruct (m s) as [[a| | |] q]; cbn in E; subst q;
    try by exists h.
  destruct (Hk a (on_dev (set_host h) s)) as [h' E']. exists h'. rewrite E'. by destruct s as [? ? ? []].
Qed.

Lemma pci_only_ret {A} (a : A) : pci_only (mret a).
Proof. intros s. exists (host (b_dev s)). by destruct s as [? ? ? []]. Qed.

Lemma pci_only_outl a v : pci_only (write_port outl a v).
Proof. intros s. by eexists. Qed.
Lemma pci_only_outw a v : pci_only (write_port outw a v).
Proof. intros s. by eexists. Qed.
Lemma pci_only_inl a : pci_only (read_port inl a).
Proof. intros s. by eexists. Qed.
Lemma pci_only_inw a : pci_only (read_port inw a).
Proof. intros s. by eexists. Qed.

Ltac pci_only := repeat first [apply pci_only_ret | apply pci_only_outl | apply pci_only_outw
  | apply pci_only_inl | apply pci_only_inw | apply pci_only_bind; [|intros ?]
  | match goal with |- pci_only (match ?x with _ => _ end) => destruct x end].

Lemma pci_only_scan slots : pci_only (Pci.scan_slots slots).
Proof.
  induction slots as [|[d f] slots IH]; cbn [Pci.scan_slots]; [apply pci_only_ret|].
  apply pci_only_bind; [unfold Pci.probe, Pci.read_config_dword; pci_only|].
  intros o. apply pci_only_bind; [done|]. intros. apply pci_only_ret.
Qed.

Lemma pci_only_bar0 d : pci_only (Pci.read_bar0 d).
Proof. unfold Pci.read_bar0, Pci.read_config_dword. pci_only. Qed.

Lemma pci_only_mastering d : pci_only (Pci.enable_bus_mastering d).
Proof. unfold Pci.enable_bus_mastering, Pci.read_config_word, Pci.write_config_word. pci_only. Qed.

Lemma pci_only_run {A} (m : M Pc A) s r q : pci_only m -> m s = (r, q) -> exists h, q = on_dev (set_host h) s.
Proof. intros Hm E. destruct (Hm s) as [h Eh]. rewrite E in Eh. by exists h. Qed.

(** ** Opening the card *)

Context (limit : Z).

(** Physical memory ends at [limit] and is mapped below the card's window. *)
Record site_ok : Prop := {
  so_offset : 0 <= site_offset;
  so_limit : site_offset + limit <= window;
  so_window : window + 0x20000 <= 2 ^ 64;
  so_pages : limit mod 4096 = 0;
}.

Context (Hsite : site_ok).

(** A board with an idle card in its slot and [n] frames to give. *)
Record standing (n : nat) (s : Pc) : Prop := {
  sd_quiet : quiet (b_dev s);
  sd_regs : regs32 (b_dev s);
  sd_supply : exists lo, supply limit n lo (b_frames s);
  sd_plugged : plugged (proj1_sig (host (b_dev s)));
}.

(** The same board but for the host bridge. *)
Lemma standing_host n s h :
  standing n s -> plugged (proj1_sig h) -> standing n (on_dev (set_host h) s).
Proof. intros [H1 H2 H3 H4] Hp. by split. Qed.

Lemma on_dev_host_twice h1 h2 (s : Pc) : on_dev (set_host h2) (on_dev (set_host h1) s) = on_dev (set_host h2) s.
Proof. done. Qed.

Lemma find_mmio_base_run (s : Pc) :
  plugged (proj1_sig (host (b_dev s))) ->
  exists d h, find_mmio_base s = (Ok (d, window), on_dev (set_host h) s) /\
    Pci.bus d = 0 /\ Pci.device d = fst slot /\ Pci.function d = snd slot /\
    Pci.space (proj1_sig h) = Pci.space (proj1_sig (host (b_dev s))) /\
    Pci.writable (proj1_sig h) = Pci.writable (proj1_sig (host (b_dev s))).
Proof.
  intros [(d & Hf & Hd & Hfn) Hm Hw Hb]. pose proof (found_place _ _ Hf) as (Hbus & _).
  destruct (Pci.scan_slots_run Pci.bus0_slots s) as (s1 & E1 & V1 & W1).
  destruct (pci_only_run _ _ _ _ (pci_only_scan _) E1) as [h1 ->].
  assert (Efind : find_e1000 s = (Ok (Some d), on_dev (set_host h1) s)).
  { unfold find_e1000, find_device. etransitivity; [apply (M_bind_Ok _ _ _ _ _ E1)|].
    unfold mret, M_ret. do 2 f_equal. exact Hf. }
  destruct (Pci.read_dword_run (Pci.bus d) (Pci.device d) (Pci.function d) 0x10 (on_dev (set_host h1) s)) as (s2 & E2 & V2).
  destruct (pci_only_run _ _ _ _ (pci_only_bar0 d) E2) as [h2 ->].
  rewrite on_dev_host_twice in *. rewrite V1, Hbus, Hd, Hfn in E2.
  exists d, h2. split; [|split; [done|split; [done|split; [done|]]]].
  - unfold find_mmio_base. rewrite (M_bind_Ok _ _ _ _ _ Efind). cbn [ok_or].
    rewrite (M_bind_Ok _ _ _ d (on_dev (set_host h1) s)) by done.
    unfold Pci.read_bar0. rewrite Hbus, Hd, Hfn, (M_bind_Ok _ _ _ _ _ E2).
    fold (slot_address 0x10). change (Pci.view s) with (proj1_sig (host (b_dev s))).
    rewrite Hm. cbn [Z.eqb]. unfold mret, M_ret. by rewrite virt_at, <- Hw.
  - change (proj1_sig h2) with (Pci.view (on_dev (set_host h2) s)). rewrite V2. cbn [Pci.space Pci.writable Pci.set_latch].
    split; [exact V1|exact W1].
Qed.

Lemma open_card_run n (s : Pc) :
  standing n s ->
  exists h, open_card s = (Ok (window, own_mac (b_dev s)), on_dev (set_host h) s) /\
    ready limit n (on_dev (set_host h) s) /\ plugged (proj1_sig h).
Proof.
  intros Hs. pose proof (sd_plugged _ _ Hs) as Hp.
  destruct (find_mmio_base_run s Hp) as (d & h1 & E1 & Hbus & Hd & Hf & V1 & W1).
  destruct (Pci.enable_bus_mastering_run d (on_dev (set_host h1) s)) as (s2 & E2 & W2 & V2).
  destruct (pci_only_run _ _ _ _ (pci_only_mastering d) E2) as [h2 ->].
  rewrite Hbus, Hd, Hf in V2. fold (slot_address Pci.PCI_COMMAND_OFFSET) in V2.
  rewrite on_dev_host_twice in *.
  change (Pci.view (on_dev (set_host ?h) s)) with (proj1_sig h) in *. rewrite V1 in V2. rewrite W1 in V2, W2.
  assert (Hp2 : plugged (proj1_sig h2)).
  { apply (plugged_command _ _ Hp W2). intros a Ha. by rewrite V2, (proj2 (Z.eqb_neq _ _) Ha). }
  exists h2. split; [|split; [|done]].
  - unfold open_card. rewrite (M_bind_Ok _ _ _ _ _ E1), (M_bind_Ok _ _ _ _ _ E2). unfold read_mac.
    set (s2 := on_dev (set_host h2) s). pose proof (sd_regs _ _ Hs) as Hr.
    rewrite (M_bind_Ok _ _ _ (own_mac (b_dev s)) s2); [done|].
    rewrite (M_bind_Ok _ _ _ _ _ (read_reg_run REG_RAL0 s2 ltac:(split; done) (Hr REG_RAL0))).
    by rewrite (M_bind_Ok _ _ _ _ _ (read_reg_run REG_RAH0 s2 ltac:(split; done) (Hr REG_RAH0))).
  - destruct Hs as [Q1 Q2 Q3 _]. split; try done.
    unfold bus_master. cbn [on_dev with_dev b_dev host set_host]. fold (slot_address Pci.PCI_COMMAND_OFFSET).
    rewrite V2, Z.eqb_refl, Z.lor_spec, Z.land_spec, (pg_writable _ Hp). apply orb_true_r.
Qed.
(** ** Resolving an address *)

Context (fuel : nat) (Htx : (tx_delay <= 91)%nat) (Hrtt : (rtt <= 91)%nat) (Hfuel : (93 <= fuel)%nat).

(** One question to the network, from a standing board. *)
Lemma ask_run {A} (accept : list Z -> res (option A)) (frame : list Z -> list Z) n e (s : Pc) :
  standing (4 + n) s -> (length (frame (own_mac (b_dev s))) <= 1518)%nat ->
  exists s1 s2, open_card s = (Ok (window, own_mac (b_dev s)), s1) /\
    exchange fuel window (frame (own_mac (b_dev s))) e accept s1 =
      (verdict accept (first_taken (own_mac (b_dev s)) (peer (frame (own_mac (b_dev s))))), s2) /\
    standing n s2 /\ sent (b_dev s2) = sent (b_dev s) ++ [frame (own_mac (b_dev s))] /\
    own_mac (b_dev s2) = own_mac (b_dev s).
Proof.
  intros Hs Hlen. destruct Hsite as [Ho Hl Hw Hp]. destruct (open_card_run _ s Hs) as (h & E1 & Hr & Hpl).
  destruct (exchange_run limit Ho Hl Hw Hp accept fuel n (frame (own_mac (b_dev s))) e _ Hr Hlen Htx Hrtt Hfuel)
    as (s2 & E2 & Hr2 & Hsent & Hmac & Hhost).
  exists (on_dev (set_host h) s), s2. split; [exact E1|]. split; [exact E2|].
  split; [|split; [exact Hsent|exact Hmac]].
  destruct Hr2 as [Q1 Q2 Q3 Q4]. split; [done|done|done|]. rewrite Hhost. exact Hpl.
Qed.

Definition resolved (o : res (option (list Z))) : res (list Z) :=
  m ← o; ok_or "arp_resolve: timed out waiting for a matching ARP reply" m.

Lemma length_own_mac c : length (own_mac c) = 6%nat.
Proof. done. Qed.

Lemma length_arp_request mac ip : length mac = 6%nat -> length ip = 4%nat -> length (arp_request mac ip) = 42%nat.
Proof. intros Hm Hi. unfold arp_request. rewrite !length_app, !length_replicate, Hm, Hi. done. Qed.

Lemma arp_resolve_run n ip (s : Pc) :
  standing (4 + n) s -> length ip = 4%nat ->
  let mac := own_mac (b_dev s) in
  exists s', arp_resolve fuel ip s =
    (resolved (verdict (accept_arp ip) (first_taken mac (peer (arp_request mac ip)))), s') /\
    standing n s' /\ sent (b_dev s') = sent (b_dev s) ++ [arp_request mac ip] /\ own_mac (b_dev s') = mac.
Proof.
  intros Hs Hip mac.
  destruct (ask_run (accept_arp ip) (fun m => arp_request m ip) n
    "arp_resolve: TX timed out waiting for descriptor DD" s Hs) as (s1 & s2 & E1 & E2 & Hs2 & Hsent & Hmac).
  { rewrite length_arp_request by done. lia. }
  exists s2. split; [|done]. unfold arp_resolve. rewrite (M_bind_Ok _ _ _ _ _ E1). cbv beta iota.
  fold mac in E2 |- *. rewrite bind_run, E2. by destruct (verdict _ _) as [[m|]|e| |].
Qed.

(** What the network makes of a client: the host's address, then the frame. *)
Definition consult {A B} (mac ip : list Z) (frame : list Z -> list Z)
    (accept : list Z -> res (option A)) (k : option A -> res B) : res B :=
  dest ← resolved (verdict (accept_arp ip) (first_taken mac (peer (arp_request mac ip))));
  o ← verdict accept (first_taken mac (peer (frame dest)));
  k o.

(** The frames a client sends. *)
Definition consulted (mac ip : list Z) (frame : list Z -> list Z) : list (list Z) :=
  arp_request mac ip ::
    match resolved (verdict (accept_arp ip) (first_taken mac (peer (arp_request mac ip)))) with
    | Ok dest => [frame dest]
    | _ => []
    end.

Lemma client_run {A B} (accept : list Z -> res (option A)) (frame : list Z -> list Z -> list Z)
    (k : option A -> res B) n ip e (s : Pc) :
  let mac := own_mac (b_dev s) in
  standing (4 + (4 + n)) s -> length ip = 4%nat ->
  (forall dest, length dest = 6%nat -> (length (frame dest mac) <= 1518)%nat) ->
  exists s', (dest ← arp_resolve fuel ip; '(mmio, src) ← open_card;
              o ← exchange fuel mmio (frame dest src) e accept; lift (k o)) s =
    (consult mac ip (fun dest => frame dest mac) accept k, s') /\
    sent (b_dev s') = sent (b_dev s) ++ consulted mac ip (fun dest => frame dest mac).
Proof.
  intros mac Hs Hip Hlen. unfold consult, consulted. set (found := first_taken mac (peer (arp_request mac ip))).
  destruct (arp_resolve_run (4 + n) ip s Hs Hip) as (s1 & E1 & Hs1 & Hsent1 & Hmac1).
  fold mac found in E1, Hsent1, Hmac1. rewrite bind_run, E1.
  destruct (resolved (verdict (accept_arp ip) found)) as [dest|err| |] eqn:Er; try (by exists s1).
  assert (Hd : length dest = 6%nat).
  { destruct found as [f|]; cbn [verdict] in Er; [|done]. unfold accept_arp in Er.
    destruct (matching_arp_reply ip f) as [[]|e'| |]; try done. cbn [mbind res_bind] in Er.
    destruct (slice f 22 28) as [m|e'| |] eqn:Es; try done. injection Er as ->.
    by apply slice_Ok in Es as (_ & _ & ->). }
  destruct (ask_run accept (frame dest) n e s1 Hs1) as (s2 & s3 & E2 & E3 & Hs3 & Hsent3 & _).
  { rewrite Hmac1. by apply Hlen. }
  rewrite Hmac1 in E2, E3, Hsent3. exists s3. rewrite (M_bind_Ok _ _ _ _ _ E2). cbv beta iota.
  rewrite bind_run, E3. cbn [mbind res_bind].
  split; [|by rewrite Hsent3, Hsent1, <- app_assoc].
  destruct (verdict accept _); exact eq_refl.
Qed.
End Spec.

(** ** Checks of received frames *)

(** An ARP reply for [ip] whose sender is who sent the frame. *)
Definition arp_answer (ip data : list Z) : Prop :=
  (32 <= length data)%nat /\ data !! 12%nat = Some 0x08 /\ data !! 13%nat = Some 0x06 /\
  data !! 20%nat = Some 0x00 /\ data !! 21%nat = Some 0x02 /\
  take 6 (drop 22 data) = take 6 (drop 6 data) /\ take 4 (drop 28 data) = ip.

#[export] Instance arp_answer_dec ip data : Decision (arp_answer ip data).
Proof. unfold arp_answer. apply _. Defined.

Import NetFrame.

Lemma and_then_Ok a b : and_then (Ok a) (Ok b) = Ok (a && b)%bool.
Proof. by destruct a. Qed.

Lemma accept_arp_spec ip data :
  accept_arp ip data = Ok (if decide (arp_answer ip data) then Some (take 6 (drop 22 data)) else None).
Proof.
  unfold accept_arp, matching_arp_reply. destruct (Nat.leb_spec 32 (length data)) as [Hl|Hl].
  2:{ rewrite decide_False; [done|]. intros [? _]. lia. }
  destruct (lookup_lt_is_Some_2 data 12 ltac:(lia)) as [x12 E12].
  destruct (lookup_lt_is_Some_2 data 13 ltac:(lia)) as [x13 E13].
  destruct (lookup_lt_is_Some_2 data 20 ltac:(lia)) as [x20 E20].
  destruct (lookup_lt_is_Some_2 data 21 ltac:(lia)) as [x21 E21].
  rewrite (byte_is_ok _ _ _ _ E12), (byte_is_ok _ _ _ _ E13), (byte_is_ok _ _ _ _ E20), (byte_is_ok _ _ _ _ E21).
  unfold same_slices. rewrite !slice_ok by lia. cbn [mbind res_bind]. rewrite !and_then_Ok. cbn [mbind res_bind].
  change (28 - 22)%nat with 6%nat. change (12 - 6)%nat with 6%nat. change (32 - 28)%nat with 4%nat.
  destruct (decide (arp_answer ip data)) as [(_ & A12 & A13 & A20 & A21 & Am & Ai)|Hn].
  - rewrite A12 in E12. rewrite A13 in E13. rewrite A20 in E20. rewrite A21 in E21.
    injection E12 as <-. injection E13 as <-. injection E20 as <-. injection E21 as <-.
    by rewrite !bool_decide_true by done.
  - destruct (true && _)%bool eqn:Eb; [|done]. destruct Hn. unbool. cbn [andb] in *. unbool. subst.
    repeat match goal with H : bool_decide _ = true |- _ => apply bool_decide_eq_true in H end. by repeat split.
Qed.
