(* ===== verification/NetSpec.v ===== *)
(** * NetSpec: what the network clients promise

    The properties of [arp_resolve], [ping], [tcp_syn_test] and [dns_query_test]
    against the documented card of [E1000Card], for every network behind it, with a
    laboratory machine on which they are run. *)
From stdpp Require Import base list numbers strings.
From Stdlib Require Import Lia.
From S2P Require Import Prelude Mem PortIO PhysMem Nic Board E1000 E1000Card E1000Exchange E1000Net E1000Spec.
From S2P Require Icmp Tcp Udp Dns Pci.
From S2P Require Import NetFrame.
Open Scope Z_scope.

(** ** A laboratory machine *)

(** Sixteen pages of memory from 1 MiB on, mapped at the bootloader's offset; the
    card in slot 3, its registers at 0xFEB80000; the configuration space of a machine
    with nothing else in it. *)
Definition LAB_OFFSET : Z := 0x18000000000.
Definition LAB_BAR : Z := 0xFEB80000.
Definition LAB_LIMIT : Z := 0x200000.

Definition lab_space (a : Z) : Z :=
  if a =? Pci.config_address 0 3 0 0x00 then 0x100E8086
  else if a =? Pci.config_address 0 3 0 0x04 then 0x02300003
  else if a =? Pci.config_address 0 3 0 0x08 then 0x02000000
  else if a =? Pci.config_address 0 3 0 0x10 then LAB_BAR
  else 0xFFFFFFFF.

Program Definition lab_host : Pci.GoodHost := Pci.mk_Host 0 lab_space (fun _ => 7).
Next Obligation.
  intros a. cbn. split; [|split; done]. unfold lab_space. repeat case_match; split; done.
Qed.

Definition lab_regions : list MemoryRegion := [mk_Region 0x100000 0x110000 Usable].

(** MAC 52:54:00:12:34:56 in the receive address registers. *)
Definition lab_regs (o : Z) : Z :=
  if o =? REG_RAL0 then 0x12005452 else if o =? REG_RAH0 then 0x80005634 else 0.

Definition lab : Pc :=
  mk_Board (fun _ => 0) (Some (PhysMem.init lab_regions)) 0 (mk_Card lab_host lab_regs [] None []).

Definition LAB_MAC : list Z := [0x52; 0x54; 0x00; 0x12; 0x34; 0x56].

(** The laboratory with a network and delays of its own. *)
Definition lab_site (net : list Z -> list (list Z)) (d1 d2 : nat) : Site := {|
  site_offset := LAB_OFFSET; window := LAB_OFFSET + LAB_BAR; slot := (3, 0);
  peer := net; tx_delay := d1; rtt := d2 |}.

Lemma lab_site_ok net d1 d2 : site_ok (H := lab_site net d1 d2) LAB_LIMIT.
Proof. split; done. Qed.

Lemma lab_supply n : (n <= 16)%nat -> supply LAB_LIMIT n 0 (b_frames lab).
Proof.
  intros Hn. exists (PhysMem.init lab_regions). cbn [b_frames lab]. split; [done|].
  cbn [PhysMem.init next memory_regions lab_regions]. split; [lia|]. split; [lia|].
  split; [done|]. split; [repeat constructor; done|]. intros i Hi.
  exists ((0x100000 + 4096 * i) / 4096 * 4096). split; [|div_lia].
  unfold usable_frame. cbn [usable_address PhysMem.init memory_regions lab_regions is_usable r_kind negb r_start r_end].
  rewrite (proj2 (Z.ltb_lt _ _)) by lia. done.
Qed.

Lemma lab_plugged net d1 d2 : plugged (H := lab_site net d1 d2) (proj1_sig lab_host).
Proof.
  split; [|done..]. eexists. split; [vm_compute; reflexivity|]. done.
Qed.

Lemma lab_standing net d1 d2 n : (n <= 16)%nat -> standing (H := lab_site net d1 d2) LAB_LIMIT n lab.
Proof.
  intros Hn. split; [done| |exists 0; by apply lab_supply|apply lab_plugged].
  intros o. cbn [regs lab b_dev]. unfold lab_regs. repeat case_match; split; done.
Qed.

(** ** Answers of a well-behaved host *)

(** [their_ip] is at [their_mac], said to [our_mac]. *)
Definition arp_reply (their_mac their_ip our_mac our_ip : list Z) : list Z :=
  our_mac ++ their_mac ++ [0x08; 0x06] ++ [0x00; 0x01; 0x08; 0x00; 6; 4; 0x00; 0x02] ++
  their_mac ++ their_ip ++ our_mac ++ our_ip.

(** The echo of [data], from a host that numbers and pads its frames as it likes. *)
Definition echo_reply (their_mac their_ip our_mac : list Z) (id ttl : Z) (data : list Z) (pad : nat) : list Z :=
  let message := Icmp.build_icmp_echo true PING_IDENTIFIER PING_SEQUENCE data in
  Icmp.build_ethernet_header our_mac their_mac Icmp.ETHERTYPE_IPV4 ++
  Icmp.build_ipv4_header id ttl Icmp.IP_PROTOCOL_ICMP their_ip GUEST_IP (length message) ++
  message ++ replicate pad 0.

Lemma arp_reply_answers m ip us uip rest :
  length m = 6%nat -> length ip = 4%nat -> length us = 6%nat -> length uip = 4%nat ->
  arp_answer ip (arp_reply m ip us uip ++ rest) /\ take 6 (drop 22 (arp_reply m ip us uip ++ rest)) = m.
Proof.
  intros Lm Li Lu Lp.
  destruct m as [|m0 [|m1 [|m2 [|m3 [|m4 [|m5 [|]]]]]]]; try discriminate Lm.
  destruct ip as [|i0 [|i1 [|i2 [|i3 [|]]]]]; try discriminate Li.
  destruct us as [|u0 [|u1 [|u2 [|u3 [|u4 [|u5 [|]]]]]]]; try discriminate Lu.
  destruct uip as [|p0 [|p1 [|p2 [|p3 [|]]]]]; try discriminate Lp.
  split; [|done]. split; [cbn; lia|done].
Qed.

Lemma taken_first mac f fs :
  take 6 f = mac -> (length f <= 1518)%nat -> first_taken mac (f :: fs) = Some f.
Proof.
  intros Hm Hl. unfold first_taken. cbn [List.find]. unfold takes.
  rewrite (bool_decide_true (take 6 f = mac)) by done.
  rewrite (proj2 (Nat.leb_le _ _)) by done. done.
Qed.

(** Zeroes behind a message leave its sum alone. *)
Lemma word_sum_zeroes n : Icmp.word_sum (replicate n 0) = 0.
Proof.
  assert (H : forall n, Icmp.word_sum (replicate n 0) = 0 /\ Icmp.word_sum (replicate (S n) 0) = 0).
  { intros m. induction m as [|m [IH1 IH2]]; [done|]. split; [done|].
    change (replicate (S (S m)) 0) with (0 :: 0 :: replicate m 0). cbn [Icmp.word_sum]. lia. }
  apply H.
Qed.

Lemma word_sum_pad l n : Icmp.word_sum (l ++ replicate n 0) = Icmp.word_sum l.
Proof.
  induction l as [|a|a b l IH] using Icmp.list_pair_ind.
  - apply word_sum_zeroes.
  - destruct n as [|n]; [done|]. cbn [replicate app Icmp.word_sum]. rewrite word_sum_zeroes. lia.
  - cbn [app Icmp.word_sum]. by rewrite IH.
Qed.

Lemma build_icmp_echo_pad r id sq data n :
  bytes_ok data -> Z.of_nat (length data + n) + 8 <= Icmp.CHECKSUM_MAX ->
  Icmp.build_icmp_echo r id sq data ++ replicate n 0 = Icmp.build_icmp_echo r id sq (data ++ replicate n 0).
Proof.
  intros Hd Hn. unfold Icmp.build_icmp_echo.
  set (hd := [if r then Icmp.ICMP_TYPE_ECHO_REPLY else Icmp.ICMP_TYPE_ECHO_REQUEST] ++ [0] ++ be_bytes 2 0 ++ be_bytes 2 id ++ be_bytes 2 sq).
  replace ([if r then Icmp.ICMP_TYPE_ECHO_REPLY else Icmp.ICMP_TYPE_ECHO_REQUEST] ++ [0] ++ be_bytes 2 0 ++ be_bytes 2 id ++ be_bytes 2 sq ++ data)
    with (hd ++ data) by (unfold hd; by rewrite <- !app_assoc).
  replace ([if r then Icmp.ICMP_TYPE_ECHO_REPLY else Icmp.ICMP_TYPE_ECHO_REQUEST] ++ [0] ++ be_bytes 2 0 ++ be_bytes 2 id ++ be_bytes 2 sq ++ data ++ replicate n 0)
    with ((hd ++ data) ++ replicate n 0) by (unfold hd; by rewrite <- !app_assoc).
  assert (Hh : bytes_ok hd) by (unfold hd; destruct r; bytes).
  assert (Lh : length hd = 8%nat) by done.
  assert (Hb : bytes_ok (hd ++ data)) by (apply Forall_app; done).
  assert (Hc : Icmp.internet_checksum ((hd ++ data) ++ replicate n 0) = Icmp.internet_checksum (hd ++ data)).
  { rewrite !Icmp.internet_checksum_eq, word_sum_pad; [done|done|rewrite length_app; lia| |].
    - apply Forall_app. split; [done|apply bytes_ok_zeroes].
    - rewrite !length_app, length_replicate. lia. }
  rewrite Hc. unfold splice. rewrite !length_be_bytes.
  rewrite <- !app_assoc. rewrite !take_app_le by lia. f_equal.
Qed.

Lemma accept_ping_echo m ip us id ttl data pad :
  length m = 6%nat -> length us = 6%nat -> length ip = 4%nat -> bytes_ok ip -> byte_ok ttl -> bytes_ok data ->
  (length data + pad <= 1476)%nat ->
  accept_ping ip (echo_reply m ip us id ttl data pad) = Ok (Some tt).
Proof.
  intros Lm Lu Li Hip Ht Hd Hlen. unfold echo_reply.
  set (message := Icmp.build_icmp_echo true PING_IDENTIFIER PING_SEQUENCE data).
  set (eth := Icmp.build_ethernet_header us m Icmp.ETHERTYPE_IPV4).
  set (iph := Icmp.build_ipv4_header id ttl Icmp.IP_PROTOCOL_ICMP ip GUEST_IP (length message)).
  destruct (Icmp.ipv4_header_facts id ttl Icmp.IP_PROTOCOL_ICMP ip GUEST_IP (length message))
    as (Hv & Hl & _ & _ & H2 & _ & H9 & H12 & _); [done|done|done|unfold GUEST_IP; bytes|done|done|].
  assert (Liph : length iph = 20%nat) by exact Hl.
  assert (Leth : length eth = 14%nat).
  { unfold eth. destruct us as [|? [|? [|? [|? [|? [|? [|]]]]]]]; try discriminate Lu.
    destruct m as [|? [|? [|? [|? [|? [|? [|]]]]]]]; try discriminate Lm. done. }
  assert (E12 : eth !! 12%nat = Some 0x08 /\ eth !! 13%nat = Some 0x00).
  { unfold eth. destruct us as [|? [|? [|? [|? [|? [|? [|]]]]]]]; try discriminate Lu.
    destruct m as [|? [|? [|? [|? [|? [|? [|]]]]]]]; try discriminate Lm. done. }
  assert (Lmsg : length message = (8 + length data)%nat).
  { unfold message. destruct (Icmp.build_icmp_echo_bytes true PING_IDENTIFIER PING_SEQUENCE data) as [c ->]. done. }
  destruct (frame_from Icmp.IP_PROTOCOL_ICMP 34 eth iph (message ++ replicate pad 0) ip (length message) Leth
    (proj1 E12) (proj2 E12)) as (Ho & _); [done|rewrite length_app; lia|].
  unfold accept_ping. change (Icmp.ETHERNET_HEADER_LEN + Icmp.IPV4_HEADER_LEN)%nat with 34%nat.
  rewrite Ho. cbn [mbind res_bind negb].
  assert (Hs : slice (eth ++ iph ++ message ++ replicate pad 0) 34
    (length (eth ++ iph ++ message ++ replicate pad 0)) = Ok (message ++ replicate pad 0)).
  { rewrite slice_ok by (rewrite !length_app; lia).
    rewrite app_assoc. rewrite drop_app_length' by (rewrite length_app; lia).
    f_equal. apply take_ge. rewrite !length_app. lia. }
  rewrite Hs. cbn [mbind res_bind]. unfold message.
  rewrite build_icmp_echo_pad by (done || (unfold Icmp.CHECKSUM_MAX; lia)).
  destruct (Icmp.parse_build_icmp_echo true PING_IDENTIFIER PING_SEQUENCE (data ++ replicate pad 0)) as [-> _].
  - split; done.
  - split; done.
  - apply Forall_app. split; [done|apply bytes_ok_zeroes].
  - rewrite length_app, length_replicate. unfold Icmp.CHECKSUM_MAX. lia.
  - done.
Qed.

Lemma echo_reply_taken m ip us id ttl data pad :
  length m = 6%nat -> length us = 6%nat -> length ip = 4%nat -> (length data + pad <= 1476)%nat ->
  take 6 (echo_reply m ip us id ttl data pad) = us /\
  (length (echo_reply m ip us id ttl data pad) <= 1518)%nat.
Proof.
  intros Lm Lu Li Hlen. unfold echo_reply.
  set (message := Icmp.build_icmp_echo true PING_IDENTIFIER PING_SEQUENCE data).
  assert (Lmsg : length message = (8 + length data)%nat).
  { unfold message. destruct (Icmp.build_icmp_echo_bytes true PING_IDENTIFIER PING_SEQUENCE data) as [c ->]. done. }
  destruct us as [|? [|? [|? [|? [|? [|? [|]]]]]]]; try discriminate Lu.
  destruct m as [|? [|? [|? [|? [|? [|? [|]]]]]]]; try discriminate Lm.
  destruct ip as [|? [|? [|? [|? [|]]]]]; try discriminate Li.
  split; [done|]. rewrite !length_app, length_replicate, Lmsg.
  change (length (Icmp.build_ethernet_header _ _ _)) with 14%nat.
  change (length (Icmp.build_ipv4_header _ _ _ _ _ _)) with 20%nat. lia.
Qed.

(** From [s], [m] returns [r] having asked for [ip] and then sent [frame] to it. *)
Definition asks `{Site} {A} (ip : list Z) (s : Pc) (m : M Pc A) (r : res A) (frame : list Z -> list Z) : Prop :=
  exists s', m s = (r, s') /\
    sent (b_dev s') = sent (b_dev s) ++ consulted (own_mac (b_dev s)) ip frame.

(** A host at [ip] that also has [answers] for [ask]. *)
Definition peer_net (ip : list Z) (ask : list Z) (answers : list (list Z)) (f : list Z) : list (list Z) :=
  if decide (f = arp_request LAB_MAC ip) then [arp_reply [2; 0; 0; 0; 0; 9] ip LAB_MAC GUEST_IP]
  else if decide (f = ask) then answers else [].

(** ** Lengths of the questions *)

Lemma length_eth_header dest src ty :
  length dest = 6%nat -> length src = 6%nat -> length (Icmp.build_ethernet_header dest src ty) = 14%nat.
Proof. intros Hd Hs. unfold Icmp.build_ethernet_header.
  repeat (rewrite length_splice || rewrite length_replicate || rewrite length_be_bytes); unfold Icmp.ETHERNET_HEADER_LEN; lia.
Qed.

Lemma length_ipv4_header id ttl proto ip n :
  length ip = 4%nat -> length (Icmp.build_ipv4_header id ttl proto GUEST_IP ip n) = 20%nat.
Proof. intros Hi. destruct ip as [|? [|? [|? [|? [|]]]]]; try discriminate Hi. done. Qed.

Lemma length_ping_frame dest src ip :
  length dest = 6%nat -> length src = 6%nat -> length ip = 4%nat -> length (ping_frame dest src ip) = 59%nat.
Proof.
  intros. unfold ping_frame. by rewrite !length_app, length_eth_header, length_ipv4_header by done.
Qed.

Lemma length_syn_frame dest src ip port sp sq :
  length dest = 6%nat -> length src = 6%nat -> length ip = 4%nat ->
  length (syn_frame dest src ip port sp sq) = 54%nat.
Proof.
  intros. unfold syn_frame, build_tcp_frame. by rewrite !length_app, length_eth_header, length_ipv4_header by done.
Qed.

Lemma length_dns_frame dest src ip query :
  length dest = 6%nat -> length src = 6%nat -> length ip = 4%nat ->
  length (dns_frame dest src ip query) = (42 + length query)%nat.
Proof.
  intros. unfold dns_frame. by rewrite !length_app, length_eth_header, length_ipv4_header by done.
Qed.

(** ** Properties *)

(** [arp_resolve] asks once and believes the first frame that comes back for
    this card, and only if it is an ARP reply for the address asked for from the
    station it names: that station's address is the result, anything else is an
    error, and the card is left ready for the next exchange. *)
Theorem arp_resolve_spec `{Site} limit fuel n ip (s : Pc) :
  site_ok limit -> (tx_delay <= 91)%nat -> (rtt <= 91)%nat -> (93 <= fuel)%nat ->
  standing limit (4 + n) s -> length ip = 4%nat ->
  let mac := own_mac (b_dev s) in
  exists s', arp_resolve fuel ip s =
    (match first_taken mac (peer (arp_request mac ip)) with
     | Some f => if decide (arp_answer ip f) then Ok (take 6 (drop 22 f))
                 else Err "arp_resolve: timed out waiting for a matching ARP reply"
     | None => Err "arp_resolve: timed out waiting for a matching ARP reply"
     end, s') /\
    standing limit n s' /\ sent (b_dev s') = sent (b_dev s) ++ [arp_request mac ip].
Proof.
  intros Hsite Htx Hrtt Hfuel Hs Hip mac.
  destruct (arp_resolve_run limit Hsite fuel Htx Hrtt Hfuel n ip s Hs Hip) as (s' & E & Hs' & Hsent & _).
  exists s'. split; [|done]. rewrite E. f_equal. fold mac. destruct (first_taken _ _) as [f|]; [|done].
  cbn [verdict]. rewrite accept_arp_spec. by destruct (decide _).
Qed.

Lemma arp_resolve_spec_witness :
  let net := fun f => if decide (take 6 f = replicate 6 255)
                      then [arp_reply [2; 0; 0; 0; 0; 9] [10; 0; 2; 2] LAB_MAC GUEST_IP] else [] in
  (arp_resolve (H := board_ports (H := e1000_device (H := lab_site net 3 5)))
     (H0 := board_machine (H := e1000_device (H := lab_site net 3 5))) 93 [10; 0; 2; 2] lab).1
    = Ok [2; 0; 0; 0; 0; 9].
Proof.
  intros net.
  destruct (@arp_resolve_spec (lab_site net 3 5) LAB_LIMIT 93 4 [10; 0; 2; 2] lab
    (lab_site_ok _ _ _) ltac:(cbn; lia) ltac:(cbn; lia) ltac:(lia) (lab_standing _ _ _ 8 ltac:(lia)) eq_refl)
    as (s' & E & _).
  rewrite E. vm_compute. reflexivity.
Defined.

(** C14. A host that answers ARP and echoes is reached: [ping] returns [Ok] whatever
    identification, time to live and padding its answers carry and however long
    they take within the wait, having sent one request and one echo. *)
Theorem ping_reaches `{Site} limit fuel n ip (s : Pc) m id ttl pad us_ip more1 more2 :
  site_ok limit -> (tx_delay <= 91)%nat -> (rtt <= 91)%nat -> (93 <= fuel)%nat ->
  standing limit (8 + n) s -> length ip = 4%nat -> bytes_ok ip -> length m = 6%nat -> length us_ip = 4%nat ->
  byte_ok ttl -> (pad <= 1000)%nat ->
  let mac := own_mac (b_dev s) in
  peer (arp_request mac ip) = arp_reply m ip mac us_ip :: more1 ->
  peer (ping_frame m mac ip) = echo_reply m ip mac id ttl PING_DATA pad :: more2 ->
  exists s', ping fuel ip s = (Ok tt, s') /\
    sent (b_dev s') = sent (b_dev s) ++ [arp_request mac ip; ping_frame m mac ip].
Proof.
  intros Hsite Htx Hrtt Hfuel Hs Hip Hipb Hm Hus Httl Hpad mac Harp Hecho.
  destruct (client_run limit Hsite fuel Htx Hrtt Hfuel (accept_ping ip) (fun dest src => ping_frame dest src ip)
    (ok_or "ping: timed out waiting for a genuine ICMP echo reply") n ip
    "ping: TX timed out waiting for descriptor DD" s Hs Hip) as (s' & E & Hsent).
  { intros dest Hd. destruct dest as [|? [|? [|? [|? [|? [|? [|]]]]]]]; try discriminate Hd.
    destruct ip as [|? [|? [|? [|? [|]]]]]; try discriminate Hip. cbn. lia. }
  assert (Lmac : length mac = 6%nat) by done.
  destruct (arp_reply_answers m ip mac us_ip [] Hm Hip Lmac Hus) as [Ha Hd]. rewrite app_nil_r in Ha, Hd.
  destruct (echo_reply_taken m ip mac id ttl PING_DATA pad Hm Lmac Hip ltac:(cbn; lia)) as [Ht1 Ht2].
  assert (Hr : resolved (verdict (accept_arp ip) (first_taken mac (peer (arp_request mac ip)))) = Ok m).
  { rewrite Harp, taken_first.
    - cbn [verdict]. rewrite accept_arp_spec, decide_True by done. by rewrite Hd.
    - unfold arp_reply. by rewrite take_app_length' by done.
    - unfold arp_reply. rewrite !length_app. cbn [length]. lia. }
  exists s'. fold mac in E, Hsent. unfold consulted in Hsent. rewrite Hr in Hsent. split; [|exact Hsent].
  change (ping fuel ip s) with ((dest ← arp_resolve fuel ip; '(mmio, src) ← open_card;
    o ← exchange fuel mmio (ping_frame dest src ip) "ping: TX timed out waiting for descriptor DD" (accept_ping ip);
    lift (ok_or "ping: timed out waiting for a genuine ICMP echo reply" o)) s).
  rewrite E. f_equal. unfold consult. rewrite Hr. cbn [mbind res_bind].
  rewrite Hecho, taken_first by done. cbn [verdict].
  assert (Hdata : bytes_ok PING_DATA) by (unfold PING_DATA; bytes).
  rewrite accept_ping_echo by first [done|change (length PING_DATA) with 17%nat; lia]. done.
Qed.

Lemma ping_reaches_witness :
  let ip := [10; 0; 2; 2] in
  let m := [2; 0; 0; 0; 0; 9] in
  let ask := ping_frame m LAB_MAC ip in
  let net := peer_net ip ask [echo_reply m ip LAB_MAC 77 255 PING_DATA 1] in
  (ping (H := board_ports (H := e1000_device (H := lab_site net 3 5)))
     (H0 := board_machine (H := e1000_device (H := lab_site net 3 5))) 93 ip lab).1 = Ok tt.
Proof.
  intros ip m ask net.
  destruct (@ping_reaches (lab_site net 3 5) LAB_LIMIT 93 0 ip lab m 77 255 1 GUEST_IP [] []
    (lab_site_ok _ _ _) ltac:(cbn; lia) ltac:(cbn; lia) ltac:(lia) (lab_standing _ _ _ 8 ltac:(lia)) eq_refl
    ltac:(unfold ip; bytes) eq_refl eq_refl ltac:(split; done) ltac:(lia))
    as (s' & E & _); [vm_compute; reflexivity|vm_compute; reflexivity|].
  rewrite E. reflexivity.
Defined.

(** C7. The three single-question clients refine one specification: each asks the
    network for the host's address, then once for what it wants, and its result is a
    function of the first frame that comes back each time. *)
Theorem clients_consult `{Site} limit fuel n ip (port : Z) hostname query (s : Pc) :
  site_ok limit -> (tx_delay <= 91)%nat -> (rtt <= 91)%nat -> (93 <= fuel)%nat ->
  standing limit (8 + n) s -> length ip = 4%nat ->
  Dns.build_query DNS_TRANSACTION_ID hostname Dns.DNS_TYPE_A = Ok query -> (length query <= 1476)%nat ->
  let mac := own_mac (b_dev s) in
  asks ip s (ping fuel ip)
    (consult mac ip (fun dest => ping_frame dest mac ip) (accept_ping ip)
       (ok_or "ping: timed out waiting for a genuine ICMP echo reply"))
    (fun dest => ping_frame dest mac ip) /\
  asks ip s (tcp_syn_test fuel ip port)
    (consult mac ip (fun dest => syn_frame dest mac ip port SYN_SRC_PORT SYN_INITIAL_SEQ)
       (accept_syn_ack ip port) (ok_or "tcp_syn_test: timed out waiting for a genuine SYN-ACK reply"))
    (fun dest => syn_frame dest mac ip port SYN_SRC_PORT SYN_INITIAL_SEQ) /\
  asks ip s (dns_query_test fuel ip hostname)
    (consult mac ip (fun dest => dns_frame dest mac ip query) (accept_dns ip query)
       (fun o => Ok (default (mk_DnsReply false false 0 None) o)))
    (fun dest => dns_frame dest mac ip query).
Proof.
  intros Hsite Htx Hrtt Hfuel Hs Hip Hq Hlen mac.
  assert (Lmac : length mac = 6%nat) by done.
  split; [|split].
  - apply (client_run limit Hsite fuel Htx Hrtt Hfuel (accept_ping ip) (fun dest src => ping_frame dest src ip)
      _ n ip _ s Hs Hip). intros dest Hd. rewrite length_ping_frame by done. lia.
  - apply (client_run limit Hsite fuel Htx Hrtt Hfuel (accept_syn_ack ip port)
      (fun dest src => syn_frame dest src ip port SYN_SRC_PORT SYN_INITIAL_SEQ) _ n ip _ s Hs Hip).
    intros dest Hd. rewrite length_syn_frame by done. lia.
  - destruct (client_run limit Hsite fuel Htx Hrtt Hfuel (accept_dns ip query)
      (fun dest src => dns_frame dest src ip query)
      (fun o => Ok (default (mk_DnsReply false false 0 None) o)) n ip
      "dns_query_test: TX timed out waiting for descriptor DD" s Hs Hip) as (s' & E & Hsent).
    + intros dest Hd. rewrite length_dns_frame by done. lia.
    + exists s'. split; [|exact Hsent]. unfold dns_query_test. rewrite bind_run, Hq. exact E.
Qed.

Lemma clients_consult_witness :
  let ip := [10; 0; 2; 3] in
  let query := [0x12; 0x34; 0x01; 0x00; 0; 1; 0; 0; 0; 0; 0; 0; 1; 97; 0; 0; 1; 0; 1] in
  exists s' : Pc, dns_query_test (H := board_ports (H := e1000_device (H := lab_site (fun _ => []) 3 5)))
     (H0 := board_machine (H := e1000_device (H := lab_site (fun _ => []) 3 5))) 93 ip [97] lab =
    (consult (H := lab_site (fun _ => []) 3 5) LAB_MAC ip (fun dest => dns_frame dest LAB_MAC ip query)
       (accept_dns ip query) (fun o => Ok (default (mk_DnsReply false false 0 None) o)), s').
Proof.
  intros ip query.
  destruct (@clients_consult (lab_site (fun _ => []) 3 5) LAB_LIMIT 93 0 ip 80 [97] query lab
    (lab_site_ok _ _ _) ltac:(cbn; lia) ltac:(cbn; lia) ltac:(lia) (lab_standing _ _ _ 8 ltac:(lia)) eq_refl
    eq_refl ltac:(cbn; lia)) as (_ & _ & s' & E & _).
  exists s'. exact E.
Defined.

(** C15. A stray frame ends the wait: when the first frame the network has for this
    card is not the one the client is after, the exchange comes to nothing, whatever
    frames follow. Descriptor 0 is rearmed, but the tail stays where the head is, so
    the card has no buffer for them. *)
Theorem stray_frame_ends_wait `{Site} {A} limit fuel n frame (e : string) (accept : list Z -> res (option A)) stray later (s : Pc) :
  site_ok limit -> (tx_delay <= 91)%nat -> (rtt <= 91)%nat -> (93 <= fuel)%nat ->
  ready limit (4 + n) s -> (length frame <= 1518)%nat ->
  peer frame = stray :: later -> takes (own_mac (b_dev s)) true stray = true -> accept stray = Ok None ->
  exists s', exchange fuel window frame e accept s = (Ok None, s') /\ ready limit n s'.
Proof.
  intros [Ho Hl Hw Hp] Htx Hrtt Hfuel Hr Hlen Hpeer Htaken Hno.
  destruct (exchange_run limit Ho Hl Hw Hp accept fuel n frame e s Hr Hlen Htx Hrtt Hfuel) as (s' & E & Hr' & _).
  exists s'. split; [|exact Hr']. rewrite E, Hpeer. unfold first_taken. cbn [List.find]. rewrite Htaken.
  cbn [verdict]. by rewrite Hno.
Qed.

(** The host's genuine reply is the second frame here: nobody sees it. *)
Lemma stray_frame_ends_wait_witness :
  let ip := [10; 0; 2; 2] in
  let stray := LAB_MAC ++ replicate 54 0 in
  let genuine := arp_reply [2; 0; 0; 0; 0; 9] ip LAB_MAC GUEST_IP in
  let net := fun _ : list Z => [stray; genuine] in
  accept_arp ip genuine = Ok (Some [2; 0; 0; 0; 0; 9]) /\
  exists s s' : Pc, b_ram s = b_ram lab /\
  exchange (H := board_ports (H := e1000_device (H := lab_site net 3 5)))
     (H0 := board_machine (H := e1000_device (H := lab_site net 3 5))) 93 (LAB_OFFSET + LAB_BAR)
     (arp_request LAB_MAC ip) "" (accept_arp ip) s = (Ok None, s').
Proof.
  intros ip stray genuine net. split; [vm_compute; reflexivity|].
  destruct (open_card_run (H := lab_site net 3 5) LAB_LIMIT 8 lab
    (lab_standing _ _ _ 8 ltac:(lia))) as (h & _ & Hr & _).
  eexists.
  destruct (@stray_frame_ends_wait (lab_site net 3 5) _ LAB_LIMIT 93 4 (arp_request LAB_MAC ip) ""
    (accept_arp ip) stray [genuine] _ (lab_site_ok _ _ _) ltac:(cbn; lia) ltac:(cbn; lia) ltac:(lia) Hr
    ltac:(cbn; lia) eq_refl eq_refl eq_refl) as (s' & E & _).
  exists s'. split; [|exact E]. reflexivity.
Defined.
