(* ===== verification/EchoSpec.v ===== *)
(** * EchoSpec: what [tcp_echo_test] promises of the bytes it returns

    The connection of [net/e1000.rs] over its seven receive slots: on any machine,
    bytes are returned only when segments with the right ports and numbers were read
    from the slots in that run.  [turns_of] lists the states in which the turns of a
    waiting loop begin, so that what a loop saw is tied to the run it is part of.  Run
    here on the laboratory machine against an echo server. *)
From stdpp Require Import base list numbers strings.
From Stdlib Require Import Lia.
From S2P Require Import Prelude Mem PortIO PhysMem Nic Board E1000 E1000Card E1000Exchange E1000Net E1000Spec NetSpec.
From S2P Require Icmp Tcp Pci.
From S2P Require Import NetFrame.
Open Scope Z_scope.
#[local] Existing Instance Pci.host_ports.

(** ** The states of a waiting loop *)

Section Turns.
Context {P : Type} `{Machine P}.

(** Where each turn of [until_ticks fuel start_tick body b], run from [p], begins: the
    loop's variable and the machine. *)
Fixpoint turns_of {B R} (fuel : nat) (start_tick : Z) (body : B -> M P (turn B R)) (b : B) (p : P) : list (B * P) :=
  match fuel with
  | O => []
  | S f =>
      (b, p) ::
      match body b p with
      | (Ok (Next b'), q) => turns_of f start_tick body b' q
      | (Ok (Idle b'), q) =>
          let '(t, q) := ticks q in
          if 90 <? t - start_tick then [] else turns_of f start_tick body b' (halt q)
      | _ => []
      end
  end.

(** The turns of [let start_tick = timer_ticks(); loop { .. }] run from [p]. *)
Definition wait_turns {B R} (fuel : nat) (body : B -> M P (turn B R)) (b : B) (p : P) : list (B * P) :=
  let '(t, q) := ticks p in turns_of fuel t body b q.

(** A loop that ends does so in one of its turns. *)
Lemma until_ended {B R} fuel t0 (body : B -> M P (turn B R)) b p r q :
  until_ticks fuel t0 body b p = (Ok (Ended r), q) ->
  exists b' p' q', (b', p') ∈ turns_of fuel t0 body b p /\ body b' p' = (Ok (Done r), q').
Proof.
  revert b p. induction fuel as [|f IH]; intros b p; cbn [until_ticks turns_of]; [done|]. rewrite bind_run.
  destruct (body b p) as [[[r'|b'|b']|e| |] q1] eqn:Eb; try done.
  - intros [= -> _]. exists b, p, q1. split; [left|done].
  - intros E. destruct (IH b' q1 E) as (b2 & p2 & q2 & Hin & E2). exists b2, p2, q2. split; [by right|done].
  - rewrite bind_run. unfold timer_ticks. destruct (ticks q1) as [t q2]. destruct (90 <? _); [done|].
    rewrite bind_run. intros E. destruct (IH b' (halt q2) E) as (b2 & p2 & q3 & Hin & E2). exists b2, p2, q3.
    split; [by right|done].
Qed.

Lemma wait_ended {B R A} fuel (body : B -> M P (turn B R)) b (k : waited B R -> A) p a q :
  (start_tick ← timer_ticks; w ← until_ticks fuel start_tick body b; mret (k w)) p = (Ok a, q) ->
  (exists b', a = k (TimedOut b')) \/
  exists r b' p' q', a = k (Ended r) /\ (b', p') ∈ wait_turns fuel body b p /\ body b' p' = (Ok (Done r), q').
Proof.
  rewrite bind_run. unfold timer_ticks, wait_turns. destruct (ticks p) as [t p1]. rewrite bind_run.
  destruct (until_ticks fuel t body b p1) as [[[b'|r]|e| |] q1] eqn:E; try done; intros [= <- _].
  - left. by exists b'.
  - right. destruct (until_ended _ _ _ _ _ _ _ E) as (b' & p' & q' & Hin & E'). by exists r, b', p', q'.
Qed.

(** ** Segments seen *)

(** Looked at in state [p], receive slot [slot] holds a segment of the peer's. *)
Definition holds (c : Conn) (slot : nat) (info : Tcp.TcpSegmentInfo) (payload : list Z) (p : P) : Prop :=
  (slot < NUM_RX_SLOTS)%nat /\
  exists data p', slot_received c slot p = (Ok (Some data), p') /\
    parse_reply_frame data (c_target_ip c) GUEST_IP = Ok (Some (info, payload)).

Lemma await_slot_saw {A} fuel c slot (pick : Tcp.TcpSegmentInfo -> list Z -> option A) p n a q :
  await_slot fuel c slot pick p = (Ok (n, Some a), q) ->
  exists k p' info payload, (k, p') ∈ wait_turns fuel (slot_turn c pick) slot p /\ holds c k info payload p' /\
    pick info payload = Some a.
Proof.
  intros E. unfold await_slot in E. apply wait_ended in E as [[b E]|([k o] & b & p' & q' & E & Hin & Eb)]; [done|].
  injection E as <- <-. exists b, p'. unfold slot_turn in Eb. destruct (Nat.leb_spec NUM_RX_SLOTS b); [done|].
  rewrite bind_run in Eb. destruct (slot_received c b p') as [[[data|]|e| |] p1] eqn:Es; try done.
  rewrite bind_run in Eb. unfold parse_slot, lift in Eb.
  destruct (parse_reply_frame data (c_target_ip c) GUEST_IP) as [[[info payload]|]|e| |] eqn:Ep; try done.
  cbn [mbind option_bind] in Eb. destruct (pick info payload) as [a'|] eqn:Ek; [|done]. injection Eb as _ -> _.
  exists info, payload. split; [done|]. split; [|done]. split; [done|]. by exists data, p1.
Qed.

Lemma await_syn_ack_saw fuel c p isn q :
  await_syn_ack fuel c p = (Ok (Accepted isn), q) ->
  exists p' info payload, (tt, p') ∈ wait_turns fuel (syn_ack_turn c) tt p /\ holds c 0 info payload p' /\
    Tcp.seq_num info = isn /\ is_syn_ack info (c_target_port c) (c_src_port c) (c_initial_seq c) = true.
Proof.
  intros E. unfold await_syn_ack in E. apply wait_ended in E as [[b E]|(h & [] & p' & q' & E & Hin & Eb)]; [done|].
  subst h. exists p'. unfold syn_ack_turn in Eb.
  rewrite bind_run in Eb. destruct (slot_received c 0 p') as [[[data|]|e| |] p1] eqn:Es; try done.
  rewrite bind_run in Eb. unfold parse_slot, lift in Eb.
  destruct (parse_reply_frame data (c_target_ip c) GUEST_IP) as [[[info payload]|]|e| |] eqn:Ep; try done.
  destruct (is_syn_ack info _ _ _) eqn:Ek; [|by destruct (is_matching_rst _ _ _)]. injection Eb as <- _.
  exists info, payload. split; [done|]. split; [|done]. split; [unfold NUM_RX_SLOTS; lia|]. by exists data, p1.
Qed.

(** ** The connection of a run *)

(** The start of [tcp_echo_test]: the peer's address, four frames, the rings, and the
    request sent. *)
Definition echo_open (fuel : nat) (target_ip : list Z) (target_port src_port initial_seq : Z) : M P Conn :=
  dest_mac ← arp_resolve fuel target_ip;
  '(mmio_base, src_mac) ← open_card;
  rx_ring_frame ← allocate_frame;
  rx_buf_frame ← allocate_frame;
  tx_ring_frame ← allocate_frame;
  tx_buf_frame ← allocate_frame;
  let c := mk_Conn mmio_base rx_ring_frame rx_buf_frame tx_ring_frame tx_buf_frame dest_mac src_mac
             target_ip target_port src_port initial_seq in
  echo_rings c;;
  send_and_wait fuel c 0 (tcp_segment_frame c initial_seq 0 Tcp.TCP_FLAG_SYN []);;
  mret c.

(** The two segments of phases 2 and 3. *)
Definition echo_send (fuel : nat) (c : Conn) (peer_isn : Z) (payload : list Z) : M P unit :=
  let seq := u32 (c_initial_seq c + 1) in
  let ack := u32 (peer_isn + 1) in
  send_and_wait fuel c 1 (tcp_segment_frame c seq ack Tcp.TCP_FLAG_ACK []);;
  send_and_wait fuel c 2 (tcp_segment_frame c seq ack (Z.lor Tcp.TCP_FLAG_PSH Tcp.TCP_FLAG_ACK) payload).

Definition expected_ack (c : Conn) (payload : list Z) : Z := u32 (u32 (c_initial_seq c + 1) + Z.of_nat (length payload)).

Lemma echo_open_conn fuel ip port sp isn s c s1 :
  echo_open fuel ip port sp isn s = (Ok c, s1) ->
  c_target_ip c = ip /\ c_target_port c = port /\ c_src_port c = sp /\ c_initial_seq c = isn.
Proof.
  unfold echo_open. intros E. apply M_bind_Ok_inv in E as (mac & s2 & _ & E).
  apply M_bind_Ok_inv in E as ([mmio src] & s3 & _ & E).
  do 4 (apply M_bind_Ok_inv in E as (? & ? & _ & E)). do 2 (apply M_bind_Ok_inv in E as ([] & ? & _ & E)).
  injection E as <- _. done.
Qed.

(** A test that returns bytes went through its phases. *)
Lemma tcp_echo_phases fuel ip port sp isn payload s echoed s' :
  tcp_echo_test fuel ip port sp isn payload s = (Ok echoed, s') ->
  exists c s1 peer_isn s2 s3 slot nxt s4,
    echo_open fuel ip port sp isn s = (Ok c, s1) /\
    await_syn_ack fuel c s1 = (Ok (Accepted peer_isn), s2) /\
    echo_send fuel c peer_isn payload s2 = (Ok tt, s3) /\
    await_slot fuel c 1 (pick_echo c (expected_ack c payload)) s3 = (Ok (slot, Some (echoed, nxt)), s4).
Proof.
  unfold tcp_echo_test, echo_open. intros E. apply M_bind_Ok_inv in E as (mac & s2 & E1 & E).
  apply M_bind_Ok_inv in E as ([mmio src] & s3 & E2 & E).
  apply M_bind_Ok_inv in E as (f1 & s4 & E3 & E). apply M_bind_Ok_inv in E as (f2 & s5 & E4 & E).
  apply M_bind_Ok_inv in E as (f3 & s6 & E5 & E). apply M_bind_Ok_inv in E as (f4 & s7 & E6 & E).
  set (c := mk_Conn mmio f1 f2 f3 f4 mac src ip port sp isn) in *.
  apply M_bind_Ok_inv in E as ([] & s8 & E7 & E). apply M_bind_Ok_inv in E as ([] & s9 & E8 & E).
  apply M_bind_Ok_inv in E as ([peer_isn| |] & s10 & E9 & E); [|done..].
  apply M_bind_Ok_inv in E as ([sl [bytes nxt]] & s11 & E10 & E).
  apply M_bind_Ok_inv in E as (b & s12 & _ & E). injection E as -> _.
  unfold echo_data in E10. apply M_bind_Ok_inv in E10 as ([] & s13 & E11 & E10).
  apply M_bind_Ok_inv in E10 as ([] & s14 & E12 & E10). apply M_bind_Ok_inv in E10 as ([k o] & s15 & E13 & E10).
  destruct o as [e|]; [|done]. injection E10 as _ -> _.
  exists c, s9, peer_isn, s10, s14, k, nxt, s15. split; [|split; [exact E9|split; [|exact E13]]].
  - rewrite bind_run, E1, bind_run, E2, bind_run, E3, bind_run, E4, bind_run, E5, bind_run, E6. fold c.
    by rewrite bind_run, E7, bind_run, E8.
  - unfold echo_send. by rewrite bind_run, E11, E12.
Qed.
End Turns.

(** ** Properties *)

(** C8. [tcp_echo_test] returns bytes only after a handshake and an echo this very run
    saw.  It opened a connection [c] and sent its request; in a turn of the wait that
    followed, receive slot 0 held a SYN-ACK of the peer that acknowledges the request;
    then it sent the payload, and in a turn of the next wait a slot held a segment with
    the right ports that acknowledges every byte sent and whose payload is what is
    returned.  Both segments passed the frame's and the segment's checksums. *)
Theorem tcp_echo_sound {P} `{Machine P} fuel ip port sp isn payload (s s' : P) echoed :
  tcp_echo_test fuel ip port sp isn payload s = (Ok echoed, s') ->
  exists c s1 peer_isn s2 s3 p1 syn_ack body slot p2 info,
    echo_open fuel ip port sp isn s = (Ok c, s1) /\
    await_syn_ack fuel c s1 = (Ok (Accepted peer_isn), s2) /\
    (tt, p1) ∈ wait_turns fuel (syn_ack_turn c) tt s1 /\
    holds c 0 syn_ack body p1 /\ is_syn_ack syn_ack port sp isn = true /\ Tcp.seq_num syn_ack = peer_isn /\
    echo_send fuel c peer_isn payload s2 = (Ok tt, s3) /\
    (slot, p2) ∈ wait_turns fuel (slot_turn c (pick_echo c (expected_ack c payload))) 1%nat s3 /\
    holds c slot info echoed p2 /\
    c_target_ip c = ip /\ Tcp.source_port info = port /\ Tcp.dest_port info = sp /\
    Tcp.ack_num info = u32 (u32 (isn + 1) + Z.of_nat (length payload)) /\ echoed <> [].
Proof.
  intros E. destruct (tcp_echo_phases _ _ _ _ _ _ _ _ _ E) as (c & s1 & peer_isn & s2 & s3 & k & nxt & s4 & E1 & E2 & E3 & E4).
  destruct (echo_open_conn _ _ _ _ _ _ _ _ E1) as (<- & <- & <- & <-).
  destruct (await_syn_ack_saw _ _ _ _ _ E2) as (p1 & syn_ack & body & Hin1 & Hh1 & Hseq & Hok).
  destruct (await_slot_saw _ _ _ _ _ _ _ _ E4) as (slot & p2 & info & pl & Hin2 & Hh2 & Hp).
  unfold pick_echo, some_if in Hp. destruct (_ && _)%bool eqn:Eb; [|done]. injection Hp as -> _. unbool.
  exists c, s1, peer_isn, s2, s3, p1, syn_ack, body, slot, p2, info. repeat (split; [assumption|]).
  split; [done|]. repeat (split; [assumption|]). by intros ->.
Qed.

(** An echo server for the laboratory: port 7777 of 10.0.2.2. *)
Definition SERVER_IP : list Z := [10; 0; 2; 2].
Definition SERVER_MAC : list Z := [2; 0; 0; 0; 0; 9].

Definition server_segment (seq ack flags : Z) (payload : list Z) : list Z :=
  build_tcp_frame LAB_MAC SERVER_MAC SERVER_IP GUEST_IP
    (Tcp.build_tcp_header SERVER_IP GUEST_IP 7777 54322 seq ack flags 65535 payload) payload.

Definition echo_server (f : list Z) : list (list Z) :=
  if decide (take 6 f = replicate 6 255) then [arp_reply SERVER_MAC SERVER_IP LAB_MAC GUEST_IP]
  else match f !! 47%nat with
       | Some 0x02 => [server_segment 5000 0x20000001 0x12 []]
       | Some 0x18 => [server_segment 5001 0x20000004 0x18 (drop 54 f)]
       | Some 0x11 => [server_segment 5004 0x20000005 0x11 []]
       | _ => []
       end.

#[local] Instance echo_site : Site := lab_site echo_server 3 5.

Lemma tcp_echo_sound_witness :
  (tcp_echo_test 120 SERVER_IP 7777 54322 0x20000000 [1; 2; 3] lab).1 = Ok [1; 2; 3] /\
  exists c s1 isn s2 s3 slot p2 info,
    echo_open 120 SERVER_IP 7777 54322 0x20000000 lab = (Ok c, s1) /\
    await_syn_ack 120 c s1 = (Ok (Accepted isn), s2) /\
    echo_send 120 c isn [1; 2; 3] s2 = (Ok tt, s3) /\
    (slot, p2) ∈ wait_turns 120 (slot_turn c (pick_echo c (expected_ack c [1; 2; 3]))) 1%nat s3 /\
    holds c slot info [1; 2; 3] p2.
Proof.
  assert (E : (tcp_echo_test 120 SERVER_IP 7777 54322 0x20000000 [1; 2; 3] lab).1 = Ok [1; 2; 3])
    by (vm_compute; reflexivity).
  split; [exact E|]. generalize (tcp_echo_sound 120 SERVER_IP 7777 54322 0x20000000 [1; 2; 3] lab).
  destruct (tcp_echo_test 120 SERVER_IP 7777 54322 0x20000000 [1; 2; 3] lab) as [r s']. cbn [fst] in E.
  intros H. destruct (H s' [1; 2; 3] (f_equal (fun x => (x, s')) E))
    as (c & s1 & isn & s2 & s3 & p1 & sa & body & slot & p2 & info & E1 & E2 & _ & _ & _ & _ & E3 & Hin & Hh & _).
  exists c, s1, isn, s2, s3, slot, p2, info. by repeat (split; [assumption|]).
Defined.
