(* ===== verification/Shell.v ===== *)
(** * Shell: the command line ([shell.rs])

    [dispatch_command] runs one line over the machine: the disk, the process table,
    the KV blocks, the tick counter and the other components it calls ([Services]),
    and says what it prints.  A printed line is its format string with its
    arguments, on the console ([kprintln!]) or the serial port ([serial_println!]).
    A line is the list of its bytes; the keyboard produces ASCII only. *)
From stdpp Require Import base list numbers strings.
From Stdlib Require Import Lia.
From S2P Require Import Prelude AgentScheduler KvAllocator PhysMem Pci Rtc FatCommon Partition BlockDev Fat32 Fat12.
Open Scope Z_scope.

(** The bytes of a literal. *)
Definition str (s : string) : list Z := map (fun c => Z.of_nat (Ascii.nat_of_ascii c)) (String.list_ascii_of_string s).

(** ** Words *)

Definition is_whitespace (b : Z) : bool := ((0x09 <=? b) && (b <=? 0x0D)) || (b =? 0x20).

Fixpoint trim_start (l : list Z) : list Z :=
  match l with
  | b :: r => if is_whitespace b then trim_start r else l
  | [] => []
  end.

Definition trim (l : list Z) : list Z := rev (trim_start (rev (trim_start l))).

(** [s.split(sep)]: the pieces between separators, at least one. *)
Fixpoint split_on (sep : Z -> bool) (l : list Z) : list (list Z) :=
  match l with
  | [] => [[]]
  | b :: r =>
      if sep b then [] :: split_on sep r
      else match split_on sep r with p :: ps => (b :: p) :: ps | [] => [[b]] end
  end.

Definition split_whitespace (l : list Z) : list (list Z) :=
  List.filter (fun p => negb (bool_decide (p = []))) (split_on is_whitespace l).

(** [parts.join(sep)] *)
Fixpoint join (sep : Z) (parts : list (list Z)) : list Z :=
  match parts with
  | [] => []
  | [p] => p
  | p :: ps => p ++ sep :: join sep ps
  end.

(** [parts.next().unwrap_or("")] *)
Definition next_word (parts : list (list Z)) : list Z * list (list Z) :=
  match parts with p :: ps => (p, ps) | [] => ([], []) end.

(** ** Numbers and addresses *)

Definition is_digit (b : Z) : bool := (0x30 <=? b) && (b <=? 0x39).

Fixpoint parse_digits (max acc : Z) (l : list Z) : option Z :=
  match l with
  | [] => Some acc
  | b :: r =>
      if is_digit b then
        let v := acc * 10 + (b - 0x30) in
        if max <? v then None else parse_digits max v r
      else None
  end.

(** [s.parse::<u8>()] and [s.parse::<u16>()]: digits, after a sign [+] if any. *)
Definition parse_unsigned (max : Z) (s : list Z) : option Z :=
  let digits := match s with b :: r => if b =? 0x2B then r else s | [] => s end in
  match digits with [] => None | _ => parse_digits max 0 digits end.

Fixpoint parse_octets (n : nat) (parts : list (list Z)) : option (list Z * list (list Z)) :=
  match n with
  | O => Some ([], parts)
  | S m =>
      match parts with
      | [] => None
      | p :: ps =>
          match parse_unsigned 255 p with
          | None => None
          | Some o => match parse_octets m ps with Some (os, rest) => Some (o :: os, rest) | None => None end
          end
      end
  end.

Definition parse_ipv4 (s : list Z) : option (list Z) :=
  match parse_octets 4 (split_on (Z.eqb 0x2E) s) with
  | Some (octets, []) => Some octets
  | _ => None
  end.

(** ** Paths *)

Definition split_segments (path : list Z) : res (list (list Z)) :=
  let segments := split_on (Z.eqb 0x2F) path in
  if existsb (fun s => bool_decide (s = [])) segments
  then Err "invalid path - check for a leading/trailing/double '/'"
  else Ok segments.

Definition is_dots (name : list Z) : bool := bool_decide (name = [0x2E]) || bool_decide (name = [0x2E; 0x2E]).

Definition split_path (path : list Z) : res (list (list Z) * list Z) :=
  segments ← split_segments path;
  match last segments with
  | None => Panic
  | Some name =>
      if is_dots name then Err "invalid path - '.' or '..' can't be used as the target name"
      else Ok (removelast segments, name)
  end.

(** A call whose [Err] is looked at, not passed on. *)
Definition attempt {S A} (m : M S A) : M S (A + string) := fun s =>
  match m s with
  | (Ok a, s') => (Ok (inl a), s')
  | (Err e, s') => (Ok (inr e), s')
  | (Panic, s') => (Panic, s')
  | (Hang, s') => (Hang, s')
  end.

(** ** Files *)

Section Files.
Context {D : Type} `{BlockOps D}.
(** Steps given to the chain walks of a FAT32 volume, which no table bounds. *)
Context (fat32_fuel : nat).

Definition is_fat_type (t : Z) : bool :=
  existsb (Z.eqb t) [0x01; 0x04; 0x06; 0x0B; 0x0C; 0x0E].

Definition find_fat_partition : M D PartitionEntry :=
  mbr ← read_sector 0;
  lift (ok_or "no FAT-typed partition found in the MBR"
          (find (fun p => is_fat_type (partition_type p)) (parse_mbr mbr))).

(** The methods of a mounted FAT12 volume work on the disk. *)
Definition with_volume {A} (fs : Fat12Info) (m : M (Vol D) A) : M D A := fun d =>
  let '(r, v) := m (mk_Vol fs d) in (r, dev v).

(** [resolve_dir_path], one name after the other. *)
Fixpoint resolve_from (segments : list (list Z)) (cluster : option Z) : M (Vol D) (option Z) :=
  match segments with
  | [] => mret cluster
  | nm :: rest =>
      entries ← match cluster with
                | None => Fat12.list_root_directory
                | Some c => Fat12.list_directory c
                end;
      match find (fun e => eq_ignore_ascii_case (name e) nm) entries with
      | None => lift (Err "no such directory in path")
      | Some entry =>
          if negb (is_dir entry) then lift (Err "that's a file, not a directory")
          else resolve_from rest (if start_cluster entry =? 0 then None else Some (start_cluster entry))
      end
  end.

Definition resolve_dir_path (segments : list (list Z)) : M (Vol D) (option Z) := resolve_from segments None.

(** A FAT12 volume is mounted when FAT32 is refused. *)
Definition mount_fat12 (is_fat32 : string) : M D Fat12Info :=
  partition ← find_fat_partition;
  o ← attempt (Fat32.read_bpb partition);
  match o with
  | inl _ => lift (Err is_fat32)
  | inr _ => Fat12.read_bpb partition
  end.

Definition read_fat_file (nm : list Z) : M D (list Z) :=
  partition ← find_fat_partition;
  o ← attempt (Fat32.read_bpb partition);
  match o with
  | inl fs => Fat32.read_file fat32_fuel fs nm
  | inr _ =>
      fs ← Fat12.read_bpb partition;
      '(dirs, file) ← lift (split_path nm);
      with_volume fs
        (cluster ← resolve_dir_path dirs;
         match cluster with
         | None => Fat12.read_file file
         | Some c => Fat12.read_file_in c file
         end)
  end.

Definition create_fat_file (clock : RtcTime) (nm data : list Z) : M D unit :=
  fs ← mount_fat12 "FAT32 file creation isn't implemented yet (this disk is FAT12 in practice)";
  '(dirs, file) ← lift (split_path nm);
  with_volume fs
    (cluster ← resolve_dir_path dirs;
     match cluster with
     | None => Fat12.create_file clock file data
     | Some c => Fat12.create_file_in clock c file data
     end).

Definition delete_fat_file (nm : list Z) : M D unit :=
  fs ← mount_fat12 "FAT32 file deletion isn't implemented yet (this disk is FAT12 in practice)";
  '(dirs, file) ← lift (split_path nm);
  with_volume fs
    (cluster ← resolve_dir_path dirs;
     match cluster with
     | None => Fat12.delete_file file
     | Some c => Fat12.delete_file_in c file
     end).

Definition create_fat_directory (clock : RtcTime) (nm : list Z) : M D unit :=
  fs ← mount_fat12 "FAT32 directory creation isn't implemented yet (this disk is FAT12 in practice)";
  '(dirs, dir_name) ← lift (split_path nm);
  with_volume fs
    (cluster ← resolve_dir_path dirs;
     match cluster with
     | None => Fat12.create_directory clock dir_name
     | Some c => Fat12.create_directory_in clock c dir_name
     end).

Definition delete_fat_directory (nm : list Z) : M D unit :=
  fs ← mount_fat12 "FAT32 directory deletion isn't implemented yet (this disk is FAT12 in practice)";
  '(dirs, dir_name) ← lift (split_path nm);
  with_volume fs
    (cluster ← resolve_dir_path dirs;
     match cluster with
     | None => Fat12.delete_directory dir_name
     | Some c => Fat12.delete_directory_in c dir_name
     end).
End Files.

(** ** The machine and what is printed *)

Inductive arg :=
| Str (s : list Z)            (** a Rust string *)
| Text (s : string)           (** a message or a label of the code *)
| Num (n : Z)
| Bool (b : bool)
| Loc (l : KVCacheLocation)   (** [{:?}] *)
| Octets (ip : list Z)        (** [{:?}] *)
| OptOctets (ip : option (list Z))
| OptNum (n : option Z)
| Float (bits : Z)            (** an [f32], by its bits *)
| Seconds (ticks : Z).        (** [ticks as f64 / 18.2] *)

Inductive event :=
| Console (format : string) (args : list arg)
| Serial (format : string) (args : list arg)
| ClearScreen.

(** What the shell calls beside the disk, on a state [N] of their own. *)
Class Services (N : Type) := {
  now : N -> RtcTime;
  scan_devices : M N (list PciDevice);
  block_addr : KVCacheBlock -> Z;
  receive_test_frame : M N unit;
  ping : list Z -> M N unit;
  resolve_hostname : list Z -> list Z -> M N (list Z);
  dns_query_test : list Z -> list Z -> M N (bool * bool * Z * option (list Z));
  tcp_echo_test : list Z -> Z -> Z -> Z -> list Z -> M N (list Z);
  run_ring3_test : M N unit;
  run_ring3_syscall_test : M N unit;
}.

Record Machine (D N : Type) := mk_Machine {
  disk : D;
  sched : NativeAgentScheduler;
  kv_manager : KVCacheMemoryManager;
  ticks : Z;
  services : N;
  printed : list event;
}.
Arguments mk_Machine {D N}.
Arguments disk {D N}.
Arguments sched {D N}.
Arguments kv_manager {D N}.
Arguments ticks {D N}.
Arguments services {D N}.
Arguments printed {D N}.

Definition priority_label (p : Priority) : string :=
  match p with KernelCritical => "KCRIT" | High => "HIGH" | Normal => "NORM" | Background => "BG" end.

Definition state_label (s : ProcessState) : string :=
  match s with Ready => "READY" | Running => "RUNNING" | Blocked => "BLOCKED" | Terminated => "DEAD" end.

Section Commands.
Context {D N : Type} `{BlockOps D} `{Services N}.
Context (fat32_fuel : nat).

Definition emit (e : event) : M (Machine D N) unit :=
  modify (fun m => mk_Machine (disk m) (sched m) (kv_manager m) (ticks m) (services m) (printed m ++ [e])).

Definition kprintln (format : string) (args : list arg) : M (Machine D N) unit := emit (Console format args).
Definition serial_println (format : string) (args : list arg) : M (Machine D N) unit := emit (Serial format args).

Definition on_disk {A} (c : M D A) : M (Machine D N) A := fun m =>
  let '(r, d) := c (disk m) in
  (r, mk_Machine d (sched m) (kv_manager m) (ticks m) (services m) (printed m)).

Definition on_services {A} (c : M N A) : M (Machine D N) A := fun m =>
  let '(r, n) := c (services m) in
  (r, mk_Machine (disk m) (sched m) (kv_manager m) (ticks m) n (printed m)).

Fixpoint print_each {A} (l : list A) (f : A -> M (Machine D N) unit) : M (Machine D N) unit :=
  match l with
  | [] => mret tt
  | x :: r => f x;; print_each r f
  end.

(** ** Listings *)

Definition print_entry (e : DirEntry) : M (Machine D N) unit :=
  kprintln "  {}{:<12} {} bytes" [Text (if is_dir e then "[DIR] " else "      "); Str (name e); Num (size e)];;
  serial_println "  {} {} bytes cluster={} dir={}"
    [Str (name e); Num (size e); Num (start_cluster e); Bool (is_dir e)].

Definition print_dir_entries (fs_name : string) (entries : list DirEntry) : M (Machine D N) unit :=
  let n := Num (Z.of_nat (length entries)) in
  kprintln "{} root directory ({} entries):" [Text fs_name; n];;
  serial_println "[SHELL] ls -> {} {} entries" [Text fs_name; n];;
  print_each entries print_entry.

Definition list_root_directory : M (Machine D N) unit :=
  partition ← on_disk find_fat_partition;
  o ← on_disk (attempt (Fat32.read_bpb partition));
  match o with
  | inl fs =>
      entries ← on_disk (Fat32.list_directory fat32_fuel fs (root_cluster fs));
      print_dir_entries "FAT32" entries
  | inr fat32_err =>
      serial_println "[SHELL] ls -> not FAT32 ({}), trying FAT12/16" [Text fat32_err];;
      fs ← on_disk (Fat12.read_bpb partition);
      entries ← on_disk (with_volume fs Fat12.list_root_directory);
      print_dir_entries "FAT12/16" entries
  end.

Definition list_fat_directory (nm : list Z) : M (Machine D N) unit :=
  fs ← on_disk (mount_fat12 "listing a FAT32 subdirectory by name isn't wired up yet (this disk is FAT12 in practice)");
  segments ← lift (split_segments nm);
  sub_entries ← on_disk (with_volume fs
    (cluster ← resolve_dir_path segments;
     match cluster with
     | None => Fat12.list_root_directory
     | Some c => Fat12.list_directory c
     end));
  let n := Num (Z.of_nat (length sub_entries)) in
  kprintln "{} ({} entries):" [Str nm; n];;
  serial_println "[SHELL] ls {} -> {} entries" [Str nm; n];;
  print_each sub_entries print_entry.

(** ** The commands *)

Definition help : M (Machine D N) unit :=
  kprintln "Commands: help, ps, mem, uptime, date, lspci, disk, ls, cat, touch, rm, mkdir, rmdir, netcheck, ping, dns, tcpecho, clear" [];;
  serial_println "[SHELL] help -> Commands: help, ps, mem, uptime, date, lspci, disk, ls, cat, touch, rm, mkdir, rmdir, netcheck, ping, dns, tcpecho, clear" [].

Definition ps : M (Machine D N) unit :=
  s ← gets sched;
  let count := Num (Z.of_nat (get_active_count s)) in
  kprintln "Active processes: {}" [count];;
  kprintln "PID  PRIO   STATE    NAME              RSP" [];;
  serial_println "[SHELL] ps -> active_count={}" [count];;
  print_each (live s) (fun p =>
    kprintln "{:<4} {:<6} {:<8} {:<17} {:#x}"
      [Num (pid p); Text (priority_label (priority p)); Text (state_label (state p)); Text (AgentScheduler.name p);
       Num (stack_pointer p)];;
    serial_println "  PID {} [{}] {} {} rsp={:#x}"
      [Num (pid p); Text (priority_label (priority p)); Text (state_label (state p)); Text (AgentScheduler.name p);
       Num (stack_pointer p)]).

Definition mem : M (Machine D N) unit :=
  m ← gets kv_manager;
  let heap_args := [Num HEAP_START; Num (HEAP_START + HEAP_SIZE); Num (HEAP_SIZE / 1024); Num (get_allocated_count m)] in
  kprintln "Heap: {:#x}..{:#x} ({} KiB) | KV cache blocks allocated: {}" heap_args;;
  serial_println "[SHELL] mem -> heap {:#x}..{:#x} ({} KiB), kv_blocks={}" heap_args;;
  print_each (live_blocks m) (fun b =>
    let args := [Num (block_id b); Num (owner b); Num (token_capacity b); Loc (location b);
                 Num (Z.of_nat (length (block_data b))); Num (block_addr b)] in
    kprintln "  KV block #{} pid={} tokens={} {:?} {}B @ {:#x}" args;;
    serial_println "  KV block #{} pid={} tokens={} {:?} {}B @ {:#x}" args).

Definition uptime : M (Machine D N) unit :=
  t ← gets ticks;
  kprintln "Timer ticks since boot: {} (~{:.1}s at ~18.2Hz)" [Num t; Seconds t];;
  serial_println "[SHELL] uptime -> {} ticks" [Num t].

Definition date : M (Machine D N) unit :=
  n ← gets services;
  let t := now n in
  let args := [Num (year t); Num (month t); Num (day t); Num (hours t); Num (minutes t); Num (seconds t)] in
  kprintln "{:04}-{:02}-{:02} {:02}:{:02}:{:02} UTC" args;;
  serial_println "[SHELL] date -> {:04}-{:02}-{:02} {:02}:{:02}:{:02}" args.

Definition lspci : M (Machine D N) unit :=
  devices ← on_services scan_devices;
  kprintln "Bus Dev Fn  Vendor Device Class" [];;
  serial_println "[SHELL] lspci -> {} device(s) on bus 0" [Num (Z.of_nat (length devices))];;
  print_each devices (fun d =>
    kprintln "{:3} {:3} {:2}  {:#06x} {:#06x} {:#04x}:{:#04x} ({})"
      [Num (bus d); Num (device d); Num (function d); Num (vendor_id d); Num (device_id d); Num (class_ d); Num (subclass d);
       Text (class_name (class_ d))];;
    serial_println "  {:02x}:{:02x}.{} vendor={:#06x} device={:#06x} class={:#04x}:{:#04x} prog_if={:#04x} ({})"
      [Num (bus d); Num (device d); Num (function d); Num (vendor_id d); Num (device_id d); Num (class_ d); Num (subclass d);
       Num (prog_if d); Text (class_name (class_ d))]).

(** The partitions printed by [disk], numbered by their row. *)
Fixpoint print_partitions (i : Z) (l : list PartitionEntry) : M (Machine D N) unit :=
  match l with
  | [] => mret tt
  | p :: r =>
      (if partition_type p =? 0 then mret tt
       else
         kprintln "  Partition {}: {}type={:#04x} ({}) start_lba={} sectors={}"
           [Num i; Text (if bootable p then "* " else "  "); Num (partition_type p);
            Text (partition_type_name (partition_type p)); Num (start_lba p); Num (sector_count p)];;
         serial_println "  partition{} type={:#04x} ({}) start_lba={} sectors={} bootable={}"
           [Num i; Num (partition_type p); Text (partition_type_name (partition_type p)); Num (start_lba p);
            Num (sector_count p); Bool (bootable p)]);;
      print_partitions (i + 1) r
  end.

Definition disk_info : M (Machine D N) unit :=
  o ← on_disk (attempt (read_sector 0));
  match o with
  | inl buf =>
      let sig_ok := (byte_at buf 510 =? 0x55) && (byte_at buf 511 =? 0xAA) in
      kprintln "ATA read OK: LBA 0, 512 bytes. Boot signature (bytes 510-511): {:#04x}{:02x} ({})"
        [Num (byte_at buf 510); Num (byte_at buf 511); Text (if sig_ok then "valid MBR" else "unexpected")];;
      serial_println "[SHELL] disk -> LBA0 read OK, signature={:#04x}{:02x} ({})"
        [Num (byte_at buf 510); Num (byte_at buf 511); Text (if sig_ok then "valid" else "UNEXPECTED")];;
      if sig_ok then print_partitions 0 (parse_mbr buf) else mret tt
  | inr e =>
      kprintln "ATA read failed: {}" [Text e];;
      serial_println "[SHELL] disk -> FAILED: {}" [Text e]
  end.

Definition ls (parts : list (list Z)) : M (Machine D N) unit :=
  let '(dirname, _) := next_word parts in
  o ← attempt (if bool_decide (dirname = []) then list_root_directory else list_fat_directory dirname);
  match o with
  | inl _ => mret tt
  | inr e =>
      kprintln "ls: {}" [Text e];;
      serial_println "[SHELL] ls -> FAILED: {}" [Text e]
  end.

Definition mkdir (parts : list (list Z)) : M (Machine D N) unit :=
  let '(dirname, _) := next_word parts in
  if bool_decide (dirname = []) then
    kprintln "mkdir: usage: mkdir DIRNAME" [];;
    serial_println "[SHELL] mkdir -> no name given" []
  else
    n ← gets services;
    o ← attempt (on_disk (create_fat_directory (now n) dirname));
    match o with
    | inl _ =>
        kprintln "Created directory '{}'." [Str dirname];;
        serial_println "[SHELL] mkdir {} -> created" [Str dirname]
    | inr e =>
        kprintln "mkdir: {}" [Text e];;
        serial_println "[SHELL] mkdir {} -> FAILED: {}" [Str dirname; Text e]
    end.

Definition rmdir (parts : list (list Z)) : M (Machine D N) unit :=
  let '(dirname, _) := next_word parts in
  if bool_decide (dirname = []) then
    kprintln "rmdir: usage: rmdir DIRNAME" [];;
    serial_println "[SHELL] rmdir -> no name given" []
  else
    o ← attempt (on_disk (delete_fat_directory dirname));
    match o with
    | inl _ =>
        kprintln "Deleted directory '{}'." [Str dirname];;
        serial_println "[SHELL] rmdir {} -> deleted" [Str dirname]
    | inr e =>
        kprintln "rmdir: {}" [Text e];;
        serial_println "[SHELL] rmdir {} -> FAILED: {}" [Str dirname; Text e]
    end.

(** The first four bytes, when there are as many. *)
Definition print_first4 (data : list Z) : M (Machine D N) unit :=
  match data with
  | a :: b :: c :: d :: _ =>
      kprintln "  first 4 bytes: {:02x} {:02x} {:02x} {:02x}" [Num a; Num b; Num c; Num d];;
      serial_println "  first4={:02x}{:02x}{:02x}{:02x}" [Num a; Num b; Num c; Num d]
  | _ => mret tt
  end.

Definition cat (parts : list (list Z)) : M (Machine D N) unit :=
  let '(filename, _) := next_word parts in
  if bool_decide (filename = []) then
    kprintln "cat: usage: cat FILENAME.EXT" [];;
    serial_println "[SHELL] cat -> no filename given" []
  else
    o ← attempt (on_disk (read_fat_file fat32_fuel filename));
    match o with
    | inl data =>
        kprintln "Read {} bytes from '{}'." [Num (Z.of_nat (length data)); Str filename];;
        serial_println "[SHELL] cat {} -> {} bytes" [Str filename; Num (Z.of_nat (length data))];;
        print_first4 data
    | inr e =>
        kprintln "cat: {}" [Text e];;
        serial_println "[SHELL] cat {} -> FAILED: {}" [Str filename; Text e]
    end.

Definition touch (parts : list (list Z)) : M (Machine D N) unit :=
  let '(filename, parts) := next_word parts in
  if bool_decide (filename = []) then
    kprintln "touch: usage: touch FILENAME.EXT [content...]" [];;
    serial_println "[SHELL] touch -> no filename given" []
  else
    let content := join 0x20 parts in
    n ← gets services;
    o ← attempt (on_disk (create_fat_file (now n) filename content));
    match o with
    | inl _ =>
        kprintln "Created '{}' ({} bytes)." [Str filename; Num (Z.of_nat (length content))];;
        serial_println "[SHELL] touch {} -> created {} bytes" [Str filename; Num (Z.of_nat (length content))]
    | inr e =>
        kprintln "touch: {}" [Text e];;
        serial_println "[SHELL] touch {} -> FAILED: {}" [Str filename; Text e]
    end.

Definition rm (parts : list (list Z)) : M (Machine D N) unit :=
  let '(filename, _) := next_word parts in
  if bool_decide (filename = []) then
    kprintln "rm: usage: rm FILENAME.EXT" [];;
    serial_println "[SHELL] rm -> no filename given" []
  else
    o ← attempt (on_disk (delete_fat_file filename));
    match o with
    | inl _ =>
        kprintln "Deleted '{}'." [Str filename];;
        serial_println "[SHELL] rm {} -> deleted" [Str filename]
    | inr e =>
        kprintln "rm: {}" [Text e];;
        serial_println "[SHELL] rm {} -> FAILED: {}" [Str filename; Text e]
    end.

Definition netcheck : M (Machine D N) unit :=
  o ← attempt (on_services receive_test_frame);
  match o with
  | inl _ =>
      kprintln "Network check OK: sent a real ARP request and received a genuine reply." [];;
      serial_println "[SHELL] netcheck -> ok" []
  | inr e =>
      kprintln "netcheck: {}" [Text e];;
      serial_println "[SHELL] netcheck -> FAILED: {}" [Text e]
  end.

(** SLIRP's DNS proxy. *)
Definition DNS_PROXY : list Z := [10; 0; 2; 3].

Definition ping_target (target_str : list Z) : M (Machine D N) (list Z) :=
  match parse_ipv4 target_str with
  | Some ip => mret ip
  | None =>
      if bool_decide (target_str = []) then lift (Err "usage: ping A.B.C.D | ping hostname")
      else
        ip ← on_services (resolve_hostname target_str DNS_PROXY);
        kprintln "ping: resolved {} to {}.{}.{}.{}" (Str target_str :: map Num ip);;
        serial_println "[SHELL] ping resolve_hostname({}) -> {:?}" [Str target_str; Octets ip];;
        mret ip
  end.

Definition ping_command (parts : list (list Z)) : M (Machine D N) unit :=
  let '(target_str, _) := next_word parts in
  resolved ← attempt (ping_target target_str);
  match resolved with
  | inl target_ip =>
      o ← attempt (on_services (ping target_ip));
      match o with
      | inl _ =>
          kprintln "Ping to {}: real ICMP echo reply received." [Str target_str];;
          serial_println "[SHELL] ping {} -> ok" [Str target_str]
      | inr e =>
          kprintln "ping: {}" [Text e];;
          serial_println "[SHELL] ping {} -> FAILED: {}" [Str target_str; Text e]
      end
  | inr e =>
      kprintln "ping: {}" [Text e];;
      serial_println "[SHELL] ping -> invalid or missing target: '{}' ({})" [Str target_str; Text e]
  end.

Definition dns (parts : list (list Z)) : M (Machine D N) unit :=
  let '(ip_str, parts) := next_word parts in
  let '(hostname, _) := next_word parts in
  match parse_ipv4 ip_str, bool_decide (hostname = []) with
  | Some target_ip, false =>
      o ← attempt (on_services (dns_query_test target_ip hostname));
      match o with
      | inl (reply_received, qr_bit_set, answer_count, parsed_a_record) =>
          let args := [Str ip_str; Str hostname; Bool reply_received; Bool qr_bit_set; Num answer_count;
                       OptOctets parsed_a_record] in
          kprintln "DNS query to {}:53 for {} - reply_received={} qr_bit_set={} answer_count={} parsed_a_record={:?}" args;;
          serial_println "[SHELL] dns {} {} -> reply_received={} qr_bit_set={} answer_count={} parsed_a_record={:?}" args
      | inr e =>
          kprintln "dns: {}" [Text e];;
          serial_println "[SHELL] dns {} {} -> FAILED: {}" [Str ip_str; Str hostname; Text e]
      end
  | _, _ =>
      kprintln "dns: usage: dns A.B.C.D hostname  (queries that DNS server's own port 53)" [];;
      serial_println "[SHELL] dns -> invalid or missing IP/hostname: '{}' '{}'" [Str ip_str; Str hostname]
  end.

Definition MAX_TCPECHO_PAYLOAD : nat := 100.

Definition tcpecho (parts : list (list Z)) : M (Machine D N) unit :=
  let '(ip_str, parts) := next_word parts in
  let '(port_str, parts) := next_word parts in
  let message := join 0x20 parts in
  match parse_ipv4 ip_str, parse_unsigned 65535 port_str with
  | Some target_ip, Some target_port =>
      if (length message <=? MAX_TCPECHO_PAYLOAD)%nat then
        let payload := message ++ [0x0A] in
        o ← attempt (on_services (tcp_echo_test target_ip target_port 54322 0x30000000 payload));
        match o with
        | inl echoed =>
            let args := [Str ip_str; Num target_port; Num (Z.of_nat (length echoed)); Bool (bool_decide (echoed = payload))] in
            kprintln "TCP echo to {}:{} - echo_len={} matches_sent={}" args;;
            serial_println "[SHELL] tcpecho {} {} -> echo_len={} matches_sent={}" args
        | inr e =>
            kprintln "tcpecho: {}" [Text e];;
            serial_println "[SHELL] tcpecho {} {} -> FAILED: {}" [Str ip_str; Num target_port; Text e]
        end
      else
        kprintln "tcpecho: message too long ({} bytes, max {})"
          [Num (Z.of_nat (length message)); Num (Z.of_nat MAX_TCPECHO_PAYLOAD)];;
        serial_println "[SHELL] tcpecho -> message too long: {} bytes" [Num (Z.of_nat (length message))]
  | _, _ =>
      kprintln "tcpecho: usage: tcpecho A.B.C.D PORT message..." [];;
      serial_println "[SHELL] tcpecho -> invalid usage: ip='{}' port='{}'" [Str ip_str; Str port_str]
  end.

Definition ring3test : M (Machine D N) unit :=
  kprintln "[SHELL] ring3test -> entering ring-3 (this will not return)" [];;
  serial_println "[SHELL] ring3test -> entering ring-3" [];;
  on_services run_ring3_test.

Definition ring3syscall : M (Machine D N) unit :=
  kprintln "[SHELL] ring3syscall -> entering ring-3 (this will not return)" [];;
  serial_println "[SHELL] ring3syscall -> entering ring-3" [];;
  on_services run_ring3_syscall_test.

Definition clear : M (Machine D N) unit :=
  emit ClearScreen;;
  serial_println "[SHELL] clear -> VGA screen cleared" [].

Definition unknown (cmd : list Z) : M (Machine D N) unit :=
  kprintln "Unknown command: '{}' (try 'help')" [Str cmd];;
  serial_println "[SHELL] unknown command: '{}'" [Str cmd].

(** The command of each name, given the words behind it. *)
Definition commands : list (string * (list (list Z) -> M (Machine D N) unit)) :=
  [("help", fun _ => help); ("ps", fun _ => ps); ("mem", fun _ => mem); ("uptime", fun _ => uptime); ("date", fun _ => date);
   ("lspci", fun _ => lspci); ("disk", fun _ => disk_info); ("ls", ls); ("mkdir", mkdir); ("rmdir", rmdir); ("cat", cat);
   ("touch", touch); ("rm", rm); ("netcheck", fun _ => netcheck); ("ping", ping_command); ("dns", dns); ("tcpecho", tcpecho);
   ("ring3test", fun _ => ring3test); ("ring3syscall", fun _ => ring3syscall); ("clear", fun _ => clear)].

Definition dispatch_command (line : list Z) : M (Machine D N) unit :=
  let line := trim line in
  if bool_decide (line = []) then mret tt
  else
    let '(cmd, parts) := next_word (split_whitespace line) in
    match find (fun c => bool_decide (cmd = str c.1)) commands with
    | Some c => c.2 parts
    | None => unknown cmd
    end.
End Commands.
