(* ===== verification/ShellText.v ===== *)
(** * ShellText: how the shell reads its words, addresses and paths

    Splitting is the inverse of joining; [parse_ipv4] and [split_path] accept exactly
    the texts of an address and of a path, and take them apart as they were put
    together. *)
From stdpp Require Import base list numbers strings.
From Stdlib Require Import Lia.
From S2P Require Import Prelude Shell.
Open Scope Z_scope.

(** ** Splitting and joining *)

Lemma split_on_nonempty p l : split_on p l <> [].
Proof. destruct l as [|b l]; cbn [split_on]; [done|]. destruct (p b); [done|]. by destruct (split_on p l). Qed.

Lemma split_on_piece p l : forallb (fun b => negb (p b)) l = true -> split_on p l = [l].
Proof.
  induction l as [|b l IH]; intros H; [done|]. cbn [forallb split_on] in *. apply andb_true_iff in H as [Hb H].
  apply negb_true_iff in Hb. by rewrite Hb, IH.
Qed.

Lemma split_on_app sep l r :
  forallb (fun b => negb (Z.eqb sep b)) l = true -> split_on (Z.eqb sep) (l ++ sep :: r) = l :: split_on (Z.eqb sep) r.
Proof.
  induction l as [|b l IH]; intros H; cbn [app split_on].
  - by rewrite Z.eqb_refl.
  - cbn [forallb] in H. apply andb_true_iff in H as [Hb H]. apply negb_true_iff in Hb. by rewrite Hb, IH.
Qed.

Lemma split_join sep ps :
  ps <> [] -> Forall (fun p => forallb (fun b => negb (Z.eqb sep b)) p = true) ps -> split_on (Z.eqb sep) (join sep ps) = ps.
Proof.
  induction ps as [|p [|q ps] IH]; intros Hne H; [done| |]; apply Forall_cons in H as [Hp H].
  - by apply split_on_piece.
  - change (join sep (p :: q :: ps)) with (p ++ sep :: join sep (q :: ps)). rewrite split_on_app by done. by rewrite IH.
Qed.

Lemma join_cons sep p ps : ps <> [] -> join sep (p :: ps) = p ++ sep :: join sep ps.
Proof. by destruct ps. Qed.

Lemma join_split sep l :
  join sep (split_on (Z.eqb sep) l) = l /\
  Forall (fun p => forallb (fun b => negb (Z.eqb sep b)) p = true) (split_on (Z.eqb sep) l).
Proof.
  induction l as [|b l [IH1 IH2]]; cbn [split_on]; [by repeat constructor|].
  pose proof (split_on_nonempty (Z.eqb sep) l) as Hne. destruct (Z.eqb_spec sep b) as [<-|Hb].
  - rewrite join_cons, IH1 by done. by repeat constructor.
  - destruct (split_on (Z.eqb sep) l) as [|p ps]; [done|]. apply Forall_cons in IH2 as [Hp IH2]. split.
    + rewrite <- IH1. by destruct ps.
    + constructor; [|done]. cbn [forallb]. by rewrite (proj2 (Z.eqb_neq sep b)), Hp.
Qed.

Lemma split_on_iff sep l ps :
  split_on (Z.eqb sep) l = ps <->
  l = join sep ps /\ ps <> [] /\ Forall (fun p => forallb (fun b => negb (Z.eqb sep b)) p = true) ps.
Proof.
  split.
  - intros <-. destruct (join_split sep l) as [-> H]. split; [done|]. split; [apply split_on_nonempty|done].
  - intros (-> & Hne & H). by apply split_join.
Qed.

(** ** Numbers *)

(** The value of decimal digits read after [acc]. *)
Definition decimal (acc : Z) (l : list Z) : Z := foldl (fun v b => v * 10 + (b - 0x30)) acc l.

Lemma decimal_grows acc l : 0 <= acc -> forallb is_digit l = true -> acc <= decimal acc l.
Proof.
  revert acc. induction l as [|b l IH]; intros acc Ha H; [done|]. cbn [forallb] in H. apply andb_true_iff in H as [Hb H].
  unfold is_digit in Hb. unbool. unfold decimal in *. cbn [foldl]. specialize (IH (acc * 10 + (b - 0x30)) ltac:(lia) H). lia.
Qed.

Lemma parse_digits_iff max acc l v :
  0 <= acc <= max -> (parse_digits max acc l = Some v <-> forallb is_digit l = true /\ v = decimal acc l /\ v <= max).
Proof.
  revert acc. induction l as [|b l IH]; intros acc Ha; cbn [parse_digits forallb].
  - split; [intros [= <-]; split; [done|]; split; [done|lia]|]. by intros (_ & -> & _).
  - destruct (is_digit b) eqn:Hb; [|split; [done|by intros (? & _)]]. assert (Hd := Hb). unfold is_digit in Hd. unbool.
    cbn [andb]. change (decimal acc (b :: l)) with (decimal (acc * 10 + (b - 0x30)) l).
    destruct (Z.ltb_spec max (acc * 10 + (b - 0x30))) as [Hlt|Hge].
    + split; [done|]. intros (Hl & -> & Hm). pose proof (decimal_grows (acc * 10 + (b - 0x30)) l ltac:(lia) Hl). lia.
    + apply IH. lia.
Qed.

(** A number in text: digits, after [+] if any. *)
Definition digits_of (s : list Z) : list Z := match s with b :: r => if b =? 0x2B then r else s | [] => s end.

Lemma parse_unsigned_iff max s v :
  0 <= max -> (parse_unsigned max s = Some v <->
    digits_of s <> [] /\ forallb is_digit (digits_of s) = true /\ v = decimal 0 (digits_of s) /\ v <= max).
Proof.
  intros Hm. unfold parse_unsigned. fold (digits_of s). destruct (digits_of s) as [|d ds] eqn:E.
  - split; [done|]. by intros (? & _).
  - rewrite parse_digits_iff by lia. split; [intros (? & ? & ?); done|intros (_ & ? & ? & ?); done].
Qed.

(** ** Addresses *)

Definition octet_text (p : list Z) (o : Z) : Prop :=
  digits_of p <> [] /\ forallb is_digit (digits_of p) = true /\ o = decimal 0 (digits_of p) /\ o <= 255.

Lemma parse_octets_iff n parts os rest :
  parse_octets n parts = Some (os, rest) <-> exists ps, parts = ps ++ rest /\ length ps = n /\ Forall2 octet_text ps os.
Proof.
  revert parts os. induction n as [|n IH]; intros parts os; cbn [parse_octets].
  - split.
    + intros [= <- <-]. by exists [].
    + by intros ([|p ps] & -> & Hl & H); [inversion H; subst|].
  - destruct parts as [|p parts]; [split; [done|by intros ([|q ps] & E & Hl & _)]|].
    destruct (parse_unsigned 255 p) as [o|] eqn:Ep.
    + apply parse_unsigned_iff in Ep; [|lia]. destruct (parse_octets n parts) as [[os' rest']|] eqn:Eo.
      * split.
        -- intros [= <- <-]. apply IH in Eo as (ps & -> & Hl & H). exists (p :: ps). split; [done|]. split; [by cbn; rewrite Hl|].
           by constructor.
        -- intros ([|q ps] & E & Hl & H); [done|]. cbn [app] in E. injection E as <- ->. inversion H as [|? o' ? os'' Ho H']; subst.
           assert (Eo' : parse_octets n (ps ++ rest) = Some (os'', rest)) by (apply IH; exists ps; split; [done|]; split; [by injection Hl|done]).
           rewrite Eo' in Eo. injection Eo as <- <-. destruct Ho as (_ & _ & -> & _), Ep as (_ & _ & -> & _). done.
      * split; [done|]. intros ([|q ps] & E & Hl & H); [done|]. cbn [app] in E. injection E as <- ->.
        inversion H as [|? o' ? os' Ho H']; subst. exfalso.
        assert (Eo' : parse_octets n (ps ++ rest) = Some (os', rest)) by (apply IH; exists ps; split; [done|]; split; [by injection Hl|done]).
        by rewrite Eo' in Eo.
    + split; [done|]. intros ([|q ps] & E & Hl & H); [done|]. cbn [app] in E. injection E as <- _.
      inversion H as [|? o' ? os' Ho H']; subst. exfalso. apply (parse_unsigned_iff 255) in Ho; [|lia]. by rewrite Ho in Ep.
Qed.

(** The usual text of an octet. *)
Definition dec_text (o : Z) : list Z :=
  if o <? 10 then [0x30 + o]
  else if o <? 100 then [0x30 + o / 10; 0x30 + o mod 10]
  else [0x30 + o / 100; 0x30 + o / 10 mod 10; 0x30 + o mod 10].

Definition dec_text_ok (o : Z) : bool :=
  let t := dec_text o in
  forallb (fun b => negb (Z.eqb 0x2E b)) t && bool_decide (parse_unsigned 255 t = Some o).

Lemma dec_text_spec o : byte_ok o -> forallb (fun b => negb (Z.eqb 0x2E b)) (dec_text o) = true /\ octet_text (dec_text o) o.
Proof.
  intros Ho. assert (H : dec_text_ok o = true).
  { apply (all_below_spec 256 dec_text_ok); [vm_compute; reflexivity|]. unfold byte_ok in Ho. lia. }
  unfold dec_text_ok in H. apply andb_true_iff in H as [Hd Hp]. apply bool_decide_eq_true in Hp. split; [done|].
  by apply parse_unsigned_iff in Hp; [|lia].
Qed.

(** [parse_ipv4] accepts exactly four decimal numbers up to 255 with single
    dots between them - each may carry leading zeros or one sign [+], nothing else -
    and returns their values; so the usual text of any address is read back as that
    address. *)
Theorem parse_ipv4_exact :
  (forall s ip, parse_ipv4 s = Some ip <->
    exists ps, s = join 0x2E ps /\ length ps = 4%nat /\ Forall2 octet_text ps ip) /\
  (forall ip, length ip = 4%nat -> bytes_ok ip -> parse_ipv4 (join 0x2E (map dec_text ip)) = Some ip).
Proof.
  assert (Hnodot : forall p o, octet_text p o -> forallb (fun b => negb (Z.eqb 0x2E b)) p = true).
  { intros p o (Hne & Hd & _). apply forallb_forall. intros b Hb. apply negb_true_iff, Z.eqb_neq. intros <-.
    assert (Hin : In 0x2E (digits_of p)).
    { unfold digits_of. destruct p as [|x p]; [done|]. destruct (Z.eqb_spec x 0x2B) as [->|]; [by destruct Hb|done]. }
    rewrite forallb_forall in Hd. by apply Hd in Hin. }
  assert (Hiff : forall s ip, parse_ipv4 s = Some ip <->
    exists ps, s = join 0x2E ps /\ length ps = 4%nat /\ Forall2 octet_text ps ip).
  { intros s ip. unfold parse_ipv4. split.
    - destruct (parse_octets 4 (split_on (Z.eqb 0x2E) s)) as [[os [|r rest]]|] eqn:E; [|done..]. intros [= ->].
      apply parse_octets_iff in E as (ps & E & Hl & H). rewrite app_nil_r in E. apply split_on_iff in E as (-> & _ & _). by exists ps.
    - intros (ps & -> & Hl & H). rewrite split_join; [|by destruct ps|].
      + assert (E : parse_octets 4 ps = Some (ip, [])) by (apply parse_octets_iff; exists ps; by rewrite app_nil_r). by rewrite E.
      + eapply Forall2_Forall_l; [exact H|]. apply Forall_true. intros o p. apply Hnodot. }
  split; [exact Hiff|]. intros ip Hl Hb. apply Hiff. exists (map dec_text ip). split; [done|]. split; [by rewrite length_map|].
  clear Hl. induction Hb as [|o ip Ho Hb IH]; cbn [map]; constructor; [by apply dec_text_spec|done].
Qed.

(** ** Paths *)

(** A name between slashes. *)
Definition component (p : list Z) : Prop := p <> [] /\ forallb (fun b => negb (Z.eqb 0x2F b)) p = true.

Lemma split_segments_iff path segments :
  split_segments path = Ok segments <-> path = join 0x2F segments /\ segments <> [] /\ Forall component segments.
Proof.
  unfold split_segments. set (l := split_on (Z.eqb 0x2F) path). assert (Hl := proj1 (split_on_iff 0x2F path l) eq_refl).
  destruct Hl as (Hj & Hne & Hf). destruct (existsb _ l) eqn:E.
  - split; [done|]. intros (-> & Hn & Hc). exfalso. apply existsb_exists in E as (p & Hp & Hd). apply bool_decide_eq_true in Hd as ->.
    unfold l in Hp. rewrite split_join in Hp; [|done|].
    + rewrite Forall_forall in Hc. apply list_elem_of_In in Hp. by destruct (Hc [] Hp).
    + eapply Forall_impl; [exact Hc|]. by intros p [_ Hp'].
  - split.
    + intros [= <-]. split; [done|]. split; [done|]. rewrite Forall_forall in Hf. apply Forall_forall. intros p Hp. split; [|by apply Hf].
      intros ->. apply not_true_iff_false in E. apply E, existsb_exists. exists []. split; [by apply list_elem_of_In|done].
    + intros (Hj' & Hn & Hc). f_equal. unfold l. rewrite Hj'. apply split_join; [done|].
      eapply Forall_impl; [exact Hc|]. by intros p [_ Hp'].
Qed.

(** [split_path] accepts exactly the paths [dir/../dir/name] - no empty name
    anywhere, the last not [.] or [..] - and gives back their directories and their
    name; it never panics. *)
Theorem split_path_exact path :
  settles (split_path path) /\
  forall dirs nm, split_path path = Ok (dirs, nm) <->
    path = join 0x2F (dirs ++ [nm]) /\ Forall component (dirs ++ [nm]) /\ is_dots nm = false.
Proof.
  unfold split_path. destruct (split_segments path) as [segs|e| |] eqn:E.
  - apply split_segments_iff in E as (Hj & Hne & Hc). cbn [mbind res_bind].
    destruct segs as [|nm' dirs' _] using rev_ind; [done|]. rewrite last_snoc, removelast_last. split; [by destruct (is_dots nm')|].
    intros dirs nm. destruct (is_dots nm') eqn:Hd.
    + split; [done|]. intros (-> & Hc' & Hn). exfalso.
      assert (Heq : dirs' ++ [nm'] = dirs ++ [nm]).
      { apply (f_equal (split_on (Z.eqb 0x2F))) in Hj. rewrite !split_join in Hj; [done|by destruct dirs'| |by destruct dirs|];
          (eapply Forall_impl; [eassumption|]; by intros p [_ Hp']). }
      apply app_inj_tail in Heq as [_ ->]. by rewrite Hn in Hd.
    + split.
      * intros [= <- <-]. done.
      * intros (Hj' & Hc' & _). rewrite Hj in Hj'.
        assert (Heq : dirs' ++ [nm'] = dirs ++ [nm]).
        { apply (f_equal (split_on (Z.eqb 0x2F))) in Hj'. rewrite !split_join in Hj'; [done|by destruct dirs| |by destruct dirs'|];
            (eapply Forall_impl; [eassumption|]; by intros p [_ Hp']). }
        by apply app_inj_tail in Heq as [-> ->].
  - split; [done|]. intros dirs nm. split; [done|]. intros (Hj & Hc & _). exfalso.
    assert (E' : split_segments path = Ok (dirs ++ [nm])) by (apply split_segments_iff; split; [done|]; split; [by destruct dirs|done]).
    by rewrite E' in E.
  - exfalso. unfold split_segments in E. by destruct (existsb _ _).
  - exfalso. unfold split_segments in E. by destruct (existsb _ _).
Qed.

Lemma parse_ipv4_exact_witness : length [10; 0; 2; 255] = 4%nat /\ parse_ipv4 (str "10.0.2.255") = Some [10; 0; 2; 255].
Proof.
  split; [reflexivity|]. change (str "10.0.2.255") with (join 0x2E (map dec_text [10; 0; 2; 255])).
  apply (proj2 parse_ipv4_exact); [reflexivity|]. repeat constructor; unfold byte_ok; lia.
Defined.
