(* ===== verification/ShellReads.v ===== *)
(** * ShellReads: which command lines leave the disk alone

    Every command but [touch], [rm], [mkdir] and [rmdir] only reads the disk, and so
    do these when the path is not one they accept. *)
From stdpp Require Import base list numbers strings.
From Stdlib Require Import Lia.
From S2P Require Import Prelude AgentScheduler KvAllocator PhysMem Pci Rtc FatCommon Partition BlockDev Fat32 Fat12 Shell ShellText.
Open Scope Z_scope.

(** ** Calls that keep a view of the state *)

Create HintDb keep.

Section Keep.
Context {S X : Type} (view : S -> X).

Definition keeps {A} (c : M S A) : Prop := forall s, view (c s).2 = view s.

Lemma keeps_ret {A} (a : A) : keeps (mret a).
Proof. done. Qed.

Lemma keeps_lift {A} (r : res A) : keeps (lift r).
Proof. done. Qed.

Lemma keeps_gets {A} (f : S -> A) : keeps (gets f).
Proof. done. Qed.

Lemma keeps_view_bind {A B} (c : M S A) (k : A -> M S B) : keeps c -> (forall a, keeps (k a)) -> keeps (c ≫= k).
Proof.
  intros Hc Hk s. unfold mbind, M_bind. specialize (Hc s). destruct (c s) as [[a| | |] s']; cbn [snd] in *; try done.
  by rewrite (Hk a s').
Qed.

Lemma keeps_attempt {A} (c : M S A) : keeps c -> keeps (attempt c).
Proof. intros Hc s. unfold attempt. specialize (Hc s). by destruct (c s) as [[a| | |] s']. Qed.

Lemma keeps_for_each {A B R} (l : list A) (body : A -> B -> M S (B + R)) b :
  (forall x b, keeps (body x b)) -> keeps (for_each l body b).
Proof.
  intros Hb. revert b. induction l as [|x l IH]; intros b; cbn [for_each]; [apply keeps_ret|].
  apply keeps_view_bind; [apply Hb|]. intros [b'|r]; [apply IH|apply keeps_ret].
Qed.

Lemma keeps_walk {B R} (next : Z -> M S (option Z)) (body : Z -> B -> M S (B + R)) fuel c b :
  (forall c, keeps (next c)) -> (forall c b, keeps (body c b)) -> keeps (walk next body fuel c b).
Proof.
  intros Hn Hb. revert c b. induction fuel as [|f IH]; intros c b; cbn [walk]; [apply keeps_lift|].
  apply keeps_view_bind; [apply Hb|]. intros [b'|r]; [|apply keeps_ret].
  apply keeps_view_bind; [apply Hn|]. intros [c'|]; [apply IH|apply keeps_ret].
Qed.

Lemma keeps_if {A} (b : bool) (c1 c2 : M S A) : keeps c1 -> keeps c2 -> keeps (if b then c1 else c2).
Proof. by destruct b. Qed.
End Keep.

#[export] Hint Resolve keeps_ret keeps_lift keeps_gets : keep.

(** Takes a call apart down to the calls whose lemmas are hints. *)
Ltac keep :=
  repeat (intros; cbv beta zeta;
    first
    [ solve [auto 2 with keep nocore]
    | lazymatch goal with
      | |- keeps _ (mbind _ _) => apply keeps_view_bind
      | |- keeps _ (attempt _) => apply keeps_attempt
      | |- keeps _ (for_each _ _ _) => apply keeps_for_each
      | |- keeps _ (walk _ _ _ _ _) => apply keeps_walk
      | |- keeps _ (match ?x with _ => _ end) => destruct x
      end ]).

(** ** Reading files and directories *)

Section Reads.
Context {D : Type} `{BlockDev D} (a : Z).

Definition on_sector (d : D) : list Z := sector_at d a.
Definition on_volume (v : Vol D) : list Z := sector_at (dev v) a.

Lemma read_sector_keeps b : keeps on_sector (read_sector b).
Proof. intros d. apply read_keeps. Qed.

Lemma read_lba_keeps b : keeps on_volume (read_lba b).
Proof.
  intros v. unfold read_lba, on_volume. pose proof (read_keeps b (dev v) a) as Hk. by destruct (read_sector b (dev v)).
Qed.

Lemma on_fs_keeps {A} (f : Fat12Info -> res A) : keeps on_volume (on_fs f).
Proof. done. Qed.

Lemma get_fs_keeps : keeps on_volume get_fs.
Proof. done. Qed.

Lemma with_volume_keeps {A} fs (c : M (Vol D) A) : keeps on_volume c -> keeps on_sector (with_volume fs c).
Proof. intros Hc d. unfold with_volume. specialize (Hc (mk_Vol fs d)). by destruct (c (mk_Vol fs d)). Qed.
End Reads.

#[export] Hint Resolve read_sector_keeps read_lba_keeps on_fs_keeps get_fs_keeps : keep.

Section Mounting.
Context {D : Type} `{BlockDev D} (a : Z).

Lemma fat32_read_bpb_keeps p : keeps (on_sector a) (Fat32.read_bpb p).
Proof. unfold Fat32.read_bpb. keep. Qed.

Lemma fat12_read_bpb_keeps p : keeps (on_sector a) (Fat12.read_bpb p).
Proof. unfold Fat12.read_bpb. change (keeps (on_sector a) (fun d => ?f d)) with (keeps (on_sector a) f). keep. Qed.

Lemma fat32_next_keeps fs c : keeps (on_sector a) (Fat32.next_cluster fs c).
Proof. unfold Fat32.next_cluster. keep. Qed.

Lemma fat32_list_keeps fuel fs c : keeps (on_sector a) (Fat32.list_directory fuel fs c).
Proof. pose proof fat32_next_keeps. unfold Fat32.list_directory, Fat32.list_sector. keep. Qed.

Lemma fat32_read_keeps fuel fs nm : keeps (on_sector a) (Fat32.read_file fuel fs nm).
Proof.
  pose proof fat32_next_keeps. unfold Fat32.read_file, Fat32.find_entry, Fat32.find_sector, Fat32.read_chain, Fat32.read_step. keep.
Qed.

Lemma next_of_keeps c : keeps (on_volume a) (next_of c).
Proof. apply on_fs_keeps. Qed.

Lemma list_root_keeps : keeps (on_volume a) Fat12.list_root_directory.
Proof. unfold Fat12.list_root_directory, Fat12.list_sector. keep. Qed.

Lemma list_directory_keeps c : keeps (on_volume a) (Fat12.list_directory c).
Proof. pose proof next_of_keeps. unfold Fat12.list_directory, Fat12.list_sector. keep. Qed.

Lemma read_file_keeps dir nm : keeps (on_volume a) (Fat12.read_file_impl dir nm).
Proof.
  pose proof next_of_keeps. unfold Fat12.read_file_impl, Fat12.find_entry_location_in, Fat12.read_chain, Fat12.read_step. keep.
Qed.

Lemma find_fat_partition_keeps : keeps (on_sector a) find_fat_partition.
Proof. unfold find_fat_partition. keep. Qed.

Lemma resolve_keeps segments : keeps (on_volume a) (resolve_dir_path segments).
Proof.
  pose proof list_root_keeps. pose proof list_directory_keeps.
  unfold resolve_dir_path. generalize (@None Z). induction segments as [|nm rest IH]; intros c; cbn [resolve_from]; keep.
Qed.
End Mounting.

#[export] Hint Resolve fat32_read_bpb_keeps fat12_read_bpb_keeps fat32_list_keeps fat32_read_keeps list_root_keeps
  list_directory_keeps read_file_keeps find_fat_partition_keeps resolve_keeps : keep.

(** ** Commands *)

Section Machine.
Context {D N : Type} `{BlockDev D} `{Services N} (fat32_fuel : nat) (a : Z).

Definition on_machine (m : Machine D N) : list Z := sector_at (disk m) a.

Lemma emit_keeps e : keeps on_machine (emit e).
Proof. done. Qed.

Lemma kprintln_keeps f l : keeps on_machine (kprintln f l).
Proof. done. Qed.

Lemma serial_println_keeps f l : keeps on_machine (serial_println f l).
Proof. done. Qed.

Lemma on_disk_keeps {A} (c : M D A) : keeps (on_sector a) c -> keeps on_machine (on_disk c).
Proof. intros Hc m. unfold on_disk, on_machine. specialize (Hc (disk m)). by destruct (c (disk m)). Qed.

Lemma on_services_keeps {A} (c : M N A) : keeps on_machine (on_services c).
Proof. intros m. unfold on_services, on_machine. by destruct (c (services m)). Qed.

Lemma print_each_keeps {A} (l : list A) f : (forall x, keeps on_machine (f x)) -> keeps on_machine (print_each l f).
Proof. intros Hf. induction l as [|x l IH]; cbn [print_each]; [apply keeps_ret|]. by apply keeps_view_bind. Qed.
End Machine.

#[export] Hint Resolve emit_keeps kprintln_keeps serial_println_keeps on_services_keeps : keep.

(** [keep], through the calls on the machine too. *)
Ltac keep_machine :=
  keep;
  repeat (intros; first [apply on_disk_keeps | apply with_volume_keeps | apply print_each_keeps]; keep).

Section Lines.
Context {D N : Type} `{BlockDev D} `{Services N} (fat32_fuel : nat) (a : Z).

Lemma mount_keeps e : keeps (on_sector a) (mount_fat12 e).
Proof. unfold mount_fat12. keep. Qed.

Lemma print_entry_keeps e : keeps (on_machine (N := N) a) (print_entry e).
Proof. unfold print_entry. keep. Qed.

Lemma print_partitions_keeps i l : keeps (on_machine (N := N) a) (print_partitions i l).
Proof. revert i. induction l as [|p l IH]; intros i; cbn [print_partitions]; keep. Qed.
End Lines.

#[export] Hint Resolve mount_keeps print_entry_keeps print_partitions_keeps : keep.

Section Dispatch.
Context {D N : Type} `{BlockDev D} `{Services N} (fat32_fuel : nat) (a : Z).

Lemma ls_keeps parts : keeps (on_machine (N := N) a) (ls fat32_fuel parts).
Proof. unfold ls, list_root_directory, list_fat_directory, print_dir_entries. keep_machine. Qed.

Lemma cat_keeps parts : keeps (on_machine (N := N) a) (cat fat32_fuel parts).
Proof. unfold cat, read_fat_file, print_first4, Fat12.read_file, Fat12.read_file_in. keep_machine. Qed.

Lemma report_keeps :
  keeps (on_machine (N := N) a) help /\ keeps (on_machine (N := N) a) ps /\ keeps (on_machine (N := N) a) mem /\
  keeps (on_machine (N := N) a) uptime /\ keeps (on_machine (N := N) a) date /\ keeps (on_machine (N := N) a) lspci /\
  keeps (on_machine (N := N) a) disk_info /\ keeps (on_machine (N := N) a) clear.
Proof. unfold help, ps, mem, uptime, date, lspci, disk_info, clear. repeat split; keep_machine. Qed.

Lemma network_keeps parts :
  keeps (on_machine (N := N) a) netcheck /\ keeps (on_machine (N := N) a) (ping_command parts) /\
  keeps (on_machine (N := N) a) (dns parts) /\ keeps (on_machine (N := N) a) (tcpecho parts) /\
  keeps (on_machine (N := N) a) ring3test /\ keeps (on_machine (N := N) a) ring3syscall.
Proof. unfold netcheck, ping_command, ping_target, dns, tcpecho, ring3test, ring3syscall. repeat split; keep_machine. Qed.

(** The writing commands stop at a path that is not one. *)
Lemma bad_path_keeps {B} e (path : list Z) (k : Fat12Info -> list (list Z) * list Z -> M D B) :
  is_ok (split_path path) = false ->
  keeps (on_sector a) (fs ← mount_fat12 e; p ← lift (split_path path); k fs p).
Proof.
  intros Hp. apply keeps_view_bind; [apply mount_keeps|]. intros fs d. unfold mbind, M_bind, lift. by destruct (split_path path).
Qed.

Lemma writers_keep parts :
  is_ok (split_path (next_word parts).1) = false ->
  keeps (on_machine (N := N) a) (touch parts) /\ keeps (on_machine (N := N) a) (rm parts) /\
  keeps (on_machine (N := N) a) (mkdir parts) /\ keeps (on_machine (N := N) a) (rmdir parts).
Proof.
  intros Hp. unfold touch, rm, mkdir, rmdir. destruct (next_word parts) as [path rest]. cbn [fst] in Hp.
  assert (Hw : forall clock data, keeps (on_sector a) (create_fat_file clock path data) /\ keeps (on_sector a) (delete_fat_file path) /\
    keeps (on_sector a) (create_fat_directory clock path) /\ keeps (on_sector a) (delete_fat_directory path)).
  { intros clock data. repeat split; by apply bad_path_keeps. }
  repeat split; keep_machine; by apply Hw.
Qed.
End Dispatch.

(** C5. Of all command lines only [touch], [rm], [mkdir] and [rmdir] with a
    well-formed path can change the disk: any other line - another command, an
    unknown one, a path with an empty component or whose last name is [.] or
    [..] - leaves every sector as it was, whatever the disk holds and however the
    command ends. *)
Theorem only_writers_write {D N} `{BlockDev D} `{Services N} fat32_fuel line (m : Machine D N) a :
  let '(cmd, parts) := next_word (split_whitespace (trim line)) in
  (cmd ∈ map str ["touch"; "rm"; "mkdir"; "rmdir"] -> is_ok (split_path (next_word parts).1) = false) ->
  sector_at (disk (dispatch_command fat32_fuel line m).2) a = sector_at (disk m) a.
Proof.
  destruct (next_word (split_whitespace (trim line))) as [cmd parts] eqn:E. intros Hw.
  enough (Hk : keeps (on_machine a) (dispatch_command fat32_fuel line)) by apply Hk.
  unfold dispatch_command. case_bool_decide; [apply keeps_ret|]. rewrite E.
  destruct (find _ (commands fat32_fuel)) as [c|] eqn:Ef; [|unfold unknown; keep].
  apply find_some in Ef as [Hin Hc]. apply bool_decide_eq_true in Hc as ->.
  destruct (report_keeps (N := N) a) as (? & ? & ? & ? & ? & ? & ? & ?), (network_keeps (N := N) a parts) as (? & ? & ? & ? & ? & ?).
  pose proof (ls_keeps (N := N) fat32_fuel a parts). pose proof (cat_keeps (N := N) fat32_fuel a parts).
  pose proof (writers_keep (N := N) a parts) as Hwr.
  unfold commands in Hin. cbn [In] in Hin.
  repeat (destruct Hin as [<-|Hin]; [cbn [fst snd] in *; first [assumption | (apply Hwr, Hw; repeat constructor)]|]). done.
Qed.

(** A machine without network cards. *)
#[export] Instance quiet : Services unit := {
  now := fun _ => mk_RtcTime 2024 6 1 12 15 30;
  scan_devices := mret [];
  block_addr := fun _ => 0;
  receive_test_frame := lift (Err "e1000: no device found");
  ping := fun _ => lift (Err "e1000: no device found");
  resolve_hostname := fun _ _ => lift (Err "e1000: no device found");
  dns_query_test := fun _ _ => lift (Err "e1000: no device found");
  tcp_echo_test := fun _ _ _ _ _ => lift (Err "e1000: no device found");
  run_ring3_test := lift Hang;
  run_ring3_syscall_test := lift Hang;
}.

Definition prompt (d : MemDisk.t) : Machine MemDisk.t unit := mk_Machine d new_sched new_kv 0 tt [].

Lemma only_writers_write_witness :
  split_whitespace (trim (str " rmdir  DOCS/..")) = [str "rmdir"; str "DOCS/.."] /\
  sector_at (disk (dispatch_command 10 (str " rmdir  DOCS/..") (prompt (MemDisk.mk ∅ 100))).2) 7 =
    sector_at (disk (prompt (MemDisk.mk ∅ 100))) 7.
Proof.
  split; [vm_compute; reflexivity|].
  pose proof (only_writers_write 10 (str " rmdir  DOCS/..") (prompt (MemDisk.mk ∅ 100)) 7) as Hw.
  assert (E : next_word (split_whitespace (trim (str " rmdir  DOCS/.."))) = (str "rmdir", [str "DOCS/.."])) by (vm_compute; reflexivity).
  rewrite E in Hw. apply Hw. intros _. vm_compute. reflexivity.
Defined.
