(* ===== verification/ShellFiles.v ===== *)
(** * ShellFiles: a file made at the prompt can be read at the prompt

    Every file command finds the partition and mounts the volume again.
    [fat12_disk] is what the disk has to look like; on such a disk the mount gives
    the volume that an earlier command left, so that [touch] and then [cat] give the
    content back. *)
From stdpp Require Import base list numbers strings.
From Stdlib Require Import Lia.
From S2P Require Import Prelude AgentScheduler KvAllocator Rtc FatCommon FatEntry12 Partition BlockDev Fat32 Fat12 Fat12Table Fat12Chain Fat12Data Fat12Slots Fat12Dir Fat12Create Shell ShellText ShellReads.
Open Scope Z_scope.

(** ** Mounting *)

(** The boot sector of the volume [fs] of the partition [p]. *)
Record boot_ok (p : PartitionEntry) (boot : list Z) (fs : Fat12Info) : Prop := {
  bo_sig0 : byte_at boot 510 = 0x55;
  bo_sig1 : byte_at boot 511 = 0xAA;
  bo_512 : le16_at boot 11 = 512;
  bo_spc : byte_at boot 13 = Fat12.sectors_per_cluster fs;
  bo_reserved : le16_at boot 14 = Fat12.reserved_sector_count fs;
  bo_fats : byte_at boot 16 = Fat12.num_fats fs;
  bo_root : le16_at boot 17 = root_entry_count fs;
  bo_size : le16_at boot 22 = fat_size_16 fs;
  bo_root_pos : root_entry_count fs <> 0;
  bo_size_pos : fat_size_16 fs <> 0;
  bo_start : Fat12.partition_start_lba fs = start_lba p;
}.

Section Mount.
Context {D : Type} `{BlockDev D}.

Record fat12_disk (d : D) (p : PartitionEntry) (fs : Fat12Info) : Prop := {
  fd_mbr : serves d 0;
  fd_part : find (fun p => is_fat_type (partition_type p)) (parse_mbr (sector_at d 0)) = Some p;
  fd_boot : serves d (start_lba p);
  fd_bpb : boot_ok p (sector_at d (start_lba p)) fs;
  fd_root : root_ok (mk_Vol fs d);
  fd_start : 0 < start_lba p;
  fd_reserved : 1 <= Fat12.reserved_sector_count fs;
  fd_wrap : start_lba p + Fat12.reserved_sector_count fs < 2 ^ 32;
}.

(** Copying the table's sectors one after the other. *)
Lemma read_table_ok (g : nat -> Z) b n k d :
  length b = (n * SECTOR)%nat -> (k <= n)%nat ->
  (forall i, (i < n)%nat -> serves d (g i) /\ sector_at d (g i) = sector_slice b i) ->
  exists d', for_each (R := unit) (seq (n - k) k) (fun s acc => buf ← read_sector (g s); mret (inl (splice (s * 512) buf acc)))
      (take ((n - k) * SECTOR) b ++ replicate (k * SECTOR) 0) d = (Ok (inl b), d') /\ becomes d (sector_at d) d'.
Proof.
  intros Hb. revert d. induction k as [|k IH]; intros d Hk Hd.
  - exists d. cbn [seq for_each Nat.mul replicate]. rewrite app_nil_r, Nat.sub_0_r, take_ge by lia. split; [done|apply becomes_refl].
  - cbn [seq for_each]. destruct (Hd (n - S k)%nat ltac:(lia)) as [Hs Hc].
    destruct (read_sector_served d _ Hs) as (d1 & E1 & B1 & S1).
    unfold mbind at 1, M_bind at 1. unfold mbind at 1, M_bind at 1. rewrite E1. cbn [mret M_ret].
    assert (Hstep : splice ((n - S k) * 512) (sector_at d (g (n - S k)%nat)) (take ((n - S k) * SECTOR) b ++ replicate (S k * SECTOR) 0)
      = take ((n - k) * SECTOR) b ++ replicate (k * SECTOR) 0).
    { rewrite Hc. unfold splice. change 512%nat with SECTOR.
      assert (Ht : length (take ((n - S k) * SECTOR) b) = ((n - S k) * SECTOR)%nat)
        by (rewrite length_take, Hb; apply Nat.min_l, Nat.mul_le_mono_r; lia).
      rewrite take_app_length' by done. unfold sector_slice. rewrite length_take, length_drop.
      replace (SECTOR `min` (length b - SECTOR * (n - S k)))%nat with SECTOR by (rewrite Hb; unfold SECTOR; lia).
      rewrite drop_app_ge by (rewrite Ht; apply Nat.le_add_r). rewrite Ht, drop_replicate.
      replace ((n - S k) * SECTOR + SECTOR - (n - S k) * SECTOR)%nat with SECTOR by lia.
      replace (S k * SECTOR - SECTOR)%nat with (k * SECTOR)%nat by lia. rewrite app_assoc. f_equal.
      rewrite (Nat.mul_comm SECTOR), take_take_drop. f_equal. unfold SECTOR. lia. }
    rewrite Hstep. replace (S (n - S k)) with (n - k)%nat by lia. destruct (IH d1) as (d2 & E2 & B2); [lia| |].
    + intros i Hi. destruct (Hd i Hi) as [Hsi Hci]. split; [by apply S1|]. by rewrite B1.
    + exists d2. split; [exact E2|]. eapply becomes_trans; [by split|]. eapply becomes_ext; [exact B2|exact B1].
Qed.

Lemma fat12_disk_read d d' p fs : fat12_disk d p fs -> becomes d (sector_at d) d' -> fat12_disk d' p fs.
Proof.
  intros [F1 F2 F3 F4 F5 F6 F7 F8] [B S]. split; rewrite ?B; try done; [by apply S|by apply S|].
  by apply (root_ok_unchanged (mk_Vol fs d)).
Qed.

Lemma find_partition_ok d p fs :
  fat12_disk d p fs -> exists d', find_fat_partition d = (Ok p, d') /\ becomes d (sector_at d) d'.
Proof.
  intros F. destruct (read_sector_served d 0 (fd_mbr _ _ _ F)) as (d' & E & B). exists d'. split; [|done].
  unfold find_fat_partition. rewrite (M_bind_Ok _ _ _ _ _ E). unfold lift. by rewrite (fd_part _ _ _ F).
Qed.

Lemma not_fat32_ok d p fs :
  fat12_disk d p fs -> exists e d', attempt (Fat32.read_bpb p) d = (Ok (inr e), d') /\ becomes d (sector_at d) d'.
Proof.
  intros F. destruct (read_sector_served d _ (fd_boot _ _ _ F)) as (d' & E & B).
  exists "not FAT32 (root_entry_count != 0 means this is FAT12/16)"%string, d'. split; [|done].
  unfold attempt, Fat32.read_bpb. rewrite (M_bind_Ok _ _ _ _ _ E). destruct (fd_bpb _ _ _ F).
  rewrite bo_sig2, bo_sig3, bo_513, bo_root0. rewrite !Z.eqb_refl. cbn [negb orb]. by rewrite (proj2 (Z.eqb_neq _ 0) bo_root_pos0).
Qed.

Lemma fat12_mount_ok d p fs :
  fat12_disk d p fs -> exists d', Fat12.read_bpb p d = (Ok fs, d') /\ becomes d (sector_at d) d'.
Proof.
  intros F. destruct (read_sector_served d _ (fd_boot _ _ _ F)) as (d1 & E1 & B1 & S1).
  unfold Fat12.read_bpb. rewrite (M_bind_Ok _ _ _ _ _ E1). destruct (fd_bpb _ _ _ F).
  rewrite bo_sig2, bo_sig3, bo_513, bo_spc0, bo_reserved0, bo_fats0, bo_root0, bo_size0. rewrite !Z.eqb_refl. cbn [negb orb].
  rewrite (proj2 (Z.eqb_neq _ 0) bo_root_pos0), (proj2 (Z.eqb_neq _ 0) bo_size_pos0).
  destruct (ro_synced _ (fd_root _ _ _ F)) as [Z1 Z2 _ Z4 Z5 Z6]. cbn [info dev] in *.
  assert (Hff : Fat12.first_fat_sector fs = u32 (start_lba p + Fat12.reserved_sector_count fs)) by (unfold Fat12.first_fat_sector; by rewrite bo_start0).
  assert (Hpos : 0 <= Fat12.first_fat_sector fs) by (apply wrap_in_u; lia).
  set (n := Z.to_nat (fat_size_16 fs)) in *.
  destruct (read_table_ok (fun i => u32 (u32 (start_lba p + Fat12.reserved_sector_count fs) + Z.of_nat i)) (fat_bytes fs) n n d1 Z2) as (d2 & E2 & B2).
  { done. }
  { intros i Hi. rewrite <- Hff, wrap_id by (unfold in_u; lia). split; [by apply S1, Z5|]. rewrite B1. by apply Z6. }
  rewrite Nat.sub_diag, Nat.mul_0_l, take_0, app_nil_l in E2.
  replace (Z.to_nat (fat_size_16 fs * 512)) with (n * SECTOR)%nat by (unfold n, SECTOR; lia).
  rewrite (M_bind_Ok _ _ _ _ _ E2). exists d2. split.
  - unfold mret, M_ret. do 2 f_equal. rewrite <- bo_start0. by destruct fs.
  - eapply becomes_trans; [by split|]. eapply becomes_ext; [exact B2|exact B1].
Qed.

Lemma mount_ok e d p fs :
  fat12_disk d p fs -> exists d', mount_fat12 e d = (Ok fs, d') /\ becomes d (sector_at d) d'.
Proof.
  intros F. destruct (find_partition_ok d p fs F) as (d1 & E1 & B1). pose proof (fat12_disk_read _ _ _ _ F B1) as F1.
  destruct (not_fat32_ok d1 p fs F1) as (msg & d2 & E2 & B2). pose proof (fat12_disk_read _ _ _ _ F1 B2) as F2.
  destruct (fat12_mount_ok d2 p fs F2) as (d3 & E3 & B3). exists d3. split.
  - unfold mount_fat12. rewrite (M_bind_Ok _ _ _ _ _ E1), (M_bind_Ok _ _ _ _ _ E2). exact E3.
  - eapply becomes_trans; [exact B1|]. apply (becomes_ext _ (sector_at d1)); [|apply B1].
    eapply becomes_trans; [exact B2|]. eapply becomes_ext; [exact B3|apply B2].
Qed.

(** The sectors in front of the table belong to nothing a file command writes. *)
Lemma front_apart d p fs cs a :
  fat12_disk d p fs -> (forall x, x ∈ cs -> x ∈ free_clusters_of fs) -> a <= start_lba p ->
  (a ∉ all_lbas fs cs) /\ (a ∉ root_lbas fs) /\ outside_table fs a.
Proof.
  intros F Hcs Ha. pose proof (fd_root _ _ _ F) as Hv. destruct (free_linkable _ cs Hv Hcs) as (_ & Hlk & _ & _).
  assert (Hff : Fat12.first_fat_sector fs = start_lba p + Fat12.reserved_sector_count fs).
  { unfold Fat12.first_fat_sector. rewrite (bo_start _ _ _ (fd_bpb _ _ _ F)). apply wrap_id. unfold in_u.
    pose proof (fd_start _ _ _ F). pose proof (fd_reserved _ _ _ F). pose proof (fd_wrap _ _ _ F). lia. }
  pose proof (fd_reserved _ _ _ F). pose proof (ro_before _ Hv) as Hb. pose proof (ro_root _ Hv) as Hr. cbn [info] in *.
  pose proof (sy_size _ (ro_synced _ Hv)) as Hsz. cbn [info] in Hsz. split; [|split].
  - intros (x & Hx & Hin)%in_all_lbas. rewrite Forall_forall in Hlk. destruct (Hlk x Hx) as [Hdx _].
    apply in_cluster_lbas in Hin; [|apply (ro_geo _ Hv)|done]. cbn [info] in Hin.
    pose proof (geo_spc _ (ro_geo _ Hv)) as Hspc. cbn [info] in Hspc.
    assert (0 <= root_dir_sectors fs) by (unfold root_dir_sectors, div_ceilZ; pose proof (wrap_in_u 32 (root_entry_count fs * 32) ltac:(lia)); unfold in_u in *; div_lia).
    unfold data_cluster in Hdx. nia.
  - intros Hin. apply (root_lbas_range (mk_Vol fs d)) in Hin; [|done]. cbn [info] in Hin. lia.
  - unfold outside_table. lia.
Qed.

Lemma created_front d p fs cs data slots v' a :
  fat12_disk d p fs -> created (mk_Vol fs d) cs data slots v' -> (forall x, x ∈ cs -> x ∈ free_clusters_of fs) ->
  a <= start_lba p -> sector_at (dev v') a = sector_at d a.
Proof.
  intros F C Hcs Ha. destruct (front_apart d p fs cs a F Hcs Ha) as (Hn & Hr & Ho).
  rewrite (cr_sectors _ _ _ _ _ C) by done. by apply write_blocks_out.
Qed.

Lemma created_disk d p fs cs data slots v' :
  fat12_disk d p fs -> created (mk_Vol fs d) cs data slots v' -> (forall x, x ∈ cs -> x ∈ free_clusters_of fs) -> root_ok v' ->
  fat12_disk (dev v') p (info v').
Proof.
  intros F C Hcs Hv'. pose proof (fd_start _ _ _ F) as Hp. pose proof (created_front d p fs cs data slots v' 0 F C Hcs ltac:(lia)) as H0'.
  pose proof (created_front d p fs cs data slots v' (start_lba p) F C Hcs ltac:(lia)) as H1'.
  destruct F as [F1 F2 F3 F4 F5 F6 F7 F8]. destruct C as [Hi _ _ _ Hs]. cbn [info dev] in *.
  split; rewrite ?H0', ?H1', ?Hi; try done; [by apply Hs|by apply Hs|by destruct F4; split|].
  rewrite <- Hi. by destruct v'.
Qed.
End Mount.

(** ** The file commands *)

Section Files.
Context {D : Type} `{BlockDev D}.

(** A word that names a file of the root directory. *)
Record file_word (w : list Z) : Prop := {
  fw_component : component w;
  fw_dots : is_dots w = false;
  fw_name : good_name w;
}.

Lemma file_word_path w : file_word w -> split_path w = Ok ([], w).
Proof.
  intros [Hc Hd _]. unfold split_path. assert (E : split_segments w = Ok [w]).
  { apply split_segments_iff. split; [done|]. split; [done|]. by constructor. }
  rewrite E. cbn [mbind res_bind last]. by rewrite Hd.
Qed.

Lemma create_fat_file_ok d p fs clock w data :
  fat12_disk d p fs -> file_word w -> bytes_ok data -> Z.of_nat (length data) < 2 ^ 32 -> valid_time clock ->
  (exists e d', create_fat_file clock w data d = (Err e, d') /\ becomes d (sector_at d) d') \/
  exists d' fs', create_fat_file clock w data d = (Ok tt, d') /\ fat12_disk d' p fs' /\
    (forall d'', becomes d' (sector_at d') d'' -> (Fat12.read_file w (mk_Vol fs' d'')).1 = Ok data).
Proof.
  intros F Hw Hb Hl Ht. unfold create_fat_file.
  destruct (mount_ok "FAT32 file creation isn't implemented yet (this disk is FAT12 in practice)" d p fs F) as (d1 & E1 & B1).
  rewrite (M_bind_Ok _ _ _ _ _ E1). rewrite (M_bind_Ok _ _ d1 ([], w) d1) by (unfold lift; by rewrite file_word_path).
  unfold with_volume. rewrite (M_bind_Ok _ _ (mk_Vol fs d1) None (mk_Vol fs d1)) by done.
  pose proof (fat12_disk_read _ _ _ _ F B1) as F1.
  destruct (create_outcome (mk_Vol fs d1) clock w data (fd_root _ _ _ F1) (fw_name w Hw) Hb Hl Ht) as
    [(e & v' & -> & _ & U)|(v' & cs & slots & e & sn & longs & -> & Hcs & C & Hv' & Hr & _)].
  - left. exists e, (dev v'). split; [done|]. eapply becomes_trans; [exact B1|]. eapply becomes_ext; [exact U|exact (proj1 B1)].
  - right. exists (dev v'), (info v'). split; [done|]. split; [by eapply created_disk|]. intros d'' B. by apply Hr.
Qed.

Lemma read_fat_file_ok fuel d p fs w data :
  fat12_disk d p fs -> file_word w -> (forall d', becomes d (sector_at d) d' -> (Fat12.read_file w (mk_Vol fs d')).1 = Ok data) ->
  exists d', read_fat_file fuel w d = (Ok data, d').
Proof.
  intros F Hw Hr. destruct (find_partition_ok d p fs F) as (d1 & E1 & B1). pose proof (fat12_disk_read _ _ _ _ F B1) as F1.
  destruct (not_fat32_ok d1 p fs F1) as (msg & d2 & E2 & B2). pose proof (fat12_disk_read _ _ _ _ F1 B2) as F2.
  destruct (fat12_mount_ok d2 p fs F2) as (d3 & E3 & B3).
  assert (B : becomes d (sector_at d) d3).
  { eapply becomes_trans; [exact B1|]. apply (becomes_ext _ (sector_at d1)); [|apply B1].
    eapply becomes_trans; [exact B2|]. eapply becomes_ext; [exact B3|apply B2]. }
  unfold read_fat_file. rewrite (M_bind_Ok _ _ _ _ _ E1), (M_bind_Ok _ _ _ _ _ E2). cbn beta iota. rewrite (M_bind_Ok _ _ _ _ _ E3).
  rewrite (M_bind_Ok _ _ d3 ([], w) d3) by (unfold lift; by rewrite file_word_path).
  unfold with_volume. rewrite (M_bind_Ok _ _ (mk_Vol fs d3) None (mk_Vol fs d3)) by done.
  specialize (Hr d3 B). destruct (Fat12.read_file w (mk_Vol fs d3)) as [r v']. cbn [fst] in Hr. subst r. by exists (dev v').
Qed.
End Files.

(** ** At the prompt *)

(** What [cat] prints of its data behind the count. *)
Definition first4 (data : list Z) : list event :=
  match data with
  | a :: b :: c :: d :: _ =>
      [Console "  first 4 bytes: {:02x} {:02x} {:02x} {:02x}" [Num a; Num b; Num c; Num d];
       Serial "  first4={:02x}{:02x}{:02x}{:02x}" [Num a; Num b; Num c; Num d]]
  | _ => []
  end.

Section Prompt.
Context {D N : Type} `{BlockDev D} `{Services N} (fuel : nat).
Implicit Types m : Machine D N.

Lemma dispatch_words line cmd parts f m :
  split_whitespace (trim line) = str cmd :: parts ->
  find (fun c => bool_decide (str cmd = str c.1)) (commands (D := D) (N := N) fuel) = Some (cmd, f) ->
  dispatch_command fuel line m = f parts m.
Proof.
  intros Hw Hf. unfold dispatch_command. rewrite bool_decide_eq_false_2.
  - rewrite Hw. cbn [next_word]. by rewrite Hf.
  - intros E. by rewrite E in Hw.
Qed.

(** The machine after a call on the disk and some printing. *)
Definition after m d (events : list event) : Machine D N :=
  mk_Machine d (sched m) (kv_manager m) (ticks m) (services m) (printed m ++ events).

Lemma on_disk_run {A} (c : M D A) m r d : c (disk m) = (r, d) -> attempt (on_disk c) m = attempt (lift r) (after m d []).
Proof. intros E. unfold attempt, on_disk, after. rewrite E, app_nil_r. by destruct r. Qed.

Lemma touch_run m w words r d :
  w <> [] -> create_fat_file (now (services m)) w (join 0x20 words) (disk m) = (r, d) ->
  touch (w :: words) m = match r with
    | Ok _ => (Ok tt, after m d
        [Console "Created '{}' ({} bytes)." [Str w; Num (Z.of_nat (length (join 0x20 words)))];
         Serial "[SHELL] touch {} -> created {} bytes" [Str w; Num (Z.of_nat (length (join 0x20 words)))]])
    | Err e => (Ok tt, after m d [Console "touch: {}" [Text e]; Serial "[SHELL] touch {} -> FAILED: {}" [Str w; Text e]])
    | Panic => (Panic, after m d [])
    | Hang => (Hang, after m d [])
    end.
Proof.
  intros Hw E. unfold touch. cbn [next_word]. rewrite bool_decide_eq_false_2 by done.
  rewrite (M_bind_Ok _ _ m (services m) m) by done. unfold mbind at 1, M_bind at 1. rewrite (on_disk_run _ m r d E).
  destruct r as [u|e| |]; cbn; unfold mbind, M_bind, kprintln, serial_println, emit, modify, after; cbn; by rewrite ?app_nil_r, <- ?app_assoc.
Qed.

Lemma cat_run m w more data d :
  w <> [] -> read_fat_file fuel w (disk m) = (Ok data, d) ->
  cat fuel (w :: more) m = (Ok tt, after m d
    ([Console "Read {} bytes from '{}'." [Num (Z.of_nat (length data)); Str w];
      Serial "[SHELL] cat {} -> {} bytes" [Str w; Num (Z.of_nat (length data))]] ++ first4 data)).
Proof.
  intros Hw E. unfold cat. cbn [next_word]. rewrite bool_decide_eq_false_2 by done.
  unfold mbind at 1, M_bind at 1. rewrite (on_disk_run _ m (Ok data) d E).
  destruct data as [|a [|b [|c [|e data]]]]; cbn; unfold mbind, M_bind, print_first4, mbind, M_bind, kprintln, serial_println, emit, modify, after; cbn;
    by rewrite ?app_nil_r, <- ?app_assoc.
Qed.
End Prompt.

(** C4. What [touch] stores [cat] reads.  On a disk with a well-formed FAT12 volume,
    the line [touch NAME words...] either reports an error and changes no sector, or
    reports the file created; then the line [cat NAME], which mounts the volume
    again, prints the number of bytes of the words joined by single spaces and the
    first four of them. *)
Theorem touch_then_cat {D N} `{BlockDev D} `{Services N} fuel (m : Machine D N) p fs line line' w words more :
  let content := join 0x20 words in
  fat12_disk (disk m) p fs -> valid_time (now (services m)) -> file_word w -> bytes_ok content ->
  Z.of_nat (length content) < 2 ^ 32 ->
  split_whitespace (trim line) = str "touch" :: w :: words -> split_whitespace (trim line') = str "cat" :: w :: more ->
  exists m', dispatch_command fuel line m = (Ok tt, m') /\
    ((exists e, printed m' = printed m ++ [Console "touch: {}" [Text e]; Serial "[SHELL] touch {} -> FAILED: {}" [Str w; Text e]] /\
       forall a, sector_at (disk m') a = sector_at (disk m) a) \/
     (printed m' = printed m ++
        [Console "Created '{}' ({} bytes)." [Str w; Num (Z.of_nat (length content))];
         Serial "[SHELL] touch {} -> created {} bytes" [Str w; Num (Z.of_nat (length content))]] /\
      exists m'', dispatch_command fuel line' m' = (Ok tt, m'') /\
        printed m'' = printed m' ++
          [Console "Read {} bytes from '{}'." [Num (Z.of_nat (length content)); Str w];
           Serial "[SHELL] cat {} -> {} bytes" [Str w; Num (Z.of_nat (length content))]] ++ first4 content)).
Proof.
  intros content F Ht Hw Hb Hl E1 E2. assert (Hne : w <> []) by apply Hw.
  rewrite (dispatch_words fuel line "touch" (w :: words) touch m E1) by reflexivity.
  destruct (create_fat_file_ok (disk m) p fs (now (services m)) w content F Hw Hb Hl Ht) as
    [(e & d' & E & B)|(d' & fs' & E & F' & Hr)]; rewrite (touch_run m w words _ _ Hne E); eexists; (split; [reflexivity|]).
  - left. exists e. split; [done|]. apply B.
  - right. split; [done|]. destruct (read_fat_file_ok fuel d' p fs' w content F' Hw Hr) as (d'' & E').
    rewrite (dispatch_words fuel line' "cat" (w :: more) (cat fuel) _ E2) by reflexivity.
    rewrite (cat_run fuel _ w more content d'' Hne) by exact E'. eexists. split; [reflexivity|]. done.
Qed.

(** A disk with one partition, a FAT12 volume of one-sector clusters. *)
Definition demo_partition : PartitionEntry := mk_PartitionEntry false 0x0C 1 399.

Definition demo_mbr : list Z :=
  replicate 446 0 ++ row_bytes [0; 0; 0] [0; 0; 0] demo_partition ++ replicate 48 0 ++ [0x55; 0xAA].

Definition demo_boot : list Z :=
  replicate 11 0 ++ le_bytes 2 512 ++ [1] ++ le_bytes 2 1 ++ [1] ++ le_bytes 2 16 ++ replicate 3 0 ++ le_bytes 2 1 ++
  replicate 486 0 ++ [0x55; 0xAA].

Definition demo_fat12 : Fat12Info := mk_Fat12Info 1 1 1 16 1 1 small_fat.

Definition demo_disk : MemDisk.t :=
  MemDisk.mk {[0 := demo_mbr; 1 := demo_boot; 2 := small_fat; 3 := small_root; 4 := [0x61; 0x62; 0x63] ++ replicate 509 0]} 400.

Lemma demo_disk_synced : fat_synced (mk_Vol demo_fat12 demo_disk).
Proof.
  constructor; try (vm_compute; congruence).
  - unfold demo_fat12, info, fat_bytes, small_fat. bytes.
  - intros [|i] Hi; [vm_compute; done|]. exfalso. change (Z.to_nat (fat_size_16 (info (mk_Vol demo_fat12 demo_disk)))) with 1%nat in Hi. lia.
  - intros [|i] Hi; [vm_compute; done|]. exfalso. change (Z.to_nat (fat_size_16 (info (mk_Vol demo_fat12 demo_disk)))) with 1%nat in Hi. lia.
Qed.

Lemma demo_disk_data :
  forallb (fun c => forallb (MemDisk.in_range demo_disk) (Fat12.cluster_lbas demo_fat12 c)) (scan_range demo_fat12) = true.
Proof. vm_compute. reflexivity. Qed.

Lemma demo_disk_root : root_ok (mk_Vol demo_fat12 demo_disk).
Proof.
  split; [apply demo_disk_synced| |vm_compute; congruence|vm_compute; reflexivity|vm_compute; congruence|
    by repeat constructor| |vm_compute; reflexivity].
  - constructor; vm_compute; intuition congruence.
  - pose proof demo_disk_data as H. rewrite forallb_forall in H. intros c Hc%list_elem_of_In%H. rewrite forallb_forall in Hc.
    by apply List.Forall_forall.
Qed.

Lemma demo_disk_ok : fat12_disk demo_disk demo_partition demo_fat12.
Proof.
  split; [done|vm_compute; reflexivity|done| |apply demo_disk_root|done|done|done].
  split; vm_compute; congruence.
Qed.

Lemma touch_then_cat_witness :
  exists m' m'', dispatch_command 10 (str "touch notes.txt hello there") (ShellReads.prompt demo_disk) = (Ok tt, m') /\
    dispatch_command 10 (str "cat notes.txt") m' = (Ok tt, m'') /\
    printed m'' = printed m' ++
      [Console "Read {} bytes from '{}'." [Num 11; Str (str "notes.txt")];
       Serial "[SHELL] cat {} -> {} bytes" [Str (str "notes.txt"); Num 11];
       Console "  first 4 bytes: {:02x} {:02x} {:02x} {:02x}" [Num 0x68; Num 0x65; Num 0x6C; Num 0x6C];
       Serial "  first4={:02x}{:02x}{:02x}{:02x}" [Num 0x68; Num 0x65; Num 0x6C; Num 0x6C]].
Proof.
  destruct (touch_then_cat 10 (ShellReads.prompt demo_disk) demo_partition demo_fat12 (str "touch notes.txt hello there")
    (str "cat notes.txt") (str "notes.txt") [str "hello"; str "there"] [] demo_disk_ok) as (m' & E1 & [(e & Hp & _)|(Hp & m'' & E2 & Hp')]).
  - unfold valid_time; cbn; lia.
  - split; [split; [discriminate|vm_compute; reflexivity]|vm_compute; reflexivity|].
    intros _. split; [change (str "notes.txt") with [0x6E; 0x6F; 0x74; 0x65; 0x73; 0x2E; 0x74; 0x78; 0x74]; repeat constructor; unfold graphic; lia|]. intros base Hb. vm_compute in Hb. discriminate Hb.
  - change (join 0x20 [str "hello"; str "there"]) with [0x68; 0x65; 0x6C; 0x6C; 0x6F; 0x20; 0x74; 0x68; 0x65; 0x72; 0x65].
    repeat constructor; unfold byte_ok; lia.
  - vm_compute. reflexivity.
  - vm_compute. reflexivity.
  - vm_compute. reflexivity.
  - exfalso. assert (Hc : printed (dispatch_command 10 (str "touch notes.txt hello there") (ShellReads.prompt demo_disk)).2 =
      [Console "Created '{}' ({} bytes)." [Str (str "notes.txt"); Num 11];
       Serial "[SHELL] touch {} -> created {} bytes" [Str (str "notes.txt"); Num 11]]) by (vm_compute; reflexivity).
    rewrite E1 in Hc. cbn [snd] in Hc. rewrite Hp in Hc. discriminate Hc.
  - exists m', m''. split; [exact E1|]. split; [exact E2|]. rewrite Hp'. reflexivity.
Defined.
