(* ===== verification/ShellRemove.v ===== *)
(** * ShellRemove: [rm] undoes [touch] at the prompt

    The two commands mount the volume anew, as in ShellFiles; what they do to it is
    Fat12Delete's. *)
From stdpp Require Import base list numbers strings.
From Stdlib Require Import Lia.
From S2P Require Import Prelude AgentScheduler KvAllocator Rtc FatCommon FatEntry12 Partition BlockDev Fat32 Fat12 Fat12Table Fat12Chain Fat12Data Fat12Slots Fat12Dir Fat12Create Fat12Delete Shell ShellText ShellReads ShellFiles.
Open Scope Z_scope.

Section Remove.
Context {D : Type} `{BlockDev D}.

Lemma undone_disk d p fs cs v2 :
  fat12_disk d p fs -> undone (mk_Vol fs d) cs v2 -> fat12_disk (dev v2) p (info v2).
Proof.
  intros F Un. destruct (un_info _ _ _ Un) as (b & Hi & _). pose proof (un_ok _ _ _ Un) as Hv2. pose proof (un_serves _ _ _ Un) as Hs.
  assert (Hsec : forall a, a <= start_lba p -> sector_at (dev v2) a = sector_at d a).
  { intros a Ha. destruct (front_apart d p fs cs a F (un_clusters _ _ _ Un) Ha) as (Hn & Hr & Ho). by apply (un_sectors _ _ _ Un). }
  pose proof (fd_start _ _ _ F) as Hp. destruct F as [F1 F2 F3 F4 F5 F6 F7 F8]. cbn [info dev] in *.
  split; rewrite ?Hsec by lia; rewrite ?Hi; try done; [by apply Hs|by apply Hs|by destruct F4; split|].
  rewrite <- Hi. by destruct v2.
Qed.

(** Creating through one mount and deleting through the next. *)
Lemma create_then_delete d p fs clock w data d' :
  fat12_disk d p fs -> file_word w -> bytes_ok data -> Z.of_nat (length data) < 2 ^ 32 -> valid_time clock ->
  create_fat_file clock w data d = (Ok tt, d') ->
  exists cs v2, delete_fat_file w d' = (Ok tt, dev v2) /\ undone (mk_Vol fs d) cs v2.
Proof.
  intros F Hw Hb Hl Ht E. unfold create_fat_file in E.
  destruct (mount_ok "FAT32 file creation isn't implemented yet (this disk is FAT12 in practice)" d p fs F) as (d1 & E1 & B1).
  rewrite (M_bind_Ok _ _ _ _ _ E1) in E. rewrite (M_bind_Ok _ _ d1 ([], w) d1) in E by (unfold lift; by rewrite file_word_path).
  unfold with_volume in E. rewrite (M_bind_Ok _ _ (mk_Vol fs d1) None (mk_Vol fs d1)) in E by done.
  pose proof (fat12_disk_read _ _ _ _ F B1) as F1. pose proof (fd_root _ _ _ F1) as Hv1.
  destruct (create_file clock w data (mk_Vol fs d1)) as [r v'] eqn:Ec. injection E as -> Ed.
  destruct (create_outcome (mk_Vol fs d1) clock w data Hv1 (fw_name w Hw) Hb Hl Ht) as
    [(e & x & E' & _)|(x & cs & slots & e & sn & longs & E' & Hcs & C & Hv' & _)]; rewrite Ec in E'; [done|]. injection E' as <-.
  pose proof (created_disk d1 p fs cs data slots v' F1 C Hcs Hv') as F'. rewrite Ed in F'.
  destruct (mount_ok "FAT32 file deletion isn't implemented yet (this disk is FAT12 in practice)" d' p (info v') F') as (d2 & E2 & B2).
  destruct (create_undone (mk_Vol fs d1) clock w data v' Hv1 (fw_name w Hw) Hb Hl Ht Ec (mk_Vol (info v') d2)) as (cs2 & v2 & Edel & Un).
  { split; [done|]. by rewrite Ed. }
  exists cs2, v2. split.
  - unfold delete_fat_file. rewrite (M_bind_Ok _ _ _ _ _ E2). rewrite (M_bind_Ok _ _ d2 ([], w) d2) by (unfold lift; by rewrite file_word_path).
    unfold with_volume. rewrite (M_bind_Ok _ _ (mk_Vol (info v') d2) None (mk_Vol (info v') d2)) by done. by rewrite Edel.
  - apply (undone_unchanged _ (mk_Vol fs d1)); [|done]. by split.
Qed.

(** Reading through a fresh mount. *)
Lemma read_fat_file_at fuel d p fs w :
  fat12_disk d p fs -> file_word w ->
  exists d', becomes d (sector_at d) d' /\ (read_fat_file fuel w d).1 = (Fat12.read_file w (mk_Vol fs d')).1.
Proof.
  intros F Hw.
  destruct (find_partition_ok d p fs F) as (d1 & E1 & B1). pose proof (fat12_disk_read _ _ _ _ F B1) as F1.
  destruct (not_fat32_ok d1 p fs F1) as (msg & d2 & E2 & B2). pose proof (fat12_disk_read _ _ _ _ F1 B2) as F2.
  destruct (fat12_mount_ok d2 p fs F2) as (d3 & E3 & B3). exists d3. split.
  { eapply becomes_trans; [exact B1|]. apply (becomes_ext _ (sector_at d1)); [|apply B1].
    eapply becomes_trans; [exact B2|]. eapply becomes_ext; [exact B3|apply B2]. }
  unfold read_fat_file. rewrite (M_bind_Ok _ _ _ _ _ E1), (M_bind_Ok _ _ _ _ _ E2). cbn beta iota. rewrite (M_bind_Ok _ _ _ _ _ E3).
  rewrite (M_bind_Ok _ _ d3 ([], w) d3) by (unfold lift; by rewrite file_word_path).
  unfold with_volume. rewrite (M_bind_Ok _ _ (mk_Vol fs d3) None (mk_Vol fs d3)) by done.
  by destruct (Fat12.read_file w (mk_Vol fs d3)) as [r v'].
Qed.

Lemma read_unchanged v v' w :
  root_ok v -> unchanged v v' -> (forall lba off e, (find_entry_location_in Root w v).1 = Ok (lba, off, e) -> intact v e) ->
  (Fat12.read_file w v').1 = (Fat12.read_file w v).1.
Proof.
  intros Hv U Hint. pose proof (root_ok_unchanged v v' Hv U) as Hv'. pose proof (root_slots_unchanged v v' U) as Hs. destruct U as [Hi [Hb Hk]].
  apply read_same; [done|done|by rewrite Hi|exact Hk|by rewrite Hs|]. intros j e Hl.
  destruct (lookup_found v w j e Hv Hl) as (lba & off & Hf).
  destruct (Hint _ _ _ Hf) as [?|[?|(ds & Hch & Hds)]]; [by left|by right; left|right; right]. exists ds. by rewrite Hi.
Qed.

(** Every file of before reads the same through fresh mounts. *)
Lemma undone_files fuel d p fs cs v2 w :
  fat12_disk d p fs -> undone (mk_Vol fs d) cs v2 -> file_word w ->
  (forall lba off e, (find_entry_location_in Root w (mk_Vol fs d)).1 = Ok (lba, off, e) -> intact (mk_Vol fs d) e) ->
  (read_fat_file fuel w (dev v2)).1 = (read_fat_file fuel w d).1.
Proof.
  intros F Un Hw Hint. pose proof (undone_disk d p fs cs v2 F Un) as F2.
  destruct (read_fat_file_at fuel d p fs w F Hw) as (d1 & B1 & ->).
  destruct (read_fat_file_at fuel (dev v2) p (info v2) w F2 Hw) as (d2 & B2 & ->).
  assert (U1 : unchanged (mk_Vol fs d) (mk_Vol fs d1)) by (by split).
  assert (U2 : unchanged v2 (mk_Vol (info v2) d2)) by (by split).
  destruct (undone_same _ _ _ (fd_root _ _ _ F) (undone_read _ _ _ _ Un U2)) as (_ & _ & Hsame).
  rewrite (proj2 (Hsame w) Hint). symmetry. by apply read_unchanged; [apply F| |].
Qed.
End Remove.

Section Prompt.
Context {D N : Type} `{BlockDev D} `{Services N} (fuel : nat).
Implicit Types m : Machine D N.

Lemma rm_run m w more d :
  w <> [] -> delete_fat_file w (disk m) = (Ok tt, d) ->
  rm (w :: more) m = (Ok tt, after m d [Console "Deleted '{}'." [Str w]; Serial "[SHELL] rm {} -> deleted" [Str w]]).
Proof.
  intros Hw E. unfold rm. cbn [next_word]. rewrite bool_decide_eq_false_2 by done.
  unfold mbind at 1, M_bind at 1. rewrite (on_disk_run _ m (Ok tt) d E).
  cbn. unfold mbind, M_bind, kprintln, serial_println, emit, modify, after. cbn. by rewrite ?app_nil_r, <- ?app_assoc.
Qed.
End Prompt.

(** C11. At the prompt [rm] undoes [touch].  When the line [touch NAME words...] on a
    well-formed FAT12 disk has reported the file created, the line [rm NAME] reports it
    deleted and leaves a well-formed disk on which the root directory lists what it
    listed before, the same clusters are free, and every name of the root directory -
    NAME too - gives [cat] what it gave before [touch]. *)
Theorem touch_then_rm {D N} `{BlockDev D} `{Services N} fuel (m m' : Machine D N) p fs line line' w words more :
  let content := join 0x20 words in
  fat12_disk (disk m) p fs -> valid_time (now (services m)) -> file_word w -> bytes_ok content ->
  Z.of_nat (length content) < 2 ^ 32 ->
  split_whitespace (trim line) = str "touch" :: w :: words -> split_whitespace (trim line') = str "rm" :: w :: more ->
  dispatch_command fuel line m = (Ok tt, m') ->
  printed m' = printed m ++
    [Console "Created '{}' ({} bytes)." [Str w; Num (Z.of_nat (length content))];
     Serial "[SHELL] touch {} -> created {} bytes" [Str w; Num (Z.of_nat (length content))]] ->
  exists m'' fs', dispatch_command fuel line' m' = (Ok tt, m'') /\
    printed m'' = printed m' ++ [Console "Deleted '{}'." [Str w]; Serial "[SHELL] rm {} -> deleted" [Str w]] /\
    fat12_disk (disk m'') p fs' /\ free_clusters_of fs' = free_clusters_of fs /\
    (Fat12.list_root_directory (mk_Vol fs' (disk m''))).1 = (Fat12.list_root_directory (mk_Vol fs (disk m))).1 /\
    forall other, file_word other ->
      (forall lba off e, (find_entry_location_in Root other (mk_Vol fs (disk m))).1 = Ok (lba, off, e) -> intact (mk_Vol fs (disk m)) e) ->
      (read_fat_file fuel other (disk m'')).1 = (read_fat_file fuel other (disk m)).1.
Proof.
  intros content F Ht Hw Hb Hl E1 E2 E Hp. assert (Hne : w <> []) by apply Hw.
  rewrite (dispatch_words fuel line "touch" (w :: words) touch m E1) in E by reflexivity.
  destruct (create_fat_file (now (services m)) w content (disk m)) as [r d'] eqn:Ec.
  rewrite (touch_run m w words r d' Hne Ec) in E. destruct r as [[]|e| |]; [|injection E as <-; cbn in Hp|done..].
  2: { apply app_inv_head in Hp. discriminate Hp. }
  injection E as <-.
  destruct (create_then_delete (disk m) p fs (now (services m)) w content d' F Hw Hb Hl Ht Ec) as (cs & v2 & Ed & Un).
  rewrite (dispatch_words fuel line' "rm" (w :: more) rm _ E2) by reflexivity.
  rewrite (rm_run _ w more (dev v2)) by done. eexists _, (info v2). split; [reflexivity|]. split; [done|].
  cbn [disk after]. destruct (undone_same _ _ _ (fd_root _ _ _ F) Un) as (Hlist & Hfree & _).
  split; [by eapply undone_disk|]. split; [exact Hfree|]. split; [destruct v2; exact Hlist|].
  intros other Ho Hint. by eapply undone_files.
Qed.

Lemma touch_then_rm_witness :
  exists m' m'', dispatch_command 10 (str "touch notes.txt hello there") (ShellReads.prompt demo_disk) = (Ok tt, m') /\
    dispatch_command 10 (str "rm notes.txt") m' = (Ok tt, m'') /\
    (read_fat_file 10 (str "notes.txt") (disk m'')).1 = (read_fat_file 10 (str "notes.txt") demo_disk).1.
Proof.
  destruct (dispatch_command 10 (str "touch notes.txt hello there") (ShellReads.prompt demo_disk)) as [r m'] eqn:E.
  assert (Hr : (dispatch_command 10 (str "touch notes.txt hello there") (ShellReads.prompt demo_disk)).1 = Ok tt) by (vm_compute; reflexivity).
  assert (Hp : printed (dispatch_command 10 (str "touch notes.txt hello there") (ShellReads.prompt demo_disk)).2 =
      [Console "Created '{}' ({} bytes)." [Str (str "notes.txt"); Num 11];
       Serial "[SHELL] touch {} -> created {} bytes" [Str (str "notes.txt"); Num 11]]) by (vm_compute; reflexivity).
  rewrite E in Hr, Hp. cbn [fst snd] in Hr, Hp. subst r.
  assert (Hw : file_word (str "notes.txt")).
  { split; [split; [discriminate|vm_compute; reflexivity]|vm_compute; reflexivity|].
    intros _. split; [change (str "notes.txt") with [0x6E; 0x6F; 0x74; 0x65; 0x73; 0x2E; 0x74; 0x78; 0x74]; repeat constructor; unfold graphic; lia|]. intros base Hb. vm_compute in Hb. discriminate Hb. }
  destruct (touch_then_rm 10 (ShellReads.prompt demo_disk) m' demo_partition demo_fat12 (str "touch notes.txt hello there")
    (str "rm notes.txt") (str "notes.txt") [str "hello"; str "there"] [] demo_disk_ok) as (m'' & fs' & E2 & _ & _ & _ & _ & Hread).
  - unfold valid_time; cbn; lia.
  - exact Hw.
  - change (join 0x20 [str "hello"; str "there"]) with [0x68; 0x65; 0x6C; 0x6C; 0x6F; 0x20; 0x74; 0x68; 0x65; 0x72; 0x65].
    repeat constructor; unfold byte_ok; lia.
  - vm_compute. reflexivity.
  - vm_compute. reflexivity.
  - vm_compute. reflexivity.
  - exact E.
  - exact Hp.
  - exists m', m''. split; [reflexivity|]. split; [exact E2|]. apply (Hread (str "notes.txt") Hw).
    intros lba off e Hf. vm_compute in Hf. discriminate Hf.
Defined.
