(* ===== verification/Vga.v ===== *)
(** * Vga: the text console ([vga_buffer.rs])

    The 80 x 25 text buffer as a list of rows of cells.  A cell access outside the
    buffer panics, as Rust's array indexing does. *)
From stdpp Require Import base list numbers strings.
From Stdlib Require Import Lia.
From S2P Require Import Prelude.
Open Scope Z_scope.

(** [enum Color], by discriminant. *)
Inductive Color :=
| Black | Blue | Green | Cyan | Red | Magenta | Brown | LightGray | DarkGray | LightBlue | LightGreen
| LightCyan | LightRed | Pink | Yellow | White.

Definition color_val (c : Color) : Z :=
  match c with
  | Black => 0 | Blue => 1 | Green => 2 | Cyan => 3 | Red => 4 | Magenta => 5 | Brown => 6
  | LightGray => 7 | DarkGray => 8 | LightBlue => 9 | LightGreen => 10 | LightCyan => 11
  | LightRed => 12 | Pink => 13 | Yellow => 14 | White => 15
  end.

(** [ColorCode::new] *)
Definition color_code_new (foreground background : Color) : Z :=
  Z.lor (u8 (Z.shiftl (color_val background) 4)) (color_val foreground).

Record ScreenChar := mk_Char { ascii_character : Z; cell_color : Z }.

Definition BUFFER_HEIGHT : nat := 25.
Definition BUFFER_WIDTH : nat := 80.

Record Writer := mk_Writer { column_position : nat; color_code : Z; chars : list (list ScreenChar) }.

Definition set_column (c : nat) (w : Writer) : Writer := mk_Writer c (color_code w) (chars w).

(** [self.buffer.chars[row][col].read()] and [.write(c)] *)
Definition read_cell (row col : nat) : M Writer ScreenChar := fun w =>
  (r ← idx (chars w) row; idx r col, w).

Definition write_cell (row col : nat) (c : ScreenChar) : M Writer unit := fun w =>
  match chars w !! row with
  | Some r =>
      if (col <? length r)%nat
      then (Ok tt, mk_Writer (column_position w) (color_code w) (<[row := <[col := c]> r]> (chars w)))
      else (Panic, w)
  | None => (Panic, w)
  end.

(** [for x in l { body }] without early exit. *)
Fixpoint each {A} (l : list A) (body : A -> M Writer unit) : M Writer unit :=
  match l with
  | [] => mret tt
  | x :: r => body x;; each r body
  end.

Definition clear_row (row : nat) : M Writer unit :=
  color ← gets color_code;
  each (seq 0 BUFFER_WIDTH) (fun col => write_cell row col (mk_Char 32 color)).

Definition new_line : M Writer unit :=
  each (seq 1 (BUFFER_HEIGHT - 1)) (fun row =>
    each (seq 0 BUFFER_WIDTH) (fun col =>
      character ← read_cell row col;
      write_cell (row - 1) col character));;
  clear_row (BUFFER_HEIGHT - 1);;
  modify (set_column 0).

Definition write_byte (byte : Z) : M Writer unit :=
  if byte =? 10 then new_line
  else
    column ← gets column_position;
    (if (BUFFER_WIDTH <=? column)%nat then new_line else mret tt);;
    col ← gets column_position;
    color ← gets color_code;
    write_cell (BUFFER_HEIGHT - 1) col (mk_Char byte color);;
    modify (fun w => set_column (column_position w + 1) w).

(** The byte shown for a byte of the text. *)
Definition shown (byte : Z) : Z :=
  if ((0x20 <=? byte) && (byte <=? 0x7e)) || (byte =? 10) then byte else 0xfe.

Definition write_string (s : list Z) : M Writer unit := each s (fun byte => write_byte (shown byte)).

Definition clear_screen : M Writer unit :=
  each (seq 0 BUFFER_HEIGHT) clear_row;;
  modify (set_column 0).

Definition backspace : M Writer unit := fun w =>
  if (0 <? column_position w)%nat then
    (modify (fun w => set_column (column_position w - 1) w);;
     col ← gets column_position;
     color ← gets color_code;
     write_cell (BUFFER_HEIGHT - 1) col (mk_Char 32 color)) w
  else (Ok tt, w).

Definition cursor_left : M Writer unit := fun w =>
  (Ok tt, if (0 <? column_position w)%nat then set_column (column_position w - 1) w else w).

Definition cursor_right : M Writer unit := fun w =>
  (Ok tt, if (column_position w <? BUFFER_WIDTH)%nat then set_column (column_position w + 1) w else w).

(** The writer [WRITER] starts as, on a buffer of blanks. *)
Definition initial_color : Z := color_code_new LightCyan Black.

(** ** What the operations do *)

Definition wf (w : Writer) : Prop :=
  length (chars w) = BUFFER_HEIGHT /\ Forall (fun r => length r = BUFFER_WIDTH) (chars w) /\
  (column_position w <= BUFFER_WIDTH)%nat.

Definition blank (w : Writer) : ScreenChar := mk_Char 32 (color_code w).

Definition blank_row (color : Z) : list ScreenChar := replicate BUFFER_WIDTH (mk_Char 32 color).

Definition set_chars (cs : list (list ScreenChar)) (w : Writer) : Writer :=
  mk_Writer (column_position w) (color_code w) cs.

(** The bottom row, where everything is typed. *)
Definition bottom (w : Writer) : list ScreenChar := default [] (chars w !! (BUFFER_HEIGHT - 1)%nat).

Lemma each_app {A} (l1 l2 : list A) body w :
  each (l1 ++ l2) body w = (each l1 body;; each l2 body) w.
Proof.
  revert w. induction l1 as [|x l1 IH]; intros w; [done|]. cbn. unfold mbind, M_bind in *.
  by destruct (body x w) as [[] w'].
Qed.

Lemma write_cell_run row col c w r :
  chars w !! row = Some r -> (col < length r)%nat ->
  write_cell row col c w = (Ok tt, set_chars (<[row := <[col := c]> r]> (chars w)) w).
Proof. intros Hr Hc. unfold write_cell. rewrite Hr. by rewrite (proj2 (Nat.ltb_lt _ _)). Qed.

(** A loop over the columns of a row that stores [f col] in each. *)
Lemma each_row row f n w r :
  chars w !! row = Some r -> (n <= length r)%nat ->
  each (seq 0 n) (fun col => write_cell row col (f col)) w =
    (Ok tt, set_chars (<[row := map f (seq 0 n) ++ drop n r]> (chars w)) w).
Proof.
  intros Hr. induction n as [|n IH]; intros Hn.
  - cbn. rewrite drop_0, list_insert_id by done. by destruct w.
  - rewrite seq_S, each_app. unfold mbind, M_bind. rewrite IH by lia. cbn [each Nat.add].
    pose proof (lookup_lt_Some _ _ _ Hr).
    unfold mbind, M_bind. erewrite write_cell_run.
    2: { cbn. by rewrite list_lookup_insert_eq by done. }
    2: { rewrite length_app, length_map, length_seq, length_drop. lia. }
    unfold mret, M_ret, set_chars. cbn. f_equal. f_equal. rewrite list_insert_insert_eq. f_equal.
    rewrite map_app, <- app_assoc. rewrite insert_app_r_alt by (rewrite length_map, length_seq; lia).
    rewrite length_map, length_seq, Nat.sub_diag. f_equal.
    destruct (lookup_lt_is_Some_2 r n ltac:(lia)) as [x Hx]. by rewrite (drop_S r x n Hx).
Qed.

(** Copying a row onto the one above it. *)
Lemma copy_row row n w r r' :
  chars w !! S row = Some r -> chars w !! row = Some r' -> length r = length r' -> (n <= length r)%nat ->
  each (seq 0 n) (fun col => character ← read_cell (S row) col; write_cell row col character) w =
    (Ok tt, set_chars (<[row := take n r ++ drop n r']> (chars w)) w).
Proof.
  intros Hr Hr' Hl. induction n as [|n IH]; intros Hn.
  - cbn. rewrite drop_0, list_insert_id by done. by destruct w.
  - rewrite seq_S, each_app. unfold mbind at 1, M_bind at 1. rewrite IH by lia. cbn [each Nat.add].
    pose proof (lookup_lt_Some _ _ _ Hr').
    destruct (lookup_lt_is_Some_2 r n ltac:(lia)) as [x Hx].
    destruct (lookup_lt_is_Some_2 r' n ltac:(lia)) as [y Hy].
    assert (E : forall w', chars w' !! S row = Some r -> read_cell (S row) n w' = (Ok x, w')).
    { intros w' Hw'. unfold read_cell, idx. rewrite Hw'. cbn. by rewrite Hx. }
    unfold mbind, M_bind. rewrite E by (cbn; by rewrite list_lookup_insert_ne by lia).
    erewrite write_cell_run.
    2: { cbn. by rewrite list_lookup_insert_eq by done. }
    2: { rewrite length_app, length_take, length_drop. lia. }
    unfold mret, M_ret, set_chars. cbn. f_equal. f_equal. rewrite list_insert_insert_eq. f_equal.
    rewrite insert_app_r_alt by (rewrite length_take; lia).
    rewrite length_take, Nat.min_l, Nat.sub_diag by lia. rewrite (take_S_r r n x Hx), <- app_assoc. f_equal.
    by rewrite (drop_S r' y n Hy).
Qed.

Lemma wf_row w i : wf w -> (i < BUFFER_HEIGHT)%nat ->
  exists r, chars w !! i = Some r /\ length r = BUFFER_WIDTH.
Proof.
  intros (Hh & Hr & _) Hi. destruct (lookup_lt_is_Some_2 (chars w) i ltac:(lia)) as [r E].
  exists r. split; [done|]. by eapply (Forall_lookup_1 _ _ _ _ Hr).
Qed.

Lemma clear_row_run row w :
  wf w -> (row < BUFFER_HEIGHT)%nat ->
  clear_row row w = (Ok tt, set_chars (<[row := blank_row (color_code w)]> (chars w)) w).
Proof.
  intros Hw Hr. destruct (wf_row w row Hw Hr) as (r & E & Hl).
  unfold clear_row, gets. unfold mbind, M_bind.
  rewrite (each_row row (fun _ => mk_Char 32 (color_code w)) BUFFER_WIDTH w r E) by lia.
  rewrite drop_ge, app_nil_r by lia. reflexivity.
Qed.

(** The scroll after the first [k] rows. *)
Lemma scroll_rows k w :
  wf w -> (k < BUFFER_HEIGHT)%nat ->
  each (seq 1 k) (fun row =>
    each (seq 0 BUFFER_WIDTH) (fun col => character ← read_cell row col; write_cell (row - 1) col character)) w =
    (Ok tt, set_chars (take k (drop 1 (chars w)) ++ drop k (chars w)) w).
Proof.
  intros Hw. induction k as [|k IH]; intros Hk.
  - cbn. by destruct w.
  - rewrite seq_S, each_app. unfold mbind at 1, M_bind at 1. rewrite IH by lia. cbn [each Nat.add].
    destruct (wf_row w (S k) Hw Hk) as (r & Er & Hr). destruct (wf_row w k Hw ltac:(lia)) as (r' & Er' & Hr').
    assert (Hlen : length (take k (drop 1 (chars w))) = k)
      by (rewrite length_take, length_drop; destruct Hw as [-> _]; unfold BUFFER_HEIGHT in *; lia).
    cbv beta. replace (S k - 1)%nat with k by lia.
    unfold mbind at 1, M_bind at 1.
    rewrite (copy_row k BUFFER_WIDTH _ r r').
    2: { cbn [chars set_chars]. rewrite lookup_app_r by lia. rewrite Hlen, lookup_drop. rewrite <- Er. f_equal. lia. }
    2: { cbn [chars set_chars]. rewrite lookup_app_r by lia. rewrite Hlen, lookup_drop. rewrite <- Er'. f_equal. lia. }
    2: { congruence. }
    2: { lia. }
    cbn [chars set_chars]. unfold mret, M_ret, set_chars. cbn [column_position color_code]. f_equal. f_equal.
    rewrite take_ge, drop_ge, app_nil_r by lia.
    rewrite insert_app_r_alt by lia. rewrite Hlen, Nat.sub_diag.
    rewrite (take_S_r _ k r) by (rewrite lookup_drop; exact Er). rewrite <- app_assoc. f_equal.
    by rewrite (drop_S _ r' k Er').
Qed.

Lemma new_line_run w :
  wf w ->
  new_line w = (Ok tt, mk_Writer 0 (color_code w) (drop 1 (chars w) ++ [blank_row (color_code w)])).
Proof.
  intros Hw. unfold new_line. unfold mbind at 1, M_bind at 1.
  change (BUFFER_HEIGHT - 1)%nat with 24%nat. rewrite (scroll_rows 24 w Hw) by (unfold BUFFER_HEIGHT; lia).
  pose proof Hw as (Hh & Hr & Hc).
  set (w1 := set_chars (take 24 (drop 1 (chars w)) ++ drop 24 (chars w)) w).
  assert (Hd : take 24 (drop 1 (chars w)) = drop 1 (chars w))
    by (apply take_ge; rewrite length_drop, Hh; unfold BUFFER_HEIGHT; lia).
  destruct (wf_row w 24 Hw ltac:(unfold BUFFER_HEIGHT; lia)) as (r & Er & Hrl).
  assert (Hd24 : drop 24 (chars w) = [r])
    by (rewrite (drop_S _ r 24 Er); rewrite drop_ge; [done|rewrite Hh; unfold BUFFER_HEIGHT; lia]).
  assert (Hw1 : wf w1).
  { unfold wf, w1. cbn [chars set_chars column_position]. rewrite Hd, Hd24.
    split; [rewrite length_app, length_drop, Hh; unfold BUFFER_HEIGHT; cbn; lia|]. split; [|done].
    apply Forall_app. split; [by apply Forall_drop|by constructor]. }
  unfold mbind, M_bind. rewrite (clear_row_run 24 w1 Hw1) by (unfold BUFFER_HEIGHT; lia).
  unfold modify, set_column, w1. cbn [chars set_chars column_position color_code]. do 2 f_equal.
  rewrite Hd, Hd24. rewrite insert_app_r_alt by (rewrite length_drop, Hh; unfold BUFFER_HEIGHT; lia).
  rewrite length_drop, Hh. reflexivity.
Qed.

Lemma wf_new_line w :
  wf w -> wf (mk_Writer 0 (color_code w) (drop 1 (chars w) ++ [blank_row (color_code w)])).
Proof.
  intros (Hh & Hr & _). unfold wf. cbn [chars column_position].
  rewrite length_app, length_drop, Hh. split; [reflexivity|]. split; [|lia].
  apply Forall_app. split; [by apply Forall_drop|]. constructor; [apply length_replicate|constructor].
Qed.

(** The bottom row with [c] at [col]. *)
Definition put_bottom (col : nat) (c : ScreenChar) (w : Writer) : Writer :=
  set_chars (<[24%nat := <[col := c]> (bottom w)]> (chars w)) w.

Lemma bottom_row w : wf w -> chars w !! 24%nat = Some (bottom w) /\ length (bottom w) = BUFFER_WIDTH.
Proof.
  intros Hw. destruct (wf_row w 24 Hw ltac:(unfold BUFFER_HEIGHT; lia)) as (r & E & Hl).
  unfold bottom. change (BUFFER_HEIGHT - 1)%nat with 24%nat. by rewrite E.
Qed.

Lemma put_bottom_run col c w :
  wf w -> (col < BUFFER_WIDTH)%nat -> write_cell 24 col c w = (Ok tt, put_bottom col c w).
Proof.
  intros Hw Hc. destruct (bottom_row w Hw) as [E Hl]. by rewrite (write_cell_run _ _ _ _ _ E) by lia.
Qed.

Lemma wf_put_bottom col c w n : wf w -> (n <= BUFFER_WIDTH)%nat -> wf (set_column n (put_bottom col c w)).
Proof.
  intros Hw Hn. destruct (bottom_row w Hw) as [E Hl]. destruct Hw as (Hh & Hr & Hc).
  unfold wf. cbn [chars set_column put_bottom set_chars column_position].
  rewrite length_insert. split; [done|]. split; [|done].
  apply Forall_insert; [done|]. by rewrite length_insert.
Qed.

Lemma bottom_put col c w n : wf w -> bottom (set_column n (put_bottom col c w)) = <[col := c]> (bottom w).
Proof.
  intros Hw. destruct Hw as (Hh & _). unfold bottom, put_bottom. cbn [chars set_column set_chars].
  change (BUFFER_HEIGHT - 1)%nat with 24%nat. rewrite list_lookup_insert_eq; [done|].
  rewrite Hh. unfold BUFFER_HEIGHT. lia.
Qed.

(** A character in the middle of the line. *)
Lemma write_byte_in byte w :
  wf w -> byte <> 10 -> (column_position w < BUFFER_WIDTH)%nat ->
  write_byte byte w = (Ok tt, set_column (column_position w + 1)
    (put_bottom (column_position w) (mk_Char byte (color_code w)) w)).
Proof.
  intros Hw Hb Hc. unfold write_byte. rewrite (proj2 (Z.eqb_neq _ _) Hb).
  unfold gets, mbind, M_bind. rewrite (proj2 (Nat.leb_gt _ _)) by done. cbn [mret M_ret].
  unfold mret, M_ret. change (BUFFER_HEIGHT - 1)%nat with 24%nat. by rewrite put_bottom_run.
Qed.

(** A character past the end of the line starts the next one. *)
Lemma write_byte_wrap byte w :
  wf w -> byte <> 10 -> column_position w = BUFFER_WIDTH ->
  write_byte byte w = (new_line;; write_byte byte) w.
Proof.
  intros Hw Hb Hc. unfold mbind, M_bind. rewrite new_line_run by done.
  rewrite (write_byte_in byte (mk_Writer 0 _ _)); [|by apply wf_new_line|done|unfold BUFFER_WIDTH; cbn; lia].
  unfold write_byte. rewrite (proj2 (Z.eqb_neq _ _) Hb).
  unfold gets, mbind, M_bind. rewrite Hc. rewrite (proj2 (Nat.leb_le _ _)) by lia.
  rewrite new_line_run by done. cbn [column_position color_code].
  change (BUFFER_HEIGHT - 1)%nat with 24%nat.
  rewrite put_bottom_run; [reflexivity|by apply wf_new_line|unfold BUFFER_WIDTH; lia].
Qed.

(** ** Drawing that stays inside the buffer *)

Create HintDb console.

(** From any well-formed console, [m] ends without a panic in a well-formed one. *)
Definition fine (m : M Writer unit) : Prop := forall w, wf w -> exists w', m w = (Ok tt, w') /\ wf w'.

Lemma fine_ret : fine (mret tt).
Proof. intros w Hw. by exists w. Qed.

Lemma fine_seq m1 m2 : fine m1 -> fine m2 -> fine (m1;; m2).
Proof.
  intros H1 H2 w Hw. destruct (H1 w Hw) as (w1 & E1 & Hw1). destruct (H2 w1 Hw1) as (w2 & E2 & Hw2).
  exists w2. unfold mbind, M_bind. by rewrite E1.
Qed.

Lemma fine_each {A} (l : list A) body : (forall x, fine (body x)) -> fine (each l body).
Proof. intros Hb. induction l as [|x l IH]; [apply fine_ret|]. by apply (fine_seq (body x)). Qed.

Lemma fine_new_line : fine new_line.
Proof. intros w Hw. eexists. split; [by apply new_line_run|by apply wf_new_line]. Qed.

Lemma fine_write_byte b : fine (write_byte b).
Proof.
  assert (Hin : b <> 10 -> forall w, wf w -> (column_position w < BUFFER_WIDTH)%nat ->
    exists w', write_byte b w = (Ok tt, w') /\ wf w').
  { intros Hb w Hw Hc. eexists. split; [by apply write_byte_in|]. apply wf_put_bottom; [done|lia]. }
  destruct (Z.eqb_spec b 10) as [->|Hb]; [exact fine_new_line|]. intros w Hw.
  destruct (Nat.lt_ge_cases (column_position w) BUFFER_WIDTH) as [Hc|Hc]; [by apply Hin|].
  rewrite write_byte_wrap; [|done|done|destruct Hw as (_ & _ & Hw); lia].
  unfold mbind, M_bind. rewrite new_line_run by done. apply Hin; [done|by apply wf_new_line|].
  cbn. unfold BUFFER_WIDTH. lia.
Qed.

Lemma fine_write_string s : fine (write_string s).
Proof. apply fine_each. intros b. apply fine_write_byte. Qed.

Lemma wf_set_column n w : wf w -> (n <= BUFFER_WIDTH)%nat -> wf (set_column n w).
Proof. intros (Hh & Hr & _) Hn. by repeat split. Qed.

Lemma fine_backspace : fine backspace.
Proof.
  intros w Hw. unfold backspace. destruct (Nat.ltb_spec 0 (column_position w)) as [H0|H0]; [|by exists w].
  pose proof Hw as (_ & _ & Hc).
  unfold modify, gets, mbind, M_bind. cbn [column_position set_column color_code].
  change (BUFFER_HEIGHT - 1)%nat with 24%nat.
  rewrite put_bottom_run by first [lia | apply wf_set_column; [done|lia]]. eexists. split; [done|].
  change (put_bottom ?c ?v (set_column ?n w)) with (set_column n (put_bottom c v w)).
  apply wf_put_bottom; [done|lia].
Qed.

Lemma fine_cursor_left : fine cursor_left.
Proof.
  intros w Hw. eexists. split; [done|]. destruct (_ <? _)%nat; [|done].
  apply wf_set_column; [done|]. destruct Hw as (_ & _ & Hc). lia.
Qed.

Lemma fine_cursor_right : fine cursor_right.
Proof.
  intros w Hw. eexists. split; [done|]. destruct (Nat.ltb_spec (column_position w) BUFFER_WIDTH); [|done].
  apply wf_set_column; [done|lia].
Qed.

#[export] Hint Resolve fine_ret fine_seq fine_write_string fine_backspace fine_cursor_left fine_cursor_right : console.

(** ** The abstract terminal *)

(** Finished lines and the line being written. *)
Definition Term : Type := list (list Z) * list Z.

Definition type_byte (t : Term) (b : Z) : Term :=
  let '(ls, cur) := t in
  if b =? 10 then (ls ++ [cur], [])
  else if (BUFFER_WIDTH <=? length cur)%nat then (ls ++ [cur], [b])
  else (ls, cur ++ [b]).

(** The row of cells of a line. *)
Definition render (color : Z) (l : list Z) : list ScreenChar :=
  map (fun b => mk_Char b color) l ++ replicate (BUFFER_WIDTH - length l) (mk_Char 32 color).

(** The screen is the last rows of the terminal, below as much blank space as it
    takes. *)
Definition shows (w : Writer) (t : Term) : Prop :=
  wf w /\ (length t.2 <= BUFFER_WIDTH)%nat /\ column_position w = length t.2 /\
  chars w = drop (S (length t.1))
    (replicate BUFFER_HEIGHT (blank_row (color_code w)) ++ map (render (color_code w)) (t.1 ++ [t.2])).

Lemma shows_bottom w t : shows w t -> bottom w = render (color_code w) t.2.
Proof.
  intros (_ & _ & _ & Hc). unfold bottom. rewrite Hc, lookup_drop, lookup_app_r
    by (rewrite length_replicate; unfold BUFFER_HEIGHT; lia).
  rewrite length_replicate, map_app, lookup_app_r by (rewrite length_map; unfold BUFFER_HEIGHT; lia).
  rewrite length_map. unfold BUFFER_HEIGHT.
  replace (S (length t.1) + (25 - 1) - 25 - length t.1)%nat with 0%nat by lia. done.
Qed.

Lemma render_insert color l b :
  (length l < BUFFER_WIDTH)%nat -> <[length l := mk_Char b color]> (render color l) = render color (l ++ [b]).
Proof.
  intros Hl. unfold render. rewrite insert_app_r_alt by (by rewrite length_map).
  rewrite length_map, Nat.sub_diag, map_app, length_app, <- app_assoc. f_equal. cbn [length map].
  replace (BUFFER_WIDTH - length l)%nat with (S (BUFFER_WIDTH - (length l + 1))) by lia. done.
Qed.

(** A new line scrolls the terminal. *)
Lemma shows_new_line w t :
  shows w t -> exists w', new_line w = (Ok tt, w') /\ shows w' (t.1 ++ [t.2], []) /\ color_code w' = color_code w.
Proof.
  intros (Hw & Hl & Hc & Hs). rewrite new_line_run by done. eexists. split; [done|]. split; [|done].
  split; [by apply wf_new_line|]. cbn [snd fst length column_position chars color_code].
  split; [lia|]. split; [done|]. rewrite Hs, drop_drop.
  rewrite (map_app _ (t.1 ++ [t.2]) [[]]), app_assoc.
  rewrite (drop_app_le (_ ++ map _ (t.1 ++ [t.2]))).
  - rewrite length_app. cbn [length]. repeat f_equal; lia.
  - rewrite !length_app, length_replicate, length_map, length_app. cbn [length]. unfold BUFFER_HEIGHT. lia.
Qed.

Lemma shows_char w t b :
  shows w t -> b <> 10 -> (length t.2 < BUFFER_WIDTH)%nat ->
  exists w', write_byte b w = (Ok tt, w') /\ shows w' (t.1, t.2 ++ [b]) /\ color_code w' = color_code w.
Proof.
  intros Hs Hb Hl. pose proof (shows_bottom _ _ Hs) as Hbot. destruct Hs as (Hw & Hl' & Hc & Hs).
  rewrite write_byte_in by (done || lia). eexists. split; [done|]. split; [|done].
  split; [apply wf_put_bottom; [done|lia]|].
  cbn [snd fst length column_position color_code set_column put_bottom set_chars chars].
  rewrite length_app. cbn [length]. split; [lia|]. split; [lia|].
  rewrite Hbot, Hc, render_insert by done. rewrite Hs, !map_app. cbn [map]. rewrite !app_assoc.
  rewrite !(drop_app_le (_ ++ map _ _))
    by (rewrite length_app, length_replicate, length_map; unfold BUFFER_HEIGHT; lia).
  rewrite insert_app_r_alt; rewrite length_drop, length_app, length_replicate, length_map;
    unfold BUFFER_HEIGHT; [|lia].
  by replace (24 - (25 + length t.1 - S (length t.1)))%nat with 0%nat by lia.
Qed.

Lemma shows_byte w t b :
  shows w t -> exists w', write_byte b w = (Ok tt, w') /\ shows w' (type_byte t b) /\ color_code w' = color_code w.
Proof.
  intros Hs. destruct t as [ls cur]. unfold type_byte.
  destruct (Z.eqb_spec b 10) as [->|Hb].
  { destruct (shows_new_line w (ls, cur) Hs) as (w' & E & H). exists w'. split; [|done].
    unfold write_byte. exact E. }
  destruct (Nat.leb_spec BUFFER_WIDTH (length cur)) as [Hfull|Hroom].
  - destruct (shows_new_line w (ls, cur) Hs) as (w' & E & Hs' & Hcol). cbn [fst snd] in *.
    rewrite write_byte_wrap; [|apply Hs|done|destruct Hs as (_ & Hl & -> & _); cbn [snd] in *; lia].
    unfold mbind, M_bind. rewrite E.
    destruct (shows_char w' (ls ++ [cur], []) b Hs' Hb ltac:(cbn; unfold BUFFER_WIDTH; lia)) as (w2 & E2 & Hs2 & Hc2).
    exists w2. split; [done|]. split; [done|congruence].
  - destruct (shows_char w (ls, cur) b Hs Hb Hroom) as (w' & E & H). by exists w'.
Qed.

Lemma shows_string w t s :
  shows w t ->
  exists w', write_string s w = (Ok tt, w') /\ shows w' (foldl type_byte t (map shown s)) /\
    color_code w' = color_code w.
Proof.
  unfold write_string. revert w t. induction s as [|b s IH]; intros w t Hs; [by exists w|].
  cbn [each map foldl]. destruct (shows_byte w t (shown b) Hs) as (w1 & E1 & Hs1 & Hc1).
  destruct (IH w1 _ Hs1) as (w2 & E2 & Hs2 & Hc2). exists w2.
  unfold mbind, M_bind. rewrite E1. split; [done|]. split; [done|congruence].
Qed.

Lemma shows_clear w : wf w -> exists w', clear_screen w = (Ok tt, w') /\ shows w' ([], []) /\ color_code w' = color_code w.
Proof.
  intros Hw. unfold clear_screen.
  assert (Hloop : forall k, (k <= BUFFER_HEIGHT)%nat -> each (seq 0 k) clear_row w =
    (Ok tt, set_chars (replicate k (blank_row (color_code w)) ++ drop k (chars w)) w)).
  { induction k as [|k IH]; intros Hk; [cbn; by destruct w|].
    rewrite seq_S, each_app. unfold mbind, M_bind. rewrite IH by lia. cbn [each Nat.add].
    destruct (wf_row w k Hw Hk) as (r & E & Hl). pose proof Hw as (Hh & Hr & Hc).
    unfold mbind, M_bind. rewrite clear_row_run; [| |done].
    - unfold mret, M_ret, set_chars. cbn [chars color_code column_position]. do 2 f_equal.
      rewrite insert_app_r_alt by (by rewrite length_replicate). rewrite length_replicate, Nat.sub_diag.
      rewrite (drop_S _ r k E), replicate_S_end, <- app_assoc. done.
    - split; [cbn [chars set_chars]; rewrite length_app, length_replicate, length_drop; lia|]. split; [|done].
      apply Forall_app. split; [apply Forall_replicate, length_replicate|by apply Forall_drop]. }
  pose proof Hw as (Hh & _). unfold mbind, M_bind. rewrite Hloop by done.
  rewrite drop_ge, app_nil_r by lia. eexists. split; [reflexivity|]. split; [|done].
  unfold shows, wf. cbn [chars set_column set_chars column_position color_code fst snd length].
  split; [|split; [lia|split; [done|reflexivity]]].
  split; [apply length_replicate|]. split; [apply Forall_replicate, length_replicate|lia].
Qed.

(** ** Properties *)

(** C33. Whatever was on the screen, clearing it and printing any text - lines longer
    than the screen is wide, more lines than it is high - never indexes outside the
    buffer and leaves on it the last 25 lines of the text, wrapped at column 80,
    each padded with blanks, with the cursor after the last character; bytes that
    are not printable ASCII show as 0xFE. *)
Theorem console_shows_text w s :
  wf w ->
  let t := foldl type_byte ([], []) (map shown s) in
  exists w', (clear_screen;; write_string s) w = (Ok tt, w') /\ wf w' /\
    column_position w' = length t.2 /\
    chars w' = drop (S (length t.1))
      (replicate BUFFER_HEIGHT (blank_row (color_code w)) ++ map (render (color_code w)) (t.1 ++ [t.2])).
Proof.
  intros Hw t. destruct (shows_clear w Hw) as (w1 & E1 & Hs1 & Hc1).
  destruct (shows_string w1 _ s Hs1) as (w2 & E2 & (Hw2 & _ & Hcol & Hch) & Hc2).
  exists w2. unfold mbind, M_bind. rewrite E1. split; [done|]. split; [done|]. split; [done|].
  rewrite Hch, Hc2, Hc1. done.
Qed.

(** A screen full of question marks. *)
Definition noisy : Writer :=
  mk_Writer 17 initial_color (replicate BUFFER_HEIGHT (replicate BUFFER_WIDTH (mk_Char 63 7))).

Lemma console_shows_text_witness :
  exists w', (clear_screen;; write_string [72; 105; 10; 7]) noisy = (Ok tt, w') /\
    column_position w' = 1%nat /\
    drop 23 (chars w') = [render initial_color [72; 105]; render initial_color [254]].
Proof.
  assert (Hw : wf noisy).
  { split; [apply length_replicate|]. split; [apply Forall_replicate, length_replicate|cbn; unfold BUFFER_WIDTH; lia]. }
  destruct (console_shows_text noisy [72; 105; 10; 7] Hw) as (w' & E & _ & Hc & Hch).
  exists w'. split; [exact E|]. split; [exact Hc|]. rewrite Hch. reflexivity.
Defined.
