(* ===== verification/Keyboard.v ===== *)
(** * Keyboard: scancodes to a command line ([keyboard.rs])

    The driver's line editor and history, drawing on Vga's console.  Characters
    are their byte values.  [dispatch] is [shell::dispatch_command], which runs
    after the driver's lock is released and reaches the console only. *)
From stdpp Require Import base list numbers strings.
From Stdlib Require Import Lia Ascii.
From Stdlib Require String.
From S2P Require Import Prelude Vga.
Open Scope Z_scope.

Definition SCANCODE_BACKSPACE : Z := 0x0E.
Definition SCANCODE_EXTENDED_PREFIX : Z := 0xE0.
Definition SCANCODE_UP : Z := 0x48.
Definition SCANCODE_DOWN : Z := 0x50.
Definition SCANCODE_LEFT : Z := 0x4B.
Definition SCANCODE_RIGHT : Z := 0x4D.
Definition SCANCODE_LSHIFT : Z := 0x2A.
Definition SCANCODE_RSHIFT : Z := 0x36.
Definition SCANCODE_LSHIFT_BREAK : Z := 0xAA.
Definition SCANCODE_RSHIFT_BREAK : Z := 0xB6.

Record KeyboardDriver := mk_Kb {
  last_scancode : Z;
  pending_extended : bool;
  shift_held : bool;
  line_buffer : list Z;
  cursor_pos : nat;
  history : list (list Z);
  history_index : option nat;
}.

Definition new_kb : KeyboardDriver := mk_Kb 0 false false [] 0 [] None.

(** The byte of a character, and of a text. *)
Definition ch (c : ascii) : Z := Z.of_N (N_of_ascii c).
Definition text (s : string) : list Z := map ch (String.list_ascii_of_string s).

(** [Some(if shift { upper } else { lower })] *)
Definition key (shift : bool) (upper lower : ascii) : option Z := Some (ch (if shift then upper else lower)).

Definition scancode_to_char (kb : KeyboardDriver) (scancode : Z) : option Z :=
  let shift := shift_held kb in
  match scancode with
  | 0x02 => Some (ch "1") | 0x03 => Some (ch "2") | 0x04 => Some (ch "3") | 0x05 => Some (ch "4")
  | 0x06 => Some (ch "5") | 0x07 => Some (ch "6") | 0x08 => Some (ch "7") | 0x09 => Some (ch "8")
  | 0x0A => Some (ch "9") | 0x0B => Some (ch "0")
  | 0x0C => key shift "_" "-"
  | 0x10 => key shift "Q" "q" | 0x11 => key shift "W" "w" | 0x12 => key shift "E" "e"
  | 0x13 => key shift "R" "r" | 0x14 => key shift "T" "t" | 0x15 => key shift "Y" "y"
  | 0x16 => key shift "U" "u" | 0x17 => key shift "I" "i" | 0x18 => key shift "O" "o"
  | 0x19 => key shift "P" "p"
  | 0x1E => key shift "A" "a" | 0x1F => key shift "S" "s" | 0x20 => key shift "D" "d"
  | 0x21 => key shift "F" "f" | 0x22 => key shift "G" "g" | 0x23 => key shift "H" "h"
  | 0x24 => key shift "J" "j" | 0x25 => key shift "K" "k" | 0x26 => key shift "L" "l"
  | 0x29 => key shift "~" "`"
  | 0x2C => key shift "Z" "z" | 0x2D => key shift "X" "x" | 0x2E => key shift "C" "c"
  | 0x2F => key shift "V" "v" | 0x30 => key shift "B" "b" | 0x31 => key shift "N" "n"
  | 0x32 => key shift "M" "m"
  | 0x33 => key shift "<" "," | 0x34 => key shift ">" "." | 0x35 => key shift "?" "/"
  | 0x39 => Some (ch " ")
  | 0x1C => Some 10
  | _ => None
  end.

Definition set_line (l : list Z) (c : nat) (kb : KeyboardDriver) : KeyboardDriver :=
  mk_Kb (last_scancode kb) (pending_extended kb) (shift_held kb) l c (history kb) (history_index kb).
Definition set_index (i : option nat) (kb : KeyboardDriver) : KeyboardDriver :=
  mk_Kb (last_scancode kb) (pending_extended kb) (shift_held kb) (line_buffer kb) (cursor_pos kb) (history kb) i.
Definition set_pending (b : bool) (kb : KeyboardDriver) : KeyboardDriver :=
  mk_Kb (last_scancode kb) b (shift_held kb) (line_buffer kb) (cursor_pos kb) (history kb) (history_index kb).
Definition set_shift (b : bool) (kb : KeyboardDriver) : KeyboardDriver :=
  mk_Kb (last_scancode kb) (pending_extended kb) b (line_buffer kb) (cursor_pos kb) (history kb) (history_index kb).
Definition set_last (s : Z) (kb : KeyboardDriver) : KeyboardDriver :=
  mk_Kb s (pending_extended kb) (shift_held kb) (line_buffer kb) (cursor_pos kb) (history kb) (history_index kb).
Definition push_history (l : list Z) (kb : KeyboardDriver) : KeyboardDriver :=
  mk_Kb (last_scancode kb) (pending_extended kb) (shift_held kb) (line_buffer kb) (cursor_pos kb)
    (history kb ++ [l]) (history_index kb).

(** [recall_older] and [recall_newer]: whether the line changed. *)
Definition recall_older (kb : KeyboardDriver) : res (bool * KeyboardDriver) :=
  match history kb with
  | [] => Ok (false, kb)
  | _ =>
      let recall := fun i =>
        l ← idx (history kb) i; Ok (true, set_line l (length l) (set_index (Some i) kb)) in
      match history_index kb with
      | None => recall (length (history kb) - 1)%nat
      | Some O => Ok (false, kb)
      | Some i => recall (i - 1)%nat
      end
  end.

Definition recall_newer (kb : KeyboardDriver) : res (bool * KeyboardDriver) :=
  match history_index kb with
  | None => Ok (false, kb)
  | Some i =>
      if (i + 1 <? length (history kb))%nat then
        l ← idx (history kb) (i + 1); Ok (true, set_line l (length l) (set_index (Some (i + 1)%nat) kb))
      else Ok (true, set_line [] 0 (set_index None kb))
  end.

(** [for _ in 0..n { f() }] *)
Definition times (n : nat) (f : M Writer unit) : M Writer unit := each (seq 0 n) (fun _ => f).

Definition redraw_line (kb : KeyboardDriver) (old_len old_cursor : nat) : M Writer unit :=
  times (old_len - old_cursor) cursor_right;;
  times old_len backspace;;
  write_string (line_buffer kb);;
  times (length (line_buffer kb) - cursor_pos kb) cursor_left.

(** [String::insert] and [String::remove] at a byte position. *)
Definition insert_at (i : nat) (c : Z) (l : list Z) : res (list Z) :=
  if (i <=? length l)%nat then Ok (take i l ++ c :: drop i l) else Panic.
Definition remove_at (i : nat) (l : list Z) : res (list Z) :=
  if (i <? length l)%nat then Ok (take i l ++ drop (S i) l) else Panic.

Definition insert_char (c : Z) (kb : KeyboardDriver) : res (KeyboardDriver * M Writer unit) :=
  let old_len := length (line_buffer kb) in
  let old_cursor := cursor_pos kb in
  l ← insert_at (cursor_pos kb) c (line_buffer kb);
  let kb := set_line l (cursor_pos kb + 1) kb in
  Ok (kb, redraw_line kb old_len old_cursor).

Definition backspace_char (kb : KeyboardDriver) : res (KeyboardDriver * M Writer unit) :=
  if (cursor_pos kb =? 0)%nat then Ok (kb, mret tt)
  else
    let old_len := length (line_buffer kb) in
    let old_cursor := cursor_pos kb in
    l ← remove_at (cursor_pos kb - 1) (line_buffer kb);
    let kb := set_line l (cursor_pos kb - 1) kb in
    Ok (kb, redraw_line kb old_len old_cursor).

(** [line.trim().is_empty()], of an ASCII line. *)
Definition blank_line (l : list Z) : bool := forallb (fun b => (b =? 32) || ((9 <=? b) && (b <=? 13))) l.

Section Handler.
Context (dispatch : list Z -> M Writer unit).

(** The arrow keys. *)
Definition arrow (scancode : Z) (kb : KeyboardDriver) : res (KeyboardDriver * M Writer unit) :=
  if (scancode =? SCANCODE_UP) || (scancode =? SCANCODE_DOWN) then
    let old_len := length (line_buffer kb) in
    let old_cursor := cursor_pos kb in
    '(changed, kb') ← (if scancode =? SCANCODE_UP then recall_older kb else recall_newer kb);
    Ok (kb', if changed : bool then redraw_line kb' old_len old_cursor else mret tt)
  else if (scancode =? SCANCODE_LEFT) && (0 <? cursor_pos kb)%nat then
    Ok (set_line (line_buffer kb) (cursor_pos kb - 1) kb, cursor_left)
  else if (scancode =? SCANCODE_RIGHT) && (cursor_pos kb <? length (line_buffer kb))%nat then
    Ok (set_line (line_buffer kb) (cursor_pos kb + 1) kb, cursor_right)
  else Ok (kb, mret tt).

Definition enter (kb : KeyboardDriver) : KeyboardDriver * M Writer unit :=
  let line := line_buffer kb in
  let kb := set_index None (set_line [] 0 kb) in
  let kb := if negb (blank_line line) then push_history line kb else kb in
  (kb, write_string [10];; dispatch line;; write_string (text "AgentOS> ")).

(** A new press: the driver afterwards, and what is drawn. *)
Definition press (is_extended : bool) (scancode : Z) (kb : KeyboardDriver)
    : res (KeyboardDriver * M Writer unit) :=
  if is_extended then arrow scancode kb
  else if scancode =? SCANCODE_BACKSPACE then backspace_char (set_index None kb)
  else
    match scancode_to_char kb scancode with
    | Some c => if c =? 10 then Ok (enter kb) else insert_char c (set_index None kb)
    | None => Ok (kb, mret tt)
    end.

(** [handle_scancode], up to the drawing. *)
Definition react (scancode : Z) (kb : KeyboardDriver) : res (KeyboardDriver * M Writer unit) :=
  if scancode =? SCANCODE_EXTENDED_PREFIX then Ok (set_pending true kb, mret tt)
  else
    let is_extended := pending_extended kb in
    let kb := set_pending false kb in
    if (scancode =? SCANCODE_LSHIFT) || (scancode =? SCANCODE_RSHIFT) then Ok (set_shift true kb, mret tt)
    else if (scancode =? SCANCODE_LSHIFT_BREAK) || (scancode =? SCANCODE_RSHIFT_BREAK) then
      Ok (set_shift false kb, mret tt)
    else
      let is_new_press := negb (scancode =? last_scancode kb) && (Z.land scancode 0x80 =? 0) in
      let kb := set_last scancode kb in
      if negb is_new_press then Ok (kb, mret tt) else press is_extended scancode kb.

Definition handle_scancode (scancode : Z) : M (KeyboardDriver * Writer) unit := fun '(kb, w) =>
  match react scancode kb with
  | Ok (kb', draw) => let '(r, w') := draw w in (r, (kb', w'))
  | Err e => (Err e, (kb, w))
  | Panic => (Panic, (kb, w))
  | Hang => (Hang, (kb, w))
  end.

Fixpoint handle_all (codes : list Z) : M (KeyboardDriver * Writer) unit :=
  match codes with
  | [] => mret tt
  | c :: r => handle_scancode c;; handle_all r
  end.
End Handler.

(** ** The screen line being edited *)

(** The bottom row holds [pre] (the prompt), then the text [X], then blanks; the
    rows above are [above], the cursor is at [col]. *)
Record line_state (above : list (list ScreenChar)) (color : Z) (pre : list ScreenChar) (X : list Z)
    (col : nat) (w : Writer) : Prop := {
  ls_wf : wf w;
  ls_above : take 24 (chars w) = above;
  ls_color : color_code w = color;
  ls_col : column_position w = col;
  ls_fits : (length pre + length X <= BUFFER_WIDTH)%nat;
  ls_row : bottom w = pre ++ map (fun b => mk_Char b color) X ++
             replicate (BUFFER_WIDTH - length pre - length X) (mk_Char 32 color);
}.

Section Line.
Context (above : list (list ScreenChar)) (color : Z) (pre : list ScreenChar).
Abbreviation state := (line_state above color pre).

(** Writing a cell of the bottom row. *)
Lemma put_state X Y c v n col w :
  state X col w -> (n <= BUFFER_WIDTH)%nat -> (length pre + length Y <= BUFFER_WIDTH)%nat ->
  <[c := v]> (map (fun b => mk_Char b color) X ++
               replicate (BUFFER_WIDTH - length pre - length X) (mk_Char 32 color)) =
    map (fun b => mk_Char b color) Y ++ replicate (BUFFER_WIDTH - length pre - length Y) (mk_Char 32 color) ->
  state Y n (set_column n (put_bottom (length pre + c) v w)).
Proof.
  intros [Hw Ha Hc Hcol Hf Hr] Hn HY Heq. constructor; try done.
  - by apply wf_put_bottom.
  - cbn. by rewrite take_insert_ge by lia.
  - rewrite bottom_put by done. rewrite Hr. by rewrite insert_app_r, Heq.
Qed.

Lemma type_state X b w :
  state X (length pre + length X) w -> b <> 10 -> (length pre + length X < BUFFER_WIDTH)%nat ->
  exists w', write_byte b w = (Ok tt, w') /\ state (X ++ [b]) (length pre + length (X ++ [b])) w'.
Proof.
  intros Hs Hb Hlt. pose proof Hs as [Hw Ha Hc Hcol Hf Hr].
  rewrite write_byte_in by (done || lia). eexists. split; [done|].
  rewrite Hcol, Hc. replace (length pre + length X + 1)%nat with (length pre + length (X ++ [b]))%nat
    by (rewrite length_app; cbn; lia).
  apply (put_state X _ _ _ _ (length pre + length X)); [done|rewrite length_app; cbn; lia..|].
  rewrite insert_app_r_alt by (by rewrite length_map). rewrite length_map, Nat.sub_diag, map_app, <- app_assoc.
  f_equal. cbn [map]. rewrite length_app. cbn [length].
  replace (BUFFER_WIDTH - length pre - length X)%nat with (S (BUFFER_WIDTH - length pre - (length X + 1))) by lia.
  done.
Qed.

Lemma backspace_state X b w :
  state (X ++ [b]) (length pre + length (X ++ [b])) w ->
  exists w', backspace w = (Ok tt, w') /\ state X (length pre + length X) w'.
Proof.
  intros Hs. pose proof Hs as [Hw Ha Hc Hcol Hf Hr]. rewrite length_app in *. cbn [length] in *.
  unfold backspace, modify, gets, mbind, M_bind. cbn [column_position set_column color_code].
  rewrite !Hcol. rewrite (proj2 (Nat.ltb_lt _ _)) by lia.
  replace (length pre + (length X + 1) - 1)%nat with (length pre + length X)%nat by lia.
  change (BUFFER_HEIGHT - 1)%nat with 24%nat.
  assert (Hw' : wf (set_column (length pre + length X) w))
    by (destruct Hw as (H1 & H2 & H3); split; [done|]; split; [done|cbn [column_position set_column]; lia]).
  rewrite put_bottom_run by (done || lia). eexists. split; [done|].
  change (put_bottom ?c ?v (set_column ?n w)) with (set_column n (put_bottom c v w)).
  apply (put_state (X ++ [b]) X (length X) _ _ _ w Hs); [lia|lia|].
  rewrite map_app, <- app_assoc. rewrite insert_app_r_alt by (by rewrite length_map).
  rewrite length_map, Nat.sub_diag, Hc. f_equal. cbn [map app]. rewrite length_app. cbn [length].
  replace (BUFFER_WIDTH - length pre - length X)%nat with (S (BUFFER_WIDTH - length pre - (length X + 1))) by lia.
  done.
Qed.

Lemma move_state X n col w :
  state X col w -> (n <= BUFFER_WIDTH)%nat -> state X n (set_column n w).
Proof.
  intros [(H1 & H2 & H3) Ha Hc Hcol Hf Hr] Hn. constructor; try done; by repeat split.
Qed.

Lemma times_S n f w : times (S n) f w = (times n f;; f) w.
Proof.
  unfold times. rewrite seq_S, each_app. unfold mbind, M_bind.
  destruct (each (seq 0 n) _ w) as [[[]| | |] w']; try done. cbn. unfold mbind, M_bind.
  by destruct (f w') as [[[]| | |] w2].
Qed.

Lemma right_state X col n w :
  state X col w -> (col + n <= BUFFER_WIDTH)%nat ->
  exists w', times n cursor_right w = (Ok tt, w') /\ state X (col + n) w'.
Proof.
  intros Hs. induction n as [|n IH]; intros Hn.
  - exists w. by rewrite Nat.add_0_r.
  - destruct (IH ltac:(lia)) as (w1 & E1 & H1). rewrite times_S. unfold mbind, M_bind. rewrite E1.
    unfold cursor_right. rewrite (ls_col _ _ _ _ _ _ H1). rewrite (proj2 (Nat.ltb_lt _ _)) by lia.
    eexists. split; [done|]. replace (col + S n)%nat with (col + n + 1)%nat by lia.
    apply (move_state _ _ _ _ H1). lia.
Qed.

Lemma left_state X col n w :
  state X (col + n) w -> (col + n <= BUFFER_WIDTH)%nat ->
  exists w', times n cursor_left w = (Ok tt, w') /\ state X col w'.
Proof.
  revert col. induction n as [|n IH]; intros col Hs Hn.
  - exists w. by rewrite Nat.add_0_r in Hs.
  - rewrite times_S. destruct (IH (S col)) as (w1 & E1 & H1); [by replace (S col + n)%nat with (col + S n)%nat by lia|lia|].
    unfold mbind, M_bind. rewrite E1. unfold cursor_left. rewrite (ls_col _ _ _ _ _ _ H1). cbn [Nat.ltb Nat.leb].
    eexists. split; [done|]. replace (S col - 1)%nat with col by lia. apply (move_state _ _ _ _ H1). lia.
Qed.

Lemma erase_state X w :
  state X (length pre + length X) w ->
  exists w', times (length X) backspace w = (Ok tt, w') /\ state [] (length pre) w'.
Proof.
  assert (Hloop : forall n X w, length X = n -> state X (length pre + length X) w ->
    exists w', times n backspace w = (Ok tt, w') /\ state [] (length pre) w').
  { induction n as [|n IH]; intros X' w' Hn Hs.
    - destruct X'; [|done]. exists w'. split; [done|]. cbn in Hs. by rewrite Nat.add_0_r in Hs.
    - destruct X' as [|b X' _] using rev_ind; [done|]. rewrite length_app in Hn. cbn in Hn.
      destruct (backspace_state X' b w' Hs) as (w1 & E1 & H1).
      destruct (IH X' w1 ltac:(lia) H1) as (w2 & E2 & H2). exists w2. split; [|done].
      change (times (S n) backspace w') with ((backspace;; each (seq 1 n) (fun _ => backspace)) w').
      unfold mbind, M_bind. rewrite E1. rewrite <- E2. unfold times.
      rewrite <- seq_shift. clear. revert w1. generalize (seq 0 n) as l.
      induction l as [|x l IH]; intros w1; [done|]. cbn. unfold mbind, M_bind.
      destruct (backspace w1) as [[[]| | |] w']; try done. }
  by apply Hloop.
Qed.

(** Printable text, as the keyboard produces it. *)
Definition printable (l : list Z) : Prop := Forall (fun b => 0x20 <= b <= 0x7e) l.

Lemma print_state X Y w :
  state X (length pre + length X) w -> printable Y -> (length pre + length (X ++ Y) <= BUFFER_WIDTH)%nat ->
  exists w', write_string Y w = (Ok tt, w') /\ state (X ++ Y) (length pre + length (X ++ Y)) w'.
Proof.
  intros Hs HY. revert X w Hs. induction HY as [|b Y Hb HY IH]; intros X w Hs Hf.
  - exists w. by rewrite app_nil_r.
  - unfold write_string in *. cbn [each]. assert (Hsh : shown b = b).
    { unfold shown. by rewrite (proj2 (Z.leb_le 0x20 b)), (proj2 (Z.leb_le b 0x7e)) by lia. }
    rewrite length_app in Hf. cbn [length] in Hf.
    destruct (type_state X b w Hs ltac:(lia) ltac:(lia)) as (w1 & E1 & H1).
    rewrite Hsh. unfold mbind, M_bind. rewrite E1.
    destruct (IH (X ++ [b]) w1 H1) as (w2 & E2 & H2); [rewrite !length_app; cbn; lia|].
    exists w2. rewrite <- app_assoc in H2. done.
Qed.

(** Redrawing: whatever was on the line, it now shows the new text with the cursor
    where the editor has it. *)
Lemma redraw_state kb X cursor w :
  state X (length pre + cursor) w -> (cursor <= length X)%nat ->
  printable (line_buffer kb) -> (cursor_pos kb <= length (line_buffer kb))%nat ->
  (length pre + length (line_buffer kb) <= BUFFER_WIDTH)%nat ->
  exists w', redraw_line kb (length X) cursor w = (Ok tt, w') /\
    state (line_buffer kb) (length pre + cursor_pos kb) w'.
Proof.
  intros Hs Hc Hp Hk Hf. pose proof (ls_fits _ _ _ _ _ _ Hs) as HX. unfold redraw_line.
  destruct (right_state X (length pre + cursor) (length X - cursor) w Hs ltac:(lia)) as (w1 & E1 & H1).
  replace (length pre + cursor + (length X - cursor))%nat with (length pre + length X)%nat in H1 by lia.
  destruct (erase_state X w1 H1) as (w2 & E2 & H2).
  destruct (print_state [] (line_buffer kb) w2) as (w3 & E3 & H3); [cbn; by rewrite Nat.add_0_r|done|done|].
  cbn [app] in H3.
  destruct (left_state (line_buffer kb) (length pre + cursor_pos kb) (length (line_buffer kb) - cursor_pos kb) w3)
    as (w4 & E4 & H4); [|lia|].
  { by replace (length pre + cursor_pos kb + (length (line_buffer kb) - cursor_pos kb))%nat
      with (length pre + length (line_buffer kb))%nat by lia. }
  exists w4. split; [|done]. unfold mbind, M_bind. by rewrite E1, E2, E3.
Qed.
End Line.

(** ** The driver's invariant *)

Definition kb_inv (kb : KeyboardDriver) : Prop :=
  printable (line_buffer kb) /\ (cursor_pos kb <= length (line_buffer kb))%nat /\
  Forall printable (history kb) /\
  match history_index kb with Some i => (i < length (history kb))%nat | None => True end.

Lemma scancode_to_char_printable kb sc c :
  scancode_to_char kb sc = Some c -> c = 10 \/ 0x20 <= c <= 0x7e.
Proof.
  unfold scancode_to_char, key. intros H.
  repeat match type of H with
  | match ?x with _ => _ end = _ => destruct x; try discriminate H
  end.
  all: injection H as <-; first [by left | right; destruct (shift_held kb); by vm_compute].
Qed.

Lemma printable_recall kb i l :
  kb_inv kb -> idx (history kb) i = Ok l -> printable l /\ (i < length (history kb))%nat.
Proof.
  intros (_ & _ & Hh & _) Hi. apply idx_Ok in Hi. split; [|by eapply lookup_lt_Some].
  by eapply (Forall_lookup_1 _ _ _ _ Hh).
Qed.

Lemma recall_older_ok kb :
  kb_inv kb -> exists b kb', recall_older kb = Ok (b, kb') /\ kb_inv kb' /\ (b = false -> kb' = kb).
Proof.
  intros Hk. pose proof Hk as (Hp & Hc & Hh & Hi). unfold recall_older.
  destruct (history kb) as [|h0 hs] eqn:Eh; [by eexists _, _|].
  assert (Hrec : forall i, (i < length (h0 :: hs))%nat -> exists b kb',
    (l ← idx (h0 :: hs) i; Ok (true, set_line l (length l) (set_index (Some i) kb))) = Ok (b, kb') /\
    kb_inv kb' /\ (b = false -> kb' = kb)).
  { intros i Hlt. destruct (idx_lt _ _ Hlt) as [l El]. rewrite El. eexists _, _. split; [done|].
    rewrite <- Eh in El, Hlt, Hh. destruct (printable_recall kb i l Hk El). split; [|done].
    split; [done|]. cbn. split; [lia|]. by rewrite Eh in *. }
  destruct (history_index kb) as [[|i]|]; [by eexists _, _| |].
  - apply Hrec. lia.
  - apply Hrec. cbn. lia.
Qed.

Lemma recall_newer_ok kb :
  kb_inv kb -> exists b kb', recall_newer kb = Ok (b, kb') /\ kb_inv kb' /\ (b = false -> kb' = kb).
Proof.
  intros Hk. pose proof Hk as (Hp & Hc & Hh & Hi). unfold recall_newer.
  destruct (history_index kb) as [i|]; [|by eexists _, _].
  destruct (Nat.ltb_spec (i + 1) (length (history kb))) as [Hlt|Hge].
  - destruct (idx_lt _ _ Hlt) as [l El]. rewrite El. eexists _, _. split; [done|].
    destruct (printable_recall kb _ l Hk El). split; [|done]. split; [done|]. cbn. split; [lia|done].
  - eexists _, _. split; [done|]. split; [|done]. repeat split; [constructor|cbn; lia|done].
Qed.

(** ** Keyboard and screen together *)

(** The line on the screen is the line in the buffer, cursor and all. *)
Definition synced (above : list (list ScreenChar)) (color : Z) (pre : list ScreenChar) (kb : KeyboardDriver)
    (w : Writer) : Prop :=
  line_state above color pre (line_buffer kb) (length pre + cursor_pos kb) w.

(** What a press that is not Enter draws brings the screen back in step. *)
Definition redraws (kb kb' : KeyboardDriver) (draw : M Writer unit) : Prop :=
  forall above color pre w, synced above color pre kb w ->
    (length pre + length (line_buffer kb') <= BUFFER_WIDTH)%nat ->
    exists w', draw w = (Ok tt, w') /\ synced above color pre kb' w'.

Lemma redraws_same kb kb' :
  line_buffer kb' = line_buffer kb -> cursor_pos kb' = cursor_pos kb -> redraws kb kb' (mret tt).
Proof. intros H1 H2 above color pre w Hs _. exists w. split; [done|]. unfold synced. by rewrite H1, H2. Qed.

Lemma redraws_line kb kb' :
  kb_inv kb -> kb_inv kb' ->
  redraws kb kb' (redraw_line kb' (length (line_buffer kb)) (cursor_pos kb)).
Proof.
  intros (_ & Hc & _) (Hp' & Hc' & _) above color pre w Hs Hf.
  by apply redraw_state.
Qed.

Lemma insert_char_ok c kb :
  kb_inv kb -> 0x20 <= c <= 0x7e ->
  exists draw, insert_char c kb = Ok (set_line (take (cursor_pos kb) (line_buffer kb) ++
      c :: drop (cursor_pos kb) (line_buffer kb)) (cursor_pos kb + 1) kb, draw) /\
    kb_inv (set_line (take (cursor_pos kb) (line_buffer kb) ++ c :: drop (cursor_pos kb) (line_buffer kb))
      (cursor_pos kb + 1) kb) /\
    redraws kb (set_line (take (cursor_pos kb) (line_buffer kb) ++ c :: drop (cursor_pos kb) (line_buffer kb))
      (cursor_pos kb + 1) kb) draw.
Proof.
  intros Hk Hch. pose proof Hk as (Hp & Hc & Hh & Hi). unfold insert_char, insert_at.
  rewrite (proj2 (Nat.leb_le _ _)) by done. cbn [mbind res_bind]. eexists. split; [done|].
  set (kb' := set_line _ _ kb).
  assert (Hk' : kb_inv kb').
  { split; [|split; [|done]]; cbn.
    - apply Forall_app. split; [by apply Forall_take|]. constructor; [done|by apply Forall_drop].
    - rewrite length_app, length_take. cbn. rewrite length_drop. lia. }
  split; [done|]. by apply (redraws_line kb kb').
Qed.

Lemma backspace_char_ok kb :
  kb_inv kb -> exists kb' draw, backspace_char kb = Ok (kb', draw) /\ kb_inv kb' /\ redraws kb kb' draw.
Proof.
  intros Hk. pose proof Hk as (Hp & Hc & Hh & Hi). unfold backspace_char.
  destruct (Nat.eqb_spec (cursor_pos kb) 0) as [E|E].
  { eexists _, _. split; [done|]. split; [done|]. by apply redraws_same. }
  unfold remove_at. rewrite (proj2 (Nat.ltb_lt _ _)) by lia. cbn [mbind res_bind].
  eexists _, _. split; [done|]. set (kb' := set_line _ _ kb).
  assert (Hk' : kb_inv kb').
  { split; [|split; [|done]]; cbn.
    - apply Forall_app. split; [by apply Forall_take|by apply Forall_drop].
    - rewrite length_app, length_take, length_drop. lia. }
  split; [done|]. by apply (redraws_line kb kb').
Qed.

Lemma arrow_ok sc kb :
  kb_inv kb -> exists kb' draw, arrow sc kb = Ok (kb', draw) /\ kb_inv kb' /\ redraws kb kb' draw.
Proof.
  intros Hk. pose proof Hk as (Hp & Hc & Hh & Hi). unfold arrow.
  destruct (_ || _).
  - assert (Hrec : exists b kb', (if sc =? SCANCODE_UP then recall_older kb else recall_newer kb) = Ok (b, kb') /\
      kb_inv kb' /\ (b = false -> kb' = kb)) by (destruct (_ =? _); [by apply recall_older_ok|by apply recall_newer_ok]).
    destruct Hrec as (b & kb' & -> & Hk' & Hsame). cbn [mbind res_bind]. eexists _, _. split; [done|].
    split; [done|]. destruct b; [by apply redraws_line|]. rewrite Hsame by done. by apply redraws_same.
  - destruct (_ && (0 <? cursor_pos kb)%nat) eqn:El; [|destruct (_ && (cursor_pos kb <? _)%nat) eqn:Er].
    + unbool. eexists _, _. split; [done|]. split; [split; [done|]; cbn; split; [lia|done]|].
      intros above color pre w Hs _. destruct (left_state above color pre (line_buffer kb)
        (length pre + (cursor_pos kb - 1)) 1 w) as (w' & E & Hw').
      * by replace (length pre + (cursor_pos kb - 1) + 1)%nat with (length pre + cursor_pos kb)%nat by lia.
      * pose proof (ls_fits _ _ _ _ _ _ Hs). lia.
      * exists w'. split; [|done]. rewrite <- E. done.
    + unbool. eexists _, _. split; [done|]. split; [split; [done|]; cbn; split; [lia|done]|].
      intros above color pre w Hs _. pose proof (ls_fits _ _ _ _ _ _ Hs).
      destruct (right_state above color pre (line_buffer kb) (length pre + cursor_pos kb) 1 w Hs)
        as (w' & E & Hw'); [lia|].
      exists w'. split; [rewrite <- E; done|]. unfold synced. cbn. by rewrite Nat.add_assoc.
    + eexists _, _. split; [done|]. split; [done|]. by apply redraws_same.
Qed.

(** Enter is a new press of 0x1C that no extended prefix precedes. *)
Definition submits (sc : Z) (kb : KeyboardDriver) : bool :=
  (sc =? 0x1C) && negb (sc =? last_scancode kb) && negb (pending_extended kb).

Lemma scancode_enter kb sc : scancode_to_char kb sc = Some 10 -> sc = 0x1C.
Proof.
  unfold scancode_to_char, key. intros H.
  repeat match type of H with
  | match ?x with _ => _ end = _ => destruct x; try discriminate H
  end.
  all: try reflexivity; destruct (shift_held kb); discriminate H.
Qed.

Lemma kb_inv_flags kb p s l i :
  kb_inv kb -> match i with Some i => (i < length (history kb))%nat | None => True end ->
  kb_inv (mk_Kb l p s (line_buffer kb) (cursor_pos kb) (history kb) i).
Proof. intros (H1 & H2 & H3 & _) Hi. by repeat split. Qed.

Section React.
Context (dispatch : list Z -> M Writer unit).

(** Every scancode is handled without a panic and keeps the invariant; one that
    does not submit redraws the line. *)
Lemma react_ok sc kb :
  kb_inv kb -> exists kb' draw, react dispatch sc kb = Ok (kb', draw) /\ kb_inv kb' /\
    if submits sc kb
    then line_buffer kb' = [] /\ cursor_pos kb' = 0%nat /\
      draw = (write_string [10];; dispatch (line_buffer kb);; write_string (text "AgentOS> "))
    else redraws kb kb' draw.
Proof.
  intros Hk. unfold react, submits. pose proof Hk as (Hp & Hc & Hh & Hi).
  destruct (Z.eqb_spec sc SCANCODE_EXTENDED_PREFIX) as [->|H0].
  { eexists _, _. split; [done|]. split; [by apply kb_inv_flags|]. by apply redraws_same. }
  set (kb1 := set_pending false kb).
  destruct ((sc =? SCANCODE_LSHIFT) || (sc =? SCANCODE_RSHIFT)) eqn:E1.
  { assert ((sc =? 0x1C) = false) as ->.
    { apply orb_true_iff in E1 as [E1|E1]; unbool; subst sc; done. }
    eexists _, _. split; [done|]. split; [by apply kb_inv_flags|]. by apply redraws_same. }
  destruct ((sc =? SCANCODE_LSHIFT_BREAK) || (sc =? SCANCODE_RSHIFT_BREAK)) eqn:E2.
  { assert ((sc =? 0x1C) = false) as ->.
    { apply orb_true_iff in E2 as [E2|E2]; unbool; subst sc; done. }
    eexists _, _. split; [done|]. split; [by apply kb_inv_flags|]. by apply redraws_same. }
  cbn [last_scancode set_pending kb1].
  destruct (negb (sc =? last_scancode kb) && (Z.land sc 0x80 =? 0)) eqn:En; cbn [negb].
  2: { assert ((sc =? 0x1C) && negb (sc =? last_scancode kb) = false) as ->.
       { destruct (Z.eqb_spec sc 0x1C) as [->|]; [|done]. apply andb_false_iff in En as [En|En]; [by rewrite En|done]. }
       eexists _, _. split; [done|]. split; [by apply kb_inv_flags|]. by apply redraws_same. }
  apply andb_true_iff in En as [En _]. rewrite En, andb_true_r.
  set (kb2 := set_last sc kb1). assert (Hk2 : kb_inv kb2) by (by apply kb_inv_flags).
  unfold press. destruct (pending_extended kb); cbn [negb]; rewrite ?andb_false_r, ?andb_true_r.
  { destruct (arrow_ok sc kb2 Hk2) as (kb' & draw & E & Hk' & Hr). by exists kb', draw. }
  set (kb3 := set_index None kb2). assert (Hk3 : kb_inv kb3) by (by apply kb_inv_flags).
  destruct (Z.eqb_spec sc SCANCODE_BACKSPACE) as [->|Hb].
  { destruct (backspace_char_ok kb3 Hk3) as (kb' & draw & E & Hk' & Hr). by exists kb', draw. }
  destruct (scancode_to_char kb2 sc) as [c|] eqn:Ec.
  - destruct (Z.eqb_spec c 10) as [->|Hc10].
    + apply scancode_enter in Ec as ->. cbn [Z.eqb Pos.eqb]. eexists _, _. split; [done|].
      destruct (blank_line (line_buffer kb2)); (split; [|done]); (split; [constructor|]); cbn; (split; [lia|]);
        (split; [|done]); [done|]. apply Forall_app. split; [done|]. by constructor.
    + assert ((sc =? 0x1C) = false) as ->.
      { apply Z.eqb_neq. intros ->. cbn in Ec. by injection Ec as <-. }
      destruct (scancode_to_char_printable _ _ _ Ec) as [|Hpr]; [done|].
      destruct (insert_char_ok c kb3 Hk3 Hpr) as (draw & E & Hk' & Hr). eexists _, draw. done.
  - assert ((sc =? 0x1C) = false) as ->.
    { apply Z.eqb_neq. intros ->. done. }
    eexists _, _. split; [done|]. split; [done|]. by apply redraws_same.
Qed.
End React.

(** ** Typing *)

(** The key that types [c], and whether Shift is held for it. *)
Definition char_key (c : Z) : option (Z * bool) :=
  List.find (fun '(sc, shift) => bool_decide (scancode_to_char (set_shift shift new_kb) sc = Some c))
    (list_prod (map Z.of_nat (seq 0 64)) [false; true]).

(** The scancodes of typing a character, the key repeating [n] times before it is
    let go. *)
Definition stroke (key : Z * bool) (n : nat) : list Z :=
  let '(sc, shift) := key in
  (if shift then [SCANCODE_LSHIFT] else []) ++ replicate (S n) sc ++ [sc + 0x80] ++
  (if shift then [SCANCODE_LSHIFT_BREAK] else []).

(** The driver after a list of scancodes, whatever is drawn. *)
Fixpoint feed (dispatch : list Z -> M Writer unit) (codes : list Z) (kb : KeyboardDriver) : res KeyboardDriver :=
  match codes with
  | [] => Ok kb
  | c :: r => '(kb', _) ← react dispatch c kb; feed dispatch r kb'
  end.

(** No key down. *)
Definition rested (kb : KeyboardDriver) : Prop :=
  pending_extended kb = false /\ shift_held kb = false /\ (last_scancode kb = 0 \/ 0x80 <= last_scancode kb).

Section Typing.
Context (dispatch : list Z -> M Writer unit).

Lemma feed_app l1 l2 kb kb1 :
  feed dispatch l1 kb = Ok kb1 -> feed dispatch (l1 ++ l2) kb = feed dispatch l2 kb1.
Proof.
  revert kb. induction l1 as [|c l1 IH]; intros kb; cbn [feed app]; [by intros [= ->]|].
  destruct (react dispatch c kb) as [[kb' d]|e| |]; cbn; [|done..]. apply IH.
Qed.

Lemma char_key_ok c sc shift kb :
  char_key c = Some (sc, shift) -> shift_held kb = shift ->
  0 < sc < 64 /\ sc <> SCANCODE_LSHIFT /\ sc <> SCANCODE_RSHIFT /\ sc <> SCANCODE_BACKSPACE /\
  scancode_to_char kb sc = Some c.
Proof.
  unfold char_key. intros H Hs. apply find_some in H as [Hin Hch]. apply bool_decide_eq_true in Hch.
  apply in_prod_iff in Hin as [Hin _]. apply in_map_iff in Hin as (n & <- & Hn%in_seq).
  assert (E : scancode_to_char kb (Z.of_nat n) = Some c)
    by (rewrite <- Hch; unfold scancode_to_char; cbn [shift_held set_shift]; by rewrite Hs).
  split; [split; [|lia]|].
  { destruct n; [discriminate Hch|lia]. }
  repeat split; try done; intros Heq; rewrite Heq in Hch; discriminate Hch.
Qed.

(** A make code: the first is a press, the next ones repeats. *)
Lemma react_make sc kb :
  0 < sc < 64 -> sc <> SCANCODE_LSHIFT -> sc <> SCANCODE_RSHIFT -> pending_extended kb = false ->
  react dispatch sc kb = if sc =? last_scancode kb then Ok (kb, mret tt)
                         else press dispatch false sc (set_last sc kb).
Proof.
  intros Hr Hl Hs Hp. unfold react.
  unfold SCANCODE_EXTENDED_PREFIX, SCANCODE_LSHIFT, SCANCODE_RSHIFT, SCANCODE_LSHIFT_BREAK, SCANCODE_RSHIFT_BREAK in *.
  rewrite !(proj2 (Z.eqb_neq sc _)) by lia. cbn [orb].
  assert (Hm : Z.land sc 0x80 = 0).
  { pose proof (all_from_spec 64 0 (fun s => Z.land s 0x80 =? 0) eq_refl sc ltac:(lia)) as E. cbn beta in E. by unbool. }
  rewrite Hm, Hp. cbn [last_scancode set_pending]. rewrite Z.eqb_refl, andb_true_r.
  assert (Hpend : set_pending false kb = kb) by (destruct kb; cbn in *; by subst).
  rewrite Hpend. destruct (Z.eqb_spec sc (last_scancode kb)) as [->|]; [|done]. cbn. by destruct kb.
Qed.

Lemma react_break sc kb :
  0 < sc < 64 -> sc <> SCANCODE_LSHIFT -> sc <> SCANCODE_RSHIFT -> pending_extended kb = false ->
  react dispatch (sc + 0x80) kb = Ok (set_last (sc + 0x80) kb, mret tt).
Proof.
  intros Hr Hl Hs Hp. unfold react.
  unfold SCANCODE_EXTENDED_PREFIX, SCANCODE_LSHIFT, SCANCODE_RSHIFT, SCANCODE_LSHIFT_BREAK, SCANCODE_RSHIFT_BREAK in *.
  rewrite !(proj2 (Z.eqb_neq (sc + 0x80) _)) by lia. cbn [orb].
  assert (Hm : (Z.land (sc + 0x80) 0x80 =? 0) = false).
  { pose proof (all_from_spec 64 0 (fun s => negb (Z.land (s + 0x80) 0x80 =? 0)) eq_refl sc ltac:(lia)) as E.
    cbn beta in E. by apply negb_true_iff in E. }
  rewrite Hm, andb_false_r. cbn [negb].
  assert (Hpend : set_pending false kb = kb) by (destruct kb; cbn in *; by subst). by rewrite Hpend.
Qed.

(** [c] typed at the cursor. *)
Definition typed (c last : Z) (shift : bool) (kb : KeyboardDriver) : KeyboardDriver :=
  mk_Kb last false shift (take (cursor_pos kb) (line_buffer kb) ++ c :: drop (cursor_pos kb) (line_buffer kb))
    (cursor_pos kb + 1) (history kb) None.

Lemma press_char sc c kb :
  scancode_to_char kb sc = Some c -> sc <> SCANCODE_BACKSPACE -> c <> 10 -> pending_extended kb = false ->
  (cursor_pos kb <= length (line_buffer kb))%nat ->
  exists draw, press dispatch false sc (set_last sc kb) = Ok (typed c sc (shift_held kb) kb, draw).
Proof.
  intros Hc Hb H10 Hp Hcur. unfold press. rewrite (proj2 (Z.eqb_neq _ _) Hb).
  assert (E : scancode_to_char (set_last sc kb) sc = Some c) by (rewrite <- Hc; done). rewrite E.
  rewrite (proj2 (Z.eqb_neq _ _) H10). unfold insert_char, insert_at. cbn [cursor_pos line_buffer set_index set_last].
  rewrite (proj2 (Nat.leb_le _ _)) by done. cbn [mbind res_bind]. eexists. unfold typed, set_line, set_index, set_last.
  cbn. by rewrite Hp.
Qed.

Lemma feed_repeat sc n kb :
  0 < sc < 64 -> sc <> SCANCODE_LSHIFT -> sc <> SCANCODE_RSHIFT -> pending_extended kb = false ->
  last_scancode kb = sc -> feed dispatch (replicate n sc) kb = Ok kb.
Proof.
  intros Hr Hl Hs Hp Hlast. induction n as [|n IH]; [done|]. cbn [replicate feed].
  rewrite react_make by done. rewrite Hlast, Z.eqb_refl. exact IH.
Qed.

(** Make, repeats and break of one key. *)
Lemma feed_key sc c n kb :
  0 < sc < 64 -> sc <> SCANCODE_LSHIFT -> sc <> SCANCODE_RSHIFT -> sc <> SCANCODE_BACKSPACE ->
  scancode_to_char kb sc = Some c -> c <> 10 -> pending_extended kb = false ->
  (cursor_pos kb <= length (line_buffer kb))%nat -> (last_scancode kb = 0 \/ 0x80 <= last_scancode kb) ->
  feed dispatch (replicate (S n) sc ++ [sc + 0x80]) kb = Ok (typed c (sc + 0x80) (shift_held kb) kb).
Proof.
  intros Hr Hl Hs Hb Hc H10 Hp Hcur Hlast. cbn [replicate app feed]. rewrite react_make by done.
  rewrite (proj2 (Z.eqb_neq sc (last_scancode kb))) by lia.
  destruct (press_char sc c kb Hc Hb H10 Hp Hcur) as [draw ->]. cbn [mbind res_bind].
  rewrite (feed_app _ _ _ _ (feed_repeat sc n (typed c sc (shift_held kb) kb) Hr Hl Hs eq_refl eq_refl)).
  cbn [feed]. by rewrite react_break by done.
Qed.

(** One stroke types one character, however long the key is held. *)
Lemma feed_stroke c key n kb :
  char_key c = Some key -> c <> 10 -> rested kb -> (cursor_pos kb <= length (line_buffer kb))%nat ->
  exists last, 0x80 <= last /\ feed dispatch (stroke key n) kb = Ok (typed c last false kb).
Proof.
  intros Hk H10 (Hp & Hsh & Hlast) Hcur. destruct key as [sc shift]. unfold stroke.
  assert (Hk' : char_key c = Some (sc, shift)) by done.
  destruct (char_key_ok c sc shift (set_shift shift kb) Hk' eq_refl) as (Hr & Hl & Hs & Hb & Hc).
  exists (sc + 0x80). split; [lia|]. destruct shift; cbn [app].
  - cbn [feed]. assert (E : react dispatch SCANCODE_LSHIFT kb = Ok (set_shift true kb, mret tt))
      by (destruct kb; cbn in *; by subst). rewrite E. cbn [mbind res_bind].
    change [sc + 0x80; SCANCODE_LSHIFT_BREAK] with ([sc + 0x80] ++ [SCANCODE_LSHIFT_BREAK]). rewrite app_assoc.
    rewrite (feed_app _ _ _ _ (feed_key sc c n (set_shift true kb) Hr Hl Hs Hb Hc H10 Hp Hcur Hlast)). done.
  - assert (E : set_shift false kb = kb) by (destruct kb; cbn in *; by subst). rewrite E in Hc.
    rewrite (feed_key sc c n kb Hr Hl Hs Hb Hc H10 Hp Hcur Hlast). by rewrite Hsh.
Qed.

Lemma feed_strokes text kb :
  Forall (fun '(c, key, n) => char_key c = Some key /\ c <> 10) text -> rested kb ->
  (cursor_pos kb <= length (line_buffer kb))%nat ->
  exists kb', feed dispatch (concat (map (fun '(_, key, n) => stroke key n) text)) kb = Ok kb' /\ rested kb' /\
    line_buffer kb' = take (cursor_pos kb) (line_buffer kb) ++ map (fun '(c, _, _) => c) text ++
                        drop (cursor_pos kb) (line_buffer kb) /\
    cursor_pos kb' = (cursor_pos kb + length text)%nat /\ history kb' = history kb.
Proof.
  intros H. revert kb. induction H as [|[[c key] n] text [Hk H10] Ht IH]; intros kb Hre Hcur.
  - exists kb. split; [done|]. split; [done|]. cbn. by rewrite take_drop, Nat.add_0_r.
  - cbn [map concat]. destruct (feed_stroke c key n kb Hk H10 Hre Hcur) as (last & Hlast & E).
    rewrite (feed_app _ _ _ _ E).
    assert (Hlen : length (take (cursor_pos kb) (line_buffer kb)) = cursor_pos kb) by (rewrite length_take; lia).
    destruct (IH (typed c last false kb)) as (kb' & E' & Hre' & Hl & Hc & Hh).
    + split; [done|]. split; [done|]. by right.
    + cbn. rewrite length_app, Hlen. cbn. rewrite length_drop. lia.
    + exists kb'. split; [done|]. split; [done|]. rewrite Hl, Hc, Hh. cbn [typed line_buffer cursor_pos history length].
      split; [|split; [lia|done]].
      set (A := take (cursor_pos kb) (line_buffer kb)) in *. set (B := drop (cursor_pos kb) (line_buffer kb)).
      assert (HA : A ++ c :: B = (A ++ [c]) ++ B) by (by rewrite <- app_assoc).
      rewrite HA, take_app_length', drop_app_length' by (rewrite length_app, Hlen; done).
      by rewrite <- !app_assoc.
Qed.
End Typing.

(** ** Drawing never fails *)

(** A line of any length redraws inside the buffer: what moves the cursor past the
    row is clamped or starts a new one. *)
Lemma fine_redraw_line kb n c : fine (redraw_line kb n c).
Proof.
  unfold redraw_line, times. repeat apply fine_seq; first [apply fine_write_string | apply fine_each; auto with console].
Qed.

#[export] Hint Resolve fine_redraw_line : console.

(** Whatever a scancode draws is fine, given that the commands are. *)
Lemma react_fine dispatch sc kb kb' draw :
  (forall l, fine (dispatch l)) -> react dispatch sc kb = Ok (kb', draw) -> fine draw.
Proof.
  intros Hd. unfold react, press, arrow, enter, backspace_char, insert_char, mbind, res_bind. intros E.
  repeat first [progress simplify_eq/= | case_hyp E]; try case_goal; auto with console.
Qed.

Lemma handle_fine dispatch sc kb w :
  (forall l, fine (dispatch l)) -> kb_inv kb -> wf w ->
  exists kb' w', handle_scancode dispatch sc (kb, w) = (Ok tt, (kb', w')) /\ kb_inv kb' /\ wf w'.
Proof.
  intros Hd Hk Hw. destruct (react_ok dispatch sc kb Hk) as (kb' & draw & E & Hk' & _).
  destruct (react_fine dispatch sc kb kb' draw Hd E w Hw) as (w' & Ew & Hw').
  exists kb', w'. unfold handle_scancode. by rewrite E, Ew.
Qed.

Lemma handle_all_fine dispatch codes kb w :
  (forall l, fine (dispatch l)) -> kb_inv kb -> wf w ->
  exists kb' w', handle_all dispatch codes (kb, w) = (Ok tt, (kb', w')) /\ kb_inv kb' /\ wf w'.
Proof.
  intros Hd. revert kb w. induction codes as [|c codes IH]; intros kb w Hk Hw; [by exists kb, w|].
  destruct (handle_fine dispatch c kb w Hd Hk Hw) as (kb1 & w1 & E & Hk1 & Hw1).
  destruct (IH kb1 w1 Hk1 Hw1) as (kb2 & w2 & E2 & H2). exists kb2, w2. split; [|done].
  cbn [handle_all]. unfold mbind, M_bind. by rewrite E.
Qed.

(** ** Properties *)

(** The prompt printed on a fresh line is the prefix of the next edited line. *)
Lemma prompt_state above color pre w :
  line_state above color pre [] (length pre) w -> (length pre + 9 <= BUFFER_WIDTH)%nat ->
  exists w', write_string (text "AgentOS> ") w = (Ok tt, w') /\
    line_state above color (pre ++ map (fun b => mk_Char b color) (text "AgentOS> ")) []
      (length (pre ++ map (fun b => mk_Char b color) (text "AgentOS> "))) w'.
Proof.
  intros Hs Hf. destruct (print_state above color pre [] (text "AgentOS> ") w) as (w' & E & H).
  - cbn [length]. by rewrite Nat.add_0_r.
  - repeat constructor; by vm_compute.
  - exact Hf.
  - exists w'. split; [exact E|]. destruct H as [Hw Ha Hc Hcol Hfit Hr]. cbn [app] in *.
    constructor; try done.
    + rewrite length_app, length_map. exact Hcol.
    + rewrite length_app, length_map. cbn [length]. lia.
    + rewrite Hr. cbn [map app]. rewrite <- app_assoc. do 2 f_equal. rewrite length_app, length_map. cbn [length].
      f_equal. lia.
Qed.

(** C28. No sequence of scancodes makes the driver or what it draws panic, whatever the
    length of the line and wherever the cursor stands on the screen (given that the
    commands themselves do not), and the driver's invariant survives: the cursor
    inside the line, the history index inside the history, printable text only.
    And as long as the edited line fits the row, the screen shows after every
    key exactly the prompt and the line with the cursor at its place, the rows above
    untouched - insertions and deletions in the middle and history recall included;
    and Enter runs the command on exactly the line shown, leaving an empty line
    behind a new prompt. *)
Theorem screen_follows_line dispatch kb :
  kb_inv kb ->
  ((forall l, fine (dispatch l)) -> forall codes w, wf w ->
    exists kb' w', handle_all dispatch codes (kb, w) = (Ok tt, (kb', w')) /\ kb_inv kb' /\ wf w') /\
  (forall sc above color pre w, synced above color pre kb w ->
    exists kb' draw, react dispatch sc kb = Ok (kb', draw) /\ kb_inv kb' /\
    (submits sc kb = false -> (length pre + length (line_buffer kb') <= BUFFER_WIDTH)%nat ->
      exists w', handle_scancode dispatch sc (kb, w) = (Ok tt, (kb', w')) /\ synced above color pre kb' w') /\
    (submits sc kb = true -> forall above1 pre1 w1,
      (write_string [10];; dispatch (line_buffer kb)) w = (Ok tt, w1) ->
      line_state above1 color pre1 [] (length pre1) w1 -> (length pre1 + 9 <= BUFFER_WIDTH)%nat ->
      exists w', handle_scancode dispatch sc (kb, w) = (Ok tt, (kb', w')) /\ line_buffer kb' = [] /\
        synced above1 color (pre1 ++ map (fun b => mk_Char b color) (text "AgentOS> ")) kb' w')).
Proof.
  intros Hk. split; [intros Hd codes w Hw; by apply handle_all_fine|]. intros sc above color pre w Hs.
  destruct (react_ok dispatch sc kb Hk) as (kb' & draw & E & Hk' & Hd).
  exists kb', draw. split; [done|]. split; [done|]. split; intros Hsub; rewrite Hsub in Hd.
  - intros Hf. destruct (Hd above color pre w Hs Hf) as (w' & Ew & Hs'). exists w'.
    unfold handle_scancode. by rewrite E, Ew.
  - intros above1 pre1 w1 Hrun Hl1 Hf1. destruct Hd as (Hline & Hcur & ->).
    destruct (prompt_state above1 color pre1 w1 Hl1 Hf1) as (w' & Ew & Hl'). exists w'.
    unfold handle_scancode. rewrite E.
    assert (Hdraw : (write_string [10];; dispatch (line_buffer kb);; write_string (text "AgentOS> ")) w = (Ok tt, w')).
    { unfold mbind, M_bind in *. destruct (write_string [10] w) as [[[]| | |] w0]; try done.
      destruct (dispatch (line_buffer kb) w0) as [[[]| | |] w2]; try done. by injection Hrun as ->. }
    rewrite Hdraw. split; [done|]. split; [done|]. unfold synced. rewrite Hline, Hcur, Nat.add_0_r. exact Hl'.
Qed.

(** A cleared screen with the prompt, and a driver as it starts. *)
Definition blank_screen : Writer :=
  mk_Writer 9 initial_color
    (replicate 24 (blank_row initial_color) ++ [render initial_color (text "AgentOS> ")]).

(** A line of a hundred characters, its cursor at the start, and the console cursor
    past the last column. *)
Definition long_line : KeyboardDriver := mk_Kb 0 true false (replicate 100 97) 0 [] None.

Definition edge : Writer :=
  mk_Writer BUFFER_WIDTH initial_color (replicate BUFFER_HEIGHT (replicate BUFFER_WIDTH (mk_Char 63 7))).

Lemma screen_follows_line_witness :
  (exists kb' w', handle_all (fun _ => mret tt) [0x4D; 0xCD; 0x1E] (long_line, edge) = (Ok tt, (kb', w')) /\
    length (line_buffer kb') = 101%nat /\ wf w') /\
  exists w', handle_scancode (fun _ => mret tt) 0x1E (new_kb, blank_screen) =
    (Ok tt, (set_line [97] 1 (set_last 0x1E new_kb), w')) /\
    synced (replicate 24 (blank_row initial_color)) initial_color
      (map (fun b => mk_Char b initial_color) (text "AgentOS> ")) (set_line [97] 1 (set_last 0x1E new_kb)) w'.
Proof.
  split.
  - destruct (screen_follows_line (fun _ => mret tt) long_line) as [Hall _].
    + split; [|split; [cbn; lia|split; [constructor|exact I]]]. apply Forall_replicate. lia.
    + destruct (Hall (fun _ => fine_ret) [0x4D; 0xCD; 0x1E] edge) as (kb' & w' & E & _ & Hw).
      * split; [apply length_replicate|]. split; [apply Forall_replicate, length_replicate|cbn; lia].
      * exists kb', w'. split; [exact E|]. split; [|exact Hw].
        assert (Hv : length (line_buffer (handle_all (fun _ => mret tt) [0x4D; 0xCD; 0x1E] (long_line, edge)).2.1) = 101%nat)
          by (vm_compute; reflexivity).
        rewrite E in Hv. exact Hv.
  - destruct (screen_follows_line (fun _ => mret tt) new_kb) as [_ Hone].
    { split; [constructor|]. split; [cbn; lia|]. split; [constructor|exact I]. }
    destruct (Hone 0x1E (replicate 24 (blank_row initial_color)) initial_color
      (map (fun b => mk_Char b initial_color) (text "AgentOS> ")) blank_screen) as (kb' & draw & E & _ & H & _).
    + constructor.
      * split; [reflexivity|]. split; [|cbn; unfold BUFFER_WIDTH; lia]. apply Forall_app. split.
        -- apply Forall_replicate. apply length_replicate.
        -- constructor; [reflexivity|constructor].
      * reflexivity.
      * reflexivity.
      * reflexivity.
      * cbn. unfold BUFFER_WIDTH. lia.
      * reflexivity.
    + assert (Hkb : kb' = set_line [97] 1 (set_last 0x1E new_kb)).
      { cbn in E. injection E as <- _. reflexivity. }
      subst kb'. destruct H as (w' & Ew & Hs); [reflexivity|cbn; unfold BUFFER_WIDTH; lia|]. exists w'.
      split; [exact Ew|exact Hs].
Defined.

(** Typing works: the strokes of any text - each key held for as long as the
    typist likes, Shift pressed and released around the characters that need it -
    insert exactly that text at the cursor, and Enter then hands the whole line to
    the shell and appends it to the history unless it is blank. *)
Theorem typing_reaches_shell dispatch text kb :
  Forall (fun '(c, key, n) => char_key c = Some key /\ c <> 10) text ->
  rested kb -> (cursor_pos kb <= length (line_buffer kb))%nat ->
  let line := take (cursor_pos kb) (line_buffer kb) ++ map (fun '(c, _, _) => c) text ++
                drop (cursor_pos kb) (line_buffer kb) in
  exists kb1 kb2, feed dispatch (concat (map (fun '(_, key, n) => stroke key n) text)) kb = Ok kb1 /\
  line_buffer kb1 = line /\ cursor_pos kb1 = (cursor_pos kb + length text)%nat /\
  react dispatch 0x1C kb1 =
    Ok (kb2, (write_string [10];; dispatch line;; write_string (Keyboard.text "AgentOS> "))) /\
  line_buffer kb2 = [] /\ history kb2 = history kb ++ (if blank_line line then [] else [line]).
Proof.
  intros Ht Hre Hcur line. destruct (feed_strokes dispatch text kb Ht Hre Hcur) as (kb1 & E & (Hp & Hsh & Hla) & Hl & Hc & Hh).
  exists kb1. rewrite react_make by (done || lia). rewrite (proj2 (Z.eqb_neq 0x1C (last_scancode kb1))) by lia.
  cbn [press scancode_to_char Z.eqb Pos.eqb SCANCODE_BACKSPACE]. unfold enter. cbn [line_buffer set_last]. rewrite Hl.
  fold line. eexists. split; [done|]. split; [done|]. split; [done|]. split; [done|].
  destruct (blank_line line); cbn; (split; [done|]); rewrite Hh; [by rewrite app_nil_r|done].
Qed.

Lemma typing_reaches_shell_witness :
  exists kb1, feed (fun _ => mret tt) (stroke (0x26, false) 2 ++ stroke (0x1F, true) 0) new_kb = Ok kb1 /\
    line_buffer kb1 = text "lS".
Proof.
  destruct (typing_reaches_shell (fun _ => mret tt) [(108, (0x26, false), 2%nat); (83, (0x1F, true), 0%nat)] new_kb)
    as (kb1 & kb2 & E & Hl & _).
  - constructor; [split; [reflexivity|discriminate]|]. constructor; [split; [reflexivity|discriminate]|constructor].
  - split; [reflexivity|]. split; [reflexivity|]. left. reflexivity.
  - cbn. lia.
  - exists kb1. split; [exact E|exact Hl].
Defined.
