(* ===== verification/Tensor.v ===== *)
(** * Tensor: the matrix-vector kernel of the tensor system call ([tensor_engine.rs])

    [f32] is IEEE 754 binary32 (Standard Library's [SpecFloat] at precision 24,
    exponent bound 128, round to nearest even); a NaN carries no payload. *)
From stdpp Require Import base list numbers strings.
From Stdlib Require Import Lia SpecFloat.
From S2P Require Import Prelude.
Open Scope Z_scope.

Abbreviation f32 := spec_float.
Definition f32_add : f32 -> f32 -> f32 := SFadd 24 128.
Definition f32_mul : f32 -> f32 -> f32 := SFmul 24 128.
Definition f32_zero : f32 := S754_zero false.
(** [a > b] *)
Definition f32_gt (a b : f32) : bool := SFltb b a.

(** [f32::from_bits] and [f32::to_bits], a NaN being written quiet and positive. *)
Definition f32_of_bits (b : Z) : f32 :=
  let s := negb (b / 2 ^ 31 =? 0) in
  let e := b / 2 ^ 23 mod 256 in
  let m := b mod 2 ^ 23 in
  if e =? 255 then if m =? 0 then S754_infinity s else S754_nan
  else if e =? 0 then match m with Zpos p => S754_finite s p (-149) | _ => S754_zero s end
  else match m + 2 ^ 23 with Zpos p => S754_finite s p (e - 150) | _ => S754_nan end.

Definition bits_of_f32 (x : f32) : Z :=
  let sign := fun s : bool => if s then 2 ^ 31 else 0 in
  match x with
  | S754_zero s => sign s
  | S754_infinity s => sign s + 255 * 2 ^ 23
  | S754_nan => 0x7FC00000
  | S754_finite s p e =>
      if Zpos p <? 2 ^ 23 then sign s + Zpos p
      else sign s + (e + 150) * 2 ^ 23 + (Zpos p - 2 ^ 23)
  end.

(** [while i < len { sum += w[i] * x[i]; i += 1; }] *)
Fixpoint dot_tail (w x : list f32) (sum : f32) : f32 :=
  match w, x with
  | a :: w', b :: x' => dot_tail w' x' (f32_add sum (f32_mul a b))
  | _, _ => sum
  end.

(** The unrolled loop: four products at a time while both slices have four more. *)
Fixpoint dot_unrolled (w x : list f32) (sum : f32) : f32 :=
  match w, x with
  | a0 :: a1 :: a2 :: a3 :: w', b0 :: b1 :: b2 :: b3 :: x' =>
      let four :=
        f32_add (f32_add (f32_add (f32_mul a0 b0) (f32_mul a1 b1)) (f32_mul a2 b2)) (f32_mul a3 b3) in
      dot_unrolled w' x' (f32_add sum four)
  | _, _ => dot_tail w x sum
  end.

Definition dot_product (w x : list f32) : f32 := dot_unrolled w x f32_zero.

Definition relu (val : f32) : f32 := if f32_gt val f32_zero then val else f32_zero.

(** A [usize] range of a slice: [&l[a..b]]. *)
Definition slice_usize {A} (l : list A) (a b : Z) : res (list A) :=
  if (a <=? b) && (b <=? Z.of_nat (length l))
  then Ok (take (Z.to_nat (b - a)) (drop (Z.to_nat a) l)) else Panic.

(** One row of [matmul_layer]. *)
Definition matmul_row (weights inputs bias : list f32) (in_dim : Z) (row : nat) : res f32 :=
  let row_start := u64 (Z.of_nat row * in_dim) in
  row_weights ← slice_usize weights row_start (u64 (row_start + in_dim));
  let dot := dot_product row_weights inputs in
  let b := default f32_zero (bias !! row) in
  Ok (relu (f32_add dot b)).

(** [for row in 0..out_dim]: the rows from [row] on, [n] of them. *)
Fixpoint matmul_rows (weights inputs bias : list f32) (in_dim : Z) (n row : nat)
    (outputs : list f32) : res (list f32) :=
  match n with
  | O => Ok outputs
  | S m =>
      v ← matmul_row weights inputs bias in_dim row;
      _ ← idx outputs row;
      matmul_rows weights inputs bias in_dim m (S row) (<[row := v]> outputs)
  end.

Definition matmul_layer (weights inputs bias outputs : list f32) (in_dim out_dim : Z)
    : res (list f32) :=
  matmul_rows weights inputs bias in_dim (Z.to_nat out_dim) 0 outputs.

(** ** Lemmas *)

(** What row [row] computes when its weights are in range. *)
Definition row_value (weights inputs bias : list f32) (in_dim : Z) (row : nat) : f32 :=
  relu (f32_add (dot_product (take (Z.to_nat in_dim) (drop (row * Z.to_nat in_dim) weights)) inputs)
         (default f32_zero (bias !! row))).

Lemma matmul_row_ok weights inputs bias in_dim row :
  0 <= in_dim -> (Z.of_nat row + 1) * in_dim <= Z.of_nat (length weights) ->
  Z.of_nat (length weights) < 2 ^ 64 ->
  matmul_row weights inputs bias in_dim row = Ok (row_value weights inputs bias in_dim row).
Proof.
  intros Hd Hle Hw. unfold matmul_row, slice_usize.
  rewrite (wrap_id 64 (Z.of_nat row * in_dim)) by (unfold in_u; nia).
  rewrite (wrap_id 64 (_ + in_dim)) by (unfold in_u; nia).
  rewrite (proj2 (andb_true_iff _ _)).
  - cbn. unfold row_value. do 6 f_equal; [lia|]. f_equal. nia.
  - rewrite !Z.leb_le. nia.
Qed.

Lemma matmul_rows_ok weights inputs bias in_dim n row outputs :
  0 <= in_dim -> (Z.of_nat row + Z.of_nat n) * in_dim <= Z.of_nat (length weights) ->
  Z.of_nat (length weights) < 2 ^ 64 -> (row + n <= length outputs)%nat ->
  exists out, matmul_rows weights inputs bias in_dim n row outputs = Ok out /\
    length out = length outputs /\
    forall i, out !! i =
      if decide (row <= i < row + n)%nat then Some (row_value weights inputs bias in_dim i)
      else outputs !! i.
Proof.
  revert row outputs. induction n as [|n IH]; intros row outputs Hd Hle Hw Hlen; cbn [matmul_rows].
  - exists outputs. split; [done|]. split; [done|]. intros i. by rewrite decide_False by lia.
  - rewrite matmul_row_ok by (done || nia). cbn [mbind res_bind].
    destruct (idx_lt outputs row ltac:(lia)) as [x Hx]. rewrite Hx. cbn [mbind res_bind].
    destruct (IH (S row) (<[row := row_value weights inputs bias in_dim row]> outputs))
      as (out & -> & Hl & Hout); [done|nia|done|rewrite length_insert; lia|].
    exists out. split; [done|]. split; [by rewrite Hl, length_insert|]. intros i. rewrite Hout.
    destruct (decide (i = row)) as [->|].
    + rewrite decide_False, decide_True by lia. apply list_lookup_insert_eq. lia.
    + rewrite list_lookup_insert_ne by done.
      destruct (decide (S row <= i < S row + n)%nat); [by rewrite decide_True by lia|].
      by rewrite decide_False by lia.
Qed.

(** ** Properties *)

(** When the weights hold [out_dim] rows of [in_dim] and the outputs at
    least [out_dim] cells, [matmul_layer] does not panic, writes to cell [i] of
    the first [out_dim] the rectified dot product of row [i] plus its bias, and
    keeps the other cells; no cell it writes is negative or NaN. *)
Theorem matmul_layer_spec weights inputs bias outputs in_dim out_dim :
  0 <= in_dim -> 0 <= out_dim -> out_dim * in_dim <= Z.of_nat (length weights) < 2 ^ 64 ->
  out_dim <= Z.of_nat (length outputs) ->
  exists out, matmul_layer weights inputs bias outputs in_dim out_dim = Ok out /\
    length out = length outputs /\
    (forall i, (i < Z.to_nat out_dim)%nat ->
       out !! i = Some (row_value weights inputs bias in_dim i) /\
       (row_value weights inputs bias in_dim i = f32_zero \/
        f32_gt (row_value weights inputs bias in_dim i) f32_zero = true)) /\
    (forall i, (Z.to_nat out_dim <= i)%nat -> out !! i = outputs !! i).
Proof.
  intros Hi Ho [Hw1 Hw2] Hout. unfold matmul_layer.
  destruct (matmul_rows_ok weights inputs bias in_dim (Z.to_nat out_dim) 0 outputs)
    as (out & -> & Hl & Hlook); [done|nia|done|lia|].
  exists out. split; [done|]. split; [done|]. split.
  - intros i Hlt. rewrite Hlook, decide_True by lia. split; [done|].
    unfold row_value, relu. destruct (f32_gt _ _) eqn:E; [by right|by left].
  - intros i Hge. rewrite Hlook, decide_False by lia. done.
Qed.

Lemma matmul_layer_spec_witness :
  let f := fun n => f32_of_bits n in
  (** weights [[1, 2], [-1, -1]], inputs [3, 0.5], bias [1] *)
  let w := [f 0x3F800000; f 0x40000000; f 0xBF800000; f 0xBF800000] in
  let x := [f 0x40400000; f 0x3F000000] in
  let outs := [f 0; f 0; f 0x40A00000] in
  exists out, matmul_layer w x [f 0x3F800000] outs 2 2 = Ok out /\
    map bits_of_f32 out = [0x40A00000; 0; 0x40A00000] /\ length out = 3%nat.
Proof.
  cbn zeta.
  destruct (matmul_layer_spec
    [f32_of_bits 0x3F800000; f32_of_bits 0x40000000; f32_of_bits 0xBF800000; f32_of_bits 0xBF800000]
    [f32_of_bits 0x40400000; f32_of_bits 0x3F000000] [f32_of_bits 0x3F800000]
    [f32_of_bits 0; f32_of_bits 0; f32_of_bits 0x40A00000] 2 2)
    as (out & E & Hl & _); [lia|lia|cbn; lia|cbn; lia|].
  exists out. split; [exact E|]. split; [|exact Hl].
  vm_compute in E. injection E as <-. vm_compute. reflexivity.
Defined.
