(* ===== verification/Syscall.v ===== *)
(** * Syscall: system-call dispatch ([syscall.rs], [interrupts.rs::handle_real_syscall])

    The kernel state a call can touch: the process table, the KV manager and
    memory, a function from addresses to bytes.  The page tables are the
    parameters of Paging.  A handler that panics would halt the kernel for good,
    so "never panics" is part of what is proved. *)
From stdpp Require Import base list numbers strings.
From Stdlib Require Import Lia SpecFloat.
From S2P Require Import Prelude Mem AgentScheduler KvAllocator Paging Tensor.
Open Scope Z_scope.

Definition SYS_SERIAL_PRINT : Z := 1.
Definition SYS_AGENT_SPAWN : Z := 2.
Definition SYS_KV_ALLOC : Z := 3.
Definition SYS_TENSOR_EVAL : Z := 4.
Definition SYS_KV_FREE : Z := 5.

Definition U64_MAX : Z := 2 ^ 64 - 1.

Record Machine := mk_Machine {
  sched : NativeAgentScheduler;
  kv : KVCacheMemoryManager;
  mem : Z -> Z;
}.

Definition set_sched (s : NativeAgentScheduler) (m : Machine) : Machine := mk_Machine s (kv m) (mem m).
Definition set_kvm (k : KVCacheMemoryManager) (m : Machine) : Machine := mk_Machine (sched m) k (mem m).

(** The [f32] slice of [len] elements at [ptr]. *)
Definition read_f32s (mem : Z -> Z) (ptr len : Z) : list f32 :=
  map (fun i => f32_of_bits (le_of (read_bytes mem (ptr + 4 * Z.of_nat i) 4))) (seq 0 (Z.to_nat len)).

(** [#[repr(C)] struct TensorEvalArgs]: ten 8-byte fields in order. *)
Record TensorEvalArgs := mk_Args {
  weights : Z; weights_len : Z;
  inputs : Z; inputs_len : Z;
  bias : Z; bias_len : Z;
  outputs : Z; outputs_len : Z;
  in_dim : Z; out_dim : Z;
}.

Definition ARGS_SIZE : Z := 80.

Definition read_args (mem : Z -> Z) (a : Z) : TensorEvalArgs :=
  let field := fun k => le_of (read_bytes mem (a + 8 * k) 8) in
  mk_Args (field 0) (field 1) (field 2) (field 3) (field 4) (field 5) (field 6) (field 7)
    (field 8) (field 9).

Definition F32_SIZE : Z := 4.

Section Dispatch.
Context (try_new : Z -> option Z) (translate : Z -> option (list PageFlag)).

Definition pointer_is_mapped_checked (ptr len_bytes : Z) (require_user_accessible : bool) : bool :=
  if len_bytes =? 0 then true
  else if require_user_accessible then range_is_user_accessible try_new translate ptr len_bytes
  else range_is_mapped try_new translate ptr len_bytes.

(** The [SYS_TENSOR_EVAL] arm.  The product is computed from memory as it is at
    entry and stored at the end; the source stores each row as it goes, which
    differs only when [outputs] overlaps another buffer (two Rust slices may not). *)
Definition tensor_eval (arg1 : Z) (caller_is_ring3 : bool) : M Machine Z := fun m =>
  if negb (pointer_is_mapped_checked arg1 ARGS_SIZE caller_is_ring3) then (Ok U64_MAX, m)
  else
    let args := read_args (mem m) arg1 in
    let bytes_of := fun len => sat_mul 64 len F32_SIZE in
    if negb (pointer_is_mapped_checked (weights args) (bytes_of (weights_len args)) caller_is_ring3) ||
       negb (pointer_is_mapped_checked (inputs args) (bytes_of (inputs_len args)) caller_is_ring3) ||
       negb (pointer_is_mapped_checked (bias args) (bytes_of (bias_len args)) caller_is_ring3) ||
       negb (pointer_is_mapped_checked (outputs args) (bytes_of (outputs_len args)) caller_is_ring3)
    then (Ok U64_MAX, m)
    else
      let weights_needed := sat_mul 64 (out_dim args) (in_dim args) in
      if (weights_len args <? weights_needed) || (outputs_len args <? out_dim args)
      then (Ok U64_MAX, m)
      else
        match matmul_layer (read_f32s (mem m) (weights args) (weights_len args))
                (read_f32s (mem m) (inputs args) (inputs_len args))
                (read_f32s (mem m) (bias args) (bias_len args))
                (read_f32s (mem m) (outputs args) (outputs_len args))
                (in_dim args) (out_dim args) with
        | Ok out =>
            let bs := concat (map (fun x => le_bytes 4 (bits_of_f32 x)) (take (Z.to_nat (out_dim args)) out)) in
            (Ok 0, mk_Machine (sched m) (kv m) (write_bytes (outputs args) bs (mem m)))
        | Err e => (Err e, m)
        | Panic => (Panic, m)
        | Hang => (Hang, m)
        end.

Definition dispatch_syscall (sys_nr arg1 arg2 : Z) (caller_is_ring3 : bool) : M Machine Z := fun m =>
  if sys_nr =? SYS_SERIAL_PRINT then (Ok 0, m)
  else if sys_nr =? SYS_AGENT_SPAWN then
    let '(pid, s) := spawn "userspace-agent-sys" Normal arg1 (sched m) in
    (Ok (default 0 pid), set_sched s m)
  else if sys_nr =? SYS_KV_ALLOC then
    let '(block_id, k) := allocate_kv_block (u32 arg1) arg2 (kv m) in
    match block_id with
    | Some b => (Ok b, mk_Machine (set_kv_block_id (u32 arg1) b (sched m)) k (mem m))
    | None => (Ok 0, set_kvm k m)
    end
  else if sys_nr =? SYS_KV_FREE then
    let '(freed_pid, k) := free_kv_block (u32 arg1) (kv m) in
    match freed_pid with
    | Some pid => (Ok 1, mk_Machine (clear_kv_block_id_if_matches pid (u32 arg1) (sched m)) k (mem m))
    | None => (Ok 0, set_kvm k m)
    end
  else if sys_nr =? SYS_TENSOR_EVAL then tensor_eval arg1 caller_is_ring3 m
  else (Ok U64_MAX, m).

(** The [int 0x80] entry: ring 3 is told by the requested privilege level. *)
Definition handle_real_syscall (sys_nr arg1 arg2 caller_rpl : Z) : M Machine Z :=
  dispatch_syscall sys_nr arg1 arg2 (caller_rpl =? 3).

(** ** Lemmas on the tensor arm *)

Lemma dispatch_tensor arg1 arg2 caller_is_ring3 m :
  dispatch_syscall SYS_TENSOR_EVAL arg1 arg2 caller_is_ring3 m = tensor_eval arg1 caller_is_ring3 m.
Proof. reflexivity. Qed.

Definition mem_ok (m : Machine) : Prop := forall a, byte_ok (mem m a).

Lemma read_bytes_ok m a n : mem_ok m -> bytes_ok (read_bytes (mem m) a n).
Proof.
  intros Hm. unfold read_bytes. apply List.Forall_forall.
  intros x (i & <- & _)%in_map_iff. apply Hm.
Qed.

Lemma field_range m a : mem_ok m -> in_u 64 (le_of (read_bytes (mem m) a 8)).
Proof.
  intros Hm. pose proof (le_of_bound _ (read_bytes_ok m a 8 Hm)) as H.
  unfold read_bytes in H at 3. rewrite length_map, length_seq in H. unfold in_u. exact H.
Qed.

Lemma read_args_range m a :
  mem_ok m ->
  let g := read_args (mem m) a in
  in_u 64 (weights g) /\ in_u 64 (weights_len g) /\ in_u 64 (inputs g) /\ in_u 64 (inputs_len g) /\
  in_u 64 (bias g) /\ in_u 64 (bias_len g) /\ in_u 64 (outputs g) /\ in_u 64 (outputs_len g) /\
  in_u 64 (in_dim g) /\ in_u 64 (out_dim g).
Proof. intros Hm. repeat split; apply field_range; done. Qed.

(** Memory a ring-3 caller may name: empty, or inside the address space with
    every byte on a mapped, present, user-accessible page. *)
Definition user_range (ptr len : Z) : Prop :=
  len = 0 \/ ptr + len <= 2 ^ 64 /\
    forall a, ptr <= a < ptr + len -> page_ok try_new translate [PRESENT; USER_ACCESSIBLE] a.

Lemma user_range_checked ptr len :
  in_u 64 ptr -> 0 <= len ->
  (pointer_is_mapped_checked ptr len true = true <-> user_range ptr len).
Proof.
  intros Hp Hl. unfold pointer_is_mapped_checked, user_range, range_is_user_accessible.
  destruct (Z.eqb_spec len 0) as [->|Hne]; [by split; [left|]|].
  rewrite range_has_flags_iff by (done || lia). split; [by right|]. by intros [?|?].
Qed.

(** The byte length of a slice saturates, and a saturated length never passes. *)
Lemma slice_checked ptr len :
  in_u 64 ptr -> 0 <= len ->
  (pointer_is_mapped_checked ptr (sat_mul 64 len F32_SIZE) true = true <-> user_range ptr (4 * len)).
Proof.
  intros Hp Hl. rewrite user_range_checked by (unfold sat_mul, F32_SIZE; lia || done).
  unfold user_range, sat_mul, F32_SIZE. split.
  - intros [?|[Hle H]]; [left; lia|].
    destruct (decide (len * 4 <= 2 ^ 64 - 1)) as [Hs|Hs].
    + right. split; [lia|]. intros a Ha. apply H. lia.
    + exfalso. unfold in_u in Hp. apply (page_zero_rejected try_new translate [PRESENT; USER_ACCESSIBLE] ptr);
        [unfold PAGE_SIZE; lia|]. apply H. lia.
  - intros [?|[Hle H]]; [left; lia|]. right. split; [lia|]. intros a Ha. apply H. lia.
Qed.

Lemma user_range_short ptr len : in_u 64 ptr -> 0 <= len -> user_range ptr (4 * len) -> len < 2 ^ 62.
Proof.
  intros Hp Hl [?|[Hle H]]; [lia|]. destruct (decide (len < 2 ^ 62)) as [|Hs]; [done|exfalso].
  unfold in_u in Hp. apply (page_zero_rejected try_new translate [PRESENT; USER_ACCESSIBLE] ptr);
    [unfold PAGE_SIZE; lia|]. apply H. lia.
Qed.

(** The arguments a ring-3 tensor call must pass: the argument block and all
    four buffers are its own memory, and the dimensions fit the buffers. *)
Record eval_ok (mm : Z -> Z) (arg1 : Z) : Prop := {
  eo_args : user_range arg1 ARGS_SIZE;
  eo_weights : user_range (weights (read_args mm arg1)) (4 * weights_len (read_args mm arg1));
  eo_inputs : user_range (inputs (read_args mm arg1)) (4 * inputs_len (read_args mm arg1));
  eo_bias : user_range (bias (read_args mm arg1)) (4 * bias_len (read_args mm arg1));
  eo_outputs : user_range (outputs (read_args mm arg1)) (4 * outputs_len (read_args mm arg1));
  eo_rows : out_dim (read_args mm arg1) * in_dim (read_args mm arg1) <= weights_len (read_args mm arg1);
  eo_cells : out_dim (read_args mm arg1) <= outputs_len (read_args mm arg1);
}.

Lemma length_read_f32s mm ptr len : length (read_f32s mm ptr len) = Z.to_nat len.
Proof. unfold read_f32s. by rewrite length_map, length_seq. Qed.

Lemma length_f32_bytes (l : list f32) :
  length (concat (map (fun x => le_bytes 4 (bits_of_f32 x)) l)) = (4 * length l)%nat.
Proof.
  induction l as [|x l IH]; [done|]. cbn [map concat length].
  rewrite length_app, length_le_bytes, IH. lia.
Qed.

Lemma f32_bytes_ok (l : list f32) : bytes_ok (concat (map (fun x => le_bytes 4 (bits_of_f32 x)) l)).
Proof.
  induction l as [|x l IH]; [constructor|]. cbn [map concat].
  apply Forall_app. split; [apply le_bytes_ok|exact IH].
Qed.

(** What passes the checks of the tensor arm is exactly [eval_ok]. *)
Lemma tensor_eval_refuses arg1 m :
  in_u 64 arg1 -> mem_ok m ->
  ~ eval_ok (mem m) arg1 -> tensor_eval arg1 true m = (Ok U64_MAX, m).
Proof.
  intros H1 Hm Hno. unfold tensor_eval.
  destruct (read_args_range m arg1 Hm) as (? & [? ?] & ? & [? ?] & ? & [? ?] & ? & [? ?] & [? ?] & [? ?]).
  destruct (pointer_is_mapped_checked arg1 _ _) eqn:E1; [|done].
  apply user_range_checked in E1; [|done|done]. cbn [negb]. cbn zeta.
  destruct (pointer_is_mapped_checked (weights _) _ _) eqn:E2; [|done]. apply slice_checked in E2; [|done..].
  destruct (pointer_is_mapped_checked (inputs _) _ _) eqn:E3; [|done]. apply slice_checked in E3; [|done..].
  destruct (pointer_is_mapped_checked (bias _) _ _) eqn:E4; [|done]. apply slice_checked in E4; [|done..].
  destruct (pointer_is_mapped_checked (outputs _) _ _) eqn:E5; [|done]. apply slice_checked in E5; [|done..].
  cbn [negb orb]. destruct (_ || _)%bool eqn:Edim; [done|]. destruct Hno. unbool.
  apply user_range_short in E2 as ?; [|done..]. unfold sat_mul in *.
  constructor; try done; lia.
Qed.

Lemma tensor_eval_writes arg1 m :
  in_u 64 arg1 -> mem_ok m -> eval_ok (mem m) arg1 ->
  exists bs, tensor_eval arg1 true m =
      (Ok 0, mk_Machine (sched m) (kv m) (write_bytes (outputs (read_args (mem m) arg1)) bs (mem m))) /\
    bytes_ok bs /\ Z.of_nat (length bs) = 4 * out_dim (read_args (mem m) arg1).
Proof.
  intros H1 Hm [Ha Hw Hi Hb Ho Hr Hc]. unfold tensor_eval.
  assert (pointer_is_mapped_checked arg1 ARGS_SIZE true = true) as -> by (by apply user_range_checked).
  destruct (read_args_range m arg1 Hm) as (? & [? ?] & ? & [? ?] & ? & [? ?] & ? & [? ?] & [? ?] & [? ?]).
  cbn [negb]. cbn zeta.
  apply slice_checked in Hw as EHw; [|done..]. rewrite EHw.
  apply slice_checked in Hi as EHi; [|done..]. rewrite EHi.
  apply slice_checked in Hb as EHb; [|done..]. rewrite EHb.
  apply slice_checked in Ho as EHo; [|done..]. rewrite EHo.
  apply user_range_short in Hw as ?; [|done..]. cbn [negb orb].
  set (g := read_args (mem m) arg1) in *.
  assert ((weights_len g <? sat_mul 64 (out_dim g) (in_dim g)) || (outputs_len g <? out_dim g) = false)%bool as ->
    by (unfold sat_mul; lia).
  destruct (matmul_layer_spec (read_f32s (mem m) (weights g) (weights_len g))
    (read_f32s (mem m) (inputs g) (inputs_len g)) (read_f32s (mem m) (bias g) (bias_len g))
    (read_f32s (mem m) (outputs g) (outputs_len g)) (in_dim g) (out_dim g)) as (out & -> & Hlen & _);
    [done|done|rewrite length_read_f32s; lia..|].
  eexists. split; [reflexivity|]. split; [apply f32_bytes_ok|].
  rewrite length_f32_bytes, length_take, Hlen, length_read_f32s. lia.
Qed.

Lemma eval_ok_dec mm arg1 : in_u 64 arg1 -> mem_ok (mk_Machine new_sched new_kv mm) ->
  eval_ok mm arg1 \/ ~ eval_ok mm arg1.
Proof.
  intros H1 Hm. set (m := mk_Machine new_sched new_kv mm) in *.
  assert (D : forall ptr len, in_u 64 ptr -> 0 <= len -> user_range ptr len \/ ~ user_range ptr len).
  { intros ptr len Hp Hl. rewrite <- user_range_checked by done.
    destruct (pointer_is_mapped_checked ptr len true); [by left|by right]. }
  destruct (read_args_range m arg1 Hm) as (? & [? ?] & ? & [? ?] & ? & [? ?] & ? & [? ?] & [? ?] & [? ?]).
  change (mem m) with mm in *. set (g := read_args mm arg1) in *.
  destruct (D arg1 ARGS_SIZE) as [|N]; [done|done| |right; by intros []].
  destruct (D (weights g) (4 * weights_len g)) as [|N]; [done|lia| |right; by intros []].
  destruct (D (inputs g) (4 * inputs_len g)) as [|N]; [done|lia| |right; by intros []].
  destruct (D (bias g) (4 * bias_len g)) as [|N]; [done|lia| |right; by intros []].
  destruct (D (outputs g) (4 * outputs_len g)) as [|N]; [done|lia| |right; by intros []].
  destruct (decide (out_dim g * in_dim g <= weights_len g)) as [|N]; [|right; by intros []].
  destruct (decide (out_dim g <= outputs_len g)) as [|N]; [|right; by intros []].
  left. by constructor.
Qed.
End Dispatch.

(** ** The process table and the KV manager together *)

(** A process that claims a block owns it. *)
Definition kv_agree (m : Machine) : Prop :=
  forall i p b, processes (sched m) !! i = Some (Some p) -> kv_block_id p = Some b ->
    owner_of (kv m) b = Some (pid p).

Record machine_inv (m : Machine) : Prop := {
  mi_sched : sched_inv (sched m);
  mi_kv : kv_inv (kv m);
  mi_agree : kv_agree m;
}.

(** Distinct slots hold distinct pids. *)
Lemma pid_slot s i j p q :
  sched_inv s -> processes s !! i = Some (Some p) -> processes s !! j = Some (Some q) ->
  pid p = pid q -> i = j.
Proof.
  intros [(n & (Hl & _ & H1 & H2) & _) _] Hi Hj Hpq.
  assert (Hb : forall k r, processes s !! k = Some (Some r) -> pid r = Z.of_nat k + 1).
  { intros k r Hk. pose proof (lookup_lt_Some _ _ _ Hk).
    destruct (decide (k < n)%nat) as [Hlt|]; [|rewrite H2 in Hk by lia; done].
    destruct (H1 k Hlt) as (r' & Hr' & ?). congruence. }
  rewrite (Hb _ _ Hi), (Hb _ _ Hj) in Hpq. lia.
Qed.

Lemma update_first_inv sel f l i q :
  update_first sel f l !! i = Some (Some q) ->
  (l !! i = Some (Some q)) \/ (exists p, l !! i = Some (Some p) /\ sel p = true /\ q = f p).
Proof.
  intros H. destruct (update_first_lookup sel f l i) as [E|(p & Hp & Hs & E)].
  - left. congruence.
  - right. exists p. split; [done|]. split; [done|]. congruence.
Qed.

(** The first live process a selector that pids determine selects is updated. *)
Lemma update_first_hit sel f l i p :
  l !! i = Some (Some p) -> sel p = true ->
  (forall j q, l !! j = Some (Some q) -> sel q = true -> j = i) ->
  update_first sel f l !! i = Some (Some (f p)).
Proof.
  revert i. induction l as [|[x|] l IH]; intros i Hi Hs Hu; [done| |]; cbn [update_first].
  - destruct (sel x) eqn:E.
    + assert (0%nat = i) as <- by (by apply (Hu 0%nat x)). cbn in *. congruence.
    + destruct i as [|i]; [cbn in Hi; congruence|]. cbn. apply IH; [done|done|].
      intros j q Hj Hq. specialize (Hu (S j) q Hj Hq). lia.
  - destruct i as [|i]; [done|]. cbn. apply IH; [done|done|].
    intros j q Hj Hq. specialize (Hu (S j) q Hj Hq). lia.
Qed.

Lemma agree_spawn m nm prio quota :
  kv_agree m -> sched_inv (sched m) ->
  kv_agree (set_sched (spawn nm prio quota (sched m)).2 m).
Proof.
  intros Ha Hs i p b. unfold spawn. destruct (first_none _) as [k|]; cbn; [|apply Ha].
  destruct (decide (i = k)) as [->|Hne].
  - intros Hi Hb. destruct (decide (k < length (processes (sched m)))%nat).
    + rewrite list_lookup_insert_eq in Hi by done. injection Hi as <-. done.
    + apply lookup_lt_Some in Hi. rewrite length_insert in Hi. lia.
  - rewrite list_lookup_insert_ne by done. apply Ha.
Qed.

Lemma agree_alloc m p t b k :
  machine_inv m -> allocate_kv_block p t (kv m) = (Some b, k) ->
  kv_agree (mk_Machine (set_kv_block_id p b (sched m)) k (mem m)).
Proof.
  intros [Hs Hk Ha] E i q b' Hi Hb'. pose proof (allocate_spec (kv m) p t Hk) as Hspec.
  rewrite E in Hspec. destruct Hspec as (_ & Hfree & Hown & _ & Hother).
  unfold set_kv_block_id, on_processes in Hi. cbn in *.
  apply update_first_inv in Hi as [Hi|(x & Hx & Hsel & ->)].
  - specialize (Ha i q b' Hi Hb'). destruct (decide (b' = b)) as [->|Hne]; [congruence|].
    by rewrite Hother.
  - unbool. cbn in Hb'. injection Hb' as <-. cbn. by rewrite Hown, Hsel.
Qed.

Lemma agree_free m id p k :
  machine_inv m -> free_kv_block id (kv m) = (Some p, k) ->
  kv_agree (mk_Machine (clear_kv_block_id_if_matches p id (sched m)) k (mem m)).
Proof.
  intros [Hs Hk Ha] E i q b Hi Hb. destruct (free_spec (kv m) id Hk) as (Hown & Hafter & _).
  rewrite E in Hown, Hafter. cbn [fst snd] in *.
  unfold clear_kv_block_id_if_matches, on_processes in Hi. cbn [sched kv processes] in *.
  rewrite Hafter. pose proof Hi as Hi'.
  apply update_first_inv in Hi as [Hi|(x & Hx & Hsel & ->)]; [|done].
  destruct (decide (b = id)) as [->|Hne]; [exfalso|by apply (Ha i)].
  pose proof (Ha i q id Hi Hb) as Hq. rewrite <- Hown in Hq. injection Hq as Hpq.
  erewrite update_first_hit in Hi'; [|exact Hi| |].
  - injection Hi' as Hi'. rewrite <- Hi' in Hb. done.
  - rewrite Hb, Hpq, Z.eqb_refl. by rewrite bool_decide_eq_true_2.
  - intros j r Hj Hr. unbool. eapply (pid_slot (sched m)); [done|exact Hj|exact Hi|congruence].
Qed.

Section Inv.
Context (try_new : Z -> option Z) (translate : Z -> option (list PageFlag)).

Lemma tensor_eval_keeps arg1 ring3 m :
  sched (tensor_eval try_new translate arg1 ring3 m).2 = sched m /\
  kv (tensor_eval try_new translate arg1 ring3 m).2 = kv m.
Proof.
  unfold tensor_eval. destruct (pointer_is_mapped_checked _ _ _ _ _); [|done]. cbn [negb].
  cbn zeta. destruct (_ || _)%bool; [done|]. destruct (_ || _)%bool; [done|].
  by destruct (matmul_layer _ _ _ _ _ _).
Qed.

Lemma dispatch_inv nr a1 a2 ring3 m :
  machine_inv m -> machine_inv (dispatch_syscall try_new translate nr a1 a2 ring3 m).2.
Proof.
  intros Hm. pose proof Hm as [Hs Hk Ha]. unfold dispatch_syscall.
  destruct (nr =? SYS_SERIAL_PRINT); [done|].
  destruct (nr =? SYS_AGENT_SPAWN).
  { pose proof (sched_inv_run (sched m) (OpSpawn "userspace-agent-sys" Normal a1) Hs) as Hs'.
    pose proof (agree_spawn m "userspace-agent-sys" Normal a1 Ha Hs) as Ha'. cbn [run] in Hs'.
    destruct (spawn _ _ _ _) as [p s]. by constructor. }
  destruct (nr =? SYS_KV_ALLOC).
  { pose proof (kv_inv_alloc (kv m) (u32 a1) a2 Hk) as Hk'.
    pose proof (agree_alloc m (u32 a1) a2) as Ha'.
    pose proof (allocate_spec (kv m) (u32 a1) a2 Hk) as Hspec.
    destruct (allocate_kv_block _ _ _) as [[b|] k]; cbn [snd] in *.
    - constructor; [|done|by apply Ha'].
      exact (sched_inv_run (sched m) (OpSetKv (u32 a1) b) Hs).
    - destruct Hspec as [-> _]. by constructor. }
  destruct (nr =? SYS_KV_FREE).
  { pose proof (kv_inv_free (kv m) (u32 a1) Hk) as Hk'.
    pose proof (agree_free m (u32 a1)) as Ha'.
    pose proof (free_spec (kv m) (u32 a1) Hk) as (Hown & _ & Hsame).
    destruct (free_kv_block _ _) as [[p|] k]; cbn [fst snd] in *.
    - constructor; [|done|by apply Ha'].
      exact (sched_inv_run (sched m) (OpClearKv p (u32 a1)) Hs).
    - rewrite Hsame by done. by constructor. }
  destruct (nr =? SYS_TENSOR_EVAL); [|done].
  destruct (tensor_eval_keeps a1 ring3 m) as [E1 E2].
  constructor; [by rewrite E1|by rewrite E2|]. intros i p b. rewrite E1, E2. apply Ha.
Qed.

(** ** What the kernel can do to this state *)

Definition other_op (o : op) : Prop :=
  match o with OpSetKv _ _ | OpClearKv _ _ => False | _ => True end.

Inductive machine_reachable : Machine -> Prop :=
| mr_boot mm : machine_reachable (mk_Machine new_sched new_kv mm)
| mr_syscall m nr a1 a2 rpl :
    machine_reachable m ->
    machine_reachable (handle_real_syscall try_new translate nr a1 a2 rpl m).2
| mr_sched m o :
    machine_reachable m -> other_op o -> machine_reachable (set_sched (run o (sched m)) m)
| mr_boot_alloc m p t :
    machine_reachable m -> machine_reachable (set_kvm (allocate_kv_block p t (kv m)).2 m)
| mr_mem m mm : machine_reachable m -> machine_reachable (mk_Machine (sched m) (kv m) mm).

Lemma agree_other m o : machine_inv m -> other_op o -> kv_agree (set_sched (run o (sched m)) m).
Proof.
  intros [Hs Hk Ha] Ho i p b Hi Hb. destruct o; cbn [run other_op] in *; try done.
  - by eapply agree_spawn.
  - destruct (schedule_next_cases (sched m)) as [[E _]|(k & q & Hq & _ & E & _)]; rewrite E in Hi;
      cbn in *; [by eapply Ha|].
    destruct (decide (i = k)) as [->|].
    + rewrite list_lookup_insert_eq in Hi by (by eapply lookup_lt_Some). injection Hi as <-.
      cbn in *. by eapply Ha.
    + rewrite list_lookup_insert_ne in Hi by done. by eapply Ha.
  - apply update_first_inv in Hi as [Hi|(x & Hx & _ & ->)]; cbn in *; by eapply Ha.
  - apply update_first_inv in Hi as [Hi|(x & Hx & _ & ->)]; cbn in *; by eapply Ha.
Qed.

Lemma machine_reachable_inv m : machine_reachable m -> machine_inv m.
Proof.
  induction 1 as [mm|m nr a1 a2 rpl _ IH|m o _ IH Ho|m p t _ IH|m mm _ IH].
  - constructor; [apply sched_inv_new|apply kv_inv_new|].
    intros i p b Hi. unfold new_sched, processes in Hi. cbn [sched] in Hi.
    apply lookup_replicate in Hi as [? _]. done.
  - by apply dispatch_inv.
  - constructor; [apply sched_inv_run, IH|apply IH|by apply agree_other].
  - pose proof IH as [Hs Hk Ha]. constructor; [done|by apply kv_inv_alloc|].
    intros i q b Hi Hb. cbn in *. specialize (Ha i q b Hi Hb).
    pose proof (allocate_spec (kv m) p t Hk) as Hspec.
    destruct (allocate_kv_block p t (kv m)) as [[id|] k]; cbn in *.
    + destruct Hspec as (_ & Hf & _ & _ & Ho). rewrite Ho; [done|]. congruence.
    + by destruct Hspec as [-> _].
  - destruct IH. by constructor.
Qed.
End Inv.

(** ** Properties *)

(** C2. In every state the kernel can reach through system calls with any
    arguments, scheduling and boot-time allocation, a process that claims a
    KV-cache block owns it, and so no two processes claim the same block. *)
Theorem kv_claims_are_owned try_new translate m i j p q b :
  machine_reachable try_new translate m ->
  processes (sched m) !! i = Some (Some p) -> processes (sched m) !! j = Some (Some q) ->
  kv_block_id p = Some b -> kv_block_id q = Some b ->
  owner_of (kv m) b = Some (pid p) /\ i = j.
Proof.
  intros Hr%machine_reachable_inv Hi Hj Hp Hq.
  pose proof (mi_agree m Hr i p b Hi Hp) as H1. pose proof (mi_agree m Hr j q b Hj Hq) as H2.
  split; [done|]. eapply pid_slot; [apply Hr|done|done|congruence].
Qed.

(** Spawn two agents, give block 1 to the first, free it, give it to the second. *)
Definition demo_machine : Machine :=
  let call nr a1 a2 m := (handle_real_syscall Some (fun _ => None) nr a1 a2 0 m).2 in
  call SYS_KV_ALLOC 2 64 (call SYS_KV_FREE 1 0 (call SYS_KV_ALLOC 1 64
    (call SYS_AGENT_SPAWN 9 0 (call SYS_AGENT_SPAWN 8 0
      (mk_Machine new_sched new_kv (fun _ => 0)))))).

Lemma kv_claims_are_owned_witness :
  exists p, processes (sched demo_machine) !! 1%nat = Some (Some p) /\
    kv_block_id p = Some 1 /\ owner_of (kv demo_machine) 1 = Some (pid p) /\ 1%nat = 1%nat.
Proof.
  eexists. split; [vm_compute; reflexivity|]. split; [reflexivity|].
  eapply (kv_claims_are_owned Some (fun _ => None) demo_machine 1 1);
    [repeat apply mr_syscall; apply mr_boot | vm_compute; reflexivity..].
Defined.

(** C1. A system call from ring 3, whatever its number and arguments and whatever
    memory holds, returns (it never panics).  Only [SYS_TENSOR_EVAL] writes
    memory.  That call succeeds exactly when its argument block and all four
    buffers it names (weights, inputs, bias, outputs) lie on user-accessible pages
    and the dimensions fit the buffers; it then returns 0 and changes only the
    output cells, which are on user-accessible pages.  Otherwise it returns the
    error value and changes nothing at all.  No tensor call touches the process
    table or the KV manager. *)
Theorem ring3_syscall_confined try_new translate nr a1 a2 m :
  in_u 64 a1 -> mem_ok m ->
  exists v m', handle_real_syscall try_new translate nr a1 a2 3 m = (Ok v, m') /\
    mem_ok m' /\
    (forall a, mem m' a <> mem m a -> page_ok try_new translate [PRESENT; USER_ACCESSIBLE] a) /\
    (v <> 0 -> mem m' = mem m) /\
    (nr <> SYS_TENSOR_EVAL -> mem m' = mem m) /\
    (nr = SYS_TENSOR_EVAL ->
       (eval_ok try_new translate (mem m) a1 /\ v = 0 /\ sched m' = sched m /\ kv m' = kv m /\
        let g := read_args (mem m) a1 in
        forall a, ~ (outputs g <= a < outputs g + 4 * out_dim g) -> mem m' a = mem m a) \/
       (~ eval_ok try_new translate (mem m) a1 /\ v = U64_MAX /\ m' = m)).
Proof.
  intros H1 Hm. unfold handle_real_syscall, dispatch_syscall.
  destruct (Z.eqb_spec nr SYS_SERIAL_PRINT) as [->|_]; [by eexists _, _|].
  destruct (Z.eqb_spec nr SYS_AGENT_SPAWN) as [->|_]; [destruct (spawn _ _ _ _); by eexists _, _|].
  destruct (Z.eqb_spec nr SYS_KV_ALLOC) as [->|_];
    [destruct (allocate_kv_block _ _ _) as [[b|] k]; by eexists _, _|].
  destruct (Z.eqb_spec nr SYS_KV_FREE) as [->|_];
    [destruct (free_kv_block _ _) as [[b|] k]; by eexists _, _|].
  destruct (Z.eqb_spec nr SYS_TENSOR_EVAL) as [->|Hne]; [|by eexists _, _].
  change (3 =? 3) with true.
  destruct (eval_ok_dec try_new translate (mem m) a1 H1 Hm) as [Hok|Hno].
  2: { rewrite (tensor_eval_refuses try_new translate a1 m H1 Hm Hno).
       eexists _, _. split; [reflexivity|]. split; [exact Hm|].
       split; [done|]. split; [done|]. split; [done|]. intros _. by right. }
  destruct (tensor_eval_writes try_new translate a1 m H1 Hm Hok) as (bs & -> & Hbs & Hlen).
  assert (Hsame : forall a, ~ (outputs (read_args (mem m) a1) <= a
      < outputs (read_args (mem m) a1) + 4 * out_dim (read_args (mem m) a1)) ->
    write_bytes (outputs (read_args (mem m) a1)) bs (mem m) a = mem m a).
  { intros a Ha. unfold write_bytes. destruct (_ && _)%bool eqn:E; [|done]. unbool. lia. }
  eexists _, _. split; [reflexivity|]. cbn [mem sched kv]. split; [|split; [|split; [done|split; [done|]]]].
  - intros a. cbn [mem]. unfold write_bytes. destruct (_ && _)%bool eqn:E; [|apply Hm].
    destruct (bs !! Z.to_nat _) as [x|] eqn:Ex; cbn; [|unfold byte_ok; lia].
    eapply (Forall_lookup_1 byte_ok); [exact Hbs|exact Ex].
  - intros a Hch. destruct Hok as [_ _ _ _ Ho _ Hc].
    set (g := read_args (mem m) a1) in *.
    destruct (decide (outputs g <= a < outputs g + 4 * out_dim g)) as [Hin|Hout]; [|by destruct Hch; apply Hsame].
    destruct Ho as [?|[_ Hp]]; [lia|]. apply Hp. lia.
  - intros _. left. done.
Qed.

(** One user page at 0x5000 holding the arguments of a 1x1 product 2 * 3 + 1,
    the output cell being the last four bytes. *)
Definition demo_page : list Z :=
  le_bytes 8 0x5050 ++ le_bytes 8 1 ++ le_bytes 8 0x5054 ++ le_bytes 8 1 ++ le_bytes 8 0x5058 ++
  le_bytes 8 1 ++ le_bytes 8 0x505C ++ le_bytes 8 1 ++ le_bytes 8 1 ++ le_bytes 8 1 ++
  le_bytes 4 0x40000000 ++ le_bytes 4 0x40400000 ++ le_bytes 4 0x3F800000 ++ le_bytes 4 0.

Definition demo_mem (a : Z) : Z :=
  if 0x5000 <=? a then default 0 (demo_page !! Z.to_nat (a - 0x5000)) else 0.

Definition demo_translate (v : Z) : option (list PageFlag) :=
  if v =? 0x5000 then Some [PRESENT; USER_ACCESSIBLE] else Some [PRESENT].

Lemma demo_mem_ok s k : mem_ok (mk_Machine s k demo_mem).
Proof.
  intros a. unfold demo_mem. cbn [mem]. destruct (_ <=? _); [|unfold byte_ok; lia].
  assert (Hd : bytes_ok demo_page) by (unfold demo_page; bytes).
  destruct (demo_page !! _) as [x|] eqn:E; cbn; [|unfold byte_ok; lia].
  by eapply (Forall_lookup_1 byte_ok).
Qed.

Lemma demo_eval_ok : eval_ok Some demo_translate demo_mem 0x5000.
Proof.
  assert (H : forall ptr len, pointer_is_mapped_checked Some demo_translate ptr len true = true ->
    in_u 64 ptr -> 0 <= len -> user_range Some demo_translate ptr len)
    by (intros; by apply user_range_checked).
  constructor; [apply H; vm_compute; done..|vm_compute; discriminate|vm_compute; discriminate].
Qed.

(** The good call computes the product; the same call with the weights pointer
    moved to a kernel page is refused. *)
Definition bad_mem (a : Z) : Z := if a =? 0x5001 then 0x60 else demo_mem a.

Lemma bad_eval : ~ eval_ok Some demo_translate bad_mem 0x5000.
Proof.
  intros [_ Hw _ _ _ _ _]. apply user_range_checked in Hw; [|vm_compute; done..].
  vm_compute in Hw. discriminate.
Qed.

Lemma bad_mem_ok s k : mem_ok (mk_Machine s k bad_mem).
Proof.
  intros a. unfold bad_mem. cbn [mem]. destruct (_ =? _); [unfold byte_ok; lia|].
  apply (demo_mem_ok s k a).
Qed.

Lemma ring3_syscall_confined_witness :
  (exists v m', handle_real_syscall Some demo_translate SYS_TENSOR_EVAL 0x5000 0 3
      (mk_Machine new_sched new_kv demo_mem) = (Ok v, m') /\
    v = 0 /\ le_of (read_bytes (mem m') 0x505C 4) = 0x40E00000 /\
    (forall a, ~ (0x505C <= a < 0x5060) -> mem m' a = demo_mem a)) /\
  exists m', handle_real_syscall Some demo_translate SYS_TENSOR_EVAL 0x5000 0 3
      (mk_Machine new_sched new_kv bad_mem) = (Ok U64_MAX, m') /\
    m' = mk_Machine new_sched new_kv bad_mem.
Proof.
  split.
  - destruct (ring3_syscall_confined Some demo_translate SYS_TENSOR_EVAL 0x5000 0
      (mk_Machine new_sched new_kv demo_mem) ltac:(vm_compute; done) (demo_mem_ok _ _))
      as (v & m' & E & _ & _ & _ & _ & Ht).
    destruct (Ht eq_refl) as [(_ & Hv & _ & _ & Hs)|(Hno & _)]; [|destruct (Hno demo_eval_ok)].
    exists v, m'. split; [exact E|]. split; [exact Hv|]. split; [|exact Hs].
    apply (f_equal snd) in E. cbn [snd] in E. rewrite <- E. vm_compute. reflexivity.
  - destruct (ring3_syscall_confined Some demo_translate SYS_TENSOR_EVAL 0x5000 0
      (mk_Machine new_sched new_kv bad_mem) ltac:(vm_compute; done) (bad_mem_ok _ _))
      as (v & m' & E & _ & _ & _ & _ & Ht).
    destruct (Ht eq_refl) as [(Hok & _)|(_ & -> & ->)]; [destruct (bad_eval Hok)|].
    eexists. split; [exact E|reflexivity].
Defined.
