(* ===== verification/TierSelect.v ===== *)
(** * TierSelect: priority tiers with round robin ([scheduler/tier_select.rs])

    [select_next] is shared by the two ring-3 schedulers: find the best priority
    among the tasks that are not done, then take the first such task after the
    current one, cyclically.  Its search loop has no bound of its own; the fuel
    given here, the number of tasks, is one full turn. *)
From stdpp Require Import base list numbers strings.
From Stdlib Require Import Lia.
From S2P Require Import Prelude.
Open Scope Z_scope.

(** [for i in 0..active_tasks { if !done[i] && prios[i] < top { top = prios[i]; } }] *)
Fixpoint top_tier (prios : list Z) (done : list bool) (ids : list nat) (top : Z) : res Z :=
  match ids with
  | [] => Ok top
  | i :: r =>
      d ← idx done i;
      p ← idx prios i;
      top_tier prios done r (if negb d && (p <? top) then p else top)
  end.

(** [while done[next] || prios[next] != top { next = (next + 1) % active_tasks; }] *)
Fixpoint search_tier (fuel : nat) (active : nat) (prios : list Z) (done : list bool) (top : Z)
    (next : nat) : res nat :=
  match fuel with
  | O => Hang
  | S f =>
      d ← idx done next;
      p ← idx prios next;
      if d || negb (p =? top) then search_tier f active prios done top ((next + 1) mod active)%nat
      else Ok next
  end.

Definition U8_MAX : Z := 255.

Definition select_next (fuel active current : nat) (prios : list Z) (done : list bool) : res nat :=
  top ← top_tier prios done (seq 0 active) U8_MAX;
  if (active =? 0)%nat then Panic
  else search_tier fuel active prios done top ((current + 1) mod active)%nat.

(** [arm_task_slots]: the three arrays after arming [tasks]. *)
Definition arm_task_slots (slots prios : list Z) (done : list bool) (tasks : list (Z * Z))
    : res (list Z * list Z * list bool) :=
  if (length slots <? length tasks)%nat then Panic
  else Ok (splice 0 (map fst tasks) slots, splice 0 (map snd tasks) prios,
           replicate (length done) false).

(** ** Lemmas *)

Section Search.
Context (active : nat) (prios : list Z) (done : list bool).
Hypothesis Hp : (active <= length prios)%nat.
Hypothesis Hd : (active <= length done)%nat.
Hypothesis Hrange : forall i p, prios !! i = Some p -> 0 <= p <= U8_MAX.

(** Task [i] is active and not done. *)
Definition alive (i : nat) : Prop := (i < active)%nat /\ done !! i = Some false.

Definition prio_of (i : nat) : Z := default 0 (prios !! i).

(** The best priority value among the live tasks. *)
Definition is_top (t : Z) : Prop :=
  (exists i, alive i /\ prio_of i = t) /\ forall i, alive i -> t <= prio_of i.

Lemma top_tier_spec ids top :
  (forall i, i ∈ ids -> (i < active)%nat) ->
  exists t, top_tier prios done ids top = Ok t /\
    (t = top \/ exists i, i ∈ ids /\ alive i /\ prio_of i = t) /\ t <= top /\
    forall i, i ∈ ids -> alive i -> t <= prio_of i.
Proof.
  revert top. induction ids as [|i r IH]; intros top Hin; cbn [top_tier].
  - exists top. split; [done|]. split; [by left|]. split; [lia|]. by intros i Hi%elem_of_nil.
  - assert (Hi : (i < active)%nat) by (apply Hin; left).
    destruct (lookup_lt_is_Some_2 done i) as [d Ed]; [lia|].
    destruct (lookup_lt_is_Some_2 prios i) as [p Ep]; [lia|].
    rewrite (proj2 (idx_Ok _ _ _) Ed), (proj2 (idx_Ok _ _ _) Ep). cbn [mbind res_bind].
    assert (Hpi : prio_of i = p) by (unfold prio_of; by rewrite Ep).
    destruct (IH (if negb d && (p <? top) then p else top)) as (t & -> & Hor & Hle & Hall);
      [intros; apply Hin; by right|].
    exists t. split; [done|]. destruct (negb d && (p <? top)) eqn:E; unbool.
    + split; [|split; [lia|]].
      * right. destruct Hor as [->|(j & Hj & Ha & Hpj)]; [exists i; split; [left|]|exists j; split; [by right|done]].
        split; [|done]. split; [done|]. by subst d.
      * intros j [->|Hj]%elem_of_cons Ha; [lia|by apply Hall].
    + split; [|split; [done|]].
      * destruct Hor as [->|(j & Hj & Ha & Hpj)]; [by left|right]. exists j. split; [by right|done].
      * intros j [->|Hj]%elem_of_cons Ha; [|by apply Hall].
        destruct Ha as [_ Ha]. rewrite Ed in Ha. injection Ha as ->. cbn in E. unbool. lia.
Qed.

Lemma top_is_top :
  (exists i, alive i) -> exists t, top_tier prios done (seq 0 active) U8_MAX = Ok t /\ is_top t.
Proof.
  intros (i & Hi).
  destruct (top_tier_spec (seq 0 active) U8_MAX) as (t & -> & Hor & Hle & Hall).
  { intros j Hj%elem_of_seq. lia. }
  exists t. split; [done|]. split.
  - destruct Hor as [->|(j & _ & Ha & Hpj)]; [|by exists j]. exists i. split; [done|].
    assert (Hii : i ∈ seq 0 active) by (apply elem_of_seq; destruct Hi; lia).
    specialize (Hall i Hii Hi). destruct Hi as [Hi _].
    destruct (lookup_lt_is_Some_2 prios i) as [p Ep]; [lia|].
    unfold prio_of in *. rewrite Ep in *. cbn in *. specialize (Hrange i p Ep). lia.
  - intros j Ha. apply Hall; [|done]. apply elem_of_seq. destruct Ha; lia.
Qed.

(** A task of the top tier. *)
Definition eligible (t : Z) (i : nat) : Prop := alive i /\ prio_of i = t.

#[local] Instance eligible_dec t i : Decision (eligible t i).
Proof. unfold eligible, alive. apply _. Defined.

Lemma search_tier_step fuel t n :
  (n < active)%nat ->
  search_tier (S fuel) active prios done t n =
    if decide (eligible t n) then Ok n
    else search_tier fuel active prios done t ((n + 1) mod active)%nat.
Proof.
  intros Hn. cbn [search_tier].
  destruct (lookup_lt_is_Some_2 done n) as [d Ed]; [lia|].
  destruct (lookup_lt_is_Some_2 prios n) as [p Ep]; [lia|].
  rewrite (proj2 (idx_Ok _ _ _) Ed), (proj2 (idx_Ok _ _ _) Ep). cbn [mbind res_bind].
  assert (Hpn : prio_of n = p) by (unfold prio_of; by rewrite Ep).
  destruct (decide (eligible t n)) as [[[_ Ha] Hpt]|Hne].
  - rewrite Ed in Ha. injection Ha as ->. rewrite <- Hpn, Hpt, Z.eqb_refl. done.
  - destruct d; [done|]. cbn. destruct (Z.eqb_spec p t) as [->|]; [|done].
    destruct Hne. by split.
Qed.

(** The search stops at the first eligible task of one turn. *)
Lemma search_tier_finds fuel t n d :
  (n < active)%nat -> eligible t ((n + d) mod active)%nat ->
  (forall e, (e < d)%nat -> ~ eligible t ((n + e) mod active)%nat) -> (d < fuel)%nat ->
  search_tier fuel active prios done t n = Ok ((n + d) mod active)%nat.
Proof.
  revert n fuel. induction d as [|d IH]; intros n fuel Hn He Hno Hf; (destruct fuel as [|fuel]; [lia|]);
    rewrite search_tier_step by done.
  - replace ((n + 0) mod active)%nat with n in * by (rewrite Nat.add_0_r; by rewrite Nat.mod_small).
    by rewrite decide_True.
  - rewrite decide_False.
    + assert (Hm : forall e, (((n + 1) mod active + e) mod active = (n + S e) mod active)%nat).
      { intros e. rewrite Nat.Div0.add_mod_idemp_l. f_equal. lia. }
      rewrite IH.
      * f_equal. apply Hm.
      * apply Nat.mod_upper_bound. lia.
      * by rewrite Hm.
      * intros e He'. rewrite Hm. apply Hno. lia.
      * lia.
    + specialize (Hno 0%nat ltac:(lia)). by rewrite Nat.add_0_r, Nat.mod_small in Hno by done.
Qed.

(** Among the tasks one turn away there is a first eligible one. *)
Lemma first_eligible t n d :
  eligible t ((n + d) mod active)%nat ->
  exists e, (e <= d)%nat /\ eligible t ((n + e) mod active)%nat /\
    forall k, (k < e)%nat -> ~ eligible t ((n + k) mod active)%nat.
Proof.
  induction d as [d IH] using lt_wf_ind. intros Hd'.
  destruct (decide (Exists (fun k => eligible t ((n + k) mod active)%nat) (seq 0 d))) as [Hex|Hno].
  - apply Exists_exists in Hex as (k & Hk%elem_of_seq & He).
    destruct (IH k) as (e & ? & ? & ?); [lia|done|]. exists e. split; [lia|done].
  - exists d. split; [done|]. split; [done|]. intros k Hk He. apply Hno, Exists_exists.
    exists k. split; [apply elem_of_seq; lia|done].
Qed.

Lemma turn_reaches n i :
  (n < active)%nat -> (i < active)%nat ->
  exists d, (d < active)%nat /\ ((n + d) mod active)%nat = i.
Proof using.
  clear Hp Hd Hrange prios done.
  intros Hn Hi. destruct (decide (n <= i)%nat).
  - exists (i - n)%nat. split; [lia|]. rewrite Nat.mod_small by lia. lia.
  - exists (i + active - n)%nat. split; [lia|].
    replace (n + (i + active - n))%nat with (i + 1 * active)%nat by lia.
    rewrite Nat.Div0.mod_add. by apply Nat.mod_small.
Qed.

Lemma select_next_finds current :
  (exists i, alive i) ->
  exists t d, is_top t /\ (1 <= d <= active)%nat /\
    select_next active active current prios done = Ok ((current + d) mod active)%nat /\
    eligible t ((current + d) mod active)%nat /\
    forall e, (1 <= e < d)%nat -> ~ eligible t ((current + e) mod active)%nat.
Proof.
  intros Hex. destruct (top_is_top Hex) as (t & Ht & Htop). pose proof Htop as [(i & Hi & Hpi) _].
  assert (Ha : (0 < active)%nat) by (destruct Hi; lia).
  unfold select_next. rewrite Ht. cbn [mbind res_bind].
  rewrite (proj2 (Nat.eqb_neq active 0)) by lia.
  set (n := ((current + 1) mod active)%nat).
  assert (Hn : (n < active)%nat) by (apply Nat.mod_upper_bound; lia).
  assert (Hm : forall e, ((n + e) mod active = (current + S e) mod active)%nat).
  { intros e. unfold n. rewrite Nat.Div0.add_mod_idemp_l. f_equal. lia. }
  destruct (turn_reaches n i Hn (proj1 Hi)) as (d & Hd' & Hdi).
  destruct (first_eligible t n d) as (e & Hed & He & Hno); [by rewrite Hdi|].
  exists t, (S e). split; [done|]. split; [lia|]. rewrite <- Hm. split; [|split; [done|]].
  - by apply search_tier_finds; [| | |lia].
  - intros k Hk. specialize (Hno (k - 1)%nat ltac:(lia)). rewrite Hm in Hno.
    by replace (S (k - 1)) with k in Hno by lia.
Qed.

(** With every task done the search never ends. *)
Lemma search_tier_hangs fuel t n :
  (n < active)%nat -> (forall i, ~ alive i) -> search_tier fuel active prios done t n = Hang.
Proof.
  intros Hn Hno. revert n Hn. induction fuel as [|f IH]; intros n Hn; [done|].
  rewrite search_tier_step by done. rewrite decide_False by (intros [Ha _]; by eapply Hno).
  apply IH, Nat.mod_upper_bound. lia.
Qed.
End Search.

(** The tasks of [n] consecutive selections, no task finishing meanwhile. *)
Fixpoint selections (n active current : nat) (prios : list Z) (done : list bool) : res (list nat) :=
  match n with
  | O => Ok []
  | S m =>
      i ← select_next active active current prios done;
      r ← selections m active i prios done;
      Ok (i :: r)
  end.

Lemma selections_reach active prios done t i n d current :
  (active <= length prios)%nat -> (active <= length done)%nat ->
  (forall j p, prios !! j = Some p -> 0 <= p <= U8_MAX) ->
  is_top active prios done t -> eligible active prios done t i ->
  (1 <= d <= n)%nat -> ((current + d) mod active)%nat = i ->
  exists l, selections n active current prios done = Ok l /\ i ∈ l.
Proof.
  intros Hp Hd Hr Htop Hi. revert current d.
  assert (Hex : exists j, alive active done j) by (exists i; apply Hi).
  assert (Hall : forall n current, exists l, selections n active current prios done = Ok l).
  { clear n. induction n as [|n IH]; intros current; cbn [selections]; [by eexists|].
    destruct (select_next_finds active prios done Hp Hd Hr current Hex) as (t' & d' & _ & _ & -> & _).
    cbn [mbind res_bind]. destruct (IH ((current + d') mod active)%nat) as [l ->]. by eexists. }
  induction n as [|n IH]; intros current d Hdn Hdi; [lia|]. cbn [selections].
  destruct (select_next_finds active prios done Hp Hd Hr current Hex)
    as (t' & d' & Htop' & Hd' & -> & He' & Hno).
  assert (t' = t) as ->.
  { destruct Htop as [(x & Hx & Hxt) Hxm], Htop' as [(y & Hy & Hyt) Hym].
    specialize (Hxm y Hy). specialize (Hym x Hx). lia. }
  cbn [mbind res_bind].
  destruct (decide (d' = d)) as [->|Hne].
  - destruct (Hall n ((current + d) mod active)%nat) as [l ->]. eexists. split; [done|].
    rewrite Hdi. left.
  - assert (d' < d)%nat.
    { destruct (decide (d < d')%nat); [|lia]. destruct (Hno d); [lia|]. by rewrite Hdi. }
    destruct (IH ((current + d') mod active)%nat (d - d')%nat) as (l & -> & Hl).
    + lia.
    + rewrite Nat.Div0.add_mod_idemp_l. by replace (current + d' + (d - d'))%nat with (current + d)%nat by lia.
    + eexists. split; [done|]. by right.
Qed.

(** ** Properties *)

(** While some active task is not done, [select_next] returns within one turn:
    the task is active, not done and of the best priority among such tasks, and
    no task of that kind lies between the current one and it.  With every task
    done its search loop never ends. *)
Theorem select_next_spec active current prios done :
  (0 < active)%nat -> (active <= length prios)%nat -> (active <= length done)%nat ->
  (forall j p, prios !! j = Some p -> 0 <= p <= U8_MAX) ->
  ((exists i, alive active done i) ->
   exists t d, select_next active active current prios done = Ok ((current + d) mod active)%nat /\
     (1 <= d <= active)%nat /\ is_top active prios done t /\
     eligible active prios done t ((current + d) mod active)%nat /\
     forall e, (1 <= e < d)%nat -> ~ eligible active prios done t ((current + e) mod active)%nat) /\
  ((forall i, ~ alive active done i) ->
   forall fuel, select_next fuel active current prios done = Hang).
Proof.
  intros Ha Hp Hd Hr. split.
  - intros Hex. destruct (select_next_finds active prios done Hp Hd Hr current Hex)
      as (t & d & Ht & Hd' & E & He & Hno). by exists t, d.
  - intros Hno fuel. unfold select_next.
    destruct (top_tier_spec active prios done Hp Hd (seq 0 active) U8_MAX) as (t & -> & _).
    { intros j Hj%elem_of_seq. lia. }
    cbn [mbind res_bind]. rewrite (proj2 (Nat.eqb_neq active 0)) by lia.
    apply search_tier_hangs; try done. apply Nat.mod_upper_bound. lia.
Qed.

Lemma select_next_spec_witness :
  select_next 4 4 1 [1; 2; 1; 1] [false; false; true; false] = Ok 3%nat /\
  exists t d, select_next 4 4 1 [1; 2; 1; 1] [false; false; true; false] = Ok ((1 + d) mod 4)%nat /\
     is_top 4 [1; 2; 1; 1] [false; false; true; false] t.
Proof.
  split; [reflexivity|].
  destruct (select_next_spec 4 1 [1; 2; 1; 1] [false; false; true; false]) as [H _].
  - lia.
  - cbn; lia.
  - cbn; lia.
  - unfold U8_MAX. intros [|[|[|[|j]]]] p Hj; cbn in Hj; try discriminate; injection Hj as <-; lia.
  - destruct H as (t & d & E & _ & Ht & _); [by exists 0%nat; split; [lia|]|]. by exists t, d.
Defined.

(** Round robin is fair within the best tier: from any current task, every
    task of the tier is selected at least once in any [active] consecutive
    selections. *)
Theorem select_next_fair active current prios done t i :
  (active <= length prios)%nat -> (active <= length done)%nat ->
  (forall j p, prios !! j = Some p -> 0 <= p <= U8_MAX) ->
  is_top active prios done t -> eligible active prios done t i ->
  exists l, selections active active current prios done = Ok l /\ i ∈ l.
Proof.
  intros Hp Hd Hr Ht Hi.
  assert (Ha : (i < active)%nat) by apply Hi.
  destruct (turn_reaches active ((current + 1) mod active)%nat i) as (d & Hdlt & Hdi);
    [apply Nat.mod_upper_bound; lia|done|].
  rewrite Nat.Div0.add_mod_idemp_l in Hdi.
  eapply (selections_reach active prios done t i active (S d)); try done; [lia|].
  rewrite <- Hdi. f_equal. lia.
Qed.

Lemma select_next_fair_witness :
  selections 3 3 0 [2; 2; 2] [false; false; false] = Ok [1; 2; 0]%nat /\
  exists l, selections 3 3 0 [2; 2; 2] [false; false; false] = Ok l /\ 2%nat ∈ l.
Proof.
  split; [reflexivity|]. apply (select_next_fair 3 0 [2; 2; 2] [false; false; false] 2 2).
  - cbn; lia.
  - cbn; lia.
  - unfold U8_MAX. intros [|[|[|j]]] p Hj; cbn in Hj; try discriminate; injection Hj as <-; lia.
  - split; [exists 0%nat; repeat split; lia|].
    intros [|[|[|j]]] [Hj _]; try lia; unfold prio_of; cbn; lia.
  - repeat split; lia.
Defined.
