(* ===== verification/ContextSwitch.v ===== *)
(** * ContextSwitch: the stack switch ([scheduler/context_switch.rs])

    [switch_to] is assembly, so it is modelled as the list of its instructions,
    run on the processor of X64.  [prepare_initial_stack] writes the frame the
    first switch into a task pops. *)
From stdpp Require Import base list numbers strings.
From Stdlib Require Import Lia.
From S2P Require Import Prelude Mem X64.
Open Scope Z_scope.

(** The body of [switch_to(old_rsp: rdi, new_rsp: rsi)]. *)
Definition switch_to : list instr :=
  [Push RBP; Push RBX; Push R12; Push R13; Push R14; Push R15;
   Store RDI RSP;
   Mov RSP RSI;
   Pop R15; Pop R14; Pop R13; Pop R12; Pop RBX; Pop RBP;
   Ret].

(** The stack pointer for the first switch into [entry], and memory with the
    frame written. *)
Definition prepare_initial_stack (stack_top entry : Z) (mem : Z -> Z) : Z * (Z -> Z) :=
  let top := Z.land stack_top (2 ^ 64 - 16) - 8 in
  let sp := top - 8 in
  let mem := put_word sp entry mem in
  foldl (fun '(sp, mem) _ => (sp - 8, put_word (sp - 8) 0 mem)) (sp, mem) (seq 0 6).

(** ** Lemmas *)

(** The registers a frame holds, from the lowest address up; the return address
    is on top of them. *)
Definition frame_regs : list reg := [R15; R14; R13; R12; RBX; RBP].

(** A suspended context: the frame at [sp] will restore [f] and resume at [ra]. *)
Definition frame_at (mem : Z -> Z) (sp : Z) (f : reg -> Z) (ra : Z) : Prop :=
  (forall i r, frame_regs !! i = Some r -> word_at mem (sp + 8 * Z.of_nat i) = f r) /\
  word_at mem (sp + 48) = ra.

(** Only the bytes of the frame matter. *)
Lemma frame_at_ext m1 m2 sp f ra :
  frame_at m1 sp f ra -> (forall x, sp <= x < sp + 56 -> m2 x = m1 x) -> frame_at m2 sp f ra.
Proof.
  intros [H1 H2] He. split.
  - intros i r Hi. rewrite <- (H1 i r Hi). apply word_at_ext. intros x Hx. apply He.
    pose proof (lookup_lt_Some _ _ _ Hi). cbn in *. lia.
  - rewrite <- H2. apply word_at_ext. intros x Hx. apply He. lia.
Qed.

(** Memory and registers after the first part: the frame is under the return
    address. *)
Definition saved (c : Cpu) (s : Z) : Z -> Z :=
  put_word (s - 48) (regs c R15) (put_word (s - 40) (regs c R14) (put_word (s - 32) (regs c R13)
    (put_word (s - 24) (regs c R12) (put_word (s - 16) (regs c RBX)
      (put_word (s - 8) (regs c RBP) (cmem c)))))).

Lemma exec_saves c s :
  regs c RSP = s -> 48 <= s < 2 ^ 64 ->
  exists f, exec_all [Push RBP; Push RBX; Push R12; Push R13; Push R14; Push R15] c
              = mk_Cpu f (rip c) (saved c s) /\
    f RSP = s - 48 /\ (forall r, r <> RSP -> f r = regs c r).
Proof.
  intros Hs H48. unfold exec_all. cbn [foldl].
  rewrite (exec_push RBP c s) by (done || lia).
  erewrite (exec_push RBX); [|cbn; rd; reflexivity|lia].
  erewrite (exec_push R12); [|cbn; rd; reflexivity|lia].
  erewrite (exec_push R13); [|cbn; rd; reflexivity|lia].
  erewrite (exec_push R14); [|cbn; rd; reflexivity|lia].
  erewrite (exec_push R15); [|cbn; rd; reflexivity|lia].
  cbn [regs rip cmem]. rd.
  replace (s - 8 - 8) with (s - 16) by lia. replace (s - 16 - 8) with (s - 24) by lia.
  replace (s - 24 - 8) with (s - 32) by lia. replace (s - 32 - 8) with (s - 40) by lia.
  replace (s - 40 - 8) with (s - 48) by lia.
  eexists. split; [reflexivity|]. split.
  - by rd.
  - intros r Hr. rewrite !set_reg_other by done. done.
Qed.

Lemma saved_frame c s :
  regs_ok (regs c) -> frame_at (saved c s) (s - 48) (regs c) (word_at (cmem c) s).
Proof.
  intros Hr. split.
  - intros i r Hi. unfold saved.
    destruct i as [|[|[|[|[|[|i]]]]]]; cbn in Hi; try discriminate; injection Hi as <-;
      repeat rewrite word_at_put_ne by lia; cbn -[word_at put_word Z.sub Z.add];
      match goal with |- word_at (put_word ?a _ _) ?b = _ => replace b with a by lia end;
      by apply word_at_put.
  - unfold saved. repeat rewrite word_at_put_ne by lia. f_equal. lia.
Qed.

Lemma saved_out c s x : x < s - 48 \/ s <= x -> saved c s x = cmem c x.
Proof. intros. unfold saved. by rewrite !put_word_out by lia. Qed.

(** The pops and the return: a suspended context goes on. *)
Lemma exec_restore c n f ra :
  regs c RSP = n -> 0 <= n < 2 ^ 64 - 56 -> frame_at (cmem c) n f ra ->
  exists g, exec_all [Pop R15; Pop R14; Pop R13; Pop R12; Pop RBX; Pop RBP; Ret] c
      = mk_Cpu g ra (cmem c) /\
    g RSP = n + 56 /\ (forall r, r ∈ frame_regs -> g r = f r).
Proof.
  intros Hn Hb [Hf Hra]. unfold exec_all. cbn [foldl].
  rewrite (exec_pop R15 c n) by (done || lia).
  erewrite (exec_pop R14); [|cbn; rd; reflexivity|lia].
  erewrite (exec_pop R13); [|cbn; rd; reflexivity|lia].
  erewrite (exec_pop R12); [|cbn; rd; reflexivity|lia].
  erewrite (exec_pop RBX); [|cbn; rd; reflexivity|lia].
  erewrite (exec_pop RBP); [|cbn; rd; reflexivity|lia].
  cbn [exec regs rip cmem]. rd. replace (n + 8 + 8 + 8 + 8 + 8 + 8) with (n + 48) by lia.
  rewrite wrap_id by (unfold in_u; lia). rewrite Hra.
  eexists. split; [reflexivity|]. split; [rd; lia|].
  intros r Hr. apply list_elem_of_lookup in Hr as [i Hi]. rewrite <- (Hf i r Hi).
  destruct i as [|[|[|[|[|[|i]]]]]]; cbn in Hi; try discriminate; injection Hi as <-; rd;
    f_equal; lia.
Qed.

(** Two byte ranges that do not meet. *)
Definition disjoint_ranges (a n b m : Z) : Prop := a + n <= b \/ b + m <= a.

(** What a call of [switch_to(old_rsp, new_rsp)] needs: the slot, the caller's
    stack below its return address and the frame switched to are apart. *)
Record switchable (c : Cpu) (f : reg -> Z) (ra : Z) : Prop := {
  sw_regs : regs_ok (regs c);
  sw_room : 48 <= regs c RSP < 2 ^ 64 - 8;
  sw_new : regs c RSI < 2 ^ 64 - 56;
  sw_frame : frame_at (cmem c) (regs c RSI) f ra;
  sw_slot_stack : disjoint_ranges (regs c RDI) 8 (regs c RSP - 48) 56;
  sw_slot_frame : disjoint_ranges (regs c RDI) 8 (regs c RSI) 56;
  sw_stacks : disjoint_ranges (regs c RSI) 56 (regs c RSP - 48) 48;
}.

Lemma switch_to_effect c f ra :
  switchable c f ra ->
  let s := regs c RSP in let p := regs c RDI in let n := regs c RSI in
  let c' := exec_all switch_to c in
  rip c' = ra /\ regs c' RSP = n + 56 /\ (forall r, r ∈ frame_regs -> regs c' r = f r) /\
  word_at (cmem c') p = s - 48 /\
  frame_at (cmem c') (s - 48) (regs c) (word_at (cmem c) s) /\
  (forall x, (x < s - 48 \/ s <= x) -> (x < p \/ p + 8 <= x) -> cmem c' x = cmem c x).
Proof.
  intros [Hr Hs Hn Hf Hps Hpn Hns] s p n c'. unfold disjoint_ranges in *.
  destruct (exec_saves c s) as (g & Hg & Hgs & Hgo); [done|lia|].
  assert (Hc' : c' = exec_all [Pop R15; Pop R14; Pop R13; Pop R12; Pop RBX; Pop RBP; Ret]
    (mk_Cpu (set_reg RSP n g) (rip c) (put_word p (s - 48) (saved c s)))).
  { unfold c'. change switch_to with ([Push RBP; Push RBX; Push R12; Push R13; Push R14; Push R15] ++
      [Store RDI RSP; Mov RSP RSI] ++ [Pop R15; Pop R14; Pop R13; Pop R12; Pop RBX; Pop RBP; Ret]).
    rewrite !exec_all_app, Hg. unfold exec_all at 2. cbn [foldl exec regs rip cmem].
    by rewrite Hgs, !Hgo by done. }
  assert (Hu : in_u 64 (s - 48)) by (unfold in_u; lia).
  pose proof (Hr RSI) as Hn0. unfold in_u in Hn0.
  destruct (exec_restore (mk_Cpu (set_reg RSP n g) (rip c) (put_word p (s - 48) (saved c s))) n f ra)
    as (h & Hh & Hhs & Hho); [cbn; by rd|unfold n; lia| |].
  { apply (frame_at_ext _ _ _ _ _ Hf). intros x Hx. cbn [cmem]. unfold n in *.
    rewrite put_word_out by (unfold p; lia). apply saved_out. unfold s. lia. }
  rewrite Hc', Hh. cbn [rip regs cmem]. split; [done|]. split; [done|]. split; [done|].
  split; [by apply word_at_put|]. split.
  - apply (frame_at_ext (saved c s)); [by apply saved_frame|].
    intros x Hx. apply put_word_out. unfold p, s in *. lia.
  - intros x H1 H2. rewrite put_word_out by done. by apply saved_out.
Qed.

(** [x & !0xf] *)
Lemma align16 x : 0 <= x < 2 ^ 64 -> Z.land x (2 ^ 64 - 16) = x - x mod 16.
Proof.
  intros Hx. change (2 ^ 64 - 16) with (Z.land (Z.ones 64) (Z.lnot (Z.ones 4))).
  rewrite Z.land_assoc, <- Z.ldiff_land, Z.land_ones, Z.mod_small by lia.
  rewrite Z.ldiff_ones_r, Z.shiftr_div_pow2, Z.shiftl_mul_pow2 by lia. div_lia.
Qed.

(** The initial frame. *)
Lemma prepare_initial_stack_effect stack_top entry mem :
  in_u 64 entry -> 128 <= stack_top < 2 ^ 64 ->
  let '(sp, mem') := prepare_initial_stack stack_top entry mem in
  stack_top - 79 <= sp /\ sp + 56 < stack_top /\ (sp + 56) mod 16 = 8 /\
  frame_at mem' sp (fun _ => 0) entry /\
  (forall x, x < sp \/ sp + 56 <= x -> mem' x = mem x).
Proof.
  intros He Ht. unfold prepare_initial_stack.
  rewrite align16 by lia. set (t := stack_top - stack_top mod 16 - 8).
  assert (Hm : t mod 16 = 8).
  { unfold t. replace (stack_top - stack_top mod 16 - 8) with (8 + (stack_top / 16 - 1) * 16) by div_lia.
    by rewrite Z.mod_add. }
  assert (Hb : stack_top - 23 <= t < stack_top) by (unfold t; div_lia).
  clearbody t. cbn [foldl seq].
  replace (t - 8 - 8) with (t - 16) by lia. replace (t - 16 - 8) with (t - 24) by lia.
  replace (t - 24 - 8) with (t - 32) by lia. replace (t - 32 - 8) with (t - 40) by lia.
  replace (t - 40 - 8) with (t - 48) by lia. replace (t - 48 - 8) with (t - 56) by lia.
  replace (t - 56 + 56) with t by lia.
  split; [lia|]. split; [lia|]. split; [done|]. split.
  - split.
    + intros i r Hi.
      destruct i as [|[|[|[|[|[|i]]]]]]; cbn in Hi; try discriminate; injection Hi as <-;
        repeat rewrite word_at_put_ne by lia;
        match goal with |- word_at (put_word ?a _ _) ?b = _ => replace b with a by lia end;
        by apply word_at_put.
    + repeat rewrite word_at_put_ne by lia. replace (t - 56 + 48) with (t - 8) by lia.
      by apply word_at_put.
  - intros x Hx. rewrite !put_word_out by lia. done.
Qed.

(** ** Properties *)

(** C25. A context that switches away is resumed exactly: whatever ran in between,
    as long as it left the context's saved frame alone, switching back to the
    stack pointer that was stored returns to the caller's return address with the
    stack pointer after its call and every callee-saved register restored. *)
Theorem switch_round_trip a fa ra d :
  switchable a fa ra ->
  let a' := exec_all switch_to a in
  let s := regs a RSP in
  (forall x, s - 48 <= x < s + 8 -> cmem d x = cmem a' x) ->
  regs d RSI = word_at (cmem a') (regs a RDI) ->
  regs_ok (regs d) -> 48 <= regs d RSP < 2 ^ 64 - 8 ->
  disjoint_ranges (regs d RDI) 8 (regs d RSP - 48) 56 ->
  disjoint_ranges (regs d RDI) 8 (s - 48) 56 ->
  disjoint_ranges (s - 48) 56 (regs d RSP - 48) 48 ->
  let d' := exec_all switch_to d in
  rip d' = word_at (cmem a) s /\ regs d' RSP = s + 8 /\
  (forall r, r ∈ frame_regs -> regs d' r = regs a r) /\
  rip a' = ra /\ (forall r, r ∈ frame_regs -> regs a' r = fa r).
Proof.
  intros Ha a' s Hmem Hsi Hrd Hd1 Hd2 Hd3 Hd4 d'.
  pose proof (switch_to_effect a fa ra Ha) as (Hrip & _ & Hregs & Hslot & Hfr & _).
  fold a' s in Hrip, Hregs, Hslot, Hfr. rewrite Hslot in Hsi.
  pose proof (sw_room _ _ _ Ha) as Hroom. fold s in Hroom.
  destruct (switch_to_effect d (regs a) (word_at (cmem a) s)) as (H1 & H2 & H3 & _).
  - split; rewrite ?Hsi; try done; [lia|].
    apply (frame_at_ext _ _ _ _ _ Hfr). intros x Hx. apply Hmem. lia.
  - fold d' in H1, H2, H3. split; [done|]. split; [rewrite H2, Hsi; lia|]. done.
Qed.

(** A caller on a stack at [4096], a fresh frame at [8192], the slot at 256. *)
Definition demo_caller : Cpu :=
  mk_Cpu (fun r => match r with RSP => 4096 | RDI => 256 | RSI => 8192 | RBX => 77 | _ => 5 end)
    0 (put_word (8192 + 48) 4660 (put_word 4096 999 (fun _ => 0))).

(** The callee calls back at once: its stack at 9000, its slot at 512. *)
Definition callee_with (m : Z -> Z) : Cpu :=
  mk_Cpu (fun r => match r with RSP => 9000 | RDI => 512 | RSI => 4048 | _ => 1 end) 4660 m.

Definition demo_callee : Cpu := callee_with (cmem (exec_all switch_to demo_caller)).

Lemma callee_with_mem m : cmem (callee_with m) = m.
Proof. done. Qed.

Lemma demo_switchable : switchable demo_caller (fun _ => 0) 4660.
Proof.
  split; cbn [regs demo_caller]; unfold disjoint_ranges; try lia.
  - intros []; unfold in_u; cbn; lia.
  - split; [|reflexivity].
    intros i r Hi; destruct i as [|[|[|[|[|[|i]]]]]]; cbn in Hi; try discriminate; reflexivity.
Qed.

Lemma switch_round_trip_witness :
  let d' := exec_all switch_to demo_callee in
  rip d' = 999 /\ regs d' RSP = 4104 /\ regs d' RBX = 77.
Proof.
  destruct (switch_round_trip demo_caller (fun _ => 0) 4660 demo_callee)
    as (H1 & H2 & H3 & _).
  - exact demo_switchable.
  - intros x _. unfold demo_callee. by rewrite callee_with_mem.
  - vm_compute. reflexivity.
  - unfold demo_callee. intros []; unfold in_u; cbn [regs callee_with]; lia.
  - unfold demo_callee. cbn [regs callee_with]. lia.
  - unfold disjoint_ranges, demo_callee. cbn [regs callee_with]. lia.
  - unfold disjoint_ranges, demo_callee. cbn [regs callee_with demo_caller]. lia.
  - unfold disjoint_ranges, demo_callee. cbn [regs callee_with demo_caller]. lia.
  - cbv zeta in *. rewrite H1, H2, (H3 RBX) by (repeat constructor).
    clear. vm_compute. repeat split.
Defined.

(** The first switch into a stack prepared for [entry] starts [entry] with
    zeroed callee-saved registers and a stack pointer congruent to 8 modulo 16, as
    after a call; the preparation wrote only to the top 79 bytes of the stack. *)
Theorem first_switch_enters c stack_top entry mem :
  in_u 64 entry -> 128 <= stack_top < 2 ^ 64 ->
  let '(sp, mem') := prepare_initial_stack stack_top entry mem in
  (forall x, mem' x <> mem x -> stack_top - 79 <= x < stack_top) /\
  (regs_ok (regs c) -> 48 <= regs c RSP < 2 ^ 64 - 8 -> regs c RSI = sp ->
   (forall x, sp <= x < sp + 56 -> cmem c x = mem' x) ->
   disjoint_ranges (regs c RDI) 8 (regs c RSP - 48) 56 ->
   disjoint_ranges (regs c RDI) 8 sp 56 -> disjoint_ranges sp 56 (regs c RSP - 48) 48 ->
   let c' := exec_all switch_to c in
   rip c' = entry /\ regs c' RSP mod 16 = 8 /\ regs c' RSP < stack_top /\
   (forall r, r ∈ frame_regs -> regs c' r = 0) /\
   word_at (cmem c') (regs c RDI) = regs c RSP - 48).
Proof.
  intros He Ht. pose proof (prepare_initial_stack_effect stack_top entry mem He Ht) as H.
  destruct (prepare_initial_stack stack_top entry mem) as [sp mem'].
  destruct H as (H1 & H2 & H3 & H4 & H5). split.
  - intros x Hx. destruct (decide (x < sp \/ sp + 56 <= x)) as [Ho|]; [by destruct Hx; apply H5|lia].
  - intros Hr Hs Hsi Hm D1 D2 D3 c'.
    destruct (switch_to_effect c (fun _ => 0) entry) as (G1 & G2 & G3 & G4 & _).
    + split; rewrite ?Hsi; try done; [lia|]. by apply (frame_at_ext mem').
    + fold c' in G1, G2, G3, G4. rewrite Hsi in G2. rewrite G2. done.
Qed.

Lemma first_switch_enters_witness :
  let '(sp, mem') := prepare_initial_stack 8256 4660 (fun _ => 0) in
  let c := mk_Cpu (fun r => match r with RSP => 4096 | RDI => 256 | RSI => sp | _ => 5 end) 0 mem' in
  let c' := exec_all switch_to c in
  rip c' = 4660 /\ regs c' RSP mod 16 = 8 /\ word_at (cmem c') 256 = 4048.
Proof.
  pose proof (first_switch_enters
    (mk_Cpu (fun r => match r with RSP => 4096 | RDI => 256
       | RSI => (prepare_initial_stack 8256 4660 (fun _ => 0)).1 | _ => 5 end) 0
       (prepare_initial_stack 8256 4660 (fun _ => 0)).2)
    8256 4660 (fun _ => 0)) as H.
  change (prepare_initial_stack 8256 4660 (fun _ => 0)) with
    (8192, (prepare_initial_stack 8256 4660 (fun _ => 0)).2) in *.
  cbv beta iota zeta in H |- *. cbn [fst snd] in *.
  destruct H as [_ H]; [unfold in_u; lia|lia|].
  destruct H as (G1 & G2 & _ & _ & G3).
  - intros []; unfold in_u; cbn [regs]; lia.
  - cbn [regs]. lia.
  - reflexivity.
  - intros x _. reflexivity.
  - unfold disjoint_ranges. cbn [regs]. lia.
  - unfold disjoint_ranges. cbn [regs]. lia.
  - unfold disjoint_ranges. cbn [regs]. lia.
  - split; [exact G1|]. split; [exact G2|exact G3].
Defined.
