(* ===== verification/Coop.v ===== *)
(** * Coop: cooperative tasks ([scheduler/context_switch.rs], second half)

    The task table, the current task and the kernel's saved stack pointer, with
    the process table and memory the operations also change.  A switch is what
    ContextSwitch proves it to be: the running context's stack pointer [rsp] goes
    to the slot that was passed and the context saved at the new stack pointer
    goes on; so [yield_now] yields the stack pointer it switched to, or [None]
    when it returned without switching.  [coop_run] runs a schedule of yields and
    finishes, each by whichever task is running. *)
From stdpp Require Import base list numbers strings.
From Stdlib Require Import Lia.
From S2P Require Import Prelude Mem X64 AgentScheduler ContextSwitch.
Open Scope Z_scope.

Definition MAX_COOP_TASKS : nat := 4.

Record CoopTask := mk_Task {
  t_priority : Priority;
  t_done : bool;
  saved_rsp : Z;
  t_pid : Z;
}.

Record Coop := mk_Coop {
  tasks : list (option CoopTask);
  current : option nat;
  kernel_rsp : Z;
  csched : NativeAgentScheduler;
  memory : Z -> Z;
}.

Definition new_coop (sc : NativeAgentScheduler) (m : Z -> Z) : Coop :=
  mk_Coop (replicate MAX_COOP_TASKS None) None 0 sc m.

(** The stack the heap gives a new task ends at [stack_top]. *)
Definition spawn_cooperative (name : string) (priority : Priority) (entry stack_top : Z) (s : Coop)
    : bool * Coop :=
  match first_none (tasks s) with
  | None => (false, s)
  | Some i =>
      match spawn name priority 0 (csched s) with
      | (None, sc) => (false, mk_Coop (tasks s) (current s) (kernel_rsp s) sc (memory s))
      | (Some pid, sc) =>
          let '(rsp, m) := prepare_initial_stack stack_top entry (memory s) in
          (true, mk_Coop (<[i := Some (mk_Task priority false rsp pid)]> (tasks s)) (current s)
                   (kernel_rsp s) sc m)
      end
  end.

(** The priority value of an unfinished task in slot [i]. *)
Definition runnable (ts : list (option CoopTask)) (i : nat) : option Z :=
  match ts !! i with
  | Some (Some t) => if t_done t then None else Some (prio_val (t_priority t))
  | _ => None
  end.

(** One round of the scan of [yield_now]. *)
Definition scan (ts : list (option CoopTask)) (best : option nat) (idx : nat) : option nat :=
  match runnable ts idx with
  | None => best
  | Some p =>
      let is_better :=
        match best with
        | None => true
        | Some b => match ts !! b with
                    | Some (Some t) => p <? prio_val (t_priority t)
                    | _ => false
                    end
        end in
      if is_better then Some idx else best
  end.

Definition best_task (ts : list (option CoopTask)) : option nat :=
  foldl (scan ts) None (seq 0 MAX_COOP_TASKS).

(** [self.tasks[i].as_ref().unwrap()] *)
Definition task_at (ts : list (option CoopTask)) (i : nat) : res CoopTask :=
  match ts !! i with Some (Some t) => Ok t | _ => Panic end.

Definition set_rsp (v : Z) (t : CoopTask) : CoopTask :=
  mk_Task (t_priority t) (t_done t) v (t_pid t).

Definition set_done (t : CoopTask) : CoopTask :=
  mk_Task (t_priority t) true (saved_rsp t) (t_pid t).

Definition with_tasks (f : list (option CoopTask) -> list (option CoopTask)) (s : Coop) : Coop :=
  mk_Coop (f (tasks s)) (current s) (kernel_rsp s) (csched s) (memory s).

Definition with_sched (f : NativeAgentScheduler -> NativeAgentScheduler) (s : Coop) : Coop :=
  mk_Coop (tasks s) (current s) (kernel_rsp s) (f (csched s)) (memory s).

Definition set_current (c : option nat) (s : Coop) : Coop :=
  mk_Coop (tasks s) c (kernel_rsp s) (csched s) (memory s).

(** [*old_rsp_ptr = rsp], the first effect of [switch_to]. *)
Definition save_rsp (from : option nat) (rsp : Z) (s : Coop) : Coop :=
  match from with
  | Some i => with_tasks (alter (fmap (set_rsp rsp)) i) s
  | None => mk_Coop (tasks s) (current s) rsp (csched s) (memory s)
  end.

Definition yield_now (rsp : Z) : M Coop (option Z) := fun s =>
  let best := best_task (tasks s) in
  let from := current s in
  if bool_decide (best = from) then (Ok None, s)
  else
    (match from with
     | Some i =>
         match tasks s !! i with
         | Some (Some t) =>
             if negb (t_done t) then modify (with_sched (update_process (t_pid t) Ready (saved_rsp t)))
             else mret tt
         | _ => mret tt
         end
     | None => mret tt
     end;;
     match best with
     | Some i =>
         t ← lift (task_at (tasks s) i);
         modify (with_sched (update_process (t_pid t) Running (saved_rsp t)))
     | None => mret tt
     end;;
     match from with Some i => lift (task_at (tasks s) i);; mret tt | None => mret tt end;;
     new_rsp ← match best with
               | Some i => t ← lift (task_at (tasks s) i); mret (saved_rsp t)
               | None => gets kernel_rsp
               end;
     modify (set_current best);;
     modify (save_rsp from rsp);;
     mret (Some new_rsp)) s.

Definition finish_current_task (rsp : Z) : M Coop (option Z) := fun s =>
  (match current s with
   | Some i =>
       t ← lift (task_at (tasks s) i);
       modify (with_tasks (alter (fmap set_done) i));;
       modify (with_sched (update_process (t_pid t) Terminated (saved_rsp t)))
   | None => mret tt
   end;;
   o ← yield_now rsp;
   match o with
   | None => lift Panic
   | Some r => mret (Some r)
   end) s.

(** ** Schedules *)

(** What the running task does next, and its stack pointer when it does. *)
Inductive act := Yield (rsp : Z) | Finish (rsp : Z).

Definition coop_step (a : act) : M Coop (option Z) :=
  match a with Yield r => yield_now r | Finish r => finish_current_task r end.

(** A schedule runs as long as a task is running; the last stack pointer that
    was switched to is returned. *)
Fixpoint coop_run (l : list act) (last : option Z) : M Coop (option Z) :=
  match l with
  | [] => mret last
  | a :: r => fun s =>
      match current s with
      | None => (Ok last, s)
      | Some _ => (o ← coop_step a; coop_run r (match o with Some n => Some n | None => last end)) s
      end
  end.

Fixpoint finishes (l : list act) : nat :=
  match l with
  | [] => 0
  | Yield _ :: r => finishes r
  | Finish _ :: r => S (finishes r)
  end.

(** ** Lemmas *)

(** The scan over [seq 0 n] ends on the first of the best runnable tasks below
    [n]. *)
Definition is_best (ts : list (option CoopTask)) (n : nat) (o : option nat) : Prop :=
  match o with
  | None => forall j, (j < n)%nat -> runnable ts j = None
  | Some b =>
      (b < n)%nat /\ exists p, runnable ts b = Some p /\
      forall j q, (j < n)%nat -> runnable ts j = Some q -> p <= q /\ (q = p -> (b <= j)%nat)
  end.

Lemma runnable_task ts i p :
  runnable ts i = Some p ->
  exists t, ts !! i = Some (Some t) /\ t_done t = false /\ p = prio_val (t_priority t).
Proof.
  unfold runnable. destruct (ts !! i) as [[t|]|]; try done.
  destruct (t_done t) eqn:E; [done|]. intros [= <-]. by exists t.
Qed.

Lemma scan_best ts n : is_best ts n (foldl (scan ts) None (seq 0 n)).
Proof.
  induction n as [|n IH]; [cbn; intros j Hj; lia|].
  rewrite seq_S, foldl_app, Nat.add_0_l. cbn [foldl].
  set (o := foldl (scan ts) None (seq 0 n)) in *. clearbody o. unfold scan.
  destruct (runnable ts n) as [p|] eqn:Ep.
  - destruct o as [b|]; cbn [is_best] in *.
    + destruct IH as (Hb & pb & Hpb & Hmin).
      destruct (runnable_task ts b pb Hpb) as (t & Ht & _ & ->). rewrite Ht.
      destruct (Z.ltb_spec p (prio_val (t_priority t))); cbn [is_best].
      * split; [lia|]. exists p. split; [done|]. intros j q Hj Hq.
        destruct (decide (j = n)) as [->|]; [assert (q = p) by congruence; lia|].
        destruct (Hmin j q ltac:(lia) Hq). lia.
      * split; [lia|]. eexists. split; [done|]. intros j q Hj Hq.
        destruct (decide (j = n)) as [->|]; [assert (q = p) by congruence; lia|]. apply Hmin; [lia|done].
    + split; [lia|]. exists p. split; [done|]. intros j q Hj Hq.
      destruct (decide (j = n)) as [->|]; [assert (q = p) by congruence; lia|].
      rewrite IH in Hq by lia. done.
  - destruct o as [b|]; cbn [is_best] in *.
    + destruct IH as (Hb & pb & Hpb & Hmin). split; [lia|]. exists pb. split; [done|].
      intros j q Hj Hq. destruct (decide (j = n)) as [->|]; [by rewrite Ep in Hq|]. apply Hmin; [lia|done].
    + intros j Hj. destruct (decide (j = n)) as [->|]; [done|]. apply IH. lia.
Qed.

Lemma best_task_best ts : is_best ts MAX_COOP_TASKS (best_task ts).
Proof. apply scan_best. Qed.

Lemma is_best_unique ts n o1 o2 : is_best ts n o1 -> is_best ts n o2 -> o1 = o2.
Proof.
  destruct o1 as [b1|], o2 as [b2|]; cbn; [| | |done].
  - intros (H1 & p1 & E1 & M1) (H2 & p2 & E2 & M2).
    destruct (M1 b2 p2 H2 E2) as [G1 G2], (M2 b1 p1 H1 E1) as [G3 G4].
    assert (p1 = p2) by lia. subst p2. f_equal. specialize (G2 eq_refl). specialize (G4 eq_refl). lia.
  - intros (H1 & p1 & E1 & _) H2. by rewrite (H2 b1 H1) in E1.
  - intros H2 (H1 & p1 & E1 & _). by rewrite (H2 b2 H1) in E1.
Qed.

Lemma lookup_alter_same {A} (f : A -> A) (l : list A) (i : nat) : alter f i l !! i = f <$> l !! i.
Proof. rewrite list_lookup_alter. by rewrite decide_True. Qed.

Lemma lookup_alter_other {A} (f : A -> A) (l : list A) (i j : nat) : j <> i -> alter f i l !! j = l !! j.
Proof. intros. rewrite list_lookup_alter. by rewrite decide_False. Qed.

(** Runnability does not depend on saved stack pointers. *)
Lemma runnable_set_rsp ts i v j : runnable (alter (fmap (set_rsp v)) i ts) j = runnable ts j.
Proof.
  unfold runnable. destruct (decide (j = i)) as [->|].
  - rewrite lookup_alter_same. by destruct (ts !! i) as [[t|]|].
  - by rewrite lookup_alter_other.
Qed.

Lemma runnable_set_done ts i j :
  runnable (alter (fmap set_done) i ts) j = if decide (j = i) then None else runnable ts j.
Proof.
  unfold runnable. destruct (decide (j = i)) as [->|].
  - rewrite lookup_alter_same. by destruct (ts !! i) as [[t|]|].
  - by rewrite lookup_alter_other.
Qed.

Lemma best_task_ext ts1 ts2 :
  (forall j, runnable ts1 j = runnable ts2 j) -> best_task ts1 = best_task ts2.
Proof.
  intros H. apply (is_best_unique ts1 MAX_COOP_TASKS); [apply best_task_best|].
  pose proof (best_task_best ts2) as Hb. revert Hb. destruct (best_task ts2) as [b|]; cbn.
  - intros (Hb & p & Hp & Hm). split; [done|]. exists p. rewrite H. split; [done|].
    intros j q Hj. rewrite H. by apply Hm.
  - intros Hb j Hj. rewrite H. by apply Hb.
Qed.

(** ** Invariant and steps *)

(** The current slot holds a task. *)
Record coop_wf (s : Coop) : Prop := {
  wf_len : length (tasks s) = MAX_COOP_TASKS;
  wf_current : forall i, current s = Some i -> exists t, tasks s !! i = Some (Some t);
}.

(** The number of unfinished tasks. *)
Definition undone (ts : list (option CoopTask)) : nat :=
  length (omap (runnable ts) (seq 0 MAX_COOP_TASKS)).

(** Where a switch lands. *)
Definition target_rsp (s : Coop) (best : option nat) : Z :=
  match best with
  | Some i => match tasks s !! i with Some (Some t) => saved_rsp t | _ => 0 end
  | None => kernel_rsp s
  end.

Lemma best_task_some ts b :
  best_task ts = Some b -> exists t, ts !! b = Some (Some t) /\ t_done t = false.
Proof.
  intros E. pose proof (best_task_best ts) as H. rewrite E in H. destruct H as (_ & p & Hp & _).
  destruct (runnable_task ts b p Hp) as (t & ? & ? & _). by exists t.
Qed.

Lemma yield_now_effect rsp s :
  coop_wf s -> best_task (tasks s) <> current s ->
  exists s', yield_now rsp s = (Ok (Some (target_rsp s (best_task (tasks s)))), s') /\
    coop_wf s' /\ current s' = best_task (tasks s) /\
    (forall j, runnable (tasks s') j = runnable (tasks s) j) /\
    kernel_rsp s' = match current s with Some _ => kernel_rsp s | None => rsp end.
Proof.
  intros [Hlen Hcur] Hne. unfold yield_now. rewrite bool_decide_eq_false_2 by done.
  assert (Hb : forall b, best_task (tasks s) = Some b -> exists t, tasks s !! b = Some (Some t)).
  { intros b (t & Ht & _)%best_task_some. by exists t. }
  unfold target_rsp, task_at.
  destruct s as [ts cur k sc m]. cbn [tasks current kernel_rsp csched memory] in *.
  destruct cur as [i|]; [destruct (Hcur i eq_refl) as [t Ht]; rewrite Ht; destruct (t_done t)|];
    (destruct (best_task ts) as [b|] eqn:Eb;
      [destruct (Hb b eq_refl) as [tb Htb]; rewrite ?Htb|]); try done;
    (eexists; split; [reflexivity|]); cbn -[runnable];
    (split; [split; cbn|split; [done|split; [|done]]]);
    try done; try (by intros; rewrite runnable_set_rsp); try (by rewrite length_alter);
    intros j [= <-]; try (by exists tb).
  all: rewrite lookup_alter_other by congruence; by exists tb.
Qed.

Lemma yield_now_stays rsp s :
  best_task (tasks s) = current s -> yield_now rsp s = (Ok None, s).
Proof. intros E. unfold yield_now. by rewrite bool_decide_eq_true_2. Qed.

Lemma undone_ext ts1 ts2 :
  (forall j, runnable ts1 j = runnable ts2 j) -> undone ts1 = undone ts2.
Proof.
  intros H. unfold undone. f_equal. induction (seq 0 MAX_COOP_TASKS) as [|j l IH]; [done|].
  cbn. by rewrite H, IH.
Qed.

Lemma undone_set_done ts i :
  is_Some (runnable ts i) -> (i < MAX_COOP_TASKS)%nat ->
  undone ts = S (undone (alter (fmap set_done) i ts)).
Proof.
  intros Hi Hlt. unfold undone.
  assert (Hl : forall l : list nat, ~ i ∈ l ->
    omap (runnable (alter (fmap set_done) i ts)) l = omap (runnable ts) l).
  { induction l as [|j l IH]; intros Hni; [done|]. cbn. apply not_elem_of_cons in Hni as [Hij Hni].
    rewrite runnable_set_done, decide_False by congruence. by rewrite IH. }
  replace MAX_COOP_TASKS with (i + (1 + (MAX_COOP_TASKS - i - 1)))%nat by lia.
  rewrite !seq_app, !omap_app. cbn [seq omap list_omap]. rewrite !Hl by (rewrite elem_of_seq; lia).
  cbn. rewrite runnable_set_done, decide_True by lia.
  destruct Hi as [p ->]. rewrite !length_app. cbn. lia.
Qed.

Lemma undone_zero ts : undone ts = 0%nat <-> best_task ts = None.
Proof.
  pose proof (best_task_best ts) as Hb. unfold undone. split.
  - intros H. destruct (best_task ts) as [b|]; [|done]. destruct Hb as (Hb & p & Hp & _).
    apply nil_length_inv in H.
    assert (p ∈ omap (runnable ts) (seq 0 MAX_COOP_TASKS)) as Hin
      by (apply list_elem_of_omap; exists b; split; [apply elem_of_seq; lia|done]).
    rewrite H in Hin. by apply not_elem_of_nil in Hin.
  - intros E. rewrite E in Hb. cbn [is_best] in Hb.
    assert (H : forall l, (forall j, j ∈ l -> (j < MAX_COOP_TASKS)%nat) -> omap (runnable ts) l = []).
    { induction l as [|j l IH]; intros Hl; [done|]. cbn. rewrite Hb by (apply Hl; constructor).
      apply IH. intros k Hk. apply Hl. by constructor. }
    rewrite H; [done|]. intros j Hj%elem_of_seq. lia.
Qed.

(** After the first switch the best unfinished task is the one that runs. *)
Definition synced (s : Coop) : Prop := current s = best_task (tasks s).

Lemma finish_effect rsp s i :
  coop_wf s -> synced s -> current s = Some i ->
  exists n s', finish_current_task rsp s = (Ok (Some n), s') /\
    coop_wf s' /\ synced s' /\ kernel_rsp s' = kernel_rsp s /\
    undone (tasks s) = S (undone (tasks s')) /\
    (current s' = None -> n = kernel_rsp s).
Proof.
  intros Hwf Hsync Hi. pose proof Hwf as [Hlen Hcur].
  destruct (Hcur i Hi) as [t Ht].
  unfold synced in Hsync. rewrite Hi in Hsync. symmetry in Hsync.
  pose proof (best_task_best (tasks s)) as Hb. rewrite Hsync in Hb. destruct Hb as (Hlt & p & Hp & _).
  set (s1 := with_sched (update_process (t_pid t) Terminated (saved_rsp t))
               (with_tasks (alter (fmap set_done) i) s)).
  assert (Hr1 : forall j, runnable (tasks s1) j = if decide (j = i) then None else runnable (tasks s) j)
    by (intros j; apply runnable_set_done).
  assert (Hwf1 : coop_wf s1).
  { split; cbn; [by rewrite length_alter|]. rewrite Hi. intros j [= <-].
    rewrite lookup_alter_same, Ht. by eexists. }
  assert (Hne : best_task (tasks s1) <> current s1).
  { cbn [current s1 with_sched with_tasks]. rewrite Hi. intros E.
    pose proof (best_task_best (tasks s1)) as Hb. rewrite E in Hb. destruct Hb as (_ & q & Hq & _).
    rewrite Hr1, decide_True in Hq by done. done. }
  destruct (yield_now_effect rsp s1 Hwf1 Hne) as (s' & Hy & Hwf' & Hc' & Hr' & Hk').
  exists (target_rsp s1 (best_task (tasks s1))), s'. split; [|split; [done|]].
  - unfold finish_current_task, task_at. rewrite Hi, Ht.
    unfold mbind, M_bind, modify, lift. fold s1. by rewrite Hy.
  - split; [unfold synced; rewrite Hc'; by apply best_task_ext|].
    split; [rewrite Hk'; cbn; by rewrite Hi|]. split.
    + rewrite (undone_set_done (tasks s) i) by (eauto || lia). f_equal. symmetry. by apply undone_ext.
    + rewrite Hc'. intros ->. done.
Qed.

Lemma coop_run_spec l last s :
  coop_wf s -> synced s -> (current s = None -> last = Some (kernel_rsp s)) ->
  exists o s', coop_run l last s = (Ok o, s') /\ (coop_wf s' /\ synced s') /\ kernel_rsp s' = kernel_rsp s /\
    undone (tasks s') = (undone (tasks s) - finishes l)%nat /\
    (current s' = None -> o = Some (kernel_rsp s)).
Proof.
  revert last s. induction l as [|a l IH]; intros last s Hwf Hs Hlast; cbn [coop_run].
  - exists last, s. rewrite Nat.sub_0_r. done.
  - destruct (current s) as [i|] eqn:Hi.
    + destruct a as [r|r]; cbn [coop_step finishes].
      * rewrite (M_bind_Ok _ _ _ _ _ (yield_now_stays r s (eq_sym Hs))).
        apply IH; [done|done|]. congruence.
      * destruct (finish_effect r s i Hwf Hs Hi) as (n & s1 & Hf & Hwf1 & Hs1 & Hk1 & Hu1 & Hn1).
        rewrite (M_bind_Ok _ _ _ _ _ Hf).
        destruct (IH (Some n) s1 Hwf1 Hs1) as (o & s2 & H1 & H2 & H3 & H4 & H5).
        { intros E. by rewrite Hn1, Hk1. }
        exists o, s2. rewrite H1, H3, H4, Hk1 in *. split; [done|]. split; [done|]. split; [done|]. split; [lia|done].
    + exists last, s. split; [done|]. split; [done|]. split; [done|]. split; [|by intros; apply Hlast].
      assert (undone (tasks s) = 0%nat) as -> by (apply undone_zero; unfold synced in Hs; congruence). done.
Qed.

(** ** Properties *)

(** Slot [i] holds a task that has not finished. *)
Definition waiting (s : Coop) (i : nat) (t : CoopTask) : Prop :=
  tasks s !! i = Some (Some t) /\ t_done t = false.

(** Fixed priorities, ties to the lower slot: the running task has not finished, no task
    that has not finished is of a better priority (a lower value), and none of the same
    priority is in a lower slot.  The kernel runs only when every task has finished. *)
Definition runs_best (s : Coop) : Prop :=
  match current s with
  | Some b => exists t, waiting s b t /\ forall i u, waiting s i u ->
      prio_val (t_priority t) <= prio_val (t_priority u) /\
      (prio_val (t_priority u) = prio_val (t_priority t) -> (b <= i)%nat)
  | None => forall i u, ~ waiting s i u
  end.

Lemma synced_runs_best s : coop_wf s -> synced s -> runs_best s.
Proof.
  intros [Hlen _] Hs. pose proof (best_task_best (tasks s)) as Hb. unfold synced in Hs. rewrite <- Hs in Hb.
  assert (Hw : forall i u, waiting s i u -> (i < MAX_COOP_TASKS)%nat /\ runnable (tasks s) i = Some (prio_val (t_priority u))).
  { intros i u [Hi Hu]. split; [rewrite <- Hlen; by eapply lookup_lt_Some|]. unfold runnable. by rewrite Hi, Hu. }
  unfold runs_best. destruct (current s) as [b|]; cbn [is_best] in Hb.
  - destruct Hb as (_ & p & Hp & Hm). destruct (runnable_task _ _ _ Hp) as (t & Ht & Hd & ->).
    exists t. split; [done|]. intros i u Hu. destruct (Hw i u Hu) as [Hi Hr]. exact (Hm i _ Hi Hr).
  - intros i u Hu. destruct (Hw i u Hu) as [Hi Hr]. by rewrite Hb in Hr.
Qed.

(** C27. From the kernel, with [k > 0] unfinished tasks: the first yield saves the
    kernel's stack pointer and starts a task; from then on, whatever the tasks do, the
    running task is an unfinished one, no unfinished task has a better priority and none
    of the same priority is in a lower slot; and the [k]-th finish, not an earlier one,
    resumes the kernel at the stack pointer it had saved. *)
Theorem coop_schedule s r0 :
  coop_wf s -> current s = None -> (0 < undone (tasks s))%nat ->
  exists n s1, yield_now r0 s = (Ok (Some n), s1) /\ kernel_rsp s1 = r0 /\ current s1 <> None /\ runs_best s1 /\
    forall l, exists o s2, coop_run l (Some n) s1 = (Ok o, s2) /\ runs_best s2 /\
      undone (tasks s2) = (undone (tasks s) - finishes l)%nat /\
      (current s2 = None <-> (undone (tasks s) <= finishes l)%nat) /\
      (current s2 = None -> o = Some r0).
Proof.
  intros Hwf Hc Hu.
  assert (Hne : best_task (tasks s) <> current s).
  { rewrite Hc. intros E%undone_zero. lia. }
  destruct (yield_now_effect r0 s Hwf Hne) as (s1 & Hy & Hwf1 & Hc1 & Hr1 & Hk1).
  assert (Hs1 : synced s1) by (unfold synced; rewrite Hc1; symmetry; by apply best_task_ext).
  rewrite Hc in Hk1. eexists _, s1. split; [exact Hy|]. split; [done|]. split; [by rewrite Hc1, <- Hc|].
  split; [by apply synced_runs_best|]. intros l.
  destruct (coop_run_spec l (Some (target_rsp s (best_task (tasks s)))) s1 Hwf1 Hs1)
    as (o & s2 & H1 & [Hwf2 H2] & H3 & H4 & H5).
  { intros E. rewrite Hc1 in E. by rewrite E, Hc in Hne. }
  exists o, s2. split; [exact H1|]. split; [by apply synced_runs_best|]. rewrite (undone_ext _ _ Hr1) in H4.
  split; [done|]. split; [|by rewrite <- Hk1]. rewrite H2, <- undone_zero, H4. lia.
Qed.

(** Two tasks, the second of higher priority. *)
Definition demo_coop : Coop :=
  let s := new_coop new_sched (fun _ => 0) in
  let s := (spawn_cooperative "bravo" Normal 100 4096 s).2 in
  (spawn_cooperative "alpha" High 200 8192 s).2.

Lemma coop_schedule_witness :
  exists n s1, yield_now 50 demo_coop = (Ok (Some n), s1) /\ current s1 = Some 1%nat /\ runs_best s1 /\
    exists o s2, coop_run [Yield 7; Finish 8; Yield 9; Finish 10] (Some n) s1 = (Ok o, s2) /\
      current s2 = None /\ o = Some 50.
Proof.
  destruct (coop_schedule demo_coop 50) as (n & s1 & H1 & _ & _ & Hb & H3).
  - split; [reflexivity|done].
  - reflexivity.
  - apply Nat.ltb_lt. reflexivity.
  - assert (H2 : current s1 = Some 1%nat) by (pose proof (f_equal snd H1) as E; cbn [snd] in E; rewrite <- E; reflexivity).
    exists n, s1. split; [exact H1|]. split; [exact H2|]. split; [exact Hb|].
    destruct (H3 [Yield 7; Finish 8; Yield 9; Finish 10]) as (o & s2 & G1 & _ & _ & G2 & G3).
    assert (G4 : current s2 = None) by (apply G2; apply Nat.leb_le; reflexivity).
    exists o, s2. split; [exact G1|]. split; [exact G4|exact (G3 G4)].
Defined.
