(* ===== verification/Preemptive.v ===== *)
(** * Preemptive: timer-driven tasks ([scheduler/preemptive.rs])

    The two tasks the timer switches between, the kernel's idle context, the tick
    budget and the process table.  [tick] runs in the interrupt handler of the
    running context, whose stack pointer at that point is [rsp]; whether the
    process table's lock is free ([try_lock]) is an input.  It yields the stack
    pointer it switched to, if it switched.  [wait_for_demo] hands a sequence of
    timer interrupts to [tick] until the demo has stopped, and then cleans up. *)
From stdpp Require Import base list numbers strings.
From Stdlib Require Import Lia.
From S2P Require Import Prelude Mem X64 AgentScheduler ContextSwitch.
Open Scope Z_scope.

Record PreemptTask := mk_PTask {
  p_rsp : Z;
  p_priority : Priority;
  p_pid : Z;
}.

Record Preempt := mk_Preempt {
  ptasks : list (option PreemptTask);
  pcurrent : option nat;
  idle_rsp : Z;
  ticks_remaining : Z;
  enabled : bool;
  psched : NativeAgentScheduler;
  pmem : Z -> Z;
}.

Definition new_preempt (sc : NativeAgentScheduler) (m : Z -> Z) : Preempt :=
  mk_Preempt [None; None] None 0 0 false sc m.

Definition ptask_at (ts : list (option PreemptTask)) (i : nat) : option PreemptTask :=
  match ts !! i with Some o => o | None => None end.

(** The best priority value among the populated slots. *)
Definition top_priority (ts : list (option PreemptTask)) : option Z :=
  foldl (fun top idx =>
    match ptask_at ts idx with
    | Some t =>
        let p := prio_val (p_priority t) in
        Some (match top with None => p | Some cur => Z.min cur p end)
    | None => top
    end) None (seq 0 2).

(** [for offset in 0..2 { ...; break }]: the first slot of the top tier from
    [start] on. *)
Fixpoint choose (ts : list (option PreemptTask)) (top : Z) (start : nat) (offsets : list nat)
    : option nat :=
  match offsets with
  | [] => None
  | offset :: r =>
      let idx := ((start + offset) mod 2)%nat in
      match ptask_at ts idx with
      | Some t => if prio_val (p_priority t) =? top then Some idx else choose ts top start r
      | None => choose ts top start r
      end
  end.

Definition next_task (ts : list (option PreemptTask)) (from : option nat) : option nat :=
  match top_priority ts with
  | None => None
  | Some top =>
      let start := match from with Some i => ((i + 1) mod 2)%nat | None => 0%nat end in
      choose ts top start (seq 0 2)
  end.

Definition set_p_rsp (v : Z) (t : PreemptTask) : PreemptTask :=
  mk_PTask v (p_priority t) (p_pid t).

Definition with_psched (f : NativeAgentScheduler -> NativeAgentScheduler) (s : Preempt) : Preempt :=
  mk_Preempt (ptasks s) (pcurrent s) (idle_rsp s) (ticks_remaining s) (enabled s) (f (psched s)) (pmem s).

Definition set_budget (r : Z) (e : bool) (s : Preempt) : Preempt :=
  mk_Preempt (ptasks s) (pcurrent s) (idle_rsp s) r e (psched s) (pmem s).

Definition set_pcurrent (c : option nat) (s : Preempt) : Preempt :=
  mk_Preempt (ptasks s) c (idle_rsp s) (ticks_remaining s) (enabled s) (psched s) (pmem s).

(** [*old_rsp_ptr = rsp] *)
Definition save_p_rsp (from : option nat) (rsp : Z) (s : Preempt) : Preempt :=
  match from with
  | Some i =>
      mk_Preempt (alter (fmap (set_p_rsp rsp)) i (ptasks s)) (pcurrent s) (idle_rsp s)
        (ticks_remaining s) (enabled s) (psched s) (pmem s)
  | None =>
      mk_Preempt (ptasks s) (pcurrent s) rsp (ticks_remaining s) (enabled s) (psched s) (pmem s)
  end.

(** The process-table update of a switch. *)
Definition sync_pcb (from next : option nat) (ts : list (option PreemptTask))
    (sc : NativeAgentScheduler) : NativeAgentScheduler :=
  let sc :=
    match from with
    | Some i => match ptask_at ts i with
                | Some t => update_process (p_pid t) Ready (p_rsp t) sc
                | None => sc
                end
    | None => sc
    end in
  match next with
  | Some i => match ptask_at ts i with
              | Some t => update_process (p_pid t) Running (p_rsp t) sc
              | None => sc
              end
  | None => sc
  end.

Definition unwrap_slot (ts : list (option PreemptTask)) (i : nat) : res PreemptTask :=
  match ptask_at ts i with Some t => Ok t | None => Panic end.

Definition tick (interrupted_ring3 sched_free : bool) (rsp : Z) : M Preempt (option Z) := fun s =>
  if negb (enabled s) || interrupted_ring3 then (Ok None, s)
  else
    let remaining := Z.max 0 (ticks_remaining s - 1) in
    let s := set_budget remaining (enabled s) s in
    let from := pcurrent s in
    let '(next, s) :=
      if remaining =? 0 then (None, set_budget remaining false s)
      else (next_task (ptasks s) from, s) in
    if bool_decide (next = from) then (Ok None, s)
    else
      let s := if sched_free then with_psched (sync_pcb from next (ptasks s)) s else s in
      (match from with Some i => lift (unwrap_slot (ptasks s) i);; mret tt | None => mret tt end;;
       new_rsp ← match next with
                 | Some i => t ← lift (unwrap_slot (ptasks s) i); mret (p_rsp t)
                 | None => gets idle_rsp
                 end;
       modify (set_pcurrent next);;
       modify (save_p_rsp from rsp);;
       mret (Some new_rsp)) s.

(** [SCHEDULER.lock().spawn(...).expect("PCB table full")] *)
Definition spawn_pcb (name : string) (prio : Priority) : M Preempt Z := fun s =>
  match spawn name prio 0 (psched s) with
  | (Some pid, sc) => (Ok pid, with_psched (fun _ => sc) s)
  | (None, sc) => (Panic, with_psched (fun _ => sc) s)
  end.

(** A fresh stack ending at [top], prepared for [entry], in slot [i]. *)
Definition install_task (i : nat) (top entry : Z) (prio : Priority) (pid : Z) : M Preempt unit := fun s =>
  let '(rsp, m) := prepare_initial_stack top entry (pmem s) in
  (Ok tt, mk_Preempt (<[i := Some (mk_PTask rsp prio pid)]> (ptasks s)) (pcurrent s) (idle_rsp s)
            (ticks_remaining s) (enabled s) (psched s) m).

Definition start_demo (ticks : Z) (priority0 priority1 : Priority) (top0 entry0 top1 entry1 : Z)
    : M Preempt unit :=
  pid0 ← spawn_pcb "preempt-task-0" priority0;
  pid1 ← spawn_pcb "preempt-task-1" priority1;
  install_task 0 top0 entry0 priority0 pid0;;
  install_task 1 top1 entry1 priority1 pid1;;
  modify (fun s => set_budget ticks (enabled s) s);;
  modify (fun s => set_budget (ticks_remaining s) true s).

(** The second part of [wait_for_demo_and_cleanup]: abandoned tasks are marked
    terminated and their slots emptied. *)
Definition cleanup (s : Preempt) : Preempt :=
  foldl (fun s i =>
    match ptask_at (ptasks s) i with
    | Some t =>
        with_psched (update_process (p_pid t) Terminated (p_rsp t))
          (mk_Preempt (<[i := None]> (ptasks s)) (pcurrent s) (idle_rsp s) (ticks_remaining s)
             (enabled s) (psched s) (pmem s))
    | None => s
    end) s (seq 0 2).

(** A timer interrupt: in ring 3 or not, lock free or not, at a stack pointer. *)
Record irq := mk_irq { ring3 : bool; lock_free : bool; irq_rsp : Z }.

(** Timer interrupts in order; the last stack pointer switched to is returned. *)
Fixpoint run_ticks (l : list irq) (last : option Z) : M Preempt (option Z) :=
  match l with
  | [] => mret last
  | e :: r =>
      o ← tick (ring3 e) (lock_free e) (irq_rsp e);
      run_ticks r (match o with Some n => Some n | None => last end)
  end.

(** [while is_enabled() { hlt() }] and the clean-up; [Hang] when the interrupts
    given do not stop the demo. *)
Definition wait_for_demo (l : list irq) : M Preempt (option Z) :=
  o ← run_ticks l None;
  e ← gets enabled;
  if (e : bool) then lift Hang else modify cleanup;; mret o.

(** ** Lemmas *)

(** The interrupts that the scheduler sees. *)
Definition counted (l : list irq) : list irq := List.filter (fun e => negb (ring3 e)) l.

(** Both slots populated, at the given priorities. *)
Definition two_tasks (p0 p1 : Priority) (ts : list (option PreemptTask)) : Prop :=
  exists t0 t1, ts = [Some t0; Some t1] /\ p_priority t0 = p0 /\ p_priority t1 = p1.

(** The task after [from]: the other one in a tie, the better one otherwise. *)
Definition turn (p0 p1 : Priority) (from : option nat) : nat :=
  if prio_val p0 =? prio_val p1 then
    match from with Some i => ((i + 1) mod 2)%nat | None => 0%nat end
  else if prio_val p0 <? prio_val p1 then 0%nat else 1%nat.

Lemma next_task_turn p0 p1 ts from :
  two_tasks p0 p1 ts -> (forall i, from = Some i -> (i < 2)%nat) ->
  next_task ts from = Some (turn p0 p1 from).
Proof.
  intros (t0 & t1 & -> & <- & <-) Hf. unfold next_task, turn. cbn [top_priority foldl seq ptask_at lookup list_lookup].
  set (a := prio_val (p_priority t0)). set (b := prio_val (p_priority t1)).
  assert (Hc : from = None \/ from = Some 0%nat \/ from = Some 1%nat).
  { destruct from as [i|]; [|by left]. specialize (Hf i eq_refl). right.
    destruct i as [|[|i]]; [by left|by right|lia]. }
  destruct Hc as [->|[->| ->]]; cbn [choose seq ptask_at lookup list_lookup];
    repeat match goal with |- context [((?x) mod 2)%nat] =>
      let v := eval vm_compute in (x mod 2)%nat in change (x mod 2)%nat with v end;
    cbn [ptask_at lookup list_lookup];
    fold a b; destruct (Z.eqb_spec a b), (Z.ltb_spec a b), (Z.eqb_spec a (Z.min a b)),
      (Z.eqb_spec b (Z.min a b)); try lia; done.
Qed.

(** The running task after [k] counted ticks of a demo. *)
Definition turn_at (p0 p1 : Priority) (k : nat) : option nat :=
  match k with
  | O => None
  | S m => Some (if prio_val p0 =? prio_val p1 then (m mod 2)%nat
                 else if prio_val p0 <? prio_val p1 then 0%nat else 1%nat)
  end.

Lemma turn_at_S p0 p1 k : turn_at p0 p1 (S k) = Some (turn p0 p1 (turn_at p0 p1 k)).
Proof.
  unfold turn_at, turn. destruct k as [|k]; destruct (_ =? _); try done.
  f_equal. rewrite Nat.Div0.add_mod_idemp_l. f_equal. lia.
Qed.

Lemma turn_at_lt p0 p1 k i : turn_at p0 p1 k = Some i -> (i < 2)%nat.
Proof.
  destruct k as [|k]; [done|]. unfold turn_at.
  pose proof (Nat.mod_upper_bound k 2 ltac:(lia)) as Hm. revert Hm. generalize (k mod 2)%nat.
  intros m Hm H. apply (inj Some) in H. subst i.
  destruct (_ =? _); [done|destruct (_ <? _); lia].
Qed.

(** The demo of [n] ticks with [j] of them gone. *)
Record running (p0 p1 : Priority) (n : Z) (j : nat) (s : Preempt) : Prop := {
  run_tasks : two_tasks p0 p1 (ptasks s);
  run_enabled : enabled s = true;
  run_left : ticks_remaining s = n - Z.of_nat j;
  run_current : pcurrent s = turn_at p0 p1 j;
}.

(** The demo has stopped, back in the kernel. *)
Record stopped (p0 p1 : Priority) (s : Preempt) : Prop := {
  stop_tasks : two_tasks p0 p1 (ptasks s);
  stop_enabled : enabled s = false;
  stop_current : pcurrent s = None;
}.

Lemma two_tasks_alter p0 p1 ts i v :
  two_tasks p0 p1 ts -> two_tasks p0 p1 (alter (fmap (set_p_rsp v)) i ts).
Proof.
  intros (t0 & t1 & -> & E0 & E1). destruct i as [|[|i]]; cbn; by eexists _, _.
Qed.

Lemma unwrap_two p0 p1 ts i :
  two_tasks p0 p1 ts -> (i < 2)%nat -> exists t, unwrap_slot ts i = Ok t.
Proof.
  intros (t0 & t1 & -> & _ & _) Hi. destruct i as [|[|i]]; [by eexists..|lia].
Qed.

Lemma tick_ignored e s : enabled s = false \/ ring3 e = true ->
  tick (ring3 e) (lock_free e) (irq_rsp e) s = (Ok None, s).
Proof. intros H. unfold tick. by destruct (enabled s), (ring3 e), H. Qed.

(** One counted tick of a running demo. *)
Lemma tick_counted p0 p1 n j e s :
  running p0 p1 n j s -> ring3 e = false -> Z.of_nat j < n ->
  exists o s', tick (ring3 e) (lock_free e) (irq_rsp e) s = (Ok o, s') /\
    (Z.of_nat (S j) < n -> running p0 p1 n (S j) s' /\
       idle_rsp s' = match j with O => irq_rsp e | S _ => idle_rsp s end) /\
    (n = Z.of_nat (S j) -> stopped p0 p1 s' /\
       o = match j with O => None | S _ => Some (idle_rsp s) end).
Proof.
  intros [Ht He Hl Hc] Hr Hj. unfold tick. rewrite He, Hr, Hl. cbn [negb orb].
  replace (Z.max 0 (n - Z.of_nat j - 1)) with (n - Z.of_nat (S j)) by lia.
  destruct s as [ts cur idle rem en sc m]. cbn [ptasks pcurrent enabled ticks_remaining idle_rsp] in *.
  cbn [set_budget pcurrent ptasks enabled].
  destruct (Z.eqb_spec (n - Z.of_nat (S j)) 0) as [Hz|Hz].
  - destruct j as [|j].
    + cbn in Hc. subst cur. cbn. eexists _, _. split; [reflexivity|].
      split; [intros; lia|]. intros _. by split.
    + subst cur. cbn [turn_at]. rewrite bool_decide_eq_false_2 by done.
      set (i := if prio_val p0 =? prio_val p1 then _ else _).
      assert (Hi : (i < 2)%nat) by (by apply (turn_at_lt p0 p1 (S j))).
      destruct (unwrap_two p0 p1 ts i Ht Hi) as [t Eu].
      destruct (lock_free e); cbn [set_budget with_psched ptasks];
        unfold mbind, M_bind, lift, gets, modify, mret, M_ret; rewrite Eu;
        (eexists _, _; split; [reflexivity|]; split; [intros; lia|]; intros _; split; [|done]);
        (split; [by apply two_tasks_alter|done|done]).
  - rewrite (next_task_turn p0 p1) by (done || (subst cur; apply turn_at_lt)).
    subst cur. pose proof (turn_at_S p0 p1 j) as HS.
    set (i := turn p0 p1 (turn_at p0 p1 j)) in *.
    assert (Hi : (i < 2)%nat) by (by apply (turn_at_lt p0 p1 (S j))).
    case_bool_decide as Heq.
    + eexists _, _. split; [reflexivity|]. split; [|intros; lia]. intros _.
      split; [|by destruct j]. split; try done. cbn [pcurrent set_budget]. congruence.
    + destruct (unwrap_two p0 p1 ts i Ht Hi) as [t Eu]. clearbody i.
      assert (Hsave : forall f : nat, turn_at p0 p1 j = Some f -> exists t, unwrap_slot ts f = Ok t).
      { intros f Hf. apply (unwrap_two p0 p1); [done|by eapply turn_at_lt]. }
      destruct (turn_at p0 p1 j) as [f|] eqn:Ef.
      * destruct (Hsave f eq_refl) as [tf Etf].
        destruct (lock_free e); cbn [set_budget with_psched ptasks];
          unfold mbind, M_bind, lift, gets, modify, mret, M_ret; rewrite Etf, Eu;
          (eexists _, _; split; [reflexivity|]; split; [|intros; lia]; intros _);
          (split; [split; [by apply two_tasks_alter|done|done|by rewrite HS]|by destruct j]).
      * destruct (lock_free e); cbn [set_budget with_psched ptasks];
          unfold mbind, M_bind, lift, gets, modify, mret, M_ret; rewrite Eu;
          (eexists _, _; split; [reflexivity|]; split; [|intros; lia]; intros _);
          (split; [split; [done|done|done|by rewrite HS]|by destruct j]).
Qed.

Lemma run_ticks_stopped l last s : enabled s = false -> run_ticks l last s = (Ok last, s).
Proof.
  revert last. induction l as [|e l IH]; intros last He; [done|]. cbn [run_ticks].
  rewrite (M_bind_Ok _ _ _ _ _ (tick_ignored e s (or_introl He))). by apply IH.
Qed.

(** The stack pointer the first counted tick saves. *)
Definition first_rsp (d : Z) (l : list irq) : Z :=
  match counted l with e :: _ => irq_rsp e | [] => d end.

Lemma run_ticks_spec p0 p1 n l j last s :
  running p0 p1 n j s -> Z.of_nat j < n ->
  exists o s', run_ticks l last s = (Ok o, s') /\
    let k := (j + length (counted l))%nat in
    (Z.of_nat k < n -> running p0 p1 n k s') /\
    (n <= Z.of_nat k -> stopped p0 p1 s' /\
       (2 <= n -> o = Some (match j with O => first_rsp 0 l | S _ => idle_rsp s end))).
Proof.
  revert j last s. induction l as [|e l IH]; intros j last s Hrun Hj; cbn [run_ticks].
  - exists last, s. split; [done|]. cbn. rewrite Nat.add_0_r. split; [done|lia].
  - unfold first_rsp. cbn [counted List.filter]. destruct (ring3 e) eqn:E3; cbn [negb length].
    + rewrite <- E3. rewrite (M_bind_Ok _ _ _ _ _ (tick_ignored e s (or_intror E3))).
      by apply IH.
    + rewrite <- E3. destruct (tick_counted p0 p1 n j e s Hrun E3 Hj) as (o & s1 & Ht & Hgo & Hstop).
      rewrite (M_bind_Ok _ _ _ _ _ Ht). rewrite Nat.add_succ_r, <- Nat.add_succ_l.
      destruct (decide (n = Z.of_nat (S j))) as [Hn|Hn].
      * destruct (Hstop Hn) as [Hs Ho]. rewrite run_ticks_stopped by apply Hs.
        eexists _, s1. split; [reflexivity|]. split; [lia|]. intros _. split; [done|].
        intros H2. destruct j; [lia|]. by rewrite Ho.
      * destruct (Hgo ltac:(lia)) as [Hr1 Hi1].
        destruct (IH (S j) (match o with Some x => Some x | None => last end) s1 Hr1 ltac:(lia))
          as (o' & s2 & H1 & H2 & H3).
        exists o', s2. split; [exact H1|]. split; [exact H2|]. intros Hk.
        destruct (H3 Hk) as [H4 H5]. split; [done|]. intros Hn2. rewrite (H5 Hn2), Hi1. by destruct j.
Qed.

(** What [start_demo] sets up. *)
Lemma start_demo_running ticks p0 p1 top0 e0 top1 e1 s s1 :
  start_demo ticks p0 p1 top0 e0 top1 e1 s = (Ok tt, s1) ->
  length (ptasks s) = 2%nat -> pcurrent s = None -> running p0 p1 ticks 0 s1.
Proof.
  unfold start_demo. intros H Hl Hc.
  apply M_bind_Ok_inv in H as (pid0 & s2 & H0 & H).
  apply M_bind_Ok_inv in H as (pid1 & s3 & H1 & H).
  assert (Hs3 : ptasks s3 = ptasks s /\ pcurrent s3 = pcurrent s).
  { unfold spawn_pcb in H0, H1.
    destruct (spawn _ _ _ (psched s)) as [[?|] ?]; [|done]. injection H0 as <- <-.
    cbn in H1. destruct (spawn _ _ _ _) as [[?|] ?]; [|done]. by injection H1 as <- <-. }
  destruct Hs3 as [Ht3 Hc3]. rewrite <- Ht3 in Hl. rewrite <- Hc3 in Hc. clear H0 H1 Ht3 Hc3.
  unfold install_task, mbind, M_bind, modify in H.
  destruct (prepare_initial_stack top0 e0 (pmem s3)) as [r0 m0]. cbn [pmem] in H.
  destruct (prepare_initial_stack top1 e1 m0) as [r1 m1]. injection H as <-.
  destruct s3 as [ts cur idle rem en sc m]. cbn in *. destruct ts as [|a [|b [|]]]; try discriminate Hl.
  split; cbn; [by eexists _, _|done|lia|done].
Qed.

Lemma cleanup_effect p0 p1 s :
  stopped p0 p1 s ->
  ptasks (cleanup s) = [None; None] /\ pcurrent (cleanup s) = None /\ enabled (cleanup s) = false.
Proof.
  intros [(t0 & t1 & Ht & _ & _) He Hc]. unfold cleanup. cbn [foldl seq].
  destruct s. cbn in *. by subst.
Qed.

(** ** Properties *)

(** C26. A demo of [ticks] interrupts.  Interrupts of ring-3 code do not count.
    While fewer than [ticks] have been counted the budget left is the difference
    and the running task is, between equal priorities, each task in turn from the
    first, and otherwise always the task of better priority; once [ticks] have
    been counted, however they are interleaved with ring-3 ones and whether or not
    the process table was locked, the demo has ended, the kernel has been resumed
    at the stack pointer it had when the first counted tick interrupted it, and
    both slots are empty. *)
Theorem preempt_demo_schedule ticks p0 p1 top0 e0 top1 e1 s s1 :
  start_demo ticks p0 p1 top0 e0 top1 e1 s = (Ok tt, s1) ->
  length (ptasks s) = 2%nat -> pcurrent s = None -> 1 <= ticks ->
  forall l, let k := length (counted l) in
  (Z.of_nat k < ticks ->
     exists o s2, run_ticks l None s1 = (Ok o, s2) /\ enabled s2 = true /\
       ticks_remaining s2 = ticks - Z.of_nat k /\ pcurrent s2 = turn_at p0 p1 k) /\
  (ticks <= Z.of_nat k ->
     exists o s2, wait_for_demo l s1 = (Ok o, s2) /\ enabled s2 = false /\
       pcurrent s2 = None /\ ptasks s2 = [None; None] /\
       (2 <= ticks -> o = Some (first_rsp 0 l))).
Proof.
  intros Hst Hl Hc Hn l k.
  pose proof (start_demo_running _ _ _ _ _ _ _ _ _ Hst Hl Hc) as Hrun.
  destruct (run_ticks_spec p0 p1 ticks l 0 None s1 Hrun ltac:(lia)) as (o & s2 & H1 & H2 & H3).
  cbn [Nat.add] in H2, H3. fold k in H2, H3. split; intros Hk.
  - destruct (H2 Hk) as [_ He Hr Hcur]. by exists o, s2.
  - destruct (H3 Hk) as [Hs Ho]. pose proof (cleanup_effect p0 p1 s2 Hs) as (G1 & G2 & G3).
    exists o, (cleanup s2). unfold wait_for_demo. rewrite (M_bind_Ok _ _ _ _ _ H1).
    unfold mbind, M_bind, gets, modify. rewrite (stop_enabled _ _ _ Hs). done.
Qed.

Definition demo_preempt (p0 p1 : Priority) : Preempt :=
  (start_demo 3 p0 p1 4096 100 8192 200 (new_preempt new_sched (fun _ => 0))).2.

Lemma preempt_demo_schedule_witness :
  let l := [mk_irq false true 70; mk_irq true true 71; mk_irq false false 72] in
  (exists o s2, run_ticks l None (demo_preempt Normal Normal) = (Ok o, s2) /\
     pcurrent s2 = Some 1%nat /\ ticks_remaining s2 = 1) /\
  (exists o s2, wait_for_demo (l ++ [mk_irq false true 73]) (demo_preempt High Background) = (Ok o, s2) /\
     o = Some 70).
Proof.
  intros l. split.
  - destruct (preempt_demo_schedule 3 Normal Normal 4096 100 8192 200 (new_preempt new_sched (fun _ => 0))
      (demo_preempt Normal Normal) eq_refl eq_refl eq_refl ltac:(lia) l) as [H _].
    destruct H as (o & s2 & H1 & _ & H2 & H3); [cbn; lia|]. by exists o, s2.
  - destruct (preempt_demo_schedule 3 High Background 4096 100 8192 200 (new_preempt new_sched (fun _ => 0))
      (demo_preempt High Background) eq_refl eq_refl eq_refl ltac:(lia) (l ++ [mk_irq false true 73])) as [_ H].
    destruct H as (o & s2 & H1 & _ & _ & _ & H2); [cbn; lia|]. exists o, s2.
    split; [exact H1|]. apply H2. lia.
Defined.
