(* ===== verification/Ring3Mt.v ===== *)
(** * Ring3Mt: preempted ring-3 tasks ([scheduler/ring3_mt.rs], [scheduler/ring3_preempt.rs],
      [interrupts.rs::handle_timer_tick])

    An interrupted ring-3 task is 160 bytes on the kernel stack; a tick copies
    them to the task's own parking buffer, overwrites the original and resumes
    the task the tier selection picks from that task's buffer.  The state is the
    scheduler's statics together with byte memory.  [Abs] is the specification:
    one context per task, no addresses. *)
From stdpp Require Import base list numbers strings.
From Stdlib Require Import Lia.
From S2P Require Import Prelude Mem AgentScheduler TierSelect Preemptive.
Open Scope Z_scope.

Definition RING3_MT_MAX_TASKS : nat := 4.
Definition CTX : nat := 160.

Abbreviation memory := (Z -> Z).

Record Mt := mk_Mt {
  mt_enabled : bool;
  active_tasks : nat;
  mt_current : nat;
  switch_count : Z;
  task_ctx : list Z;
  task_priority : list Z;
  task_done_mask : list bool;
}.

Definition new_mt : Mt :=
  mk_Mt false 0 0 0 (replicate RING3_MT_MAX_TASKS 0) (replicate RING3_MT_MAX_TASKS 0)
    (replicate RING3_MT_MAX_TASKS false).

(** [copy_nonoverlapping(saved, dest, 160); write_bytes(saved, 0xAA, 160)] *)
Definition park (saved dest : Z) (m : memory) : memory :=
  write_bytes saved (replicate CTX 0xAA) (write_bytes dest (read_bytes m saved CTX) m).

Definition on_mem (f : memory -> memory) (s : Mt * memory) : Mt * memory := (s.1, f s.2).

Definition set_next (next : nat) (s : Mt * memory) : Mt * memory :=
  (mk_Mt (mt_enabled s.1) (active_tasks s.1) next (u64 (switch_count s.1 + 1)) (task_ctx s.1)
     (task_priority s.1) (task_done_mask s.1), s.2).

Definition mark_done (i : nat) (s : Mt * memory) : Mt * memory :=
  (mk_Mt (mt_enabled s.1) (active_tasks s.1) (mt_current s.1) (switch_count s.1) (task_ctx s.1)
     (task_priority s.1) (<[i := true]> (task_done_mask s.1)), s.2).

(** The selection and hand-over shared by [tick] and [task_done]. *)
Definition resume_next (current : nat) : M (Mt * memory) Z :=
  s ← gets fst;
  next ← lift (select_next (active_tasks s) (active_tasks s) current (task_priority s) (task_done_mask s));
  modify (set_next next);;
  lift (idx (task_ctx s) next).

Definition mt_tick (saved_ctx_ptr : Z) : M (Mt * memory) Z :=
  s ← gets fst;
  if negb (mt_enabled s) then mret saved_ctx_ptr
  else
    dest ← lift (idx (task_ctx s) (mt_current s));
    modify (on_mem (park saved_ctx_ptr dest));;
    resume_next (mt_current s).

Definition task_done (saved_ctx_ptr : Z) : M (Mt * memory) Z :=
  s ← gets fst;
  dest ← lift (idx (task_ctx s) (mt_current s));
  modify (on_mem (park saved_ctx_ptr dest));;
  lift (idx (task_done_mask s) (mt_current s));;
  modify (mark_done (mt_current s));;
  resume_next (mt_current s).

(** The boxed contexts, written where the allocator put them. *)
Definition box_contexts (bufs : list Z) (ctxs : list (list Z)) (m : memory) : memory :=
  foldl (fun m '(a, c) => write_bytes a c m) m (zip bufs ctxs).

Definition set_enabled (b : bool) (s : Mt * memory) : Mt * memory :=
  (mk_Mt b (active_tasks s.1) (mt_current s.1) (switch_count s.1) (task_ctx s.1) (task_priority s.1)
     (task_done_mask s.1), s.2).

(** [f] runs ring 3: every tick and retirement until task 0 exits. *)
Definition run_multitasking (task0_priority : Priority) (other_tasks : list (Priority * list Z))
    (bufs : list Z) (f : M (Mt * memory) Z) : M (Mt * memory) (Z * list Z * list bool * Z) :=
  let active := S (length other_tasks) in
  if (RING3_MT_MAX_TASKS <? active)%nat then lift Panic
  else
    modify (on_mem (box_contexts bufs (replicate CTX 0 :: map snd other_tasks)));;
    let task_pairs :=
      zip bufs (prio_val task0_priority :: map (fun t => prio_val t.1) other_tasks) in
    s ← gets fst;
    arrays ← lift (arm_task_slots (task_ctx s) (task_priority s) (task_done_mask s) task_pairs);
    let '(slots, prios, done) := arrays in
    modify (fun s => (mk_Mt true active 0 0 slots prios done, s.2));;
    exit_code ← f;
    modify (set_enabled false);;
    s ← gets id;
    let other_last_eax := map (fun a => le_of (read_bytes s.2 a 4)) (drop 1 bufs) in
    other_done ← lift (slice (task_done_mask s.1) 1 active);
    mret (exit_code, other_last_eax, other_done, switch_count s.1).

(** ** The single interception of ring3_preempt *)

Record Rp := mk_Rp {
  rp_enabled : bool;
  rp_hit : bool;
  rp_ctx : Z;
}.

Definition rp_tick (saved_ctx_ptr : Z) (r : Rp) (m : memory) : Z * Rp * memory :=
  if negb (rp_enabled r) then (saved_ctx_ptr, r, m)
  else if rp_hit r then (saved_ctx_ptr, mk_Rp (rp_enabled r) true (rp_ctx r), m)
  else (rp_ctx r, mk_Rp (rp_enabled r) true (rp_ctx r), park saved_ctx_ptr (rp_ctx r) m).

(** [run_intercepting]: armed with the boxed buffer at [buf] around [f], which may
    change the rest of the machine. *)
Definition run_intercepting {R} (buf : Z) (f : M (Rp * memory * R) Z) : M (Rp * memory * R) (Z * bool) :=
  modify (fun '(r, m, x) => (mk_Rp (rp_enabled r) (rp_hit r) buf, write_bytes buf (replicate CTX 0) m, x));;
  modify (fun '(r, m, x) => (mk_Rp true false (rp_ctx r), m, x));;
  exit_code ← f;
  modify (fun '(r, m, x) => (mk_Rp false (rp_hit r) (rp_ctx r), m, x));;
  hit ← gets (fun '(r, _, _) => rp_hit r);
  mret (exit_code, hit).

(** ** The timer interrupt *)

(** The kernel state a timer interrupt can touch; memory is in [t_pre]. *)
Record Timer := mk_Timer {
  timer_ticks : Z;
  timer_ticks_while_ring3 : Z;
  t_pre : Preempt;
  t_rp : Rp;
  t_mt : Mt;
}.

(** Where the interrupted processor goes on: the stub resumes from a saved
    context, or the ring-0 scheduler switched stacks inside the handler. *)
Inductive tick_result := Resume (ctx_ptr : Z) | Switched (rsp : Z).

Definition set_pmem (m : memory) (s : Preempt) : Preempt :=
  mk_Preempt (ptasks s) (pcurrent s) (idle_rsp s) (ticks_remaining s) (enabled s) (psched s) m.

(** [rsp] is the handler's stack pointer, [free] whether the process table is
    unlocked. *)
Definition handle_timer_tick (caller_rpl saved_ctx_ptr rsp : Z) (free : bool) : M Timer tick_result :=
  fun t =>
  let interrupted_ring3 := caller_rpl =? 3 in
  let ticks3 := if interrupted_ring3 then u64 (timer_ticks_while_ring3 t + 1)
                else timer_ticks_while_ring3 t in
  let ticks := u64 (timer_ticks t + 1) in
  match tick interrupted_ring3 free rsp (t_pre t) with
  | (Ok o, pre) =>
      if interrupted_ring3 then
        let '(ctx, rp, m) := rp_tick saved_ctx_ptr (t_rp t) (pmem pre) in
        match mt_tick ctx (t_mt t, m) with
        | (r, (mt, m')) => (Resume <$> r, mk_Timer ticks ticks3 (set_pmem m' pre) rp mt)
        end
      else
        (Ok (match o with Some n => Switched n | None => Resume saved_ctx_ptr end),
         mk_Timer ticks ticks3 pre (t_rp t) (t_mt t))
  | (Err e, pre) => (Err e, mk_Timer ticks ticks3 pre (t_rp t) (t_mt t))
  | (Panic, pre) => (Panic, mk_Timer ticks ticks3 pre (t_rp t) (t_mt t))
  | (Hang, pre) => (Hang, mk_Timer ticks ticks3 pre (t_rp t) (t_mt t))
  end.

(** ** Specification: one context per task *)

Record Abs := mk_Abs {
  a_current : nat;
  a_done : list bool;
  a_ctx : list (list Z);
}.

(** The current task, interrupted with context [c], is saved (and retires if
    [retire]); the selected task goes on with its own context. *)
Definition abs_step (prios : list Z) (retire : bool) (c : list Z) (a : Abs) : res (list Z * Abs) :=
  let done := if retire then <[a_current a := true]> (a_done a) else a_done a in
  let ctxs := <[a_current a := c]> (a_ctx a) in
  next ← select_next (length ctxs) (length ctxs) (a_current a) prios done;
  ctx ← idx ctxs next;
  Ok (ctx, mk_Abs next done ctxs).

(** An interrupt of the current task: its registers [ev_regs] as the stub pushes
    them at [ev_ptr]; [ev_env] is what ring 3 did to memory before. *)
Record event := mk_event {
  ev_retire : bool;
  ev_ptr : Z;
  ev_regs : list Z;
  ev_env : memory -> memory;
}.

(** Runs the handlers; the contexts they resumed from, in order. *)
Fixpoint run_events (evs : list event) : M (Mt * memory) (list (list Z)) :=
  match evs with
  | [] => mret []
  | e :: r =>
      modify (on_mem (fun m => write_bytes (ev_ptr e) (ev_regs e) (ev_env e m)));;
      addr ← (if ev_retire e then task_done (ev_ptr e) else mt_tick (ev_ptr e));
      ctx ← gets (fun s => read_bytes s.2 addr CTX);
      rest ← run_events r;
      mret (ctx :: rest)
  end.

Fixpoint abs_run (prios : list Z) (evs : list event) (a : Abs) : res (list (list Z) * Abs) :=
  match evs with
  | [] => Ok ([], a)
  | e :: r =>
      '(c, a') ← abs_step prios (ev_retire e) (ev_regs e) a;
      '(rest, a'') ← abs_run prios r a';
      Ok (c :: rest, a'')
  end.

(** Task 0 never retires: it leaves by its exit call. *)
Fixpoint task0_stays (prios : list Z) (evs : list event) (a : Abs) : Prop :=
  match evs with
  | [] => True
  | e :: r =>
      (ev_retire e = true -> a_current a <> 0%nat) /\
      forall c a', abs_step prios (ev_retire e) (ev_regs e) a = Ok (c, a') -> task0_stays prios r a'
  end.

(** ** Refinement *)

(** The parking buffers do not overlap. *)
Definition apart (a b : Z) : Prop := a + 160 <= b \/ b + 160 <= a.

Definition bufs_apart (bufs : list Z) : Prop :=
  forall i j a b, bufs !! i = Some a -> bufs !! j = Some b -> i <> j -> apart a b.

(** The interrupt frame is outside the buffers, and ring 3 cannot write them. *)
Record event_ok (bufs : list Z) (e : event) : Prop := {
  eo_len : length (ev_regs e) = CTX;
  eo_ptr : forall i b, bufs !! i = Some b -> apart (ev_ptr e) b;
  eo_env : forall m i b x, bufs !! i = Some b -> b <= x < b + 160 -> ev_env e m x = m x;
}.

Record refines (bufs : list Z) (s : Mt) (m : memory) (a : Abs) : Prop := {
  r_enabled : mt_enabled s = true;
  r_active : active_tasks s = length bufs;
  r_bufs : forall i b, bufs !! i = Some b -> task_ctx s !! i = Some b;
  r_current : mt_current s = a_current a;
  r_lt : (a_current a < length bufs)%nat;
  r_done : task_done_mask s = a_done a;
  r_len : length (a_ctx a) = length bufs;
  r_ctx : forall i b, bufs !! i = Some b -> a_ctx a !! i = Some (read_bytes m b CTX);
}.

(** What the selection needs to answer, kept by every step. *)
Record select_ok (n : nat) (prios : list Z) (done : list bool) : Prop := {
  so_prios : (n <= length prios)%nat;
  so_done : (n <= length done)%nat;
  so_range : forall i p, prios !! i = Some p -> 0 <= p <= U8_MAX;
  so_alive : done !! 0%nat = Some false;
}.

Lemma park_read_dest saved dest m :
  apart saved dest -> read_bytes (park saved dest m) dest CTX = read_bytes m saved CTX.
Proof.
  intros Ha. unfold apart in Ha. unfold park.
  rewrite (read_bytes_ext _ (write_bytes dest (read_bytes m saved CTX) m)).
  - pose proof (read_write_bytes dest (read_bytes m saved CTX) m) as H.
    by rewrite length_read_bytes in H.
  - intros x Hx. apply write_bytes_out. rewrite length_replicate. unfold CTX in *. lia.
Qed.

Lemma park_read_other saved dest m b :
  apart saved b -> apart dest b -> read_bytes (park saved dest m) b CTX = read_bytes m b CTX.
Proof.
  intros H1 H2. unfold apart in *. apply read_bytes_ext. intros x Hx. unfold park, CTX in *.
  rewrite !write_bytes_out; [done|rewrite length_read_bytes; lia|rewrite length_replicate; lia].
Qed.

Lemma select_next_ok n prios done current :
  select_ok n prios done -> (0 < n)%nat ->
  exists next, select_next n n current prios done = Ok next /\ (next < n)%nat.
Proof.
  intros [Hp Hd Hr Ha] Hn.
  destruct (select_next_finds n prios done Hp Hd Hr current) as (t & d & _ & _ & -> & _).
  { exists 0%nat. by split. }
  eexists. split; [done|]. apply Nat.mod_upper_bound. lia.
Qed.

(** The task chosen has not retired. *)
Lemma select_alive n prios done cur next :
  select_ok n prios done -> (0 < n)%nat -> select_next n n cur prios done = Ok next -> done !! next = Some false.
Proof.
  intros [Hp Hd Hr Ha] Hn H.
  destruct (select_next_finds n prios done Hp Hd Hr cur) as (t & d & _ & _ & E & [[_ He] _] & _).
  { exists 0%nat. by split. }
  rewrite E in H. by injection H as <-.
Qed.

(** One interrupt: the handler does what the specification says. *)
Lemma step_refines bufs s m a e :
  refines bufs s m a -> bufs_apart bufs -> event_ok bufs e ->
  select_ok (length bufs) (task_priority s) (a_done a) ->
  (ev_retire e = true -> a_current a <> 0%nat) ->
  exists c a' addr s' m',
    abs_step (task_priority s) (ev_retire e) (ev_regs e) a = Ok (c, a') /\
    (if ev_retire e then task_done (ev_ptr e) else mt_tick (ev_ptr e))
      (s, write_bytes (ev_ptr e) (ev_regs e) (ev_env e m)) = (Ok addr, (s', m')) /\
    read_bytes m' addr CTX = c /\ refines bufs s' m' a' /\
    task_priority s' = task_priority s /\ switch_count s' = u64 (switch_count s + 1) /\
    select_ok (length bufs) (task_priority s') (a_done a').
Proof.
  intros [Ren Ract Rb Rcur Rlt Rdone Rlen Rctx] Hap [El Ep Ee] Hsel H0.
  set (m0 := write_bytes (ev_ptr e) (ev_regs e) (ev_env e m)).
  destruct (lookup_lt_is_Some_2 bufs (a_current a) Rlt) as [dest Hdest].
  set (m1 := park (ev_ptr e) dest m0).
  assert (Hm0 : forall i b, bufs !! i = Some b -> read_bytes m0 b CTX = read_bytes m b CTX).
  { intros i b Hi. apply read_bytes_ext. intros x Hx. unfold m0, CTX in *.
    pose proof (Ep i b Hi) as Ha. unfold apart in Ha.
    rewrite write_bytes_out by (rewrite El; lia). by apply (Ee m i b x). }
  assert (Hregs : read_bytes m0 (ev_ptr e) CTX = ev_regs e).
  { rewrite <- El. apply read_write_bytes. }
  set (done := if ev_retire e then <[a_current a := true]> (a_done a) else a_done a).
  set (ctxs := <[a_current a := ev_regs e]> (a_ctx a)).
  assert (Lc : length ctxs = length bufs) by (unfold ctxs; by rewrite length_insert).
  assert (Hsel' : select_ok (length bufs) (task_priority s) done).
  { destruct Hsel as [? Hd ? Ha]. split; try done; unfold done; destruct (ev_retire e); try done.
    - by rewrite length_insert.
    - rewrite list_lookup_insert_ne; [done|]. by apply H0. }
  destruct (select_next_ok _ _ _ (a_current a) Hsel') as (next & Hnext & Hlt); [lia|].
  destruct (lookup_lt_is_Some_2 bufs next Hlt) as [addr Haddr].
  assert (Hctx1 : forall i b, bufs !! i = Some b -> ctxs !! i = Some (read_bytes m1 b CTX)).
  { intros i b Hi. unfold ctxs, m1. destruct (decide (i = a_current a)) as [->|Hne].
    - rewrite Hdest in Hi. injection Hi as <-.
      rewrite list_lookup_insert_eq by lia. f_equal.
      rewrite park_read_dest by (by eapply Ep). done.
    - rewrite list_lookup_insert_ne by done. rewrite (Rctx i b Hi). f_equal.
      rewrite park_read_other; [symmetry; by eapply Hm0|by eapply Ep|by eapply (Hap (a_current a) i)]. }
  exists (read_bytes m1 addr CTX), (mk_Abs next done ctxs), addr,
    (mk_Mt true (length bufs) next (u64 (switch_count s + 1)) (task_ctx s) (task_priority s) done), m1.
  split; [|split; [|split; [done|split; [|split; [done|split; [done|done]]]]]].
  - unfold abs_step. fold done ctxs. rewrite Lc, Hnext. cbn [mbind res_bind].
    unfold idx. by rewrite (Hctx1 next addr Haddr).
  - assert (Hbody : forall mask, mask = done ->
      resume_next (a_current a) (mk_Mt true (length bufs) (a_current a) (switch_count s) (task_ctx s)
        (task_priority s) mask, m1) =
      (Ok addr, (mk_Mt true (length bufs) next (u64 (switch_count s + 1)) (task_ctx s) (task_priority s) done, m1))).
    { intros mask ->. unfold resume_next, mbind, M_bind, gets, lift, modify. cbn [fst snd active_tasks
        task_priority task_done_mask]. rewrite Hnext. unfold set_next. cbn [fst snd task_ctx mt_enabled
        active_tasks switch_count task_priority task_done_mask]. unfold idx. by rewrite (Rb next addr Haddr). }
    destruct s as [en ac cur sw tc tp td]. cbn [mt_enabled active_tasks task_ctx mt_current
      task_done_mask task_priority switch_count] in *. subst en ac cur td.
    assert (Hd1 : idx tc (a_current a) = Ok dest) by (apply idx_Ok; by apply Rb).
    destruct (ev_retire e) eqn:Er; unfold task_done, mt_tick;
      unfold mbind at 1, M_bind at 1, gets at 1; cbn [fst mt_enabled negb mt_current task_ctx task_done_mask].
    + assert (Hmask : idx (a_done a) (a_current a) = Ok true \/ idx (a_done a) (a_current a) = Ok false).
      { destruct (idx_lt (a_done a) (a_current a)) as [[] ->]; [destruct Hsel; lia|by left|by right]. }
      unfold mbind, M_bind, lift, modify, on_mem. rewrite Hd1. cbn [fst snd]. fold m1.
      destruct Hmask as [->| ->]; unfold mark_done; cbn [fst snd mt_enabled active_tasks mt_current
        switch_count task_ctx task_priority task_done_mask]; by apply Hbody.
    + unfold mbind, M_bind, lift, modify, on_mem. rewrite Hd1. cbn [fst snd]. fold m1. by apply Hbody.
  - split; cbn; done.
Qed.

Lemma run_events_refines bufs evs s m a :
  refines bufs s m a -> bufs_apart bufs -> Forall (event_ok bufs) evs ->
  select_ok (length bufs) (task_priority s) (a_done a) ->
  in_u 64 (switch_count s) -> task0_stays (task_priority s) evs a ->
  exists log a' s' m',
    abs_run (task_priority s) evs a = Ok (log, a') /\
    run_events evs (s, m) = (Ok log, (s', m')) /\ refines bufs s' m' a' /\
    switch_count s' = u64 (switch_count s + Z.of_nat (length evs)) /\
    (length bufs <= length (a_done a'))%nat.
Proof.
  intros Hr Hap Hev. revert s m a Hr. induction Hev as [|e evs He Hev IH]; intros s m a Hr Hsel Hsw Hst.
  - exists [], a, s, m. split; [done|]. split; [done|]. split; [done|].
    split; [cbn; by rewrite Z.add_0_r, wrap_id|apply Hsel].
  - destruct Hst as [H0 Hst].
    destruct (step_refines bufs s m a e Hr Hap He Hsel H0)
      as (c & a1 & addr & s1 & m1 & Habs & Hrun & Hread & Hr1 & Hp1 & Hs1 & Hsel1).
    destruct (IH s1 m1 a1 Hr1 Hsel1) as (log & a2 & s2 & m2 & Habs2 & Hrun2 & Hr2 & Hs2 & Hd2).
    { rewrite Hs1. by apply wrap_in_u. }
    { rewrite Hp1. by apply (Hst c). }
    exists (c :: log), a2, s2, m2. rewrite Hp1 in Habs2. split; [|split; [|split; [done|split; [|done]]]].
    + cbn [abs_run]. rewrite Habs. cbn [mbind res_bind]. by rewrite Habs2.
    + cbn [run_events]. unfold mbind at 1, M_bind at 1, modify at 1, on_mem at 1. cbn [fst snd].
      rewrite (M_bind_Ok _ _ _ _ _ Hrun). unfold mbind, M_bind, gets. cbn [fst snd].
      rewrite Hread, Hrun2. done.
    + rewrite Hs2, Hs1. cbn [length]. unfold wrap. rewrite Zplus_mod_idemp_l. f_equal. lia.
Qed.

(** ** Arming *)

Lemma box_contexts_out bufs ctxs m x :
  (forall i b, bufs !! i = Some b -> x < b \/ b + 160 <= x) -> Forall (fun c => length c = CTX) ctxs ->
  box_contexts bufs ctxs m x = m x.
Proof.
  unfold box_contexts. intros Hb Hc. revert m bufs Hb. induction Hc as [|c ctxs Lc Hc IH];
    intros m [|b bufs] Hb; try done.
  cbn [zip zip_with foldl]. rewrite IH by (intros i b' Hi; by apply (Hb (S i))).
  apply write_bytes_out. rewrite Lc. by apply (Hb 0%nat).
Qed.

Lemma box_contexts_read bufs ctxs m i b c :
  bufs_apart bufs -> Forall (fun c => length c = CTX) ctxs ->
  bufs !! i = Some b -> ctxs !! i = Some c ->
  read_bytes (box_contexts bufs ctxs m) b CTX = c.
Proof.
  intros Hap Hc. revert m i bufs Hap. induction Hc as [|c0 ctxs Lc Hc IH]; intros m i bufs Hap Hb Hci; [done|].
  destruct bufs as [|b0 bufs]; [done|].
  assert (Hap' : bufs_apart bufs).
  { intros x y a d Hx Hy Hne. apply (Hap (S x) (S y)); [done|done|congruence]. }
  change (box_contexts (b0 :: bufs) (c0 :: ctxs) m) with (box_contexts bufs ctxs (write_bytes b0 c0 m)).
  destruct i as [|i]; cbn in Hb, Hci.
  - injection Hb as ->. injection Hci as ->.
    rewrite (read_bytes_ext _ (write_bytes b c m)).
    + pose proof (read_write_bytes b c m) as H. by rewrite Lc in H.
    + intros x Hx. apply box_contexts_out; [|done]. intros j d Hj.
      pose proof (Hap 0%nat (S j) b d eq_refl Hj ltac:(done)) as Ha. unfold apart, CTX in *. lia.
  - by apply (IH _ i).
Qed.

Lemma lookup_splice_0 {A} (src l : list A) i x :
  (length src <= length l)%nat -> src !! i = Some x -> splice 0 src l !! i = Some x.
Proof.
  intros Hl Hi. rewrite lookup_splice_in; [by rewrite Nat.sub_0_r|lia|].
  apply lookup_lt_Some in Hi. lia.
Qed.

Lemma prio_val_u8 p : 0 <= prio_val p <= U8_MAX.
Proof. unfold U8_MAX. destruct p; cbn; lia. Qed.

Lemma take_read_bytes m b k n : (k <= n)%nat -> take k (read_bytes m b n) = read_bytes m b k.
Proof.
  intros H. unfold read_bytes. rewrite firstn_map. f_equal. rewrite take_seq. f_equal. lia.
Qed.

(** The reported [eax] values, read from the buffers. *)
Lemma eax_readback m bufs ctxs :
  length ctxs = length bufs ->
  (forall i b, bufs !! i = Some b -> ctxs !! i = Some (read_bytes m b CTX)) ->
  map (fun a => le_of (read_bytes m a 4)) (drop 1 bufs) =
  map (fun c => le_of (take 4 c)) (drop 1 ctxs).
Proof.
  intros Hl Hc. assert (ctxs = map (fun b => read_bytes m b CTX) bufs) as ->.
  { apply list_eq. intros i. rewrite list_lookup_fmap.
    destruct (bufs !! i) as [b|] eqn:E; [by rewrite (Hc i b E)|].
    apply lookup_ge_None_2. apply lookup_ge_None_1 in E. lia. }
  rewrite skipn_map, map_map. apply map_ext. intros b.
  rewrite take_read_bytes; [done|]. unfold CTX. lia.
Qed.

(** What [run_multitasking] does around the code it runs: it arms the scheduler with
    every task's initial context, and reports what the run left. *)
Section Arming.
Context (p0 : Priority) (others : list (Priority * list Z)) (bufs : list Z) (s : Mt) (m : memory).
Hypothesis Lb : length bufs = S (length others).
Hypothesis L4 : (length bufs <= RING3_MT_MAX_TASKS)%nat.
Hypothesis Hap : bufs_apart bufs.
Hypothesis Hctx : Forall (fun t => length t.2 = CTX) others.
Hypothesis Lt : length (task_ctx s) = RING3_MT_MAX_TASKS.
Hypothesis Lp : length (task_priority s) = RING3_MT_MAX_TASKS.
Hypothesis Ld : length (task_done_mask s) = RING3_MT_MAX_TASKS.
Hypothesis Hpr : forall p, p ∈ task_priority s -> 0 <= p <= U8_MAX.

Definition armed_prios : list Z :=
  splice 0 (prio_val p0 :: map (fun t => prio_val t.1) others) (task_priority s).
Definition armed_abs : Abs := mk_Abs 0 (replicate RING3_MT_MAX_TASKS false) (replicate CTX 0 :: map snd others).
Definition armed_mt : Mt :=
  mk_Mt true (length bufs) 0 0 (splice 0 bufs (task_ctx s)) armed_prios (replicate RING3_MT_MAX_TASKS false).
Definition armed_mem : memory := box_contexts bufs (replicate CTX 0 :: map snd others) m.

Lemma armed_select_ok : select_ok (length bufs) armed_prios (replicate RING3_MT_MAX_TASKS false).
Proof.
  assert (Lprs : length (prio_val p0 :: map (fun t : Priority * list Z => prio_val t.1) others) = length bufs)
    by (cbn; rewrite length_map; lia).
  split.
  - unfold armed_prios. rewrite length_splice by lia. lia.
  - rewrite length_replicate. lia.
  - intros i p Hi. assert (HF : Forall (fun p => 0 <= p <= U8_MAX) armed_prios).
    { apply Forall_splice.
      - constructor; [apply prio_val_u8|]. apply List.Forall_map, List.Forall_forall. intros. apply prio_val_u8.
      - apply List.Forall_forall. intros x Hx%list_elem_of_In. by apply Hpr. }
    exact (Forall_lookup_1 _ _ _ _ HF Hi).
  - done.
Qed.

Lemma armed_refines : refines bufs armed_mt armed_mem armed_abs.
Proof.
  assert (Hc : Forall (fun c => length c = CTX) (replicate CTX 0 :: map snd others)).
  { constructor; [done|]. apply List.Forall_map. exact Hctx. }
  split; try done; cbn; try lia.
  - intros i b Hi. by apply lookup_splice_0; [lia|].
  - rewrite length_map. lia.
  - intros i b Hi. destruct (lookup_lt_is_Some_2 (replicate CTX 0 :: map snd others) i) as [c Hci].
    { apply lookup_lt_Some in Hi. cbn. rewrite length_map. lia. }
    etransitivity; [exact Hci|]. f_equal. symmetry. by apply (box_contexts_read _ _ _ i).
Qed.

Lemma run_multitasking_around f r s2 m2 :
  f (armed_mt, armed_mem) = (r, (s2, m2)) ->
  match r with
  | Ok code => forall a, refines bufs s2 m2 a -> (length bufs <= length (a_done a))%nat ->
      exists s' m', run_multitasking p0 others bufs f (s, m) =
        (Ok (code, map (fun c => le_of (take 4 c)) (drop 1 (a_ctx a)),
             take (length others) (drop 1 (a_done a)), switch_count s2), (s', m'))
  | e => exists st, run_multitasking p0 others bufs f (s, m) =
      (match e with Err x => Err x | Panic => Panic | _ => Hang end, st)
  end.
Proof.
  intros Hf.
  assert (Lprs : length (prio_val p0 :: map (fun t : Priority * list Z => prio_val t.1) others) = length bufs)
    by (cbn; rewrite length_map; lia).
  assert (Hrun : exists k, run_multitasking p0 others bufs f (s, m) =
    match f (armed_mt, armed_mem) with
    | (Ok code, s') => k code s'
    | (Err e, s') => (Err e, s') | (Panic, s') => (Panic, s') | (Hang, s') => (Hang, s')
    end /\ k = fun code => modify (set_enabled false);; s ← gets id;
      other_done ← lift (slice (task_done_mask s.1) 1 (S (length others)));
      mret (code, map (fun a => le_of (read_bytes s.2 a 4)) (drop 1 bufs), other_done, switch_count s.1)).
  { eexists. split; [|reflexivity]. unfold run_multitasking. rewrite (proj2 (Nat.ltb_ge _ _)) by lia.
    unfold mbind, M_bind, modify, gets, lift, on_mem. cbn [fst snd]. fold armed_mem.
    unfold arm_task_slots. rewrite length_zip_with, Lprs, Nat.min_id.
    rewrite (proj2 (Nat.ltb_ge _ _)) by lia.
    rewrite fst_zip, snd_zip by lia. rewrite Ld. fold armed_prios. rewrite <- Lb. fold armed_mt. done. }
  destruct Hrun as (k & E & ->). rewrite Hf in E. destruct r as [code|e| |]; [|by eexists..].
  intros a [_ _ _ _ _ Hd Hla Hcx] Hd2. rewrite E.
  unfold mbind, M_bind, modify, gets, lift, mret, M_ret, set_enabled, id. cbn [fst snd task_done_mask switch_count].
  rewrite Hd. rewrite slice_ok by lia. rewrite (eax_readback m2 bufs (a_ctx a) Hla Hcx).
  cbn [Nat.sub]. rewrite Nat.sub_0_r. by eexists _, _.
Qed.
End Arming.

(** ** Properties *)

(** C21. For any program the ring-3 side runs, given as the interrupts it takes and
    an exit code that may depend on every context it was resumed with: the kernel
    resumes each task, at each interrupt, with exactly the context the
    specification gives it, the one saved when that task was last interrupted (its
    initial context before that); the run ends, and reports the last [eax] of each
    other task, which of them retired, and the number of switches. *)
Theorem run_multitasking_refines p0 others bufs evs code s m :
  length bufs = S (length others) -> (length bufs <= RING3_MT_MAX_TASKS)%nat ->
  bufs_apart bufs -> Forall (fun t => length t.2 = CTX) others ->
  length (task_ctx s) = RING3_MT_MAX_TASKS -> length (task_priority s) = RING3_MT_MAX_TASKS ->
  length (task_done_mask s) = RING3_MT_MAX_TASKS ->
  Forall (event_ok bufs) evs -> (forall p, p ∈ task_priority s -> 0 <= p <= U8_MAX) ->
  let prios := splice 0 (prio_val p0 :: map (fun t => prio_val t.1) others) (task_priority s) in
  let init := mk_Abs 0 (replicate RING3_MT_MAX_TASKS false) (replicate CTX 0 :: map snd others) in
  task0_stays prios evs init ->
  exists log a s' m',
    abs_run prios evs init = Ok (log, a) /\
    run_multitasking p0 others bufs (log ← run_events evs; mret (code log)) (s, m) =
      (Ok (code log, map (fun c => le_of (take 4 c)) (drop 1 (a_ctx a)),
           take (length others) (drop 1 (a_done a)), u64 (Z.of_nat (length evs))), (s', m')).
Proof.
  intros Lb L4 Hap Hctx Lt Lp Ld Hev Hpr prios init Hst.
  pose proof (armed_refines p0 others bufs s m Lb L4 Hap Hctx Lt Lp Ld) as Hr1.
  destruct (run_events_refines bufs evs _ _ _ Hr1 Hap Hev) as (log & a & s2 & m2 & Ha & Hrun & Hr2 & Hs2 & Hd2).
  { by apply armed_select_ok. }
  { cbn. unfold in_u. lia. }
  { exact Hst. }
  exists log, a.
  pose proof (run_multitasking_around p0 others bufs s m Lb L4 Lt Lp Ld (log ← run_events evs; mret (code log))
    (Ok (code log)) s2 m2) as H.
  destruct H with (a := a) as (s' & m' & E); [unfold mbind, M_bind; by rewrite Hrun|done|done|].
  eexists _, _. split; [exact Ha|]. rewrite E. rewrite Hs2. cbn [switch_count armed_mt]. by rewrite Z.add_0_l.
Qed.

(** Two other tasks; the timer interrupts task 0, then task 1 retires. *)
Definition demo_others : list (Priority * list Z) :=
  [(Normal, replicate CTX 11); (Normal, replicate CTX 22)].

Definition demo_events : list event :=
  [mk_event false 9000 (replicate CTX 33) id; mk_event true 9000 (replicate CTX 44) id;
   mk_event false 9000 (replicate CTX 55) id].

Lemma demo_event_ok r regs :
  length regs = CTX -> event_ok [1000; 2000; 3000] (mk_event r 9000 regs id).
Proof.
  intros Hl. split; [done| |done]. intros [|[|[|i]]] b Hi; cbn in Hi; try discriminate;
    injection Hi as <-; unfold apart; cbn; lia.
Qed.

Lemma run_multitasking_refines_witness :
  exists log s' m',
    run_multitasking Normal demo_others [1000; 2000; 3000]
      (log ← run_events demo_events; mret (Z.of_nat (length log))) (new_mt, fun _ => 0) =
      (Ok (3, [0x2C2C2C2C; 0x37373737], [true; false], 3), (s', m')) /\
    log = [replicate CTX 11; replicate CTX 22; replicate CTX 33].
Proof.
  destruct (run_multitasking_refines Normal demo_others [1000; 2000; 3000] demo_events
    (fun log => Z.of_nat (length log)) new_mt (fun _ => 0)) as (log & a & s' & m' & Ha & Hrun).
  - reflexivity.
  - cbn. unfold RING3_MT_MAX_TASKS. lia.
  - intros [|[|[|i]]] [|[|[|j]]] a b Hi Hj Hne; cbn in Hi, Hj; try discriminate; try lia;
      injection Hi as <-; injection Hj as <-; unfold apart; lia.
  - repeat constructor.
  - reflexivity.
  - reflexivity.
  - reflexivity.
  - unfold demo_events. repeat (apply List.Forall_cons; [apply demo_event_ok; reflexivity|]).
    apply List.Forall_nil.
  - intros p Hp. cbn in Hp. unfold U8_MAX.
    repeat (apply elem_of_cons in Hp as [->|Hp]; [lia|]). by apply elem_of_nil in Hp.
  - split; [done|]. intros c1 a1 H1. vm_compute in H1. injection H1 as <- <-.
    split; [done|]. intros c2 a2 H2. vm_compute in H2. injection H2 as <- <-.
    split; [done|]. intros c3 a3 _. exact I.
  - vm_compute in Ha. injection Ha as <- <-. eexists _, s', m'. split; [exact Hrun|reflexivity].
Defined.

(** C22. A timer interrupt of ring-3 code, with the multitasking scheduler off:
    the ring-0 scheduler sees nothing, the interrupted task is resumed at once from
    a copy of exactly the 160 bytes that were saved, whether or not the
    interception moved them, and memory changes only in the saved block and the
    interception's buffer.  An interrupt of ring-0 code never touches the ring-3
    state. *)
Theorem timer_tick_transparent rpl saved rsp free t :
  (rpl = 3 -> mt_enabled (t_mt t) = false -> apart saved (rp_ctx (t_rp t)) ->
   exists p t', handle_timer_tick rpl saved rsp free t = (Ok (Resume p), t') /\
     read_bytes (pmem (t_pre t')) p CTX = read_bytes (pmem (t_pre t)) saved CTX /\
     (forall x, (x < saved \/ saved + 160 <= x) -> (x < rp_ctx (t_rp t) \/ rp_ctx (t_rp t) + 160 <= x) ->
        pmem (t_pre t') x = pmem (t_pre t) x) /\
     set_pmem (pmem (t_pre t)) (t_pre t') = t_pre t /\ t_mt t' = t_mt t /\
     timer_ticks_while_ring3 t' = u64 (timer_ticks_while_ring3 t + 1)) /\
  (rpl <> 3 -> forall r t', handle_timer_tick rpl saved rsp free t = (r, t') ->
     t_mt t' = t_mt t /\ t_rp t' = t_rp t /\ timer_ticks t' = u64 (timer_ticks t + 1) /\
     timer_ticks_while_ring3 t' = timer_ticks_while_ring3 t).
Proof.
  split.
  - intros -> Hmt Hap. unfold handle_timer_tick. change (3 =? 3) with true.
    replace (tick true free rsp (t_pre t)) with (Ok (@None Z), t_pre t)
      by (unfold tick; by rewrite orb_true_r).
    assert (Hmtick : forall p m, mt_tick p (t_mt t, m) = (Ok p, (t_mt t, m))).
    { intros p m. unfold mt_tick, mbind, M_bind, gets. cbn [fst]. by rewrite Hmt. }
    assert (Hset : forall m, set_pmem (pmem (t_pre t)) (set_pmem m (t_pre t)) = t_pre t)
      by (intros m; by destruct (t_pre t)).
    unfold rp_tick. destruct (negb (rp_enabled (t_rp t))); [|destruct (rp_hit (t_rp t))];
      rewrite Hmtick; cbn [fmap res_map]; (eexists _, _; split; [reflexivity|]);
      cbn [t_pre t_mt timer_ticks_while_ring3]; rewrite Hset; cbn [pmem set_pmem]; try done.
    split; [by apply park_read_dest|]. split; [|done]. intros x H1 H2. unfold park.
    rewrite !write_bytes_out; [done| |]; rewrite ?length_read_bytes, ?length_replicate; done.
  - intros Hr r t' H. unfold handle_timer_tick in H. rewrite (proj2 (Z.eqb_neq rpl 3) Hr) in H.
    destruct (tick false free rsp (t_pre t)) as [[o|e| |] pre]; by injection H as <- <-.
Qed.

Lemma timer_tick_transparent_witness :
  let t := mk_Timer 0 0 (new_preempt new_sched (fun a => a mod 7)) (mk_Rp true false 5000) new_mt in
  exists p t', handle_timer_tick 3 9000 800 true t = (Ok (Resume p), t') /\
    read_bytes (pmem (t_pre t')) p CTX = read_bytes (fun a => a mod 7) 9000 CTX.
Proof.
  intros t. destruct (timer_tick_transparent 3 9000 800 true t) as [H _].
  destruct H as (p & t' & H1 & H2 & _); [done|done|unfold apart; cbn; lia|]. by exists p, t'.
Defined.
