(* ===== verification/Ring3Prog.v ===== *)
(** * Ring3Prog: the machine code of the ring-3 programs (the builders of [ring3.rs])

    Each builder fills a byte array that the kernel copies into a user page.  A
    [listing] is such an array cut into instructions; running a program by its
    listing ([lstep]) is running its bytes on X64 ([ustep_listed]), in any memory
    that holds them.  The programs' results follow from their listings.  The
    header parser of programs loaded from disk is here too. *)
From stdpp Require Import base list numbers strings.
From Stdlib Require Import Lia FunctionalExtensionality.
From S2P Require Import Prelude Mem X64.
Open Scope Z_scope.

(** ** The builders *)

(** The writes of a builder, in order, on a zeroed [n]-byte array. *)
Definition emit (n : nat) (ws : list (Z * list Z)) : list Z :=
  foldl (fun p w => splice (Z.to_nat w.1) w.2 p) (replicate n 0) ws.

Inductive ProgramEnding := ExitViaInt81 | RetireViaInt84 | SpinForever.

Definition build_ring3_mt_checksum_program (register_prefix loop_count : Z) (ending : ProgramEnding) : list Z :=
  emit 46 [
    (0, [0xB8]); (1, le_bytes 4 register_prefix);
    (5, [0xB9]); (6, le_bytes 4 (u32 (register_prefix + 1)));
    (10, [0xBA]); (11, le_bytes 4 (u32 (register_prefix + 2)));
    (15, [0xBE]); (16, le_bytes 4 (u32 (register_prefix + 3)));
    (20, [0xBF]); (21, le_bytes 4 (u32 (register_prefix + 4)));
    (25, [0x41]); (26, [0xB8]); (27, le_bytes 4 loop_count);
    (31, [0x41]); (32, [0xFF]); (33, [0xC8]);
    (34, [0x75]); (35, [0xFB]);
    (36, [0x31]); (37, [0xC8]); (38, [0x31]); (39, [0xD0]);
    (40, [0x31]); (41, [0xF0]); (42, [0x31]); (43, [0xF8]);
    (44, match ending with ExitViaInt81 | RetireViaInt84 => [0xCD] | SpinForever => [0xEB] end);
    (45, match ending with ExitViaInt81 => [0x81] | RetireViaInt84 => [0x84] | SpinForever => [0xFE] end)].

Definition build_voluntary_yield_program (register_prefix loop_before loop_after : Z) : list Z :=
  emit 46 [
    (0, [0xB8]); (1, le_bytes 4 register_prefix);
    (5, [0x41]); (6, [0xB8]); (7, le_bytes 4 loop_before);
    (11, [0x41]); (12, [0xFF]); (13, [0xC8]); (14, [0x75]); (15, [0xFB]);
    (16, [0xB8]); (17, le_bytes 4 (u32 (register_prefix + 1)));
    (21, [0xCD]); (22, [0x86]);
    (23, [0xB8]); (24, le_bytes 4 (u32 (register_prefix + 2)));
    (28, [0x41]); (29, [0xB8]); (30, le_bytes 4 loop_after);
    (34, [0x41]); (35, [0xFF]); (36, [0xC8]); (37, [0x75]); (38, [0xFB]);
    (39, [0xB8]); (40, le_bytes 4 (u32 (register_prefix + 3)));
    (44, [0xCD]); (45, [0x84])].

(** The [assert!] on the displacement is a panic. *)
Definition build_coop_task_prologue (task_id sig_addr : Z) (prologue_offset shared_body_offset : nat)
    : res (list Z) :=
  let next_ip := (prologue_offset + 14)%nat in
  let rel8 := Z.of_nat shared_body_offset - Z.of_nat next_ip in
  if (0 <=? rel8) && (rel8 <=? 127) then
    Ok (emit 16 [
      (0, [0x49]); (1, [0xBC]); (2, le_bytes 8 sig_addr);
      (10, [0xB3]); (11, [task_id]);
      (12, [0xEB]); (13, [u8 rel8])])
  else Panic.

Definition RING3_COOP_SHARED_BODY_OFFSET : nat := 48.
Definition RING3_COOP_TASK0_ENTRY_OFFSET : nat := 0.
Definition RING3_COOP_TASK1_ENTRY_OFFSET : nat := 16.
Definition RING3_COOP_TASK2_ENTRY_OFFSET : nat := 32.

(** Write a character, yield, write the completion marker, exit. *)
Definition yield_body : list Z :=
  [0x8A; 0xC3; 0x04; 0x41; 0x41; 0x88; 0x04; 0x1C; 0xCD; 0x83; 0x8A; 0xC3; 0x04; 0x58;
   0x41; 0x88; 0x44; 0x24; 0x03; 0xB8; 0x2A; 0x00; 0x00; 0x00; 0xCD; 0x82].

(** Write a character and retire. *)
Definition retire_body : list Z := [0x8A; 0xC3; 0x04; 0x41; 0x41; 0x88; 0x04; 0x1C; 0xCD; 0x85].

Definition build_cooperative_test_program (sig_addr : Z) : res (list Z) :=
  prologue0 ← build_coop_task_prologue 0 sig_addr RING3_COOP_TASK0_ENTRY_OFFSET RING3_COOP_SHARED_BODY_OFFSET;
  prologue1 ← build_coop_task_prologue 1 sig_addr RING3_COOP_TASK1_ENTRY_OFFSET RING3_COOP_SHARED_BODY_OFFSET;
  prologue2 ← build_coop_task_prologue 2 sig_addr RING3_COOP_TASK2_ENTRY_OFFSET RING3_COOP_SHARED_BODY_OFFSET;
  Ok (emit (RING3_COOP_SHARED_BODY_OFFSET + 26) [
    (Z.of_nat RING3_COOP_TASK0_ENTRY_OFFSET, prologue0); (Z.of_nat RING3_COOP_TASK1_ENTRY_OFFSET, prologue1);
    (Z.of_nat RING3_COOP_TASK2_ENTRY_OFFSET, prologue2); (Z.of_nat RING3_COOP_SHARED_BODY_OFFSET, yield_body)]).

Definition build_disk_loaded_program (data_addr : Z) : list Z :=
  emit 31 [
    (0, [0x49]); (1, [0xBC]); (2, le_bytes 8 data_addr);
    (10, [0xB8]); (11, [0x01]); (12, [0x00]); (13, [0x00]); (14, [0x00]);
    (15, [0xCD]); (16, [0x80]);
    (17, [0xB0]); (18, [0x99]);
    (19, [0x41]); (20, [0x88]); (21, [0x04]); (22, [0x24]);
    (23, [0xB8]); (24, [0x2A]); (25, [0x00]); (26, [0x00]); (27, [0x00]);
    (28, [0xCD]); (29, [0x81]); (30, [0xFA])].

(** ** The header of a program on disk *)

Definition PROGRAM_MAGIC : list Z := [0x41; 0x47; 0x50; 0x31].
Definition PROGRAM_HEADER_LEN : nat := 12.

Record ProgramHeader := mk_ProgramHeader { code_len : Z; data_len : Z }.

Definition parse_program_header (bytes : list Z) : res (ProgramHeader * list Z * list Z) :=
  if (length bytes <? PROGRAM_HEADER_LEN)%nat then Err "parse_program_header: buffer shorter than the header itself"
  else
    magic ← slice bytes 0 4;
    if negb (bool_decide (magic = PROGRAM_MAGIC)) then Err "parse_program_header: bad magic"
    else
      c ← slice bytes 4 8;
      d ← slice bytes 8 12;
      let code_len := le_of c in
      let data_len := le_of d in
      match n ← checked_add 64 (Z.of_nat PROGRAM_HEADER_LEN) code_len; checked_add 64 n data_len with
      | None => Err "parse_program_header: declared lengths overflow"
      | Some expected_total =>
          if negb (Z.of_nat (length bytes) =? expected_total) then
            Err "parse_program_header: declared lengths don't match the real buffer size"
          else
            let code_end := (PROGRAM_HEADER_LEN + Z.to_nat code_len)%nat in
            code ← slice bytes PROGRAM_HEADER_LEN code_end;
            data ← slice bytes code_end (length bytes);
            Ok (mk_ProgramHeader code_len data_len, code, data)
      end.

(** ** Listings *)

(** The instructions of a program with their bytes. *)
Definition listing : Type := list (list Z * uinstr).

Definition bytes_of (L : listing) : list Z := concat (map fst L).

(** Every entry decodes to its instruction and uses all its bytes. *)
Definition listed (L : listing) : Prop :=
  Forall (fun e => (0 < length e.1 <= 12)%nat /\ forall tl, decode (e.1 ++ tl) = Some (e.2, Z.of_nat (length e.1))) L.

(** The instruction at offset [k], with its length. *)
Fixpoint at_offset (L : listing) (k : nat) : option (uinstr * nat) :=
  match L with
  | [] => None
  | (bs, i) :: r =>
      if (k =? 0)%nat then Some (i, length bs)
      else if (k <? length bs)%nat then None else at_offset r (k - length bs)
  end.

Lemma at_offset_spec L k i n :
  listed L -> at_offset L k = Some (i, n) ->
  exists bs rest, drop k (bytes_of L) = bs ++ rest /\ length bs = n /\ (0 < n <= 12)%nat /\
    forall tl, decode (bs ++ tl) = Some (i, Z.of_nat n).
Proof.
  intros HL. revert k. induction HL as [|[bs j] L [Hb Hd] HL IH]; intros k H; [done|].
  cbn [at_offset] in H. cbn [fst snd] in *. unfold bytes_of. cbn [map concat fst].
  destruct (k =? 0)%nat eqn:Hk; unbool.
  - injection H as <- <-. subst k. by exists bs, (concat (map fst L)).
  - destruct (Nat.ltb_spec k (length bs)); [done|].
    destruct (IH _ H) as (bs' & rest & E & Hn & Hl & Hd'). exists bs', rest.
    split; [|done]. rewrite <- E, drop_app_ge by lia. done.
Qed.

(** A task as its own program sees it: registers and instruction pointer. *)
Definition vcpu : Type := (reg -> Z) * Z.

Definition on_cpu (v : vcpu) (m : Z -> Z) : Cpu := mk_Cpu v.1 v.2 m.
Definition vcpu_of (c : Cpu) : vcpu := (regs c, rip c).

Inductive lout := LStep (v : vcpu) | LTrap (vector : Z) (v : vcpu) | LFault.

(** One instruction of the program at [code], by its listing. *)
Definition lstep (L : listing) (code : Z) (v : vcpu) : lout :=
  match at_offset L (Z.to_nat (v.2 - code)) with
  | None => LFault
  | Some (i, n) =>
      let v' := (v.1, u64 (v.2 + Z.of_nat n)) in
      match i with
      | UInt vec => LTrap vec v'
      | UCli | UStore8 _ _ _ _ => LFault
      | _ => LStep (vcpu_of (uexec i (on_cpu v' (fun _ => 0))))
      end
  end.

Fixpoint lrun (L : listing) (code : Z) (n : nat) (v : vcpu) : lout :=
  match n with
  | O => LStep v
  | S n => match lstep L code v with LStep v' => lrun L code n v' | o => o end
  end.

(** An outcome of the listing, in memory [m]. *)
Definition in_mem (m : Z -> Z) (o : lout) (x : outcome) : Prop :=
  match o with
  | LStep v => x = Step (on_cpu v m)
  | LTrap vec v => x = Trap vec (on_cpu v m)
  | LFault => True
  end.

(** An instruction that does not store neither reads nor changes memory. *)
Lemma uexec_mem i v m :
  (forall b x d s, i <> UStore8 b x d s) ->
  uexec i (on_cpu v m) = on_cpu (vcpu_of (uexec i (on_cpu v (fun _ => 0)))) m.
Proof.
  intros Hs. destruct i; cbn -[Z.testbit]; try done; try (by destruct (Hs base index disp src)).
  by destruct (Z.testbit _ 6), v.
Qed.

(** Running the listing is running the bytes. *)
Lemma ustep_listed L code v m :
  listed L -> installed m code (bytes_of L) -> code <= v.2 -> in_mem m (lstep L code v) (ustep (on_cpu v m)).
Proof.
  intros HL Hm Hc. unfold lstep. destruct (at_offset L (Z.to_nat (v.2 - code))) as [[i n]|] eqn:E; [|done].
  destruct (at_offset_spec L _ i n HL E) as (bs & rest & Hd & Hl & Hn & Hdec).
  destruct (fetch m code (bytes_of L) (Z.to_nat (v.2 - code)) bs rest Hm Hd) as [tl Hf]; [lia|].
  replace (code + Z.of_nat (Z.to_nat (v.2 - code))) with v.2 in Hf by lia.
  unfold ustep. cbn [on_cpu rip cmem regs]. rewrite Hf, Hdec.
  pose proof (uexec_mem i (v.1, u64 (v.2 + Z.of_nat n)) m) as Hu. unfold on_cpu in Hu.
  destruct i; cbn [fst snd in_mem] in *; try done; by rewrite Hu.
Qed.

Lemma urun_listed L code m n v :
  listed L -> installed m code (bytes_of L) -> code <= v.2 ->
  (forall k v', lrun L code k v = LStep v' -> code <= v'.2) ->
  in_mem m (lrun L code n v) (urun n (on_cpu v m)).
Proof.
  intros HL Hm. revert v. induction n as [|n IH]; intros v Hc Hk; [done|].
  cbn [lrun urun]. pose proof (ustep_listed L code v m HL Hm Hc) as Hs.
  destruct (lstep L code v) as [v'|vec v'|] eqn:E; cbn in Hs; [|by rewrite Hs|done].
  rewrite Hs. apply IH.
  - apply (Hk 1%nat). cbn. by rewrite E.
  - intros k v'' H. apply (Hk (S k)). cbn. by rewrite E.
Qed.

(** ** Running a listing *)

(** An instruction that goes on to the next one. *)
Definition straight (i : uinstr) : bool :=
  match i with UMov _ _ | UMov8 _ _ | UMov8R _ _ | UAdd8 _ _ | UDec _ | UAdd _ _ | UXor _ _ => true | _ => false end.

(** What a straight instruction makes of the registers. *)
Definition effect (i : uinstr) (f : reg -> Z) : reg -> Z := regs (uexec i (mk_Cpu f 0 (fun _ => 0))).

Section Runs.
Context (L : listing) (code : Z).
Hypothesis Hcode : 0 <= code.
Hypothesis Hend : code + Z.of_nat (length (bytes_of L)) < 2 ^ 64.

(** The state at offset [k] with registers [f]. *)
Definition at_pc (k : nat) (f : reg -> Z) : vcpu := (f, code + Z.of_nat k).

Lemma at_offset_end k i n : at_offset L k = Some (i, n) -> (k + n <= length (bytes_of L))%nat.
Proof.
  clear Hend. revert k. induction L as [|[bs j] L' IH]; intros k H; [done|].
  cbn [at_offset] in H. unfold bytes_of. cbn [map concat fst]. rewrite length_app.
  destruct (k =? 0)%nat eqn:Hk; unbool.
  - injection H as <- <-. lia.
  - destruct (Nat.ltb_spec k (length bs)); [done|]. specialize (IH _ H). unfold bytes_of in IH. lia.
Qed.

Lemma next_pc k i n :
  at_offset L k = Some (i, n) -> u64 (code + Z.of_nat k + Z.of_nat n) = code + Z.of_nat (k + n).
Proof.
  intros H%at_offset_end. rewrite Nat2Z.inj_add, Z.add_assoc. apply wrap_id. unfold in_u. lia.
Qed.

Lemma lstep_at k f i n :
  at_offset L k = Some (i, n) ->
  lstep L code (at_pc k f) =
    match i with
    | UInt vec => LTrap vec (at_pc (k + n) f)
    | UCli | UStore8 _ _ _ _ => LFault
    | _ => LStep (vcpu_of (uexec i (on_cpu (at_pc (k + n) f) (fun _ => 0))))
    end.
Proof.
  intros H. unfold lstep, at_pc. cbn [fst snd].
  replace (Z.to_nat (code + Z.of_nat k - code)) with k by lia. rewrite H.
  by rewrite (next_pc k i n H).
Qed.

Lemma lrun_straight k f i n m :
  at_offset L k = Some (i, n) -> straight i = true ->
  lrun L code (S m) (at_pc k f) = lrun L code m (at_pc (k + n) (effect i f)).
Proof. intros H Hs. cbn [lrun]. rewrite (lstep_at k f i n H). by destruct i. Qed.

Lemma lrun_jnz k f rel n m j :
  at_offset L k = Some (UJnz rel, n) -> Z.of_nat (k + n) + rel = Z.of_nat j -> (j <= length (bytes_of L))%nat ->
  lrun L code (S m) (at_pc k f) = lrun L code m (at_pc (if Z.testbit (f RFLAGS) 6 then k + n else j)%nat f).
Proof.
  intros H Hj Hl. cbn [lrun]. rewrite (lstep_at k f _ n H). unfold uexec, at_pc, on_cpu, jump, vcpu_of.
  cbn [fst snd regs rip]. destruct (Z.testbit (f RFLAGS) 6); [done|]. cbn [regs rip].
  replace (code + Z.of_nat (k + n) + rel) with (code + Z.of_nat j) by lia.
  rewrite wrap_id by (unfold in_u; lia). done.
Qed.

Lemma lrun_jmp k f rel n m j :
  at_offset L k = Some (UJmp rel, n) -> Z.of_nat (k + n) + rel = Z.of_nat j -> (j <= length (bytes_of L))%nat ->
  lrun L code (S m) (at_pc k f) = lrun L code m (at_pc j f).
Proof.
  intros H Hj Hl. cbn [lrun]. rewrite (lstep_at k f _ n H). unfold uexec, at_pc, on_cpu, jump, vcpu_of.
  cbn [fst snd regs rip]. replace (code + Z.of_nat (k + n) + rel) with (code + Z.of_nat j) by lia.
  rewrite wrap_id by (unfold in_u; lia). done.
Qed.

(** Registers other than [rs] are as before. *)
Definition same_but (rs : list reg) (f g : reg -> Z) : Prop := forall r, r ∉ rs -> g r = f r.

Lemma effect_dec d f r : r <> d -> r <> RFLAGS -> effect (UDec d) f r = f r.
Proof. intros H1 H2. unfold effect, uexec, put32. cbn [regs]. by rewrite !set_reg_other. Qed.

Lemma effect_xor d s f r : r <> d -> r <> RFLAGS -> effect (UXor d s) f r = f r.
Proof. intros H1 H2. unfold effect, uexec, put32. cbn [regs]. by rewrite !set_reg_other. Qed.

Lemma effect_xor_val s f : effect (UXor RAX s) f RAX = u32 (Z.lxor (f RAX) (f s)).
Proof. unfold effect, uexec, put32. cbn [regs]. by rd. Qed.

Lemma testbit_set_zf z f : Z.testbit (set_zf z f) 6 = z.
Proof. unfold set_zf. destruct z; [by apply Z.setbit_eq|by apply Z.clearbit_eq]. Qed.

Lemma effect_dec_zf d f : d <> RFLAGS -> Z.testbit (effect (UDec d) f RFLAGS) 6 = (u32 (f d - 1) =? 0).
Proof. intros H. unfold effect, uexec, put32. cbn [regs]. rewrite set_reg_same. by rewrite testbit_set_zf. Qed.

Lemma effect_dec_val d f : d <> RFLAGS -> effect (UDec d) f d = u32 (f d - 1).
Proof. intros H. unfold effect, uexec, put32. cbn [regs]. rewrite set_reg_other by done. by rewrite set_reg_same. Qed.

(** How often [dec r32; jnz] goes round from a counter. *)
Definition rounds (n : Z) : Z := if n =? 0 then 2 ^ 32 else n.

(** The counting loop: it ends, with the counter at 0. *)
Lemma spin d k a b f n :
  d <> RFLAGS -> at_offset L k = Some (UDec d, a) -> at_offset L (k + a) = Some (UJnz (- Z.of_nat (a + b)), b) ->
  in_u 32 (f d) -> Z.of_nat n = rounds (f d) ->
  exists g, (forall m, lrun L code (2 * n + m) (at_pc k f) = lrun L code m (at_pc (k + a + b) g)) /\
    g d = 0 /\ same_but [d; RFLAGS] f g.
Proof.
  intros Hd Ha Hb. revert f. induction n as [|n IH]; intros f Hf Hn.
  { unfold rounds in Hn. unfold in_u in Hf. destruct (Z.eqb_spec (f d) 0); lia. }
  pose proof (at_offset_end _ _ _ Hb) as He.
  assert (Hround : forall m, lrun L code (2 * S n + m) (at_pc k f) =
    lrun L code (2 * n + m) (at_pc (if u32 (f d - 1) =? 0 then (k + a + b)%nat else k) (effect (UDec d) f))).
  { intros m. replace (2 * S n + m)%nat with (S (S (2 * n + m))) by lia.
    rewrite (lrun_straight k f _ a _ Ha) by done.
    rewrite (lrun_jnz (k + a) _ _ b _ k Hb) by lia. by rewrite effect_dec_zf. }
  assert (Hu : u32 (f d - 1) = if f d =? 0 then 2 ^ 32 - 1 else f d - 1).
  { destruct (Z.eqb_spec (f d) 0) as [->|]; [done|]. apply wrap_id. unfold in_u in *. lia. }
  destruct (decide (n = 0)%nat) as [->|Hn0].
  - exists (effect (UDec d) f). assert (f d = 1) as E.
    { unfold rounds in Hn. destruct (Z.eqb_spec (f d) 0); lia. }
    assert (u32 (f d - 1) = 0) as Ez by (by rewrite E). split; [|split].
    + intros m. rewrite Hround, Ez. done.
    + by rewrite effect_dec_val.
    + intros r Hr. apply not_elem_of_cons in Hr as [H1 Hr]. apply not_elem_of_cons in Hr as [H2 _].
      by apply effect_dec.
  - destruct (IH (effect (UDec d) f)) as (g & Hg & G1 & G2).
    + rewrite effect_dec_val by done. by apply wrap_in_u.
    + rewrite effect_dec_val, Hu by done. unfold rounds in *. unfold in_u in Hf.
      destruct (Z.eqb_spec (f d) 0) as [E|E]; [|destruct (Z.eqb_spec (f d - 1) 0); lia].
      change (2 ^ 32 - 1 =? 0) with false. cbn iota. lia.
    + exists g. split; [|split; [done|]].
      * intros m. rewrite Hround. replace (u32 (f d - 1) =? 0) with false; [apply Hg|].
        symmetry. apply Z.eqb_neq. rewrite Hu. unfold rounds in Hn. destruct (Z.eqb_spec (f d) 0); lia.
      * intros r Hr. rewrite G2 by done. apply not_elem_of_cons in Hr as [H1 Hr].
        apply not_elem_of_cons in Hr as [H2 _]. by apply effect_dec.
Qed.
End Runs.

(** ** The checksum program *)

Definition ending_entry (e : ProgramEnding) : list Z * uinstr :=
  match e with
  | ExitViaInt81 => ([0xCD; 0x81], UInt 0x81)
  | RetireViaInt84 => ([0xCD; 0x84], UInt 0x84)
  | SpinForever => ([0xEB; 0xFE], UJmp (-2))
  end.

Definition mov32 (op : Z) (dst : reg) (v : Z) : list Z * uinstr := (op :: le_bytes 4 v, UMov dst v).
Definition mov_r8d (v : Z) : list Z * uinstr := (0x41 :: 0xB8 :: le_bytes 4 v, UMov R8 v).
Definition dec_r8d : list Z * uinstr := ([0x41; 0xFF; 0xC8], UDec R8).
Definition jnz_dec : list Z * uinstr := ([0x75; 0xFB], UJnz (-5)).

Definition checksum_listing (p n : Z) (e : ProgramEnding) : listing :=
  [mov32 0xB8 RAX p; mov32 0xB9 RCX (u32 (p + 1)); mov32 0xBA RDX (u32 (p + 2));
   mov32 0xBE RSI (u32 (p + 3)); mov32 0xBF RDI (u32 (p + 4)); mov_r8d n;
   dec_r8d; jnz_dec;
   ([0x31; 0xC8], UXor RAX RCX); ([0x31; 0xD0], UXor RAX RDX);
   ([0x31; 0xF0], UXor RAX RSI); ([0x31; 0xF8], UXor RAX RDI);
   ending_entry e].

Lemma checksum_bytes p n e : build_ring3_mt_checksum_program p n e = bytes_of (checksum_listing p n e).
Proof. by destruct e. Qed.

Lemma length_checksum p n e : length (bytes_of (checksum_listing p n e)) = 46%nat.
Proof. by destruct e. Qed.

Lemma le_bytes_4 v : in_u 32 v -> exists a b c d, le_bytes 4 v = [a; b; c; d] /\ le_of [a; b; c; d] = v.
Proof.
  intros Hv. eexists _, _, _, _. split; [reflexivity|].
  change (le_of (le_bytes 4 v) = v). by apply le_round.
Qed.

Lemma le_bytes_8 v :
  in_u 64 v -> exists a b c d e f g h, le_bytes 8 v = [a; b; c; d; e; f; g; h] /\ le_of [a; b; c; d; e; f; g; h] = v.
Proof.
  intros Hv. eexists _, _, _, _, _, _, _, _. split; [reflexivity|].
  change (le_of (le_bytes 8 v) = v). by apply le_round.
Qed.

Lemma decode_mov32 op dst v tl :
  in_u 32 v -> (op, dst) ∈ [(0xB8, RAX); (0xB9, RCX); (0xBA, RDX); (0xBE, RSI); (0xBF, RDI)] ->
  decode ((op :: le_bytes 4 v) ++ tl) = Some (UMov dst v, 5).
Proof.
  intros Hv Ho. destruct (le_bytes_4 v Hv) as (a & b & c & d & -> & <-).
  repeat (apply elem_of_cons in Ho as [[= -> ->]|Ho]; [reflexivity|]). by apply elem_of_nil in Ho.
Qed.

Lemma decode_mov_r8d v tl :
  in_u 32 v -> decode ((0x41 :: 0xB8 :: le_bytes 4 v) ++ tl) = Some (UMov R8 v, 6).
Proof. intros Hv. destruct (le_bytes_4 v Hv) as (a & b & c & d & -> & <-). reflexivity. Qed.

(** Splits [listed] into its entries. *)
Ltac listing := repeat (apply List.Forall_cons; [split; [cbn; lia|intros tl]|]); [..|apply List.Forall_nil].

Lemma checksum_listed p n e : in_u 32 p -> in_u 32 n -> listed (checksum_listing p n e).
Proof.
  intros Hp Hn. destruct e; listing; cbn [fst snd mov32 mov_r8d dec_r8d jnz_dec ending_entry];
    first [reflexivity|by apply decode_mov_r8d|apply decode_mov32;
      [first [exact Hp|by apply wrap_in_u]|repeat constructor]].
Qed.

Lemma in_u_lxor w a b : 0 <= w -> in_u w a -> in_u w b -> in_u w (Z.lxor a b).
Proof.
  intros Hw Ha Hb. unfold in_u in *. split; [apply Z.lxor_nonneg; lia|].
  destruct (Z.eq_dec (Z.lxor a b) 0) as [->|Hne]; [lia|].
  assert (0 <= Z.lxor a b) by (apply Z.lxor_nonneg; lia).
  apply Z.log2_lt_pow2; [lia|]. destruct (Z.eq_dec w 0) as [->|Hw0]; [|].
  { assert (a = 0) as -> by lia. assert (b = 0) as -> by lia. done. }
  pose proof (Z.log2_lxor a b ltac:(lia) ltac:(lia)).
  assert (Hl : forall z, 0 <= z < 2 ^ w -> Z.log2 z < w).
  { intros z Hz. destruct (Z.eq_dec z 0) as [->|]; [cbn; lia|]. apply Z.log2_lt_pow2; lia. }
  pose proof (Hl a Ha). pose proof (Hl b Hb). lia.
Qed.

Lemma wrap_lxor a b : in_u 32 a -> in_u 32 b -> u32 (Z.lxor a b) = Z.lxor a b.
Proof. intros Ha Hb. apply wrap_id, in_u_lxor; [lia|done|done]. Qed.

(** The exclusive or of the five register values. *)
Definition checksum (p : Z) : Z :=
  Z.lxor (Z.lxor (Z.lxor (Z.lxor p (u32 (p + 1))) (u32 (p + 2))) (u32 (p + 3))) (u32 (p + 4)).

Lemma checksum_aligned p : in_u 32 p -> p mod 8 = 0 -> checksum p = p + 4.
Proof.
  intros Hp H8. unfold checksum.
  assert (Hx : forall i, 0 <= i < 8 -> u32 (p + i) = Z.lxor p i).
  { intros i Hi. rewrite wrap_id by (unfold in_u in *; div_lia).
    apply Z.add_nocarry_lxor. rewrite (Z.div_mod p 8), H8, Z.add_0_r, Z.mul_comm by lia.
    by apply (land_shifted_low 3). }
  rewrite !Hx by lia. rewrite <- (wrap_id 32 (p + 4)) by (unfold in_u in *; div_lia). rewrite Hx by lia.
  change 3 with (Z.lxor 1 2). apply Z.bits_inj'. intros k Hk. rewrite !Z.lxor_spec.
  by destruct (Z.testbit p k), (Z.testbit 1 k), (Z.testbit 2 k), (Z.testbit 4 k).
Qed.

Section Checksum.
Context (p n : Z) (e : ProgramEnding) (code : Z).
Hypothesis Hp : in_u 32 p.
Hypothesis Hn : in_u 32 n.
Hypothesis Hcode : 0 <= code < 2 ^ 64 - 46.

Let L := checksum_listing p n e.

Lemma checksum_end : code + Z.of_nat (length (bytes_of L)) < 2 ^ 64.
Proof. unfold L. rewrite length_checksum. lia. Qed.

(** The registers once the loop is entered, and the five that are summed. *)
Definition loaded (f : reg -> Z) : reg -> Z :=
  effect (UMov R8 n) (effect (UMov RDI (u32 (p + 4))) (effect (UMov RSI (u32 (p + 3)))
    (effect (UMov RDX (u32 (p + 2))) (effect (UMov RCX (u32 (p + 1))) (effect (UMov RAX p) f))))).

Definition summed (g : reg -> Z) : reg -> Z :=
  effect (UXor RAX RDI) (effect (UXor RAX RSI) (effect (UXor RAX RDX) (effect (UXor RAX RCX) g))).

Lemma checksum_run f :
  exists g, (forall m, lrun L code (10 + 2 * Z.to_nat (rounds n) + m) (at_pc code 0 f) = lrun L code m (at_pc code 44 g)) /\
    g RAX = checksum p /\ same_but [RAX; RCX; RDX; RSI; RDI; R8; RFLAGS] f g.
Proof.
  pose proof checksum_end as He. destruct Hcode as [Hc _].
  destruct (spin L code Hc He R8 31 3 2 (loaded f) (Z.to_nat (rounds n))) as (g & Hg & G1 & G2); try done.
  { change (loaded f R8) with n. unfold rounds, in_u in *. destruct (Z.eqb_spec n 0); lia. }
  exists (summed g). split; [|split].
  - intros m. replace (10 + 2 * Z.to_nat (rounds n) + m)%nat with (6 + (2 * Z.to_nat (rounds n) + (4 + m)))%nat by lia.
    change (6 + (2 * Z.to_nat (rounds n) + (4 + m)))%nat with (S (S (S (S (S (S (2 * Z.to_nat (rounds n) + (4 + m)))))))).
    do 6 (erewrite (lrun_straight L code Hc He); [|reflexivity|reflexivity]). cbn [Nat.add].
    fold (loaded f). rewrite Hg. cbn [Nat.add].
    by do 4 (erewrite (lrun_straight L code Hc He); [|reflexivity|reflexivity]).
  - assert (Hg' : forall r, r ∉ [R8; RFLAGS] -> g r = loaded f r) by apply G2.
    unfold summed, checksum. rewrite !effect_xor_val. rewrite !effect_xor by done.
    rewrite !Hg' by (repeat (apply not_elem_of_cons; split; [done|]); apply not_elem_of_nil).
    change (loaded f RAX) with p. change (loaded f RCX) with (u32 (p + 1)). change (loaded f RDX) with (u32 (p + 2)).
    change (loaded f RSI) with (u32 (p + 3)). change (loaded f RDI) with (u32 (p + 4)).
    assert (Hu : forall z, in_u 32 (u32 z)) by (intros z; by apply wrap_in_u).
    by rewrite !wrap_lxor by (first [exact Hp|apply Hu]).
  - intros r Hr. repeat (apply not_elem_of_cons in Hr as [? Hr]). unfold summed, effect, uexec, put32. cbn [regs].
    rewrite !set_reg_other by done. rewrite G2 by (repeat (apply not_elem_of_cons; split; [done|]); apply not_elem_of_nil).
    unfold loaded, effect, uexec. cbn [regs]. by rewrite !set_reg_other by done.
Qed.
End Checksum.

(** ** The voluntary yield program *)

Definition voluntary_listing (p a b : Z) : listing :=
  [mov32 0xB8 RAX p; mov_r8d a; dec_r8d; jnz_dec; mov32 0xB8 RAX (u32 (p + 1));
   ([0xCD; 0x86], UInt 0x86);
   mov32 0xB8 RAX (u32 (p + 2)); mov_r8d b; dec_r8d; jnz_dec; mov32 0xB8 RAX (u32 (p + 3));
   ([0xCD; 0x84], UInt 0x84)].

Lemma voluntary_bytes p a b : build_voluntary_yield_program p a b = bytes_of (voluntary_listing p a b).
Proof. done. Qed.

Lemma voluntary_listed p a b : in_u 32 p -> in_u 32 a -> in_u 32 b -> listed (voluntary_listing p a b).
Proof.
  intros Hp Ha Hb. listing; cbn [fst snd mov32 mov_r8d dec_r8d jnz_dec];
    first [reflexivity|by apply decode_mov_r8d|apply decode_mov32;
      [first [exact Hp|by apply wrap_in_u]|repeat constructor]].
Qed.

Section Voluntary.
Context (p a b : Z) (code : Z).
Hypothesis Hp : in_u 32 p.
Hypothesis Ha : in_u 32 a.
Hypothesis Hb : in_u 32 b.
Hypothesis Hcode : 0 <= code < 2 ^ 64 - 46.

Let L := voluntary_listing p a b.

Lemma voluntary_end : code + Z.of_nat (length (bytes_of L)) < 2 ^ 64.
Proof. change (length (bytes_of L)) with 46%nat. lia. Qed.

Lemma rounds_nat n : in_u 32 n -> Z.of_nat (Z.to_nat (rounds n)) = rounds n.
Proof. unfold rounds, in_u. intros. destruct (Z.eqb_spec n 0); lia. Qed.

(** Up to the yield, and from there to the retirement. *)
Lemma voluntary_run_1 f :
  exists g, (forall m, lrun L code (3 + 2 * Z.to_nat (rounds a) + m) (at_pc code 0 f) = lrun L code m (at_pc code 21 g)) /\
    g RAX = u32 (p + 1).
Proof.
  pose proof voluntary_end as He. destruct Hcode as [Hc _].
  destruct (spin L code Hc He R8 11 3 2 (effect (UMov R8 a) (effect (UMov RAX p) f)) (Z.to_nat (rounds a)))
    as (g & Hg & _); try done; [by apply rounds_nat|].
  exists (effect (UMov RAX (u32 (p + 1))) g). split; [|done]. intros m.
  replace (3 + 2 * Z.to_nat (rounds a) + m)%nat with (S (S (2 * Z.to_nat (rounds a) + S m))) by lia.
  do 2 (erewrite (lrun_straight L code Hc He); [|reflexivity|reflexivity]). cbn [Nat.add]. rewrite Hg.
  by erewrite (lrun_straight L code Hc He); [|reflexivity|reflexivity].
Qed.

Lemma voluntary_run_2 f :
  exists g, (forall m, lrun L code (3 + 2 * Z.to_nat (rounds b) + m) (at_pc code 23 f) = lrun L code m (at_pc code 44 g)) /\
    g RAX = u32 (p + 3).
Proof.
  pose proof voluntary_end as He. destruct Hcode as [Hc _].
  destruct (spin L code Hc He R8 34 3 2 (effect (UMov R8 b) (effect (UMov RAX (u32 (p + 2))) f)) (Z.to_nat (rounds b)))
    as (g & Hg & _); try done; [by apply rounds_nat|].
  exists (effect (UMov RAX (u32 (p + 3))) g). split; [|done]. intros m.
  replace (3 + 2 * Z.to_nat (rounds b) + m)%nat with (S (S (2 * Z.to_nat (rounds b) + S m))) by lia.
  do 2 (erewrite (lrun_straight L code Hc He); [|reflexivity|reflexivity]). cbn [Nat.add]. rewrite Hg.
  by erewrite (lrun_straight L code Hc He); [|reflexivity|reflexivity].
Qed.
End Voluntary.

(** ** Closed listings: programs that stay in their code and do not store *)

Definition is_gpr (r : reg) : bool := match r with RFLAGS | CS | SS => false | _ => true end.

(** Vectors after which the program goes on, and after which it does not. *)
Definition resumable (vec : Z) : bool := vec =? 0x86.
Definition final (vec : Z) : bool := (vec =? 0x81) || (vec =? 0x84).

Definition is_start (L : listing) (z : Z) : bool :=
  (0 <=? z) && match at_offset L (Z.to_nat z) with Some _ => true | None => false end.

Definition check_at (L : listing) (k : nat) : bool :=
  match at_offset L k with
  | None => true
  | Some (i, n) =>
      let next := Z.of_nat (k + n) in
      match i with
      | UInt vec => final vec || (resumable vec && is_start L next)
      | UCli | UStore8 _ _ _ _ => false
      | UJnz rel => is_start L next && is_start L (next + rel)
      | UJmp rel => is_start L (next + rel)
      | UMov d _ | UMov8 d _ | UMov8R d _ | UAdd8 d _ | UDec d | UAdd d _ | UXor d _ => is_gpr d && is_start L next
      end
  end.

Definition closed (L : listing) : bool := forallb (check_at L) (seq 0 (length (bytes_of L))).

Definition imms_ok (L : listing) : Prop :=
  Forall (fun e => match e.2 with UMov _ v => in_u 64 v | _ => True end) L.

Lemma clearbit_ok f n : 0 <= n -> in_u 64 f -> in_u 64 (Z.clearbit f n).
Proof.
  unfold in_u. intros Hn Hf. rewrite Z.clearbit_spec'. split; [apply Z.ldiff_nonneg; lia|].
  assert (E : Z.ldiff f (2 ^ n) = Z.ldiff f (2 ^ n) mod 2 ^ 64); [|rewrite E; apply Z.mod_pos_bound; lia].
  rewrite <- Z.land_ones, Z.ldiff_land, <- Z.land_assoc, (Z.land_comm (Z.lnot _)), Z.land_assoc by lia.
  by rewrite Z.land_ones, (Z.mod_small f) by lia.
Qed.

Lemma set_zf_ok z f : in_u 64 f -> in_u 64 (set_zf z f).
Proof.
  unfold in_u, set_zf. intros Hf. destruct z.
  - rewrite Z.setbit_spec'. split; [apply Z.lor_nonneg; lia|].
    destruct (Z.eq_dec f 0) as [->|]; [done|]. apply Z.log2_lt_pow2.
    + assert (0 <= Z.lor f (2 ^ 6)) by (apply Z.lor_nonneg; lia).
      assert (Z.lor f (2 ^ 6) <> 0) by (rewrite Z.lor_eq_0_iff; lia). lia.
    + rewrite Z.log2_lor by lia. assert (Z.log2 f < 64) by (apply Z.log2_lt_pow2; lia).
      change (Z.log2 (2 ^ 6)) with 6. lia.
  - by apply clearbit_ok.
Qed.

Lemma u32_ok z : in_u 64 (u32 z).
Proof. pose proof (wrap_in_u 32 z ltac:(lia)). unfold in_u in *. lia. Qed.

Lemma put8_ok d v f : regs_ok f -> in_u 64 (f d / 256 * 256 + u8 v).
Proof.
  intros Hf. pose proof (Hf d). pose proof (wrap_in_u 8 v ltac:(lia)) as Hv. unfold in_u in *. div_lia.
Qed.

Lemma effect_ok i f :
  regs_ok f -> match i with UMov _ v => in_u 64 v | _ => True end -> straight i = true -> regs_ok (effect i f).
Proof.
  intros Hf Hi Hs. unfold effect. destruct i; try done; cbn -[set_zf Z.div Z.mul]; unfold put32, put8; cbn -[set_zf Z.div Z.mul];
    repeat (apply regs_ok_set); try done; try (by apply set_zf_ok); try apply u32_ok; try by apply put8_ok.
  apply set_zf_ok. by apply (regs_ok_set _ _ _ Hf (put8_ok dst _ f Hf)).
Qed.

(** A state of a program between two instructions. *)
Definition running (L : listing) (code : Z) (v : vcpu) : Prop :=
  regs_ok v.1 /\ exists k, v.2 = code + Z.of_nat k /\ is_Some (at_offset L k).

Section Closed.
Context (L : listing) (code : Z).
Hypothesis Hcode : 0 <= code.
Hypothesis Hend : code + Z.of_nat (length (bytes_of L)) < 2 ^ 64.
Hypothesis HL : listed L.
Hypothesis Hclosed : closed L = true.
Hypothesis Himm : imms_ok L.

Lemma check_at_all k i n : at_offset L k = Some (i, n) -> check_at L k = true.
Proof.
  intros H. unfold closed in Hclosed. rewrite forallb_forall in Hclosed. apply Hclosed, in_seq.
  destruct (at_offset_spec L k i n HL H) as (bs & rest & Hd & Hl & Hn & _).
  pose proof (f_equal length Hd) as E. rewrite length_drop, length_app in E. lia.
Qed.

Lemma is_start_spec z : is_start L z = true -> exists k, z = Z.of_nat k /\ is_Some (at_offset L k).
Proof.
  unfold is_start. intros [H1 H2]%andb_true_iff. unbool. exists (Z.to_nat z). split; [lia|].
  by destruct (at_offset L (Z.to_nat z)) eqn:E; [exists p|].
Qed.

Lemma at_offset_imm k i n : at_offset L k = Some (i, n) -> match i with UMov _ v => in_u 64 v | _ => True end.
Proof.
  clear - Himm. revert k. induction Himm as [|[bs j] L' H1 H2 IH]; intros k H; [done|]. cbn [at_offset] in H.
  destruct (k =? 0)%nat; [by injection H as <- <-|]. destruct (k <? length bs)%nat; [done|]. by apply (IH H2 (k - length bs)%nat).
Qed.

(** The selectors are not the program's to change. *)
Lemma effect_selector i f r k n :
  at_offset L k = Some (i, n) -> straight i = true -> (r = CS \/ r = SS) -> effect i f r = f r.
Proof.
  intros H Hs Hr. pose proof (check_at_all k i n H) as Hc. unfold check_at in Hc. rewrite H in Hc.
  assert (Hg : forall d, is_gpr d = true -> r <> d /\ r <> RFLAGS) by (intros d Hd; by destruct Hr as [-> | ->], d).
  destruct i; try done; apply andb_true_iff in Hc as [[Hd Hf]%Hg _]; unfold effect, uexec, put32, put8; cbn [regs];
    by repeat rewrite set_reg_other by done.
Qed.

(** One instruction leaves a running program running, or it asked to be let go. *)
Lemma running_step v :
  running L code v ->
  match lstep L code v with
  | LStep v' => running L code v' /\ v'.1 CS = v.1 CS /\ v'.1 SS = v.1 SS
  | LTrap vec v' => v'.1 = v.1 /\ code <= v'.2 < 2 ^ 64 /\ (final vec = true \/ resumable vec = true /\ running L code v')
  | LFault => False
  end.
Proof.
  destruct v as [f pc]. intros (Hf & k & Hk & [[i n] Hi]). cbn [fst snd] in *. subst pc.
  pose proof (check_at_all k i n Hi) as Hc. unfold check_at in Hc. rewrite Hi in Hc.
  pose proof (at_offset_end L k i n Hi) as Hn.
  assert (Hrun : forall g j, regs_ok g -> is_start L (Z.of_nat j) = true -> running L code (at_pc code j g)).
  { intros g j Hg (j' & E & Hj)%is_start_spec. apply Nat2Z.inj in E as <-. split; [done|]. by exists j. }
  assert (Hj : forall z, is_start L z = true -> exists j, z = Z.of_nat j /\ (j <= length (bytes_of L))%nat /\
    is_start L (Z.of_nat j) = true).
  { intros z Hz. destruct (is_start_spec z Hz) as (j & -> & [[i' n'] Hi']). exists j. split; [done|].
    pose proof (at_offset_end L j i' n' Hi'). split; [lia|done]. }
  pose proof (at_offset_imm k i n Hi) as Him.
  assert (Hstr : straight i = true -> is_start L (Z.of_nat (k + n)) = true ->
    lstep L code (at_pc code k f) = LStep (at_pc code (k + n) (effect i f)) /\
    running L code (at_pc code (k + n) (effect i f)) /\ effect i f CS = f CS /\ effect i f SS = f SS).
  { intros Hs Hst. split; [|split; [apply Hrun; [by apply effect_ok|done]|]].
    - rewrite (lstep_at L code Hcode Hend k f i n Hi). by destruct i.
    - split; apply (effect_selector i f _ k n Hi Hs); auto. }
  change (f, code + Z.of_nat k) with (at_pc code k f).
  destruct i.
  all: try (apply andb_true_iff in Hc as [_ Hc]; destruct (Hstr eq_refl Hc) as (-> & H1 & H2); by split).
  - done.
  - apply andb_true_iff in Hc as [Hc1 Hc2]. destruct (Hj _ Hc2) as (j & Ej & Lj & Sj).
    pose proof (lrun_jnz L code Hcode Hend k f rel n 0 j Hi Ej Lj) as Hr. cbn [lrun] in Hr.
    destruct (lstep L code (at_pc code k f)) as [v'|vec v'|]; try done.
    assert (v' = at_pc code (if Z.testbit (f RFLAGS) 6 then k + n else j)%nat f) as -> by congruence.
    destruct (Z.testbit (f RFLAGS) 6); (split; [by apply Hrun|done]).
  - destruct (Hj _ Hc) as (j & Ej & Lj & Sj).
    pose proof (lrun_jmp L code Hcode Hend k f rel n 0 j Hi Ej Lj) as Hr. cbn [lrun] in Hr.
    destruct (lstep L code (at_pc code k f)) as [v'|vec v'|]; try done. injection Hr as ->.
    split; [by apply Hrun|done].
  - rewrite (lstep_at L code Hcode Hend k f _ n Hi). split; [done|]. split; [cbn; lia|].
    apply orb_true_iff in Hc as [Hc|[Hc1 Hc2]%andb_true_iff]; [by left|]. right. split; [done|by apply Hrun].
  - done.
Qed.

Lemma running_lrun n v :
  running L code v ->
  match lrun L code n v with
  | LStep v' => running L code v' /\ v'.1 CS = v.1 CS /\ v'.1 SS = v.1 SS
  | LTrap vec v' => (v'.1 CS = v.1 CS /\ v'.1 SS = v.1 SS /\ regs_ok v'.1) /\ code <= v'.2 < 2 ^ 64 /\
      (final vec = true \/ resumable vec = true /\ running L code v')
  | LFault => False
  end.
Proof.
  revert v. induction n as [|n IH]; intros v Hv; [done|]. cbn [lrun]. pose proof (running_step v Hv) as Hs.
  destruct (lstep L code v) as [v'|vec v'|]; [|by destruct Hs as (-> & H1 & H2); destruct Hv|done].
  destruct Hs as (Hr & H1 & H2). specialize (IH v' Hr). rewrite H1, H2 in IH. exact IH.
Qed.

(** In memory that holds its code, a running program's bytes do what its listing
    says, and change nothing in memory. *)
Lemma urun_running n v m :
  running L code v -> installed m code (bytes_of L) -> in_mem m (lrun L code n v) (urun n (on_cpu v m)).
Proof.
  intros Hv Hm. apply urun_listed; [done|done| |].
  - destruct Hv as (_ & k & -> & _). lia.
  - intros k v' H. pose proof (running_lrun k v Hv) as Hr. rewrite H in Hr.
    destruct Hr as [(_ & j & -> & _) _]. lia.
Qed.
End Closed.

Lemma checksum_closed p n e : closed (checksum_listing p n e) = true.
Proof. by destruct e. Qed.

Lemma voluntary_closed p a b : closed (voluntary_listing p a b) = true.
Proof. done. Qed.

Lemma imm32 v : in_u 32 v -> in_u 64 v.
Proof. unfold in_u. lia. Qed.

Lemma checksum_imms p n e : in_u 32 p -> in_u 32 n -> imms_ok (checksum_listing p n e).
Proof.
  intros Hp Hn. unfold imms_ok, checksum_listing. destruct e.
  all: repeat (apply List.Forall_cons; [cbn [snd mov32 mov_r8d]; first [exact I|by apply imm32|apply u32_ok]|]);
    apply List.Forall_nil.
Qed.

Lemma voluntary_imms p a b : in_u 32 p -> in_u 32 a -> in_u 32 b -> imms_ok (voluntary_listing p a b).
Proof.
  intros Hp Ha Hb. unfold imms_ok, voluntary_listing.
  repeat (apply List.Forall_cons; [cbn [snd mov32 mov_r8d]; first [exact I|by apply imm32|apply u32_ok]|]).
  apply List.Forall_nil.
Qed.

(** ** Properties *)

(** The machine code the checksum builder writes does what its comments say, for
    every register pattern and loop count (a count of 0 goes round 2^32 times): run
    from its first byte it reaches its last instruction after exactly
    [10 + 2 * rounds] instructions with the exclusive or of the five patterns in
    [eax], having changed no memory and no register it does not name, and there it
    exits, retires or stays put for ever as asked. *)
Theorem checksum_program_runs p n e code c :
  in_u 32 p -> in_u 32 n -> 0 <= code < 2 ^ 64 - 46 -> rip c = code -> regs_ok (regs c) ->
  installed (cmem c) code (build_ring3_mt_checksum_program p n e) ->
  exists c', urun (10 + 2 * Z.to_nat (rounds n)) c = Step c' /\
    rip c' = code + 44 /\ regs c' RAX = checksum p /\ (p mod 8 = 0 -> regs c' RAX = p + 4) /\
    cmem c' = cmem c /\ same_but [RAX; RCX; RDX; RSI; RDI; R8; RFLAGS] (regs c) (regs c') /\
    match e with
    | ExitViaInt81 => exists c'', ustep c' = Trap 0x81 c'' /\ regs c'' = regs c'
    | RetireViaInt84 => exists c'', ustep c' = Trap 0x84 c'' /\ regs c'' = regs c'
    | SpinForever => forall k, urun k c' = Step c'
    end.
Proof.
  intros Hp Hn Hc Hrip Hok Hi. rewrite checksum_bytes in Hi. set (L := checksum_listing p n e) in *.
  pose proof (checksum_end p n e code Hc) as He. fold L in He.
  assert (HL : listed L) by (by apply checksum_listed). destruct Hc as [Hc _].
  destruct (checksum_run p n e code Hp Hn) with (f := regs c) as (g & Hg & G1 & G2); [|fold L in Hg].
  { unfold L in He. rewrite length_checksum in He. lia. }
  assert (Hrun : running L code (at_pc code 0 (regs c))).
  { split; [done|]. by exists 0%nat. }
  pose proof (urun_running L code Hc He HL (checksum_closed p n e) (checksum_imms p n e Hp Hn)) as Hu.
  specialize (Hg 0%nat). rewrite Nat.add_0_r in Hg. cbn [lrun] in Hg.
  pose proof (Hu (10 + 2 * Z.to_nat (rounds n))%nat _ (cmem c) Hrun Hi) as H1. rewrite Hg in H1.
  pose proof (running_lrun L code Hc He HL (checksum_closed p n e) (checksum_imms p n e Hp Hn)
    (10 + 2 * Z.to_nat (rounds n)) _ Hrun) as Hr. rewrite Hg in Hr. destruct Hr as [Hr _].
  exists (on_cpu (at_pc code 44 g) (cmem c)). split.
  { cbn [in_mem] in H1. rewrite <- H1. f_equal. unfold on_cpu, at_pc. cbn [fst snd].
    rewrite Z.add_0_r, <- Hrip. by destruct c. }
  split; [done|]. split; [done|]. split; [intros H8; cbn; by rewrite G1, checksum_aligned|].
  split; [done|]. split; [done|].
  assert (H44 : forall i k, at_offset L 44 = Some (i, 2%nat) -> in_mem (cmem c) (lrun L code k (at_pc code 44 g))
    (urun k (on_cpu (at_pc code 44 g) (cmem c)))) by (intros; by apply Hu).
  destruct e.
  - specialize (H44 _ 1%nat eq_refl). cbn [lrun urun] in H44. rewrite (lstep_at L code Hc He 44 g _ 2 eq_refl) in H44.
    cbn [in_mem] in H44. destruct (ustep _) as [|v c''|]; try done. injection H44 as -> ->. by eexists.
  - specialize (H44 _ 1%nat eq_refl). cbn [lrun urun] in H44. rewrite (lstep_at L code Hc He 44 g _ 2 eq_refl) in H44.
    cbn [in_mem] in H44. destruct (ustep _) as [|v c''|]; try done. injection H44 as -> ->. by eexists.
  - intros k. specialize (H44 _ k eq_refl).
    assert (El : lrun L code k (at_pc code 44 g) = LStep (at_pc code 44 g)).
    { clear H44. induction k as [|k IH]; [done|].
      rewrite (lrun_jmp L code Hc He 44 g (-2) 2 k 44); [exact IH|done|done|]. unfold L. rewrite length_checksum. lia. }
    by rewrite El in H44.
Qed.

(** Three rounds, in memory at 4096. *)
Lemma checksum_program_runs_witness :
  exists c', urun 16 (mk_Cpu (fun _ => 0) 4096
    (write_bytes 4096 (build_ring3_mt_checksum_program 0x10000000 3 ExitViaInt81) (fun _ => 0))) = Step c' /\
    regs c' RAX = 0x10000004.
Proof.
  destruct (checksum_program_runs 0x10000000 3 ExitViaInt81 4096 (mk_Cpu (fun _ => 0) 4096
    (write_bytes 4096 (build_ring3_mt_checksum_program 0x10000000 3 ExitViaInt81) (fun _ => 0))))
    as (c' & H1 & _ & _ & H2 & _).
  - unfold in_u. lia.
  - unfold in_u. lia.
  - lia.
  - reflexivity.
  - intros r. unfold in_u. cbn. lia.
  - apply installed_write.
  - exists c'. split; [exact H1|]. apply H2. reflexivity.
Defined.

(** A program file parses exactly when it is the magic, the two lengths, that many
    code bytes and that many data bytes with nothing after them; the parts are then
    returned unchanged, and on any other bytes the parser returns an error instead
    of slicing out of range, whatever lengths the header claims. *)
Theorem parse_program_header_spec bytes :
  bytes_ok bytes -> Z.of_nat (length bytes) < 2 ^ 64 ->
  match parse_program_header bytes with
  | Ok (h, code, data) =>
      bytes = PROGRAM_MAGIC ++ le_bytes 4 (code_len h) ++ le_bytes 4 (data_len h) ++ code ++ data /\
      code_len h = Z.of_nat (length code) /\ data_len h = Z.of_nat (length data)
  | Err _ => forall code data, in_u 32 (Z.of_nat (length code)) -> in_u 32 (Z.of_nat (length data)) ->
      bytes <> PROGRAM_MAGIC ++ le_bytes 4 (Z.of_nat (length code)) ++ le_bytes 4 (Z.of_nat (length data)) ++ code ++ data
  | _ => False
  end.
Proof.
  intros Hok Hlen. unfold parse_program_header. destruct (Nat.ltb_spec (length bytes) PROGRAM_HEADER_LEN) as [Hs|Hs].
  { intros code data _ _ ->. rewrite !length_app, !length_le_bytes in Hs. unfold PROGRAM_HEADER_LEN in Hs. cbn in Hs. lia. }
  unfold PROGRAM_HEADER_LEN in Hs.
  do 12 (destruct bytes as [|? bytes]; [cbn in Hs; lia|]). set (l := _ :: _).
  rewrite (slice_ok l 0 4), (slice_ok l 4 8), (slice_ok l 8 12) by (cbn; lia).
  cbn [take drop l mbind res_bind Nat.sub]. subst l. rewrite ?take_0.
  case_bool_decide as Hm; cbn [negb].
  2: { intros code data _ _ E. apply Hm. cbn [app PROGRAM_MAGIC] in E. injection E. intros. by subst. }
  injection Hm as -> -> -> ->.
  assert (H4 : bytes_ok [z3; z4; z5; z6] /\ bytes_ok [z7; z8; z9; z10]).
  { unfold bytes_ok in *. do 8 (apply Forall_cons in Hok as [? Hok]). apply Forall_cons in Hok as [? Hok].
    do 3 (apply Forall_cons in Hok as [? Hok]). split; (do 4 (apply List.Forall_cons; [done|])); apply List.Forall_nil. }
  destruct H4 as [Hc4 Hd4]. pose proof (le_of_bound _ Hc4) as Bc. pose proof (le_of_bound _ Hd4) as Bd.
  pose proof (le_bytes_le_of _ Hc4) as Ec. pose proof (le_bytes_le_of _ Hd4) as Ed. cbn [length] in Ec, Ed.
  change (256 ^ Z.of_nat (length [z3; z4; z5; z6])) with (2 ^ 32) in Bc.
  change (256 ^ Z.of_nat (length [z7; z8; z9; z10])) with (2 ^ 32) in Bd.
  set (c := le_of [z3; z4; z5; z6]) in *. set (d := le_of [z7; z8; z9; z10]) in *.
  unfold checked_add, PROGRAM_HEADER_LEN. cbn [length] in Hlen |- *.
  change (S (S (S (S (S (S (S (S (S (S (S (S (length bytes))))))))))))) with (12 + length bytes)%nat in *.
  rewrite (proj2 (Z.ltb_lt _ _)) by lia. cbn [mbind option_bind]. rewrite (proj2 (Z.ltb_lt _ _)) by lia.
  destruct (Z.eqb_spec (Z.of_nat (12 + length bytes)) (Z.of_nat 12 + c + d)) as [Hl|Hl]; cbn [negb].
  - set (n := Z.to_nat c). rewrite !slice_ok by (cbn [length]; lia). cbn [mbind res_bind code_len data_len].
    replace (12 + length bytes - (12 + n))%nat with (length bytes - n)%nat by lia.
    replace (12 + n - 12)%nat with n by lia.
    change (drop (12 + n) (?a :: ?b :: ?c :: ?d :: ?e :: ?f :: ?g :: ?h :: ?i :: ?j :: ?k :: ?l :: bytes)) with (drop n bytes).
    change (drop 12 (?a :: ?b :: ?c :: ?d :: ?e :: ?f :: ?g :: ?h :: ?i :: ?j :: ?k :: ?l :: bytes)) with bytes.
    rewrite Ec, Ed, (take_ge (drop n bytes)) by (rewrite length_drop; lia). split; [|split].
    + cbn [app PROGRAM_MAGIC]. by rewrite take_drop.
    + rewrite length_take. lia.
    + rewrite length_drop. lia.
  - intros code data Hcl Hdl E. cbn [app PROGRAM_MAGIC] in E.
    assert (E1 : [z3; z4; z5; z6] = le_bytes 4 (Z.of_nat (length code))) by (cbn; cbn in E; by injection E as -> -> -> -> _).
    assert (E2 : [z7; z8; z9; z10] = le_bytes 4 (Z.of_nat (length data))) by (cbn; cbn in E; by injection E as _ _ _ _ -> -> -> -> _).
    assert (E3 : bytes = code ++ data) by (cbn in E; by injection E as _ _ _ _ _ _ _ _ ->).
    apply Hl. unfold c, d. rewrite E1, E2, !le_round, E3, length_app by (unfold in_u in *; lia). lia.
Qed.

Lemma parse_program_header_spec_witness :
  parse_program_header (PROGRAM_MAGIC ++ le_bytes 4 2 ++ le_bytes 4 1 ++ [0xCD; 0x81] ++ [0x99]) =
    Ok (mk_ProgramHeader 2 1, [0xCD; 0x81], [0x99]) /\
  match parse_program_header (PROGRAM_MAGIC ++ le_bytes 4 (2 ^ 32 - 1) ++ le_bytes 4 1 ++ [0xCD; 0x81; 0x99]) with
  | Ok _ => False | Err _ => True | _ => False
  end.
Proof.
  split.
  - pose proof (parse_program_header_spec
      (PROGRAM_MAGIC ++ le_bytes 4 2 ++ le_bytes 4 1 ++ [0xCD; 0x81] ++ [0x99])) as H.
    destruct H as (_ & H1 & H2).
    + vm_compute. repeat (apply List.Forall_cons; [split; [discriminate|reflexivity]|]). apply List.Forall_nil.
    + cbn. lia.
    + reflexivity.
  - reflexivity.
Defined.
