(* ===== verification/Ring3Session.v ===== *)
(** * Ring3Session: ring-3 programs under the preemptive ring-3 scheduler
      ([ring3.rs], [interrupts.rs])

    The entry and exit stubs are the source's assembly on X64; the timer stub calls
    Ring3Mt's [handle_timer_tick], the stubs of vectors 0x84 and 0x86 its
    [task_done] and [tick].  [session] runs the processor from its entry into ring 3
    to the exit call: [sched] says how many instructions complete before each timer
    interrupt.  [vsession] is the specification: every task has a processor of its
    own, and the scheduler only says whose turn it is. *)
From stdpp Require Import base list numbers strings.
From Stdlib Require Import Lia FunctionalExtensionality.
From S2P Require Import Prelude Mem X64 ContextSwitch AgentScheduler TierSelect Preemptive Ring3Mt Ring3Prog.
Open Scope Z_scope.

(** ** The stubs *)

(** The fifteen general registers, in the order the stubs push and pop them. *)
Definition pushed : list reg := [RBX; RCX; RBP; R8; R9; R10; R11; R12; R13; R14; R15; RDX; RSI; RDI; RAX].
Definition popped : list reg := [RAX; RDI; RSI; RDX; R15; R14; R13; R12; R11; R10; R9; R8; RBP; RCX; RBX].

(** A called function has returned [v] in [rax] and left memory [m]. *)
Definition returned (v : Z) (m : Z -> Z) (c : Cpu) : Cpu := mk_Cpu (set_reg RAX v (regs c)) (rip c) m.

(** The registers a called function need not preserve. *)
Definition caller_saved : list reg := [RCX; RDX; RSI; RDI; R8; R9; R10; R11; RFLAGS].

(** A called function has returned [v] and left memory [m]; what it left in the
    other registers is [junk]. *)
Definition called (junk : reg -> Z) (v : Z) (m : memory) (c : Cpu) : Cpu :=
  mk_Cpu (set_reg RAX v (fun r => if decide (r ∈ caller_saved) then junk r else regs c r)) (rip c) m.

Lemma called_rsp junk v m c : regs (called junk v m c) RSP = regs c RSP.
Proof. reflexivity. Qed.

Lemma called_rax junk v m c : regs (called junk v m c) RAX = v.
Proof. reflexivity. Qed.

(** The way out of the three stubs that save everything. *)
Definition resume_all : list instr := [Mov RSP RAX] ++ map Pop popped ++ [Iretq].

(** The processor and the timer's state; memory is the processor's. *)
Definition with_mem (m : Z -> Z) (t : Timer) : Timer :=
  mk_Timer (timer_ticks t) (timer_ticks_while_ring3 t) (set_pmem m (t_pre t)) (t_rp t) (t_mt t).

Definition with_mt (mt : Mt) (t : Timer) : Timer :=
  mk_Timer (timer_ticks t) (timer_ticks_while_ring3 t) (t_pre t) (t_rp t) mt.

Abbreviation machine := (Cpu * Timer)%type.

(** [Some rsp] when the handler switched stacks, so that the stub never came back. *)
Definition timer_interrupt_entry_asm (free : bool) : M machine (option Z) := fun '(c, t) =>
  let c := exec_all (map Push pushed ++ [LoadSp RDI 128; AndImm RDI 3; Mov RSI RSP]) c in
  match handle_timer_tick (regs c RDI) (regs c RSI) (regs c RSP) free (with_mem (cmem c) t) with
  | (Ok (Resume p), t') => (Ok None, (exec_all resume_all (returned p (pmem (t_pre t')) c), t'))
  | (Ok (Switched rsp), t') => (Ok (Some rsp), (returned rsp (pmem (t_pre t')) c, t'))
  | (Err e, t') => (Err e, (c, t'))
  | (Panic, t') => (Panic, (c, t'))
  | (Hang, t') => (Hang, (c, t'))
  end.

(** The two stubs that differ in the function they call. *)
Definition mt_stub (helper : Z -> M (Mt * memory) Z) : M machine unit := fun '(c, t) =>
  let c := exec_all (map Push pushed ++ [Mov RDI RSP]) c in
  match helper (regs c RDI) (t_mt t, cmem c) with
  | (Ok p, (mt, m)) => (Ok tt, (exec_all resume_all (returned p m c), with_mt mt t))
  | (Err e, (mt, m)) => (Err e, (returned 0 m c, with_mt mt t))
  | (Panic, (mt, m)) => (Panic, (returned 0 m c, with_mt mt t))
  | (Hang, (mt, m)) => (Hang, (returned 0 m c, with_mt mt t))
  end.

Definition ring3_mt_task_done_entry_asm : M machine unit := mt_stub task_done.
Definition ring3_mt_yield_entry_asm : M machine unit := mt_stub mt_tick.

(** [entry], [user_cs], [user_ss], [user_rsp] and [user_rflags] are in [rdi], [rsi],
    [rdx], [rcx] and [r8]; [ret_rsp] is the address of [RING3_RETURN_RSP]. *)
Definition enter_ring3_asm (ret_rsp : Z) : list instr :=
  [Push RBP; Push RBX; Push R12; Push R13; Push R14; Push R15; Push RFLAGS;
   StoreAt ret_rsp RSP;
   Push RDX; Push RCX; Push R8; Push RSI; Push RDI;
   Iretq].

(** [exit_code] is the address of [RING3_EXIT_CODE]. *)
Definition ring3_exit_entry_asm (exit_code ret_rsp : Z) : list instr :=
  [StoreAt exit_code RAX;
   LoadAt RSP ret_rsp;
   Pop RFLAGS;
   Pop R15; Pop R14; Pop R13; Pop R12; Pop RBX; Pop RBP;
   LoadAt RAX exit_code;
   Ret].

(** ** A task's saved context *)

(** The 160 bytes the stubs save, from the lowest address. *)
Definition ctx_words (v : vcpu) : list Z :=
  map v.1 popped ++ [v.2; v.1 CS; v.1 RFLAGS; v.1 RSP; v.1 SS].

Definition ctx_bytes (v : vcpu) : list Z := wbytes (ctx_words v).

Definition prepare_ring3_mt_task_ctx (entry user_cs user_ss stack_top rflags : Z) : list Z :=
  emit 160 [(120, le_bytes 8 entry); (128, le_bytes 8 user_cs); (136, le_bytes 8 rflags);
            (144, le_bytes 8 stack_top); (152, le_bytes 8 user_ss)].

(** A task that has not run: its general registers are 0. *)
Definition fresh (entry user_cs user_ss stack_top rflags : Z) : vcpu :=
  (fun r => match r with CS => user_cs | SS => user_ss | RSP => stack_top | RFLAGS => rflags | _ => 0 end, entry).

Lemma prepare_ctx_bytes entry cs ss sp fl :
  prepare_ring3_mt_task_ctx entry cs ss sp fl = ctx_bytes (fresh entry cs ss sp fl).
Proof. done. Qed.

Lemma length_ctx_bytes v : length (ctx_bytes v) = CTX.
Proof. unfold ctx_bytes. by rewrite length_wbytes. Qed.

(** Interrupted in ring 3, a task is saved whole below the top of the kernel stack. *)
Lemma save_all kcs rsp0 v m :
  160 <= rsp0 < 2 ^ 64 ->
  exists f, exec_all (map Push pushed) (interrupt kcs rsp0 (on_cpu v m)) =
      mk_Cpu f v.2 (write_bytes (rsp0 - 160) (ctx_bytes v) m) /\
    f RSP = rsp0 - 160 /\ (forall r, r <> RSP -> r <> CS -> r <> SS -> r <> RFLAGS -> f r = v.1 r).
Proof.
  intros Hr. set (c := interrupt kcs rsp0 (on_cpu v m)).
  destruct (exec_pushes pushed c (rsp0 - 40)) as (f & E & F1 & F2).
  - reflexivity.
  - unfold pushed. repeat (apply not_elem_of_cons; split; [done|]). apply not_elem_of_nil.
  - change (length pushed) with 15%nat. lia.
  - change (length pushed) with 15%nat in *. replace (rsp0 - 40 - 8 * Z.of_nat 15) with (rsp0 - 160) in * by lia.
    exists f. split; [|split; [done|]].
    + rewrite E. f_equal. unfold ctx_bytes, ctx_words. rewrite wbytes_app, write_bytes_app. f_equal.
      rewrite length_wbytes, length_map. change (length popped) with 15%nat.
      replace (rsp0 - 160 + Z.of_nat (8 * 15)) with (rsp0 - 40) by lia. done.
    + intros r H1 H2 H3 H4. rewrite F2 by done. unfold c, interrupt. cbn [regs on_cpu]. by rewrite !set_reg_other.
Qed.

Lemma ctx_words_ok v : regs_ok v.1 -> in_u 64 v.2 -> Forall (in_u 64) (ctx_words v).
Proof.
  intros Hok Hpc. unfold ctx_words. apply Forall_app. split.
  - apply List.Forall_map, List.Forall_forall. intros r _. apply Hok.
  - repeat (apply List.Forall_cons; [first [exact Hpc|apply Hok]|]). apply List.Forall_nil.
Qed.

(** From its 160 bytes a task is resumed exactly. *)
Lemma pop_exact p c v :
  regs c RSP = p -> 0 <= p < 2 ^ 64 - 160 -> regs_ok v.1 -> in_u 64 v.2 ->
  read_bytes (cmem c) p CTX = ctx_bytes v -> exec_all (map Pop popped ++ [Iretq]) c = on_cpu v (cmem c).
Proof.
  intros Ha Hp Hok Hpc Hb.
  assert (Hw : words (cmem c) p (ctx_words v)) by (apply words_of_bytes; [exact Hb|by apply ctx_words_ok]).
  unfold ctx_words in Hw. apply words_app in Hw as [Hw1 Hw2].
  rewrite length_map in Hw2. change (length popped) with 15%nat in Hw2.
  rewrite exec_all_app.
  destruct (exec_pops popped c p (map v.1 popped)) as (f & E & F1 & F2 & F3).
  - done.
  - lia.
  - unfold popped. repeat (apply not_elem_of_cons; split; [done|]). apply not_elem_of_nil.
  - apply NoDup_ListNoDup. unfold popped. repeat (constructor; [cbn; intuition discriminate|]). constructor.
  - done.
  - change (length popped) with 15%nat. lia.
  - exact Hw1.
  - rewrite E. change (length popped) with 15%nat in F1. replace (8 * Z.of_nat 15) with 120 in * by lia.
    apply words_cons in Hw2 as [W0 Hw2]. apply words_cons in Hw2 as [W1 Hw2]. apply words_cons in Hw2 as [W2 Hw2].
    apply words_cons in Hw2 as [W3 Hw2]. apply words_cons in Hw2 as [W4 _].
    cbn [exec_all foldl exec regs rip cmem]. rewrite F1, !wrap_id by (unfold in_u; lia).
    replace (p + 120 + 8 + 8) with (p + 120 + 16) in * by lia. replace (p + 120 + 16 + 8) with (p + 120 + 24) in * by lia.
    replace (p + 120 + 24 + 8) with (p + 120 + 32) in * by lia. rewrite W0, W1, W2, W3, W4.
    unfold on_cpu. f_equal. apply functional_extensionality. intros r.
    assert (Hpop : r ∈ popped -> f r = v.1 r).
    { intros [i Hi]%list_elem_of_lookup. pose proof (F2 i r Hi) as H. rewrite list_lookup_fmap, Hi in H. by injection H. }
    destruct (decide (r = SS)) as [->|H1]; [by rd|]. rewrite (set_reg_other SS) by done.
    destruct (decide (r = RSP)) as [->|H2]; [by rd|]. rewrite (set_reg_other RSP) by done.
    destruct (decide (r = RFLAGS)) as [->|H3]; [by rd|]. rewrite (set_reg_other RFLAGS) by done.
    destruct (decide (r = CS)) as [->|H4]; [by rd|]. rewrite (set_reg_other CS) by done.
    apply Hpop. unfold popped. destruct r; try done; repeat constructor.
Qed.

Lemma resume_exact p m c v :
  regs c RAX = p -> cmem c = m -> 0 <= p < 2 ^ 64 - 160 -> regs_ok v.1 -> in_u 64 v.2 ->
  read_bytes m p CTX = ctx_bytes v -> exec_all resume_all c = on_cpu v m.
Proof.
  intros Ha <- Hp Hok Hpc Hb. unfold resume_all. rewrite exec_all_app.
  by rewrite (pop_exact p (exec_all [Mov RSP RAX] c) v).
Qed.

(** ** Running from entry to exit *)

Section Session.
Context (kernel_cs rsp0 exit_code ret_rsp : Z) (free : bool).

(** The other interrupt vectors a program may raise. *)
Context (other_trap : Z -> M machine unit).

Definition handle_trap (vec : Z) : M machine unit :=
  if vec =? 0x84 then ring3_mt_task_done_entry_asm
  else if vec =? 0x86 then ring3_mt_yield_entry_asm
  else other_trap vec.

(** Ends in the kernel, behind the exit stub.  A schedule that is used up before that
    is a [Hang]; a fault is the end of the kernel, which halts. *)
Fixpoint session (sched : list nat) : M machine unit := fun '(c, t) =>
  match sched with
  | [] => (Hang, (c, t))
  | n :: rest =>
      match urun n c with
      | Step c' =>
          (o ← timer_interrupt_entry_asm free;
           match o with None => session rest | Some _ => lift Hang end) (interrupt kernel_cs rsp0 c', t)
      | Trap vec c' =>
          let s := (interrupt kernel_cs rsp0 c', t) in
          if vec =? 0x81 then (Ok tt, (exec_all (ring3_exit_entry_asm exit_code ret_rsp) s.1, t))
          else (handle_trap vec;; session rest) s
      | Fault c' => (Panic, (c', t))
      end
  end.

(** [enter_ring3], called with its return address on the stack. *)
Definition enter_ring3 (entry user_cs user_ss user_rsp user_rflags : Z) (sched : list nat) : M machine Z := fun '(c, t) =>
  let args := set_reg RDI entry (set_reg RSI user_cs (set_reg RDX user_ss
    (set_reg RCX user_rsp (set_reg R8 user_rflags (regs c))))) in
  (session sched;; gets (fun s => regs s.1 RAX))
    (exec_all (enter_ring3_asm ret_rsp) (mk_Cpu args (rip c) (cmem c)), t).
End Session.

(** ** Specification: a processor for every task *)

Record V := mk_V { v_cur : nat; v_done : list bool; v_cpus : list vcpu }.

(** The current task stops as [v]; the scheduler picks who is next. *)
Definition vswitch (prios : list Z) (retire : bool) (v : vcpu) (s : V) : res V :=
  let done := if retire then <[v_cur s := true]> (v_done s) else v_done s in
  next ← select_next (length (v_cpus s)) (length (v_cpus s)) (v_cur s) prios done;
  Ok (mk_V next done (<[v_cur s := v]> (v_cpus s))).

(** Ends with the exit code and every task as it stands, and the switches made. *)
Fixpoint vsession (tasks : list (listing * Z)) (prios : list Z) (sched : list nat) (s : V) : res (Z * V * nat) :=
  match sched with
  | [] => Hang
  | n :: rest =>
      '(L, code) ← idx tasks (v_cur s);
      v ← idx (v_cpus s) (v_cur s);
      let go retire v' :=
        s' ← vswitch prios retire v' s; '(x, s'', k) ← vsession tasks prios rest s'; Ok (x, s'', S k) in
      match lrun L code n v with
      | LStep v' => go false v'
      | LTrap vec v' =>
          if vec =? 0x81 then Ok (v'.1 RAX, s, 0%nat)
          else if vec =? 0x84 then go true v'
          else go false v'
      | LFault => Panic
      end
  end.

(** ** Refinement *)

Lemma land_3_in_u z : Z.land (Z.land z 3) 3 = Z.land z 3.
Proof. by rewrite <- Z.land_assoc. Qed.

(** What the handlers change in memory: the saved block and the parking buffers. *)
Lemma park_out saved dest m x :
  (x < saved \/ saved + 160 <= x) -> (x < dest \/ dest + 160 <= x) -> park saved dest m x = m x.
Proof.
  intros H1 H2. unfold park. rewrite !write_bytes_out; [done| |];
    rewrite ?length_read_bytes, ?length_replicate; unfold CTX; lia.
Qed.

Lemma resume_next_mem cur s m r s' m' : resume_next cur (s, m) = (r, (s', m')) -> m' = m.
Proof.
  unfold resume_next, mbind, M_bind, gets, lift, modify, set_next. cbn [fst snd].
  destruct (select_next _ _ _ _ _) as [n| | |]; cbn [fst snd]; intros H; by injection H as _ _ <-.
Qed.

Lemma handlers_mem (retire : bool) p s m r s' m' x :
  (if retire then task_done p else mt_tick p) (s, m) = (r, (s', m')) ->
  (x < p \/ p + 160 <= x) -> (forall b, task_ctx s !! mt_current s = Some b -> x < b \/ b + 160 <= x) -> m' x = m x.
Proof.
  intros H Hp Hb. unfold task_done, mt_tick, mbind, M_bind, gets, lift, modify, on_mem, mark_done in H.
  assert (Hpark : forall d, idx (task_ctx s) (mt_current s) = Ok d -> park p d m x = m x).
  { intros d Hd%idx_Ok. by apply park_out; [|apply Hb]. }
  destruct retire; cbn [fst snd] in H.
  - destruct (idx (task_ctx s) (mt_current s)) as [d| | |] eqn:Ed; [|by injection H as _ _ <-..].
    destruct (idx (task_done_mask s) (mt_current s)) as [d'| | |]; cbn [fst snd] in H;
      [apply resume_next_mem in H as ->; by apply Hpark|injection H as _ _ <-; by apply Hpark..].
  - destruct (negb (mt_enabled s)); [by injection H as _ _ <-|].
    destruct (idx (task_ctx s) (mt_current s)) as [d| | |] eqn:Ed; [|by injection H as _ _ <-..].
    apply resume_next_mem in H as ->. by apply Hpark.
Qed.


(** The stubs, given what the handler does with the saved block. *)
Section Stubs.
Context (kcs rsp0 : Z).
Hypothesis Hrsp0 : 160 <= rsp0 < 2 ^ 64.

(** Memory once an interrupted task [v] has been saved. *)
Definition saved_mem (v : vcpu) (m : memory) : memory := write_bytes (rsp0 - 160) (ctx_bytes v) m.

(** The handler's answer: the buffer to resume from, holding [v']. *)
Definition answers_with (helper : Z -> M (Mt * memory) Z) (v : vcpu) (s : Mt) (m : memory) (v' : vcpu) (s' : Mt)
    (m' : memory) : Prop :=
  exists addr, helper (rsp0 - 160) (s, saved_mem v m) = (Ok addr, (s', m')) /\
    0 <= addr < 2 ^ 64 - 160 /\ regs_ok v'.1 /\ in_u 64 v'.2 /\ read_bytes m' addr CTX = ctx_bytes v'.

Lemma mt_stub_resumes helper v v' m m' s' t :
  answers_with helper v (t_mt t) m v' s' m' ->
  mt_stub helper (interrupt kcs rsp0 (on_cpu v m), t) = (Ok tt, (on_cpu v' m', with_mt s' t)).
Proof.
  intros (addr & Hh & Ha & Hok & Hpc & Hb). unfold mt_stub. rewrite exec_all_app.
  destruct (save_all kcs rsp0 v m Hrsp0) as (f & -> & F1 & F2). cbn [exec_all foldl exec regs cmem rip]. rd.
  rewrite F1. unfold saved_mem in Hh. rewrite Hh. do 2 f_equal.
  apply (resume_exact addr m'); try done; cbn; by rd.
Qed.

(** The timer stub, given what the two ring-3 schedulers do in turn. *)
Lemma timer_stub_goes free v v' m m1 m' s' rp' ctx addr t :
  Z.land (v.1 CS) 3 = 3 -> regs_ok v.1 -> in_u 64 v.2 ->
  rp_tick (rsp0 - 160) (t_rp t) (saved_mem v m) = (ctx, rp', m1) ->
  mt_tick ctx (t_mt t, m1) = (Ok addr, (s', m')) ->
  0 <= addr < 2 ^ 64 - 160 -> regs_ok v'.1 -> in_u 64 v'.2 -> read_bytes m' addr CTX = ctx_bytes v' ->
  exists t', timer_interrupt_entry_asm free (interrupt kcs rsp0 (on_cpu v m), t) = (Ok None, (on_cpu v' m', t')) /\
    t_mt t' = s' /\ t_rp t' = rp' /\ timer_ticks_while_ring3 t' = u64 (timer_ticks_while_ring3 t + 1).
Proof.
  intros Hcs Hrok Hrpc Hrp Hh Ha Hok Hpc Hb. unfold timer_interrupt_entry_asm. rewrite exec_all_app.
  destruct (save_all kcs rsp0 v m Hrsp0) as (f & -> & F1 & F2).
  assert (Hw : word_at (saved_mem v m) (u64 (rsp0 - 160 + 128)) = v.1 CS).
  { rewrite wrap_id by (unfold in_u; lia).
    assert (Hw : words (saved_mem v m) (rsp0 - 160) (ctx_words v)).
    { apply words_of_bytes; [|by apply ctx_words_ok].
      pose proof (read_write_bytes (rsp0 - 160) (ctx_bytes v) m) as H. by rewrite length_ctx_bytes in H. }
    exact (Hw 16%nat (v.1 CS) eq_refl). }
  cbn [exec_all foldl exec regs cmem rip]. rd. rewrite F1. unfold saved_mem in Hw. rewrite Hw.
  unfold handle_timer_tick. rewrite Hcs. change (3 =? 3) with true. cbn iota.
  replace (tick true free (rsp0 - 160) (t_pre (with_mem (write_bytes (rsp0 - 160) (ctx_bytes v) m) t)))
    with (Ok (@None Z), t_pre (with_mem (write_bytes (rsp0 - 160) (ctx_bytes v) m) t)) by (unfold tick; by rewrite orb_true_r).
  cbn [with_mem t_rp t_mt t_pre timer_ticks timer_ticks_while_ring3].
  change (pmem (set_pmem ?m0 _)) with m0. unfold saved_mem in Hrp. rewrite Hrp, Hh. cbn [fmap res_map].
  exists (mk_Timer (u64 (timer_ticks t + 1)) (u64 (timer_ticks_while_ring3 t + 1))
    (set_pmem m' (set_pmem (write_bytes (rsp0 - 160) (ctx_bytes v) m) (t_pre t))) rp' s').
  split; [|done]. do 2 f_equal. change (pmem (t_pre (mk_Timer ?a ?b (set_pmem m' ?p) ?q ?r))) with m'.
  apply (resume_exact addr m'); try done; cbn; by rd.
Qed.

Lemma timer_stub_resumes free v v' m m' s' t :
  Z.land (v.1 CS) 3 = 3 -> regs_ok v.1 -> in_u 64 v.2 -> rp_enabled (t_rp t) = false ->
  answers_with mt_tick v (t_mt t) m v' s' m' ->
  exists t', timer_interrupt_entry_asm free (interrupt kcs rsp0 (on_cpu v m), t) = (Ok None, (on_cpu v' m', t')) /\
    t_mt t' = s' /\ t_rp t' = t_rp t.
Proof.
  intros Hcs Hrok Hrpc Hrp (addr & Hh & Ha & Hok & Hpc & Hb).
  destruct (timer_stub_goes free v v' m (saved_mem v m) m' s' (t_rp t) (rsp0 - 160) addr t) as (t' & E & E1 & E2 & _); try done.
  { unfold rp_tick. by rewrite Hrp. }
  by exists t'.
Qed.
End Stubs.

Lemma resume_next_addr cur s m a s' m' :
  resume_next cur (s, m) = (Ok a, (s', m')) -> idx (task_ctx s') (mt_current s') = Ok a.
Proof.
  unfold resume_next, mbind, M_bind, gets, lift, modify, set_next. cbn [fst snd].
  destruct (select_next _ _ _ _ _) as [n| | |]; cbn [fst snd]; intros H; try done.
  injection H as H <- _. done.
Qed.

Lemma handler_addr (retire : bool) p s m a s' m' :
  mt_enabled s = true -> (if retire then task_done p else mt_tick p) (s, m) = (Ok a, (s', m')) ->
  idx (task_ctx s') (mt_current s') = Ok a.
Proof.
  intros He H. unfold task_done, mt_tick, mbind, M_bind, gets, lift, modify, on_mem, mark_done in H.
  destruct retire; cbn [fst snd] in H; rewrite ?He in H; cbn [negb] in H;
    (destruct (idx (task_ctx s) (mt_current s)); [|done..]).
  - destruct (idx (task_done_mask s) (mt_current s)); [|done..]. by apply resume_next_addr in H.
  - by apply resume_next_addr in H.
Qed.

Section Refine.
Context (tasks : list (listing * Z)) (prios : list Z) (bufs : list Z) (m0 : memory).
Context (rsp0 : Z).

(** The kernel memory the handlers write. *)
Definition kernel_mem (x : Z) : Prop :=
  rsp0 - 160 <= x < rsp0 \/ exists i b, bufs !! i = Some b /\ b <= x < b + 160.

(** A program in its user page: it stays in its code, which no handler writes. *)
Record task_ok (L : listing) (code : Z) : Prop := {
  tk_code : 0 <= code;
  tk_end : code + Z.of_nat (length (bytes_of L)) < 2 ^ 64;
  tk_listed : listed L;
  tk_closed : closed L = true;
  tk_imms : imms_ok L;
  tk_mem : forall x, code <= x < code + Z.of_nat (length (bytes_of L)) -> ~ kernel_mem x;
  tk_installed : installed m0 code (bytes_of L);
}.

(** Where everything is, and that task 0 does not retire. *)
Record layout_ok : Prop := {
  lo_rsp0 : 160 <= rsp0 < 2 ^ 64;
  lo_bufs : forall i b, bufs !! i = Some b -> 0 <= b < 2 ^ 64 - 160 /\ apart (rsp0 - 160) b;
  lo_apart : bufs_apart bufs;
  lo_len : length bufs = length tasks;
  lo_tasks : forall i L code, tasks !! i = Some (L, code) -> task_ok L code;
  lo_stay : forall L code k n, tasks !! 0%nat = Some (L, code) -> at_offset L k <> Some (UInt 0x84, n);
}.

(** A task as it stands; one that has not retired can go on. *)
Definition vok (done : list bool) (i : nat) (v : vcpu) : Prop :=
  regs_ok v.1 /\ in_u 64 v.2 /\ Z.land (v.1 CS) 3 = 3 /\
  (done !! i = Some false -> exists L code, tasks !! i = Some (L, code) /\ running L code v).

Record Rel (s : V) (c : Cpu) (t : Timer) : Prop := {
  rl_cur : exists v, v_cpus s !! v_cur s = Some v /\ c = on_cpu v (cmem c);
  rl_alive : v_done s !! v_cur s = Some false;
  rl_len : length (v_cpus s) = length bufs;
  rl_ok : forall i v, v_cpus s !! i = Some v -> vok (v_done s) i v;
  rl_ctxs : exists ctxs, refines bufs (t_mt t) (cmem c) (mk_Abs (v_cur s) (v_done s) ctxs) /\
    forall j v, j <> v_cur s -> v_cpus s !! j = Some v -> ctxs !! j = Some (ctx_bytes v);
  rl_rp : rp_enabled (t_rp t) = false;
  rl_prio : task_priority (t_mt t) = prios;
  rl_sel : select_ok (length bufs) prios (v_done s);
  rl_mem : forall x, ~ kernel_mem x -> cmem c x = m0 x;
}.

Hypothesis Hlay : layout_ok.

(** One switch. *)
Lemma switch_refines s c t retire v' :
  Rel s c t -> regs_ok v'.1 -> in_u 64 v'.2 -> Z.land (v'.1 CS) 3 = 3 ->
  (retire = true -> v_cur s <> 0%nat) ->
  (retire = false -> exists L code, tasks !! v_cur s = Some (L, code) /\ running L code v') ->
  exists s' w m' mt', vswitch prios retire v' s = Ok s' /\
    answers_with rsp0 (if retire then task_done else mt_tick) v' (t_mt t) (cmem c) w mt' m' /\
    switch_count mt' = u64 (switch_count (t_mt t) + 1) /\
    forall t', t_mt t' = mt' -> rp_enabled (t_rp t') = false -> Rel s' (on_cpu w m') t'.
Proof.
  intros [_ Hal Hlen Hok (ctxs & Href & Hctx) Hrp Hprio Hsel Hmem] Hrok Hpc Hcs H0 Hrun.
  destruct Hlay as [Lr Lb La Ll Lt Ls].
  pose proof Href as [Ren _ Rb Rcur Rlt Rdone Rlen _]. cbn [a_current a_done a_ctx] in *.
  set (e := mk_event retire (rsp0 - 160) (ctx_bytes v') id).
  assert (He : event_ok bufs e).
  { split; [apply length_ctx_bytes| |done]. intros i b Hi. by apply (Lb i b). }
  rewrite <- Hprio in Hsel.
  destruct (step_refines bufs (t_mt t) (cmem c) _ e Href La He Hsel H0)
    as (c0 & a' & addr & mt' & m' & Habs & Hh & Hread & Hr' & Hp' & Hsw & Hsel').
  unfold abs_step in Habs. cbn [a_current a_done a_ctx ev_retire ev_regs e] in Habs.
  set (done := if retire then <[v_cur s := true]> (v_done s) else v_done s) in *.
  rewrite length_insert, Rlen in Habs. apply bind_Ok in Habs as (next & Hnext & Habs).
  apply bind_Ok in Habs as (ctx & Hctx' & Habs). injection Habs as -> <-. apply idx_Ok in Hctx'.
  rewrite Hprio in *. cbn [a_done a_current] in *.
  assert (Hn0 : (0 < length bufs)%nat) by lia.
  pose proof (select_alive _ _ _ _ _ ltac:(rewrite Hp' in Hsel'; exact Hsel') Hn0 Hnext) as Halive.
  pose proof Hr' as [Ren' _ Rb' Rcur' Rlt' Rdone' Rlen' _]. cbn [a_current a_done a_ctx] in *.
  destruct (lookup_lt_is_Some_2 (<[v_cur s := v']> (v_cpus s)) next) as [w Hw]; [rewrite length_insert; lia|].
  assert (Ew : c0 = ctx_bytes w).
  { destruct (decide (next = v_cur s)) as [->|Hne].
    - rewrite list_lookup_insert_eq in Hctx' by lia. rewrite list_lookup_insert_eq in Hw by lia. congruence.
    - rewrite list_lookup_insert_ne in Hctx' by done. rewrite list_lookup_insert_ne in Hw by done. rewrite (Hctx next w Hne Hw) in Hctx'. congruence. }
  assert (Hvok : forall i v, <[v_cur s := v']> (v_cpus s) !! i = Some v -> vok done i v).
  { intros i v Hi. destruct (decide (i = v_cur s)) as [->|Hne].
    - rewrite list_lookup_insert_eq in Hi by lia. injection Hi as <-. split; [done|]. split; [done|]. split; [done|].
      intros Hd. apply Hrun. destruct retire; [|done]. unfold done in Hd.
      rewrite list_lookup_insert_eq in Hd; [done|]. by apply lookup_lt_is_Some_1.
    - rewrite list_lookup_insert_ne in Hi by done. destruct (Hok i v Hi) as (V1 & V2 & V3 & V4).
      split; [done|]. split; [done|]. split; [done|]. intros Hd. apply V4. unfold done in Hd.
      destruct retire; [by rewrite list_lookup_insert_ne in Hd|done]. }
  destruct (Hvok next w Hw) as (W1 & W2 & W3 & _).
  exists (mk_V next done (<[v_cur s := v']> (v_cpus s))), w, m', mt'. split; [|split; [|split; [done|]]].
  - unfold vswitch. fold done. by rewrite Hlen, Hnext.
  - exists addr. split; [by destruct retire|]. split; [|by rewrite Hread, Ew].
    apply (handler_addr retire _ _ _ _ _ _ Ren) in Hh. rewrite Rcur' in Hh.
    destruct (lookup_lt_is_Some_2 bufs next) as [b Hb]; [done|]. apply idx_Ok in Hh. rewrite (Rb' _ _ Hb) in Hh.
    injection Hh as <-. by apply (Lb next b).
  - intros t' Ht' Hrp'. split; cbn [v_cur v_done v_cpus cmem on_cpu].
    + by exists w.
    + done.
    + by rewrite length_insert.
    + done.
    + rewrite Ht'. exists (<[v_cur s := ctx_bytes v']> ctxs). split; [done|].
      intros j v Hj Hv. destruct (decide (j = v_cur s)) as [->|Hne].
      * rewrite list_lookup_insert_eq in Hv by lia. rewrite list_lookup_insert_eq by lia. congruence.
      * rewrite list_lookup_insert_ne in Hv by done. rewrite list_lookup_insert_ne by done. by apply Hctx.
    + done.
    + by rewrite Ht'.
    + by rewrite Hp' in Hsel'.
    + intros x Hx. rewrite <- Hmem by done.
      rewrite (handlers_mem retire (rsp0 - 160) (t_mt t) _ _ _ _ x Hh).
      * apply write_bytes_out. cbn [ev_regs e]. rewrite length_ctx_bytes. unfold CTX.
        destruct (decide (rsp0 - 160 <= x < rsp0)); [by destruct Hx; left|]. cbn [ev_ptr e]. lia.
      * destruct (decide (rsp0 - 160 <= x < rsp0)); [by destruct Hx; left|]. cbn [ev_ptr e]. lia.
      * intros b Hb. rewrite Rcur in Hb. destruct (lookup_lt_is_Some_2 bufs (v_cur s)) as [b' Hb']; [done|].
        rewrite (Rb _ _ Hb') in Hb. injection Hb as <-.
        destruct (decide (b' <= x < b' + 160)); [destruct Hx; right; by exists (v_cur s), b'|]. lia.
Qed.

Lemma lrun_trap_at L code n v vec v' :
  lrun L code n v = LTrap vec v' -> exists k len, at_offset L k = Some (UInt vec, len).
Proof.
  revert v. induction n as [|n IH]; intros v H; [done|]. cbn [lrun] in H.
  destruct (lstep L code v) as [w|vec' w|] eqn:E; [by apply (IH w)| |done]. injection H as -> ->.
  unfold lstep in E. destruct (at_offset L _) as [[i len]|] eqn:Ei; [|done]. exists (Z.to_nat (v.2 - code)), len.
  rewrite Ei. destruct i; try done. by injection E as -> _.
Qed.

Context (kernel_cs exit_code ret_rsp : Z) (free : bool) (other_trap : Z -> M machine unit).

(** The whole run: the kernel, its buffers and its stack give every task the
    processor the specification gives it. *)
Lemma session_refines sched s c t :
  Rel s c t -> in_u 64 (switch_count (t_mt t)) ->
  match vsession tasks prios sched s with
  | Ok (code, s', k) => exists c' t' v,
      session kernel_cs rsp0 exit_code ret_rsp free other_trap sched (c, t) =
        (Ok tt, (exec_all (ring3_exit_entry_asm exit_code ret_rsp) (interrupt kernel_cs rsp0 (on_cpu v (cmem c'))), t')) /\
      Rel s' c' t' /\ v.1 RAX = code /\ regs_ok v.1 /\
      switch_count (t_mt t') = u64 (switch_count (t_mt t) + Z.of_nat k)
  | Hang => exists st, session kernel_cs rsp0 exit_code ret_rsp free other_trap sched (c, t) = (Hang, st)
  | _ => False
  end.
Proof.
  revert s c t. induction sched as [|n sched IH]; intros s c t HR Hcount; [by exists (c, t)|].
  pose proof HR as [(v & Hv & Hc) Hal Hlen Hok _ Hrp _ _ Hmem]. destruct (Hok _ _ Hv) as (V1 & V2 & V3 & V4).
  destruct (V4 Hal) as (L & code & HLc & Hrun). pose proof (lo_tasks Hlay _ _ _ HLc) as [T1 T2 T3 T4 T5 T6 T7].
  assert (Hrsp0 : 160 <= rsp0 < 2 ^ 64) by apply (lo_rsp0 Hlay).
  cbn [vsession session]. rewrite (proj2 (idx_Ok tasks _ _) HLc), (proj2 (idx_Ok _ _ _) Hv). cbn [mbind res_bind].
  pose proof (running_lrun L code T1 T2 T3 T4 T5 n v Hrun) as Hl.
  assert (Hi : installed (cmem c) code (bytes_of L)) by (apply (installed_ext m0); [done|]; intros x Hx; by apply Hmem, T6).
  pose proof (urun_running L code T1 T2 T3 T4 T5 n v (cmem c) Hrun Hi) as Hu. rewrite <- Hc in Hu.
  assert (Hgo : forall retire v', regs_ok v'.1 -> in_u 64 v'.2 -> Z.land (v'.1 CS) 3 = 3 ->
    (retire = true -> v_cur s <> 0%nat) ->
    (retire = false -> exists L code, tasks !! v_cur s = Some (L, code) /\ running L code v') ->
    forall st (run : M machine unit),
      (forall w m' mt', answers_with rsp0 (if retire then task_done else mt_tick) v' (t_mt t) (cmem c) w mt' m' ->
         exists t', run st = session kernel_cs rsp0 exit_code ret_rsp free other_trap sched (on_cpu w m', t') /\
           t_mt t' = mt' /\ t_rp t' = t_rp t) ->
    match (s' ← vswitch prios retire v' s; '(x, s'', k) ← vsession tasks prios sched s'; Ok (x, s'', S k)) with
    | Ok (code, s', k) => exists c' t' v,
        run st = (Ok tt, (exec_all (ring3_exit_entry_asm exit_code ret_rsp) (interrupt kernel_cs rsp0 (on_cpu v (cmem c'))), t')) /\
        Rel s' c' t' /\ v.1 RAX = code /\ regs_ok v.1 /\
        switch_count (t_mt t') = u64 (switch_count (t_mt t) + Z.of_nat k)
    | Hang => exists st', run st = (Hang, st')
    | _ => False
    end).
  { intros retire v' R1 R2 R3 R4 R5 st run Hrunst.
    destruct (switch_refines s c t retire v' HR R1 R2 R3 R4 R5) as (s' & w & m' & mt' & -> & Hans & Hsw & HR').
    destruct (Hrunst w m' mt' Hans) as (t' & -> & Et & Erp). cbn [mbind res_bind].
    specialize (IH s' (on_cpu w m') t' (HR' t' Et ltac:(by rewrite Erp))
      ltac:(rewrite Et, Hsw; by apply wrap_in_u)).
    destruct (vsession tasks prios sched s') as [[[x s''] k]|e| |]; cbn [mbind res_bind]; [|done|done|exact IH].
    destruct IH as (c' & t'' & v'' & E & HR'' & Ex & Hvok & Hk). exists c', t'', v''. split; [done|]. split; [done|].
    split; [done|]. split; [done|]. rewrite Hk, Et, Hsw. unfold wrap. rewrite Zplus_mod_idemp_l. f_equal. lia. }
  destruct (lrun L code n v) as [v'|vec v'|] eqn:El; [| |done].
  - cbn [in_mem] in Hu. rewrite Hu. destruct Hl as ((R1 & Hrest) & HCS & _).
    assert (R2 : in_u 64 v'.2).
    { destruct Hrest as (k & -> & [[i len] Hi']). pose proof (at_offset_end L k i len Hi'). unfold in_u. lia. }
    apply Hgo; try done; [by rewrite HCS|intros _; exists L, code; by split|].
    intros w m' mt' Hans. destruct (timer_stub_resumes kernel_cs rsp0 Hrsp0 free v' w (cmem c) m' mt' t) as (t' & E & Et & Erp);
      try done; [by rewrite HCS|].
    exists t'. split; [|done]. unfold mbind, M_bind. by rewrite E.
  - cbn [in_mem] in Hu. rewrite Hu. destruct Hl as ((HCS & _ & R1) & R2 & Hvec).
    assert (R2' : in_u 64 v'.2) by (unfold in_u; lia).
    destruct (Z.eqb_spec vec 0x81) as [->|H81].
    + exists c, t, v'. split; [done|]. split; [done|]. split; [done|]. split; [done|].
      by rewrite Z.add_0_r, wrap_id.
    + unfold handle_trap. destruct (Z.eqb_spec vec 0x84) as [->|H84].
      * apply Hgo; try done; [by rewrite HCS| |].
        -- intros _ E0. destruct (lrun_trap_at _ _ _ _ _ _ El) as (k & len & Hk). rewrite E0 in HLc.
           by apply (lo_stay Hlay L code k len HLc).
        -- intros w m' mt' Hans. exists (with_mt mt' t). split; [|done].
           unfold mbind, M_bind. unfold ring3_mt_task_done_entry_asm.
           by rewrite (mt_stub_resumes kernel_cs rsp0 Hrsp0 task_done v' w (cmem c) m' mt' t).
      * destruct Hvec as [Hf|[Hres Hrun']].
        { unfold final in Hf. apply orb_true_iff in Hf as [Hf|Hf]; unbool; lia. }
        unfold resumable in Hres. unbool. subst vec. cbn iota. change (0x86 =? 0x86) with true. cbn iota.
        apply Hgo; try done; [by rewrite HCS|intros _; exists L, code; by split|].
        intros w m' mt' Hans. exists (with_mt mt' t). split; [|done].
        unfold mbind, M_bind. unfold ring3_mt_yield_entry_asm.
        by rewrite (mt_stub_resumes kernel_cs rsp0 Hrsp0 mt_tick v' w (cmem c) m' mt' t).
Qed.
End Refine.

(** ** Entering and leaving ring 3 *)

(** The caller's registers that the entry stub saves, as they lie in memory. *)
Definition kept : list reg := [RFLAGS; R15; R14; R13; R12; RBX; RBP].

(** The state ring 3 starts in. *)
Definition entered (f : reg -> Z) : vcpu :=
  (set_reg SS (f RDX) (set_reg RSP (f RCX) (set_reg RFLAGS (f R8) (set_reg CS (f RSI) f))), f RDI).

Lemma enter_ring3_effect ret_rsp f pc m s :
  f RSP = s -> regs_ok f -> 96 <= s -> disjoint_ranges ret_rsp 8 (s - 96) 96 ->
  exists m', exec_all (enter_ring3_asm ret_rsp) (mk_Cpu f pc m) = on_cpu (entered f) m' /\
    words m' (s - 56) (map f kept) /\ word_at m' ret_rsp = s - 56 /\
    (forall x, x < s - 96 \/ s <= x -> x < ret_rsp \/ ret_rsp + 8 <= x -> m' x = m x).
Proof.
  intros Hs Hok H96 Hd. unfold disjoint_ranges in Hd. pose proof (Hok RSP) as Hb. unfold in_u in Hb.
  change (enter_ring3_asm ret_rsp) with (map Push (rev kept) ++ [StoreAt ret_rsp RSP] ++ map Push [RDX; RCX; R8; RSI; RDI] ++ [Iretq]).
  rewrite !exec_all_app.
  destruct (exec_pushes (rev kept) (mk_Cpu f pc m) s) as (g & -> & G1 & G2); [done| |cbn [length kept rev app]; lia|].
  { repeat (apply not_elem_of_cons; split; [done|]). apply not_elem_of_nil. }
  rewrite rev_involutive. cbn [regs cmem rip]. change (length (rev kept)) with 7%nat in *.
  replace (s - 8 * Z.of_nat 7) with (s - 56) in * by lia.
  set (m1 := write_bytes (s - 56) (wbytes (map f kept)) m).
  change (exec_all [StoreAt ret_rsp RSP] ?c) with (exec (StoreAt ret_rsp RSP) c). cbn [exec regs rip cmem].
  rewrite G1. set (m2 := put_word ret_rsp (s - 56) m1).
  destruct (exec_pushes [RDX; RCX; R8; RSI; RDI] (mk_Cpu g pc m2) (s - 56)) as (h & -> & H1 & H2); [done| |cbn [length]; lia|].
  { repeat (apply not_elem_of_cons; split; [done|]). apply not_elem_of_nil. }
  change (length [RDX; RCX; R8; RSI; RDI]) with 5%nat in *. replace (s - 56 - 8 * Z.of_nat 5) with (s - 96) in * by lia.
  cbn [rev app map regs cmem rip]. rewrite !G2 by done.
  set (m3 := write_bytes (s - 96) (wbytes [f RDI; f RSI; f R8; f RCX; f RDX]) m2).
  assert (Hlen3 : Z.of_nat (length (wbytes [f RDI; f RSI; f R8; f RCX; f RDX])) = 40) by (by rewrite length_wbytes).
  assert (Hlen1 : Z.of_nat (length (wbytes (map f kept))) = 56) by (by rewrite length_wbytes).
  assert (Hw : words m3 (s - 96) [f RDI; f RSI; f R8; f RCX; f RDX]).
  { apply words_of_bytes; [|repeat (apply List.Forall_cons; [apply Hok|]); apply List.Forall_nil].
    pose proof (read_write_bytes (s - 96) (wbytes [f RDI; f RSI; f R8; f RCX; f RDX]) m2) as H.
    by rewrite length_wbytes in H. }
  apply words_cons in Hw as [W0 Hw]. apply words_cons in Hw as [W1 Hw]. apply words_cons in Hw as [W2 Hw].
  apply words_cons in Hw as [W3 Hw]. apply words_cons in Hw as [W4 _].
  replace (s - 96 + 8 + 8) with (s - 96 + 16) in * by lia. replace (s - 96 + 16 + 8) with (s - 96 + 24) in * by lia.
  replace (s - 96 + 24 + 8) with (s - 96 + 32) in * by lia.
  exists m3. split; [|split; [|split]].
  - change (exec_all [Iretq] ?c) with (exec Iretq c). cbn [exec regs rip cmem]. fold m3.
    rewrite H1, !wrap_id by (unfold in_u; lia). rewrite W0, W1, W2, W3, W4.
    unfold on_cpu, entered. cbn [fst snd]. f_equal. apply functional_extensionality. intros r.
    unfold set_reg. repeat case_decide; try done. by rewrite H2, G2.
  - apply (words_ext m1).
    + apply words_of_bytes; [|unfold kept; cbn [map]; repeat (apply List.Forall_cons; [apply Hok|]); apply List.Forall_nil].
      pose proof (read_write_bytes (s - 56) (wbytes (map f kept)) m) as H. by rewrite length_wbytes in H.
    + intros x Hx. change (length (map f kept)) with 7%nat in Hx. unfold m3, m2.
      rewrite write_bytes_out by lia. apply put_word_out. lia.
  - unfold m3. rewrite (word_at_ext _ m2) by (intros x Hx; apply write_bytes_out; lia).
    unfold m2. apply word_at_put. unfold in_u. lia.
  - intros x H3 H4. unfold m3, m2, m1. rewrite write_bytes_out, put_word_out, write_bytes_out by lia. done.
Qed.

Lemma exit_effect exit_code ret_rsp c q code ra f :
  regs c RAX = code -> in_u 64 code -> word_at (cmem c) ret_rsp = q ->
  words (cmem c) q (map f kept ++ [ra]) -> 0 <= q < 2 ^ 64 - 64 ->
  disjoint_ranges exit_code 8 ret_rsp 8 -> disjoint_ranges exit_code 8 q 64 ->
  let c' := exec_all (ring3_exit_entry_asm exit_code ret_rsp) c in
  regs c' RAX = code /\ regs c' RSP = q + 64 /\ rip c' = ra /\ (forall r, r ∈ kept -> regs c' r = f r) /\
  cmem c' = put_word exit_code code (cmem c).
Proof.
  intros Ha Hcode Hq Hw Hb Hd1 Hd2 c'. unfold disjoint_ranges in *.
  change c' with (exec_all ([StoreAt exit_code RAX; LoadAt RSP ret_rsp] ++ map Pop kept ++ [LoadAt RAX exit_code; Ret]) c).
  rewrite !exec_all_app.
  change (exec_all [StoreAt exit_code RAX; LoadAt RSP ret_rsp] c) with (exec (LoadAt RSP ret_rsp) (exec (StoreAt exit_code RAX) c)).
  cbn [exec regs rip cmem]. rewrite Ha. rewrite word_at_put_ne by lia. rewrite Hq. set (m := put_word exit_code code (cmem c)).
  assert (Hw' : words m q (map f kept ++ [ra])).
  { apply (words_ext (cmem c)); [done|]. intros x Hx. rewrite length_app, length_map in Hx. change (length kept) with 7%nat in Hx.
    cbn [length] in Hx. apply put_word_out. lia. }
  apply words_app in Hw' as [W1 W2]. rewrite length_map in W2. change (length kept) with 7%nat in W2.
  apply words_cons in W2 as [W2 _].
  destruct (exec_pops kept (mk_Cpu (set_reg RSP q (regs c)) (rip c) m) q (map f kept)) as (g & E & G1 & G2 & G3).
  - cbn. by rd.
  - lia.
  - repeat (apply not_elem_of_cons; split; [done|]). apply not_elem_of_nil.
  - apply NoDup_ListNoDup. unfold kept. repeat (constructor; [cbn; intuition discriminate|]). constructor.
  - done.
  - change (length kept) with 7%nat. lia.
  - exact W1.
  - rewrite E. change (length kept) with 7%nat in *. replace (8 * Z.of_nat 7) with 56 in * by lia.
    change (exec_all [LoadAt RAX exit_code; Ret] ?c) with (exec Ret (exec (LoadAt RAX exit_code) c)). cbn [exec regs rip cmem]. rd. rewrite G1, W2.
    assert (Hc : word_at m exit_code = code) by (by apply word_at_put).
    rewrite Hc. replace (q + 56 + 8) with (q + 64) by lia. rewrite wrap_id by (unfold in_u; lia).
    split; [done|]. split; [done|]. split; [done|]. split; [|done].
    intros r Hr. assert (r <> RSP /\ r <> RAX) as [N1 N2].
    { unfold kept in Hr. repeat (apply elem_of_cons in Hr as [->|Hr]; [done|]). by apply elem_of_nil in Hr. }
    rewrite !set_reg_other by done. apply list_elem_of_lookup in Hr as [i Hi].
    pose proof (G2 i r Hi) as H. rewrite list_lookup_fmap, Hi in H. by injection H.
Qed.
