(* ===== verification/Ring3Pace.v ===== *)
(** * Ring3Pace: how far the multitasking tests' tasks get

    [gets_there] says how many time slices of at least [A] instructions a task needs to
    reach the state it stays in; [vsession_settles] counts the slices every task is
    given before task 0 is over, when no slice is longer than [B] and all tasks are
    in one tier. *)
From stdpp Require Import base list numbers.
From Stdlib Require Import Lia.
From S2P Require Import Prelude X64 TierSelect Ring3Mt Ring3Prog Ring3Session.
Open Scope Z_scope.

Lemma lrun_add L code a b v :
  lrun L code (a + b) v = match lrun L code a v with LStep v' => lrun L code b v' | o => o end.
Proof.
  revert v. induction a as [|a IH]; intros v; [done|]. cbn [Nat.add lrun].
  destruct (lstep L code v); [apply IH|done|done].
Qed.

Lemma vswitch_inv prios retire v s s' :
  vswitch prios retire v s = Ok s' ->
  v_cpus s' = <[v_cur s := v]> (v_cpus s) /\
  v_done s' = (if retire then <[v_cur s := true]> (v_done s) else v_done s) /\
  select_next (length (v_cpus s)) (length (v_cpus s)) (v_cur s) prios (v_done s') = Ok (v_cur s').
Proof.
  unfold vswitch. intros H. apply bind_Ok in H as (next & Hn & H). injection H as <-. done.
Qed.

(** ** One task *)

Section Settles.
Context (A : nat) (L : listing) (code : Z) (stays : vcpu -> Prop) (retired : vcpu -> Prop).

(** Within [t] slices of at least [A] instructions, a call that comes back ending one of
    them early, the task reaches [stays] or retires as [retired]. *)
Fixpoint gets_there (t : nat) (v : vcpu) : Prop :=
  match t with
  | O => stays v
  | S t => forall n, (A <= n)%nat ->
      match lrun L code n v with
      | LStep v' => gets_there t v'
      | LTrap vec v' => if vec =? 0x84 then retired v' else if vec =? 0x81 then False else gets_there t v'
      | LFault => False
      end
  end.

(** What [stays] is not left by running on. *)
Definition stable : Prop := forall n v, stays v -> exists v', lrun L code n v = LStep v' /\ stays v'.

Hypothesis Hstable : stable.

Lemma settles_more k t v : gets_there t v -> gets_there (k + t) v.
Proof.
  assert (H1 : forall t v, gets_there t v -> gets_there (S t) v).
  { clear t v. induction t as [|t IH]; intros v H n Hn.
    - destruct (Hstable n v H) as (v' & -> & H'). exact H'.
    - specialize (H n Hn). destruct (lrun L code n v) as [v'|vec v'|]; [by apply IH| |done].
      destruct (vec =? 0x84); [done|]. destruct (vec =? 0x81); [done|by apply IH]. }
  intros H. induction k as [|k IH]; [exact H|by apply H1].
Qed.

(** A stretch of [s] instructions takes [t] slices. *)
Lemma settles_run s t t' v w :
  lrun L code s v = LStep w -> (s <= t * A)%nat -> stays w -> gets_there (t + t') v.
Proof.
  intros Hs Ht Hw. rewrite Nat.add_comm. apply settles_more. revert s v Hs Ht.
  induction t as [|t IH]; intros s v Hs Ht.
  { assert (s = 0%nat) as -> by lia. by injection Hs as ->. }
  intros n Hn. destruct (decide (n <= s)%nat).
  - replace s with (n + (s - n))%nat in Hs by lia. rewrite lrun_add in Hs.
    destruct (lrun L code n v) as [v'| |]; [|done|done]. apply (IH (s - n)%nat); [done|lia].
  - replace n with (s + (n - s))%nat by lia. rewrite lrun_add, Hs.
    destruct (Hstable (n - s)%nat w Hw) as (w' & -> & Hw'). rewrite <- (Nat.add_0_r t). by apply settles_more.
Qed.

(** The same when it ends in a call. *)
Lemma settles_call s t t' v w vec u :
  lrun L code s v = LStep w -> lstep L code w = LTrap vec u -> (s < t * A)%nat ->
  (if vec =? 0x84 then retired u else if vec =? 0x81 then False else gets_there t' u) -> gets_there (t + t') v.
Proof.
  intros Hs Hw Ht Hu. revert s v Hs Ht. induction t as [|t IH]; intros s v Hs Ht; [lia|].
  intros n Hn. destruct (decide (n <= s)%nat).
  - replace s with (n + (s - n))%nat in Hs by lia. rewrite lrun_add in Hs.
    destruct (lrun L code n v) as [v'| |]; [|done|done]. apply (IH (s - n)%nat); [done|lia].
  - replace n with (s + S (n - s - 1))%nat by lia. rewrite lrun_add, Hs. cbn [lrun]. rewrite Hw.
    destruct (vec =? 0x84); [done|]. destruct (vec =? 0x81); [done|]. by apply settles_more.
Qed.
End Settles.

(** ** Three tasks of one tier *)

Section Round.
Context (p : Z) (rest : list Z).

Let prios := p :: p :: p :: rest.

Lemma select_round done cur next :
  select_ok 3 prios done -> (cur < 3)%nat -> select_next 3 3 cur prios done = Ok next ->
  (next = 0%nat /\ forall i, (cur < i < 3)%nat -> done !! i <> Some false) \/
  (cur < next < 3)%nat /\ forall i, (cur < i < next)%nat -> done !! i <> Some false.
Proof.
  intros [Sp Sd Sr Sa] Hc H.
  destruct (select_next_finds 3 prios done Sp Sd Sr cur) as (t & d & [(i & Hi & Hit) Htop] & Hd & E & _ & Hno).
  { exists 0%nat. by split; [lia|]. }
  rewrite E in H. injection H as <-.
  assert (Hp : forall j, (j < 3)%nat -> prio_of prios j = p) by (intros [|[|[|j]]] Hj; done || lia).
  assert (t = p) as -> by (rewrite <- Hit; apply Hp, Hi).
  assert (He : forall j, (j < 3)%nat -> done !! j = Some false -> eligible 3 prios done p j)
    by (intros j Hj Hdj; split; [by split|by apply Hp]).
  assert (Hmod : ((cur + (3 - cur)) mod 3 = 0)%nat) by (replace (cur + (3 - cur))%nat with 3%nat by lia; done).
  assert (d <= 3 - cur)%nat.
  { destruct (decide (3 - cur < d)%nat) as [Hlt|]; [|lia]. destruct (Hno (3 - cur)%nat ltac:(lia)). rewrite Hmod. by apply He; [lia|]. }
  assert (Hbetween : forall j, (cur < j < 3)%nat -> (j < cur + d)%nat -> done !! j <> Some false).
  { intros j Hj Hjd Hdj. destruct (Hno (j - cur)%nat ltac:(lia)). replace (cur + (j - cur))%nat with j by lia.
    rewrite (Nat.mod_small j 3) by lia. by apply He; [lia|]. }
  destruct (decide (d = 3 - cur)%nat) as [->|Hne]; [left|right].
  - split; [exact Hmod|]. intros j Hj. apply Hbetween; lia.
  - assert (Em : ((cur + d) mod 3 = cur + d)%nat) by (apply (Nat.mod_small _ 3); lia).
    assert (Hg : forall m, (m = cur + d -> (cur < m < 3) /\ forall i, (cur < i < m) -> done !! i <> Some false)%nat).
    { intros m ->. split; [lia|]. intros j Hj. apply Hbetween; lia. }
    exact (Hg _ Em).
Qed.

Context (A B : nat) (L0 L1 L2 : listing) (c0 c1 c2 : Z).
Context (G1 D1 G2 D2 : vcpu -> Prop).
Hypothesis HG1 : stable L1 c1 G1.
Hypothesis HG2 : stable L2 c2 G2.

Let tasks := [(L0, c0); (L1, c1); (L2, c2)].

(** A slice the round still owes task [i]. *)
Definition owed (cur i : nat) : nat := if (0 <? cur)%nat && (cur <=? i)%nat then 1 else 0.

(** The task is done for, or needs no more slices than it is still given: task 0, which
    has [rem] instructions to run before its exit, is going to be interrupted that often. *)
Definition on_course (L : listing) (code : Z) (G D : vcpu -> Prop) (cur i rem : nat) (dn : bool) (v : vcpu) : Prop :=
  if dn then D v else exists t, gets_there A L code G D t v /\ (t = 0 \/ (t - owed cur i) * B <= rem)%nat.

(** Task 0 has had a slice of [n] instructions. *)
Lemma course_after_0 L code G D next i rem n dn v :
  on_course L code G D 0 i rem dn v -> (n <= B)%nat -> (n <= rem)%nat -> (dn = false -> 0 < next <= i)%nat ->
  on_course L code G D next i (rem - n) dn v.
Proof.
  unfold on_course. destruct dn; [done|]. intros (t & Ht & Hr) Hn Hrem Hnext. exists t. split; [done|].
  specialize (Hnext eq_refl). unfold owed in *. cbn in Hr.
  rewrite (proj2 (Nat.ltb_lt 0 next)), (proj2 (Nat.leb_le next i)) by lia. cbn [andb].
  destruct Hr as [|Hr]; [by left|]. destruct t as [|t]; [by left|right]. rewrite Nat.sub_succ, Nat.sub_0_r in *. nia.
Qed.

(** Another task has. *)
Lemma course_other L code G D cur next i rem dn v :
  on_course L code G D cur i rem dn v -> (0 < cur)%nat -> i <> cur ->
  (dn = false -> cur < i -> cur < next <= i)%nat -> (next = 0 \/ cur < next)%nat ->
  on_course L code G D next i rem dn v.
Proof.
  unfold on_course. destruct dn; [done|]. intros (t & Ht & Hr) Hc Hi Hnext Hor. exists t. split; [done|].
  replace (owed next i) with (owed cur i); [done|]. unfold owed.
  destruct (Nat.ltb_spec 0 cur), (Nat.leb_spec cur i), (Nat.ltb_spec 0 next), (Nat.leb_spec next i); cbn; lia.
Qed.

(** And this one itself. *)
Lemma course_own L code G D cur next rem n v :
  stable L code G -> on_course L code G D cur cur rem false v -> (0 < cur)%nat -> (next = 0 \/ cur < next)%nat -> (A <= n)%nat ->
  match lrun L code n v with
  | LStep v' => on_course L code G D next cur rem false v'
  | LTrap vec v' => if vec =? 0x84 then on_course L code G D next cur rem true v'
                    else if vec =? 0x81 then False else on_course L code G D next cur rem false v'
  | LFault => False
  end.
Proof.
  intros HG (t & Ht & Hr) Hc Hnext Hn. unfold on_course.
  assert (Ho : owed next cur = 0%nat).
  { unfold owed. destruct Hnext as [->|]; [done|]. rewrite (proj2 (Nat.leb_gt next cur)) by done. by rewrite andb_false_r. }
  assert (Ho' : owed cur cur = 1%nat).
  { unfold owed. by rewrite (proj2 (Nat.ltb_lt 0 cur)), Nat.leb_refl. }
  rewrite Ho. rewrite Ho' in Hr.
  destruct t as [|t].
  - destruct (HG n v Ht) as (v' & -> & Hv'). exists 0%nat. split; [exact Hv'|by left].
  - specialize (Ht n Hn). assert (Hr' : (t = 0 \/ (t - 0) * B <= rem)%nat).
    { right. destruct Hr as [|Hr]; [done|]. by rewrite Nat.sub_succ in Hr. }
    destruct (lrun L code n v) as [v'|vec v'|]; [by exists t| |done].
    destruct (vec =? 0x84); [done|]. destruct (vec =? 0x81); [done|]. by exists t.
Qed.

Record in_round (rem : nat) (s : V) (v0 v1 v2 : vcpu) (d1 d2 : bool) : Prop := {
  ir_cpus : v_cpus s = [v0; v1; v2];
  ir_done : exists tl, v_done s = false :: d1 :: d2 :: tl;
  ir_cur : (v_cur s < 3)%nat;
  ir_live : v_done s !! v_cur s = Some false;
  ir_sel : select_ok 3 prios (v_done s);
  ir_1 : on_course L1 c1 G1 D1 (v_cur s) 1 rem d1 v1;
  ir_2 : on_course L2 c2 G2 D2 (v_cur s) 2 rem d2 v2;
}.

Definition slices (sched : list nat) : Prop := Forall (fun n => A <= n <= B)%nat sched.

(** Where the tasks stand when task 0 has exited. *)
Definition arrived (s : V) : Prop :=
  exists v0 v1 v2 d1 d2 tl, v_cpus s = [v0; v1; v2] /\ v_done s = false :: d1 :: d2 :: tl /\
    (if d1 then D1 v1 else G1 v1) /\ (if d2 then D2 v2 else G2 v2).

Lemma arrived_at rem L code G D i dn v :
  on_course L code G D 0 i rem dn v -> (rem < B)%nat -> if dn then D v else G v.
Proof.
  unfold on_course. destruct dn; [done|]. intros (t & Ht & Hr) HB. destruct t as [|t]; [exact Ht|].
  destruct Hr as [|Hr]; [done|]. cbn in Hr. lia.
Qed.
(** Task 0 is interrupted. *)
Lemma round_task_0 rem s s' v0 v1 v2 d1 d2 v' n :
  in_round rem s v0 v1 v2 d1 d2 -> v_cur s = 0%nat -> (n <= B)%nat -> (n <= rem)%nat ->
  vswitch prios false v' s = Ok s' -> in_round (rem - n) s' v' v1 v2 d1 d2.
Proof.
  intros [Ec [tl Ed] _ _ Hsel H1 H2] E0 HB Hn (Hc & Hd & Hs)%vswitch_inv.
  rewrite E0 in *. rewrite Ec in *. cbn [length] in Hs. rewrite Hd in Hs.
  assert (Hdone : forall i, (0 < i < 3)%nat -> v_done s !! i <> Some false ->
    (i = 1%nat -> d1 = true) /\ (i = 2%nat -> d2 = true)).
  { intros i Hi. rewrite Ed. destruct i as [|[|[|i]]]; try lia; cbn; intros Hne.
    - split; [by destruct d1|done].
    - split; [done|by destruct d2]. }
  destruct (select_round _ 0 _ Hsel (Nat.lt_0_succ 2) Hs) as [[En Hdead]|[Hlt Hdead]].
  - split; [done|by rewrite Hd; eexists|lia|by rewrite Hd, En, Ed|by rewrite Hd| |].
    + apply (course_after_0 L1 c1 G1 D1 _ 1 rem n); [done..|]. intros ->. by destruct (Hdone 1%nat ltac:(lia) (Hdead 1%nat ltac:(lia))) as [H _]; specialize (H eq_refl).
    + apply (course_after_0 L2 c2 G2 D2 _ 2 rem n); [done..|]. intros ->. by destruct (Hdone 2%nat ltac:(lia) (Hdead 2%nat ltac:(lia))) as [_ H]; specialize (H eq_refl).
  - split; [done|by rewrite Hd; eexists|lia| |by rewrite Hd| |].
    + rewrite Hd. apply (select_alive 3 prios _ 0); [done|lia|done].
    + apply (course_after_0 L1 c1 G1 D1 _ 1 rem n); [done..|]. intros ->.
      destruct (decide (v_cur s' <= 1)%nat); [lia|].
      by destruct (Hdone 1%nat ltac:(lia) (Hdead 1%nat ltac:(lia))) as [H _]; specialize (H eq_refl).
    + apply (course_after_0 L2 c2 G2 D2 _ 2 rem n); [done..|]. lia.
Qed.

(** Another task retires or is interrupted. *)
Lemma sel_retires i (retire : bool) done :
  i <> 0%nat -> select_ok 3 prios done -> select_ok 3 prios (if retire then <[i := true]> done else done).
Proof.
  intros Hi [S1 S2 S3 S4]. destruct retire; [|done]. split; try done.
  - by rewrite length_insert.
  - by rewrite list_lookup_insert_ne.
Qed.

Lemma round_task_1 rem s s' v0 v1 v2 d1 d2 (retire : bool) v' :
  in_round rem s v0 v1 v2 d1 d2 -> v_cur s = 1%nat -> vswitch prios retire v' s = Ok s' ->
  (forall next, (next = 0 \/ 1 < next)%nat -> on_course L1 c1 G1 D1 next 1 rem retire v') ->
  in_round rem s' v0 v' v2 retire d2.
Proof.
  intros [Ec [tl Ed] _ Hl Hsel H1 H2] E0 (Hc & Hd & Hs)%vswitch_inv Hown.
  rewrite E0 in *. rewrite Ec in *. cbn [length] in Hs. rewrite Ed in Hl. cbn in Hl. injection Hl as ->.
  assert (Ed' : v_done s' = false :: retire :: d2 :: tl) by (rewrite Hd, Ed; by destruct retire).
  pose proof (sel_retires 1 retire _ ltac:(done) Hsel) as Hsel'. rewrite <- Hd in Hsel'.
  destruct (select_round _ 1 _ Hsel' ltac:(lia) Hs) as [[En Hdead]|[Hlt Hdead]].
  - split; [done|by eexists|lia|by rewrite Ed', En|done| |].
    + apply Hown. by left.
    + apply (course_other L2 c2 G2 D2 1 _ 2 rem); [done|lia|lia| |by left].
      intros -> _. specialize (Hdead 2%nat ltac:(lia)). by rewrite Ed' in Hdead.
  - split; [done|by eexists|lia| |done| |].
    + apply (select_alive 3 prios _ 1); [done|lia|done].
    + apply Hown. right. lia.
    + apply (course_other L2 c2 G2 D2 1 _ 2 rem); [done|lia|lia|lia|right; lia].
Qed.

Lemma round_task_2 rem s s' v0 v1 v2 d1 d2 (retire : bool) v' :
  in_round rem s v0 v1 v2 d1 d2 -> v_cur s = 2%nat -> vswitch prios retire v' s = Ok s' ->
  (forall next, (next = 0 \/ 2 < next)%nat -> on_course L2 c2 G2 D2 next 2 rem retire v') ->
  in_round rem s' v0 v1 v' d1 retire.
Proof.
  intros [Ec [tl Ed] _ Hl Hsel H1 H2] E0 (Hc & Hd & Hs)%vswitch_inv Hown.
  rewrite E0 in *. rewrite Ec in *. cbn [length] in Hs. rewrite Ed in Hl. cbn in Hl. injection Hl as ->.
  assert (Ed' : v_done s' = false :: d1 :: retire :: tl) by (rewrite Hd, Ed; by destruct retire).
  pose proof (sel_retires 2 retire _ ltac:(done) Hsel) as Hsel'. rewrite <- Hd in Hsel'.
  destruct (select_round _ 2 _ Hsel' ltac:(lia) Hs) as [[En Hdead]|[Hlt Hdead]].
  - split; [done|by eexists|lia|by rewrite Ed', En|done| |].
    + apply (course_other L1 c1 G1 D1 2 _ 1 rem); [done|lia|lia|lia|by left].
    + apply Hown. by left.
  - split; [done|by eexists|lia| |done| |].
    + apply (select_alive 3 prios _ 2); [done|lia|done].
    + apply (course_other L1 c1 G1 D1 2 _ 1 rem); [done|lia|lia|lia|right; lia].
    + apply Hown. right. lia.
Qed.

(** When task 0 exits, the other two have arrived. *)
Lemma vsession_settles sched rem s v0 v1 v2 d1 d2 w u x s' k :
  in_round rem s v0 v1 v2 d1 d2 -> lrun L0 c0 rem v0 = LStep w -> lstep L0 c0 w = LTrap 0x81 u ->
  slices sched -> vsession tasks prios sched s = Ok (x, s', k) -> arrived s'.
Proof.
  revert rem s v0 v1 v2 d1 d2 k. induction sched as [|n sched IH]; intros rem s v0 v1 v2 d1 d2 k HI Hr Hw Hsl H; [done|].
  apply List.Forall_cons_iff in Hsl as [[HA HB] Hsl]. cbn [vsession] in H.
  assert (Hnext : forall retire v' rem' v0' v1' v2' d1' d2', lrun L0 c0 rem' v0' = LStep w ->
    (forall s1, vswitch prios retire v' s = Ok s1 -> in_round rem' s1 v0' v1' v2' d1' d2') ->
    (s1 ← vswitch prios retire v' s; '(x, s'', k) ← vsession tasks prios sched s1; Ok (x, s'', S k)) = Ok (x, s', k) -> arrived s').
  { intros retire v' rem' v0' v1' v2' d1' d2' Hr' Hs1 Hgo. apply bind_Ok in Hgo as (s1 & Es & Hgo).
    apply bind_Ok in Hgo as ([[x1 s2] k1] & Hgo & E). injection E as -> -> _.
    exact (IH rem' s1 v0' v1' v2' d1' d2' k1 (Hs1 s1 Es) Hr' Hw Hsl Hgo). }
  pose proof HI as [Ec [tl Ed] Hc Hl _ H1 H2].
  destruct (v_cur s) as [|[|[|?]]] eqn:E0; [| | |lia]; rewrite Ec in H; cbn [tasks idx lookup list_lookup mbind res_bind] in H.
  - destruct (decide (n <= rem)%nat) as [Hle|Hgt].
    + replace rem with (n + (rem - n))%nat in Hr by lia. rewrite lrun_add in Hr.
      destruct (lrun L0 c0 n v0) as [v'| |]; [|done|done].
      apply (Hnext false v' (rem - n)%nat v' v1 v2 d1 d2 Hr); [|exact H]. intros s1 Es.
      exact (round_task_0 rem s s1 v0 v1 v2 d1 d2 v' n HI E0 HB Hle Es).
    + replace n with (rem + S (n - rem - 1))%nat in H by lia. rewrite lrun_add, Hr in H. cbn [lrun] in H. rewrite Hw in H.
      injection H as _ <- _. exists v0, v1, v2, d1, d2, tl. split; [done|]. split; [done|].
      split; [apply (arrived_at rem L1 c1 G1 D1 1)|apply (arrived_at rem L2 c2 G2 D2 2)]; done || lia.
  - rewrite Ed in Hl. cbn in Hl. injection Hl as ->.
    assert (Hown : forall next, (next = 0 \/ 1 < next)%nat -> _) by
      (intros next Hn; exact (course_own L1 c1 G1 D1 1 next rem n v1 HG1 H1 ltac:(lia) Hn HA)).
    pose proof (Hown 0%nat (or_introl eq_refl)) as Hz.
    destruct (lrun L1 c1 n v1) as [v'|vec v'|]; [| |done].
    + apply (Hnext false v' rem v0 v' v2 false d2 Hr); [|exact H]. intros s1 Es.
      exact (round_task_1 rem s s1 v0 v1 v2 false d2 false v' HI E0 Es Hown).
    + destruct (Z.eqb_spec vec 0x81) as [->|_]; [by destruct Hz|].
      destruct (vec =? 0x84); (eapply (Hnext _ v' rem v0 v' v2 _ d2 Hr); [|exact H]);
        intros s1 Es; exact (round_task_1 rem s s1 v0 v1 v2 false d2 _ v' HI E0 Es Hown).
  - rewrite Ed in Hl. cbn in Hl. injection Hl as ->.
    assert (Hown : forall next, (next = 0 \/ 2 < next)%nat -> _) by
      (intros next Hn; exact (course_own L2 c2 G2 D2 2 next rem n v2 HG2 H2 ltac:(lia) Hn HA)).
    pose proof (Hown 0%nat (or_introl eq_refl)) as Hz.
    destruct (lrun L2 c2 n v2) as [v'|vec v'|]; [| |done].
    + apply (Hnext false v' rem v0 v1 v' d1 false Hr); [|exact H]. intros s1 Es.
      exact (round_task_2 rem s s1 v0 v1 v2 d1 false false v' HI E0 Es Hown).
    + destruct (Z.eqb_spec vec 0x81) as [->|_]; [by destruct Hz|].
      destruct (vec =? 0x84); (eapply (Hnext _ v' rem v0 v1 v' d1 _ Hr); [|exact H]);
        intros s1 Es; exact (round_task_2 rem s s1 v0 v1 v2 d1 false _ v' HI E0 Es Hown).
Qed.
End Round.

(** ** The programs of the tests *)

Section Programs.
Context (A : nat) (code : Z).
Hypothesis Hcode : 0 <= code < 2 ^ 64 - 46.

(** Spinning with the checksum in [eax]. *)
Definition spinning (p : Z) (v : vcpu) : Prop := exists g, v = at_pc code 44 g /\ g RAX = checksum p.

Lemma spinning_stable p n : stable (checksum_listing p n SpinForever) code (spinning p).
Proof.
  intros k v (g & -> & Hg). exists (at_pc code 44 g). split; [|by exists g].
  induction k as [|k IH]; [done|].
  rewrite (lrun_jmp _ code (proj1 Hcode) (checksum_end p n SpinForever code Hcode) 44 g (-2) 2 k 44);
    [exact IH|reflexivity|reflexivity|rewrite length_checksum; lia].
Qed.

Lemma start_pc f : (f, code) = at_pc code 0 f.
Proof. unfold at_pc. by rewrite Z.add_0_r. Qed.

Lemma rounds_pos n : 0 < n -> rounds n = n.
Proof. intros Hn. unfold rounds. by rewrite (proj2 (Z.eqb_neq n 0)) by lia. Qed.

Lemma spin_settles p n D t f :
  in_u 32 p -> in_u 32 n -> 0 < n -> 10 + 2 * n <= Z.of_nat (t * A) ->
  gets_there A (checksum_listing p n SpinForever) code (spinning p) D t (f, code).
Proof.
  intros Hp Hn Hpos Ht. destruct (checksum_run p n SpinForever code Hp Hn Hcode f) as (g & Hg & Ga & _).
  rewrite <- (Nat.add_0_r t). rewrite (rounds_pos n Hpos) in Hg.
  apply (settles_run A _ _ _ _ (spinning_stable p n) (10 + 2 * Z.to_nat n) t 0 _ (at_pc code 44 g)); [|lia|by exists g].
  specialize (Hg 0%nat). rewrite Nat.add_0_r in Hg. by rewrite start_pc, Hg.
Qed.

Lemma nowhere_stable L : stable L code (fun _ => False).
Proof. intros n v []. Qed.

Lemma retire_settles p n t f :
  in_u 32 p -> in_u 32 n -> 0 < n -> 10 + 2 * n < Z.of_nat (t * A) ->
  gets_there A (checksum_listing p n RetireViaInt84) code (fun _ => False) (fun v => v.1 RAX = checksum p) t (f, code).
Proof.
  intros Hp Hn Hpos Ht. destruct (checksum_run p n RetireViaInt84 code Hp Hn Hcode f) as (g & Hg & Ga & _).
  rewrite <- (Nat.add_0_r t). rewrite (rounds_pos n Hpos) in Hg.
  apply (settles_call A _ _ _ _ (nowhere_stable _) (10 + 2 * Z.to_nat n) t 0 _ (at_pc code 44 g) 0x84 (at_pc code 46 g));
    [|by rewrite (lstep_at _ code (proj1 Hcode) (checksum_end p n RetireViaInt84 code Hcode) 44 g _ 2 eq_refl)|lia|exact Ga].
  specialize (Hg 0%nat). rewrite Nat.add_0_r in Hg. by rewrite start_pc, Hg.
Qed.

(** The yield costs a slice; its program retires all the same. *)
Lemma voluntary_settles p a b t1 t2 f :
  in_u 32 p -> in_u 32 a -> in_u 32 b -> 0 < a -> 0 < b ->
  3 + 2 * a < Z.of_nat (t1 * A) -> 3 + 2 * b < Z.of_nat (t2 * A) ->
  gets_there A (voluntary_listing p a b) code (fun _ => False) (fun v => v.1 RAX = u32 (p + 3)) (t1 + t2) (f, code).
Proof.
  intros Hp Ha Hb Pa Pb H1 H2. pose proof (voluntary_end p a b code Hcode) as He.
  destruct (voluntary_run_1 p a b code Ha Hcode f) as (g & Hg & _).
  destruct (voluntary_run_2 p a b code Hb Hcode g) as (h & Hh & Hx).
  specialize (Hg 0%nat). specialize (Hh 0%nat). rewrite Nat.add_0_r in Hg, Hh.
  rewrite (rounds_pos a Pa) in Hg. rewrite (rounds_pos b Pb) in Hh.
  apply (settles_call A _ _ _ _ (nowhere_stable _) (3 + 2 * Z.to_nat a) t1 t2 _ (at_pc code 21 g) 0x86 (at_pc code 23 g));
    [by rewrite start_pc, Hg|by rewrite (lstep_at _ code (proj1 Hcode) He 21 g _ 2 eq_refl)|lia|].
  rewrite <- (Nat.add_0_r t2).
  apply (settles_call A (voluntary_listing p a b) code _ _ (nowhere_stable _) (3 + 2 * Z.to_nat b) t2 0 (at_pc code 23 g)
    (at_pc code 44 h) 0x84 (at_pc code 46 h));
    [by rewrite Hh|by rewrite (lstep_at _ code (proj1 Hcode) He 44 h _ 2 eq_refl)|lia|exact Hx].
Qed.
End Programs.
