(* ===== verification/Ring3Tests.v ===== *)
(** * Ring3Tests: the multitasking self-tests of [ring3.rs], end to end

    Each test copies three programs into the user page, arms Ring3Mt's scheduler,
    enters ring 3 and reports what came back.  The theorems hold for every placement
    of timer interrupts among the programs' instructions. *)
From stdpp Require Import base list numbers strings.
From Stdlib Require Import Lia FunctionalExtensionality.
From S2P Require Import Prelude Mem X64 ContextSwitch AgentScheduler TierSelect Preemptive Ring3Mt PhysMem Ring3Prog Ring3Session Ring3Pace.
Open Scope Z_scope.

(** ** A program on its own *)

(** What [v] can become by its own program, calls that come back included. *)
Definition lnext (L : listing) (code : Z) (v : vcpu) : option vcpu :=
  match lstep L code v with
  | LStep v' => Some v'
  | LTrap vec v' => if resumable vec then Some v' else None
  | LFault => None
  end.

Inductive lreach (L : listing) (code : Z) (v : vcpu) : vcpu -> Prop :=
| lr_refl : lreach L code v v
| lr_next w u : lreach L code v w -> lnext L code w = Some u -> lreach L code v u.

Lemma lreach_trans L code u v w : lreach L code u v -> lreach L code v w -> lreach L code u w.
Proof. intros H1 H2. induction H2 as [|x y H IH E]; [done|]. by apply (lr_next _ _ _ x). Qed.

Lemma lrun_reach L code n v w : lrun L code n v = LStep w -> lreach L code v w.
Proof.
  revert v. induction n as [|n IH]; intros v H; [injection H as ->; apply lr_refl|]. cbn [lrun] in H.
  destruct (lstep L code v) as [u| |] eqn:E; try done. apply (lreach_trans _ _ _ u); [|by apply IH].
  apply (lr_next _ _ _ v); [apply lr_refl|]. unfold lnext. by rewrite E.
Qed.

(** A run of a program, seen from its other end. *)
Lemma lreach_head L code v w :
  lreach L code v w -> v = w \/ exists u, lnext L code v = Some u /\ lreach L code u w.
Proof.
  intros H. induction H as [|x y H IH E]; [by left|]. right. destruct IH as [->|(u & Eu & Hu)].
  - exists y. split; [done|apply lr_refl].
  - exists u. split; [done|]. by apply (lr_next _ _ _ x).
Qed.

(** A program has one end. *)
Lemma lreach_linear L code v a b : lreach L code v a -> lreach L code v b -> lreach L code a b \/ lreach L code b a.
Proof.
  intros Ha Hb. induction Ha as [|x y Ha IH E]; [by left|]. destruct IH as [H|H].
  - destruct (lreach_head _ _ _ _ H) as [<-|(u & Eu & Hu)].
    + right. apply (lr_next _ _ _ x); [apply lr_refl|done].
    + rewrite E in Eu. injection Eu as ->. by left.
  - right. by apply (lr_next _ _ _ x).
Qed.

Lemma stuck_unique L code v a b :
  lreach L code v a -> lnext L code a = None -> lreach L code v b -> lnext L code b = None -> a = b.
Proof.
  intros Ha Na Hb Nb. destruct (lreach_linear _ _ _ _ _ Ha Hb) as [H|H];
    destruct (lreach_head _ _ _ _ H) as [E|(u & Eu & _)]; congruence.
Qed.

(** What becomes of every task in a run of the specification: its own program's
    doing only.  One that retired did so where its program says so, and so did the
    one that ended the run. *)
Definition came_from (tasks : list (listing * Z)) (done : list bool) (v0s : list vcpu) (i : nat) (v : vcpu) : Prop :=
  exists L code v0, tasks !! i = Some (L, code) /\ v0s !! i = Some v0 /\
    match done !! i with
    | Some true => exists w vec, lreach L code v0 w /\ lstep L code w = LTrap vec v /\ vec = 0x84
    | _ => lreach L code v0 v
    end.

Lemma lrun_trap_state L code n v vec v' :
  lrun L code n v = LTrap vec v' -> exists w, lreach L code v w /\ lstep L code w = LTrap vec v'.
Proof.
  revert v. induction n as [|n IH]; intros v H; [done|]. cbn [lrun] in H.
  destruct (lstep L code v) as [u|vec' u|] eqn:E; [| |done].
  - destruct (IH u H) as (w & Hw & Ew). exists w. split; [|done]. apply (lreach_trans _ _ _ u); [|done].
    apply (lr_next _ _ _ v); [apply lr_refl|]. unfold lnext. by rewrite E.
  - injection H as -> ->. exists v. split; [apply lr_refl|done].
Qed.

Lemma closed_vectors L k vec n :
  listed L -> closed L = true -> at_offset L k = Some (UInt vec, n) -> vec = 0x81 \/ vec = 0x84 \/ vec = 0x86.
Proof.
  intros HL Hc Hk. pose proof (check_at_all L HL Hc k _ n Hk) as H. unfold check_at in H. rewrite Hk in H.
  unfold final, resumable in H. apply orb_true_iff in H as [[H|H]%orb_true_iff|[H _]%andb_true_iff]; unbool; auto.
Qed.

Section Traces.
Context (tasks : list (listing * Z)) (prios : list Z) (v0s : list vcpu).
Hypothesis Hvec : forall i L code k vec n, tasks !! i = Some (L, code) -> at_offset L k = Some (UInt vec, n) ->
  vec = 0x81 \/ vec = 0x84 \/ vec = 0x86.
Hypothesis Hstay : forall L code k n, tasks !! 0%nat = Some (L, code) -> at_offset L k <> Some (UInt 0x84, n).

(** What holds between two switches. *)
Record traced (s : V) : Prop := {
  tr_sel : select_ok (length (v_cpus s)) prios (v_done s);
  tr_alive : v_done s !! v_cur s = Some false;
  tr_from : forall i v, v_cpus s !! i = Some v -> came_from tasks (v_done s) v0s i v;
}.

Lemma traced_switch s s' (retire : bool) v v' L code :
  traced s -> tasks !! v_cur s = Some (L, code) -> v_cpus s !! v_cur s = Some v ->
  (if retire then exists w, lreach L code v w /\ lstep L code w = LTrap 0x84 v' else lreach L code v v') ->
  vswitch prios retire v' s = Ok s' -> traced s'.
Proof.
  intros [[P1 P2 P3 P4] Hal Hfrom] HL Hv Hreach (Ec & Ed & Esel)%vswitch_inv.
  pose proof (lookup_lt_Some _ _ _ Hv) as Hlt.
  assert (H0 : retire = true -> v_cur s <> 0%nat).
  { intros -> E0. destruct Hreach as (w & _ & Ew). rewrite E0 in HL. unfold lstep in Ew.
    destruct (at_offset L _) as [[i n]|] eqn:Ei; [|done]. destruct i; try done. injection Ew as -> _.
    by apply (Hstay L code _ n HL Ei). }
  assert (Hsel : select_ok (length (v_cpus s')) prios (v_done s')).
  { rewrite Ec, Ed, length_insert. split; try done; destruct retire; try done.
    - by rewrite length_insert.
    - rewrite list_lookup_insert_ne; [done|by apply H0]. }
  split; [done| |].
  - rewrite Ec, length_insert in Hsel. apply (select_alive (length (v_cpus s)) prios (v_done s') (v_cur s)); [done|lia|done].
  - intros i u Hi. rewrite Ec in Hi. destruct (decide (i = v_cur s)) as [->|Hne].
    + rewrite list_lookup_insert_eq in Hi by done. injection Hi as ->.
      destruct (Hfrom _ _ Hv) as (L' & code' & v0 & HL' & Hv0 & Hr). rewrite HL in HL'. injection HL' as <- <-.
      exists L, code, v0. split; [done|]. split; [done|]. rewrite Hal in Hr. rewrite Ed. destruct retire.
      * rewrite list_lookup_insert_eq by (by eapply lookup_lt_Some). destruct Hreach as (w & Hw & Ew).
        exists w, 0x84. split; [by apply (lreach_trans _ _ _ v)|done].
      * rewrite Hal. by apply (lreach_trans _ _ _ v).
    + rewrite list_lookup_insert_ne in Hi by done. destruct (Hfrom i u Hi) as (L' & code' & v0 & H1 & H2 & H3).
      exists L', code', v0. split; [done|]. split; [done|]. rewrite Ed. destruct retire; [|done].
      by rewrite list_lookup_insert_ne.
Qed.

Lemma vsession_traces sched s x s' k :
  traced s -> vsession tasks prios sched s = Ok (x, s', k) ->
  traced s' /\
  exists L code v0 w u, tasks !! v_cur s' = Some (L, code) /\ v0s !! v_cur s' = Some v0 /\
    lreach L code v0 w /\ lstep L code w = LTrap 0x81 u /\ x = u.1 RAX.
Proof.
  revert s k. induction sched as [|n sched IH]; intros s k Ht H; [done|]. cbn [vsession] in H.
  apply bind_Ok in H as ([L code] & HL & H). apply bind_Ok in H as (v & Hv & H). apply idx_Ok in HL, Hv.
  assert (Hgo : forall (retire : bool) v', (if retire then exists w, lreach L code v w /\ lstep L code w = LTrap 0x84 v' else lreach L code v v') ->
    (s1 ← vswitch prios retire v' s; '(x, s'', k) ← vsession tasks prios sched s1; Ok (x, s'', S k)) = Ok (x, s', k) ->
    traced s' /\ exists L code v0 w u, tasks !! v_cur s' = Some (L, code) /\ v0s !! v_cur s' = Some v0 /\
      lreach L code v0 w /\ lstep L code w = LTrap 0x81 u /\ x = u.1 RAX).
  { intros retire v' Hr Hgo. apply bind_Ok in Hgo as (s1 & Hs & Hgo). apply bind_Ok in Hgo as ([[x1 s2] k1] & Hgo & E).
    injection E as -> -> _. apply (IH s1 k1); [|done]. by apply (traced_switch s s1 retire v v' L code). }
  destruct (lrun L code n v) as [v'|vec v'|] eqn:El; [| |done].
  - apply (Hgo false v'); [by apply (lrun_reach _ _ n)|done].
  - destruct (lrun_trap_state _ _ _ _ _ _ El) as (w & Hw & Ew).
    destruct (lrun_trap_at _ _ _ _ _ _ El) as (j & len & Hj).
    destruct (Z.eqb_spec vec 0x81) as [->|H81].
    + injection H as <- <- _. split; [done|]. destruct (tr_from _ Ht _ _ Hv) as (L' & code' & v0 & HL' & Hv0 & Hr).
      rewrite HL in HL'. injection HL' as <- <-. rewrite (tr_alive _ Ht) in Hr.
      exists L, code, v0, w, v'. split; [done|]. split; [done|]. split; [by apply (lreach_trans _ _ _ v)|done].
    + destruct (Z.eqb_spec vec 0x84) as [->|H84].
      * apply (Hgo true v'); [by exists w|done].
      * destruct (Hvec _ _ _ _ _ _ HL Hj) as [->|[->| ->]]; try done.
        apply (Hgo false v'); [|done]. apply (lr_next _ _ _ w); [done|]. unfold lnext. by rewrite Ew.
Qed.
End Traces.

(** ** The tests *)

Definition RING3_TEST_RFLAGS : Z := 0x202.

(** What surrounds a test: the selectors of the GDT, the kernel stack of the TSS, the
    two cells of [ring3.rs], the vectors the programs do not use, where the boxed
    contexts are allocated, the caller and the timer when it is called, and when
    the timer interrupts. *)
Record Site := mk_Site {
  user_cs : Z; user_ss : Z; kernel_cs : Z; rsp0 : Z;
  exit_cell : Z; ret_cell : Z;
  lock_free : bool; other_trap : Z -> M machine unit;
  bufs : list Z; caller : Cpu; timer : Timer;
  sched : list nat;
}.

(** The call of [enter_ring3] in the closure a test passes to the scheduler. *)
Definition closure (x : Site) (entry user_rsp : Z) : M (Mt * memory) Z := fun '(mt, m) =>
  match enter_ring3 (kernel_cs x) (rsp0 x) (exit_cell x) (ret_cell x) (lock_free x) (other_trap x)
          entry (user_cs x) (user_ss x) user_rsp RING3_TEST_RFLAGS (sched x)
          (mk_Cpu (regs (caller x)) (rip (caller x)) m, with_mt mt (timer x)) with
  | (r, (c', t')) => (r, (t_mt t', cmem c'))
  end.

Definition task0_entry : Z := USER_TEST_PAGE_ADDR.
Definition task1_entry : Z := USER_TEST_PAGE_ADDR + 128.
Definition task2_entry : Z := USER_TEST_PAGE_ADDR + 256.
Definition task0_stack_top : Z := USER_TEST_PAGE_ADDR + 2048.
Definition task1_stack_top : Z := USER_TEST_PAGE_ADDR + 3072.
Definition task2_stack_top : Z := USER_TEST_PAGE_ADDR + 4096.

Definition copy_tasks (task0 task1 task2 : list Z) (m : memory) : memory :=
  write_bytes task2_entry task2 (write_bytes task1_entry task1 (write_bytes task0_entry task0 m)).

(** What the four tests have in common. *)
Definition mt_test (x : Site) (p0 p1 p2 : Priority) (task0 task1 task2 : list Z) :
    M (Mt * memory) (Z * list Z * list bool * Z) :=
  modify (on_mem (copy_tasks task0 task1 task2));;
  let task1_ctx := prepare_ring3_mt_task_ctx task1_entry (user_cs x) (user_ss x) task1_stack_top RING3_TEST_RFLAGS in
  let task2_ctx := prepare_ring3_mt_task_ctx task2_entry (user_cs x) (user_ss x) task2_stack_top RING3_TEST_RFLAGS in
  run_multitasking p0 [(p1, task1_ctx); (p2, task2_ctx)] (bufs x) (closure x task0_entry task0_stack_top).

Definition run_ring3_mt_test (x : Site) : M (Mt * memory) (Z * list Z * Z) :=
  let task0 := build_ring3_mt_checksum_program 0x10000000 150000000 ExitViaInt81 in
  let task1 := build_ring3_mt_checksum_program 0x20000000 10000000 SpinForever in
  let task2 := build_ring3_mt_checksum_program 0x30000000 5000000 SpinForever in
  '(task0_exit_code, other_last_eax, _, switch_count) ← mt_test x Normal Normal Normal task0 task1 task2;
  mret (task0_exit_code, other_last_eax, switch_count).

Definition run_priority_ring3_mt_test (x : Site) : M (Mt * memory) (Z * Z * Z * Z) :=
  let task0 := build_ring3_mt_checksum_program 0x10000000 150000000 ExitViaInt81 in
  let task1 := build_ring3_mt_checksum_program 0x50000000 5000000 SpinForever in
  let task2 := build_ring3_mt_checksum_program 0x60000000 5000000 SpinForever in
  '(task0_exit_code, other_last_eax, _, switch_count) ← mt_test x High Background Background task0 task1 task2;
  task1_last_eax ← lift (idx other_last_eax 0);
  task2_last_eax ← lift (idx other_last_eax 1);
  mret (task0_exit_code, task1_last_eax, task2_last_eax, switch_count).

(** The two tests that look at who retired end alike. *)
Definition report_retired (r : Z * list Z * list bool * Z) : M (Mt * memory) (Z * Z * bool * Z * bool * Z) :=
  let '(task0_exit_code, other_last_eax, other_done, switch_count) := r in
  task1_last_eax ← lift (idx other_last_eax 0);
  task2_last_eax ← lift (idx other_last_eax 1);
  task1_done ← lift (idx other_done 0);
  task2_done ← lift (idx other_done 1);
  mret (task0_exit_code, task1_last_eax, task1_done, task2_last_eax, task2_done, switch_count).

Definition run_early_exit_ring3_mt_test (x : Site) : M (Mt * memory) (Z * Z * bool * Z * bool * Z) :=
  let task0 := build_ring3_mt_checksum_program 0x10000000 150000000 ExitViaInt81 in
  let task1 := build_ring3_mt_checksum_program 0x20000000 5000000 RetireViaInt84 in
  let task2 := build_ring3_mt_checksum_program 0x30000000 6000000 SpinForever in
  r ← mt_test x Normal Normal Normal task0 task1 task2;
  report_retired r.

Definition run_voluntary_yield_ring3_mt_test (x : Site) : M (Mt * memory) (Z * Z * bool * Z * bool * Z) :=
  let task0 := build_ring3_mt_checksum_program 0x10000000 150000000 ExitViaInt81 in
  let task1 := build_voluntary_yield_program 0x20000000 5000000 5000000 in
  let task2 := build_ring3_mt_checksum_program 0x30000000 6000000 SpinForever in
  r ← mt_test x Normal Normal Normal task0 task1 task2;
  report_retired r.

(** ** What the tests rely on *)

(** The memory in use: the user page, the caller's stack, the two cells, the kernel
    stack and the boxed contexts. *)
Definition regions (x : Site) : list (Z * Z) :=
  [(USER_TEST_PAGE_ADDR, 4096); (regs (caller x) RSP - 96, 104); (ret_cell x, 8); (exit_cell x, 8); (rsp0 x - 160, 160)] ++
  map (fun b => (b, 160)) (bufs x).

Record site_ok (x : Site) (mt : Mt) : Prop := {
  si_cs : in_u 64 (user_cs x) /\ Z.land (user_cs x) 3 = 3;
  si_ss : in_u 64 (user_ss x);
  si_regs : regs_ok (regs (caller x));
  si_bufs : length (bufs x) = 3%nat;
  si_range : forall i a n, regions x !! i = Some (a, n) -> 0 <= a /\ a + n < 2 ^ 64;
  si_apart : forall i j a n b k, regions x !! i = Some (a, n) -> regions x !! j = Some (b, k) -> i <> j ->
    disjoint_ranges a n b k;
  si_rp : rp_enabled (t_rp (timer x)) = false;
  si_ctx : length (task_ctx mt) = RING3_MT_MAX_TASKS;
  si_prio : length (task_priority mt) = RING3_MT_MAX_TASKS;
  si_done : length (task_done_mask mt) = RING3_MT_MAX_TASKS;
  si_tiers : forall p, p ∈ task_priority mt -> 0 <= p <= U8_MAX;
}.

(** A program that fits its slot in the user page. *)
Record program_ok (L : listing) : Prop := {
  pg_fits : (length (bytes_of L) <= 128)%nat;
  pg_first : is_Some (at_offset L 0);
  pg_listed : listed L;
  pg_closed : closed L = true;
  pg_imms : imms_ok L;
}.

Definition never (L : listing) (vec : Z) : Prop := forall k n, at_offset L k <> Some (UInt vec, n).

Lemma refines_mem rs s m m' a :
  refines rs s m a -> (forall i b z, rs !! i = Some b -> b <= z < b + 160 -> m' z = m z) -> refines rs s m' a.
Proof.
  intros [? ? ? ? ? ? ? Hc] Hm. split; try done. intros i b Hi. rewrite (Hc i b Hi). f_equal. symmetry.
  apply read_bytes_ext. intros z Hz. by apply (Hm i b).
Qed.

(** The registers [enter_ring3] is called with. *)
Definition entry_args (x : Site) (entry user_rsp : Z) : reg -> Z :=
  set_reg RDI entry (set_reg RSI (user_cs x) (set_reg RDX (user_ss x)
    (set_reg RCX user_rsp (set_reg R8 RING3_TEST_RFLAGS (regs (caller x)))))).

(** [eax] as the scheduler reads it back from a context. *)
Lemma ctx_eax v : le_of (take 4 (ctx_bytes v)) = u32 (v.1 RAX).
Proof.
  unfold ctx_bytes, ctx_words, popped. cbn [map app]. unfold wbytes. cbn [map concat].
  change (take 4 (le_bytes 8 ?z ++ _)) with (le_bytes 4 z). exact (le_of_le_bytes 4 (v.1 RAX)).
Qed.

Section Harness.
Context (x : Site) (mt : Mt) (m : memory) (p0 p1 p2 : Priority) (L0 L1 L2 : listing).
Hypothesis Hx : site_ok x mt.
Hypothesis H0 : program_ok L0.
Hypothesis H1 : program_ok L1.
Hypothesis H2 : program_ok L2.
Hypothesis Hstay : never L0 0x84.

Definition mt_tasks : list (listing * Z) := [(L0, task0_entry); (L1, task1_entry); (L2, task2_entry)].
Definition start0 : vcpu := entered (entry_args x task0_entry task0_stack_top).
Definition start1 : vcpu := fresh task1_entry (user_cs x) (user_ss x) task1_stack_top RING3_TEST_RFLAGS.
Definition start2 : vcpu := fresh task2_entry (user_cs x) (user_ss x) task2_stack_top RING3_TEST_RFLAGS.
Definition mt_start : V := mk_V 0 (replicate RING3_MT_MAX_TASKS false) [start0; start1; start2].
Definition mt_others : list (Priority * list Z) := [(p1, ctx_bytes start1); (p2, ctx_bytes start2)].
Definition mt_prios : list Z := armed_prios p0 mt_others mt.

Definition mt_mem : memory :=
  armed_mem mt_others (bufs x) (copy_tasks (bytes_of L0) (bytes_of L1) (bytes_of L2) m).

Lemma site_regions :
  0 <= rsp0 x - 160 /\ rsp0 x < 2 ^ 64 /\ 96 <= regs (caller x) RSP /\ regs (caller x) RSP + 8 < 2 ^ 64 /\
  disjoint_ranges (regs (caller x) RSP - 96) 104 (ret_cell x) 8 /\
  disjoint_ranges (regs (caller x) RSP - 96) 104 (exit_cell x) 8 /\
  disjoint_ranges (regs (caller x) RSP - 96) 104 (rsp0 x - 160) 160 /\
  disjoint_ranges (ret_cell x) 8 (exit_cell x) 8 /\ disjoint_ranges (ret_cell x) 8 (rsp0 x - 160) 160.
Proof.
  destruct Hx as [_ _ _ _ Hr Ha _ _ _ _ _].
  pose proof (Hr 4%nat _ _ eq_refl). pose proof (Hr 1%nat _ _ eq_refl).
  pose proof (fun i j a n b k => Ha i j a n b k) as D.
  repeat match goal with |- _ /\ _ => split end; try lia.
  - by apply (Ha 1%nat 2%nat).
  - by apply (Ha 1%nat 3%nat).
  - by apply (Ha 1%nat 4%nat).
  - by apply (Ha 2%nat 3%nat).
  - by apply (Ha 2%nat 4%nat).
Qed.

Lemma region_buf i b : bufs x !! i = Some b -> regions x !! (5 + i)%nat = Some (b, 160).
Proof.
  intros Hi. change (regions x !! (5 + i)%nat) with (map (fun b => (b, 160)) (bufs x) !! i).
  by rewrite list_lookup_fmap, Hi.
Qed.

(** A boxed context is apart from everything else. *)
Lemma buf_apart i b j a n :
  bufs x !! i = Some b -> (j < 5)%nat -> regions x !! j = Some (a, n) -> disjoint_ranges b 160 a n.
Proof.
  intros Hi Hj Ha. apply (si_apart _ _ Hx (5 + i)%nat j); [by apply region_buf|done|lia].
Qed.

Lemma site_bufs : bufs_apart (bufs x).
Proof.
  intros i j a b Hi Hj Hne. apply (si_apart _ _ Hx (5 + i)%nat (5 + j)%nat a 160 b 160); [by apply region_buf..|lia].
Qed.

(** The user page is apart from what the kernel writes meanwhile. *)
Lemma page_apart z : USER_TEST_PAGE_ADDR <= z < USER_TEST_PAGE_ADDR + 4096 -> ~ kernel_mem (bufs x) (rsp0 x) z.
Proof.
  intros Hz [Hk|(i & b & Hi & Hb)].
  - pose proof (si_apart _ _ Hx 0%nat 4%nat _ _ _ _ eq_refl eq_refl ltac:(lia)) as D. unfold disjoint_ranges in D. lia.
  - pose proof (buf_apart i b 0%nat _ _ Hi ltac:(lia) eq_refl) as D. unfold disjoint_ranges in D. lia.
Qed.

Lemma entry_args_ok : regs_ok (entry_args x task0_entry task0_stack_top).
Proof.
  destruct Hx as [[Hc _] Hs Hr _ _ _ _ _ _ _ _]. unfold entry_args.
  repeat apply regs_ok_set; try done; unfold task0_entry, task0_stack_top, USER_TEST_PAGE_ADDR, RING3_TEST_RFLAGS, in_u; lia.
Qed.

Lemma fresh_ok entry top : in_u 64 top -> regs_ok (fresh entry (user_cs x) (user_ss x) top RING3_TEST_RFLAGS).1.
Proof.
  destruct Hx as [[Hc _] Hs _ _ _ _ _ _ _ _ _]. intros Ht r. cbn [fresh fst].
  destruct r; try done; unfold RING3_TEST_RFLAGS, in_u; lia.
Qed.

Lemma entered_ok f : regs_ok f -> regs_ok (entered f).1.
Proof. intros Hf. unfold entered. cbn [fst]. repeat apply regs_ok_set; auto. Qed.

Lemma first_running L code f : program_ok L -> regs_ok f -> running L code (f, code).
Proof. intros [] Hf. split; [done|]. exists 0%nat. cbn [snd]. split; [lia|done]. Qed.

(** The start of every task. *)
Lemma starts_ok i v : [start0; start1; start2] !! i = Some v -> vok mt_tasks (replicate RING3_MT_MAX_TASKS false) i v.
Proof.
  intros Hi. pose proof (si_cs _ _ Hx) as [_ Hcs].
  assert (Hf0 : regs_ok start0.1) by apply entered_ok, entry_args_ok.
  assert (Hf1 : regs_ok start1.1) by (apply fresh_ok; unfold task1_stack_top, USER_TEST_PAGE_ADDR, in_u; lia).
  assert (Hf2 : regs_ok start2.1) by (apply fresh_ok; unfold task2_stack_top, USER_TEST_PAGE_ADDR, in_u; lia).
  assert (Hpc : in_u 64 task0_entry /\ in_u 64 task1_entry /\ in_u 64 task2_entry).
  { unfold task0_entry, task1_entry, task2_entry, USER_TEST_PAGE_ADDR, in_u. lia. }
  destruct Hpc as (P0 & P1 & P2).
  destruct i as [|[|[|i]]]; try done; injection Hi as <-; repeat (split; [done|]); intros _.
  - exists L0, task0_entry. split; [done|]. apply (first_running L0 task0_entry start0.1 H0 Hf0).
  - exists L1, task1_entry. split; [done|]. apply (first_running L1 task1_entry start1.1 H1 Hf1).
  - exists L2, task2_entry. split; [done|]. apply (first_running L2 task2_entry start2.1 H2 Hf2).
Qed.

Lemma others_ok : Forall (fun t : Priority * list Z => length t.2 = CTX) mt_others.
Proof. unfold mt_others. repeat (apply List.Forall_cons; [apply length_ctx_bytes|]). apply List.Forall_nil. Qed.

(** The user page as the programs find it. *)
Lemma mt_installed m' i L code :
  (forall z, USER_TEST_PAGE_ADDR <= z < USER_TEST_PAGE_ADDR + 4096 -> m' z = mt_mem z) ->
  mt_tasks !! i = Some (L, code) -> installed m' code (bytes_of L).
Proof.
  intros Hm Hi. destruct H0 as [F0 _ _ _ _], H1 as [F1 _ _ _ _], H2 as [F2 _ _ _ _].
  assert (Hin : USER_TEST_PAGE_ADDR <= code /\ code + Z.of_nat (length (bytes_of L)) <= USER_TEST_PAGE_ADDR + 4096).
  { unfold mt_tasks, task0_entry, task1_entry, task2_entry in Hi.
    destruct i as [|[|[|i]]]; try done; injection Hi as <- <-; lia. }
  apply (installed_ext (copy_tasks (bytes_of L0) (bytes_of L1) (bytes_of L2) m)).
  - unfold copy_tasks, mt_tasks, task0_entry, task1_entry, task2_entry in *.
    destruct i as [|[|[|i]]]; try done; injection Hi as <- <-.
    + apply (installed_ext _ _ _ _ (installed_write m _ _)). intros z Hz. rewrite !write_bytes_out by lia. done.
    + apply (installed_ext _ _ _ _ (installed_write (write_bytes USER_TEST_PAGE_ADDR (bytes_of L0) m) _ _)).
      intros z Hz. rewrite write_bytes_out by lia. done.
    + apply installed_write.
  - intros z Hz. rewrite Hm by lia. unfold mt_mem, armed_mem. apply box_contexts_out.
    + intros j b Hb. pose proof (buf_apart j b 0%nat _ _ Hb ltac:(lia) eq_refl) as D. unfold disjoint_ranges in D. lia.
    + apply List.Forall_cons; [done|]. apply List.Forall_map, others_ok.
Qed.

(** Once ring 3 is entered, everything is as the session needs it. *)
Lemma mt_entered c t :
  (forall z, kernel_mem (bufs x) (rsp0 x) z -> cmem c z = mt_mem z) ->
  (forall z, USER_TEST_PAGE_ADDR <= z < USER_TEST_PAGE_ADDR + 4096 -> cmem c z = mt_mem z) ->
  c = on_cpu start0 (cmem c) -> t_mt t = armed_mt p0 mt_others (bufs x) mt -> rp_enabled (t_rp t) = false ->
  layout_ok mt_tasks (bufs x) (cmem c) (rsp0 x) /\ Rel mt_tasks mt_prios (bufs x) (cmem c) (rsp0 x) mt_start c t.
Proof.
  intros Hk Hp Hc Ht Hrp. pose proof site_regions as (R1 & R2 & _). pose proof (si_bufs _ _ Hx) as Lb.
  assert (Lb' : length (bufs x) = S (length mt_others)) by done.
  assert (L4 : (length (bufs x) <= RING3_MT_MAX_TASKS)%nat) by (rewrite Lb; unfold RING3_MT_MAX_TASKS; lia).
  split; split; try done; try lia.
  - intros i b Hi. pose proof (si_range _ _ Hx _ _ _ (region_buf i b Hi)). split; [lia|].
    pose proof (buf_apart i b 4%nat _ _ Hi ltac:(lia) eq_refl) as D. unfold disjoint_ranges in D. unfold apart. lia.
  - apply site_bufs.
  - intros i L code Hi.
    assert (HP : program_ok L /\ USER_TEST_PAGE_ADDR <= code <= USER_TEST_PAGE_ADDR + 256).
    { unfold mt_tasks, task0_entry, task1_entry, task2_entry in Hi. unfold USER_TEST_PAGE_ADDR in *.
      destruct i as [|[|[|i]]]; try done; injection Hi as <- <-; (split; [done|lia]). }
    destruct HP as [[F1 F2 F3 F4 F5] Hcode]. assert (U : USER_TEST_PAGE_ADDR = 0x555555550000) by done.
    split; try done; try lia.
    + intros z Hz. apply page_apart. lia.
    + by apply (mt_installed _ i).
  - intros L code k n Hi. injection Hi as <- <-. apply Hstay.
  - by exists start0.
  - apply starts_ok.
  - exists (replicate CTX 0 :: map snd mt_others). split.
    + rewrite Ht. apply (refines_mem _ _ mt_mem).
      * apply (armed_refines p0 mt_others (bufs x) mt (copy_tasks (bytes_of L0) (bytes_of L1) (bytes_of L2) m) Lb' L4 site_bufs others_ok);
          apply Hx.
      * intros i b z Hi Hz. apply Hk. right. by exists i, b.
    + intros [|[|[|j]]] v Hj Hv; try done; injection Hv as <-; done.
  - by rewrite Ht.
  - apply (armed_select_ok p0 mt_others (bufs x) mt); first [exact Lb'|exact L4|apply Hx].
Qed.

(** The call of [enter_ring3] as its caller sees it: it returns there with the exit
    code, the stack pointer behind the return address and the registers the calling
    convention preserves unchanged. *)
Lemma enter_ring3_runs t :
  t_mt t = armed_mt p0 mt_others (bufs x) mt -> rp_enabled (t_rp t) = false ->
  let s := regs (caller x) RSP in
  let run := enter_ring3 (kernel_cs x) (rsp0 x) (exit_cell x) (ret_cell x) (lock_free x) (other_trap x)
    task0_entry (user_cs x) (user_ss x) task0_stack_top RING3_TEST_RFLAGS (sched x)
    (mk_Cpu (regs (caller x)) (rip (caller x)) mt_mem, t) in
  match vsession mt_tasks mt_prios (sched x) mt_start with
  | Ok (code, s', k) => exists c' t' ctxs, run = (Ok code, (c', t')) /\
      regs c' RSP = s + 8 /\ rip c' = word_at mt_mem s /\ (forall r, r ∈ kept -> regs c' r = regs (caller x) r) /\
      switch_count (t_mt t') = u64 (Z.of_nat k) /\
      refines (bufs x) (t_mt t') (cmem c') (mk_Abs (v_cur s') (v_done s') ctxs) /\
      (length (bufs x) <= length (v_done s'))%nat /\ length (v_cpus s') = length (bufs x) /\
      forall j v, j <> v_cur s' -> v_cpus s' !! j = Some v -> ctxs !! j = Some (ctx_bytes v)
  | Hang => exists st, run = (Hang, st)
  | _ => False
  end.
Proof.
  intros Ht Hrp s run. pose proof site_regions as (R1 & R2 & R3 & R4 & D1 & D2 & D3 & D4 & D5).
  destruct (enter_ring3_effect (ret_cell x) (entry_args x task0_entry task0_stack_top) (rip (caller x)) mt_mem s)
    as (m' & E & W1 & W2 & W3); [done|apply entry_args_ok|done|unfold disjoint_ranges in *; subst s; lia|].
  set (args := entry_args x task0_entry task0_stack_top) in *.
  destruct (mt_entered (on_cpu start0 m') t) as [Hlay HR]; try done.
  { intros z Hz. cbn [cmem on_cpu]. destruct Hz as [Hz|(i & b & Hi & Hz)].
    - unfold disjoint_ranges in *. subst s. apply W3; lia.
    - pose proof (buf_apart i b 1%nat _ _ Hi ltac:(lia) eq_refl) as B1.
      pose proof (buf_apart i b 2%nat _ _ Hi ltac:(lia) eq_refl) as B2. unfold disjoint_ranges in *. subst s. apply W3; lia. }
  { intros z Hz. cbn [cmem on_cpu].
    pose proof (si_apart _ _ Hx 0%nat 1%nat _ _ _ _ eq_refl eq_refl ltac:(lia)) as B1.
    pose proof (si_apart _ _ Hx 0%nat 2%nat _ _ _ _ eq_refl eq_refl ltac:(lia)) as B2.
    unfold disjoint_ranges in *. subst s. apply W3; lia. }
  pose proof (session_refines mt_tasks mt_prios (bufs x) _ (rsp0 x) Hlay (kernel_cs x) (exit_cell x) (ret_cell x)
    (lock_free x) (other_trap x) (sched x) mt_start (on_cpu start0 m') t HR) as Hs.
  specialize (Hs ltac:(rewrite Ht; cbn; unfold in_u; lia)).
  assert (Hrun : run = (session (kernel_cs x) (rsp0 x) (exit_cell x) (ret_cell x) (lock_free x) (other_trap x) (sched x);;
    gets (fun s => regs s.1 RAX)) (on_cpu start0 m', t)).
  { unfold run, enter_ring3. cbn [regs rip cmem]. fold (entry_args x task0_entry task0_stack_top). fold args. by rewrite E. }
  destruct (vsession mt_tasks mt_prios (sched x) mt_start) as [[[code s'] k]|e| |]; [|done|done|].
  2:{ destruct Hs as (st & Hs). exists st. rewrite Hrun. unfold mbind, M_bind. by rewrite Hs. }
  destruct Hs as (c' & t' & v & Hs & HR' & Hcode & Hv & Hk).
  pose proof HR' as [_ _ Hlen' _ (ctxs & Href & Hctx) _ _ [_ Hdl _ _] Hmem].
  set (ci := interrupt (kernel_cs x) (rsp0 x) (on_cpu v (cmem c'))) in *.
  assert (Hci : forall z, ~ kernel_mem (bufs x) (rsp0 x) z -> cmem ci z = m' z).
  { intros z Hz. transitivity (cmem c' z); [|exact (Hmem z Hz)]. unfold ci, interrupt. cbn [cmem on_cpu]. apply write_bytes_out.
    rewrite length_wbytes. cbn [length]. destruct (decide (rsp0 x - 160 <= z < rsp0 x)); [by destruct Hz; left|]. lia. }
  assert (Hsafe : forall z, (s - 96 <= z < s + 8 \/ ret_cell x <= z < ret_cell x + 8) -> ~ kernel_mem (bufs x) (rsp0 x) z).
  { intros z Hz [Hk'|(i & b & Hi & Hb)].
    - unfold disjoint_ranges in *. subst s. lia.
    - pose proof (buf_apart i b 1%nat _ _ Hi ltac:(lia) eq_refl) as B1.
      pose proof (buf_apart i b 2%nat _ _ Hi ltac:(lia) eq_refl) as B2. unfold disjoint_ranges in *. subst s. lia. }
  destruct (exit_effect (exit_cell x) (ret_cell x) ci (s - 56) code (word_at mt_mem s) args) as (X1 & X2 & X3 & X4 & X5).
  - unfold ci, interrupt. cbn [regs on_cpu]. by rewrite !set_reg_other.
  - rewrite <- Hcode. apply Hv.
  - rewrite (word_at_ext _ m'); [done|]. intros z Hz. apply Hci, Hsafe. lia.
  - apply words_app. split.
    + apply (words_ext m'); [done|]. intros z Hz. rewrite length_map in Hz. change (length kept) with 7%nat in Hz.
      apply Hci, Hsafe. lia.
    + rewrite length_map. change (length kept) with 7%nat. apply words_cons. split; [|intros ? ? ?; done].
      replace (s - 56 + 8 * Z.of_nat 7) with s by lia. apply word_at_ext. intros z Hz.
      rewrite Hci by (apply Hsafe; lia). unfold disjoint_ranges in *. subst s. apply W3; lia.
  - unfold disjoint_ranges in *. subst s. lia.
  - unfold disjoint_ranges in *. lia.
  - unfold disjoint_ranges in *. subst s. lia.
  - eexists _, t', ctxs. split; [|split; [|split; [|split; [|split; [|split; [|split; [|split]]]]]]].
    + rewrite Hrun. unfold mbind, M_bind. rewrite Hs. unfold gets. cbn [fst]. fold ci. by rewrite X1.
    + fold ci. rewrite X2. lia.
    + done.
    + intros r Hr. fold ci. rewrite X4 by done. unfold args, entry_args.
      unfold kept in Hr. rewrite !set_reg_other; [done|..];
        (repeat (apply elem_of_cons in Hr as [->|Hr]; [done|]; try done); by apply elem_of_nil in Hr).
    + rewrite Hk, Ht. cbn [armed_mt switch_count]. by rewrite Z.add_0_l.
    + fold ci. rewrite X5. apply (refines_mem _ _ (cmem c')); [done|]. intros i b z Hi Hz.
      pose proof (buf_apart i b 3%nat _ _ Hi ltac:(lia) eq_refl) as B3.
      pose proof (buf_apart i b 4%nat _ _ Hi ltac:(lia) eq_refl) as B4. unfold disjoint_ranges in *.
      rewrite put_word_out by lia. unfold ci, interrupt. cbn [cmem on_cpu]. apply write_bytes_out.
      rewrite length_wbytes. cbn [length]. lia.
    + done.
    + done.
    + done.
Qed.

(** What the scheduler reports of such a run, once task 0 has exited. *)
Lemma mt_test_runs :
  match vsession mt_tasks mt_prios (sched x) mt_start with
  | Ok (code, s', k) => v_cur s' = 0%nat ->
      exists st v0 v1 v2, v_cpus s' = [v0; v1; v2] /\
        mt_test x p0 p1 p2 (bytes_of L0) (bytes_of L1) (bytes_of L2) (mt, m) =
          (Ok (code, [u32 (v1.1 RAX); u32 (v2.1 RAX)], take 2 (drop 1 (v_done s')), u64 (Z.of_nat k)), st)
  | Hang => exists st, mt_test x p0 p1 p2 (bytes_of L0) (bytes_of L1) (bytes_of L2) (mt, m) = (Hang, st)
  | _ => False
  end.
Proof.
  pose proof (si_bufs _ _ Hx) as Lb. assert (Lb' : length (bufs x) = S (length mt_others)) by done.
  assert (L4 : (length (bufs x) <= RING3_MT_MAX_TASKS)%nat) by (rewrite Lb; unfold RING3_MT_MAX_TASKS; lia).
  set (copied := copy_tasks (bytes_of L0) (bytes_of L1) (bytes_of L2) m).
  assert (Ht : forall r, mt_test x p0 p1 p2 (bytes_of L0) (bytes_of L1) (bytes_of L2) (mt, m) = r <->
    run_multitasking p0 mt_others (bufs x) (closure x task0_entry task0_stack_top) (mt, copied) = r) by done.
  pose proof (enter_ring3_runs (with_mt (armed_mt p0 mt_others (bufs x) mt) (timer x)) eq_refl (si_rp _ _ Hx)) as He.
  cbn zeta in He. fold mt_mem in He.
  pose proof (fun r s2 m2 => run_multitasking_around p0 mt_others (bufs x) mt copied Lb' L4
    (si_ctx _ _ Hx) (si_prio _ _ Hx) (si_done _ _ Hx) (closure x task0_entry task0_stack_top) r s2 m2) as Ha.
  fold mt_mem in Ha.
  assert (Hcl : forall r c' t', enter_ring3 (kernel_cs x) (rsp0 x) (exit_cell x) (ret_cell x) (lock_free x) (other_trap x)
      task0_entry (user_cs x) (user_ss x) task0_stack_top RING3_TEST_RFLAGS (sched x)
      (mk_Cpu (regs (caller x)) (rip (caller x)) mt_mem, with_mt (armed_mt p0 mt_others (bufs x) mt) (timer x)) = (r, (c', t')) ->
    closure x task0_entry task0_stack_top (armed_mt p0 mt_others (bufs x) mt, mt_mem) = (r, (t_mt t', cmem c'))).
  { intros r c' t' E. unfold closure. by rewrite E. }
  destruct (vsession mt_tasks mt_prios (sched x) mt_start) as [[[code s'] k]|e| |]; [|done|done|].
  - intros H0'. destruct He as (c' & t' & ctxs & E & _ & _ & _ & Hk & Href & Hl & Hn & Hctx).
    specialize (Ha _ _ _ (Hcl _ _ _ E)). cbn beta iota in Ha. destruct (Ha _ Href Hl) as (s1 & m1 & Hr).
    rewrite Lb in Hn. destruct (v_cpus s') as [|v0 [|v1 [|v2 [|]]]]; try done.
    exists (s1, m1), v0, v1, v2. split; [done|]. apply Ht. etransitivity; [exact Hr|].
    pose proof (r_len _ _ _ _ Href) as Lc. cbn [a_ctx] in Lc. rewrite Lb in Lc.
    destruct ctxs as [|c0 [|c1 [|c2 [|]]]]; try done.
    pose proof (Hctx 1%nat v1 ltac:(by rewrite H0') eq_refl) as E1. pose proof (Hctx 2%nat v2 ltac:(by rewrite H0') eq_refl) as E2.
    injection E1 as ->. injection E2 as ->. cbn [a_ctx a_done drop map]. rewrite Hk, !ctx_eax. done.
  - destruct He as ([c' t'] & E). destruct (Ha _ _ _ (Hcl _ _ _ E)) as (st & Hr).
    exists st. by apply Ht.
Qed.
End Harness.

(** ** Whose turn it is *)

Section Turns.
Context (p0 p1 p2 : Z) (rest : list Z).
Hypothesis Hp1 : p0 <= p1.
Hypothesis Hp2 : p0 <= p2.

Let prios := p0 :: p1 :: p2 :: rest.

(** With task 0 in the best tier, a turn goes to a later task or back to task 0. *)
Lemma select_turn done cur next :
  select_ok 3 prios done -> (cur < 3)%nat -> select_next 3 3 cur prios done = Ok next ->
  (next < 3)%nat /\ done !! next = Some false /\ (next = 0%nat \/ (cur < next)%nat /\ (p0 < p1 -> p0 < p2 -> False)).
Proof.
  intros [Sp Sd Sr Sa] Hc H.
  destruct (select_next_finds 3 prios done Sp Sd Sr cur) as (t & d & [(i & Hi & Hit) Htop] & Hd & E & [[_ Hal] Hpd] & Hno).
  { exists 0%nat. by split; [lia|]. }
  rewrite E in H. injection H as <-.
  assert (Hge : forall j, (j < 3)%nat -> p0 <= prio_of prios j).
  { intros [|[|[|j]]] Hj; try lia; cbn; lia. }
  assert (H0 : eligible 3 prios done t 0).
  { split; [by split; [lia|]|]. destruct Hi as [Hi _]. specialize (Htop 0%nat ltac:(by split; [lia|])).
    specialize (Hge i Hi). change (prio_of prios 0) with p0 in *. lia. }
  assert (Hmod : ((cur + (3 - cur)) mod 3 = 0)%nat) by (replace (cur + (3 - cur))%nat with 3%nat by lia; done).
  assert (d <= 3 - cur)%nat.
  { destruct (decide (3 - cur < d)%nat) as [Hlt|]; [|lia]. destruct (Hno (3 - cur)%nat ltac:(lia)). by rewrite Hmod. }
  split; [apply (Nat.mod_upper_bound _ 3); lia|]. split; [done|].
  destruct (decide (d = 3 - cur)%nat) as [->|Hne]; [by left|]. right.
  assert (Em : ((cur + d) mod 3 = cur + d)%nat) by (apply (Nat.mod_small _ 3); lia).
  rewrite Em in Hpd. split; [change (cur < (cur + d) mod 3)%nat; rewrite Em; lia|]. intros Q1 Q2. destruct H0 as [_ H0]. change (prio_of prios 0) with p0 in H0.
  assert (Hgt : forall j, (0 < j < 3)%nat -> p0 < prio_of prios j).
  { intros [|[|[|j]]] Hj; try lia; cbn; lia. }
  specialize (Hgt (cur + d)%nat ltac:(lia)). lia.
Qed.

Context (L0 L1 L2 : listing) (c0 c1 c2 : Z).
Hypothesis Hfinal1 : never L1 0x81.
Hypothesis Hfinal2 : never L2 0x81.

Let tasks := [(L0, c0); (L1, c1); (L2, c2)].

(** If task 0 exits after [rem] instructions of its own, a run can only be cut short
    by a schedule of so many time slices. *)
Lemma vsession_progress sched s v u rem :
  select_ok 3 prios (v_done s) -> length (v_cpus s) = 3%nat -> (v_cur s < 3)%nat ->
  v_cpus s !! 0%nat = Some v -> lrun L0 c0 rem v = LTrap 0x81 u -> Forall (fun n => 1 <= n)%nat sched ->
  vsession tasks prios sched s = Hang ->
  (length sched <= 3 * rem + (if v_cur s =? 0 then 0 else 3 - v_cur s))%nat.
Proof.
  revert s v rem. induction sched as [|n sched IH]; intros s v rem Hsel Hlen Hcur Hv Hr Hpos H; [cbn; lia|].
  apply List.Forall_cons_iff in Hpos as [Hn Hpos]. cbn [vsession] in H.
  destruct (lookup_lt_is_Some_2 tasks (v_cur s)) as [[L code] HL]; [done|].
  destruct (lookup_lt_is_Some_2 (v_cpus s) (v_cur s)) as [w Hw]; [lia|].
  rewrite (proj2 (idx_Ok tasks _ _) HL), (proj2 (idx_Ok _ _ _) Hw) in H. cbn [mbind res_bind] in H.
  assert (Hgo : forall (retire : bool) w' v' rem', (retire = true -> v_cur s <> 0%nat) ->
    <[v_cur s := w']> (v_cpus s) !! 0%nat = Some v' -> lrun L0 c0 rem' v' = LTrap 0x81 u ->
    (s' ← vswitch prios retire w' s; '(x, s'', k) ← vsession tasks prios sched s'; Ok (x, s'', S k)) = Hang ->
    exists next, (next < 3)%nat /\ (next = 0 \/ v_cur s < next)%nat /\
      (length sched <= 3 * rem' + (if next =? 0 then 0 else 3 - next))%nat).
  { intros retire w' v' rem' H0 Hv' Hr' Hh. unfold vswitch in Hh. rewrite Hlen in Hh.
    set (done := if retire then <[v_cur s := true]> (v_done s) else v_done s) in *.
    assert (Hsel' : select_ok 3 prios done).
    { destruct Hsel as [S1 S2 S3 S4]. unfold done. destruct retire; [|done]. split; try done.
      - by rewrite length_insert.
      - rewrite list_lookup_insert_ne; [done|by apply H0]. }
    destruct (select_next_ok 3 prios done (v_cur s) Hsel' ltac:(lia)) as (next & Hnext & Hlt).
    rewrite Hnext in Hh. cbn [mbind res_bind] in Hh.
    destruct (select_turn done (v_cur s) next Hsel' Hcur Hnext) as (_ & _ & Hturn).
    exists next. split; [done|]. split; [by destruct Hturn as [|[? _]]; auto|].
    apply (IH (mk_V next done (<[v_cur s := w']> (v_cpus s))) v' rem'); try done; cbn [v_cpus].
    - by rewrite length_insert.
    - by destruct (vsession tasks prios sched _) as [[[??]?]| | |]. }
  destruct (decide (v_cur s = 0%nat)) as [E0|Hne].
  - rewrite E0 in HL, Hw, Hgo |- *. injection HL as <- <-. rewrite Hv in Hw. injection Hw as <-. cbn [Nat.eqb].
    destruct (decide (rem <= n)%nat).
    + replace n with (rem + (n - rem))%nat in H by lia. rewrite lrun_add, Hr in H. done.
    + replace rem with (n + (rem - n))%nat in Hr by lia. rewrite lrun_add in Hr.
      destruct (lrun L0 c0 n v) as [v'|vec v'|]; [| |done].
      * destruct (Hgo false v' v' (rem - n)%nat) as (next & ? & ? & Hl); try done.
        { apply list_lookup_insert_eq. lia. }
        cbn [length]. destruct (Nat.eqb_spec next 0); lia.
      * injection Hr as -> ->. done.
  - assert (Hother : forall w', <[v_cur s := w']> (v_cpus s) !! 0%nat = Some v) by (intros; by rewrite list_lookup_insert_ne).
    assert (Hcount : forall retire w', (s' ← vswitch prios retire w' s; '(x, s'', k) ← vsession tasks prios sched s'; Ok (x, s'', S k)) = Hang ->
      (length (n :: sched) <= 3 * rem + (if v_cur s =? 0 then 0 else 3 - v_cur s))%nat).
    { intros retire w' Hh. destruct (Hgo retire w' v rem ltac:(done) (Hother w') Hr Hh) as (next & ? & ? & Hl).
      rewrite (proj2 (Nat.eqb_neq (v_cur s) 0)) by done. cbn [length]. destruct (Nat.eqb_spec next 0); lia. }
    destruct (lrun L code n w) as [w'|vec w'|]; [by apply (Hcount false w')| |done].
    destruct (vec =? 0x81); [done|]. destruct (vec =? 0x84); [by apply (Hcount true w')|by apply (Hcount false w')].
Qed.

(** Alone in the best tier, task 0 is the only one that runs. *)
Lemma vsession_starves sched s x s' k :
  p0 < p1 -> p0 < p2 -> select_ok 3 prios (v_done s) -> length (v_cpus s) = 3%nat -> v_cur s = 0%nat -> never L0 0x84 ->
  vsession tasks prios sched s = Ok (x, s', k) -> drop 1 (v_cpus s') = drop 1 (v_cpus s).
Proof.
  intros Q1 Q2. revert s k. induction sched as [|n sched IH]; intros s k Hsel Hlen Hcur Hnever H; [done|]. cbn [vsession] in H.
  rewrite Hcur in H. cbn [idx tasks lookup] in H.
  destruct (v_cpus s) as [|v [|v1 [|v2 [|]]]] eqn:Ev; try done. cbn in H.
  assert (Hgo : forall w', (s' ← vswitch prios false w' s; '(x, s'', k) ← vsession tasks prios sched s'; Ok (x, s'', S k)) = Ok (x, s', k) ->
    drop 1 (v_cpus s') = [v1; v2]).
  { intros w' Hgo. unfold vswitch in Hgo. rewrite Ev in Hgo. cbn [length] in Hgo. apply bind_Ok in Hgo as (s1 & Hs & Hgo).
    apply bind_Ok in Hs as (next & Hnext & Hs). injection Hs as <-.
    destruct (select_turn (v_done s) (v_cur s) next Hsel ltac:(lia) Hnext) as (_ & _ & [->|[_ Hf]]); [|by destruct Hf].
    apply bind_Ok in Hgo as ([[x1 s2] k1] & Hgo & E). injection E as -> -> _.
    rewrite Hcur in Hgo.
    apply (IH (mk_V 0 (v_done s) [w'; v1; v2]) k1 Hsel eq_refl eq_refl Hnever Hgo). }
  destruct (lrun L0 c0 n v) as [w'|vec w'|] eqn:El; [by apply (Hgo w')| |done].
  destruct (vec =? 0x81); [injection H as _ <- _; by rewrite Ev|]. destruct (Z.eqb_spec vec 0x84) as [->|]; [|by apply (Hgo w')].
  destruct (lrun_trap_at _ _ _ _ _ _ El) as (j & len & Hj). by destruct (Hnever j len).
Qed.
End Turns.

(** ** The programs of the tests, alone *)

Lemma at_offset_in L k i n : at_offset L k = Some (i, n) -> i ∈ map snd L.
Proof.
  revert k. induction L as [|[bs j] L IH]; intros k H; [done|]. cbn [at_offset] in H. cbn [map snd].
  destruct (k =? 0)%nat; [injection H as -> _; apply list_elem_of_here|].
  destruct (k <? length bs)%nat; [done|]. apply list_elem_of_further. by apply (IH (k - length bs)%nat).
Qed.

Lemma never_in L vec : UInt vec ∉ map snd L -> never L vec.
Proof. intros H k n Hk. by apply H, (at_offset_in L k _ n). Qed.

Lemma checksum_never p n e vec : (ending_entry e).2 <> UInt vec -> never (checksum_listing p n e) vec.
Proof.
  intros He. apply never_in. unfold checksum_listing. cbn [map snd mov32 mov_r8d dec_r8d jnz_dec].
  repeat (apply not_elem_of_cons; split; [first [discriminate|congruence]|]). apply not_elem_of_nil.
Qed.

Lemma voluntary_never p a b : never (voluntary_listing p a b) 0x81.
Proof.
  apply never_in. unfold voluntary_listing. cbn [map snd mov32 mov_r8d dec_r8d jnz_dec].
  repeat (apply not_elem_of_cons; split; [discriminate|]). apply not_elem_of_nil.
Qed.

Lemma checksum_program p n e : in_u 32 p -> in_u 32 n -> program_ok (checksum_listing p n e).
Proof.
  intros Hp Hn. split; [rewrite length_checksum; lia|by eexists|by apply checksum_listed|apply checksum_closed|by apply checksum_imms].
Qed.

Lemma voluntary_program p a b : in_u 32 p -> in_u 32 a -> in_u 32 b -> program_ok (voluntary_listing p a b).
Proof.
  intros Hp Ha Hb. split; [|by eexists|by apply voluntary_listed|apply voluntary_closed|by apply voluntary_imms].
  change (length (bytes_of (voluntary_listing p a b))) with 46%nat. lia.
Qed.

Section Alone.
Context (code : Z).
Hypothesis Hcode : 0 <= code < 2 ^ 64 - 46.

(** A checksum program that asks to be let go does so with the checksum in [eax]. *)
Lemma checksum_trap p n e vec f :
  in_u 32 p -> in_u 32 n -> (ending_entry e).2 = UInt vec ->
  exists w u, lrun (checksum_listing p n e) code (10 + 2 * Z.to_nat (rounds n)) (f, code) = LStep w /\
    lstep (checksum_listing p n e) code w = LTrap vec u /\ u.1 RAX = checksum p.
Proof.
  intros Hp Hn He. destruct (checksum_run p n e code Hp Hn Hcode f) as (g & Hg & Ga & _).
  exists (at_pc code 44 g), (at_pc code 46 g). split; [|split; [|exact Ga]].
  - specialize (Hg 0%nat). rewrite Nat.add_0_r in Hg. unfold at_pc at 1 in Hg. by rewrite Z.add_0_r in Hg.
  - assert (Hat : at_offset (checksum_listing p n e) 44 = Some ((ending_entry e).2, 2%nat)) by (by destruct e).
    rewrite He in Hat. exact (lstep_at _ code (proj1 Hcode) (checksum_end p n e code Hcode) 44 g _ 2 Hat).
Qed.

(** The yielding program retires, having been resumed. *)
Lemma voluntary_trap p a b f :
  in_u 32 p -> in_u 32 a -> in_u 32 b ->
  exists w u, lreach (voluntary_listing p a b) code (f, code) w /\
    lstep (voluntary_listing p a b) code w = LTrap 0x84 u /\ u.1 RAX = u32 (p + 3).
Proof.
  intros Hp Ha Hb. set (L := voluntary_listing p a b).
  pose proof (voluntary_end p a b code Hcode) as He.
  destruct (voluntary_run_1 p a b code Ha Hcode f) as (g & Hg & _).
  destruct (voluntary_run_2 p a b code Hb Hcode g) as (h & Hh & Ha').
  exists (at_pc code 44 h), (at_pc code 46 h). split; [|split; [|exact Ha']].
  - specialize (Hg 0%nat). specialize (Hh 0%nat). cbn [lrun] in Hg, Hh.
    apply (lreach_trans _ _ _ (at_pc code 21 g)).
    + replace (f, code) with (at_pc code 0 f) by (unfold at_pc; by rewrite Z.add_0_r). by apply (lrun_reach _ _ _ _ _ Hg).
    + apply (lreach_trans _ _ _ (at_pc code 23 g)); [|by apply (lrun_reach _ _ _ _ _ Hh)].
      apply (lr_next _ _ _ (at_pc code 21 g)); [apply lr_refl|]. unfold lnext.
      by rewrite (lstep_at L code (proj1 Hcode) He 21 g _ 2 eq_refl).
  - by rewrite (lstep_at L code (proj1 Hcode) He 44 h _ 2 eq_refl).
Qed.
End Alone.

(** ** How a test ends *)

Definition ended (L : listing) (code : Z) (v0 : vcpu) (done : bool) (v : vcpu) : Prop :=
  if done then exists w, lreach L code v0 w /\ lstep L code w = LTrap 0x84 v else lreach L code v0 v.

(** A task that retired did so at the one place where its program stops. *)
Lemma ended_unique L code v0 w u v :
  lreach L code v0 w -> lstep L code w = LTrap 0x84 u -> ended L code v0 true v -> v = u.
Proof.
  intros Hw Eu (w' & Hw' & Ev). assert (w' = w) as ->; [|congruence].
  apply (stuck_unique L code v0); [done| |done|]; unfold lnext; by rewrite ?Eu, ?Ev.
Qed.

Lemma came_ended tasks done v0s i v L code v0 :
  tasks !! i = Some (L, code) -> v0s !! i = Some v0 -> came_from tasks done v0s i v ->
  ended L code v0 (default false (done !! i)) v.
Proof.
  intros HL Hv (L' & code' & v' & HL' & Hv' & H). rewrite HL in HL'. injection HL' as <- <-. rewrite Hv in Hv'. injection Hv' as <-.
  destruct (done !! i) as [[|]|]; [|done|done]. destruct H as (w & vec & Hw & E & ->). by exists w.
Qed.

Lemma mt_test_outcome x mt m p0 p1 p2 L0 L1 L2 N u :
  site_ok x mt -> program_ok L0 -> program_ok L1 -> program_ok L2 ->
  never L0 0x84 -> never L1 0x81 -> never L2 0x81 -> prio_val p0 <= prio_val p1 -> prio_val p0 <= prio_val p2 ->
  lrun L0 task0_entry N (start0 x) = LTrap 0x81 u ->
  match (mt_test x p0 p1 p2 (bytes_of L0) (bytes_of L1) (bytes_of L2) (mt, m)).1 with
  | Ok (code, eaxs, dones, k) => code = u.1 RAX /\ exists v1 v2 d1 d2,
      eaxs = [u32 (v1.1 RAX); u32 (v2.1 RAX)] /\ dones = [d1; d2] /\
      ended L1 task1_entry (start1 x) d1 v1 /\ ended L2 task2_entry (start2 x) d2 v2 /\
      (prio_val p0 < prio_val p1 -> prio_val p0 < prio_val p2 -> v1 = start1 x /\ v2 = start2 x) /\
      exists rest v0 s' k' tl, v_cpus s' = [v0; v1; v2] /\ v_done s' = false :: d1 :: d2 :: tl /\
        select_ok 3 (prio_val p0 :: prio_val p1 :: prio_val p2 :: rest) (replicate RING3_MT_MAX_TASKS false) /\
        vsession (mt_tasks L0 L1 L2) (prio_val p0 :: prio_val p1 :: prio_val p2 :: rest) (sched x) (mt_start x) = Ok (code, s', k')
  | Hang => Forall (fun n => 1 <= n)%nat (sched x) -> (length (sched x) <= 3 * N)%nat
  | _ => False
  end.
Proof.
  intros Hx P0 P1 P2 N0 N1 N2 Q1 Q2 Hu. pose proof (mt_test_runs x mt m p0 p1 p2 L0 L1 L2 Hx P0 P1 P2 N0) as Hrun.
  set (prios := mt_prios x mt p0 p1 p2) in *.
  assert (Hprios : exists rest, prios = prio_val p0 :: prio_val p1 :: prio_val p2 :: rest) by (by eexists).
  destruct Hprios as (rest & Hprios). rewrite Hprios in Hrun.
  assert (Hsel : select_ok 3 (prio_val p0 :: prio_val p1 :: prio_val p2 :: rest) (replicate RING3_MT_MAX_TASKS false)).
  { rewrite <- Hprios, <- (si_bufs _ _ Hx).
    apply (armed_select_ok p0 (mt_others x p1 p2) (bufs x) mt); rewrite ?(si_bufs _ _ Hx);
      first [done|unfold RING3_MT_MAX_TASKS; lia|apply Hx]. }
  set (tasks := mt_tasks L0 L1 L2) in *.
  destruct (vsession tasks _ (sched x) (mt_start x)) as [[[code s'] k]|e| |] eqn:Ev; [|done|done|].
  - assert (Htr : traced tasks (prio_val p0 :: prio_val p1 :: prio_val p2 :: rest) [start0 x; start1 x; start2 x] (mt_start x)).
    { split; [done|done|]. intros i v Hi. destruct i as [|[|[|i]]]; try done; injection Hi as <-;
        eexists _, _, _; (split; [reflexivity|]); (split; [reflexivity|]); apply lr_refl. }
    assert (Hvec : forall i L code k vec n, tasks !! i = Some (L, code) -> at_offset L k = Some (UInt vec, n) ->
      vec = 0x81 \/ vec = 0x84 \/ vec = 0x86).
    { intros i L c j vec n HL Hj. assert (HP : program_ok L) by (destruct i as [|[|[|i]]]; try done; by injection HL as <- <-).
      apply (closed_vectors L j vec n); [apply HP|apply HP|done]. }
    assert (Hst : forall L code k n, tasks !! 0%nat = Some (L, code) -> at_offset L k <> Some (UInt 0x84, n)).
    { intros L c j n HL. injection HL as <- <-. apply N0. }
    destruct (vsession_traces tasks _ _ Hvec Hst (sched x) _ _ _ _ Htr Ev)
      as ([Hs' Hal Hfrom] & L & c & v0 & w & u' & HL & Hv0 & Hw & Ew & Hcode).
    assert (H0 : v_cur s' = 0%nat).
    { unfold lstep in Ew. destruct (at_offset L _) as [[i n]|] eqn:Ei; [|done]. destruct i; try done. injection Ew as -> _.
      destruct (v_cur s') as [|[|[|j]]]; try done; injection HL as <- <-; [by destruct (N1 _ _ Ei)|by destruct (N2 _ _ Ei)]. }
    rewrite H0 in HL, Hv0. injection HL as <- <-. injection Hv0 as <-.
    destruct (Hrun H0) as (st & v & v1 & v2 & Hcpus & ->). cbn [fst].
    destruct (lrun_trap_state _ _ _ _ _ _ Hu) as (wu & Hwu & Ewu).
    assert (w = wu) as -> by (apply (stuck_unique L0 task0_entry (start0 x)); [done| |done|]; unfold lnext; by rewrite ?Ew, ?Ewu).
    rewrite Ewu in Ew. injection Ew as ->. split; [done|].
    assert (Hds : exists d1 d2 tl, v_done s' = false :: d1 :: d2 :: tl).
    { pose proof (so_done _ _ _ Hs') as Hl. pose proof (so_alive _ _ _ Hs') as H0'. rewrite Hcpus in Hl. cbn [length] in Hl.
      destruct (v_done s') as [|d0 [|d1 [|d2 ds]]]; cbn [length] in Hl; try (done || lia). cbn in H0'. injection H0' as ->.
      by exists d1, d2, ds. }
    destruct Hds as (d1 & d2 & tl & Hds).
    exists v1, v2, (default false (v_done s' !! 1%nat)), (default false (v_done s' !! 2%nat)).
    split; [done|]. split; [|split; [|split; [|split]]]; [by rewrite Hds| | | |
      exists rest, v, s', k, tl; rewrite Hds; by repeat (split; [done|])].
    + apply (came_ended tasks (v_done s') [start0 x; start1 x; start2 x] 1); [done|done|]. apply Hfrom. by rewrite Hcpus.
    + apply (came_ended tasks (v_done s') [start0 x; start1 x; start2 x] 2); [done|done|]. apply Hfrom. by rewrite Hcpus.
    + intros S1 S2. pose proof (vsession_starves _ _ _ rest Q1 Q2 L0 L1 L2 task0_entry task1_entry task2_entry
        (sched x) (mt_start x) code s' k S1 S2 Hsel eq_refl eq_refl N0 Ev) as E. rewrite Hcpus in E. by injection E as -> ->.
  - destruct Hrun as (st & ->). cbn [fst]. intros Hpos.
    pose proof (vsession_progress _ _ _ rest Q1 Q2 L0 L1 L2 task0_entry task1_entry task2_entry (sched x) (mt_start x)
      (start0 x) u N Hsel eq_refl ltac:(cbn; lia) eq_refl Hu Hpos Ev) as H. cbn in H. lia.
Qed.

(** ** Properties *)

(** A test's answer.  It can be missing only when the schedule is shorter than three
    time slices for every instruction of task 0. *)
Definition answers {A} (x : Site) (r : res A * (Mt * memory)) (good : A -> Prop) : Prop :=
  match r.1 with
  | Ok a => good a
  | Hang => Forall (fun n => 1 <= n)%nat (sched x) -> Z.of_nat (length (sched x)) <= 3 * (11 + 2 * 150000000)
  | _ => False
  end.

Lemma answers_bind {A B} x (r : M (Mt * memory) A) (k : A -> M (Mt * memory) B) s (good : B -> Prop) :
  answers x (r s) (fun a => forall s', answers x (k a s') good) -> answers x ((a ← r; k a) s) good.
Proof. unfold answers, mbind, M_bind. destruct (r s) as [[a|e| |] s']; cbn [fst]; intros H; exact H || apply H. Qed.

(** Task 0 of every test. *)
Lemma task0_exits x :
  exists u, lrun (checksum_listing 0x10000000 150000000 ExitViaInt81) task0_entry (11 + 2 * Z.to_nat 150000000) (start0 x) = LTrap 0x81 u /\
    u.1 RAX = 0x10000004.
Proof.
  destruct (checksum_trap task0_entry ltac:(unfold task0_entry, USER_TEST_PAGE_ADDR; lia) 0x10000000 150000000 ExitViaInt81 0x81
    (start0 x).1 ltac:(unfold in_u; lia) ltac:(unfold in_u; lia) eq_refl) as (w & u & Hw & Eu & Ha).
  exists u. split; [|exact Ha].
  change (rounds 150000000) with 150000000 in Hw.
  replace (11 + 2 * Z.to_nat 150000000)%nat with ((10 + 2 * Z.to_nat 150000000) + 1)%nat by lia.
  rewrite lrun_add. change (start0 x) with ((start0 x).1, task0_entry). rewrite Hw. cbn [lrun]. by rewrite Eu.
Qed.

(** Where two tasks that settle within [t] slices are when task 0 is over, if it is
    interrupted [t] times. *)
Definition lands (x : Site) (L1 L2 : listing) (d1 d2 : bool) (v1 v2 : vcpu) : Prop :=
  forall A B G1 D1 G2 D2 t, slices A B (sched x) ->
    stable L1 task1_entry G1 -> stable L2 task2_entry G2 -> Z.of_nat (t * B) <= 10 + 2 * 150000000 ->
    gets_there A L1 task1_entry G1 D1 t (start1 x) -> gets_there A L2 task2_entry G2 D2 t (start2 x) ->
    (if d1 then D1 v1 else G1 v1) /\ (if d2 then D2 v2 else G2 v2).

(** Where the others are by then, in a round of equal priorities. *)
Lemma settled_end x p rest A B code L1 L2 G1 D1 G2 D2 t v0 v1 v2 d1 d2 tl s' k :
  select_ok 3 (p :: p :: p :: rest) (replicate RING3_MT_MAX_TASKS false) ->
  vsession (mt_tasks (checksum_listing 0x10000000 150000000 ExitViaInt81) L1 L2) (p :: p :: p :: rest) (sched x) (mt_start x)
    = Ok (code, s', k) ->
  stable L1 task1_entry G1 -> stable L2 task2_entry G2 -> Z.of_nat (t * B) <= 10 + 2 * 150000000 ->
  gets_there A L1 task1_entry G1 D1 t (start1 x) -> gets_there A L2 task2_entry G2 D2 t (start2 x) ->
  slices A B (sched x) -> v_cpus s' = [v0; v1; v2] -> v_done s' = false :: d1 :: d2 :: tl ->
  (if d1 then D1 v1 else G1 v1) /\ (if d2 then D2 v2 else G2 v2).
Proof.
  intros Hsel Ev S1 S2 Ht T1 T2 Hsl Ec Ed.
  destruct (checksum_trap task0_entry ltac:(unfold task0_entry, USER_TEST_PAGE_ADDR; lia) 0x10000000 150000000 ExitViaInt81 0x81
    (start0 x).1 ltac:(unfold in_u; lia) ltac:(unfold in_u; lia) eq_refl) as (w & u & Hw & Eu & _).
  change (rounds 150000000) with 150000000 in Hw.
  destruct (vsession_settles p rest A B (checksum_listing 0x10000000 150000000 ExitViaInt81) L1 L2 task0_entry task1_entry task2_entry
    G1 D1 G2 D2 S1 S2 (sched x) (10 + 2 * Z.to_nat 150000000) (mt_start x) (start0 x) (start1 x) (start2 x) false false w u code s' k)
    as (w0 & w1 & w2 & e1 & e2 & tl' & Ec' & Ed' & H1 & H2); [|exact Hw|exact Eu|exact Hsl|exact Ev|].
  - assert (HB : ((t - 0) * B <= 10 + 2 * Z.to_nat 150000000)%nat) by (rewrite Nat.sub_0_r; lia).
    split; [reflexivity|by eexists|apply Nat.lt_0_succ|reflexivity|exact Hsel|exists t; split; [exact T1|exact (or_intror HB)]|
      exists t; split; [exact T2|exact (or_intror HB)]].
  - rewrite Ec in Ec'. injection Ec' as <- <- <-. rewrite Ed in Ed'. injection Ed' as <- <- <-. exact (conj H1 H2).
Qed.

(** A test whose task 0 is that program and whose others leave by no other vector. *)
Lemma mt_test_answers x mt m p0 p1 p2 L1 L2 (good : Z * list Z * list bool * Z -> Prop) :
  site_ok x mt -> program_ok L1 -> program_ok L2 -> never L1 0x81 -> never L2 0x81 ->
  prio_val p0 <= prio_val p1 -> prio_val p0 <= prio_val p2 ->
  (forall v1 v2 d1 d2 k, ended L1 task1_entry (start1 x) d1 v1 -> ended L2 task2_entry (start2 x) d2 v2 ->
     (prio_val p0 < prio_val p1 -> prio_val p0 < prio_val p2 -> v1 = start1 x /\ v2 = start2 x) ->
     (prio_val p0 = prio_val p1 -> prio_val p0 = prio_val p2 -> lands x L1 L2 d1 d2 v1 v2) ->
     good (0x10000004, [u32 (v1.1 RAX); u32 (v2.1 RAX)], [d1; d2], k)) ->
  answers x (mt_test x p0 p1 p2 (build_ring3_mt_checksum_program 0x10000000 150000000 ExitViaInt81) (bytes_of L1) (bytes_of L2) (mt, m)) good.
Proof.
  intros Hx P1 P2 N1 N2 Q1 Q2 Hgood. destruct (task0_exits x) as (u & Hu & Hua).
  assert (P0 : program_ok (checksum_listing 0x10000000 150000000 ExitViaInt81)) by (apply checksum_program; unfold in_u; lia).
  pose proof (mt_test_outcome x mt m p0 p1 p2 _ L1 L2 _ u Hx P0 P1 P2
    (checksum_never _ _ ExitViaInt81 0x84 ltac:(discriminate)) N1 N2 Q1 Q2 Hu) as H.
  rewrite checksum_bytes. unfold answers.
  destruct (mt_test x p0 p1 p2 _ (bytes_of L1) (bytes_of L2) (mt, m)) as [[[[[code eaxs] dones] k]|e| |] st]; cbn [fst] in H |- *; [|exact H|exact H|].
  - destruct H as (-> & v1 & v2 & d1 & d2 & -> & -> & E1 & E2 & Hs & rest & v0 & s' & k' & tl & Ec & Ed & Hsel & Ev).
    rewrite Hua. apply Hgood; [done..|]. intros Q1' Q2' A B G1 D1 G2 D2 t Hsl S1 S2 Ht T1 T2. rewrite <- Q1', <- Q2' in Ev, Hsel.
    apply (settled_end x _ rest A B _ L1 L2 G1 D1 G2 D2 t v0 v1 v2 d1 d2 tl s' k' Hsel Ev S1 S2 Ht T1 T2 Hsl Ec Ed).
  - intros Hpos. specialize (H Hpos). lia.
Qed.

(** The timer keeps a pace: every time slice is between [A] and [B] instructions long,
    such that task 0 is interrupted often enough.  It is whenever all slices are of one
    length below a hundred million, or within a factor of ten and below ten million. *)
Definition paced (sched : list nat) : Prop :=
  exists A B, 0 < A /\ Forall (fun n => A <= Z.of_nat n <= B) sched /\ (20000020 / A + 2) * B <= 300000010.

(** The slices of a paced schedule, as many as [gets_there] counts. *)
Lemma paced_slices sched :
  paced sched -> exists A B t1 t2, slices A B sched /\ (10000003 < Z.of_nat (t1 * A)) /\ (10000003 < Z.of_nat (t2 * A)) /\
    (20000010 < Z.of_nat ((t1 + t2) * A)) /\ Z.of_nat ((t1 + t2) * B) <= 10 + 2 * 150000000.
Proof.
  intros (A & B & HA & Hs & Hb). exists (Z.to_nat A), (Z.to_nat B), (Z.to_nat (10000010 / A + 1)), (Z.to_nat (10000010 / A + 1)).
  assert (Hq : 0 <= 10000010 / A) by (apply Z.div_pos; lia).
  assert (Hm : 10000010 < (10000010 / A + 1) * A).
  { pose proof (Z.mod_pos_bound 10000010 A HA). pose proof (Z.div_mod 10000010 A). lia. }
  assert (H2 : 2 * (10000010 / A) <= 20000020 / A).
  { apply Z.div_le_lower_bound; [done|]. pose proof (Z.mul_div_le 10000010 A HA). lia. }
  assert (Hadd : (Z.to_nat (10000010 / A + 1) + Z.to_nat (10000010 / A + 1))%nat = Z.to_nat (2 * (10000010 / A) + 2)) by lia.
  rewrite Hadd, !Nat2Z.inj_mul, (Z2Nat.id A), (Z2Nat.id (10000010 / A + 1)), (Z2Nat.id (2 * (10000010 / A) + 2)) by lia.
  split; [|split; [lia|split; [lia|split; [nia|]]]].
  - unfold slices. apply (List.Forall_impl _ (P := fun n => A <= Z.of_nat n <= B)); [intros n Hn; lia|exact Hs].
  - replace (Z.of_nat (Z.to_nat B)) with (Z.max 0 B) by lia. nia.
Qed.

Lemma entries_ok : 0 <= task1_entry < 2 ^ 64 - 46 /\ 0 <= task2_entry < 2 ^ 64 - 46.
Proof. unfold task1_entry, task2_entry, USER_TEST_PAGE_ADDR. lia. Qed.

Lemma spin_never p n vec : never (checksum_listing p n SpinForever) vec.
Proof. by apply checksum_never. Qed.

(** A spinning task does not retire. *)
Lemma spin_ended p n code v0 d v : ended (checksum_listing p n SpinForever) code v0 d v -> d = false.
Proof.
  destruct d; [|done]. intros (w & _ & Ew). unfold lstep in Ew.
  destruct (at_offset _ _) as [[i k]|] eqn:Ei; [|done]. destruct i; try done. injection Ew as -> _.
  by destruct (spin_never _ _ _ _ _ Ei).
Qed.

(** What a task that retires leaves, whenever it does. *)
Lemma retire_ended x p n v :
  in_u 32 p -> in_u 32 n -> ended (checksum_listing p n RetireViaInt84) task1_entry (start1 x) true v -> v.1 RAX = checksum p.
Proof.
  intros Hp Hn E.
  destruct (checksum_trap task1_entry (proj1 entries_ok) p n RetireViaInt84 0x84 (start1 x).1 Hp Hn eq_refl) as (w & u & Hw & Eu & Ha).
  apply lrun_reach in Hw. by rewrite (ended_unique _ _ _ w u v Hw Eu E).
Qed.

Lemma voluntary_ended x p a b v :
  in_u 32 p -> in_u 32 a -> in_u 32 b -> ended (voluntary_listing p a b) task1_entry (start1 x) true v -> v.1 RAX = u32 (p + 3).
Proof.
  intros Hp Ha Hb E.
  destruct (voluntary_trap task1_entry (proj1 entries_ok) p a b (start1 x).1 Hp Ha Hb) as (w & u & Hw & Eu & Hx).
  by rewrite (ended_unique _ _ _ w u v Hw Eu E).
Qed.

(** At a pace, task 2 spins by the end, and task 1 has got where [gets_there] says. *)
Lemma paced_lands x L1 p2 n2 d1 v1 v2 G1 D1 :
  in_u 32 p2 -> 0 < n2 <= 10000000 -> stable L1 task1_entry G1 ->
  lands x L1 (checksum_listing p2 n2 SpinForever) d1 false v1 v2 -> paced (sched x) ->
  (forall A t1 t2, 10000003 < Z.of_nat (t1 * A) -> 10000003 < Z.of_nat (t2 * A) -> 20000010 < Z.of_nat ((t1 + t2) * A) ->
     gets_there A L1 task1_entry G1 D1 (t1 + t2) (start1 x)) ->
  (if d1 then D1 v1 else G1 v1) /\ v2.1 RAX = checksum p2.
Proof.
  intros Hp Hn S1 Hl (A & B & t1 & t2 & Hs & H1 & H2 & H3 & Hb)%paced_slices Hset.
  destruct (Hl A B G1 D1 (spinning task2_entry p2) (fun _ => True) (t1 + t2)%nat Hs S1
    (spinning_stable task2_entry (proj2 entries_ok) p2 n2) Hb) as [Hd (g & -> & Hg)].
  - by apply Hset.
  - apply (spin_settles A task2_entry (proj2 entries_ok)); [done|unfold in_u; lia|lia|lia].
  - by split.
Qed.

(** C9. The four multitasking self-tests, whatever the moments at which the timer
    interrupts their programs: each returns, as long as the timer keeps giving out
    turns, with task 0's own checksum as the exit code.  If the timer keeps a pace, the
    other values are the expected ones too: 0x20000004 and 0x30000004 in [eax] of the
    tasks that compute their checksums, 0x20000003 of the one that yields in between, and
    the task that retires (and no other) counted as retired.  At any pace, the spinning
    task never counts as retired, a task that did left its final value, and in the
    priority test the two background tasks never ran. *)
Theorem ring3_mt_tests_pass x mt m :
  site_ok x mt ->
  answers x (run_ring3_mt_test x (mt, m)) (fun '(code, eaxs, _) => code = 0x10000004 /\ length eaxs = 2%nat /\
    (paced (sched x) -> eaxs = [0x20000004; 0x30000004])) /\
  answers x (run_priority_ring3_mt_test x (mt, m)) (fun '(code, eax1, eax2, _) => code = 0x10000004 /\ eax1 = 0 /\ eax2 = 0) /\
  answers x (run_early_exit_ring3_mt_test x (mt, m)) (fun '(code, eax1, done1, eax2, done2, _) =>
    code = 0x10000004 /\ (done1 = true -> eax1 = 0x20000004) /\ done2 = false /\
    (paced (sched x) -> eax1 = 0x20000004 /\ done1 = true /\ eax2 = 0x30000004)) /\
  answers x (run_voluntary_yield_ring3_mt_test x (mt, m)) (fun '(code, eax1, done1, eax2, done2, _) =>
    code = 0x10000004 /\ (done1 = true -> eax1 = 0x20000003) /\ done2 = false /\
    (paced (sched x) -> eax1 = 0x20000003 /\ done1 = true /\ eax2 = 0x30000004)).
Proof.
  intros Hx.
  assert (U1 : forall z, 0 <= z < 2 ^ 32 -> in_u 32 z) by (unfold in_u; lia).
  assert (Hp : forall p n e, 0 <= p < 2 ^ 32 -> 0 <= n < 2 ^ 32 -> program_ok (checksum_listing p n e)) by (intros; by apply checksum_program; apply U1).
  split; [|split; [|split]]; unfold run_ring3_mt_test, run_priority_ring3_mt_test, run_early_exit_ring3_mt_test,
    run_voluntary_yield_ring3_mt_test; apply answers_bind; rewrite ?(checksum_bytes _ _ SpinForever),
    ?(checksum_bytes _ _ RetireViaInt84), ?voluntary_bytes.
  - apply mt_test_answers; [exact Hx|apply Hp; lia|apply Hp; lia|apply spin_never|apply spin_never|done|done|].
    intros v1 v2 d1 d2 k E1 E2 _ Hl s'. split; [done|]. split; [done|]. intros Hpace. specialize (Hl eq_refl eq_refl).
    apply spin_ended in E1 as ->. apply spin_ended in E2 as ->.
    destruct (paced_lands x _ 0x30000000 5000000 false v1 v2 (spinning task1_entry 0x20000000) (fun _ => True) ltac:(apply U1; lia)
      ltac:(lia) (spinning_stable task1_entry (proj1 entries_ok) 0x20000000 10000000) Hl Hpace) as [(g & -> & Hg) H2].
    { intros A t1 t2 _ _ H3. apply (spin_settles A task1_entry (proj1 entries_ok)); [apply U1; lia|apply U1; lia|lia|lia]. }
    unfold at_pc. cbn [fst]. by rewrite Hg, H2.
  - apply mt_test_answers; [exact Hx|apply Hp; lia|apply Hp; lia|apply spin_never|apply spin_never|done|done|].
    intros v1 v2 d1 d2 k _ _ Hs _ s'. destruct Hs as [-> ->]; [done..|]. done.
  - apply mt_test_answers; [exact Hx|apply Hp; lia|apply Hp; lia|by apply checksum_never|apply spin_never|done|done|].
    intros v1 v2 d1 d2 k E1 E2 _ Hl s'. specialize (Hl eq_refl eq_refl). apply spin_ended in E2 as ->.
    split; [done|]. split; [|split; [done|]].
    + intros ->. by rewrite (retire_ended x 0x20000000 5000000 v1 (U1 0x20000000 ltac:(lia)) (U1 5000000 ltac:(lia)) E1).
    + intros Hpace. destruct (paced_lands x _ 0x30000000 6000000 d1 v1 v2 (fun _ => False) (fun v => v.1 RAX = checksum 0x20000000)
        ltac:(apply U1; lia) ltac:(lia) (nowhere_stable task1_entry _) Hl Hpace) as [H1 H2].
      { intros A t1 t2 _ _ H3. apply (retire_settles A task1_entry (proj1 entries_ok)); [apply U1; lia|apply U1; lia|lia|lia]. }
      destruct d1; [|done]. by rewrite H1, H2.
  - apply mt_test_answers; [exact Hx|apply voluntary_program; apply U1; lia|apply Hp; lia|apply voluntary_never|apply spin_never|done|done|].
    intros v1 v2 d1 d2 k E1 E2 _ Hl s'. specialize (Hl eq_refl eq_refl). apply spin_ended in E2 as ->.
    split; [done|]. split; [|split; [done|]].
    + intros ->. by rewrite (voluntary_ended x 0x20000000 5000000 5000000 v1 (U1 0x20000000 ltac:(lia)) (U1 5000000 ltac:(lia)) (U1 5000000 ltac:(lia)) E1).
    + intros Hpace. destruct (paced_lands x _ 0x30000000 6000000 d1 v1 v2 (fun _ => False) (fun v => v.1 RAX = u32 (0x20000000 + 3))
        ltac:(apply U1; lia) ltac:(lia) (nowhere_stable task1_entry _) Hl Hpace) as [H1 H2].
      { intros A t1 t2 H1 H2 _. apply (voluntary_settles A task1_entry (proj1 entries_ok)); try (apply U1; lia); lia. }
      destruct d1; [|done]. by rewrite H1, H2.
Qed.

(** The selectors of [gdt.rs]; the timer interrupts after every instruction. *)
Definition demo_site (sched : list nat) : Site :=
  mk_Site 0x2B 0x23 8 0x200000 0x300000 0x300010 true (fun _ => lift Panic) [0x400000; 0x401000; 0x402000]
    (mk_Cpu (fun r => if decide (r = RSP) then 0x100000 else 0) 0x8000 (fun _ => 0))
    (mk_Timer 0 0 (new_preempt new_sched (fun _ => 0)) (mk_Rp false false 5000) new_mt) sched.

Lemma demo_site_ok sched : site_ok (demo_site sched) new_mt.
Proof.
  split.
  - by split; [unfold in_u; cbn; lia|].
  - unfold in_u. cbn. lia.
  - intros r. cbn. unfold in_u. case_decide; lia.
  - done.
  - intros i a n Hi. cbn in Hi. unfold USER_TEST_PAGE_ADDR in Hi.
    do 8 (destruct i as [|i]; [injection Hi as <- <-; lia|]). done.
  - intros i j a n b k Hi Hj Hne. cbn in Hi, Hj. unfold USER_TEST_PAGE_ADDR, disjoint_ranges in *.
    do 8 (destruct i as [|i]; [injection Hi as <- <-;
      do 8 (destruct j as [|j]; [first [lia|injection Hj as <- <-; lia]|]); done|]). done.
  - done.
  - done.
  - done.
  - done.
  - intros p Hp. cbn in Hp. unfold U8_MAX.
    repeat (apply elem_of_cons in Hp as [->|Hp]; [lia|]). by apply elem_of_nil in Hp.
Qed.

(** So many turns that the answer has to be there, each of one instruction. *)
Lemma long_schedule z : 0 <= z -> exists sc, Forall (fun n => 1 <= n)%nat sc /\ Z.of_nat (length sc) = z /\ paced sc.
Proof.
  intros Hz. exists (replicate (Z.to_nat z) 1%nat). split; [by apply Forall_replicate|]. split; [rewrite length_replicate; lia|].
  exists 1, 1. split; [lia|]. split; [apply Forall_replicate; lia|vm_compute; discriminate].
Qed.

Lemma ring3_mt_tests_pass_witness :
  exists sc n,
    (run_voluntary_yield_ring3_mt_test (demo_site sc) (new_mt, fun _ => 0)).1 =
      Ok (0x10000004, 0x20000003, true, 0x30000004, false, n).
Proof.
  destruct (long_schedule 900000034 ltac:(lia)) as (sc & Hpos & Hlen & Hpace). exists sc.
  destruct (ring3_mt_tests_pass (demo_site sc) new_mt (fun _ => 0) (demo_site_ok sc)) as (_ & _ & _ & H).
  unfold answers in H. destruct (run_voluntary_yield_ring3_mt_test (demo_site sc) (new_mt, fun _ => 0)) as [r st].
  cbn [fst] in H |- *. destruct r as [[[[[[code eax1] done1] eax2] done2] n]|e| |].
  - destruct H as (-> & _ & -> & H1). destruct (H1 Hpace) as (-> & -> & ->). exists n. reflexivity.
  - destruct H.
  - destruct H.
  - specialize (H Hpos). change (sched (demo_site sc)) with sc in H. lia.
Defined.
