(* ===== verification/Ring3Alone.v ===== *)
(** * Ring3Alone: ring-3 code as if it were alone

    [wp] is the specification language of the ring-3 tests: within [n] instructions a
    task that keeps to its own pages reaches the traps that [on_trap] allows.  The
    lemmas run a program through it, instruction by instruction; [wp_run] carries it
    to any memory that agrees on the task's pages. *)
From stdpp Require Import base list numbers strings.
From Stdlib Require Import Lia.
From S2P Require Import Prelude Mem X64 ContextSwitch TierSelect Preemptive Ring3Mt Ring3Prog Ring3Session.
Open Scope Z_scope.

Definition store_address (f : reg -> Z) (i : uinstr) : option Z :=
  match i with
  | UStore8 base index disp _ => Some (u64 (f base + match index with Some r => f r | None => 0 end + disp))
  | _ => None
  end.

Definition in_ring3 (f : reg -> Z) : Prop := regs_ok f /\ Z.land (f CS) 3 = 3.

(** ** Specification *)

Section Alone.
Context (user : Z -> Prop).

(** The next instruction is fetched from the user's pages and writes only to them. *)
Record confined (v : vcpu) (m : memory) : Prop := {
  cf_ring3 : in_ring3 v.1;
  cf_pc : in_u 64 v.2;
  cf_fetch : forall x, v.2 <= x < v.2 + 12 -> user x;
  cf_store : forall i n a, decode (read_bytes m v.2 12) = Some (i, n) -> store_address v.1 i = Some a -> user a;
}.

Definition agree (m1 m2 : memory) : Prop := forall x, user x -> m1 x = m2 x.

(** [s] is the state of the environment; [on_trap] is given the number of instructions
    left and says what holds at a trap, and on what terms the task goes on. *)
Context {E : Type}.
Context (on_trap : nat -> Z -> vcpu -> E -> memory -> (vcpu -> E -> memory -> Prop) -> Prop).
Context (on_fault : vcpu -> E -> memory -> Prop).

Fixpoint wp (n : nat) (v : vcpu) (s : E) (m : memory) : Prop :=
  match n with
  | O => False
  | S n =>
      confined v m /\
      match ustep (on_cpu v m) with
      | Step c => wp n (vcpu_of c) s (cmem c)
      | Trap vec c => on_trap n vec (vcpu_of c) s m (wp n)
      | Fault c => on_fault v s m
      end
  end.

(** ** Running in a larger memory *)

Definition same_outside (m1 m2 : memory) : Prop := forall x, ~ user x -> m2 x = m1 x.

(** An instruction of a confined task does the same in any memory that agrees on its
    pages, and nothing outside them. *)
Lemma ustep_agree v m1 m2 :
  confined v m1 -> agree m1 m2 ->
  match ustep (on_cpu v m1) with
  | Step c1 => exists m2', ustep (on_cpu v m2) = Step (on_cpu (vcpu_of c1) m2') /\ agree (cmem c1) m2' /\ same_outside m2 m2'
  | Trap vec c1 => ustep (on_cpu v m2) = Trap vec (on_cpu (vcpu_of c1) m2) /\ c1 = on_cpu (vcpu_of c1) m1
  | Fault c1 => ustep (on_cpu v m2) = Fault (on_cpu v m2) /\ c1 = on_cpu v m1
  end.
Proof.
  intros [_ _ Hpc Hst] Hm.
  assert (Hf : read_bytes m2 v.2 12 = read_bytes m1 v.2 12).
  { apply read_bytes_ext. intros x Hx. symmetry. apply Hm, Hpc. lia. }
  unfold ustep. cbn [on_cpu cmem rip regs]. rewrite Hf.
  destruct (decode (read_bytes m1 v.2 12)) as [[i n]|] eqn:Ed; [|done].
  destruct i; cbn -[Z.testbit write_bytes]; try (by exists m2).
  - pose proof (Hst _ _ _ eq_refl eq_refl) as Ha. cbn [store_address] in Ha.
    set (a := u64 _) in *. exists (write_bytes a [u8 (v.1 src)] m2). split; [done|]. split.
    + intros x Hx. unfold write_bytes. cbn [length]. destruct (_ && _)%bool; [done|by apply Hm].
    + intros x Hx. apply write_bytes_out. cbn [length]. destruct (decide (x = a)) as [->|Hne]; [done|lia].
  - destruct (Z.testbit _ 6); by exists m2.
  - done.
  - unfold cpl, iopl. cbn [regs]. destruct (_ <=? _); [by exists m2|done].
Qed.

Lemma ustep_trap_ok v m vec u : ustep (on_cpu v m) = Trap vec u -> in_ring3 v.1 -> in_ring3 (vcpu_of u).1 /\ in_u 64 (vcpu_of u).2.
Proof.
  unfold ustep. cbn [on_cpu cmem rip regs]. destruct (decode _) as [[i n]|]; [|done].
  destruct i; try done; [|by destruct (_ <=? _)]. intros [= _ <-] Hok. split; [done|]. by apply wrap_in_u.
Qed.

(** Where [j] instructions lead, in the larger memory. *)
Definition ran_to (n j : nat) (s : E) (m2 : memory) (o : outcome) : Prop :=
  match o with
  | Step c => exists n' v' m' m2', c = on_cpu v' m2' /\ wp n' v' s m' /\ agree m' m2' /\ same_outside m2 m2' /\ (n' + j = n)%nat
  | Trap vec c => exists n' i v' m' m2', c = on_cpu v' m2' /\ agree m' m2' /\ same_outside m2 m2' /\
      in_ring3 v'.1 /\ in_u 64 v'.2 /\ on_trap n' vec v' s m' (wp n') /\ (n' + i + 1 = n)%nat /\ (i < j)%nat
  | Fault c => exists v' m' m2', c = on_cpu v' m2' /\ agree m' m2' /\ same_outside m2 m2' /\ on_fault v' s m'
  end.

Lemma wp_run j n v s m m2 : wp n v s m -> agree m m2 -> ran_to n j s m2 (urun j (on_cpu v m2)).
Proof.
  revert n v m m2. induction j as [|j IH]; intros n v m m2 Hw Ha.
  { cbn [urun]. exists n, v, m, m2. split; [done|]. split; [done|]. split; [done|]. split; [done|lia]. }
  destruct n as [|n]; [done|]. cbn [wp] in Hw. destruct Hw as [Hc Hw]. cbn [urun].
  pose proof (ustep_agree v m m2 Hc Ha) as Hs. destruct (ustep (on_cpu v m)) as [u|vec u|u] eqn:Eu.
  - destruct Hs as (m2' & -> & Ha' & Ho). specialize (IH n _ _ _ Hw Ha').
    destruct (urun j (on_cpu (vcpu_of u) m2')) as [c|vec c|c]; cbn [ran_to] in *.
    + destruct IH as (n' & v' & m' & m3 & -> & Hw' & H3 & H4 & H5). exists n', v', m', m3.
      split; [done|]. split; [done|]. split; [done|]. split; [|lia]. intros x Hx. by rewrite H4, Ho.
    + destruct IH as (n' & i & v' & m' & m3 & -> & H2 & H3 & H4 & H5 & H6 & H7 & H8). exists n', (1 + i)%nat, v', m', m3.
      split; [done|]. split; [done|]. split; [intros x Hx; by rewrite H3, Ho|]. split; [done|]. split; [done|].
      split; [done|]. split; lia.
    + destruct IH as (v' & m' & m3 & -> & H2 & H3 & H4). exists v', m', m3. split; [done|]. split; [done|].
      split; [|done]. intros x Hx. by rewrite H3, Ho.
  - destruct Hs as [-> Eu']. destruct (ustep_trap_ok _ _ _ _ Eu (cf_ring3 _ _ Hc)) as [H1 H2].
    exists n, 0%nat, (vcpu_of u), m, m2. split; [done|]. split; [done|]. split; [done|]. split; [done|]. split; [done|].
    split; [done|]. split; lia.
  - destruct Hs as [-> Eu']. exists v, m, m2. by repeat (split; [done|]).
Qed.
End Alone.

(** A timer interrupt that no scheduler of ring 3 takes only leaves its frame on the
    kernel stack. *)
Lemma timer_passes kcs rsp0 free v m t :
  160 <= rsp0 < 2 ^ 64 -> in_ring3 v.1 -> in_u 64 v.2 -> mt_enabled (t_mt t) = false -> rp_enabled (t_rp t) = false ->
  exists t', timer_interrupt_entry_asm free (interrupt kcs rsp0 (on_cpu v m), t) = (Ok None, (on_cpu v (saved_mem rsp0 v m), t')) /\
    t_mt t' = t_mt t /\ t_rp t' = t_rp t.
Proof.
  intros Hr [Hok HCS] Hpc Hmt Hrp.
  apply (timer_stub_resumes kcs rsp0 Hr free v v m _ (t_mt t) t HCS Hok Hpc Hrp).
  exists (rsp0 - 160). split; [|split; [lia|split; [done|split; [done|]]]].
  - unfold mt_tick, mbind, M_bind, gets. cbn [fst snd]. by rewrite Hmt.
  - unfold saved_mem. rewrite <- (length_ctx_bytes v). apply read_write_bytes.
Qed.

Lemma saved_mem_out rsp0 v m x : x < rsp0 - 160 \/ rsp0 <= x -> saved_mem rsp0 v m x = m x.
Proof. intros Hx. apply write_bytes_out. rewrite length_ctx_bytes. unfold CTX. lia. Qed.

(** The interception of ring3_preempt parks the task in its buffer, poisons the stack
    and resumes from the buffer; afterwards it lets the task be. *)
Lemma timer_intercepts kcs rsp0 free v m t buf :
  160 <= rsp0 < 2 ^ 64 -> in_ring3 v.1 -> in_u 64 v.2 -> mt_enabled (t_mt t) = false ->
  rp_enabled (t_rp t) = true -> rp_ctx (t_rp t) = buf -> 0 <= buf < 2 ^ 64 - 160 -> apart (rsp0 - 160) buf ->
  exists m' t', timer_interrupt_entry_asm free (interrupt kcs rsp0 (on_cpu v m), t) = (Ok None, (on_cpu v m', t')) /\
    t_mt t' = t_mt t /\ t_rp t' = mk_Rp true true buf /\
    forall x, x < rsp0 - 160 \/ rsp0 <= x -> x < buf \/ buf + 160 <= x -> m' x = m x.
Proof.
  intros Hr [Hok HCS] Hpc Hmt He Hb Hbuf Hap.
  set (ptr := if rp_hit (t_rp t) then rsp0 - 160 else buf).
  set (m1 := if rp_hit (t_rp t) then saved_mem rsp0 v m else park (rsp0 - 160) buf (saved_mem rsp0 v m)).
  destruct (timer_stub_goes kcs rsp0 Hr free v v m m1 m1 (t_mt t) (mk_Rp true true buf) ptr ptr t) as (t' & E & E1 & E2 & _); try done.
  - unfold rp_tick. rewrite He, Hb. cbn [negb]. unfold ptr, m1. by destruct (rp_hit (t_rp t)).
  - unfold mt_tick, mbind, M_bind, gets. cbn [fst snd]. by rewrite Hmt.
  - unfold ptr. destruct (rp_hit _); lia.
  - unfold ptr, m1. destruct (rp_hit _); [|rewrite park_read_dest by done];
      unfold saved_mem; rewrite <- (length_ctx_bytes v); apply read_write_bytes.
  - exists m1, t'. split; [done|]. split; [done|]. split; [done|]. intros x X1 X2.
    unfold m1. destruct (rp_hit _); [by apply saved_mem_out|]. rewrite park_out by lia. by apply saved_mem_out.
Qed.

(** ** Memory in use *)

(** Regions, as first address and length. *)
Definition pairwise_apart (rs : list (Z * Z)) : Prop :=
  (forall i a n, rs !! i = Some (a, n) -> 0 <= a /\ a + n < 2 ^ 64) /\
  forall i j a n b k, rs !! i = Some (a, n) -> rs !! j = Some (b, k) -> i <> j -> disjoint_ranges a n b k.

(** Smaller regions of apart regions are apart. *)
Lemma pairwise_inside rs rs' :
  pairwise_apart rs -> length rs' = length rs ->
  (forall i a n b k, rs !! i = Some (a, n) -> rs' !! i = Some (b, k) -> a <= b /\ b + k <= a + n) -> pairwise_apart rs'.
Proof.
  intros [H1 H2] Hl Hin.
  assert (Hr : forall i b k, rs' !! i = Some (b, k) -> exists a n, rs !! i = Some (a, n) /\ a <= b /\ b + k <= a + n).
  { intros i b k Hi. pose proof (lookup_lt_Some _ _ _ Hi) as Hlt. rewrite Hl in Hlt.
    destruct (lookup_lt_is_Some_2 rs i Hlt) as [[a n] Ha]. exists a, n. split; [done|]. by apply (Hin i). }
  split.
  - intros i b k Hi. destruct (Hr _ _ _ Hi) as (a & n & Ha & I1 & I2). specialize (H1 _ _ _ Ha). lia.
  - intros i j b k b' k' Hi Hj Hne. destruct (Hr _ _ _ Hi) as (a & n & Ha & I1 & I2).
    destruct (Hr _ _ _ Hj) as (a' & n' & Ha' & J1 & J2). specialize (H2 _ _ _ _ _ _ Ha Ha' Hne).
    unfold disjoint_ranges in *. lia.
Qed.

(** ** Straight code *)

Lemma effect_mov8r d s f : u8 (effect (UMov8R d s) f d) = u8 (f s).
Proof.
  unfold effect. cbn [uexec put8 regs]. rewrite set_reg_same. unfold wrap. rewrite Z.add_comm.
  change (2 ^ 8) with 256. by rewrite Z.mod_add, Z.mod_mod.
Qed.

Lemma effect_mov8 d v f : f d = 0 -> effect (UMov8 d v) f d = u8 v.
Proof. intros H. unfold effect. cbn [uexec put8 regs]. by rewrite set_reg_same, H. Qed.

Lemma effect_add8 v f : u8 (effect (UAdd8 RAX v) f RAX) = u8 (f RAX + v).
Proof.
  unfold effect. cbn [uexec put8 regs]. rd. unfold wrap. rewrite Z.add_comm.
  change (2 ^ 8) with 256. by rewrite Z.mod_add, !Z.mod_mod.
Qed.

Lemma effect_mov d v f : effect (UMov d v) f d = v.
Proof. unfold effect. cbn [uexec regs]. apply set_reg_same. Qed.

Lemma u8_add a b : u8 (u8 a + b) = u8 (a + b).
Proof. unfold wrap. by rewrite Zplus_mod_idemp_l. Qed.

(** The registers a straight instruction writes. *)
Definition writes (i : uinstr) (r : reg) : bool :=
  match i with
  | UMov d _ | UMov8 d _ | UMov8R d _ => bool_decide (r = d)
  | UAdd8 d _ | UDec d | UAdd d _ | UXor d _ => bool_decide (r = d) || bool_decide (r = RFLAGS)
  | _ => true
  end.

Lemma effect_keeps i f r : straight i = true -> writes i r = false -> effect i f r = f r.
Proof.
  intros Hs Hw. destruct i; try done; cbn [writes] in Hw; try (apply orb_false_iff in Hw as [Hw Hw2]);
    repeat match goal with H : bool_decide _ = false |- _ => apply bool_decide_eq_false in H end;
    unfold effect, uexec, put32, put8; cbn [regs]; by repeat rewrite set_reg_other by done.
Qed.

(** ** A program in its page *)

(** The instruction [i], of [len] bytes, is at offset [k] of the program. *)
Definition code_at (prog : list Z) (k : nat) (i : uinstr) (len : nat) : Prop :=
  (k + 12 <= 4096)%nat /\ exists bs rest, drop k prog = bs ++ rest /\ length bs = len /\ (len <= 12)%nat /\
    forall tl, decode (bs ++ tl) = Some (i, Z.of_nat len).

Lemma code_at_by prog k i len :
  (k + 12 <= 4096)%nat -> (len <= 12)%nat -> (k + len <= length prog)%nat ->
  (forall tl, decode (take len (drop k prog) ++ tl) = Some (i, Z.of_nat len)) -> code_at prog k i len.
Proof.
  intros Hk Hl Hp Hd. split; [done|]. exists (take len (drop k prog)), (drop len (drop k prog)).
  split; [by rewrite take_drop|]. split; [rewrite length_take, length_drop; lia|]. by split.
Qed.

Ltac code_here := apply code_at_by; [lia|lia|vm_compute; lia|intros tl; reflexivity].

Section Steps.
Context (user : Z -> Prop) {E : Type}.
Context (on_trap : nat -> Z -> vcpu -> E -> memory -> (vcpu -> E -> memory -> Prop) -> Prop).
Context (on_fault : vcpu -> E -> memory -> Prop).
Context (code : Z) (prog : list Z).
Hypothesis Hcode : 0 <= code /\ code + 4096 < 2 ^ 64.
Hypothesis Hpage : forall x, code <= x < code + 4096 -> user x.

Abbreviation run n k f s m := (wp user on_trap on_fault n (f, code + Z.of_nat k) s m).

Lemma code_at_decode k i len m :
  code_at prog k i len -> installed m code prog -> decode (read_bytes m (code + Z.of_nat k) 12) = Some (i, Z.of_nat len).
Proof.
  intros (_ & bs & rest & Hd & Hl & Hlen & Hdec) Hm.
  destruct (fetch m code prog k bs rest Hm Hd ltac:(lia)) as [tl ->]. apply Hdec.
Qed.

Lemma code_at_next k i len : code_at prog k i len -> u64 (code + Z.of_nat k + Z.of_nat len) = code + Z.of_nat (k + len).
Proof. intros (Hk & bs & rest & _ & _ & Hlen & _). rewrite wrap_id; [lia|]. unfold in_u. lia. Qed.

Lemma confined_at k i len f m :
  code_at prog k i len -> installed m code prog -> in_ring3 f ->
  (forall a, store_address f i = Some a -> user a) -> confined user (f, code + Z.of_nat k) m.
Proof.
  intros Hk Hm Hf Hst. pose proof Hk as (Hk' & _). split; cbn [fst snd].
  - done.
  - unfold in_u. lia.
  - intros x Hx. apply Hpage. lia.
  - intros j n a. rewrite (code_at_decode k i len m Hk Hm). intros [= <- _]. apply Hst.
Qed.

Lemma run_straight n k i len f s m :
  code_at prog k i len -> straight i = true -> installed m code prog -> in_ring3 f ->
  match i with UMov _ v => in_u 64 v | _ => True end -> writes i CS = false ->
  (in_ring3 (effect i f) -> run n (k + len) (effect i f) s m) -> run (1 + n) k f s m.
Proof.
  intros Hk Hs Hm Hf Hi Hcs Hn. cbn [Nat.add wp]. split.
  { apply (confined_at k i len); try done. intros a Ha. by destruct i. }
  assert (Hu : ustep (on_cpu (f, code + Z.of_nat k) m) = Step (on_cpu (effect i f, code + Z.of_nat (k + len)) m)).
  { unfold ustep. cbn [on_cpu cmem rip regs fst snd]. rewrite (code_at_decode k i len m Hk Hm), (code_at_next k i len Hk).
    destruct i; try done; unfold effect, on_cpu; cbn [fst snd uexec put8 put32 regs rip cmem]; reflexivity. }
  rewrite Hu. apply Hn. destruct Hf as [Hok HCS]. split; [by apply effect_ok|]. by rewrite effect_keeps.
Qed.

Lemma jump_to k rel len j m f :
  code_at prog k (UJmp rel) len \/ code_at prog k (UJnz rel) len -> Z.of_nat (k + len) + rel = Z.of_nat j -> (j <= 4096)%nat ->
  jump rel (mk_Cpu f (code + Z.of_nat (k + len)) m) = on_cpu (f, code + Z.of_nat j) m.
Proof.
  intros _ Hj Hj'. unfold jump, on_cpu. cbn [fst snd rip regs cmem]. f_equal.
  replace (code + Z.of_nat (k + len) + rel) with (code + Z.of_nat j) by lia. apply wrap_id. unfold in_u. lia.
Qed.

Lemma run_jump n k rel len f s m j :
  code_at prog k (UJmp rel) len -> installed m code prog -> in_ring3 f ->
  Z.of_nat (k + len) + rel = Z.of_nat j -> (j <= 4096)%nat -> run n j f s m -> run (1 + n) k f s m.
Proof.
  intros Hk Hm Hf Hj Hj' Hn. cbn [Nat.add wp]. split; [by apply (confined_at k (UJmp rel) len)|].
  assert (Hu : ustep (on_cpu (f, code + Z.of_nat k) m) = Step (on_cpu (f, code + Z.of_nat j) m)).
  { unfold ustep. cbn [on_cpu cmem rip regs fst snd]. rewrite (code_at_decode k _ len m Hk Hm), (code_at_next k _ len Hk).
    unfold uexec. by rewrite (jump_to k rel len j) by auto. }
  by rewrite Hu.
Qed.

Lemma run_jnz n k rel len f s m j :
  code_at prog k (UJnz rel) len -> installed m code prog -> in_ring3 f ->
  Z.of_nat (k + len) + rel = Z.of_nat j -> (j <= 4096)%nat ->
  run n (if Z.testbit (f RFLAGS) 6 then k + len else j)%nat f s m -> run (1 + n) k f s m.
Proof.
  intros Hk Hm Hf Hj Hj' Hn. cbn [Nat.add wp]. split; [by apply (confined_at k (UJnz rel) len)|].
  assert (Hu : ustep (on_cpu (f, code + Z.of_nat k) m) =
    Step (on_cpu (f, code + Z.of_nat (if Z.testbit (f RFLAGS) 6 then k + len else j)%nat) m)).
  { unfold ustep. cbn [on_cpu cmem rip regs fst snd]. rewrite (code_at_decode k _ len m Hk Hm), (code_at_next k _ len Hk).
    unfold uexec. cbn [regs]. destruct (Z.testbit (f RFLAGS) 6); [done|]. by rewrite (jump_to k rel len j) by auto. }
  by rewrite Hu.
Qed.

Lemma run_store n k b ix d src len f s m a :
  code_at prog k (UStore8 b ix d src) len -> installed m code prog -> in_ring3 f ->
  store_address f (UStore8 b ix d src) = Some a -> user a -> (a < code \/ code + Z.of_nat (length prog) <= a) ->
  (installed (write_bytes a [u8 (f src)] m) code prog -> run n (k + len) f s (write_bytes a [u8 (f src)] m)) ->
  run (1 + n) k f s m.
Proof.
  intros Hk Hm Hf Ha Hu Hr Hn. cbn [Nat.add wp]. split.
  { apply (confined_at k _ len _ _ Hk Hm Hf). intros a'. rewrite Ha. by intros [= <-]. }
  assert (Hs : ustep (on_cpu (f, code + Z.of_nat k) m) =
    Step (on_cpu (f, code + Z.of_nat (k + len)) (write_bytes a [u8 (f src)] m))).
  { unfold ustep. cbn [on_cpu cmem rip regs fst snd]. rewrite (code_at_decode k _ len m Hk Hm), (code_at_next k _ len Hk).
    unfold uexec, on_cpu. cbn [fst snd rip regs cmem]. cbn [store_address] in Ha. injection Ha as ->. done. }
  rewrite Hs. apply Hn. apply (installed_ext m); [done|]. intros y Hy. apply write_bytes_out. cbn [length]. lia.
Qed.

Lemma run_trap n k vec len f s m :
  code_at prog k (UInt vec) len -> installed m code prog -> in_ring3 f ->
  on_trap n vec (f, code + Z.of_nat (k + len)) s m (wp user on_trap on_fault n) -> run (1 + n) k f s m.
Proof.
  intros Hk Hm Hf Hn. cbn [Nat.add wp]. split; [by apply (confined_at k (UInt vec) len)|].
  unfold ustep. cbn [on_cpu cmem rip regs fst snd]. by rewrite (code_at_decode k _ len m Hk Hm), (code_at_next k _ len Hk).
Qed.

(** [dec r; jnz] from a counter of at least 1. *)
Lemma run_countdown n k len1 len2 r f s m c :
  code_at prog k (UDec r) len1 -> code_at prog (k + len1) (UJnz (- Z.of_nat (len1 + len2))) len2 ->
  r <> CS -> r <> RFLAGS -> installed m code prog -> in_ring3 f ->
  f r = Z.of_nat (S c) -> Z.of_nat (S c) < 2 ^ 32 ->
  (forall f', in_ring3 f' -> f' r = 0 -> (forall q, q <> r -> q <> RFLAGS -> f' q = f q) -> run n (k + len1 + len2) f' s m) ->
  run (2 * S c + n) k f s m.
Proof.
  intros K1 K2 Hr Hrf Hm. revert f. induction c as [|c IH]; intros f Hf Hc Hlt Hn.
  - change (2 * 1 + n)%nat with (1 + (1 + n))%nat. apply (run_straight _ k (UDec r) len1); try done.
    { cbn. by rewrite !bool_decide_eq_false_2. }
    intros Hf1. apply (run_jnz _ (k + len1) _ len2 _ _ _ k K2); try done; [destruct K1; lia|destruct K1; lia|].
    rewrite effect_dec_zf, Hc by done. change (u32 (Z.of_nat 1 - 1) =? 0) with true. cbn iota.
    apply Hn; [done|rewrite effect_dec_val, Hc by done; done|]. intros q H1 H2. by apply effect_dec.
  - replace (2 * S (S c) + n)%nat with (1 + (1 + (2 * S c + n)))%nat by lia.
    apply (run_straight _ k (UDec r) len1); try done.
    { cbn. by rewrite !bool_decide_eq_false_2. }
    intros Hf1. apply (run_jnz _ (k + len1) _ len2 _ _ _ k K2); try done; [destruct K1; lia|destruct K1; lia|].
    assert (Hu : u32 (f r - 1) = Z.of_nat (S c)) by (rewrite Hc, wrap_id by (unfold in_u; lia); lia).
    rewrite effect_dec_zf, Hu by done. destruct (Z.eqb_spec (Z.of_nat (S c)) 0); [lia|].
    apply IH; [done|rewrite effect_dec_val by done; exact Hu|lia|].
    intros f' F1 F2 F3. apply Hn; [done|done|]. intros q H1 H2. rewrite F3 by done. by apply effect_dec.
Qed.
End Steps.
