(* ===== verification/Ring3Solo.v ===== *)
(** * Ring3Solo: one ring-3 program, its system calls and the timer ([ring3.rs],
      [interrupts.rs])

    The system-call stub of vector 0x80 is the source's assembly on X64 around
    Syscall's [handle_real_syscall]; programs are entered and left by the stubs of
    Ring3Session.  [solo_trap] is the specification: between its calls a program that
    keeps to its own pages runs as if it were alone, and a call changes [rax] and
    nothing else it can see.  The timer may interrupt anywhere, also with the
    interception of ring3_preempt armed. *)
From stdpp Require Import base list numbers strings.
From Stdlib Require Import Lia FunctionalExtensionality.
From S2P Require Import Prelude Mem X64 ContextSwitch AgentScheduler KvAllocator Paging Syscall TierSelect Preemptive Ring3Mt Ring3Prog Ring3Session Ring3Alone.
Open Scope Z_scope.

(** ** The system-call stub *)

(** What a system call can change besides memory. *)
Record Kernel := mk_Kernel {
  syscall_int_count : Z;
  k_sched : NativeAgentScheduler;
  k_kv : KVCacheMemoryManager;
}.

Abbreviation solo_machine := (Cpu * Timer * Kernel)%type.

Section Session.
Context (try_new : Z -> option Z) (translate : Z -> option (list PageFlag)).
Context (kernel_cs rsp0 exit_code ret_rsp : Z) (free : bool) (junk : Cpu -> reg -> Z).
Context (other_trap : Z -> M solo_machine unit).

(** [handle_real_syscall], with its counter. *)
Definition counted_syscall (sys_nr arg1 arg2 caller_rpl : Z) : M (Kernel * memory) Z := fun '(k, m) =>
  match handle_real_syscall try_new translate sys_nr arg1 arg2 caller_rpl (mk_Machine (k_sched k) (k_kv k) m) with
  | (r, m') => (r, (mk_Kernel (u64 (syscall_int_count k + 1)) (sched m') (kv m'), mem m'))
  end.

(** The four arguments and the privilege level are read from the saved block; the
    result replaces the saved [rax]. *)
Definition syscall_entry_asm : M solo_machine unit := fun '(c, t, k) =>
  let c := exec_all (map Push pushed ++
    [LoadSp RDI 0; LoadSp RSI 8; LoadSp RDX 16; LoadSp RCX 24; LoadSp R8 128; AndImm R8 3]) c in
  match counted_syscall (regs c RDI) (regs c RSI) (regs c RDX) (regs c R8) (k, cmem c) with
  | (Ok r, (k', m)) => (Ok tt, (exec_all ([Store RSP RAX] ++ map Pop popped ++ [Iretq]) (called (junk c) r m c), t, k'))
  | (Err e, (k', m)) => (Err e, (called (junk c) 0 m c, t, k'))
  | (Panic, (k', m)) => (Panic, (called (junk c) 0 m c, t, k'))
  | (Hang, (k', m)) => (Hang, (called (junk c) 0 m c, t, k'))
  end.

(** ** From entry to exit *)

Definition solo_timer (f : M machine (option Z)) : M solo_machine (option Z) := fun '(c, t, k) =>
  let '(r, (c', t')) := f (c, t) in (r, (c', t', k)).

(** As Ring3Session's [session], with system calls, up to the exit trap.  A fault ends
    in the handler of the exception, which halts the kernel. *)
Fixpoint solo_to_exit (sched : list nat) : M solo_machine unit := fun '(c, t, k) =>
  match sched with
  | [] => (Hang, (c, t, k))
  | n :: rest =>
      match urun n c with
      | Step c' =>
          (o ← solo_timer (timer_interrupt_entry_asm free);
           match o with None => solo_to_exit rest | Some _ => lift Hang end) (interrupt kernel_cs rsp0 c', t, k)
      | Trap vec c' =>
          if vec =? 0x81 then (Ok tt, (c', t, k))
          else ((if vec =? 0x80 then syscall_entry_asm else other_trap vec);; solo_to_exit rest)
            (interrupt kernel_cs rsp0 c', t, k)
      | Fault c' => (Panic, (c', t, k))
      end
  end.

(** The exit trap, and the stub that leaves ring 3 for the caller. *)
Definition leave_ring3 (c : Cpu) : Cpu :=
  exec_all (ring3_exit_entry_asm exit_code ret_rsp) (interrupt kernel_cs rsp0 c).

Definition solo_session (sched : list nat) : M solo_machine unit :=
  solo_to_exit sched;; modify (fun '(c, t, k) => (leave_ring3 c, t, k)).

(** [enter_ring3], called with its return address on the stack. *)
Definition enter_solo (entry user_cs user_ss user_rsp user_rflags : Z) (sched : list nat) : M solo_machine Z :=
  fun '(c, t, k) =>
  let args := set_reg RDI entry (set_reg RSI user_cs (set_reg RDX user_ss
    (set_reg RCX user_rsp (set_reg R8 user_rflags (regs c))))) in
  (solo_session sched;; gets (fun s => regs s.1.1 RAX))
    (exec_all (enter_ring3_asm ret_rsp) (mk_Cpu args (rip c) (cmem c)), t, k).

(** ** Specification *)

Section Trap.
Context (user : Z -> Prop).

(** The program exits with [Q]; if [calls], it may also make a system call whose
    answer depends on its own pages only and which writes nothing. *)
Definition solo_trap (calls : bool) (Q : nat -> vcpu -> Kernel -> memory -> Prop) (n : nat) (vec : Z) (v : vcpu) (k : Kernel)
    (m : memory) (go : vcpu -> Kernel -> memory -> Prop) : Prop :=
  if vec =? 0x81 then Q n v k m
  else if calls && (vec =? 0x80) then
    exists r k', in_u 64 r /\
      (forall m2, agree user m m2 -> counted_syscall (v.1 RAX) (v.1 RDI) (v.1 RSI) 3 (k, m2) = (Ok r, (k', m2))) /\
      go (set_reg RAX r v.1, v.2) k' m
  else False.

Lemma solo_trap_call Q n v k m go r k' :
  in_u 64 r ->
  (forall m2, agree user m m2 -> counted_syscall (v.1 RAX) (v.1 RDI) (v.1 RSI) 3 (k, m2) = (Ok r, (k', m2))) ->
  go (set_reg RAX r v.1, v.2) k' m -> solo_trap true Q n 0x80 v k m go.
Proof. intros Hr Hc Hg. exists r, k'. split; [exact Hr|]. by split. Qed.
End Trap.

(** ** The stub *)

Lemma write_bytes_twice a xs ys m :
  length xs = length ys -> write_bytes a xs (write_bytes a ys m) = write_bytes a xs m.
Proof.
  intros Hl. apply functional_extensionality. intros x. unfold write_bytes. rewrite Hl. by destruct (_ && _)%bool.
Qed.

Hypothesis Hrsp0 : 160 <= rsp0 < 2 ^ 64.

(** The result in place of the saved [rax]. *)
Lemma saved_result v m r : put_word (rsp0 - 160) r (saved_mem rsp0 v m) = saved_mem rsp0 (set_reg RAX r v.1, v.2) m.
Proof.
  unfold saved_mem, ctx_bytes, ctx_words, put_word.
  change (map v.1 popped ++ [v.2; v.1 CS; v.1 RFLAGS; v.1 RSP; v.1 SS]) with
    ([v.1 RAX] ++ (map v.1 (drop 1 popped) ++ [v.2; v.1 CS; v.1 RFLAGS; v.1 RSP; v.1 SS])).
  change (map (set_reg RAX r v.1, v.2).1 popped ++ _) with
    ([r] ++ (map v.1 (drop 1 popped) ++ [v.2; v.1 CS; v.1 RFLAGS; v.1 RSP; v.1 SS])).
  rewrite !wbytes_app, !write_bytes_app, !length_wbytes.
  change (wbytes [r]) with (le_bytes 8 r ++ []). change (wbytes [v.1 RAX]) with (le_bytes 8 (v.1 RAX) ++ []).
  rewrite !app_nil_r. by rewrite write_bytes_twice by (by rewrite !length_le_bytes).
Qed.

(** A system call from ring 3 reads its arguments where the program left them, comes
    back to the next instruction, and changes [rax] and no other register. *)
Lemma syscall_returns v m2 t k r k' :
  in_ring3 v.1 -> in_u 64 v.2 -> in_u 64 r ->
  counted_syscall (v.1 RAX) (v.1 RDI) (v.1 RSI) 3 (k, saved_mem rsp0 v m2) = (Ok r, (k', saved_mem rsp0 v m2)) ->
  let v' := (set_reg RAX r v.1, v.2) in
  syscall_entry_asm (interrupt kernel_cs rsp0 (on_cpu v m2), t, k) = (Ok tt, (on_cpu v' (saved_mem rsp0 v' m2), t, k')).
Proof.
  intros [Hok Hcs] Hpc Hr Hcall v'. unfold syscall_entry_asm. rewrite exec_all_app.
  destruct (save_all kernel_cs rsp0 v m2 Hrsp0) as (f & -> & F1 & F2).
  change (write_bytes (rsp0 - 160) (ctx_bytes v) m2) with (saved_mem rsp0 v m2).
  assert (Hw : words (saved_mem rsp0 v m2) (rsp0 - 160) (ctx_words v)).
  { apply words_of_bytes; [|by apply ctx_words_ok]. unfold saved_mem.
    pose proof (read_write_bytes (rsp0 - 160) (ctx_bytes v) m2) as H. by rewrite length_ctx_bytes in H. }
  pose proof (Hw 0%nat _ eq_refl) as W0. pose proof (Hw 1%nat _ eq_refl) as W1. pose proof (Hw 2%nat _ eq_refl) as W2.
  pose proof (Hw 16%nat _ eq_refl) as W16.
  set (m3 := saved_mem rsp0 v m2) in *. cbn [exec_all foldl exec regs cmem rip].
  repeat rewrite (set_reg_other _ _ _ RSP) by done. rewrite F1, !wrap_id by (unfold in_u; lia).
  replace (rsp0 - 160 + 8 * Z.of_nat 0) with (rsp0 - 160 + 0) in W0 by lia.
  replace (rsp0 - 160 + 8 * Z.of_nat 1) with (rsp0 - 160 + 8) in W1 by lia.
  replace (rsp0 - 160 + 8 * Z.of_nat 2) with (rsp0 - 160 + 16) in W2 by lia.
  replace (rsp0 - 160 + 8 * Z.of_nat 16) with (rsp0 - 160 + 128) in W16 by lia.
  rewrite W0, W1, W2, W16. rd. rewrite Hcs, Hcall.
  set (c1 := mk_Cpu _ _ m3).
  assert (Hsp : regs c1 RSP = rsp0 - 160) by (unfold c1; cbn [regs]; by rd).
  do 3 f_equal. rewrite exec_all_app.
  assert (Hst : exec_all [Store RSP RAX] (called (junk c1) r m3 c1) =
    mk_Cpu (regs (called (junk c1) r m3 c1)) v.2 (saved_mem rsp0 v' m2)).
  { cbn [exec_all foldl exec]. rewrite called_rsp, called_rax, Hsp. cbn [called cmem rip c1]. unfold m3. by rewrite saved_result. }
  rewrite Hst. rewrite (pop_exact (rsp0 - 160) _ v'); cbn [cmem]; try done.
  - lia.
  - cbn [fst v']. by apply regs_ok_set.
  - unfold saved_mem. rewrite <- (length_ctx_bytes v'). apply read_write_bytes.
Qed.

(** ** The session keeps the specification *)

Section Simulation.
Context (user : Z -> Prop) (armed : option Z) (m0 : memory).

(** The program's pages, the kernel stack and the buffer of the interception, if it is
    armed, are apart. *)
Record solo_layout : Prop := {
  sl_stack : forall x, user x -> x < rsp0 - 160 \/ rsp0 <= x;
  sl_buf : forall b, armed = Some b -> 0 <= b < 2 ^ 64 - 160 /\ apart (rsp0 - 160) b /\
    forall x, user x -> x < b \/ b + 160 <= x;
}.

Hypothesis Hlay : solo_layout.

(** What neither the program nor a stub writes. *)
Definition solo_untouched (x : Z) : Prop :=
  ~ user x /\ (x < rsp0 - 160 \/ rsp0 <= x) /\ forall b, armed = Some b -> x < b \/ b + 160 <= x.

Definition intercepting (r : Rp) : Prop :=
  match armed with None => rp_enabled r = false | Some b => rp_enabled r = true /\ rp_ctx r = b end.

Record Solo_rel (m m2 : memory) (t : Timer) : Prop := {
  so_page : agree user m m2;
  so_mt : mt_enabled (t_mt t) = false;
  so_rp : intercepting (t_rp t);
  so_rest : forall x, solo_untouched x -> m2 x = m0 x;
}.

Lemma solo_rel_memory m m2 t m' m2' t' :
  Solo_rel m m2 t -> agree user m' m2' -> (forall x, solo_untouched x -> m2' x = m2 x) ->
  t_mt t' = t_mt t -> intercepting (t_rp t') -> Solo_rel m' m2' t'.
Proof.
  intros [R1 R2 R3 R4] Ha Ho Hmt Hrp. split; [done|by rewrite Hmt|done|]. intros x Hx. by rewrite Ho, R4.
Qed.

(** Writes to the kernel stack. *)
Lemma solo_rel_stack v m m2 t : Solo_rel m m2 t -> Solo_rel m (saved_mem rsp0 v m2) t.
Proof.
  intros HR. apply (solo_rel_memory m m2 t); [done| | |done|apply HR].
  - intros x Hx. rewrite saved_mem_out by by apply (sl_stack Hlay). by apply HR.
  - intros x (_ & Hx & _). by apply saved_mem_out.
Qed.

(** A timer interrupt is not noticed; an armed interception takes note of it. *)
Lemma solo_timer_passes v m m2 t k :
  Solo_rel m m2 t -> in_ring3 v.1 -> in_u 64 v.2 ->
  exists m2' t', solo_timer (timer_interrupt_entry_asm free) (interrupt kernel_cs rsp0 (on_cpu v m2), t, k) =
      (Ok None, (on_cpu v m2', t', k)) /\ Solo_rel m m2' t' /\ (armed <> None -> rp_hit (t_rp t') = true).
Proof.
  intros HR Hv Hpc. pose proof (so_rp _ _ _ HR) as Hrp. unfold intercepting in Hrp.
  destruct armed as [b|] eqn:Ea.
  - destruct Hrp as [He Hb]. destruct (sl_buf Hlay b Ea) as (B1 & B2 & B3).
    destruct (timer_intercepts kernel_cs rsp0 free v m2 t b Hrsp0 Hv Hpc (so_mt _ _ _ HR) He Hb B1 B2)
      as (m2' & t' & E & E1 & E2 & Hout).
    exists m2', t'. split; [unfold solo_timer; by rewrite E|]. split; [|by rewrite E2].
    apply (solo_rel_memory m m2 t); [done| | |done|].
    + intros x Hx. rewrite Hout by (by apply (sl_stack Hlay) || by apply B3). by apply HR.
    + intros x (_ & X1 & X2). apply Hout; [done|]. by apply X2.
    + unfold intercepting. by rewrite Ea, E2.
  - destruct (timer_passes kernel_cs rsp0 free v m2 t Hrsp0 Hv Hpc (so_mt _ _ _ HR) Hrp) as (t' & E & E1 & E2).
    exists (saved_mem rsp0 v m2), t'. split; [unfold solo_timer; by rewrite E|]. split; [|done].
    pose proof (solo_rel_stack v m m2 t HR) as HR'.
    apply (solo_rel_memory m (saved_mem rsp0 v m2) t); [done|apply HR'|done|done|]. rewrite E2. apply HR.
Qed.

(** The run does what the specification says, wherever the timer interrupts; it can
    only lack turns.  [Q] and [F] are what holds at an exit and at a fault. *)
Definition solo_end (leave : Cpu -> Cpu) (sched : list nat) (n : nat) (Q : nat -> vcpu -> Kernel -> memory -> Prop)
    (F : vcpu -> Kernel -> memory -> Prop) (t : Timer) (r : res unit * solo_machine) : Prop :=
  match r with
  | (Ok _, (c', t', k')) => exists n' v' m' m2', Q n' v' k' m' /\ in_ring3 v'.1 /\ Solo_rel m' m2' t' /\
      c' = leave (on_cpu v' m2') /\
      (armed <> None -> rp_hit (t_rp t) = true -> rp_hit (t_rp t') = true)
  | (Panic, (c', t', k')) => exists v' m' m2', F v' k' m' /\ c' = on_cpu v' m2' /\ agree user m' m2'
  | (Hang, _) => Forall (fun i => 1 <= i)%nat sched -> (length sched < n)%nat
  | _ => False
  end.

Lemma solo_to_exit_runs calls sched n Q F v k m m2 t :
  wp user (solo_trap user calls Q) F n v k m -> Solo_rel m m2 t ->
  solo_end id sched n Q F t (solo_to_exit sched (on_cpu v m2, t, k)).
Proof.
  revert n v k m m2 t. induction sched as [|j sched IH]; intros n v k m m2 t Hw HR.
  { cbn [solo_to_exit solo_end]. intros _. destruct n; [done|cbn; lia]. }
  cbn [solo_to_exit]. pose proof (wp_run _ _ _ j n v k m m2 Hw (so_page _ _ _ HR)) as Hj.
  destruct (urun j (on_cpu v m2)) as [c'|vec c'|c']; cbn [ran_to] in Hj.
  - destruct Hj as (n' & v' & m' & m2' & -> & Hw' & Hag & Hout & Hn). destruct n' as [|n']; [done|].
    assert (HR' : Solo_rel m' m2' t).
    { apply (solo_rel_memory m m2 t); [done|done| |done|apply HR]. intros x (X & _). by apply Hout. }
    pose proof Hw' as [[Hv Hpc _ _] _].
    destruct (solo_timer_passes v' m' m2' t k HR' Hv Hpc) as (m3 & t' & E & HR'' & Hhit).
    unfold mbind, M_bind. rewrite E. specialize (IH (S n') v' k m' m3 t' Hw' HR'').
    destruct (solo_to_exit sched (on_cpu v' m3, t', k)) as [[[]|e| |] [[c3 t3] k3]]; cbn [solo_end] in *; try done.
    + destruct IH as (n3 & v3 & m4 & m5 & H1 & H2 & H3 & H4 & H5). exists n3, v3, m4, m5. by repeat (split; [done|]); auto.
    + intros Hpos. apply Forall_cons in Hpos as [Hj Hpos]. specialize (IH Hpos). cbn [length]. lia.
  - destruct Hj as (n' & i & v' & m' & m2' & -> & Hag & Hout & Hv & Hpc & Ht & Hn & _).
    assert (HR' : Solo_rel m' m2' t).
    { apply (solo_rel_memory m m2 t); [done|done| |done|apply HR]. intros x (X & _). by apply Hout. }
    unfold solo_trap in Ht. destruct (Z.eqb_spec vec 0x81) as [->|H81].
    { exists n', v', m', m2'. by repeat (split; [done|]). }
    destruct (calls && (vec =? 0x80)) eqn:Ev; [|done]. apply andb_true_iff in Ev as [_ ->].
    destruct Ht as (r & k' & Hr & Hcall & Hw').
    set (v'' := (set_reg RAX r v'.1, v'.2)) in *.
    pose proof (syscall_returns v' m2' t k r k' Hv Hpc Hr (Hcall _ (so_page _ _ _ (solo_rel_stack v' _ _ _ HR')))) as E.
    unfold mbind, M_bind. rewrite E. fold v''.
    specialize (IH n' v'' k' m' _ t Hw' (solo_rel_stack v'' _ _ _ HR')).
    destruct (solo_to_exit sched (on_cpu v'' _, t, k')) as [[[]|e| |] [[c3 t3] k3]]; cbn [solo_end] in *; try done.
    intros Hpos. apply Forall_cons in Hpos as [_ Hpos]. specialize (IH Hpos). cbn [length]. lia.
  - destruct Hj as (v' & m' & m2' & -> & Hag & _ & HF). by exists v', m', m2'.
Qed.

Lemma solo_session_runs calls sched n Q F v k m m2 t :
  wp user (solo_trap user calls Q) F n v k m -> Solo_rel m m2 t ->
  solo_end leave_ring3 sched n Q F t (solo_session sched (on_cpu v m2, t, k)).
Proof.
  intros Hw HR. pose proof (solo_to_exit_runs calls sched n Q F v k m m2 t Hw HR) as H.
  unfold solo_session, mbind, M_bind.
  destruct (solo_to_exit sched _) as [[[]|e| |] [[c' t'] k']]; cbn [solo_end modify] in *; try done.
  destruct H as (n' & v' & m' & m2' & H1 & H2 & H3 & -> & H5). by exists n', v', m', m2'.
Qed.

(** A program that makes no calls and exits after exactly [n] instructions is
    intercepted just when the first interrupt comes before that. *)
Lemma solo_session_hit j sched n Q F v k m m2 t c' t' k' :
  wp user (solo_trap user false Q) F n v k m -> Solo_rel m m2 t -> (forall n' v k m, Q n' v k m -> n' = 0%nat) ->
  armed <> None -> rp_hit (t_rp t) = false ->
  solo_session (j :: sched) (on_cpu v m2, t, k) = (Ok tt, (c', t', k')) -> rp_hit (t_rp t') = (j <? n)%nat.
Proof.
  intros Hw HR HQ Ha Hh. unfold solo_session, mbind, M_bind.
  destruct (solo_to_exit (j :: sched) _) as [[[]|e| |] [[c0 t0] k0]] eqn:E0; try done.
  intros [= _ <- _]. revert E0. cbn [solo_to_exit]. pose proof (wp_run _ _ _ j n v k m m2 Hw (so_page _ _ _ HR)) as Hj.
  destruct (urun j (on_cpu v m2)) as [c1|vec c1|c1]; cbn [ran_to] in Hj; [| |done].
  - destruct Hj as (n' & v' & m' & m2' & -> & Hw' & Hag & Hout & Hn). destruct n' as [|n']; [done|].
    rewrite (proj2 (Nat.ltb_lt j n)) by lia.
    assert (HR' : Solo_rel m' m2' t).
    { apply (solo_rel_memory m m2 t); [done|done| |done|apply HR]. intros x (X & _). by apply Hout. }
    pose proof Hw' as [[Hv Hpc _ _] _].
    destruct (solo_timer_passes v' m' m2' t k HR' Hv Hpc) as (m3 & t1 & E & HR'' & Hhit).
    unfold mbind, M_bind. rewrite E. intros Hs.
    pose proof (solo_to_exit_runs false sched (S n') Q F v' k m' m3 t1 Hw' HR'') as He. rewrite Hs in He.
    cbn [solo_end] in He. destruct He as (_ & _ & _ & _ & _ & _ & _ & _ & Hkeep). auto.
  - destruct Hj as (n' & i & v' & m' & m2' & -> & _ & _ & _ & _ & Ht & Hn & Hi). unfold solo_trap in Ht.
    destruct (vec =? 0x81); [|done]. apply HQ in Ht as ->. intros [= _ <- _].
    rewrite Hh. symmetry. apply Nat.ltb_ge. lia.
Qed.
End Simulation.
End Session.
