(* ===== verification/Ring3SoloTests.v ===== *)
(** * Ring3SoloTests: the single-program self-tests of [ring3.rs], end to end

    Each test copies one program into the user page and calls [enter_ring3]; it
    continues when the program exits.  The theorems hold for every placement of timer
    interrupts among the program's instructions. *)
From stdpp Require Import base list numbers strings.
From Stdlib Require Import Lia FunctionalExtensionality.
From S2P Require Import Prelude Mem X64 ContextSwitch AgentScheduler KvAllocator Paging Syscall TierSelect Preemptive Ring3Mt PhysMem Ring3Prog Ring3Session Ring3Alone Ring3Solo.
Open Scope Z_scope.

(** ** The tests *)

(** What surrounds a test: the selectors of the GDT, the kernel stack of the TSS, the
    two cells of [ring3.rs], what called functions leave behind, the page tables, the
    buffer [run_intercepting] boxes, the caller, and when the timer interrupts. *)
Record SoloSite := mk_SoloSite {
  so_user_cs : Z; so_user_ss : Z; so_kernel_cs : Z; so_rsp0 : Z;
  so_exit_cell : Z; so_ret_cell : Z;
  so_free : bool; so_other : Z -> M solo_machine unit; so_junk : Cpu -> reg -> Z;
  so_try_new : Z -> option Z; so_translate : Z -> option (list PageFlag);
  so_buf : Z; so_caller : Cpu; so_sched : list nat;
}.

(** The timer, what system calls can change, and memory. *)
Abbreviation solo_state := (Timer * Kernel * memory)%type.

Definition on_smem (f : memory -> memory) (s : solo_state) : solo_state := (s.1, f s.2).

(** [enter_ring3] returns to its caller with the registers and flags it saved; if it
    did not, the test would not go on. *)
Definition solo_came_back (c c' : Cpu) : bool :=
  (rip c' =? word_at (cmem c) (regs c RSP)) && (regs c' RSP =? regs c RSP + 8) &&
  forallb (fun r => regs c' r =? regs c r) kept.

Definition solo_enter (x : SoloSite) (entry user_rsp rflags : Z) : M solo_state Z := fun '(t, k, m) =>
  let c := mk_Cpu (regs (so_caller x)) (rip (so_caller x)) m in
  match enter_solo (so_try_new x) (so_translate x) (so_kernel_cs x) (so_rsp0 x) (so_exit_cell x) (so_ret_cell x)
          (so_free x) (so_junk x) (so_other x) entry (so_user_cs x) (so_user_ss x) user_rsp rflags (so_sched x) (c, t, k) with
  | (Ok v, (c', t', k')) => (if solo_came_back c c' then Ok v else Hang, (t', k', cmem c'))
  | (Err e, (c', t', k')) => (Err e, (t', k', cmem c'))
  | (Panic, (c', t', k')) => (Panic, (t', k', cmem c'))
  | (Hang, (c', t', k')) => (Hang, (t', k', cmem c'))
  end.

Definition SOLO_RFLAGS : Z := 0x202.
Definition page : Z := USER_TEST_PAGE_ADDR.

(** What the tests on the user page have in common. *)
Definition run_program (x : SoloSite) (program : list Z) : M solo_state Z :=
  modify (on_smem (write_bytes page program));;
  solo_enter x page (page + 4096) SOLO_RFLAGS.

Definition EXIT_PROGRAM : list Z := [0xB8; 0x01; 0x00; 0x00; 0x00; 0xCD; 0x80; 0xB8; 0x2A; 0x00; 0x00; 0x00; 0xCD; 0x81; 0xFA].

Definition run_ring3_exit_test (x : SoloSite) : M solo_state Z := run_program x EXIT_PROGRAM.

(** [write_volatile(args_addr as *mut TensorEvalArgs, args)] *)
Definition args_bytes (a : TensorEvalArgs) : list Z :=
  concat (map (le_bytes 8) [weights a; weights_len a; inputs a; inputs_len a; bias a; bias_len a; outputs a; outputs_len a;
    in_dim a; out_dim a]).

Definition args_addr : Z := page + 256.

(** [mov rax, SYS_TENSOR_EVAL; mov rdi, args_addr], then the two interrupts. *)
Definition tensor_program : list Z :=
  splice 12 (le_bytes 8 args_addr) (splice 2 (le_bytes 8 SYS_TENSOR_EVAL) (<[11%nat := 0xBF]> (<[10%nat := 0x48]>
    (<[1%nat := 0xB8]> (<[0%nat := 0x48]> (replicate 20 0)))))).

Definition run_tensor_call (x : SoloSite) (args : TensorEvalArgs) : M solo_state Z :=
  modify (on_smem (write_bytes args_addr (args_bytes args)));;
  modify (on_smem (write_bytes page tensor_program));;
  modify (on_smem (write_bytes (page + 20) [0xCD]));; modify (on_smem (write_bytes (page + 21) [0x80]));;
  modify (on_smem (write_bytes (page + 22) [0xCD]));; modify (on_smem (write_bytes (page + 23) [0x81]));;
  solo_enter x page (page + 4096) SOLO_RFLAGS.

Definition run_ring3_pointer_reject_test (x : SoloSite) : M solo_state Z :=
  let kernel_only_ptr := HEAP_START in
  run_tensor_call x (mk_Args kernel_only_ptr 1 kernel_only_ptr 1 kernel_only_ptr 1 kernel_only_ptr 1 1 1).

Definition run_ring3_slice_overrun_test (x : SoloSite) : M solo_state Z :=
  let overrunning_ptr := page + 4092 in
  run_tensor_call x (mk_Args overrunning_ptr 2 0 0 0 0 0 0 1 1).

Definition SPIN_LOOP_COUNT : Z := 150000000.

(** [mov ecx, LOOP_COUNT; dec ecx; jnz -4; mov eax, EXIT_CODE; int 0x81] *)
Definition spin_program (exit_code : Z) : list Z :=
  [0xB9] ++ le_bytes 4 SPIN_LOOP_COUNT ++ [0xFF; 0xC9; 0x75; 0xFC; 0xB8] ++ le_bytes 4 exit_code ++ [0xCD; 0x81].

Definition run_ring3_timer_tick_test (x : SoloSite) : M solo_state Z := run_program x (spin_program 77).

Definition FULL_PREEMPT_PROGRAM : list Z :=
  [0xB8] ++ le_bytes 4 0x11111111 ++ [0xB9] ++ le_bytes 4 0x22222222 ++ [0xBA] ++ le_bytes 4 0x33333333 ++
  [0xBE] ++ le_bytes 4 0x44444444 ++ [0xBF] ++ le_bytes 4 0x55555555 ++ [0x41; 0xB8] ++ le_bytes 4 SPIN_LOOP_COUNT ++
  [0x41; 0xFF; 0xC8; 0x75; 0xFB; 0x31; 0xC8; 0x31; 0xD0; 0x31; 0xF0; 0x31; 0xF8; 0xCD; 0x81].

Definition with_rp (rp : Rp) (t : Timer) : Timer :=
  mk_Timer (timer_ticks t) (timer_ticks_while_ring3 t) (t_pre t) rp (t_mt t).

(** The closure that [run_intercepting] is given, over the whole machine. *)
Definition rp_closure (x : SoloSite) : M (Rp * memory * (Timer * Kernel)) Z := fun '(rp, m, (t, k)) =>
  let '(r, (t', k', m')) := solo_enter x page (page + 4096) SOLO_RFLAGS (with_rp rp t, k, m) in (r, (t_rp t', m', (t', k'))).

Definition run_ring3_full_preempt_test (x : SoloSite) : M solo_state (Z * bool) := fun '(t, k, m) =>
  let m := write_bytes page FULL_PREEMPT_PROGRAM m in
  let '(r, (rp, m', (t', k'))) := run_intercepting (so_buf x) (rp_closure x) (t_rp t, m, (t, k)) in (r, (with_rp rp t', k', m')).

(** ** What the tests rely on *)

Definition USER_PAGES : list Z :=
  [USER_TEST_PAGE_ADDR; USER_DISK_PROGRAM_PAGE_ADDR; USER_DISK_PROGRAM_STACK_ADDR; USER_DISK_PROGRAM_DATA_ADDR].

Definition user_byte (y : Z) : Prop := exists b, b ∈ USER_PAGES /\ b <= y < b + 4096.

(** The memory in use: the caller's stack, the two cells, the kernel stack, the boxed
    buffer and the user pages. *)
Definition solo_regions (x : SoloSite) : list (Z * Z) :=
  [(regs (so_caller x) RSP - 96, 104); (so_ret_cell x, 8); (so_exit_cell x, 8); (so_rsp0 x - 160, 160); (so_buf x, 160)] ++
  map (fun b => (b, 4096)) USER_PAGES.

Record solo_site_ok (x : SoloSite) : Prop := {
  ss_user : in_u 64 (so_user_cs x) /\ Z.land (so_user_cs x) 3 = 3 /\ in_u 64 (so_user_ss x);
  ss_regs : regs_ok (regs (so_caller x));
  ss_apart : pairwise_apart (solo_regions x);
}.

(** Neither ring-3 scheduler is active. *)
Definition timer_idle (t : Timer) : Prop := mt_enabled (t_mt t) = false /\ rp_enabled (t_rp t) = false.

(** ** A program and its own run *)

Lemma urun_same c n1 n2 vec1 vec2 c1 c2 :
  urun n1 c = Trap vec1 c1 -> urun n2 c = Trap vec2 c2 -> vec1 = vec2 /\ c1 = c2.
Proof.
  intros H1 H2. assert (Hm : forall n k vec u, urun n c = Trap vec u -> urun (n + k) c = Trap vec u)
    by (intros n k vec u H; by rewrite urun_add, H).
  pose proof (Hm n1 n2 _ _ H1) as E1. pose proof (Hm n2 n1 _ _ H2) as E2. rewrite Nat.add_comm, E1 in E2.
  by injection E2.
Qed.

(** What [wp] says of a program that makes no calls is what its own run does. *)
Lemma wp_alone try_new translate user Q F n v k m :
  wp user (solo_trap try_new translate user false Q) F n v k m ->
  wp user (solo_trap try_new translate user false
    (fun n' v' k' m' => Q n' v' k' m' /\ exists N, urun N (on_cpu v m) = Trap 0x81 (on_cpu v' m'))) F n v k m.
Proof.
  intros Hw. generalize (eq_refl : urun 0 (on_cpu v m) = Step (on_cpu v m)). generalize 0%nat as i.
  generalize (on_cpu v m) at 1 3 as c0. revert v m Hw. induction n as [|n IH]; intros v m Hw c0 i Hi; [done|].
  cbn [wp] in *. destruct Hw as [Hc Hw]. split; [exact Hc|].
  pose proof (ustep_agree user v m m Hc (fun _ _ => eq_refl)) as Ha.
  assert (Hi1 : urun (i + 1) c0 = ustep (on_cpu v m)) by (rewrite urun_add, Hi; cbn [urun]; by destruct (ustep _)).
  destruct (ustep (on_cpu v m)) as [u|vec u|u] eqn:Eu; [|clear IH|done].
  - apply (IH _ _ Hw c0 (i + 1)%nat). rewrite Hi1. by destruct u.
  - unfold solo_trap in *. destruct (Z.eqb_spec vec 0x81) as [->|]; [|done]. split; [exact Hw|].
    exists (i + 1)%nat. rewrite Hi1. by rewrite (proj2 Ha) at 1.
Qed.

Section Enter.
Context (x : SoloSite).
Hypothesis Hx : solo_site_ok x.

Lemma region_range i a n : solo_regions x !! i = Some (a, n) -> 0 <= a /\ a + n < 2 ^ 64.
Proof. apply (proj1 (ss_apart _ Hx)). Qed.

Lemma regions_apart i j a n b k :
  solo_regions x !! i = Some (a, n) -> solo_regions x !! j = Some (b, k) -> i <> j -> disjoint_ranges a n b k.
Proof. apply (proj2 (ss_apart _ Hx)). Qed.

(** The first five regions are outside the user pages. *)
Lemma user_apart i a n y :
  (i < 5)%nat -> solo_regions x !! i = Some (a, n) -> user_byte y -> y < a \/ a + n <= y.
Proof.
  intros Hi Ha (b & [j Hj]%list_elem_of_lookup & Hy).
  assert (Hb : solo_regions x !! (5 + j)%nat = Some (b, 4096)).
  { unfold solo_regions. rewrite lookup_app_r by (cbn; lia). cbn [length]. replace (5 + j - 5)%nat with j by lia.
    by rewrite list_lookup_fmap, Hj. }
  pose proof (regions_apart i (5 + j) _ _ _ _ Ha Hb ltac:(lia)) as D. unfold disjoint_ranges in D. lia.
Qed.

Lemma solo_layout_ok armed : (forall b, armed = Some b -> b = so_buf x) -> solo_layout (so_rsp0 x) user_byte armed.
Proof.
  intros Hb. split.
  - intros y Hy. pose proof (user_apart 3 _ _ y ltac:(lia) eq_refl Hy). lia.
  - intros b E. rewrite (Hb b E). pose proof (region_range 4 _ _ eq_refl) as H4.
    split; [lia|]. split.
    + pose proof (regions_apart 3 4 _ _ _ _ eq_refl eq_refl ltac:(lia)) as D. exact D.
    + intros y Hy. exact (user_apart 4 _ _ y ltac:(lia) eq_refl Hy).
Qed.

(** The caller's stack and the cells are out of everybody's way. *)
Lemma region_untouched armed i a n y :
  (forall b, armed = Some b -> b = so_buf x) -> (i < 3)%nat -> solo_regions x !! i = Some (a, n) -> a <= y < a + n ->
  solo_untouched (so_rsp0 x) user_byte armed y.
Proof.
  intros Hb Hi Ha Hy. split; [|split].
  - intros Hu. pose proof (user_apart i a n y ltac:(lia) Ha Hu). lia.
  - pose proof (regions_apart i 3 _ _ _ _ Ha eq_refl ltac:(lia)) as D. unfold disjoint_ranges in D. lia.
  - intros b E. rewrite (Hb b E). pose proof (regions_apart i 4 _ _ _ _ Ha eq_refl ltac:(lia)) as D. unfold disjoint_ranges in D. lia.
Qed.

(** How [enter_ring3] ends, given what the program does alone. *)
Definition entered_so (armed : option Z) (n : nat) (Q : nat -> vcpu -> Kernel -> memory -> Prop)
    (F : vcpu -> Kernel -> memory -> Prop) (t : Timer) (r : res Z * solo_state) : Prop :=
  match r with
  | (Ok v, (t', k', m')) => exists n' u pm, Q n' u k' pm /\ v = u.1 RAX /\ agree user_byte pm m' /\ intercepting armed (t_rp t')
  | (Hang, _) => Forall (fun i => 1 <= i)%nat (so_sched x) -> (length (so_sched x) < n)%nat
  | (Panic, (t', k', m')) => exists v pm, F v k' pm /\ agree user_byte pm m'
  | _ => False
  end.

Definition solo_args (entry user_rsp rflags : Z) : reg -> Z :=
  set_reg RDI entry (set_reg RSI (so_user_cs x) (set_reg RDX (so_user_ss x)
    (set_reg RCX user_rsp (set_reg R8 rflags (regs (so_caller x)))))).

Section Run.
Context (armed : option Z) (entry user_rsp rflags : Z) (t : Timer) (k : Kernel) (m : memory).
Context (calls : bool) (n : nat) (Q : nat -> vcpu -> Kernel -> memory -> Prop) (F : vcpu -> Kernel -> memory -> Prop).
Hypothesis Harmed : forall b, armed = Some b -> b = so_buf x.
Hypothesis Hin : in_u 64 entry /\ in_u 64 user_rsp /\ in_u 64 rflags.
Hypothesis Hmt : mt_enabled (t_mt t) = false.
Hypothesis Hrp : intercepting armed (t_rp t).
Hypothesis Hw : forall f, in_ring3 f ->
  wp user_byte (solo_trap (so_try_new x) (so_translate x) user_byte calls Q) F n (f, entry) k m.

Abbreviation session_of sched st :=
  (solo_session (so_try_new x) (so_translate x) (so_kernel_cs x) (so_rsp0 x) (so_exit_cell x) (so_ret_cell x)
     (so_free x) (so_junk x) (so_other x) sched st).

(** The state the session starts from. *)
Lemma solo_starts :
  exists f m1, in_ring3 f /\
    exec_all (enter_ring3_asm (so_ret_cell x)) (mk_Cpu (solo_args entry user_rsp rflags) (rip (so_caller x)) m) = on_cpu (f, entry) m1 /\
    Solo_rel (so_rsp0 x) user_byte armed m1 m m1 t /\
    words m1 (regs (so_caller x) RSP - 56) (map (regs (so_caller x)) kept ++ [word_at m (regs (so_caller x) RSP)]) /\
    word_at m1 (so_ret_cell x) = regs (so_caller x) RSP - 56.
Proof.
  set (s := regs (so_caller x) RSP). set (args := solo_args entry user_rsp rflags).
  pose proof (region_range 0 _ _ eq_refl) as P0. fold s in P0.
  pose proof (regions_apart 0 1 _ _ _ _ eq_refl eq_refl ltac:(lia)) as D01. fold s in D01. unfold disjoint_ranges in D01.
  destruct (ss_user _ Hx) as (U1 & U2 & U3). destruct Hin as (I1 & I2 & I3).
  assert (Hargs : regs_ok args) by (unfold args, solo_args; repeat (apply regs_ok_set; [|done]); apply Hx).
  destruct (enter_ring3_effect (so_ret_cell x) args (rip (so_caller x)) m s) as (m1 & E & W1 & W2 & Hout); try done; [lia|unfold disjoint_ranges; lia|].
  exists (entered args).1, m1. split; [|split; [exact E|split; [split|split]]].
  - split; [|cbn [entered fst]; by rd]. unfold entered. cbn [fst]. by repeat (apply regs_ok_set; [|apply Hargs]).
  - intros y Hy. symmetry. pose proof (user_apart 0 _ _ y ltac:(lia) eq_refl Hy) as H0.
    pose proof (user_apart 1 _ _ y ltac:(lia) eq_refl Hy) as H1. fold s in H0. apply Hout; lia.
  - done.
  - done.
  - done.
  - apply words_app. split; [exact W1|]. apply words_cons. split; [|by intros ? ? ?].
    change (Z.of_nat (length (map (regs (so_caller x)) kept))) with 7. replace (s - 56 + 8 * 7) with s by lia.
    apply word_at_ext. intros y Hy. apply Hout; lia.
  - exact W2.
Qed.

(** From the exit trap to the caller. *)
Lemma solo_leaves u m1 m' pm t' :
  let s := regs (so_caller x) RSP in
  words m1 (s - 56) (map (regs (so_caller x)) kept ++ [word_at m s]) -> word_at m1 (so_ret_cell x) = s - 56 ->
  in_ring3 u.1 -> Solo_rel (so_rsp0 x) user_byte armed m1 pm m' t' ->
  let c' := exec_all (ring3_exit_entry_asm (so_exit_cell x) (so_ret_cell x)) (interrupt (so_kernel_cs x) (so_rsp0 x) (on_cpu u m')) in
  regs c' RAX = u.1 RAX /\ solo_came_back (mk_Cpu (regs (so_caller x)) (rip (so_caller x)) m) c' = true /\ agree user_byte pm (cmem c').
Proof.
  intros s W1 W2 [Hu _] HR c'. set (ci := interrupt (so_kernel_cs x) (so_rsp0 x) (on_cpu u m')).
  pose proof (region_range 0 _ _ eq_refl) as P0. fold s in P0.
  assert (Hm : forall i a l y, (i < 3)%nat -> solo_regions x !! i = Some (a, l) -> a <= y < a + l -> cmem ci y = m1 y).
  { intros i a l y Hi Ha Hy. pose proof (region_untouched armed i a l y Harmed Hi Ha Hy) as Hun.
    rewrite <- (so_rest _ _ _ _ _ _ _ HR y Hun). unfold ci, interrupt. cbn [cmem on_cpu]. apply write_bytes_out.
    rewrite length_wbytes. cbn [length]. destruct Hun as (_ & Hk & _). lia. }
  pose proof (regions_apart 2 1 _ _ _ _ eq_refl eq_refl ltac:(lia)) as D21.
  pose proof (regions_apart 2 0 _ _ _ _ eq_refl eq_refl ltac:(lia)) as D20. fold s in D20.
  destruct (exit_effect (so_exit_cell x) (so_ret_cell x) ci (s - 56) (u.1 RAX) (word_at m s) (regs (so_caller x)))
    as (X1 & X2 & X3 & X4 & X5).
  { reflexivity. } { apply Hu. }
  { rewrite <- W2. apply word_at_ext. intros y Hy. apply (Hm 1%nat _ _ y ltac:(lia) eq_refl). lia. }
  { apply (words_ext m1); [exact W1|]. intros y Hy. rewrite length_app, length_map in Hy.
    change (length kept) with 7%nat in Hy. cbn [length] in Hy. apply (Hm 0%nat _ _ y ltac:(lia) eq_refl). fold s. lia. }
  { lia. } { done. } { unfold disjoint_ranges in *. lia. }
  change (exec_all (ring3_exit_entry_asm (so_exit_cell x) (so_ret_cell x)) ci) with c' in X1, X2, X3, X4, X5.
  split; [done|]. split.
  - unfold solo_came_back. cbn [regs cmem]. rewrite X3, X2. fold s. rewrite Z.eqb_refl. replace (s - 56 + 64) with (s + 8) by lia.
    rewrite Z.eqb_refl. cbn [andb]. apply forallb_forall. intros r Hr. apply Z.eqb_eq, X4. by apply list_elem_of_In.
  - intros y Hy. rewrite X5, put_word_out.
    + rewrite (so_page _ _ _ _ _ _ _ HR y Hy). unfold ci, interrupt. cbn [cmem on_cpu]. rewrite write_bytes_out; [done|].
      rewrite length_wbytes. cbn [length]. pose proof (user_apart 3 _ _ y ltac:(lia) eq_refl Hy). lia.
    + pose proof (user_apart 2 _ _ y ltac:(lia) eq_refl Hy). lia.
Qed.

Lemma rsp0_ok : 160 <= so_rsp0 x < 2 ^ 64.
Proof. pose proof (region_range 3 _ _ eq_refl). lia. Qed.

Lemma solo_enter_runs : entered_so armed n Q F t (solo_enter x entry user_rsp rflags (t, k, m)).
Proof.
  destruct solo_starts as (f & m1 & Hf & E & HR & W1 & W2).
  unfold solo_enter, enter_solo, mbind, M_bind, gets. cbn [regs rip cmem].
  fold (solo_args entry user_rsp rflags). rewrite E.
  pose proof (solo_session_runs (so_try_new x) (so_translate x) (so_kernel_cs x) (so_rsp0 x) (so_exit_cell x) (so_ret_cell x)
    (so_free x) (so_junk x) (so_other x) rsp0_ok user_byte armed m1 (solo_layout_ok armed Harmed) calls (so_sched x) n Q F
    (f, entry) k m m1 t (Hw f Hf) HR) as Hs.
  destruct (session_of _ _) as [[[]|e| |] [[c' t'] k']]; cbn [solo_end] in Hs; try done.
  - destruct Hs as (n' & u & pm & m' & HQ & Hu & HR' & -> & _).
    destruct (solo_leaves u m1 m' pm t' W1 W2 Hu HR') as (X1 & X2 & X3). cbn [fst snd]. unfold leave_ring3. rewrite X1, X2. cbn [entered_so].
    exists n', u, pm. split; [done|]. split; [done|]. split; [done|apply HR'].
  - destruct Hs as (v & pm & m' & HF & -> & Hag). cbn [entered_so]. by exists v, pm.
Qed.

(** Whether the interception hit, for a program of exactly [n] instructions. *)
Lemma solo_enter_hit v t' k' m' :
  calls = false -> (forall n' u k m, Q n' u k m -> n' = 0%nat) -> armed <> None -> rp_hit (t_rp t) = false ->
  solo_enter x entry user_rsp rflags (t, k, m) = (Ok v, (t', k', m')) ->
  exists j rest, so_sched x = j :: rest /\ rp_hit (t_rp t') = (j <? n)%nat.
Proof.
  intros Hcalls HQ Ha Hh. destruct solo_starts as (f & m1 & Hf & E & HR & _ & _).
  unfold solo_enter, enter_solo, mbind, M_bind, gets. cbn [regs rip cmem].
  fold (solo_args entry user_rsp rflags). rewrite E.
  destruct (session_of (so_sched x) _) as [[[]|e| |] [[c1 t1] k1]] eqn:Es; try done.
  cbn [fst snd]. destruct (solo_came_back _ _); [|done]. intros [= _ <- _ _].
  destruct (so_sched x) as [|j rest] eqn:Esch; [done|]. exists j, rest. split; [done|].
  pose proof (Hw f Hf) as Hw1. rewrite Hcalls in Hw1.
  exact (solo_session_hit (so_try_new x) (so_translate x) (so_kernel_cs x) (so_rsp0 x) (so_exit_cell x) (so_ret_cell x)
    (so_free x) (so_junk x) (so_other x) rsp0_ok user_byte armed m1 (solo_layout_ok armed Harmed) j rest n Q F
    (f, entry) k m m1 t c1 t1 k1 Hw1 HR HQ Ha Hh Es).
Qed.
End Run.

(** The processor when the program begins, and that the timer is not noticed: alone the
    program reaches its exit trap within [n] instructions, and every interrupted run that
    reaches it has the same registers there, and the same bytes on the user pages. *)
Definition ring3_start (entry user_rsp rflags : Z) (m : memory) : Cpu :=
  exec_all (enter_ring3_asm (so_ret_cell x)) (mk_Cpu (solo_args entry user_rsp rflags) (rip (so_caller x)) m).

Definition exits_as_alone (n : nat) (entry user_rsp rflags : Z) (t : Timer) (k : Kernel) (m : memory) : Prop :=
  exists c, urun n (ring3_start entry user_rsp rflags m) = Trap 0x81 c /\
    forall c' t' k',
      solo_to_exit (so_try_new x) (so_translate x) (so_kernel_cs x) (so_rsp0 x) (so_free x) (so_junk x) (so_other x)
        (so_sched x) (ring3_start entry user_rsp rflags m, t, k) = (Ok tt, (c', t', k')) ->
      (forall r, regs c' r = regs c r) /\ rip c' = rip c /\ agree user_byte (cmem c) (cmem c').

Lemma interrupted_as_alone armed entry user_rsp rflags t k m n Q :
  (forall b, armed = Some b -> b = so_buf x) -> in_u 64 entry /\ in_u 64 user_rsp /\ in_u 64 rflags ->
  mt_enabled (t_mt t) = false -> intercepting armed (t_rp t) ->
  (forall f, in_ring3 f -> wp user_byte (solo_trap (so_try_new x) (so_translate x) user_byte false Q) (fun _ _ _ => False) n
     (f, entry) k m) ->
  exits_as_alone n entry user_rsp rflags t k m.
Proof.
  intros Harmed Hin Hmt Hrp Hw.
  destruct (solo_starts armed entry user_rsp rflags t m Hin Hmt Hrp) as (f & m1 & Hf & E & HR & _ & _).
  unfold exits_as_alone, ring3_start. rewrite E. pose proof (wp_alone _ _ _ _ _ _ _ _ _ (Hw f Hf)) as Hw'.
  pose proof (wp_run _ _ _ n n (f, entry) k m m1 Hw' (so_page _ _ _ _ _ _ _ HR)) as Hj.
  destruct (urun n (on_cpu (f, entry) m1)) as [c1|vec c1|c1]; cbn [ran_to] in Hj.
  - destruct Hj as (n' & v' & m' & m2' & _ & Hn & _ & _ & El). assert (n' = 0%nat) as -> by lia. destruct Hn.
  - destruct Hj as (n' & i & v' & m' & m2' & -> & Hag & _ & _ & _ & Ht & _). unfold solo_trap in Ht.
    destruct (Z.eqb_spec vec 0x81) as [->|]; [|done]. destruct Ht as (_ & N & HN). eexists. split; [reflexivity|].
    intros c' t' k' Es.
    pose proof (solo_to_exit_runs (so_try_new x) (so_translate x) (so_kernel_cs x) (so_rsp0 x) (so_free x)
      (so_junk x) (so_other x) rsp0_ok user_byte armed m1 (solo_layout_ok armed Harmed) false (so_sched x) n _ _
      (f, entry) k m m1 t Hw' HR) as Hs.
    rewrite Es in Hs. cbn [solo_end id] in Hs.
    destruct Hs as (n2 & v2 & m2 & m3 & (_ & N2 & HN2) & _ & HR' & -> & _).
    destruct (urun_same _ _ _ _ _ _ _ HN HN2) as [_ Ec].
    assert (v' = v2 /\ m' = m2) as [<- <-] by (destruct v', v2; unfold on_cpu in Ec; cbn in Ec; injection Ec; by intros -> -> ->).
    split; [done|]. split; [done|]. intros y Hy. cbn [cmem on_cpu]. rewrite <- (Hag y Hy). by apply HR'.
  - by destruct Hj as (v' & m' & m2' & _ & _ & _ & []).
Qed.
End Enter.

(** ** The programs, alone *)

Lemma page_range_ok : 0 <= page /\ page + 4096 < 2 ^ 64.
Proof. unfold page, USER_TEST_PAGE_ADDR. lia. Qed.

Lemma page_is_user y : page <= y < page + 4096 -> user_byte y.
Proof. intros Hy. exists USER_TEST_PAGE_ADDR. split; [left|exact Hy]. Qed.

Lemma in_ring3_set_rax f v : in_ring3 f -> in_u 64 v -> in_ring3 (set_reg RAX v f).
Proof. intros [H1 H2] Hv. split; [by apply regs_ok_set|]. by rd. Qed.

Section Programs.
Context (try_new : Z -> option Z) (translate : Z -> option (list PageFlag)).
Context (calls : bool) (Q : nat -> vcpu -> Kernel -> memory -> Prop) (F : vcpu -> Kernel -> memory -> Prop).
Context (prog : list Z) (k : Kernel) (m : memory).
Hypothesis Hm : installed m page prog.

Abbreviation run n o f k := (wp user_byte (solo_trap try_new translate user_byte calls Q) F n (f, page + Z.of_nat o) k m).

Definition solo_straight n o i len f :=
  run_straight user_byte (solo_trap try_new translate user_byte calls Q) F page prog page_range_ok page_is_user n o i len f.
Definition solo_int n o vec len f :=
  run_trap user_byte (solo_trap try_new translate user_byte calls Q) F page prog page_range_ok page_is_user n o vec len f.

(** [mov eax, imm; int 0x81] *)
Lemma exit_runs n o v len f :
  code_at prog o (UMov RAX v) len -> code_at prog (o + len) (UInt 0x81) 2 -> in_u 64 v -> in_ring3 f ->
  (forall f' pc, f' RAX = v -> Q n (f', pc) k m) -> run (2 + n)%nat o f k.
Proof.
  intros P1 P2 Hv Hf Hq. apply (solo_straight (1 + n)%nat _ _ _ _ _ _ P1); [done..|]. intros Hf1.
  apply (solo_int n _ _ _ _ _ _ P2 Hm Hf1). apply Hq. apply effect_mov.
Qed.

End Programs.

(** A system call that writes nothing. *)
Lemma call_runs try_new translate Q F prog k m n o f r k' :
  installed m page prog -> code_at prog o (UInt 0x80) 2 -> in_ring3 f -> in_u 64 r ->
  (forall m2, agree user_byte m m2 -> counted_syscall try_new translate (f RAX) (f RDI) (f RSI) 3 (k, m2) = (Ok r, (k', m2))) ->
  (forall f', in_ring3 f' -> f' RAX = r ->
     wp user_byte (solo_trap try_new translate user_byte true Q) F n (f', page + Z.of_nat (o + 2)) k' m) ->
  wp user_byte (solo_trap try_new translate user_byte true Q) F (1 + n) (f, page + Z.of_nat o) k m.
Proof.
  intros Hm P Hf Hr Hc Hn. apply (solo_int try_new translate true Q F prog n _ _ _ _ _ _ P Hm Hf).
  apply (solo_trap_call try_new translate user_byte Q n (f, page + Z.of_nat (o + 2)) k m _ r k' Hr Hc).
  apply Hn; [by apply in_ring3_set_rax|apply set_reg_same].
Qed.

(** One more system call has been counted. *)
Definition called_once (k : Kernel) : Kernel := mk_Kernel (u64 (syscall_int_count k + 1)) (k_sched k) (k_kv k).

Lemma exit_program_runs try_new translate F k m f :
  installed m page EXIT_PROGRAM -> in_ring3 f ->
  wp user_byte (solo_trap try_new translate user_byte true (fun _ v k' _ => v.1 RAX = 42 /\ k' = called_once k)) F 4 (f, page) k m.
Proof.
  intros Hm Hf. replace page with (page + Z.of_nat 0) by lia.
  apply (solo_straight try_new translate true _ F EXIT_PROGRAM 3%nat 0%nat (UMov RAX 1) 5%nat); [code_here|done..|]. intros Hf1.
  apply (call_runs try_new translate _ F EXIT_PROGRAM k m 2 5 _ 0 (called_once k)); [done|code_here|done|done| |].
  { intros m2 _. rewrite effect_mov. reflexivity. }
  intros f2 Hf2 _.
  apply (exit_runs try_new translate true _ F EXIT_PROGRAM (called_once k) m Hm 0%nat 7%nat 42 5%nat); [code_here|code_here|done|done|].
  intros f' pc Hf'. by split.
Qed.

(** ** The rejected pointers *)

(** What the page tables say of the two addresses the tests use: kernel memory is not
    user accessible, and nothing is mapped behind the user page. *)
Record tables_guard (try_new : Z -> option Z) (translate : Z -> option (list PageFlag)) : Prop := {
  tg_heap : forall v flags, try_new HEAP_START = Some v -> translate v = Some flags -> USER_ACCESSIBLE ∉ flags;
  tg_next : forall v, try_new (page + 4096) = Some v -> translate v = None;
}.

Lemma page_refused try_new translate a :
  (forall v flags, try_new a = Some v -> translate v = Some flags -> USER_ACCESSIBLE ∉ flags) ->
  pointer_has_flags try_new translate a [PRESENT; USER_ACCESSIBLE] = false.
Proof.
  intros H. unfold pointer_has_flags. destruct (a =? 0); [done|]. destruct (try_new a) as [v|] eqn:E1; [|done].
  destruct (translate v) as [flags|] eqn:E2; [|done]. specialize (H v flags eq_refl E2).
  unfold contains. destruct (forallb _ _) eqn:Ef; [|done].
  rewrite forallb_forall in Ef. specialize (Ef USER_ACCESSIBLE (or_intror (or_introl eq_refl))).
  apply bool_decide_eq_true in Ef. done.
Qed.

Lemma range_refused try_new translate addr len a :
  in_u 64 addr -> 0 < len -> addr <= a < addr + len -> a mod PAGE_SIZE = 0 ->
  (forall v flags, try_new a = Some v -> translate v = Some flags -> USER_ACCESSIBLE ∉ flags) ->
  range_is_user_accessible try_new translate addr len = false.
Proof.
  intros Ha Hl Hin Hmod H. destruct (range_is_user_accessible _ _ _ _) eqn:E; [|done].
  apply (range_has_flags_iff try_new translate addr len _ Ha Hl) in E as [_ Hp]. specialize (Hp a Hin).
  unfold page_ok in Hp. replace (a / PAGE_SIZE * PAGE_SIZE) with a in Hp by (unfold PAGE_SIZE in *; div_lia).
  by rewrite page_refused in Hp.
Qed.

Definition args_ok (a : TensorEvalArgs) : Prop :=
  Forall (in_u 64) [weights a; weights_len a; inputs a; inputs_len a; bias a; bias_len a; outputs a; outputs_len a; in_dim a; out_dim a].

Lemma read_args_bytes mem at_ a : args_ok a -> read_bytes mem at_ 80 = args_bytes a -> read_args mem at_ = a.
Proof.
  intros Hok Hb.
  pose proof (words_of_bytes mem at_ [weights a; weights_len a; inputs a; inputs_len a; bias a; bias_len a; outputs a; outputs_len a; in_dim a; out_dim a] Hb Hok) as Hw.
  assert (Hf : forall i v, [weights a; weights_len a; inputs a; inputs_len a; bias a; bias_len a; outputs a; outputs_len a; in_dim a; out_dim a] !! i = Some v ->
    le_of (read_bytes mem (at_ + 8 * Z.of_nat i) 8) = v) by (intros i v Hi; by apply (Hw i v)).
  destruct a. unfold read_args. f_equal;
    [exact (Hf 0%nat _ eq_refl)|exact (Hf 1%nat _ eq_refl)|exact (Hf 2%nat _ eq_refl)|exact (Hf 3%nat _ eq_refl)|exact (Hf 4%nat _ eq_refl)
    |exact (Hf 5%nat _ eq_refl)|exact (Hf 6%nat _ eq_refl)|exact (Hf 7%nat _ eq_refl)|exact (Hf 8%nat _ eq_refl)|exact (Hf 9%nat _ eq_refl)].
Qed.

(** A tensor call from ring 3 whose weights are refused is answered [u64::MAX],
    whether or not its argument block is readable. *)
Lemma tensor_refused try_new translate k m2 a :
  args_ok a -> read_bytes m2 args_addr 80 = args_bytes a -> sat_mul 64 (weights_len a) F32_SIZE <> 0 ->
  range_is_user_accessible try_new translate (weights a) (sat_mul 64 (weights_len a) F32_SIZE) = false ->
  forall a2, counted_syscall try_new translate SYS_TENSOR_EVAL args_addr a2 3 (k, m2) = (Ok U64_MAX, (called_once k, m2)).
Proof.
  intros Hok Hb Hl Hr a2. unfold counted_syscall, handle_real_syscall. rewrite dispatch_tensor.
  unfold tensor_eval. destruct (negb (pointer_is_mapped_checked _ _ args_addr _ _)); [done|].
  cbn [mem]. rewrite (read_args_bytes m2 args_addr a Hok Hb).
  unfold pointer_is_mapped_checked at 1. rewrite (proj2 (Z.eqb_neq _ _) Hl), Hr. done.
Qed.

Definition TENSOR_CODE : list Z := tensor_program ++ [0xCD; 0x80; 0xCD; 0x81].

Lemma tensor_program_runs try_new translate F k m f a :
  installed m page TENSOR_CODE -> args_ok a -> read_bytes m args_addr 80 = args_bytes a ->
  sat_mul 64 (weights_len a) F32_SIZE <> 0 ->
  range_is_user_accessible try_new translate (weights a) (sat_mul 64 (weights_len a) F32_SIZE) = false ->
  in_ring3 f ->
  wp user_byte (solo_trap try_new translate user_byte true (fun _ v k' _ => v.1 RAX = U64_MAX /\ k' = called_once k)) F 4 (f, page) k m.
Proof.
  intros Hm Hok Hb Hl Hr Hf. replace page with (page + Z.of_nat 0) by lia.
  apply (solo_straight try_new translate true _ F TENSOR_CODE 3%nat 0%nat (UMov RAX SYS_TENSOR_EVAL) 10%nat); [code_here|done..|]. intros Hf1.
  apply (solo_straight try_new translate true _ F TENSOR_CODE 2%nat 10%nat (UMov RDI args_addr) 10%nat); [code_here|done..|]. intros Hf2.
  apply (call_runs try_new translate _ F TENSOR_CODE k m 1 20 _ U64_MAX (called_once k)); [done|code_here|done|done| |].
  { intros m2 Hag. rewrite effect_mov, effect_keeps, effect_mov by done.
    apply (tensor_refused try_new translate k m2 a); [done| |done|done]. rewrite <- Hb. apply read_bytes_ext.
    intros y Hy. symmetry. apply Hag, page_is_user. unfold args_addr in Hy. lia. }
  intros f2 Hf3 Hr2.
  apply (solo_int try_new translate true _ F TENSOR_CODE 0%nat 22%nat 0x81 2%nat); [code_here|done|done|]. by split.
Qed.

(** ** The spinning programs *)

Lemma spin_program_runs try_new translate F k m f code :
  0 <= code < 2 ^ 32 -> installed m page (spin_program code) -> (forall tl, decode (take 5 (drop 9 (spin_program code)) ++ tl) = Some (UMov RAX code, 5)) ->
  in_ring3 f ->
  wp user_byte (solo_trap try_new translate user_byte false (fun n v k' _ => n = 0%nat /\ v.1 RAX = code /\ k' = k)) F
    (1 + (2 * S (Z.to_nat (SPIN_LOOP_COUNT - 1)) + 2)) (f, page) k m.
Proof.
  intros Hc Hm Hd Hf. replace page with (page + Z.of_nat 0) by lia.
  apply (solo_straight try_new translate false _ F (spin_program code) _ 0%nat (UMov RCX SPIN_LOOP_COUNT) 5%nat); [code_here|done..|]. intros Hf1.
  assert (HN : Z.of_nat (S (Z.to_nat (SPIN_LOOP_COUNT - 1))) = SPIN_LOOP_COUNT) by (unfold SPIN_LOOP_COUNT; lia).
  apply (run_countdown user_byte (solo_trap try_new translate user_byte false _) F page (spin_program code) page_range_ok page_is_user
    2 5 2 2 RCX _ k m (Z.to_nat (SPIN_LOOP_COUNT - 1))); [code_here|code_here|done|done|done|done| | |].
  - rewrite effect_mov. exact (eq_sym HN).
  - rewrite HN. unfold SPIN_LOOP_COUNT. lia.
  - intros f' Hf' _ _. clear HN Hf1 Hf.
    apply (exit_runs try_new translate false _ F (spin_program code) k m Hm 0%nat 9%nat code 5%nat).
    + apply code_at_by; [lia|lia|vm_compute; lia|exact Hd].
    + code_here.
    + split; [apply Hc|]. apply (Z.lt_trans _ (2 ^ 32)); [apply Hc|done].
    + exact Hf'.
    + intros f2 pc H2. split; [exact eq_refl|]. split; [exact H2|exact eq_refl].
Qed.

(** Five registers and the counter are filled, the counter runs down, and the five are
    combined: any register lost to an interruption would change the result. *)
Lemma combined_runs try_new translate F k m f :
  installed m page FULL_PREEMPT_PROGRAM -> in_ring3 f ->
  f RAX = 0x11111111 -> f RCX = 0x22222222 -> f RDX = 0x33333333 -> f RSI = 0x44444444 -> f RDI = 0x55555555 ->
  wp user_byte (solo_trap try_new translate user_byte false (fun n v k' _ => n = 0%nat /\ v.1 RAX = 0x11111111 /\ k' = k)) F
    5 (f, page + Z.of_nat 36) k m.
Proof.
  intros Hm Hf Ha Hc Hd Hs Hdi.
  apply (solo_straight try_new translate false _ F FULL_PREEMPT_PROGRAM 4%nat 36%nat (UXor RAX RCX) 2%nat); [code_here|done..|]. intros H1.
  apply (solo_straight try_new translate false _ F FULL_PREEMPT_PROGRAM 3%nat 38%nat (UXor RAX RDX) 2%nat); [code_here|done..|]. intros H2.
  apply (solo_straight try_new translate false _ F FULL_PREEMPT_PROGRAM 2%nat 40%nat (UXor RAX RSI) 2%nat); [code_here|done..|]. intros H3.
  apply (solo_straight try_new translate false _ F FULL_PREEMPT_PROGRAM 1%nat 42%nat (UXor RAX RDI) 2%nat); [code_here|done..|]. intros H4.
  apply (solo_int try_new translate false _ F FULL_PREEMPT_PROGRAM 0%nat 44%nat 0x81 2%nat); [code_here|done|done|].
  split; [done|]. split; [|done]. cbn [fst].
  rewrite !effect_xor_val, !effect_xor, Ha, Hc, Hd, Hs, Hdi by done. reflexivity.
Qed.

(** The number of instructions the program takes. *)
Definition full_preempt_steps : nat := (6 + (2 * S (Z.to_nat (SPIN_LOOP_COUNT - 1)) + 5))%nat.

Lemma full_preempt_counts try_new translate F k m f c :
  Z.of_nat (S c) = SPIN_LOOP_COUNT -> installed m page FULL_PREEMPT_PROGRAM -> in_ring3 f ->
  wp user_byte (solo_trap try_new translate user_byte false (fun n v k' _ => n = 0%nat /\ v.1 RAX = 0x11111111 /\ k' = k)) F
    (6 + (2 * S c + 5)) (f, page) k m.
Proof.
  intros HN Hm Hf. replace page with (page + Z.of_nat 0) by lia. set (n := (2 * S c + 5)%nat).
  apply (solo_straight try_new translate false _ F FULL_PREEMPT_PROGRAM (5 + n)%nat 0%nat (UMov RAX 0x11111111) 5%nat); [code_here|done..|]. intros H1.
  apply (solo_straight try_new translate false _ F FULL_PREEMPT_PROGRAM (4 + n)%nat 5%nat (UMov RCX 0x22222222) 5%nat); [code_here|done..|]. intros H2.
  apply (solo_straight try_new translate false _ F FULL_PREEMPT_PROGRAM (3 + n)%nat 10%nat (UMov RDX 0x33333333) 5%nat); [code_here|done..|]. intros H3.
  apply (solo_straight try_new translate false _ F FULL_PREEMPT_PROGRAM (2 + n)%nat 15%nat (UMov RSI 0x44444444) 5%nat); [code_here|done..|]. intros H4.
  apply (solo_straight try_new translate false _ F FULL_PREEMPT_PROGRAM (1 + n)%nat 20%nat (UMov RDI 0x55555555) 5%nat); [code_here|done..|]. intros H5.
  apply (solo_straight try_new translate false _ F FULL_PREEMPT_PROGRAM n 25%nat (UMov R8 SPIN_LOOP_COUNT) 6%nat); [code_here|done..|]. intros H6.
  apply (run_countdown user_byte (solo_trap try_new translate user_byte false _) F page FULL_PREEMPT_PROGRAM page_range_ok page_is_user
    5 31 3 2 R8 _ k m c); [code_here|code_here|done|done|done|done| | |].
  - by rewrite effect_mov, HN.
  - by rewrite HN.
  - intros f' Hf' _ Hk. apply combined_runs; [done|done|..]; rewrite Hk by done; repeat (rewrite effect_keeps by done); apply effect_mov.
Qed.

Lemma full_preempt_runs try_new translate F k m f :
  installed m page FULL_PREEMPT_PROGRAM -> in_ring3 f ->
  wp user_byte (solo_trap try_new translate user_byte false (fun n v k' _ => n = 0%nat /\ v.1 RAX = 0x11111111 /\ k' = k)) F
    full_preempt_steps (f, page) k m.
Proof. unfold full_preempt_steps. apply full_preempt_counts. unfold SPIN_LOOP_COUNT. lia. Qed.

(** ** The tests, end to end *)

(** A test ends with an answer, or the timer has used up all the turns it was given:
    as many turns as the program has instructions are enough. *)
Definition solo_answers {A} (x : SoloSite) (n : nat) (P : A -> Kernel -> Prop) (r : res A * solo_state) : Prop :=
  match r with
  | (Ok v, (_, k', _)) => P v k'
  | (Hang, _) => Forall (fun i => 1 <= i)%nat (so_sched x) -> (length (so_sched x) < n)%nat
  | _ => False
  end.

Lemma entered_answers x n Q t r P :
  entered_so x None n Q (fun _ _ _ => False) t r -> (forall n' v k' m', Q n' v k' m' -> P (v.1 RAX) k') -> solo_answers x n P r.
Proof.
  destruct r as [[v|e| |] [[t' k'] m']]; cbn; try done.
  - intros (n' & u & pm & HQ & -> & _) HP. by apply (HP n' u k' pm).
  - by intros (v & pm & [] & _).
Qed.

Lemma solo_rflags_ok : in_u 64 page /\ in_u 64 (page + 4096) /\ in_u 64 SOLO_RFLAGS.
Proof. unfold page, USER_TEST_PAGE_ADDR, SOLO_RFLAGS, in_u. lia. Qed.

(** A test whose program, alone, ends as [Q] says. *)
Lemma program_answers x t k m n calls Q P prog :
  solo_site_ok x -> timer_idle t ->
  (forall f, in_ring3 f -> wp user_byte (solo_trap (so_try_new x) (so_translate x) user_byte calls Q) (fun _ _ _ => False) n
     (f, page) k (write_bytes page prog m)) ->
  (forall n' v k' m', Q n' v k' m' -> P (v.1 RAX) k') ->
  solo_answers x n P (run_program x prog (t, k, m)).
Proof.
  intros Hx [Hmt Hrp] Hw HP. unfold run_program, mbind, M_bind, modify, on_smem. cbn [fst snd].
  apply (entered_answers x n Q t); [|exact HP].
  exact (solo_enter_runs x Hx None page (page + 4096) SOLO_RFLAGS t k (write_bytes page prog m) calls n Q (fun _ _ _ => False)
    (fun b E => ltac:(discriminate E)) solo_rflags_ok Hmt Hrp Hw).
Qed.

Lemma exit_test_answers x t k m :
  solo_site_ok x -> timer_idle t ->
  solo_answers x 4 (fun v k' => v = 42 /\ k' = called_once k) (run_ring3_exit_test x (t, k, m)).
Proof.
  intros Hx Ht. eapply program_answers; [done|done| |].
  - intros f Hf. apply exit_program_runs; [apply installed_write|done].
  - by intros n' v k' m' H.
Qed.

Lemma spin_code : spin_program 77 = [0xB9; 0x80; 0xD1; 0xF0; 0x08; 0xFF; 0xC9; 0x75; 0xFC; 0xB8; 77; 0; 0; 0; 0xCD; 0x81].
Proof. reflexivity. Qed.

(** The number of instructions of the spinning program. *)
Definition spin_steps : nat := (1 + (2 * S (Z.to_nat (SPIN_LOOP_COUNT - 1)) + 2))%nat.

Lemma timer_tick_answers x t k m :
  solo_site_ok x -> timer_idle t ->
  solo_answers x spin_steps (fun v k' => v = 77 /\ k' = k) (run_ring3_timer_tick_test x (t, k, m)).
Proof.
  intros Hx Ht. unfold run_ring3_timer_tick_test, spin_steps.
  apply (program_answers x t k m _ false (fun n v k' _ => n = 0%nat /\ v.1 RAX = 77 /\ k' = k)); [done|done| |].
  - intros f Hf. apply spin_program_runs; [lia|apply installed_write| |done]. intros tl. rewrite spin_code. reflexivity.
  - by intros n' v k' m' (_ & H).
Qed.

(** What the two argument tests find in memory. *)
Lemma tensor_memory m a :
  let m' := write_bytes (page + 23) [0x81] (write_bytes (page + 22) [0xCD] (write_bytes (page + 21) [0x80]
    (write_bytes (page + 20) [0xCD] (write_bytes page tensor_program (write_bytes args_addr (args_bytes a) m))))) in
  installed m' page TENSOR_CODE /\ read_bytes m' args_addr 80 = args_bytes a.
Proof.
  intros m'. assert (E : m' = write_bytes page TENSOR_CODE (write_bytes args_addr (args_bytes a) m)).
  { unfold TENSOR_CODE. rewrite write_bytes_app_l.
    change [0xCD; 0x80; 0xCD; 0x81] with ([0xCD] ++ [0x80] ++ [0xCD] ++ [0x81]). rewrite !write_bytes_app_l. reflexivity. }
  rewrite E. split; [apply installed_write|].
  rewrite (read_bytes_ext _ (write_bytes args_addr (args_bytes a) m)).
  - exact (read_write_bytes args_addr (args_bytes a) m).
  - intros y Hy. apply write_bytes_out. change (Z.of_nat (length TENSOR_CODE)) with 24. unfold args_addr in Hy. lia.
Qed.

Lemma tensor_call_answers x t k m a :
  solo_site_ok x -> timer_idle t -> args_ok a -> sat_mul 64 (weights_len a) F32_SIZE <> 0 ->
  range_is_user_accessible (so_try_new x) (so_translate x) (weights a) (sat_mul 64 (weights_len a) F32_SIZE) = false ->
  solo_answers x 4 (fun v k' => v = U64_MAX /\ k' = called_once k) (run_tensor_call x a (t, k, m)).
Proof.
  intros Hx [Hmt Hrp] Hok Hl Hr. unfold run_tensor_call, mbind, M_bind, modify, on_smem. cbn [fst snd].
  destruct (tensor_memory m a) as [Hi Hb].
  apply (entered_answers x 4 (fun _ v k' _ => v.1 RAX = U64_MAX /\ k' = called_once k) t); [|by intros n' v k' m' H].
  exact (solo_enter_runs x Hx None page (page + 4096) SOLO_RFLAGS t k _ true 4 _ (fun _ _ _ => False)
    (fun b E => ltac:(discriminate E)) solo_rflags_ok Hmt Hrp
    (fun f Hf => tensor_program_runs (so_try_new x) (so_translate x) _ k _ f a Hi Hok Hb Hl Hr Hf)).
Qed.

Lemma reject_answers x t k m :
  solo_site_ok x -> timer_idle t -> tables_guard (so_try_new x) (so_translate x) ->
  solo_answers x 4 (fun v k' => v = U64_MAX /\ k' = called_once k) (run_ring3_pointer_reject_test x (t, k, m)) /\
  solo_answers x 4 (fun v k' => v = U64_MAX /\ k' = called_once k) (run_ring3_slice_overrun_test x (t, k, m)).
Proof.
  intros Hx Ht [Hh Hn]. split; apply tensor_call_answers; try done.
  - unfold args_ok. repeat (apply List.Forall_cons; [done|]). apply List.Forall_nil.
  - apply (range_refused _ _ _ _ HEAP_START); [done|done|split; [apply Z.leb_le|apply Z.ltb_lt]; reflexivity|done|exact Hh].
  - unfold args_ok. repeat (apply List.Forall_cons; [done|]). apply List.Forall_nil.
  - apply (range_refused _ _ _ _ (page + 4096)); [done|done|split; [apply Z.leb_le|apply Z.ltb_lt]; reflexivity|done|].
    intros v flags E1 E2. by rewrite (Hn v E1) in E2.
Qed.

(** The boxed buffer is apart from the program. *)
Lemma buffer_keeps_program x m :
  solo_site_ok x ->
  installed (write_bytes (so_buf x) (replicate CTX 0) (write_bytes page FULL_PREEMPT_PROGRAM m)) page FULL_PREEMPT_PROGRAM.
Proof.
  intros Hx. apply (installed_ext (write_bytes page FULL_PREEMPT_PROGRAM m)); [apply installed_write|].
  intros y Hy. change (Z.of_nat (length FULL_PREEMPT_PROGRAM)) with 46 in Hy. apply write_bytes_out.
  rewrite length_replicate. change (Z.of_nat CTX) with 160.
  pose proof (user_apart x Hx 4 _ _ y ltac:(lia) eq_refl (page_is_user y ltac:(lia))). lia.
Qed.

(** The interception that [run_intercepting] armed is hit just when the first interrupt
    comes before the program has ended. *)
Lemma full_preempt_answers x t k m :
  solo_site_ok x -> timer_idle t ->
  solo_answers x full_preempt_steps
    (fun r k' => r.1 = 0x11111111 /\ k' = k /\ exists j rest, so_sched x = j :: rest /\ r.2 = (j <? full_preempt_steps)%nat)
    (run_ring3_full_preempt_test x (t, k, m)).
Proof.
  intros Hx [Hmt Hrp]. set (P := fun (r : Z * bool) (_ : Kernel) => _). set (N := full_preempt_steps).
  unfold run_ring3_full_preempt_test, run_intercepting, mbind, M_bind, modify, gets, rp_closure. cbn [fst snd rp_enabled rp_hit rp_ctx].
  set (m1 := write_bytes (so_buf x) (replicate CTX 0) (write_bytes page FULL_PREEMPT_PROGRAM m)).
  set (t1 := with_rp (mk_Rp true false (so_buf x)) t).
  pose proof (buffer_keeps_program x m Hx) as Hm. fold m1 in Hm.
  assert (Hb : forall b, Some (so_buf x) = Some b -> b = so_buf x) by congruence.
  pose proof (fun f Hf => full_preempt_runs (so_try_new x) (so_translate x) (fun _ _ _ => False) k m1 f Hm Hf) as Hw.
  pose proof (solo_enter_runs x Hx (Some (so_buf x)) page (page + 4096) SOLO_RFLAGS t1 k m1 false N _ _ Hb
    solo_rflags_ok Hmt (conj eq_refl eq_refl) Hw) as Hr.
  pose proof (fun v t' k' m' => solo_enter_hit x Hx (Some (so_buf x)) page (page + 4096) SOLO_RFLAGS t1 k m1 false N _ _ Hb
    solo_rflags_ok Hmt (conj eq_refl eq_refl) Hw v t' k' m' eq_refl (fun n' u k m H => proj1 H) ltac:(discriminate) eq_refl) as Hh.
  destruct (solo_enter _ _ _ _ _) as [[v|e| |] [[t' k'] m']]; cbn [entered_so solo_answers] in *; try done.
  - destruct Hr as (n' & u & pm & (_ & H2 & H3) & -> & _). destruct (Hh _ _ _ _ eq_refl) as (j & rest & E & Eh).
    subst P. cbn [fst snd]. split; [exact H2|]. split; [exact H3|]. by exists j, rest.
  - by destruct Hr as (v & pm & [] & _).
Qed.

(** The registers at the exit traps. *)
Lemma timer_tick_alone x t k m :
  solo_site_ok x -> timer_idle t ->
  exits_as_alone x spin_steps page (page + 4096) SOLO_RFLAGS t k (write_bytes page (spin_program 77) m).
Proof.
  intros Hx [Hmt Hrp].
  apply (interrupted_as_alone x Hx None page (page + 4096) SOLO_RFLAGS t k _ spin_steps
    (fun n v k' _ => n = 0%nat /\ v.1 RAX = 77 /\ k' = k) (fun b E => ltac:(discriminate E)) solo_rflags_ok Hmt Hrp).
  intros f Hf. unfold spin_steps. apply spin_program_runs; [lia|apply installed_write| |done].
  intros tl. rewrite spin_code. reflexivity.
Qed.

Lemma full_preempt_alone x t k m :
  solo_site_ok x -> timer_idle t ->
  exits_as_alone x full_preempt_steps page (page + 4096) SOLO_RFLAGS (with_rp (mk_Rp true false (so_buf x)) t) k
    (write_bytes (so_buf x) (replicate CTX 0) (write_bytes page FULL_PREEMPT_PROGRAM m)).
Proof.
  intros Hx [Hmt Hrp].
  apply (interrupted_as_alone x Hx (Some (so_buf x)) page (page + 4096) SOLO_RFLAGS
    (with_rp (mk_Rp true false (so_buf x)) t) k _ full_preempt_steps
    (fun n v k' _ => n = 0%nat /\ v.1 RAX = 0x11111111 /\ k' = k) (fun b E => ltac:(congruence)) solo_rflags_ok Hmt (conj eq_refl eq_refl)).
  intros f Hf. apply full_preempt_runs; [by apply buffer_keeps_program|done].
Qed.

(** ** The page tables of the boot *)

(** [init_heap] leaves the heap's pages without [USER_ACCESSIBLE], and mapping the user
    page changes neither them nor the page behind it. *)
Lemma boot_guard {X} `{PageTables X} containing_address try_new (k0 k1 k2 : Kmem X) :
  map_ok (memory_regions (alloc k0)) -> 0 <= next (alloc k0) ->
  mapped (tables k0) (page + 4096) = None -> (forall a v, try_new a = Some v -> v = a) ->
  init_heap containing_address k0 = (Ok tt, k1) -> map_user_test_page containing_address k1 = (Ok tt, k2) ->
  tables_guard try_new (fun v => snd <$> mapped (tables k2) v).
Proof.
  intros Hm H0 Hno Htry Hheap Huser.
  destruct (M_bind_Ok_inv _ _ _ _ _ Hheap) as ([] & k' & E1 & E2).
  destruct (map_pages_ok containing_address page_range k0 k' Hm H0 NoDup_page_range E1) as (Hr & Hn & _ & Hq & ns & Hl & _ & _ & Hfs).
  assert (Ht : tables k1 = tables k' /\ alloc k1 = alloc k') by (injection E2 as <-; by split). destruct Ht as [Ht Hal].
  destruct (M_bind_Ok_inv _ _ _ _ _ Huser) as (f & k3 & E3 & E4).
  destruct (take_frame_ok containing_address k1 f k3) as [_ ->]; [by rewrite Hal, Hr|rewrite Hal; lia|exact E3|].
  destruct (map_page_ok _ _ _ _ _ E4) as (_ & Ho & _). cbn [tables] in Ho. rewrite Ht in Ho.
  rewrite length_page_range in Hl.
  split.
  - intros v flags ->%Htry. rewrite Ho by (by vm_compute).
    destruct (lookup_lt_is_Some_2 ns 0 ltac:(lia)) as [n En].
    destruct (Hfs 0%nat n HEAP_START En) as (g & _ & ->); [rewrite page_range_lookup by lia; f_equal; lia|].
    intros [= <-] Hin%list_elem_of_In. destruct Hin as [?|[?|[]]]; done.
  - intros v ->%Htry. rewrite Ho by (by vm_compute). rewrite Hq, Hno; [done|].
    intros [i Hi]%list_elem_of_lookup. pose proof (lookup_lt_Some _ _ _ Hi) as Hlt. rewrite length_page_range in Hlt.
    rewrite page_range_lookup in Hi by done. injection Hi as Hi. unfold HEAP_START, page, USER_TEST_PAGE_ADDR in Hi. lia.
Qed.

(** ** The properties *)

(** C3. Wherever the timer interrupts, the tests that make a system call from ring 3 are
    answered as they expect over the page tables the boot leaves: the exit test returns
    42, and a kernel pointer, or a buffer that runs over the end of the user page, makes
    the tensor call return [u64::MAX]; each counts one call and changes nothing else of
    the kernel.  At most four turns are needed. *)
Theorem ring3_calls_answered {X} `{PageTables X} containing_address (k0 k1 k2 : Kmem X) x t k m :
  map_ok (memory_regions (alloc k0)) -> 0 <= next (alloc k0) -> mapped (tables k0) (page + 4096) = None ->
  init_heap containing_address k0 = (Ok tt, k1) -> map_user_test_page containing_address k1 = (Ok tt, k2) ->
  (forall a v, so_try_new x a = Some v -> v = a) -> so_translate x = (fun v => snd <$> mapped (tables k2) v) ->
  solo_site_ok x -> timer_idle t ->
  solo_answers x 4 (fun v k' => v = 42 /\ k' = called_once k) (run_ring3_exit_test x (t, k, m)) /\
  solo_answers x 4 (fun v k' => v = U64_MAX /\ k' = called_once k) (run_ring3_pointer_reject_test x (t, k, m)) /\
  solo_answers x 4 (fun v k' => v = U64_MAX /\ k' = called_once k) (run_ring3_slice_overrun_test x (t, k, m)).
Proof.
  intros Hm H0 Hno Hheap Huser Htry Htr Hx Ht. split; [by apply exit_test_answers|].
  apply reject_answers; [done|done|]. rewrite Htr. by apply (boot_guard containing_address _ k0 k1).
Qed.

(** C6. Wherever the timer interrupts, the two spinning programs run to their end: the
    tick test returns 77, and the preemption test the combination of the five registers
    it loaded, with the second component saying truthfully whether an interrupt came
    before the program was over.  Every register is intact: at the exit trap all
    registers, the program counter and the bytes of the user pages are those of the same
    program run alone from the same start. *)
Theorem spinning_tests_pass x t k m :
  solo_site_ok x -> timer_idle t ->
  solo_answers x spin_steps (fun v k' => v = 77 /\ k' = k) (run_ring3_timer_tick_test x (t, k, m)) /\
  solo_answers x full_preempt_steps
    (fun r k' => r.1 = 0x11111111 /\ k' = k /\ exists j rest, so_sched x = j :: rest /\ r.2 = (j <? full_preempt_steps)%nat)
    (run_ring3_full_preempt_test x (t, k, m)) /\
  exits_as_alone x spin_steps page (page + 4096) SOLO_RFLAGS t k (write_bytes page (spin_program 77) m) /\
  exits_as_alone x full_preempt_steps page (page + 4096) SOLO_RFLAGS (with_rp (mk_Rp true false (so_buf x)) t) k
    (write_bytes (so_buf x) (replicate CTX 0) (write_bytes page FULL_PREEMPT_PROGRAM m)).
Proof.
  intros Hx Ht. split; [by apply timer_tick_answers|]. split; [by apply full_preempt_answers|].
  split; [by apply timer_tick_alone|by apply full_preempt_alone].
Qed.

(** ** The hypotheses can hold *)

Lemma solo_enough {A} x n (P : A -> Kernel -> Prop) r :
  solo_answers x n P r -> Forall (fun i => 1 <= i)%nat (so_sched x) -> (n <= length (so_sched x))%nat ->
  exists v k', r.1 = Ok v /\ P v k'.
Proof.
  destruct r as [[v|e| |] [[t k'] m]]; cbn [solo_answers fst]; intros H Hs Hl; try done.
  - by exists v, k'.
  - specialize (H Hs). lia.
Qed.

Definition demo_solo_site (translate : Z -> option (list PageFlag)) (sched : list nat) : SoloSite :=
  mk_SoloSite 0x2B 0x23 8 0x200000 0x300000 0x300010 true (fun _ => lift Panic) (fun _ _ => 0x202) Some translate
    0x500000 (mk_Cpu (fun r => if decide (r = RSP) then 0x100000 else 0) 0x8000 (fun _ => 0)) sched.

Lemma demo_solo_site_ok translate sched : solo_site_ok (demo_solo_site translate sched).
Proof.
  split.
  - split; [unfold in_u; cbn; lia|]. split; [done|unfold in_u; cbn; lia].
  - intros r. cbn. unfold in_u. case_decide; lia.
  - split.
    + intros i a n Hi. cbn in Hi. unfold USER_TEST_PAGE_ADDR, USER_DISK_PROGRAM_PAGE_ADDR, USER_DISK_PROGRAM_STACK_ADDR, USER_DISK_PROGRAM_DATA_ADDR in Hi.
      do 9 (destruct i as [|i]; [injection Hi as <- <-; lia|]). done.
    + intros i j a n b k Hi Hj Hne. cbn in Hi, Hj. unfold USER_TEST_PAGE_ADDR, USER_DISK_PROGRAM_PAGE_ADDR, USER_DISK_PROGRAM_STACK_ADDR, USER_DISK_PROGRAM_DATA_ADDR, disjoint_ranges in *.
      do 9 (destruct i as [|i]; [injection Hi as <- <-;
        do 9 (destruct j as [|j]; [first [lia|injection Hj as <- <-; lia]|]); done|]). done.
Qed.

Definition demo_timer : Timer :=
  mk_Timer 0 0 (Preemptive.new_preempt new_sched (fun _ => 0)) (mk_Rp false false 5000) new_mt.

Definition demo_kernel : Kernel := mk_Kernel 0 new_sched new_kv.

Definition boot_memory : Kmem FlatTables.t := mk_Kmem ((fun _ => None) : FlatTables.t) (init big_map) None.

Definition boot_tables : Kmem FlatTables.t := (init_heap page_down boot_memory).2.

Lemma boot_heap_maps : (init_heap page_down boot_memory).1 = Ok tt.
Proof. vm_compute. reflexivity. Qed.

Lemma boot_tables_ok : init_heap page_down boot_memory = (Ok tt, boot_tables).
Proof. unfold boot_tables. rewrite <- boot_heap_maps. apply surjective_pairing. Qed.

Lemma one_turn_hits : (1 <? full_preempt_steps)%nat = true.
Proof. apply Nat.ltb_lt. unfold full_preempt_steps. lia. Qed.

Lemma replicate_head {A} n (v j : A) rest : replicate n v = j :: rest -> j = v.
Proof. destruct n; [done|]. by intros [= -> _]. Qed.

Lemma ring3_calls_answered_witness :
  let tables_now := tables (map_user_test_page page_down boot_tables).2 in
  let x := demo_solo_site (fun v => snd <$> mapped tables_now v) (replicate 4 1%nat) in
  let s := (demo_timer, demo_kernel, fun _ => 0) in
  (run_ring3_exit_test x s).1 = Ok 42 /\ (run_ring3_pointer_reject_test x s).1 = Ok U64_MAX /\
  (run_ring3_slice_overrun_test x s).1 = Ok U64_MAX.
Proof.
  intros tables_now x s.
  destruct (ring3_calls_answered page_down boot_memory boot_tables
    (map_user_test_page page_down boot_tables).2 x demo_timer demo_kernel (fun _ => 0)) as (H1 & H2 & H3).
  - split; [cbn; lia|repeat constructor; cbn; lia].
  - cbn. lia.
  - reflexivity.
  - exact boot_tables_ok.
  - apply injective_projections; [vm_compute|]; reflexivity.
  - intros a v. cbn. congruence.
  - reflexivity.
  - apply demo_solo_site_ok.
  - split; reflexivity.
  - assert (Hpos : Forall (fun i => 1 <= i)%nat (so_sched x)) by (apply Forall_replicate; lia).
    destruct (solo_enough _ _ _ _ H1 Hpos ltac:(cbn; lia)) as (v1 & k1 & E1 & -> & _).
    destruct (solo_enough _ _ _ _ H2 Hpos ltac:(cbn; lia)) as (v2 & k2 & E2 & -> & _).
    destruct (solo_enough _ _ _ _ H3 Hpos ltac:(cbn; lia)) as (v3 & k3 & E3 & -> & _).
    exact (conj E1 (conj E2 E3)).
Defined.

Lemma spinning_tests_pass_witness :
  let x := demo_solo_site (fun _ => None) (replicate full_preempt_steps 1%nat) in
  let s := (demo_timer, demo_kernel, fun _ => 0) in
  (run_ring3_timer_tick_test x s).1 = Ok 77 /\ (run_ring3_full_preempt_test x s).1 = Ok (0x11111111, true).
Proof.
  intros x s.
  destruct (spinning_tests_pass x demo_timer demo_kernel (fun _ => 0) (demo_solo_site_ok _ _)) as (H1 & H2 & H3 & H4); [split; reflexivity|].
  assert (Hpos : Forall (fun i => 1 <= i)%nat (so_sched x)) by (apply Forall_replicate; lia).
  assert (Hlen : length (so_sched x) = full_preempt_steps) by apply length_replicate.
  destruct (solo_enough _ _ _ _ H1 Hpos) as (v1 & k1 & E1 & -> & _); [rewrite Hlen; unfold spin_steps, full_preempt_steps; lia|].
  destruct (solo_enough _ _ _ _ H2 Hpos) as ([v2 hit] & k2 & E2 & Ev & _ & j & rest & Ej & Eh); [rewrite Hlen; apply le_n|].
  cbn [fst snd] in Ev, Eh. subst v2 hit. clear Hpos.
  pose proof (replicate_head _ _ _ _ Ej) as Hj. clear Ej Hlen.
  rewrite Hj, one_turn_hits in E2.
  exact (conj E1 E2).
Defined.
