(* ===== verification/Ring3Coop.v ===== *)
(** * Ring3Coop: ring-3 tasks that yield of their own accord ([ring3.rs], vectors 0x82,
      0x83 and 0x85)

    A task is entered by [switch_to] on a prepared kernel stack whose return address
    is a bare [iretq].  The yield and retire stubs build the same twelve words on the
    kernel stack, a Rust function copies them to the task's own stack and picks the
    next task, and only the six registers of [switch_to] survive.  The stubs are the
    source's assembly on X64; timer interrupts may come between any two instructions
    of a task.  [wp] is the specification: a task that keeps to its user page runs as
    if it were alone between two of its yields. *)
From stdpp Require Import base list numbers strings.
From Stdlib Require Import Lia FunctionalExtensionality.
From S2P Require Import Prelude Mem X64 ContextSwitch AgentScheduler TierSelect Preemptive Ring3Mt Ring3Prog Ring3Session Ring3Alone.
Open Scope Z_scope.

(** ** The kernel's side *)

Definition RING3_COOP_MAX_TASKS : nat := 4.
Definition COOP_CTX : nat := 96.

(** The statics of the mechanism. *)
Record Coop := mk_Coop {
  coop_task_rsp : list Z;
  coop_active_tasks : nat;
  coop_current : nat;
  coop_task_priority : list Z;
  coop_task_done : list bool;
}.

Definition new_coop : Coop :=
  mk_Coop (replicate RING3_COOP_MAX_TASKS 0) 0 0 (replicate RING3_COOP_MAX_TASKS 0)
    (replicate RING3_COOP_MAX_TASKS false).

Definition arm_ring3_coop_tasks (tasks : list (Z * Z)) (k : Coop) : res Coop :=
  '(rsps, prios, done) ← arm_task_slots (coop_task_rsp k) (coop_task_priority k) (coop_task_done k) tasks;
  Ok (mk_Coop rsps (length tasks) 0 prios done).

(** [copy_nonoverlapping(current_rsp, dest, 96)] *)
Definition copy_ctx (from to : Z) (m : memory) : memory := write_bytes to (read_bytes m from COOP_CTX) m.

Definition on_cmem (f : memory -> memory) (s : Coop * memory) : Coop * memory := (s.1, f s.2).

Definition set_coop_current (next : nat) (s : Coop * memory) : Coop * memory :=
  (mk_Coop (coop_task_rsp s.1) (coop_active_tasks s.1) next (coop_task_priority s.1) (coop_task_done s.1), s.2).

Definition set_coop_done (i : nat) (s : Coop * memory) : Coop * memory :=
  (mk_Coop (coop_task_rsp s.1) (coop_active_tasks s.1) (coop_current s.1) (coop_task_priority s.1)
     (<[i := true]> (coop_task_done s.1)), s.2).

(** The selection and hand-over that end both helpers. *)
Definition coop_next (cur : nat) : M (Coop * memory) Z :=
  k ← gets fst;
  next ← lift (select_next (coop_active_tasks k) (coop_active_tasks k) cur (coop_task_priority k) (coop_task_done k));
  modify (set_coop_current next);;
  lift (idx (coop_task_rsp k) next).

Definition ring3_coop_yield_helper (current_rsp : Z) : M (Coop * memory) Z :=
  k ← gets fst;
  dest ← lift (idx (coop_task_rsp k) (coop_current k));
  modify (on_cmem (copy_ctx current_rsp dest));;
  coop_next (coop_current k).

Definition ring3_coop_task_done_helper (current_rsp : Z) : M (Coop * memory) Z :=
  k ← gets fst;
  dest ← lift (idx (coop_task_rsp k) (coop_current k));
  modify (on_cmem (copy_ctx current_rsp dest));;
  lift (idx (coop_task_done k) (coop_current k));;
  modify (set_coop_done (coop_current k));;
  coop_next (coop_current k).

(** The frame a fresh task is entered from: six zeroes, the trampoline, and what
    [iretq] takes. *)
Definition prepare_ring3_initial_stack (tramp kernel_stack_top user_rip user_cs user_ss user_rsp user_rflags : Z)
    (m : memory) : Z * memory :=
  let top := Z.land kernel_stack_top (2 ^ 64 - 16) - 8 in
  foldl (fun '(sp, m) v => (sp - 8, put_word (sp - 8) v m)) (top, m)
    ([user_ss; user_rsp; user_rflags; user_cs; user_rip; tramp] ++ replicate 6 0).

Definition ring3_entry_trampoline : list instr := [Iretq].

Definition ring3_task_exit_entry_asm (exit_code caller_rsp : Z) : list instr :=
  [StoreAt exit_code RAX;
   LoadAt RSP caller_rsp;
   Pop R15; Pop R14; Pop R13; Pop R12; Pop RBX; Pop RBP;
   Sti;
   Ret].

(** ** A session of yielding tasks *)

Abbreviation coop_machine := (Cpu * Timer * Coop)%type.

Definition on_timer {A} (f : M machine A) : M coop_machine A := fun '(s, k) =>
  let '(r, s') := f s in (r, (s', k)).

Definition coop_pushed : list reg := [RAX; RBP; RBX; R12; R13; R14; R15].
Definition coop_popped : list reg := [R15; R14; R13; R12; RBX; RBP].

Section Session.
Context (kernel_cs rsp0 exit_code caller_rsp tramp : Z) (free : bool) (junk : Cpu -> reg -> Z).
Context (other_trap : Z -> M coop_machine unit).

(** At the trampoline its one instruction runs; nothing else is ever returned to. *)
Definition at_trampoline (c : Cpu) : res Cpu :=
  if rip c =? tramp then Ok (exec_all ring3_entry_trampoline c) else Hang.

Definition coop_stub (helper : Z -> M (Coop * memory) Z) : M coop_machine unit := fun '(c, t, k) =>
  let c := exec_all ([Lea RAX tramp] ++ map Push coop_pushed ++ [Mov RDI RSP]) c in
  match helper (regs c RDI) (k, cmem c) with
  | (Ok p, (k', m)) =>
      let c := exec_all ([Mov RSP RAX] ++ map Pop coop_popped ++ [Ret]) (called (junk c) p m c) in
      match at_trampoline c with
      | Ok c' => (Ok tt, (c', t, k'))
      | _ => (Hang, (c, t, k'))
      end
  | (Err e, (k', m)) => (Err e, (called (junk c) 0 m c, t, k'))
  | (Panic, (k', m)) => (Panic, (called (junk c) 0 m c, t, k'))
  | (Hang, (k', m)) => (Hang, (called (junk c) 0 m c, t, k'))
  end.

Definition ring3_coop_yield_entry_asm : M coop_machine unit := coop_stub ring3_coop_yield_helper.
Definition ring3_coop_task_done_entry_asm : M coop_machine unit := coop_stub ring3_coop_task_done_helper.

(** From ring 3 to behind the exit stub; [sched] says how many instructions complete
    before each timer interrupt. *)
Fixpoint coop_session (sched : list nat) : M coop_machine unit := fun '(c, t, k) =>
  match sched with
  | [] => (Hang, (c, t, k))
  | n :: rest =>
      match urun n c with
      | Step c' =>
          (o ← on_timer (timer_interrupt_entry_asm free);
           match o with None => coop_session rest | Some _ => lift Hang end) (interrupt kernel_cs rsp0 c', t, k)
      | Trap vec c' =>
          let c' := interrupt kernel_cs rsp0 c' in
          if vec =? 0x82 then (Ok tt, (exec_all (ring3_task_exit_entry_asm exit_code caller_rsp) c', t, k))
          else
            (( if vec =? 0x83 then ring3_coop_yield_entry_asm
               else if vec =? 0x85 then ring3_coop_task_done_entry_asm
               else other_trap vec );;
             coop_session rest) (c', t, k)
      | Fault c' => (Panic, (c', t, k))
      end
  end.

(** [switch_to(&mut RING3_TASK_CALLER_RSP, new_rsp)], called with its return address
    on the stack. *)
Definition bootstrap (new_rsp : Z) (sched : list nat) : M coop_machine unit := fun '(c, t, k) =>
  let args := set_reg RDI caller_rsp (set_reg RSI new_rsp (regs c)) in
  let c := exec_all switch_to (mk_Cpu args (rip c) (cmem c)) in
  match at_trampoline c with
  | Ok c' => coop_session sched (c', t, k)
  | _ => (Hang, (c, t, k))
  end.
End Session.

(** ** Specification: each task alone between two of its yields *)

(** The registers that a yield keeps; the others may hold anything after it. *)
Definition survivors : list reg := coop_popped ++ [CS; RFLAGS; RSP; SS].

Definition resumes (v w : vcpu) : Prop :=
  regs_ok w.1 /\ w.2 = v.2 /\ forall r, r ∈ survivors -> w.1 r = v.1 r.

(** Who runs, who has retired, where each task stopped. *)
Record Tasks := mk_Tasks { a_cur : nat; a_done : list bool; a_parked : list vcpu }.

(** Task 0 exits with [Q]; a task that yields or retires stops where it is and the
    selection says who goes on, with whatever a yield leaves in the registers it does
    not keep. *)
Definition coop_trap (prios : list Z) (Q : vcpu -> Tasks -> memory -> Prop) (n : nat) (vec : Z) (v : vcpu) (a : Tasks)
    (m : memory) (go : vcpu -> Tasks -> memory -> Prop) : Prop :=
  if vec =? 0x82 then Q v a m
  else if (vec =? 0x83) || (vec =? 0x85) then
    let retire := vec =? 0x85 in
    let done := if retire then <[a_cur a := true]> (a_done a) else a_done a in
    let parked := <[a_cur a := v]> (a_parked a) in
    (retire = true -> a_cur a <> 0%nat) /\
    exists next u,
      select_next (length parked) (length parked) (a_cur a) prios done = Ok next /\
      parked !! next = Some u /\
      forall w, resumes u w -> go w (mk_Tasks next done parked) m
  else False.

(** A fault would be the end of the kernel. *)
Definition no_fault (v : vcpu) (a : Tasks) (m : memory) : Prop := False.

Definition in_page (lo hi x : Z) : Prop := lo <= x < hi.

Definition coop_wp (lo hi : Z) (prios : list Z) (n : nat) (Q : vcpu -> Tasks -> memory -> Prop) (v : vcpu) (a : Tasks)
    (m : memory) : Prop :=
  wp (in_page lo hi) (coop_trap prios Q) no_fault n v a m.

(** ** The saved context *)

(** The ninety-six bytes of a parked task, from the lowest address. *)
Definition coop_words (tramp : Z) (v : vcpu) : list Z :=
  map v.1 coop_popped ++ [tramp; v.2; v.1 CS; v.1 RFLAGS; v.1 RSP; v.1 SS].

Definition coop_bytes (tramp : Z) (v : vcpu) : list Z := wbytes (coop_words tramp v).

Lemma length_coop_bytes tramp v : length (coop_bytes tramp v) = COOP_CTX.
Proof. unfold coop_bytes. by rewrite length_wbytes. Qed.

Lemma coop_words_ok tramp v : in_u 64 tramp -> regs_ok v.1 -> in_u 64 v.2 -> Forall (in_u 64) (coop_words tramp v).
Proof.
  intros Ht Hok Hpc. unfold coop_words. apply Forall_app. split.
  - apply List.Forall_map, List.Forall_forall. intros r _. apply Hok.
  - repeat (apply List.Forall_cons; [first [exact Ht|exact Hpc|apply Hok]|]). apply List.Forall_nil.
Qed.

Lemma survivors_popped r : r ∈ coop_popped -> r ∈ survivors.
Proof. intros H. apply elem_of_app. by left. Qed.

Lemma not_rsp_pushed : RSP ∉ coop_pushed.
Proof. unfold coop_pushed. repeat (apply not_elem_of_cons; split; [done|]). apply not_elem_of_nil. Qed.

Lemma not_rsp_popped : RSP ∉ coop_popped.
Proof. unfold coop_popped. repeat (apply not_elem_of_cons; split; [done|]). apply not_elem_of_nil. Qed.

Lemma nodup_popped : NoDup coop_popped.
Proof. apply NoDup_ListNoDup. unfold coop_popped. repeat (constructor; [cbn; intuition discriminate|]). constructor. Qed.

Section Stub.
Context (kcs rsp0 tramp : Z).
Hypothesis Hrsp0 : 160 <= rsp0 < 2 ^ 64.
Hypothesis Htramp : in_u 64 tramp.

(** A task that yields is saved below the top of the kernel stack. *)
Lemma coop_save v m :
  exists f, exec_all ([Lea RAX tramp] ++ map Push coop_pushed) (interrupt kcs rsp0 (on_cpu v m)) =
      mk_Cpu f v.2 (write_bytes (rsp0 - 96) (coop_bytes tramp v) m) /\ f RSP = rsp0 - 96 /\
    (regs_ok v.1 -> in_u 64 kcs -> regs_ok f).
Proof.
  set (c := exec (Lea RAX tramp) (interrupt kcs rsp0 (on_cpu v m))).
  destruct (exec_pushes coop_pushed c (rsp0 - 40)) as (f & E & F1 & F2);
    [done|apply not_rsp_pushed|change (length coop_pushed) with 7%nat; lia|].
  change (length coop_pushed) with 7%nat in *. replace (rsp0 - 40 - 8 * Z.of_nat 7) with (rsp0 - 96) in * by lia.
  exists f. split; [|split; [done|]].
  - change (exec_all (map Push coop_pushed) c = mk_Cpu f v.2 (write_bytes (rsp0 - 96) (coop_bytes tramp v) m)).
    rewrite E. f_equal. unfold coop_bytes, coop_words.
    change (map v.1 coop_popped ++ [tramp; v.2; v.1 CS; v.1 RFLAGS; v.1 RSP; v.1 SS])
      with (map (regs c) (rev coop_pushed) ++ [v.2; v.1 CS; v.1 RFLAGS; v.1 RSP; v.1 SS]).
    rewrite wbytes_app, write_bytes_app. f_equal. rewrite length_wbytes, length_map.
    change (length (rev coop_pushed)) with 7%nat. replace (rsp0 - 96 + Z.of_nat (8 * 7)) with (rsp0 - 40) by lia. done.
  - intros Hok Hk r. destruct (decide (r = RSP)) as [->|Hr]; [rewrite F1; unfold in_u; lia|]. rewrite F2 by done.
    unfold c, interrupt. cbn [exec regs on_cpu].
    assert (H : regs_ok (set_reg RAX tramp (set_reg RFLAGS (Z.clearbit (v.1 RFLAGS) 9) (set_reg RSP (rsp0 - 40)
      (set_reg CS kcs (set_reg SS 0 v.1)))))).
    { apply regs_ok_set; [|done]. apply regs_ok_set; [|by apply clearbit_ok, Hok].
      apply regs_ok_set; [|unfold in_u; lia]. apply regs_ok_set; [|done]. by apply regs_ok_set. }
    apply H.
Qed.

(** From its frame a task goes on where it was. *)
Lemma coop_land p c v :
  regs c RSP = p -> 0 <= p < 2 ^ 64 - 96 -> regs_ok (regs c) -> regs_ok v.1 -> in_u 64 v.2 ->
  read_bytes (cmem c) p COOP_CTX = coop_bytes tramp v ->
  exists w, at_trampoline tramp (exec_all (map Pop coop_popped ++ [Ret]) c) = Ok (on_cpu w (cmem c)) /\ resumes v w.
Proof.
  intros Hs Hp Hc Hok Hpc Hb.
  assert (Hw : words (cmem c) p (coop_words tramp v)) by (apply words_of_bytes; [exact Hb|by apply coop_words_ok]).
  unfold coop_words in Hw. apply words_app in Hw as [Hw1 Hw2]. rewrite length_map in Hw2.
  change (length coop_popped) with 6%nat in Hw2.
  apply words_cons in Hw2 as [W0 Hw2]. apply words_cons in Hw2 as [W1 Hw2]. apply words_cons in Hw2 as [W2 Hw2].
  apply words_cons in Hw2 as [W3 Hw2]. apply words_cons in Hw2 as [W4 Hw2]. apply words_cons in Hw2 as [W5 _].
  destruct (exec_pops coop_popped c p (map v.1 coop_popped)) as (f & E & F1 & F2 & F3);
    [done|lia|apply not_rsp_popped|apply nodup_popped|done|change (length coop_popped) with 6%nat; lia|exact Hw1|].
  change (length coop_popped) with 6%nat in F1. replace (8 * Z.of_nat 6) with 48 in * by lia.
  rewrite exec_all_app, E. cbn [exec_all foldl exec regs rip cmem]. rewrite F1, W0.
  unfold at_trampoline. cbn [rip]. rewrite Z.eqb_refl.
  assert (Hpop : forall r, r ∈ coop_popped -> f r = v.1 r).
  { intros r [i Hi]%list_elem_of_lookup. pose proof (F2 i r Hi) as H. rewrite list_lookup_fmap, Hi in H. by injection H. }
  cbn [ring3_entry_trampoline exec_all foldl exec regs rip cmem]. rewrite set_reg_same.
  rewrite (wrap_id 64 (p + 48 + 8)) by (unfold in_u; lia). rewrite !wrap_id by (unfold in_u; lia).
  replace (p + 48 + 8 + 8) with (p + 64) in * by lia. replace (p + 64 + 8) with (p + 72) in * by lia.
  replace (p + 72 + 8) with (p + 80) in * by lia. replace (p + 80 + 8) with (p + 88) in * by lia.
  replace (p + 48 + 8 + 16) with (p + 72) by lia. replace (p + 48 + 8 + 24) with (p + 80) by lia.
  replace (p + 48 + 8 + 32) with (p + 88) by lia. rewrite W1, W2, W3, W4, W5.
  exists (set_reg SS (v.1 SS) (set_reg RSP (v.1 RSP) (set_reg RFLAGS (v.1 RFLAGS) (set_reg CS (v.1 CS)
    (set_reg RSP (p + 48 + 8) f)))), v.2). split; [done|]. split; [|split; [done|]]; cbn [fst].
  - do 4 (apply regs_ok_set; [|apply Hok]). apply regs_ok_set; [|unfold in_u; lia].
    intros r. destruct (decide (r ∈ coop_popped)) as [Hr|Hr]; [rewrite Hpop by done; apply Hok|].
    destruct (decide (r = RSP)) as [->|Hn]; [rewrite F1; unfold in_u; lia|]. rewrite F3 by done. apply Hc.
  - intros r Hr. apply elem_of_app in Hr as [Hr|Hr].
    + assert (r <> SS /\ r <> RSP /\ r <> RFLAGS /\ r <> CS) as (N1 & N2 & N3 & N4).
      { unfold coop_popped in Hr. repeat (apply elem_of_cons in Hr as [->|Hr]; [done|]). by apply elem_of_nil in Hr. }
      by rewrite (set_reg_other SS), (set_reg_other RSP), (set_reg_other RFLAGS), (set_reg_other CS), (set_reg_other RSP), Hpop by done.
    + repeat (apply elem_of_cons in Hr as [->|Hr]; [by rd|]). by apply elem_of_nil in Hr.
Qed.
End Stub.

(** ** The stubs keep the specification *)

Section Simulation.
Context (kernel_cs rsp0 exit_code caller_rsp tramp : Z) (free : bool) (junk : Cpu -> reg -> Z).
Context (other_trap : Z -> M coop_machine unit).
Context (lo hi : Z) (bufs prios : list Z) (m0 : memory).

(** The user page, the kernel stack and the tasks' own stacks are apart. *)
Record coop_layout : Prop := {
  cl_page : 0 <= lo /\ hi < 2 ^ 64;
  cl_rsp0 : 160 <= rsp0 < 2 ^ 64;
  cl_tramp : in_u 64 tramp;
  cl_cs : in_u 64 kernel_cs;
  cl_junk : forall c, regs_ok (junk c);
  cl_buf : forall i b, bufs !! i = Some b -> 0 <= b < 2 ^ 64 - 96 /\ disjoint_ranges b 96 lo (hi - lo) /\
    disjoint_ranges b 96 (rsp0 - 160) 160;
  cl_bufs : forall i j a b, i <> j -> bufs !! i = Some a -> bufs !! j = Some b -> disjoint_ranges a 96 b 96;
  cl_stack : disjoint_ranges (rsp0 - 160) 160 lo (hi - lo);
}.

Hypothesis Hlay : coop_layout.

(** What no task and no stub writes. *)
Definition untouched (x : Z) : Prop :=
  ~ (lo <= x < hi) /\ (x < rsp0 - 160 \/ rsp0 <= x) /\
  forall i b, bufs !! i = Some b -> x < b \/ b + 96 <= x.

(** The running task's page is [m] in memory [m2].  When no task is armed ([bufs] is
    empty) the statics do not matter. *)
Record Coop_rel (a : Tasks) (m m2 : memory) (t : Timer) (k : Coop) : Prop := {
  cr_page : agree (in_page lo hi) m m2;
  cr_rsp : forall i b, bufs !! i = Some b -> coop_task_rsp k !! i = Some b;
  cr_active : bufs <> [] -> coop_active_tasks k = length bufs;
  cr_len : length (a_parked a) = length bufs;
  cr_current : bufs <> [] -> coop_current k = a_cur a /\ (a_cur a < length bufs)%nat;
  cr_prio : bufs <> [] -> coop_task_priority k = prios;
  cr_done : bufs <> [] -> coop_task_done k = a_done a;
  cr_select : bufs <> [] -> select_ok (length bufs) prios (a_done a);
  cr_parked : forall i b v, i <> a_cur a -> bufs !! i = Some b -> a_parked a !! i = Some v ->
    regs_ok v.1 /\ in_u 64 v.2 /\ read_bytes m2 b COOP_CTX = coop_bytes tramp v;
  cr_timer : mt_enabled (t_mt t) = false /\ rp_enabled (t_rp t) = false;
  cr_rest : forall x, untouched x -> m2 x = m0 x;
}.

(** The relation depends on the page, the parked contexts and the rest of memory
    only; a write to the page or to the kernel stack keeps it. *)
Lemma coop_rel_memory a m m2 t k m' m2' t' :
  Coop_rel a m m2 t k -> agree (in_page lo hi) m' m2' ->
  (forall x, ~ in_page lo hi x -> (x < rsp0 - 160 \/ rsp0 <= x) -> m2' x = m2 x) ->
  t_mt t' = t_mt t -> t_rp t' = t_rp t -> Coop_rel a m' m2' t' k.
Proof.
  intros [R2 R3 R4 R5 R6 R7 R8 R9 R10 R11 R12] Hag Hout Ht1 Ht2. split; try done.
  - intros i b u Hi Hb Hu. destruct (R10 i b u Hi Hb Hu) as (U1 & U2 & U3). split; [done|]. split; [done|].
    rewrite <- U3. apply read_bytes_ext. intros x Hx. destruct (cl_buf Hlay i b Hb) as (B1 & B2 & B3).
    unfold disjoint_ranges, COOP_CTX in *. apply Hout; unfold in_page; lia.
  - by rewrite Ht1, Ht2.
  - intros x Hx. rewrite <- R12 by done. destruct Hx as (X1 & X2 & X3). by apply Hout.
Qed.

(** A timer interrupt is not noticed. *)
Lemma coop_timer v a m m2 t k :
  Coop_rel a m m2 t k -> in_ring3 v.1 -> in_u 64 v.2 ->
  exists m2' t', on_timer (timer_interrupt_entry_asm free) (interrupt kernel_cs rsp0 (on_cpu v m2), t, k) =
      (Ok None, (on_cpu v m2', t', k)) /\ Coop_rel a m m2' t' k.
Proof.
  intros HR Hv Hpc. destruct (cr_timer _ _ _ _ _ HR) as [Rt1 Rt2].
  destruct (timer_passes kernel_cs rsp0 free v m2 t (cl_rsp0 Hlay) Hv Hpc Rt1 Rt2) as (t' & E & E1 & E2).
  exists (saved_mem rsp0 v m2), t'. split; [unfold on_timer; by rewrite E|].
  apply (coop_rel_memory a m m2 t k); try done.
  - intros x Hx. pose proof (cl_stack Hlay) as Hd. unfold disjoint_ranges, in_page in *.
    rewrite saved_mem_out by lia. by apply (cr_page _ _ _ _ _ HR).
  - intros x _ Hx. by apply saved_mem_out.
Qed.

Definition helper_of (retire : bool) : Z -> M (Coop * memory) Z :=
  if retire then ring3_coop_task_done_helper else ring3_coop_yield_helper.

(** Both helpers, in the terms of the specification. *)
Lemma helper_run (retire : bool) p k m dest next b done :
  idx (coop_task_rsp k) (coop_current k) = Ok dest ->
  done = (if retire then <[coop_current k := true]> (coop_task_done k) else coop_task_done k) ->
  (coop_current k < length (coop_task_done k))%nat ->
  select_next (coop_active_tasks k) (coop_active_tasks k) (coop_current k) (coop_task_priority k) done = Ok next ->
  idx (coop_task_rsp k) next = Ok b ->
  helper_of retire p (k, m) =
    (Ok b, (mk_Coop (coop_task_rsp k) (coop_active_tasks k) next (coop_task_priority k) done, copy_ctx p dest m)).
Proof.
  intros Hd -> Hlt Hn Hb. destruct (lookup_lt_is_Some_2 _ _ Hlt) as [d Hdn]. apply (proj2 (idx_Ok _ _ _)) in Hdn.
  unfold helper_of. destruct retire; unfold ring3_coop_task_done_helper, ring3_coop_yield_helper, coop_next,
    mbind, M_bind, gets, lift, modify; cbn [fst snd on_cmem set_coop_done]; rewrite Hd; cbn [fst snd];
    rewrite ?Hdn; cbn [fst snd coop_active_tasks coop_task_priority coop_task_done coop_task_rsp];
    rewrite Hn; cbn [fst snd set_coop_current coop_task_rsp]; by rewrite Hb.
Qed.

Lemma coop_switch a m m2 t k v (retire : bool) next u :
  Coop_rel a m m2 t k -> regs_ok v.1 -> in_u 64 v.2 ->
  (retire = true -> a_cur a <> 0%nat) ->
  let done := if retire then <[a_cur a := true]> (a_done a) else a_done a in
  let parked := <[a_cur a := v]> (a_parked a) in
  select_next (length parked) (length parked) (a_cur a) prios done = Ok next -> parked !! next = Some u ->
  exists w m2' k',
    coop_stub tramp junk (helper_of retire) (interrupt kernel_cs rsp0 (on_cpu v m2), t, k) =
      (Ok tt, (on_cpu w m2', t, k')) /\
    resumes u w /\ Coop_rel (mk_Tasks next done parked) m m2' t k'.
Proof.
  intros HR Hok Hpc H0 done parked Hnext Hu. pose proof HR as [R2 R3 R4 R5 R6 R7 R8 R9 R10 R11 R12].
  assert (Hnn : bufs <> []).
  { intros E. apply lookup_lt_Some in Hu. unfold parked in Hu. rewrite length_insert, R5, E in Hu. cbn in Hu. lia. }
  specialize (R4 Hnn). destruct (R6 Hnn) as [R6a R6']. clear R6. rename R6a into R6.
  specialize (R7 Hnn). specialize (R8 Hnn). specialize (R9 Hnn).
  pose proof (cl_rsp0 Hlay) as Hrsp0.
  destruct (lookup_lt_is_Some_2 bufs (a_cur a) R6') as [dest Hdest].
  assert (Hlt : (next < length bufs)%nat) by (apply lookup_lt_Some in Hu; unfold parked in Hu; rewrite length_insert in Hu; lia).
  destruct (lookup_lt_is_Some_2 bufs next Hlt) as [b Hb].
  destruct (cl_buf Hlay _ _ Hdest) as (D1 & D2 & D3). destruct (cl_buf Hlay _ _ Hb) as (B1 & B2 & B3).
  pose proof (cl_stack Hlay) as Hst. unfold disjoint_ranges in *.
  assert (Hcl : (a_cur a < length (a_parked a))%nat) by (rewrite R5; exact R6').
  assert (Hpl : length parked = length bufs) by (unfold parked; by rewrite length_insert).
  unfold coop_stub. change ([Lea RAX tramp] ++ map Push coop_pushed ++ [Mov RDI RSP])
    with (([Lea RAX tramp] ++ map Push coop_pushed) ++ [Mov RDI RSP]). rewrite (exec_all_app _ [Mov RDI RSP]).
  destruct (coop_save kernel_cs rsp0 tramp Hrsp0 (cl_tramp Hlay) v m2) as (f & -> & F1 & F2).
  cbn [exec_all foldl exec regs cmem rip]. rewrite set_reg_same, F1.
  set (m3 := write_bytes (rsp0 - 96) (coop_bytes tramp v) m2).
  rewrite (helper_run retire (rsp0 - 96) k m3 dest next b done).
  2:{ rewrite R6. by apply idx_Ok, R3. }
  2:{ by rewrite R6, R8. }
  2:{ rewrite R6, R8. destruct R9 as [_ Hd _ _]. lia. }
  2:{ rewrite R4, R6, R7. by rewrite Hpl in Hnext. }
  2:{ by apply idx_Ok, R3. }
  set (m4 := copy_ctx (rsp0 - 96) dest m3).
  assert (Hm4 : m4 = write_bytes dest (coop_bytes tramp v) m3).
  { unfold m4, copy_ctx. f_equal. unfold m3. rewrite <- (length_coop_bytes tramp v). apply read_write_bytes. }
  assert (Hout : forall x, (x < rsp0 - 160 \/ rsp0 <= x) -> (x < dest \/ dest + 96 <= x) -> m4 x = m2 x).
  { intros x X1 X2. rewrite Hm4. unfold m3. rewrite !write_bytes_out; [done| |];
      rewrite length_coop_bytes; unfold COOP_CTX; lia. }
  assert (Hparked : forall i b' u', bufs !! i = Some b' -> parked !! i = Some u' ->
    regs_ok u'.1 /\ in_u 64 u'.2 /\ read_bytes m4 b' COOP_CTX = coop_bytes tramp u').
  { intros i b' u' Hi Hu'. unfold parked in Hu'. destruct (decide (i = a_cur a)) as [->|Hne].
    - rewrite list_lookup_insert_eq in Hu' by exact Hcl. injection Hu' as <-. rewrite Hdest in Hi. injection Hi as <-.
      split; [done|]. split; [done|]. rewrite Hm4, <- (length_coop_bytes tramp v). apply read_write_bytes.
    - rewrite list_lookup_insert_ne in Hu' by done. destruct (R10 i b' u' Hne Hi Hu') as (U1 & U2 & U3).
      split; [done|]. split; [done|]. rewrite <- U3. apply read_bytes_ext. intros x Hx. unfold COOP_CTX in Hx.
      destruct (cl_buf Hlay i b' Hi) as (C1 & C2 & C3). pose proof (cl_bufs Hlay i (a_cur a) b' dest Hne Hi Hdest) as C4.
      unfold disjoint_ranges in *. apply Hout; lia. }
  destruct (Hparked next b u Hb Hu) as (U1 & U2 & U3).
  set (c1 := mk_Cpu (set_reg RDI (rsp0 - 96) f) v.2 m3).
  assert (Hregs : regs_ok (regs (called (junk c1) b m4 c1))).
  { cbn [called regs]. apply regs_ok_set; [|unfold in_u; lia]. intros r. case_decide; [apply (cl_junk Hlay)|].
    cbn [c1 regs]. apply regs_ok_set; [apply F2; [done|apply Hlay]|unfold in_u; lia]. }
  destruct (coop_land tramp (cl_tramp Hlay) b (exec (Mov RSP RAX) (called (junk c1) b m4 c1)) u) as (w & Ew & Hw).
  { cbn [exec called regs]. by rd. }
  { lia. }
  { cbn [exec regs]. apply regs_ok_set; [exact Hregs|apply Hregs]. }
  { done. }
  { done. }
  { exact U3. }
  exists w, m4, (mk_Coop (coop_task_rsp k) (coop_active_tasks k) next (coop_task_priority k) done).
  change (exec_all ([Mov RSP RAX] ++ map Pop coop_popped ++ [Ret]) ?x) with
    (exec_all (map Pop coop_popped ++ [Ret]) (exec (Mov RSP RAX) x)). rewrite Ew.
  split; [done|]. split; [done|]. split; cbn [fst snd cmem on_cpu coop_task_rsp coop_active_tasks coop_current
    coop_task_priority coop_task_done a_parked a_cur a_done]; try done.
  - intros x Hx. unfold in_page in Hx. rewrite Hout by lia. by apply R2.
  - destruct R9 as [S1 S2 S3 S4]. unfold done. destruct retire; [|done]. split; try done.
    + by rewrite length_insert.
    + rewrite list_lookup_insert_ne; [done|by apply H0].
  - intros i b' u' _. apply Hparked.
  - intros x (X1 & X2 & X3). rewrite Hout by (done || by apply (X3 _ _ Hdest)). apply R12. by split.
Qed.

(** The whole session does what the specification says, wherever the timer
    interrupts; it can only lack turns. *)
Lemma coop_session_runs sched n Q v a m m2 t k :
  coop_wp lo hi prios n Q v a m -> Coop_rel a m m2 t k ->
  match coop_session kernel_cs rsp0 exit_code caller_rsp tramp free junk other_trap sched (on_cpu v m2, t, k) with
  | (Ok _, (c', t', k')) => exists v' a' m' m2', Q v' a' m' /\ regs_ok v'.1 /\ Coop_rel a' m' m2' t' k' /\
      c' = exec_all (ring3_task_exit_entry_asm exit_code caller_rsp) (interrupt kernel_cs rsp0 (on_cpu v' m2'))
  | (Hang, _) => Forall (fun i => 1 <= i)%nat sched -> (length sched < n)%nat
  | _ => False
  end.
Proof.
  revert n v a m m2 t k. induction sched as [|j sched IH]; intros n v a m m2 t k Hw HR.
  { cbn [coop_session]. intros _. destruct n; [done|cbn; lia]. }
  cbn [coop_session]. pose proof (wp_run _ _ _ j n v a m m2 Hw (cr_page _ _ _ _ _ HR)) as Hj.
  destruct (urun j (on_cpu v m2)) as [c'|vec c'|]; cbn [ran_to] in Hj; [| |by destruct Hj as (? & ? & ? & _ & _ & _ & [])].
  - destruct Hj as (n' & v' & m' & m2' & -> & Hw' & Hag & Hout & Hn). destruct n' as [|n']; [done|].
    assert (HR' : Coop_rel a m' m2' t k) by (apply (coop_rel_memory a m m2 t k); auto).
    pose proof Hw' as [[Hv Hpc _ _] _].
    destruct (coop_timer v' a m' m2' t k HR' Hv Hpc) as (m3 & t' & E & HR'').
    unfold mbind, M_bind. rewrite E. specialize (IH (S n') v' a m' m3 t' k Hw' HR'').
    destruct (coop_session _ _ _ _ _ _ _ _ sched (on_cpu v' m3, t', k)) as [[|e| |] [[? ?] ?]]; try done.
    intros Hpos. apply Forall_cons in Hpos as [Hj Hpos]. specialize (IH Hpos). cbn [length]. lia.
  - destruct Hj as (n' & i & v' & m' & m2' & -> & Hag & Hout & Hv & Hpc & Ht & Hn & _).
    assert (HR' : Coop_rel a m' m2' t k) by (apply (coop_rel_memory a m m2 t k); auto).
    unfold coop_trap in Ht. destruct (Z.eqb_spec vec 0x82) as [->|H82].
    { exists v', a, m', m2'. split; [done|]. split; [apply Hv|by split]. }
    destruct (_ || _)%bool eqn:Ev; [|done]. destruct Ht as (H0 & next & u & Hnext & Hu & Hw').
    destruct (coop_switch a m' m2' t k v' (vec =? 0x85) next u HR' (proj1 Hv) Hpc ltac:(by intros ?%Z.eqb_eq; apply H0, Z.eqb_eq) Hnext Hu)
      as (w & m3 & k' & E & Hres & HR'').
    assert (Es : (if vec =? 0x83 then ring3_coop_yield_entry_asm tramp junk
                  else if vec =? 0x85 then ring3_coop_task_done_entry_asm tramp junk else other_trap vec) =
                 coop_stub tramp junk (helper_of (vec =? 0x85))).
    { destruct (Z.eqb_spec vec 0x83) as [->|]; [done|]. by destruct (Z.eqb_spec vec 0x85) as [->|]. }
    rewrite Es. unfold mbind, M_bind. rewrite E.
    specialize (IH n' w _ m' m3 t k' (Hw' w Hres) HR'').
    destruct (coop_session _ _ _ _ _ _ _ _ sched (on_cpu w m3, t, k')) as [[|e| |] [[? ?] ?]]; try done.
    intros Hpos. apply Forall_cons in Hpos as [_ Hpos]. specialize (IH Hpos). cbn [length]. lia.
Qed.
End Simulation.

(** ** Entering and leaving *)

(** Words pushed below [top], the last lowest. *)
Lemma push_words vs top m :
  foldl (fun '(sp, m) v => (sp - 8, put_word (sp - 8) v m)) (top, m) vs =
    (top - 8 * Z.of_nat (length vs), write_bytes (top - 8 * Z.of_nat (length vs)) (wbytes (rev vs)) m).
Proof.
  revert top m. induction vs as [|v vs IH]; intros top m.
  - cbn [foldl length rev]. replace (top - 8 * Z.of_nat 0) with top by lia. f_equal.
    apply functional_extensionality. intros x. rewrite write_bytes_out; [done|cbn; lia].
  - cbn [foldl length rev]. rewrite IH. replace (top - 8 - 8 * Z.of_nat (length vs)) with (top - 8 * Z.of_nat (S (length vs))) by lia.
    f_equal. rewrite wbytes_app, write_bytes_app. f_equal. rewrite length_wbytes, length_rev.
    replace (top - 8 * Z.of_nat (S (length vs)) + Z.of_nat (8 * length vs)) with (top - 8) by lia.
    unfold put_word. cbn [wbytes map concat]. by rewrite app_nil_r.
Qed.

(** The frame is a parked task that has not run. *)
Lemma prepare_effect tramp top rip cs ss sp fl m :
  prepare_ring3_initial_stack tramp top rip cs ss sp fl m =
    (Z.land top (2 ^ 64 - 16) - 104,
     write_bytes (Z.land top (2 ^ 64 - 16) - 104) (coop_bytes tramp (fresh rip cs ss sp fl)) m).
Proof.
  unfold prepare_ring3_initial_stack. rewrite push_words. cbn [app replicate length].
  replace (Z.land top (2 ^ 64 - 16) - 8 - 8 * Z.of_nat 12) with (Z.land top (2 ^ 64 - 16) - 104) by lia. done.
Qed.

(** What the caller finds again: its registers, below its return address. *)
Definition caller_frame (f : reg -> Z) : list Z := map f coop_popped.

Lemma bootstrap_lands tramp caller_rsp new_rsp c v s :
  in_u 64 tramp -> regs_ok (regs c) -> regs c RSP = s -> 48 <= s -> in_u 64 caller_rsp ->
  0 <= new_rsp < 2 ^ 64 - 96 -> regs_ok v.1 -> in_u 64 v.2 ->
  read_bytes (cmem c) new_rsp COOP_CTX = coop_bytes tramp v ->
  disjoint_ranges caller_rsp 8 (s - 48) 48 -> disjoint_ranges caller_rsp 8 new_rsp 96 ->
  disjoint_ranges (s - 48) 48 new_rsp 96 ->
  let args := set_reg RDI caller_rsp (set_reg RSI new_rsp (regs c)) in
  exists w m', at_trampoline tramp (exec_all switch_to (mk_Cpu args (rip c) (cmem c))) = Ok (on_cpu w m') /\
    resumes v w /\ words m' (s - 48) (caller_frame (regs c)) /\ word_at m' caller_rsp = s - 48 /\
    (forall x, x < s - 48 \/ s <= x -> x < caller_rsp \/ caller_rsp + 8 <= x -> m' x = cmem c x).
Proof.
  intros Ht Hok Hs H48 Hcell Hn Hv Hpc Hb Hd1 Hd2 Hd3 args. unfold disjoint_ranges in *.
  pose proof (Hok RSP) as Hsp. unfold in_u in Hsp. rewrite Hs in Hsp.
  assert (Hargs : regs_ok args) by (apply regs_ok_set; [apply regs_ok_set; [done|unfold in_u; lia]|done]).
  change switch_to with (map Push (rev coop_popped) ++ [Store RDI RSP; Mov RSP RSI] ++ (map Pop coop_popped ++ [Ret])).
  rewrite !(exec_all_app (map Push _)), (exec_all_app [Store RDI RSP; Mov RSP RSI]).
  destruct (exec_pushes (rev coop_popped) (mk_Cpu args (rip c) (cmem c)) s) as (g & -> & G1 & G2).
  { cbn. unfold args. by rd. }
  { change (rev coop_popped) with [RBP; RBX; R12; R13; R14; R15]. repeat (apply not_elem_of_cons; split; [done|]). apply not_elem_of_nil. }
  { change (length (rev coop_popped)) with 6%nat. lia. }
  change (length (rev coop_popped)) with 6%nat in *. replace (s - 8 * Z.of_nat 6) with (s - 48) in * by lia.
  rewrite rev_involutive. cbn [regs rip cmem].
  set (m1 := write_bytes (s - 48) (wbytes (map args coop_popped)) (cmem c)).
  assert (Hl : length (wbytes (map args coop_popped)) = 48%nat) by (by rewrite length_wbytes).
  cbn [exec_all foldl exec regs rip cmem]. rewrite G1, (G2 RDI) by done. change (args RDI) with caller_rsp.
  set (m2 := put_word caller_rsp (s - 48) m1).
  assert (Hg : regs_ok g).
  { intros r. destruct (decide (r = RSP)) as [->|Hr]; [rewrite G1; unfold in_u; lia|]. rewrite G2 by done. apply Hargs. }
  assert (Hm2 : forall x, x < s - 48 \/ s <= x -> x < caller_rsp \/ caller_rsp + 8 <= x -> m2 x = cmem c x).
  { intros x X1 X2. unfold m2. rewrite put_word_out by done. unfold m1. apply write_bytes_out. rewrite Hl. lia. }
  destruct (coop_land tramp Ht new_rsp (mk_Cpu (set_reg RSP (g RSI) g) (rip c) m2) v) as (w & Ew & Hw); try done.
  { cbn. rewrite set_reg_same, G2 by done. unfold args. by rd. }
  { cbn [regs]. apply regs_ok_set; [done|apply Hg]. }
  { cbn [cmem]. rewrite <- Hb. apply read_bytes_ext. intros x Hx. unfold COOP_CTX in Hx. apply Hm2; lia. }
  exists w, m2. split; [exact Ew|]. split; [done|]. split; [|split; [|done]].
  - apply (words_ext m1).
    + assert (E : map args coop_popped = caller_frame (regs c)) by done. rewrite <- E. apply words_of_bytes.
      * pose proof (read_write_bytes (s - 48) (wbytes (map args coop_popped)) (cmem c)) as H. by rewrite Hl in H.
      * apply List.Forall_map, List.Forall_forall. intros r _. apply Hargs.
    + intros x Hx. change (length (caller_frame (regs c))) with 6%nat in Hx. apply put_word_out. lia.
  - apply word_at_put. unfold in_u. lia.
Qed.

Lemma task_exit_effect exit_code caller_rsp c code q f ra :
  regs c RAX = code -> in_u 64 code -> word_at (cmem c) caller_rsp = q -> words (cmem c) q (map f coop_popped ++ [ra]) ->
  0 <= q < 2 ^ 64 - 56 -> disjoint_ranges exit_code 8 caller_rsp 8 -> disjoint_ranges exit_code 8 q 56 ->
  let c' := exec_all (ring3_task_exit_entry_asm exit_code caller_rsp) c in
  rip c' = ra /\ regs c' RSP = q + 56 /\ (forall r, r ∈ coop_popped -> regs c' r = f r) /\
  cmem c' = put_word exit_code code (cmem c).
Proof.
  intros Ha Hcode Hq Hw Hb Hd1 Hd2 c'. unfold disjoint_ranges in *.
  change c' with (exec_all ([StoreAt exit_code RAX; LoadAt RSP caller_rsp] ++ map Pop coop_popped ++ [Sti; Ret]) c).
  rewrite !exec_all_app.
  change (exec_all [StoreAt exit_code RAX; LoadAt RSP caller_rsp] c) with (exec (LoadAt RSP caller_rsp) (exec (StoreAt exit_code RAX) c)).
  cbn [exec regs rip cmem]. rewrite Ha. rewrite word_at_put_ne by lia. rewrite Hq. set (m := put_word exit_code code (cmem c)).
  assert (Hw' : words m q (map f coop_popped ++ [ra])).
  { apply (words_ext (cmem c)); [done|]. intros x Hx. rewrite length_app, length_map in Hx.
    change (length coop_popped) with 6%nat in Hx. cbn [length] in Hx. apply put_word_out. lia. }
  apply words_app in Hw' as [W1 W2]. rewrite length_map in W2. change (length coop_popped) with 6%nat in W2.
  apply words_cons in W2 as [W2 _].
  destruct (exec_pops coop_popped (mk_Cpu (set_reg RSP q (regs c)) (rip c) m) q (map f coop_popped)) as (g & E & G1 & G2 & G3);
    [cbn; by rd|lia|apply not_rsp_popped|apply nodup_popped|done|change (length coop_popped) with 6%nat; lia|exact W1|].
  rewrite E. change (length coop_popped) with 6%nat in *. replace (8 * Z.of_nat 6) with 48 in * by lia.
  cbn [exec_all foldl exec regs rip cmem]. rewrite (set_reg_other RFLAGS _ _ RSP) by done. rewrite G1, W2.
  split; [done|]. split; [rd; rewrite wrap_id by (unfold in_u; lia); lia|]. split; [|done].
  intros r Hr. assert (r <> RSP /\ r <> RFLAGS) as [N1 N2].
  { unfold coop_popped in Hr. repeat (apply elem_of_cons in Hr as [->|Hr]; [done|]). by apply elem_of_nil in Hr. }
  rewrite (set_reg_other RSP), (set_reg_other RFLAGS) by done. apply list_elem_of_lookup in Hr as [i Hi].
  pose proof (G2 i r Hi) as H. rewrite list_lookup_fmap, Hi in H. by injection H.
Qed.
