(* ===== verification/Ring3CoopTests.v ===== *)
(** * Ring3CoopTests: the cooperative self-tests of [ring3.rs], end to end

    Each test copies a program into the user page, prepares a kernel stack for every
    task, arms the yield mechanism of Ring3Coop and calls [switch_to]; it continues
    when task 0 exits.  The theorem holds for every placement of timer interrupts
    among the programs' instructions. *)
From stdpp Require Import base list numbers strings.
From Stdlib Require Import Lia FunctionalExtensionality.
From S2P Require Import Prelude Mem X64 ContextSwitch AgentScheduler TierSelect Preemptive Ring3Mt PhysMem Ring3Prog Ring3Session Ring3Alone Ring3Coop.
Open Scope Z_scope.

(** ** The tests *)

(** What surrounds a test: the selectors of the GDT, the kernel stack of the TSS, the
    two cells of [ring3.rs] and the trampoline, where the boxed kernel stacks are
    allocated, what called functions leave behind, the caller and the timer when it
    is called, and when the timer interrupts. *)
Record CoopSite := mk_CoopSite {
  co_user_cs : Z; co_user_ss : Z; co_kernel_cs : Z; co_rsp0 : Z;
  co_exit_cell : Z; co_caller_cell : Z; co_tramp : Z;
  co_free : bool; co_other : Z -> M coop_machine unit; co_junk : Cpu -> reg -> Z;
  co_stacks : list Z; co_caller : Cpu; co_timer : Timer;
  co_sched : list nat;
}.

Definition KERNEL_STACK : Z := 16 * 1024.
Definition COOP_RFLAGS : Z := 0x202.

(** [Box::new([0u8; 16 * 1024])] *)
Definition box_stack (base : Z) (m : memory) : memory := write_bytes base (replicate (Z.to_nat KERNEL_STACK) 0) m.

(** The stack of a task whose box is at [base], entered at [entry]. *)
Definition prepare (x : CoopSite) (base entry user_rsp : Z) : M (Coop * memory) Z := fun '(k, m) =>
  let '(sp, m) := prepare_ring3_initial_stack (co_tramp x) (base + KERNEL_STACK) entry (co_user_cs x) (co_user_ss x)
                    user_rsp COOP_RFLAGS m in
  (Ok sp, (k, m)).

(** [switch_to] returns to its caller with the registers a call preserves; if it did
    not, the test would not go on. *)
Definition came_back (c c' : Cpu) : bool :=
  (rip c' =? word_at (cmem c) (regs c RSP)) && (regs c' RSP =? regs c RSP + 8) &&
  forallb (fun r => regs c' r =? regs c r) coop_popped.

Definition enter (x : CoopSite) (new_rsp : Z) : M (Coop * memory) unit := fun '(k, m) =>
  let c := mk_Cpu (regs (co_caller x)) (rip (co_caller x)) m in
  match bootstrap (co_kernel_cs x) (co_rsp0 x) (co_exit_cell x) (co_caller_cell x) (co_tramp x) (co_free x)
          (co_junk x) (co_other x) new_rsp (co_sched x) (c, co_timer x, k) with
  | (Ok _, (c', t', k')) => (if came_back c c' then Ok tt else Hang, (k', cmem c'))
  | (Err e, (c', t', k')) => (Err e, (k', cmem c'))
  | (Panic, (c', t', k')) => (Panic, (k', cmem c'))
  | (Hang, (c', t', k')) => (Hang, (k', cmem c'))
  end.

Definition read_exit_code (x : CoopSite) : M (Coop * memory) Z := gets (fun s => word_at s.2 (co_exit_cell x)).

Definition code_addr : Z := USER_TEST_PAGE_ADDR.
Definition SIG_OFFSET : Z := 600.
Definition sig_addr : Z := code_addr + SIG_OFFSET.

Definition stack_at (x : CoopSite) (i : nat) : M (Coop * memory) Z := lift (idx (co_stacks x) i).

(** What the three tests of three tasks have in common. *)
Definition coop_test (x : CoopSite) (program : list Z) (p0 p1 p2 : Priority) : M (Coop * memory) (Z * list Z) :=
  modify (on_cmem (write_bytes code_addr program));;
  modify (on_cmem (write_bytes sig_addr (replicate 4 0)));;
  k0 ← stack_at x 0; k1 ← stack_at x 1; k2 ← stack_at x 2;
  modify (on_cmem (box_stack k0));; modify (on_cmem (box_stack k1));; modify (on_cmem (box_stack k2));;
  rsp0 ← prepare x k0 (code_addr + Z.of_nat RING3_COOP_TASK0_ENTRY_OFFSET) (code_addr + 2048);
  rsp1 ← prepare x k1 (code_addr + Z.of_nat RING3_COOP_TASK1_ENTRY_OFFSET) (code_addr + 3072);
  rsp2 ← prepare x k2 (code_addr + Z.of_nat RING3_COOP_TASK2_ENTRY_OFFSET) (code_addr + 4096);
  s ← gets fst;
  k ← lift (arm_ring3_coop_tasks [(rsp0, prio_val p0); (rsp1, prio_val p1); (rsp2, prio_val p2)] s);
  modify (fun s => (k, s.2));;
  enter x rsp0;;
  exit_code ← read_exit_code x;
  sig ← gets (fun s => read_bytes s.2 sig_addr 4);
  mret (exit_code, sig).

Definition run_ring3_cooperative_test (x : CoopSite) : M (Coop * memory) (Z * list Z) :=
  program ← lift (build_cooperative_test_program sig_addr);
  coop_test x program Normal Normal Normal.

Definition run_priority_cooperative_test (x : CoopSite) : M (Coop * memory) (Z * list Z) :=
  program ← lift (build_cooperative_test_program sig_addr);
  coop_test x program High Background Background.

Definition YIELD_BODY_OFFSET : nat := 48.
Definition RETIRE_BODY_OFFSET : nat := 74.

(** The program of the early-exit test, assembled in the test itself. *)
Definition early_exit_program : res (list Z) :=
  prologue0 ← build_coop_task_prologue 0 sig_addr RING3_COOP_TASK0_ENTRY_OFFSET YIELD_BODY_OFFSET;
  prologue1 ← build_coop_task_prologue 1 sig_addr RING3_COOP_TASK1_ENTRY_OFFSET RETIRE_BODY_OFFSET;
  prologue2 ← build_coop_task_prologue 2 sig_addr RING3_COOP_TASK2_ENTRY_OFFSET YIELD_BODY_OFFSET;
  Ok (emit (RETIRE_BODY_OFFSET + 10) [
    (Z.of_nat RING3_COOP_TASK0_ENTRY_OFFSET, prologue0); (Z.of_nat RING3_COOP_TASK1_ENTRY_OFFSET, prologue1);
    (Z.of_nat RING3_COOP_TASK2_ENTRY_OFFSET, prologue2); (Z.of_nat YIELD_BODY_OFFSET, yield_body);
    (Z.of_nat RETIRE_BODY_OFFSET, retire_body)]).

Definition run_early_exit_cooperative_test (x : CoopSite) : M (Coop * memory) (Z * list Z * bool * bool * bool) :=
  program ← lift early_exit_program;
  '(exit_code, sig) ← coop_test x program Normal Normal Normal;
  done ← gets (fun s => coop_task_done s.1);
  task0_done ← lift (idx done 0); task1_done ← lift (idx done 1); task2_done ← lift (idx done 2);
  mret (exit_code, sig, task0_done, task1_done, task2_done).

(** Five additions in a loop, then the exit. *)
Definition SUM_PROGRAM : list Z :=
  [0xB9; 0x05; 0x00; 0x00; 0x00; 0xB8; 0x00; 0x00; 0x00; 0x00; 0x01; 0xC8; 0xFF; 0xC9; 0x75; 0xFA; 0xCD; 0x82].

Definition run_ring3_switchto_bootstrap_test (x : CoopSite) : M (Coop * memory) Z :=
  modify (on_cmem (write_bytes code_addr SUM_PROGRAM));;
  base ← stack_at x 0;
  modify (on_cmem (box_stack base));;
  new_rsp ← prepare x base code_addr (code_addr + 4096);
  enter x new_rsp;;
  read_exit_code x.

(** ** What the tests rely on *)

(** The memory in use besides the tasks' stacks: the user page, the caller's stack, the
    two cells and the kernel stack. *)
Definition fixed_regions (x : CoopSite) : list (Z * Z) :=
  [(USER_TEST_PAGE_ADDR, 4096); (regs (co_caller x) RSP - 48, 56); (co_caller_cell x, 8); (co_exit_cell x, 8);
   (co_rsp0 x - 160, 160)].

Record coop_site_ok (x : CoopSite) : Prop := {
  cs_user : in_u 64 (co_user_cs x) /\ Z.land (co_user_cs x) 3 = 3 /\ in_u 64 (co_user_ss x);
  cs_kernel : in_u 64 (co_kernel_cs x) /\ in_u 64 (co_tramp x);
  cs_regs : regs_ok (regs (co_caller x));
  cs_junk : forall c, regs_ok (co_junk x c);
  cs_timer : mt_enabled (t_mt (co_timer x)) = false /\ rp_enabled (t_rp (co_timer x)) = false;
  cs_three : length (co_stacks x) = 3%nat;
  cs_apart : pairwise_apart (fixed_regions x ++ map (fun b => (b, KERNEL_STACK)) (co_stacks x));
}.

Section Enter.
Context (x : CoopSite) (frames bufs prios : list Z).
Hypothesis Hx : coop_site_ok x.
Hypothesis Hfr : pairwise_apart (fixed_regions x ++ map (fun b => (b, 96)) frames).

(** The armed tasks' frames are the prepared ones; or none is armed. *)
Hypothesis Hbufs : bufs = frames \/ bufs = [].

Definition lo : Z := USER_TEST_PAGE_ADDR.
Definition hi : Z := USER_TEST_PAGE_ADDR + 4096.

Lemma frame_region i b : frames !! i = Some b -> (fixed_regions x ++ map (fun b => (b, 96)) frames) !! (5 + i)%nat = Some (b, 96).
Proof. intros Hb. rewrite lookup_app_r by (cbn; lia). cbn [fixed_regions length]. replace (5 + i - 5)%nat with i by lia. by rewrite list_lookup_fmap, Hb. Qed.

Lemma buf_frame i b : bufs !! i = Some b -> frames !! i = Some b.
Proof. destruct Hbufs as [-> | ->]; [done|]. intros H. by rewrite lookup_nil in H. Qed.

Lemma fixed_apart i j a n b k :
  fixed_regions x !! i = Some (a, n) -> fixed_regions x !! j = Some (b, k) -> i <> j -> disjoint_ranges a n b k.
Proof. intros Hi Hj. apply Hfr; apply lookup_app_l_Some; done. Qed.

Lemma fixed_frame_apart i j a n b :
  fixed_regions x !! i = Some (a, n) -> frames !! j = Some b -> disjoint_ranges a n b 96.
Proof.
  intros Hi Hj. apply (proj2 Hfr i (5 + j)%nat); [by apply lookup_app_l_Some|by apply frame_region|].
  apply lookup_lt_Some in Hi. cbn in Hi. lia.
Qed.

Lemma fixed_range i a n : fixed_regions x !! i = Some (a, n) -> 0 <= a /\ a + n < 2 ^ 64.
Proof. intros Hi. apply (proj1 Hfr i). by apply lookup_app_l_Some. Qed.

Lemma enter_layout : coop_layout (co_kernel_cs x) (co_rsp0 x) (co_tramp x) (co_junk x) lo hi bufs.
Proof.
  pose proof (fixed_range 0 _ _ eq_refl) as P0. pose proof (fixed_range 4 _ _ eq_refl) as P4.
  split; unfold lo, hi.
  - lia.
  - lia.
  - apply Hx.
  - apply Hx.
  - apply Hx.
  - intros i b Hb%buf_frame. pose proof (proj1 Hfr _ _ _ (frame_region i b Hb)) as Hr.
    pose proof (fixed_frame_apart 0 i _ _ b eq_refl Hb) as D0. pose proof (fixed_frame_apart 4 i _ _ b eq_refl Hb) as D4.
    unfold disjoint_ranges in *. lia.
  - intros i j a b Hne Ha%buf_frame Hb%buf_frame.
    apply (proj2 Hfr (5 + i)%nat (5 + j)%nat); [by apply frame_region|by apply frame_region|lia].
  - pose proof (fixed_apart 4 0 _ _ _ _ eq_refl eq_refl ltac:(lia)) as D. unfold disjoint_ranges in *. lia.
Qed.

(** The caller's stack and the two cells are out of everybody's way. *)
Lemma fixed_untouched i a n y :
  fixed_regions x !! i = Some (a, n) -> i <> 0%nat -> i <> 4%nat -> a <= y < a + n -> untouched (co_rsp0 x) lo hi bufs y.
Proof.
  intros Hi H0 H4 Hy. pose proof (fixed_apart i 0 _ _ _ _ Hi eq_refl H0) as D0.
  pose proof (fixed_apart i 4 _ _ _ _ Hi eq_refl H4) as D4. unfold lo, hi, untouched, disjoint_ranges in *.
  split; [lia|]. split; [lia|]. intros j b Hb%buf_frame. pose proof (fixed_frame_apart i j _ _ b Hi Hb) as D.
  unfold disjoint_ranges in D. lia.
Qed.

(** What a test finds when its tasks are done. *)
Definition entered_well (Q : vcpu -> Tasks -> memory -> Prop) (n : nat) (r : res unit * (Coop * memory)) : Prop :=
  match r with
  | (Ok _, (k', m')) => exists a v m, Q v a m /\ word_at m' (co_exit_cell x) = v.1 RAX /\ agree (in_page lo hi) m m' /\
      (bufs <> [] -> coop_task_done k' = a_done a)
  | (Hang, _) => Forall (fun i => 1 <= i)%nat (co_sched x) -> (length (co_sched x) < n)%nat
  | _ => False
  end.

Lemma enter_runs new_rsp i0 v parked done k m n Q :
  frames !! i0 = Some new_rsp -> regs_ok v.1 -> in_u 64 v.2 ->
  read_bytes m new_rsp COOP_CTX = coop_bytes (co_tramp x) v ->
  length parked = length bufs ->
  (forall i b u, i <> 0%nat -> bufs !! i = Some b -> parked !! i = Some u ->
     regs_ok u.1 /\ in_u 64 u.2 /\ read_bytes m b COOP_CTX = coop_bytes (co_tramp x) u) ->
  (forall i b, bufs !! i = Some b -> coop_task_rsp k !! i = Some b) ->
  (bufs <> [] -> coop_active_tasks k = length bufs /\ coop_current k = 0%nat /\ coop_task_priority k = prios /\
     coop_task_done k = done /\ select_ok (length bufs) prios done) ->
  (forall w, resumes v w -> coop_wp lo hi prios n Q w (mk_Tasks 0 done parked) m) ->
  entered_well Q n (enter x new_rsp (k, m)).
Proof.
  intros Hnew Hv Hpc Hb Hlen Hpk Hrsp Hk Hw. unfold entered_well, enter, bootstrap.
  cbn [regs rip cmem]. set (s := regs (co_caller x) RSP) in *.
  pose proof (fixed_range 1 _ _ eq_refl) as P1. pose proof (fixed_range 2 _ _ eq_refl) as P2.
  pose proof (fixed_range 3 _ _ eq_refl) as P3.
  pose proof (proj1 Hfr _ _ _ (frame_region _ _ Hnew)) as Pn.
  pose proof (fixed_apart 2 1 _ _ _ _ eq_refl eq_refl ltac:(lia)) as D21. pose proof (fixed_apart 3 1 _ _ _ _ eq_refl eq_refl ltac:(lia)) as D31.
  pose proof (fixed_apart 3 2 _ _ _ _ eq_refl eq_refl ltac:(lia)) as D32.
  pose proof (fixed_frame_apart 1 _ _ _ _ eq_refl Hnew) as D1n. pose proof (fixed_frame_apart 2 _ _ _ _ eq_refl Hnew) as D2n.
  fold s in P1, D21, D31, D1n.
  destruct (bootstrap_lands (co_tramp x) (co_caller_cell x) new_rsp (mk_Cpu (regs (co_caller x)) (rip (co_caller x)) m) v s)
    as (w & m1 & E & Hres & Hframe & Hcell & Hrest).
  1: apply Hx. 1: apply Hx. 1: done. 1: lia. 1: (unfold in_u; lia). 1: lia. 1: done. 1: done. 1: exact Hb.
  1-3: unfold disjoint_ranges in *; lia.
  cbn [regs rip cmem] in *. rewrite E.
  assert (Hra : word_at m1 s = word_at m s).
  { apply word_at_ext. intros y Hy. unfold disjoint_ranges in *. apply Hrest; lia. }
  assert (Hpage : agree (in_page lo hi) m m1).
  { intros y Hy. symmetry. pose proof (fixed_apart 1 0 _ _ _ _ eq_refl eq_refl ltac:(lia)) as D10.
    pose proof (fixed_apart 2 0 _ _ _ _ eq_refl eq_refl ltac:(lia)) as D20. fold s in D10.
    unfold in_page, lo, hi, disjoint_ranges in *. apply Hrest; lia. }
  assert (HR : Coop_rel (co_rsp0 x) (co_tramp x) lo hi bufs prios m1 (mk_Tasks 0 done parked) m m1 (co_timer x) k).
  { split; cbn [a_cur a_parked a_done]; try done; try (intros Hne; by destruct (Hk Hne) as (? & ? & ? & ? & ?)).
    - intros Hne. destruct (Hk Hne) as (_ & K2 & _). split; [done|]. by destruct bufs; [|cbn; lia].
    - intros i b u Hi Hb' Hu. destruct (Hpk i b u Hi Hb' Hu) as (U1 & U2 & U3). split; [done|]. split; [done|].
      rewrite <- U3. apply read_bytes_ext. intros y Hy. unfold COOP_CTX in Hy. apply buf_frame in Hb'.
      pose proof (fixed_frame_apart 1 _ _ _ _ eq_refl Hb') as D1. pose proof (fixed_frame_apart 2 _ _ _ _ eq_refl Hb') as D2.
      fold s in D1. unfold disjoint_ranges in *. apply Hrest; lia.
    - apply Hx. }
  pose proof (coop_session_runs (co_kernel_cs x) (co_rsp0 x) (co_exit_cell x) (co_caller_cell x) (co_tramp x) (co_free x)
    (co_junk x) (co_other x) lo hi bufs prios m1 enter_layout (co_sched x) n Q _ _ _ _ _ _ (Hw w Hres) HR) as Hs.
  destruct (coop_session _ _ _ _ _ _ _ _ _ _) as [[[]|e| |] [[c' t'] k']]; try exact Hs.
  destruct Hs as (u & a & pm & m' & HQ & Hu & HR' & ->). pose proof HR' as [R2 _ _ _ _ _ R8 _ _ _ R12].
  set (ci := interrupt (co_kernel_cs x) (co_rsp0 x) (on_cpu u m')).
  assert (Hm : forall i a n y, fixed_regions x !! i = Some (a, n) -> i <> 0%nat -> i <> 4%nat -> a <= y < a + n -> cmem ci y = m1 y).
  { intros i b l y Hi H0 H4 Hy. pose proof (fixed_untouched i b l y Hi H0 H4 Hy) as Hun.
    rewrite <- (R12 y Hun). unfold ci, interrupt. cbn [cmem on_cpu]. apply write_bytes_out. rewrite length_wbytes. cbn [length].
    destruct Hun as (_ & Hk' & _). lia. }
  destruct (task_exit_effect (co_exit_cell x) (co_caller_cell x) ci (u.1 RAX) (s - 48) (regs (co_caller x)) (word_at m s))
    as (X1 & X2 & X3 & X4).
  { reflexivity. } { apply Hu. }
  { rewrite <- Hcell. apply word_at_ext. intros y Hy. apply (Hm 2%nat _ _ y eq_refl); lia. }
  { apply (words_ext m1).
    - apply words_app. split; [exact Hframe|]. apply words_cons. split; [|by intros ? ? ?].
      rewrite <- Hra. change (Z.of_nat (length (map (regs (co_caller x)) coop_popped))) with 6. f_equal. lia.
    - intros y Hy. rewrite length_app, length_map in Hy. change (length coop_popped) with 6%nat in Hy. cbn [length] in Hy.
      apply (Hm 1%nat _ _ y eq_refl); fold s; lia. }
  { lia. } { unfold disjoint_ranges in *. lia. } { unfold disjoint_ranges in *. lia. }
  fold ci. assert (Hcb : came_back (mk_Cpu (regs (co_caller x)) (rip (co_caller x)) m) (exec_all (ring3_task_exit_entry_asm (co_exit_cell x) (co_caller_cell x)) ci) = true).
  { unfold came_back. cbn [regs cmem]. rewrite X1, X2. fold s. rewrite Z.eqb_refl. replace (s - 48 + 56) with (s + 8) by lia.
    rewrite Z.eqb_refl. cbn [andb]. apply forallb_forall. intros r Hr. apply Z.eqb_eq, X3. by apply list_elem_of_In. }
  rewrite Hcb. exists a, u, pm. split; [done|]. split; [|split; [|done]].
  - rewrite X4. apply word_at_put, Hu.
  - intros y Hy. rewrite X4, put_word_out.
    + rewrite R2 by done. unfold ci, interrupt. cbn [cmem on_cpu]. rewrite write_bytes_out; [done|].
      rewrite length_wbytes. cbn [length]. pose proof (cl_stack _ _ _ _ _ _ _ enter_layout) as D. unfold disjoint_ranges, in_page in *. lia.
    + pose proof (fixed_apart 3 0 _ _ _ _ eq_refl eq_refl ltac:(lia)) as D. unfold in_page, lo, hi, disjoint_ranges in *. lia.
Qed.
End Enter.

(** ** A turn of a task *)

(** Where the pieces of the cooperative programs are. *)
Record prologue_at (prog : list Z) (id : Z) (k o : nat) : Prop := {
  pa_sig : code_at prog k (UMov R12 sig_addr) 10;
  pa_id : code_at prog (k + 10) (UMov8 RBX id) 2;
  pa_jmp : exists rel, code_at prog (k + 12) (UJmp rel) 2 /\ Z.of_nat (k + 14) + rel = Z.of_nat o /\ (o <= 4096)%nat;
}.

Record letter_at (prog : list Z) (vec : Z) (o : nat) : Prop := {
  la_mov : code_at prog o (UMov8R RAX RBX) 2;
  la_add : code_at prog (o + 2) (UAdd8 RAX 0x41) 2;
  la_store : code_at prog (o + 4) (UStore8 R12 (Some RBX) 0 RAX) 4;
  la_int : code_at prog (o + 8) (UInt vec) 2;
}.

Record marker_at (prog : list Z) (o : nat) : Prop := {
  ma_mov : code_at prog o (UMov8R RAX RBX) 2;
  ma_add : code_at prog (o + 2) (UAdd8 RAX 0x58) 2;
  ma_store : code_at prog (o + 4) (UStore8 R12 None 3 RAX) 5;
  ma_code : code_at prog (o + 9) (UMov RAX 42) 5;
  ma_exit : code_at prog (o + 14) (UInt 0x82) 2;
}.

(** A task between its yield and its end knows its number and the buffer. *)
Definition knows (id : Z) (f : reg -> Z) : Prop := in_ring3 f /\ f RBX = id /\ f R12 = sig_addr.

Lemma code_page : 0 <= code_addr /\ code_addr + 4096 < 2 ^ 64.
Proof. unfold code_addr, USER_TEST_PAGE_ADDR. lia. Qed.

Lemma code_user y : code_addr <= y < code_addr + 4096 -> in_page lo hi y.
Proof. done. Qed.

Section Turns.
Context (prios : list Z) (Q : vcpu -> Tasks -> memory -> Prop) (prog : list Z).
Hypothesis Hprog : (length prog <= 600)%nat.

Abbreviation run n k f a m := (coop_wp lo hi prios n Q (f, code_addr + Z.of_nat k) a m).

Definition coop_straight n k i len := run_straight (in_page lo hi) (coop_trap prios Q) no_fault code_addr prog code_page code_user n k i len.
Definition coop_jump n k rel len := run_jump (in_page lo hi) (coop_trap prios Q) no_fault code_addr prog code_page code_user n k rel len.
Definition coop_store n k b ix d src len :=
  run_store (in_page lo hi) (coop_trap prios Q) no_fault code_addr prog code_page code_user n k b ix d src len.
Definition coop_int n k vec len := run_trap (in_page lo hi) (coop_trap prios Q) no_fault code_addr prog code_page code_user n k vec len.

Lemma prologue_runs n id k o f a m :
  prologue_at prog id k o -> 0 <= id < 256 -> in_ring3 f -> f RBX = 0 -> installed m code_addr prog ->
  (forall f', knows id f' -> run n o f' a m) -> run (3 + n) k f a m.
Proof.
  intros [P1 P2 (rel & P3 & Hrel & Ho)] Hid Hf Hb Hm Hn.
  apply (coop_straight (2 + n) _ _ _ _ _ _ P1); try done. intros Hf1.
  apply (coop_straight (1 + n) _ _ _ _ _ _ P2); try done. intros Hf2.
  replace (k + 10 + 2)%nat with (k + 12)%nat by lia.
  apply (coop_jump n _ _ _ _ _ _ o P3); try done; [rewrite <- Hrel; lia|].
  apply Hn. split; [done|]. split.
  - rewrite effect_mov8 by (rewrite effect_keeps by done; exact Hb). apply wrap_id. unfold in_u. lia.
  - rewrite effect_keeps by done. apply effect_mov.
Qed.

(** [id + base] is in [al] after the two instructions that open both bodies. *)
Lemma sum_in_al id base f :
  f RBX = id -> 0 <= id + base < 256 -> u8 (effect (UAdd8 RAX base) (effect (UMov8R RAX RBX) f) RAX) = base + id.
Proof.
  intros Hb Hr. rewrite effect_add8, <- u8_add, effect_mov8r, u8_add, Hb, Z.add_comm. apply wrap_id. unfold in_u. lia.
Qed.

Lemma letter_runs n id o vec f a m :
  letter_at prog vec o -> 0 <= id <= 2 -> knows id f -> installed m code_addr prog ->
  let m' := write_bytes (sig_addr + id) [0x41 + id] m in
  (forall f', knows id f' -> installed m' code_addr prog -> run n (o + 8) f' a m') -> run (3 + n) o f a m.
Proof.
  intros [L1 L2 L3 _] Hid (Hf & Hb & Hr) Hm m' Hn.
  apply (coop_straight (2 + n) _ _ _ _ _ _ L1); try done. intros Hf1.
  apply (coop_straight (1 + n) _ _ _ _ _ _ L2); try done. intros Hf2.
  pose proof (sum_in_al id 0x41 f Hb ltac:(lia)) as Hv.
  set (f2 := effect (UAdd8 RAX 65) (effect (UMov8R RAX RBX) f)) in *.
  assert (K2 : f2 RBX = id) by (unfold f2; by rewrite !effect_keeps by done).
  assert (K3 : f2 R12 = sig_addr) by (unfold f2; by rewrite !effect_keeps by done).
  replace (o + 2 + 2)%nat with (o + 4)%nat by lia.
  apply (coop_store n _ _ _ _ _ _ _ _ _ (sig_addr + id) L3); try done.
  - cbn [store_address]. rewrite K2, K3. f_equal. rewrite wrap_id; [lia|].
    unfold in_u, sig_addr, code_addr, USER_TEST_PAGE_ADDR, SIG_OFFSET. lia.
  - unfold in_page, lo, hi, sig_addr, code_addr, SIG_OFFSET. lia.
  - unfold sig_addr, SIG_OFFSET. lia.
  - rewrite Hv. replace (o + 4 + 4)%nat with (o + 8)%nat by lia. intros Hm'. by apply Hn.
Qed.

(** The last turn of task 0: the marker, and the exit code. *)
Lemma marker_runs id o f a m :
  marker_at prog o -> 0 <= id <= 2 -> knows id f -> installed m code_addr prog ->
  (forall f' pc, f' RAX = 42 -> Q (f', pc) a (write_bytes (sig_addr + 3) [0x58 + id] m)) -> run 5 o f a m.
Proof.
  intros [L1 L2 L3 L4 L5] Hid (Hf & Hb & Hr) Hm Hn.
  apply (coop_straight 4 _ _ _ _ _ _ L1); try done. intros Hf1.
  apply (coop_straight 3 _ _ _ _ _ _ L2); try done. intros Hf2.
  pose proof (sum_in_al id 0x58 f Hb ltac:(lia)) as Hv.
  set (f2 := effect (UAdd8 RAX 88) (effect (UMov8R RAX RBX) f)) in *.
  assert (K3 : f2 R12 = sig_addr) by (unfold f2; by rewrite !effect_keeps by done).
  replace (o + 2 + 2)%nat with (o + 4)%nat by lia.
  apply (coop_store 2 _ _ _ _ _ _ _ _ _ (sig_addr + 3) L3); try done.
  - cbn [store_address]. by rewrite K3.
  - unfold sig_addr, SIG_OFFSET. lia.
  - rewrite Hv. replace (o + 4 + 5)%nat with (o + 9)%nat by lia. intros Hm'.
    apply (coop_straight 1 _ _ _ _ _ _ L4); try done. intros Hf4.
    replace (o + 9 + 5)%nat with (o + 14)%nat by lia.
    apply (coop_int 0 _ _ _ _ _ _ L5 Hm' Hf4). apply Hn. apply effect_mov.
Qed.

(** A whole turn, from a task's entry to the task chosen next. *)
Lemma turn_runs n id k o vec next f a m :
  prologue_at prog id k o -> letter_at prog vec o -> 0 <= id <= 2 -> vec = 0x83 \/ vec = 0x85 ->
  in_ring3 f -> f RBX = 0 -> installed m code_addr prog -> (vec = 0x85 -> a_cur a <> 0%nat) ->
  let done' := if vec =? 0x85 then <[a_cur a := true]> (a_done a) else a_done a in
  let m' := write_bytes (sig_addr + id) [0x41 + id] m in
  let parked' f' := <[a_cur a := (f', code_addr + Z.of_nat (o + 10))]> (a_parked a) in
  select_next (length (a_parked a)) (length (a_parked a)) (a_cur a) prios done' = Ok next ->
  (forall f', knows id f' -> installed m' code_addr prog ->
     exists v, parked' f' !! next = Some v /\
       forall w, resumes v w -> coop_wp lo hi prios n Q w (mk_Tasks next done' (parked' f')) m') ->
  run (7 + n) k f a m.
Proof.
  intros P L Hid Hvec Hf Hb Hm H0 done' m' parked' Hsel Hn.
  apply (prologue_runs (4 + n) id k o); [done|lia|done..|]. intros f1 K1.
  apply (letter_runs (1 + n) id o vec); [done..|]. intros f2 K2 Hm'. fold m' in Hm' |- *.
  apply (coop_int n _ _ _ _ _ _ (la_int _ _ _ L) Hm' (proj1 K2)).
  replace (o + 8 + 2)%nat with (o + 10)%nat by lia. unfold coop_trap.
  assert (E : (vec =? 0x82) = false /\ ((vec =? 0x83) || (vec =? 0x85)) = true) by (destruct Hvec as [-> | ->]; done).
  destruct E as [-> ->]. split; [intros Hr%Z.eqb_eq; by apply H0|].
  destruct (Hn f2 K2 Hm') as (v & Hv & Hw). exists next, v. rewrite length_insert. by split.
Qed.

(** Where a resumed task is. *)
Lemma resumed_fresh n k cs ss sp fl a m :
  Z.land cs 3 = 3 ->
  (forall f, in_ring3 f -> f RBX = 0 -> run n k f a m) ->
  forall w, resumes (fresh (code_addr + Z.of_nat k) cs ss sp fl) w -> coop_wp lo hi prios n Q w a m.
Proof.
  intros Hcs Hn [f pc] (Hok & Hpc & Hs). cbn [fst snd fresh] in *. subst pc. apply Hn.
  - split; [done|]. by rewrite (Hs CS) by (apply elem_of_app; right; left).
  - rewrite (Hs RBX) by (apply survivors_popped; unfold coop_popped; do 4 right; left). done.
Qed.

Lemma resumed_knows n id k f a m :
  knows id f -> (forall f', knows id f' -> run n k f' a m) ->
  forall w, resumes (f, code_addr + Z.of_nat k) w -> coop_wp lo hi prios n Q w a m.
Proof.
  intros [[_ Kc] [Kb Kr]] Hn [g pc] (Hok & Hpc & Hs). cbn [fst snd] in *. subst pc. apply Hn.
  assert (Hp : forall r, r ∈ coop_popped -> g r = f r) by (intros; by apply Hs, survivors_popped).
  split; [split; [done|]|split].
  - by rewrite (Hs CS) by (apply elem_of_app; right; left).
  - rewrite Hp; [done|]. unfold coop_popped. do 4 right; left.
  - rewrite Hp; [done|]. unfold coop_popped. do 3 right; left.
Qed.
End Turns.

(** ** The programs as they are assembled *)

Definition coop_program : list Z :=
  match build_cooperative_test_program sig_addr with Ok p => p | _ => [] end.

Definition early_program : list Z := match early_exit_program with Ok p => p | _ => [] end.

Lemma coop_program_builds : build_cooperative_test_program sig_addr = Ok coop_program.
Proof. reflexivity. Qed.

Lemma early_program_builds : early_exit_program = Ok early_program.
Proof. reflexivity. Qed.

Lemma coop_program_short : (length coop_program <= 600)%nat.
Proof. change (length coop_program) with 74%nat. lia. Qed.

Lemma early_program_short : (length early_program <= 600)%nat.
Proof. change (length early_program) with 84%nat. lia. Qed.

Lemma coop_pieces :
  prologue_at coop_program 0 0 48 /\ prologue_at coop_program 1 16 48 /\ prologue_at coop_program 2 32 48 /\
  letter_at coop_program 0x83 48 /\ marker_at coop_program 58.
Proof.
  split; [|split; [|split; [|split]]].
  - split; [code_here|code_here|]. exists 34. split; [code_here|lia].
  - split; [code_here|code_here|]. exists 18. split; [code_here|lia].
  - split; [code_here|code_here|]. exists 2. split; [code_here|lia].
  - split; code_here.
  - split; code_here.
Qed.

Lemma early_pieces :
  prologue_at early_program 0 0 48 /\ prologue_at early_program 1 16 74 /\ prologue_at early_program 2 32 48 /\
  letter_at early_program 0x83 48 /\ letter_at early_program 0x85 74 /\ marker_at early_program 58.
Proof.
  split; [|split; [|split; [|split; [|split]]]].
  - split; [code_here|code_here|]. exists 34. split; [code_here|lia].
  - split; [code_here|code_here|]. exists 44. split; [code_here|lia].
  - split; [code_here|code_here|]. exists 2. split; [code_here|lia].
  - split; code_here.
  - split; code_here.
  - split; code_here.
Qed.

(** ** What the programs do, each task alone between two yields *)

Section Outcomes.
Context (cs ss fl : Z) (rest : list Z) (prog : list Z) (m : memory).
Hypothesis Hcs : Z.land cs 3 = 3.
Hypothesis Hlen : (length prog <= 600)%nat.
Hypothesis Hm : installed m code_addr prog.

Definition task_entry (k : nat) (sp : Z) : vcpu := fresh (code_addr + Z.of_nat k) cs ss sp fl.

Definition entries : list vcpu :=
  [task_entry RING3_COOP_TASK0_ENTRY_OFFSET (code_addr + 2048); task_entry RING3_COOP_TASK1_ENTRY_OFFSET (code_addr + 3072);
   task_entry RING3_COOP_TASK2_ENTRY_OFFSET (code_addr + 4096)].

Definition none_done : list bool := replicate RING3_COOP_MAX_TASKS false.

(** The exit code, the letters in the buffer, who has retired. *)
Definition ends_with (code : Z) (sig : list Z) (done : list bool) (v : vcpu) (a : Tasks) (m' : memory) : Prop :=
  v.1 RAX = code /\ read_bytes m' sig_addr 4 = sig /\ a_done a = done.

(** Three turns of the round robin, and the end of task 0; task 1 yields or retires. *)
Lemma three_turns o1 vec1 w :
  prologue_at prog 0 0 48 -> prologue_at prog 1 16 o1 -> prologue_at prog 2 32 48 ->
  letter_at prog 0x83 48 -> letter_at prog vec1 o1 -> marker_at prog 58 -> vec1 = 0x83 \/ vec1 = 0x85 ->
  resumes (task_entry RING3_COOP_TASK0_ENTRY_OFFSET (code_addr + 2048)) w ->
  let done := if vec1 =? 0x85 then [false; true; false; false] else none_done in
  coop_wp lo hi (2 :: 2 :: 2 :: rest) 26 (ends_with 42 [0x41; 0x42; 0x43; 0x58] done) w (mk_Tasks 0 none_done entries) m.
Proof.
  intros P0 P1 P2 L0 L1 M Hv1 Hw done. revert w Hw. apply resumed_fresh; [done|]. intros f0 Hf0 Hb0.
  apply (turn_runs _ _ prog Hlen 19 0 0 48 0x83 1%nat); [done|done|lia|by left|done..|].
  intros g0 K0 Hm0. eexists. split; [reflexivity|]. apply resumed_fresh; [done|]. intros f1 Hf1 Hb1.
  apply (turn_runs _ _ prog Hlen 12 1 16 o1 vec1 2%nat); [done|done|lia|done..| |].
  { by destruct Hv1 as [-> | ->]. }
  intros g1 K1 Hm1. eexists. split; [reflexivity|]. apply resumed_fresh; [done|]. intros f2 Hf2 Hb2.
  apply (turn_runs _ _ prog Hlen 5 2 32 48 0x83 0%nat); [done|done|lia|by left|done..| |].
  { by destruct Hv1 as [-> | ->]. }
  intros g2 K2 Hm2. eexists. split; [reflexivity|]. apply (resumed_knows _ _ _ 0 58 g0 _ _ K0). intros f3 K3.
  apply (marker_runs _ _ prog Hlen 0); [done|lia|done|done|]. intros f' pc Hax.
  split; [done|]. split; [reflexivity|]. cbn [a_done]. by destruct Hv1 as [-> | ->].
Qed.

(** A task of its own tier yields to itself. *)
Lemma two_turns w :
  prologue_at prog 0 0 48 -> letter_at prog 0x83 48 -> marker_at prog 58 ->
  read_bytes m sig_addr 4 = [0; 0; 0; 0] ->
  resumes (task_entry RING3_COOP_TASK0_ENTRY_OFFSET (code_addr + 2048)) w ->
  coop_wp lo hi (1 :: 3 :: 3 :: rest) 12 (ends_with 42 [0x41; 0; 0; 0x58] none_done) w (mk_Tasks 0 none_done entries) m.
Proof.
  intros P0 L0 M Hz Hw. revert w Hw. apply resumed_fresh; [done|]. intros f0 Hf0 Hb0.
  apply (turn_runs _ _ prog Hlen 5 0 0 48 0x83 0%nat); [done|done|lia|by left|done..|].
  intros g0 K0 Hm0. eexists. split; [reflexivity|]. apply (resumed_knows _ _ _ 0 58 g0 _ _ K0). intros f3 K3.
  apply (marker_runs _ _ prog Hlen 0); [done|lia|done|done|]. intros f' pc Hax.
  split; [done|]. split; [|done]. injection Hz as _ E1 E2 _.
  transitivity [0x41; m (sig_addr + 1); m (sig_addr + 2); 0x58]; [reflexivity|].
  change (m (sig_addr + 1)) with (m (sig_addr + Z.of_nat 1)). change (m (sig_addr + 2)) with (m (sig_addr + Z.of_nat 2)).
  by rewrite E1, E2.
Qed.
End Outcomes.

Lemma sum_pieces :
  code_at SUM_PROGRAM 0 (UMov RCX 5) 5 /\ code_at SUM_PROGRAM 5 (UMov RAX 0) 5 /\
  code_at SUM_PROGRAM 10 (UAdd RAX RCX) 2 /\ code_at SUM_PROGRAM 12 (UDec RCX) 2 /\
  code_at SUM_PROGRAM 14 (UJnz (-6)) 2 /\ code_at SUM_PROGRAM 16 (UInt 0x82) 2.
Proof. do 5 (split; [code_here|]). code_here. Qed.

(** [1 + ... + c] *)
Fixpoint sum_to (c : nat) : Z := match c with O => 0 | S c' => Z.of_nat c + sum_to c' end.

Section Sum.
Context (prios : list Z) (Q : vcpu -> Tasks -> memory -> Prop) (t : Tasks) (m : memory).
Hypothesis Hm : installed m code_addr SUM_PROGRAM.

Abbreviation sum_wp n k f := (coop_wp lo hi prios n Q (f, code_addr + Z.of_nat k) t m).

(** One round of the loop, with [S c] rounds to go. *)
Lemma sum_round n c a f :
  (c <= 10)%nat -> in_ring3 f -> f RCX = Z.of_nat (S c) -> f RAX = a -> 0 <= a <= 1000 ->
  (forall f', in_ring3 f' -> f' RCX = Z.of_nat c -> f' RAX = a + Z.of_nat (S c) ->
     sum_wp n (if (c =? 0)%nat then 16 else 10)%nat f') ->
  sum_wp (3 + n)%nat 10%nat f.
Proof.
  destruct sum_pieces as (_ & _ & P2 & P3 & P4 & _). intros Hc Hf Hcx Hax Ha Hn.
  apply (coop_straight prios Q SUM_PROGRAM (2 + n)%nat _ _ _ _ _ _ P2); [done..|]. intros Hf1.
  set (f1 := effect (UAdd RAX RCX) f) in *.
  apply (coop_straight prios Q SUM_PROGRAM (1 + n)%nat _ _ _ _ _ _ P3); [done..|]. intros Hf2.
  apply (run_jnz _ (coop_trap prios Q) no_fault code_addr SUM_PROGRAM code_page code_user n _ _ _ _ _ _ 10 P4); [done..|lia|lia|].
  assert (E1 : f1 RCX = Z.of_nat (S c)) by (unfold f1; by rewrite effect_keeps).
  assert (E2 : f1 RAX = a + Z.of_nat (S c)).
  { unfold f1, effect. cbn [uexec put32 regs]. rd. rewrite Hax, Hcx. apply wrap_id. unfold in_u. lia. }
  rewrite effect_dec_zf, E1 by done. rewrite wrap_id by (unfold in_u; lia).
  replace (Z.of_nat (S c) - 1 =? 0) with (c =? 0)%nat by (destruct (Nat.eqb_spec c 0), (Z.eqb_spec (Z.of_nat (S c) - 1) 0); try done; lia).
  apply Hn; [done| |].
  - rewrite effect_dec_val, E1 by done. rewrite wrap_id; [lia|]. unfold in_u. lia.
  - by rewrite effect_dec.
Qed.

Lemma sum_loop c a f :
  (c <= 10)%nat -> in_ring3 f -> f RCX = Z.of_nat (S c) -> f RAX = a -> 0 <= a <= 500 - 50 * Z.of_nat c ->
  (forall f' pc, f' RAX = a + sum_to (S c) -> Q (f', pc) t m) ->
  sum_wp (3 * S c + 1)%nat 10%nat f.
Proof.
  destruct sum_pieces as (_ & _ & _ & _ & _ & P5).
  revert a f. induction c as [|c IH]; intros a f Hc Hf Hcx Hax Ha Hq.
  - apply (sum_round 1 0 a); [lia|done|done|done|lia|]. intros f' Hf' _ Hax'. cbn [Nat.eqb].
    apply (coop_int prios Q SUM_PROGRAM 0%nat _ _ _ _ _ _ P5 Hm Hf'). apply Hq. rewrite Hax'. cbn [sum_to]. lia.
  - replace (3 * S (S c) + 1)%nat with (3 + (3 * S c + 1))%nat by lia.
    apply (sum_round _ (S c) a); [lia|done|done|done|lia|]. intros f' Hf' Hcx' Hax'. cbn [Nat.eqb].
    apply (IH (a + Z.of_nat (S (S c)))); [lia|done|done|done|lia|]. intros g pc Hg. apply Hq. rewrite Hg. cbn [sum_to]. lia.
Qed.

Lemma sum_start n f :
  in_ring3 f -> (forall f', in_ring3 f' -> f' RCX = 5 -> f' RAX = 0 -> sum_wp n 10%nat f') -> sum_wp (2 + n)%nat 0%nat f.
Proof.
  destruct sum_pieces as (P0 & P1 & _). intros Hf Hn.
  apply (coop_straight prios Q SUM_PROGRAM (1 + n)%nat _ _ _ _ _ _ P0); [done..|]. intros Hf1.
  apply (coop_straight prios Q SUM_PROGRAM n _ _ _ _ _ _ P1); [done..|]. intros Hf2.
  apply Hn; [done| |apply effect_mov]. rewrite effect_keeps by done. apply effect_mov.
Qed.

Lemma sum_runs f :
  in_ring3 f -> (forall f' pc, f' RAX = 15 -> Q (f', pc) t m) -> sum_wp 18%nat 0%nat f.
Proof.
  intros Hf Hq. refine (sum_start 16 f Hf _). intros f' Hf' Hc Ha.
  refine (sum_loop 4 0 f' _ Hf' Hc Ha _ _); [lia|lia|]. intros g pc Hg. by apply Hq.
Qed.
End Sum.

(** ** A test from its first line to its last *)

(** Where a task's frame is, in the stack boxed at [base]. *)
Definition frame_in (base : Z) : Z := Z.land (base + KERNEL_STACK) (2 ^ 64 - 16) - 104.

Lemma frame_in_box base :
  0 <= base -> base + KERNEL_STACK < 2 ^ 64 -> base <= frame_in base /\ frame_in base + 96 <= base + KERNEL_STACK.
Proof. unfold frame_in, KERNEL_STACK. intros H0 H1. rewrite align16 by lia. div_lia. Qed.

Lemma prepare_runs x base entry sp k m :
  prepare x base entry sp (k, m) =
    (Ok (frame_in base), (k, write_bytes (frame_in base)
      (coop_bytes (co_tramp x) (fresh entry (co_user_cs x) (co_user_ss x) sp COOP_RFLAGS)) m)).
Proof. unfold prepare. by rewrite prepare_effect. Qed.

Lemma entry_regs_ok x entry sp :
  coop_site_ok x -> in_u 64 sp -> regs_ok (fresh entry (co_user_cs x) (co_user_ss x) sp COOP_RFLAGS).1.
Proof. intros [(H1 & _ & H2) _ _ _ _ _ _] Hs r. destruct r; cbn [fresh fst]; try done; unfold in_u; cbn; lia. Qed.

Lemma read_out a bs b n m : disjoint_ranges a (Z.of_nat (length bs)) b (Z.of_nat n) -> read_bytes (write_bytes a bs m) b n = read_bytes m b n.
Proof. intros H. unfold disjoint_ranges in H. apply read_bytes_ext. intros y Hy. apply write_bytes_out. lia. Qed.

Section Boxes.
Context (x : CoopSite) (b0 b1 b2 : Z).
Hypothesis Hx : coop_site_ok x.
Hypothesis Hb : co_stacks x = [b0; b1; b2].

Definition frames : list Z := map frame_in [b0; b1; b2].

Lemma frames_apart : pairwise_apart (fixed_regions x ++ map (fun b => (b, 96)) frames).
Proof.
  pose proof (cs_apart _ Hx) as Hap. rewrite Hb in Hap. apply (pairwise_inside _ _ Hap).
  { rewrite !length_app. done. }
  intros i a n b k Hi Hj. destruct (decide (i < 5)%nat) as [H5|H5].
  - rewrite lookup_app_l in Hi, Hj by (cbn; lia). rewrite Hi in Hj. injection Hj as -> ->. lia.
  - pose proof (proj1 Hap _ _ _ Hi) as Hr. rewrite lookup_app_r in Hi, Hj by (cbn; lia). unfold frames in Hj.
    cbn [fixed_regions length] in Hi, Hj. rewrite list_lookup_fmap in Hi. rewrite !list_lookup_fmap in Hj.
    destruct ([b0; b1; b2] !! (i - 5)%nat) as [c|]; [|done]. injection Hi as <- <-. injection Hj as <- <-.
    destruct Hr as [Hr0 Hr1]; by apply frame_in_box.
Qed.

Lemma box_apart i b a n j : [b0; b1; b2] !! i = Some b -> fixed_regions x !! j = Some (a, n) -> disjoint_ranges a n b KERNEL_STACK.
Proof.
  intros Hi Hj. pose proof (cs_apart _ Hx) as [_ Hap]. rewrite Hb in Hap. apply (Hap j (5 + i)%nat).
  - by apply lookup_app_l_Some.
  - rewrite lookup_app_r by (cbn; lia). cbn [fixed_regions length]. replace (5 + i - 5)%nat with i by lia.
    by rewrite list_lookup_fmap, Hi.
  - apply lookup_lt_Some in Hj. cbn in Hj. lia.
Qed.

Section Prepared.
Context (program : list Z) (m : memory).
Hypothesis Hlen : (length program <= 600)%nat.

Definition task_bytes (entry : nat) (sp : Z) : list Z :=
  coop_bytes (co_tramp x) (task_entry (co_user_cs x) (co_user_ss x) COOP_RFLAGS entry sp).

(** The memory a test of three tasks starts with. *)
Definition page_ready : memory := write_bytes sig_addr (replicate 4 0) (write_bytes code_addr program m).
Definition boxes_ready : memory := box_stack b2 (box_stack b1 (box_stack b0 page_ready)).
Definition all_ready : memory :=
  write_bytes (frame_in b2) (task_bytes RING3_COOP_TASK2_ENTRY_OFFSET (code_addr + 4096))
    (write_bytes (frame_in b1) (task_bytes RING3_COOP_TASK1_ENTRY_OFFSET (code_addr + 3072))
      (write_bytes (frame_in b0) (task_bytes RING3_COOP_TASK0_ENTRY_OFFSET (code_addr + 2048)) boxes_ready)).

Lemma frame_apart i j b c : [b0; b1; b2] !! i = Some b -> [b0; b1; b2] !! j = Some c -> i <> j ->
  disjoint_ranges (frame_in b) 96 (frame_in c) 96.
Proof.
  intros Hi Hj Hne. pose proof (proj2 frames_apart (5 + i)%nat (5 + j)%nat) as H.
  apply H; [| |lia]; apply frame_region; unfold frames; rewrite list_lookup_fmap; [by rewrite Hi|by rewrite Hj].
Qed.

Lemma page_kept y : lo <= y < hi -> all_ready y = page_ready y.
Proof.
  intros Hy. unfold lo, hi in Hy.
  assert (Hf : forall i b, [b0; b1; b2] !! i = Some b -> (y < frame_in b \/ frame_in b + 96 <= y) /\ (y < b \/ b + KERNEL_STACK <= y)).
  { intros i b Hi. pose proof (box_apart i b _ _ 0 Hi eq_refl) as D.
    pose proof (fixed_frame_apart x frames frames_apart 0 i _ _ (frame_in b) eq_refl) as D'.
    unfold frames in D'. rewrite list_lookup_fmap, Hi in D'. specialize (D' eq_refl). unfold disjoint_ranges in *. lia. }
  pose proof (Hf 0%nat _ eq_refl) as [F0 G0]. pose proof (Hf 1%nat _ eq_refl) as [F1 G1]. pose proof (Hf 2%nat _ eq_refl) as [F2 G2].
  unfold all_ready, boxes_ready, box_stack, task_bytes.
  rewrite !write_bytes_out; [done|rewrite ?length_replicate, ?(length_coop_bytes (co_tramp x)); unfold COOP_CTX, KERNEL_STACK in *; rewrite ?Z2Nat.id by lia; lia..].
Qed.

Lemma program_ready : installed all_ready code_addr program.
Proof.
  intros i b Hi. pose proof (lookup_lt_Some _ _ _ Hi) as Hl.
  assert (R : code_addr <= code_addr + Z.of_nat i < code_addr + 600) by lia.
  rewrite page_kept by (unfold lo, hi, code_addr in *; lia). unfold page_ready.
  rewrite write_bytes_out by (unfold sig_addr, SIG_OFFSET; lia). by apply write_bytes_in.
Qed.

Lemma buffer_ready : read_bytes all_ready sig_addr 4 = [0; 0; 0; 0].
Proof.
  rewrite (read_bytes_ext _ page_ready).
  - apply (read_write_bytes sig_addr (replicate 4 0)).
  - intros y Hy. apply page_kept. unfold lo, hi, sig_addr, code_addr, SIG_OFFSET in *. lia.
Qed.

Lemma contexts_ready :
  read_bytes all_ready (frame_in b0) COOP_CTX = task_bytes RING3_COOP_TASK0_ENTRY_OFFSET (code_addr + 2048) /\
  read_bytes all_ready (frame_in b1) COOP_CTX = task_bytes RING3_COOP_TASK1_ENTRY_OFFSET (code_addr + 3072) /\
  read_bytes all_ready (frame_in b2) COOP_CTX = task_bytes RING3_COOP_TASK2_ENTRY_OFFSET (code_addr + 4096).
Proof.
  assert (L : forall e sp, length (task_bytes e sp) = COOP_CTX) by (intros; apply length_coop_bytes).
  pose proof (frame_apart 1 0 b1 b0 eq_refl eq_refl ltac:(lia)) as D10.
  pose proof (frame_apart 2 0 b2 b0 eq_refl eq_refl ltac:(lia)) as D20.
  pose proof (frame_apart 2 1 b2 b1 eq_refl eq_refl ltac:(lia)) as D21.
  unfold all_ready. split; [|split].
  - rewrite !read_out by (rewrite L; done). rewrite <- (L 0%nat (code_addr + 2048)). apply read_write_bytes.
  - rewrite read_out by (rewrite L; done). rewrite <- (L 16%nat (code_addr + 3072)). apply read_write_bytes.
  - rewrite <- (L 32%nat (code_addr + 4096)). apply read_write_bytes.
Qed.
End Prepared.
End Boxes.

(** The statics of the mechanism have four slots, with [u8] priorities. *)
Record coop_ok (k : Coop) : Prop := {
  ck_rsp : length (coop_task_rsp k) = RING3_COOP_MAX_TASKS;
  ck_prio : length (coop_task_priority k) = RING3_COOP_MAX_TASKS;
  ck_done : length (coop_task_done k) = RING3_COOP_MAX_TASKS;
  ck_u8 : Forall (fun p => 0 <= p <= U8_MAX) (coop_task_priority k);
}.

(** The answer of a test; it lacks turns only when fewer than [n] are given. *)
Definition answers_in {A} (x : CoopSite) (n : nat) (P : A -> Coop -> Prop) (r : res A * (Coop * memory)) : Prop :=
  match r with
  | (Ok a, (k', _)) => P a k'
  | (Hang, _) => Forall (fun i => 1 <= i)%nat (co_sched x) -> (length (co_sched x) < n)%nat
  | _ => False
  end.

Section CoopTest.
Context (x : CoopSite) (k : Coop) (m : memory).
Hypothesis Hx : coop_site_ok x.
Hypothesis Hk : coop_ok k.

Lemma arm_three a b c p0 p1 p2 :
  let rest := drop 3 (coop_task_priority k) in
  let prios := prio_val p0 :: prio_val p1 :: prio_val p2 :: rest in
  arm_ring3_coop_tasks [(a, prio_val p0); (b, prio_val p1); (c, prio_val p2)] k =
    Ok (mk_Coop (a :: b :: c :: drop 3 (coop_task_rsp k)) 3 0 prios none_done) /\
  select_ok 3 prios none_done.
Proof.
  intros rest prios. destruct Hk as [K1 K2 K3 K4]. split.
  - unfold arm_ring3_coop_tasks, arm_task_slots. rewrite K1, K3. done.
  - split; [cbn; lia|cbn; lia| |done]. intros i p Hi.
    assert (HF : Forall (fun p => 0 <= p <= U8_MAX) prios).
    { repeat (apply List.Forall_cons; [apply prio_val_u8|]). by apply Forall_drop. }
    exact (Forall_lookup_1 _ _ _ _ HF Hi).
Qed.

(** Everything before the switch, in one memory. *)
Lemma coop_test_enters b0 b1 b2 program p0 p1 p2 k1 :
  co_stacks x = [b0; b1; b2] ->
  arm_ring3_coop_tasks [(frame_in b0, prio_val p0); (frame_in b1, prio_val p1); (frame_in b2, prio_val p2)] k = Ok k1 ->
  coop_test x program p0 p1 p2 (k, m) =
    (enter x (frame_in b0);; code ← read_exit_code x; sig ← gets (fun s => read_bytes s.2 sig_addr 4); mret (code, sig))
      (k1, all_ready x b0 b1 b2 program m).
Proof.
  intros Hb Harm. unfold coop_test, stack_at. rewrite Hb.
  change (idx [b0; b1; b2] 0) with (Ok b0). change (idx [b0; b1; b2] 1) with (Ok b1). change (idx [b0; b1; b2] 2) with (Ok b2).
  unfold mbind, M_bind, modify, gets, lift, on_cmem. cbn [fst snd]. rewrite prepare_runs. cbn [fst snd].
  rewrite prepare_runs. cbn [fst snd]. rewrite prepare_runs. cbn [fst snd]. rewrite Harm. reflexivity.
Qed.

Lemma coop_test_runs program p0 p1 p2 n code sig done :
  (length program <= 600)%nat ->
  (forall M w, installed M code_addr program -> read_bytes M sig_addr 4 = [0; 0; 0; 0] ->
     resumes (task_entry (co_user_cs x) (co_user_ss x) COOP_RFLAGS RING3_COOP_TASK0_ENTRY_OFFSET (code_addr + 2048)) w ->
     coop_wp lo hi (prio_val p0 :: prio_val p1 :: prio_val p2 :: drop 3 (coop_task_priority k)) n (ends_with code sig done) w
       (mk_Tasks 0 none_done (entries (co_user_cs x) (co_user_ss x) COOP_RFLAGS)) M) ->
  answers_in x n (fun a k' => a = (code, sig) /\ coop_task_done k' = done) (coop_test x program p0 p1 p2 (k, m)).
Proof.
  intros Hlen Hw. pose proof (cs_three _ Hx) as H3.
  destruct (co_stacks x) as [|b0 [|b1 [|b2 [|]]]] eqn:Hb; try done. clear H3.
  destruct (arm_three (frame_in b0) (frame_in b1) (frame_in b2) p0 p1 p2) as [Harm Hsel].
  set (prios := prio_val p0 :: prio_val p1 :: prio_val p2 :: drop 3 (coop_task_priority k)) in *.
  set (k1 := mk_Coop _ 3 0 prios none_done) in Harm.
  assert (Henter : entered_well x (frames b0 b1 b2) (ends_with code sig done) n (enter x (frame_in b0) (k1, all_ready x b0 b1 b2 program m))).
  { destruct (contexts_ready x b0 b1 b2 Hx Hb program m Hlen) as (C0 & C1 & C2).
    apply (enter_runs x (frames b0 b1 b2) (frames b0 b1 b2) prios Hx (frames_apart x b0 b1 b2 Hx Hb) (or_introl eq_refl)
      (frame_in b0) 0 (task_entry (co_user_cs x) (co_user_ss x) COOP_RFLAGS RING3_COOP_TASK0_ENTRY_OFFSET (code_addr + 2048))
      (entries (co_user_cs x) (co_user_ss x) COOP_RFLAGS) none_done k1
      (all_ready x b0 b1 b2 program m) n (ends_with code sig done)).
    - done.
    - apply entry_regs_ok; [done|]. unfold in_u, code_addr, USER_TEST_PAGE_ADDR. lia.
    - unfold in_u, task_entry, fresh, code_addr, USER_TEST_PAGE_ADDR, RING3_COOP_TASK0_ENTRY_OFFSET. cbn [snd]. lia.
    - exact C0.
    - done.
    - intros i b u H0 Hi Hu.
      assert (HE : exists e sp, u = task_entry (co_user_cs x) (co_user_ss x) COOP_RFLAGS e sp /\
        Z.of_nat e < 4096 /\ in_u 64 sp /\ read_bytes (all_ready x b0 b1 b2 program m) b COOP_CTX = task_bytes x e sp).
      { destruct i as [|[|[|i]]]; [by destruct H0| | |discriminate Hi].
        - injection Hi as <-. injection Hu as <-. eexists _, _. split; [reflexivity|].
          split; [unfold RING3_COOP_TASK1_ENTRY_OFFSET; lia|].
          split; [unfold in_u, code_addr, USER_TEST_PAGE_ADDR; lia|exact C1].
        - injection Hi as <-. injection Hu as <-. eexists _, _. split; [reflexivity|].
          split; [unfold RING3_COOP_TASK2_ENTRY_OFFSET; lia|].
          split; [unfold in_u, code_addr, USER_TEST_PAGE_ADDR; lia|exact C2]. }
      destruct HE as (e & sp & -> & He & Hsp & HC). split; [by apply entry_regs_ok|]. split; [|exact HC].
      unfold in_u, task_entry, fresh, code_addr, USER_TEST_PAGE_ADDR. cbn [snd]. lia.
    - intros i b Hi. destruct i as [|[|[|i]]]; [exact Hi..|discriminate Hi].
    - intros _. exact (conj eq_refl (conj eq_refl (conj eq_refl (conj eq_refl Hsel)))).
    - intros w Hr. apply Hw; [|by apply buffer_ready|done]. by apply program_ready. }
  rewrite (coop_test_enters b0 b1 b2 program p0 p1 p2 k1 Hb Harm). unfold read_exit_code, mbind, M_bind, gets, mret, M_ret.
  destruct (enter x (frame_in b0) (k1, all_ready x b0 b1 b2 program m)) as [[[]|e| |] [k' m']]; try done.
  destruct Henter as (a & v & pm & (Q1 & Q2 & Q3) & Hcode & Hag & Hdone). cbn [answers_in fst snd].
  split; [|by rewrite Hdone]. f_equal; [by rewrite Hcode|].
  rewrite <- Q2. apply read_bytes_ext. intros y Hy. symmetry. apply Hag.
  unfold in_page, lo, hi, sig_addr, code_addr, SIG_OFFSET in *. lia.
Qed.

(** The addition program, entered the same way with nothing armed. *)
Lemma bootstrap_test_runs :
  answers_in x 18 (fun a _ => a = 15) (run_ring3_switchto_bootstrap_test x (k, m)).
Proof.
  pose proof (cs_three _ Hx) as H3. destruct (co_stacks x) as [|b0 [|b1 [|b2 [|]]]] eqn:Hb; try done. clear H3.
  set (M := write_bytes (frame_in b0) (coop_bytes (co_tramp x) (fresh code_addr (co_user_cs x) (co_user_ss x) (code_addr + 4096) COOP_RFLAGS))
    (box_stack b0 (write_bytes code_addr SUM_PROGRAM m))).
  assert (Henter : entered_well x [] (fun v _ _ => v.1 RAX = 15) 18 (enter x (frame_in b0) (k, M))).
  { apply (enter_runs x (frames b0 b1 b2) [] [] Hx (frames_apart x b0 b1 b2 Hx Hb) (or_intror eq_refl)
      (frame_in b0) 0 (fresh code_addr (co_user_cs x) (co_user_ss x) (code_addr + 4096) COOP_RFLAGS) [] [] k M 18).
    - done.
    - apply entry_regs_ok; [done|]. unfold in_u, code_addr, USER_TEST_PAGE_ADDR. lia.
    - unfold in_u, fresh, code_addr, USER_TEST_PAGE_ADDR. cbn [snd]. lia.
    - unfold M. rewrite <- (length_coop_bytes (co_tramp x) (fresh code_addr (co_user_cs x) (co_user_ss x) (code_addr + 4096) COOP_RFLAGS)).
      apply read_write_bytes.
    - done.
    - intros i b u _ Hi. discriminate Hi.
    - intros i b Hi. discriminate Hi.
    - intros Hne. by destruct Hne.
    - apply (resumed_fresh [] _ 18 0); [apply Hx|]. intros f Hf _. apply sum_runs; [|done|by intros].
      intros i b Hi. pose proof (lookup_lt_Some _ _ _ Hi) as Hl. cbn [length SUM_PROGRAM] in Hl.
      pose proof (box_apart x b0 b1 b2 Hx Hb 0 b0 _ _ 0 eq_refl eq_refl) as D.
      pose proof (fixed_frame_apart x _ (frames_apart x b0 b1 b2 Hx Hb) 0 0 _ _ (frame_in b0) eq_refl eq_refl) as D'.
      unfold disjoint_ranges, KERNEL_STACK in *. unfold M, box_stack. rewrite write_bytes_out; [rewrite write_bytes_out|].
      + by apply write_bytes_in.
      + rewrite length_replicate. unfold KERNEL_STACK. rewrite Z2Nat.id by lia. unfold code_addr. lia.
      + rewrite length_coop_bytes. unfold COOP_CTX, code_addr. lia. }
  unfold run_ring3_switchto_bootstrap_test, stack_at. rewrite Hb. change (idx [b0; b1; b2] 0) with (Ok b0).
  unfold mbind, M_bind, modify, gets, lift, on_cmem, read_exit_code, gets. cbn [fst snd]. rewrite prepare_runs. fold M.
  destruct (enter x (frame_in b0) (k, M)) as [[[]|e| |] [k' m']]; try done.
  destruct Henter as (a & v & pm & Q1 & Hcode & _). cbn [answers_in fst snd]. by rewrite Hcode.
Qed.
End CoopTest.

Section Passing.
Context (x : CoopSite) (k : Coop) (m : memory).
Hypothesis Hx : coop_site_ok x.
Hypothesis Hk : coop_ok k.

Lemma round_robin_passes :
  answers_in x 26 (fun a k' => a = (42, [0x41; 0x42; 0x43; 0x58]) /\ coop_task_done k' = none_done)
    (coop_test x coop_program Normal Normal Normal (k, m)).
Proof.
  destruct coop_pieces as (P0 & P1 & P2 & L & M). apply (coop_test_runs x k m Hx Hk); [exact coop_program_short|].
  intros m' w Hm _ Hw. destruct (cs_user _ Hx) as (_ & Hcs & _).
  exact (three_turns (co_user_cs x) (co_user_ss x) COOP_RFLAGS (drop 3 (coop_task_priority k)) coop_program m' Hcs coop_program_short Hm 48 0x83 w P0 P1 P2 L L M (or_introl eq_refl) Hw).
Qed.

Lemma priority_passes :
  answers_in x 12 (fun a k' => a = (42, [0x41; 0; 0; 0x58]) /\ coop_task_done k' = none_done)
    (coop_test x coop_program High Background Background (k, m)).
Proof.
  destruct coop_pieces as (P0 & _ & _ & L & M). apply (coop_test_runs x k m Hx Hk); [exact coop_program_short|].
  intros m' w Hm Hz Hw. destruct (cs_user _ Hx) as (_ & Hcs & _).
  exact (two_turns (co_user_cs x) (co_user_ss x) COOP_RFLAGS (drop 3 (coop_task_priority k)) coop_program m' Hcs coop_program_short Hm w P0 L M Hz Hw).
Qed.

Lemma early_exit_passes :
  answers_in x 26 (fun a k' => a = (42, [0x41; 0x42; 0x43; 0x58]) /\ coop_task_done k' = [false; true; false; false])
    (coop_test x early_program Normal Normal Normal (k, m)).
Proof.
  destruct early_pieces as (P0 & P1 & P2 & L & L' & M). apply (coop_test_runs x k m Hx Hk); [exact early_program_short|].
  intros m' w Hm _ Hw. destruct (cs_user _ Hx) as (_ & Hcs & _).
  exact (three_turns (co_user_cs x) (co_user_ss x) COOP_RFLAGS (drop 3 (coop_task_priority k)) early_program m' Hcs early_program_short Hm 74 0x85 w P0 P1 P2 L L' M (or_intror eq_refl) Hw).
Qed.
End Passing.

(** A computation that only reads the answer keeps it. *)
Lemma answers_mono {A} x n (P R : A -> Coop -> Prop) r :
  answers_in x n P r -> (forall a k, P a k -> R a k) -> answers_in x n R r.
Proof. destruct r as [[a|e| |] [k' m']]; cbn [answers_in]; auto. Qed.

(** With enough turns there is an answer. *)
Lemma answers_enough {A} x n (P : A -> Prop) r :
  answers_in x n (fun a _ => P a) r -> Forall (fun i => 1 <= i)%nat (co_sched x) -> (n <= length (co_sched x))%nat ->
  exists a, r.1 = Ok a /\ P a.
Proof.
  destruct r as [[a|e| |] [k' m']]; cbn [answers_in fst]; intros H Hp Hn; [by exists a|done|done|].
  specialize (H Hp). lia.
Qed.

(** ** Properties *)

(** C10. The cooperative tests of [ring3.rs] pass wherever the timer interrupts: three
    tasks that write a letter and yield take turns in order and task 0 ends the test
    with 42 and the completion marker; a task alone in its tier yields to itself, and
    the others never run; a task that retires is passed over and is the only one
    marked done; the addition program entered by [switch_to] answers 15.  [switch_to]
    returns to its caller every time.  A test can only lack turns, when it is given
    fewer than its programs have instructions. *)
Theorem coop_tests_pass x k m :
  coop_site_ok x -> coop_ok k ->
  answers_in x 26 (fun a _ => a = (42, [0x41; 0x42; 0x43; 0x58])) (run_ring3_cooperative_test x (k, m)) /\
  answers_in x 12 (fun a _ => a = (42, [0x41; 0; 0; 0x58])) (run_priority_cooperative_test x (k, m)) /\
  answers_in x 26 (fun a _ => a = (42, [0x41; 0x42; 0x43; 0x58], false, true, false))
    (run_early_exit_cooperative_test x (k, m)) /\
  answers_in x 18 (fun a _ => a = 15) (run_ring3_switchto_bootstrap_test x (k, m)).
Proof.
  intros Hx Hk. split; [|split; [|split]].
  - unfold run_ring3_cooperative_test, mbind, M_bind, lift. rewrite coop_program_builds.
    apply (answers_mono _ _ _ _ _ (round_robin_passes x k m Hx Hk)). by intros ? ? [-> _].
  - unfold run_priority_cooperative_test, mbind, M_bind, lift. rewrite coop_program_builds.
    apply (answers_mono _ _ _ _ _ (priority_passes x k m Hx Hk)). by intros ? ? [-> _].
  - unfold run_early_exit_cooperative_test, mbind, M_bind, lift, gets. rewrite early_program_builds.
    pose proof (early_exit_passes x k m Hx Hk) as H.
    destruct (coop_test x early_program Normal Normal Normal (k, m)) as [[[c s]|e| |] [k' m']]; try exact H.
    cbn [answers_in fst snd] in *. destruct H as [[= -> ->] ->]. done.
  - by apply bootstrap_test_runs.
Qed.

(** The timer interrupts after every instruction. *)
Definition demo_coop_site (sched : list nat) : CoopSite :=
  mk_CoopSite 0x2B 0x23 8 0x200000 0x300000 0x300010 0x700000 true (fun _ => lift Panic) (fun _ _ => 0x202)
    [0x400008; 0x408000; 0x410000] (mk_Cpu (fun r => if decide (r = RSP) then 0x100000 else 0) 0x8000 (fun _ => 0))
    (mk_Timer 0 0 (new_preempt new_sched (fun _ => 0)) (mk_Rp false false 5000) new_mt) sched.

Lemma demo_coop_site_ok sched : coop_site_ok (demo_coop_site sched).
Proof.
  split.
  - split; [unfold in_u; cbn; lia|]. split; [done|unfold in_u; cbn; lia].
  - unfold in_u. cbn. lia.
  - intros r. cbn. unfold in_u. case_decide; lia.
  - intros c r. cbn. unfold in_u. lia.
  - done.
  - done.
  - split.
    + intros i a n Hi. cbn in Hi. unfold USER_TEST_PAGE_ADDR, KERNEL_STACK in Hi.
      do 8 (destruct i as [|i]; [injection Hi as <- <-; lia|]). done.
    + intros i j a n b k Hi Hj Hne. cbn in Hi, Hj. unfold USER_TEST_PAGE_ADDR, KERNEL_STACK, disjoint_ranges in *.
      do 8 (destruct i as [|i]; [injection Hi as <- <-;
        do 8 (destruct j as [|j]; [first [lia|injection Hj as <- <-; lia]|]); done|]). done.
Qed.

Lemma new_coop_ok : coop_ok new_coop.
Proof. split; [done..|]. apply Forall_replicate. unfold U8_MAX. lia. Qed.

Lemma coop_tests_pass_witness :
  (run_ring3_cooperative_test (demo_coop_site (replicate 26 1%nat)) (new_coop, fun _ => 0)).1 =
    Ok (42, [0x41; 0x42; 0x43; 0x58]) /\
  (run_ring3_switchto_bootstrap_test (demo_coop_site (replicate 26 1%nat)) (new_coop, fun _ => 0)).1 = Ok 15.
Proof.
  destruct (coop_tests_pass (demo_coop_site (replicate 26 1%nat)) new_coop (fun _ => 0) (demo_coop_site_ok _) new_coop_ok)
    as (H1 & _ & _ & H2).
  assert (Hpos : Forall (fun i => 1 <= i)%nat (replicate 26 1%nat)) by (by apply Forall_replicate).
  split.
  - destruct (answers_enough _ _ _ _ H1 Hpos (le_n 26)) as (a & E & ->). exact E.
  - destruct (answers_enough _ _ _ _ H2 Hpos ltac:(cbn; lia)) as (a & E & ->). exact E.
Defined.
