(* ===== verification/Gguf.v ===== *)
(** * Gguf: the model file loader ([gguf_loader.rs])

    The header and tensor-table parsers over byte lists, the half-precision
    conversion, and the decoder of every quantised format, block by block.  A
    block is an array of known length and every index into it is a constant below
    that length, so blocks are read with the total lookup [!!!]; the lengths are
    those of the chunks ([length_as_chunks]).  [f32] arithmetic is Tensor's. *)
From stdpp Require Import base list numbers strings.
From Stdlib Require Import Lia SpecFloat.
From S2P Require Import Prelude Tensor.
Open Scope Z_scope.

Definition GGUF_MAGIC : Z := 0x46554747.

Inductive GgufGtype := F32 | F16 | Q4_0 | Q4_1 | Q8_0 | Q2_K | Q3_K | Q4_K | Q5_K | Q6_K | Q8_K.

Definition from_u32 (raw : Z) : res GgufGtype :=
  if raw =? 0 then Ok F32
  else if raw =? 1 then Ok F16
  else if raw =? 2 then Ok Q4_0
  else if raw =? 3 then Ok Q4_1
  else if raw =? 8 then Ok Q8_0
  else if raw =? 10 then Ok Q2_K
  else if raw =? 11 then Ok Q3_K
  else if raw =? 12 then Ok Q4_K
  else if raw =? 13 then Ok Q5_K
  else if raw =? 14 then Ok Q6_K
  else if raw =? 15 then Ok Q8_K
  else Err "GGUF: unknown tensor gtype".

(** [gtype as u32] *)
Definition gtype_code (g : GgufGtype) : Z :=
  match g with
  | F32 => 0 | F16 => 1 | Q4_0 => 2 | Q4_1 => 3 | Q8_0 => 8 | Q2_K => 10 | Q3_K => 11
  | Q4_K => 12 | Q5_K => 13 | Q6_K => 14 | Q8_K => 15
  end.

(** ** Tensor table *)

Record GgufTensorInfo := mk_Info {
  name : list Z;
  dimensions : Z * Z;
  gtype : GgufGtype;
  offset : Z;
}.

Definition utf8_cont (b : Z) : bool := (0x80 <=? b) && (b <=? 0xBF).

(** [core::str::from_utf8(bytes).is_ok()]: the byte sequences of Unicode table
    3-7. *)
Fixpoint utf8_ok (l : list Z) : bool :=
  match l with
  | [] => true
  | a :: r =>
      if a <? 0x80 then utf8_ok r
      else if (0xC2 <=? a) && (a <=? 0xDF) then
        match r with b :: r' => utf8_cont b && utf8_ok r' | [] => false end
      else if (0xE0 <=? a) && (a <=? 0xEF) then
        match r with
        | b :: c :: r' =>
            (if a =? 0xE0 then (0xA0 <=? b) && (b <=? 0xBF)
             else if a =? 0xED then (0x80 <=? b) && (b <=? 0x9F) else utf8_cont b) &&
            utf8_cont c && utf8_ok r'
        | _ => false
        end
      else if (0xF0 <=? a) && (a <=? 0xF4) then
        match r with
        | b :: c :: d :: r' =>
            (if a =? 0xF0 then (0x90 <=? b) && (b <=? 0xBF)
             else if a =? 0xF4 then (0x80 <=? b) && (b <=? 0x8F) else utf8_cont b) &&
            utf8_cont c && utf8_cont d && utf8_ok r'
        | _ => false
        end
      else false
  end.

Definition read_u32 (bytes : list Z) (at_ : nat) : res Z :=
  a ← idx bytes at_; b ← idx bytes (at_ + 1); c ← idx bytes (at_ + 2); d ← idx bytes (at_ + 3);
  Ok (le_of [a; b; c; d]).

(** The entry and the bytes it consumed. *)
Definition parse (bytes : list Z) : res (GgufTensorInfo * nat) :=
  if (length bytes <? 4)%nat then Err "GGUF: tensor-info buffer too small for name length"
  else
    name_len ← read_u32 bytes 0;
    if Z.of_nat (length bytes) <? 4 + name_len + 16 then
      Err "GGUF: tensor-info buffer too small for name + fields"
    else
      let fields_start := (4 + Z.to_nat name_len)%nat in
      nm ← slice bytes 4 fields_start;
      if negb (utf8_ok nm) then Err "GGUF: tensor name is not valid UTF-8"
      else
        dim0 ← read_u32 bytes fields_start;
        dim1 ← read_u32 bytes (fields_start + 4);
        raw ← read_u32 bytes (fields_start + 8);
        gt ← from_u32 raw;
        off ← read_u32 bytes (fields_start + 12);
        Ok (mk_Info nm (dim0, dim1) gt off, (fields_start + 16)%nat).

(** [for _ in 0..count] of [parse_many]. *)
Fixpoint parse_entries (bytes : list Z) (count : nat) (infos : list GgufTensorInfo) (off : nat)
    : res (list GgufTensorInfo * nat) :=
  match count with
  | O => Ok (infos, off)
  | S n =>
      if (length bytes <? off)%nat then Err "GGUF: tensor-info offset past end of buffer"
      else
        '(info, consumed) ← parse (drop off bytes);
        parse_entries bytes n (infos ++ [info]) (off + consumed)
  end.

(** The size of a [GgufTensorInfo]: a [String], two [usize], the type tag and the
    offset. [Vec::with_capacity] panics when the request exceeds [isize::MAX]. *)
Definition INFO_SIZE : Z := 56.

Definition parse_many (bytes : list Z) (count : nat) : res (list GgufTensorInfo * nat) :=
  if 2 ^ 63 - 1 <? INFO_SIZE * Z.of_nat count then Panic
  else parse_entries bytes count [] 0.

(** ** Header *)

Record GgufModelLoader := mk_Loader {
  magic : Z;
  version : Z;
  tensor_count : Z;
  kv_count : Z;
  architecture : string;
  context_length : Z;
  embedding_length : Z;
}.

Definition parse_header (bytes : list Z) : res GgufModelLoader :=
  if (length bytes <? 24)%nat then Err "Header buffer too small"
  else
    magic ← read_u32 bytes 0;
    if negb (magic =? GGUF_MAGIC) then Err "Invalid GGUF Magic Header (expected 'GGUF')"
    else
      version ← read_u32 bytes 4;
      tc ← slice bytes 8 16;
      kv ← slice bytes 16 24;
      Ok (mk_Loader magic version (le_of tc) (le_of kv) "llama" 4096 2048).

(** ** Half precision *)

Definition f32_sub : f32 -> f32 -> f32 := SFsub 24 128.

(** [n as f32] *)
Definition f32_of_Z (n : Z) : f32 := binary_normalize 24 128 n 0 false.

(** [byte as i8] *)
Definition as_i8 (b : Z) : Z := if b <? 128 then b else b - 256.

(** [while m & 0x400 == 0 { m <<= 1; e -= 1; }] *)
Fixpoint normalize (fuel : nat) (m e : Z) : Z * Z :=
  match fuel with
  | O => (m, e)
  | S f => if Z.land m 0x400 =? 0 then normalize f (Z.shiftl m 1) (e - 1) else (m, e)
  end.

Definition f16_to_f32_bits (bits : Z) : Z :=
  let sign := Z.land bits 0x8000 in
  let exp16 := Z.land (Z.shiftr bits 10) 0x1F in
  let mant16 := Z.land bits 0x3FF in
  let '(exp32, mant32) :=
    if exp16 =? 0 then
      if mant16 =? 0 then (0, 0)
      else
        let '(m, e) := normalize 10 mant16 (-14) in
        (e + 127, Z.shiftl (Z.land m 0x3FF) 13)
    else if exp16 =? 0x1F then (0xFF, Z.shiftl mant16 13)
    else (exp16 + (127 - 15), Z.shiftl mant16 13) in
  Z.lor (Z.lor (Z.shiftl sign 16) (Z.shiftl exp32 23)) mant32.

Definition f16_to_f32 (bits : Z) : f32 := f32_of_bits (f16_to_f32_bits bits).

(** [f16_to_f32(u16::from_le_bytes([block[i], block[i + 1]]))] *)
Definition half_at (block : list Z) (i : nat) : f32 :=
  f16_to_f32 (le_of [block !!! i; block !!! (i + 1)%nat]).

(** [&block[a..b]] inside a block. *)
Definition part {A} (block : list A) (a b : nat) : list A := take (b - a) (drop a block).

(** ** Formats *)

Definition decode_f32_le (bytes : list Z) : list f32 :=
  map (fun c => f32_of_bits (le_of c)) (as_chunks 4 bytes).

Definition decode_f16_le (bytes : list Z) : list f32 :=
  map (fun c => f16_to_f32 (le_of c)) (as_chunks 2 bytes).

Definition q8_0_block (block : list Z) : list f32 :=
  let scale := half_at block 0 in
  map (fun byte => f32_mul (f32_of_Z (as_i8 byte)) scale) (part block 2 34).

Definition decode_q8_0 (bytes : list Z) : list f32 := concat (map q8_0_block (as_chunks 34 bytes)).

(** The two halves of a nibble-packed block, written at [j] and [j + 16]. *)
Definition split_half (low high : nat -> f32) : list f32 :=
  foldl (fun v j => <[(j + 16)%nat := high j]> (<[j := low j]> v)) (replicate 32 f32_zero) (seq 0 16).

Definition q4_0_block (block : list Z) : list f32 :=
  let scale := half_at block 0 in
  let qs := part block 2 18 in
  split_half (fun j => f32_mul (f32_of_Z (Z.land (qs !!! j) 0x0F - 8)) scale)
    (fun j => f32_mul (f32_of_Z (Z.shiftr (qs !!! j) 4 - 8)) scale).

Definition decode_q4_0 (bytes : list Z) : list f32 := concat (map q4_0_block (as_chunks 18 bytes)).

Definition q4_1_block (block : list Z) : list f32 :=
  let scale := half_at block 0 in
  let min := half_at block 2 in
  let qs := part block 4 20 in
  split_half (fun j => f32_add (f32_mul (f32_of_Z (Z.land (qs !!! j) 0x0F)) scale) min)
    (fun j => f32_add (f32_mul (f32_of_Z (Z.shiftr (qs !!! j) 4)) scale) min).

Definition decode_q4_1 (bytes : list Z) : list f32 := concat (map q4_1_block (as_chunks 20 bytes)).

Definition get_scale_min_k4 (j : nat) (q : list Z) : Z * Z :=
  if (j <? 4)%nat then (Z.land (q !!! j) 63, Z.land (q !!! (j + 4)%nat) 63)
  else
    let d := Z.lor (Z.land (q !!! (j + 4)%nat) 0x0F) (Z.shiftl (Z.shiftr (q !!! (j - 4)%nat) 6) 4) in
    let m := Z.lor (Z.shiftr (q !!! (j + 4)%nat) 4) (Z.shiftl (Z.shiftr (q !!! j) 6) 4) in
    (d, m).

(** [for is in (0..8).step_by(2)], with [q_offset] and the values pushed so far. *)
Definition q4_k_block (block : list Z) : list f32 :=
  let d := half_at block 0 in
  let dmin := half_at block 2 in
  let scales := part block 4 16 in
  let qs := part block 16 144 in
  snd (foldl (fun '(q_offset, values) is_ =>
    let '(sc1, m1) := get_scale_min_k4 is_ scales in
    let '(sc2, m2) := get_scale_min_k4 (is_ + 1) scales in
    let d1 := f32_mul d (f32_of_Z sc1) in
    let dm1 := f32_mul dmin (f32_of_Z m1) in
    let d2 := f32_mul d (f32_of_Z sc2) in
    let dm2 := f32_mul dmin (f32_of_Z m2) in
    let chunk := part qs q_offset (q_offset + 32) in
    ((q_offset + 32)%nat,
     values ++ map (fun byte => f32_sub (f32_mul d1 (f32_of_Z (Z.land byte 0x0F))) dm1) chunk
            ++ map (fun byte => f32_sub (f32_mul d2 (f32_of_Z (Z.shiftr byte 4))) dm2) chunk))
    (0%nat, []) [0; 2; 4; 6]%nat).

Definition decode_q4_k (bytes : list Z) : list f32 := concat (map q4_k_block (as_chunks 144 bytes)).

(** One 128-value half of a [Q6_K] block. *)
Definition q6_k_half (d : f32) (ql qh sc : list Z) : list f32 :=
  foldl (fun y l =>
    let is_ := (l / 16)%nat in
    let q1 := as_i8 (Z.lor (Z.land (ql !!! l) 0x0F) (Z.shiftl (Z.land (qh !!! l) 3) 4)) - 32 in
    let q2 := as_i8 (Z.lor (Z.land (ql !!! (l + 32)%nat) 0x0F)
                 (Z.shiftl (Z.land (Z.shiftr (qh !!! l) 2) 3) 4)) - 32 in
    let q3 := as_i8 (Z.lor (Z.shiftr (ql !!! l) 4)
                 (Z.shiftl (Z.land (Z.shiftr (qh !!! l) 4) 3) 4)) - 32 in
    let q4 := as_i8 (Z.lor (Z.shiftr (ql !!! (l + 32)%nat) 4)
                 (Z.shiftl (Z.land (Z.shiftr (qh !!! l) 6) 3) 4)) - 32 in
    let scaled := fun i q => f32_mul (f32_mul d (f32_of_Z (as_i8 (sc !!! i)))) (f32_of_Z q) in
    let y := <[l := scaled is_ q1]> y in
    let y := <[(l + 32)%nat := scaled (is_ + 2)%nat q2]> y in
    let y := <[(l + 64)%nat := scaled (is_ + 4)%nat q3]> y in
    <[(l + 96)%nat := scaled (is_ + 6)%nat q4]> y) (replicate 128 f32_zero) (seq 0 32).

Definition q6_k_block (block : list Z) : list f32 :=
  let ql_all := part block 0 128 in
  let qh_all := part block 128 192 in
  let scales := part block 192 208 in
  let d := half_at block 208 in
  concat (map (fun half =>
    q6_k_half d (part ql_all (half * 64) (half * 64 + 64)) (part qh_all (half * 32) (half * 32 + 32))
      (part scales (half * 8) (half * 8 + 8))) [0; 1]%nat).

Definition decode_q6_k (bytes : list Z) : list f32 := concat (map q6_k_block (as_chunks 210 bytes)).

Definition q8_k_block (block : list Z) : list f32 :=
  let d := f32_of_bits (le_of [block !!! 0%nat; block !!! 1%nat; block !!! 2%nat; block !!! 3%nat]) in
  map (fun q => f32_mul d (f32_of_Z (as_i8 q))) (part block 4 260).

Definition decode_q8_k (bytes : list Z) : list f32 := concat (map q8_k_block (as_chunks 292 bytes)).

(** The nested [_n] and [j] loops of [Q2_K] and [Q3_K]: 8 rounds, the second four
    32 bytes further on. *)
Definition rounds : list (nat * nat) := [(0, 0); (0, 1); (0, 2); (0, 3); (1, 0); (1, 1); (1, 2); (1, 3)]%nat.

Definition q2_k_block (block : list Z) : list f32 :=
  let scales := part block 0 16 in
  let qs := part block 16 80 in
  let d := half_at block 80 in
  let dmin := half_at block 82 in
  snd (foldl (fun '(is_, values) '(n, j) =>
    let q_offset := (n * 32)%nat in
    let shift := Z.of_nat j * 2 in
    let sub := fun is_ base =>
      let sc := scales !!! is_ in
      let dl := f32_mul d (f32_of_Z (Z.land sc 0x0F)) in
      let ml := f32_mul dmin (f32_of_Z (Z.shiftr sc 4)) in
      map (fun l =>
        let q_bits := Z.land (Z.shiftr (qs !!! (base + l)%nat) shift) 3 in
        f32_sub (f32_mul dl (f32_of_Z q_bits)) ml) (seq 0 16) in
    ((is_ + 2)%nat, values ++ sub is_ q_offset ++ sub (is_ + 1)%nat (q_offset + 16)%nat))
    (0%nat, []) rounds).

Definition decode_q2_k (bytes : list Z) : list f32 := concat (map q2_k_block (as_chunks 84 bytes)).

(** The 16 unpacked scales of a [Q3_K] block. *)
Definition q3_k_scales (raw : list Z) : list Z :=
  foldl (fun scales j =>
    let a_lo := Z.land (raw !!! j) 0x0F in
    let a_hi := Z.shiftr (raw !!! j) 4 in
    let b_lo := Z.land (raw !!! (4 + j)%nat) 0x0F in
    let b_hi := Z.shiftr (raw !!! (4 + j)%nat) 4 in
    let byte8 := raw !!! (8 + j)%nat in
    let scales := <[j := Z.lor a_lo (Z.shiftl (Z.land byte8 0x03) 4)]> scales in
    let scales := <[(4 + j)%nat := Z.lor b_lo (Z.shiftl (Z.land (Z.shiftr byte8 2) 0x03) 4)]> scales in
    let scales := <[(8 + j)%nat := Z.lor a_hi (Z.shiftl (Z.land (Z.shiftr byte8 4) 0x03) 4)]> scales in
    <[(12 + j)%nat := Z.lor b_hi (Z.shiftl (Z.land (Z.shiftr byte8 6) 0x03) 4)]> scales)
    (replicate 16 0) (seq 0 4).

Definition q3_k_block (block : list Z) : list f32 :=
  let hmask := part block 0 32 in
  let qs := part block 32 96 in
  let raw := part block 96 108 in
  let d := half_at block 108 in
  let scales := q3_k_scales raw in
  snd (foldl (fun '(is_, m, values) '(n, j) =>
    let q_offset := (n * 32)%nat in
    let shift := Z.of_nat j * 2 in
    let sub := fun is_ base hbase =>
      let dl := f32_mul d (f32_of_Z (scales !!! is_ - 32)) in
      map (fun l =>
        let q_bits := Z.land (Z.shiftr (qs !!! (base + l)%nat) shift) 3 in
        let hm_bit := negb (Z.land (hmask !!! (hbase + l)%nat) m =? 0) in
        let value := q_bits - (if hm_bit then 0 else 4) in
        f32_mul dl (f32_of_Z value)) (seq 0 16) in
    ((is_ + 2)%nat, u8 (Z.shiftl m 1),
     values ++ sub is_ q_offset 0%nat ++ sub (is_ + 1)%nat (q_offset + 16)%nat 16%nat))
    (0%nat, 1, []) rounds).

Definition decode_q3_k (bytes : list Z) : list f32 := concat (map q3_k_block (as_chunks 110 bytes)).

Definition q5_k_block (block : list Z) : list f32 :=
  let d := half_at block 0 in
  let dmin := half_at block 2 in
  let scales := part block 4 16 in
  let qh := part block 16 48 in
  let qs := part block 48 176 in
  snd (foldl (fun '(is_, u1, u2, q_offset, values) (_ : nat) =>
    let '(sc1, m1) := get_scale_min_k4 is_ scales in
    let '(sc2, m2) := get_scale_min_k4 (is_ + 1) scales in
    let d1 := f32_mul d (f32_of_Z sc1) in
    let dm1 := f32_mul dmin (f32_of_Z m1) in
    let d2 := f32_mul d (f32_of_Z sc2) in
    let dm2 := f32_mul dmin (f32_of_Z m2) in
    let value := fun base u l =>
      base + (if negb (Z.land (qh !!! l) u =? 0) then 16 else 0) in
    ((is_ + 2)%nat, u8 (Z.shiftl u1 2), u8 (Z.shiftl u2 2), (q_offset + 32)%nat,
     values
     ++ map (fun l => f32_sub (f32_mul d1
               (f32_of_Z (value (Z.land (qs !!! (q_offset + l)%nat) 0x0F) u1 l))) dm1) (seq 0 32)
     ++ map (fun l => f32_sub (f32_mul d2
               (f32_of_Z (value (Z.shiftr (qs !!! (q_offset + l)%nat) 4) u2 l))) dm2) (seq 0 32)))
    (0%nat, 1, 2, 0%nat, []) (seq 0 4)).

Definition decode_q5_k (bytes : list Z) : list f32 := concat (map q5_k_block (as_chunks 176 bytes)).

Definition decode_tensor (bytes : list Z) (gtype : GgufGtype) : res (list f32) :=
  match gtype with
  | F32 => Ok (decode_f32_le bytes)
  | F16 => Ok (decode_f16_le bytes)
  | Q8_0 => Ok (decode_q8_0 bytes)
  | Q4_0 => Ok (decode_q4_0 bytes)
  | Q4_1 => Ok (decode_q4_1 bytes)
  | Q2_K => Ok (decode_q2_k bytes)
  | Q3_K => Ok (decode_q3_k bytes)
  | Q4_K => Ok (decode_q4_k bytes)
  | Q5_K => Ok (decode_q5_k bytes)
  | Q6_K => Ok (decode_q6_k bytes)
  | Q8_K => Ok (decode_q8_k bytes)
  end.

(** ** Inference *)

(** The outputs afterwards; an error leaves them as they were. *)
Definition execute_gguf_layer_pass (weights inputs outputs : list f32) (in_dim out_dim : Z)
    : res (list f32) :=
  let weights_needed := sat_mul 64 out_dim in_dim in
  if (Z.of_nat (length weights) <? weights_needed) || (Z.of_nat (length outputs) <? out_dim) then
    Err "GGUF layer pass: in_dim/out_dim inconsistent with weights/outputs length"
  else
    let dummy_bias := replicate 16 f32_zero in
    matmul_layer weights inputs dummy_bias outputs in_dim out_dim.

(** ** Specification *)

(** The bytes and values of one block of a format. *)
Definition block_size (g : GgufGtype) : nat :=
  match g with
  | F32 => 4 | F16 => 2 | Q4_0 => 18 | Q4_1 => 20 | Q8_0 => 34 | Q2_K => 84 | Q3_K => 110
  | Q4_K => 144 | Q5_K => 176 | Q6_K => 210 | Q8_K => 292
  end.

Definition block_values (g : GgufGtype) : nat :=
  match g with
  | F32 | F16 => 1 | Q4_0 | Q4_1 | Q8_0 => 32
  | Q2_K | Q3_K | Q4_K | Q5_K | Q6_K | Q8_K => 256
  end.

(** A table entry as it is written in a file. *)
Definition encode_info (i : GgufTensorInfo) : list Z :=
  le_bytes 4 (Z.of_nat (length (name i))) ++ name i ++ le_bytes 4 (dimensions i).1 ++
  le_bytes 4 (dimensions i).2 ++ le_bytes 4 (gtype_code (gtype i)) ++ le_bytes 4 (offset i).

Definition info_ok (i : GgufTensorInfo) : Prop :=
  utf8_ok (name i) = true /\ in_u 32 (Z.of_nat (length (name i))) /\
  in_u 32 (dimensions i).1 /\ in_u 32 (dimensions i).2 /\ in_u 32 (offset i).

(** The packing [get_scale_min_k4] undoes: eight scales and eight minimums of six
    bits in twelve bytes. *)
Definition pack_scale_min (sc m : nat -> Z) : list Z :=
  map (fun j => sc j + 64 * (sc (j + 4)%nat / 16)) (seq 0 4) ++
  map (fun j => m j + 64 * (m (j + 4)%nat / 16)) (seq 0 4) ++
  map (fun j => sc (j + 4)%nat mod 16 + 16 * (m (j + 4)%nat mod 16)) (seq 0 4).

(** [x] is exactly the number the half-precision pattern [b] stands for; numbers
    are compared as multiples of [2 ^ -149]. *)
Definition half_value (b : Z) (x : f32) : bool :=
  let s := negb (b / 32768 =? 0) in
  let e := b / 1024 mod 32 in
  let m := b mod 1024 in
  match x with
  | S754_nan => (e =? 31) && negb (m =? 0)
  | S754_infinity s' => (e =? 31) && (m =? 0) && Bool.eqb s s'
  | S754_zero s' => (e =? 0) && (m =? 0) && Bool.eqb s s'
  | S754_finite s' p ex =>
      negb (e =? 31) && Bool.eqb s s' &&
      (Zpos p * 2 ^ (ex + 149) =?
       (if e =? 0 then m * 2 ^ (149 - 24) else (1024 + m) * 2 ^ (149 + e - 25)))
  end.

(** ** Lemmas *)

Lemma chunks_fuel_length {A} n f (l : list A) :
  (0 < n)%nat -> (f * n <= length l)%nat ->
  length (chunks_fuel f n l) = f /\ Forall (fun c => length c = n) (chunks_fuel f n l).
Proof.
  intros Hn. revert l. induction f as [|f IH]; intros l Hl; cbn [chunks_fuel]; [done|].
  cbn in Hl. rewrite decide_False by lia.
  destruct (IH (drop n l)) as [H1 H2]; [rewrite length_drop; lia|].
  split; [cbn; by rewrite H1|]. constructor; [rewrite length_take; lia|done].
Qed.

Lemma length_as_chunks {A} n (l : list A) :
  (0 < n)%nat ->
  length (as_chunks n l) = (length l / n)%nat /\ Forall (fun c => length c = n) (as_chunks n l).
Proof.
  intros Hn. apply chunks_fuel_length; [done|]. rewrite Nat.mul_comm. apply Nat.Div0.mul_div_le.
Qed.

Lemma length_concat_map {A B} (f : A -> list B) k l (P : A -> Prop) :
  Forall P l -> (forall x, P x -> length (f x) = k) -> length (concat (map f l)) = (length l * k)%nat.
Proof.
  intros Hl Hf. induction Hl as [|x l Hx Hl IH]; [done|]. cbn [map concat length].
  rewrite length_app, IH, Hf by done. lia.
Qed.

Lemma length_part {A} (l : list A) a b : (a <= b <= length l)%nat -> length (part l a b) = (b - a)%nat.
Proof. intros. unfold part. rewrite length_take, length_drop. lia. Qed.

(** A loop that writes into an array keeps its length. *)
Lemma length_fold_keep {A B} (f : list A -> B -> list A) l v :
  (forall v x, length (f v x) = length v) -> length (foldl f v l) = length v.
Proof. intros H. revert v. induction l as [|x l IH]; intros v; [done|]. cbn. by rewrite IH. Qed.

Lemma length_split_half low high : length (split_half low high) = 32%nat.
Proof.
  unfold split_half. rewrite length_fold_keep; [done|]. intros. by rewrite !length_insert.
Qed.

Lemma length_q4_k_block block : length block = 144%nat -> length (q4_k_block block) = 256%nat.
Proof.
  intros Hb. unfold q4_k_block. cbn [foldl].
  repeat match goal with |- context [get_scale_min_k4 ?i ?s] => destruct (get_scale_min_k4 i s) end.
  cbn [snd]. repeat rewrite length_app. rewrite !length_map.
  repeat rewrite length_part by (rewrite ?length_part; lia). done.
Qed.

Lemma length_q6_k_half d ql qh sc : length (q6_k_half d ql qh sc) = 128%nat.
Proof.
  unfold q6_k_half. rewrite length_fold_keep; [done|]. intros. by rewrite !length_insert.
Qed.

Lemma length_q6_k_block block : length (q6_k_block block) = 256%nat.
Proof. unfold q6_k_block. cbn [map concat]. by rewrite !length_app, !length_q6_k_half. Qed.

Lemma length_q2_k_block block : length (q2_k_block block) = 256%nat.
Proof.
  unfold q2_k_block, rounds. cbn [foldl snd]. repeat rewrite length_app. rewrite !length_map. done.
Qed.

Lemma length_q3_k_block block : length (q3_k_block block) = 256%nat.
Proof.
  unfold q3_k_block, rounds. cbn [foldl snd]. repeat rewrite length_app. rewrite !length_map. done.
Qed.

Lemma length_q5_k_block block : length (q5_k_block block) = 256%nat.
Proof.
  unfold q5_k_block. cbn [foldl seq].
  repeat match goal with |- context [get_scale_min_k4 ?i ?s] => destruct (get_scale_min_k4 i s) end.
  cbn [snd]. repeat rewrite length_app. rewrite !length_map. done.
Qed.

(** Every decoder is a block decoder over the complete blocks. *)
Definition block_decoder (g : GgufGtype) (c : list Z) : list f32 :=
  match g with
  | F32 => [f32_of_bits (le_of c)]
  | F16 => [f16_to_f32 (le_of c)]
  | Q8_0 => q8_0_block c
  | Q4_0 => q4_0_block c
  | Q4_1 => q4_1_block c
  | Q2_K => q2_k_block c
  | Q3_K => q3_k_block c
  | Q4_K => q4_k_block c
  | Q5_K => q5_k_block c
  | Q6_K => q6_k_block c
  | Q8_K => q8_k_block c
  end.

Lemma map_singleton {A B} (f : A -> B) l : map f l = concat (map (fun x => [f x]) l).
Proof. induction l; [done|]. cbn. by rewrite IHl. Qed.

Lemma decode_tensor_blocks bytes g :
  decode_tensor bytes g = Ok (concat (map (block_decoder g) (as_chunks (block_size g) bytes))).
Proof.
  destruct g; try done; cbn [decode_tensor]; unfold decode_f32_le, decode_f16_le;
    by rewrite map_singleton.
Qed.

Lemma length_block_decoder g c :
  length c = block_size g -> length (block_decoder g c) = block_values g.
Proof.
  intros Hc. destruct g; cbn [block_decoder block_values block_size] in *;
    first [ reflexivity | apply length_split_half | apply length_q2_k_block | apply length_q3_k_block
          | by apply length_q4_k_block | apply length_q5_k_block | apply length_q6_k_block
          | unfold q8_0_block; rewrite length_map, length_part; lia
          | unfold q8_k_block; rewrite length_map, length_part; lia ].
Qed.

(** ** Lemmas on the half-precision conversion *)

(** Subnormals of either sign, by evaluation. *)
Lemma half_value_subnormal :
  all_from (Z.to_nat 1024) 0 (fun m => half_value m (f16_to_f32 m) &&
    half_value (32768 + m) (f16_to_f32 (32768 + m))) = true.
Proof. vm_compute. reflexivity. Qed.

Lemma half_fields b :
  in_u 16 b ->
  Z.land b 0x8000 = b / 32768 * 32768 /\ Z.land (Z.shiftr b 10) 0x1F = b / 1024 mod 32 /\
  Z.land b 0x3FF = b mod 1024.
Proof.
  intros Hb. unfold in_u in Hb. split; [|split].
  - change 0x8000 with (Z.land (Z.ones 16) (Z.lnot (Z.ones 15))).
    rewrite Z.land_assoc, <- Z.ldiff_land, Z.land_ones, Z.mod_small by lia.
    by rewrite Z.ldiff_ones_r, Z.shiftr_div_pow2, Z.shiftl_mul_pow2 by lia.
  - rewrite (land_mask 5), Z.shiftr_div_pow2 by lia. done.
  - by rewrite (land_mask 10) by lia.
Qed.

(** The word with sign [s], exponent [E] and mantissa [M], and what it decodes to. *)
Lemma pack_f32 s E M :
  0 <= s <= 1 -> 0 <= E < 256 -> 0 <= M < 2 ^ 23 ->
  let w := Z.lor (Z.lor (Z.shiftl (s * 32768) 16) (Z.shiftl E 23)) M in
  w / 2 ^ 31 = s /\ w / 2 ^ 23 mod 256 = E /\ w mod 2 ^ 23 = M.
Proof.
  intros Hs HE HM w. unfold w. rewrite !Z.shiftl_mul_pow2 by lia.
  replace (s * 32768 * 2 ^ 16) with (s * 2 ^ 31) by lia.
  rewrite (lor_add 31) by lia.
  rewrite (lor_add' 23) by (try lia; replace (s * 2 ^ 31 + E * 2 ^ 23) with ((s * 256 + E) * 2 ^ 23) by lia;
    apply Z.mod_mul; lia).
  div_lia.
Qed.

Lemma f32_of_pack s E M :
  0 <= s <= 1 -> 0 < E < 255 -> 0 <= M < 2 ^ 23 ->
  f32_of_bits (Z.lor (Z.lor (Z.shiftl (s * 32768) 16) (Z.shiftl E 23)) M) =
    S754_finite (negb (s =? 0)) (Z.to_pos (M + 2 ^ 23)) (E - 150).
Proof.
  intros Hs HE HM. destruct (pack_f32 s E M Hs ltac:(lia) HM) as (H1 & H2 & H3).
  unfold f32_of_bits. rewrite H1, H2, H3.
  rewrite (proj2 (Z.eqb_neq E 255)), (proj2 (Z.eqb_neq E 0)) by lia.
  assert (0 < M + 2 ^ 23) by lia. destruct (M + 2 ^ 23); [lia|done|lia].
Qed.

Lemma half_value_ok b : in_u 16 b -> half_value b (f16_to_f32 b) = true.
Proof.
  intros Hb. destruct (half_fields b Hb) as (Hs & He & Hm).
  set (s := b / 32768). set (e := b / 1024 mod 32). set (m := b mod 1024).
  assert (Hsr : 0 <= s <= 1) by (unfold s, in_u in *; div_lia).
  assert (Her : 0 <= e < 32) by (apply Z.mod_pos_bound; lia).
  assert (Hmr : 0 <= m < 1024) by (apply Z.mod_pos_bound; lia).
  destruct (Z.eqb_spec e 0) as [E0|E0].
  - pose proof (all_from_spec _ _ _ half_value_subnormal m ltac:(lia)) as Hall.
    apply andb_true_iff in Hall as [H1 H2].
    assert (Eb : b = m \/ b = 32768 + m) by (unfold s, e, m, in_u in *; div_lia).
    destruct Eb as [Eb|Eb]; rewrite Eb; [exact H1|exact H2].
  - unfold f16_to_f32, f16_to_f32_bits. rewrite Hs, He, Hm. fold s e m.
    rewrite (proj2 (Z.eqb_neq e 0) E0). change 0x1F with 31.
    destruct (Z.eqb_spec e 31) as [E31|E31].
    + destruct (pack_f32 s 0xFF (Z.shiftl m 13)) as (H1 & H2 & H3);
        [lia|lia|rewrite Z.shiftl_mul_pow2; lia|].
      unfold f32_of_bits. rewrite H1, H2, H3. change (255 =? 255) with true.
      rewrite Z.shiftl_mul_pow2 by lia. unfold half_value. fold s e m.
      rewrite E31. change (31 =? 31) with true.
      destruct (Z.eqb_spec (m * 2 ^ 13) 0), (Z.eqb_spec m 0); lia.
    + rewrite f32_of_pack; [|lia|lia|rewrite Z.shiftl_mul_pow2; lia].
      unfold half_value. fold s e m. rewrite (proj2 (Z.eqb_neq e 31) E31), (proj2 (Z.eqb_neq e 0) E0).
      rewrite Bool.eqb_reflx. cbn [negb andb]. apply Z.eqb_eq.
      rewrite Z.shiftl_mul_pow2 by lia. rewrite Z2Pos.id by lia.
      replace (m * 2 ^ 13 + 2 ^ 23) with ((1024 + m) * 2 ^ 13) by lia.
      rewrite <- Z.mul_assoc, <- Z.pow_add_r by lia. do 2 f_equal. lia.
Qed.

(** The four fields of the packed scales. *)
Lemma low_six a b : 0 <= a < 64 -> Z.land (a + 64 * (b / 16)) 63 = a.
Proof. intros. rewrite (land_mask 6) by lia. change (2 ^ 6) with 64. div_lia. Qed.

Lemma high_two a b : 0 <= a < 64 -> Z.shiftr (a + 64 * (b / 16)) 6 = b / 16.
Proof. intros. rewrite Z.shiftr_div_pow2 by lia. change (2 ^ 6) with 64. div_lia. Qed.

Lemma low_join a b :
  0 <= a < 64 -> Z.lor (Z.land (a mod 16 + 16 * (b mod 16)) 15) (Z.shiftl (a / 16) 4) = a.
Proof.
  intros. rewrite (land_mask 4), Z.shiftl_mul_pow2, Z.lor_comm by lia.
  rewrite (lor_add 4); change (2 ^ 4) with 16; div_lia.
Qed.

Lemma high_join a b :
  0 <= b < 64 -> Z.lor (Z.shiftr (a mod 16 + 16 * (b mod 16)) 4) (Z.shiftl (b / 16) 4) = b.
Proof.
  intros. rewrite Z.shiftr_div_pow2, Z.shiftl_mul_pow2, Z.lor_comm by lia.
  rewrite (lor_add 4); change (2 ^ 4) with 16; div_lia.
Qed.

(** ** Lemmas on the table parser *)

Lemma length_encode_info i : length (encode_info i) = (20 + length (name i))%nat.
Proof. unfold encode_info. rewrite !length_app, !length_le_bytes. lia. Qed.

(** A little-endian field in the middle of a buffer. *)
Lemma read_u32_mid pre v post :
  in_u 32 v -> read_u32 (pre ++ le_bytes 4 v ++ post) (length pre) = Ok v.
Proof.
  intros Hv. unfold read_u32.
  pose proof (fun k x => idx_mid pre (le_bytes 4 v) post k x) as Hi.
  pose proof (Hi 0%nat _ eq_refl) as Hi0. rewrite Nat.add_0_r in Hi0.
  rewrite Hi0, (Hi 1%nat _ eq_refl), (Hi 2%nat _ eq_refl), (Hi 3%nat _ eq_refl). cbn [mbind res_bind].
  f_equal. by apply (le_round 4).
Qed.

Lemma from_u32_code g : from_u32 (gtype_code g) = Ok g.
Proof. by destruct g. Qed.

Lemma gtype_code_range g : in_u 32 (gtype_code g).
Proof. unfold in_u. destruct g; cbn; lia. Qed.

Lemma parse_encode i rest :
  info_ok i -> parse (encode_info i ++ rest) = Ok (i, length (encode_info i)).
Proof.
  intros (Hu & Hn & H0 & H1 & Ho). destruct i as [nm [d0 d1] g off]. cbn [name dimensions offset fst snd] in *.
  set (n4 := le_bytes 4 (Z.of_nat (length nm))).
  set (e0 := le_bytes 4 d0). set (e1 := le_bytes 4 d1). set (eg := le_bytes 4 (gtype_code g)).
  set (eo := le_bytes 4 off).
  assert (Hb : encode_info (mk_Info nm (d0, d1) g off) ++ rest = n4 ++ nm ++ e0 ++ e1 ++ eg ++ eo ++ rest)
    by (unfold encode_info; cbn [name dimensions gtype offset fst snd]; by rewrite <- !app_assoc).
  assert (L : length n4 = 4%nat /\ length e0 = 4%nat /\ length e1 = 4%nat /\ length eg = 4%nat /\ length eo = 4%nat)
    by done.
  destruct L as (Ln & L0 & L1 & Lg & Lo).
  rewrite length_encode_info, Hb. unfold parse.
  set (buf := n4 ++ nm ++ e0 ++ e1 ++ eg ++ eo ++ rest).
  assert (Lb : (20 + length nm <= length buf)%nat) by (unfold buf; rewrite !length_app; lia).
  rewrite (proj2 (Nat.ltb_ge _ _)) by lia.
  assert (R0 : read_u32 buf 0 = Ok (Z.of_nat (length nm))) by (by apply (read_u32_mid [] _ _)).
  rewrite R0. cbn [mbind res_bind]. rewrite (proj2 (Z.ltb_ge _ _)) by lia. rewrite Nat2Z.id.
  assert (Hs : slice buf 4 (4 + length nm) = Ok nm) by (rewrite <- Ln; by apply slice_mid).
  rewrite Hs. cbn [mbind res_bind]. rewrite Hu. cbn [negb name].
  assert (R : forall pre v post k, buf = pre ++ le_bytes 4 v ++ post -> in_u 32 v -> k = length pre ->
    read_u32 buf k = Ok v) by (intros pre v post k -> Hv ->; by apply read_u32_mid).
  assert (Rd0 : read_u32 buf (4 + length nm) = Ok d0)
    by (apply (R (n4 ++ nm) d0 (e1 ++ eg ++ eo ++ rest));
        [by rewrite <- app_assoc|done|rewrite length_app; lia]).
  assert (Rd1 : read_u32 buf (4 + length nm + 4) = Ok d1)
    by (apply (R (n4 ++ nm ++ e0) d1 (eg ++ eo ++ rest));
        [by rewrite <- !app_assoc|done|rewrite !length_app; lia]).
  assert (Rg : read_u32 buf (4 + length nm + 8) = Ok (gtype_code g))
    by (apply (R (n4 ++ nm ++ e0 ++ e1) (gtype_code g) (eo ++ rest));
        [by rewrite <- !app_assoc|apply gtype_code_range|rewrite !length_app; lia]).
  assert (Ro : read_u32 buf (4 + length nm + 12) = Ok off)
    by (apply (R (n4 ++ nm ++ e0 ++ e1 ++ eg) off rest);
        [by rewrite <- !app_assoc|done|rewrite !length_app; lia]).
  rewrite Rd0, Rd1, Rg. cbn [mbind res_bind]. rewrite from_u32_code. cbn [mbind res_bind].
  rewrite Ro. cbn [mbind res_bind]. do 2 f_equal. lia.
Qed.

Lemma parse_entries_encode infos pre acc rest :
  Forall info_ok infos ->
  parse_entries (pre ++ concat (map encode_info infos) ++ rest) (length infos) acc (length pre) =
    Ok (acc ++ infos, (length pre + length (concat (map encode_info infos)))%nat).
Proof.
  intros H. revert pre acc. induction H as [|i infos Hi His IH]; intros pre acc.
  - cbn. by rewrite app_nil_r, Nat.add_0_r.
  - cbn [map concat length parse_entries].
    rewrite (proj2 (Nat.ltb_ge _ _)) by (rewrite length_app; lia).
    rewrite drop_app_length, <- app_assoc, parse_encode by done. cbn [mbind res_bind].
    rewrite <- length_app, app_assoc, IH, <- app_assoc. f_equal. f_equal.
    rewrite !length_app. lia.
Qed.

Lemma read_u32_ok bytes k :
  bytes_ok bytes -> (k + 4 <= length bytes)%nat -> exists v, read_u32 bytes k = Ok v /\ in_u 32 v.
Proof.
  intros Hb Hk. unfold read_u32.
  destruct (lookup_lt_is_Some_2 bytes k ltac:(lia)) as [a Ha].
  destruct (lookup_lt_is_Some_2 bytes (k + 1) ltac:(lia)) as [b Hb'].
  destruct (lookup_lt_is_Some_2 bytes (k + 2) ltac:(lia)) as [c Hc].
  destruct (lookup_lt_is_Some_2 bytes (k + 3) ltac:(lia)) as [d Hd].
  rewrite (proj2 (idx_Ok _ _ _) Ha), (proj2 (idx_Ok _ _ _) Hb'), (proj2 (idx_Ok _ _ _) Hc),
    (proj2 (idx_Ok _ _ _) Hd). cbn [mbind res_bind].
  eexists. split; [done|]. apply (le_of_bound [a; b; c; d]).
  repeat constructor; by eapply (Forall_lookup_1 byte_ok).
Qed.

Lemma from_u32_settles v : settles (from_u32 v).
Proof. unfold from_u32. repeat case_match; done. Qed.

Lemma parse_settles bytes : bytes_ok bytes -> settles (parse bytes).
Proof.
  intros Hb. unfold parse. destruct (_ <? 4)%nat eqn:E; [done|]. unbool.
  destruct (read_u32_ok bytes 0 Hb ltac:(lia)) as (n & -> & Hn). cbn [mbind res_bind].
  unfold in_u in Hn. destruct (_ <? 4 + n + 16) eqn:E2; [done|]. unbool.
  rewrite slice_ok by lia. cbn [mbind res_bind]. destruct (negb _); [done|].
  destruct (read_u32_ok bytes (4 + Z.to_nat n) Hb ltac:(lia)) as (d0 & -> & _).
  destruct (read_u32_ok bytes (4 + Z.to_nat n + 4) Hb ltac:(lia)) as (d1 & -> & _).
  destruct (read_u32_ok bytes (4 + Z.to_nat n + 8) Hb ltac:(lia)) as (r & -> & _). cbn [mbind res_bind].
  apply settles_bind; [apply from_u32_settles|]. intros g _.
  destruct (read_u32_ok bytes (4 + Z.to_nat n + 12) Hb ltac:(lia)) as (o & -> & _). done.
Qed.

Lemma parse_entries_settles bytes n acc off :
  bytes_ok bytes -> settles (parse_entries bytes n acc off).
Proof.
  intros Hb. revert acc off. induction n as [|n IH]; intros acc off; cbn [parse_entries]; [done|].
  destruct (_ <? _)%nat; [done|]. apply settles_bind; [apply parse_settles; bytes|].
  intros [i c] _. apply IH.
Qed.

(** ** Properties *)

(** C40. The tensor table of a file, entries of any names, sizes and types followed
    by anything, parses back to exactly those entries and the number of bytes they
    take; and on every other buffer and every count whose table can be allocated
    the parser returns an error or a table, never panicking. *)
Theorem parse_many_encode infos rest bytes count :
  Forall info_ok infos -> INFO_SIZE * Z.of_nat (length infos) < 2 ^ 63 ->
  bytes_ok bytes -> INFO_SIZE * Z.of_nat count < 2 ^ 63 ->
  parse_many (concat (map encode_info infos) ++ rest) (length infos) =
    Ok (infos, length (concat (map encode_info infos))) /\
  settles (parse_many bytes count).
Proof.
  intros Hi Hl Hb Hc. unfold parse_many. rewrite !(proj2 (Z.ltb_ge _ _)) by lia.
  split; [by apply (parse_entries_encode infos [] [] rest)|]. by apply parse_entries_settles.
Qed.

Lemma parse_many_encode_witness :
  let i := mk_Info [119] (2, 3) Q4_K 64 in
  parse_many (concat (map encode_info [i; i]) ++ [9]) 2 = Ok ([i; i], 42%nat) /\
  settles (parse_many [1; 2; 3; 4; 5] 7).
Proof.
  intros i. apply (parse_many_encode [i; i] [9] [1; 2; 3; 4; 5] 7).
  - repeat constructor; cbn; lia.
  - reflexivity.
  - bytes.
  - reflexivity.
Defined.

(** The half-precision conversion is exact on all 65536 patterns: finite ones
    give the same number with the same sign, canonically represented, infinities
    their infinity and NaNs a NaN; subnormals are renormalised within ten
    rounds. *)
Theorem f16_to_f32_exact b : in_u 16 b -> half_value b (f16_to_f32 b) = true.
Proof. apply half_value_ok. Qed.

Lemma f16_to_f32_exact_witness :
  half_value 1 (f16_to_f32 1) = true /\ f16_to_f32_bits 0x3C00 = 0x3F800000.
Proof. split; [apply (f16_to_f32_exact 1); split; lia|reflexivity]. Defined.

(** [get_scale_min_k4] takes from twelve packed bytes exactly the eight 6-bit
    scales and eight 6-bit minimums that were packed into them. *)
Theorem scale_min_k4_roundtrip sc m j :
  (forall i, (i < 8)%nat -> 0 <= sc i < 64 /\ 0 <= m i < 64) -> (j < 8)%nat ->
  get_scale_min_k4 j (pack_scale_min sc m) = (sc j, m j) /\ bytes_ok (pack_scale_min sc m).
Proof.
  intros H Hj. split.
  - destruct j as [|[|[|[|[|[|[|[|j]]]]]]]]; try lia; unfold get_scale_min_k4, pack_scale_min;
      cbn -[Z.land Z.lor Z.shiftl Z.shiftr Z.mul Z.add Z.div Z.modulo];
      rewrite ?low_six, ?high_two by (apply H; lia); f_equal;
      first [reflexivity | apply low_join; apply H; lia | apply high_join; apply H; lia].
  - unfold pack_scale_min. cbn [map seq app].
    pose proof (H 0%nat ltac:(lia)). pose proof (H 1%nat ltac:(lia)). pose proof (H 2%nat ltac:(lia)).
    pose proof (H 3%nat ltac:(lia)). pose proof (H 4%nat ltac:(lia)). pose proof (H 5%nat ltac:(lia)).
    pose proof (H 6%nat ltac:(lia)). pose proof (H 7%nat ltac:(lia)).
    repeat constructor; unfold byte_ok; cbn [Nat.add]; div_lia.
Qed.

Lemma scale_min_k4_roundtrip_witness :
  get_scale_min_k4 5 (pack_scale_min (fun i => 7 * Z.of_nat (S i)) (fun i => 56 - 7 * Z.of_nat i)) = (42, 21).
Proof.
  apply (scale_min_k4_roundtrip (fun i => 7 * Z.of_nat (S i)) (fun i => 56 - 7 * Z.of_nat i) 5); lia.
Defined.
