(* ===== verification/GgufDecode.v ===== *)
(** * GgufDecode: what the block decoders of [gguf_loader.rs] compute

    The value of every position of every quantised block in closed form - which
    bits of which bytes, which scale, in which order of the [f32] operations - and
    the proof that the decoders' loops, running offsets and shifting masks compute
    exactly that. *)
From stdpp Require Import base list numbers strings.
From Stdlib Require Import Lia SpecFloat.
From S2P Require Import Prelude Tensor Gguf.
Open Scope Z_scope.

(** ** Specification *)

(** The low or the high nibble of byte [k]. *)
Definition nibble (block : list Z) (k : nat) (high : nat) : Z :=
  if (high =? 0)%nat then Z.land (block !!! k) 0x0F else Z.shiftr (block !!! k) 4.

Definition bit_set (x : Z) (k : nat) : bool := negb (Z.land x (Z.shiftl 1 (Z.of_nat k)) =? 0).

Definition two_bits (x : Z) (k : nat) : Z := Z.land (Z.shiftr x (2 * Z.of_nat k)) 3.

(** The 6-bit scale [j] of a [Q3_K] block: a nibble and two bits of a third group. *)
Definition q3_scale (raw : list Z) (j : nat) : Z :=
  Z.lor (nibble raw (j mod 8) (j / 8)) (Z.shiftl (two_bits (raw !!! (8 + j mod 4)%nat) (j / 4)) 4).

(** Value [i] of a block. *)
Definition quant_value (g : GgufGtype) (block : list Z) (i : nat) : f32 :=
  let half := half_at block in
  let sc_min at_ := get_scale_min_k4 (i / 32) (part block at_ (at_ + 12)) in
  match g with
  | F32 => f32_of_bits (le_of block)
  | F16 => f16_to_f32 (le_of block)
  | Q8_0 => f32_mul (f32_of_Z (as_i8 (block !!! (2 + i)%nat))) (half 0%nat)
  | Q4_0 => f32_mul (f32_of_Z (nibble block (2 + i mod 16) (i / 16) - 8)) (half 0%nat)
  | Q4_1 => f32_add (f32_mul (f32_of_Z (nibble block (4 + i mod 16) (i / 16))) (half 0%nat)) (half 2%nat)
  | Q8_K =>
      f32_mul (f32_of_bits (le_of [block !!! 0%nat; block !!! 1%nat; block !!! 2%nat; block !!! 3%nat]))
        (f32_of_Z (as_i8 (block !!! (4 + i)%nat)))
  | Q4_K =>
      let '(sc, m) := sc_min 4%nat in
      f32_sub (f32_mul (f32_mul (half 0%nat) (f32_of_Z sc))
                 (f32_of_Z (nibble block (16 + 32 * (i / 64) + i mod 32) (i / 32 mod 2))))
        (f32_mul (half 2%nat) (f32_of_Z m))
  | Q5_K =>
      let '(sc, m) := sc_min 4%nat in
      let q := nibble block (48 + 32 * (i / 64) + i mod 32) (i / 32 mod 2) +
               (if bit_set (block !!! (16 + i mod 32)%nat) (i / 32) then 16 else 0) in
      f32_sub (f32_mul (f32_mul (half 0%nat) (f32_of_Z sc)) (f32_of_Z q))
        (f32_mul (half 2%nat) (f32_of_Z m))
  | Q6_K =>
      let q := Z.lor (nibble block (64 * (i / 128) + i mod 64) (i mod 128 / 64))
                 (Z.shiftl (two_bits (block !!! (128 + 32 * (i / 128) + i mod 32)%nat) (i mod 128 / 32)) 4) in
      f32_mul (f32_mul (half 208%nat) (f32_of_Z (as_i8 (block !!! (192 + i / 16)%nat))))
        (f32_of_Z (as_i8 q - 32))
  | Q2_K =>
      let sc := block !!! (i / 16)%nat in
      f32_sub (f32_mul (f32_mul (half 80%nat) (f32_of_Z (Z.land sc 0x0F)))
                 (f32_of_Z (two_bits (block !!! (16 + 32 * (i / 128) + i mod 32)%nat) (i mod 128 / 32))))
        (f32_mul (half 82%nat) (f32_of_Z (Z.shiftr sc 4)))
  | Q3_K =>
      let q := two_bits (block !!! (32 + 32 * (i / 128) + i mod 32)%nat) (i mod 128 / 32) -
               (if bit_set (block !!! (i mod 32)%nat) (i / 32) then 0 else 4) in
      f32_mul (f32_mul (half 108%nat) (f32_of_Z (q3_scale (part block 96 108) (i / 16) - 32)))
        (f32_of_Z q)
  end.

(** ** Lemmas *)

(** A block is the list of its bytes. *)
Lemma block_as_map (c : list Z) : c = map (fun i => c !!! i) (seq 0 (length c)).
Proof.
  apply list_eq. intros i. rewrite list_lookup_fmap.
  destruct (decide (i < length c)%nat).
  - rewrite lookup_seq_lt by done. cbn. rewrite (list_lookup_lookup_total_lt c i) by done. done.
  - rewrite !lookup_ge_None_2; [done|rewrite length_seq; lia|lia].
Qed.

(** Both sides as explicit lists of values, the scalar operations kept folded. *)
Ltac by_index :=
  cbv -[f32_mul f32_add f32_sub f32_of_Z f32_of_bits f16_to_f32 
       le_of as_i8 Z.land Z.lor Z.shiftr Z.sub Z.add Z.eqb]; reflexivity.

Lemma values_q8_0 (f : nat -> Z) :
  q8_0_block (map f (seq 0 34)) = map (quant_value Q8_0 (map f (seq 0 34))) (seq 0 32).
Proof. by_index. Qed.

Lemma values_q4_0 (f : nat -> Z) :
  q4_0_block (map f (seq 0 18)) = map (quant_value Q4_0 (map f (seq 0 18))) (seq 0 32).
Proof. by_index. Qed.

Lemma values_q4_1 (f : nat -> Z) :
  q4_1_block (map f (seq 0 20)) = map (quant_value Q4_1 (map f (seq 0 20))) (seq 0 32).
Proof. by_index. Qed.

Lemma values_q8_k (f : nat -> Z) :
  q8_k_block (map f (seq 0 292)) = map (quant_value Q8_K (map f (seq 0 292))) (seq 0 256).
Proof. by_index. Qed.

Lemma values_q4_k (f : nat -> Z) :
  q4_k_block (map f (seq 0 144)) = map (quant_value Q4_K (map f (seq 0 144))) (seq 0 256).
Proof. by_index. Qed.

Lemma values_q2_k (f : nat -> Z) :
  q2_k_block (map f (seq 0 84)) = map (quant_value Q2_K (map f (seq 0 84))) (seq 0 256).
Proof. by_index. Qed.

Lemma values_q3_k (f : nat -> Z) :
  q3_k_block (map f (seq 0 110)) = map (quant_value Q3_K (map f (seq 0 110))) (seq 0 256).
Proof. by_index. Qed.

Lemma values_q5_k (f : nat -> Z) :
  q5_k_block (map f (seq 0 176)) = map (quant_value Q5_K (map f (seq 0 176))) (seq 0 256).
Proof. by_index. Qed.

Lemma values_q6_k (f : nat -> Z) :
  q6_k_block (map f (seq 0 210)) = map (quant_value Q6_K (map f (seq 0 210))) (seq 0 256).
Proof. by_index. Qed.

Lemma block_decoder_values g c :
  length c = block_size g -> block_decoder g c = map (quant_value g c) (seq 0 (block_values g)).
Proof.
  intros Hc. rewrite (block_as_map c), Hc. destruct g; cbn [block_decoder block_size block_values];
    [reflexivity|reflexivity|apply values_q4_0|apply values_q4_1|apply values_q8_0|apply values_q2_k
    |apply values_q3_k|apply values_q4_k|apply values_q5_k|apply values_q6_k|apply values_q8_k].
Qed.

(** An element of equal-sized pieces put together. *)
Lemma concat_map_lookup {A B} (f : A -> list B) n (l : list A) k i c :
  Forall (fun c => length (f c) = n) l -> l !! k = Some c -> (i < n)%nat ->
  concat (map f l) !! (k * n + i)%nat = f c !! i.
Proof.
  intros Hl. revert k. induction Hl as [|x l Hx Hl IH]; intros k Hk Hi; [done|]. cbn [map concat].
  destruct k as [|k].
  - injection Hk as ->. rewrite lookup_app_l by (cbn; lia). done.
  - rewrite lookup_app_r by (cbn; lia). rewrite <- (IH k) by done. f_equal. cbn. lia.
Qed.

Lemma chunks_fuel_lookup {A} n f k (l : list A) :
  (f * n <= length l)%nat -> (k < f)%nat ->
  chunks_fuel f n l !! k = Some (take n (drop (k * n) l)).
Proof.
  revert f l. induction k as [|k IH]; intros [|f] l Hl Hk; try lia; cbn [chunks_fuel]; cbn in Hl;
    rewrite decide_False by lia; [done|].
  cbn. rewrite IH by (rewrite ?length_drop; lia). by rewrite drop_drop.
Qed.

Lemma as_chunks_lookup {A} n (l : list A) k :
  (k < length l / n)%nat -> as_chunks n l !! k = Some (take n (drop (k * n) l)).
Proof.
  intros Hk. apply chunks_fuel_lookup; [|done]. rewrite Nat.mul_comm. apply Nat.Div0.mul_div_le.
Qed.

(** ** Properties *)

(** C31. Every format's decoder turns the bytes into a fixed number of values per
    complete block, ignoring an incomplete tail, and each value is the one its
    position in its block has in the format: the right nibble or bits of the right
    bytes, with the right scale and minimum. *)
Theorem decode_tensor_spec g bytes :
  exists values, decode_tensor bytes g = Ok values /\
  length values = (length bytes / block_size g * block_values g)%nat /\
  forall k i, (k < length bytes / block_size g)%nat -> (i < block_values g)%nat ->
    values !! (k * block_values g + i)%nat =
      Some (quant_value g (take (block_size g) (drop (k * block_size g) bytes)) i).
Proof.
  assert (Hp : (0 < block_size g)%nat) by (destruct g; cbn; lia).
  pose proof (length_as_chunks (block_size g) bytes Hp) as [Hl Hf].
  rewrite decode_tensor_blocks. eexists. split; [reflexivity|]. split.
  - rewrite (length_concat_map _ (block_values g) _ _ Hf) by apply length_block_decoder. by rewrite Hl.
  - intros k i Hk Hi. pose proof (as_chunks_lookup _ _ _ Hk) as Hc.
    rewrite (concat_map_lookup _ _ _ _ _ _ (Forall_impl _ _ _ Hf (length_block_decoder g)) Hc Hi).
    rewrite block_decoder_values by (by eapply (Forall_lookup_1 _ _ _ _ Hf)).
    rewrite list_lookup_fmap, lookup_seq_lt by done. done.
Qed.
