(* ===== verification/BootFormats.v ===== *)
(** * BootFormats: the boot-time self-tests of the formats ([main.rs])

    [kernel_main] runs a self-test per part and prints what it found.  Here are the
    tests that need no device: the tensor decoders, the network headers and messages,
    the twelve-hour clock and the long-name lookup.  Each is a step of Shell's machine
    that ends in a console and a serial line of flags. *)
From stdpp Require Import base list numbers strings.
From Stdlib Require Import Lia SpecFloat.
From S2P Require Import Prelude Icmp Tcp Dns Rtc FatCommon BlockDev Tensor Gguf Shell.
Open Scope Z_scope.

(** ** Reports *)

(** [Vec<f32> == Vec<f32>] *)
Definition f32s_eq (a b : list f32) : bool :=
  (length a =? length b)%nat && forallb (fun '(x, y) => SFeqb x y) (zip a b).

(** [r.map(f).unwrap_or(false)], [r == Ok(v)] and [r.is_err()]; a panic goes on. *)
Definition ok_and {A} (f : A -> bool) (r : res A) : res bool :=
  match r with Ok x => Ok (f x) | Err _ => Ok false | Panic => Panic | Hang => Hang end.
Definition is_err {A} (r : res A) : res bool :=
  match r with Ok _ => Ok false | Err _ => Ok true | Panic => Panic | Hang => Hang end.

(** A decimal [f32] literal [n / d]. *)
Definition f32_lit (n d : Z) : f32 := SFdiv 24 128 (f32_of_Z n) (f32_of_Z d).
Definition to_le_bytes (x : f32) : list Z := le_bytes 4 (bits_of_f32 x).
Definition half : f32 := f32_lit 1 2.

Section Tests.
Context {D N : Type}.
Abbreviation step := (M (Shell.Machine D N) unit).

(** Every self-test announces itself, computes its flags, and prints them on the console
    and on the serial port. *)
Definition report (console serial : string) (flags : list bool) : step :=
  kprintln console (map Bool flags);;
  serial_println serial (map Bool flags).

Definition self_test (banner console serial : string) (flags : res (list bool)) : step :=
  kprintln banner [];;
  bs ← lift flags;
  report console serial bs.

(** ** Tensor decoders *)

Definition f16_bytes (bits : Z) : list Z := le_bytes 2 bits.

(** [core::array::from_fn(|i| (i as i8) - 16)] *)
Definition qs32 : list Z := map (fun i => Z.of_nat i - 16) (seq 0 32).

Definition q8_block : list Z := f16_bytes 0x3800 ++ map u8 qs32.

Definition gguf_q8_0_test : step :=
  self_test "[GGUF INFERENCE] Testing Q8_0 quantized tensor decoding..."
    "[GGUF Q8_0] f16_vectors_ok={} q8_0_decode_ok={} dispatch_f32_ok={} dispatch_q8_0_ok={}"
    "[GGUF] q8_0_test f16_vectors_ok={} q8_0_decode_ok={} dispatch_f32_ok={} dispatch_q8_0_ok={}"
    (let smallest_subnormal_f32 := f32_of_bits (Z.shiftl 103 23) in
    let f16_vectors_ok := forallb (fun '(bits, expected) => SFeqb (f16_to_f32 bits) expected)
      [(0x0000, f32_zero); (0xC000, f32_of_Z (-2)); (0x3C00, f32_of_Z 1); (0x0001, smallest_subnormal_f32)] in
    let decoded := decode_q8_0 q8_block in
    let expected := map (fun v => f32_mul (f32_of_Z v) half) qs32 in
    let q8_0_decode_ok := f32s_eq decoded expected in
    let f32_bytes := to_le_bytes (f32_lit 5 2) in
    dispatch_f32_ok ← ok_and (fun v => f32s_eq v [f32_lit 5 2]) (decode_tensor f32_bytes F32);
    dispatch_q8_0_ok ← ok_and (fun v => f32s_eq v expected) (decode_tensor q8_block Q8_0);
     Ok [f16_vectors_ok; q8_0_decode_ok; dispatch_f32_ok; dispatch_q8_0_ok]).

(** The bytes of sixteen pairs: ascending low nibbles, descending high ones. *)
Definition nibble_bytes : list Z := map (fun j => Z.lor (Z.of_nat j) (Z.shiftl (15 - Z.of_nat j) 4)) (seq 0 16).
Definition nibbles (value : Z -> f32) : list f32 :=
  map (fun j => value (Z.of_nat j)) (seq 0 16) ++ map (fun j => value (15 - Z.of_nat j)) (seq 0 16).

Definition gguf_q4_0_test : step :=
  self_test "[GGUF INFERENCE] Testing Q4_0 quantized tensor decoding..."
    "[GGUF Q4_0] q4_0_decode_ok={} dispatch_q4_0_ok={}"
    "[GGUF] q4_0_test q4_0_decode_ok={} dispatch_q4_0_ok={}"
    (let q4_block := f16_bytes 0x3800 ++ nibble_bytes in
    let expected_q4 := nibbles (fun q => f32_mul (f32_of_Z (q - 8)) half) in
    let decoded_q4 := decode_q4_0 q4_block in
    let q4_0_decode_ok := f32s_eq decoded_q4 expected_q4 in
    dispatch_q4_0_ok ← ok_and (fun v => f32s_eq v expected_q4) (decode_tensor q4_block Q4_0);
     Ok [q4_0_decode_ok; dispatch_q4_0_ok]).

Definition gguf_q4_1_test : step :=
  self_test "[GGUF INFERENCE] Testing Q4_1 quantized tensor decoding..."
    "[GGUF Q4_1] q4_1_decode_ok={} dispatch_q4_1_ok={}"
    "[GGUF] q4_1_test q4_1_decode_ok={} dispatch_q4_1_ok={}"
    (let q4_1_block := f16_bytes 0x3800 ++ f16_bytes 0x3C00 ++ nibble_bytes in
    let expected_q4_1 := nibbles (fun q => f32_add (f32_mul (f32_of_Z q) half) (f32_of_Z 1)) in
    let decoded_q4_1 := decode_q4_1 q4_1_block in
    let q4_1_decode_ok := f32s_eq decoded_q4_1 expected_q4_1 in
    dispatch_q4_1_ok ← ok_and (fun v => f32s_eq v expected_q4_1) (decode_tensor q4_1_block Q4_1);
     Ok [q4_1_decode_ok; dispatch_q4_1_ok]).

Definition gguf_f16_test : step :=
  self_test "[GGUF INFERENCE] Testing F16 tensor decoding..."
    "[GGUF F16] f16_decode_ok={} dispatch_f16_ok={}"
    "[GGUF] f16_test f16_decode_ok={} dispatch_f16_ok={}"
    (let bytes := f16_bytes 0x3C00 ++ f16_bytes 0xC000 ++ f16_bytes 0x3800 in
    let expected_f16 := [f32_of_Z 1; f32_of_Z (-2); half] in
    let f16_decode_ok := f32s_eq (decode_f16_le bytes) expected_f16 in
    dispatch_f16_ok ← ok_and (fun v => f32s_eq v expected_f16) (decode_tensor bytes F16);
     Ok [f16_decode_ok; dispatch_f16_ok]).

(** [extend(repeat_n(v, n))] for each value of a list *)
Definition repeated {A} (n : nat) (vs : list A) : list A := concat (map (replicate n) vs).

Definition K_SCALES : list Z := [135; 142; 213; 220; 120; 113; 42; 35; 195; 90; 225; 120].

Definition gguf_q4_k_test : step :=
  self_test "[GGUF INFERENCE] Testing Q4_K super-block quantized tensor decoding..."
    "[GGUF Q4_K] get_scale_min_k4_ok={} decode_q4_k_ok={} dispatch_q4_k_ok={}"
    "[GGUF] q4_k_test get_scale_min_k4_ok={} decode_q4_k_ok={} dispatch_q4_k_ok={}"
    (let EXPECTED_SC := [7; 14; 21; 28; 35; 42; 49; 56] in
    let EXPECTED_M := [56; 49; 42; 35; 28; 21; 14; 7] in
    let get_scale_min_k4_ok := forallb (fun j =>
      let '(sc, m) := get_scale_min_k4 j K_SCALES in
      (sc =? byte_at EXPECTED_SC j) && (m =? byte_at EXPECTED_M j)) (seq 0 8) in
    let q4k_block := f16_bytes 0x3C00 ++ f16_bytes 0x3C00 ++ K_SCALES ++ repeated 32 [0x00; 0xFF; 0x73; 0x21] in
    let decoded := decode_q4_k q4k_block in
    let expected_q4k := repeated 32 (map f32_of_Z [-56; -49; 273; 385; 77; 273; 35; 105]) in
    let decode_q4_k_ok := f32s_eq decoded expected_q4k in
    dispatch_q4_k_ok ← ok_and (fun v => f32s_eq v expected_q4k) (decode_tensor q4k_block Q4_K);
     Ok [get_scale_min_k4_ok; decode_q4_k_ok; dispatch_q4_k_ok]).

Definition gguf_q6_k_test : step :=
  self_test "[GGUF INFERENCE] Testing Q6_K super-block quantized tensor decoding..."
    "[GGUF Q6_K] decode_q6_k_ok={} dispatch_q6_k_ok={}"
    "[GGUF] q6_k_test decode_q6_k_ok={} dispatch_q6_k_ok={}"
    (let SCALES8 := [2; 3; 5; 7; 11; 13; 17; 19] in
    let q6k_block := repeated 32 [0xAB; 0xCD; 0xAB; 0xCD] ++ repeated 32 [0xE4; 0xE4] ++ SCALES8 ++ SCALES8 ++ f16_bytes 0x3C00 in
    let decoded := decode_q6_k q6k_block in
    let half_expected := [-42; -63; -15; -21; 110; 130; 476; 532] in
    let expected_q6k := repeated 16 (map f32_of_Z (half_expected ++ half_expected)) in
    let decode_q6_k_ok := f32s_eq decoded expected_q6k in
    dispatch_q6_k_ok ← ok_and (fun v => f32s_eq v expected_q6k) (decode_tensor q6k_block Q6_K);
     Ok [decode_q6_k_ok; dispatch_q6_k_ok]).

Definition gguf_q5_k_test : step :=
  self_test "[GGUF INFERENCE] Testing Q5_K super-block quantized tensor decoding..."
    "[GGUF Q5_K] decode_q5_k_ok={} dispatch_q5_k_ok={}"
    "[GGUF] q5_k_test decode_q5_k_ok={} dispatch_q5_k_ok={}"
    (let q5k_block := f16_bytes 0x3C00 ++ f16_bytes 0x3C00 ++ K_SCALES ++ repeated 32 [0xAA; 0xAB; 0xCD; 0xEF; 0x12] in
    let decoded := decode_q5_k q5k_block in
    let expected_q5k := repeated 32 (map f32_of_Z [21; 315; 231; 749; 497; 1239; 84; 945]) in
    let decode_q5_k_ok := f32s_eq decoded expected_q5k in
    dispatch_q5_k_ok ← ok_and (fun v => f32s_eq v expected_q5k) (decode_tensor q5k_block Q5_K);
     Ok [decode_q5_k_ok; dispatch_q5_k_ok]).

Definition gguf_q3_k_test : step :=
  self_test "[GGUF INFERENCE] Testing Q3_K super-block quantized tensor decoding..."
    "[GGUF Q3_K] decode_q3_k_ok={} dispatch_q3_k_ok={}"
    "[GGUF] q3_k_test decode_q3_k_ok={} dispatch_q3_k_ok={}"
    (let RAW_SCALES := [0x33; 0x77; 0xBB; 0xFF; 0x33; 0x77; 0xBB; 0xFF; 0xE4; 0xE4; 0xE4; 0xE4] in
    let q3k_block := repeated 16 [0xAA; 0x55] ++ repeated 64 [0xE4] ++ RAW_SCALES ++ f16_bytes 0x3C00 in
    let decoded := decode_q3_k q3k_block in
    let expected_q3k := repeated 16 (map f32_of_Z
      [116; 0; -21; 51; 26; -18; -15; 1; -12; 0; 11; -45; -38; 46; 81; -31]) in
    let decode_q3_k_ok := f32s_eq decoded expected_q3k in
    dispatch_q3_k_ok ← ok_and (fun v => f32s_eq v expected_q3k) (decode_tensor q3k_block Q3_K);
     Ok [decode_q3_k_ok; dispatch_q3_k_ok]).

Definition gguf_q2_k_test : step :=
  self_test "[GGUF INFERENCE] Testing Q2_K super-block quantized tensor decoding..."
    "[GGUF Q2_K] decode_q2_k_ok={} dispatch_q2_k_ok={}"
    "[GGUF] q2_k_test decode_q2_k_ok={} dispatch_q2_k_ok={}"
    (let scales := map (fun i => Z.lor (Z.of_nat i) (u8 (Z.shiftl (Z.land (15 - Z.of_nat i) 0x0F) 4))) (seq 0 16) in
    let q2k_block := scales ++ repeated 64 [0xE4] ++ f16_bytes 0x3C00 ++ f16_bytes 0x3C00 in
    let decoded := decode_q2_k q2k_block in
    let expected_blocks := [-15; -14; -11; -9; -3; 0; 9; 13; -7; -6; 5; 7; 21; 24; 41; 45] in
    let expected_q2k := repeated 16 (map f32_of_Z expected_blocks) in
    let decode_q2_k_ok := f32s_eq decoded expected_q2k in
    dispatch_q2_k_ok ← ok_and (fun v => f32s_eq v expected_q2k) (decode_tensor q2k_block Q2_K);
     Ok [decode_q2_k_ok; dispatch_q2_k_ok]).

Definition gguf_q8_k_test : step :=
  self_test "[GGUF INFERENCE] Testing Q8_K super-block quantized tensor decoding..."
    "[GGUF Q8_K] decode_q8_k_ok={} dispatch_q8_k_ok={}"
    "[GGUF] q8_k_test decode_q8_k_ok={} dispatch_q8_k_ok={}"
    (let qs := map Z.of_nat (seq 0 256) in
    let q8k_block := to_le_bytes (f32_of_Z 2) ++ qs ++ replicate 32 0 in
    let decoded := decode_q8_k q8k_block in
    let expected_q8k := map (fun i => f32_mul (f32_of_Z 2) (f32_of_Z (as_i8 i))) qs in
    let decode_q8_k_ok := f32s_eq decoded expected_q8k in
    dispatch_q8_k_ok ← ok_and (fun v => f32s_eq v expected_q8k) (decode_tensor q8k_block Q8_K);
     Ok [decode_q8_k_ok; dispatch_q8_k_ok]).
(** ** Several tensors in one file *)

Definition str_eq (a b : list Z) : bool := bool_decide (a = b).
Definition gtype_eq (a b : GgufGtype) : bool := gtype_code a =? gtype_code b.

(** One tensor-info entry with a placeholder for the offset, which is the last word. *)
Definition info_entry (nm : list Z) (dim0 dim1 : Z) (g : GgufGtype) : list Z :=
  le_bytes 4 (Z.of_nat (length nm)) ++ nm ++ le_bytes 4 dim0 ++ le_bytes 4 dim1 ++ le_bytes 4 (gtype_code g) ++ le_bytes 4 0.

Definition NAME1 : list Z := str "weights".
Definition NAME2 : list Z := str "scale_bias".
Definition TENSOR1_DATA : list f32 := [f32_of_Z 1; f32_of_Z (-2); f32_lit 7 2; f32_zero].
Definition expected2 : list f32 := map (fun v => f32_mul (f32_of_Z v) half) qs32.

(** A buffer that begins with [start]: two entries, then the data of each, with the
    offsets patched in; and the two offsets. *)
Definition two_tensors (start : list Z) : list Z * nat * nat :=
  let buf := start ++ info_entry NAME1 2 2 F32 in
  let offset1_pos := (length buf - 4)%nat in
  let buf := buf ++ info_entry NAME2 32 1 Q8_0 in
  let offset2_pos := (length buf - 4)%nat in
  let tensor1_data_offset := length buf in
  let buf := splice offset1_pos (le_bytes 4 (Z.of_nat tensor1_data_offset)) buf in
  let buf := buf ++ concat (map to_le_bytes TENSOR1_DATA) in
  let tensor2_data_offset := length buf in
  let buf := splice offset2_pos (le_bytes 4 (Z.of_nat tensor2_data_offset)) buf in
  let buf := buf ++ f16_bytes 0x3800 ++ map u8 qs32 in
  (buf, tensor1_data_offset, tensor2_data_offset).

(** The two entries are the expected ones, [consumed] bytes long. *)
Definition two_infos_ok (offset1 offset2 consumed : nat) (r : list GgufTensorInfo * nat) : bool :=
  match r with
  | ([i0; i1], used) =>
      str_eq (Gguf.name i0) NAME1 && bool_decide (dimensions i0 = (2, 2)) && gtype_eq (gtype i0) F32 &&
      (offset i0 =? Z.of_nat offset1) &&
      str_eq (Gguf.name i1) NAME2 && bool_decide (dimensions i1 = (32, 1)) && gtype_eq (gtype i1) Q8_0 &&
      (offset i1 =? Z.of_nat offset2) && (used =? consumed)%nat
  | _ => false
  end.

(** [infos.get(i).map(|info| decode_tensor(&buf[info.offset..info.offset + n], info.gtype)
    == Ok(data)).unwrap_or(false)] *)
Definition decodes_to (buf : list Z) (infos : list GgufTensorInfo) (i n : nat) (data : list f32) : res bool :=
  match infos !! i with
  | None => Ok false
  | Some info =>
      bytes ← slice buf (Z.to_nat (offset info)) (Z.to_nat (offset info) + n);
      ok_and (fun v => f32s_eq v data) (decode_tensor bytes (gtype info))
  end.

Definition gguf_multi_tensor_test : step :=
  self_test "[GGUF INFERENCE] Testing GGUF multi-tensor-info support..."
    "[GGUF MULTI-TENSOR] parse_many_ok={} tensor1_decode_ok={} tensor2_decode_ok={}"
    "[GGUF] multi_tensor_test parse_many_ok={} tensor1_decode_ok={} tensor2_decode_ok={}"
    (let '(buf, tensor_info_section_len, tensor2_data_offset) := two_tensors [] in
     let parse_many_result := parse_many buf 2 in
     parse_many_ok ← ok_and (two_infos_ok tensor_info_section_len tensor2_data_offset tensor_info_section_len) parse_many_result;
     let infos := match parse_many_result with Ok (i, _) => i | _ => [] end in
     tensor1_decode_ok ← decodes_to buf infos 0 16 TENSOR1_DATA;
     tensor2_decode_ok ← decodes_to buf infos 1 34 expected2;
     Ok [parse_many_ok; tensor1_decode_ok; tensor2_decode_ok]).

(** ** The twelve-hour clock *)

Definition rtc_12h_conversion_test : step :=
  self_test "[KERNEL INIT] Testing rtc::normalize_hours_12h (12-hour AM/PM boundary cases)..."
    "[RTC] rtc_12h_conversion_test: midnight_ok={} noon_ok={} one_am_ok={} one_pm_ok={} eleven_am_ok={} eleven_pm_ok={}"
    "[RTC] rtc_12h_conversion_test midnight_ok={} noon_ok={} one_am_ok={} one_pm_ok={} eleven_am_ok={} eleven_pm_ok={}"
    (let midnight_ok := normalize_hours_12h 0x00 12 =? 0 in
     let noon_ok := normalize_hours_12h 0x80 12 =? 12 in
     let one_am_ok := normalize_hours_12h 0x00 1 =? 1 in
     let one_pm_ok := normalize_hours_12h 0x80 1 =? 13 in
     let eleven_am_ok := normalize_hours_12h 0x00 11 =? 11 in
     let eleven_pm_ok := normalize_hours_12h 0x80 11 =? 23 in
     Ok [midnight_ok; noon_ok; one_am_ok; one_pm_ok; eleven_am_ok; eleven_pm_ok]).

(** ** Network headers and messages *)

Definition PING_DATA : list Z := str "AgentOS ping self-test payload!!!".

(** [*b ^= 0xFF] *)
Definition flip (i : nat) (l : list Z) : list Z := <[i := Z.lxor (byte_at l i) 0xFF]> l.

Definition icmp_ping_selftest : step :=
  self_test "[KERNEL INIT] Testing real IPv4 + ICMP echo (ping) construction/parsing..."
    "[ICMP] ping self-test: checksum_even_case_ok={} checksum_odd_case_ok={} request_fields_ok={} reply_fields_ok={} corrupted_checksum_rejected={} ipv4_checksum_valid={}"
    "[ICMP] ping_selftest checksum_even_case_ok={} checksum_odd_case_ok={} request_fields_ok={} reply_fields_ok={} corrupted_checksum_rejected={} ipv4_checksum_valid={}"
    (let checksum_even_case_ok := internet_checksum [0x00; 0x01; 0x00; 0x02] =? 0xFFFC in
     let checksum_odd_case_ok := internet_checksum [0x00; 0x01; 0xFF] =? 0x00FE in
     let request := build_icmp_echo false 0x1234 1 PING_DATA in
     request_fields_ok ← ok_and (fun info => negb (is_reply info) && (identifier info =? 0x1234) && (sequence info =? 1))
       (parse_icmp_echo request);
     let reply := build_icmp_echo true 0x1234 1 PING_DATA in
     reply_fields_ok ← ok_and (fun info => is_reply info && (identifier info =? 0x1234) && (sequence info =? 1))
       (parse_icmp_echo reply);
     let corrupted := flip (length reply - 1) reply in
     corrupted_checksum_rejected ← is_err (parse_icmp_echo corrupted);
     let ipv4_header := build_ipv4_header 1 64 IP_PROTOCOL_ICMP [10; 0; 2; 15] [10; 0; 2; 2] (length request) in
     let ipv4_checksum_valid := checksum_is_valid ipv4_header in
     Ok [checksum_even_case_ok; checksum_odd_case_ok; request_fields_ok; reply_fields_ok;
         corrupted_checksum_rejected; ipv4_checksum_valid]).

Definition SRC_IP : list Z := [10; 0; 2; 15].
Definition DST_IP : list Z := [10; 0; 2; 2].

(** The pseudo-header of a TCP segment, before the segment. *)
Definition with_pseudo_header (source_ip dest_ip segment : list Z) : list Z :=
  source_ip ++ dest_ip ++ [0] ++ [IP_PROTOCOL_TCP] ++ be_bytes 2 (u16 (Z.of_nat (length segment))) ++ segment.

(** A SYN with four bytes of options, its checksum computed here. *)
Definition syn_header_with_options (syn_header : list Z) : list Z :=
  let seg := replicate 24 0 in
  let seg := splice 0 (part syn_header 0 12) seg in
  let seg := <[12%nat := 0x60]> seg in
  let seg := <[13%nat := TCP_FLAG_SYN]> seg in
  let seg := splice 14 (part syn_header 14 16) seg in
  let seg := splice 20 [0x01; 0x01; 0x01; 0x01] seg in
  let checksum := internet_checksum (with_pseudo_header SRC_IP DST_IP seg) in
  splice 16 (be_bytes 2 checksum) seg.

Definition tcp_header_selftest : step :=
  self_test "[KERNEL INIT] Testing real TCP header construction/parsing..."
    "[TCP] header self-test: pseudo_checksum_hand_computed_ok={} syn_fields_ok={} corrupted_checksum_rejected={} header_len_with_options_ok={}"
    "[TCP] header_selftest pseudo_checksum_hand_computed_ok={} syn_fields_ok={} corrupted_checksum_rejected={} header_len_with_options_ok={}"
    (let pseudo_checksum_hand_computed_ok :=
       internet_checksum (with_pseudo_header [0; 0; 0; 1] [0; 0; 0; 2] [0x00; 0x01; 0x00; 0x02]) =? 0xFFEF in
     let syn_header := build_tcp_header SRC_IP DST_IP 54321 80 0x10000000 0 TCP_FLAG_SYN 65535 [] in
     syn_fields_ok ← ok_and (fun info =>
         (source_port info =? 54321) && (dest_port info =? 80) && (seq_num info =? 0x10000000) && (ack_num info =? 0) &&
         (flags info =? TCP_FLAG_SYN) && (window info =? 65535) && (header_len info =? 20)%nat)
       (parse_tcp_segment SRC_IP DST_IP syn_header);
     let corrupted := flip 0 syn_header in
     corrupted_checksum_rejected ← is_err (parse_tcp_segment SRC_IP DST_IP corrupted);
     header_len_with_options_ok ← ok_and (fun info => (header_len info =? 24)%nat)
       (parse_tcp_segment SRC_IP DST_IP (syn_header_with_options syn_header));
     Ok [pseudo_checksum_hand_computed_ok; syn_fields_ok; corrupted_checksum_rejected; header_len_with_options_ok]).

(** ** DNS *)

Definition QUESTION_LEN : nat := 17.
Definition EXAMPLE_COM : list Z := [0x07] ++ str "example" ++ [0x03] ++ str "com" ++ [0x00].
Definition FAKE_REPLY : list Z :=
  [0x12; 0x34; 0x81; 0x80; 0x00; 0x01; 0x00; 0x01; 0x00; 0x00; 0x00; 0x00] ++ EXAMPLE_COM ++ [0x00; 0x01; 0x00; 0x01] ++
  [0xC0; 0x0C; 0x00; 0x01; 0x00; 0x01; 0x00; 0x00; 0x02; 0x58; 0x00; 0x04; 192; 0; 2; 1].
Definition MULTI_ANSWER_REPLY : list Z :=
  [0x12; 0x34; 0x81; 0x80; 0x00; 0x01; 0x00; 0x02; 0x00; 0x00; 0x00; 0x00] ++ EXAMPLE_COM ++ [0x00; 0x01; 0x00; 0x01] ++
  [0xC0; 0x0C; 0x00; 0x05; 0x00; 0x01; 0x00; 0x00; 0x02; 0x58; 0x00; 0x02; 0xC0; 0x0C] ++
  [0xC0; 0x0C; 0x00; 0x01; 0x00; 0x01; 0x00; 0x00; 0x02; 0x58; 0x00; 0x04; 192; 0; 2; 42].
Definition UNCOMPRESSED_NAME_REPLY : list Z :=
  [0x12; 0x34; 0x81; 0x80; 0x00; 0x01; 0x00; 0x01; 0x00; 0x00; 0x00; 0x00] ++ EXAMPLE_COM ++ [0x00; 0x01; 0x00; 0x01] ++
  EXAMPLE_COM ++ [0x00; 0x01; 0x00; 0x01; 0x00; 0x00; 0x02; 0x58; 0x00; 0x04; 203; 0; 113; 5].
Definition PARTIAL_COMPRESSION_REPLY : list Z :=
  [0x12; 0x34; 0x81; 0x80; 0x00; 0x01; 0x00; 0x01; 0x00; 0x00; 0x00; 0x00] ++ EXAMPLE_COM ++ [0x00; 0x01; 0x00; 0x01] ++
  [0x03] ++ str "www" ++ [0xC0; 0x0C] ++ [0x00; 0x01; 0x00; 0x01; 0x00; 0x00; 0x02; 0x58; 0x00; 0x04; 198; 51; 100; 9].
Definition EXPECTED_AAAA_IP : list Z :=
  [0x20; 0x01; 0x0D; 0xB8; 0x00; 0x00; 0x00; 0x00; 0x00; 0x00; 0x00; 0x00; 0x00; 0x00; 0x00; 0x01].
Definition AAAA_RECORD_REPLY : list Z :=
  [0x12; 0x34; 0x81; 0x80; 0x00; 0x01; 0x00; 0x01; 0x00; 0x00; 0x00; 0x00] ++ EXAMPLE_COM ++ [0x00; 0x1C; 0x00; 0x01] ++
  [0xC0; 0x0C; 0x00; 0x1C; 0x00; 0x01; 0x00; 0x00; 0x02; 0x58; 0x00; 0x10] ++ EXPECTED_AAAA_IP.

Definition dns_answer_parse_selftest : step :=
  self_test "[KERNEL INIT] Testing real DNS answer-record parsing..."
    "[DNS] answer-parse self-test: a_record_parsed_ok={} zero_answers_rejected={} non_a_record_rejected={} malformed_name_rejected={} multi_answer_ok={} uncompressed_name_parsed_ok={} partial_compression_parsed_ok={} truncated_partial_pointer_rejected={} aaaa_record_parsed_ok={} no_matching_aaaa_rejected={}"
    "[DNS] answer_parse_selftest a_record_parsed_ok={} zero_answers_rejected={} non_a_record_rejected={} malformed_name_rejected={} multi_answer_ok={} uncompressed_name_parsed_ok={} partial_compression_parsed_ok={} truncated_partial_pointer_rejected={} aaaa_record_parsed_ok={} no_matching_aaaa_rejected={}"
    (a_record_parsed_ok ← ok_and (str_eq [192; 0; 2; 1]) (parse_first_a_record FAKE_REPLY QUESTION_LEN);
     zero_answers_rejected ← is_err (parse_first_a_record (<[7%nat := 0x00]> FAKE_REPLY) QUESTION_LEN);
     non_a_record_rejected ← is_err (parse_first_a_record (<[31%nat := 0x05]> FAKE_REPLY) QUESTION_LEN);
     malformed_name_rejected ← is_err (parse_first_a_record (<[29%nat := 0x3F]> FAKE_REPLY) QUESTION_LEN);
     multi_answer_ok ← ok_and (str_eq [192; 0; 2; 42]) (parse_first_a_record MULTI_ANSWER_REPLY QUESTION_LEN);
     uncompressed_name_parsed_ok ← ok_and (str_eq [203; 0; 113; 5]) (parse_first_a_record UNCOMPRESSED_NAME_REPLY QUESTION_LEN);
     partial_compression_parsed_ok ← ok_and (str_eq [198; 51; 100; 9])
       (parse_first_a_record PARTIAL_COMPRESSION_REPLY QUESTION_LEN);
     truncated ← slice PARTIAL_COMPRESSION_REPLY 0 34;
     truncated_partial_pointer_rejected ← is_err (parse_first_a_record truncated QUESTION_LEN);
     aaaa_record_parsed_ok ← ok_and (str_eq EXPECTED_AAAA_IP) (parse_first_aaaa_record AAAA_RECORD_REPLY QUESTION_LEN);
     no_matching_aaaa_rejected ← is_err (parse_first_aaaa_record FAKE_REPLY QUESTION_LEN);
     Ok [a_record_parsed_ok; zero_answers_rejected; non_a_record_rejected; malformed_name_rejected; multi_answer_ok;
         uncompressed_name_parsed_ok; partial_compression_parsed_ok; truncated_partial_pointer_rejected;
         aaaa_record_parsed_ok; no_matching_aaaa_rejected]).

Definition EXAMPLE_COM_QUERY (qtype : Z) : list Z :=
  [0x12; 0x34] ++ [0x01; 0x00] ++ [0x00; 0x01] ++ [0x00; 0x00] ++ [0x00; 0x00] ++ [0x00; 0x00] ++ EXAMPLE_COM ++
  [0x00; qtype] ++ [0x00; 0x01].

Definition dns_build_query_selftest : step :=
  self_test "[KERNEL INIT] Testing real DNS query building (net::dns::build_query)..."
    "[DNS] query-build self-test: valid_query_matches_known_bytes={} empty_hostname_rejected={} over_long_label_rejected={} empty_label_rejected={} over_long_total_name_rejected={} aaaa_query_matches_known_bytes={}"
    "[DNS] build_query_selftest valid_query_matches_known_bytes={} empty_hostname_rejected={} over_long_label_rejected={} empty_label_rejected={} over_long_total_name_rejected={} aaaa_query_matches_known_bytes={}"
    (valid_query_matches_known_bytes ← ok_and (str_eq (EXAMPLE_COM_QUERY 0x01)) (build_query 0x1234 (str "example.com") DNS_TYPE_A);
     empty_hostname_rejected ← is_err (build_query 0x1234 [] DNS_TYPE_A);
     let over_long_label := replicate 64 0x61 in
     over_long_label_rejected ← is_err (build_query 0x1234 over_long_label DNS_TYPE_A);
     empty_label_rejected ← is_err (build_query 0x1234 (str "a..b") DNS_TYPE_A);
     let over_long_total_name := join 0x2E (replicate 5 (replicate MAX_LABEL_LEN 0x61)) in
     over_long_total_name_rejected ← is_err (build_query 0x1234 over_long_total_name DNS_TYPE_A);
     aaaa_query_matches_known_bytes ← ok_and (str_eq (EXAMPLE_COM_QUERY 0x1C)) (build_query 0x1234 (str "example.com") DNS_TYPE_AAAA);
     Ok [valid_query_matches_known_bytes; empty_hostname_rejected; over_long_label_rejected; empty_label_rejected;
         over_long_total_name_rejected; aaaa_query_matches_known_bytes]).

(** ** Lookup by either name *)

Definition SHORT_NAME : list Z := str "SHORTN~1TXT".
Definition LONG_NAME : list Z := str "unit test.txt".

(** The low bytes of some characters, two bytes apart. *)
Definition put_chars (at_ : nat) (chars entry : list Z) : list Z :=
  foldl (fun e '(i, c) => <[(at_ + i * 2)%nat := c]> e) entry (zip (seq 0 (length chars)) chars).

Definition long_entry : list Z :=
  let checksum := lfn_checksum SHORT_NAME in
  let entry := <[0%nat := 0x41]> (replicate 32 0) in
  let chars := LONG_NAME in
  let entry := put_chars 1 (part chars 0 5) entry in
  let entry := <[13%nat := checksum]> (<[11%nat := 0x0F]> entry) in
  let entry := put_chars 14 (part chars 5 11) entry in
  put_chars 28 (part chars 11 13) entry.

Definition short_entry : list Z := <[11%nat := 0x20]> (splice 0 SHORT_NAME (replicate 32 0)).

Definition short_entry_if_matches_test : step :=
  self_test "[KERNEL INIT] Testing fat_common::short_entry_if_matches (VFAT dual-name lookup)..."
    "[FAT] short_entry_if_matches_test: by_long_name_ok={} by_short_name_ok={} mismatch_rejected={}"
    "[FAT] short_entry_if_matches_test by_long_name_ok={} by_short_name_ok={} mismatch_rejected={}"
    (let lookup := fun target => (short_entry_if_matches short_entry (push_long_entry long_entry LfnState_default) target).1 in
     let resolved := fun o => match o with Some e => str_eq (FatCommon.name e) LONG_NAME | None => false end in
     let by_long_name_ok := resolved (lookup LONG_NAME) in
     let by_short_name_ok := resolved (lookup (str "SHORTN~1.TXT")) in
     let mismatch_rejected := match lookup (str "nonexistent.txt") with None => true | Some _ => false end in
     Ok [by_long_name_ok; by_short_name_ok; mismatch_rejected]).

(** The tests, in the order of the boot. *)
Definition format_tests : list step :=
  [gguf_q8_0_test; gguf_q4_0_test; gguf_q4_1_test; gguf_f16_test; gguf_q4_k_test; gguf_q6_k_test; gguf_q5_k_test;
   gguf_q3_k_test; gguf_q2_k_test; gguf_q8_k_test; gguf_multi_tensor_test; rtc_12h_conversion_test; icmp_ping_selftest;
   tcp_header_selftest; dns_answer_parse_selftest; dns_build_query_selftest; short_entry_if_matches_test].

(** ** What a test that passes leaves *)

Definition flags_of (e : event) : list bool :=
  match e with
  | Console _ args | Serial _ args => concat (map (fun a => match a with Bool b => [b] | _ => [] end) args)
  | ClearScreen => []
  end.

Definition add_printed (evs : list event) (m : Shell.Machine D N) : Shell.Machine D N :=
  Shell.mk_Machine (disk m) (sched m) (kv_manager m) (ticks m) (services m) (printed m ++ evs).

(** The test prints [n] flags on the serial port, and as many on the console, all of
    them true, and does nothing else. *)
Definition passes (n : nat) (t : step) : Prop :=
  forall m, exists evs, t m = (Ok tt, add_printed evs m) /\
    concat (map flags_of evs) = replicate (n + n) true.

Lemma self_test_passes banner console serial flags n :
  flags = Ok (replicate n true) -> passes n (self_test banner console serial flags).
Proof.
  intros -> m. eexists. split.
  - unfold self_test, report, kprintln, serial_println, emit, mbind, M_bind, modify, lift, add_printed. cbn. by rewrite <- !app_assoc.
  - cbn [app map concat flags_of].
    assert (Hf : forall l : list bool, concat (map (fun a => match a with Bool b => [b] | _ => [] end) (map Bool l)) = l).
    { intros l. induction l as [|b l IH]; [done|]. cbn. by rewrite IH. }
    by rewrite !Hf, app_nil_r, replicate_add.
Qed.

(** The number of flags of each test. *)
Definition format_flags : list nat := [4; 2; 2; 2; 3; 2; 2; 2; 2; 2; 3; 6; 6; 4; 10; 6; 3]%nat.

(** Every self-test of the boot that needs no device passes on every machine: the
    decoders of all the quantised formats, the network headers and DNS messages, the
    twelve-hour clock and the long-name lookup give the values worked out by hand in
    [kernel_main], refuse what it expects to be refused, and print only [true]. *)
Example format_tests_pass : Forall2 passes format_flags format_tests.
Proof.
  unfold format_flags, format_tests.
  repeat (apply List.Forall2_cons; [apply self_test_passes; vm_compute; reflexivity|]). apply List.Forall2_nil.
Qed.
End Tests.
