(* ===== verification/BootTasks.v ===== *)
(** * BootTasks: the boot-time self-tests of the process table, the KV blocks and the
      system calls ([main.rs])

    [kernel_main] fills the process table, allocates a KV block and then calls its own
    system-call dispatcher.  The state is Shell's machine with memory.  The tests that
    hand arrays to the tensor call are proved for every placement of those arrays. *)
From stdpp Require Import base list numbers strings.
From Stdlib Require Import Lia SpecFloat.
From S2P Require Import Prelude Mem X64 ContextSwitch AgentScheduler KvAllocator Paging Tensor Syscall Gguf Shell BootFormats.
From S2P Require Ring3Alone Ring3SoloTests.
Open Scope Z_scope.

Section Tests.
Context {D N : Type} (try_new : Z -> option Z) (translate : Z -> option (list PageFlag)).

Abbreviation boot := (Shell.Machine D N * (Z -> Z))%type.
Abbreviation step := (M boot unit).

(** A step of the shell's machine. *)
Definition on_shell {A} (c : M (Shell.Machine D N) A) : M boot A := fun '(s, m) =>
  let '(r, s') := c s in (r, (s', m)).

Definition println (console serial : string) (args : list arg) : step :=
  on_shell (kprintln console args;; serial_println serial args).

Definition banner (s : string) : step := on_shell (kprintln s []).

Definition on_sched {A} (f : NativeAgentScheduler -> A * NativeAgentScheduler) : M boot A := fun '(s, m) =>
  let '(a, sc) := f (Shell.sched s) in
  (Ok a, (Shell.mk_Machine (disk s) sc (kv_manager s) (ticks s) (services s) (printed s), m)).

Definition on_kv {A} (f : KVCacheMemoryManager -> A * KVCacheMemoryManager) : M boot A := fun '(s, m) =>
  let '(a, k) := f (kv_manager s) in
  (Ok a, (Shell.mk_Machine (disk s) (Shell.sched s) k (ticks s) (services s) (printed s), m)).

(** A field of the last live process with that pid. *)
Definition of_pid {A} (p : Z) (field : ProcessControlBlock -> A) : M boot (option A) :=
  on_sched (fun sc => (foldl (fun o x => if pid x =? p then Some (field x) else o) None (live sc), sc)).

Definition is_some_num (o : option Z) (v : Z) : bool := bool_decide (o = Some v).

(** ** The process table *)

Definition current_pid_test : step :=
  o ← on_sched schedule_next;
  match o with
  | None => mret tt
  | Some next_pid =>
      on_shell (kprintln "[SCHEDULER] Switched context to active PID: {}" [Num next_pid]);;
      current ← on_sched (fun sc => (get_current_pid sc, sc));
      let args := [Num current; Num next_pid; Bool (current =? next_pid)] in
      println "[SCHEDULER] current_pid_test: get_current_pid={} scheduled_pid={} ok={}"
        "[SCHEDULER] current_pid_test get_current_pid={} scheduled_pid={} ok={}" args
  end.

(** A field of the first three processes against what is expected. *)
Definition three_pids (field : ProcessControlBlock -> Z) (e1 e2 e3 : Z) (console serial : string) : step :=
  p1 ← of_pid 1 field; p2 ← of_pid 2 field; p3 ← of_pid 3 field;
  println console serial
    [OptNum p1; OptNum p2; OptNum p3; Bool (is_some_num p1 e1 && is_some_num p2 e2 && is_some_num p3 e3)].

Definition token_quota_test : step :=
  three_pids token_quota 50000 25000 25000 "[SCHEDULER] token_quota_test: pid1={:?} pid2={:?} pid3={:?} ok={}"
    "[SCHEDULER] token_quota_test pid1={:?} pid2={:?} pid3={:?} ok={}".

Definition tokens_used_test : step :=
  on_sched (fun sc => (tt, add_tokens_used 1 100 sc));;
  on_sched (fun sc => (tt, add_tokens_used 1 250 sc));;
  on_sched (fun sc => (tt, add_tokens_used 2 500 sc));;
  three_pids tokens_used 350 500 0 "[SCHEDULER] tokens_used_test: pid1={:?} pid2={:?} pid3={:?} ok={}"
    "[SCHEDULER] tokens_used_test pid1={:?} pid2={:?} pid3={:?} ok={}".

Definition start_scheduler : step :=
  banner "[KERNEL INIT] Starting Agent Multitask Scheduler...";;
  on_sched (spawn "kernel-supervisord" KernelCritical 50000);;
  on_sched (spawn "mal-native-engine" High 25000);;
  on_sched (spawn "kv-cache-pager" High 25000);;
  banner "[SCHEDULER] Spawned PID 1: kernel-supervisord";;
  banner "[SCHEDULER] Spawned PID 2: mal-native-engine";;
  banner "[SCHEDULER] Spawned PID 3: kv-cache-pager";;
  current_pid_test;;
  token_quota_test;;
  tokens_used_test.

Definition start_kv : step :=
  banner "[KERNEL INIT] Initializing KV Cache Memory Manager...";;
  o ← on_kv (allocate_kv_block 2 2048);
  match o with
  | Some b => on_shell (kprintln "[KV MEMORY] Allocated KV Cache Block #{} for PID 2 in SystemRam" [Num b])
  | None => mret tt
  end.

(** ** System calls *)

(** [dispatch_syscall(nr, a1, a2, 0, false)] *)
Definition syscall (nr a1 a2 : Z) : M boot Z := fun '(s, m) =>
  let '(r, k) := dispatch_syscall try_new translate nr a1 a2 false (Syscall.mk_Machine (Shell.sched s) (kv_manager s) m) in
  (r, (Shell.mk_Machine (disk s) (Syscall.sched k) (Syscall.kv k) (ticks s) (services s) (printed s), Syscall.mem k)).

Definition kv_block_id_test : step :=
  banner "[KERNEL SYSCALL] Testing Native Agent Syscall Dispatcher...";;
  syscall SYS_SERIAL_PRINT 0 0;;
  spawned_pid ← syscall SYS_AGENT_SPAWN 10000 0;
  kv_block_id ← syscall SYS_KV_ALLOC spawned_pid 1024;
  o ← of_pid (u32 spawned_pid) AgentScheduler.kv_block_id;
  let kv_block_id_matches := match o with Some b => bool_decide (b = Some (u32 kv_block_id)) | None => false end in
  println "[KERNEL SYSCALL] kv_block_id_test: matches={}" "[SYSCALL] kv_block_id_test matches={}" [Bool kv_block_id_matches].

Definition kv_count : M boot Z := on_kv (fun k => (get_allocated_count k, k)).

Definition kv_free_test : step :=
  banner "[KERNEL SYSCALL] Testing SYS_KV_FREE (real heap deallocation via syscall)...";;
  count_before ← kv_count;
  new_block_id ← syscall SYS_KV_ALLOC 99 512;
  count_after_alloc ← kv_count;
  let alloc_ok := count_after_alloc =? count_before + 1 in
  free_result ← syscall SYS_KV_FREE new_block_id 0;
  count_after_free ← kv_count;
  let free_ok := (free_result =? 1) && (count_after_free =? count_before) in
  invalid_free_result ← syscall SYS_KV_FREE 9999 0;
  let invalid_free_rejected := invalid_free_result =? 0 in
  zero_free_result ← syscall SYS_KV_FREE 0 0;
  let zero_free_rejected := zero_free_result =? 0 in
  println "[SYSCALL] kv_free_test: alloc_ok={} free_ok={} invalid_free_rejected={} zero_free_rejected={}"
    "[SYSCALL] kv_free_test alloc_ok={} free_ok={} invalid_free_rejected={} zero_free_rejected={}"
    (map Bool [alloc_ok; free_ok; invalid_free_rejected; zero_free_rejected]).

Definition KV_FREE_TEST_PID : Z := 3.

Definition kv_free_clears_block_id_test : step :=
  kv_free_block_id ← syscall SYS_KV_ALLOC KV_FREE_TEST_PID 128;
  o ← of_pid KV_FREE_TEST_PID AgentScheduler.kv_block_id;
  let kv_block_id_set := match o with Some b => bool_decide (b = Some (u32 kv_free_block_id)) | None => false end in
  syscall SYS_KV_FREE kv_free_block_id 0;;
  o ← of_pid KV_FREE_TEST_PID AgentScheduler.kv_block_id;
  let kv_block_id_cleared := match o with Some None => true | _ => false end in
  println "[KERNEL SYSCALL] kv_free_clears_block_id_test: kv_block_id_set={} kv_block_id_cleared={}"
    "[SYSCALL] kv_free_clears_block_id_test kv_block_id_set={} kv_block_id_cleared={}"
    (map Bool [kv_block_id_set; kv_block_id_cleared]).

(** ** The tensor call *)

(** Where the arrays and the argument block of a test are on the stack. *)
Record Frame := mk_Frame { f_weights : Z; f_inputs : Z; f_bias : Z; f_outputs : Z; f_args : Z }.

Definition f32_bytes (l : list f32) : list Z := concat (map to_le_bytes l).

Definition store (a : Z) (bs : list Z) : step := fun '(s, m) => (Ok tt, (s, write_bytes a bs m)).

(** The arrays are written, the argument block points to them, and the call is made. *)
Definition tensor_call (fr : Frame) (weights inputs bias outputs : list f32) (in_dim out_dim : Z) : M boot Z :=
  let n := fun l : list f32 => Z.of_nat (length l) in
  store (f_weights fr) (f32_bytes weights);;
  store (f_inputs fr) (f32_bytes inputs);;
  store (f_bias fr) (f32_bytes bias);;
  store (f_outputs fr) (f32_bytes outputs);;
  store (f_args fr) (Ring3SoloTests.args_bytes
    (mk_Args (f_weights fr) (n weights) (f_inputs fr) (n inputs) (f_bias fr) (n bias) (f_outputs fr) (n outputs) in_dim out_dim));;
  syscall SYS_TENSOR_EVAL (f_args fr) 0.

(** [(a - b).abs() < 0.001] *)
Definition close (a b : f32) : bool := SFltb (SFabs (f32_sub a b)) (f32_lit 1 1000).

Definition ints : list Z -> list f32 := map f32_of_Z.
Definition zeros (n : nat) : list f32 := replicate n f32_zero.

Definition tensor_eval_test (fr : Frame) : step :=
  banner "[KERNEL SYSCALL] Testing SYS_TENSOR_EVAL (real tensor engine via syscall)...";;
  result ← tensor_call fr (ints [1; 2; 3; 4]) (ints [1; 1]) (ints [1; -10]) (zeros 2) 2 2;
  let syscall_ok := result =? 0 in
  outputs ← gets (fun b : boot => read_f32s b.2 (f_outputs fr) 2);
  let tensor_eval_correct := forallb (fun '(a, b) => close a b) (zip outputs (ints [4; 0])) in
  println "[SYSCALL] tensor_eval_test: syscall_ok={} tensor_eval_correct={} outputs=[{:.2}, {:.2}]"
    "[SYSCALL] tensor_eval_test syscall_ok={} tensor_eval_correct={} outputs=[{:.2}, {:.2}]"
    (Bool syscall_ok :: Bool tensor_eval_correct :: map (fun x => Float (bits_of_f32 x)) outputs).

Definition DEFINITELY_UNMAPPED : Z := 0x1000.

Definition tensor_eval_invalid_ptr_test : step :=
  banner "[KERNEL SYSCALL] Testing SYS_TENSOR_EVAL rejects an unmapped pointer...";;
  result ← syscall SYS_TENSOR_EVAL DEFINITELY_UNMAPPED 0;
  let rejected_cleanly := result =? U64_MAX in
  println "[SYSCALL] tensor_eval_invalid_ptr_test: rejected_cleanly={}"
    "[SYSCALL] tensor_eval_invalid_ptr_test rejected_cleanly={}" [Bool rejected_cleanly].

Definition tensor_eval_dim_mismatch_test (fr fr2 : Frame) : step :=
  banner "[KERNEL SYSCALL] Testing SYS_TENSOR_EVAL rejects inconsistent in_dim/out_dim...";;
  result ← tensor_call fr (zeros 4) (zeros 2) (zeros 2) (zeros 3) 3 2;
  let weights_insufficient_rejected := result =? U64_MAX in
  result2 ← tensor_call fr2 (zeros 8) (zeros 2) (zeros 3) (zeros 2) 2 3;
  let outputs_insufficient_rejected := result2 =? U64_MAX in
  println "[SYSCALL] tensor_eval_dim_mismatch_test: weights_insufficient_rejected={} outputs_insufficient_rejected={}"
    "[SYSCALL] tensor_eval_dim_mismatch_test weights_insufficient_rejected={} outputs_insufficient_rejected={}"
    (map Bool [weights_insufficient_rejected; outputs_insufficient_rejected]).

(** The tests in the order of the boot; the frames are those of the tensor tests. *)
Definition start_tasks : step := start_scheduler;; start_kv.

Definition syscall_tests (fr1 fr2 fr3 : Frame) : step :=
  kv_block_id_test;;
  tensor_eval_test fr1;;
  tensor_eval_invalid_ptr_test;;
  tensor_eval_dim_mismatch_test fr2 fr3;;
  kv_free_test;;
  kv_free_clears_block_id_test.
End Tests.

(** ** Arrays in memory *)

Definition write_all (l : list (Z * list Z)) (m : Z -> Z) : Z -> Z :=
  foldl (fun m '(a, bs) => write_bytes a bs m) m l.

Definition spans (l : list (Z * list Z)) : list (Z * Z) := map (fun '(a, bs) => (a, Z.of_nat (length bs))) l.

Lemma write_all_out l m a n :
  (forall b bs, (b, bs) ∈ l -> disjoint_ranges a (Z.of_nat n) b (Z.of_nat (length bs))) ->
  read_bytes (write_all l m) a n = read_bytes m a n.
Proof.
  revert m. induction l as [|[b bs] l IH]; intros m Hd; [done|]. cbn [write_all foldl].
  change (read_bytes (write_all l (write_bytes b bs m)) a n = read_bytes m a n).
  rewrite IH by (intros c cs Hin; apply Hd; by right). apply read_bytes_out.
  pose proof (Hd b bs ltac:(left)) as H. unfold disjoint_ranges in H. lia.
Qed.

(** Ranges that are pairwise apart all hold what was written to them. *)
Lemma read_write_all l m i a bs :
  Ring3Alone.pairwise_apart (spans l) -> l !! i = Some (a, bs) -> read_bytes (write_all l m) a (length bs) = bs.
Proof.
  intros [_ Hp] Hi. rewrite <- (take_drop_middle l i (a, bs) Hi). unfold write_all. rewrite foldl_app. cbn [foldl].
  change (read_bytes (write_all (drop (S i) l) (write_bytes a bs (write_all (take i l) m))) a (length bs) = bs).
  rewrite (write_all_out (drop (S i) l)); [apply read_write_bytes|].
  intros b cs [j Hj]%list_elem_of_lookup. rewrite lookup_drop in Hj.
  apply (Hp i (S i + j)%nat); [| |lia]; unfold spans; by rewrite list_lookup_fmap, ?Hi, ?Hj.
Qed.

Definition f32_fits (x : f32) : Prop := f32_of_bits (bits_of_f32 x) = x /\ in_u 32 (bits_of_f32 x).

Lemma read_f32s_bytes m p l :
  Forall f32_fits l -> read_bytes m p (4 * length l) = f32_bytes l -> read_f32s m p (Z.of_nat (length l)) = l.
Proof.
  intros Hf Hb. unfold read_f32s. rewrite Nat2Z.id. revert p Hb. induction Hf as [|x l [Hx1 Hx2] _ IH]; intros p Hb; [done|].
  cbn [length] in Hb. replace (4 * S (length l))%nat with (4 + 4 * length l)%nat in Hb by lia.
  rewrite read_bytes_app in Hb. cbn [f32_bytes map concat] in Hb.
  apply app_inj_1 in Hb as [Hb1 Hb2]; [|unfold to_le_bytes; by rewrite length_read_bytes, length_le_bytes].
  cbn [length seq map]. f_equal.
  - replace (p + 4 * Z.of_nat 0) with p by lia. rewrite Hb1. unfold to_le_bytes. rewrite le_of_le_bytes, Z.mod_small by exact Hx2. exact Hx1.
  - rewrite <- seq_shift, map_map. etransitivity; [|exact (IH (p + Z.of_nat 4) Hb2)]. apply map_ext. intros i.
    do 3 f_equal. lia.
Qed.

(** ** The tensor call on arrays *)

Section Calls.
Context (try_new : Z -> option Z) (translate : Z -> option (list PageFlag)).

(** The arrays of a call, as they are written. *)
Definition call_args (fr : Frame) (weights inputs bias outputs : list f32) (in_dim out_dim : Z) : TensorEvalArgs :=
  let n := fun l : list f32 => Z.of_nat (length l) in
  mk_Args (f_weights fr) (n weights) (f_inputs fr) (n inputs) (f_bias fr) (n bias) (f_outputs fr) (n outputs) in_dim out_dim.

Definition call_writes (fr : Frame) (weights inputs bias outputs : list f32) (in_dim out_dim : Z) : list (Z * list Z) :=
  [(f_weights fr, f32_bytes weights); (f_inputs fr, f32_bytes inputs); (f_bias fr, f32_bytes bias);
   (f_outputs fr, f32_bytes outputs);
   (f_args fr, Ring3SoloTests.args_bytes (call_args fr weights inputs bias outputs in_dim out_dim))].

(** The ranges of a frame are apart and mapped. *)
Definition frame_spans (fr : Frame) (nw ni nb no : Z) : list (Z * Z) :=
  [(f_weights fr, 4 * nw); (f_inputs fr, 4 * ni); (f_bias fr, 4 * nb); (f_outputs fr, 4 * no); (f_args fr, ARGS_SIZE)].

Record frame_ok (fr : Frame) (nw ni nb no : Z) : Prop := {
  fo_apart : Ring3Alone.pairwise_apart (frame_spans fr nw ni nb no);
  fo_mapped : Forall (fun '(a, n) => range_is_mapped try_new translate a n = true) (frame_spans fr nw ni nb no);
}.

Lemma length_bytes_of_f32s l : length (f32_bytes l) = (4 * length l)%nat.
Proof.
  unfold f32_bytes. induction l as [|x l IH]; [done|]. cbn [map concat length]. rewrite length_app, IH.
  unfold to_le_bytes. rewrite length_le_bytes. lia.
Qed.

Lemma array_checked fr nw ni nb no i a n :
  frame_ok fr nw ni nb no -> frame_spans fr nw ni nb no !! i = Some (a, n) ->
  pointer_is_mapped_checked try_new translate a n false = true.
Proof.
  intros [_ Hm] Hi. rewrite List.Forall_forall in Hm.
  pose proof (Hm (a, n) ltac:(by apply list_elem_of_In, (list_elem_of_lookup_2 _ i))) as H. cbn in H.
  unfold pointer_is_mapped_checked. destruct (n =? 0); [done|exact H].
Qed.

Context (fr : Frame) (w i b o : list f32) (di do_ : Z).
Hypothesis Hfr : frame_ok fr (Z.of_nat (length w)) (Z.of_nat (length i)) (Z.of_nat (length b)) (Z.of_nat (length o)).
Hypothesis Hfits : Forall (Forall f32_fits) [w; i; b; o].
Hypothesis Hdims : in_u 64 di /\ in_u 64 do_.

Definition written (m : Z -> Z) : Z -> Z := write_all (call_writes fr w i b o di do_) m.

Lemma written_spans :
  spans (call_writes fr w i b o di do_) =
    frame_spans fr (Z.of_nat (length w)) (Z.of_nat (length i)) (Z.of_nat (length b)) (Z.of_nat (length o)).
Proof.
  unfold spans, call_writes, frame_spans. cbn [map]. rewrite !length_bytes_of_f32s.
  change (Z.of_nat (length (Ring3SoloTests.args_bytes (call_args fr w i b o di do_)))) with ARGS_SIZE.
  repeat f_equal; lia.
Qed.

Lemma written_reads m j a bs :
  call_writes fr w i b o di do_ !! j = Some (a, bs) -> read_bytes (written m) a (length bs) = bs.
Proof. apply read_write_all. rewrite written_spans. apply Hfr. Qed.

Lemma written_array m j a l :
  call_writes fr w i b o di do_ !! j = Some (a, f32_bytes l) -> Forall f32_fits l ->
  read_f32s (written m) a (Z.of_nat (length l)) = l.
Proof.
  intros Hj Hl. apply read_f32s_bytes; [done|]. rewrite <- length_bytes_of_f32s. by apply (written_reads m j).
Qed.

Lemma small_length j a n :
  frame_spans fr (Z.of_nat (length w)) (Z.of_nat (length i)) (Z.of_nat (length b)) (Z.of_nat (length o)) !! j = Some (a, n) ->
  0 <= a /\ a + n < 2 ^ 64.
Proof. apply (proj1 (fo_apart _ _ _ _ _ Hfr)). Qed.

Lemma written_args m : read_args (written m) (f_args fr) = call_args fr w i b o di do_.
Proof.
  pose proof (small_length 0 _ _ eq_refl). pose proof (small_length 1 _ _ eq_refl). pose proof (small_length 2 _ _ eq_refl).
  pose proof (small_length 3 _ _ eq_refl).
  apply Ring3SoloTests.read_args_bytes.
  - unfold Ring3SoloTests.args_ok, call_args. cbn. destruct Hdims. unfold in_u in *.
    repeat (apply List.Forall_cons; [lia|]). apply List.Forall_nil.
  - exact (written_reads m 4 _ _ eq_refl).
Qed.

(** The call sees the arrays it was given, and writes the rows it computes. *)
Lemma tensor_dispatch sc k m :
  dispatch_syscall try_new translate SYS_TENSOR_EVAL (f_args fr) 0 false (Syscall.mk_Machine sc k (written m)) =
    if (Z.of_nat (length w) <? sat_mul 64 do_ di) || (Z.of_nat (length o) <? do_)
    then (Ok U64_MAX, Syscall.mk_Machine sc k (written m))
    else match matmul_layer w i b o di do_ with
         | Ok out => (Ok 0, Syscall.mk_Machine sc k (write_bytes (f_outputs fr) (f32_bytes (take (Z.to_nat do_) out)) (written m)))
         | Err e => (Err e, Syscall.mk_Machine sc k (written m))
         | Panic => (Panic, Syscall.mk_Machine sc k (written m))
         | Hang => (Hang, Syscall.mk_Machine sc k (written m))
         end.
Proof.
  rewrite dispatch_tensor.
  unfold tensor_eval. rewrite (array_checked fr _ _ _ _ 4 _ _ Hfr eq_refl). cbn [negb Syscall.mem Syscall.sched Syscall.kv].
  rewrite written_args.
  assert (Hs : forall j a n, frame_spans fr (Z.of_nat (length w)) (Z.of_nat (length i)) (Z.of_nat (length b)) (Z.of_nat (length o)) !! j
      = Some (a, 4 * n) -> 0 <= n -> pointer_is_mapped_checked try_new translate a (sat_mul 64 n F32_SIZE) false = true).
  { intros j a n Hj Hn. pose proof (small_length j _ _ Hj). replace (sat_mul 64 n F32_SIZE) with (4 * n).
    - exact (array_checked fr _ _ _ _ j _ _ Hfr Hj).
    - unfold sat_mul, F32_SIZE. rewrite Z.min_l; lia. }
  unfold call_args. cbn [weights weights_len inputs inputs_len bias bias_len outputs outputs_len in_dim out_dim].
  rewrite (Hs 0%nat _ _ eq_refl), (Hs 1%nat _ _ eq_refl), (Hs 2%nat _ _ eq_refl), (Hs 3%nat _ _ eq_refl) by lia. cbn [negb orb].
  apply List.Forall_cons_iff in Hfits as [F1 F2]. apply List.Forall_cons_iff in F2 as [F2 F3].
  apply List.Forall_cons_iff in F3 as [F3 F4]. apply List.Forall_cons_iff in F4 as [F4 _].
  rewrite (written_array m 0 _ w eq_refl F1), (written_array m 1 _ i eq_refl F2), (written_array m 2 _ b eq_refl F3),
    (written_array m 3 _ o eq_refl F4). done.
Qed.

Lemma tensor_call_spec {D N} (s : Shell.Machine D N) m :
  tensor_call try_new translate fr w i b o di do_ (s, m) = syscall try_new translate SYS_TENSOR_EVAL (f_args fr) 0 (s, written m).
Proof. done. Qed.
End Calls.

(** ** The tests pass *)

Section Pass.
Context {D N : Type}.
Abbreviation boot := (Shell.Machine D N * (Z -> Z))%type.

(** [t] prints [n] flags, all true, and ends in [b']. *)
Definition ran (n : nat) (t : M boot unit) (b b' : boot) : Prop :=
  t b = (Ok tt, b') /\ exists evs, printed b'.1 = printed b.1 ++ evs /\ concat (map flags_of evs) = replicate n true.

Lemma ran_seq n1 n2 t1 t2 b b1 b2 : ran n1 t1 b b1 -> ran n2 t2 b1 b2 -> ran (n1 + n2) (t1;; t2) b b2.
Proof.
  intros (E1 & e1 & P1 & F1) (E2 & e2 & P2 & F2). split.
  - unfold mbind, M_bind. by rewrite E1.
  - exists (e1 ++ e2). split; [by rewrite P2, P1, app_assoc|]. by rewrite map_app, concat_app, F1, F2, replicate_add.
Qed.

(** Shell's machine with these tasks and blocks. *)
Definition with_tasks (sc : NativeAgentScheduler) (k : KVCacheMemoryManager) (s : Shell.Machine D N) : Shell.Machine D N :=
  Shell.mk_Machine (disk s) sc k (ticks s) (services s) (printed s).

Definition snoc_all (pr evs : list event) : list event := foldl (fun p e => p ++ [e]) pr evs.

Lemma snoc_all_app pr evs : snoc_all pr evs = pr ++ evs.
Proof.
  unfold snoc_all. revert pr. induction evs as [|e evs IH]; intros pr; cbn [foldl]; [by rewrite app_nil_r|].
  by rewrite IH, <- app_assoc.
Qed.

(** A test that looks at nothing but the tasks and the blocks can be evaluated. *)
Lemma ran_evaluated n t s m sc k evs :
  t (s, m) = (Ok tt, (Shell.mk_Machine (disk s) sc k (ticks s) (services s) (snoc_all (printed s) evs), m)) ->
  concat (map flags_of evs) = replicate n true ->
  exists s', ran n t (s, m) (s', m) /\ Shell.sched s' = sc /\ kv_manager s' = k.
Proof.
  intros E F. eexists (Shell.mk_Machine _ _ _ _ _ _). split; [split; [exact E|]|split; reflexivity]. exists evs. cbn [fst snd printed]. by rewrite snoc_all_app.
Qed.
End Pass.

(** A test on an otherwise empty machine: the tasks, blocks and lines it leaves. *)
Definition probe (t : M (Shell.Machine unit unit * (Z -> Z)) unit) (sc : NativeAgentScheduler) (k : KVCacheMemoryManager) :
    NativeAgentScheduler * KVCacheMemoryManager * list event :=
  let s := (t (Shell.mk_Machine tt sc k 0 tt [], fun _ => 0)).2.1 in (Shell.sched s, kv_manager s, printed s).

Definition idle_try (_ : Z) : option Z := None.
Definition idle_translate (_ : Z) : option (list PageFlag) := None.

Definition after_start := probe start_tasks new_sched new_kv.
Definition after_spawn := probe (kv_block_id_test idle_try idle_translate) after_start.1.1 after_start.1.2.
Definition after_free := probe (kv_free_test idle_try idle_translate) after_spawn.1.1 after_spawn.1.2.
Definition after_clear := probe (kv_free_clears_block_id_test idle_try idle_translate) after_free.1.1 after_free.1.2.

Ltac evaluated s H1 H2 :=
  destruct s; cbn [Shell.sched kv_manager] in H1, H2; rewrite H1, H2; vm_compute; reflexivity.

Section Evaluated.
Context {D N : Type} (try_new : Z -> option Z) (translate : Z -> option (list PageFlag)).
Context (s : Shell.Machine D N) (m : Z -> Z).

Lemma start_tasks_pass :
  Shell.sched s = new_sched -> kv_manager s = new_kv ->
  exists s', ran 6 start_tasks (s, m) (s', m) /\ Shell.sched s' = after_start.1.1 /\ kv_manager s' = after_start.1.2.
Proof.
  intros H1 H2. apply (ran_evaluated _ start_tasks s m _ _ after_start.2); [evaluated s H1 H2|vm_compute; reflexivity].
Qed.

Lemma kv_block_id_test_pass :
  Shell.sched s = after_start.1.1 -> kv_manager s = after_start.1.2 ->
  exists s', ran 2 (kv_block_id_test try_new translate) (s, m) (s', m) /\ Shell.sched s' = after_spawn.1.1 /\ kv_manager s' = after_spawn.1.2.
Proof.
  intros H1 H2. apply (ran_evaluated _ (kv_block_id_test try_new translate) s m _ _ after_spawn.2); [evaluated s H1 H2|vm_compute; reflexivity].
Qed.

Lemma kv_free_test_pass :
  Shell.sched s = after_spawn.1.1 -> kv_manager s = after_spawn.1.2 ->
  exists s', ran 8 (kv_free_test try_new translate) (s, m) (s', m) /\ Shell.sched s' = after_free.1.1 /\ kv_manager s' = after_free.1.2.
Proof.
  intros H1 H2. apply (ran_evaluated _ (kv_free_test try_new translate) s m _ _ after_free.2); [evaluated s H1 H2|vm_compute; reflexivity].
Qed.

Lemma kv_free_clears_pass :
  Shell.sched s = after_free.1.1 -> kv_manager s = after_free.1.2 ->
  exists s', ran 4 (kv_free_clears_block_id_test try_new translate) (s, m) (s', m) /\ Shell.sched s' = after_clear.1.1 /\ kv_manager s' = after_clear.1.2.
Proof.
  intros H1 H2. apply (ran_evaluated _ (kv_free_clears_block_id_test try_new translate) s m _ _ after_clear.2); [evaluated s H1 H2|vm_compute; reflexivity].
Qed.
End Evaluated.

(** ** The tests that pass arrays *)

(** Concrete arrays of concrete numbers. *)
Ltac floats_fit :=
  repeat match goal with
  | |- Forall _ [] => apply List.Forall_nil
  | |- Forall f32_fits _ => apply List.Forall_cons; [split; [reflexivity|by vm_compute]|]
  | |- Forall (Forall f32_fits) _ => apply List.Forall_cons
  end.

Section TensorPass.
Context {D N : Type} (try_new : Z -> option Z) (translate : Z -> option (list PageFlag)).

Lemma syscall_memory (s : Shell.Machine D N) a1 r m m' :
  (forall sc k, dispatch_syscall try_new translate SYS_TENSOR_EVAL a1 0 false (Syscall.mk_Machine sc k m) =
     (Ok r, Syscall.mk_Machine sc k m')) ->
  syscall try_new translate SYS_TENSOR_EVAL a1 0 (s, m) = (Ok r, (s, m')).
Proof. intros E. unfold syscall. rewrite E. by destruct s. Qed.

Section Call.
Context (s : Shell.Machine D N) (m : Z -> Z) (fr : Frame) (w i b o : list f32) (di do_ : Z).
Hypothesis Hfr : frame_ok try_new translate fr (Z.of_nat (length w)) (Z.of_nat (length i)) (Z.of_nat (length b)) (Z.of_nat (length o)).
Hypothesis Hfits : Forall (Forall f32_fits) [w; i; b; o].
Hypothesis Hdims : in_u 64 di /\ in_u 64 do_.

Lemma tensor_call_refused :
  (Z.of_nat (length w) <? sat_mul 64 do_ di) || (Z.of_nat (length o) <? do_) = true ->
  tensor_call try_new translate fr w i b o di do_ (s, m) = (Ok U64_MAX, (s, written fr w i b o di do_ m)).
Proof.
  intros Hc. rewrite tensor_call_spec. apply syscall_memory. intros sc k.
  by rewrite (tensor_dispatch try_new translate fr w i b o di do_ Hfr Hfits Hdims), Hc.
Qed.

Lemma tensor_call_done out :
  (Z.of_nat (length w) <? sat_mul 64 do_ di) || (Z.of_nat (length o) <? do_) = false ->
  matmul_layer w i b o di do_ = Ok out ->
  tensor_call try_new translate fr w i b o di do_ (s, m) =
    (Ok 0, (s, write_bytes (f_outputs fr) (f32_bytes (take (Z.to_nat do_) out)) (written fr w i b o di do_ m))).
Proof.
  intros Hc Ho. rewrite tensor_call_spec. apply syscall_memory. intros sc k.
  by rewrite (tensor_dispatch try_new translate fr w i b o di do_ Hfr Hfits Hdims), Hc, Ho.
Qed.
End Call.

Lemma ran_reported (s : Shell.Machine D N) m m1 t first console serial args n :
  t (s, m) = (Ok tt, (add_printed [Serial serial args] (add_printed [Console console args] (add_printed [Console first []] s)), m1)) ->
  flags_of (Serial serial args) = replicate n true ->
  exists s', ran (n + n) t (s, m) (s', m1) /\ Shell.sched s' = Shell.sched s /\ kv_manager s' = kv_manager s.
Proof.
  intros E Hf. eexists (add_printed _ (add_printed _ (add_printed _ s))). split; [|by split]. split; [exact E|].
  exists [Console first []; Console console args; Serial serial args]. cbn [fst printed add_printed].
  split; [by rewrite <- !app_assoc|]. cbn [map concat flags_of] in *. by rewrite Hf, app_nil_r, replicate_add.
Qed.

Lemma banner_spec (s : Shell.Machine D N) m first : banner first (s, m) = (Ok tt, (add_printed [Console first []] s, m)).
Proof. done. Qed.

Lemma println_spec (s : Shell.Machine D N) m console serial args :
  println console serial args (s, m) = (Ok tt, (add_printed [Serial serial args] (add_printed [Console console args] s), m)).
Proof. done. Qed.

Lemma tensor_eval_test_pass (s : Shell.Machine D N) m fr :
  frame_ok try_new translate fr 4 2 2 2 ->
  exists s' m', ran 4 (tensor_eval_test try_new translate fr) (s, m) (s', m') /\
    Shell.sched s' = Shell.sched s /\ kv_manager s' = kv_manager s.
Proof.
  intros Hfr. set (m1 := write_bytes (f_outputs fr) (f32_bytes (ints [4; 0]))
    (written fr (ints [1; 2; 3; 4]) (ints [1; 1]) (ints [1; -10]) (zeros 2) 2 2 m)).
  assert (Ho : read_f32s m1 (f_outputs fr) 2 = ints [4; 0]).
  { apply (read_f32s_bytes m1 (f_outputs fr) (ints [4; 0])); [floats_fit|]. unfold m1.
    exact (read_write_bytes (f_outputs fr) (f32_bytes (ints [4; 0])) _). }
  assert (He : exists s', ran 4 (tensor_eval_test try_new translate fr) (s, m) (s', m1) /\
    Shell.sched s' = Shell.sched s /\ kv_manager s' = kv_manager s).
  { eapply (ran_reported s m m1 _ _ _ _ _ 2).
    - unfold tensor_eval_test, mbind, M_bind. rewrite banner_spec.
      rewrite (tensor_call_done _ m fr (ints [1; 2; 3; 4]) (ints [1; 1]) (ints [1; -10]) (zeros 2) 2 2 Hfr) with (out := ints [4; 0]);
        [|floats_fit
         |unfold in_u; lia|reflexivity|vm_compute; reflexivity].
      change (take (Z.to_nat 2) (ints [4; 0])) with (ints [4; 0]). fold m1. unfold gets. cbn [snd]. rewrite Ho.
      rewrite println_spec. reflexivity.
    - vm_compute. reflexivity. }
  destruct He as (s' & H). by exists s', m1.
Qed.

Lemma tensor_eval_invalid_ptr_test_pass (s : Shell.Machine D N) m :
  (forall v, try_new DEFINITELY_UNMAPPED = Some v -> translate v = None) ->
  exists s', ran 2 (tensor_eval_invalid_ptr_test try_new translate) (s, m) (s', m) /\
    Shell.sched s' = Shell.sched s /\ kv_manager s' = kv_manager s.
Proof.
  intros Hu. assert (Hr : range_is_mapped try_new translate DEFINITELY_UNMAPPED ARGS_SIZE = false).
  { destruct (range_is_mapped _ _ _ _) eqn:E; [|done].
    apply (range_has_flags_iff try_new translate) in E as [_ E]; [|unfold in_u, DEFINITELY_UNMAPPED; lia|done].
    specialize (E DEFINITELY_UNMAPPED ltac:(unfold ARGS_SIZE; lia)). unfold page_ok, pointer_has_flags in E.
    change (DEFINITELY_UNMAPPED / PAGE_SIZE * PAGE_SIZE) with DEFINITELY_UNMAPPED in E.
    change (DEFINITELY_UNMAPPED =? 0) with false in E. cbn iota in E.
    destruct (try_new DEFINITELY_UNMAPPED) as [v|] eqn:Ev; [|done]. by rewrite (Hu v eq_refl) in E. }
  assert (E : syscall try_new translate SYS_TENSOR_EVAL DEFINITELY_UNMAPPED 0 (add_printed [Console
      "[KERNEL SYSCALL] Testing SYS_TENSOR_EVAL rejects an unmapped pointer..." []] s, m) = (Ok U64_MAX, (add_printed [Console
      "[KERNEL SYSCALL] Testing SYS_TENSOR_EVAL rejects an unmapped pointer..." []] s, m))).
  { apply syscall_memory. intros sc k. rewrite dispatch_tensor.
    unfold tensor_eval, pointer_is_mapped_checked. change (ARGS_SIZE =? 0) with false. cbn iota. by rewrite Hr. }
  eapply (ran_reported s m m _ _ _ _ _ 1).
  - unfold tensor_eval_invalid_ptr_test, mbind, M_bind. rewrite banner_spec, E, println_spec. reflexivity.
  - reflexivity.
Qed.

Lemma tensor_eval_dim_mismatch_test_pass (s : Shell.Machine D N) m fr fr2 :
  frame_ok try_new translate fr 4 2 2 3 -> frame_ok try_new translate fr2 8 2 3 2 ->
  exists s' m', ran 4 (tensor_eval_dim_mismatch_test try_new translate fr fr2) (s, m) (s', m') /\
    Shell.sched s' = Shell.sched s /\ kv_manager s' = kv_manager s.
Proof.
  intros Hfr Hfr2. assert (He : exists s', ran 4 (tensor_eval_dim_mismatch_test try_new translate fr fr2) (s, m)
      (s', written fr2 (zeros 8) (zeros 2) (zeros 3) (zeros 2) 2 3 (written fr (zeros 4) (zeros 2) (zeros 2) (zeros 3) 3 2 m)) /\
    Shell.sched s' = Shell.sched s /\ kv_manager s' = kv_manager s).
  { eapply (ran_reported s m _ _ _ _ _ _ 2).
    - unfold tensor_eval_dim_mismatch_test, mbind, M_bind. rewrite banner_spec.
      rewrite (tensor_call_refused _ m fr (zeros 4) (zeros 2) (zeros 2) (zeros 3) 3 2 Hfr);
        [|floats_fit|unfold in_u; lia|reflexivity].
      rewrite (tensor_call_refused _ _ fr2 (zeros 8) (zeros 2) (zeros 3) (zeros 2) 2 3 Hfr2);
        [|floats_fit|unfold in_u; lia|reflexivity].
      rewrite println_spec. reflexivity.
    - reflexivity. }
  destruct He as (s' & H). eauto.
Qed.
End TensorPass.

(** C13. Starting from an empty process table and no blocks, the boot's tests of the
    process table, the KV blocks and the system calls pass, wherever the arrays of the
    tensor tests are on the stack and whatever is in memory: every flag they print is
    true, an unmapped pointer and inconsistent dimensions are refused with [u64::MAX],
    and the tensor call leaves the product in the caller's array. *)
Theorem boot_tasks_pass {D N} try_new translate (s : Shell.Machine D N) m fr1 fr2 fr3 :
  Shell.sched s = new_sched -> kv_manager s = new_kv ->
  frame_ok try_new translate fr1 4 2 2 2 -> frame_ok try_new translate fr2 4 2 2 3 -> frame_ok try_new translate fr3 8 2 3 2 ->
  (forall v, try_new DEFINITELY_UNMAPPED = Some v -> translate v = None) ->
  exists b', ran 30 (start_tasks;; syscall_tests try_new translate fr1 fr2 fr3) (s, m) b'.
Proof.
  intros Hs Hk H1 H2 H3 Hu.
  destruct (start_tasks_pass s m Hs Hk) as (s1 & R1 & S1 & K1).
  destruct (kv_block_id_test_pass try_new translate s1 m S1 K1) as (s2 & R2 & S2 & K2).
  destruct (tensor_eval_test_pass try_new translate s2 m fr1 H1) as (s3 & m3 & R3 & S3 & K3).
  destruct (tensor_eval_invalid_ptr_test_pass try_new translate s3 m3 Hu) as (s4 & R4 & S4 & K4).
  destruct (tensor_eval_dim_mismatch_test_pass try_new translate s4 m3 fr2 fr3 H2 H3) as (s5 & m5 & R5 & S5 & K5).
  destruct (kv_free_test_pass try_new translate s5 m5) as (s6 & R6 & S6 & K6); [by rewrite S5, S4, S3|by rewrite K5, K4, K3|].
  destruct (kv_free_clears_pass try_new translate s6 m5 S6 K6) as (s7 & R7 & _).
  exists (s7, m5). apply (ran_seq 6 24 _ _ _ (s1, m)); [exact R1|].
  apply (ran_seq 2 22 _ _ _ (s2, m)); [exact R2|]. apply (ran_seq 4 18 _ _ _ (s3, m3)); [exact R3|].
  apply (ran_seq 2 16 _ _ _ (s4, m3)); [exact R4|]. apply (ran_seq 4 12 _ _ _ (s5, m5)); [exact R5|].
  by apply (ran_seq 8 4 _ _ _ (s6, m5)).
Qed.

(** Three frames on a stack of which every page but the first is mapped. *)
Definition demo_frame (base : Z) : Frame := mk_Frame base (base + 64) (base + 128) (base + 192) (base + 256).

Definition demo_translate (v : Z) : option (list PageFlag) := if v <? 0x2000 then None else Some [PRESENT].

Lemma demo_frame_ok nw ni nb no base :
  0 < nw <= 16 -> 0 < ni <= 16 -> 0 < nb <= 16 -> 0 < no <= 16 -> 0x2000 <= base < 2 ^ 32 ->
  frame_ok Some demo_translate (demo_frame base) nw ni nb no.
Proof.
  intros Hw Hi Hb Ho Hbase. split.
  - split.
    + intros i a n Ha. do 5 (destruct i as [|i]; [injection Ha as <- <-; cbn; unfold ARGS_SIZE; lia|]). done.
    + intros i j a n b k Ha Hj Hne. unfold disjoint_ranges.
      destruct i as [|[|[|[|[|i]]]]]; try done; destruct j as [|[|[|[|[|j]]]]]; try done;
        injection Ha as <- <-; injection Hj as <- <-; cbn; unfold ARGS_SIZE; try lia; done.
  - apply List.Forall_forall. intros [a n] Hin. apply range_has_flags_iff.
    + cbn in Hin. unfold in_u. repeat destruct Hin as [Hin|Hin]; try done; injection Hin as <- <-; lia.
    + cbn in Hin. unfold ARGS_SIZE in Hin. repeat destruct Hin as [Hin|Hin]; try done; injection Hin as <- <-; lia.
    + assert (Hr : 0x2000 <= a /\ a + n < 2 ^ 64).
      { cbn in Hin. unfold ARGS_SIZE in Hin. repeat destruct Hin as [Hin|Hin]; try done; injection Hin as <- <-; lia. }
      split; [lia|]. intros y Hy. unfold page_ok, pointer_has_flags, demo_translate, PAGE_SIZE.
      assert (H2 : 0x2000 <= y / 4096 * 4096) by div_lia.
      rewrite (proj2 (Z.eqb_neq _ 0)) by lia. rewrite (proj2 (Z.ltb_ge _ 0x2000)) by lia. reflexivity.
Qed.

Lemma boot_tasks_pass_witness :
  let t := start_tasks;; syscall_tests Some demo_translate (demo_frame 0x8000) (demo_frame 0x9000) (demo_frame 0xA000) in
  exists b', ran 30 t (Shell.mk_Machine tt new_sched new_kv 0 tt [], fun _ => 0) b'.
Proof.
  intros t. apply (boot_tasks_pass Some demo_translate (Shell.mk_Machine tt new_sched new_kv 0 tt []) (fun _ => 0)).
  - reflexivity.
  - reflexivity.
  - apply demo_frame_ok; lia.
  - apply demo_frame_ok; lia.
  - apply demo_frame_ok; lia.
  - intros v [= <-]. reflexivity.
Defined.
