(* ===== verification/BootDisk.v ===== *)
(** * BootDisk: the boot-time self-tests of the filesystem ([main.rs])

    [kernel_main] mounts the FAT12 partition again and again, creates, reads, writes and
    deletes files and directories on it, types commands at the shell, and prints what it
    found.  Each test is a step of Shell's machine, so that the whole sequence can be run
    on a disk. *)
From stdpp Require Import base gmap list numbers strings.
From Stdlib Require Import Lia SpecFloat.
From S2P Require Import Prelude Rtc FatCommon FatEntry12 Partition BlockDev Fat12 AgentScheduler KvAllocator Tensor Gguf Shell BootFormats.
From S2P Require Import ShellReads.
Open Scope Z_scope.

Section Tests.
Context {D N : Type} `{BlockOps D} `{Services N} (fat32_fuel : nat).

Abbreviation step := (M (Shell.Machine D N) unit).

(** A test with the volume it has mounted. *)
Abbreviation Mounted := (M (Shell.Machine D N * Fat12Info)).

Definition shell (line : string) : step := dispatch_command fat32_fuel (str line).

Definition report1 (console serial : string) (args : list arg) : step := kprintln console args;; serial_println serial args.

Definition say (console serial : string) (args : list arg) : Mounted unit := fun '(s, fs) =>
  let '(r, s') := report1 console serial args s in (r, (s', fs)).

(** A method of the mounted volume. *)
Definition fs_do {A} (c : M (Vol D) A) : Mounted A := fun '(s, fs) =>
  let '(r, v) := c (mk_Vol fs (disk s)) in
  (r, (Shell.mk_Machine (dev v) (sched s) (kv_manager s) (ticks s) (services s) (printed s), info v)).

Definition clock : Mounted RtcTime := gets (fun b => now (services b.1)).

Definition mounted (fs : Fat12Info) (body : Mounted unit) : step := fun s => let '(r, (s', _)) := body (s, fs) in (r, s').

(** [match shell::find_fat_partition() { Ok(partition) => match fat12::read_bpb(&partition)
    { Ok(mut fs) => body, .. }, .. }]; what is printed otherwise begins with [what] on the
    console and with [tag] on the serial port. *)
Definition with_fat12 (what tag : string) (body : Mounted unit) : step :=
  o ← on_disk (attempt find_fat_partition);
  match o with
  | inr e => report1 (what +:+ ": couldn't find FAT partition: {}") (tag +:+ " -> no partition: {}") [Text e]
  | inl partition =>
      q ← on_disk (attempt (Fat12.read_bpb partition));
      match q with
      | inr e => report1 (what +:+ ": not FAT12 ({})") (tag +:+ " -> not fat12: {}") [Text e]
      | inl fs => mounted fs body
      end
  end.

(** [.is_ok()], [.unwrap_or_default()] and [.map(|d| d == data).unwrap_or(false)] *)
Definition ok {A} (c : M (Vol D) A) : Mounted bool := o ← fs_do (attempt c); mret (match o with inl _ => true | inr _ => false end).
Definition fails {A} (c : M (Vol D) A) : Mounted bool := b ← ok c; mret (negb b).
Definition or_empty (c : M (Vol D) (list DirEntry)) : Mounted (list DirEntry) :=
  o ← fs_do (attempt c); mret (match o with inl l => l | inr _ => [] end).
Definition reads_as (c : M (Vol D) (list Z)) (data : list Z) : Mounted bool :=
  o ← fs_do (attempt c); mret (match o with inl d => str_eq d data | inr _ => false end).

Definition pattern (n : nat) (modulus : Z) : list Z := map (fun i => Z.of_nat i mod modulus) (seq 0 n).

(** [entries.into_iter().find(|e| ..).map(|e| e.start_cluster)] *)
Definition cluster_where (p : DirEntry -> bool) (entries : list DirEntry) : option Z := start_cluster <$> find p entries.
Definition named (nm : string) (e : DirEntry) : bool := str_eq (FatCommon.name e) (str nm).
Definition named_any_case (nm : string) (e : DirEntry) : bool := eq_ignore_ascii_case (FatCommon.name e) (str nm).

(** [format!("F{}.TXT", i)] *)
Definition digits (i : nat) : list Z :=
  if (i <? 10)%nat then [0x30 + Z.of_nat i] else [0x30 + Z.of_nat (i / 10); 0x30 + Z.of_nat (i mod 10)].
Definition numbered (i : nat) : list Z := [0x46] ++ digits i ++ str ".TXT".

(** A loop that notes whether every turn was [Ok]. *)
Fixpoint all_ok (n i : nat) (c : nat -> M (Vol D) unit) : Mounted bool :=
  match n with
  | O => mret true
  | S m => b ← ok (c i); rest ← all_ok m (S i) c; mret (b && rest)
  end.

(** ** The disk and whole files *)

Definition ata_write_test : step :=
  kprintln "[KERNEL INIT] Testing real ATA sector write (write + read-back)..." [];;
  o ← on_disk (attempt find_fat_partition);
  match o with
  | inr e => report1 "[ATA] write test: couldn't find FAT partition: {}" "[ATA] write_test -> no partition: {}" [Text e]
  | inl partition =>
      let test_lba := u32 (start_lba partition + 3000) in
      let test_pattern := replicate 512 0xA5 in
      w ← on_disk (attempt (write_sector test_lba test_pattern));
      match w with
      | inr e =>
          kprintln "[ATA] write test: write failed: {}" [Text e];;
          serial_println "[ATA] write_test lba={} write_failed: {}" [Num test_lba; Text e]
      | inl _ =>
          r ← on_disk (attempt (read_sector test_lba));
          match r with
          | inr e =>
              kprintln "[ATA] write test: read-back failed: {}" [Text e];;
              serial_println "[ATA] write_test lba={} read_failed: {}" [Num test_lba; Text e]
          | inl read_back =>
              let matches := str_eq read_back test_pattern in
              kprintln "[ATA] write+read-back test at LBA {}: {}" [Num test_lba; Text (if matches then "OK (bytes match)" else "MISMATCH")];;
              serial_println "[ATA] write_test lba={} match={}" [Num test_lba; Bool matches]
          end
      end
  end.

Definition kprint1 (f : string) (args : list arg) : Mounted unit := fun '(s, fs) => let '(r, s') := kprintln f args s in (r, (s', fs)).
Definition serial1 (f : string) (args : list arg) : Mounted unit := fun '(s, fs) => let '(r, s') := serial_println f args s in (r, (s', fs)).

Definition fat12_write_test : step :=
  kprintln "[KERNEL INIT] Testing real FAT12 file write (overwrite + read-back)..." [];;
  with_fat12 "[FAT12] write test" "[FAT12] write_test"
    (let nm := str "BOOT-S~2" in
     o ← fs_do (attempt (Fat12.read_file nm));
     match o with
     | inr e => say "[FAT12] write test: couldn't read original BOOT-S~2: {}" "[FAT12] write_test -> no original: {}" [Text e]
     | inl original =>
         let test_pattern := pattern (length original) 256 in
         let len := Num (Z.of_nat (length test_pattern)) in
         w ← fs_do (attempt (Fat12.write_file nm test_pattern));
         match w with
         | inr e => say "[FAT12] write test: write failed: {}" "[FAT12] write_test write_failed: {}" [Text e]
         | inl _ =>
             r ← fs_do (attempt (Fat12.read_file nm));
             match r with
             | inr e => say "[FAT12] write test: read-back failed: {}" "[FAT12] write_test read_failed: {}" [Text e]
             | inl read_back =>
                 let matches := str_eq read_back test_pattern in
                 kprint1 "[FAT12] write+read-back test on BOOT-S~2 ({} bytes): {}" [len; Text (if matches then "OK (bytes match)" else "MISMATCH")];;
                 serial1 "[FAT12] write_test file=BOOT-S~2 len={} match={}" [len; Bool matches]
             end
         end;;
         b ← fs_do (attempt (Fat12.write_file nm original));
         match b with
         | inl _ => serial1 "[FAT12] write_test restored=true" []
         | inr e => say "[FAT12] CRITICAL: failed to restore BOOT-S~2: {}" "[FAT12] write_test restore_failed: {}" [Text e]
         end
     end).

Definition fat12_create_test : step :=
  kprintln "[KERNEL INIT] Testing real FAT12 file creation..." [];;
  with_fat12 "[FAT12] create test" "[FAT12] create_test"
    (let nm := str "AGENTOS.TXT" in
     let test_content := str "AgentOS created this file for real." in
     t ← clock;
     o ← fs_do (attempt (Fat12.create_file t nm test_content));
     match o with
     | inl _ =>
         kprint1 "[FAT12] created AGENTOS.TXT ({} bytes)" [Num (Z.of_nat (length test_content))];;
         serial1 "[FAT12] create_test created=true" []
     | inr e => say "[FAT12] create_file: {}" "[FAT12] create_test created=false reason={}" [Text e]
     end;;
     r ← fs_do (attempt (Fat12.read_file nm));
     match r with
     | inr e => say "[FAT12] create test: read-back failed: {}" "[FAT12] create_test read_failed: {}" [Text e]
     | inl read_back =>
         let matches := str_eq read_back test_content in
         let len := Num (Z.of_nat (length read_back)) in
         kprint1 "[FAT12] AGENTOS.TXT read-back ({} bytes): {}" [len; Text (if matches then "OK (matches expected content)" else "MISMATCH")];;
         serial1 "[FAT12] create_test read_back_len={} match={}" [len; Bool matches]
     end).

Definition fat12_delete_test : step :=
  kprintln "[KERNEL INIT] Testing real FAT12 file deletion..." [];;
  with_fat12 "[FAT12] delete test" "[FAT12] delete_test"
    (let nm := str "DELETEME.TXT" in
     t ← clock;
     _ ← ok (Fat12.create_file t nm (str "temporary file for delete_file test"));
     existed_before ← ok (Fat12.read_file nm);
     o ← fs_do (attempt (Fat12.delete_file nm));
     match o with
     | inr e => say "[FAT12] delete_file: {}" "[FAT12] delete_test failed: {}" [Text e]
     | inl _ =>
         gone_after ← fails (Fat12.read_file nm);
         say "[FAT12] delete test: existed_before={} gone_after={}" "[FAT12] delete_test existed_before={} gone_after={}"
           (map Bool [existed_before; gone_after])
     end).

Definition is_free (c : Z) : Mounted bool := fs_do (on_fs (fun fs => Ok (cluster_is_free fs c))).

Definition zero_len_cluster_test : step :=
  kprintln "[KERNEL INIT] Testing 0-byte file cluster liberation on delete..." [];;
  with_fat12 "[FAT12] zero_len_cluster_test" "[FAT12] zero_len_cluster_test"
    (t ← clock;
     _ ← ok (Fat12.create_file t (str "ZEROLEN.TXT") []);
     entries ← or_empty Fat12.list_root_directory;
     let zero_cluster := cluster_where (named_any_case "ZEROLEN.TXT") entries in
     allocated_before ← match zero_cluster with Some c => b ← is_free c; mret (negb b) | None => mret false end;
     delete_ok ← ok (Fat12.delete_file (str "ZEROLEN.TXT"));
     freed_after ← match zero_cluster with Some c => is_free c | None => mret false end;
     let line := "[FAT12] zero_len_cluster_test allocated_before={} delete_ok={} freed_after={}"%string in
     say line line (map Bool [allocated_before; delete_ok; freed_after])).

Definition multi_cluster_test : step :=
  kprintln "[KERNEL INIT] Testing FAT12 multi-cluster file creation..." [];;
  with_fat12 "[FAT12] multi-cluster test" "[FAT12] multi_cluster_test"
    (let nm := str "BIGFILE.TXT" in
     let big_content := pattern 3100 256 in
     t ← clock;
     o ← fs_do (attempt (Fat12.create_file t nm big_content));
     match o with
     | inr e => say "[FAT12] multi-cluster create_file: {}" "[FAT12] multi_cluster_test create_failed: {}" [Text e]
     | inl _ =>
         r ← fs_do (attempt (Fat12.read_file nm));
         match r with
         | inr e => say "[FAT12] multi-cluster read_file: {}" "[FAT12] multi_cluster_test read_failed: {}" [Text e]
         | inl read_back =>
             say "[FAT12] multi-cluster test: read_back_len={} match={}"
               "[FAT12] multi_cluster_test created=true read_back_len={} match={}"
               [Num (Z.of_nat (length read_back)); Bool (str_eq read_back big_content)]
         end
     end;;
     d ← fs_do (attempt (Fat12.delete_file nm));
     match d with
     | inr e => say "[FAT12] multi-cluster cleanup delete_file: {}" "[FAT12] multi_cluster_test delete_failed: {}" [Text e]
     | inl _ =>
         gone ← fails (Fat12.read_file nm);
         say "[FAT12] multi-cluster cleanup: deleted, gone={}" "[FAT12] multi_cluster_test deleted=true gone={}" [Bool gone]
     end).

(** [match fs.write_file(..) { Ok(()) => fs.read_file(..).map(|d| d == data).unwrap_or(false), Err(_) => false }] *)
Definition writes_as (w : M (Vol D) unit) (r : M (Vol D) (list Z)) (data : list Z) : Mounted bool :=
  b ← ok w; match b with true => reads_as r data | false => mret false end.

Definition resize_test : step :=
  kprintln "[KERNEL INIT] Testing FAT12 file resize (grow + shrink)..." [];;
  with_fat12 "[FAT12] resize test" "[FAT12] resize_test"
    (let nm := str "RESIZE.TXT" in
     let initial := pattern 500 200 in
     let grown := pattern 2500 231 in
     let shrunk := pattern 300 199 in
     t ← clock;
     _ ← ok (Fat12.create_file t nm initial);
     created_ok ← reads_as (Fat12.read_file nm) initial;
     grow_ok ← writes_as (Fat12.write_file nm grown) (Fat12.read_file nm) grown;
     shrink_ok ← writes_as (Fat12.write_file nm shrunk) (Fat12.read_file nm) shrunk;
     say "[FAT12] resize test: created_ok={} grow_ok={} shrink_ok={}" "[FAT12] resize_test created_ok={} grow_ok={} shrink_ok={}"
       (map Bool [created_ok; grow_ok; shrink_ok]);;
     d ← fs_do (attempt (Fat12.delete_file nm));
     match d with
     | inr e => say "[FAT12] resize cleanup delete_file: {}" "[FAT12] resize_test cleanup delete_failed: {}" [Text e]
     | inl _ =>
         gone ← fails (Fat12.read_file nm);
         say "[FAT12] resize cleanup: deleted, gone={}" "[FAT12] resize_test cleanup deleted=true gone={}" [Bool gone]
     end).

(** ** Directories *)

Definition subdir_file_test : step :=
  kprintln "[KERNEL INIT] Testing FAT12 file I/O inside a subdirectory..." [];;
  with_fat12 "[FAT12] subdir file I/O test" "[FAT12] subdir_file_test"
    (t ← clock;
     _ ← ok (Fat12.create_directory t (str "SUBTEST"));
     entries ← or_empty Fat12.list_root_directory;
     match cluster_where (named "SUBTEST") entries with
     | None => say "[FAT12] subdir file I/O test: couldn't find SUBTEST's cluster" "[FAT12] subdir_file_test -> no dir cluster" []
     | Some cluster =>
         let nm := str "INSIDE.TXT" in
         let initial := str "hello from inside a subdirectory" in
         let grown := pattern 1500 211 in
         _ ← ok (Fat12.create_file_in t cluster nm initial);
         created_ok ← reads_as (Fat12.read_file_in cluster nm) initial;
         write_ok ← writes_as (Fat12.write_file_in cluster nm grown) (Fat12.read_file_in cluster nm) grown;
         deleted ← ok (Fat12.delete_file_in cluster nm);
         delete_ok ← match deleted with true => fails (Fat12.read_file_in cluster nm) | false => mret false end;
         cleanup_ok ← ok (Fat12.delete_directory (str "SUBTEST"));
         say "[FAT12] subdir file I/O test: created_ok={} write_ok={} delete_ok={} cleanup_ok={}"
           "[FAT12] subdir_file_test created_ok={} write_ok={} delete_ok={} cleanup_ok={}"
           (map Bool [created_ok; write_ok; delete_ok; cleanup_ok])
     end).

Definition nested_dir_test : step :=
  kprintln "[KERNEL INIT] Testing nested FAT12 subdirectories..." [];;
  with_fat12 "[FAT12] nested dir test" "[FAT12] nested_dir_test"
    (t ← clock;
     _ ← ok (Fat12.create_directory t (str "NESTTEST"));
     entries ← or_empty Fat12.list_root_directory;
     match cluster_where (named "NESTTEST") entries with
     | None => say "[FAT12] nested dir test: couldn't find NESTTEST's cluster" "[FAT12] nested_dir_test -> no outer cluster" []
     | Some outer =>
         _ ← ok (Fat12.create_directory_in t outer (str "INNER"));
         outer_entries ← or_empty (Fat12.list_directory outer);
         let inner_cluster := cluster_where (named "INNER") outer_entries in
         let outer_count_ok := (length outer_entries =? 3)%nat in
         dotdot_ok ← match inner_cluster with
                     | Some inner =>
                         l ← or_empty (Fat12.list_directory inner);
                         mret (match cluster_where (named "..") l with Some c => c =? outer | None => false end)
                     | None => mret false
                     end;
         delete_inner_ok ← ok (Fat12.delete_directory_in outer (str "INNER"));
         cleanup_ok ← ok (Fat12.delete_directory (str "NESTTEST"));
         say "[FAT12] nested dir test: outer_count_ok={} dotdot_ok={} delete_inner_ok={} cleanup_ok={}"
           "[FAT12] nested_dir_test outer_count_ok={} dotdot_ok={} delete_inner_ok={} cleanup_ok={}"
           (map Bool [outer_count_ok; dotdot_ok; delete_inner_ok; cleanup_ok])
     end).

Definition dir_growth_test : step :=
  kprintln "[KERNEL INIT] Testing FAT12 subdirectory growth (multi-cluster directories)..." [];;
  with_fat12 "[FAT12] dir growth test" "[FAT12] dir_growth_test"
    (t ← clock;
     _ ← ok (Fat12.create_directory t (str "GROWTEST"));
     entries ← or_empty Fat12.list_root_directory;
     match cluster_where (named "GROWTEST") entries with
     | None => say "[FAT12] dir growth test: couldn't find GROWTEST's cluster" "[FAT12] dir_growth_test -> no dir cluster" []
     | Some dir =>
         all_created ← all_ok 31 0 (fun i => Fat12.create_file_in t dir (numbered i) [u8 (Z.of_nat i)]);
         entries ← or_empty (Fat12.list_directory dir);
         let count_ok := (length entries =? 33)%nat in
         last_ok ← reads_as (Fat12.read_file_in dir (numbered 30)) [30];
         all_deleted ← all_ok 31 0 (fun i => Fat12.delete_file_in dir (numbered i));
         cleanup_ok ← ok (Fat12.delete_directory (str "GROWTEST"));
         say "[FAT12] dir growth test: all_created={} count_ok={} last_ok={} all_deleted={} cleanup_ok={}"
           "[FAT12] dir_growth_test all_created={} count_ok={} last_ok={} all_deleted={} cleanup_ok={}"
           (map Bool [all_created; count_ok; last_ok; all_deleted; cleanup_ok])
     end).

(** ** Long names *)

Definition vfat_test : step :=
  kprintln "[KERNEL INIT] Testing VFAT long file names (create/display/lookup/delete)..." [];;
  with_fat12 "[FAT12] vfat test" "[FAT12] vfat_test"
    (let LFN_DATA := str "Real VFAT long name support!" in
     let long := str "long name.txt" in
     let alias := str "LONGN~1.TXT" in
     t ← clock;
     file_created ← ok (Fat12.create_file t long LFN_DATA);
     entries ← or_empty Fat12.list_root_directory;
     let long_name_shown := existsb (named "long name.txt") entries in
     long_name_read_ok ← reads_as (Fat12.read_file long) LFN_DATA;
     alias_read_ok ← reads_as (Fat12.read_file alias) LFN_DATA;
     alias_collision_rejected ← fails (Fat12.create_file t alias (str "other"));
     file_delete_ok ← ok (Fat12.delete_file alias);
     gone1 ← fails (Fat12.read_file long);
     gone2 ← match gone1 with true => fails (Fat12.read_file alias) | false => mret false end;
     let file_gone_ok := gone2 in
     dir_created ← ok (Fat12.create_directory t (str "My Documents"));
     entries ← or_empty Fat12.list_root_directory;
     let dir_long_name_shown := existsb (fun e => named "My Documents" e && is_dir e) entries in
     dir_delete_ok ← ok (Fat12.delete_directory (str "My Documents"));
     entries ← or_empty Fat12.list_root_directory;
     let dir_gone_ok := negb (existsb (fun e => named "My Documents" e || named "MYDOC~1" e) entries) in
     say "[FAT12] vfat test: file_created={} long_name_shown={} long_name_read_ok={} alias_read_ok={} alias_collision_rejected={} file_delete_ok={} file_gone_ok={} dir_created={} dir_long_name_shown={} dir_delete_ok={} dir_gone_ok={}"
       "[FAT12] vfat_test file_created={} long_name_shown={} long_name_read_ok={} alias_read_ok={} alias_collision_rejected={} file_delete_ok={} file_gone_ok={} dir_created={} dir_long_name_shown={} dir_delete_ok={} dir_gone_ok={}"
       (map Bool [file_created; long_name_shown; long_name_read_ok; alias_read_ok; alias_collision_rejected; file_delete_ok;
                  file_gone_ok; dir_created; dir_long_name_shown; dir_delete_ok; dir_gone_ok])).

Definition multi_chunk_vfat_test : step :=
  kprintln "[KERNEL INIT] Testing multi-chunk VFAT long file names (>13 chars)..." [];;
  with_fat12 "[FAT12] multi-chunk vfat test" "[FAT12] multi_chunk_vfat_test"
    (let LONG := "a very long descriptive name.txt"%string in
     let MULTI_LFN_DATA := str "multi-chunk VFAT works!" in
     let alias := str "AVERY~1.TXT" in
     t ← clock;
     multi_chunk_created ← ok (Fat12.create_file t (str LONG) MULTI_LFN_DATA);
     entries ← or_empty Fat12.list_root_directory;
     let multi_chunk_shown := existsb (named LONG) entries in
     multi_chunk_long_read_ok ← reads_as (Fat12.read_file (str LONG)) MULTI_LFN_DATA;
     multi_chunk_alias_read_ok ← reads_as (Fat12.read_file alias) MULTI_LFN_DATA;
     multi_chunk_delete_ok ← ok (Fat12.delete_file (str LONG));
     gone1 ← fails (Fat12.read_file (str LONG));
     multi_chunk_gone_ok ← match gone1 with true => fails (Fat12.read_file alias) | false => mret false end;
     say "[FAT12] multi-chunk vfat test: created={} shown={} long_read_ok={} alias_read_ok={} delete_ok={} gone_ok={}"
       "[FAT12] multi_chunk_vfat_test created={} shown={} long_read_ok={} alias_read_ok={} delete_ok={} gone_ok={}"
       (map Bool [multi_chunk_created; multi_chunk_shown; multi_chunk_long_read_ok; multi_chunk_alias_read_ok;
                  multi_chunk_delete_ok; multi_chunk_gone_ok])).

Definition dir_name_collision_test : step :=
  kprintln "[KERNEL INIT] Testing FAT12 file/directory long-name collision rejection..." [];;
  with_fat12 "[FAT12] dir_name_collision_test" "[FAT12] dir_name_collision_test"
    (t ← clock;
     outer_created ← ok (Fat12.create_directory t (str "COLLTEST"));
     entries ← or_empty Fat12.list_root_directory;
     let nm := "dircollision test"%string in
     '(dir_created, file_collision_rejected, still_one_entry) ←
       match cluster_where (named_any_case "COLLTEST") entries with
       | Some outer_cluster =>
           dir_created ← ok (Fat12.create_directory_in t outer_cluster (str nm));
           file_collision_rejected ← fails (Fat12.create_file_in t outer_cluster (str nm) (str "shadow"));
           entries ← or_empty (Fat12.list_directory outer_cluster);
           mret (dir_created, file_collision_rejected, (length (List.filter (named nm) entries) =? 1)%nat)
       | None => mret (false, false, false)
       end;
     let line := "[FAT12] dir_name_collision_test outer_created={} dir_created={} file_collision_rejected={} still_one_entry={}"%string in
     say line line (map Bool [outer_created; dir_created; file_collision_rejected; still_one_entry])).

Definition entry_run_spans_sector_test : step :=
  kprintln "[KERNEL INIT] Testing FAT12 free-entry-run search across a sector boundary..." [];;
  with_fat12 "[FAT12] entry_run_spans_sector_test" "[FAT12] entry_run_spans_sector_test"
    (t ← clock;
     dir_created ← ok (Fat12.create_directory t (str "RUNSPAN"));
     entries ← or_empty Fat12.list_root_directory;
     '(fillers_ok, boundary_created, boundary_visible, count_ok, cleanup_ok) ←
       match cluster_where (named_any_case "RUNSPAN") entries with
       | Some dir =>
           fillers_ok ← all_ok 13 0 (fun i => Fat12.create_file_in t dir (numbered i) [u8 (Z.of_nat i)]);
           boundary_created ← ok (Fat12.create_file_in t dir (str "boundaryrun") (str "boundary"));
           entries ← or_empty (Fat12.list_directory dir);
           let boundary_visible := existsb (named_any_case "boundaryrun") entries in
           let count_ok := (length entries =? 16)%nat in
           c1 ← ok (Fat12.delete_file_in dir (str "boundaryrun"));
           c2 ← all_ok 13 0 (fun i => Fat12.delete_file_in dir (numbered i));
           c3 ← ok (Fat12.delete_directory (str "RUNSPAN"));
           mret (fillers_ok, boundary_created, boundary_visible, count_ok, c1 && c2 && c3)
       | None => mret (false, false, false, false, false)
       end;
     let line := "[FAT12] entry_run_spans_sector_test dir_created={} fillers_ok={} boundary_created={} boundary_visible={} count_ok={} cleanup_ok={}"%string in
     say line line (map Bool [dir_created; fillers_ok; boundary_created; boundary_visible; count_ok; cleanup_ok])).

(** [fs.count_used_slots_in(dir).unwrap_or(usize::MAX)] *)
Definition slots_in (dir : Z) : Mounted Z :=
  o ← fs_do (attempt (count_used_slots_in dir)); mret (match o with inl n => Z.of_nat n | inr _ => 2 ^ 64 - 1 end).

Definition lfn_freed_on_delete_test : step :=
  kprintln "[KERNEL INIT] Testing FAT12 VFAT long-name entries are freed on delete..." [];;
  with_fat12 "[FAT12] lfn_freed_on_delete_test" "[FAT12] lfn_freed_on_delete_test"
    (t ← clock;
     dir_created ← ok (Fat12.create_directory t (str "LFNLEAK"));
     entries ← or_empty Fat12.list_root_directory;
     '(file_slots_freed, dir_slots_freed, cleanup_ok) ←
       match cluster_where (named_any_case "LFNLEAK") entries with
       | Some dir =>
           base_count ← slots_in dir;
           file_created ← ok (Fat12.create_file_in t dir (str "long name.txt") (str "hi"));
           count_after_file_create ← slots_in dir;
           file_deleted ← ok (Fat12.delete_file_in dir (str "long name.txt"));
           count_after_file_delete ← slots_in dir;
           let file_slots_freed := file_created && file_deleted && (count_after_file_create =? u64 (base_count + 2)) &&
             (count_after_file_delete =? base_count) in
           subdir_created ← ok (Fat12.create_directory_in t dir (str "long dir name"));
           count_after_dir_create ← slots_in dir;
           subdir_deleted ← ok (Fat12.delete_directory_in dir (str "long dir name"));
           count_after_dir_delete ← slots_in dir;
           let dir_slots_freed := subdir_created && subdir_deleted && (count_after_dir_create =? u64 (base_count + 2)) &&
             (count_after_dir_delete =? base_count) in
           cleanup_ok ← ok (Fat12.delete_directory (str "LFNLEAK"));
           mret (file_slots_freed, dir_slots_freed, cleanup_ok)
       | None => mret (false, false, false)
       end;
     let line := "[FAT12] lfn_freed_on_delete_test dir_created={} file_slots_freed={} dir_slots_freed={} cleanup_ok={}"%string in
     say line line (map Bool [dir_created; file_slots_freed; dir_slots_freed; cleanup_ok])).

Definition pair_eq (a b : Z * Z) : bool := (a.1 =? b.1) && (a.2 =? b.2).

Definition timestamp_roundtrip_test : step :=
  kprintln "[KERNEL INIT] Testing FAT12 timestamp write+read round trip..." [];;
  with_fat12 "[FAT12] timestamp round-trip test" "[FAT12] timestamp_roundtrip_test"
    (let TS_NAME := "TSTAMP.TXT"%string in
     before ← (t ← clock; mret (to_fat_datetime t));
     t ← clock;
     ts_created ← ok (Fat12.create_file t (str TS_NAME) (str "timestamp test"));
     after ← (t ← clock; mret (to_fat_datetime t));
     entries ← or_empty Fat12.list_root_directory;
     let ts_matches_bracket := match find (named TS_NAME) entries with
       | Some e => pair_eq (fat_time e, fat_date e) before || pair_eq (fat_time e, fat_date e) after
       | None => false
       end in
     ts_delete_ok ← ok (Fat12.delete_file (str TS_NAME));
     say "[FAT12] timestamp round-trip test: created={} matches_bracket={} delete_ok={}"
       "[FAT12] timestamp_roundtrip_test created={} matches_bracket={} delete_ok={}"
       (map Bool [ts_created; ts_matches_bracket; ts_delete_ok])).

(** ** Models on the disk *)

Definition GGUF_HEADER : list Z :=
  [0x47; 0x47; 0x55; 0x46] ++ [0x03; 0x00; 0x00; 0x00] ++ [0x01; 0x00; 0x00; 0x00; 0x00; 0x00; 0x00; 0x00] ++
  [0x00; 0x00; 0x00; 0x00; 0x00; 0x00; 0x00; 0x00].
Definition TENSOR_NAME : list Z := str "weights".
Definition tenths (l : list Z) : list f32 := map (fun n => f32_lit n 10) l.
Definition GGUF_WEIGHTS : list f32 := tenths [5; -2; 8; 1; 3; 9; -4; 6; -1; 4; 7; 2; 6; -5; 2; 8].

(** The file, and where its data begins. *)
Definition model_file : list Z * nat :=
  let model_file_bytes := GGUF_HEADER ++ le_bytes 4 (Z.of_nat (length TENSOR_NAME)) ++ TENSOR_NAME ++ le_bytes 4 4 ++ le_bytes 4 4 ++
    le_bytes 4 (gtype_code F32) in
  let tensor_data_offset := (length model_file_bytes + 4)%nat in
  (model_file_bytes ++ le_bytes 4 (Z.of_nat tensor_data_offset) ++ concat (map to_le_bytes GGUF_WEIGHTS), tensor_data_offset).

(** [(a - b).abs() < 0.001] for all pairs. *)
Definition all_close (a b : list f32) : bool := forallb (fun '(x, y) => SFltb (SFabs (f32_sub x y)) (f32_lit 1 1000)) (zip a b).

(** What the bytes read back say: the layer's outputs, and [header_fields_ok],
    [tensor_info_ok], [weights_decoded_ok], [tensor_output_ok], [layer_pass_ok],
    [bad_dims_rejected]. *)
Definition check_model (tensor_data_offset : nat) (full_bytes : list Z) : res (option (list f32) * list bool) :=
  head ← slice full_bytes 0 24;
  match parse_header head with
  | Panic => Panic | Hang => Hang
  | Err _ => Ok (None, replicate 6 false)
  | Ok loader =>
      let header_fields_ok := (magic loader =? GGUF_MAGIC) && (version loader =? 3) && (context_length loader =? 4096) &&
        (embedding_length loader =? 2048) in
      rest ← slice full_bytes 24 (length full_bytes);
      match parse rest with
      | Panic => Panic | Hang => Hang
      | Err _ => Ok (None, header_fields_ok :: replicate 5 false)
      | Ok (info, _) =>
          let tensor_info_ok := str_eq (Gguf.name info) TENSOR_NAME && bool_decide (dimensions info = (4, 4)) &&
            gtype_eq (gtype info) F32 && (offset info =? Z.of_nat tensor_data_offset) in
          tensor_bytes ← slice full_bytes (Z.to_nat (offset info)) (Z.to_nat (offset info) + 64);
          let weights := decode_f32_le tensor_bytes in
          let weights_decoded_ok := f32s_eq weights GGUF_WEIGHTS in
          let inputs := [f32_of_Z 1; f32_of_Z 2; half; f32_of_Z 3] in
          let zeros := replicate 4 f32_zero in
          let pass := execute_gguf_layer_pass weights inputs zeros 4 4 in
          layer_pass_ok ← ok_and (fun _ => true) pass;
          let outputs := match pass with Ok o => o | _ => zeros end in
          let EXPECTED_OUTPUTS := [f32_lit 8 10; f32_lit 37 10; f32_lit 165 100; f32_lit 21 10] in
          let tensor_output_ok := layer_pass_ok && all_close outputs EXPECTED_OUTPUTS in
          bad_dims_rejected ← is_err (execute_gguf_layer_pass weights inputs zeros 4 8);
          Ok (Some outputs, [header_fields_ok; tensor_info_ok; weights_decoded_ok; tensor_output_ok; layer_pass_ok; bad_dims_rejected])
      end
  end.

Definition lift_mounted {A} (r : res A) : Mounted A := lift r.

Definition gguf_disk_load_test : step :=
  kprintln "[GGUF INFERENCE] Testing Native GGUF Header Parser & Tensor Weights..." [];;
  with_fat12 "[GGUF LOADER] disk round-trip" "[GGUF] disk_load_test"
    (let '(model_file_bytes, tensor_data_offset) := model_file in
     let nm := str "MODEL.BIN" in
     t ← clock;
     write_ok ← ok (Fat12.create_file t nm model_file_bytes);
     read_back ← fs_do (attempt (Fat12.read_file nm));
     let round_trip_ok := match read_back with inl d => str_eq d model_file_bytes | inr _ => false end in
     cleanup_ok ← ok (Fat12.delete_file nm);
     '(outputs, flags) ← lift_mounted (match read_back with
       | inl full_bytes => check_model tensor_data_offset full_bytes
       | inr _ => Ok (None, replicate 6 false)
       end);
     match outputs with
     | Some os => kprint1 "[GGUF RESULT] Y = ReLU(W * X + B) -> [{:.2}, {:.2}, {:.2}, {:.2}]" (map (fun x => Float (bits_of_f32 x)) os)
     | None => mret tt
     end;;
     say "[GGUF LOADER] disk round-trip: write_ok={} round_trip_ok={} header_fields_ok={} tensor_info_ok={} weights_decoded_ok={} tensor_output_ok={} layer_pass_ok={} bad_dims_rejected={} cleanup_ok={}"
       "[GGUF] disk_load_test write_ok={} round_trip_ok={} header_fields_ok={} tensor_info_ok={} weights_decoded_ok={} tensor_output_ok={} layer_pass_ok={} bad_dims_rejected={} cleanup_ok={}"
       (map Bool ([write_ok; round_trip_ok] ++ flags ++ [cleanup_ok]))).

(** [header_ok], [parse_many_disk_ok], [tensor1_disk_decode_ok], [tensor2_disk_decode_ok] *)
Definition check_two_tensors (offset1 offset2 : nat) (full_bytes : list Z) : res (list bool) :=
  head ← slice full_bytes 0 24;
  header_ok ← ok_and (fun h => (tensor_count h =? 2) && (kv_count h =? 0)) (parse_header head);
  rest ← slice full_bytes 24 (length full_bytes);
  match parse_many rest 2 with
  | Panic => Panic | Hang => Hang
  | Err _ => Ok [header_ok; false; false; false]
  | Ok (infos, consumed) =>
      let parse_many_disk_ok := two_infos_ok offset1 offset2 (offset1 - 24) (infos, consumed) in
      tensor1_disk_decode_ok ← decodes_to full_bytes infos 0 16 TENSOR1_DATA;
      tensor2_disk_decode_ok ← decodes_to full_bytes infos 1 34 expected2;
      Ok [header_ok; parse_many_disk_ok; tensor1_disk_decode_ok; tensor2_disk_decode_ok]
  end.

Definition gguf_multi_tensor_disk_test : step :=
  kprintln "[GGUF INFERENCE] Testing GGUF multi-tensor DISK loading..." [];;
  with_fat12 "[GGUF] multi-tensor disk test" "[GGUF] multi_tensor_disk_test"
    (let '(model_bytes, tensor1_data_offset, tensor2_data_offset) :=
       two_tensors (le_bytes 4 GGUF_MAGIC ++ le_bytes 4 3 ++ le_bytes 8 2 ++ le_bytes 8 0) in
     let nm := str "MULTIGF.BIN" in
     t ← clock;
     write_ok ← ok (Fat12.create_file t nm model_bytes);
     read_back ← fs_do (attempt (Fat12.read_file nm));
     let round_trip_ok := match read_back with inl d => str_eq d model_bytes | inr _ => false end in
     flags ← lift_mounted (match read_back with
       | inl full_bytes => check_two_tensors tensor1_data_offset tensor2_data_offset full_bytes
       | inr _ => Ok (replicate 4 false)
       end);
     cleanup_ok ← ok (Fat12.delete_file nm);
     say "[GGUF MULTI-TENSOR DISK] write_ok={} round_trip_ok={} header_ok={} parse_many_disk_ok={} tensor1_disk_decode_ok={} tensor2_disk_decode_ok={} cleanup_ok={}"
       "[GGUF] multi_tensor_disk_test write_ok={} round_trip_ok={} header_ok={} parse_many_disk_ok={} tensor1_disk_decode_ok={} tensor2_disk_decode_ok={} cleanup_ok={}"
       (map Bool ([write_ok; round_trip_ok] ++ flags ++ [cleanup_ok]))).

(** ** The sequence of the boot *)

(** Commands typed at the shell. *)
Definition shell_tests (banner_ : string) (lines : list string) : step :=
  kprintln banner_ [];; print_each lines shell.

Definition touch_rm_test : step :=
  shell_tests "[KERNEL INIT] Testing touch/rm shell commands..."
    ["touch SHELLNEW.TXT hello from the real shell"; "cat SHELLNEW.TXT"; "rm SHELLNEW.TXT"; "cat SHELLNEW.TXT"; "ls"].

Definition mkdir_tests : step :=
  shell_tests "[KERNEL INIT] Testing FAT12 subdirectory creation..." ["mkdir TESTDIR"; "ls"; "ls TESTDIR"];;
  shell_tests "[KERNEL INIT] Testing FAT12 subdirectory deletion..." ["mkdir RMDTEST"; "rmdir RMDTEST"; "ls"; "ls RMDTEST"].

Definition path_test : step :=
  shell_tests "[KERNEL INIT] Testing shell file I/O via a DIR/FILE path..."
    ["mkdir PATHTEST"; "touch PATHTEST/INSIDE.TXT hello via a real path"; "cat PATHTEST/INSIDE.TXT"; "rm PATHTEST/INSIDE.TXT";
     "cat PATHTEST/INSIDE.TXT"; "rmdir PATHTEST"; "ls"].

Definition multi_segment_tests : step :=
  shell_tests "[KERNEL INIT] Testing multi-segment shell paths (A/B/FILE)..."
    ["mkdir MULTIOUT"; "mkdir MULTIOUT/MULTIIN"; "touch MULTIOUT/MULTIIN/DEEP.TXT nested two levels deep";
     "cat MULTIOUT/MULTIIN/DEEP.TXT"; "ls MULTIOUT/MULTIIN"; "rm MULTIOUT/MULTIIN/DEEP.TXT"; "cat MULTIOUT/MULTIIN/DEEP.TXT";
     "rmdir MULTIOUT/MULTIIN"; "rmdir MULTIOUT"; "ls"];;
  shell_tests "[KERNEL INIT] Testing 'DIR/..' path resolution (must resolve to real root)..."
    ["ls"; "mkdir DOTTEST"; "ls DOTTEST/.."; "rmdir DOTTEST"; "ls"];;
  shell_tests "[KERNEL INIT] Testing rejection of '.'/'..' as a path's final component..."
    ["mkdir DOTREJ"; "rmdir DOTREJ/.."; "rmdir DOTREJ/."; "touch DOTREJ/.. text"; "ls"; "rmdir DOTREJ"; "ls"].

Definition ls_again : step := shell "ls".

Definition disk_tests : step :=
  gguf_disk_load_test;; gguf_multi_tensor_disk_test;;
  print_each ["disk"; "ls"; "cat KERNEL~1"]%string shell;;
  ata_write_test;; fat12_write_test;; fat12_create_test;; ls_again;;
  fat12_delete_test;; ls_again;; zero_len_cluster_test;; ls_again;; touch_rm_test;; multi_cluster_test;; ls_again;;
  resize_test;; ls_again;; mkdir_tests;; subdir_file_test;; ls_again;; path_test;; nested_dir_test;; ls_again;; dir_growth_test;;
  vfat_test;; ls_again;; multi_segment_tests;; multi_chunk_vfat_test;; ls_again;; dir_name_collision_test;; ls_again;;
  entry_run_spans_sector_test;; ls_again;; lfn_freed_on_delete_test;; ls_again;; timestamp_roundtrip_test.
End Tests.

(** ** On a disk *)

(** What a geometry leaves open: sectors per cluster, copies of the allocation table,
    root entries, sectors per copy. *)
Record Geometry := mk_Geometry { g_spc : Z; g_fats : Z; g_root : Z; g_fat_size : Z }.

Definition boot_partition : PartitionEntry := mk_PartitionEntry true 0x01 1 3999.

Definition boot_mbr : list Z :=
  replicate 446 0 ++ row_bytes [0; 0; 0] [0; 0; 0] boot_partition ++ replicate 48 0 ++ [0x55; 0xAA].

Definition boot_sector (g : Geometry) : list Z :=
  replicate 11 0 ++ le_bytes 2 512 ++ [g_spc g] ++ le_bytes 2 1 ++ [g_fats g] ++ le_bytes 2 (g_root g) ++ replicate 3 0 ++
  le_bytes 2 (g_fat_size g) ++ replicate 486 0 ++ [0x55; 0xAA].

Definition boot_fat : list Z := [0xF8; 0xFF; 0xFF; 0xFF; 0xFF; 0xFF] ++ replicate 506 0.

(** The kernel's own two files. *)
Definition boot_root : list Z :=
  build_dir_entry (str "KERNEL~1   ") 0x20 2 400 0 0 ++ build_dir_entry (str "BOOT-S~2   ") 0x20 3 500 0 0 ++ replicate 448 0.

Definition fat_copies (g : Geometry) : gmap Z (list Z) :=
  list_to_map (map (fun i => (2 + Z.of_nat i * g_fat_size g, boot_fat)) (seq 0 (Z.to_nat (g_fats g)))).

Definition boot_disk (g : Geometry) : MemDisk.t :=
  let root := 2 + g_fats g * g_fat_size g in
  MemDisk.mk ({[0 := boot_mbr; 1 := boot_sector g; root := boot_root;
               root + g_root g / 16 := [0x7F; 0x45; 0x4C; 0x46] ++ replicate 508 0]} ∪ fat_copies g) 4000.

(** The geometry of the kernel's image, and others. *)
Definition geometries : list Geometry :=
  [mk_Geometry 2 2 64 2; mk_Geometry 4 2 512 2; mk_Geometry 8 1 16 1].

Definition boot_run (g : Geometry) : res unit * Shell.Machine MemDisk.t unit := disk_tests 10 (ShellReads.prompt (boot_disk g)).

(** The serial lines whose format begins with these characters. *)
Definition lines_of (start : string) (evs : list event) : list (string * list arg) :=
  concat (map (fun e => match e with Serial f args => if String.prefix start f then [(f, args)] else [] | _ => [] end) evs).

(** The flags of the tests, and whether they are all set. *)
Definition test_flags (evs : list event) : list bool :=
  concat (map (fun '(f, args) => flags_of (Serial f args))
    (lines_of "[GGUF]" evs ++ lines_of "[ATA]" evs ++ lines_of "[FAT12]" evs)).

(** What the shell says, listings aside. *)
Definition shell_outcomes (evs : list event) : list string :=
  List.filter (fun f => negb (String.prefix "[SHELL] ls ->" f)) (map fst (lines_of "[SHELL]" evs)).

Definition expected_outcomes : list string :=
  let made := "[SHELL] mkdir {} -> created"%string in let removed := "[SHELL] rmdir {} -> deleted"%string in
  let unremoved := "[SHELL] rmdir {} -> FAILED: {}"%string in let listed := "[SHELL] ls {} -> {} entries"%string in
  let file := ["[SHELL] touch {} -> created {} bytes"; "[SHELL] cat {} -> {} bytes"] in
  let gone := ["[SHELL] rm {} -> deleted"; "[SHELL] cat {} -> FAILED: {}"] in
  ["[SHELL] disk -> LBA0 read OK, signature={:#04x}{:02x} ({})"; "[SHELL] cat {} -> {} bytes"] ++ file ++ gone ++
   [made; listed; made; removed] ++ [made] ++ file ++ gone ++ [removed] ++ [made; made] ++ file ++ [listed] ++ gone ++ [removed; removed] ++
   [made; listed; removed] ++ [made; unremoved; unremoved; "[SHELL] touch {} -> FAILED: {}"%string; removed].

(** The names in the root directory. *)
Definition root_names (d : MemDisk.t) : res (list (list Z)) :=
  match find_fat_partition d with
  | (Ok p, d) => match Fat12.read_bpb p d with
                 | (Ok fs, d) => match Fat12.list_root_directory (mk_Vol fs d) with
                                 | (Ok l, _) => Ok (map FatCommon.name l)
                                 | _ => Err "list"
                                 end
                 | _ => Err "bpb"
                 end
  | _ => Err "mbr"
  end.

(** How many clusters are free. *)
Definition free_clusters (d : MemDisk.t) : option nat :=
  match Fat12.read_bpb boot_partition d with
  | (Ok fs, _) => Some (length (List.filter (cluster_is_free fs) (scan_range fs)))
  | _ => None
  end.

Definition left_names : list (list Z) := map str ["KERNEL~1"; "BOOT-S~2"; "AGENTOS.TXT"; "TESTDIR"; "COLLTEST"].

Definition boot_ok (g : Geometry) : bool :=
  let '(r, s) := boot_run g in
  match r, root_names (disk s), free_clusters (boot_disk g), free_clusters (disk s) with
  | Ok _, Ok names, Some before, Some after =>
      bool_decide (test_flags (printed s) = replicate 77 true) &&
      bool_decide (shell_outcomes (printed s) = expected_outcomes) &&
      bool_decide (names = left_names) && (before =? after + 4)%nat
  | _, _, _, _ => false
  end.

Lemma boot_ok_spec g :
  boot_ok g = true ->
  exists s n, boot_run g = (Ok tt, s) /\ test_flags (printed s) = replicate 77 true /\
    shell_outcomes (printed s) = expected_outcomes /\ root_names (disk s) = Ok left_names /\
    free_clusters (boot_disk g) = Some (n + 4)%nat /\ free_clusters (disk s) = Some n.
Proof.
  unfold boot_ok. destruct (boot_run g) as [[[]|e| |] s]; try done.
  destruct (root_names (disk s)) as [names|e| |] eqn:En; try done.
  destruct (free_clusters (boot_disk g)) as [before|] eqn:Eb; [|done].
  destruct (free_clusters (disk s)) as [after|] eqn:Ea; [|done].
  intros H. apply andb_true_iff in H as [H H4]. apply andb_true_iff in H as [H H3]. apply andb_true_iff in H as [H1 H2].
  apply bool_decide_eq_true in H1, H2, H3. apply Nat.eqb_eq in H4. subst. exists s, after. done.
Qed.

Lemma geometries_ok : forallb boot_ok geometries = true.
Proof. vm_compute. reflexivity. Qed.

(** The boot's disk tests and the commands it types, run one after the other on a
    freshly partitioned disk, all pass on each of three volume layouts: every flag is
    set, the shell creates, reads and removes what it is told to and refuses what it
    must, the root directory holds just what was meant to stay, and no cluster is lost:
    four are taken, for [AGENTOS.TXT], [TESTDIR], [COLLTEST] and the directory in it. *)
Example disk_tests_pass :
  Forall (fun g => exists s n, boot_run g = (Ok tt, s) /\ test_flags (printed s) = replicate 77 true /\
    shell_outcomes (printed s) = expected_outcomes /\ root_names (disk s) = Ok left_names /\
    free_clusters (boot_disk g) = Some (n + 4)%nat /\ free_clusters (disk s) = Some n) geometries.
Proof.
  pose proof geometries_ok as H. rewrite forallb_forall in H.
  apply List.Forall_forall. intros g Hg. by apply boot_ok_spec, H.
Qed.
