(* ===== verification/BootKeys.v ===== *)
(** * BootKeys: the boot-time self-tests of the keyboard ([main.rs])

    [kernel_main] feeds scancodes to the keyboard driver as the interrupt would, and what
    is typed reaches the shell.  Here the driver and the shell run together: a press
    that submits a line runs that line as a command.  What the driver draws meanwhile is
    the subject of Keyboard. *)
From stdpp Require Import base gmap list numbers strings.
From Stdlib Require Import Lia.
From S2P Require Import Prelude Vga Keyboard AgentScheduler KvAllocator BlockDev Shell ShellReads BootFormats BootDisk.
Open Scope Z_scope.

(** ** The scancodes *)

Definition BACKSPACE_TEST_SEQUENCE : list Z :=
  [0x19; 0x99; 0x1F; 0x9F; 0x1F; 0x9F; 0x0E; 0x8E; 0x1C; 0x9C].

Definition HISTORY_TEST_SEQUENCE : list Z :=
  [0x2D; 0xAD; 0x2D; 0xAD; 0x1C; 0x9C; 0x15; 0x95; 0x15; 0x95; 0x1C; 0x9C; 0xE0; 0x48; 0xE0; 0xC8; 0xE0; 0x48;
   0xE0; 0xC8; 0x1C; 0x9C].

Definition CURSOR_TEST_SEQUENCE : list Z :=
  [0x23; 0xA3; 0x12; 0x92; 0x19; 0x99; 0xE0; 0x4B; 0xE0; 0xCB; 0x26; 0xA6; 0x1C; 0x9C].

Definition SHIFT_TEST_SEQUENCE : list Z :=
  [0x2E; 0xAE; 0x1E; 0x9E; 0x14; 0x94; 0x39; 0xB9; 0x2A; 0x25; 0xA5; 0x12; 0x92; 0x13; 0x93; 0x31; 0xB1; 0x12;
   0x92; 0x26; 0xA6; 0x29; 0xA9; 0xAA; 0x02; 0x82; 0x1C; 0x9C].

Definition DOT_SLASH_TEST_SEQUENCE : list Z :=
  [0x32; 0xB2; 0x25; 0xA5; 0x20; 0xA0; 0x17; 0x97; 0x13; 0x93; 0x39; 0xB9; 0x20; 0xA0; 0x1C; 0x9C; 0x14; 0x94;
   0x18; 0x98; 0x16; 0x96; 0x2E; 0xAE; 0x23; 0xA3; 0x39; 0xB9; 0x20; 0xA0; 0x35; 0xB5; 0x1E; 0x9E; 0x34; 0xB4;
   0x30; 0xB0; 0x39; 0xB9; 0x23; 0xA3; 0x17; 0x97; 0x1C; 0x9C; 0x2E; 0xAE; 0x1E; 0x9E; 0x14; 0x94; 0x39; 0xB9;
   0x20; 0xA0; 0x35; 0xB5; 0x1E; 0x9E; 0x34; 0xB4; 0x30; 0xB0; 0x1C; 0x9C; 0x13; 0x93; 0x32; 0xB2; 0x39; 0xB9;
   0x20; 0xA0; 0x35; 0xB5; 0x1E; 0x9E; 0x34; 0xB4; 0x30; 0xB0; 0x1C; 0x9C; 0x13; 0x93; 0x32; 0xB2; 0x20; 0xA0;
   0x17; 0x97; 0x13; 0x93; 0x39; 0xB9; 0x20; 0xA0; 0x1C; 0x9C].

Definition COMMA_TEST_SEQUENCE : list Z :=
  [0x14; 0x94; 0x18; 0x98; 0x16; 0x96; 0x2E; 0xAE; 0x23; 0xA3; 0x39; 0xB9; 0x2E; 0xAE; 0x32; 0xB2; 0x34; 0xB4;
   0x14; 0x94; 0x2D; 0xAD; 0x14; 0x94; 0x39; 0xB9; 0x1E; 0x9E; 0x33; 0xB3; 0x30; 0xB0; 0x2E; 0xAE; 0x1C; 0x9C;
   0x2E; 0xAE; 0x1E; 0x9E; 0x14; 0x94; 0x39; 0xB9; 0x2E; 0xAE; 0x32; 0xB2; 0x34; 0xB4; 0x14; 0x94; 0x2D; 0xAD;
   0x14; 0x94; 0x1C; 0x9C; 0x13; 0x93; 0x32; 0xB2; 0x39; 0xB9; 0x2E; 0xAE; 0x32; 0xB2; 0x34; 0xB4; 0x14; 0x94;
   0x2D; 0xAD; 0x14; 0x94; 0x1C; 0x9C].

Definition SHIFT_REPEAT_TEST_SEQUENCE : list Z :=
  [0x14; 0x94; 0x18; 0x98; 0x16; 0x96; 0x2E; 0xAE; 0x23; 0xA3; 0x39; 0xB9; 0x1E; 0x9E; 0x30; 0xB0; 0x34; 0xB4;
   0x14; 0x94; 0x2D; 0xAD; 0x14; 0x94; 0x39; 0xB9; 0x2A; 0x1E; 0x1E; 0xAA; 0x1E; 0x9E; 0x30; 0xB0; 0x2E; 0xAE;
   0x20; 0xA0; 0x1C; 0x9C; 0x2E; 0xAE; 0x1E; 0x9E; 0x14; 0x94; 0x39; 0xB9; 0x1E; 0x9E; 0x30; 0xB0; 0x34; 0xB4;
   0x14; 0x94; 0x2D; 0xAD; 0x14; 0x94; 0x1C; 0x9C; 0x13; 0x93; 0x32; 0xB2; 0x39; 0xB9; 0x1E; 0x9E; 0x30; 0xB0;
   0x34; 0xB4; 0x14; 0x94; 0x2D; 0xAD; 0x14; 0x94; 0x1C; 0x9C].

(** The sequences in the order of the boot. *)
Definition key_tests : list (string * list Z) :=
  [("[KERNEL INIT] Testing keyboard backspace (typing 'pss' + backspace -> 'ps')...", BACKSPACE_TEST_SEQUENCE);
   ("[KERNEL INIT] Testing shell history (xx, yy, Up, Up -> recall 'xx')...", HISTORY_TEST_SEQUENCE);
   ("[KERNEL INIT] Testing cursor movement (type 'hep', Left, 'l' -> 'help')...", CURSOR_TEST_SEQUENCE);
   ("[KERNEL INIT] Testing Shift key (typing 'cat KERNEL~1' via keyboard)...", SHIFT_TEST_SEQUENCE);
   ("[KERNEL INIT] Testing '.'/'/' keys (mkdir/touch/cat/rm/rmdir via keyboard)...", DOT_SLASH_TEST_SEQUENCE);
   ("[KERNEL INIT] Testing ',' key (touch/cat/rm via keyboard)...", COMMA_TEST_SEQUENCE);
   ("[KERNEL INIT] Testing Shift-release/last_scancode repeat-suppression (Fase 173)...", SHIFT_REPEAT_TEST_SEQUENCE)]%string.

Section Typing.
Context {D N : Type} `{BlockOps D} `{Services N} (fat32_fuel : nat).

(** [handle_scancode], with the shell behind Enter. *)
Definition press_key (scancode : Z) : M (KeyboardDriver * Shell.Machine D N) unit := fun '(kb, s) =>
  match react (fun _ => mret tt) scancode kb with
  | Ok (kb', _) =>
      if submits scancode kb
      then let '(r, s') := dispatch_command fat32_fuel (line_buffer kb) s in (r, (kb', s'))
      else (Ok tt, (kb', s))
  | Err e => (Err e, (kb, s))
  | Panic => (Panic, (kb, s))
  | Hang => (Hang, (kb, s))
  end.

Fixpoint press_keys (codes : list Z) : M (KeyboardDriver * Shell.Machine D N) unit :=
  match codes with
  | [] => mret tt
  | c :: r => press_key c;; press_keys r
  end.

Definition key_test (t : string * list Z) : M (KeyboardDriver * Shell.Machine D N) unit := fun '(kb, s) =>
  let '(_, s) := kprintln t.1 [] s in press_keys t.2 (kb, s).

Fixpoint run_key_tests (ts : list (string * list Z)) : M (KeyboardDriver * Shell.Machine D N) unit :=
  match ts with
  | [] => mret tt
  | t :: r => key_test t;; run_key_tests r
  end.
End Typing.

(** ** What is typed

    The lines a sequence of scancodes submits depend on the keyboard alone. *)
Fixpoint lines_typed (codes : list Z) (kb : KeyboardDriver) : option (list (list Z) * KeyboardDriver) :=
  match codes with
  | [] => Some ([], kb)
  | c :: r =>
      match react (fun _ => mret tt) c kb with
      | Ok (kb', _) =>
          '(ls, kb'') ← lines_typed r kb';
          Some (if submits c kb then (line_buffer kb :: ls, kb'') else (ls, kb''))
      | _ => None
      end
  end.

(** The tests as commands: each announcement with the lines its sequence submits. *)
Fixpoint commands_typed (ts : list (string * list Z)) (kb : KeyboardDriver)
  : option (list (string * list (list Z)) * KeyboardDriver) :=
  match ts with
  | [] => Some ([], kb)
  | t :: r => '(ls, kb) ← lines_typed t.2 kb; '(cs, kb) ← commands_typed r kb; Some ((t.1, ls) :: cs, kb)
  end.

Definition KEY_COMMANDS : list (list string) :=
  [["ps"]; ["xx"; "yy"; "xx"]; ["help"]; ["cat KERNEL~1"];
   ["mkdir d"; "touch d/a.b hi"; "cat d/a.b"; "rm d/a.b"; "rmdir d"];
   ["touch cm.txt a,bc"; "cat cm.txt"; "rm cm.txt"];
   ["touch ab.txt Abcd"; "cat ab.txt"; "rm ab.txt"]]%string.

Definition key_commands : list (string * list (list Z)) :=
  zip (map fst key_tests) (map (map str) KEY_COMMANDS).

(** The keyboard after the tests. *)
Definition kb_after : KeyboardDriver :=
  match commands_typed key_tests new_kb with Some (_, kb) => kb | None => new_kb end.

Lemma key_tests_commands : commands_typed key_tests new_kb = Some (key_commands, kb_after).
Proof. vm_compute. reflexivity. Qed.

Section Submitted.
Context {D N : Type} `{BlockOps D} `{Services N} (fat32_fuel : nat).
Abbreviation Machine := (Shell.Machine D N).

Fixpoint run_lines (ls : list (list Z)) : M Machine unit :=
  match ls with
  | [] => mret tt
  | l :: r => dispatch_command fat32_fuel l;; run_lines r
  end.

(** The announcements and the commands, without a keyboard. *)
Fixpoint run_commands (cs : list (string * list (list Z))) : M Machine unit :=
  match cs with
  | [] => mret tt
  | c :: r => kprintln c.1 [];; run_lines c.2;; run_commands r
  end.

Lemma press_keys_submit codes kb ls kb' (s s' : Machine) :
  lines_typed codes kb = Some (ls, kb') -> run_lines ls s = (Ok tt, s') ->
  press_keys fat32_fuel codes (kb, s) = (Ok tt, (kb', s')).
Proof.
  revert kb ls s. induction codes as [|c codes IH]; intros kb ls s Hl Hr; cbn in Hl.
  { injection Hl as <- <-. by injection Hr as <-. }
  destruct (react _ c kb) as [[kb1 u]|e| |] eqn:Ek; try done.
  destruct (lines_typed codes kb1) as [[ls1 kb2]|] eqn:El; [|done].
  cbn. unfold press_key, mbind, M_bind. rewrite Ek. cbn in Hl.
  destruct (submits c kb); simplify_eq.
  - cbn in Hr. unfold mbind, M_bind in Hr.
    destruct (dispatch_command fat32_fuel (line_buffer kb) s) as [[[]|e| |] s1]; try done.
    by eapply IH.
  - by eapply IH.
Qed.

Lemma key_tests_submit ts kb cs kb' (s s' : Machine) :
  commands_typed ts kb = Some (cs, kb') -> run_commands cs s = (Ok tt, s') ->
  run_key_tests fat32_fuel ts (kb, s) = (Ok tt, (kb', s')).
Proof.
  revert kb cs s. induction ts as [|t ts IH]; intros kb cs s Ht Hr; cbn in Ht.
  { injection Ht as <- <-. by injection Hr as <-. }
  destruct (lines_typed t.2 kb) as [[ls kb1]|] eqn:El; [|done]. cbn in Ht.
  destruct (commands_typed ts kb1) as [[cs1 kb2]|] eqn:Ec; [|done]. cbn in Ht. simplify_eq.
  cbn in Hr |- *. unfold key_test, mbind, M_bind in *.
  destruct (kprintln t.1 [] s) as [[[]|e| |] s1]; try done.
  destruct (run_lines ls s1) as [[[]|e| |] s2] eqn:E; try done.
  rewrite (press_keys_submit _ _ _ _ _ _ El E). by eapply IH.
Qed.
End Submitted.

(** ** On a freshly partitioned disk *)

(** What the shell answers, with its arguments. *)
Definition key_answers : list (string * list arg) :=
  let made n := ("[SHELL] touch {} -> created {} bytes", [Str (str n); Num 4])%string in
  let read n k := ("[SHELL] cat {} -> {} bytes", [Str (str n); Num k])%string in
  let gone n := ("[SHELL] rm {} -> deleted", [Str (str n)])%string in
  let unknown n := ("[SHELL] unknown command: '{}'", [Str (str n)])%string in
  [("[SHELL] ps -> active_count={}", [Num 0]); unknown "xx"; unknown "yy"; unknown "xx";
   ("[SHELL] help -> Commands: help, ps, mem, uptime, date, lspci, disk, ls, cat, touch, rm, mkdir, rmdir, netcheck, ping, dns, tcpecho, clear", []);
   read "KERNEL~1" 400;
   ("[SHELL] mkdir {} -> created", [Str (str "d")]); ("[SHELL] touch {} -> created {} bytes", [Str (str "d/a.b"); Num 2]);
   read "d/a.b" 2; gone "d/a.b"; ("[SHELL] rmdir {} -> deleted", [Str (str "d")]);
   made "cm.txt"; read "cm.txt" 4; gone "cm.txt"; made "ab.txt"; read "ab.txt" 4; gone "ab.txt"]%string.

(** The files shown: the kernel's first bytes, [a,bc] and [Abcd]; [hi] is too short. *)
Definition key_contents : list (string * list arg) :=
  map (fun bytes => ("  first4={:02x}{:02x}{:02x}{:02x}"%string, map Num bytes))
    [[0x7F; 0x45; 0x4C; 0x46]; str "a,bc"; str "Abcd"].

Definition key_run (g : Geometry) : res unit * (KeyboardDriver * Shell.Machine MemDisk.t unit) :=
  run_key_tests 10 key_tests (new_kb, ShellReads.prompt (boot_disk g)).

Definition boot_names : list (list Z) := map str ["KERNEL~1"; "BOOT-S~2"]%string.

#[export] Instance location_eq_dec : EqDecision KVCacheLocation.
Proof. solve_decision. Defined.

#[export] Instance arg_eq_dec : EqDecision arg.
Proof. solve_decision. Defined.

Definition keys_ok (g : Geometry) : bool :=
  let '(r, (kb, s)) := key_run g in
  match r, root_names (disk s) with
  | Ok _, Ok names =>
      bool_decide (history kb = concat (map snd key_commands)) &&
      bool_decide (lines_of "[SHELL]" (printed s) = key_answers) &&
      bool_decide (lines_of "  first4" (printed s) = key_contents) &&
      bool_decide (names = boot_names) && bool_decide (free_clusters (disk s) = free_clusters (boot_disk g))
  | _, _ => false
  end.

Lemma keys_ok_spec g :
  keys_ok g = true ->
  exists kb s, key_run g = (Ok tt, (kb, s)) /\ history kb = concat (map snd key_commands) /\
    lines_of "[SHELL]" (printed s) = key_answers /\ lines_of "  first4" (printed s) = key_contents /\
    root_names (disk s) = Ok boot_names /\ free_clusters (disk s) = free_clusters (boot_disk g).
Proof.
  unfold keys_ok. destruct (key_run g) as [[[]|e| |] [kb s]]; try done.
  destruct (root_names (disk s)) as [names|e| |] eqn:En; try done.
  intros H. rewrite !andb_true_iff, !bool_decide_eq_true in H. destruct H as [[[[H1 H2] H3] ->] H5].
  exists kb, s. done.
Qed.

Lemma geometries_keys_ok : forallb keys_ok geometries = true.
Proof. vm_compute. reflexivity. Qed.

(** C12. The keyboard is transparent: fed to the driver one by one, with the shell behind
    Enter, the scancodes of the boot's keyboard tests (backspace, history, cursor keys,
    Shift, '.', '/' and ',') do to the machine exactly what the seventeen command lines
    they spell do when given to the shell directly, whatever the disk, the services and
    the state the shell starts in, provided those lines run to their end. *)
Theorem key_tests_type_commands {D N} `{BlockOps D, Services N} (fuel : nat) (s s' : Shell.Machine D N) :
  run_commands fuel key_commands s = (Ok tt, s') ->
  run_key_tests fuel key_tests (new_kb, s) = (Ok tt, (kb_after, s')).
Proof. apply key_tests_submit, key_tests_commands. Qed.

Lemma key_tests_type_commands_witness :
  exists s', run_key_tests 10 key_tests (new_kb, ShellReads.prompt (boot_disk (List.hd (mk_Geometry 2 2 64 2) geometries)))
             = (Ok tt, (kb_after, s')).
Proof.
  eexists. apply key_tests_type_commands. vm_compute. reflexivity.
Defined.

(** The boot's keyboard tests, typed on a freshly partitioned disk, pass on each
    of three volume layouts: the driver remembers the seventeen lines meant, the shell
    answers each as announced (an unknown [xx] recalled from the history, files made,
    shown and removed by their names with '~', '.', '/' and ','), the contents shown are
    the characters typed, shifted or not, and the disk ends with the names and the free
    clusters it had. *)
Theorem key_tests_pass :
  Forall (fun g => exists kb s, key_run g = (Ok tt, (kb, s)) /\ history kb = concat (map snd key_commands) /\
    lines_of "[SHELL]" (printed s) = key_answers /\ lines_of "  first4" (printed s) = key_contents /\
    root_names (disk s) = Ok boot_names /\ free_clusters (disk s) = free_clusters (boot_disk g)) geometries.
Proof.
  pose proof geometries_keys_ok as H. rewrite forallb_forall in H.
  apply List.Forall_forall. intros g Hg. by apply keys_ok_spec, H.
Qed.
